(* ===== verification/_CoqProject ===== *)
-Q . S2P
Prelude.v
Bitmap.v
Interrupt.v
KList.v
Sched.v
Sync.v
Paging.v
Arena.v
HeapPages.v
IoQueue.v
Keyboard.v
CString.v
Stdio.v
Disk.v
Ide.v
Partition.v
FsState.v
Inode.v
Dir.v
File.v
Pipe.v
Fs.v
FileCalls.v
Create.v
Task.v
WaitExit.v
Fork.v
Lifecycle.v
ForkStack.v
Commands.v
Shell.v
UserSpace.v
ForkMemory.v
PageDir.v
Exec.v
Segment.v
Syscall.v
Boot.v
Ps.v
Screen.v
Debug.v
Entry.v
Programs.v
Startup.v
