(* ===== verification/Prelude.v ===== *)
(** * A verification development of a small 32-bit x86 kernel

    ** The program

    A kernel for one i386 processor with its shell: physical and virtual memory (kernel/memory.c),
    threads and a round-robin scheduler (thread/), semaphores and locks (thread/sync.c), interrupts
    and devices (kernel/interrupt.c, device/), an ATA driver and partitions (device/ide.c), an inode
    file system (fs/), pipes (shell/pipe.c), processes with fork, exec, wait and exit (userprog/),
    system calls (lib/user/syscall.c, userprog/syscall-init.c, kernel/kernel.s) and a shell with
    built-in commands (shell/).  The makefile compiles with -DNDEBUG: ASSERT is empty in the model
    as in the build, and PANIC always stops.  The theorems are about that build; some cover inputs
    that an ASSERT of the source rules out.

    How the parts meet: the bitmap is the allocator below pids, page frames, virtual pages, inodes
    and blocks; lists carry the scheduler's queues, free blocks and open inodes; a sleeping call
    goes through semaphores to the scheduler; the clock interrupt and every block end in [schedule],
    which switches the address space; files and pipes share the descriptors of a thread; fork,
    exec, wait and exit work on the PCB, the page tables, the bitmaps and the descriptors at once.

    ** How it is modelled

    Code is translated to functions into [outcome]: [Ok], [Fault] (an access outside what the code
    owns: undefined in C), [Panic], [Blocked] (the caller sleeps here) and [NoFuel].  Machine integers
    are [Z] with the conversions of the source written out ([u8] ... [i32]).  State is passed
    explicitly, with the source's structures as records.  Memory is modelled at the level the code
    looks at: words at addresses where pointers are followed ([KList], [Arena], the kernel stacks),
    bytes for strings ([CString]), physical words below the two-level translation of the processor
    ([Paging]), sectors of 512 bytes ([Disk]).  Interrupts, drives, the interrupt controllers, the
    timer and the video card are small machines of their own.  Concurrency is interleaving at the
    points where interrupts are on: step relations in [Sched], [Sync] and [Lifecycle]; in [Ide] the
    drive's interrupt, and in [IoQueue] the wake-up and the resumption of a sleeping caller, are
    steps of their own.

    ** Files

    - [Prelude]: outcomes, integers, arrays, tactics ([mrun], [zdm], [zcase], [inv_ok]) and hint bases.
    - [Bitmap] (lib/kernel/bitmap.c), [KList] (lib/kernel/list.c), [CString] (lib/string.c),
      [Stdio] (lib/stdio.c): the library of the kernel, against lists of bits, lists of nodes and
      byte strings.
    - [Interrupt] (the interrupt flag, gates and segment descriptors), [Boot] (interrupt
      controllers, timer chip, TSS, sleeping), [Entry] (the entries of the vectors), [Screen]
      (lib/kernel/print.s and device/console.c, against a terminal of 25 rows), [Debug] (the message
      of a panic).
    - [Sched] (schedule, blocking, waking, yielding, the clock), [Sync] (semaphores and locks, one
      thread and interleaved), [IoQueue] (with callers that sleep in it), [Keyboard] (device/).
    - [Paging] (page level of kernel/memory.c; the address space from directory entry [lo] on, 1 for
      the directory that the loader makes, whose entries 0 and 768 share a table, 0 for a process), [Arena] (sys_malloc and sys_free against the class
      [PageSource]), [HeapPages] (the page level is a [PageSource]).
    - [Disk] (what the file system expects of a disk, and the formats on it), [Ide] (the driver over
      an ATA controller with its delays), [Partition] (partition tables and ide_init).
    - [FsState], [Inode], [Dir], [File], [Pipe], [Fs]: the file system from its allocators to the
      system calls, one file per source file; [FileCalls] (writing, seeking and reading through the
      system calls), [Create] (file_create, and sys_open of a new file).
    - [Task] (PCBs, pids, creation and end of threads), [WaitExit], [Fork], [Exec] (one per source
      file); [Lifecycle] (the process table over any sequence of calls, failed forks and sleeping
      waits included), [ForkStack] (how new
      processes enter user mode), [UserSpace], [ForkMemory], [PageDir] (address spaces and the copy
      that fork makes), [Segment] (loading and starting programs).
    - [Syscall] (stubs, table and handler), [Commands], [Shell], [Ps] (the task list).
    - [Programs] (command/prog_pipe.c as two processes on one file system under any schedule, and
      cat), [Startup] (what main does after the initialisation).

    ** What the theorems show

    - Memory: first fit of the bitmap; page mapping and its inverse, the layout of the pools, the
      self-mapped directory; [sys_malloc] and [sys_free] keep the heap well formed and blocks
      disjoint, whatever the order of the calls, and NULL has a reason.  The theorems on ranges of
      pages ask that the page tables of the range are present; [page_table_add_maps] is about the
      page that needs a new one.
    - Threads: the scheduler's invariant over all event sequences, round robin, mutual exclusion and
      no lost wake-up for locks; a FIFO of 63 bytes for the ring buffer, with sleep and wake-up on a
      full and on an empty one.
    - Processes: the process table invariant, no sleeping parent with an ended child, what wait and
      exit do, down to the pages that are given back; fork gives the child the words of its parent in frames of its own; a new directory
      is a second address space; a system call
      reaches the function of its number and returns with the registers and the result.
    - Files: the driver transfers single sectors on any drive, and more than one at a time on a
      drive that needs no time between sectors (on others a longer transfer fails; the file
      system is proved over the promised transfers); partition scans end and
      find the tables; formatting and mounting give a well-formed file system; inodes and entries
      read back as written; writing appends and reading delivers the next bytes, also through the
      system calls; a created file is empty, open and found in its directory; pipes are channels,
      also between a father and a child under every interleaving; main installs its program with
      exactly the bytes of the boot disk.
    - Shell: paths are washed to their normal form, lines are edited and split into words; the task
      list and the screen print what they stand for.

    Where the code fails, a theorem says on which inputs (an inode across two sectors, an indirect
    block of a directory, a cyclic partition chain, a name of 15 characters, and others).

    ** Bounds and fuel

    Loops over a count or a list are structural.  The others take fuel, and the theorems say how
    much is enough: one more than the length for string and list loops, 32 for the digits of a
    32-bit number, the number of components for paths, one more than the chain for partition
    scans, one turn per status read for the drive.  No theorem on a result assumes that the fuel
    did not run out.  Uninitialised locals that the code reads are arguments (for example
    [junk_name]); heap addresses that the file system obtains come from a list of addresses
    ([heap]), which [Arena] and [HeapPages] justify.

    ** Not modelled

    The boot loader (loader.s, mbr_4.3.s); kernel/cc.c, an old copy of memory.c outside the build;
    init_all (kernel/init.c) and init (kernel/main.c), which call functions that are modelled one by
    one; the test threads of main.c, which nothing starts; prog_arg.c and cp.c, test programs that
    end in an endless loop; the messages of error paths and of the general exception handler;
    translation caches.  Trace messages on normal paths are not modelled either (kernel/memory.c:141,
    fs/file.c:346 and 391, fs/inode.c:55 and 61, fs/dir.c:214, and those of fork and exec): no theorem
    through these functions says what the screen shows.  In [Exec] and [Segment] the file calls do
    not touch the heap of the process, from which the code takes their buffers: what these files
    prove holds for the model and not for the heap pages and the PCB of the process.  The directory
    of the boot loader is outside the hypotheses of the theorems on two address spaces. *)

From stdpp Require Export base tactics numbers list gmap.
#[global] Open Scope Z_scope.
#[global] Arguments Z.eqb : simpl never.
#[global] Arguments Z.leb : simpl never.
#[global] Arguments Z.ltb : simpl never.
#[global] Arguments Z.gtb : simpl never.
#[global] Arguments Z.geb : simpl never.
#[global] Arguments Z.land : simpl never.
#[global] Arguments Z.lor : simpl never.
#[global] Arguments Z.lnot : simpl never.
#[global] Arguments Z.shiftl : simpl never.
#[global] Arguments Z.shiftr : simpl never.
#[global] Arguments Z.testbit : simpl never.
#[global] Arguments Z.to_nat : simpl never.

(** ** Machine integers

    A C integer of width [w] is a [Z] in its range; each definition writes the
    conversion of the source out. *)

Definition u8 (x : Z) : Z := x mod 256.
Definition u16 (x : Z) : Z := x mod 65536.
Definition u32 (x : Z) : Z := x mod 4294967296.
Definition i8 (x : Z) : Z := (x + 128) mod 256 - 128.
Definition i16 (x : Z) : Z := (x + 32768) mod 65536 - 32768.
Definition i32 (x : Z) : Z := (x + 2147483648) mod 4294967296 - 2147483648.

(** ** Outcomes

    What running a piece of kernel code can end in.  [Fault] is an access
    outside the memory the code owns (undefined behaviour in C), [Panic] is
    [PANIC] (debug.c), [Blocked] means that the calling thread is put to sleep
    at this point, and [NoFuel] that a loop bound of the model was reached. *)

Inductive outcome (A : Type) : Type :=
| Ok (a : A)
| Fault
| Panic
| Blocked
| NoFuel.
Arguments Ok {A} a.
Arguments Fault {A}.
Arguments Panic {A}.
Arguments Blocked {A}.
Arguments NoFuel {A}.

#[global] Instance outcome_ret : MRet outcome := @Ok.
#[global] Instance outcome_bind : MBind outcome := fun A B f o =>
  match o with
  | Ok a => f a
  | Fault => Fault
  | Panic => Panic
  | Blocked => Blocked
  | NoFuel => NoFuel
  end.
#[global] Instance outcome_fmap : FMap outcome := fun A B f o => o ≫= λ a, Ok (f a).

Definition is_ok {A} (o : outcome A) : Prop := ∃ a, o = Ok a.

(** A read of memory that is not there faults. *)
Definition of_opt {A} (o : option A) : outcome A :=
  match o with Some a => Ok a | None => Fault end.

(** ** Arrays indexed by [Z] *)

Definition zlen {A} (l : list A) : Z := Z.of_nat (length l).

Definition aget {A} (l : list A) (i : Z) : outcome A :=
  if 0 <=? i then of_opt (l !! Z.to_nat i) else Fault.

Definition aset {A} (l : list A) (i : Z) (v : A) : outcome (list A) :=
  if (0 <=? i) && (i <? zlen l) then Ok (<[Z.to_nat i := v]> l) else Fault.

(** ** Automation *)

Create HintDb kernel.
Create Rewrite HintDb kernel.

(** [lia] with [/] and [mod] by constants turned into equations. *)
Ltac zdm := Z.to_euclidean_division_equations; lia.

(** Boolean comparisons of the code, turned into propositions. *)
Ltac zbool :=
  repeat match goal with
  | H : (_ <=? _) = true |- _ => apply Z.leb_le in H
  | H : (_ <=? _) = false |- _ => apply Z.leb_gt in H
  | H : (_ <? _) = true |- _ => apply Z.ltb_lt in H
  | H : (_ <? _) = false |- _ => apply Z.ltb_ge in H
  | H : (_ =? _) = true |- _ => apply Z.eqb_eq in H
  | H : (_ =? _) = false |- _ => apply Z.eqb_neq in H
  | H : (_ >? _) = true |- _ => rewrite Z.gtb_ltb in H; apply Z.ltb_lt in H
  | H : (_ >? _) = false |- _ => rewrite Z.gtb_ltb in H; apply Z.ltb_ge in H
  | H : (_ >=? _) = true |- _ => rewrite Z.geb_leb in H; apply Z.leb_le in H
  | H : (_ >=? _) = false |- _ => rewrite Z.geb_leb in H; apply Z.leb_gt in H
  | H : (_ && _) = true |- _ => apply andb_true_iff in H as [? ?]
  | H : (_ || _) = false |- _ => apply orb_false_iff in H as [? ?]
  | H : negb _ = true |- _ => apply negb_true_iff in H
  | H : negb _ = false |- _ => apply negb_false_iff in H
  end.

(** Case analysis on the innermost comparison of the goal. *)
Ltac zcase :=
  match goal with
  | |- context [if ?b then _ else _] =>
      match b with
      | context [if _ then _ else _] => fail 1
      | _ => let E := fresh "E" in destruct b eqn:E; zbool
      end
  end.

(** ** Lemmas on outcomes *)

Lemma bind_ok_iff {A B} (f : A → outcome B) (o : outcome A) (b : B) :
  o ≫= f = Ok b ↔ ∃ a, o = Ok a ∧ f a = Ok b.
Proof. split; [destruct o; simpl; naive_solver | intros (a & -> & ?); done]. Qed.

Lemma of_opt_ok {A} (o : option A) a : of_opt o = Ok a ↔ o = Some a.
Proof. destruct o; naive_solver. Qed.

(** Run one call of a chain of binds whose result is known. *)
Ltac mrun H := rewrite H; cbn [mbind outcome_bind of_opt].

(** Inversion of a chain of binds that ended well. *)
Ltac inv_ok :=
  repeat match goal with
  | H : _ ≫= _ = Ok _ |- _ =>
      let a := fresh "a" in let H1 := fresh "H" in let H2 := fresh "H" in
      apply bind_ok_iff in H as (a & H1 & H2)
  | H : Ok _ = Ok _ |- _ => injection H as H
  | H : of_opt _ = Ok _ |- _ => apply of_opt_ok in H
  | H : mret _ = Ok _ |- _ => injection H as H
  | H : (_, _) = (_, _) |- _ => injection H as ? ?
  | H : Fault = Ok _ |- _ => discriminate H
  | H : Panic = Ok _ |- _ => discriminate H
  | H : Blocked = Ok _ |- _ => discriminate H
  | H : NoFuel = Ok _ |- _ => discriminate H
  | H : ∃ _, _ |- _ => destruct H
  | H : _ ∧ _ |- _ => destruct H
  end; simplify_eq.

(** ** Lemmas on arrays *)

Lemma zlen_nonneg {A} (l : list A) : 0 ≤ zlen l.
Proof. unfold zlen. lia. Qed.

Lemma aget_ok {A} (l : list A) i a :
  aget l i = Ok a ↔ 0 ≤ i ∧ l !! Z.to_nat i = Some a.
Proof.
  unfold aget. destruct (Z.leb_spec 0 i) as [Hi|Hi].
  - rewrite of_opt_ok. naive_solver.
  - split; [done | lia].
Qed.

Lemma aget_in_range {A} (l : list A) i : 0 ≤ i < zlen l → ∃ a, aget l i = Ok a.
Proof.
  intros Hi. destruct (l !! Z.to_nat i) as [a|] eqn:E.
  - exists a. apply aget_ok. split; [lia | done].
  - apply lookup_ge_None in E. unfold zlen in Hi. lia.
Qed.

Lemma aget_range {A} (l : list A) i a : aget l i = Ok a → 0 ≤ i < zlen l.
Proof.
  rewrite aget_ok. intros [? H]. apply lookup_lt_Some in H. unfold zlen. lia.
Qed.

Lemma aset_ok {A} (l : list A) i v :
  0 ≤ i < zlen l → aset l i v = Ok (<[Z.to_nat i := v]> l).
Proof.
  intros [H1 H2]. unfold aset.
  by rewrite (proj2 (Z.leb_le _ _) H1), (proj2 (Z.ltb_lt _ _) H2).
Qed.

Lemma aset_inv {A} (l l' : list A) i v :
  aset l i v = Ok l' → 0 ≤ i < zlen l ∧ l' = <[Z.to_nat i := v]> l.
Proof. unfold aset. zcase; intros ?; inv_ok; auto. Qed.

Lemma aget_insert_eq {A} (l : list A) i v :
  0 ≤ i < zlen l → aget (<[Z.to_nat i := v]> l) i = Ok v.
Proof.
  intros Hi. apply aget_ok. split; [lia|].
  apply list_lookup_insert_eq. unfold zlen in Hi. lia.
Qed.

Lemma aget_insert_ne {A} (l : list A) i j v :
  0 ≤ i → i ≠ j → aget (<[Z.to_nat i := v]> l) j = aget l j.
Proof.
  intros ??. unfold aget. destruct (Z.leb_spec 0 j); [|done].
  rewrite list_lookup_insert_ne; [done | lia].
Qed.

Lemma zlen_cons {A} (x : A) l : zlen (x :: l) = zlen l + 1.
Proof. unfold zlen. simpl. lia. Qed.
Lemma zlen_app {A} (l k : list A) : zlen (l ++ k) = zlen l + zlen k.
Proof. unfold zlen. rewrite length_app. lia. Qed.
Lemma zlen_nil {A} : zlen (@nil A) = 0.
Proof. done. Qed.
#[export] Hint Rewrite @zlen_cons @zlen_app @zlen_nil : kernel.

Lemma zlen_insert {A} (l : list A) i v : zlen (<[i := v]> l) = zlen l.
Proof. unfold zlen. by rewrite length_insert. Qed.

#[export] Hint Resolve zlen_nonneg : kernel.
#[export] Hint Rewrite @zlen_insert : kernel.

(** ** Lemmas on machine integers *)

Lemma u8_range x : 0 ≤ u8 x < 256.
Proof. unfold u8. zdm. Qed.
Lemma u32_range x : 0 ≤ u32 x < 4294967296.
Proof. unfold u32. zdm. Qed.
Lemma u8_small x : 0 ≤ x < 256 → u8 x = x.
Proof. unfold u8. intros. zdm. Qed.
Lemma u16_small x : 0 ≤ x < 65536 → u16 x = x.
Proof. unfold u16. intros. zdm. Qed.
Lemma u32_small x : 0 ≤ x < 4294967296 → u32 x = x.
Proof. unfold u32. intros. zdm. Qed.
Lemma i32_small x : -2147483648 ≤ x < 2147483648 → i32 x = x.
Proof. unfold i32. intros. zdm. Qed.
Lemma i32_u32 x : i32 (u32 x) = i32 x.
Proof. unfold i32, u32. zdm. Qed.

#[export] Hint Resolve u8_range u32_range : kernel.
