(* ===== verification/Bitmap.v ===== *)
(** * Bitmaps (lib/kernel/bitmap.c)

    The allocator of every index space of the kernel: pids, physical pages,
    virtual pages, inodes and data blocks.  [bits] is the memory from the
    pointer [btmp->bits] on; it may be longer than [btmp_bytes_len], because
    [bitmap_scan] reads one byte, or one bit, past the end of the bitmap.  A
    read outside [bits] is a [Fault].  [ASSERT] is compiled out (makefile,
    [-DNDEBUG]). *)

From S2P Require Import Prelude.

(** ** The data and the operations *)

Definition BITMAP_MASK : Z := 1.

Record bitmap := Bitmap { btmp_bytes_len : Z; bits : list Z }.

Definition bitmap_init (b : bitmap) : outcome bitmap :=
  if btmp_bytes_len b <=? zlen (bits b) then
    let n := Z.to_nat (btmp_bytes_len b) in
    Ok (Bitmap (btmp_bytes_len b) (replicate n 0 ++ drop n (bits b)))
  else Fault.

Definition bitmap_scan_test (b : bitmap) (bit_idx : Z) : outcome Z :=
  let byte_idx := u32 bit_idx / 8 in
  let bit_odd := u32 bit_idx mod 8 in
  byte ← aget (bits b) byte_idx;
  Ok (Z.land byte (Z.shiftl BITMAP_MASK bit_odd)).

(** [while ((0xff == bits[idx_byte]) && (idx_byte < len)) idx_byte++] *)
Fixpoint scan_bytes (fuel : nat) (b : bitmap) (idx_byte : Z) : outcome Z :=
  match fuel with
  | O => NoFuel
  | S fuel' =>
      byte ← aget (bits b) idx_byte;
      if (255 =? byte) && (idx_byte <? btmp_bytes_len b)
      then scan_bytes fuel' b (u32 (idx_byte + 1))
      else Ok idx_byte
  end.

(** [while ((uint8_t)(BITMAP_MASK << idx_bit) & bits[idx_byte]) idx_bit++] *)
Fixpoint scan_bits (fuel : nat) (byte : Z) (idx_bit : Z) : outcome Z :=
  match fuel with
  | O => NoFuel
  | S fuel' =>
      if Z.land (u8 (Z.shiftl BITMAP_MASK idx_bit)) byte =? 0 then Ok idx_bit
      else scan_bits fuel' byte (idx_bit + 1)
  end.

(** [while (bit_left-- > 0) ...]: the counting loop for [cnt] adjacent bits. *)
Fixpoint scan_run (bit_left : nat) (b : bitmap) (cnt next_bit count : Z) : outcome Z :=
  match bit_left with
  | O => Ok (-1)
  | S left' =>
      t ← bitmap_scan_test b next_bit;
      let count' := if t =? 0 then u32 (count + 1) else 0 in
      if count' =? cnt then Ok (i32 (next_bit - cnt + 1))
      else scan_run left' b cnt (u32 (next_bit + 1)) count'
  end.

Definition bitmap_scan (b : bitmap) (cnt : Z) : outcome Z :=
  idx_byte ← scan_bytes (S (Z.to_nat (btmp_bytes_len b))) b 0;
  if idx_byte =? btmp_bytes_len b then Ok (-1)
  else
    byte ← aget (bits b) idx_byte;
    idx_bit ← scan_bits 9 byte 0;
    let bit_idx_start := i32 (idx_byte * 8 + idx_bit) in
    if cnt =? 1 then Ok bit_idx_start
    else
      let bit_left := u32 (btmp_bytes_len b * 8 - bit_idx_start) in
      let next_bit := u32 (bit_idx_start + 1) in
      scan_run (Z.to_nat bit_left) b cnt next_bit 1.

Definition bitmap_set (b : bitmap) (bit_idx value : Z) : outcome bitmap :=
  let byte_idx := u32 bit_idx / 8 in
  let bit_odd := u32 bit_idx mod 8 in
  byte ← aget (bits b) byte_idx;
  let byte' :=
    if value =? 0 then u8 (Z.land byte (Z.lnot (Z.shiftl BITMAP_MASK bit_odd)))
    else u8 (Z.lor byte (Z.shiftl BITMAP_MASK bit_odd)) in
  bits' ← aset (bits b) byte_idx byte';
  Ok (Bitmap (btmp_bytes_len b) bits').

(** ** The abstract view: the set bits of an index space *)

(** Is bit [i] set?  (Meaningful for the bits the memory holds.) *)
Definition bit_set (b : bitmap) (i : Z) : bool :=
  match aget (bits b) (i / 8) with Ok y => Z.testbit y (i mod 8) | _ => false end.

Definition nbits (b : bitmap) : Z := 8 * btmp_bytes_len b.

Record bitmap_wf (b : bitmap) : Prop := {
  wf_bytes : Forall (λ y, 0 ≤ y < 256) (bits b);
  wf_len : 0 ≤ btmp_bytes_len b ≤ zlen (bits b);
  wf_small : 8 * zlen (bits b) < 2147483647;
}.

Definition clear_run (b : bitmap) (i cnt : Z) : Prop :=
  ∀ j, i ≤ j < i + cnt → bit_set b j = false.

(** [r] is the first place below [hi] where [cnt] adjacent bits are clear, or
    -1 when there is none. *)
Definition first_fit (b : bitmap) (cnt hi r : Z) : Prop :=
  (r = -1 ∧ ∀ i, 0 ≤ i → i + cnt ≤ hi → ¬ clear_run b i cnt)
  ∨ (0 ≤ r ∧ r + cnt ≤ hi ∧ clear_run b r cnt ∧ ∀ i, 0 ≤ i < r → ¬ clear_run b i cnt).

(** ** Bit-level lemmas *)

Lemma shiftl1_pow k : 0 ≤ k → Z.shiftl BITMAP_MASK k = 2 ^ k.
Proof. intros. unfold BITMAP_MASK. rewrite Z.shiftl_mul_pow2; lia. Qed.

Lemma land_pow2_0 y k : 0 ≤ k → (Z.land y (2 ^ k) =? 0) = negb (Z.testbit y k).
Proof.
  intros Hk. destruct (Z.testbit y k) eqn:E; simpl.
  - apply Z.eqb_neq. intros H. apply (f_equal (λ z, Z.testbit z k)) in H.
    rewrite Z.land_spec, E, Z.pow2_bits_true, Z.bits_0 in H by done. done.
  - apply Z.eqb_eq, Z.bits_inj'. intros n Hn.
    rewrite Z.land_spec, Z.bits_0, Z.pow2_bits_eqb by done.
    destruct (Z.eqb_spec k n) as [->|]; [by rewrite E | apply andb_false_r].
Qed.

Lemma byte_forall (P : Z → bool) :
  forallb P (seqZ 0 256) = true → ∀ y, 0 ≤ y < 256 → P y = true.
Proof.
  intros H y Hy. rewrite forallb_forall in H. apply H.
  apply list_elem_of_In, elem_of_seqZ. lia.
Qed.

(** The bit loop finds the lowest clear bit of a byte that is not full. *)
Lemma scan_bits_spec y :
  0 ≤ y < 256 → y ≠ 255 →
  ∃ k, scan_bits 9 y 0 = Ok k ∧ 0 ≤ k < 8 ∧ Z.testbit y k = false ∧
       ∀ j, 0 ≤ j < k → Z.testbit y j = true.
Proof.
  intros Hy Hne.
  assert (H : (255 =? y) || match scan_bits 9 y 0 with
     | Ok k => (0 <=? k) && (k <? 8) && negb (Z.testbit y k) &&
               forallb (Z.testbit y) (seqZ 0 k)
     | _ => false end = true).
  { clear Hne. revert y Hy. apply byte_forall. vm_compute. done. }
  apply orb_true_iff in H as [H|H]; [zbool; lia|].
  destruct (scan_bits 9 y 0) as [k| | | |]; try done. zbool.
  exists k. repeat split; auto. intros j Hj.
  match goal with H : forallb _ _ = true |- _ => rewrite forallb_forall in H; apply H end.
  apply list_elem_of_In, elem_of_seqZ. lia.
Qed.

Lemma set_byte_bits y k v j :
  0 ≤ y < 256 → 0 ≤ k < 8 → 0 ≤ j < 8 →
  let y' := if v =? 0 then u8 (Z.land y (Z.lnot (Z.shiftl BITMAP_MASK k)))
            else u8 (Z.lor y (Z.shiftl BITMAP_MASK k)) in
  Z.testbit y' j = if decide (j = k) then negb (v =? 0) else Z.testbit y j.
Proof.
  intros Hy Hk Hj y'. subst y'. rewrite shiftl1_pow by lia. unfold u8.
  change 256 with (2 ^ 8).
  destruct (v =? 0); rewrite Z.mod_pow2_bits_low by lia.
  - rewrite Z.land_spec, Z.lnot_spec, Z.pow2_bits_eqb by lia.
    destruct (Z.eqb_spec k j); case_decide; simplify_eq; simpl;
      rewrite ?andb_false_r, ?andb_true_r; done.
  - rewrite Z.lor_spec, Z.pow2_bits_eqb by lia.
    destruct (Z.eqb_spec k j); case_decide; simplify_eq; simpl;
      rewrite ?orb_false_r, ?orb_true_r; done.
Qed.

(** ** Lemmas on the operations *)

Lemma wf_byte b i y : bitmap_wf b → aget (bits b) i = Ok y → 0 ≤ y < 256.
Proof.
  intros [Hb _ _] [_ H]%aget_ok. by apply (Forall_lookup_1 _ _ _ _ Hb) in H.
Qed.

Lemma bitmap_scan_test_spec b i :
  bitmap_wf b → 0 ≤ i < 8 * zlen (bits b) →
  ∃ t, bitmap_scan_test b i = Ok t ∧ (t =? 0) = negb (bit_set b i).
Proof.
  intros Hwf Hi. pose proof (wf_small _ Hwf).
  unfold bitmap_scan_test, bit_set. rewrite u32_small by lia.
  destruct (aget_in_range (bits b) (i / 8)) as [y Hy]; [zdm|]. rewrite Hy. simpl.
  eexists. split; [done|]. rewrite shiftl1_pow by zdm. apply land_pow2_0. zdm.
Qed.

Lemma scan_bytes_spec fuel b i :
  bitmap_wf b → 0 ≤ i ≤ btmp_bytes_len b →
  (∀ j, 0 ≤ j < i → aget (bits b) j = Ok 255) →
  (Z.to_nat (btmp_bytes_len b - i) < fuel)%nat →
  (btmp_bytes_len b < zlen (bits b) ∨
   ∃ j, i ≤ j < btmp_bytes_len b ∧ aget (bits b) j ≠ Ok 255) →
  ∃ r, scan_bytes fuel b i = Ok r ∧ i ≤ r ≤ btmp_bytes_len b ∧
       (∀ j, 0 ≤ j < r → aget (bits b) j = Ok 255) ∧
       (r < btmp_bytes_len b → aget (bits b) r ≠ Ok 255).
Proof.
  intros Hwf. pose proof (wf_small _ Hwf). pose proof (wf_len _ Hwf).
  revert i. induction fuel as [|fuel IH]; intros i Hi Hbelow Hfuel Hstop; [lia|].
  assert (Hin : 0 ≤ i < zlen (bits b)).
  { destruct Hstop as [?|(j & ? & ?)]; lia. }
  destruct (aget_in_range _ _ Hin) as [y Hy]. simpl. rewrite Hy. simpl.
  destruct ((255 =? y) && (i <? btmp_bytes_len b)) eqn:E; zbool.
  - subst y. rewrite u32_small by lia. destruct (IH (i + 1)) as (r & ? & ? & ?); try lia.
    + intros j Hj. destruct (decide (j = i)) as [->|]; [done | apply Hbelow; lia].
    + destruct Hstop as [?|(j & ? & Hne)]; [by left | right].
      exists j. split; [|done]. destruct (decide (j = i)); [congruence | lia].
    + exists r. split; [done|]. split; [lia | done].
  - exists i. split_and!; [done|lia|lia|done|].
    intros Hlt Hy'. rewrite Hy' in Hy. injection Hy as <-.
    apply andb_false_iff in E as [E|E]; zbool; lia.
Qed.

Lemma bit_set_full b i j :
  aget (bits b) j = Ok 255 → 8 * j ≤ i < 8 * j + 8 → bit_set b i = true.
Proof.
  intros Hj Hi. unfold bit_set. replace (i / 8) with j by zdm. rewrite Hj.
  assert (0 ≤ i mod 8 < 8) as Hm by zdm. revert Hm. generalize (i mod 8). intros k Hk.
  assert (k = 0 ∨ k = 1 ∨ k = 2 ∨ k = 3 ∨ k = 4 ∨ k = 5 ∨ k = 6 ∨ k = 7) by lia.
  destruct_or!; subst; done.
Qed.

(** The counting loop: [count] bits below [next] are clear, and no run that
    starts below them fits. *)
Lemma scan_run_spec left b cnt next count :
  bitmap_wf b → btmp_bytes_len b < zlen (bits b) → 2 ≤ cnt < 4294967296 →
  0 ≤ count < cnt → count ≤ next → next + Z.of_nat left = nbits b + 1 →
  clear_run b (next - count) count →
  (∀ i, 0 ≤ i < next - count → ∃ j, i ≤ j < i + cnt ∧ j < next ∧ bit_set b j = true) →
  ∃ r, scan_run left b cnt next count = Ok r ∧ first_fit b cnt (nbits b + 1) r.
Proof.
  intros Hwf Hslack Hcnt. pose proof (wf_small _ Hwf). unfold nbits.
  revert next count. induction left as [|left IH]; intros next count Hc Hn Hl Hrun Hno.
  - exists (-1). split; [done|]. left. split; [done|]. intros i Hi1 Hi2 Hr.
    destruct (decide (i < next - count)) as [Hlt|]; [|lia].
    destruct (Hno i) as (j & ? & ? & Hj); [lia|]. rewrite Hr in Hj; [done | lia].
  - destruct (bitmap_scan_test_spec b next Hwf) as (t & Ht & Hbit); [lia|].
    simpl. rewrite Ht. simpl. rewrite Hbit.
    destruct (bit_set b next) eqn:Eb; simpl; rewrite (u32_small (next + 1)) by lia.
    + destruct (Z.eqb_spec 0 cnt); [lia|]. apply IH; try lia; intros i Hi; try lia.
      destruct (decide (i < next - count)) as [Hlt|].
      * destruct (Hno i) as (j & ? & ? & ?); [lia|]. exists j. split_and!; [lia..|done].
      * exists next. split_and!; [lia..|done].
    + rewrite (u32_small (count + 1)) by lia. destruct (Z.eqb_spec (count + 1) cnt).
      * eexists. split; [done|]. rewrite i32_small by lia. right. split_and!; try lia.
        -- intros j Hj. destruct (decide (j = next)) as [->|]; [done | apply Hrun; lia].
        -- intros i Hi Hr. destruct (Hno i) as (j & ? & ? & Hj); [lia|].
           rewrite Hr in Hj; [done | lia].
      * apply IH; try lia.
        -- intros j Hj. destruct (decide (j = next)) as [->|]; [done | apply Hrun; lia].
        -- intros i Hi. destruct (Hno i) as (j & ? & ? & ?); [lia|].
           exists j. split_and!; [lia..|done].
Qed.

(** The byte the byte loop stops at holds the first clear bit. *)
Lemma scan_bytes_first b :
  bitmap_wf b →
  (btmp_bytes_len b < zlen (bits b) ∨ ∃ i, 0 ≤ i < nbits b ∧ bit_set b i = false) →
  ∃ r, scan_bytes (S (Z.to_nat (btmp_bytes_len b))) b 0 = Ok r ∧
    0 ≤ r ≤ btmp_bytes_len b ∧ (∀ i, 0 ≤ i < 8 * r → bit_set b i = true) ∧
    (r < btmp_bytes_len b → ∃ y k, aget (bits b) r = Ok y ∧ scan_bits 9 y 0 = Ok k ∧
       0 ≤ k < 8 ∧ bit_set b (r * 8 + k) = false ∧
       ∀ i, 8 * r ≤ i < r * 8 + k → bit_set b i = true).
Proof.
  intros Hwf Hstop. pose proof (wf_len _ Hwf).
  destruct (scan_bytes_spec (S (Z.to_nat (btmp_bytes_len b))) b 0) as (r & Hr & Hle & Hfull & Hne);
    try lia; [done| |].
  - destruct Hstop as [?|(i & Hi & Hc)]; [by left | right].
    unfold nbits in Hi. exists (i / 8). split; [zdm|]. intros Hf.
    by rewrite (bit_set_full b i (i / 8) Hf) in Hc by zdm.
  - exists r. split_and!; [done|lia|lia| |].
    { intros i Hi. apply (bit_set_full b i (i / 8)); [apply Hfull|]; zdm. }
    intros Hlt. destruct (aget_in_range (bits b) r) as [y Hy]; [lia|].
    destruct (scan_bits_spec y) as (k & Hk & Hk8 & Hbit & Hlow);
      [by eapply wf_byte | intros ->; by apply Hne |].
    exists y, k. unfold bit_set.
    split_and!; [done|done|lia|lia| |].
    + replace ((r * 8 + k) / 8) with r by zdm. rewrite Hy.
      by replace ((r * 8 + k) mod 8) with k by zdm.
    + intros i Hi. replace (i / 8) with r by zdm. rewrite Hy. apply Hlow. zdm.
Qed.

Lemma clear_run_one b i : clear_run b i 1 ↔ bit_set b i = false.
Proof.
  split; [intros H; apply H; lia|]. intros H j Hj. by replace j with i by lia.
Qed.

Lemma set_not_clear b i j cnt :
  bit_set b j = true → i ≤ j < i + cnt → ¬ clear_run b i cnt.
Proof. intros Hj Hij Hr. by rewrite Hr in Hj. Qed.

#[export] Hint Resolve set_not_clear : kernel.

(** Scanning for one bit needs no memory past the bitmap when a bit is free. *)
Lemma bitmap_scan_one b :
  bitmap_wf b → (∃ i, 0 ≤ i < nbits b ∧ bit_set b i = false) →
  ∃ r, bitmap_scan b 1 = Ok r ∧ 0 ≤ r < nbits b ∧ bit_set b r = false ∧
       ∀ i, 0 ≤ i < r → bit_set b i = true.
Proof.
  intros Hwf Hfree. pose proof (wf_small _ Hwf). pose proof (wf_len _ Hwf).
  destruct (scan_bytes_first b Hwf) as (r & Hr & Hle & Hfull & Hnext); [by right|].
  unfold bitmap_scan, nbits in *. mrun Hr.
  destruct Hfree as (i & Hi & Hc).
  destruct (Z.eqb_spec r (btmp_bytes_len b)) as [->|Hne].
  { by rewrite Hfull in Hc by lia. }
  destruct Hnext as (y & k & Hy & Hk & ? & Hclear & Hlow); [lia|].
  mrun Hy. mrun Hk. rewrite i32_small by lia.
  exists (r * 8 + k). split_and!; [done|lia|lia|done|].
  intros j Hj. destruct (decide (j < 8 * r)); [apply Hfull | apply Hlow]; lia.
Qed.

Lemma bitmap_scan_any b cnt :
  bitmap_wf b → btmp_bytes_len b < zlen (bits b) → 1 ≤ cnt < 4294967296 →
  ∃ r, bitmap_scan b cnt = Ok r ∧
       first_fit b cnt (if cnt =? 1 then nbits b else nbits b + 1) r.
Proof.
  intros Hwf Hslack Hcnt. pose proof (wf_small _ Hwf). pose proof (wf_len _ Hwf).
  destruct (scan_bytes_first b Hwf) as (r & Hr & Hle & Hfull & Hnext); [by left|].
  unfold bitmap_scan, nbits in *. mrun Hr.
  destruct (Z.eqb_spec r (btmp_bytes_len b)) as [->|Hne].
  { exists (-1). split; [done|]. left. split; [done|]. intros i Hi Hhi.
    apply (set_not_clear b i i); [apply Hfull|]; destruct (Z.eqb_spec cnt 1); lia. }
  destruct Hnext as (y & k & Hy & Hk & ? & Hclear & Hlow); [lia|].
  mrun Hy. mrun Hk. rewrite i32_small by lia.
  assert (Hbelow : ∀ j, 0 ≤ j < r * 8 + k → bit_set b j = true).
  { intros j Hj. destruct (decide (j < 8 * r)); [apply Hfull | apply Hlow]; lia. }
  destruct (Z.eqb_spec cnt 1) as [->|].
  - eexists. split; [done|]. right. rewrite clear_run_one.
    split_and!; [lia|lia|done|]. intros i Hi. rewrite clear_run_one.
    by rewrite Hbelow.
  - rewrite !u32_small by lia. apply scan_run_spec; unfold nbits; try done; try lia.
    + intros j Hj. by replace j with (r * 8 + k) by lia.
    + intros i Hi. exists i. split_and!; [lia|lia|lia|]. apply Hbelow. lia.
Qed.

Lemma bitmap_set_ok b i v :
  bitmap_wf b → 0 ≤ i < 8 * zlen (bits b) →
  ∃ b', bitmap_set b i v = Ok b' ∧ bitmap_wf b' ∧
    btmp_bytes_len b' = btmp_bytes_len b ∧ zlen (bits b') = zlen (bits b) ∧
    ∀ j, 0 ≤ j → bit_set b' j = if decide (j = i) then negb (v =? 0) else bit_set b j.
Proof.
  intros Hwf Hi. pose proof (wf_small _ Hwf).
  unfold bitmap_set. rewrite u32_small by lia.
  destruct (aget_in_range (bits b) (i / 8)) as [y Hy]; [zdm|]. rewrite Hy. simpl.
  pose proof (wf_byte _ _ _ Hwf Hy) as Hyr.
  set (y' := if v =? 0 then _ else _).
  rewrite aset_ok by zdm. simpl. eexists. split; [done|].
  assert (Hy' : 0 ≤ y' < 256) by (subst y'; destruct (v =? 0); apply u8_range).
  split_and!; simpl; autorewrite with kernel; [|done|done|].
  - destruct Hwf as [Hb Hl Hs]. split; simpl; autorewrite with kernel; [|done|done].
    by apply Forall_insert.
  - intros j Hj. unfold bit_set. simpl.
    destruct (decide (j / 8 = i / 8)) as [E|E].
    + rewrite E, aget_insert_eq by zdm. subst y'.
      rewrite set_byte_bits by (done || zdm). rewrite Hy.
      destruct (decide (j = i)) as [->|Hji]; case_decide; try done. zdm.
    + rewrite aget_insert_ne by zdm. case_decide; [congruence | done].
Qed.

(** The pattern of every client: find a free index and mark it used. *)
Lemma bitmap_take b :
  bitmap_wf b → (∃ i, 0 ≤ i < nbits b ∧ bit_set b i = false) →
  ∃ r b', bitmap_scan b 1 = Ok r ∧ bitmap_set b r 1 = Ok b' ∧
    0 ≤ r < nbits b ∧ bit_set b r = false ∧ bitmap_wf b' ∧
    btmp_bytes_len b' = btmp_bytes_len b ∧ zlen (bits b') = zlen (bits b) ∧
    ∀ j, 0 ≤ j → bit_set b' j = bool_decide (j = r) || bit_set b j.
Proof.
  intros Hwf Hfree. destruct (bitmap_scan_one b Hwf Hfree) as (r & Hr & Hin & Hc & _).
  pose proof (wf_len _ Hwf). unfold nbits in Hin.
  destruct (bitmap_set_ok b r 1 Hwf) as (b' & Hb' & Hwf' & Hl & Hz & Hbits); [lia|].
  exists r, b'. unfold nbits. split_and!; [done|done|lia|lia|done|done|done|done|].
  intros j Hj. rewrite Hbits by done.
  destruct (decide (j = r)); [rewrite bool_decide_true | rewrite bool_decide_false]; done.
Qed.

(** ** Properties *)

Lemma first_fit_shrink b cnt hi r :
  1 ≤ cnt → bit_set b hi = true → first_fit b cnt (hi + 1) r → first_fit b cnt hi r.
Proof.
  intros Hcnt Hset [[-> Hno] | (H0 & Hhi & Hrun & Hno)]; [left | right].
  - split; [done|]. intros i Hi Hle. apply Hno; lia.
  - split_and!; [done| |done|done]. destruct (decide (r + cnt ≤ hi)) as [|Hgt]; [done|].
    exfalso. eapply (set_not_clear b r hi cnt); [done|lia|done].
Qed.

(** C34: [bitmap_scan] is first fit.  For a well-formed bitmap followed by one
    readable byte it terminates without fault, and returns the first index at
    which [cnt] adjacent bits are clear inside the bitmap, or -1 when there is
    none; for [cnt > 1] this needs the bit just past the bitmap to be set. *)
Theorem bitmap_scan_first_fit (b : bitmap) (cnt : Z) :
  bitmap_wf b → btmp_bytes_len b < zlen (bits b) → 1 ≤ cnt < 4294967296 →
  cnt = 1 ∨ bit_set b (nbits b) = true →
  ∃ r, bitmap_scan b cnt = Ok r ∧ first_fit b cnt (nbits b) r.
Proof.
  intros Hwf Hs Hcnt Hedge. destruct (bitmap_scan_any b cnt Hwf Hs Hcnt) as (r & Hr & Hfit).
  exists r. split; [done|]. destruct (Z.eqb_spec cnt 1); [done|].
  apply first_fit_shrink; [lia | naive_solver | done].
Qed.

Lemma bitmap_wf_dec b :
  forallb (λ y, (0 <=? y) && (y <? 256)) (bits b) &&
  (0 <=? btmp_bytes_len b) && (btmp_bytes_len b <=? zlen (bits b)) &&
  (8 * zlen (bits b) <? 2147483647) = true → bitmap_wf b.
Proof.
  intros H. zbool. split; [|lia|lia]. apply Forall_forall. intros y Hy.
  match goal with H : forallb _ _ = true |- _ => rewrite forallb_forall in H;
    specialize (H y (proj1 (list_elem_of_In _ _) Hy)) end. zbool. lia.
Defined.

Lemma bitmap_scan_first_fit_witness :
  let b := Bitmap 2 [255; 1; 255] in
  bitmap_wf b ∧ ∃ r, bitmap_scan b 3 = Ok r ∧ first_fit b 3 (nbits b) r.
Proof.
  simpl. split; [by apply bitmap_wf_dec|].
  apply (bitmap_scan_first_fit (Bitmap 2 [255; 1; 255]) 3);
    [by apply bitmap_wf_dec | done | done | by right].
Defined.

(** The counting loop of [bitmap_scan] looks at one bit too many.  On a
    well-formed bitmap of 8 bits whose only clear bit is the last one, a request
    for two adjacent bits is granted when the next byte in memory has its low
    bit clear: the range handed out ends past the bitmap. *)
Theorem bitmap_scan_overrun :
  ∃ b r, bitmap_wf b ∧ (∀ i, 0 ≤ i < 7 → bit_set b i = true) ∧ nbits b = 8 ∧
         bitmap_scan b 2 = Ok r ∧ nbits b < r + 2.
Proof.
  exists (Bitmap 1 [127; 0]), 7. split_and!; [by apply bitmap_wf_dec | | done | done | done].
  intros i Hi. assert (i = 0 ∨ i = 1 ∨ i = 2 ∨ i = 3 ∨ i = 4 ∨ i = 5 ∨ i = 6) by lia.
  destruct_or!; subst; done.
Qed.

(** [bitmap_set] changes the bit it is given and no other, and keeps the
    bitmap well formed and of the same length. *)
Theorem bitmap_set_one_bit (b : bitmap) (i v : Z) :
  bitmap_wf b → 0 ≤ i < nbits b →
  ∃ b', bitmap_set b i v = Ok b' ∧ bitmap_wf b' ∧ nbits b' = nbits b ∧
        bit_set b' i = negb (v =? 0) ∧
        ∀ j, 0 ≤ j → j ≠ i → bit_set b' j = bit_set b j.
Proof.
  intros Hwf Hi. pose proof (wf_len _ Hwf). unfold nbits in *.
  destruct (bitmap_set_ok b i v Hwf) as (b' & Hb' & Hwf' & Hl & _ & Hbits); [lia|].
  exists b'. rewrite Hl. split_and!; [done|done|done| |].
  - rewrite Hbits by lia. by rewrite decide_True.
  - intros j Hj Hji. rewrite Hbits by lia. by rewrite decide_False.
Qed.

Lemma bitmap_set_one_bit_witness :
  ∃ b', bitmap_set (Bitmap 1 [5]) 1 1 = Ok b' ∧ bitmap_wf b' ∧
        nbits b' = nbits (Bitmap 1 [5]) ∧ bit_set b' 1 = negb (1 =? 0) ∧
        ∀ j, 0 ≤ j → j ≠ 1 → bit_set b' j = bit_set (Bitmap 1 [5]) j.
Proof. apply (bitmap_set_one_bit (Bitmap 1 [5]) 1 1); [by apply bitmap_wf_dec | done]. Defined.
