(* ===== verification/Interrupt.v ===== *)
(** * Interrupt flag, gate and segment descriptors
    (kernel/interrupt.c, kernel/interrupt.h, kernel/global.h, userprog/tss.c)

    The interrupt flag is bit 9 of EFLAGS; [sti] and [cli] are the only
    instructions of the kernel's C code that change it.  Gate and segment
    descriptors are the byte layouts the processor reads; [gate_offset],
    [gdt_base], [gdt_limit] and [gdt_attr] read them back the way the
    processor does. *)

From S2P Require Import Prelude.

(** ** The interrupt flag *)

Inductive intr_status := INTR_OFF | INTR_ON.

#[global] Instance intr_status_eq_dec : EqDecision intr_status.
Proof. solve_decision. Defined.

Record cpu := Cpu { eflags : Z }.

Definition EFLAGS_IF : Z := 0x200.

Definition sti (c : cpu) : cpu := Cpu (Z.lor (eflags c) EFLAGS_IF).
Definition cli (c : cpu) : cpu := Cpu (Z.land (eflags c) (Z.lnot EFLAGS_IF)).

Definition intr_get_status (c : cpu) : intr_status :=
  if Z.land EFLAGS_IF (eflags c) =? 0 then INTR_OFF else INTR_ON.

Definition intr_enable (c : cpu) : intr_status * cpu :=
  match intr_get_status c with
  | INTR_ON => (INTR_ON, c)
  | INTR_OFF => (INTR_OFF, sti c)
  end.

Definition intr_disable (c : cpu) : intr_status * cpu :=
  match intr_get_status c with
  | INTR_ON => (INTR_ON, cli c)
  | INTR_OFF => (INTR_OFF, c)
  end.

Definition intr_set_status (status : intr_status) (c : cpu) : intr_status * cpu :=
  match status with
  | INTR_ON => intr_enable c
  | INTR_OFF => intr_disable c
  end.

(** The pattern [old = intr_disable(); body; intr_set_status(old)]. *)
Definition intr_restore (old : intr_status) (c : cpu) : cpu := snd (intr_set_status old c).

(** ** Interrupt gates *)

Definition SELECTOR_K_CODE : Z := Z.shiftl 1 3.
Definition IDT_DESC_CNT : nat := 0x81.
Definition IDT_DESC_ATTR_DPL0 : Z := Z.shiftl 1 7 + Z.shiftl 0 5 + 0xE.
Definition IDT_DESC_ATTR_DPL3 : Z := Z.shiftl 1 7 + Z.shiftl 3 5 + 0xE.

Record gate_desc := GateDesc {
  func_offset_low_word : Z;
  selector : Z;
  dcount : Z;
  attribute : Z;
  func_offset_high_word : Z;
}.

Definition make_idt_desc (attr function : Z) : gate_desc :=
  GateDesc (u16 (Z.land function 0x0000FFFF)) SELECTOR_K_CODE 0 attr
           (u16 (Z.shiftr (Z.land function 0xFFFF0000) 16)).

(** [for (i = 0; i < IDT_DESC_CNT; i++) make_idt_desc(&idt[i], DPL0, entry[i])] *)
Fixpoint idt_fill (n : nat) (i : Z) (intr_entry_table : list Z) : outcome (list gate_desc) :=
  match n with
  | O => Ok []
  | S n' =>
      f ← aget intr_entry_table i;
      rest ← idt_fill n' (i + 1) intr_entry_table;
      Ok (make_idt_desc IDT_DESC_ATTR_DPL0 f :: rest)
  end.

Definition idt_desc_init (intr_entry_table : list Z) (syscall_handler : Z)
    : outcome (list gate_desc) :=
  idt ← idt_fill IDT_DESC_CNT 0 intr_entry_table;
  aset idt (Z.of_nat IDT_DESC_CNT - 1) (make_idt_desc IDT_DESC_ATTR_DPL3 syscall_handler).

(** [exception_init] points every vector at [general_intr_handler];
    [register_handler] replaces one vector. *)
Definition exception_init (general_intr_handler : Z) : list Z :=
  replicate IDT_DESC_CNT general_intr_handler.

Definition register_handler (idt_table : list Z) (vector_no function : Z) : outcome (list Z) :=
  aset idt_table (u8 vector_no) function.

(** ** Segment descriptors *)

Record gdt_desc := GdtDesc {
  limit_low_word : Z;
  base_low_word : Z;
  base_mid_byte : Z;
  attr_low_byte : Z;
  limit_high_attr_high : Z;
  base_high_byte : Z;
}.

Definition make_gdt_desc (desc_addr limit attr_low attr_high : Z) : gdt_desc :=
  let desc_base := u32 desc_addr in
  GdtDesc (u16 (Z.land limit 0x0000ffff)) (u16 (Z.land desc_base 0x0000ffff))
          (u8 (Z.shiftr (Z.land desc_base 0x00ff0000) 16)) (u8 attr_low)
          (u8 (Z.shiftr (Z.land limit 0x000f0000) 16 + u8 attr_high))
          (u8 (Z.shiftr desc_base 24)).

Definition GDT_ATTR_HIGH : Z := Z.shiftl 1 7 + Z.shiftl 1 6 + Z.shiftl 0 5 + Z.shiftl 0 4.
Definition GDT_CODE_ATTR_LOW_DPL3 : Z := Z.shiftl 1 7 + Z.shiftl 3 5 + Z.shiftl 1 4 + 8.
Definition GDT_DATA_ATTR_LOW_DPL3 : Z := Z.shiftl 1 7 + Z.shiftl 3 5 + Z.shiftl 1 4 + 2.
Definition TSS_ATTR_HIGH : Z :=
  Z.shiftl 1 7 + Z.shiftl 0 6 + Z.shiftl 0 5 + Z.shiftl 0 4 + 0x0.
Definition TSS_ATTR_LOW : Z := Z.shiftl 1 7 + Z.shiftl 0 5 + Z.shiftl 0 4 + 9.

(** ** What the processor reads back *)

Definition gate_offset (g : gate_desc) : Z :=
  func_offset_low_word g + Z.shiftl (func_offset_high_word g) 16.
Definition gate_dpl (g : gate_desc) : Z := Z.land (Z.shiftr (attribute g) 5) 3.

Definition gdt_base (d : gdt_desc) : Z :=
  base_low_word d + Z.shiftl (base_mid_byte d) 16 + Z.shiftl (base_high_byte d) 24.
Definition gdt_limit (d : gdt_desc) : Z :=
  limit_low_word d + Z.shiftl (Z.land (limit_high_attr_high d) 15) 16.
Definition gdt_attr_high (d : gdt_desc) : Z := Z.land (limit_high_attr_high d) 0xf0.

(** ** Lemmas *)

Lemma get_status_testbit c :
  intr_get_status c = if Z.testbit (eflags c) 9 then INTR_ON else INTR_OFF.
Proof.
  unfold intr_get_status. change EFLAGS_IF with (2 ^ 9). rewrite Z.land_comm.
  destruct (Z.testbit (eflags c) 9) eqn:E; destruct (Z.eqb_spec (Z.land (eflags c) (2 ^ 9)) 0) as [H|H];
    [|done|done|]; exfalso.
  - apply (f_equal (λ z, Z.testbit z 9)) in H.
    rewrite Z.land_spec, E, Z.pow2_bits_true, Z.bits_0 in H; done.
  - apply H, Z.bits_inj'. intros n Hn. rewrite Z.land_spec, Z.bits_0, Z.pow2_bits_eqb by lia.
    destruct (Z.eqb_spec 9 n) as [<-|]; [by rewrite E | apply andb_false_r].
Qed.

Lemma sti_status c : intr_get_status (sti c) = INTR_ON.
Proof.
  rewrite get_status_testbit. simpl. rewrite Z.lor_spec.
  by replace (Z.testbit EFLAGS_IF 9) with true; rewrite ?orb_true_r.
Qed.

Lemma cli_status c : intr_get_status (cli c) = INTR_OFF.
Proof.
  rewrite get_status_testbit. simpl. rewrite Z.land_spec, Z.lnot_spec by lia.
  by replace (Z.testbit EFLAGS_IF 9) with true; rewrite ?andb_false_r.
Qed.

Lemma intr_disable_fst c : fst (intr_disable c) = intr_get_status c.
Proof. unfold intr_disable. by destruct (intr_get_status c) eqn:E. Qed.

Lemma intr_disable_off c : intr_get_status (snd (intr_disable c)) = INTR_OFF.
Proof.
  unfold intr_disable. destruct (intr_get_status c) eqn:E; simpl; [done | apply cli_status].
Qed.

Lemma intr_restore_status s c : intr_get_status (intr_restore s c) = s.
Proof.
  unfold intr_restore, intr_set_status, intr_enable, intr_disable.
  destruct s, (intr_get_status c) eqn:E; simpl; auto using cli_status, sti_status.
Qed.

#[export] Hint Resolve sti_status cli_status intr_disable_off intr_restore_status : kernel.

(** The other flags: [sti], [cli] and what is built from them touch bit 9 only. *)
Lemma intr_ops_other_bits c s n :
  0 ≤ n → n ≠ 9 →
  Z.testbit (eflags (snd (intr_disable c))) n = Z.testbit (eflags c) n ∧
  Z.testbit (eflags (intr_restore s c)) n = Z.testbit (eflags c) n.
Proof.
  intros Hn Hn9.
  assert (Hif : Z.testbit EFLAGS_IF n = false).
  { change EFLAGS_IF with (2 ^ 9). apply Z.pow2_bits_false. lia. }
  assert (Hs : Z.testbit (eflags (sti c)) n = Z.testbit (eflags c) n).
  { simpl. by rewrite Z.lor_spec, Hif, orb_false_r. }
  assert (Hc : Z.testbit (eflags (cli c)) n = Z.testbit (eflags c) n).
  { simpl. by rewrite Z.land_spec, Z.lnot_spec, Hif, andb_true_r by lia. }
  unfold intr_restore, intr_set_status, intr_enable, intr_disable.
  split; destruct (intr_get_status c); try destruct s; done.
Qed.

Lemma land_16 x : Z.land x 65535 = x mod 65536.
Proof. change 65535 with (Z.ones 16). by rewrite Z.land_ones. Qed.

(** A field of [x]: the mask [ones n << k] followed by the shift down. *)
Lemma mask_field x k n :
  0 ≤ k → 0 ≤ n → Z.shiftr (Z.land x (Z.shiftl (Z.ones n) k)) k = (x / 2 ^ k) mod 2 ^ n.
Proof.
  intros. rewrite Z.shiftr_land, Z.shiftr_shiftl_l, Z.sub_diag by lia.
  by rewrite Z.shiftl_0_r, Z.land_ones, Z.shiftr_div_pow2 by lia.
Qed.

Lemma idt_fill_ok n i table :
  0 ≤ i → i + Z.of_nat n ≤ zlen table →
  ∃ idt, idt_fill n i table = Ok idt ∧ length idt = n ∧
    ∀ j : nat, (j < n)%nat → ∃ f, aget table (i + Z.of_nat j) = Ok f ∧
      idt !! j = Some (make_idt_desc IDT_DESC_ATTR_DPL0 f).
Proof.
  revert i. induction n as [|n IH]; intros i Hi Hn.
  { exists []. split_and!; [done|done|]. lia. }
  destruct (aget_in_range table i) as [f Hf]; [lia|].
  destruct (IH (i + 1)) as (idt & Hidt & Hlen & Hall); [lia|lia|].
  cbn [idt_fill]. mrun Hf. mrun Hidt. eexists. split; [done|]. split; [simpl; lia|].
  intros [|j] Hj; [exists f; split; [by rewrite Z.add_0_r | done]|].
  destruct (Hall j) as (g & Hg & Hget); [lia|]. exists g. split; [|done].
  by replace (i + Z.of_nat (S j)) with (i + 1 + Z.of_nat j) by lia.
Qed.

Lemma idt_fill_short n i table :
  0 ≤ i ≤ zlen table → zlen table < i + Z.of_nat n → idt_fill n i table = Fault.
Proof.
  revert i. induction n as [|n IH]; intros i Hi Hn; [lia|]. cbn [idt_fill].
  destruct (decide (i < zlen table)).
  - destruct (aget_in_range table i) as [f Hf]; [lia|]. mrun Hf.
    by rewrite (IH (i + 1)) by lia.
  - unfold aget. destruct (Z.leb_spec 0 i); [|lia].
    rewrite lookup_ge_None_2; [done|]. unfold zlen in *. lia.
Qed.

(** ** Properties *)

(** The bracket [old = intr_disable(); ...; intr_set_status(old)] used by the
    whole kernel switches interrupts off inside and leaves, whatever the code in
    between did to the flag, the status it found; the other flags survive. *)
Theorem intr_bracket (c c' : cpu) :
  intr_get_status (snd (intr_disable c)) = INTR_OFF ∧
  intr_get_status (intr_restore (fst (intr_disable c)) c') = intr_get_status c ∧
  ∀ n, 0 ≤ n → n ≠ 9 →
    Z.testbit (eflags (intr_restore (fst (intr_disable c)) (snd (intr_disable c)))) n
    = Z.testbit (eflags c) n.
Proof.
  rewrite intr_disable_fst. split_and!; auto with kernel. intros n Hn H9.
  destruct (intr_ops_other_bits (snd (intr_disable c)) (intr_get_status c) n Hn H9) as [_ ->].
  by destruct (intr_ops_other_bits c INTR_ON n Hn H9) as [-> _].
Qed.

(** The processor reads back from the descriptors what was put in: a gate made
    by [make_idt_desc] has the handler's address and the attribute byte, and a
    segment made by [make_gdt_desc] the base, the 20-bit limit and the attributes. *)
Theorem descriptors_roundtrip (attr f base limit attr_low attr_high : Z) :
  0 ≤ f < 4294967296 → 0 ≤ base < 4294967296 → 0 ≤ limit < 1048576 →
  0 ≤ attr_low < 256 → attr_high ∈ [0; 0x10; 0x20; 0x30; 0x40; 0x50; 0x60; 0x70; 0x80;
                                    0x90; 0xa0; 0xb0; 0xc0; 0xd0; 0xe0; 0xf0] →
  gate_offset (make_idt_desc attr f) = f ∧ attribute (make_idt_desc attr f) = attr ∧
  gdt_base (make_gdt_desc base limit attr_low attr_high) = base ∧
  gdt_limit (make_gdt_desc base limit attr_low attr_high) = limit ∧
  attr_low_byte (make_gdt_desc base limit attr_low attr_high) = attr_low ∧
  gdt_attr_high (make_gdt_desc base limit attr_low attr_high) = attr_high.
Proof.
  intros Hf Hb Hl Hal Hah.
  assert (Hnib : ∀ x, 0 ≤ x < 16 → Z.land (u8 (x + u8 attr_high)) 15 = x ∧
                                   Z.land (u8 (x + u8 attr_high)) 0xf0 = attr_high).
  { intros x Hx. assert (x ∈ seqZ 0 16) as Hin by (apply elem_of_seqZ; lia). clear Hx.
    assert (Hchk : forallb (λ x, forallb (λ a, (Z.land (u8 (x + u8 a)) 15 =? x) &&
                      (Z.land (u8 (x + u8 a)) 0xf0 =? a)) (map (λ k, 16 * k) (seqZ 0 16)))
                    (seqZ 0 16) = true) by (vm_compute; done).
    rewrite forallb_forall in Hchk. apply list_elem_of_In, Hchk in Hin.
    rewrite forallb_forall in Hin. apply list_elem_of_In in Hah.
    specialize (Hin attr_high Hah). zbool. done. }
  unfold gate_offset, gdt_base, gdt_limit, gdt_attr_high, make_idt_desc, make_gdt_desc; simpl.
  rewrite (u32_small base Hb). change 0xFFFF0000 with (Z.shiftl (Z.ones 16) 16).
  change 0x000f0000 with (Z.shiftl (Z.ones 4) 16).
  change 0x00ff0000 with (Z.shiftl (Z.ones 8) 16).
  rewrite !land_16, !mask_field, !Z.shiftl_mul_pow2, Z.shiftr_div_pow2 by lia.
  destruct (Hnib ((limit / 2 ^ 16) mod 2 ^ 4)) as [-> ->];
    [split; apply Z.mod_pos_bound; lia|].
  unfold u16, u8. split_and!; try done; zdm.
Qed.

Lemma descriptors_roundtrip_witness :
  gate_offset (make_idt_desc IDT_DESC_ATTR_DPL3 0xc0001500) = 0xc0001500 ∧
  attribute (make_idt_desc IDT_DESC_ATTR_DPL3 0xc0001500) = IDT_DESC_ATTR_DPL3 ∧
  gdt_base (make_gdt_desc 0xc0009c60 0xfffff TSS_ATTR_LOW GDT_ATTR_HIGH) = 0xc0009c60 ∧
  gdt_limit (make_gdt_desc 0xc0009c60 0xfffff TSS_ATTR_LOW GDT_ATTR_HIGH) = 0xfffff ∧
  attr_low_byte (make_gdt_desc 0xc0009c60 0xfffff TSS_ATTR_LOW GDT_ATTR_HIGH) = TSS_ATTR_LOW ∧
  gdt_attr_high (make_gdt_desc 0xc0009c60 0xfffff TSS_ATTR_LOW GDT_ATTR_HIGH) = GDT_ATTR_HIGH.
Proof.
  apply (descriptors_roundtrip IDT_DESC_ATTR_DPL3 0xc0001500 0xc0009c60 0xfffff
           TSS_ATTR_LOW GDT_ATTR_HIGH); try done.
  vm_compute. repeat constructor.
Defined.

(** [idt_desc_init] fills 0x81 gates from [intr_entry_table].  With a table of
    that many entries every gate is the kernel-only gate of its entry and the
    last one is the user-callable system-call gate; with the 0x30 entries that
    kernel.s defines, it reads past the table. *)
Theorem idt_desc_init_table (table : list Z) (h : Z) :
  (length table = IDT_DESC_CNT → ∃ idt, idt_desc_init table h = Ok idt ∧
     idt !! 0x80%nat = Some (make_idt_desc IDT_DESC_ATTR_DPL3 h) ∧
     gate_dpl (make_idt_desc IDT_DESC_ATTR_DPL3 h) = 3 ∧
     ∀ j, (j < 0x80)%nat → ∃ f, table !! j = Some f ∧
       idt !! j = Some (make_idt_desc IDT_DESC_ATTR_DPL0 f) ∧
       gate_dpl (make_idt_desc IDT_DESC_ATTR_DPL0 f) = 0) ∧
  (length table = 0x30%nat → idt_desc_init table h = Fault).
Proof.
  unfold idt_desc_init. split; intros Hlen.
  - destruct (idt_fill_ok IDT_DESC_CNT 0 table) as (idt & Hidt & Hn & Hall);
      [lia | unfold zlen; lia|].
    mrun Hidt. unfold IDT_DESC_CNT in *. rewrite aset_ok by (unfold zlen; lia). eexists. split; [done|]. split; [|split; [done|]].
    + rewrite list_lookup_insert_eq; [done | lia].
    + intros j Hj. destruct (Hall j) as (f & Hf & Hget); [lia|]. exists f.
      rewrite list_lookup_insert_ne by lia. split; [|done].
      apply aget_ok in Hf as [_ Hf]. by rewrite Z.add_0_l, Nat2Z.id in Hf.
  - rewrite idt_fill_short; [done| |]; unfold zlen; rewrite Hlen; unfold IDT_DESC_CNT; lia.
Qed.

Lemma idt_desc_init_table_witness :
  ∃ idt, idt_desc_init (replicate IDT_DESC_CNT 0xc0001500) 0xc0001600 = Ok idt ∧
    idt_desc_init (replicate 0x30 0xc0001500) 0xc0001600 = Fault.
Proof.
  destruct (idt_desc_init_table (replicate IDT_DESC_CNT 0xc0001500) 0xc0001600) as [H _].
  destruct H as (idt & H & _); [done|]. exists idt. split; [exact H|].
  by apply (idt_desc_init_table (replicate 0x30 0xc0001500) 0xc0001600).
Defined.
