(* ===== verification/KList.v ===== *)
(** * Intrusive doubly linked lists (lib/kernel/list.c, lib/kernel/list.h)

    A node is two words of memory, [prev] at offset 0 and [next] at offset 4; a
    [struct list] is its [head] node followed by its [tail] node.  The
    operations read and write those words one by one, in the order of the
    source; a word that is not mapped is a [Fault].  [is_list m l xs] says that
    the list at [l] holds the nodes [xs], front first. *)

From S2P Require Import Prelude Interrupt.

(** ** Memory and the machine state the list operations touch *)

Abbreviation mem := (gmap Z Z).

Record kmach := KMach { words : mem; kcpu : cpu }.

Definition ld (m : mem) (a : Z) : outcome Z := of_opt (m !! a).
Definition st (m : mem) (a v : Z) : outcome mem :=
  match m !! a with Some _ => Ok (<[a := v]> m) | None => Fault end.

Definition NULL : Z := 0.
Definition prev_of (e : Z) : Z := e.
Definition next_of (e : Z) : Z := e + 4.
Definition head_of (plist : Z) : Z := plist.
Definition tail_of (plist : Z) : Z := plist + 8.

(** ** The operations *)

Definition list_init (k : kmach) (list : Z) : outcome kmach :=
  m ← st (words k) (prev_of (head_of list)) NULL;
  m ← st m (next_of (head_of list)) (tail_of list);
  m ← st m (prev_of (tail_of list)) (head_of list);
  m ← st m (next_of (tail_of list)) NULL;
  Ok (KMach m (kcpu k)).

Definition list_insert_before (k : kmach) (before elem : Z) : outcome kmach :=
  let '(old_status, c) := intr_disable (kcpu k) in
  p ← ld (words k) (prev_of before);
  m ← st (words k) (next_of p) elem;
  p' ← ld m (prev_of before);
  m ← st m (prev_of elem) p';
  m ← st m (next_of elem) before;
  m ← st m (prev_of before) elem;
  Ok (KMach m (intr_restore old_status c)).

Definition list_push (k : kmach) (plist elem : Z) : outcome kmach :=
  first ← ld (words k) (next_of (head_of plist));
  list_insert_before k first elem.

Definition list_append (k : kmach) (plist elem : Z) : outcome kmach :=
  list_insert_before k (tail_of plist) elem.

Definition list_remove (k : kmach) (pelem : Z) : outcome kmach :=
  let '(old_status, c) := intr_disable (kcpu k) in
  p ← ld (words k) (prev_of pelem);
  n ← ld (words k) (next_of pelem);
  m ← st (words k) (next_of p) n;
  n' ← ld m (next_of pelem);
  p' ← ld m (prev_of pelem);
  m ← st m (prev_of n') p';
  Ok (KMach m (intr_restore old_status c)).

Definition list_pop (k : kmach) (plist : Z) : outcome (Z * kmach) :=
  elem ← ld (words k) (next_of (head_of plist));
  k' ← list_remove k elem;
  Ok (elem, k').

Definition list_empty (k : kmach) (plist : Z) : outcome bool :=
  first ← ld (words k) (next_of (head_of plist));
  Ok (first =? tail_of plist).

Fixpoint elem_find_loop (fuel : nat) (m : mem) (plist obj_elem elem : Z) : outcome bool :=
  match fuel with
  | O => NoFuel
  | S fuel' =>
      if elem =? tail_of plist then Ok false
      else if elem =? obj_elem then Ok true
      else n ← ld m (next_of elem); elem_find_loop fuel' m plist obj_elem n
  end.

Definition elem_find (fuel : nat) (k : kmach) (plist obj_elem : Z) : outcome bool :=
  elem ← ld (words k) (next_of (head_of plist));
  elem_find_loop fuel (words k) plist obj_elem elem.

(** [list_traversal] calls [func] on each element until it returns true; the
    callback may change the state. *)
Fixpoint traversal_loop {S} (fuel : nat) (mem_of : S → mem) (func : S → Z → outcome (bool * S))
    (s : S) (plist elem : Z) : outcome (Z * S) :=
  match fuel with
  | O => NoFuel
  | Datatypes.S fuel' =>
      if elem =? tail_of plist then Ok (NULL, s)
      else
        '(r, s') ← func s elem;
        if r : bool then Ok (elem, s')
        else n ← ld (mem_of s') (next_of elem); traversal_loop fuel' mem_of func s' plist n
  end.

Definition list_traversal {S} (fuel : nat) (mem_of : S → mem) (func : S → Z → outcome (bool * S))
    (s : S) (plist : Z) : outcome (Z * S) :=
  elem ← ld (mem_of s) (next_of (head_of plist));
  first ← ld (mem_of s) (next_of (head_of plist));
  if first =? tail_of plist then Ok (NULL, s)
  else traversal_loop fuel mem_of func s plist elem.

Fixpoint list_len_loop (fuel : nat) (m : mem) (plist elem length : Z) : outcome Z :=
  match fuel with
  | O => NoFuel
  | S fuel' =>
      if elem =? tail_of plist then Ok length
      else n ← ld m (next_of elem); list_len_loop fuel' m plist n (u32 (length + 1))
  end.

Definition list_len (fuel : nat) (k : kmach) (plist : Z) : outcome Z :=
  elem ← ld (words k) (next_of (head_of plist));
  list_len_loop fuel (words k) plist elem 0.

(** ** The representation predicate *)

(** [b] follows [a]. *)
Definition linked (m : mem) (a b : Z) : Prop :=
  m !! next_of a = Some b ∧ m !! prev_of b = Some a.

(** Each node of [ns] is linked to the one after it. *)
Fixpoint links (m : mem) (ns : list Z) : Prop :=
  match ns with
  | a :: ((b :: _) as ns') => linked m a b ∧ links m ns'
  | _ => True
  end.

(** Nodes are eight bytes and do not overlap. *)
Definition apart (a b : Z) : Prop := a + 8 ≤ b ∨ b + 8 ≤ a.

Fixpoint all_apart (ns : list Z) : Prop :=
  match ns with
  | [] => True
  | n :: ns' => Forall (apart n) ns' ∧ all_apart ns'
  end.

Definition list_nodes (l : Z) (xs : list Z) : list Z := head_of l :: xs ++ [tail_of l].

Definition is_list (m : mem) (l : Z) (xs : list Z) : Prop :=
  links m (list_nodes l xs) ∧ all_apart (list_nodes l xs) ∧
  is_Some (m !! next_of (tail_of l)).

(** A node that is in no list: its two words are mapped. *)
Definition free_node (m : mem) (e : Z) : Prop :=
  is_Some (m !! prev_of e) ∧ is_Some (m !! next_of e).

(** Only words of the given nodes changed, and no word was mapped or unmapped. *)
Definition same_outside (ns : list Z) (m m' : mem) : Prop :=
  dom m' = dom m ∧
  ∀ a, (∀ n, n ∈ ns → a ≠ prev_of n ∧ a ≠ next_of n) → m' !! a = m !! a.

(** The node in front of which the nodes [ys] of the list at [l] start. *)
Definition node_before (l : Z) (ys : list Z) : Z :=
  match ys with [] => tail_of l | y :: _ => y end.

Definition cpu_restored (k k' : kmach) : Prop :=
  kcpu k' = intr_restore (fst (intr_disable (kcpu k))) (snd (intr_disable (kcpu k))).

(** What [list_traversal] computes, on the abstract list. *)
Fixpoint traverse {S} (func : S → Z → outcome (bool * S)) (s : S) (xs : list Z)
    : outcome (Z * S) :=
  match xs with
  | [] => Ok (NULL, s)
  | x :: xs' => '(r, s') ← func s x; if r : bool then Ok (x, s') else traverse func s' xs'
  end.

(** ** Lemmas on memory *)

Lemma ld_ok m a v : m !! a = Some v → ld m a = Ok v.
Proof. unfold ld. by intros ->. Qed.

Lemma st_ok m a v : is_Some (m !! a) → st m a v = Ok (<[a := v]> m).
Proof. unfold st. by intros [? ->]. Qed.

Lemma mapped_insert (m : mem) a b v : is_Some (m !! b) → is_Some (<[a := v]> m !! b).
Proof. rewrite lookup_insert. case_decide; eauto. Qed.

#[export] Hint Resolve mapped_insert : kernel.

Lemma apart_sym a b : apart a b → apart b a.
Proof. unfold apart. lia. Qed.

Lemma apart_ne a b : apart a b → a ≠ b ∧ next_of a ≠ prev_of b ∧ next_of b ≠ prev_of a.
Proof. unfold apart, next_of, prev_of. lia. Qed.

Lemma all_apart_app ns1 ns2 :
  all_apart (ns1 ++ ns2) ↔
  all_apart ns1 ∧ all_apart ns2 ∧ ∀ a b, a ∈ ns1 → b ∈ ns2 → apart a b.
Proof.
  induction ns1 as [|n ns1 IH]; simpl.
  - split; [intros H; split_and!; [done|done|set_solver] | naive_solver].
  - rewrite IH, Forall_app, !Forall_forall. set_solver.
Qed.

Lemma links_app m ps p qs :
  links m (ps ++ p :: qs) ↔ links m (ps ++ [p]) ∧ links m (p :: qs).
Proof.
  induction ps as [|a ps IH]; simpl; [tauto|].
  destruct ps; simpl in *; tauto.
Qed.

(** A chain of links survives changes to words it does not use. *)
Lemma links_frame m m' ns :
  links m ns →
  (∀ i a b, ns !! i = Some a → ns !! S i = Some b →
     m' !! next_of a = m !! next_of a ∧ m' !! prev_of b = m !! prev_of b) →
  links m' ns.
Proof.
  induction ns as [|a [|b ns] IH]; simpl; [done|done|]. intros [[H1 H2] Hl] Hf.
  destruct (Hf 0%nat a b) as [Hn Hp]; [done..|].
  split; [split; congruence|]. apply IH; [done|]. intros i x y. apply (Hf (S i)).
Qed.

Lemma links_frame_l m m' ps p :
  links m (ps ++ [p]) → (∀ n, n ∈ ps → m' !! next_of n = m !! next_of n) →
  (∀ n, n ∈ ps ++ [p] → m' !! prev_of n = m !! prev_of n) → links m' (ps ++ [p]).
Proof.
  intros Hl Hn Hp. eapply links_frame; [done|]. intros i a b Ha Hb. split.
  - apply Hn. apply lookup_lt_Some in Hb. rewrite length_app in Hb. simpl in Hb.
    rewrite lookup_app_l in Ha by lia. by eapply list_elem_of_lookup_2.
  - apply Hp. by eapply list_elem_of_lookup_2.
Qed.

Lemma links_frame_r m m' b bs :
  links m (b :: bs) → (∀ n, n ∈ b :: bs → m' !! next_of n = m !! next_of n) →
  (∀ n, n ∈ bs → m' !! prev_of n = m !! prev_of n) → links m' (b :: bs).
Proof.
  intros Hl Hn Hp. eapply links_frame; [done|]. intros i x y Hx Hy. split.
  - apply Hn. by eapply list_elem_of_lookup_2.
  - apply Hp. by eapply list_elem_of_lookup_2.
Qed.

(** Simplify a lookup through updates at addresses that are known to differ. *)
Ltac mem_simpl :=
  repeat first
    [ rewrite lookup_insert_eq
    | rewrite lookup_insert_ne by (unfold prev_of, next_of, apart in *; lia) ].

(** ** Insertion and removal between two neighbours *)

Definition insert_words (m : mem) (p e b : Z) : mem :=
  <[prev_of b := e]> (<[next_of e := b]> (<[prev_of e := p]> (<[next_of p := e]> m))).

Lemma insert_between m ps p e b bs :
  links m (ps ++ p :: b :: bs) → all_apart (ps ++ p :: e :: b :: bs) →
  links (insert_words m p e b) (ps ++ p :: e :: b :: bs).
Proof.
  intros Hl Ha. apply all_apart_app in Ha as (_ & Ha & Hps). simpl in Ha.
  rewrite !Forall_forall in Ha. destruct Ha as (Hp & He & Hb & Hbs).
  pose proof (Hp e ltac:(set_solver)) as Hpe. pose proof (Hp b ltac:(set_solver)) as Hpb.
  pose proof (He b ltac:(set_solver)) as Heb.
  apply links_app in Hl as [Hl1 [_ Hl2]]. unfold insert_words.
  apply links_app. split; [|split; [|split]].
  - eapply links_frame_l; [done| |]; intros n Hn.
    + pose proof (Hps n p Hn ltac:(set_solver)). pose proof (Hps n e Hn ltac:(set_solver)).
      pose proof (Hps n b Hn ltac:(set_solver)). by mem_simpl.
    + apply elem_of_app in Hn as [Hn|Hn].
      * pose proof (Hps n p Hn ltac:(set_solver)). pose proof (Hps n e Hn ltac:(set_solver)).
        pose proof (Hps n b Hn ltac:(set_solver)). by mem_simpl.
      * apply list_elem_of_singleton in Hn as ->. by mem_simpl.
  - split; by mem_simpl.
  - split; by mem_simpl.
  - eapply links_frame_r; [done| |]; intros n Hn.
    + pose proof (Hp n ltac:(set_solver)). pose proof (He n ltac:(set_solver)).
      assert (n = b ∨ apart b n) as [->|] by set_solver; by mem_simpl.
    + pose proof (Hp n ltac:(set_solver)). pose proof (He n ltac:(set_solver)).
      pose proof (Hb n Hn). by mem_simpl.
Qed.

Definition remove_words (m : mem) (p b : Z) : mem :=
  <[prev_of b := p]> (<[next_of p := b]> m).

Lemma remove_between m ps p e b bs :
  links m (ps ++ p :: e :: b :: bs) → all_apart (ps ++ p :: e :: b :: bs) →
  links (remove_words m p b) (ps ++ p :: b :: bs).
Proof.
  intros Hl Ha. apply all_apart_app in Ha as (_ & Ha & Hps). simpl in Ha.
  rewrite !Forall_forall in Ha. destruct Ha as (Hp & He & Hb & Hbs).
  pose proof (Hp b ltac:(set_solver)) as Hpb.
  apply links_app in Hl as [Hl1 [_ [_ Hl2]]]. unfold remove_words.
  apply links_app. split; [|split; [split; by mem_simpl|]].
  - eapply links_frame_l; [done| |]; intros n Hn.
    + pose proof (Hps n p Hn ltac:(set_solver)).
      pose proof (Hps n b Hn ltac:(set_solver)). by mem_simpl.
    + apply elem_of_app in Hn as [Hn|Hn].
      * pose proof (Hps n p Hn ltac:(set_solver)).
        pose proof (Hps n b Hn ltac:(set_solver)). by mem_simpl.
      * apply list_elem_of_singleton in Hn as ->. by mem_simpl.
  - eapply links_frame_r; [done| |]; intros n Hn.
    + pose proof (Hp n ltac:(set_solver)).
      assert (n = b ∨ apart b n) as [->|] by set_solver; by mem_simpl.
    + pose proof (Hp n ltac:(set_solver)). pose proof (Hb n Hn). by mem_simpl.
Qed.

(** ** The operations on whole lists *)

Lemma all_apart_perm ns ns' : ns ≡ₚ ns' → all_apart ns → all_apart ns'.
Proof.
  induction 1 as [|n ns ns' Hp IH|n n' ns|ns1 ns2 ns3 _ IH1 _ IH2]; simpl; [done| | |by auto].
  - rewrite !Forall_forall. intros [Hn Hns]. split; [|by apply IH].
    intros x Hx. apply Hn. by rewrite Hp.
  - rewrite !Forall_cons. intros ([Ha H1] & H2 & H3). split_and!; auto using apart_sym.
Qed.

Lemma last_cons_snoc {A} (x : A) xs : ∃ ys p, x :: xs = ys ++ [p].
Proof.
  induction xs as [|p ys _] using rev_ind; [by exists [], x|].
  exists (x :: ys), p. done.
Qed.

(** The nodes around the cut between [xs] and [ys]. *)
Lemma list_nodes_cut l xs ys :
  ∃ ps p bs, list_nodes l (xs ++ ys) = ps ++ p :: node_before l ys :: bs ∧
    ∀ zs, list_nodes l (xs ++ zs ++ ys) = ps ++ p :: zs ++ node_before l ys :: bs.
Proof.
  destruct (last_cons_snoc (head_of l) xs) as (ps & p & Hp).
  exists ps, p, (match ys with [] => [] | _ :: ys' => ys' ++ [tail_of l] end).
  assert (Hys : ys ++ [tail_of l] = node_before l ys ::
            match ys with [] => [] | _ :: ys' => ys' ++ [tail_of l] end) by by destruct ys.
  assert (H : ∀ zs, list_nodes l (xs ++ zs ++ ys) = ps ++ p :: zs ++ (ys ++ [tail_of l])).
  { intros zs. unfold list_nodes. rewrite <- !app_assoc, app_comm_cons, Hp, <- app_assoc.
    done. }
  split; [specialize (H []) | intros zs; specialize (H zs)]; simpl in H; by rewrite H, Hys.
Qed.

Lemma is_list_free m l xs n :
  is_list m l xs → n ∈ list_nodes l xs → n ≠ head_of l →
  is_Some (m !! prev_of n) ∧ is_Some (m !! next_of n).
Proof.
  intros (Hl & _ & Ht) Hn Hne. apply list_elem_of_split in Hn as (l1 & l2 & E).
  destruct l1 as [|x l1 _] using rev_ind; [unfold list_nodes in E; simpl in E; congruence|].
  rewrite E, <- app_assoc in Hl. apply links_app in Hl as [_ [[H1 H2] Hl]].
  split; [by eexists|]. destruct l2 as [|y l2]; [|destruct Hl as [[??] _]; by eexists].
  unfold list_nodes in E. rewrite app_comm_cons in E.
  apply app_inj_tail in E as [_ <-]. done.
Qed.

Lemma is_list_head m l xs : is_list m l xs → m !! next_of (head_of l) = Some (node_before l xs).
Proof. intros (Hl & _ & _). destruct xs; simpl in Hl; by destruct Hl as [[? ?] _]. Qed.

Lemma dom_insert_mapped (m : mem) a v : is_Some (m !! a) → dom (<[a := v]> m) = dom m.
Proof. intros H. rewrite dom_insert_L. apply elem_of_dom in H. set_solver. Qed.

Lemma list_insert_before_ok k l xs ys e :
  is_list (words k) l (xs ++ ys) → free_node (words k) e →
  all_apart (e :: list_nodes l (xs ++ ys)) →
  ∃ k', list_insert_before k (node_before l ys) e = Ok k' ∧
    is_list (words k') l (xs ++ e :: ys) ∧ cpu_restored k k' ∧
    same_outside (e :: list_nodes l (xs ++ ys)) (words k) (words k').
Proof.
  intros Hlist [He1 He2] Hap.
  destruct (list_nodes_cut l xs ys) as (ps & p & bs & Hcut & Hins).
  specialize (Hins [e]). simpl in Hins. set (b := node_before l ys) in *.
  assert (Hap' : all_apart (ps ++ p :: e :: b :: bs)).
  { eapply all_apart_perm; [|exact Hap]. rewrite Hcut. solve_Permutation. }
  pose proof Hlist as (Hl & _ & Ht). rewrite Hcut in Hl.
  assert (Hpb : linked (words k) p b) by (apply links_app in Hl as [_ [? _]]; done).
  destruct Hpb as [Hpn Hbp].
  pose proof Hap' as Hap2. apply all_apart_app in Hap2 as (_ & Hap2 & _).
  simpl in Hap2. rewrite !Forall_cons in Hap2.
  destruct Hap2 as ((Hpe & Hpb & _) & (Heb & _) & _).
  unfold list_insert_before. destruct (intr_disable (kcpu k)) as [old c] eqn:Ed.
  mrun (ld_ok _ _ _ Hbp). mrun (st_ok (words k) (next_of p) e ltac:(by eexists)).
  mrun (ld_ok (<[next_of p := e]> (words k)) (prev_of b) p ltac:(by mem_simpl)).
  mrun (st_ok (<[next_of p := e]> (words k)) (prev_of e) p ltac:(by auto with kernel)).
  mrun (st_ok (<[prev_of e:=p]> (<[next_of p := e]> (words k))) (next_of e) b
          ltac:(by auto with kernel)).
  mrun (st_ok (<[next_of e:=b]> (<[prev_of e:=p]> (<[next_of p := e]> (words k))))
          (prev_of b) e ltac:(eauto 10 with kernel)).
  eexists. split; [done|]. simpl. fold (insert_words (words k) p e b).
  split; [|split; [unfold cpu_restored; by rewrite Ed|split]].
  - unfold is_list. rewrite Hins. split_and!; [by apply insert_between|done|].
    unfold insert_words. auto with kernel.
  - unfold insert_words. rewrite !dom_insert_mapped; eauto 10 with kernel.
  - intros a Ha. rewrite Hcut in Ha.
    destruct (Ha p ltac:(set_solver)), (Ha e ltac:(set_solver)), (Ha b ltac:(set_solver)).
    unfold insert_words. by rewrite !lookup_insert_ne.
Qed.

Lemma list_remove_ok k l xs e ys :
  is_list (words k) l (xs ++ e :: ys) →
  ∃ k', list_remove k e = Ok k' ∧ is_list (words k') l (xs ++ ys) ∧ cpu_restored k k' ∧
    same_outside (list_nodes l (xs ++ ys)) (words k) (words k').
Proof.
  intros Hlist. destruct (list_nodes_cut l xs ys) as (ps & p & bs & Hcut & Hins).
  specialize (Hins [e]). simpl in Hins. set (b := node_before l ys) in *.
  pose proof Hlist as (Hl & Hap & Ht). rewrite Hins in Hl, Hap.
  pose proof Hl as Hl2. apply links_app in Hl2 as [_ ([Hpn Hep] & [Hen Hbp] & _)].
  pose proof Hap as Hap2. apply all_apart_app in Hap2 as (Haps & Hap2 & Hps).
  simpl in Hap2. rewrite !Forall_cons in Hap2.
  destruct Hap2 as ((Hpe & Hpb & Hpbs) & (Heb & _) & (Hb & Hbs)).
  unfold list_remove. destruct (intr_disable (kcpu k)) as [old c] eqn:Ed.
  mrun (ld_ok _ _ _ Hep). mrun (ld_ok _ _ _ Hen).
  mrun (st_ok (words k) (next_of p) b ltac:(by eexists)).
  mrun (ld_ok (<[next_of p := b]> (words k)) (next_of e) b ltac:(by mem_simpl)).
  mrun (ld_ok (<[next_of p := b]> (words k)) (prev_of e) p ltac:(by mem_simpl)).
  mrun (st_ok (<[next_of p := b]> (words k)) (prev_of b) p ltac:(eauto with kernel)).
  eexists. split; [done|]. simpl. fold (remove_words (words k) p b).
  split; [|split; [unfold cpu_restored; by rewrite Ed|split]].
  - unfold is_list. rewrite Hcut. split_and!; [by eapply remove_between| |].
    + apply all_apart_app. split_and!; [done| |set_solver]. simpl. by rewrite !Forall_cons.
    + unfold remove_words. auto with kernel.
  - unfold remove_words. rewrite !dom_insert_mapped; eauto with kernel.
  - intros a Ha. rewrite Hcut in Ha.
    destruct (Ha p ltac:(set_solver)), (Ha b ltac:(set_solver)).
    unfold remove_words. by rewrite !lookup_insert_ne.
Qed.

(** ** Walking a list *)

(** After [x], the walk is at the node before which the rest of the list starts. *)
Lemma is_list_next m l xs x ys :
  is_list m l (xs ++ x :: ys) → m !! next_of x = Some (node_before l ys).
Proof.
  intros (Hl & _ & _). unfold list_nodes in Hl. rewrite <- app_assoc in Hl.
  apply (links_app m (head_of l :: xs) x (ys ++ [tail_of l])) in Hl as [_ Hl]. destruct ys; simpl in Hl; by destruct Hl as [[? ?] _].
Qed.

Lemma is_list_not_tail m l xs x : is_list m l xs → x ∈ xs → x ≠ tail_of l.
Proof.
  intros (_ & Hap & _) Hx ->. unfold list_nodes in Hap. rewrite app_comm_cons in Hap.
  apply all_apart_app in Hap as (_ & _ & Hap).
  specialize (Hap (tail_of l) (tail_of l) ltac:(set_solver) ltac:(set_solver)).
  unfold apart in Hap. lia.
Qed.

Lemma is_list_nodup m l xs : is_list m l xs → NoDup xs.
Proof.
  intros (_ & Hap & _). unfold list_nodes in Hap. destruct Hap as [_ Hap].
  apply all_apart_app in Hap as (Hap & _ & _).
  induction xs as [|x xs IH]; simpl in Hap; constructor; destruct Hap as [Hx Hap]; auto.
  rewrite Forall_forall in Hx. intros Hin. specialize (Hx x Hin). unfold apart in Hx. lia.
Qed.

Lemma elem_find_loop_ok fuel m l xs ys e :
  is_list m l (xs ++ ys) → (length ys < fuel)%nat →
  elem_find_loop fuel m l e (node_before l ys) = Ok (bool_decide (e ∈ ys)).
Proof.
  revert xs fuel. induction ys as [|y ys IH]; intros xs fuel Hl Hf;
    (destruct fuel as [|fuel]; [simpl in Hf; lia|]); cbn [elem_find_loop node_before].
  - by rewrite Z.eqb_refl.
  - destruct (Z.eqb_spec y (tail_of l)); [exfalso; apply (is_list_not_tail _ l _ y Hl); [set_solver|done]|].
    destruct (Z.eqb_spec y e) as [->|Hne].
    + by rewrite bool_decide_true by set_solver.
    + mrun (ld_ok _ _ _ (is_list_next _ _ _ _ _ Hl)).
      rewrite (IH (xs ++ [y])); [|by rewrite <- app_assoc|simpl in Hf; lia].
      f_equal. apply bool_decide_ext. set_solver.
Qed.

Lemma list_len_loop_ok fuel m l xs ys n :
  is_list m l (xs ++ ys) → (length ys < fuel)%nat → 0 ≤ n → n + zlen ys < 4294967296 →
  list_len_loop fuel m l (node_before l ys) n = Ok (n + zlen ys).
Proof.
  unfold zlen. revert xs fuel n. induction ys as [|y ys IH]; intros xs fuel n Hl Hf Hn Hb;
    (destruct fuel as [|fuel]; [simpl in Hf; lia|]); cbn [list_len_loop node_before].
  - rewrite Z.eqb_refl. f_equal. simpl. lia.
  - destruct (Z.eqb_spec y (tail_of l)); [exfalso; apply (is_list_not_tail _ l _ y Hl); [set_solver|done]|].
    mrun (ld_ok _ _ _ (is_list_next _ _ _ _ _ Hl)). simpl in *.
    rewrite u32_small by lia.
    rewrite (IH (xs ++ [y])); [f_equal; lia|by rewrite <- app_assoc|lia|lia|lia].
Qed.

(** Walking with a callback that leaves the list alone is [traverse]. *)
Lemma traversal_loop_ok {S} (mem_of : S → mem) func l all xs ys fuel s :
  (∀ s x r s', x ∈ all → is_list (mem_of s) l all → func s x = Ok (r, s') →
     is_list (mem_of s') l all) →
  all = xs ++ ys → is_list (mem_of s) l all → (length ys < fuel)%nat →
  traversal_loop fuel mem_of func s l (node_before l ys) = traverse func s ys.
Proof.
  intros Hfunc. revert xs fuel s. induction ys as [|y ys IH]; intros xs fuel s -> Hl Hf;
    (destruct fuel as [|fuel]; [simpl in Hf; lia|]); cbn [traversal_loop node_before traverse].
  - by rewrite Z.eqb_refl.
  - destruct (Z.eqb_spec y (tail_of l)); [exfalso; apply (is_list_not_tail _ l _ y Hl); [set_solver|done]|].
    destruct (func s y) as [[r s']| | | |] eqn:Ef; try done. cbn [mbind outcome_bind].
    destruct r; [done|]. pose proof (Hfunc s y false s' ltac:(set_solver) Hl Ef) as Hl'.
    mrun (ld_ok _ _ _ (is_list_next _ _ _ _ _ Hl')).
    apply (IH (xs ++ [y])); [by rewrite <- app_assoc|done|simpl in Hf; lia].
Qed.

(** ** Properties *)

(** [list_init] makes an empty list out of any four mapped words. *)
Theorem list_init_empty (k : kmach) (l : Z) :
  free_node (words k) (head_of l) → free_node (words k) (tail_of l) →
  ∃ k', list_init k l = Ok k' ∧ is_list (words k') l [] ∧ kcpu k' = kcpu k ∧
        list_empty k' l = Ok true.
Proof.
  intros [H1 H2] [H3 H4]. unfold list_init.
  mrun (st_ok (words k) (prev_of (head_of l)) NULL H1).
  do 3 (rewrite st_ok by eauto with kernel; cbn [mbind outcome_bind]).
  eexists. split; [done|]. unfold head_of, tail_of, prev_of, next_of in *.
  split_and!; [|done|].
  - unfold is_list, list_nodes, head_of, tail_of, linked, prev_of, next_of. simpl.
    split; [|split; [repeat constructor; unfold apart; lia | by rewrite lookup_insert_eq]].
    split; [split; unfold next_of, prev_of; by mem_simpl | done].
  - unfold list_empty, ld, head_of, tail_of, next_of. simpl. mem_simpl. simpl.
    by rewrite Z.eqb_refl.
Qed.

(** Memory with [n] mapped zero words from address 4096 on, for the examples. *)
Definition sample_mem (n : nat) : mem :=
  list_to_map (map (λ i, (4096 + 4 * Z.of_nat i, 0)) (seq 0 n)).
Definition sample_mach (n : nat) : kmach := KMach (sample_mem n) (Cpu 0x202).

Lemma list_init_empty_witness :
  ∃ k', list_init (sample_mach 4) 4096 = Ok k' ∧ is_list (words k') 4096 [] ∧
        kcpu k' = kcpu (sample_mach 4) ∧ list_empty k' 4096 = Ok true.
Proof.
  apply (list_init_empty (sample_mach 4) 4096); split; vm_compute; eauto.
Defined.

(** Inserting refines the abstract lists.  For a list holding [xs] and a mapped
    node [e] apart from it, [list_push] gives [e :: xs] and [list_append] gives
    [xs ++ [e]]; both change no word outside the nodes involved and restore the
    interrupt flag. *)
Theorem list_push_append_refine (k : kmach) (l : Z) (xs : list Z) (e : Z) :
  is_list (words k) l xs → free_node (words k) e → all_apart (e :: list_nodes l xs) →
  (∃ k', list_push k l e = Ok k' ∧ is_list (words k') l (e :: xs) ∧ cpu_restored k k' ∧
         same_outside (e :: list_nodes l xs) (words k) (words k')) ∧
  (∃ k', list_append k l e = Ok k' ∧ is_list (words k') l (xs ++ [e]) ∧ cpu_restored k k' ∧
         same_outside (e :: list_nodes l xs) (words k) (words k')).
Proof.
  intros Hl He Hap. split.
  - unfold list_push. mrun (ld_ok _ _ _ (is_list_head _ _ _ Hl)).
    exact (list_insert_before_ok k l [] xs e Hl He Hap).
  - pose proof (list_insert_before_ok k l xs [] e) as H. rewrite app_nil_r in H. auto.
Qed.

(** A list of two nodes at 4096, its nodes at 4112 and 4120, and a spare node at 4128. *)
Definition sample_list : kmach :=
  KMach (list_to_map [(4096, 0); (4100, 4112); (4104, 4120); (4108, 0);
                      (4112, 4096); (4116, 4120); (4120, 4112); (4124, 4104);
                      (4128, 0); (4132, 0)]) (Cpu 0x202).

Lemma sample_list_ok :
  is_list (words sample_list) 4096 [4112; 4120] ∧ free_node (words sample_list) 4128 ∧
  all_apart (4128 :: list_nodes 4096 [4112; 4120]).
Proof.
  split_and!; [split_and!; [repeat split| |by eexists] |split; by eexists|];
    simpl; repeat constructor; unfold apart, head_of, tail_of; lia.
Defined.

Lemma list_push_append_refine_witness :
  (∃ k', list_push sample_list 4096 4128 = Ok k' ∧
         is_list (words k') 4096 [4128; 4112; 4120]) ∧
  (∃ k', list_append sample_list 4096 4128 = Ok k' ∧
         is_list (words k') 4096 [4112; 4120; 4128]).
Proof.
  destruct sample_list_ok as (H1 & H2 & H3).
  destruct (list_push_append_refine sample_list 4096 [4112; 4120] 4128 H1 H2 H3)
    as [(k1 & ? & ? & _) (k2 & ? & ? & _)].
  split; eauto.
Defined.

(** Removing refines the abstract lists.  [list_remove] takes the given node
    out, [list_pop] returns the front node of a non-empty list and leaves the
    rest; both touch the list's own nodes only and restore the interrupt flag. *)
Theorem list_remove_pop_refine (k : kmach) (l : Z) (xs : list Z) (e : Z) (ys : list Z) :
  is_list (words k) l (xs ++ e :: ys) →
  (∃ k', list_remove k e = Ok k' ∧ is_list (words k') l (xs ++ ys) ∧ cpu_restored k k' ∧
         same_outside (list_nodes l (xs ++ ys)) (words k) (words k')) ∧
  (xs = [] → ∃ k', list_pop k l = Ok (e, k') ∧ is_list (words k') l ys ∧
                   cpu_restored k k').
Proof.
  intros Hl. split; [by apply list_remove_ok|]. intros ->. simpl in Hl. unfold list_pop.
  mrun (ld_ok _ _ _ (is_list_head _ _ _ Hl)). simpl.
  destruct (list_remove_ok k l [] e ys Hl) as (k' & Hk' & ? & ? & _). mrun Hk'. eauto.
Qed.

Lemma list_remove_pop_refine_witness :
  (∃ k', list_remove sample_list 4112 = Ok k' ∧ is_list (words k') 4096 [4120]) ∧
  (∃ k', list_pop sample_list 4096 = Ok (4112, k') ∧ is_list (words k') 4096 [4120]).
Proof.
  destruct sample_list_ok as (H1 & _ & _).
  destruct (list_remove_pop_refine sample_list 4096 [] 4112 [4120] H1)
    as [(k1 & ? & ? & _) H].
  destruct H as (k2 & ? & ? & _); [done|]. split; eauto.
Defined.

(** Searching and walking.  On a list holding [xs], with one unit of fuel more
    than the list is long, [elem_find] decides membership, [list_len] counts, and
    [list_traversal] with a callback that keeps the list is the left-to-right
    search [traverse]. *)
Theorem list_walk_refine {S} (k : kmach) (l : Z) (xs : list Z) (fuel : nat)
    (mem_of : S → mem) (func : S → Z → outcome (bool * S)) (s : S) (e : Z) :
  is_list (words k) l xs → is_list (mem_of s) l xs → (length xs < fuel)%nat →
  zlen xs < 4294967296 →
  (∀ s x r s', x ∈ xs → is_list (mem_of s) l xs → func s x = Ok (r, s') →
     is_list (mem_of s') l xs) →
  elem_find fuel k l e = Ok (bool_decide (e ∈ xs)) ∧
  list_len fuel k l = Ok (zlen xs) ∧
  list_traversal fuel mem_of func s l = traverse func s xs.
Proof.
  intros Hl Hs Hf Hz Hfunc. split_and!.
  - unfold elem_find. mrun (ld_ok _ _ _ (is_list_head _ _ _ Hl)).
    by apply (elem_find_loop_ok fuel (words k) l [] xs).
  - unfold list_len. mrun (ld_ok _ _ _ (is_list_head _ _ _ Hl)).
    by apply (list_len_loop_ok fuel (words k) l [] xs).
  - unfold list_traversal. mrun (ld_ok _ _ _ (is_list_head _ _ _ Hs)).
    destruct (Z.eqb_spec (node_before l xs) (tail_of l)) as [E|].
    + destruct xs as [|x xs]; [done|]. exfalso.
      by apply (is_list_not_tail _ l _ x Hs); [set_solver|].
    + by eapply (traversal_loop_ok mem_of func l xs [] xs).
Qed.

Lemma list_walk_refine_witness :
  elem_find 3 sample_list 4096 4120 = Ok (bool_decide (4120 ∈ [4112; 4120])) ∧
  list_len 3 sample_list 4096 = Ok (zlen [4112; 4120]) ∧
  list_traversal 3 words (λ k x, Ok (x =? 4120, k)) sample_list 4096 = Ok (4120, sample_list).
Proof.
  destruct sample_list_ok as (H1 & _ & _).
  rewrite (proj2 (proj2 (list_walk_refine sample_list 4096 [4112; 4120] 3 words
             (λ k x, Ok (x =? 4120, k)) sample_list 4120 H1 H1 ltac:(simpl; lia)
             ltac:(done) ltac:(naive_solver)))).
  split_and!; reflexivity.
Defined.
