(* ===== verification/Sched.v ===== *)
(** * Threads and the scheduler (thread/thread.h, thread/thread.c, device/timer.c)

    Threads are named by the address of their PCB page.  The ready and the
    all-threads queue are the abstract lists of [KList], front first: appending,
    pushing, popping, removing and searching are what [KList] proves of the
    pointer operations on [general_tag] and [all_list_tag].

    [switch_to] saves the kernel stack of one thread and continues on the stack
    of another.  What a suspended thread has left to do before it is back in the
    code that called the scheduler is its continuation [kont]: restore the
    interrupt status kept in a local of [thread_block] or [thread_yield], return
    from the timer interrupt, or enter [kernel_thread] for the first time. *)

From S2P Require Import Prelude Interrupt Bitmap.

(** ** Data *)

Inductive task_status :=
| TASK_RUNNING | TASK_READY | TASK_BLOCKED | TASK_WAITING | TASK_HANGING | TASK_DIED.

#[global] Instance task_status_eq_dec : EqDecision task_status.
Proof. solve_decision. Defined.

Record virtual_addr := VirtualAddr { vaddr_bitmap : bitmap; vaddr_start : Z }.

Record task := Task {
  self_kstack : Z;
  pid : Z;
  status : task_status;
  priority : Z;
  name : list Z;
  tricks : Z;
  elapsed_tricks : Z;
  fd_table : list Z;
  pgdir : Z;
  userprog_vaddr : virtual_addr;
  cwd_inode_nr : Z;
  parent_pid : Z;
  exit_status : Z;
  stack_magic : Z;
}.

Definition set_status (v : task_status) (t : task) : task :=
  Task (self_kstack t) (pid t) v (priority t) (name t) (tricks t) (elapsed_tricks t)
       (fd_table t) (pgdir t) (userprog_vaddr t) (cwd_inode_nr t) (parent_pid t)
       (exit_status t) (stack_magic t).
Definition set_tricks (v : Z) (t : task) : task :=
  Task (self_kstack t) (pid t) (status t) (priority t) (name t) v (elapsed_tricks t)
       (fd_table t) (pgdir t) (userprog_vaddr t) (cwd_inode_nr t) (parent_pid t)
       (exit_status t) (stack_magic t).
Definition set_elapsed (v : Z) (t : task) : task :=
  Task (self_kstack t) (pid t) (status t) (priority t) (name t) (tricks t) v
       (fd_table t) (pgdir t) (userprog_vaddr t) (cwd_inode_nr t) (parent_pid t)
       (exit_status t) (stack_magic t).

Inductive kont :=
| KReturn (old_status : intr_status)  (** after [schedule()] in thread_block, thread_yield *)
| KIret                               (** after [schedule()] in intr_timer_handler *)
| KStart.                             (** [kernel_thread]: intr_enable, then the function *)

Record tstate := TState {
  tasks : gmap Z task;
  thread_ready_list : list Z;
  thread_all_list : list Z;
  running : Z;                        (** [running_thread()] *)
  main_thread : Z;
  idle_thread : Z;
  konts : gmap Z kont;
  tcpu : cpu;
  cr3 : Z;
  tss_esp0 : Z;
  ticks : Z;
}.

Definition with_tasks (v : gmap Z task) (s : tstate) : tstate :=
  TState v (thread_ready_list s) (thread_all_list s) (running s) (main_thread s)
         (idle_thread s) (konts s) (tcpu s) (cr3 s) (tss_esp0 s) (ticks s).
Definition with_ready (v : list Z) (s : tstate) : tstate :=
  TState (tasks s) v (thread_all_list s) (running s) (main_thread s)
         (idle_thread s) (konts s) (tcpu s) (cr3 s) (tss_esp0 s) (ticks s).
Definition with_cpu (v : cpu) (s : tstate) : tstate :=
  TState (tasks s) (thread_ready_list s) (thread_all_list s) (running s) (main_thread s)
         (idle_thread s) (konts s) v (cr3 s) (tss_esp0 s) (ticks s).
Definition with_ticks (v : Z) (s : tstate) : tstate :=
  TState (tasks s) (thread_ready_list s) (thread_all_list s) (running s) (main_thread s)
         (idle_thread s) (konts s) (tcpu s) (cr3 s) (tss_esp0 s) v.
Definition with_konts (v : gmap Z kont) (s : tstate) : tstate :=
  TState (tasks s) (thread_ready_list s) (thread_all_list s) (running s) (main_thread s)
         (idle_thread s) v (tcpu s) (cr3 s) (tss_esp0 s) (ticks s).
Definition with_mmu (c e : Z) (s : tstate) : tstate :=
  TState (tasks s) (thread_ready_list s) (thread_all_list s) (running s) (main_thread s)
         (idle_thread s) (konts s) (tcpu s) c e (ticks s).
Definition with_running (v : Z) (s : tstate) : tstate :=
  TState (tasks s) (thread_ready_list s) (thread_all_list s) v (main_thread s)
         (idle_thread s) (konts s) (tcpu s) (cr3 s) (tss_esp0 s) (ticks s).

Definition get_task (s : tstate) (t : Z) : outcome task := of_opt (tasks s !! t).
Definition upd_task (f : task → task) (t : Z) (s : tstate) : tstate :=
  with_tasks (alter f t (tasks s)) s.

Definition PG_SIZE : Z := 4096.

(** ** Operations *)

Section Scheduler.
(** [addr_v2p] of kernel/memory.c, for the address spaces of the state. *)
Context (addr_v2p : Z → Z).

Definition page_dir_activate (p_thread : Z) (t : task) (s : tstate) : tstate :=
  let pagedir_phy_addr := if pgdir t =? 0 then 0x100000 else addr_v2p (pgdir t) in
  with_mmu pagedir_phy_addr (tss_esp0 s) s.

Definition update_tss_esp (pthread : Z) (s : tstate) : tstate :=
  with_mmu (cr3 s) (u32 (pthread + PG_SIZE)) s.

Definition process_activate (p_thread : Z) (t : task) (s : tstate) : tstate :=
  let s := page_dir_activate p_thread t s in
  if pgdir t =? 0 then s else update_tss_esp p_thread s.

(** What the thread that [switch_to] continues does first. *)
Definition resume (s : tstate) : tstate :=
  match konts s !! running s with
  | Some (KReturn old) => with_cpu (intr_restore old (tcpu s)) s
  | Some KIret => with_cpu (sti (tcpu s)) s
  | Some KStart | None => with_cpu (snd (intr_enable (tcpu s))) s
  end.

Definition thread_unblock (pthread : Z) (s : tstate) : outcome tstate :=
  let '(old_status, c) := intr_disable (tcpu s) in
  let s := with_cpu c s in
  t ← get_task s pthread;
  s ← (if decide (status t = TASK_READY) then Ok s
       else if decide (pthread ∈ thread_ready_list s) then Panic
       else Ok (upd_task (set_status TASK_READY) pthread
                  (with_ready (pthread :: thread_ready_list s) s)));
  Ok (with_cpu (intr_restore old_status (tcpu s)) s).

(** [schedule] as called with the continuation [k] on the current thread. *)
Definition schedule (k : kont) (s : tstate) : outcome tstate :=
  let cur := running s in
  tc ← get_task s cur;
  let s :=
    if decide (status tc = TASK_RUNNING) then
      upd_task (λ t, set_status TASK_READY (set_tricks (priority t) t)) cur
        (with_ready (thread_ready_list s ++ [cur]) s)
    else s in
  s ← (match thread_ready_list s with
       | [] => thread_unblock (idle_thread s) s
       | _ => Ok s
       end);
  match thread_ready_list s with
  | [] => Fault
  | next :: rest =>
      let s := with_ready rest s in
      tn ← get_task s next;
      let s := upd_task (set_status TASK_RUNNING) next s in
      let s := process_activate next tn s in
      let s := with_running next (with_konts (<[cur := k]> (konts s)) s) in
      Ok (resume s)
  end.

Definition thread_block (stat : task_status) (s : tstate) : outcome tstate :=
  let '(old_status, c) := intr_disable (tcpu s) in
  let s := with_cpu c s in
  _ ← get_task s (running s);
  schedule (KReturn old_status) (upd_task (set_status stat) (running s) s).

Definition thread_yield (s : tstate) : outcome tstate :=
  let cur := running s in
  let '(old_status, c) := intr_disable (tcpu s) in
  let s := with_cpu c s in
  _ ← get_task s cur;
  schedule (KReturn old_status)
    (upd_task (set_status TASK_READY) cur (with_ready (thread_ready_list s ++ [cur]) s)).

(** The clock interrupt; the processor has cleared the interrupt flag on entry. *)
Definition intr_timer_handler (s : tstate) : outcome tstate :=
  let s := with_cpu (cli (tcpu s)) s in
  let cur_thread := running s in
  t ← get_task s cur_thread;
  let s := upd_task (λ t, set_elapsed (u32 (elapsed_tricks t + 1)) t) cur_thread s in
  let s := with_ticks (u32 (ticks s + 1)) s in
  if tricks t =? 0 then schedule KIret s
  else Ok (with_cpu (sti (tcpu s)) (upd_task (λ t, set_tricks (u8 (tricks t - 1)) t) cur_thread s)).

End Scheduler.

(** ** The scheduler's invariant *)

Definition status_of (s : tstate) (t : Z) : option task_status := status <$> tasks s !! t.

(** Between two runs of the scheduler exactly the current thread is RUNNING, the
    ready queue holds exactly the READY threads, each once, and the idle thread
    exists and is runnable or blocked. *)
Record sched_inv (s : tstate) : Prop := {
  inv_running : ∀ t, status_of s t = Some TASK_RUNNING ↔ t = running s;
  inv_ready : ∀ t, status_of s t = Some TASK_READY ↔ t ∈ thread_ready_list s;
  inv_nodup : NoDup (thread_ready_list s);
  inv_idle : status_of s (idle_thread s) ∈
    [Some TASK_RUNNING; Some TASK_READY; Some TASK_BLOCKED];
}.

(** The statuses a thread can be blocked in. *)
Definition blocked_status (st : task_status) : Prop :=
  st = TASK_BLOCKED ∨ st = TASK_WAITING ∨ st = TASK_HANGING.

#[global] Instance blocked_status_dec st : Decision (blocked_status st).
Proof. unfold blocked_status. solve_decision. Defined.

(** What [schedule] may be called with: the current thread may be in any status,
    no other thread is RUNNING, and the ready queue is exact. *)
Record sched_pre (s : tstate) : Prop := {
  pre_running : ∀ t, status_of s t = Some TASK_RUNNING → t = running s;
  pre_current : is_Some (tasks s !! running s);
  pre_ready : ∀ t, status_of s t = Some TASK_READY ↔ t ∈ thread_ready_list s;
  pre_nodup : NoDup (thread_ready_list s);
  pre_idle : status_of s (idle_thread s) ∈
    [Some TASK_RUNNING; Some TASK_READY; Some TASK_BLOCKED];
}.

(** The queue [schedule] takes the front of. *)
Definition run_queue (s : tstate) : list Z :=
  let q := thread_ready_list s ++
           (if decide (status_of s (running s) = Some TASK_RUNNING) then [running s] else []) in
  match q with [] => [idle_thread s] | _ => q end.

(** ** Lemmas *)

Lemma status_of_set v t t' s :
  status_of (upd_task (set_status v) t s) t' =
  if decide (t = t') then (λ _, v) <$> status_of s t' else status_of s t'.
Proof.
  unfold status_of, upd_task. simpl. rewrite lookup_alter.
  case_decide; [subst; by destruct (tasks s !! t')|done].
Qed.

Lemma status_of_set_ready t t' s :
  status_of (upd_task (λ t, set_status TASK_READY (set_tricks (priority t) t)) t s) t' =
  if decide (t = t') then (λ _, TASK_READY) <$> status_of s t' else status_of s t'.
Proof.
  unfold status_of, upd_task. simpl. rewrite lookup_alter.
  case_decide; [subst; by destruct (tasks s !! t')|done].
Qed.

Lemma status_of_elapsed v t t' s :
  status_of (upd_task (λ t, set_elapsed (v t) t) t s) t' = status_of s t'.
Proof.
  unfold status_of, upd_task. simpl. rewrite lookup_alter.
  case_decide; [subst; by destruct (tasks s !! t')|done].
Qed.

Lemma status_of_tricks v t t' s :
  status_of (upd_task (λ t, set_tricks (v t) t) t s) t' = status_of s t'.
Proof.
  unfold status_of, upd_task. simpl. rewrite lookup_alter.
  case_decide; [subst; by destruct (tasks s !! t')|done].
Qed.

(** Updates of the other fields do not change statuses. *)
Lemma status_of_with_ready v s t : status_of (with_ready v s) t = status_of s t.
Proof. done. Qed.
Lemma status_of_with_cpu v s t : status_of (with_cpu v s) t = status_of s t.
Proof. done. Qed.
Lemma status_of_with_ticks v s t : status_of (with_ticks v s) t = status_of s t.
Proof. done. Qed.
Lemma status_of_with_konts v s t : status_of (with_konts v s) t = status_of s t.
Proof. done. Qed.
Lemma status_of_with_mmu c e s t : status_of (with_mmu c e s) t = status_of s t.
Proof. done. Qed.
Lemma status_of_with_running v s t : status_of (with_running v s) t = status_of s t.
Proof. done. Qed.

Create Rewrite HintDb sched.
#[export] Hint Rewrite status_of_set status_of_set_ready status_of_elapsed status_of_tricks
  status_of_with_ready status_of_with_cpu status_of_with_ticks status_of_with_konts
  status_of_with_mmu status_of_with_running : sched.

Ltac sched_simpl := autorewrite with sched.

Lemma resume_fields s :
  tasks (resume s) = tasks s ∧ thread_ready_list (resume s) = thread_ready_list s ∧
  running (resume s) = running s ∧ idle_thread (resume s) = idle_thread s ∧
  thread_all_list (resume s) = thread_all_list s ∧ konts (resume s) = konts s ∧
  main_thread (resume s) = main_thread s.
Proof. unfold resume. by destruct (konts s !! running s) as [[| |]|]. Qed.

Lemma status_of_mapped s t st : status_of s t = Some st → ∃ tk, tasks s !! t = Some tk ∧ status tk = st.
Proof. unfold status_of. intros H. apply fmap_Some in H as (tk & ? & ->). eauto. Qed.

Lemma status_of_is_Some s t : is_Some (tasks s !! t) ↔ is_Some (status_of s t).
Proof. unfold status_of. by rewrite fmap_is_Some. Qed.

(** The first half of [schedule]: the current thread goes back to the queue. *)
Definition requeue (s : tstate) : tstate :=
  if decide (status_of s (running s) = Some TASK_RUNNING) then
    upd_task (λ t, set_status TASK_READY (set_tricks (priority t) t)) (running s)
      (with_ready (thread_ready_list s ++ [running s]) s)
  else s.

Lemma requeue_pre s :
  sched_pre s →
  sched_pre (requeue s) ∧ running (requeue s) = running s ∧
  idle_thread (requeue s) = idle_thread s ∧
  status_of (requeue s) (running s) ≠ Some TASK_RUNNING ∧
  thread_ready_list (requeue s) = thread_ready_list s ++
    (if decide (status_of s (running s) = Some TASK_RUNNING) then [running s] else []).
Proof.
  intros [Hr Hc Hq Hn Hi]. unfold requeue. case_decide as E; [|by rewrite app_nil_r].
  assert (Hnin : running s ∉ thread_ready_list s) by (rewrite <- Hq, E; done).
  split; [|sched_simpl; by rewrite decide_True, E].
  split; simpl.
  - intros t. sched_simpl. case_decide; [subst; by rewrite E|apply Hr].
  - rewrite lookup_alter_eq. by apply fmap_is_Some.
  - intros t. sched_simpl. rewrite elem_of_app, list_elem_of_singleton, <- Hq.
    case_decide; [subst; rewrite E; simpl; naive_solver | naive_solver].
  - apply NoDup_app. split_and!; [done|set_solver|apply NoDup_singleton].
  - sched_simpl. case_decide as E2; [|done]. rewrite <- E2, E. simpl. set_solver.
Qed.

Lemma thread_unblock_ok s t st :
  sched_pre s → status_of s t = Some st → st ≠ TASK_READY →
  t ≠ running s ∨ status_of s (running s) ≠ Some TASK_RUNNING →
  ∃ s', thread_unblock t s = Ok s' ∧ sched_pre s' ∧
    thread_ready_list s' = t :: thread_ready_list s ∧ running s' = running s ∧
    idle_thread s' = idle_thread s ∧ konts s' = konts s ∧
    intr_get_status (tcpu s') = intr_get_status (tcpu s) ∧
    (∀ t', status_of s' t' = if decide (t = t') then Some TASK_READY else status_of s t').
Proof.
  intros [Hr Hc Hq Hn Hi] Hst Hne Hrun. unfold thread_unblock.
  destruct (intr_disable (tcpu s)) as [old c] eqn:Ed.
  destruct (status_of_mapped _ _ _ Hst) as (tk & Ht & <-).
  unfold get_task. simpl. rewrite Ht. cbn [of_opt mbind outcome_bind].
  assert (Hnin : t ∉ thread_ready_list s) by (rewrite <- Hq, Hst; congruence).
  rewrite decide_False, decide_False by done. simpl. eexists. split; [done|].
  assert (Hs : ∀ t', status_of (with_cpu (intr_restore old c)
      (upd_task (set_status TASK_READY) t (with_ready (t :: thread_ready_list s) (with_cpu c s)))) t'
      = if decide (t = t') then Some TASK_READY else status_of s t').
  { intros t'. sched_simpl. case_decide; [subst; by rewrite Hst|done]. }
  split_and!; try done.
  - split; simpl.
    + intros t'. rewrite Hs. case_decide; [done|apply Hr].
    + rewrite lookup_alter. case_decide; [by apply fmap_is_Some; subst|done].
    + intros t'. rewrite Hs, elem_of_cons, <- Hq. case_decide; naive_solver.
    + by constructor.
    + rewrite Hs. case_decide; [set_solver|done].
  - simpl. rewrite intr_restore_status. change old with (fst (old, c)). rewrite <- Ed.
    apply intr_disable_fst.
Qed.

Lemma get_task_ok s t tk : tasks s !! t = Some tk → get_task s t = Ok tk.
Proof. unfold get_task. by intros ->. Qed.

Lemma requeue_eq s tc :
  tasks s !! running s = Some tc →
  (if decide (status tc = TASK_RUNNING) then
     upd_task (λ t, set_status TASK_READY (set_tricks (priority t) t)) (running s)
       (with_ready (thread_ready_list s ++ [running s]) s)
   else s) = requeue s.
Proof.
  intros H. unfold requeue, status_of. rewrite H. simpl.
  repeat case_decide; try done; congruence.
Qed.

Section SchedulerFacts.
Context (v2p : Z → Z).

Lemma status_of_process_activate p t s t' :
  status_of (process_activate v2p p t s) t' = status_of s t'.
Proof. unfold process_activate, page_dir_activate, update_tss_esp. by destruct (pgdir t =? 0). Qed.

Lemma status_of_resume s t' : status_of (resume s) t' = status_of s t'.
Proof. unfold status_of. by destruct (resume_fields s) as [-> _]. Qed.

Lemma process_activate_fields p t s :
  tasks (process_activate v2p p t s) = tasks s ∧
  thread_ready_list (process_activate v2p p t s) = thread_ready_list s ∧
  running (process_activate v2p p t s) = running s ∧
  idle_thread (process_activate v2p p t s) = idle_thread s ∧
  konts (process_activate v2p p t s) = konts s ∧ tcpu (process_activate v2p p t s) = tcpu s.
Proof. unfold process_activate, page_dir_activate, update_tss_esp. by destruct (pgdir t =? 0). Qed.

(** The dispatch half of [schedule]: the front of the queue runs. *)
Lemma dispatch_ok s k next rest :
  sched_pre s → status_of s (running s) ≠ Some TASK_RUNNING →
  thread_ready_list s = next :: rest →
  ∃ tn, tasks s !! next = Some tn ∧
    let s1 := process_activate v2p next tn
                (upd_task (set_status TASK_RUNNING) next (with_ready rest s)) in
    let s' := resume (with_running next (with_konts (<[running s := k]> (konts s1)) s1)) in
    sched_inv s' ∧ running s' = next ∧ thread_ready_list s' = rest ∧
    idle_thread s' = idle_thread s ∧
    (∀ t, status_of s' t = if decide (next = t) then Some TASK_RUNNING else status_of s t).
Proof.
  intros [Hr Hc Hq Hn Hi] Hcur Eq. rewrite Eq in *.
  apply NoDup_cons in Hn as [Hnin Hn].
  assert (Hst : status_of s next = Some TASK_READY) by (apply Hq; set_solver).
  destruct (status_of_mapped _ _ _ Hst) as (tn & Htn & Hstn). exists tn. split; [done|]. intros s1 s'.
  assert (Hs : ∀ t, status_of s' t = if decide (next = t) then Some TASK_RUNNING else status_of s t).
  { intros t. subst s' s1. rewrite status_of_resume. sched_simpl.
    rewrite status_of_process_activate. sched_simpl. case_decide; [subst; by rewrite Hst|done]. }
  destruct (process_activate_fields next tn (upd_task (set_status TASK_RUNNING) next
              (with_ready rest s))) as (_ & F2 & _ & F4 & _).
  assert (Frun : running s' = next).
  { subst s'. match goal with |- running (resume ?x) = _ =>
      destruct (resume_fields x) as (_ & _ & -> & _) end. done. }
  assert (Fq : thread_ready_list s' = rest).
  { subst s'. match goal with |- thread_ready_list (resume ?x) = _ =>
      destruct (resume_fields x) as (_ & -> & _) end. exact F2. }
  assert (Fi : idle_thread s' = idle_thread s).
  { subst s'. match goal with |- idle_thread (resume ?x) = _ =>
      destruct (resume_fields x) as (_ & _ & _ & -> & _) end. exact F4. }
  clearbody s'. split; [|by split_and!]. split.
  - intros t. rewrite Hs, Frun. case_decide as E; [by subst|].
    split; [|congruence]. intros H. by rewrite (Hr _ H) in H.
  - intros t. rewrite Hs, Fq. case_decide as E; [subst; naive_solver|].
    rewrite Hq, elem_of_cons. naive_solver.
  - by rewrite Fq.
  - rewrite Fi, Hs. case_decide; [set_solver|done].
Qed.

(** What a run of the scheduler does to the statuses. *)
Definition sched_effect (s s' : tstate) : Prop :=
  idle_thread s' = idle_thread s ∧
  ∀ t, status_of s' t =
    if decide (running s' = t) then Some TASK_RUNNING
    else if decide (running s = t ∧ status_of s t = Some TASK_RUNNING) then Some TASK_READY
    else status_of s t.

Lemma requeue_status s t :
  status_of (requeue s) t =
    if decide (running s = t ∧ status_of s t = Some TASK_RUNNING) then Some TASK_READY
    else status_of s t.
Proof.
  unfold requeue. case_decide as E1; [sched_simpl|].
  - destruct (decide (running s = t)) as [<-|].
    + by rewrite E1, decide_True.
    + rewrite decide_False; naive_solver.
  - rewrite decide_False; naive_solver.
Qed.

Lemma schedule_ok s k :
  sched_pre s →
  ∃ s' next rest, schedule v2p k s = Ok s' ∧ sched_inv s' ∧ run_queue s = next :: rest ∧
    running s' = next ∧ thread_ready_list s' = rest ∧ sched_effect s s'.
Proof.
  intros Hpre. pose proof Hpre as [Hr [tc Hc] Hq Hn Hi].
  unfold schedule. mrun (get_task_ok _ _ _ Hc). rewrite (requeue_eq s tc Hc).
  destruct (requeue_pre s Hpre) as (Hpre1 & Frun & Fidle & Hcur & Fq).
  destruct (thread_ready_list (requeue s)) as [|n q] eqn:Eq.
  - assert (Hidle : status_of (requeue s) (idle_thread s) = Some TASK_BLOCKED).
    { pose proof (pre_idle _ Hpre1) as Hi1. rewrite Fidle in Hi1.
      assert (status_of (requeue s) (idle_thread s) ≠ Some TASK_READY).
      { intros H. apply (pre_ready _ Hpre1) in H. rewrite Eq in H. set_solver. }
      assert (status_of (requeue s) (idle_thread s) ≠ Some TASK_RUNNING).
      { intros HR. pose proof (pre_running _ Hpre1 _ HR) as E. rewrite Frun in E.
        rewrite E in HR. done. }
      set_solver. }
    rewrite Fidle.
    destruct (thread_unblock_ok (requeue s) (idle_thread s) TASK_BLOCKED Hpre1 Hidle)
      as (s2 & Hs2 & Hpre2 & Fq2 & Frun2 & Fidle2 & _ & _ & Hst2); [done|right; by rewrite Frun|].
    mrun Hs2. rewrite Fq2, Eq.
    assert (Hcur2 : status_of s2 (running s2) ≠ Some TASK_RUNNING).
    { rewrite Hst2, Frun2, Frun. by destruct (decide (idle_thread s = running s)). }
    rewrite Eq in Fq2.
    destruct (dispatch_ok s2 k (idle_thread s) [] Hpre2 Hcur2 Fq2) as (tn & Htn & Hd).
    mrun (get_task_ok (with_ready [] s2) _ _ Htn).
    rewrite Frun2, Frun in Hd. unfold run_queue. rewrite <- Fq.
    destruct Hd as (Hd1 & Hd2 & Hd3 & Hd4 & Hd5).
    eexists _, _, _. split; [done|]. split; [exact Hd1|]. split; [done|]. split_and!; try done.
    split; [congruence|]. intros t. rewrite Hd2, Hd5. rewrite ?Hst2, requeue_status. by repeat case_decide.
  - cbn [mbind outcome_bind]. rewrite Eq.
    destruct (dispatch_ok (requeue s) k n q Hpre1) as (tn & Htn & Hd); [by rewrite Frun|done|].
    mrun (get_task_ok (with_ready q (requeue s)) _ _ Htn).
    rewrite Frun in Hd. unfold run_queue. rewrite <- Fq.
    destruct Hd as (Hd1 & Hd2 & Hd3 & Hd4 & Hd5).
    eexists _, _, _. split; [done|]. split; [exact Hd1|]. split; [done|]. split_and!; try done.
    split; [congruence|]. intros t. rewrite Hd2, Hd5. rewrite ?Hst2, requeue_status. by repeat case_decide.
Qed.

(** The invariant is what [schedule] needs. *)
Lemma sched_inv_pre s : sched_inv s → sched_pre s.
Proof.
  intros [Hr Hq Hn Hi]. split; try done.
  - intros t. apply Hr.
  - apply status_of_is_Some. by rewrite (proj2 (Hr _) eq_refl).
Qed.

(** The state in which [thread_block] and [thread_yield] call [schedule]. *)
Lemma block_pre stat s :
  sched_inv s → blocked_status stat → (running s = idle_thread s → stat = TASK_BLOCKED) →
  sched_pre (upd_task (set_status stat) (running s) s).
Proof.
  intros [Hr Hq Hn Hi] Hb Hidle. pose proof (proj2 (Hr _) eq_refl) as Hcur.
  assert (Hnr : stat ≠ TASK_RUNNING ∧ stat ≠ TASK_READY)
    by (destruct Hb as [-> | [-> | ->]]; done).
  split; simpl; try done.
  - intros t. sched_simpl. case_decide; [by intros|apply Hr].
  - rewrite lookup_alter_eq. apply fmap_is_Some, status_of_is_Some. by rewrite Hcur.
  - intros t. sched_simpl. rewrite <- Hq. case_decide as E; [|done]. subst t. rewrite Hcur.
    simpl. destruct Hnr. split; congruence.
  - sched_simpl. case_decide as E; [|done]. rewrite <- E, Hcur, (Hidle E). simpl. set_solver.
Qed.

Lemma yield_pre s :
  sched_inv s →
  sched_pre (upd_task (set_status TASK_READY) (running s)
               (with_ready (thread_ready_list s ++ [running s]) s)).
Proof.
  intros [Hr Hq Hn Hi]. pose proof (proj2 (Hr _) eq_refl) as Hcur.
  assert (Hnin : running s ∉ thread_ready_list s) by (rewrite <- Hq, Hcur; done).
  split; simpl.
  - intros t. sched_simpl. case_decide; [subst; by rewrite Hcur|apply Hr].
  - rewrite lookup_alter_eq. apply fmap_is_Some, status_of_is_Some. by rewrite Hcur.
  - intros t. sched_simpl. rewrite elem_of_app, list_elem_of_singleton, <- Hq.
    case_decide; [subst; rewrite Hcur; simpl; naive_solver | naive_solver].
  - apply NoDup_app. split_and!; [done|set_solver|apply NoDup_singleton].
  - sched_simpl. case_decide as E; [|done]. rewrite <- E, Hcur. simpl. set_solver.
Qed.

Lemma sched_inv_cpu c s : sched_inv s → sched_inv (with_cpu c s).
Proof. by intros [? ? ? ?]. Qed.

Lemma intr_disable_eq c : ∃ old, intr_disable c = (old, snd (intr_disable c)).
Proof. destruct (intr_disable c) as [o c']. by exists o. Qed.

Lemma sched_inv_task s : sched_inv s → ∃ tc, tasks s !! running s = Some tc.
Proof. intros H. apply (pre_current s), sched_inv_pre, H. Qed.

Lemma thread_block_ok stat s :
  sched_inv s → blocked_status stat → (running s = idle_thread s → stat = TASK_BLOCKED) →
  ∃ s', thread_block v2p stat s = Ok s' ∧ sched_inv s' ∧
    running s' :: thread_ready_list s' =
      match thread_ready_list s with [] => [idle_thread s] | q => q end ∧
    sched_effect (upd_task (set_status stat) (running s) s) s'.
Proof.
  intros Hinv Hb Hidle. unfold thread_block.
  destruct (intr_disable_eq (tcpu s)) as [old ->]. set (c := snd _). clearbody c.
  pose proof (sched_inv_cpu c s Hinv) as Hinv'. destruct (sched_inv_task _ Hinv') as [tc Htc].
  mrun (get_task_ok _ _ _ Htc).
  destruct (schedule_ok _ (KReturn old) (block_pre stat _ Hinv' Hb Hidle))
    as (s' & next & rest & Hs' & Hi' & Hrq & Hrun & Hrest & Heff).
  exists s'. split; [done|]. split; [done|]. split; [|exact Heff].
  rewrite Hrun, Hrest, <- Hrq. unfold run_queue. simpl.
  rewrite decide_False, app_nil_r; [by destruct (thread_ready_list s)|]. sched_simpl. rewrite decide_True by done.
  destruct (status_of s (running s)); [|done]. simpl. destruct Hb as [-> | [-> | ->]]; done.
Qed.

Lemma thread_yield_ok s :
  sched_inv s →
  ∃ s', thread_yield v2p s = Ok s' ∧ sched_inv s' ∧
    running s' :: thread_ready_list s' = thread_ready_list s ++ [running s] ∧
    sched_effect (upd_task (set_status TASK_READY) (running s) s) s'.
Proof.
  intros Hinv. unfold thread_yield.
  destruct (intr_disable_eq (tcpu s)) as [old ->]. set (c := snd _). clearbody c.
  pose proof (sched_inv_cpu c s Hinv) as Hinv'. destruct (sched_inv_task _ Hinv') as [tc Htc].
  cbn zeta. simpl in Htc. mrun (get_task_ok (with_cpu c s) _ _ Htc).
  destruct (schedule_ok _ (KReturn old) (yield_pre _ Hinv'))
    as (s' & next & rest & Hs' & Hi' & Hrq & Hrun & Hrest & Heff).
  exists s'. split; [done|]. split; [done|]. split; [|exact Heff].
  rewrite Hrun, Hrest, <- Hrq. unfold run_queue. simpl.
  rewrite decide_False, app_nil_r; [by destruct (thread_ready_list s)|]. sched_simpl.
  rewrite decide_True by done. by destruct (status_of s (running s)).
Qed.

(** Preemption: [schedule] called for a RUNNING thread rotates the queue. *)
Lemma schedule_rotate s k :
  sched_inv s →
  ∃ s', schedule v2p k s = Ok s' ∧ sched_inv s' ∧
    running s' :: thread_ready_list s' = thread_ready_list s ++ [running s] ∧
    sched_effect s s'.
Proof.
  intros Hinv. destruct (schedule_ok s k (sched_inv_pre _ Hinv))
    as (s' & next & rest & Hs' & Hi' & Hrq & Hrun & Hrest & Heff).
  exists s'. split; [done|]. split; [done|]. split; [|exact Heff].
  rewrite Hrun, Hrest, <- Hrq. unfold run_queue.
  rewrite decide_True by (by apply (inv_running _ Hinv)). by destruct (thread_ready_list s).
Qed.

(** [n] preemptions in a row. *)
Fixpoint preempt_n (n : nat) (s : tstate) : outcome tstate :=
  match n with
  | O => Ok s
  | S n => s' ← schedule v2p KIret s; preempt_n n s'
  end.

Lemma preempt_n_ok n s :
  sched_inv s → (n ≤ length (thread_ready_list s))%nat →
  ∃ s', preempt_n n s = Ok s' ∧ sched_inv s' ∧
    running s' :: thread_ready_list s' =
      drop n (running s :: thread_ready_list s) ++ take n (running s :: thread_ready_list s).
Proof.
  revert s. induction n as [|n IH]; intros s Hinv Hn.
  { exists s. rewrite drop_0, take_0, app_nil_r. done. }
  destruct (schedule_rotate s KIret Hinv) as (s1 & Hs1 & Hinv1 & Hq1 & _).
  assert (Hlen : length (thread_ready_list s1) = length (thread_ready_list s)).
  { apply (f_equal length) in Hq1. rewrite length_app in Hq1. simpl in Hq1. lia. }
  destruct (IH s1 Hinv1) as (s2 & Hs2 & Hinv2 & Hq2); [lia|].
  exists s2. simpl. mrun Hs1. split; [done|]. split; [done|]. rewrite Hq2, Hq1. simpl.
  rewrite drop_app_le, take_app_le by lia. by rewrite <- app_assoc.
Qed.

Lemma unblock_inv t st s :
  sched_inv s → status_of s t = Some st → blocked_status st →
  ∃ s', thread_unblock t s = Ok s' ∧ sched_inv s' ∧ running s' = running s ∧
    thread_ready_list s' = t :: thread_ready_list s ∧ idle_thread s' = idle_thread s ∧
    (∀ t', status_of s' t' = if decide (t = t') then Some TASK_READY else status_of s t').
Proof.
  intros Hinv Hst Hb. pose proof (proj2 (inv_running _ Hinv _) eq_refl) as Hcur.
  assert (Hne : t ≠ running s).
  { intros ->. rewrite Hcur in Hst. destruct Hb as [-> | [-> | ->]]; done. }
  destruct (thread_unblock_ok s t st (sched_inv_pre _ Hinv) Hst)
    as (s' & Hs' & Hpre & Hq & Hrun & Hidle & _ & _ & Hs); [by destruct Hb as [-> | [-> | ->]]|by left|].
  exists s'. split; [done|]. split; [|by split_and!]. destruct Hpre as [P1 P2 P3 P4 P5]. split; try done.
  intros t'. rewrite Hs, Hrun. case_decide as E; [subst; by split|]. apply Hinv.
Qed.

(** The invariant speaks of statuses, the queue and the current thread only. *)
Lemma sched_inv_ext s s' :
  (∀ t, status_of s' t = status_of s t) → running s' = running s →
  thread_ready_list s' = thread_ready_list s → idle_thread s' = idle_thread s →
  sched_inv s → sched_inv s'.
Proof.
  intros Hs Hr Hq Hi [I1 I2 I3 I4].
  split; rewrite ?Hr, ?Hq, ?Hi; intros; rewrite ?Hs; auto.
Qed.

Lemma tick_inv s :
  sched_inv s →
  sched_inv (with_ticks (u32 (ticks s + 1))
    (upd_task (λ t, set_elapsed (u32 (elapsed_tricks t + 1)) t) (running s)
       (with_cpu (cli (tcpu s)) s))).
Proof. apply sched_inv_ext; try done. intros t. by sched_simpl. Qed.

Lemma timer_preempt s tc :
  tasks s !! running s = Some tc → tricks tc = 0 →
  intr_timer_handler v2p s = schedule v2p KIret (with_ticks (u32 (ticks s + 1))
    (upd_task (λ t, set_elapsed (u32 (elapsed_tricks t + 1)) t) (running s)
       (with_cpu (cli (tcpu s)) s))).
Proof.
  intros Htc H0. unfold intr_timer_handler. cbn zeta. simpl (running _).
  mrun (get_task_ok (with_cpu (cli (tcpu s)) s) _ _ Htc). by rewrite H0.
Qed.

Lemma timer_ok s :
  sched_inv s →
  ∃ s', intr_timer_handler v2p s = Ok s' ∧ sched_inv s'.
Proof.
  intros Hinv. destruct (sched_inv_task _ Hinv) as [tc Htc].
  pose proof (tick_inv _ Hinv) as Hinv1. destruct (Z.eq_dec (tricks tc) 0) as [E|E].
  - rewrite (timer_preempt s tc Htc E).
    destruct (schedule_rotate _ KIret Hinv1) as (s' & Hs' & Hinv' & _). eauto.
  - unfold intr_timer_handler. cbn zeta. simpl (running _).
    mrun (get_task_ok (with_cpu (cli (tcpu s)) s) _ _ Htc). rewrite (proj2 (Z.eqb_neq _ _) E).
    eexists. split; [done|]. revert Hinv1.
    apply sched_inv_ext; try done. intros t. by sched_simpl.
Qed.

(** *** Sequences of scheduler events *)

Inductive sched_op :=
| OpTimer                        (** a clock interrupt *)
| OpYield                        (** the current thread calls thread_yield *)
| OpBlock (st : task_status)     (** the current thread calls thread_block *)
| OpUnblock (t : Z).             (** the current thread calls thread_unblock *)

Definition run_op (o : sched_op) (s : tstate) : outcome tstate :=
  match o with
  | OpTimer => intr_timer_handler v2p s
  | OpYield => thread_yield v2p s
  | OpBlock st => thread_block v2p st s
  | OpUnblock t => thread_unblock t s
  end.

(** How the kernel calls them: what the ASSERTs of thread_block and
    thread_unblock say, and that the idle thread blocks as [idle] does. *)
Definition op_allowed (o : sched_op) (s : tstate) : Prop :=
  match o with
  | OpTimer | OpYield => True
  | OpBlock st => blocked_status st ∧ (running s = idle_thread s → st = TASK_BLOCKED)
  | OpUnblock t => ∃ st, status_of s t = Some st ∧ blocked_status st
  end.

Inductive sched_run : tstate → list sched_op → outcome tstate → Prop :=
| run_nil s : sched_run s [] (Ok s)
| run_cons s o os s' r :
    op_allowed o s → run_op o s = Ok s' → sched_run s' os r → sched_run s (o :: os) r
| run_stuck s o os r :
    op_allowed o s → run_op o s = r → (∀ s', r ≠ Ok s') → sched_run s (o :: os) r.

Lemma run_op_ok o s :
  sched_inv s → op_allowed o s → ∃ s', run_op o s = Ok s' ∧ sched_inv s'.
Proof.
  intros Hinv Ho. destruct o as [| |st|t]; simpl in *.
  - by apply timer_ok.
  - destruct (thread_yield_ok s Hinv) as (s' & ? & ? & _). eauto.
  - destruct Ho. destruct (thread_block_ok st s) as (s' & ? & ? & _); eauto.
  - destruct Ho as (st & ? & ?). destruct (unblock_inv t st s) as (s' & ? & ? & _); eauto.
Qed.

(** *** What an event leaves alone *)

Definition runnable (s : tstate) (t : Z) : Prop :=
  status_of s t = Some TASK_READY ∨ status_of s t = Some TASK_RUNNING.

(** Threads that are not runnable stay as they are, unless woken ([unb]) or the
    idle thread; runnable threads stay runnable, unless they block ([blk]). *)
Record sched_frame (blk unb : option Z) (s s' : tstate) : Prop := {
  frame_idle : idle_thread s' = idle_thread s;
  frame_dormant : ∀ t, t ≠ idle_thread s → ¬ runnable s t → unb ≠ Some t →
    status_of s' t = status_of s t;
  frame_runnable : ∀ t, runnable s t → blk ≠ Some t → runnable s' t;
}.

(** [s1] is the state in which [schedule] is entered. *)
Lemma sched_effect_frame blk s s1 s' :
  sched_inv s → idle_thread s1 = idle_thread s → running s1 = running s →
  (∀ t, t ≠ running s → status_of s1 t = status_of s t) →
  (runnable s1 (running s) ∨ blk = Some (running s)) →
  running s' = idle_thread s ∨ running s' ∈ thread_ready_list s ++ [running s] →
  sched_effect s1 s' → sched_frame blk None s s'.
Proof.
  intros Hinv Hi Hr Hs Hblk Hn [E1 E2]. pose proof (proj2 (inv_running _ Hinv _) eq_refl) as Hcur.
  split.
  - congruence.
  - intros t H1 H2 _.
    assert (Ht : t ≠ running s) by (intros ->; apply H2; by right).
    rewrite E2, decide_False, decide_False; [by apply Hs|naive_solver|].
    intros <-. destruct Hn as [Hn|[Hn|Hn%list_elem_of_singleton]%elem_of_app]; [done| |done].
    apply H2. left. by apply (inv_ready _ Hinv).
  - intros t H1 H2. unfold runnable. rewrite E2.
    case_decide; [by right|]. case_decide; [by left|].
    destruct (decide (t = running s)) as [->|Hne]; [|by rewrite Hs].
    by destruct Hblk as [?| ->].
Qed.

Lemma op_frame o s s' :
  sched_inv s → op_allowed o s → run_op o s = Ok s' →
  sched_frame (match o with OpBlock _ => Some (running s) | _ => None end)
              (match o with OpUnblock t => Some t | _ => None end) s s'.
Proof.
  intros Hinv Ho Hs'. pose proof (proj2 (inv_running _ Hinv _) eq_refl) as Hcur.
  destruct (sched_inv_task _ Hinv) as [tc Htc].
  destruct o as [| |st|t]; simpl in Ho, Hs'.
  - destruct (Z.eq_dec (tricks tc) 0) as [E|E].
    + rewrite (timer_preempt s tc Htc E) in Hs'.
      destruct (schedule_rotate _ KIret (tick_inv _ Hinv)) as (s2 & Hs2 & _ & Hq & Heff).
      rewrite Hs2 in Hs'. injection Hs' as ->. simpl in Hq.
      refine (sched_effect_frame None s _ s' Hinv _ _ _ _ _ Heff); simpl; try done.
      * intros t _. by sched_simpl.
      * left. right. by sched_simpl.
      * right. rewrite <- Hq. apply list_elem_of_here.
    + unfold intr_timer_handler in Hs'. cbn zeta in Hs'. simpl (running _) in Hs'.
      rewrite (get_task_ok (with_cpu (cli (tcpu s)) s) _ _ Htc) in Hs'.
      cbn [mbind outcome_bind] in Hs'. rewrite (proj2 (Z.eqb_neq _ _) E) in Hs'. injection Hs' as <-.
      split; [done| |]; intros t; unfold runnable; sched_simpl; by intros.
  - destruct (thread_yield_ok s Hinv) as (s2 & Hs2 & _ & Hq & Heff).
    rewrite Hs2 in Hs'. injection Hs' as ->.
    refine (sched_effect_frame None s _ s' Hinv _ _ _ _ _ Heff); simpl; try done.
    + intros t Ht. sched_simpl. by rewrite decide_False.
    + left. left. sched_simpl. by rewrite decide_True, Hcur.
    + right. rewrite <- Hq. apply list_elem_of_here.
  - destruct Ho as [Hb Hidle].
    destruct (thread_block_ok st s Hinv Hb Hidle) as (s2 & Hs2 & Hinv2 & Hq & Heff).
    rewrite Hs2 in Hs'. injection Hs' as ->.
    refine (sched_effect_frame (Some (running s)) s _ s' Hinv _ _ _ _ _ Heff); simpl; try done.
    + intros t Ht. sched_simpl. by rewrite decide_False.
    + by right.
    + destruct (thread_ready_list s) as [|x q]; [by injection Hq as -> ?; left|].
      right. injection Hq as -> ?. set_solver.
  - destruct Ho as (st & Hst & Hb).
    destruct (unblock_inv t st s Hinv Hst Hb) as (s2 & Hs2 & _ & _ & _ & Hi & Heff).
    rewrite Hs2 in Hs'. injection Hs' as ->. split; [done| |].
    + intros t' _ _ Hne. rewrite Heff, decide_False; [done|congruence].
    + intros t' Hr _. unfold runnable. rewrite Heff. case_decide; [by left|done].
Qed.

(** *** Time slices *)

Definition tricks_of (s : tstate) (t : Z) : option Z := tricks <$> tasks s !! t.
Definition priority_of (s : tstate) (t : Z) : option Z := priority <$> tasks s !! t.

Lemma upd_task_lookup f t t' s :
  tasks (upd_task f t s) !! t' = if decide (t = t') then f <$> tasks s !! t' else tasks s !! t'.
Proof. unfold upd_task. simpl. rewrite lookup_alter. case_decide; by subst. Qed.

Lemma tricks_of_set_status v t t' s :
  tricks_of (upd_task (set_status v) t s) t' = tricks_of s t'.
Proof.
  unfold tricks_of. rewrite upd_task_lookup. case_decide; [|done].
  by destruct (tasks s !! t').
Qed.

Lemma thread_unblock_tricks t s s' :
  thread_unblock t s = Ok s' → ∀ t', tricks_of s' t' = tricks_of s t'.
Proof.
  unfold thread_unblock. destruct (intr_disable (tcpu s)) as [old c]. intros H t'. inv_ok.
  repeat case_decide; inv_ok; try done. exact (tricks_of_set_status _ _ _ _).
Qed.

(** A preempted thread gets its full time slice back; no other slice changes. *)
Lemma schedule_tricks s k s' tc :
  tasks s !! running s = Some tc → status tc = TASK_RUNNING →
  schedule v2p k s = Ok s' →
  ∀ t, tricks_of s' t = if decide (running s = t) then priority_of s t else tricks_of s t.
Proof.
  intros Htc Hst. unfold schedule. mrun (get_task_ok _ _ _ Htc). rewrite decide_True by done.
  intros H t. apply bind_ok_iff in H as (s2 & H2 & H).
  assert (E2 : tricks_of s2 t = if decide (running s = t) then priority_of s t else tricks_of s t).
  { transitivity (tricks_of (upd_task (λ t, set_status TASK_READY (set_tricks (priority t) t))
      (running s) (with_ready (thread_ready_list s ++ [running s]) s)) t).
    - destruct (thread_ready_list _) in H2; inv_ok; [|done]. by eapply thread_unblock_tricks.
    - unfold tricks_of, priority_of. rewrite upd_task_lookup. simpl.
      case_decide; [|done]. by destruct (tasks s !! t). }
  rewrite <- E2. destruct (thread_ready_list s2) as [|next rest]; [done|]. inv_ok.
  unfold tricks_of at 1.
  match goal with |- context [resume ?x] => destruct (resume_fields x) as (-> & _) end.
  simpl. match goal with |- context [process_activate v2p ?p ?t ?x] =>
    destruct (process_activate_fields p t x) as (-> & _) end.
  exact (tricks_of_set_status _ _ _ _).
Qed.

Fixpoint timer_n (n : nat) (s : tstate) : outcome tstate :=
  match n with
  | O => Ok s
  | S n => s' ← intr_timer_handler v2p s; timer_n n s'
  end.

Lemma timer_tick s tc :
  tasks s !! running s = Some tc → 0 < tricks tc < 256 →
  ∃ s', intr_timer_handler v2p s = Ok s' ∧ running s' = running s ∧
    thread_ready_list s' = thread_ready_list s ∧ ticks s' = u32 (ticks s + 1) ∧
    tasks s' = <[running s := set_tricks (tricks tc - 1)
                   (set_elapsed (u32 (elapsed_tricks tc + 1)) tc)]> (tasks s) ∧
    intr_get_status (tcpu s') = INTR_ON.
Proof.
  intros Htc Hn. unfold intr_timer_handler.
  cbn zeta. simpl (running _). mrun (get_task_ok (with_cpu (cli (tcpu s)) s) _ _ Htc).
  destruct (Z.eqb_spec (tricks tc) 0); [lia|]. eexists. split; [done|]. simpl.
  split_and!; try done.
  - apply map_eq. intros i. rewrite lookup_insert, !lookup_alter.
    repeat case_decide; subst; try done. rewrite Htc. simpl. by rewrite u8_small by lia.
  - apply sti_status.
Qed.
End SchedulerFacts.

(** ** Theorems *)

Section Theorems.
Context (v2p : Z → Z).

(** C30: From a state in which exactly the current thread is RUNNING and the ready
    queue holds exactly the READY threads once each, no sequence of clock
    interrupts, yields, blocks and wake-ups (called as their ASSERTs say) ends in
    a fault, a panic or a blocked scheduler: every run ends in a state in which
    the invariant holds again. *)
Theorem sched_run_safe s os r :
  sched_inv s → sched_run v2p s os r → ∃ s', r = Ok s' ∧ sched_inv s'.
Proof.
  intros Hinv Hrun. revert Hinv. induction Hrun as [s|s o os s' r Ho Hs' _ IH|s o os r Ho Hr Hnok];
    intros Hinv; [eauto| |].
  - destruct (run_op_ok v2p o s Hinv Ho) as (s1 & Hs1 & Hinv1). apply IH. congruence.
  - destruct (run_op_ok v2p o s Hinv Ho) as (s1 & Hs1 & Hinv1). congruence.
Qed.

(** What each scheduling call dispatches: a preempted or yielding thread goes
    to the back of the ready queue, a blocking one leaves it, the front of the
    queue runs, and the idle thread runs exactly when nothing else is ready. *)
Theorem sched_dispatch s st k :
  sched_inv s → blocked_status st → (running s = idle_thread s → st = TASK_BLOCKED) →
  (∃ s', schedule v2p k s = Ok s' ∧
     running s' :: thread_ready_list s' = thread_ready_list s ++ [running s]) ∧
  (∃ s', thread_yield v2p s = Ok s' ∧
     running s' :: thread_ready_list s' = thread_ready_list s ++ [running s]) ∧
  (∃ s', thread_block v2p st s = Ok s' ∧
     running s' :: thread_ready_list s' =
       match thread_ready_list s with [] => [idle_thread s] | q => q end).
Proof.
  intros Hinv Hb Hidle. split_and!.
  - destruct (schedule_rotate v2p s k Hinv) as (s' & ? & _ & ? & _). eauto.
  - destruct (thread_yield_ok v2p s Hinv) as (s' & ? & _ & ? & _). eauto.
  - destruct (thread_block_ok v2p st s Hinv Hb Hidle) as (s' & ? & _ & ? & _). eauto.
Qed.

(** C33: Round robin: the thread at position [i] of the ready queue runs after
    exactly [i + 1] preemptions, whatever is queued behind it. *)
Theorem round_robin s i t :
  sched_inv s → thread_ready_list s !! i = Some t →
  ∃ s', preempt_n v2p (S i) s = Ok s' ∧ running s' = t ∧ sched_inv s'.
Proof.
  intros Hinv Hi. pose proof (lookup_lt_Some _ _ _ Hi).
  destruct (preempt_n_ok v2p (S i) s Hinv) as (s' & Hs' & Hinv' & Hq); [lia|].
  exists s'. split; [done|]. split; [|done]. simpl in Hq.
  rewrite (drop_S _ t) in Hq by done. by injection Hq.
Qed.

(** A time slice: a thread that is dispatched with [tricks] ticks left keeps
    the processor for exactly that many clock interrupts and is preempted by the
    next one, which queues it behind the others with its slice reset to its
    priority. *)
Theorem time_slice s tc :
  sched_inv s → tasks s !! running s = Some tc → 0 ≤ tricks tc < 256 →
  (∀ n : nat, Z.of_nat n ≤ tricks tc →
     ∃ s', timer_n v2p n s = Ok s' ∧ running s' = running s ∧
       thread_ready_list s' = thread_ready_list s ∧
       tricks_of s' (running s) = Some (tricks tc - Z.of_nat n)) ∧
  ∃ s', timer_n v2p (S (Z.to_nat (tricks tc))) s = Ok s' ∧
    running s' :: thread_ready_list s' = thread_ready_list s ++ [running s] ∧
    tricks_of s' (running s) = Some (priority tc).
Proof.
  intros Hinv Htc Hr. remember (Z.to_nat (tricks tc)) as m eqn:Em.
  revert s tc Hinv Htc Hr Em. induction m as [|m IH]; intros s tc Hinv Htc Hr Em.
  - split.
    + intros [|n] Hn; [|lia]. exists s. unfold tricks_of. rewrite Htc. simpl. by rewrite Z.sub_0_r.
    + cbn [timer_n]. rewrite (timer_preempt v2p s tc Htc) by lia.
      destruct (schedule_rotate v2p _ KIret (tick_inv _ Hinv)) as (s' & Hs' & _ & Hq & _).
      mrun Hs'. exists s'. split; [done|]. split; [exact Hq|].
      erewrite schedule_tricks; [| |  |exact Hs']; simpl.
      * rewrite decide_True by done. unfold priority_of. simpl. by rewrite lookup_alter_eq, Htc.
      * by rewrite lookup_alter_eq, Htc.
      * simpl. pose proof (proj2 (inv_running _ Hinv _) eq_refl) as Hst.
        unfold status_of in Hst. rewrite Htc in Hst. by injection Hst.
  - destruct (timer_tick v2p s tc Htc) as (s1 & Hs1 & R1 & Q1 & _ & T1 & _); [lia|].
    destruct (timer_ok v2p s Hinv) as (s1' & Hs1' & Hinv1).
    rewrite Hs1 in Hs1'. injection Hs1' as <-.
    destruct (IH s1 (set_tricks (tricks tc - 1)
      (set_elapsed (u32 (elapsed_tricks tc + 1)) tc)) Hinv1) as [IHn (s' & Hs' & Hq & Ht)].
    { rewrite R1, T1. apply lookup_insert_eq. } { simpl. lia. } { simpl. lia. }
    rewrite R1 in *. rewrite Q1 in *. split.
    + intros [|n] Hn.
      { exists s. unfold tricks_of. rewrite Htc. simpl. by rewrite Z.sub_0_r. }
      destruct (IHn n) as (s2 & Hs2 & R2 & Q2 & T2); [simpl; lia|].
      exists s2. cbn [timer_n]. mrun Hs1. split; [done|]. split; [done|]. split; [done|].
      rewrite T2. simpl. f_equal. lia.
    + exists s'. cbn [timer_n] in Hs' |- *. mrun Hs1. done.
Qed.
End Theorems.

(** *** Witnesses: three threads, the idle thread blocked *)

Definition demo_task (st : task_status) (prio pd : Z) : task :=
  Task 0 1 st prio [] prio 0 [] pd (VirtualAddr (Bitmap.Bitmap 0 []) 0) 0 (-1) 0 0x19870916.
Definition demo_state : tstate :=
  TState {[ 0x1000 := demo_task TASK_RUNNING 2 0; 0x2000 := demo_task TASK_READY 31 0;
            0x3000 := demo_task TASK_READY 31 0xc0101000; 0x4000 := demo_task TASK_BLOCKED 10 0 ]}
    [0x2000; 0x3000] [0x4000; 0x1000; 0x2000; 0x3000] 0x1000 0x1000 0x4000 ∅ (Cpu 0x202) 0 0 0.

Lemma demo_inv : sched_inv demo_state.
Proof.
  assert (Hs : ∀ t, status_of demo_state t =
    if decide (t = 0x1000) then Some TASK_RUNNING else
    if decide (t = 0x2000) then Some TASK_READY else
    if decide (t = 0x3000) then Some TASK_READY else
    if decide (t = 0x4000) then Some TASK_BLOCKED else None).
  { intros t. unfold status_of, demo_state. simpl.
    repeat (case_decide; [subst; reflexivity|]). by rewrite !lookup_insert_ne, lookup_singleton_ne by done. }
  split.
  - intros t. rewrite Hs. simpl. repeat case_decide; naive_solver.
  - intros t. rewrite Hs. simpl. rewrite !elem_of_cons, elem_of_nil. repeat case_decide; naive_solver.
  - apply (bool_decide_unpack _). reflexivity.
  - apply (bool_decide_unpack _). reflexivity.
Qed.

Lemma sched_run_safe_witness :
  ∃ r, sched_run (λ x, x) demo_state [OpTimer; OpUnblock 0x4000] r ∧ ∃ s', r = Ok s' ∧ sched_inv s'.
Proof.
  assert (Hr : ∃ r, sched_run (λ x, x) demo_state [OpTimer; OpUnblock 0x4000] r).
  { eexists. eapply run_cons; [exact I|reflexivity|].
    eapply run_cons; [|reflexivity|apply run_nil].
    exists TASK_BLOCKED. split; [reflexivity|by left]. }
  destruct Hr as [r Hr]. exists r. split; [exact Hr|].
  exact (sched_run_safe _ _ _ _ demo_inv Hr).
Defined.

Lemma sched_dispatch_witness :
  ∃ s', thread_block (λ x, x) TASK_WAITING demo_state = Ok s' ∧
     running s' :: thread_ready_list s' = [0x2000; 0x3000].
Proof.
  apply (sched_dispatch (λ x, x) demo_state TASK_WAITING KIret demo_inv); [right; by left|done].
Defined.

Lemma round_robin_witness :
  ∃ s', preempt_n (λ x, x) 2 demo_state = Ok s' ∧ running s' = 0x3000 ∧ sched_inv s'.
Proof. exact (round_robin (λ x, x) demo_state 1 0x3000 demo_inv eq_refl). Defined.

Lemma time_slice_witness :
  ∃ s', timer_n (λ x, x) 3 demo_state = Ok s' ∧
    running s' :: thread_ready_list s' = [0x2000; 0x3000; 0x1000] ∧
    tricks_of s' 0x1000 = Some 2.
Proof.
  refine (proj2 (time_slice (λ x, x) demo_state (demo_task TASK_RUNNING 2 0) demo_inv _ _));
    [reflexivity|simpl; lia].
Defined.
