(* ===== verification/Sync.v ===== *)
(** * Semaphores and locks (thread/sync.h, thread/sync.c)

    A semaphore is its 8-bit value and its queue of waiting threads; a lock adds
    the holder and how often it was taken.  Two views of the code:

    - the interleaved one: threads on one processor, each somewhere in
      [lock_acquire] or [lock_release], clock interrupts and other scheduling
      events between any two of their steps ([lock_step], [gstep]);
    - the sequential one ([lock_acquire], [lock_release]): the whole call by one
      thread, ending in [Blocked] where the thread would sleep.  The other
      components of the kernel use this one; [acquire_simulates] and
      [release_simulates] say it is a run of the first. *)

From stdpp Require Import functions.
From S2P Require Import Prelude Interrupt Sched.

(** ** Data *)

Record semaphore := Semaphore { value : Z; waiters : list Z }.
Record lock := Lock { holder : Z; lsema : semaphore; holder_repeat_nr : Z }.

Definition sema_init (v : Z) : semaphore := Semaphore (u8 v) [].
Definition lock_init : lock := Lock 0 (sema_init 1) 0.

(** ** The pieces of the calls that run with interrupts off *)

(** One turn of the loop of [sema_down] by thread [t]: [true] when the value was
    taken, [false] when the thread has queued itself and goes to sleep. *)
Definition sema_down_turn (t : Z) (s : semaphore) : outcome (semaphore * bool) :=
  if value s =? 0 then
    if decide (t ∈ waiters s) then Panic
    else Ok (Semaphore (value s) (waiters s ++ [t]), false)
  else Ok (Semaphore (u8 (value s - 1)) (waiters s), true).

(** [sema_up]: the thread that is woken, if any, and the new semaphore. *)
Definition sema_up_turn (s : semaphore) : option Z * semaphore :=
  match waiters s with
  | [] => (None, Semaphore (u8 (value s + 1)) [])
  | w :: ws => (Some w, Semaphore (u8 (value s + 1)) ws)
  end.

(** ** Whole calls by one thread *)

Definition lock_acquire (t : Z) (l : lock) : outcome lock :=
  if holder l =? t then Ok (Lock (holder l) (lsema l) (u32 (holder_repeat_nr l + 1)))
  else
    '(sm, got) ← sema_down_turn t (lsema l);
    if got : bool then Ok (Lock t sm 1) else Blocked.

Definition lock_release (l : lock) : option Z * lock :=
  if holder_repeat_nr l >? 1 then
    (None, Lock (holder l) (lsema l) (u32 (holder_repeat_nr l - 1)))
  else
    let '(w, sm) := sema_up_turn (lsema l) in (w, Lock 0 sm 0).

(** ** Threads in the middle of the calls *)

(** Where a thread is; [n] counts its nested acquisitions of the lock. *)
Inductive pc :=
| Hold (n : nat)                      (** outside the two calls *)
| CallDown (n : nat)                  (** found another holder, calls sema_down *)
| Down (n : nat) (old : intr_status)  (** in the loop of sema_down *)
| Wait (n : nat) (old : intr_status)  (** asleep in the loop of sema_down *)
| SetHolder (n : nat)                 (** sema_down has returned *)
| SetRepeat (n : nat)                 (** holder is set *)
| Inc (n : nat)                       (** found itself the holder *)
| Dec (n : nat)                       (** releasing a nested acquisition *)
| ClrHolder (n : nat)                 (** releasing the last one *)
| ClrRepeat (n : nat)
| CallUp (n : nat).

Record gstate := GState { gs : tstate; glock : lock; pcs : Z → pc }.

Inductive lock_call := Acquire | Release.

(** A woken thread is back in the loop of [sema_down]. *)
Definition wake (w : option Z) (p : Z → pc) : Z → pc :=
  match w with
  | Some w => match p w with Wait n old => <[w := Down n old]> p | _ => p end
  | None => p
  end.

Section Interleaving.
Context (v2p : Z → Z).

(** The next step of the running thread; [call] is what it calls next when it is
    outside the two functions. *)
Definition lock_step (call : lock_call) (g : gstate) : outcome gstate :=
  let t := running (gs g) in
  let l := glock g in
  let goto p l := Ok (GState (gs g) l (<[t := p]> (pcs g))) in
  match pcs g t with
  | Hold n =>
      match call with
      | Acquire => if negb (holder l =? t) then goto (CallDown n) l else goto (Inc n) l
      | Release => if holder_repeat_nr l >? 1 then goto (Dec n) l else goto (ClrHolder n) l
      end
  | CallDown n =>
      let '(old, c) := intr_disable (tcpu (gs g)) in
      Ok (GState (with_cpu c (gs g)) l (<[t := Down n old]> (pcs g)))
  | Down n old =>
      '(sm, got) ← sema_down_turn t (lsema l);
      let l := Lock (holder l) sm (holder_repeat_nr l) in
      if got : bool then
        Ok (GState (with_cpu (intr_restore old (tcpu (gs g))) (gs g)) l
                   (<[t := SetHolder n]> (pcs g)))
      else
        s ← thread_block v2p TASK_BLOCKED (gs g);
        Ok (GState s l (<[t := Wait n old]> (pcs g)))
  | Wait _ _ => Fault
  | SetHolder n => goto (SetRepeat n) (Lock t (lsema l) (holder_repeat_nr l))
  | SetRepeat n => goto (Hold (S n)) (Lock (holder l) (lsema l) 1)
  | Inc n => goto (Hold (S n)) (Lock (holder l) (lsema l) (u32 (holder_repeat_nr l + 1)))
  | Dec n => goto (Hold (pred n)) (Lock (holder l) (lsema l) (u32 (holder_repeat_nr l - 1)))
  | ClrHolder n => goto (ClrRepeat n) (Lock 0 (lsema l) (holder_repeat_nr l))
  | ClrRepeat n => goto (CallUp n) (Lock (holder l) (lsema l) 0)
  | CallUp n =>
      let '(old, c) := intr_disable (tcpu (gs g)) in
      let s := with_cpu c (gs g) in
      let '(w, sm) := sema_up_turn (lsema l) in
      s ← (match w with Some w => thread_unblock w s | None => Ok s end);
      Ok (GState (with_cpu (intr_restore old (tcpu s)) s)
                 (Lock (holder l) sm (holder_repeat_nr l))
                 (<[t := Hold (pred n)]> (wake w (pcs g))))
  end.

(** When a thread may call: it releases only what it holds, nesting stays below
    the width of the counter, and the idle thread takes no locks. *)
Definition call_allowed (call : lock_call) (g : gstate) : Prop :=
  running (gs g) ≠ idle_thread (gs g) ∧
  ∀ n, pcs g (running (gs g)) = Hold n →
    match call with
    | Acquire => Z.of_nat n < 4294967295
    | Release => (0 < n)%nat
    end.

(** Other events: clock interrupts where they are not masked, and a thread
    outside the two calls that yields, sleeps or wakes a thread that is not
    waiting for this lock. *)
Definition other_allowed (o : sched_op) (g : gstate) : Prop :=
  op_allowed o (gs g) ∧
  match o with
  | OpTimer => intr_get_status (tcpu (gs g)) = INTR_ON
  | OpYield | OpBlock _ => ∃ n, pcs g (running (gs g)) = Hold n
  | OpUnblock t => (∃ n, pcs g (running (gs g)) = Hold n) ∧ t ∉ waiters (lsema (glock g))
  end.

Inductive gstep : gstate → outcome gstate → Prop :=
| gstep_call call g : call_allowed call g → gstep g (lock_step call g)
| gstep_other o g : other_allowed o g →
    gstep g (s ← run_op v2p o (gs g); Ok (GState s (glock g) (pcs g))).

Inductive gsteps : gstate → outcome gstate → Prop :=
| gsteps_refl g : gsteps g (Ok g)
| gsteps_cons g g' r : gstep g (Ok g') → gsteps g' r → gsteps g r
| gsteps_stuck g r : gstep g r → (∀ g', r ≠ Ok g') → gsteps g r.

End Interleaving.

(** ** The lock's invariant *)

(** The thread is between taking the semaphore and giving it back. *)
Definition owner (p : pc) : bool :=
  match p with
  | Hold n => (0 <? n)%nat
  | CallDown _ | Down _ _ | Wait _ _ => false
  | SetHolder _ | SetRepeat _ | Inc _ | Dec _ | ClrHolder _ | ClrRepeat _ | CallUp _ => true
  end.

(** What the fields of the lock are while thread [t] is at [p]. *)
Definition owner_ok (t : Z) (l : lock) (p : pc) : Prop :=
  match p with
  | SetHolder n => n = 0%nat ∧ holder l = 0 ∧ holder_repeat_nr l = 0
  | SetRepeat n => n = 0%nat ∧ holder l = t ∧ holder_repeat_nr l = 0
  | Hold n => holder l = t ∧ holder_repeat_nr l = Z.of_nat n ∧ Z.of_nat n < 4294967296
  | Inc n => (0 < n)%nat ∧ holder l = t ∧ holder_repeat_nr l = Z.of_nat n ∧ Z.of_nat n < 4294967295
  | Dec n => (1 < n)%nat ∧ holder l = t ∧ holder_repeat_nr l = Z.of_nat n ∧ Z.of_nat n < 4294967296
  | ClrHolder n => n = 1%nat ∧ holder l = t ∧ holder_repeat_nr l = 1
  | ClrRepeat n => n = 1%nat ∧ holder l = 0 ∧ holder_repeat_nr l = 1
  | CallUp n => n = 1%nat ∧ holder l = 0 ∧ holder_repeat_nr l = 0
  | CallDown _ | Down _ _ | Wait _ _ => False
  end.

(** Waiting and about to wait: never with the lock already taken. *)
Definition contender_ok (p : pc) : Prop :=
  match p with CallDown n | Down n _ | Wait n _ => n = 0%nat | _ => True end.

Definition waiting (p : pc) : Prop := match p with Wait _ _ => True | _ => False end.
Definition retrying (p : pc) : Prop := match p with Down _ _ => True | _ => False end.

Record lock_inv (g : gstate) : Prop := {
  li_sched : sched_inv (gs g);
  li_null : status_of (gs g) 0 = None;
  li_owner :
    (value (lsema (glock g)) = 1 ∧ (∀ t, owner (pcs g t) = false) ∧
     holder (glock g) = 0 ∧ holder_repeat_nr (glock g) = 0) ∨
    (value (lsema (glock g)) = 0 ∧ ∃ o, (∀ t, owner (pcs g t) = true ↔ t = o) ∧
     o ≠ 0 ∧ owner_ok o (glock g) (pcs g o));
  li_contend : ∀ t, contender_ok (pcs g t);
  li_nodup : NoDup (waiters (lsema (glock g)));
  li_waiters : ∀ t, t ∈ waiters (lsema (glock g)) ↔ waiting (pcs g t);
  li_asleep : ∀ t, t ∈ waiters (lsema (glock g)) →
    status_of (gs g) t = Some TASK_BLOCKED ∧ t ≠ idle_thread (gs g);
  li_retry : ∀ t, retrying (pcs g t) → runnable (gs g) t ∧ t ≠ idle_thread (gs g);
  li_wakeup : value (lsema (glock g)) = 1 → waiters (lsema (glock g)) ≠ [] →
    ∃ t, retrying (pcs g t);
}.

(** ** The invariant is kept *)

Ltac pcs_at x t :=
  destruct (decide (x = t)) as [->|];
  [rewrite ?fn_lookup_insert | rewrite ?fn_lookup_insert_ne by done].

Lemma running_runnable s : sched_inv s → runnable s (running s).
Proof. intros H. right. by apply (inv_running _ H). Qed.

Lemma running_nonnull g : lock_inv g → running (gs g) ≠ 0.
Proof.
  intros Hg E. pose proof (proj2 (inv_running _ (li_sched _ Hg) _) eq_refl) as H.
  rewrite E, (li_null _ Hg) in H. done.
Qed.

(** An owner is alone, and the value is 0. *)
Lemma owner_unique g t :
  lock_inv g → owner (pcs g t) = true →
  value (lsema (glock g)) = 0 ∧ (∀ t', owner (pcs g t') = true ↔ t' = t) ∧ t ≠ 0 ∧
  owner_ok t (glock g) (pcs g t).
Proof.
  intros Hg Ht. destruct (li_owner _ Hg) as [(_ & Hno & _)|(Hv & o & Ho & Hnz & Hok)].
  - by rewrite Hno in Ht.
  - assert (t = o) as -> by (by apply Ho). done.
Qed.

(** A step of the owner that changes the holder and the counter only. *)
Lemma owner_move g t c l' p' :
  lock_inv g → owner (pcs g t) = true → owner p' = true →
  lsema l' = lsema (glock g) →
  (owner_ok t (glock g) (pcs g t) → owner_ok t l' p') →
  lock_inv (GState (with_cpu c (gs g)) l' (<[t := p']> (pcs g))).
Proof.
  intros Hg Ht Hp' Hl Hok. destruct (owner_unique g t Hg Ht) as (Hv & Hu & Hnz & Hok0).
  destruct Hg as [G1 G2 _ G4 G5 G6 G7 G8 G9].
  assert (Hnw : ∀ p, owner p = true → contender_ok p ∧ ¬ waiting p ∧ ¬ retrying p)
    by (intros []; simpl; tauto || done).
  split; simpl; rewrite ?Hl; try done.
  - by apply sched_inv_cpu.
  - right. split; [done|]. exists t. rewrite fn_lookup_insert. split_and!; auto.
    intros x. pcs_at x t; [done|apply Hu].
  - intros x. pcs_at x t; [by apply Hnw|apply G4].
  - intros x. rewrite G6. pcs_at x t; [|done]. destruct (Hnw _ Ht), (Hnw _ Hp'). tauto.
  - intros x. pcs_at x t; [|apply G8]. intros H. by destruct (Hnw _ Hp') as (_ & _ & ?).
  - rewrite Hv. done.
Qed.

(** A step towards [sema_down]. *)
Lemma contend_move g c p' :
  lock_inv g → running (gs g) ≠ idle_thread (gs g) →
  owner (pcs g (running (gs g))) = false → owner p' = false →
  ¬ waiting (pcs g (running (gs g))) → ¬ waiting p' → contender_ok p' →
  ¬ retrying (pcs g (running (gs g))) →
  lock_inv (GState (with_cpu c (gs g)) (glock g) (<[running (gs g) := p']> (pcs g))).
Proof.
  intros Hg Hidle Ht Hp' Hw Hw' Hc Hr. destruct Hg as [G1 G2 G3 G4 G5 G6 G7 G8 G9].
  set (t := running (gs g)) in *. assert (Hrun : runnable (gs g) t) by (by apply running_runnable).
  clearbody t. split; simpl; try done.
  - by apply sched_inv_cpu.
  - destruct G3 as [(Hv & Hno & ?)|(Hv & o & Ho & Hnz & Hok)]; [left|right]; (split; [done|]).
    + split; [|done]. intros x. by pcs_at x t.
    + assert (t ≠ o) by (intros ->; by rewrite (proj2 (Ho o) eq_refl) in Ht).
      exists o. rewrite fn_lookup_insert_ne by done. split; [|done].
      intros x. pcs_at x t; [naive_solver|apply Ho].
  - intros x. by pcs_at x t.
  - intros x. rewrite G6. pcs_at x t; [tauto|done].
  - intros x. pcs_at x t; [done|apply G8].
  - intros Hv Hne. destruct (G9 Hv Hne) as [x Hx]. exists x. pcs_at x t; done.
Qed.

(** [sema_down] takes the value. *)
Lemma down_take g c n old :
  lock_inv g → pcs g (running (gs g)) = Down n old → value (lsema (glock g)) ≠ 0 →
  lock_inv (GState (with_cpu c (gs g))
    (Lock (holder (glock g)) (Semaphore (u8 (value (lsema (glock g)) - 1)) (waiters (lsema (glock g))))
          (holder_repeat_nr (glock g)))
    (<[running (gs g) := SetHolder n]> (pcs g))).
Proof.
  intros Hg Hp Hv0. pose proof (running_nonnull g Hg) as Hnn.
  destruct Hg as [G1 G2 G3 G4 G5 G6 G7 G8 G9].
  set (t := running (gs g)) in *. clearbody t.
  destruct G3 as [(Hv & Hno & Hh & Hr)|(Hv & _)]; [|done].
  pose proof (G4 t) as Hn. rewrite Hp in Hn. simpl in Hn.
  split; simpl; try done.
  - by apply sched_inv_cpu.
  - right. rewrite Hv. split; [done|]. exists t. rewrite fn_lookup_insert. split_and!; try done.
    intros x. pcs_at x t; [done|]. rewrite Hno. split; [done|congruence].
  - intros x. by pcs_at x t.
  - intros x. rewrite G6. pcs_at x t; [by rewrite Hp|done].
  - intros x. pcs_at x t; [done|apply G8].
  - rewrite Hv. done.
Qed.

(** Statuses after an event that is not about this lock. *)
Lemma other_keeps blk unb g s' :
  lock_inv g → sched_inv s' → sched_frame blk unb (gs g) s' →
  (∀ t, unb = Some t → t ∉ waiters (lsema (glock g)) ∧ t ≠ 0) →
  (∀ t, blk = Some t → ¬ retrying (pcs g t)) →
  lock_inv (GState s' (glock g) (pcs g)).
Proof.
  intros Hg Hs' [F1 F2 F3] Hunb Hblk. pose proof Hg as [G1 G2 G3 G4 G5 G6 G7 G8 G9].
  assert (Hidle : idle_thread (gs g) ≠ 0).
  { intros E. pose proof (inv_idle _ G1) as H. rewrite E, G2 in H. set_solver. }
  split; simpl; try done.
  - rewrite <- G2. apply F2; [done| |intros E; by apply Hunb in E as [_ ?]].
    unfold runnable. rewrite G2. naive_solver.
  - intros t Ht. destruct (G7 t Ht) as [Hst Hi]. rewrite F1. split; [|done]. rewrite <- Hst.
    apply F2; [done| |intros E; by apply Hunb in E as [? _]].
    unfold runnable. rewrite Hst. naive_solver.
  - intros t Ht. destruct (G8 t Ht) as [Hst Hi]. rewrite F1. split; [|done].
    apply F3; [done|]. intros E. by apply Hblk in E.
Qed.

Section Preservation.
Context (v2p : Z → Z).

(** A thread other than the idle thread that blocks is asleep afterwards. *)
Lemma block_asleep s :
  sched_inv s → running s ≠ idle_thread s →
  ∃ s', thread_block v2p TASK_BLOCKED s = Ok s' ∧ sched_inv s' ∧
    sched_frame (Some (running s)) None s s' ∧ status_of s' (running s) = Some TASK_BLOCKED.
Proof.
  intros Hinv Hidle.
  assert (Ho : op_allowed (OpBlock TASK_BLOCKED) s) by (split; [by left|done]).
  destruct (thread_block_ok v2p TASK_BLOCKED s Hinv) as (s' & Hs' & Hinv' & Hq & _ & Heff);
    [by left|done|].
  exists s'. split; [done|]. split; [done|].
  split; [by apply (op_frame v2p (OpBlock TASK_BLOCKED) s s' Hinv Ho)|].
  pose proof (proj2 (inv_running _ Hinv _) eq_refl) as Hcur.
  rewrite Heff, decide_False; [|intros E].
  - assert (X : status_of (upd_task (set_status TASK_BLOCKED) (running s) s) (running s)
                = Some TASK_BLOCKED) by (sched_simpl; rewrite decide_True by done; by rewrite Hcur).
    rewrite X, decide_False; [done|naive_solver].
  - assert (running s ∉ thread_ready_list s) by (rewrite <- (inv_ready _ Hinv), Hcur; done).
    destruct (thread_ready_list s) as [|x q]; [by injection Hq as ? ?; congruence|].
    injection Hq as ? ?. set_solver.
Qed.

(** [sema_down] goes to sleep. *)
Lemma down_wait g n old s' :
  lock_inv g → pcs g (running (gs g)) = Down n old → value (lsema (glock g)) = 0 →
  running (gs g) ∉ waiters (lsema (glock g)) →
  sched_inv s' → sched_frame (Some (running (gs g))) None (gs g) s' →
  status_of s' (running (gs g)) = Some TASK_BLOCKED →
  lock_inv (GState s'
    (Lock (holder (glock g))
          (Semaphore (value (lsema (glock g))) (waiters (lsema (glock g)) ++ [running (gs g)]))
          (holder_repeat_nr (glock g)))
    (<[running (gs g) := Wait n old]> (pcs g))).
Proof.
  intros Hg Hp Hv Hnin Hs' Hfr Hst. pose proof (running_nonnull g Hg) as Hnn.
  assert (Hidle : running (gs g) ≠ idle_thread (gs g)) by (apply (li_retry _ Hg); by rewrite Hp).
  set (t := running (gs g)) in *. clearbody t.
  (* as if [t] had left the loop: its sleep is then an ordinary event *)
  assert (Hg1 : lock_inv (GState (gs g) (glock g) (<[t := Hold 0]> (pcs g)))).
  { pose proof Hg as [G1 G2 G3 G4 G5 G6 G7 G8 G9]. split; simpl; try done.
    - right. destruct G3 as [(? & _)|(_ & o & Ho & Hok)]; [lia|]. split; [done|].
      assert (t ≠ o) by (intros ->; pose proof (proj2 (Ho o) eq_refl) as X; by rewrite Hp in X).
      exists o. rewrite fn_lookup_insert_ne by done. split; [|done].
      intros x. pcs_at x t; [naive_solver|apply Ho].
    - intros x. by pcs_at x t.
    - intros x. rewrite G6. pcs_at x t; [by rewrite Hp|done].
    - intros x. pcs_at x t; [done|apply G8].
    - lia. }
  destruct (other_keeps (Some t) None _ s' Hg1 Hs' Hfr) as [G1 G2 G3 G4 G5 G6 G7 G8 G9].
  { done. } { intros x [= <-]. cbn [pcs]. rewrite fn_lookup_insert. by intros []. }
  simpl in *. split; simpl; try done.
  - right. destruct G3 as [(? & _)|(_ & o & Ho & Hnz & Hok)]; [lia|]. split; [done|].
    assert (t ≠ o) by (intros ->; pose proof (proj2 (Ho o) eq_refl) as X;
                        by rewrite fn_lookup_insert in X).
    exists o. rewrite fn_lookup_insert_ne in Hok |- * by done. split; [|done].
    intros x. rewrite <- Ho. by pcs_at x t.
  - intros x. pose proof (li_contend _ Hg t) as Hn. rewrite Hp in Hn. specialize (G4 x).
    by revert G4; pcs_at x t.
  - apply NoDup_app. split_and!; [done|set_solver|apply NoDup_singleton].
  - intros x. rewrite elem_of_app, list_elem_of_singleton. specialize (G6 x). revert G6.
    pcs_at x t; naive_solver.
  - intros x [Hx|Hx%list_elem_of_singleton]%elem_of_app; [by apply G7|]. subst x. split; [done|].
    by rewrite (frame_idle _ _ _ _ Hfr).
  - intros x. specialize (G8 x). revert G8. by pcs_at x t.
  - lia.
Qed.

(** [sema_up] with a thread to wake. *)
Lemma up_wake g n w ws s' :
  lock_inv g → pcs g (running (gs g)) = CallUp n →
  waiters (lsema (glock g)) = w :: ws →
  sched_inv s' → running s' = running (gs g) → idle_thread s' = idle_thread (gs g) →
  (∀ t, status_of s' t = if decide (w = t) then Some TASK_READY else status_of (gs g) t) →
  lock_inv (GState s' (Lock (holder (glock g)) (Semaphore 1 ws) (holder_repeat_nr (glock g)))
    (<[running (gs g) := Hold (pred n)]> (wake (Some w) (pcs g)))).
Proof.
  intros Hg Hp Hw Hs' Hrun Hi Hst.
  destruct (owner_unique g (running (gs g)) Hg) as (Hv & Hu & Hnz & Hok); [by rewrite Hp|].
  rewrite Hp in Hok. destruct Hok as (-> & Hh & Hr). simpl (pred 1).
  destruct Hg as [G1 G2 _ G4 G5 G6 G7 G8 G9]. rewrite Hw in *.
  set (t := running (gs g)) in *. clearbody t.
  assert (Hww : waiting (pcs g w)) by (apply G6; set_solver).
  destruct (pcs g w) as [| | |m old| | | | | | |] eqn:Ew; try done.
  assert (Hwt : w ≠ t) by congruence. simpl. rewrite Ew.
  apply NoDup_cons in G5 as [Hwn G5]. destruct (G7 w) as [Hwst Hwi]; [set_solver|].
  assert (Hm : m = 0%nat) by (pose proof (G4 w) as X; by rewrite Ew in X).
  assert (Hpc : ∀ x, (<[t:=Hold 0]> (<[w:=Down m old]> (pcs g))) x =
    if decide (x = t) then Hold 0 else if decide (x = w) then Down m old else pcs g x).
  { intros x. pcs_at x t; [done|]. by pcs_at x w. }
  split; simpl; try done.
  - rewrite Hst, decide_False; [done|congruence].
  - left. split_and!; try done. intros x. rewrite Hpc. repeat case_decide; try done.
    pose proof (Hu x). destruct (owner (pcs g x)); naive_solver.
  - intros x. rewrite Hpc. by repeat case_decide.
  - intros x. rewrite Hpc. specialize (G6 x). rewrite elem_of_cons in G6.
    assert (¬ waiting (pcs g t)) by (rewrite Hp; intros []).
    repeat case_decide; subst; simpl; naive_solver.
  - intros x Hx. rewrite Hst, Hi, decide_False by (intros ->; done). apply G7. set_solver.
  - intros x. rewrite Hpc. unfold runnable. rewrite Hst, Hi. repeat case_decide; subst; try done.
    + by split; [left|].
    + apply G8.
  - intros _ _. exists w. rewrite Hpc, decide_False, decide_True by done. done.
Qed.

(** [sema_up] with nobody waiting. *)
Lemma up_plain g n c :
  lock_inv g → pcs g (running (gs g)) = CallUp n → waiters (lsema (glock g)) = [] →
  lock_inv (GState (with_cpu c (gs g))
    (Lock (holder (glock g)) (Semaphore 1 []) (holder_repeat_nr (glock g)))
    (<[running (gs g) := Hold (pred n)]> (pcs g))).
Proof.
  intros Hg Hp Hw.
  destruct (owner_unique g (running (gs g)) Hg) as (Hv & Hu & Hnz & Hok); [by rewrite Hp|].
  rewrite Hp in Hok. destruct Hok as (-> & Hh & Hr). simpl (pred 1).
  destruct Hg as [G1 G2 _ G4 G5 G6 G7 G8 G9]. rewrite Hw in *.
  set (t := running (gs g)) in *. clearbody t. split; simpl; try done.
  - by apply sched_inv_cpu.
  - left. split_and!; try done. intros x. pcs_at x t; [done|].
    pose proof (Hu x). destruct (owner (pcs g x)); naive_solver.
  - intros x. by pcs_at x t.
  - intros x. rewrite G6. pcs_at x t; [by rewrite Hp|done].
  - intros x. pcs_at x t; [done|apply G8].
Qed.

Lemma with_cpu_id s : with_cpu (tcpu s) s = s.
Proof. by destruct s. Qed.

Lemma owner_goto g l' p' :
  lock_inv g → owner (pcs g (running (gs g))) = true → owner p' = true →
  lsema l' = lsema (glock g) →
  (owner_ok (running (gs g)) (glock g) (pcs g (running (gs g))) → owner_ok (running (gs g)) l' p') →
  ∃ g', Ok (GState (gs g) l' (<[running (gs g) := p']> (pcs g))) = Ok g' ∧ lock_inv g'.
Proof.
  intros Hg Ho Hp Hl Hok. eexists. split; [done|]. rewrite <- (with_cpu_id (gs g)) at 1.
  by apply owner_move.
Qed.

Lemma contend_goto g p' :
  lock_inv g → running (gs g) ≠ idle_thread (gs g) →
  owner (pcs g (running (gs g))) = false → owner p' = false →
  ¬ waiting (pcs g (running (gs g))) → ¬ waiting p' → contender_ok p' →
  ¬ retrying (pcs g (running (gs g))) →
  ∃ g', Ok (GState (gs g) (glock g) (<[running (gs g) := p']> (pcs g))) = Ok g' ∧ lock_inv g'.
Proof.
  intros. eexists. split; [done|]. rewrite <- (with_cpu_id (gs g)) at 1. by apply contend_move.
Qed.

Lemma call_up_ok g n :
  lock_inv g → pcs g (running (gs g)) = CallUp n →
  ∃ g', lock_step v2p Release g = Ok g' ∧ lock_inv g'.
Proof.
  intros Hg Hp. unfold lock_step. rewrite Hp.
  destruct (intr_disable_eq (tcpu (gs g))) as [old ->]. set (c := snd _). clearbody c.
  destruct (owner_unique g (running (gs g)) Hg) as (Hv & _); [by rewrite Hp|].
  unfold sema_up_turn. rewrite Hv. destruct (waiters (lsema (glock g))) as [|w ws] eqn:Ew; simpl.
  - eexists. split; [done|]. by apply up_plain.
  - destruct (li_asleep _ Hg w) as [Hst _]; [rewrite Ew; set_solver|].
    destruct (unblock_inv w TASK_BLOCKED (with_cpu c (gs g)))
      as (s' & Hs' & Hinv' & Hrun & _ & Hi & Hsts); [by apply sched_inv_cpu, li_sched|done|by left|].
    mrun Hs'. eexists. split; [done|]. eapply up_wake; try done. by apply sched_inv_cpu.
Qed.

Lemma down_ok g n old :
  lock_inv g → pcs g (running (gs g)) = Down n old →
  ∃ g', lock_step v2p Acquire g = Ok g' ∧ lock_inv g'.
Proof.
  intros Hg Hp. unfold lock_step. rewrite Hp. unfold sema_down_turn.
  assert (Hidle : running (gs g) ≠ idle_thread (gs g)) by (apply (li_retry _ Hg); by rewrite Hp).
  assert (Hnw : running (gs g) ∉ waiters (lsema (glock g)))
    by (rewrite (li_waiters _ Hg), Hp; intros []).
  destruct (Z.eqb_spec (value (lsema (glock g))) 0) as [Hv|Hv].
  - rewrite decide_False by done. simpl.
    destruct (block_asleep (gs g) (li_sched _ Hg) Hidle) as (s' & Hs' & Hinv' & Hfr & Hst).
    mrun Hs'. eexists. split; [done|]. by apply down_wait.
  - simpl. eexists. split; [done|]. by apply (down_take g _ n old).
Qed.

Lemma lock_step_ok call g :
  lock_inv g → call_allowed call g → ∃ g', lock_step v2p call g = Ok g' ∧ lock_inv g'.
Proof.
  intros Hg [Hidle Hcall].
  destruct (pcs g (running (gs g))) as [n|n|n old|n old|n|n|n|n|n|n|n] eqn:Ep;
    try (pose proof (call_up_ok g n Hg Ep); by unfold lock_step in *; rewrite Ep in *);
    try (pose proof (down_ok g n old Hg Ep); by unfold lock_step in *; rewrite Ep in *);
    unfold lock_step; rewrite Ep.
  - specialize (Hcall n eq_refl). destruct (owner (Hold n)) eqn:Eo.
    + destruct (owner_unique g (running (gs g)) Hg) as (Hv & _ & Hnz & Hok); [by rewrite Ep|].
      rewrite Ep in Hok. simpl in Hok, Eo. apply Nat.ltb_lt in Eo. destruct Hok as (Hh & Hr & Hb).
      destruct call.
      * rewrite Hh, Z.eqb_refl. apply owner_goto; rewrite ?Ep; simpl; try done; try (by apply Nat.ltb_lt); lia.
      * destruct (Z.gtb_spec (holder_repeat_nr (glock g)) 1);
          apply owner_goto; rewrite ?Ep; simpl; try done; try (by apply Nat.ltb_lt); lia.
    + destruct n as [|n]; [|done]. destruct call; [|lia].
      assert (Hh : holder (glock g) ≠ running (gs g)).
      { intros E. pose proof (running_nonnull g Hg).
        destruct (li_owner _ Hg) as [(_ & _ & ? & _)|(_ & o & Ho & Hnz & Hok)]; [congruence|].
        assert (o ≠ running (gs g)) by (intros ->; pose proof (proj2 (Ho (running (gs g))) eq_refl) as X;
          by rewrite Ep in X).
        destruct (pcs g o); simpl in Hok; intuition congruence. }
      rewrite (proj2 (Z.eqb_neq _ _) Hh). simpl. apply contend_goto; rewrite ?Ep; simpl; tauto || done.
  - destruct (intr_disable_eq (tcpu (gs g))) as [old ->]. eexists. split; [done|].
    pose proof (li_contend _ Hg (running (gs g))) as Hn. rewrite Ep in Hn.
    apply contend_move; rewrite ?Ep; simpl; tauto || done.
  - exfalso. pose proof (proj2 (inv_running _ (li_sched _ Hg) _) eq_refl) as X.
    destruct (li_asleep _ Hg (running (gs g))) as [Y _]; [apply (li_waiters _ Hg); by rewrite Ep|].
    congruence.
  - apply owner_goto; rewrite ?Ep; simpl; try done; naive_solver.
  - apply owner_goto; rewrite ?Ep; simpl; try done; naive_solver lia.
  - apply owner_goto; rewrite ?Ep; simpl; try done. intros (? & ? & -> & ?). rewrite u32_small; lia.
  - apply owner_goto; rewrite ?Ep; simpl; try done;
      destruct (owner_unique g (running (gs g)) Hg) as (_ & _ & _ & Hok); rewrite ?Ep in *; try done;
      destruct Hok as (? & ? & Hr & ?); [apply Nat.ltb_lt; lia|]. intros _. rewrite Hr, u32_small; lia.
  - apply owner_goto; rewrite ?Ep; simpl; try done; naive_solver.
  - apply owner_goto; rewrite ?Ep; simpl; try done; naive_solver.
Qed.

Lemma gstep_ok g r : lock_inv g → gstep v2p g r → ∃ g', r = Ok g' ∧ lock_inv g'.
Proof.
  intros Hg Hstep. destruct Hstep as [call g Hc|o g [Ho Hx]]; [by apply lock_step_ok|].
  destruct (run_op_ok v2p o (gs g) (li_sched _ Hg) Ho) as (s' & Hs' & Hinv').
  mrun Hs'. eexists. split; [done|].
  pose proof (op_frame v2p o _ _ (li_sched _ Hg) Ho Hs') as Hfr.
  refine (other_keeps _ _ g s' Hg Hinv' Hfr _ _).
  - intros t E. destruct o; try done. injection E as ->. destruct Hx as [_ Hx]. split; [done|].
    intros ->. destruct Ho as (st & Hst & _). by rewrite (li_null _ Hg) in Hst.
  - intros t E. destruct o; try done. injection E as <-. destruct Hx as [n ->]. intros [].
Qed.
End Preservation.

(** A fresh lock that no thread uses yet. *)
Lemma lock_init_inv s :
  sched_inv s → status_of s 0 = None → lock_inv (GState s lock_init (λ _, Hold 0)).
Proof.
  intros Hs Hz. split; simpl; try done.
  - by left.
  - apply NoDup_nil_2.
  - intros t. split; [set_solver|done].
  - set_solver.
Qed.

Lemma gsteps_inv v2p g r : lock_inv g → gsteps v2p g r → ∃ g', r = Ok g' ∧ lock_inv g'.
Proof.
  intros Hg Hr. revert Hg. induction Hr as [g|g g' r Hs _ IH|g r Hs Hno]; intros Hg; [eauto| |].
  - destruct (gstep_ok v2p g _ Hg Hs) as (g1 & [= <-] & Hg1). by apply IH.
  - by destruct (gstep_ok v2p g _ Hg Hs) as (g1 & -> & Hg1); eauto.
Qed.

(** One step of the running thread, inside the calls. *)
Lemma step_call v2p call g g' r :
  running (gs g) ≠ idle_thread (gs g) → (∀ n, pcs g (running (gs g)) ≠ Hold n) →
  lock_step v2p call g = Ok g' → gsteps v2p g' r → gsteps v2p g r.
Proof.
  intros Hi Hp Hs Hr. apply (gsteps_cons v2p g g' r); [|done].
  rewrite <- Hs. apply gstep_call. split; [done|]. intros n E. by apply Hp in E.
Qed.

(** The next step inside the calls, the pc known. *)
Ltac step_in :=
  eapply (step_call _ Acquire);
  [done | intros ?; cbn; by rewrite fn_lookup_insert
  | unfold lock_step; cbn [gs glock pcs]; simpl (running _); rewrite fn_lookup_insert |].

(** ** Theorems *)

(** C31: Mutual exclusion.  Whatever the interleaving of threads that acquire and
    release a lock, of clock interrupts and of other scheduling events, no step
    panics or faults; at most one thread is between taking and giving back the
    lock; while there is one the semaphore is 0, otherwise it is 1; and a thread
    that has acquired the lock [n + 1] times is its holder with that count. *)
Theorem lock_mutual_exclusion v2p g r :
  lock_inv g → gsteps v2p g r →
  ∃ g', r = Ok g' ∧
    (∀ t1 t2, owner (pcs g' t1) = true → owner (pcs g' t2) = true → t1 = t2) ∧
    (∀ t, owner (pcs g' t) = true → value (lsema (glock g')) = 0) ∧
    ((∀ t, owner (pcs g' t) = false) → value (lsema (glock g')) = 1) ∧
    (∀ t n, pcs g' t = Hold (S n) →
       holder (glock g') = t ∧ holder_repeat_nr (glock g') = Z.of_nat (S n)).
Proof.
  intros Hg Hr. destruct (gsteps_inv v2p g r Hg Hr) as (g' & -> & Hg').
  exists g'. split; [done|]. split; [|split; [|split]].
  - intros t1 t2 H1 H2. by apply (owner_unique g' t2 Hg' H2).
  - intros t H1. by apply (owner_unique g' t Hg' H1).
  - intros Hno. destruct (li_owner _ Hg') as [(? & _)|(_ & o & Ho & _)]; [done|].
    pose proof (proj2 (Ho o) eq_refl) as X. by rewrite Hno in X.
  - intros t n E. destruct (owner_unique g' t Hg') as (_ & _ & _ & Hok); [by rewrite E|].
    rewrite E in Hok. naive_solver.
Qed.

(** C32: No lost wake-up.  In every reachable state in which threads sleep on the
    lock, there is a thread that will wake them or take the lock first: the
    current owner, or a woken thread that is ready to run and retries. *)
Theorem lock_no_lost_wakeup v2p g r :
  lock_inv g → gsteps v2p g r →
  ∃ g', r = Ok g' ∧
    ∀ w, waiting (pcs g' w) →
      status_of (gs g') w = Some TASK_BLOCKED ∧ w ∈ waiters (lsema (glock g')) ∧
      ∃ t, owner (pcs g' t) = true ∨ (retrying (pcs g' t) ∧ runnable (gs g') t).
Proof.
  intros Hg Hr. destruct (gsteps_inv v2p g r Hg Hr) as (g' & -> & Hg').
  exists g'. split; [done|]. intros w Hw. pose proof (proj2 (li_waiters _ Hg' w) Hw) as Hin.
  split; [by apply (li_asleep _ Hg')|]. split; [done|].
  destruct (li_owner _ Hg') as [(Hv & _)|(_ & o & Ho & _)].
  - destruct (li_wakeup _ Hg' Hv) as [t Ht]; [by intros E; rewrite E in Hin; set_solver|].
    exists t. right. split; [done|]. by apply (li_retry _ Hg').
  - exists o. left. by apply Ho.
Qed.

(** The whole-call view is a run of the interleaved one: [lock_acquire] ends
    with the lock it returns and the interrupt status it started with, or goes to
    sleep in the wait queue; it never panics. *)
Theorem acquire_simulates v2p g n :
  lock_inv g → pcs g (running (gs g)) = Hold n → call_allowed Acquire g →
  match lock_acquire (running (gs g)) (glock g) with
  | Ok l' => ∃ g', gsteps v2p g (Ok g') ∧ glock g' = l' ∧ running (gs g') = running (gs g) ∧
               pcs g' (running (gs g)) = Hold (S n) ∧
               intr_get_status (tcpu (gs g')) = intr_get_status (tcpu (gs g))
  | Blocked => ∃ g', gsteps v2p g (Ok g') ∧ waiting (pcs g' (running (gs g)))
  | _ => False
  end.
Proof.
  intros Hg Hp Hc. pose proof Hc as [Hidle _]. unfold lock_acquire.
  pose proof (gstep_call v2p Acquire g Hc) as Hs. unfold lock_step in Hs. rewrite Hp in Hs.
  destruct (Z.eqb_spec (holder (glock g)) (running (gs g))) as [Eh|Eh]; simpl in Hs.
  - eexists. split; [eapply gsteps_cons; [exact Hs|]|].
    + step_in; [reflexivity|]. apply gsteps_refl.
    + cbn [gs glock pcs]. rewrite fn_lookup_insert. done.
  - unfold sema_down_turn.
    assert (Hnw : running (gs g) ∉ waiters (lsema (glock g)))
      by (rewrite (li_waiters _ Hg), Hp; intros []).
    destruct (intr_disable (tcpu (gs g))) as [old c] eqn:Ed.
    destruct (Z.eqb_spec (value (lsema (glock g))) 0) as [Hv|Hv].
    + rewrite decide_False by done. cbn [mbind outcome_bind].
      destruct (block_asleep v2p (with_cpu c (gs g)) (sched_inv_cpu _ _ (li_sched _ Hg)) Hidle)
        as (s' & Hs' & _).
      eexists. split; [eapply gsteps_cons; [exact Hs|]|].
      * step_in; [by rewrite Ed|]. step_in; [|apply gsteps_refl]. unfold sema_down_turn.
        rewrite (proj2 (Z.eqb_eq _ _) Hv), decide_False by done. mrun Hs'. reflexivity.
      * cbn [gs glock pcs]. rewrite fn_lookup_insert. done.
    + cbn [mbind outcome_bind]. eexists. split; [eapply gsteps_cons; [exact Hs|]|].
      * step_in; [by rewrite Ed|].
        step_in; [unfold sema_down_turn; by rewrite (proj2 (Z.eqb_neq _ _) Hv)|].
        step_in; [reflexivity|]. step_in; [reflexivity|]. apply gsteps_refl.
      * cbn [gs glock pcs]. simpl (running _). rewrite fn_lookup_insert. split_and!; try done.
        simpl. rewrite intr_restore_status. change old with (fst (old, c)). rewrite <- Ed.
        apply intr_disable_fst.
Qed.

(** [lock_release] by the thread that holds the lock [n + 1] times is a run of
    the interleaved steps: it ends with the lock it returns, holding it [n]
    times; on the last release the first waiting thread, if any, is ready to
    retry. *)
Theorem release_simulates v2p g n :
  lock_inv g → pcs g (running (gs g)) = Hold (S n) → call_allowed Release g →
  let '(w, l') := lock_release (glock g) in
  ∃ g', gsteps v2p g (Ok g') ∧ glock g' = l' ∧ pcs g' (running (gs g)) = Hold n ∧
    w = (if decide (n = 0%nat) then head (waiters (lsema (glock g))) else None) ∧
    ∀ t, w = Some t → retrying (pcs g' t) ∧ runnable (gs g') t.
Proof.
  intros Hg Hp Hc. pose proof Hc as [Hidle _]. unfold lock_release.
  destruct (owner_unique g (running (gs g)) Hg) as (Hv & _ & Hnz & Hok); [by rewrite Hp|].
  rewrite Hp in Hok. destruct Hok as (Hh & Hr & _).
  pose proof (gstep_call v2p Release g Hc) as Hs. unfold lock_step in Hs. rewrite Hp in Hs.
  destruct (Z.gtb_spec (holder_repeat_nr (glock g)) 1) as [E|E].
  - rewrite decide_False by lia. eexists. split; [eapply gsteps_cons; [exact Hs|]|].
    + step_in; [reflexivity|]. apply gsteps_refl.
    + cbn [gs glock pcs]. rewrite fn_lookup_insert. done.
  - assert (n = 0%nat) as -> by lia. rewrite decide_True by done.
    destruct (sema_up_turn (lsema (glock g))) as [w sm] eqn:Eu.
    destruct (intr_disable (tcpu (gs g))) as [old c] eqn:Ed.
    assert (Hw : ∃ s', (match w with Some w => thread_unblock w (with_cpu c (gs g))
                         | None => Ok (with_cpu c (gs g)) end) = Ok s' ∧
              w = head (waiters (lsema (glock g))) ∧
              ∀ t, w = Some t → status_of s' t = Some TASK_READY ∧ waiting (pcs g t)).
    { unfold sema_up_turn in Eu. destruct (waiters (lsema (glock g))) as [|x xs] eqn:Ew;
        injection Eu as <- <-; [by eexists|].
      destruct (li_asleep _ Hg x) as [Hst _]; [rewrite Ew; set_solver|].
      destruct (unblock_inv x TASK_BLOCKED (with_cpu c (gs g)))
        as (s' & Hs' & _ & _ & _ & _ & Hsts); [by apply sched_inv_cpu, li_sched|done|by left|].
      exists s'. split; [done|]. split; [done|]. intros t [= <-]. rewrite Hsts, decide_True by done.
      split; [done|]. apply (li_waiters _ Hg). rewrite Ew. set_solver. }
    destruct Hw as (s' & Hs' & Hhd & Hwt).
    eexists. split; [eapply gsteps_cons; [exact Hs|]|].
    + step_in; [reflexivity|]. step_in; [reflexivity|].
      step_in; [rewrite Ed; cbn [lsema]; rewrite Eu; mrun Hs'; reflexivity|]. apply gsteps_refl.
    + cbn [gs glock pcs]. rewrite fn_lookup_insert. split; [done|]. split; [done|]. split; [done|].
      intros t ->. destruct (Hwt t eq_refl) as [Hrd Hpw].
      assert (t ≠ running (gs g)) by (intros ->; by rewrite Hp in Hpw).
      rewrite fn_lookup_insert_ne by done. split; [|by left]. unfold wake.
      rewrite !fn_lookup_insert_ne by done.
      destruct (pcs g t); try done. by rewrite fn_lookup_insert.
Qed.

(** *** Witnesses *)

Definition demo_lock_state : gstate := GState demo_state lock_init (λ _, Hold 0).

Lemma demo_lock_inv : lock_inv demo_lock_state.
Proof. apply lock_init_inv; [exact demo_inv|reflexivity]. Qed.

Lemma demo_call : call_allowed Acquire demo_lock_state.
Proof. split; [done|]. intros n [= <-]. lia. Qed.

Lemma lock_mutual_exclusion_witness :
  ∃ r, gsteps (λ x, x) demo_lock_state r ∧ ∃ g', r = Ok g' ∧
    (∀ t1 t2, owner (pcs g' t1) = true → owner (pcs g' t2) = true → t1 = t2).
Proof.
  exists (lock_step (λ x, x) Acquire demo_lock_state). split.
  - eapply gsteps_cons; [exact (gstep_call _ _ _ demo_call)|apply gsteps_refl].
  - destruct (lock_mutual_exclusion (λ x, x) demo_lock_state (lock_step (λ x, x) Acquire demo_lock_state)
      demo_lock_inv) as (g' & Hr & Hu & _).
    + eapply gsteps_cons; [exact (gstep_call _ _ _ demo_call)|apply gsteps_refl].
    + exists g'. split; [exact Hr|exact Hu].
Defined.

Lemma acquire_simulates_witness :
  ∃ g', gsteps (λ x, x) demo_lock_state (Ok g') ∧ holder (glock g') = 0x1000 ∧
    pcs g' 0x1000 = Hold 1.
Proof.
  destruct (acquire_simulates (λ x, x) demo_lock_state 0 demo_lock_inv eq_refl demo_call)
    as (g' & Hs & Hl & _ & Hp & _).
  exists g'. split; [exact Hs|]. split; [by rewrite Hl|exact Hp].
Defined.

(** The lock held once by the running thread. *)
Definition demo_held : gstate :=
  GState demo_state (Lock 0x1000 (Semaphore 0 []) 1) (<[0x1000 := Hold 1]> (λ _, Hold 0)).

Lemma demo_held_inv : lock_inv demo_held.
Proof.
  destruct demo_lock_inv as [G1 G2 G3 G4 G5 G6 G7 G8 G9]. split; simpl; try done.
  - right. split; [done|]. exists 0x1000. split; [|by rewrite fn_lookup_insert].
    intros t. by pcs_at t 0x1000.
  - intros t. by pcs_at t 0x1000.
  - intros t. rewrite G6. by pcs_at t 0x1000.
  - intros t. by pcs_at t 0x1000.
Qed.

(** A run in which 0x1000, which holds the lock, yields, and 0x2000 calls [lock_acquire] and goes to
    sleep. *)
Definition run_yield (g : gstate) : outcome gstate :=
  s ← run_op (λ x, x) OpYield (gs g); Ok (GState s (glock g) (pcs g)).
Definition run_acquire (g : gstate) : outcome gstate := lock_step (λ x, x) Acquire g.
Definition demo_contended : outcome gstate :=
  g1 ← run_yield demo_held; g2 ← run_acquire g1; g3 ← run_acquire g2; run_acquire g3.

Lemma acquire_steps g g' r :
  running (gs g) ≠ idle_thread (gs g) →
  match pcs g (running (gs g)) with Hold n => n = O | _ => True end →
  run_acquire g = Ok g' → gsteps (λ x, x) g' r → gsteps (λ x, x) g r.
Proof.
  intros Hi Hn H Hr. eapply gsteps_cons; [|exact Hr]. rewrite <- H. apply gstep_call. split; [done|].
  intros n E. rewrite E in Hn. lia.
Qed.

Lemma demo_contended_run : gsteps (λ x, x) demo_held demo_contended.
Proof.
  unfold demo_contended. destruct (run_yield demo_held) as [g1| | | |] eqn:E1; try (by vm_compute in E1).
  eapply gsteps_cons; [rewrite <- E1; apply gstep_other; split; [exact I|exists 1%nat; reflexivity]|].
  vm_compute in E1. injection E1 as <-. cbn [mbind outcome_bind].
  do 3 (eapply acquire_steps; [by vm_compute | by vm_compute | reflexivity |]; cbn [mbind outcome_bind]).
  apply gsteps_refl.
Qed.

Lemma demo_contended_waits :
  match demo_contended with
  | Ok g' => waiting (pcs g' 0x2000) ∧ waiters (lsema (glock g')) = [0x2000]
  | _ => False
  end.
Proof. vm_compute. done. Qed.

Lemma lock_no_lost_wakeup_witness :
  ∃ g', demo_contended = Ok g' ∧ waiting (pcs g' 0x2000) ∧ waiters (lsema (glock g')) = [0x2000] ∧
    status_of (gs g') 0x2000 = Some TASK_BLOCKED ∧
    ∃ t, owner (pcs g' t) = true ∨ (retrying (pcs g' t) ∧ runnable (gs g') t).
Proof.
  destruct (lock_no_lost_wakeup (λ x, x) demo_held demo_contended demo_held_inv demo_contended_run)
    as (g' & Hr & Hw).
  pose proof demo_contended_waits as H. rewrite Hr in H. destruct H as [H1 H2].
  destruct (Hw 0x2000 H1) as (H3 & _ & H4).
  exists g'. exact (conj Hr (conj H1 (conj H2 (conj H3 H4)))).
Defined.

Lemma release_simulates_witness :
  ∃ g', gsteps (λ x, x) demo_held (Ok g') ∧ holder (glock g') = 0 ∧ pcs g' 0x1000 = Hold 0.
Proof.
  destruct (release_simulates (λ x, x) demo_held 0 demo_held_inv) as (g' & Hs & Hl & Hp & _).
  - reflexivity.
  - split; [done|]. intros n Hn. cbn in Hn. rewrite fn_lookup_insert in Hn. injection Hn as <-. lia.
  - exists g'. split; [exact Hs|]. split; [by rewrite Hl|exact Hp].
Defined.
