(* ===== verification/Paging.v ===== *)
(** * Page allocation and the page tables (kernel/memory.c, page level)

    Physical memory is a map from word addresses to 32-bit words; what the code
    reads and writes through pointers goes through the two-level translation of
    the processor ([translate]).  The model has no translation cache. *)

From S2P Require Import Prelude Bitmap Sched Sync.

(** ** Data *)

Definition K_HEAP_START : Z := 0xc0100000.
Definition MEM_BITMAP_BASE : Z := 0xc009a000.
Definition PG_P_1 : Z := 1.
Definition PG_RW_W : Z := 2.
Definition PG_US_U : Z := 4.

Inductive pool_flags := PF_KERNEL | PF_USER.

#[global] Instance pool_flags_eq_dec : EqDecision pool_flags.
Proof. solve_decision. Defined.

Record pool := Pool {
  pool_bitmap : bitmap;
  phy_addr_start : Z;
  pool_size : Z;
  plock : lock;
}.

Definition with_bitmap (b : bitmap) (p : pool) : pool :=
  Pool b (phy_addr_start p) (pool_size p) (plock p).
Definition with_lock (l : lock) (p : pool) : pool :=
  Pool (pool_bitmap p) (phy_addr_start p) (pool_size p) l.

(** The memory state, with what the code reads of the running thread. *)
Record mstate := MState {
  phys : gmap Z Z;
  mcr3 : Z;
  kernel_pool : pool;
  user_pool : pool;
  kernel_vaddr : virtual_addr;
  cur_thread : Z;
  cur_pgdir : Z;
  cur_vaddr : virtual_addr;
}.

Definition with_phys (v : gmap Z Z) (s : mstate) : mstate :=
  MState v (mcr3 s) (kernel_pool s) (user_pool s) (kernel_vaddr s) (cur_thread s) (cur_pgdir s)
         (cur_vaddr s).
Definition get_pool (pf : pool_flags) (s : mstate) : pool :=
  match pf with PF_KERNEL => kernel_pool s | PF_USER => user_pool s end.
Definition set_pool (pf : pool_flags) (p : pool) (s : mstate) : mstate :=
  match pf with
  | PF_KERNEL => MState (phys s) (mcr3 s) p (user_pool s) (kernel_vaddr s) (cur_thread s)
                   (cur_pgdir s) (cur_vaddr s)
  | PF_USER => MState (phys s) (mcr3 s) (kernel_pool s) p (kernel_vaddr s) (cur_thread s)
                   (cur_pgdir s) (cur_vaddr s)
  end.
Definition get_vaddr (pf : pool_flags) (s : mstate) : virtual_addr :=
  match pf with PF_KERNEL => kernel_vaddr s | PF_USER => cur_vaddr s end.
Definition set_vaddr (pf : pool_flags) (v : virtual_addr) (s : mstate) : mstate :=
  match pf with
  | PF_KERNEL => MState (phys s) (mcr3 s) (kernel_pool s) (user_pool s) v (cur_thread s)
                   (cur_pgdir s) (cur_vaddr s)
  | PF_USER => MState (phys s) (mcr3 s) (kernel_pool s) (user_pool s) (kernel_vaddr s)
                   (cur_thread s) (cur_pgdir s) v
  end.

(** ** The processor's view of memory *)

Definition PDE_IDX (addr : Z) : Z := Z.shiftr (Z.land addr 0xffc00000) 22.
Definition PTE_IDX (addr : Z) : Z := Z.shiftr (Z.land addr 0x003ff000) 12.
Definition frame (e : Z) : Z := Z.land e 0xfffff000.
Definition present (e : Z) : bool := negb (Z.land e 1 =? 0).

Definition translate (m : gmap Z Z) (cr3 va : Z) : option Z :=
  pde ← m !! (frame cr3 + PDE_IDX va * 4);
  if present pde then
    pte ← m !! (frame pde + PTE_IDX va * 4);
    if present pte then Some (frame pte + Z.land va 0xfff) else None
  else None.

Definition rd32 (va : Z) (s : mstate) : outcome Z :=
  pa ← of_opt (translate (phys s) (mcr3 s) va);
  of_opt (phys s !! pa).

Definition wr32 (va v : Z) (s : mstate) : outcome mstate :=
  pa ← of_opt (translate (phys s) (mcr3 s) va);
  _ ← of_opt (phys s !! pa);
  Ok (with_phys (<[pa := v]> (phys s)) s).

(** [memset (va, 0, 4 * n)] on word-aligned memory. *)
Fixpoint clear_words (n : nat) (va : Z) (s : mstate) : outcome mstate :=
  match n with
  | O => Ok s
  | S n => s ← wr32 va 0 s; clear_words n (u32 (va + 4)) s
  end.

(** ** Operations *)

Definition pte_ptr (vaddr : Z) : Z :=
  u32 (0xffc00000 + Z.shiftr (Z.land vaddr 0xffc00000) 10 + PTE_IDX vaddr * 4).

Definition pde_ptr (vaddr : Z) : Z := u32 (0xfffff000 + PDE_IDX vaddr * 4).

(** [while (cnt < pg_cnt) bitmap_set (btmp, bit_idx_start + cnt++, v)]. *)
Fixpoint set_run (n : nat) (b : bitmap) (i v : Z) : outcome bitmap :=
  match n with
  | O => Ok b
  | S n => b ← bitmap_set b i v; set_run n b (u32 (i + 1)) v
  end.

Definition vaddr_get (pf : pool_flags) (pg_cnt : Z) (s : mstate) : outcome (Z * mstate) :=
  let va := get_vaddr pf s in
  bit_idx_start ← bitmap_scan (vaddr_bitmap va) pg_cnt;
  if bit_idx_start =? -1 then Ok (0, s)
  else
    b ← set_run (Z.to_nat pg_cnt) (vaddr_bitmap va) (u32 bit_idx_start) 1;
    Ok (u32 (vaddr_start va + bit_idx_start * PG_SIZE),
        set_vaddr pf (VirtualAddr b (vaddr_start va)) s).

Definition palloc (pf : pool_flags) (s : mstate) : outcome (Z * mstate) :=
  let m_pool := get_pool pf s in
  bit_idx ← bitmap_scan (pool_bitmap m_pool) 1;
  if bit_idx =? -1 then Ok (0, s)
  else
    b ← bitmap_set (pool_bitmap m_pool) bit_idx 1;
    Ok (u32 (bit_idx * PG_SIZE + phy_addr_start m_pool), set_pool pf (with_bitmap b m_pool) s).

Definition entry (page_phyaddr : Z) : Z :=
  Z.lor (Z.lor (Z.lor page_phyaddr PG_US_U) PG_RW_W) PG_P_1.

Definition page_table_add (vaddr page_phyaddr : Z) (s : mstate) : outcome mstate :=
  let pde := pde_ptr vaddr in
  let pte := pte_ptr vaddr in
  e ← rd32 pde s;
  if present e then
    _ ← rd32 pte s;
    wr32 pte (entry page_phyaddr) s
  else
    '(pde_phyaddr, s) ← palloc PF_KERNEL s;
    s ← wr32 pde (entry pde_phyaddr) s;
    s ← clear_words 1024 (frame pte) s;
    wr32 pte (entry page_phyaddr) s.

(** The loop of [malloc_page]; [false] when the pool is exhausted. *)
Fixpoint map_pages (cnt : nat) (pf : pool_flags) (vaddr : Z) (s : mstate) : outcome (bool * mstate) :=
  match cnt with
  | O => Ok (true, s)
  | S cnt =>
      '(page_phyaddr, s) ← palloc pf s;
      if page_phyaddr =? 0 then Ok (false, s)
      else
        s ← page_table_add vaddr page_phyaddr s;
        map_pages cnt pf (u32 (vaddr + PG_SIZE)) s
  end.

Definition malloc_page (pf : pool_flags) (pg_cnt : Z) (s : mstate) : outcome (Z * mstate) :=
  '(vaddr_start, s) ← vaddr_get pf pg_cnt s;
  if vaddr_start =? 0 then Ok (0, s)
  else
    '(done, s) ← map_pages (Z.to_nat pg_cnt) pf vaddr_start s;
    Ok (if done : bool then vaddr_start else 0, s).

(** The line feed that line 141 of kernel/memory.c puts on the screen is not part
    of this state. *)
Definition get_kernel_pages (pg_cnt : Z) (s : mstate) : outcome (Z * mstate) :=
  '(vaddr, s) ← malloc_page PF_KERNEL pg_cnt s;
  if vaddr =? 0 then Ok (vaddr, s)
  else s ← clear_words (Z.to_nat (pg_cnt * 1024)) vaddr s; Ok (vaddr, s).

Definition acquire (pf : pool_flags) (s : mstate) : outcome mstate :=
  let p := get_pool pf s in
  l ← lock_acquire (cur_thread s) (plock p);
  Ok (set_pool pf (with_lock l p) s).

Definition release (pf : pool_flags) (s : mstate) : mstate :=
  let p := get_pool pf s in set_pool pf (with_lock (snd (lock_release (plock p))) p) s.

Definition get_user_pages (pg_cnt : Z) (s : mstate) : outcome (Z * mstate) :=
  s ← acquire PF_USER s;
  '(vaddr, s) ← malloc_page PF_USER pg_cnt s;
  s ← clear_words (Z.to_nat (pg_cnt * 1024)) vaddr s;
  Ok (vaddr, release PF_USER s).

Definition get_a_page (pf : pool_flags) (vaddr : Z) (s : mstate) : outcome (Z * mstate) :=
  s ← acquire pf s;
  s ← (if negb (cur_pgdir s =? 0) && bool_decide (pf = PF_USER) ||
          (cur_pgdir s =? 0) && bool_decide (pf = PF_KERNEL) then
         let va := get_vaddr pf s in
         let bit_idx := i32 (u32 (vaddr - vaddr_start va) / PG_SIZE) in
         b ← bitmap_set (vaddr_bitmap va) bit_idx 1;
         Ok (set_vaddr pf (VirtualAddr b (vaddr_start va)) s)
       else Panic);
  '(page_phyaddr, s) ← palloc pf s;
  if page_phyaddr =? 0 then Ok (0, s)
  else
    s ← page_table_add vaddr page_phyaddr s;
    Ok (vaddr, release pf s).

Definition get_a_page_without_opvaddrbitmap (pf : pool_flags) (vaddr : Z) (s : mstate)
    : outcome (Z * mstate) :=
  s ← acquire pf s;
  '(page_phyaddr, s) ← palloc pf s;
  if page_phyaddr =? 0 then Ok (0, release pf s)
  else
    s ← page_table_add vaddr page_phyaddr s;
    Ok (vaddr, release pf s).

Definition addr_v2p (vaddr : Z) (s : mstate) : outcome Z :=
  e ← rd32 (pte_ptr vaddr) s;
  Ok (u32 (frame e + Z.land vaddr 0xfff)).

(** [pfree], and [free_a_phy_page], which has the same body. *)
Definition pfree (pg_phy_addr : Z) (s : mstate) : outcome mstate :=
  let pf := if pg_phy_addr >=? phy_addr_start (user_pool s) then PF_USER else PF_KERNEL in
  let mem_pool := get_pool pf s in
  let bit_idx := u32 (pg_phy_addr - phy_addr_start mem_pool) / PG_SIZE in
  b ← bitmap_set (pool_bitmap mem_pool) bit_idx 0;
  Ok (set_pool pf (with_bitmap b mem_pool) s).

Definition free_a_phy_page : Z → mstate → outcome mstate := pfree.

Definition page_table_pte_remove (vaddr : Z) (s : mstate) : outcome mstate :=
  e ← rd32 (pte_ptr vaddr) s;
  wr32 (pte_ptr vaddr) (u32 (Z.land e (Z.lnot PG_P_1))) s.

Definition vaddr_remove (pf : pool_flags) (vaddr pg_cnt : Z) (s : mstate) : outcome mstate :=
  let va := get_vaddr pf s in
  let bit_idx_start := u32 (vaddr - vaddr_start va) / PG_SIZE in
  b ← set_run (Z.to_nat pg_cnt) (vaddr_bitmap va) bit_idx_start 0;
  Ok (set_vaddr pf (VirtualAddr b (vaddr_start va)) s).

(** The loop of [mfree_page], the same in both branches. *)
Fixpoint unmap_pages (cnt : nat) (vaddr : Z) (s : mstate) : outcome mstate :=
  match cnt with
  | O => Ok s
  | S cnt =>
      pg_phy_addr ← addr_v2p vaddr s;
      s ← pfree pg_phy_addr s;
      s ← page_table_pte_remove vaddr s;
      unmap_pages cnt (u32 (vaddr + PG_SIZE)) s
  end.

Definition mfree_page (pf : pool_flags) (_vaddr pg_cnt : Z) (s : mstate) : outcome mstate :=
  _ ← addr_v2p _vaddr s;
  s ← unmap_pages (Z.to_nat pg_cnt) _vaddr s;
  vaddr_remove pf _vaddr pg_cnt s.

(** What [mem_pool_init] sets up: the pools, the kernel's address pool, and where
    the bytes of the three bitmaps lie. *)
Record pool_layout := PoolLayout {
  kpool : pool; upool : pool; kvaddr : virtual_addr;
  kbits : Z; ubits : Z; vbits : Z;
}.

(** A cleared bitmap of [len] bytes; [after] is the memory that follows it. *)
Definition cleared (len : Z) (after : list Z) : bitmap :=
  Bitmap len (replicate (Z.to_nat len) 0 ++ after).

(** [after] is the memory behind each of the three bitmaps.  (The code lays them out one behind
    the other, so what follows the first two is the beginning of the next one.) *)
Definition mem_pool_init (all_mem : Z) (after : list Z) : pool_layout :=
  let page_table_size := PG_SIZE * 256 in
  let used_mem := page_table_size + 0x100000 in
  let free_mem := u32 (all_mem - used_mem) in
  let all_free_pages := u16 (free_mem / PG_SIZE) in
  let kernel_free_pages := u16 (all_free_pages / 2) in
  let user_free_pages := u16 (all_free_pages - kernel_free_pages) in
  let kbm_length := kernel_free_pages / 8 in
  let ubm_length := user_free_pages / 8 in
  let kp_start := used_mem in
  let up_start := u32 (kp_start + kernel_free_pages * PG_SIZE) in
  PoolLayout
    (Pool (cleared kbm_length after) kp_start (u32 (kernel_free_pages * PG_SIZE)) lock_init)
    (Pool (cleared ubm_length after) up_start (u32 (user_free_pages * PG_SIZE)) lock_init)
    (VirtualAddr (cleared kbm_length after) K_HEAP_START)
    MEM_BITMAP_BASE (u32 (MEM_BITMAP_BASE + kbm_length))
    (u32 (MEM_BITMAP_BASE + kbm_length + ubm_length)).

(** ** Address arithmetic *)

Lemma land_field x w k :
  0 ≤ w → 0 ≤ k → Z.land x (Z.shiftl (Z.ones w) k) = (x / 2 ^ k) mod 2 ^ w * 2 ^ k.
Proof.
  intros Hw Hk.
  rewrite <- Z.land_ones, <- Z.shiftr_div_pow2, <- Z.shiftl_mul_pow2 by lia.
  apply Z.bits_inj'. intros n Hn. rewrite Z.land_spec, !Z.shiftl_spec by lia.
  destruct (Z.ltb_spec n k).
  - rewrite (Z.testbit_neg_r (Z.ones w)), andb_false_r by lia. by rewrite Z.testbit_neg_r by lia.
  - rewrite Z.land_spec, Z.shiftr_spec by lia. by replace (n - k + k) with n by lia.
Qed.

Lemma frame_eq x : 0 ≤ x < 4294967296 → frame x = x / 4096 * 4096.
Proof.
  intros Hx. unfold frame. change 0xfffff000 with (Z.shiftl (Z.ones 20) 12).
  rewrite land_field by lia. change (2 ^ 12) with 4096. change (2 ^ 20) with 1048576. zdm.
Qed.

Lemma PDE_IDX_eq x : 0 ≤ x < 4294967296 → PDE_IDX x = x / 4194304.
Proof.
  intros Hx. unfold PDE_IDX. change 0xffc00000 with (Z.shiftl (Z.ones 10) 22).
  rewrite land_field, Z.shiftr_div_pow2 by lia. change (2 ^ 22) with 4194304.
  change (2 ^ 10) with 1024. zdm.
Qed.

Lemma PTE_IDX_eq x : 0 ≤ x < 4294967296 → PTE_IDX x = (x / 4096) mod 1024.
Proof.
  intros Hx. unfold PTE_IDX. change 0x003ff000 with (Z.shiftl (Z.ones 10) 12).
  rewrite land_field, Z.shiftr_div_pow2 by lia. change (2 ^ 12) with 4096.
  change (2 ^ 10) with 1024. zdm.
Qed.

Lemma offset_eq x : Z.land x 0xfff = x mod 4096.
Proof. change 0xfff with (Z.ones 12). by rewrite Z.land_ones by lia. Qed.

Lemma present_eq e : present e = (e mod 2 =? 1).
Proof.
  unfold present. change 1 with (Z.ones 1) at 1. rewrite Z.land_ones by lia. change (2 ^ 1) with 2.
  destruct (Z.eqb_spec (e mod 2) 0), (Z.eqb_spec (e mod 2) 1); zdm || done.
Qed.

(** Numbers below 8 fit into the flag bits of a page-aligned address. *)
Lemma lor_flags x f : x mod 4096 = 0 → 0 ≤ f < 4096 → Z.lor x f = x + f.
Proof.
  intros Hx Hf. assert (Hl : Z.land x f = 0).
  { apply Z.bits_inj'. intros n Hn. rewrite Z.land_spec, Z.bits_0.
    destruct (Z.ltb_spec n 12).
    - rewrite <- (Z.mod_pow2_bits_low x 12 n) by lia. change (2 ^ 12) with 4096.
      by rewrite Hx, Z.bits_0.
    - destruct (decide (f = 0)) as [->|]; [by rewrite Z.bits_0, andb_false_r|].
      rewrite (Z.bits_above_log2 f n), andb_false_r; [done|lia|].
      apply Z.log2_lt_pow2; [lia|]. apply (Z.lt_le_trans _ (2 ^ 12)); [lia|].
      apply Z.pow_le_mono_r; lia. }
  by rewrite Z.add_nocarry_lxor, Z.lxor_lor by done.
Qed.

Lemma entry_eq x : x mod 4096 = 0 → entry x = x + 7.
Proof.
  intros Hx. unfold entry, PG_US_U, PG_RW_W, PG_P_1. rewrite <- !Z.lor_assoc.
  change (Z.lor 4 (Z.lor 2 1)) with 7. by apply lor_flags.
Qed.

Lemma entry_frame x : 0 ≤ x < 4294967296 → x mod 4096 = 0 → frame (entry x) = x.
Proof. intros Hx Ha. rewrite entry_eq, frame_eq; zdm. Qed.

Lemma entry_present x : x mod 4096 = 0 → present (entry x) = true.
Proof. intros Ha. rewrite entry_eq, present_eq by done. apply Z.eqb_eq. zdm. Qed.

(** ** The invariant of an address space *)

Definition word_ok (w : Z) : Prop := 0 ≤ w < 4294967296.
Definition va_ok (va : Z) : Prop := 0 ≤ va < 0xffc00000.

Record pool_wf (p : pool) : Prop := {
  pw_bitmap : bitmap_wf (pool_bitmap p);
  pw_slack : btmp_bytes_len (pool_bitmap p) < zlen (bits (pool_bitmap p));
  pw_align : phy_addr_start p mod 4096 = 0;
  pw_pos : 0 < phy_addr_start p;
  pw_end : phy_addr_start p + nbits (pool_bitmap p) * 4096 ≤ 4294967296;
}.

(** A frame that the kernel pool cannot hand out. *)
Definition taken (s : mstate) (f : Z) : Prop :=
  f < phy_addr_start (kernel_pool s) ∨
  f < phy_addr_start (kernel_pool s) + nbits (pool_bitmap (kernel_pool s)) * 4096 ∧
  bit_set (pool_bitmap (kernel_pool s)) ((f - phy_addr_start (kernel_pool s)) / 4096) = true.

Definition pde_at (s : mstate) (i e : Z) : Prop := phys s !! (mcr3 s + i * 4) = Some e.

(** All words of the frame are memory. *)
Definition frame_mem (m : gmap Z Z) (f : Z) : Prop := ∀ j, 0 ≤ j < 1024 → is_Some (m !! (f + j * 4)).

(** The addresses from directory entry [lo] on, below the self-mapped directory. *)
Definition va_from (lo : N) (va : Z) : Prop := Z.of_N lo * 0x400000 ≤ va < 0xffc00000.

Lemma va_from_ok lo va : va_from lo va → va_ok va.
Proof. unfold va_from, va_ok. lia. Qed.

Section AddressSpace.

(** The directory entries from [lo] on have page tables of their own.  [lo] is 1 in the
    directory that the loader makes, where the entries 0 and 768 name the same table (loader.s),
    and 0 in the directory of a process. *)
Context {lo : N}.

Record as_from (s : mstate) : Prop := {
  aw_cr3 : word_ok (mcr3 s) ∧ mcr3 s mod 4096 = 0;
  aw_words : ∀ a w, phys s !! a = Some w → word_ok w;
  aw_dir : frame_mem (phys s) (mcr3 s);
  aw_self : pde_at s 1023 (entry (mcr3 s));
  aw_taken : taken s (mcr3 s);
  aw_table : ∀ i e, 0 ≤ i < 1023 → pde_at s i e → present e = true →
    frame_mem (phys s) (frame e) ∧ frame e ≠ mcr3 s ∧ taken s (frame e);
  aw_inj : ∀ i j ei ej, Z.of_N lo ≤ i < 1023 → Z.of_N lo ≤ j < 1023 → pde_at s i ei → pde_at s j ej →
    present ei = true → present ej = true → frame ei = frame ej → i = j;
  aw_kpool : pool_wf (kernel_pool s);
  aw_upool : pool_wf (user_pool s);
  aw_order : phy_addr_start (kernel_pool s) + nbits (pool_bitmap (kernel_pool s)) * 4096
             ≤ phy_addr_start (user_pool s);
  aw_kmem : ∀ r, 0 ≤ r < nbits (pool_bitmap (kernel_pool s)) →
    frame_mem (phys s) (phy_addr_start (kernel_pool s) + r * 4096);
}.

#[local] Notation as_wf := as_from.
#[local] Notation va_in := (va_from lo).

(** ** Translation through the self-mapped directory *)

Lemma va_idx va : va_ok va →
  PDE_IDX va = va / 4194304 ∧ PTE_IDX va = (va / 4096) mod 1024 ∧
  0 ≤ PDE_IDX va < 1023 ∧ 0 ≤ PTE_IDX va < 1024.
Proof. unfold va_ok. intros. rewrite PDE_IDX_eq, PTE_IDX_eq by lia. zdm. Qed.

Lemma frame_aligned f : word_ok f → f mod 4096 = 0 → frame f = f.
Proof. unfold word_ok. intros. rewrite frame_eq; zdm. Qed.

Lemma frame_bounds e : word_ok e → word_ok (frame e) ∧ frame e mod 4096 = 0.
Proof. unfold word_ok. intros. rewrite frame_eq by done. zdm. Qed.

Lemma pde_ptr_eq va : va_ok va → pde_ptr va = 0xfffff000 + (va / 4194304) * 4.
Proof.
  intros Hva. unfold pde_ptr. destruct (va_idx va Hva) as (-> & _).
  unfold va_ok in Hva. apply u32_small. zdm.
Qed.

Lemma pte_ptr_eq va :
  va_ok va → pte_ptr va = 0xffc00000 + (va / 4194304) * 4096 + ((va / 4096) mod 1024) * 4.
Proof.
  intros Hva. unfold pte_ptr. destruct (va_idx va Hva) as (_ & -> & _). unfold va_ok in Hva.
  change 0xffc00000 with (Z.shiftl (Z.ones 10) 22) at 2.
  rewrite land_field, Z.shiftr_div_pow2 by lia.
  change (2 ^ 22) with 4194304. change (2 ^ 10) with 1024. rewrite u32_small; zdm.
Qed.

Lemma translate_eq m c va e t :
  word_ok c → c mod 4096 = 0 → m !! (c + PDE_IDX va * 4) = Some e → present e = true →
  m !! (frame e + PTE_IDX va * 4) = Some t →
  translate m c va = if present t then Some (frame t + va mod 4096) else None.
Proof.
  intros Hc Ha He Hp Ht. unfold translate. rewrite frame_aligned, He by done. simpl.
  rewrite Hp, Ht. simpl. by rewrite offset_eq.
Qed.

(** The directory's own words appear at [pde_ptr]. *)
Lemma translate_pde_ptr s va :
  as_wf s → va_ok va → translate (phys s) (mcr3 s) (pde_ptr va) = Some (mcr3 s + PDE_IDX va * 4).
Proof.
  intros Hs Hva. destruct (aw_cr3 _ Hs) as [Hc Ha]. pose proof (aw_self _ Hs) as Hself.
  destruct (va_idx va Hva) as (Ei & _ & Hi & _).
  assert (Hw : word_ok (pde_ptr va)) by (rewrite pde_ptr_eq by done; unfold word_ok; lia).
  assert (E1 : PDE_IDX (pde_ptr va) = 1023) by (rewrite PDE_IDX_eq, pde_ptr_eq by done; zdm).
  assert (E2 : PTE_IDX (pde_ptr va) = 1023) by (rewrite PTE_IDX_eq, pde_ptr_eq by done; zdm).
  erewrite translate_eq; [| done | done | rewrite E1; exact Hself | by apply entry_present
    | rewrite E2, entry_frame by done; exact Hself].
  rewrite entry_present, entry_frame, pde_ptr_eq by done. f_equal. rewrite Ei. zdm.
Qed.

(** The words of a page table appear at [pte_ptr]. *)
Lemma translate_pte_page m c i e va :
  word_ok c → c mod 4096 = 0 → m !! (c + 1023 * 4) = Some (entry c) → 0 ≤ i < 1023 →
  m !! (c + i * 4) = Some e → present e = true →
  0xffc00000 + i * 4096 ≤ va < 0xffc00000 + (i + 1) * 4096 →
  translate m c va = Some (frame e + va mod 4096).
Proof.
  intros Hc Ha Hself Hi He Hp Hva. rewrite (translate_eq m c va (entry c) e); try done.
  - by rewrite Hp.
  - rewrite PDE_IDX_eq by lia. by replace (va / 4194304) with 1023 by zdm.
  - by apply entry_present.
  - rewrite entry_frame, PTE_IDX_eq by (done || lia). by replace (va / 4096 mod 1024) with i by zdm.
Qed.

Lemma translate_pte_ptr s va e :
  as_wf s → va_ok va → pde_at s (PDE_IDX va) e → present e = true →
  translate (phys s) (mcr3 s) (pte_ptr va) = Some (frame e + PTE_IDX va * 4).
Proof.
  intros Hs Hva He Hp. destruct (aw_cr3 _ Hs) as [Hc Ha].
  destruct (va_idx va Hva) as (Ei & Ej & Hi & Hj).
  rewrite (translate_pte_page _ _ (PDE_IDX va) e); try done; [|apply (aw_self _ Hs)|].
  - rewrite pte_ptr_eq by done. f_equal. rewrite Ej. zdm.
  - rewrite pte_ptr_eq by done. rewrite Ei. zdm.
Qed.

(** Translation of an ordinary address, once the directory entry is known. *)
Lemma translate_va s va e :
  as_wf s → va_ok va → pde_at s (PDE_IDX va) e →
  translate (phys s) (mcr3 s) va =
    if present e then
      match phys s !! (frame e + PTE_IDX va * 4) with
      | Some t => if present t then Some (frame t + va mod 4096) else None
      | None => None
      end
    else None.
Proof.
  intros Hs Hva He. destruct (aw_cr3 _ Hs) as [Hc Ha]. unfold translate.
  rewrite frame_aligned, offset_eq by done. rewrite He. simpl. done.
Qed.

Lemma pde_exists s i : as_wf s → 0 ≤ i < 1024 → ∃ e, pde_at s i e ∧ word_ok e.
Proof.
  intros Hs Hi. destruct (aw_dir _ Hs i Hi) as [e He]. exists e. split; [done|].
  by apply (aw_words _ Hs _ _ He).
Qed.

(** ** Writing page table words *)

Lemma frames_apart f g i j :
  f mod 4096 = 0 → g mod 4096 = 0 → 0 ≤ i < 1024 → 0 ≤ j < 1024 →
  f + i * 4 = g + j * 4 → f = g ∧ i = j.
Proof. zdm. Qed.

(** A change outside the directory keeps the address space well formed. *)
Lemma as_wf_agree s m' :
  as_wf s → (∀ a w, m' !! a = Some w → word_ok w) →
  (∀ a, is_Some (phys s !! a) → is_Some (m' !! a)) →
  (∀ i, 0 ≤ i < 1024 → m' !! (mcr3 s + i * 4) = phys s !! (mcr3 s + i * 4)) →
  as_wf (with_phys m' s) ∧
  ∀ i e, 0 ≤ i < 1024 → pde_at (with_phys m' s) i e ↔ pde_at s i e.
Proof.
  intros Hs Hw Hdom Hdir.
  assert (Hpd : ∀ i e, 0 ≤ i < 1024 → pde_at (with_phys m' s) i e ↔ pde_at s i e).
  { intros i e Hi. unfold pde_at. simpl. by rewrite Hdir. }
  assert (Hfm : ∀ f, frame_mem (phys s) f → frame_mem m' f) by (intros f Hf j Hj; by apply Hdom, Hf).
  split; [|done]. destruct Hs as [W1 W2 W3 W4 W5 W6 W7 W8 W9 W10 W11]. split; simpl; try done.
  - by apply Hfm.
  - by apply Hpd.
  - intros i e Hi He Hp. apply Hpd in He; [|lia]. destruct (W6 i e Hi He Hp) as (? & ? & ?).
    split_and!; try done. by apply Hfm.
  - intros i j ei ej Hi Hj Hei Hej. apply Hpd in Hei, Hej; [|lia..]. by apply W7.
  - intros r Hr. by apply Hfm, W11.
Qed.

Lemma as_wf_write s a v :
  as_wf s → word_ok v → (∀ i, 0 ≤ i < 1024 → a ≠ mcr3 s + i * 4) →
  as_wf (with_phys (<[a := v]> (phys s)) s) ∧
  ∀ i e, 0 ≤ i < 1024 → pde_at (with_phys (<[a := v]> (phys s)) s) i e ↔ pde_at s i e.
Proof.
  intros Hs Hv Ha. apply as_wf_agree; [done| | |].
  - intros x w. rewrite lookup_insert. case_decide; [naive_solver|apply (aw_words _ Hs)].
  - intros x Hx. rewrite lookup_insert. by case_decide.
  - intros i Hi. apply lookup_insert_ne. by apply Ha.
Qed.

Lemma table_word_apart s i e j :
  as_wf s → 0 ≤ i < 1023 → pde_at s i e → present e = true → 0 ≤ j < 1024 →
  ∀ k, 0 ≤ k < 1024 → frame e + j * 4 ≠ mcr3 s + k * 4.
Proof.
  intros Hs Hi He Hp Hj k Hk E. destruct (aw_table _ Hs i e Hi He Hp) as (_ & Hne & _).
  destruct (aw_cr3 _ Hs) as [_ Ha].
  destruct (frame_bounds e) as [_ Hf]; [by apply (aw_words _ Hs _ _ He)|].
  by destruct (frames_apart _ _ _ _ Hf Ha Hj Hk E).
Qed.

Lemma same_page va va' :
  va_ok va → va_ok va' → PDE_IDX va = PDE_IDX va' → PTE_IDX va = PTE_IDX va' →
  va / 4096 = va' / 4096.
Proof.
  intros H H'. destruct (va_idx va H) as (-> & -> & _). destruct (va_idx va' H') as (-> & -> & _).
  zdm.
Qed.

Lemma pte_write s va e v :
  as_wf s → va_in va → pde_at s (PDE_IDX va) e → present e = true → word_ok v →
  let s' := with_phys (<[frame e + PTE_IDX va * 4 := v]> (phys s)) s in
  as_wf s' ∧ (∀ i e, 0 ≤ i < 1024 → pde_at s' i e ↔ pde_at s i e) ∧
  ∀ va', va_in va' →
    translate (phys s') (mcr3 s') va' =
      if decide (va / 4096 = va' / 4096) then
        (if present v then Some (frame v + va' mod 4096) else None)
      else translate (phys s) (mcr3 s) va'.
Proof.
  intros Hs Hvi He Hp Hv s'. pose proof (va_from_ok _ _ Hvi) as Hva. destruct (va_idx va Hva) as (Ei & Ej & Hi & Hj).
  destruct (as_wf_write s (frame e + PTE_IDX va * 4) v Hs Hv) as [Hs' Hpd].
  { by apply table_word_apart with (PDE_IDX va). }
  split; [done|]. split; [done|]. intros va' Hvi'. pose proof (va_from_ok _ _ Hvi') as Hva'.
  destruct (va_idx va' Hva') as (Ei' & Ej' & Hi' & Hj').
  destruct (pde_exists s (PDE_IDX va') Hs) as (e' & He' & Hw'); [lia|].
  rewrite (translate_va s' va' e'), (translate_va s va' e'); try done; [|apply Hpd; [lia|done]].
  case_decide as Epg.
  - assert (E1 : PDE_IDX va' = PDE_IDX va) by (rewrite Ei, Ei'; zdm).
    assert (E2 : PTE_IDX va' = PTE_IDX va) by (rewrite Ej, Ej'; zdm).
    unfold pde_at in He, He'. rewrite E1, He in He'. injection He' as <-.
    rewrite Hp, E2. simpl. by rewrite lookup_insert_eq.
  - destruct (present e') eqn:Ep'; [|done]. simpl. rewrite lookup_insert_ne; [done|].
    intros E. apply Epg, same_page; [done..| |].
    + destruct (frames_apart (frame e) (frame e') (PTE_IDX va) (PTE_IDX va')) as [Ef _]; try done.
      * apply frame_bounds, (aw_words _ Hs _ _ He).
      * by apply frame_bounds.
      * unfold va_from in Hvi, Hvi'. apply (aw_inj _ Hs _ _ e e'); try done; zdm.
    + destruct (frames_apart (frame e) (frame e') (PTE_IDX va) (PTE_IDX va')) as [_ Ef]; try done.
      * apply frame_bounds, (aw_words _ Hs _ _ He).
      * by apply frame_bounds.
Qed.

Lemma rd32_pde s va e :
  as_wf s → va_ok va → pde_at s (PDE_IDX va) e → rd32 (pde_ptr va) s = Ok e.
Proof. intros Hs Hva He. unfold rd32. rewrite translate_pde_ptr by done. simpl. by rewrite He. Qed.

Lemma wr32_pde s va e v :
  as_wf s → va_ok va → pde_at s (PDE_IDX va) e →
  wr32 (pde_ptr va) v s = Ok (with_phys (<[mcr3 s + PDE_IDX va * 4 := v]> (phys s)) s).
Proof. intros Hs Hva He. unfold wr32. rewrite translate_pde_ptr by done. simpl. by rewrite He. Qed.

Lemma pte_word s va e :
  as_wf s → va_ok va → pde_at s (PDE_IDX va) e → present e = true →
  ∃ t, phys s !! (frame e + PTE_IDX va * 4) = Some t ∧ word_ok t ∧
    rd32 (pte_ptr va) s = Ok t ∧
    ∀ v, wr32 (pte_ptr va) v s = Ok (with_phys (<[frame e + PTE_IDX va * 4 := v]> (phys s)) s).
Proof.
  intros Hs Hva He Hp. destruct (va_idx va Hva) as (_ & _ & Hi & Hj).
  destruct (aw_table _ Hs _ _ Hi He Hp) as (Hm & _ & _). destruct (Hm _ Hj) as [t Ht].
  exists t. unfold rd32, wr32. rewrite (translate_pte_ptr s va e) by done. simpl. rewrite Ht.
  split_and!; try done; by apply (aw_words _ Hs _ _ Ht).
Qed.

(** [page_table_add] into an existing table. *)
Lemma page_table_add_present s va e pa :
  as_wf s → va_in va → pde_at s (PDE_IDX va) e → present e = true →
  word_ok pa → pa mod 4096 = 0 →
  ∃ m', page_table_add va pa s = Ok (with_phys m' s) ∧ as_wf (with_phys m' s) ∧
    (∀ i e, 0 ≤ i < 1024 → pde_at (with_phys m' s) i e ↔ pde_at s i e) ∧
    ∀ va', va_in va' → translate m' (mcr3 s) va' =
      if decide (va / 4096 = va' / 4096) then Some (pa + va' mod 4096)
      else translate (phys s) (mcr3 s) va'.
Proof.
  intros Hs Hvi He Hp Hpa Ha. pose proof (va_from_ok _ _ Hvi) as Hva. unfold page_table_add. mrun (rd32_pde s va e Hs Hva He). rewrite Hp.
  destruct (pte_word s va e Hs Hva He Hp) as (t & Ht & _ & Hrd & Hwr). mrun Hrd. rewrite Hwr.
  assert (Hv : word_ok (entry pa)) by (rewrite entry_eq by done; unfold word_ok in *; zdm).
  destruct (pte_write s va e (entry pa) Hs Hvi He Hp Hv) as (Hs' & Hpd & Htr).
  eexists. split; [done|]. split; [done|]. split; [done|]. intros va' Hva'.
  specialize (Htr va' Hva'). rewrite entry_present, entry_frame in Htr by done. exact Htr.
Qed.

(** ** Frames from the pools *)

Definition pool_bit (pf : pool_flags) (s : mstate) (r : Z) : bool :=
  bit_set (pool_bitmap (get_pool pf s)) r.

(** The frames that hold the directory and its tables. *)
Definition table_frame (s : mstate) (f : Z) : Prop :=
  f = mcr3 s ∨ ∃ i e, 0 ≤ i < 1023 ∧ pde_at s i e ∧ present e = true ∧ f = frame e.

Lemma pde_at_set_pool pf p s i e : pde_at (set_pool pf p s) i e ↔ pde_at s i e.
Proof. by destruct pf. Qed.

(** Changing a pool's bitmap, the bits of table frames excepted. *)
Lemma as_wf_set_bitmap pf s b' :
  as_wf s → bitmap_wf b' →
  btmp_bytes_len b' = btmp_bytes_len (pool_bitmap (get_pool pf s)) →
  zlen (bits b') = zlen (bits (pool_bitmap (get_pool pf s))) →
  (pf = PF_KERNEL → ∀ f, table_frame s f → taken s f →
     taken (set_pool pf (with_bitmap b' (get_pool pf s)) s) f) →
  as_wf (set_pool pf (with_bitmap b' (get_pool pf s)) s).
Proof.
  intros Hs Hwf Hl Hz Ht. destruct Hs as [W1 W2 W3 W4 W5 W6 W7 W8 W9 W10 W11].
  assert (Hpool : ∀ p, pool_wf p → btmp_bytes_len b' = btmp_bytes_len (pool_bitmap p) →
    zlen (bits b') = zlen (bits (pool_bitmap p)) → pool_wf (with_bitmap b' p)).
  { intros p [P1 P2 P3 P4 P5] El Ez. split; simpl; try done; unfold nbits in *; [|by rewrite El].
    by rewrite El, Ez. }
  assert (Hn : nbits b' = nbits (pool_bitmap (get_pool pf s))) by (unfold nbits; by rewrite Hl).
  destruct pf; simpl in *; split; simpl; try done; try (by apply Hpool).
  - apply Ht; [done|by left|done].
  - intros i e Hi He Hp. destruct (W6 i e Hi He Hp) as (? & ? & ?). split_and!; try done.
    apply Ht; [done|right; by exists i, e|done].
  - by rewrite Hn.
  - intros r Hr. apply W11. by rewrite <- Hn.
Qed.

(** [palloc]: a frame whose bit was clear, or 0 when all are set. *)
Lemma palloc_ok pf s :
  as_wf s →
  ((∀ r, 0 ≤ r < nbits (pool_bitmap (get_pool pf s)) → pool_bit pf s r = true) ∧
   palloc pf s = Ok (0, s)) ∨
  ∃ r b', 0 ≤ r < nbits (pool_bitmap (get_pool pf s)) ∧ pool_bit pf s r = false ∧
    let f := phy_addr_start (get_pool pf s) + r * 4096 in
    let s' := set_pool pf (with_bitmap b' (get_pool pf s)) s in
    palloc pf s = Ok (f, s') ∧ word_ok f ∧ f ≠ 0 ∧ f mod 4096 = 0 ∧ as_wf s' ∧
    nbits b' = nbits (pool_bitmap (get_pool pf s)) ∧
    (∀ j, 0 ≤ j → pool_bit pf s' j = bool_decide (j = r) || pool_bit pf s j).
Proof.
  intros Hs. assert (Hpw : pool_wf (get_pool pf s)) by (destruct pf; apply Hs).
  destruct Hpw as [P1 P2 P3 P4 P5]. unfold palloc.
  destruct (bitmap_scan_any (pool_bitmap (get_pool pf s)) 1 P1 P2) as (r & Hr & Hfit); [lia|].
  mrun Hr. change (1 =? 1) with true in Hfit. cbn iota in Hfit.
  destruct Hfit as [[-> Hno]|(H0 & H1 & Hrun & Hno)].
  - left. split; [|done]. intros i Hi. specialize (Hno i).
    rewrite clear_run_one in Hno. unfold pool_bit.
    destruct (bit_set _ i); [done|]. exfalso. apply Hno; lia || done.
  - right. apply clear_run_one in Hrun. pose proof (wf_len _ P1) as Hlen. unfold nbits in *.
    destruct (bitmap_set_ok (pool_bitmap (get_pool pf s)) r 1 P1)
      as (b' & Hb' & Hwf' & Hl & Hz & Hbits); [lia|].
    exists r, b'. split; [lia|]. split; [done|].
    set (f := phy_addr_start (get_pool pf s) + r * 4096).
    set (s' := set_pool pf (with_bitmap b' (get_pool pf s)) s).
    rewrite (proj2 (Z.eqb_neq _ _)) by lia. mrun Hb'. unfold PG_SIZE.
    rewrite u32_small by lia.
    assert (Hb : ∀ j, 0 ≤ j → pool_bit pf s' j = bool_decide (j = r) || pool_bit pf s j).
    { intros j Hj. unfold pool_bit, s'. destruct pf; simpl in *; rewrite Hbits by done;
        case_decide as E; [by rewrite bool_decide_true|by rewrite bool_decide_false
                          |by rewrite bool_decide_true|by rewrite bool_decide_false]. }
    split; [do 2 f_equal; lia|]. split; [unfold word_ok; subst f; lia|]. split; [lia|].
    split; [subst f; zdm|]. split; [|split; [by rewrite Hl|done]].
    apply as_wf_set_bitmap; try done. intros -> g _ [Hlt|[Hlt Hset]]; [by left|].
    destruct (decide (g < phy_addr_start (kernel_pool s))) as [|Hge]; [by left|].
    right. split; [simpl; unfold nbits in *; by rewrite Hl|].
    specialize (Hb ((g - phy_addr_start (kernel_pool s)) / 4096)).
    unfold pool_bit in Hb. simpl in *. rewrite Hb, Hset by zdm. apply orb_true_r.
Qed.

(** A frame just taken from the kernel pool holds no table. *)
Lemma fresh_not_table s r f :
  as_wf s → 0 ≤ r → pool_bit PF_KERNEL s r = false →
  f = phy_addr_start (kernel_pool s) + r * 4096 → ¬ table_frame s f.
Proof.
  intros Hs Hr Hb -> Hf.
  assert (taken s (phy_addr_start (kernel_pool s) + r * 4096)) as [Hlt|[_ Hset]].
  { destruct Hf as [->|(i & e & Hi & He & Hp & ->)]; [apply (aw_taken _ Hs)|].
    by apply (aw_table _ Hs i e). }
  - lia.
  - unfold pool_bit in Hb. simpl in Hb. replace (_ / 4096) with r in Hset by zdm. congruence.
Qed.

(** ** Clearing memory *)

(** [pa k] is the word that virtual address [va + 4 k] reaches, for every memory
    that differs from the current one in the words being cleared only. *)
Lemma clear_words_ok n va s pa :
  0 ≤ va → va + 4 * Z.of_nat n < 4294967296 →
  (∀ k, 0 ≤ k < Z.of_nat n → is_Some (phys s !! pa k)) →
  (∀ m', (∀ a, (∀ k, 0 ≤ k < Z.of_nat n → a ≠ pa k) → m' !! a = phys s !! a) →
     ∀ k, 0 ≤ k < Z.of_nat n → translate m' (mcr3 s) (va + 4 * k) = Some (pa k)) →
  ∃ m', clear_words n va s = Ok (with_phys m' s) ∧
    (∀ k, 0 ≤ k < Z.of_nat n → m' !! pa k = Some 0) ∧
    (∀ a, (∀ k, 0 ≤ k < Z.of_nat n → a ≠ pa k) → m' !! a = phys s !! a).
Proof.
  revert va s pa. induction n as [|n IH]; intros va s pa Hva Hend Hmem Htr.
  { exists (phys s). split; [by destruct s|]. split; [lia|done]. }
  simpl. unfold wr32.
  pose proof (Htr (phys s) ltac:(done) 0 ltac:(lia)) as H0. rewrite Z.mul_0_r, Z.add_0_r in H0.
  destruct (Hmem 0 ltac:(lia)) as [w Hw]. rewrite H0. simpl. rewrite Hw. simpl.
  rewrite u32_small by lia.
  destruct (IH (va + 4) (with_phys (<[pa 0 := 0]> (phys s)) s) (λ k, pa (k + 1)))
    as (m' & Hm' & Hz & Hout); simpl; try lia.
  - intros k Hk. rewrite lookup_insert. case_decide; [done|]. apply Hmem. lia.
  - intros m' Hm' k Hk. replace (va + 4 + 4 * k) with (va + 4 * (k + 1)) by lia.
    apply Htr; [|lia]. intros a Ha. rewrite Hm'; [apply lookup_insert_ne|]; intros;
      [intros E; apply (Ha 0); [lia|congruence]|apply Ha; lia].
  - exists m'. split; [done|]. simpl in Hout. split.
    + intros k Hk. destruct (decide (k = 0)) as [->|].
      * destruct (decide (pa 0 ∈ (λ k, pa (k + 1)) <$> seqZ 0 (Z.of_nat n))) as [Hin|Hno].
        { apply list_elem_of_fmap in Hin as (k' & -> & Hk'%elem_of_seqZ). apply Hz. lia. }
        rewrite Hout; [by rewrite lookup_insert_eq|]. intros k' Hk' E. apply Hno.
        rewrite E. apply list_elem_of_fmap. exists k'. split; [done|]. apply elem_of_seqZ. lia.
      * replace k with (k - 1 + 1) by lia. apply Hz. lia.
    + intros a Ha. rewrite Hout; [apply lookup_insert_ne|]; intros;
        [intros E; apply (Ha 0); [lia|congruence]|apply Ha; lia].
Qed.

(** ** Installing a page table *)

(** A fresh frame as the table of an absent directory entry. *)
Lemma as_wf_new_pde s i f :
  as_wf s → 0 ≤ i < 1023 → word_ok f → f mod 4096 = 0 → frame_mem (phys s) f →
  ¬ table_frame s f → taken s f →
  let s' := with_phys (<[mcr3 s + i * 4 := entry f]> (phys s)) s in
  as_wf s' ∧ pde_at s' i (entry f) ∧
  ∀ j e, 0 ≤ j < 1024 → j ≠ i → pde_at s' j e ↔ pde_at s j e.
Proof.
  intros Hs Hi Hf Hal Hmem Hnt Htk s'.
  assert (Hpi : pde_at s' i (entry f)) by (unfold pde_at; simpl; by rewrite lookup_insert_eq).
  assert (Hpd : ∀ j e, 0 ≤ j < 1024 → j ≠ i → pde_at s' j e ↔ pde_at s j e).
  { intros j e Hj Hne. unfold pde_at. simpl. by rewrite lookup_insert_ne by lia. }
  assert (Hfm : ∀ g, frame_mem (phys s) g → frame_mem (phys s') g).
  { intros g Hg j Hj. simpl. rewrite lookup_insert. case_decide; [done|by apply Hg]. }
  assert (Hcase : ∀ j e, 0 ≤ j < 1023 → pde_at s' j e → present e = true →
    (j = i ∧ frame e = f) ∨ (j ≠ i ∧ pde_at s j e ∧ frame e ≠ f)).
  { intros j e Hj He Hp. destruct (decide (j = i)) as [->|Hne]; [left|right].
    - unfold pde_at in Hpi, He. rewrite Hpi in He. injection He as <-. by rewrite entry_frame.
    - apply Hpd in He; [|lia|done]. split_and!; try done. intros <-. apply Hnt. right. by exists j, e. }
  split; [|done]. pose proof Hs as [W1 W2 W3 W4 W5 W6 W7 W8 W9 W10 W11]. split; try done.
  - intros a w. simpl. rewrite lookup_insert. case_decide; [|apply W2]. intros [= <-].
    rewrite entry_eq by done. unfold word_ok in *. zdm.
  - by apply Hfm.
  - apply Hpd; [lia..|done].
  - intros j e Hj He Hp. destruct (Hcase j e Hj He Hp) as [[-> Hfe]|(Hne & He' & _)].
    + rewrite Hfe. split_and!; [by apply Hfm| |done]. intros E. apply Hnt. by left.
    + destruct (W6 j e Hj He' Hp) as (? & ? & ?). split_and!; try done. by apply Hfm.
  - intros j k ej ek Hj Hk Hej Hek Hpj Hpk E.
    destruct (Hcase j ej ltac:(lia) Hej Hpj) as [[-> Hfj]|(Hnj & Hej' & Hfj)],
      (Hcase k ek ltac:(lia) Hek Hpk) as [[-> Hfk]|(Hnk & Hek' & Hfk)]; try congruence.
    by apply (W7 j k ej ek).
  - intros r Hr. by apply Hfm, W11.
Qed.

(** [memset] of the new table through the self-mapped directory. *)
Lemma clear_table s i e :
  as_wf s → 0 ≤ i < 1023 → pde_at s i e → present e = true →
  ∃ m', clear_words 1024 (0xffc00000 + i * 4096) s = Ok (with_phys m' s) ∧
    as_wf (with_phys m' s) ∧
    (∀ i e, 0 ≤ i < 1024 → pde_at (with_phys m' s) i e ↔ pde_at s i e) ∧
    (∀ k, 0 ≤ k < 1024 → m' !! (frame e + k * 4) = Some 0) ∧
    (∀ g k, g mod 4096 = 0 → g ≠ frame e → 0 ≤ k < 1024 →
       m' !! (g + k * 4) = phys s !! (g + k * 4)).
Proof.
  intros Hs Hi He Hp. destruct (aw_cr3 _ Hs) as [Hc Ha].
  destruct (aw_table _ Hs i e Hi He Hp) as (Hmem & Hne & _).
  destruct (frame_bounds e) as [Hfw Hfa]; [by apply (aw_words _ Hs _ _ He)|].
  assert (Hap : ∀ g j, g mod 4096 = 0 → g ≠ frame e → 0 ≤ j < 1024 →
    ∀ k, 0 ≤ k < Z.of_nat 1024 → g + j * 4 ≠ frame e + k * 4).
  { intros g j Hg Hgne Hj k Hk E. by destruct (frames_apart g (frame e) j k). }
  destruct (clear_words_ok 1024 (0xffc00000 + i * 4096) s (λ k, frame e + k * 4))
    as (m' & Hm' & Hz & Hout); [lia|lia|intros; apply Hmem; lia| |].
  { intros m' Hm' k Hk. simpl in Hm'. rewrite (translate_pte_page m' (mcr3 s) i e); try done; try lia.
    - f_equal. zdm.
    - rewrite Hm' by (apply Hap; done). apply (aw_self _ Hs).
    - rewrite Hm' by (apply Hap; try done; lia). exact He. }
  simpl in Hz, Hout. exists m'. split; [done|].
  assert (Hdir : ∀ j, 0 ≤ j < 1024 → m' !! (mcr3 s + j * 4) = phys s !! (mcr3 s + j * 4)).
  { intros j Hj. apply Hout. apply Hap; done. }
  assert (Hdec : ∀ a, (∃ k, 0 ≤ k < 1024 ∧ a = frame e + k * 4) ∨
                      (∀ k, 0 ≤ k < Z.of_nat 1024 → a ≠ frame e + k * 4)).
  { intros a. destruct (decide (a ∈ (λ k, frame e + k * 4) <$> seqZ 0 1024)) as [H|H].
    - left. apply list_elem_of_fmap in H as (k & -> & Hk%elem_of_seqZ). exists k. split; [lia|done].
    - right. intros k Hk ->. apply H, list_elem_of_fmap. exists k. split; [done|].
      apply elem_of_seqZ. lia. }
  destruct (as_wf_agree s m' Hs) as [Hs' Hpd]; [| |done|].
  - intros a w Hw. destruct (Hdec a) as [(k & Hk & ->)|Hno].
    + rewrite Hz in Hw by lia. injection Hw as <-. unfold word_ok. lia.
    + rewrite Hout in Hw by done. by apply (aw_words _ Hs a).
  - intros a Hx. destruct (Hdec a) as [(k & Hk & ->)|Hno]; [rewrite Hz by lia; eauto|by rewrite Hout].
  - split_and!; try done; intros; apply Hz || (apply Hout; apply Hap); lia || done.
Qed.

(** No user frame holds a table. *)
Lemma user_not_table s f : as_wf s → phy_addr_start (user_pool s) ≤ f → ¬ table_frame s f.
Proof.
  intros Hs Hf Ht.
  assert (taken s f) as Htk.
  { destruct Ht as [->|(i & e & Hi & He & Hp & ->)]; [apply (aw_taken _ Hs)|].
    by apply (aw_table _ Hs i e). }
  pose proof (aw_order _ Hs). pose proof (wf_len _ (pw_bitmap _ (aw_kpool _ Hs))).
  unfold taken, nbits in *. lia.
Qed.

(** [page_table_add] where there is no table yet and a kernel frame is free. *)
Lemma page_table_add_absent s va e pa :
  as_wf s → va_in va → pde_at s (PDE_IDX va) e → present e = false →
  word_ok pa → pa mod 4096 = 0 →
  (∃ r, 0 ≤ r < nbits (pool_bitmap (kernel_pool s)) ∧ pool_bit PF_KERNEL s r = false) →
  ∃ s', page_table_add va pa s = Ok s' ∧ as_wf s' ∧ user_pool s' = user_pool s ∧
    ∀ va', va_in va' → translate (phys s') (mcr3 s') va' =
      if decide (va / 4096 = va' / 4096) then Some (pa + va' mod 4096)
      else translate (phys s) (mcr3 s) va'.
Proof.
  intros Hs Hvi He Hp Hpa Hal Hfree. pose proof (va_from_ok _ _ Hvi) as Hva. destruct (va_idx va Hva) as (Ei & Ej & Hi & Hj).
  destruct (palloc_ok PF_KERNEL s Hs)
    as [[Hfull _]|(r & b' & Hr & Hb & Hal1 & Hf & Hnz & Hfa & Hs1 & Hnb & Hbits)].
  { destruct Hfree as (r & Hr & Hb). by rewrite Hfull in Hb. }
  simpl (get_pool _ _) in *. set (f := phy_addr_start (kernel_pool s) + r * 4096) in *.
  set (s1 := set_pool PF_KERNEL (with_bitmap b' (kernel_pool s)) s) in *.
  assert (Hnt : ¬ table_frame s f) by (apply (fresh_not_table s r); done || lia).
  assert (Htk : taken s1 f).
  { right. simpl. rewrite Hnb. split; [subst f; lia|].
    replace (_ / 4096) with r by (subst f; zdm). specialize (Hbits r).
    unfold pool_bit in Hbits. simpl in Hbits. rewrite Hbits by lia. by rewrite bool_decide_true. }
  destruct (as_wf_new_pde s1 (PDE_IDX va) f Hs1 Hi Hf Hfa (aw_kmem _ Hs r Hr) Hnt Htk)
    as (Hs2 & Hpi & Hpd).
  unfold page_table_add. mrun (rd32_pde s va e Hs Hva He). rewrite Hp. mrun Hal1.
  mrun (wr32_pde s1 va e (entry f) Hs1 Hva He).
  set (s2 := with_phys _ s1) in *.
  destruct (clear_table s2 (PDE_IDX va) (entry f) Hs2 Hi Hpi (entry_present f Hfa))
    as (m3 & Hm3 & Hs3 & Hpd3 & Hz & Hkeep). rewrite entry_frame in Hz, Hkeep by done.
  assert (Hfp : frame (pte_ptr va) = 0xffc00000 + PDE_IDX va * 4096).
  { rewrite pte_ptr_eq, Ei by done. unfold va_ok in Hva. rewrite frame_eq; zdm. }
  rewrite Hfp. mrun Hm3. set (s3 := with_phys m3 s2) in *.
  assert (Hpi3 : pde_at s3 (PDE_IDX va) (entry f)) by (apply Hpd3; [lia|done]).
  destruct (pte_word s3 va (entry f) Hs3 Hva Hpi3 (entry_present f Hfa)) as (t & _ & _ & _ & Hwr).
  rewrite Hwr. assert (Hv : word_ok (entry pa)) by (rewrite entry_eq by done; unfold word_ok in *; zdm).
  destruct (pte_write s3 va (entry f) (entry pa) Hs3 Hvi Hpi3 (entry_present f Hfa) Hv)
    as (Hs4 & _ & Htr).
  eexists. split; [done|]. split; [done|]. split; [done|]. intros va' Hvi'. pose proof (va_from_ok _ _ Hvi') as Hva'.
  rewrite Htr, entry_present, (entry_frame pa) by done. case_decide as Epg; [done|].
  (* a table full of zeros maps nothing; the other tables are untouched *)
  destruct (va_idx va' Hva') as (Ei' & Ej' & Hi' & Hj').
  destruct (pde_exists s (PDE_IDX va') Hs) as (e' & He' & Hw'); [lia|].
  rewrite (translate_va s va' e') by done.
  destruct (decide (PDE_IDX va' = PDE_IDX va)) as [Eq|Hne].
  - rewrite Eq in He'. unfold pde_at in He, He'. rewrite He in He'. injection He' as <-.
    rewrite Hp, (translate_va s3 va' (entry f)), entry_present, entry_frame by (done || by rewrite Eq).
    simpl. by rewrite Hz.
  - rewrite (translate_va s3 va' e'); [|done|done|apply Hpd3, Hpd; done || lia].
    destruct (present e') eqn:Ep'; [|done]. simpl. rewrite Hkeep; [|by apply frame_bounds| |done].
    + simpl. rewrite lookup_insert_ne; [done|]. intros E.
      destruct (aw_table _ Hs _ _ Hi' He' Ep') as (_ & Hx & _).
      destruct (frames_apart (mcr3 s) (frame e') (PDE_IDX va) (PTE_IDX va')) as [? _];
        [apply (aw_cr3 _ Hs)|by apply frame_bounds|lia|done|done|congruence].
    + intros E. apply Hnt. right. by exists (PDE_IDX va'), e'.
Qed.

(** ** Runs of pages *)

Lemma set_run_ok n b i v :
  bitmap_wf b → 0 ≤ i → i + Z.of_nat n ≤ 8 * zlen (bits b) →
  ∃ b', set_run n b i v = Ok b' ∧ bitmap_wf b' ∧ btmp_bytes_len b' = btmp_bytes_len b ∧
    zlen (bits b') = zlen (bits b) ∧
    ∀ j, 0 ≤ j → bit_set b' j =
      if decide (i ≤ j < i + Z.of_nat n) then negb (v =? 0) else bit_set b j.
Proof.
  revert b i. induction n as [|n IH]; intros b i Hwf Hi Hn.
  { exists b. split_and!; try done. intros j Hj. rewrite decide_False by lia. done. }
  simpl. pose proof (wf_small _ Hwf).
  destruct (bitmap_set_ok b i v Hwf) as (b1 & Hb1 & Hwf1 & Hl1 & Hz1 & Hbits1); [lia|].
  mrun Hb1. rewrite u32_small by lia.
  destruct (IH b1 (i + 1) Hwf1) as (b' & Hb' & Hwf' & Hl' & Hz' & Hbits'); [lia|rewrite Hz1; lia|].
  exists b'. split_and!; try done; [congruence|congruence|]. intros j Hj. rewrite Hbits', Hbits1 by done.
  repeat case_decide; done || lia.
Qed.

(** The frame a run of mapped pages starting at [va] has for the page of [va']. *)
Definition page_of (fs : list Z) (va va' : Z) : option Z :=
  if va / 4096 <=? va' / 4096 then fs !! Z.to_nat (va' / 4096 - va / 4096) else None.

Definition frame_addr (pf : pool_flags) (s : mstate) (r : Z) : Z :=
  phy_addr_start (get_pool pf s) + r * 4096.

(** Every page of the run has a page table. *)
Definition tables_present (s : mstate) (va : Z) (n : nat) : Prop :=
  ∀ k, 0 ≤ k < Z.of_nat n → ∃ e, pde_at s (PDE_IDX (va + k * 4096)) e ∧ present e = true.

(** Nothing but the memory words and the bits of pool [pf] differ. *)
Record same_but (pf : pool_flags) (s s' : mstate) : Prop := {
  sb_cr3 : mcr3 s' = mcr3 s;
  sb_start : phy_addr_start (get_pool pf s') = phy_addr_start (get_pool pf s);
  sb_nbits : nbits (pool_bitmap (get_pool pf s')) = nbits (pool_bitmap (get_pool pf s));
  sb_vaddr : get_vaddr pf s' = get_vaddr pf s;
  sb_ustart : phy_addr_start (user_pool s') = phy_addr_start (user_pool s);
  sb_pde : ∀ i e, 0 ≤ i < 1024 → pde_at s' i e ↔ pde_at s i e;
}.

Lemma same_but_refl pf s : same_but pf s s.
Proof. by split. Qed.
Lemma same_but_trans pf s1 s2 s3 : same_but pf s1 s2 → same_but pf s2 s3 → same_but pf s1 s3.
Proof.
  intros [A1 A2 A3 A4 A5 A6] [B1 B2 B3 B4 B5 B6]. split; try congruence.
  intros i e Hi. by rewrite B6, A6.
Qed.

Lemma page_of_cons f fs va va' :
  0 ≤ va → va mod 4096 = 0 → 
  page_of (f :: fs) va va' =
    if decide (va / 4096 = va' / 4096) then Some f else page_of fs (va + 4096) va'.
Proof.
  intros H0 Ha. unfold page_of. replace ((va + 4096) / 4096) with (va / 4096 + 1) by zdm.
  case_decide as E.
  - rewrite E, Z.leb_refl, Z.sub_diag. done.
  - destruct (Z.leb_spec (va / 4096) (va' / 4096)), (Z.leb_spec (va / 4096 + 1) (va' / 4096)); try lia; [|done].
    by replace (Z.to_nat (va' / 4096 - va / 4096)) with (S (Z.to_nat (va' / 4096 - (va / 4096 + 1)))) by lia.
Qed.

(** What the loop of [malloc_page] does when the page tables exist. *)
Lemma map_pages_ok n pf va s :
  as_wf s → Z.of_N lo * 0x400000 ≤ va → va mod 4096 = 0 → va + Z.of_nat n * 4096 ≤ 0xffc00000 →
  tables_present s va n →
  ∃ ok s' fs, map_pages n pf va s = Ok (ok, s') ∧ as_wf s' ∧ same_but pf s s' ∧
    (if ok : bool then length fs = n
     else (length fs < n)%nat ∧
          ∀ r, 0 ≤ r < nbits (pool_bitmap (get_pool pf s)) → pool_bit pf s' r = true) ∧ NoDup fs ∧
    (∀ r, r ∈ fs → 0 ≤ r < nbits (pool_bitmap (get_pool pf s)) ∧ pool_bit pf s r = false) ∧
    (∀ j, 0 ≤ j → pool_bit pf s' j = bool_decide (j ∈ fs) || pool_bit pf s j) ∧
    (∀ va', va_in va' → translate (phys s') (mcr3 s') va' =
       match page_of fs va va' with
       | Some r => Some (frame_addr pf s r + va' mod 4096)
       | None => translate (phys s) (mcr3 s) va'
       end).
Proof.
  revert va s. induction n as [|n IH]; intros va s Hs H0 Hal Hend Htab.
  { exists true, s, []. split_and!; try done; try (by intros; set_solver).
    - apply NoDup_nil_2.
    - intros va' _. unfold page_of. destruct (_ <=? _); [by rewrite lookup_nil|done]. }
  simpl. destruct (palloc_ok pf s Hs)
    as [[Hfull Hpa]|(r & b' & Hr & Hb & Hpa & Hf & Hnz & Hfa & Hs1 & Hnb & Hbits1)]; mrun Hpa.
  { exists false, s, []. rewrite Z.eqb_refl. split_and!; try done; try (by intros; set_solver).
    - simpl. lia.
    - apply NoDup_nil_2.
    - intros va' _. unfold page_of. destruct (_ <=? _); [by rewrite lookup_nil|done]. }
  rewrite (proj2 (Z.eqb_neq _ _) Hnz).
  set (s1 := set_pool pf (with_bitmap b' (get_pool pf s)) s) in *.
  assert (Hva : va_in va) by (unfold va_from; lia).
  assert (Hsb1 : same_but pf s s1) by (destruct pf; by split).
  destruct (Htab 0) as (e & He & Hp); [lia|]. rewrite Z.mul_0_l, Z.add_0_r in He.
  assert (He1 : pde_at s1 (PDE_IDX va) e) by (destruct pf; exact He).
  destruct (page_table_add_present s1 va e _ Hs1 Hva He1 Hp Hf Hfa) as (m2 & Hadd & Hs2 & Hpd2 & Htr2).
  mrun Hadd. set (s2 := with_phys m2 s1) in *. unfold PG_SIZE. rewrite u32_small by lia.
  assert (Hsb2 : same_but pf s s2).
  { apply (same_but_trans _ _ s1); [done|]. destruct pf; split; try done. }
  destruct (IH (va + 4096) s2 Hs2) as (ok & s' & fs & Hmap & Hs' & Hsb & Hlen & Hnd & Hfs & Hbits & Htr);
    [lia|zdm|lia| |].
  { intros k Hk. destruct (Htab (k + 1)) as (e' & He' & Hp'); [lia|]. exists e'. split; [|done].
    replace (va + 4096 + k * 4096) with (va + (k + 1) * 4096) by lia.
    apply (sb_pde _ _ _ Hsb2); [|done]. destruct (va_idx (va + (k + 1) * 4096)) as (_ & _ & ? & _);
      [unfold va_ok; lia|lia]. }
  assert (Hb2 : ∀ j, 0 ≤ j → pool_bit pf s2 j = bool_decide (j = r) || pool_bit pf s j).
  { intros j Hj. rewrite <- Hbits1 by done. by destruct pf. }
  assert (Hnin : r ∉ fs).
  { intros Hin. destruct (Hfs r Hin) as [_ Hx]. rewrite Hb2 in Hx by lia.
    by rewrite bool_decide_true in Hx. }
  exists ok, s', (r :: fs). split; [done|]. split; [done|].
  split; [by apply (same_but_trans _ _ s2)|].
  split; [destruct ok; [simpl; by rewrite Hlen|rewrite <- (sb_nbits _ _ _ Hsb2); simpl; destruct Hlen; split; [lia|done]]|].
  split; [by constructor|]. split; [|split].
  - intros x [->|Hx]%elem_of_cons; [done|]. destruct (Hfs x Hx) as [Hx1 Hx2].
    rewrite (sb_nbits _ _ _ Hsb2) in Hx1. split; [done|]. rewrite Hb2 in Hx2 by lia. 
    by apply orb_false_iff in Hx2 as [_ ?].
  - intros j Hj. rewrite Hbits, Hb2 by done.
    rewrite (bool_decide_ext (j ∈ r :: fs) (j = r ∨ j ∈ fs)) by (by rewrite elem_of_cons).
    rewrite bool_decide_or. destruct (bool_decide (j = r)), (bool_decide (j ∈ fs)); done.
  - intros va' Hva'. rewrite Htr, page_of_cons by (done || lia).
    assert (Hst : frame_addr pf s2 = frame_addr pf s)
      by (unfold frame_addr; by rewrite (sb_start _ _ _ Hsb2)).
    assert (Htr2' := Htr2 va' Hva'). replace (mcr3 s1) with (mcr3 s2) in Htr2' by (by destruct pf).
    rewrite Hst. case_decide as E.
    + replace (page_of fs (va + 4096) va') with (@None Z); [exact Htr2'|].
      unfold page_of. destruct (Z.leb_spec ((va + 4096) / 4096) (va' / 4096)); [zdm|done].
    + destruct (page_of fs (va + 4096) va'); [done|]. etransitivity; [exact Htr2'|].
      by destruct pf.
Qed.

(** ** Allocating *)

(** A pool of virtual pages whose page tables exist, the page behind it included. *)
Record vaddr_from (pf : pool_flags) (s : mstate) : Prop := {
  vw_bitmap : bitmap_wf (vaddr_bitmap (get_vaddr pf s));
  vw_slack : btmp_bytes_len (vaddr_bitmap (get_vaddr pf s)) < zlen (bits (vaddr_bitmap (get_vaddr pf s)));
  vw_align : vaddr_start (get_vaddr pf s) mod 4096 = 0;
  vw_pos : 0 < vaddr_start (get_vaddr pf s) ∧ Z.of_N lo * 0x400000 ≤ vaddr_start (get_vaddr pf s);
  vw_end : vaddr_start (get_vaddr pf s) + (nbits (vaddr_bitmap (get_vaddr pf s)) + 1) * 4096 ≤ 0xffc00000;
  vw_tables : tables_present s (vaddr_start (get_vaddr pf s))
                (Z.to_nat (nbits (vaddr_bitmap (get_vaddr pf s)) + 1));
}.

#[local] Notation vaddr_wf := vaddr_from.

Definition vaddr_bit (pf : pool_flags) (s : mstate) (j : Z) : bool :=
  bit_set (vaddr_bitmap (get_vaddr pf s)) j.

(** Pages [va ..] of pool [pf] carry the frames [fs], which were free in [s]. *)
Record mapped_run (pf : pool_flags) (s s' : mstate) (va : Z) (fs : list Z) : Prop := {
  mr_nodup : NoDup fs;
  mr_free : ∀ r, r ∈ fs → 0 ≤ r < nbits (pool_bitmap (get_pool pf s)) ∧ pool_bit pf s r = false;
  mr_bits : ∀ j, 0 ≤ j → pool_bit pf s' j = bool_decide (j ∈ fs) || pool_bit pf s j;
  mr_trans : ∀ va', va_in va' → translate (phys s') (mcr3 s') va' =
    match page_of fs va va' with
    | Some r => Some (frame_addr pf s r + va' mod 4096)
    | None => translate (phys s) (mcr3 s) va'
    end;
}.

(** There is no run of [n] unused pages, or fewer than [n] frames of the pool are free. *)
Definition no_room (pf : pool_flags) (n : Z) (s : mstate) : Prop :=
  (∀ i, 0 ≤ i → i + n ≤ nbits (vaddr_bitmap (get_vaddr pf s)) →
     ¬ clear_run (vaddr_bitmap (get_vaddr pf s)) i n) ∨
  ∃ fs, zlen fs < n ∧
    ∀ r, 0 ≤ r < nbits (pool_bitmap (get_pool pf s)) → pool_bit pf s r = false → r ∈ fs.

Lemma few_frames pf n s s1 s' fs :
  (length fs < Z.to_nat n)%nat → get_pool pf s1 = get_pool pf s →
  (∀ r, 0 ≤ r < nbits (pool_bitmap (get_pool pf s1)) → pool_bit pf s' r = true) →
  (∀ j, 0 ≤ j → pool_bit pf s' j = bool_decide (j ∈ fs) || pool_bit pf s1 j) → no_room pf n s.
Proof.
  intros Hlen Hp Hall Hbits. right. exists fs. split; [unfold zlen; lia|]. intros r Hr Hb. rewrite <- Hp in Hr.
  specialize (Hall r Hr). rewrite Hbits in Hall by lia. unfold pool_bit in *. rewrite Hp, Hb, orb_false_r in Hall.
  by apply bool_decide_eq_true in Hall.
Qed.

Lemma as_wf_set_vaddr pf v s : as_wf s → as_wf (set_vaddr pf v s).
Proof. by destruct pf; intros [W1 W2 W3 W4 W5 W6 W7 W8 W9 W10 W11]. Qed.

Lemma tables_present_run s va n i k :
  tables_present s va n → 0 ≤ i → i + Z.of_nat k ≤ Z.of_nat n →
  tables_present s (va + i * 4096) k.
Proof.
  intros H Hi Hk j Hj. replace (va + i * 4096 + j * 4096) with (va + (i + j) * 4096) by lia.
  apply H. lia.
Qed.

Lemma malloc_page_ok pf n s :
  as_wf s → vaddr_wf pf s → 1 ≤ n < 4294967296 →
  ∃ v s', malloc_page pf n s = Ok (v, s') ∧ as_wf s' ∧
    (v = 0 → no_room pf n s) ∧
    (v ≠ 0 → ∃ i fs, v = vaddr_start (get_vaddr pf s) + i * 4096 ∧ 0 ≤ i ∧
       i + n ≤ nbits (vaddr_bitmap (get_vaddr pf s)) + 1 ∧
       clear_run (vaddr_bitmap (get_vaddr pf s)) i n ∧
       length fs = Z.to_nat n ∧ mapped_run pf s s' v fs ∧
       bitmap_wf (vaddr_bitmap (get_vaddr pf s')) ∧
       zlen (bits (vaddr_bitmap (get_vaddr pf s'))) = zlen (bits (vaddr_bitmap (get_vaddr pf s))) ∧
       vaddr_start (get_vaddr pf s') = vaddr_start (get_vaddr pf s) ∧
       (∀ j, 0 ≤ j → vaddr_bit pf s' j = bool_decide (i ≤ j < i + n) || vaddr_bit pf s j) ∧
       same_but pf (set_vaddr pf (get_vaddr pf s') s) s').
Proof.
  intros Hs [V1 V2 V3 V4 V5 V6] Hn. unfold malloc_page, vaddr_get.
  pose proof (wf_len _ V1) as Hlen. pose proof (wf_small _ V1) as Hsmall.
  destruct (bitmap_scan_any _ n V1 V2 Hn) as (i & Hi & Hfit). mrun Hi.
  destruct (Z.eqb_spec i (-1)) as [->|Hne].
  { exists 0, s. split; [done|]. split; [done|]. split; [|done]. intros _. left.
    destruct Hfit as [[_ Hno]|(? & _)]; [|lia]. intros j Hj Hjn. apply Hno; [done|].
    destruct (n =? 1); lia. }
  assert (Hb : 0 ≤ i ∧ i + n ≤ nbits (vaddr_bitmap (get_vaddr pf s)) + 1 ∧
               clear_run (vaddr_bitmap (get_vaddr pf s)) i n).
  { destruct Hfit as [[? _]|(? & ? & ? & _)]; [done|]. split_and!; try done.
    destruct (n =? 1); lia. }
  destruct Hb as (Hi0 & Hin & Hclr). unfold nbits in *.
  rewrite (u32_small i) by lia.
  destruct (set_run_ok (Z.to_nat n) _ i 1 V1 Hi0) as (b' & Hb' & Hwf' & Hl' & Hz' & Hbits'); [lia|].
  mrun Hb'. unfold PG_SIZE. rewrite u32_small by lia.
  rewrite (proj2 (Z.eqb_neq _ _)) by lia.
  set (va := vaddr_start (get_vaddr pf s) + i * 4096).
  set (s1 := set_vaddr pf (VirtualAddr b' (vaddr_start (get_vaddr pf s))) s).
  destruct (map_pages_ok (Z.to_nat n) pf va s1) as (ok & s' & fs & Hmap & Hs' & Hsb & Hok & M1 & M2 & M3 & M4).
  { by apply as_wf_set_vaddr. } { lia. } { subst va. zdm. } { lia. }
  { apply (tables_present_run s1 _ (Z.to_nat (8 * btmp_bytes_len (vaddr_bitmap (get_vaddr pf s)) + 1)));
      [|done|lia]. destruct pf; exact V6. }
  mrun Hmap. eexists _, s'. split; [done|]. split; [done|].
  destruct ok; (split; [|done]) || (split; [lia|]); intros _;
    [|destruct Hok as [Hl Hall]; by apply (few_frames pf n s s1 s' fs Hl); [destruct pf|..]].
  assert (Hgv : get_vaddr pf s' = VirtualAddr b' (vaddr_start (get_vaddr pf s)))
    by (rewrite (sb_vaddr _ _ _ Hsb); by destruct pf).
  exists i, fs. split; [done|]. split; [done|]. split; [lia|]. split; [done|]. split; [done|].
  rewrite Hgv. cbn [vaddr_bitmap vaddr_start].
  split; [split; try done; by destruct pf|]. split; [done|]. split; [done|]. split; [done|].
  split; [|exact Hsb].
  intros j Hj. unfold vaddr_bit. rewrite Hgv. cbn [vaddr_bitmap]. rewrite Hbits', Z2Nat.id by lia.
  case_decide; [by rewrite bool_decide_true|by rewrite bool_decide_false].
Qed.

(** ** Freeing *)

(** The state of the frames of a run of pages. *)
Definition run_backed (pf : pool_flags) (s : mstate) (va : Z) (fs : list Z) : Prop :=
  ∀ k r, fs !! k = Some r →
    0 ≤ r < nbits (pool_bitmap (get_pool pf s)) ∧ ¬ table_frame s (frame_addr pf s r) ∧
    translate (phys s) (mcr3 s) (va + Z.of_nat k * 4096) = Some (frame_addr pf s r).

Lemma addr_v2p_ok s va e pa :
  as_wf s → va_ok va → pde_at s (PDE_IDX va) e → present e = true →
  translate (phys s) (mcr3 s) va = Some pa → addr_v2p va s = Ok pa.
Proof.
  intros Hs Hva He Hp Htr. destruct (pte_word s va e Hs Hva He Hp) as (t & Ht & Hw & Hrd & _).
  unfold addr_v2p. mrun Hrd. rewrite (translate_va s va e), Hp, Ht in Htr by done.
  destruct (present t); [|done]. injection Htr as <-. rewrite offset_eq, u32_small; [done|].
  destruct (frame_bounds t Hw) as [? ?]. unfold word_ok, va_ok in *. rewrite frame_eq in * by done. zdm.
Qed.

Lemma pfree_ok pf s r :
  as_wf s → 0 ≤ r < nbits (pool_bitmap (get_pool pf s)) →
  ¬ table_frame s (frame_addr pf s r) →
  ∃ b', let s' := set_pool pf (with_bitmap b' (get_pool pf s)) s in
    pfree (frame_addr pf s r) s = Ok s' ∧ as_wf s' ∧
    nbits b' = nbits (pool_bitmap (get_pool pf s)) ∧
    ∀ j, 0 ≤ j → pool_bit pf s' j = if decide (j = r) then false else pool_bit pf s j.
Proof.
  intros Hs Hr Hnt. assert (Hpw : pool_wf (get_pool pf s)) by (destruct pf; apply Hs).
  destruct Hpw as [P1 P2 P3 P4 P5]. pose proof (aw_order _ Hs) as Hord. unfold frame_addr in *.
  assert (Hpf : (if phy_addr_start (get_pool pf s) + r * 4096 >=? phy_addr_start (user_pool s)
                 then PF_USER else PF_KERNEL) = pf).
  { destruct (Z.geb_spec (phy_addr_start (get_pool pf s) + r * 4096) (phy_addr_start (user_pool s)));
      destruct pf; simpl in *; done || lia. }
  unfold pfree. rewrite Hpf. unfold PG_SIZE.
  replace (u32 _ / 4096) with r by (rewrite u32_small; zdm).
  pose proof (wf_len _ P1) as Hlen. unfold nbits in Hr.
  destruct (bitmap_set_ok (pool_bitmap (get_pool pf s)) r 0 P1)
    as (b' & Hb' & Hwf' & Hl & Hz & Hbits); [lia|].
  mrun Hb'. exists b'. cbn zeta. split; [done|].
  assert (Hb : ∀ j, 0 ≤ j → pool_bit pf (set_pool pf (with_bitmap b' (get_pool pf s)) s) j =
    if decide (j = r) then false else pool_bit pf s j).
  { intros j Hj. unfold pool_bit. destruct pf; simpl in *; by rewrite Hbits by done. }
  split; [|split; [unfold nbits; by rewrite Hl|done]].
  apply as_wf_set_bitmap; try done. intros -> f Hf [Hlt|[Hlt Hset]]; [by left|].
  destruct (decide (f < phy_addr_start (kernel_pool s))) as [|Hge]; [by left|].
  right. simpl in *. unfold nbits in *. rewrite Hl. split; [done|]. rewrite Hbits, decide_False; [done| |zdm].
  intros E. apply Hnt. replace (_ + r * 4096) with f; [done|].
  assert (f mod 4096 = 0); [|zdm]. destruct Hf as [->|(i & e & Hi & He & Hp & ->)]; [apply (aw_cr3 _ Hs)|].
  apply frame_bounds, (aw_words _ Hs _ _ He).
Qed.

Lemma pte_remove_ok s va e :
  as_wf s → va_in va → pde_at s (PDE_IDX va) e → present e = true →
  ∃ m', page_table_pte_remove va s = Ok (with_phys m' s) ∧ as_wf (with_phys m' s) ∧
    (∀ i e, 0 ≤ i < 1024 → pde_at (with_phys m' s) i e ↔ pde_at s i e) ∧
    ∀ va', va_in va' → translate m' (mcr3 s) va' =
      if decide (va / 4096 = va' / 4096) then None else translate (phys s) (mcr3 s) va'.
Proof.
  intros Hs Hvi He Hp. destruct (pte_word s va e Hs (va_from_ok _ _ Hvi) He Hp) as (t & _ & _ & Hrd & Hwr).
  unfold page_table_pte_remove. mrun Hrd. rewrite Hwr. set (v := u32 _).
  assert (Hv : word_ok v) by apply u32_range.
  assert (Hnp : present v = false).
  { rewrite present_eq. apply Z.eqb_neq. unfold v, u32. rewrite <- Z.land_ones with (n := 32) by lia.
    change 2 with (2 ^ 1). rewrite <- Z.land_ones, <- !Z.land_assoc by lia.
    change (Z.land (Z.lnot PG_P_1) (Z.land (Z.ones 32) (Z.ones 1))) with 0. by rewrite Z.land_0_r. }
  destruct (pte_write s va e v Hs Hvi He Hp Hv) as (Hs' & Hpd & Htr). rewrite Hnp in Htr.
  eexists. split; [done|]. split; [done|]. split; [done|]. exact Htr.
Qed.

Lemma table_frame_same pf s s' f : as_wf s → same_but pf s s' → table_frame s' f → table_frame s f.
Proof.
  intros Hs Hsb [->|(i & e & Hi & He & Hp & ->)]; [left; apply Hsb|right].
  exists i, e. split_and!; try done. all: try lia. apply (sb_pde _ _ _ Hsb); [lia|done].
Qed.

Lemma unmap_pages_ok n pf va s fs :
  length fs = n → as_wf s → Z.of_N lo * 0x400000 ≤ va → va mod 4096 = 0 → va + Z.of_nat n * 4096 ≤ 0xffc00000 →
  tables_present s va n → NoDup fs → run_backed pf s va fs →
  ∃ s', unmap_pages n va s = Ok s' ∧ as_wf s' ∧ same_but pf s s' ∧
    (∀ j, 0 ≤ j → pool_bit pf s' j = negb (bool_decide (j ∈ fs)) && pool_bit pf s j) ∧
    (∀ va', va_in va' → translate (phys s') (mcr3 s') va' =
       match page_of fs va va' with
       | Some _ => None
       | None => translate (phys s) (mcr3 s) va'
       end).
Proof.
  revert va s fs. induction n as [|n IH]; intros va s fs Hlen Hs H0 Hal Hend Htab Hnd Hrun.
  { destruct fs; [|done]. exists s. split_and!; try done.
    intros va' _. unfold page_of. destruct (_ <=? _); [by rewrite lookup_nil|done]. }
  destruct fs as [|r fs]; [done|]. injection Hlen as Hlen. apply NoDup_cons in Hnd as [Hnin Hnd].
  assert (Hvi : va_in va) by (unfold va_from; lia). pose proof (va_from_ok _ _ Hvi) as Hva.
  destruct (Hrun 0%nat r eq_refl) as (Hr & Hnt & Htr0). rewrite Z.mul_0_l, Z.add_0_r in Htr0.
  destruct (Htab 0) as (e & He & Hp); [lia|]. rewrite Z.mul_0_l, Z.add_0_r in He.
  simpl. mrun (addr_v2p_ok s va e _ Hs Hva He Hp Htr0).
  destruct (pfree_ok pf s r Hs Hr Hnt) as (b' & Hpf & Hs1 & Hnb & Hbits1). cbn zeta in *. mrun Hpf.
  set (s1 := set_pool pf (with_bitmap b' (get_pool pf s)) s) in *.
  assert (Hsb1 : same_but pf s s1) by (destruct pf; by split).
  assert (He1 : pde_at s1 (PDE_IDX va) e) by (destruct pf; exact He).
  destruct (pte_remove_ok s1 va e Hs1 Hvi He1 Hp) as (m2 & Hrm & Hs2 & Hpd2 & Htr2). mrun Hrm.
  set (s2 := with_phys m2 s1) in *. unfold PG_SIZE. rewrite u32_small by lia.
  assert (Hsb2 : same_but pf s s2).
  { apply (same_but_trans _ _ s1); [done|]. destruct pf; split; try done. }
  assert (Hb2 : ∀ j, 0 ≤ j → pool_bit pf s2 j = if decide (j = r) then false else pool_bit pf s j).
  { intros j Hj. rewrite <- Hbits1 by done. by destruct pf. }
  assert (Hst : frame_addr pf s2 = frame_addr pf s)
    by (unfold frame_addr; by rewrite (sb_start _ _ _ Hsb2)).
  assert (Htr2' : ∀ va', va_in va' → translate (phys s2) (mcr3 s2) va' =
    if decide (va / 4096 = va' / 4096) then None else translate (phys s) (mcr3 s) va').
  { intros va' Hva'. etransitivity; [|etransitivity; [exact (Htr2 va' Hva')|]]; by destruct pf. }
  destruct (IH (va + 4096) s2 fs Hlen Hs2) as (s' & Hun & Hs' & Hsb & Hbits & Htr);
    [lia|zdm|lia| |done| |].
  { intros k Hk. destruct (Htab (k + 1)) as (e' & He' & Hp'); [lia|]. exists e'. split; [|done].
    replace (va + 4096 + k * 4096) with (va + (k + 1) * 4096) by lia.
    apply (sb_pde _ _ _ Hsb2); [|done]. destruct (va_idx (va + (k + 1) * 4096)) as (_ & _ & ? & _);
      [unfold va_ok; lia|lia]. }
  { intros k x Hx. destruct (Hrun (S k) x Hx) as (Hx1 & Hx2 & Hx3).
    pose proof (lookup_lt_Some _ _ _ Hx) as Hlt.
    rewrite (sb_nbits _ _ _ Hsb2), Hst. split; [done|].
    split; [intros Hf; apply Hx2; by apply (table_frame_same pf s s2)|].
    replace (va + 4096 + Z.of_nat k * 4096) with (va + Z.of_nat (S k) * 4096) by lia.
    rewrite Htr2' by (unfold va_from; lia). rewrite decide_False by zdm. done. }
  exists s'. split; [done|]. split; [done|]. split; [by apply (same_but_trans _ _ s2)|]. split.
  - intros j Hj. rewrite Hbits, Hb2 by done.
    rewrite (bool_decide_ext (j ∈ r :: fs) (j = r ∨ j ∈ fs)) by (by rewrite elem_of_cons).
    rewrite bool_decide_or. case_decide as E.
    + rewrite (bool_decide_true (j = r)) by done. by rewrite andb_false_r.
    + by rewrite (bool_decide_false (j = r)) by done.
  - intros va' Hva'. rewrite Htr, page_of_cons, Htr2' by (done || lia). case_decide as E; [|done].
    by destruct (page_of fs (va + 4096) va').
Qed.

(** ** Theorems *)

(** C37: The self-mapped page directory.  In a well-formed address space the code's
    [pde_ptr] and [pte_ptr] reach the directory word and the table word that the
    processor uses for the address, and [addr_v2p] computes exactly the physical
    address of the processor's translation. *)
Theorem recursive_mapping s va e :
  as_wf s → va_ok va → pde_at s (PDE_IDX va) e → present e = true →
  rd32 (pde_ptr va) s = Ok e ∧
  (∃ t, phys s !! (frame e + PTE_IDX va * 4) = Some t ∧ rd32 (pte_ptr va) s = Ok t) ∧
  ∀ pa, translate (phys s) (mcr3 s) va = Some pa → addr_v2p va s = Ok pa.
Proof.
  intros Hs Hva He Hp. split; [by apply rd32_pde|]. split.
  - destruct (pte_word s va e Hs Hva He Hp) as (t & ? & _ & ? & _). eauto.
  - intros pa Htr. by apply (addr_v2p_ok s va e).
Qed.

(** C20: [page_table_add] maps one page.  Whether the page table exists or is taken
    from a free kernel frame and cleared first, afterwards exactly the page of [va]
    translates to the given frame (also if it was mapped before, which an [ASSERT]
    that the build leaves out forbids) and every other translation from directory
    entry [lo] on is unchanged. *)
Theorem page_table_add_maps s va pa :
  as_from s → va_from lo va → word_ok pa → pa mod 4096 = 0 →
  (∃ r, 0 ≤ r < nbits (pool_bitmap (kernel_pool s)) ∧ pool_bit PF_KERNEL s r = false) →
  ∃ s', page_table_add va pa s = Ok s' ∧ as_from s' ∧
    ∀ va', va_from lo va' → translate (phys s') (mcr3 s') va' =
      if decide (va / 4096 = va' / 4096) then Some (pa + va' mod 4096)
      else translate (phys s) (mcr3 s) va'.
Proof.
  intros Hs Hva Hpa Hal Hfree. destruct (va_idx va (va_from_ok _ _ Hva)) as (_ & _ & Hi & _).
  destruct (pde_exists s (PDE_IDX va) Hs) as (e & He & _); [lia|].
  destruct (present e) eqn:Hp.
  - destruct (page_table_add_present s va e pa Hs Hva He Hp Hpa Hal) as (m' & ? & ? & _ & ?). eauto.
  - destruct (page_table_add_absent s va e pa Hs Hva He Hp Hpa Hal Hfree) as (s' & ? & ? & _ & ?). eauto.
Qed.

(** C35: [malloc_page] never faults on a well-formed state in which the page tables
    of the pool's whole range are present (an absent one is made by
    [page_table_add], see [page_table_add_maps]).  When it succeeds the pages
    returned were unused virtual pages, each is backed by its own frame that was
    free and is now taken, no frame is a page table, and no other address from
    directory entry [lo] on translates differently ([lo] is 1 in the loader's
    directory, whose entry 0 shares the table of entry 768, and 0 in the directory
    of a process).  It returns NULL only when there is no run of [n] unused pages
    or fewer than [n] frames of the pool are free. *)
Theorem malloc_page_maps pf n s :
  as_from s → vaddr_from pf s → 1 ≤ n < 4294967296 →
  ∃ v s', malloc_page pf n s = Ok (v, s') ∧ as_from s' ∧
    (v = 0 → no_room pf n s) ∧
    (v ≠ 0 → ∃ i fs, v = vaddr_start (get_vaddr pf s) + i * 4096 ∧ 0 ≤ i ∧
       clear_run (vaddr_bitmap (get_vaddr pf s)) i n ∧ zlen fs = n ∧
       mapped_run pf s s' v fs ∧ (∀ r, r ∈ fs → ¬ table_frame s' (frame_addr pf s r)) ∧
       (∀ j, 0 ≤ j → vaddr_bit pf s' j = bool_decide (i ≤ j < i + n) || vaddr_bit pf s j)).
Proof.
  intros Hs Hv Hn. destruct (malloc_page_ok pf n s Hs Hv Hn) as (v & s' & Hm & Hs' & Hz & Hnz).
  exists v, s'. split; [done|]. split; [done|]. split; [done|]. intros Hne.
  destruct (Hnz Hne) as (i & fs & Hv' & Hi & _ & Hclr & Hlen & Hrun & _ & _ & _ & Hvb & Hsb).
  exists i, fs. split; [done|]. split; [done|]. split; [done|]. split; [unfold zlen; lia|].
  split; [done|]. split; [|done]. intros r Hr Hf. destruct (mr_free _ _ _ _ _ Hrun r Hr) as [Hr1 Hr2].
  apply (table_frame_same pf (set_vaddr pf (get_vaddr pf s') s)) in Hf; [|by apply as_wf_set_vaddr|done].
  assert (Hf' : table_frame s (frame_addr pf s r)) by (destruct pf; exact Hf). revert Hf'.
  destruct pf; [by apply (fresh_not_table s r); [|lia| |]|].
  apply user_not_table; [done|]. unfold frame_addr. simpl. lia.
Qed.

(** C36: Freeing what was allocated restores the allocator: after [malloc_page] and
    [mfree_page] of the same pages the frame bitmap and the address bitmap are
    what they were, the pages translate to nothing and no other translation
    differs from before. *)
Theorem malloc_free_roundtrip pf n s v s1 :
  as_wf s → vaddr_wf pf s → 1 ≤ n < 4294967296 →
  malloc_page pf n s = Ok (v, s1) → v ≠ 0 →
  ∃ s2, mfree_page pf v n s1 = Ok s2 ∧ as_wf s2 ∧
    (∀ j, 0 ≤ j → pool_bit pf s2 j = pool_bit pf s j) ∧
    (∀ j, 0 ≤ j → vaddr_bit pf s2 j = vaddr_bit pf s j) ∧
    (∀ va', va_in va' → translate (phys s2) (mcr3 s2) va' =
       if decide (v / 4096 ≤ va' / 4096 < v / 4096 + n) then None
       else translate (phys s) (mcr3 s) va').
Proof.
  intros Hs Hv Hn Hm Hne. pose proof Hv as [V1 V2 V3 V4 V5 V6].
  destruct (malloc_page_ok pf n s Hs Hv Hn) as (v' & s1' & Hm' & Hs1 & _ & Hnz).
  rewrite Hm in Hm'. injection Hm' as <- <-. specialize (Hnz Hne).
  destruct Hnz as (i & fs & Ev & Hi & Hin & Hclr & Hlen & [R1 R2 R3 R4] & B1 & B2 & B3 & B4 & Hsb).
  assert (Hsb' : same_but pf (set_vaddr pf (get_vaddr pf s1) s) s1) by done.
  assert (Hst : frame_addr pf s1 = frame_addr pf s)
    by (unfold frame_addr; rewrite (sb_start _ _ _ Hsb); by destruct pf).
  assert (Hpdb : ∀ k, 0 ≤ k < n → va_in (v + k * 4096)) by (intros k Hk; unfold va_from; lia).
  assert (Htab : tables_present s1 v (Z.to_nat n)).
  { intros k Hk. destruct (tables_present_run s _ _ i (Z.to_nat n) V6 Hi) with k as (e & He & Hp); [lia|lia|].
    exists e. split; [|done]. rewrite Ev. apply (sb_pde _ _ _ Hsb).
    - destruct (va_idx (v + k * 4096)) as (_ & _ & ? & _); [apply (va_from_ok lo), Hpdb; lia|]. rewrite Ev in *. lia.
    - destruct pf; exact He. }
  destruct (unmap_pages_ok (Z.to_nat n) pf v s1 fs Hlen Hs1) as (s2 & Hun & Hs2 & Hsb2 & Hb2 & Ht2);
    [lia|rewrite Ev; zdm|lia|done|done| |].
  { intros k r Hk. pose proof (lookup_lt_Some _ _ _ Hk) as Hlt.
    destruct (R2 r) as [Hr1 Hr2]; [by eapply list_elem_of_lookup_2|].
    rewrite (sb_nbits _ _ _ Hsb). split; [by destruct pf|]. rewrite Hst. split.
    - intros Hf. apply (table_frame_same pf (set_vaddr pf (get_vaddr pf s1) s)) in Hf;
        [|by apply as_wf_set_vaddr|done].
      assert (Hf' : table_frame s (frame_addr pf s r)) by (destruct pf; exact Hf). revert Hf'.
      destruct pf; [by apply (fresh_not_table s r); [|lia| |]|].
      apply user_not_table; [done|]. unfold frame_addr. simpl. lia.
    - rewrite R4 by (apply Hpdb; lia). unfold page_of.
      replace ((v + Z.of_nat k * 4096) / 4096) with (v / 4096 + Z.of_nat k) by (rewrite Ev; zdm).
      rewrite (proj2 (Z.leb_le _ _)) by lia. replace (Z.to_nat _) with k by lia. rewrite Hk.
      f_equal. rewrite Ev. zdm. }
  unfold mfree_page.
  destruct (Htab 0) as (e & He & Hp); [lia|]. rewrite Z.mul_0_l, Z.add_0_r in He.
  destruct (pte_word s1 v e Hs1) as (t & _ & _ & Hrd & _); [unfold va_ok; lia|done|done|].
  unfold addr_v2p. mrun Hrd. mrun Hun. unfold vaddr_remove. unfold PG_SIZE.
  rewrite (sb_vaddr _ _ _ Hsb2), B3. unfold nbits in *. pose proof (wf_len _ V1).
  replace (u32 _ / 4096) with i by (rewrite u32_small; zdm).
  destruct (set_run_ok (Z.to_nat n) _ i 0 B1 Hi) as (b3 & Hb3 & _ & _ & _ & Hbits3); [lia|].
  mrun Hb3. eexists. split; [done|]. split; [by apply as_wf_set_vaddr|]. split; [|split].
  - intros j Hj. transitivity (pool_bit pf s2 j); [by destruct pf|]. rewrite Hb2, R3 by done.
    destruct (bool_decide_reflect (j ∈ fs)) as [Hin'|]; [|done]. by destruct (R2 j Hin') as [_ ->].
  - intros j Hj. transitivity (bit_set b3 j); [by destruct pf|]. rewrite Hbits3, Z2Nat.id by lia.
    case_decide as E; [symmetry; by apply Hclr|]. specialize (B4 j Hj). unfold vaddr_bit in *.
    rewrite B4. by rewrite bool_decide_false.
  - intros va' Hva'. transitivity (translate (phys s2) (mcr3 s2) va'); [by destruct pf|].
    rewrite Ht2, R4 by done. unfold page_of. case_decide as E.
    + rewrite (proj2 (Z.leb_le _ _)) by lia.
      destruct (lookup_lt_is_Some_2 fs (Z.to_nat (va' / 4096 - v / 4096))) as [x ->]; [lia|done].
    + destruct (Z.leb_spec (v / 4096) (va' / 4096)); [|done].
      by rewrite lookup_ge_None_2 by lia.
Qed.

Lemma as_wf_set_lock pf l s : as_wf s → as_wf (set_pool pf (with_lock l (get_pool pf s)) s).
Proof.
  assert (Hp : ∀ p, pool_wf p → pool_wf (with_lock l p)) by (by intros p [? ? ? ? ?]).
  destruct pf; intros [W1 W2 W3 W4 W5 W6 W7 W8 W9 W10 W11]; split; simpl in *; try done; by apply Hp.
Qed.

(** When the pool of user frames is exhausted [get_a_page] returns NULL with the
    pool's lock still held by the caller, so that the next thread that allocates
    sleeps; [get_a_page_without_opvaddrbitmap] gives the lock back. *)
Theorem get_a_page_keeps_lock s va :
  as_wf s → bitmap_wf (vaddr_bitmap (cur_vaddr s)) →
  0 ≤ vaddr_start (cur_vaddr s) → vaddr_start (cur_vaddr s) ≤ va < 4294967296 →
  va < vaddr_start (cur_vaddr s) + nbits (vaddr_bitmap (cur_vaddr s)) * 4096 →
  cur_pgdir s ≠ 0 → cur_thread s ≠ 0 → plock (user_pool s) = lock_init →
  (∀ r, 0 ≤ r < nbits (pool_bitmap (user_pool s)) → pool_bit PF_USER s r = true) →
  (∃ s', get_a_page PF_USER va s = Ok (0, s') ∧
         plock (user_pool s') = Lock (cur_thread s) (Semaphore 0 []) 1) ∧
  (∃ s', get_a_page_without_opvaddrbitmap PF_USER va s = Ok (0, s') ∧
         plock (user_pool s') = lock_init).
Proof.
  intros Hs Hv H0 Hva Hend Hpd Ht Hl Hfull.
  set (s1 := set_pool PF_USER (with_lock (Lock (cur_thread s) (Semaphore 0 []) 1) (user_pool s)) s).
  assert (Hacq : acquire PF_USER s = Ok s1).
  { unfold acquire, lock_acquire. simpl. rewrite Hl. simpl (holder _).
    by rewrite (proj2 (Z.eqb_neq 0 (cur_thread s))). }
  assert (Hs1 : as_wf s1) by (by apply (as_wf_set_lock PF_USER)).
  assert (Hpa : ∀ s2, as_wf s2 → (∀ r, pool_bit PF_USER s2 r = pool_bit PF_USER s r) →
    nbits (pool_bitmap (user_pool s2)) = nbits (pool_bitmap (user_pool s)) →
    palloc PF_USER s2 = Ok (0, s2)).
  { intros s2 Hs2 Hb Hn.
    destruct (palloc_ok PF_USER s2 Hs2) as [[_ ?]|(r & b' & Hr & Hbr & _)]; [done|].
    simpl in Hr. rewrite Hn in Hr. by rewrite Hb, Hfull in Hbr. }
  split.
  - unfold get_a_page. mrun Hacq. unfold s1. simpl (cur_pgdir _).
    rewrite (proj2 (Z.eqb_neq _ _) Hpd), (bool_decide_true (PF_USER = PF_USER)) by done. simpl.
    pose proof (wf_len _ Hv). pose proof (wf_small _ Hv). unfold nbits, PG_SIZE in *.
    destruct (bitmap_set_ok (vaddr_bitmap (cur_vaddr s)) ((va - vaddr_start (cur_vaddr s)) / 4096) 1 Hv)
      as (b' & Hb' & _); [zdm|].
    rewrite u32_small, i32_small by zdm. mrun Hb'.
    rewrite Hpa; [|exact (as_wf_set_vaddr PF_USER _ _ Hs1)|done|done].
    eexists. split; [done|]. done.
  - unfold get_a_page_without_opvaddrbitmap. mrun Hacq. rewrite Hpa by done.
    eexists. split; [done|]. done.
Qed.

End AddressSpace.

Arguments as_from : clear implicits.
Arguments vaddr_from : clear implicits.
Arguments mapped_run : clear implicits.

(** Every entry has its own table. *)
Notation as_wf := (as_from 0).
Notation vaddr_wf := (vaddr_from 0).

Lemma cleared_wf len y after :
  0 ≤ len → Forall (λ y, 0 ≤ y < 256) (y :: after) → len + zlen (y :: after) < 268435455 →
  bitmap_wf (cleared len (y :: after)) ∧
  btmp_bytes_len (cleared len (y :: after)) < zlen (bits (cleared len (y :: after))) ∧
  (∀ i, 0 ≤ i < 8 * len → bit_set (cleared len (y :: after)) i = false).
Proof.
  intros Hl Hb Hz. unfold cleared. split_and!.
  - split; simpl.
    + apply Forall_app. split; [|done]. apply Forall_replicate. lia.
    + unfold zlen in *. rewrite length_app, length_replicate. lia.
    + unfold zlen in *. rewrite length_app, length_replicate. lia.
  - simpl. unfold zlen. rewrite length_app, length_replicate. simpl. lia.
  - intros i Hi. unfold bit_set. simpl.
    assert (H : aget (replicate (Z.to_nat len) 0 ++ y :: after) (i / 8) = Ok 0).
    { apply aget_ok. split; [zdm|]. rewrite lookup_app_l by (rewrite length_replicate; zdm).
      apply lookup_replicate. split; [done|zdm]. }
    rewrite H. apply Z.bits_0.
Qed.

(** C38: [mem_pool_init] for a machine of 2 MB to 258 MB: the kernel and the user
    pool are well formed, adjacent, start with every frame free, and lie inside
    the memory of the machine above its first 2 MB, and the three bitmaps do not
    overlap.  At 258 MB the 16-bit page count wraps and both pools are empty. *)
Theorem mem_pool_init_layout all_mem y after :
  0x200000 ≤ all_mem < 0x10200000 →
  Forall (λ y, 0 ≤ y < 256) (y :: after) → zlen (y :: after) < 4096 →
  let L := mem_pool_init all_mem (y :: after) in
  pool_wf (kpool L) ∧ pool_wf (upool L) ∧ phy_addr_start (kpool L) = 0x200000 ∧
  phy_addr_start (kpool L) + nbits (pool_bitmap (kpool L)) * 4096 ≤ phy_addr_start (upool L) ∧
  phy_addr_start (upool L) + nbits (pool_bitmap (upool L)) * 4096 ≤ all_mem ∧
  (∀ i, 0 ≤ i < nbits (pool_bitmap (kpool L)) → bit_set (pool_bitmap (kpool L)) i = false) ∧
  (∀ i, 0 ≤ i < nbits (pool_bitmap (upool L)) → bit_set (pool_bitmap (upool L)) i = false) ∧
  ubits L = kbits L + btmp_bytes_len (pool_bitmap (kpool L)) ∧
  vbits L = ubits L + btmp_bytes_len (pool_bitmap (upool L)) ∧
  pool_size (kpool (mem_pool_init 0x10200000 after)) = 0 ∧
  pool_size (upool (mem_pool_init 0x10200000 after)) = 0.
Proof.
  intros Hm Hb Hz L. unfold L, mem_pool_init, PG_SIZE, MEM_BITMAP_BASE.
  rewrite (u32_small (all_mem - _)) by lia.
  set (pages := (all_mem - _) / 4096). assert (Hp : 0 ≤ pages < 65536 ∧ pages * 4096 ≤ all_mem - 0x200000)
    by (unfold pages; zdm). clearbody pages.
  rewrite (u16_small pages), (u16_small (pages / 2)), (u16_small (pages - pages / 2)) by zdm.
  rewrite (u32_small (4096 * 256 + _ + _)) by zdm.
  destruct (cleared_wf (pages / 2 / 8) y after) as (K1 & K2 & K3); [zdm|done|zdm|].
  destruct (cleared_wf ((pages - pages / 2) / 8) y after) as (U1 & U2 & U3); [zdm|done|zdm|].
  split_and!; simpl; try done; try (split; simpl; try done; unfold nbits; simpl; zdm);
    unfold nbits; simpl; rewrite ?u32_small; zdm.
Qed.

(** *** Witnesses: a directory at 1 MB with one kernel page table, pools of eight frames *)

Definition demo_dir (i : Z) : Z :=
  if decide (i = 1023) then entry 0x100000 else if decide (i = 768) then entry 0x101000 else 0.

Definition demo_words (f : Z) (g : Z → Z) : list (Z * Z) := (λ j, (f + j * 4, g j)) <$> seqZ 0 1024.

Definition demo_phys : gmap Z Z :=
  list_to_map (demo_words 0x100000 demo_dir ++ demo_words 0x101000 (λ _, 0) ++
    (seqZ 0 8 ≫= λ r, demo_words (0x200000 + r * 4096) (λ _, 0))).

#[local] Opaque demo_phys.

Definition demo_pool (start y : Z) : pool := Pool (Bitmap 1 [y; 255]) start 32768 lock_init.

Definition demo_mem (uy : Z) : mstate :=
  MState demo_phys 0x100000 (demo_pool 0x200000 0) (demo_pool 0x208000 uy)
    (VirtualAddr (Bitmap 1 [0; 255]) K_HEAP_START) 0x1000 0xc0101000
    (VirtualAddr (Bitmap 1 [0; 255]) 0x8048000).

Definition demo_check : bool :=
  forallb (λ i, bool_decide (demo_phys !! (0x100000 + i * 4) = Some (demo_dir i)) &&
                bool_decide (demo_phys !! (0x101000 + i * 4) = Some 0)) (seqZ 0 1024) &&
  forallb (λ r, forallb (λ j, match demo_phys !! (0x200000 + r * 4096 + j * 4) with Some _ => true | None => false end)
                        (seqZ 0 1024)) (seqZ 0 8) &&
  bool_decide (map_Forall (λ _ w, 0 ≤ w < 4294967296) demo_phys).

Lemma demo_check_ok : demo_check = true.
Proof. vm_compute. reflexivity. Qed.

Lemma demo_mem_wf uy : 0 ≤ uy < 256 → as_wf (demo_mem uy).
Proof.
  intros Huy. pose proof demo_check_ok as H. unfold demo_check in H. zbool.
  match goal with H : forallb _ (seqZ 0 1024) = true |- _ => rename H into Hd end.
  match goal with H : forallb _ (seqZ 0 8) = true |- _ => rename H into Hk end.
  match goal with H : bool_decide _ = true |- _ => apply bool_decide_eq_true in H; rename H into Hw end.
  rewrite forallb_forall in Hd, Hk.
  assert (Hin : ∀ i n, 0 ≤ i < n → In i (seqZ 0 n))
    by (intros i n Hi; apply list_elem_of_In, elem_of_seqZ; lia).
  assert (D : ∀ i, 0 ≤ i < 1024 → demo_phys !! (0x100000 + i * 4) = Some (demo_dir i)).
  { intros i Hi. specialize (Hd i (Hin _ _ Hi)). apply andb_true_iff in Hd as [E _].
    by apply bool_decide_eq_true in E. }
  assert (T : ∀ i, 0 ≤ i < 1024 → demo_phys !! (0x101000 + i * 4) = Some 0).
  { intros i Hi. specialize (Hd i (Hin _ _ Hi)). apply andb_true_iff in Hd as [_ E].
    by apply bool_decide_eq_true in E. }
  assert (P : ∀ i e, 0 ≤ i < 1023 → pde_at (demo_mem uy) i e → present e = true →
                i = 768 ∧ frame e = 0x101000).
  { intros i e Hi He Hp. unfold pde_at in He. cbn [phys mcr3 demo_mem] in He.
    rewrite D in He by lia. injection He as <-. unfold demo_dir in *.
    rewrite decide_False in * by lia. case_decide; [done|]. done. }
  assert (Hpool : ∀ st y, 0 ≤ y < 256 → st mod 4096 = 0 → 0 < st → st + 8 * 4096 ≤ 4294967296 →
    pool_wf (demo_pool st y)).
  { intros st y Hy H1 H2 H3. split; simpl; unfold nbits; simpl; try lia; try done.
    split; simpl; [|unfold zlen; simpl; lia..]. repeat constructor; lia. }
  split; cbn [phys mcr3 kernel_pool user_pool demo_mem] in *.
  - split; [split|]; done.
  - intros a w Ha. exact (Hw a w Ha).
  - intros j Hj. rewrite D by done. exact (mk_is_Some _ _ eq_refl).
  - unfold pde_at. cbn [phys mcr3 demo_mem]. by rewrite D by lia.
  - left. done.
  - intros i e Hi He Hp. destruct (P i e Hi He Hp) as [-> ->]. split_and!; [|done|left; done].
    intros j Hj. rewrite T by done. exact (mk_is_Some _ _ eq_refl).
  - intros i j ei ej Hi Hj Hei Hej Hpi Hpj _.
    destruct (P i ei Hi Hei Hpi) as [-> _], (P j ej Hj Hej Hpj) as [-> _]. done.
  - by apply Hpool.
  - by apply Hpool.
  - done.
  - intros r Hr j Hj. change (nbits _) with 8 in Hr. specialize (Hk r (Hin _ _ Hr)).
    rewrite forallb_forall in Hk. specialize (Hk j (Hin _ _ Hj)).
    destruct (demo_phys !! _); [exact (mk_is_Some _ _ eq_refl)|discriminate Hk].
Qed.

Lemma demo_pde : pde_at (demo_mem 0) 768 (entry 0x101000).
Proof. unfold pde_at. vm_compute. reflexivity. Qed.

Lemma demo_vaddr_wf : vaddr_wf PF_KERNEL (demo_mem 0).
Proof.
  split; cbn [get_vaddr kernel_vaddr demo_mem vaddr_bitmap vaddr_start]; try done.
  - by apply bitmap_wf_dec.
  - intros k Hk. change (Z.of_nat _) with 9 in Hk. exists (entry 0x101000). split; [|done].
    unfold K_HEAP_START. rewrite PDE_IDX_eq by lia.
    replace ((0xc0100000 + k * 4096) / 4194304) with 768 by zdm. exact demo_pde.
Qed.

(** The loader's directory: entry 0 names the table of entry 768. *)
Lemma as_wf_alias s e :
  as_wf s → pde_at s 768 e → present e = true → as_from 1 (with_phys (<[mcr3 s := e]> (phys s)) s).
Proof.
  intros Hs He Hp. set (s' := with_phys _ s). pose proof Hs as [W1 W2 W3 W4 W5 W6 W7 W8 W9 W10 W11].
  assert (Hpd : ∀ i x, 1 ≤ i < 1024 → pde_at s' i x ↔ pde_at s i x).
  { intros i x Hi. unfold pde_at. simpl. by rewrite lookup_insert_ne by lia. }
  assert (Hfm : ∀ f, frame_mem (phys s) f → frame_mem (phys s') f).
  { intros f Hf j Hj. simpl. rewrite lookup_insert. case_decide; [done|by apply Hf]. }
  split; try done.
  - intros a w. simpl. rewrite lookup_insert. case_decide; [|apply W2]. intros [= <-]. by apply (W2 _ _ He).
  - by apply Hfm.
  - apply Hpd; [lia|done].
  - intros i x Hi Hx Hpx. assert (Hy : ∃ j, 0 ≤ j < 1023 ∧ pde_at s j x).
    { destruct (decide (i = 0)) as [->|]; [|exists i; split; [done|]; by apply Hpd; [lia|]].
      exists 768. split; [lia|]. unfold pde_at in Hx. simpl in Hx. rewrite Z.add_0_r, lookup_insert_eq in Hx.
      by injection Hx as <-. }
    destruct Hy as (j & Hj & Hy). destruct (W6 j x Hj Hy Hpx) as (F1 & F2 & F3). split_and!; try done. by apply Hfm.
  - intros i j ei ej Hi Hj Hei Hej. apply Hpd in Hei, Hej; [|lia..]. apply W7; lia || done.
  - intros r Hr. by apply Hfm, W11.
Qed.

Definition boot_phys : gmap Z Z := <[0x100000 := entry 0x101000]> demo_phys.
Definition boot_mem : mstate := with_phys boot_phys (demo_mem 0).

Lemma boot_mem_wf : as_from 1 boot_mem.
Proof. exact (as_wf_alias (demo_mem 0) _ (demo_mem_wf 0 ltac:(lia)) demo_pde eq_refl). Qed.

Lemma boot_pde : pde_at boot_mem 768 (entry 0x101000).
Proof.
  unfold pde_at. cbn [phys mcr3 boot_mem with_phys demo_mem]. unfold boot_phys. rewrite lookup_insert_ne; [exact demo_pde|lia].
Qed.

Lemma boot_vaddr_wf : vaddr_from 1 PF_KERNEL boot_mem.
Proof.
  split; cbn [get_vaddr kernel_vaddr boot_mem with_phys demo_mem vaddr_bitmap vaddr_start]; try done.
  - by apply bitmap_wf_dec.
  - intros k Hk. change (Z.of_nat _) with 9 in Hk. exists (entry 0x101000). split; [|done].
    unfold K_HEAP_START. rewrite PDE_IDX_eq by lia.
    replace ((0xc0100000 + k * 4096) / 4194304) with 768 by zdm. exact boot_pde.
Qed.

Lemma recursive_mapping_witness :
  rd32 (pde_ptr 0xc0100000) (demo_mem 0) = Ok (entry 0x101000).
Proof.
  refine (proj1 (recursive_mapping (demo_mem 0) 0xc0100000 (entry 0x101000) _ _ _ _)).
  - by apply demo_mem_wf.
  - done.
  - exact demo_pde.
  - done.
Defined.

(** A user page, whose table has to be created. *)
Lemma page_table_add_maps_witness :
  ∃ s', page_table_add 0x8048000 0x208000 (demo_mem 0) = Ok s' ∧
    translate (phys s') (mcr3 s') 0x8048123 = Some 0x208123.
Proof.
  destruct (page_table_add_maps (lo := 0) (demo_mem 0) 0x8048000 0x208000) as (s' & Hs' & _ & Htr).
  - by apply demo_mem_wf.
  - done.
  - done.
  - done.
  - exists 0. split; [done|reflexivity].
  - exists s'. split; [exact Hs'|]. refine (eq_trans (Htr 0x8048123 _) _); [|reflexivity].
    unfold va_from. lia.
Defined.

Lemma malloc_page_maps_witness :
  ∃ v s', malloc_page PF_KERNEL 3 boot_mem = Ok (v, s') ∧ as_from 1 s' ∧ v = 0xc0100000.
Proof.
  destruct (malloc_page_maps PF_KERNEL 3 boot_mem boot_mem_wf boot_vaddr_wf) as (v & s' & Hm & Hs' & _); [lia|].
  exists v, s'. split; [exact Hm|]. split; [exact Hs'|].
  assert (E : match malloc_page PF_KERNEL 3 boot_mem with Ok (v, _) => v | _ => 0 end = 0xc0100000)
    by (vm_compute; reflexivity).
  by rewrite Hm in E.
Defined.

Lemma malloc_free_roundtrip_witness :
  ∃ v s1 s2, malloc_page PF_KERNEL 3 (demo_mem 0) = Ok (v, s1) ∧ mfree_page PF_KERNEL v 3 s1 = Ok s2 ∧
    (∀ j, 0 ≤ j → pool_bit PF_KERNEL s2 j = pool_bit PF_KERNEL (demo_mem 0) j).
Proof.
  assert (E : match malloc_page PF_KERNEL 3 (demo_mem 0) with Ok (v, _) => v | _ => 0 end = 0xc0100000)
    by (vm_compute; reflexivity).
  destruct (malloc_page PF_KERNEL 3 (demo_mem 0)) as [[v s1]| | | |] eqn:Hm; try discriminate E.
  destruct (malloc_free_roundtrip PF_KERNEL 3 (demo_mem 0) v s1 (demo_mem_wf 0 ltac:(lia)) demo_vaddr_wf)
    as (s2 & Hf & _ & Hb & _); [lia|exact Hm|by rewrite E|].
  exists v, s1, s2. split; [reflexivity|]. split; [exact Hf|exact Hb].
Defined.

Lemma get_a_page_keeps_lock_witness :
  ∃ s', get_a_page PF_USER 0x8048000 (demo_mem 255) = Ok (0, s') ∧
    plock (user_pool s') = Lock 0x1000 (Semaphore 0 []) 1.
Proof.
  refine (proj1 (get_a_page_keeps_lock (demo_mem 255) 0x8048000 _ _ _ _ _ _ _ _ _)).
  - by apply demo_mem_wf.
  - by apply bitmap_wf_dec.
  - cbn [cur_vaddr demo_mem vaddr_start]. lia.
  - cbn [cur_vaddr demo_mem vaddr_start]. lia.
  - cbn [cur_vaddr demo_mem vaddr_start vaddr_bitmap]. reflexivity.
  - cbn [cur_pgdir demo_mem]. lia.
  - cbn [cur_thread demo_mem]. lia.
  - reflexivity.
  - intros r Hr. change (nbits _) with 8 in Hr.
    assert (r = 0 ∨ r = 1 ∨ r = 2 ∨ r = 3 ∨ r = 4 ∨ r = 5 ∨ r = 6 ∨ r = 7) by lia.
    destruct_or!; subst; reflexivity.
Defined.

Lemma mem_pool_init_layout_witness :
  let L := mem_pool_init 0x2000000 [0] in
  phy_addr_start (kpool L) + nbits (pool_bitmap (kpool L)) * 4096 ≤ phy_addr_start (upool L) ∧
  phy_addr_start (upool L) = 0x1100000.
Proof.
  destruct (mem_pool_init_layout 0x2000000 0 []) as (_ & _ & _ & H & _).
  - lia.
  - repeat constructor; lia.
  - done.
  - split; [exact H|reflexivity].
Defined.
