(* ===== verification/Arena.v ===== *)
(** * The arena allocator (kernel/memory.c: block_desc_init, sys_malloc, sys_free)

    Blocks of at most 1024 bytes are carved out of one-page arenas and kept in seven
    free lists; larger requests get whole pages with an arena header.  The allocator is
    written against the interface [PageSource], what it needs from the page allocator:
    [pool_pages] gives it with the operations of [Paging].  The words of the heap are
    kept by virtual address in a [kmach], on which the list operations work. *)

From stdpp Require Import functions.
From S2P Require Import Prelude Interrupt KList Bitmap Sched Sync Paging.

Definition DESC_CNT : nat := 7.
Definition sizeof_desc : Z := 24.
Definition sizeof_arena : Z := 12.

(** ** The interface to the page allocator *)

Class PageSource (P : Type) := {
  ps_malloc : Z → P → outcome (Z * P);
  ps_free : Z → Z → P → outcome P;
  ps_acquire : P → outcome P;
  ps_release : P → P;
  ps_size : P → Z;
}.

#[global] Instance pool_pages (pf : pool_flags) : PageSource mstate := {
  ps_malloc := malloc_page pf;
  ps_free := mfree_page pf;
  ps_acquire := acquire pf;
  ps_release := release pf;
  ps_size s := pool_size (get_pool pf s);
}.

Record heap (P : Type) := Heap { hpages : P; hk : kmach }.
Arguments Heap {P}.
Arguments hpages {P}.
Arguments hk {P}.

(** ** Fields of the structures *)

Definition desc_at (descs : Z) (idx : Z) : Z := descs + sizeof_desc * idx.
Definition block_size_of (desc : Z) : Z := desc.
Definition blocks_per_arena_of (desc : Z) : Z := desc + 4.
Definition free_list_of (desc : Z) : Z := desc + 8.
Definition desc_of (a : Z) : Z := a.
Definition cnt_of (a : Z) : Z := a + 4.
Definition large_of (a : Z) : Z := a + 8.

Definition stk (k : kmach) (a v : Z) : outcome kmach :=
  m ← st (words k) a v; Ok (KMach m (kcpu k)).

(** ** Memory of whole pages *)

(** The page allocator's new pages after [memset] to 0. *)
Fixpoint zero_words (n : nat) (a : Z) (m : mem) : mem :=
  match n with
  | O => m
  | S n => <[a := 0]> (zero_words n (a + 4) m)
  end.

(** Pages that are no longer mapped. *)
Fixpoint drop_words (n : nat) (a : Z) (m : mem) : mem :=
  match n with
  | O => m
  | S n => delete a (drop_words n (a + 4) m)
  end.

(** [memset (a, 0, 4 * n)] on memory that must be there. *)
Fixpoint clear (n : nat) (a : Z) (m : mem) : outcome mem :=
  match n with
  | O => Ok m
  | S n => m ← st m a 0; clear n (u32 (a + 4)) m
  end.

(** ** The operations *)

Fixpoint desc_init_loop (n : nat) (desc_array desc_idx block_size : Z) (k : kmach) : outcome kmach :=
  match n with
  | O => Ok k
  | S n =>
      let d := desc_at desc_array desc_idx in
      k ← stk k (block_size_of d) block_size;
      k ← stk k (blocks_per_arena_of d) ((PG_SIZE - sizeof_arena) / block_size);
      k ← list_init k (free_list_of d);
      desc_init_loop n desc_array (desc_idx + 1) (u16 (block_size * 2)) k
  end.

Definition block_desc_init (desc_array : Z) (k : kmach) : outcome kmach :=
  desc_init_loop DESC_CNT desc_array 0 16 k.

Definition arena2block (a idx : Z) (k : kmach) : outcome Z :=
  d ← ld (words k) (desc_of a);
  bs ← ld (words k) (block_size_of d);
  Ok (u32 (a + sizeof_arena + idx * bs)).

Definition block2arena (b : Z) : Z := Z.land b 0xfffff000.

(** The search for the first descriptor with blocks of [size] bytes. *)
Fixpoint find_desc (n : nat) (descs desc_idx size : Z) (k : kmach) : outcome Z :=
  match n with
  | O => Ok desc_idx
  | S n =>
      bs ← ld (words k) (block_size_of (desc_at descs desc_idx));
      if size <=? bs then Ok desc_idx else find_desc n descs (desc_idx + 1) size k
  end.

(** The loop that puts the blocks of a new arena into the free list. *)
Fixpoint carve (n : nat) (a block_idx : Z) (k : kmach) : outcome kmach :=
  match n with
  | O => Ok k
  | S n =>
      b ← arena2block a block_idx k;
      d ← ld (words k) (desc_of a);
      k ← list_append k (free_list_of d) b;
      carve n a (block_idx + 1) k
  end.

(** The loop that takes all blocks of an arena out of the free list. *)
Fixpoint uncarve (n : nat) (a block_idx : Z) (k : kmach) : outcome kmach :=
  match n with
  | O => Ok k
  | S n =>
      b ← arena2block a block_idx k;
      k ← list_remove k b;
      uncarve n a (block_idx + 1) k
  end.

(** The first block of the free list, cleared; the counter of its arena goes down. *)
Definition take_free (desc : Z) (k : kmach) : outcome (Z * kmach) :=
  '(b, k) ← list_pop k (free_list_of desc);
  bs ← ld (words k) (block_size_of desc);
  m ← clear (Z.to_nat (bs / 4)) b (words k);
  let a := block2arena b in
  n ← ld m (cnt_of a);
  m ← st m (cnt_of a) (u32 (n - 1));
  Ok (b, KMach m (kcpu k)).

Section Ops.
Context {P : Type} {PS : PageSource P}.

(** An arena of whole pages. *)
Definition malloc_large (size : Z) (h : heap P) : outcome (Z * heap P) :=
  let page_cnt := u32 (u32 (size + sizeof_arena) + PG_SIZE - 1) / PG_SIZE in
  '(a, p) ← ps_malloc page_cnt (hpages h);
  if a =? 0 then Ok (0, Heap p (hk h))
  else
    let k := KMach (zero_words (Z.to_nat (page_cnt * 1024)) a (words (hk h))) (kcpu (hk h)) in
    k ← stk k (desc_of a) 0;
    k ← stk k (cnt_of a) page_cnt;
    k ← stk k (large_of a) 1;
    Ok (u32 (a + sizeof_arena), Heap p k).

(** A new arena for the empty free list of [desc]; [None] when there is no page. *)
Definition new_arena (desc : Z) (h : heap P) : outcome (option Z * heap P) :=
  '(a, p) ← ps_malloc 1 (hpages h);
  if a =? 0 then Ok (None, Heap p (hk h))
  else
    let k := KMach (zero_words 1024 a (words (hk h))) (kcpu (hk h)) in
    k ← stk k (desc_of a) desc;
    k ← stk k (large_of a) 0;
    n ← ld (words k) (blocks_per_arena_of desc);
    k ← stk k (cnt_of a) n;
    let '(old_status, c) := intr_disable (kcpu k) in
    n ← ld (words k) (blocks_per_arena_of desc);
    k ← carve (Z.to_nat n) a 0 (KMach (words k) c);
    Ok (Some a, Heap p (KMach (words k) (intr_restore old_status (kcpu k)))).

Definition malloc_small (descs size : Z) (h : heap P) : outcome (Z * heap P) :=
  desc_idx ← find_desc DESC_CNT descs 0 size (hk h);
  let desc := desc_at descs desc_idx in
  empty ← list_empty (hk h) (free_list_of desc);
  '(ready, h) ← (if empty : bool then
                   '(r, h) ← new_arena desc h;
                   Ok (match r with Some _ => true | None => false end, h)
                 else Ok (true, h));
  if ready : bool then '(b, k) ← take_free desc (hk h); Ok (b, Heap (hpages h) k)
  else Ok (0, h).

(** [sys_malloc] for a pool and its descriptors; 0 is NULL. *)
Definition arena_malloc (descs size : Z) (h : heap P) : outcome (Z * heap P) :=
  if negb ((size >? 0) && (size <? ps_size (hpages h))) then Ok (0, h)
  else
    p ← ps_acquire (hpages h);
    let h := Heap p (hk h) in
    '(r, h) ← (if size >? 1024 then malloc_large size h else malloc_small descs size h);
    Ok (r, Heap (ps_release (hpages h)) (hk h)).

(** Gives the pages of [a] back: they are no longer mapped. *)
Definition free_pages (a n : Z) (h : heap P) : outcome (heap P) :=
  p ← ps_free a n (hpages h);
  Ok (Heap p (KMach (drop_words (Z.to_nat (n * 1024)) a (words (hk h))) (kcpu (hk h)))).

Definition free_small (a b desc : Z) (h : heap P) : outcome (heap P) :=
  k ← list_append (hk h) (free_list_of desc) b;
  n ← ld (words k) (cnt_of a);
  k ← stk k (cnt_of a) (u32 (n + 1));
  bpa ← ld (words k) (blocks_per_arena_of desc);
  if u32 (n + 1) =? bpa then
    k ← uncarve (Z.to_nat bpa) a 0 k;
    free_pages a 1 (Heap (hpages h) k)
  else Ok (Heap (hpages h) k).

(** [sys_free] for a pool. *)
Definition arena_free (ptr : Z) (h : heap P) : outcome (heap P) :=
  if ptr =? 0 then Ok h
  else
    p ← ps_acquire (hpages h);
    let h := Heap p (hk h) in
    let a := block2arena ptr in
    desc ← ld (words (hk h)) (desc_of a);
    large ← (if desc =? 0 then l ← ld (words (hk h)) (large_of a); Ok (l =? 1) else Ok false);
    h ← (if large : bool then n ← ld (words (hk h)) (cnt_of a); free_pages a n h
         else free_small a ptr desc h);
    Ok (Heap (ps_release (hpages h)) (hk h)).
End Ops.

(** A thread without a page directory works on the kernel's pool and descriptors. *)
Definition sys_malloc (k_block_descs u_block_desc size : Z) (h : heap mstate) : outcome (Z * heap mstate) :=
  if cur_pgdir (hpages h) =? 0 then arena_malloc (PS := pool_pages PF_KERNEL) k_block_descs size h
  else arena_malloc (PS := pool_pages PF_USER) u_block_desc size h.

Definition sys_free (ptr : Z) (h : heap mstate) : outcome (heap mstate) :=
  if cur_pgdir (hpages h) =? 0 then arena_free (PS := pool_pages PF_KERNEL) ptr h
  else arena_free (PS := pool_pages PF_USER) ptr h.

(** [after] are the bytes behind each bitmap; the loader left the size of the memory at 0xb00. *)
Definition mem_init (mem_bytes_total : Z) (after : list Z) (k_block_descs : Z) (k : kmach) : outcome (pool_layout * kmach) :=
  let pools := mem_pool_init mem_bytes_total after in
  k ← block_desc_init k_block_descs k;
  Ok (pools, k).

(** ** What the page allocator promises *)

(** [ps_inv]: the lock of the pool is free; [ps_held]: the caller holds it; [ps_live p q]:
    page [q] is handed out; [ps_full n p]: there is no room for [n] pages.  A failed request
    may lose pages but takes none away. *)
Class PageSourceLaws (P : Type) {PS : PageSource P} := {
  ps_inv : P → Prop;
  ps_held : P → Prop;
  ps_live : P → Z → Prop;
  ps_lo : P → Z;
  ps_hi : P → Z;
  ps_full : Z → P → Prop;
  ps_bounds p : ps_inv p ∨ ps_held p → 4096 ≤ ps_lo p ∧ ps_hi p ≤ 4294967296 ∧ ps_size p < 2147483648;
  ps_acquire_ok p : ps_inv p → ∃ p', ps_acquire p = Ok p' ∧ ps_held p' ∧
    ps_lo p' = ps_lo p ∧ ps_hi p' = ps_hi p ∧ (∀ q, ps_live p q → ps_live p' q) ∧
    ∀ n, ps_full n p' → ps_full n p;
  ps_release_ok p : ps_held p → ps_inv (ps_release p) ∧
    ps_lo (ps_release p) = ps_lo p ∧ ps_hi (ps_release p) = ps_hi p ∧
    ∀ q, ps_live p q → ps_live (ps_release p) q;
  ps_malloc_ok n p : ps_held p → 1 ≤ n < 1048576 →
    ∃ v p', ps_malloc n p = Ok (v, p') ∧ ps_held p' ∧ ps_lo p' = ps_lo p ∧ ps_hi p' = ps_hi p ∧
      (∀ q, ps_live p q → ps_live p' q) ∧ (v = 0 → ps_full n p) ∧
      (v ≠ 0 → v mod 4096 = 0 ∧ ps_lo p ≤ v ∧ v + n * 4096 ≤ ps_hi p ∧
         ∀ k, 0 ≤ k < n → ¬ ps_live p (v + k * 4096) ∧ ps_live p' (v + k * 4096));
  ps_free_ok v n p : ps_held p → 1 ≤ n → (∀ k, 0 ≤ k < n → ps_live p (v + k * 4096)) →
    v mod 4096 = 0 → ps_lo p ≤ v → v + n * 4096 ≤ ps_hi p →
    ∃ p', ps_free v n p = Ok p' ∧ ps_held p' ∧ ps_lo p' = ps_lo p ∧ ps_hi p' = ps_hi p ∧
      ∀ q, ps_live p q → ¬ (v ≤ q < v + n * 4096) → ps_live p' q;
}.

(** ** The abstract heap *)

Inductive arena_kind := Small (i : nat) | Large (n : Z).

Definition npages (k : arena_kind) : Z := match k with Small _ => 1 | Large n => n end.

(** The arenas by address and the seven free lists. *)
Record aheap := AHeap { arenas : gmap Z arena_kind; frees : nat → list Z }.

Definition bsize (i : nat) : Z := 16 * 2 ^ Z.of_nat i.
Definition bpa (i : nat) : Z := 4084 / bsize i.
Definition blk (a : Z) (i : nat) (k : Z) : Z := a + 12 + k * bsize i.
Definition desc_i (D : Z) (i : nat) : Z := desc_at D (Z.of_nat i).

(** [x] is a block of class [i] of some arena. *)
Definition is_block (A : aheap) (i : nat) (x : Z) : Prop :=
  ∃ a k, arenas A !! a = Some (Small i) ∧ 0 ≤ k < bpa i ∧ x = blk a i k.

(** The blocks that are allocated, with their sizes. *)
Definition allocated (A : aheap) (b sz : Z) : Prop :=
  (∃ i, (i < DESC_CNT)%nat ∧ is_block A i b ∧ b ∉ frees A i ∧ sz = bsize i) ∨
  (∃ a n, arenas A !! a = Some (Large n) ∧ b = a + 12 ∧ sz = n * 4096 - 12).

(** The free blocks of arena [a]. *)
Definition in_arena (a : Z) (xs : list Z) : list Z := filter (λ x, a ≤ x < a + 4096) xs.

Definition page_mapped (m : mem) (a n : Z) : Prop :=
  ∀ j, 0 ≤ j < n * 1024 → is_Some (m !! (a + 4 * j)).

Section Inv.
Context {P : Type} {PS : PageSource P} {PL : PageSourceLaws P}.

Definition header_ok (D : Z) (m : mem) (a : Z) (k : arena_kind) : Prop :=
  match k with
  | Small i => (i < DESC_CNT)%nat ∧ m !! desc_of a = Some (desc_i D i)
  | Large n => 1 ≤ n ∧ m !! desc_of a = Some 0 ∧ m !! cnt_of a = Some n ∧ m !! large_of a = Some 1
  end.

(** The invariant without the counters of the arenas. *)
Record heap_core (D : Z) (p : P) (m : mem) (A : aheap) : Prop := {
  hc_area : 0 < D ∧ (D + 168 ≤ ps_lo p ∨ ps_hi p ≤ D);
  hc_desc : ∀ i, (i < DESC_CNT)%nat →
    m !! block_size_of (desc_i D i) = Some (bsize i) ∧
    m !! blocks_per_arena_of (desc_i D i) = Some (bpa i) ∧
    is_list m (free_list_of (desc_i D i)) (frees A i);
  hc_arena : ∀ a k, arenas A !! a = Some k →
    a mod 4096 = 0 ∧ ps_lo p ≤ a ∧ a + npages k * 4096 ≤ ps_hi p ∧ 1 ≤ npages k ∧
    header_ok D m a k ∧ page_mapped m a (npages k) ∧
    ∀ j, 0 ≤ j < npages k → ps_live p (a + j * 4096);
  hc_apart : ∀ a b k l, arenas A !! a = Some k → arenas A !! b = Some l → a ≠ b →
    a + npages k * 4096 ≤ b ∨ b + npages l * 4096 ≤ a;
  hc_free : ∀ i x, (i < DESC_CNT)%nat → x ∈ frees A i → is_block A i x;
}.

(** Each counter holds the number of free blocks of its arena, which has an
    allocated one. *)
Definition counts_ok (m : mem) (A : aheap) : Prop :=
  ∀ a i, arenas A !! a = Some (Small i) →
    m !! cnt_of a = Some (zlen (in_arena a (frees A i))) ∧ zlen (in_arena a (frees A i)) < bpa i.

Record heap_inv (D : Z) (h : heap P) (A : aheap) : Prop := {
  hv_pages : ps_inv (hpages h);
  hv_core : heap_core D (hpages h) (words (hk h)) A;
  hv_cnt : counts_ok (words (hk h)) A;
}.
End Inv.

(** ** Lemmas: sizes *)

Lemma bsize_cases i : (i < DESC_CNT)%nat →
  bsize i ∈ [16; 32; 64; 128; 256; 512; 1024] ∧ bpa i = 4084 / bsize i.
Proof.
  unfold DESC_CNT. intros Hi. split; [|done].
  do 7 (destruct i as [|i]; [unfold bsize; simpl; set_solver|]). lia.
Qed.

Lemma bsize_facts i : (i < DESC_CNT)%nat →
  16 ≤ bsize i ≤ 1024 ∧ bsize i mod 16 = 0 ∧ 1 ≤ bpa i ≤ 255 ∧ bpa i * bsize i ≤ 4084.
Proof.
  unfold DESC_CNT. intros Hi. do 7 (destruct i as [|i]; [vm_compute; intuition discriminate|]). lia.
Qed.

Lemma blk_facts a i k : (i < DESC_CNT)%nat → a mod 4096 = 0 → 0 ≤ k < bpa i →
  a + 12 ≤ blk a i k ∧ blk a i k + bsize i ≤ a + 4096 ∧ blk a i k mod 4 = 0.
Proof.
  intros Hi Ha Hk. destruct (bsize_facts i Hi) as (H1 & H2 & H3 & H4). unfold blk.
  assert (Hk' : k * bsize i + bsize i ≤ bpa i * bsize i) by nia.
  assert (Hm : ∃ c, bsize i = 16 * c) by (exists (bsize i / 16); zdm). destruct Hm as [c Hc].
  split_and!; [nia|lia|]. rewrite Hc. replace (a + 12 + k * (16 * c)) with (a + 12 + 4 * (4 * (k * c))) by lia. zdm.
Qed.

(** Two blocks are the same or do not overlap. *)
Lemma blk_apart a b i j k l :
  (i < DESC_CNT)%nat → (j < DESC_CNT)%nat → a mod 4096 = 0 → b mod 4096 = 0 → 0 ≤ k < bpa i → 0 ≤ l < bpa j →
  (a = b → i = j) →
  (a = b ∧ k = l) ∨ blk a i k + bsize i ≤ blk b j l ∨ blk b j l + bsize j ≤ blk a i k.
Proof.
  intros Hi Hj Ha Hb Hk Hl Hij.
  destruct (blk_facts a i k Hi Ha Hk) as (A1 & A2 & _), (blk_facts b j l Hj Hb Hl) as (B1 & B2 & _).
  destruct (decide (a = b)) as [->|Hne].
  - rewrite <- (Hij eq_refl) in *. destruct (bsize_facts i Hi) as (H1 & _). unfold blk.
    destruct (decide (k = l)); [by left|right]. assert (k < l ∨ l < k) as [|] by lia; [left|right]; nia.
  - right. assert (a + 4096 ≤ b ∨ b + 4096 ≤ a) as [|] by zdm; [left|right]; lia.
Qed.

Lemma block2arena_blk a i k : (i < DESC_CNT)%nat → a mod 4096 = 0 → 0 ≤ a < 4294967296 → 0 ≤ k < bpa i →
  block2arena (blk a i k) = a.
Proof.
  intros Hi Ha Hr Hk. destruct (blk_facts a i k Hi Ha Hk) as (A1 & A2 & _).
  destruct (bsize_facts i Hi) as (H1 & _).
  assert (blk a i k < 4294967296) by zdm. change (block2arena (blk a i k)) with (frame (blk a i k)).
  rewrite frame_eq by lia. zdm.
Qed.

(** ** Lemmas: words of pages *)

Lemma zero_words_lookup n a m w :
  zero_words n a m !! w = if decide (a ≤ w < a + 4 * Z.of_nat n ∧ (w - a) mod 4 = 0) then Some 0 else m !! w.
Proof.
  revert a. induction n as [|n IH]; intros a; cbn [zero_words].
  - rewrite decide_False by lia. done.
  - destruct (decide (w = a)) as [->|Hne].
    + rewrite lookup_insert_eq, decide_True; [done|]. split; [lia|]. by rewrite Z.sub_diag.
    + rewrite lookup_insert_ne, IH by done. apply decide_ext.
      split; intros [H1 H2]; (split; [|zdm]); [lia|]. assert (w - a ≠ 1 ∧ w - a ≠ 2 ∧ w - a ≠ 3) by zdm. lia.
Qed.

Lemma drop_words_lookup n a m w :
  drop_words n a m !! w = if decide (a ≤ w < a + 4 * Z.of_nat n ∧ (w - a) mod 4 = 0) then None else m !! w.
Proof.
  revert a. induction n as [|n IH]; intros a; cbn [drop_words].
  - rewrite decide_False by lia. done.
  - destruct (decide (w = a)) as [->|Hne].
    + rewrite lookup_delete_eq, decide_True; [done|]. split; [lia|]. by rewrite Z.sub_diag.
    + rewrite lookup_delete_ne, IH by done. apply decide_ext.
      split; intros [H1 H2]; (split; [|zdm]); [lia|]. assert (w - a ≠ 1 ∧ w - a ≠ 2 ∧ w - a ≠ 3) by zdm. lia.
Qed.

Lemma clear_ok n a m :
  0 ≤ a → a + 4 * Z.of_nat n ≤ 4294967296 → (∀ j, 0 ≤ j < Z.of_nat n → is_Some (m !! (a + 4 * j))) →
  clear n a m = Ok (zero_words n a m).
Proof.
  revert a m. induction n as [|n IH]; intros a m Ha Hb Hm; [done|]. cbn [clear zero_words].
  assert (H0 : is_Some (m !! a)) by (replace a with (a + 4 * 0) by lia; apply Hm; lia).
  mrun (st_ok m a 0 H0). destruct n as [|n]; [done|]. rewrite u32_small by lia.
  rewrite IH; [|lia|lia|].
  - f_equal. apply map_eq. intros w. rewrite zero_words_lookup.
    destruct (decide (w = a)) as [->|].
    + rewrite !lookup_insert_eq, decide_False by lia. done.
    + rewrite !lookup_insert_ne, zero_words_lookup by done. done.
  - intros j Hj. rewrite lookup_insert_ne by lia. replace (a + 4 + 4 * j) with (a + 4 * (j + 1)) by lia.
    apply Hm. lia.
Qed.

#[global] Arguments zero_words : simpl never.
#[global] Arguments drop_words : simpl never.

(** ** Lemmas: what a change to one free list leaves alone *)

Lemma is_list_frame m m' l xs :
  is_list m l xs →
  (∀ n, n ∈ list_nodes l xs → m' !! prev_of n = m !! prev_of n ∧ m' !! next_of n = m !! next_of n) →
  is_list m' l xs.
Proof.
  intros (Hl & Ha & Ht) Hf. split_and!; [|done|].
  - eapply links_frame; [done|]. intros i a b Hia Hib.
    apply list_elem_of_lookup_2 in Hia, Hib. split; by apply Hf.
  - destruct (Hf (tail_of l)) as [_ ->]; [|done]. unfold list_nodes. set_solver.
Qed.

Section Frame.
Context {P : Type} {PS : PageSource P} {PL : PageSourceLaws P}.
Implicit Types (p : P) (A : aheap).

(** The words that list [i], its blocks and the counters of its arenas use. *)
Definition touched (D : Z) A (i : nat) (w : Z) : Prop :=
  free_list_of (desc_i D i) ≤ w < free_list_of (desc_i D i) + 16 ∨
  (∃ x, is_block A i x ∧ x ≤ w < x + bsize i) ∨
  (∃ a, arenas A !! a = Some (Small i) ∧ w = cnt_of a).

Lemma block_page D p m A i x :
  heap_core D p m A → (i < DESC_CNT)%nat → is_block A i x →
  ∃ a, arenas A !! a = Some (Small i) ∧ a mod 4096 = 0 ∧ ps_lo p ≤ a ∧ a + 4096 ≤ ps_hi p ∧
    a + 12 ≤ x ∧ x + bsize i ≤ a + 4096 ∧ x mod 4 = 0.
Proof.
  intros Hc Hi (a & k & Ha & Hk & ->). exists a.
  destruct (hc_arena _ _ _ _ Hc a _ Ha) as (H1 & H2 & H3 & _). simpl in H3.
  destruct (blk_facts a i k Hi H1 Hk) as (? & ? & ?). split_and!; done || lia.
Qed.

Lemma desc_area D p m A i :
  heap_core D p m A → (i < DESC_CNT)%nat → D ≤ desc_i D i ∧ desc_i D i + 24 ≤ D + 168 ∧
  desc_i D i = D + 24 * Z.of_nat i ∧ (D + 168 ≤ ps_lo p ∨ ps_hi p ≤ D).
Proof.
  intros Hc Hi. destruct (hc_area _ _ _ _ Hc). unfold desc_i, desc_at, sizeof_desc, DESC_CNT in *.
  split_and!; lia || done.
Qed.

Lemma touched_desc D p m A i j w :
  heap_core D p m A → (i < DESC_CNT)%nat → (j < DESC_CNT)%nat →
  desc_i D j ≤ w < desc_i D j + 24 → (i = j → w < desc_i D j + 8) → ¬ touched D A i w.
Proof.
  intros Hc Hi Hj Hw Hij Ht. destruct (desc_area D p m A i Hc Hi) as (A1 & A2 & A3 & A4).
  destruct (desc_area D p m A j Hc Hj) as (B1 & B2 & B3 & B4).
  destruct Ht as [Ht|[(x & Hx & Ht)|(a & Ha & Ht)]].
  - unfold free_list_of in Ht. destruct (decide (i = j)) as [->|]; [specialize (Hij eq_refl); lia|]. lia.
  - destruct (block_page D p m A i x Hc Hi Hx) as (a & _ & ? & ? & ? & ? & ? & _). lia.
  - destruct (hc_arena _ _ _ _ Hc a _ Ha) as (H1 & H2 & H3 & _). simpl in H3. unfold cnt_of in Ht. lia.
Qed.

(** A word of an arena that is not in a block of class [i] and not its counter. *)
Lemma touched_arena D p m A i a k w :
  heap_core D p m A → (i < DESC_CNT)%nat → arenas A !! a = Some k →
  a ≤ w < a + npages k * 4096 → (k = Small i → w ≠ cnt_of a ∧ w < a + 12) → ¬ touched D A i w.
Proof.
  intros Hc Hi Ha Hw Hk Ht. destruct (hc_arena _ _ _ _ Hc a _ Ha) as (H1 & H2 & H3 & _).
  destruct (desc_area D p m A i Hc Hi) as (A1 & A2 & A3 & A4).
  assert (Hsame : ∀ b, arenas A !! b = Some (Small i) → b ≤ w < b + 4096 → b = a ∧ k = Small i).
  { intros b Hb Hbw. destruct (decide (b = a)) as [->|Hne]; [split; congruence|].
    destruct (hc_apart _ _ _ _ Hc b a _ _ Hb Ha Hne) as [Hd|Hd]; simpl in Hd; lia. }
  destruct Ht as [Ht|[(x & Hx & Ht)|(b & Hb & Ht)]].
  - unfold free_list_of in Ht. lia.
  - destruct (block_page D p m A i x Hc Hi Hx) as (b & Hb & ? & ? & ? & ? & ? & _).
    destruct (Hsame b Hb ltac:(lia)) as [-> Hsm]. specialize (Hk Hsm). lia.
  - unfold cnt_of in *. destruct (Hsame b Hb ltac:(lia)) as [-> Hsm]. specialize (Hk Hsm). lia.
Qed.

Lemma touched_block D p m A i j x w :
  heap_core D p m A → (i < DESC_CNT)%nat → (j < DESC_CNT)%nat → i ≠ j → is_block A j x →
  x ≤ w < x + bsize j → ¬ touched D A i w.
Proof.
  intros Hc Hi Hj Hne Hx Hw. destruct (block_page D p m A j x Hc Hj Hx) as (a & Ha & ? & ? & ? & ? & ? & _).
  apply (touched_arena D p m A i a (Small j)); [done|done|done|simpl; lia|congruence].
Qed.

Lemma core_change D p m A i xs m' :
  heap_core D p m A → (i < DESC_CNT)%nat → dom m' = dom m →
  (∀ w, ¬ touched D A i w → m' !! w = m !! w) →
  is_list m' (free_list_of (desc_i D i)) xs → (∀ x, x ∈ xs → is_block A i x) →
  heap_core D p m' (AHeap (arenas A) (<[i := xs]> (frees A))).
Proof.
  intros Hc Hi Hdom Hsame Hl Hb. split; cbn [arenas frees].
  - apply (hc_area _ _ _ _ Hc).
  - intros j Hj. destruct (hc_desc _ _ _ _ Hc j Hj) as (H1 & H2 & H3).
    rewrite !Hsame by (apply (touched_desc D p m A i j); try done; unfold block_size_of, blocks_per_arena_of; lia).
    split_and!; [done|done|]. destruct (decide (j = i)) as [->|Hne]; [by rewrite fn_lookup_insert|].
    rewrite fn_lookup_insert_ne by done. eapply is_list_frame; [done|]. intros n Hn.
    assert (Hcase : (desc_i D j + 8 ≤ n ≤ desc_i D j + 16) ∨ n ∈ frees A j).
    { unfold list_nodes, head_of, tail_of, free_list_of in Hn.
      apply elem_of_cons in Hn as [->|Hn]; [left; lia|]. apply elem_of_app in Hn as [Hn|Hn]; [by right|].
      apply list_elem_of_singleton in Hn as ->. left. lia. }
    unfold prev_of, next_of. destruct Hcase as [Hr|Hin].
    + split; apply Hsame, (touched_desc D p m A i j); try done; lia.
    + pose proof (hc_free _ _ _ _ Hc j n Hj Hin) as Hn'. destruct (bsize_facts j Hj) as (? & _).
      split; apply Hsame, (touched_block D p m A i j n); done || lia.
  - intros a k Ha. destruct (hc_arena _ _ _ _ Hc a k Ha) as (H1 & H2 & H3 & H4 & H5 & H6 & H7).
    split_and!; try done.
    + assert (Hd : m' !! desc_of a = m !! desc_of a).
      { apply Hsame, (touched_arena D p m A i a k); try done; unfold desc_of, cnt_of; lia. }
      destruct k as [j|n]; simpl in H5 |- *; rewrite Hd; [done|]. destruct H5 as (G1 & G2 & G3 & G4).
      rewrite !Hsame by (apply (touched_arena D p m A i a (Large n)); try done;
                         unfold cnt_of, large_of; simpl in *; lia). done.
    + intros j Hj. apply elem_of_dom. rewrite Hdom. apply elem_of_dom. by apply H6.
  - apply (hc_apart _ _ _ _ Hc).
  - intros j x Hj. destruct (decide (j = i)) as [->|Hne].
    + rewrite fn_lookup_insert. by apply Hb.
    + rewrite fn_lookup_insert_ne by done. by apply (hc_free _ _ _ _ Hc).
Qed.
End Frame.

Section Blocks.
Context {P : Type} {PS : PageSource P} {PL : PageSourceLaws P}.
Implicit Types (p : P) (A : aheap).

Lemma blocks_disjoint D p m A i j x y :
  heap_core D p m A → (i < DESC_CNT)%nat → (j < DESC_CNT)%nat → is_block A i x → is_block A j y → x ≠ y →
  x + bsize i ≤ y ∨ y + bsize j ≤ x.
Proof.
  intros Hc Hi Hj (a & k & Ha & Hk & ->) (b & l & Hb & Hl & ->) Hne.
  destruct (hc_arena _ _ _ _ Hc a _ Ha) as (H1 & _), (hc_arena _ _ _ _ Hc b _ Hb) as (H2 & _).
  destruct (blk_apart a b i j k l) as [[-> ->]|?]; try done.
  - intros ->. rewrite Ha in Hb. by injection Hb.
  - rewrite Ha in Hb. injection Hb as ->. done.
Qed.

(** The words of list [i] and its counters, and the blocks [xs] of class [i]. *)
Definition fine (D : Z) A (i : nat) (xs : list Z) (w : Z) : Prop :=
  free_list_of (desc_i D i) ≤ w < free_list_of (desc_i D i) + 16 ∨
  (∃ x, x ∈ xs ∧ x ≤ w < x + bsize i) ∨
  (∃ a, arenas A !! a = Some (Small i) ∧ w = cnt_of a).

Lemma fine_touched D A i xs w : (∀ x, x ∈ xs → is_block A i x) → fine D A i xs w → touched D A i w.
Proof. intros Hb [H|[(x & Hx & H)|H]]; [by left| |by right; right]. right; left. eauto. Qed.

Lemma fine_nodes D A i xs ys w : (i < DESC_CNT)%nat → ys ⊆ xs → ¬ fine D A i xs w →
  ∀ n, n ∈ list_nodes (free_list_of (desc_i D i)) ys → w ≠ prev_of n ∧ w ≠ next_of n.
Proof.
  intros Hi Hsub Hf n Hn. destruct (bsize_facts i Hi) as (Hbs & _). unfold prev_of, next_of.
  unfold list_nodes, head_of, tail_of in Hn. apply elem_of_cons in Hn as [->|Hn].
  - split; intros ->; apply Hf; left; lia.
  - apply elem_of_app in Hn as [Hn|Hn].
    + split; intros ->; apply Hf; right; left; exists n; (split; [by apply Hsub|lia]).
    + apply list_elem_of_singleton in Hn as ->. split; intros ->; apply Hf; left; lia.
Qed.

(** A block that is allocated and not among [xs] is left alone. *)
Lemma fine_allocated D p m A i xs b s w :
  heap_core D p m A → (i < DESC_CNT)%nat → (∀ x, x ∈ xs → is_block A i x) →
  allocated A b s → b ∉ xs → b ≤ w < b + s → ¬ fine D A i xs w.
Proof.
  intros Hc Hi Hxs Hal Hnin Hw Hf. destruct Hal as [(j & Hj & Hb & _ & ->)|(a & n & Ha & -> & ->)].
  - destruct (decide (i = j)) as [<-|Hne].
    + destruct (block_page D p m A i b Hc Hi Hb) as (a & Ha & H1 & H2 & H3 & H4 & H5 & _).
      destruct Hf as [Hf|[(x & Hx & Hf)|(a' & Ha' & ->)]].
      * destruct (desc_area D p m A i Hc Hi) as (A1 & A2 & A3 & A4). unfold free_list_of in Hf. lia.
      * destruct (blocks_disjoint D p m A i i b x) as [|]; auto; [|lia|lia]. intros ->. done.
      * destruct (hc_arena _ _ _ _ Hc a' _ Ha') as (H1' & _). unfold cnt_of in Hw. zdm.
    + by apply (touched_block D p m A i j b w Hc Hi Hj Hne Hb Hw), (fine_touched _ _ _ xs).
  - apply (touched_arena D p m A i a (Large n) w Hc Hi Ha); [simpl; lia|done|by apply (fine_touched _ _ _ xs)].
Qed.

(** The nodes of a free list are no header words. *)
Lemma nodes_off_header D p m A i ys a k n w :
  heap_core D p m A → (i < DESC_CNT)%nat → (∀ y, y ∈ ys → is_block A i y) → arenas A !! a = Some k →
  n ∈ list_nodes (free_list_of (desc_i D i)) ys → a ≤ w < a + 12 → w ≠ prev_of n ∧ w ≠ next_of n.
Proof.
  intros Hc Hi Hys Ha Hn Hw. destruct (hc_arena _ _ _ _ Hc a _ Ha) as (H1 & H2 & H3 & H4 & _).
  destruct (desc_area D p _ A i Hc Hi) as (A1 & A2 & A3 & A4). unfold prev_of, next_of.
  unfold list_nodes, head_of, tail_of, free_list_of in Hn.
  apply elem_of_cons in Hn as [->|Hn]; [lia|]. apply elem_of_app in Hn as [Hn|Hn].
  - destruct (block_page D p _ A i n Hc Hi (Hys n Hn)) as (a' & Ha' & Q1 & Q2 & Q3 & Q4 & Q5 & _).
    destruct (bsize_facts i Hi) as (? & _). zdm.
  - apply list_elem_of_singleton in Hn as ->. lia.
Qed.

(** The nodes of the rest of the list are not in the block [x]. *)
Lemma nodes_off_block D p m A i ys x n :
  heap_core D p m A → (i < DESC_CNT)%nat → (∀ y, y ∈ ys → is_block A i y) → is_block A i x → x ∉ ys →
  n ∈ list_nodes (free_list_of (desc_i D i)) ys → ¬ (x - 8 < n < x + bsize i).
Proof.
  intros Hc Hi Hys Hx Hnin Hn Hr. destruct (desc_area D p _ A i Hc Hi) as (A1 & A2 & A3 & A4).
  destruct (block_page D p _ A i x Hc Hi Hx) as (a & Ha & P1 & P2 & P3 & P4 & P5 & _).
  destruct (bsize_facts i Hi) as (? & _). unfold list_nodes, head_of, tail_of, free_list_of in Hn.
  apply elem_of_cons in Hn as [->|Hn]; [lia|]. apply elem_of_app in Hn as [Hn|Hn].
  - destruct (blocks_disjoint D p m A i i n x) as [|]; auto; [|lia|lia]. intros ->. done.
  - apply list_elem_of_singleton in Hn as ->. lia.
Qed.

Lemma allocated_not_free D p m A i b s :
  heap_core D p m A → (i < DESC_CNT)%nat → allocated A b s → b ∉ frees A i.
Proof.
  intros Hc Hi Hal Hin. pose proof (hc_free _ _ _ _ Hc i b Hi Hin) as Hb.
  destruct (bsize_facts i Hi) as (Hbs & _).
  assert (Ht : touched D A i b) by (right; left; exists b; split; [done|lia]). revert Ht.
  destruct Hal as [(j & Hj & Hb' & Hnf & ->)|(a' & n & Ha' & -> & ->)].
  - destruct (decide (j = i)) as [->|Hne]; [done|]. destruct (bsize_facts j Hj) as (? & _).
    apply (touched_block D p m A i j b b); done || lia.
  - destruct (hc_arena _ _ _ _ Hc a' _ Ha') as (_ & _ & _ & ? & _).
    apply (touched_arena D p m A i a' (Large n)); [done|done|done|simpl in *; lia|done].
Qed.

Lemma in_arena_cons a x xs :
  zlen (in_arena a (x :: xs)) = (if decide (a ≤ x < a + 4096) then 1 else 0) + zlen (in_arena a xs).
Proof. unfold in_arena. rewrite filter_cons. case_decide; [rewrite zlen_cons; lia|done]. Qed.

(** The counters are right, whether or not an arena has an allocated block. *)
Definition counts_eq (m : mem) A : Prop :=
  ∀ a i, arenas A !! a = Some (Small i) → m !! cnt_of a = Some (zlen (in_arena a (frees A i))).

Lemma zero_words_dom n a m :
  (∀ j, 0 ≤ j < Z.of_nat n → is_Some (m !! (a + 4 * j))) → dom (zero_words n a m) = dom m.
Proof.
  intros Hm. apply set_eq. intros w. rewrite !elem_of_dom, zero_words_lookup.
  case_decide as E; [|done]. split; [intros _|intros _; by eexists]. destruct E as [E1 E2].
  replace w with (a + 4 * ((w - a) / 4)) by zdm. apply Hm. zdm.
Qed.

(** The words of a block are mapped. *)
Lemma block_mapped D p m A i x :
  heap_core D p m A → (i < DESC_CNT)%nat → is_block A i x →
  ∀ j, 0 ≤ j < bsize i / 4 → is_Some (m !! (x + 4 * j)).
Proof.
  intros Hc Hi Hx j Hj. destruct (block_page D p _ A i x Hc Hi Hx) as (a & Ha & P1 & P2 & P3 & P4 & P5 & P6).
  destruct (hc_arena _ _ _ _ Hc a _ Ha) as (_ & _ & _ & _ & _ & Hmap & _). simpl in Hmap.
  replace (x + 4 * j) with (a + 4 * ((x - a) / 4 + j)) by zdm. apply Hmap. zdm.
Qed.

Lemma block_arena D p m A i x :
  heap_core D p m A → ps_inv p ∨ ps_held p → (i < DESC_CNT)%nat → is_block A i x →
  arenas A !! block2arena x = Some (Small i) ∧ block2arena x + 12 ≤ x ∧ x + bsize i ≤ block2arena x + 4096.
Proof.
  intros Hc Hp Hi (a & j & Ha & Hj & ->). destruct (hc_arena _ _ _ _ Hc a _ Ha) as (Q1 & Q2 & Q3 & _).
  destruct (ps_bounds p Hp) as (B1 & B2 & _). simpl in Q3. rewrite block2arena_blk by (done || lia).
  destruct (blk_facts a i j Hi Q1 Hj) as (? & ? & _). done.
Qed.

(** The memory after a block was taken: [m1] after [list_remove]. *)
Definition taken_mem (m1 : mem) (x a : Z) (i : nat) (c : Z) : mem :=
  <[cnt_of a := c]> (zero_words (Z.to_nat (bsize i / 4)) x m1).

Lemma taken_mem_other m1 x a i c w :
  (i < DESC_CNT)%nat → w ≠ cnt_of a → ¬ (x ≤ w < x + bsize i) → taken_mem m1 x a i c !! w = m1 !! w.
Proof.
  intros Hi H1 H2. destruct (bsize_facts i Hi) as (? & ? & _). unfold taken_mem.
  rewrite lookup_insert_ne, zero_words_lookup, decide_False; [done| |done]. intros [? _]. zdm.
Qed.

(** The core after a block was taken. *)
Lemma take_core D p k k1 A i x xs c :
  heap_core D p (words k) A → ps_inv p ∨ ps_held p → (i < DESC_CNT)%nat → frees A i = x :: xs →
  is_Some (words k !! cnt_of (block2arena x)) → is_list (words k1) (free_list_of (desc_i D i)) xs →
  same_outside (list_nodes (free_list_of (desc_i D i)) xs) (words k) (words k1) →
  let m3 := taken_mem (words k1) x (block2arena x) i c in
  heap_core D p m3 (AHeap (arenas A) (<[i := xs]> (frees A))) ∧
  ∀ w, ¬ fine D A i (frees A i) w → m3 !! w = words k !! w.
Proof.
  intros Hc Hp Hi Hfr Hcn Hl1 [Hdom1 Hsame1] m3.
  assert (Hfb : ∀ y, y ∈ frees A i → is_block A i y) by (intros y; apply (hc_free _ _ _ _ Hc i y Hi)).
  assert (Hx : is_block A i x) by (apply Hfb; rewrite Hfr; set_solver).
  assert (Hxs : ∀ y, y ∈ xs → is_block A i y) by (intros y Hy; apply Hfb; rewrite Hfr; set_solver).
  assert (Hnin : x ∉ xs).
  { destruct (hc_desc _ _ _ _ Hc i Hi) as (_ & _ & D3). apply is_list_nodup in D3. rewrite Hfr in D3.
    by apply NoDup_cons in D3 as [? _]. }
  destruct (block_arena D p _ A i x Hc Hp Hi Hx) as (Ha & P4 & P5). set (a := block2arena x) in *.
  assert (Hf3 : ∀ w, ¬ fine D A i (frees A i) w → m3 !! w = words k !! w).
  { intros w Hw. unfold m3. rewrite taken_mem_other; [|done| |].
    - apply Hsame1. intros n Hn. eapply fine_nodes; [done| |exact Hw|exact Hn]. rewrite Hfr. set_solver.
    - intros ->. apply Hw. right; right. eauto.
    - intros Hr. apply Hw. right; left. exists x. split; [rewrite Hfr; set_solver|done]. }
  split; [|done]. apply (core_change D p (words k) A i xs m3 Hc Hi).
  - unfold m3, taken_mem. destruct (bsize_facts i Hi) as (? & ? & _). rewrite dom_insert_mapped.
    + rewrite zero_words_dom; [done|]. intros j Hj. apply elem_of_dom. rewrite Hdom1. apply elem_of_dom.
      apply (block_mapped D p (words k) A i x Hc Hi Hx). zdm.
    + rewrite zero_words_lookup. case_decide; [by eexists|]. apply elem_of_dom. rewrite Hdom1. by apply elem_of_dom.
  - intros w Hw. apply Hf3. intros Hf. by apply Hw, (fine_touched _ _ _ (frees A i)).
  - eapply is_list_frame; [exact Hl1|]. intros n Hn.
    pose proof (nodes_off_block D p _ A i xs x n Hc Hi Hxs Hx Hnin Hn) as Hr.
    destruct (nodes_off_header D p _ A i xs a (Small i) n (cnt_of a) Hc Hi Hxs Ha Hn) as [? ?]; [unfold cnt_of; lia|].
    unfold m3. rewrite !taken_mem_other; try done; unfold prev_of, next_of in *; lia.
  - done.
Qed.

Lemma take_free_ok D p k A i x xs :
  heap_core D p (words k) A → ps_inv p ∨ ps_held p → counts_eq (words k) A → (i < DESC_CNT)%nat →
  frees A i = x :: xs → (∀ a, arenas A !! a = Some (Small i) → zlen (in_arena a (frees A i)) ≤ 255) →
  ∃ k', take_free (desc_i D i) k = Ok (x, k') ∧
    heap_core D p (words k') (AHeap (arenas A) (<[i := xs]> (frees A))) ∧
    counts_eq (words k') (AHeap (arenas A) (<[i := xs]> (frees A))) ∧
    (∀ w, x ≤ w < x + bsize i → w mod 4 = 0 → words k' !! w = Some 0) ∧
    (∀ b s w, allocated A b s → b ≤ w < b + s → words k' !! w = words k !! w).
Proof.
  intros Hc Hp Hcnt Hi Hfr Hsmall. destruct (hc_desc _ _ _ _ Hc i Hi) as (D1 & D2 & D3). rewrite Hfr in D3.
  destruct (list_remove_ok k _ [] x xs D3) as (k1 & Hrm & Hl1 & _ & Hout1). cbn [app] in *.
  assert (Hfb : ∀ y, y ∈ frees A i → is_block A i y) by (intros y; apply (hc_free _ _ _ _ Hc i y Hi)).
  assert (Hx : is_block A i x) by (apply Hfb; rewrite Hfr; set_solver).
  assert (Hxs : ∀ y, y ∈ xs → is_block A i y) by (intros y Hy; apply Hfb; rewrite Hfr; set_solver).
  destruct (block_arena D p _ A i x Hc Hp Hi Hx) as (Ha & P4 & P5).
  destruct (block_page D p _ A i x Hc Hi Hx) as (_ & _ & _ & _ & _ & _ & _ & P6).
  destruct (hc_arena _ _ _ _ Hc _ _ Ha) as (Q1 & Q2 & Q3 & _). simpl in Q3.
  destruct (ps_bounds p Hp) as (B1 & B2 & _). destruct (bsize_facts i Hi) as (S1 & S2 & S3 & S4).
  set (a := block2arena x) in *. pose proof (Hcnt a i Ha) as Hcn. set (c := zlen (in_arena a (frees A i))) in *.
  assert (Hk1 : ∀ b j w, arenas A !! b = Some (Small j) → b ≤ w < b + 12 → words k1 !! w = words k !! w).
  { intros b j w Hb Hw. apply Hout1. intros n Hn. by eapply nodes_off_header. }
  destruct (take_core D p k k1 A i x xs (c - 1) Hc Hp Hi Hfr) as [Hcore Hf3]; [fold a; by eexists|done|done|].
  fold a in Hcore, Hf3. set (m3 := taken_mem (words k1) x a i (c - 1)) in *.
  assert (Hc1 : c = 1 + zlen (in_arena a xs)).
  { unfold c. rewrite Hfr, in_arena_cons, decide_True by lia. done. }
  pose proof (zlen_nonneg (in_arena a xs)). pose proof (Hsmall a Ha) as Hca. fold c in Hca.
  exists (KMach m3 (kcpu k1)). split; [|split; [exact Hcore|cbn [words]; split_and!]].
  - assert (Hbs1 : words k1 !! block_size_of (desc_i D i) = Some (bsize i)).
    { rewrite <- D1. apply Hout1. intros n Hn. destruct (desc_area D p _ A i Hc Hi) as (A1 & A2 & A3 & A4).
      eapply (fine_nodes D A i xs xs); [done|done| |exact Hn]. intros Hf.
      apply (fine_touched _ _ _ _ _ Hxs) in Hf. revert Hf.
      apply (touched_desc D p (words k) A i i); try done; unfold block_size_of; lia. }
    assert (Hclr : clear (Z.to_nat (bsize i / 4)) x (words k1) = Ok (zero_words (Z.to_nat (bsize i / 4)) x (words k1))).
    { apply clear_ok; [lia|zdm|]. intros j Hj. apply elem_of_dom. destruct Hout1 as [-> _]. apply elem_of_dom.
      apply (block_mapped D p (words k) A i x Hc Hi Hx). zdm. }
    unfold take_free, list_pop. rewrite (ld_ok _ _ _ (is_list_head _ _ _ D3)).
    cbn [mbind outcome_bind node_before]. mrun Hrm. mrun (ld_ok _ _ _ Hbs1). mrun Hclr. fold a.
    assert (Hc2 : zero_words (Z.to_nat (bsize i / 4)) x (words k1) !! cnt_of a = Some c).
    { rewrite zero_words_lookup, decide_False by (unfold cnt_of; lia). rewrite (Hk1 a i); [done|done|unfold cnt_of; lia]. }
    mrun (ld_ok _ _ _ Hc2). rewrite u32_small by lia. rewrite st_ok by (rewrite Hc2; by eexists). done.
  - intros a' j Ha'. cbn [arenas frees] in *. destruct (decide (a' = a)) as [->|Hne].
    + rewrite Ha in Ha'. injection Ha' as <-. unfold m3, taken_mem.
      rewrite lookup_insert_eq, fn_lookup_insert. f_equal. lia.
    + destruct (hc_arena _ _ _ _ Hc a' _ Ha') as (R1 & R2 & R3 & _). simpl in R3.
      unfold m3. rewrite taken_mem_other by (done || (unfold cnt_of; zdm)).
      rewrite (Hk1 a' j), (Hcnt a' j Ha') by (done || (unfold cnt_of; lia)).
      destruct (decide (j = i)) as [->|Hji]; [|by rewrite fn_lookup_insert_ne].
      rewrite fn_lookup_insert, Hfr, in_arena_cons, decide_False; [done|zdm].
  - intros w Hw H4. unfold m3, taken_mem. rewrite lookup_insert_ne by (unfold cnt_of; lia).
    rewrite zero_words_lookup, decide_True; [done|]. split; zdm.
  - intros b s w Hal Hw. apply Hf3. eapply (fine_allocated D p (words k) A i _ b s); try done.
    by eapply allocated_not_free.
Qed.
End Blocks.

(** ** Lemmas: a new arena *)

Section Grow.
Context {P : Type} {PS : PageSource P} {PL : PageSourceLaws P}.
Implicit Types (p : P) (A : aheap).

(** [A'] is [A] with the free list [i] replaced. *)
Definition with_free (A : aheap) (i : nat) (xs : list Z) (A' : aheap) : Prop :=
  arenas A' = arenas A ∧ frees A' i = xs ∧ ∀ j, j ≠ i → frees A' j = frees A j.

Lemma is_block_arenas A A' i x : arenas A' = arenas A → is_block A' i x ↔ is_block A i x.
Proof. intros E. unfold is_block. by rewrite E. Qed.

Lemma with_free_insert A i xs : with_free A i xs (AHeap (arenas A) (<[i := xs]> (frees A))).
Proof. split_and!; [done|apply fn_lookup_insert|]. intros j Hj. by apply fn_lookup_insert_ne. Qed.

Lemma append_core D p k A i b :
  heap_core D p (words k) A → (i < DESC_CNT)%nat → is_block A i b → b ∉ frees A i →
  ∃ k' A', list_append k (free_list_of (desc_i D i)) b = Ok k' ∧ with_free A i (frees A i ++ [b]) A' ∧
    heap_core D p (words k') A' ∧
    (∀ w, ¬ fine D A i (b :: frees A i) w → words k' !! w = words k !! w) ∧
    (∀ a l w, arenas A !! a = Some l → a ≤ w < a + 12 → words k' !! w = words k !! w).
Proof.
  intros Hc Hi Hb Hnin. destruct (hc_desc _ _ _ _ Hc i Hi) as (_ & _ & D3).
  set (L := free_list_of (desc_i D i)) in *.
  assert (Hfb : ∀ y, y ∈ frees A i → is_block A i y) by (intros y; apply (hc_free _ _ _ _ Hc i y Hi)).
  assert (Hbb : ∀ y, y ∈ b :: frees A i → is_block A i y) by (intros y [->|Hy]%elem_of_cons; auto).
  destruct (bsize_facts i Hi) as (S1 & S2 & _).
  destruct (list_insert_before_ok k L (frees A i) [] b) as (k' & Hk & Hl & _ & Hdom & Hsame).
  { by rewrite app_nil_r. }
  { pose proof (block_mapped D p _ A i b Hc Hi Hb) as Hm. split.
    - replace (prev_of b) with (b + 4 * 0) by (unfold prev_of; lia). apply Hm. zdm.
    - replace (next_of b) with (b + 4 * 1) by (unfold next_of; lia). apply Hm. zdm. }
  { rewrite app_nil_r. destruct D3 as (_ & Hap & _). split; [|done]. apply Forall_forall. intros n Hn.
    pose proof (nodes_off_block D p _ A i (frees A i) b n Hc Hi Hfb Hb Hnin Hn). unfold apart. lia. }
  rewrite app_nil_r in Hsame. exists k', (AHeap (arenas A) (<[i := frees A i ++ [b]]> (frees A))).
  assert (Hf : ∀ w, ¬ fine D A i (b :: frees A i) w → words k' !! w = words k !! w).
  { intros w Hw. apply Hsame. intros n [->|Hn]%elem_of_cons.
    - unfold prev_of, next_of. split; intros ->; apply Hw; right; left; exists b; (split; [set_solver|lia]).
    - eapply fine_nodes; [done| |exact Hw|exact Hn]. set_solver. }
  split; [exact Hk|]. split; [apply with_free_insert|]. split_and!; [|done|].
  - apply (core_change D p (words k) A i _ (words k') Hc Hi Hdom).
    + intros w Hw. apply Hf. intros Hfi. by apply Hw, (fine_touched _ _ _ (b :: frees A i)).
    + done.
    + intros y [Hy|Hy%list_elem_of_singleton]%elem_of_app; [auto|by subst].
  - intros a l w Ha Hw. apply Hsame. intros n [->|Hn]%elem_of_cons.
    + destruct (block_page D p _ A i b Hc Hi Hb) as (a' & Ha' & Q1 & Q2 & Q3 & Q4 & Q5 & _).
      destruct (hc_arena _ _ _ _ Hc a _ Ha) as (H1 & _). unfold prev_of, next_of. zdm.
    + by apply (nodes_off_header D p (words k) A i (frees A i) a l n w).
Qed.

(** Two runs of pages overlap only in a common page. *)
Lemma runs_disjoint a b n m :
  a mod 4096 = 0 → b mod 4096 = 0 → 1 ≤ n → 1 ≤ m →
  (∀ j l, 0 ≤ j < n → 0 ≤ l < m → a + j * 4096 ≠ b + l * 4096) → a + n * 4096 ≤ b ∨ b + m * 4096 ≤ a.
Proof.
  intros Ha Hb Hn Hm Hd.
  destruct (decide (a + n * 4096 ≤ b)); [by left|]. destruct (decide (b + m * 4096 ≤ a)); [by right|].
  exfalso. destruct (decide (a ≤ b)) as [Hle|Hle].
  - apply (Hd ((b - a) / 4096) 0); zdm.
  - apply (Hd 0 ((a - b) / 4096)); zdm.
Qed.

Lemma core_add D p p' m m' A a k :
  heap_core D p m A → ps_lo p' = ps_lo p → ps_hi p' = ps_hi p → (∀ q, ps_live p q → ps_live p' q) →
  a mod 4096 = 0 → ps_lo p ≤ a → a + npages k * 4096 ≤ ps_hi p → 1 ≤ npages k →
  (∀ j, 0 ≤ j < npages k → ¬ ps_live p (a + j * 4096) ∧ ps_live p' (a + j * 4096)) →
  (∀ w, ¬ (a ≤ w < a + npages k * 4096) → m' !! w = m !! w) → header_ok D m' a k →
  page_mapped m' a (npages k) →
  heap_core D p' m' (AHeap (<[a := k]> (arenas A)) (frees A)) ∧ arenas A !! a = None ∧
  ∀ b l, arenas A !! b = Some l → b + npages l * 4096 ≤ a ∨ a + npages k * 4096 ≤ b.
Proof.
  intros Hc Elo Ehi Hlive Ha Hlo Hhi Hn Hpg Hsame Hhd Hmap.
  assert (Hnone : arenas A !! a = None).
  { destruct (arenas A !! a) as [l|] eqn:E; [|done].
    destruct (hc_arena _ _ _ _ Hc a l E) as (_ & _ & _ & H4 & _ & _ & H7).
    destruct (Hpg 0) as [Hnl _]; [lia|]. destruct Hnl. apply H7. lia. }
  assert (Hdisj : ∀ b l, arenas A !! b = Some l → b + npages l * 4096 ≤ a ∨ a + npages k * 4096 ≤ b).
  { intros b l Hb. destruct (hc_arena _ _ _ _ Hc b l Hb) as (H1 & _ & _ & H4 & _ & _ & H7).
    apply runs_disjoint; try done. intros j q Hj Hq Heq. destruct (Hpg q Hq) as [Hnl _].
    apply Hnl. rewrite <- Heq. by apply H7. }
  assert (Hold : ∀ b l w, arenas A !! b = Some l → b ≤ w < b + npages l * 4096 → m' !! w = m !! w).
  { intros b l w Hb Hw. apply Hsame. destruct (Hdisj b l Hb); lia. }
  split_and!; [|done|done]. split; cbn [arenas frees]; rewrite ?Elo, ?Ehi.
  - apply (hc_area _ _ _ _ Hc).
  - intros i Hi. destruct (hc_desc _ _ _ _ Hc i Hi) as (H1 & H2 & H3).
    destruct (desc_area D p m A i Hc Hi) as (A1 & A2 & A3 & A4).
    rewrite !Hsame by (unfold block_size_of, blocks_per_arena_of; lia). split_and!; [done|done|].
    eapply is_list_frame; [done|]. intros n Hin. unfold prev_of, next_of.
    unfold list_nodes, head_of, tail_of, free_list_of in Hin.
    apply elem_of_cons in Hin as [->|Hin]; [split; apply Hsame; lia|].
    apply elem_of_app in Hin as [Hin|Hin].
    + destruct (block_page D p m A i n Hc Hi (hc_free _ _ _ _ Hc i n Hi Hin))
        as (b & Hb & Q1 & Q2 & Q3 & Q4 & Q5 & _). destruct (bsize_facts i Hi) as (? & _).
      split; eapply Hold; try done; simpl; lia.
    + apply list_elem_of_singleton in Hin as ->. split; apply Hsame; lia.
  - intros b l Hb. destruct (decide (b = a)) as [->|Hne].
    + rewrite lookup_insert_eq in Hb. injection Hb as <-. split_and!; try done. intros j Hj. by apply Hpg.
    + rewrite lookup_insert_ne in Hb by done. destruct (hc_arena _ _ _ _ Hc b l Hb) as (H1 & H2 & H3 & H4 & H5 & H6 & H7).
      split_and!; try done; [| |auto].
      * destruct l as [i|n]; simpl in *; rewrite !(Hold b _ _ Hb) by (unfold desc_of, cnt_of, large_of; simpl; lia); done.
      * intros j Hj. rewrite (Hold b l) by (done || lia). by apply H6.
  - intros b c l q Hb Hcc Hne. destruct (decide (b = a)) as [->|Hba], (decide (c = a)) as [->|Hca]; try done.
    + rewrite lookup_insert_eq in Hb. injection Hb as <-. rewrite lookup_insert_ne in Hcc by done.
      destruct (Hdisj c q Hcc); lia.
    + rewrite lookup_insert_eq in Hcc. injection Hcc as <-. rewrite lookup_insert_ne in Hb by done.
      destruct (Hdisj b l Hb); lia.
    + rewrite lookup_insert_ne in Hb, Hcc by done. by apply (hc_apart _ _ _ _ Hc).
  - intros i x Hi Hx. destruct (hc_free _ _ _ _ Hc i x Hi Hx) as (b & j & Hb & Hj & ->).
    exists b, j. split; [|done]. cbn [arenas]. rewrite lookup_insert_ne; [done|]. intros ->. congruence.
Qed.

(** The blocks [j .. j + n - 1] of an arena. *)
Definition blks (a : Z) (i : nat) (j : Z) (n : nat) : list Z := (λ q, blk a i q) <$> seqZ j (Z.of_nat n).

Lemma blks_S a i j n : blks a i j (S n) = blk a i j :: blks a i (j + 1) n.
Proof. unfold blks. rewrite seqZ_cons by lia. cbn [fmap list_fmap]. do 3 f_equal; lia. Qed.

Lemma elem_of_blks a i j n x : x ∈ blks a i j n ↔ ∃ q, x = blk a i q ∧ j ≤ q < j + Z.of_nat n.
Proof. unfold blks. rewrite list_elem_of_fmap. by setoid_rewrite elem_of_seqZ. Qed.

Lemma blk_inj a i q q' : (i < DESC_CNT)%nat → blk a i q = blk a i q' → q = q'.
Proof. intros Hi H. destruct (bsize_facts i Hi) as (? & _). unfold blk in H. nia. Qed.

Lemma fine_mono D A A' i xs ys w : arenas A' = arenas A → xs ⊆ ys → fine D A' i xs w → fine D A i ys w.
Proof.
  intros E Hs [H|[(x & Hx & H)|(a & Ha & H)]]; [by left|right; left; eauto|].
  rewrite E in Ha. right; right; eauto.
Qed.

Lemma arena2block_ok D p k A i a q :
  heap_core D p (words k) A → ps_inv p ∨ ps_held p → (i < DESC_CNT)%nat → arenas A !! a = Some (Small i) →
  0 ≤ q < bpa i → arena2block a q k = Ok (blk a i q).
Proof.
  intros Hc Hp Hi Ha Hq. destruct (hc_arena _ _ _ _ Hc a _ Ha) as (Q1 & Q2 & Q3 & _ & [_ Hd] & _). simpl in Q3.
  destruct (hc_desc _ _ _ _ Hc i Hi) as (D1 & _). destruct (ps_bounds p Hp) as (B1 & B2 & _).
  destruct (blk_facts a i q Hi Q1 Hq) as (? & ? & _). destruct (bsize_facts i Hi) as (? & _).
  unfold arena2block. mrun (ld_ok _ _ _ Hd). mrun (ld_ok _ _ _ D1). f_equal. unfold blk in *. 
  apply u32_small. unfold sizeof_arena. lia.
Qed.

Lemma carve_ok D p n : ∀ k A i a j,
  heap_core D p (words k) A → ps_inv p ∨ ps_held p → (i < DESC_CNT)%nat → arenas A !! a = Some (Small i) →
  0 ≤ j → j + Z.of_nat n ≤ bpa i → (∀ q, j ≤ q < j + Z.of_nat n → blk a i q ∉ frees A i) →
  ∃ k' A', carve n a j k = Ok k' ∧ with_free A i (frees A i ++ blks a i j n) A' ∧
    heap_core D p (words k') A' ∧
    (∀ w, ¬ fine D A i (frees A i ++ blks a i j n) w → words k' !! w = words k !! w) ∧
    (∀ b l w, arenas A !! b = Some l → b ≤ w < b + 12 → words k' !! w = words k !! w).
Proof.
  induction n as [|n IH]; intros k A i a j Hc Hp Hi Ha Hj Hn Hnin.
  - exists k, A. split_and!; try done. split_and!; try done. unfold blks. simpl. by rewrite app_nil_r.
  - cbn [carve]. mrun (arena2block_ok D p k A i a j Hc Hp Hi Ha ltac:(lia)).
    destruct (hc_arena _ _ _ _ Hc a _ Ha) as (_ & _ & _ & _ & [_ Hd] & _). mrun (ld_ok _ _ _ Hd).
    assert (Hb : is_block A i (blk a i j)) by (exists a, j; split_and!; done || lia).
    destruct (append_core D p k A i (blk a i j) Hc Hi Hb) as (k1 & A1 & Hk1 & (E1 & E2 & E3) & Hc1 & Hf1 & Hh1);
      [apply Hnin; lia|].
    mrun Hk1. destruct (IH k1 A1 i a (j + 1)) as (k2 & A2 & Hk2 & (G1 & G2 & G3) & Hc2 & Hf2 & Hh2);
      try done; [by rewrite E1|lia|lia| |].
    { intros q Hq. rewrite E2. intros [Hin|Hin%list_elem_of_singleton]%elem_of_app; [by apply (Hnin q); [lia|]|].
      apply blk_inj in Hin; [lia|done]. }
    exists k2, A2. split; [done|]. rewrite blks_S. rewrite E2, <- app_assoc in G2. cbn [app] in G2. split_and!.
    + split_and!; [congruence|done|]. intros q Hq. rewrite G3, E3 by done. done.
    + done.
    + intros w Hw. rewrite Hf2, Hf1; [done| |].
      * intros Hf. apply Hw. revert Hf. apply fine_mono; [done|set_solver].
      * intros Hf. apply Hw. revert Hf. apply fine_mono; [done|]. rewrite E2. set_solver.
    + intros b l w Hb' Hw. rewrite (Hh2 b l), (Hh1 b l); try done. by rewrite E1.
Qed.
End Grow.

(** ** Allocating *)

Section Malloc.
Context {P : Type} {PS : PageSource P} {PL : PageSourceLaws P}.
Implicit Types (p : P) (A : aheap) (h : heap P).

Lemma core_pages D p p' m A :
  heap_core D p m A → ps_lo p' = ps_lo p → ps_hi p' = ps_hi p → (∀ q, ps_live p q → ps_live p' q) →
  heap_core D p' m A.
Proof.
  intros Hc Elo Ehi Hl. split; rewrite ?Elo, ?Ehi; try apply Hc. intros a k Ha.
  destruct (hc_arena _ _ _ _ Hc a k Ha) as (? & ? & ? & ? & ? & ? & H7). split_and!; auto.
Qed.

Lemma stk_ok k a v : is_Some (words k !! a) → stk k a v = Ok (KMach (<[a := v]> (words k)) (kcpu k)).
Proof. intros H. unfold stk. by mrun (st_ok _ _ v H). Qed.

(** The words of a new arena with its header. *)
Definition arena_words (m : mem) (n : nat) (a d c l : Z) : mem :=
  <[cnt_of a := c]> (<[large_of a := l]> (<[desc_of a := d]> (zero_words n a m))).

Lemma arena_words_lookup m n a d c l w :
  (3 ≤ n)%nat → arena_words m n a d c l !! w =
    if decide (w = a) then Some d else if decide (w = a + 4) then Some c else if decide (w = a + 8) then Some l
    else if decide (a ≤ w < a + 4 * Z.of_nat n ∧ (w - a) mod 4 = 0) then Some 0 else m !! w.
Proof.
  intros Hn. unfold arena_words, cnt_of, large_of, desc_of.
  repeat case_decide; subst; rewrite ?lookup_insert_eq, ?lookup_insert_ne, ?zero_words_lookup by lia;
    rewrite ?lookup_insert_eq, ?lookup_insert_ne, ?zero_words_lookup by lia; try done.
  all: rewrite ?lookup_insert_eq, ?lookup_insert_ne, ?zero_words_lookup by lia; try done.
  all: by rewrite ?(decide_True (P := _ ∧ _)), ?(decide_False (P := _ ∧ _)) by done.
Qed.

Lemma arena_words_mapped m n a d c l : (3 ≤ n)%nat → page_mapped (arena_words m n a d c l) a (Z.of_nat n / 1024).
Proof.
  intros Hn j Hj. rewrite arena_words_lookup by done. repeat case_decide; try by eexists. exfalso. zdm.
Qed.

Lemma filter_all {B} (Q : B → Prop) `{!∀ x, Decision (Q x)} (l : list B) : Forall Q l → filter Q l = l.
Proof. induction 1 as [|x l Hx _ IH]; [done|]. by rewrite filter_cons_True, IH. Qed.

Lemma filter_none {B} (Q : B → Prop) `{!∀ x, Decision (Q x)} (l : list B) : Forall (λ x, ¬ Q x) l → filter Q l = [].
Proof. induction 1 as [|x l Hx _ IH]; [done|]. by rewrite filter_cons_False. Qed.

Lemma in_arena_blks a a' i n :
  (i < DESC_CNT)%nat → a mod 4096 = 0 → a' mod 4096 = 0 → Z.of_nat n ≤ bpa i →
  zlen (in_arena a' (blks a i 0 n)) = if decide (a' = a) then Z.of_nat n else 0.
Proof.
  intros Hi Ha Ha' Hn. assert (Hall : ∀ x, x ∈ blks a i 0 n → a ≤ x < a + 4096).
  { intros x (q & -> & Hq)%elem_of_blks. destruct (blk_facts a i q Hi Ha) as (? & ? & _); [lia|].
    destruct (bsize_facts i Hi) as (? & _). lia. }
  unfold in_arena. case_decide as E.
  - subst a'. rewrite filter_all; [|by apply Forall_forall].
    unfold blks, zlen. rewrite length_fmap, length_seqZ. lia.
  - rewrite filter_none; [done|]. apply Forall_forall. intros x Hx. specialize (Hall x Hx). zdm.
Qed.

Lemma alloc_new D p m A A' a i :
  heap_core D p m A' → (i < DESC_CNT)%nat → arenas A' = <[a := Small i]> (arenas A) → arenas A !! a = None →
  frees A i = [] → frees A' i = blks a i 0 (Z.to_nat (bpa i)) → (∀ j, j ≠ i → frees A' j = frees A j) →
  ∀ b s, allocated A' b s ↔ allocated A b s.
Proof.
  intros Hc Hi Ea Hnone E0 Ei Ej b s. destruct (bsize_facts i Hi) as (_ & _ & S3 & _).
  assert (Ha : arenas A' !! a = Some (Small i)) by (rewrite Ea; apply lookup_insert_eq).
  assert (Hold : ∀ a' k, arenas A !! a' = Some k → arenas A' !! a' = Some k ∧ a' ≠ a).
  { intros a' k H. assert (a' ≠ a) by congruence. split; [rewrite Ea, lookup_insert_ne by done; done|done]. }
  split; (intros [(j & Hj & (a' & q & Ha' & Hq & Hb) & Hnf & Hs)|(a' & n & Ha' & Hb & Hs)]; [left; exists j|right; exists a', n]).
  - destruct (decide (a' = a)) as [->|Hne].
    + rewrite Ha in Ha'. injection Ha' as <-. destruct Hnf. rewrite Ei. apply elem_of_blks. exists q. split; [done|lia].
    + rewrite Ea, lookup_insert_ne in Ha' by done. split_and!; [done|by exists a', q| |done].
      destruct (decide (j = i)) as [->|Hji]; [rewrite E0; set_solver|]. by rewrite <- Ej.
  - rewrite Ea, lookup_insert_ne in Ha' by congruence. done.
  - destruct (Hold _ _ Ha') as [Ha2 Hne]. split_and!; [done|by exists a', q| |done].
    destruct (decide (j = i)) as [->|Hji]; [|by rewrite Ej]. rewrite Ei. intros (q' & Hq' & Hr)%elem_of_blks.
    destruct (hc_arena _ _ _ _ Hc a _ Ha) as (R1 & _), (hc_arena _ _ _ _ Hc a' _ Ha2) as (R2 & _).
    destruct (blk_facts a i q' Hi R1 ltac:(lia)) as (? & ? & _), (blk_facts a' i q Hi R2 Hq) as (? & ? & _).
    destruct (bsize_facts i Hi) as (? & _). zdm.
  - by destruct (Hold _ _ Ha') as [Ha2 Hne].
Qed.

(** An allocated block lies in one arena. *)
Lemma allocated_arena D p m A b s :
  heap_core D p m A → allocated A b s →
  ∃ a k, arenas A !! a = Some k ∧ a + 12 ≤ b ∧ b + s ≤ a + npages k * 4096 ∧ 0 < s.
Proof.
  intros Hc [(i & Hi & Hb & _ & ->)|(a & n & Ha & -> & ->)].
  - destruct (block_page D p m A i b Hc Hi Hb) as (a & Ha & ? & ? & ? & ? & ? & _).
    destruct (bsize_facts i Hi) as (? & _). exists a, (Small i). simpl. split_and!; done || lia.
  - destruct (hc_arena _ _ _ _ Hc a _ Ha) as (_ & _ & _ & ? & _). simpl in *.
    exists a, (Large n). simpl. split_and!; done || lia.
Qed.

Lemma allocated_insert A a k b s :
  arenas A !! a = None → allocated A b s → allocated (AHeap (<[a := k]> (arenas A)) (frees A)) b s.
Proof.
  intros Hnone [(j & Hj & (a' & q & Ha' & Hq & Hb) & Hnf & Hs)|(a' & n & Ha' & Hb & Hs)].
  - left. exists j. split_and!; try done. exists a', q. cbn [arenas]. rewrite lookup_insert_ne by congruence. done.
  - right. exists a', n. cbn [arenas]. rewrite lookup_insert_ne by congruence. done.
Qed.

Lemma new_arena_run h a p' d n k2 :
  ps_malloc 1 (hpages h) = Ok (a, p') → a ≠ 0 →
  words (hk h) !! blocks_per_arena_of d = Some n → ¬ (a ≤ blocks_per_arena_of d < a + 4096) →
  carve (Z.to_nat n) a 0 (KMach (arena_words (words (hk h)) 1024 a d n 0) (snd (intr_disable (kcpu (hk h))))) = Ok k2 →
  new_arena d h = Ok (Some a, Heap p' (KMach (words k2) (intr_restore (fst (intr_disable (kcpu (hk h)))) (kcpu k2)))).
Proof.
  intros Hm Hne Hd Hout Hk2. unfold new_arena. mrun Hm. rewrite (proj2 (Z.eqb_neq _ _) Hne).
  assert (Hz : ∀ c, c = 0 ∨ c = 4 ∨ c = 8 → is_Some (zero_words 1024 a (words (hk h)) !! (a + c))).
  { intros c Hc. rewrite zero_words_lookup, decide_True by (split; [lia|zdm]). by eexists. }
  assert (Hz0 := Hz 0 ltac:(lia)). rewrite Z.add_0_r in Hz0.
  rewrite stk_ok by done. cbn [mbind outcome_bind words kcpu].
  rewrite stk_ok by (cbn [words]; apply mapped_insert, Hz; lia). cbn [mbind outcome_bind words kcpu].
  assert (Hb : <[large_of a:=0]> (<[desc_of a:=d]> (zero_words 1024 a (words (hk h)))) !! blocks_per_arena_of d = Some n).
  { rewrite !lookup_insert_ne, zero_words_lookup, decide_False; [done|..]; unfold large_of, desc_of; lia. }
  mrun (ld_ok _ _ _ Hb).
  rewrite stk_ok by (cbn [words]; do 2 apply mapped_insert; apply Hz; lia). cbn [mbind outcome_bind words kcpu].
  fold (arena_words (words (hk h)) 1024 a d n 0).
  destruct (intr_disable (kcpu (hk h))) as [old c]. cbn [fst snd] in *.
  assert (Hb' : arena_words (words (hk h)) 1024 a d n 0 !! blocks_per_arena_of d = Some n).
  { unfold arena_words. rewrite lookup_insert_ne; [done|unfold cnt_of; lia]. }
  mrun (ld_ok _ _ _ Hb'). mrun Hk2. reflexivity.
Qed.

Lemma new_arena_ok D h A i :
  heap_core D (hpages h) (words (hk h)) A → ps_held (hpages h) → counts_eq (words (hk h)) A → (i < DESC_CNT)%nat →
  frees A i = [] →
  ∃ r h', new_arena (desc_i D i) h = Ok (r, h') ∧ ps_held (hpages h') ∧
    match r with
    | None => heap_core D (hpages h') (words (hk h')) A ∧ hk h' = hk h ∧ ps_full 1 (hpages h)
    | Some a => ∃ A', arenas A !! a = None ∧ arenas A' = <[a := Small i]> (arenas A) ∧
        frees A' i = blks a i 0 (Z.to_nat (bpa i)) ∧ (∀ j, j ≠ i → frees A' j = frees A j) ∧
        heap_core D (hpages h') (words (hk h')) A' ∧ counts_eq (words (hk h')) A' ∧
        ∀ b s w, allocated A b s → b ≤ w < b + s → words (hk h') !! w = words (hk h) !! w
    end.
Proof.
  intros Hc Hp Hcnt Hi E0. destruct (ps_malloc_ok 1 (hpages h) Hp) as (a & p' & Hm & Hp' & Elo & Ehi & Hlv & Hfull & Hnz); [lia|].
  destruct (decide (a = 0)) as [->|Hne].
  { eexists None, _. split; [unfold new_arena; mrun Hm; done|]. split; [done|].
    split; [by apply (core_pages D (hpages h))|auto]. }
  destruct (Hnz Hne) as (G1 & G2 & G3 & G4). destruct (bsize_facts i Hi) as (S1 & S2 & S3 & S4).
  set (m := words (hk h)) in *. assert (Hm' : ∃ m', arena_words m 1024 a (desc_i D i) (bpa i) 0 = m') by eauto. destruct Hm' as [m' Em'].
  pose proof (λ w, arena_words_lookup m 1024 a (desc_i D i) (bpa i) 0 w ltac:(lia)) as Hl. rewrite Em' in Hl.
  destruct (hc_desc _ _ _ _ Hc i Hi) as (_ & D2 & _). destruct (desc_area D _ m A i Hc Hi) as (A1 & A2 & A3 & A4).
  destruct (core_add D (hpages h) p' m m' A a (Small i)) as (Hc1 & Hnone & Hdisj); cbn [npages]; try done.
  { intros w Hw. rewrite Hl. rewrite !decide_False by lia. done. }
  { split; [done|]. rewrite Hl, decide_True by done. done. }
  { rewrite <- Em'. apply (arena_words_mapped m 1024). lia. }
  set (A1' := AHeap (<[a := Small i]> (arenas A)) (frees A)) in *.
  assert (HA1 : arenas A1' !! a = Some (Small i)) by apply lookup_insert_eq.
  destruct (carve_ok D p' (Z.to_nat (bpa i)) (KMach m' (snd (intr_disable (kcpu (hk h))))) A1' i a 0)
    as (k2 & A2' & Hk2 & (W1 & W2 & W3) & Hc2 & Hf2 & Hh2); try done; [by right|lia| |].
  { intros q Hq. simpl. rewrite E0. set_solver. }
  cbn [words frees A1'] in *. rewrite E0 in W2, Hf2. cbn [app] in *.
  eexists (Some a), _. split; [|split; [|exists A2'; split_and!]].
  - apply (new_arena_run h a p' (desc_i D i) (bpa i)); try done; [unfold blocks_per_arena_of; lia|].
    fold m. rewrite Em'. exact Hk2.
  - done.
  - done.
  - done.
  - done.
  - done.
  - done.
  - cbn [hk words]. intros a' j Ha'. rewrite W1 in Ha'.
    rewrite (Hh2 a' _ _ Ha') by (unfold cnt_of; lia). rewrite Hl.
    destruct (hc_arena _ _ _ _ Hc1 a' _ Ha') as (R1 & _). cbn [arenas A1'] in Ha'.
    destruct (decide (a' = a)) as [->|Hna].
    + rewrite lookup_insert_eq in Ha'. injection Ha' as <-. unfold cnt_of. rewrite decide_False, decide_True by lia.
      rewrite W2, in_arena_blks, decide_True by (done || lia). f_equal. lia.
    + rewrite lookup_insert_ne in Ha' by done. rewrite !decide_False by (unfold cnt_of; zdm || lia).
      rewrite (Hcnt a' j Ha'). destruct (decide (j = i)) as [->|Hji]; [|by rewrite W3].
      rewrite W2, E0, in_arena_blks, decide_False by (done || lia). done.
  - cbn [hk words]. intros b s w Hal Hw.
    destruct (allocated_arena D _ m A b s Hc Hal) as (a' & l & Ha' & ? & ? & ?).
    pose proof (Hdisj a' l Ha') as Hd. cbn [npages] in Hd.
    rewrite Hf2; [rewrite Hl, !decide_False by lia; done|].
    eapply (fine_allocated D p' m' A1' i _ b s); try done.
    + intros x (q & -> & Hq)%elem_of_blks. exists a, q. split; [done|]. split; [lia|done].
    + by apply allocated_insert.
    + intros (q & -> & Hq)%elem_of_blks. destruct (blk_facts a i q Hi G1 ltac:(lia)) as (? & ? & _). lia.
Qed.
End Malloc.

Section MallocSpec.
Context {P : Type} {PS : PageSource P} {PL : PageSourceLaws P}.
Implicit Types (p : P) (A : aheap) (h : heap P).

Lemma find_desc_ok D p k A size n : ∀ j,
  heap_core D p (words k) A → size ≤ 1024 → (j + S n = DESC_CNT)%nat →
  ∃ i, (i < DESC_CNT)%nat ∧ find_desc (S n) D (Z.of_nat j) size k = Ok (Z.of_nat i) ∧ size ≤ bsize i.
Proof.
  induction n as [|n IH]; intros j Hc Hs Hj.
  all: destruct (hc_desc _ _ _ _ Hc j ltac:(lia)) as (D1 & _ & _).
  all: cbn [find_desc]; unfold desc_i in D1; mrun (ld_ok _ _ _ D1); destruct (Z.leb_spec size (bsize j)).
  1,3: exists j; split_and!; done || lia.
  - replace j with 6%nat in * by (unfold DESC_CNT in *; lia). unfold bsize in *. simpl in *. lia.
  - destruct (IH (S j) Hc Hs ltac:(lia)) as (i & Hi & Hf & Hb). exists i.
    replace (Z.of_nat j + 1) with (Z.of_nat (S j)) by lia. done.
Qed.

Lemma alloc_take A A' i x xs :
  (i < DESC_CNT)%nat → with_free A i xs A' → frees A i = x :: xs → NoDup (x :: xs) → is_block A i x →
  ∀ b s, allocated A' b s ↔ allocated A b s ∨ (b = x ∧ s = bsize i).
Proof.
  intros Hi (E1 & E2 & E3) Hfr Hnd Hx b s. apply NoDup_cons in Hnd as [Hnin Hnd]. split.
  - intros [(j & Hj & Hb & Hnf & Hs)|(a & n & Ha & Hb & Hs)].
    + rewrite is_block_arenas in Hb by done. destruct (decide (j = i)) as [->|Hne].
      * rewrite E2 in Hnf. destruct (decide (b = x)) as [->|Hbx]; [by right|]. left. left. exists i.
        split_and!; try done. rewrite Hfr. set_solver.
      * rewrite E3 in Hnf by done. left. left. by exists j.
    + rewrite E1 in Ha. left. right. by exists a, n.
  - intros [[(j & Hj & Hb & Hnf & Hs)|(a & n & Ha & Hb & Hs)]|[-> ->]].
    + left. exists j. rewrite is_block_arenas by done. split_and!; try done.
      destruct (decide (j = i)) as [->|Hne]; [rewrite E2; rewrite Hfr in Hnf; set_solver|by rewrite E3].
    + right. exists a, n. by rewrite E1.
    + left. exists i. rewrite is_block_arenas by done. split_and!; try done. by rewrite E2.
Qed.

(** What an allocation of [size] bytes that returned [r] did. *)
Record alloc_post (size r : Z) (m m' : mem) (A A' : aheap) : Prop := {
  ap_fresh : ∃ sz, size ≤ sz ∧ (∀ b s, allocated A' b s ↔ allocated A b s ∨ (b = r ∧ s = sz)) ∧
               (∀ b s, allocated A b s → b + s ≤ r ∨ r + sz ≤ b);
  ap_zero : ∀ w, r ≤ w < r + size → w mod 4 = 0 → m' !! w = Some 0;
  ap_keep : ∀ b s w, allocated A b s → b ≤ w < b + s → m' !! w = m !! w;
}.

(** Different allocated blocks do not overlap. *)
Lemma allocated_disjoint D p m A b s b' s' :
  heap_core D p m A → allocated A b s → allocated A b' s' → b ≠ b' → b + s ≤ b' ∨ b' + s' ≤ b.
Proof.
  intros Hc Hal Hal' Hne.
  destruct (allocated_arena D p m A b s Hc Hal) as (a & k & Ha & H1 & H2 & H3).
  destruct (allocated_arena D p m A b' s' Hc Hal') as (a' & k' & Ha' & H1' & H2' & H3').
  destruct (decide (a = a')) as [<-|Haa].
  - destruct Hal as [(i & Hi & Hb & _ & ->)|(c & n & Hc1 & -> & ->)],
      Hal' as [(j & Hj & Hb' & _ & ->)|(c' & n' & Hc2 & -> & ->)].
    + by apply (blocks_disjoint D p m A i j).
    + destruct (block_page D p m A i b Hc Hi Hb) as (c & Hc1 & ? & ? & ? & ? & ? & _).
      assert (c ≠ c') by congruence. destruct (hc_apart _ _ _ _ Hc c c' _ _ Hc1 Hc2) as [Hd|Hd]; [done|..];
        simpl in Hd; lia.
    + destruct (block_page D p m A j b' Hc Hj Hb') as (c' & Hc2 & ? & ? & ? & ? & ? & _).
      assert (c ≠ c') by congruence. destruct (hc_apart _ _ _ _ Hc c c' _ _ Hc1 Hc2) as [Hd|Hd]; [done|..];
        simpl in Hd; lia.
    + assert (c ≠ c') by (intros ->; lia). destruct (hc_apart _ _ _ _ Hc c c' _ _ Hc1 Hc2) as [Hd|Hd]; [done|..];
        simpl in Hd; lia.
  - destruct (hc_apart _ _ _ _ Hc a a' _ _ Ha Ha' Haa); lia.
Qed.

(** Taking the first block of a list whose counters are right. *)
Lemma take_post D p k A i x xs size :
  heap_core D p (words k) A → ps_inv p ∨ ps_held p → counts_eq (words k) A → (i < DESC_CNT)%nat →
  frees A i = x :: xs → size ≤ bsize i →
  (∀ a j, arenas A !! a = Some (Small j) → zlen (in_arena a (frees A j)) ≤ bpa j) →
  (∀ a j, arenas A !! a = Some (Small j) → zlen (in_arena a (frees A j)) = bpa j → j = i ∧ a ≤ x < a + 4096) →
  ∃ k' A', take_free (desc_i D i) k = Ok (x, k') ∧ heap_core D p (words k') A' ∧ counts_ok (words k') A' ∧
    alloc_post size x (words k) (words k') A A'.
Proof.
  intros Hc Hp Hcnt Hi Hfr Hsz Hle Hfull.
  destruct (take_free_ok D p k A i x xs) as (k' & Hk & Hc' & Hcnt' & Hz & Hkeep); try done.
  { intros a Ha. specialize (Hle a i Ha). destruct (bsize_facts i Hi) as (_ & _ & ? & _). lia. }
  eexists k', _. split; [exact Hk|]. split; [exact Hc'|]. split.
  - intros a j Ha. pose proof (Hcnt' a j Ha) as Hcj. split; [done|]. cbn [arenas frees] in *.
    specialize (Hle a j Ha). specialize (Hfull a j Ha). destruct (decide (j = i)) as [->|Hne].
    + rewrite fn_lookup_insert in *. rewrite Hfr in *. rewrite !in_arena_cons in *.
      revert Hle Hfull. case_decide; intros; [lia|]. destruct (decide (0 + zlen (in_arena a xs) = bpa i)); [|lia].
      destruct Hfull; [done|lia].
    + rewrite fn_lookup_insert_ne in * by done.
      destruct (decide (zlen (in_arena a (frees A j)) = bpa j)) as [E|]; [|lia]. by destruct (Hfull E).
  - destruct (hc_desc _ _ _ _ Hc i Hi) as (_ & _ & Hl). apply is_list_nodup in Hl. rewrite Hfr in Hl.
    assert (Hx : is_block A i x) by (apply (hc_free _ _ _ _ Hc i x Hi); rewrite Hfr; set_solver).
    pose proof (alloc_take A _ i x xs Hi (with_free_insert A i xs) Hfr Hl Hx) as Hat. split.
    + exists (bsize i). split; [done|]. split; [exact Hat|]. intros b s Hal.
      assert (Hbx : b ≠ x) by (intros ->; apply (allocated_not_free D p (words k) A i x s Hc Hi Hal); rewrite Hfr; set_solver).
      apply (allocated_disjoint D p (words k') (AHeap (arenas A) (<[i := xs]> (frees A)))); [done| | |done];
        apply Hat; [by left|by right].
    + intros w Hw H4. apply Hz; [lia|done].
    + done.
Qed.

(** Why a request for [size] bytes gets NULL: there is no room for the pages it needs, and
    for a small block the free list of its class is empty. *)
Definition out_of_room (size : Z) (p : P) (A : aheap) : Prop :=
  ps_full (if size >? 1024 then (size + 4107) / 4096 else 1) p ∧
  (size ≤ 1024 → ∃ i, (i < DESC_CNT)%nat ∧ size ≤ bsize i ∧ frees A i = []).

Lemma malloc_small_ok D size h A :
  heap_core D (hpages h) (words (hk h)) A → ps_held (hpages h) → counts_ok (words (hk h)) A → 0 < size ≤ 1024 →
  ∃ r h' A', malloc_small D size h = Ok (r, h') ∧ ps_held (hpages h') ∧
    heap_core D (hpages h') (words (hk h')) A' ∧ counts_ok (words (hk h')) A' ∧
    (r = 0 → A' = A ∧ hk h' = hk h ∧ out_of_room size (hpages h) A) ∧
    (r ≠ 0 → alloc_post size r (words (hk h)) (words (hk h')) A A').
Proof.
  intros Hc Hp Hcnt Hsz. destruct (find_desc_ok D (hpages h) (hk h) A size 6 0 Hc) as (i & Hi & Hf & Hbs); [lia|done|].
  change (Z.of_nat 0) with 0 in Hf.
  assert (Hceq : counts_eq (words (hk h)) A) by (intros a j Ha; by destruct (Hcnt a j Ha)).
  assert (Hpos : ∀ p m B x xs, heap_core D p m B → ps_inv p ∨ ps_held p → frees B i = x :: xs → x ≠ 0).
  { intros p m B x xs HcB HpB HfB. destruct (block_page D p m B i x HcB Hi) as (a & _ & _ & ? & _ & ? & _);
      [apply (hc_free _ _ _ _ HcB i x Hi); rewrite HfB; set_solver|]. destruct (ps_bounds p HpB). lia. }
  destruct (hc_desc _ _ _ _ Hc i Hi) as (_ & _ & Hl). unfold malloc_small.
  unfold DESC_CNT at 1. mrun Hf. fold (desc_i D i).
  unfold list_empty. mrun (ld_ok _ _ _ (is_list_head _ _ _ Hl)). destruct (frees A i) as [|x xs] eqn:Hfr.
  - cbn [node_before]. rewrite Z.eqb_refl.
    destruct (new_arena_ok D h A i Hc Hp Hceq Hi Hfr) as ([a|] & h1 & Hn & Hp1 & Hpost); mrun Hn.
    + destruct Hpost as (A1 & Hnone & E1 & E2 & E3 & Hc1 & Hcnt1 & Hkeep1).
      destruct (bsize_facts i Hi) as (S1 & S2 & S3 & S4).
      pose proof E2 as E2'. assert (Hn' : ∃ n, Z.to_nat (bpa i) = S n) by (exists (Z.to_nat (bpa i) - 1)%nat; lia).
      destruct Hn' as [n En]. rewrite En, blks_S in E2.
      assert (Ha : arenas A1 !! a = Some (Small i)) by (rewrite E1; apply lookup_insert_eq).
      destruct (hc_arena _ _ _ _ Hc1 a _ Ha) as (Q1 & Q2 & Q3 & _).
      assert (Hin : ∀ a' j, arenas A1 !! a' = Some (Small j) →
        zlen (in_arena a' (frees A1 j)) = (if decide (a' = a) then bpa i else zlen (in_arena a' (frees A j)))).
      { intros a' j Ha'. destruct (hc_arena _ _ _ _ Hc1 a' _ Ha') as (R1 & _).
        case_decide as Ea.
        - subst a'. rewrite Ha in Ha'. injection Ha' as <-. rewrite E2', in_arena_blks, decide_True by (done || lia). lia.
        - destruct (decide (j = i)) as [->|Hji]; [|by rewrite E3].
          rewrite E2', Hfr, in_arena_blks, decide_False by (done || lia). done. }
      destruct (take_post D (hpages h1) (hk h1) A1 i _ _ size Hc1 ltac:(by right) Hcnt1 Hi E2 Hbs)
        as (k' & A' & Hk & Hc' & Hcnt' & [(sz & F1 & F2 & F3) F4 F5]).
      * intros a' j Ha'. rewrite Hin by done. case_decide as Ea.
        -- subst a'. rewrite Ha in Ha'. injection Ha' as <-. lia.
        -- rewrite E1, lookup_insert_ne in Ha' by done. destruct (Hcnt a' j Ha'). lia.
      * intros a' j Ha'. rewrite Hin by done. case_decide as Ea; intros Hbpa.
        -- subst a'. rewrite Ha in Ha'. injection Ha' as <-. split; [done|].
           destruct (blk_facts a i 0 Hi Q1) as (? & ? & _); lia.
        -- rewrite E1, lookup_insert_ne in Ha' by done. destruct (Hcnt a' j Ha'). lia.
      * mrun Hk. eexists _, _, A'. split; [done|]. cbn [hpages hk]. split_and!; [done|done|done| |].
        -- intros Hz. exfalso. by apply (Hpos _ _ A1 _ _ Hc1 ltac:(by right) E2).
        -- intros _. pose proof (alloc_new D _ _ A A1 a i Hc1 Hi E1 Hnone Hfr E2' E3) as Han. split.
           ++ exists sz. split; [done|]. split.
              ** intros b s. rewrite F2, Han. done.
              ** intros b s Hal. apply F3. by apply Han.
           ++ done.
           ++ intros b s w Hal Hw. rewrite (F5 b s w); [by apply (Hkeep1 b s)|by apply Han|done].
    + cbn [mbind outcome_bind]. destruct Hpost as (Hc1 & Hk1 & Hfull). eexists 0, h1, A. split; [done|].
      split_and!; [done|done|by rewrite Hk1| |done]. intros _. split; [done|]. split; [done|]. split.
      * destruct (Z.gtb_spec size 1024); [lia|done].
      * intros _. by exists i.
  - cbn [node_before]. rewrite (proj2 (Z.eqb_neq _ _)) by (apply (is_list_not_tail _ _ _ x Hl); set_solver).
    cbn [mbind outcome_bind].
    destruct (take_post D (hpages h) (hk h) A i x xs size Hc ltac:(by right) Hceq Hi Hfr Hbs)
      as (k' & A' & Hk & Hc' & Hcnt' & Hpost).
    + intros a j Ha. destruct (Hcnt a j Ha). lia.
    + intros a j Ha E. destruct (Hcnt a j Ha). lia.
    + mrun Hk. eexists _, _, A'. split; [done|]. cbn [hpages hk]. split_and!; [done|done|done| |done].
      intros Hz. exfalso. by apply (Hpos _ _ A x xs Hc ltac:(by right) Hfr).
Qed.
End MallocSpec.

Section LargeFree.
Context {P : Type} {PS : PageSource P} {PL : PageSourceLaws P}.
Implicit Types (p : P) (A : aheap) (h : heap P).

Lemma malloc_large_run size h a p' n :
  0 < size < 2147483648 → n = (size + 4107) / 4096 → ps_malloc n (hpages h) = Ok (a, p') → a ≠ 0 →
  0 ≤ a < 4294967000 →
  malloc_large size h = Ok (a + 12, Heap p' (KMach (arena_words (words (hk h)) (Z.to_nat (n * 1024)) a 0 n 1) (kcpu (hk h)))).
Proof.
  intros Hsz En Hm Hne Ha. unfold malloc_large, sizeof_arena, PG_SIZE.
  assert (E : u32 (u32 (size + 12) + 4096 - 1) / 4096 = n).
  { rewrite En, (u32_small (size + 12)), u32_small by lia. f_equal. lia. }
  rewrite E. mrun Hm. rewrite (proj2 (Z.eqb_neq _ _) Hne). rewrite (u32_small (a + 12)) by lia.
  assert (Hz : ∀ c, c = 0 ∨ c = 4 ∨ c = 8 → is_Some (zero_words (Z.to_nat (n * 1024)) a (words (hk h)) !! (a + c))).
  { intros c Hc. rewrite zero_words_lookup, decide_True by (split; zdm). by eexists. }
  assert (Hz0 := Hz 0 ltac:(lia)). rewrite Z.add_0_r in Hz0.
  rewrite stk_ok by done. cbn [mbind outcome_bind words kcpu].
  rewrite stk_ok by (cbn [words]; apply mapped_insert, Hz; lia). cbn [mbind outcome_bind words kcpu].
  rewrite stk_ok by (cbn [words]; do 2 apply mapped_insert; apply Hz; lia). cbn [mbind outcome_bind words kcpu].
  do 4 f_equal. unfold arena_words. apply insert_insert_ne. unfold large_of, cnt_of. lia.
Qed.

Lemma malloc_large_ok D size h A :
  heap_core D (hpages h) (words (hk h)) A → ps_held (hpages h) → counts_ok (words (hk h)) A → 1024 < size < 2147483648 →
  ∃ r h' A', malloc_large size h = Ok (r, h') ∧ ps_held (hpages h') ∧
    heap_core D (hpages h') (words (hk h')) A' ∧ counts_ok (words (hk h')) A' ∧
    (r = 0 → A' = A ∧ hk h' = hk h ∧ out_of_room size (hpages h) A) ∧
    (r ≠ 0 → alloc_post size r (words (hk h)) (words (hk h')) A A').
Proof.
  intros Hc Hp Hcnt Hsz. set (n := (size + 4107) / 4096). assert (Hn : 1 ≤ n < 1048576) by (unfold n; zdm).
  assert (Hnb : size + 12 ≤ n * 4096) by (unfold n; zdm).
  destruct (ps_malloc_ok n (hpages h) Hp Hn) as (a & p' & Hm & Hp' & Elo & Ehi & Hlv & Hfull & Hnz).
  destruct (decide (a = 0)) as [->|Hne].
  { assert (E : u32 (u32 (size + 12) + 4096 - 1) / 4096 = n).
    { unfold n. rewrite (u32_small (size + 12)), u32_small by lia. f_equal. lia. }
    eexists 0, _, A. split; [unfold malloc_large, sizeof_arena, PG_SIZE; rewrite E; mrun Hm; done|].
    split_and!; [done|by apply (core_pages D (hpages h))|done| |done].
    intros _. split; [done|]. split; [done|]. split; [|lia]. destruct (Z.gtb_spec size 1024); [by apply Hfull|lia]. }
  destruct (Hnz Hne) as (G1 & G2 & G3 & G4). destruct (ps_bounds (hpages h) ltac:(by right)) as (B1 & B2 & _).
  assert (Hm' : ∃ m', arena_words (words (hk h)) (Z.to_nat (n * 1024)) a 0 n 1 = m') by eauto. destruct Hm' as [m' Em'].
  pose proof (λ w, arena_words_lookup (words (hk h)) (Z.to_nat (n * 1024)) a 0 n 1 w ltac:(lia)) as Hl. rewrite Em' in Hl.
  destruct (core_add D (hpages h) p' (words (hk h)) m' A a (Large n)) as (Hc1 & Hnone & Hdisj);
    cbn [npages] in *; try done.
  { lia. }
  { intros w Hw. rewrite Hl. rewrite !decide_False by lia. done. }
  { split_and!; [lia|..]; unfold desc_of, cnt_of, large_of; rewrite Hl; repeat case_decide; done || lia. }
  { rewrite <- Em'. pose proof (arena_words_mapped (words (hk h)) (Z.to_nat (n * 1024)) a 0 n 1 ltac:(lia)) as Hpm.
    replace (Z.of_nat (Z.to_nat (n * 1024)) / 1024) with n in Hpm by zdm. done. }
  eexists (a + 12), _, _. split; [apply (malloc_large_run size h a p' n); try done; lia|]. cbn [hpages hk words].
  rewrite Em'. split_and!; [done|exact Hc1| |lia|].
  - intros a' j Ha'. cbn [arenas frees] in *. destruct (decide (a' = a)) as [->|Hna].
    { by rewrite lookup_insert_eq in Ha'. }
    rewrite lookup_insert_ne in Ha' by done. destruct (Hdisj a' _ Ha') as [Hd|Hd]; simpl in Hd;
      (rewrite Hl, !decide_False by (unfold cnt_of; lia)); by apply Hcnt.
  - intros _.
    assert (Hal' : ∀ b s, allocated A b s → b + s ≤ a ∨ a + n * 4096 ≤ b).
    { intros b s Hal. destruct (allocated_arena D _ _ A b s Hc Hal) as (a' & l & Ha' & ? & ? & ?).
      destruct (Hdisj a' l Ha'); lia. }
    split.
    + exists (n * 4096 - 12). split; [lia|]. split; [|intros b s Hal; destruct (Hal' b s Hal); lia].
      intros b s. split; [|intros [Hal|[-> ->]]; [by apply allocated_insert|]].
      * intros [(j & Hj & (a' & q & Ha' & Hq & Hb) & Hnf & Hs)|(a' & n' & Ha' & Hb & Hs)]; cbn [arenas frees] in *.
        -- left. left. exists j. split_and!; try done. exists a', q.
           destruct (decide (a' = a)) as [->|]; [by rewrite lookup_insert_eq in Ha'|]. by rewrite lookup_insert_ne in Ha'.
        -- destruct (decide (a' = a)) as [->|].
           ++ rewrite lookup_insert_eq in Ha'. injection Ha' as <-. by right.
           ++ rewrite lookup_insert_ne in Ha' by done. left. right. by exists a', n'.
      * right. exists a, n. cbn [arenas]. by rewrite lookup_insert_eq.
    + intros w Hw H4. rewrite Hl. repeat case_decide; try lia; [done|]. exfalso. zdm.
    + intros b s w Hal Hw. destruct (Hal' b s Hal); rewrite Hl, !decide_False by lia; done.
Qed.

(** ** Freeing *)

Lemma remove_core D p k A i b xs ys :
  heap_core D p (words k) A → (i < DESC_CNT)%nat → frees A i = xs ++ b :: ys →
  ∃ k' A', list_remove k b = Ok k' ∧ with_free A i (xs ++ ys) A' ∧ heap_core D p (words k') A' ∧
    (∀ w, ¬ fine D A i (frees A i) w → words k' !! w = words k !! w) ∧
    (∀ a l w, arenas A !! a = Some l → a ≤ w < a + 12 → words k' !! w = words k !! w).
Proof.
  intros Hc Hi Hfr. destruct (hc_desc _ _ _ _ Hc i Hi) as (_ & _ & D3). rewrite Hfr in D3.
  assert (Hfb : ∀ y, y ∈ frees A i → is_block A i y) by (intros y; apply (hc_free _ _ _ _ Hc i y Hi)).
  assert (Hxy : ∀ y, y ∈ xs ++ ys → is_block A i y) by (intros y Hy; apply Hfb; rewrite Hfr; set_solver).
  destruct (list_remove_ok k _ xs b ys D3) as (k' & Hk & Hl & _ & Hdom & Hsame).
  exists k', (AHeap (arenas A) (<[i := xs ++ ys]> (frees A))). split; [done|]. split; [apply with_free_insert|].
  assert (Hf : ∀ w, ¬ fine D A i (frees A i) w → words k' !! w = words k !! w).
  { intros w Hw. apply Hsame. intros n Hn. eapply fine_nodes; [done| |exact Hw|exact Hn]. rewrite Hfr. set_solver. }
  split_and!; [|done|].
  - apply (core_change D p (words k) A i _ (words k') Hc Hi Hdom); [|done|done].
    intros w Hw. apply Hf. intros Hfi. by apply Hw, (fine_touched _ _ _ (frees A i)).
  - intros a l w Ha Hw. apply Hsame. intros n Hn. by apply (nodes_off_header D p (words k) A i (xs ++ ys) a l n w).
Qed.

Lemma filter_remove_one (xs ys : list Z) b :
  NoDup (xs ++ b :: ys) → filter (λ x, x ≠ b) (xs ++ b :: ys) = xs ++ ys.
Proof.
  intros Hnd. apply NoDup_app in Hnd as (_ & Hx & Hy). apply NoDup_cons in Hy as [Hby _].
  rewrite filter_app, filter_cons_False by (intros H; by apply H).
  rewrite !filter_all; [done|apply Forall_forall; intros x Hin ->; done|].
  apply Forall_forall. intros x Hin ->. apply (Hx b Hin). set_solver.
Qed.

Lemma uncarve_ok D p n : ∀ k A i a j,
  heap_core D p (words k) A → ps_inv p ∨ ps_held p → (i < DESC_CNT)%nat → arenas A !! a = Some (Small i) →
  0 ≤ j → j + Z.of_nat n ≤ bpa i → (∀ q, j ≤ q < j + Z.of_nat n → blk a i q ∈ frees A i) →
  ∃ k' A', uncarve n a j k = Ok k' ∧ with_free A i (filter (λ x, x ∉ blks a i j n) (frees A i)) A' ∧
    heap_core D p (words k') A' ∧
    (∀ w, ¬ fine D A i (frees A i) w → words k' !! w = words k !! w) ∧
    (∀ b l w, arenas A !! b = Some l → b ≤ w < b + 12 → words k' !! w = words k !! w).
Proof.
  induction n as [|n IH]; intros k A i a j Hc Hp Hi Ha Hj Hn Hin.
  - exists k, A. split_and!; try done. split_and!; try done.
    rewrite filter_all; [done|]. apply Forall_forall. intros x _ (q & _ & Hq)%elem_of_blks. lia.
  - cbn [uncarve]. mrun (arena2block_ok D p k A i a j Hc Hp Hi Ha ltac:(lia)).
    destruct (list_elem_of_split _ _ (Hin j ltac:(lia))) as (xs & ys & Hfr).
    destruct (hc_desc _ _ _ _ Hc i Hi) as (_ & _ & Hnd). apply is_list_nodup in Hnd. rewrite Hfr in Hnd.
    destruct (remove_core D p k A i _ xs ys Hc Hi Hfr) as (k1 & A1 & Hk1 & (E1 & E2 & E3) & Hc1 & Hf1 & Hh1).
    rewrite <- (filter_remove_one xs ys (blk a i j)), <- Hfr in E2 by done.
    mrun Hk1. destruct (IH k1 A1 i a (j + 1)) as (k2 & A2 & Hk2 & (G1 & G2 & G3) & Hc2 & Hf2 & Hh2);
      try done; [by rewrite E1|lia|lia| |].
    { intros q Hq. rewrite E2. apply list_elem_of_filter. split; [|apply Hin; lia].
      intros Heq%blk_inj; [lia|done]. }
    exists k2, A2. split; [done|]. split_and!.
    + split_and!; [congruence| |intros q Hq; rewrite G3, E3 by done; done].
      rewrite G2, E2, blks_S, list_filter_filter. apply list_filter_iff. intros x. set_solver.
    + done.
    + intros w Hw. rewrite Hf2, Hf1; [done|done|]. intros Hf. apply Hw. revert Hf. apply fine_mono; [done|].
      rewrite E2. intros x Hx. by apply list_elem_of_filter in Hx as [_ Hx].
    + intros b l w Hb' Hw. rewrite (Hh2 b l), (Hh1 b l); try done. by rewrite E1.
Qed.

Lemma core_del D p p' m m' A a k :
  heap_core D p m A → arenas A !! a = Some k → ps_lo p' = ps_lo p → ps_hi p' = ps_hi p →
  (∀ q, ps_live p q → ¬ (a ≤ q < a + npages k * 4096) → ps_live p' q) →
  (∀ w, ¬ (a ≤ w < a + npages k * 4096) → m' !! w = m !! w) →
  (∀ i x, (i < DESC_CNT)%nat → x ∈ frees A i → ¬ (a ≤ x < a + npages k * 4096)) →
  heap_core D p' m' (AHeap (delete a (arenas A)) (frees A)).
Proof.
  intros Hc Ha Elo Ehi Hlive Hsame Hfree. destruct (hc_arena _ _ _ _ Hc a k Ha) as (Q1 & Q2 & Q3 & Q4 & _).
  assert (Hold : ∀ b l w, arenas A !! b = Some l → b ≠ a → b ≤ w < b + npages l * 4096 →
            ¬ (a ≤ w < a + npages k * 4096)).
  { intros b l w Hb Hne Hw. destruct (hc_apart _ _ _ _ Hc b a l k Hb Ha Hne); lia. }
  split; cbn [arenas frees]; rewrite ?Elo, ?Ehi.
  - apply (hc_area _ _ _ _ Hc).
  - intros i Hi. destruct (hc_desc _ _ _ _ Hc i Hi) as (H1 & H2 & H3).
    destruct (desc_area D p m A i Hc Hi) as (A1 & A2 & A3 & A4).
    rewrite !Hsame by (unfold block_size_of, blocks_per_arena_of; lia). split_and!; [done|done|].
    eapply is_list_frame; [done|]. intros n Hin. unfold prev_of, next_of.
    unfold list_nodes, head_of, tail_of, free_list_of in Hin.
    apply elem_of_cons in Hin as [->|Hin]; [split; apply Hsame; lia|].
    apply elem_of_app in Hin as [Hin|Hin].
    + destruct (block_page D p m A i n Hc Hi (hc_free _ _ _ _ Hc i n Hi Hin))
        as (b & Hb & R1 & R2 & R3 & R4 & R5 & _). destruct (bsize_facts i Hi) as (? & _).
      pose proof (Hfree i n Hi Hin) as Hn. assert (Hne : b ≠ a) by (intros ->; lia).
      split; apply Hsame, (Hold b _ _ Hb Hne); simpl; lia.
    + apply list_elem_of_singleton in Hin as ->. split; apply Hsame; lia.
  - intros b l [Hne Hb]%lookup_delete_Some. destruct (hc_arena _ _ _ _ Hc b l Hb) as (H1 & H2 & H3 & H4 & H5 & H6 & H7).
    split_and!; try done.
    + destruct l as [i|n]; simpl in *;
        rewrite !Hsame by (apply (Hold b _ _ Hb (not_eq_sym Hne)); unfold desc_of, cnt_of, large_of; simpl; lia); done.
    + intros j Hj. rewrite Hsame by (apply (Hold b l _ Hb (not_eq_sym Hne)); lia). by apply H6.
    + intros j Hj. apply Hlive; [by apply H7|]. apply (Hold b l _ Hb (not_eq_sym Hne)). lia.
  - intros b c l q [? Hb]%lookup_delete_Some [? Hcc]%lookup_delete_Some Hne. by apply (hc_apart _ _ _ _ Hc).
  - intros i x Hi Hx. destruct (hc_free _ _ _ _ Hc i x Hi Hx) as (b & j & Hb & Hj & Ex).
    exists b, j. split; [|done]. cbn [arenas]. apply lookup_delete_Some. split; [|done]. intros <-.
    destruct (blk_facts a i j Hi Q1 Hj) as (? & ? & _).
    destruct (bsize_facts i Hi) as (? & _). apply (Hfree i x Hi Hx). rewrite Ha in Hb. injection Hb as ->. simpl. lia.
Qed.
End LargeFree.

Section FreeSpec.
Context {P : Type} {PS : PageSource P} {PL : PageSourceLaws P}.
Implicit Types (p : P) (A : aheap) (h : heap P).

Lemma core_ext D p m A A' :
  heap_core D p m A → arenas A' = arenas A → (∀ i, frees A' i = frees A i) → heap_core D p m A'.
Proof.
  intros Hc E1 E2. split; rewrite ?E1; try apply Hc.
  - intros i Hi. rewrite E2. by apply Hc.
  - intros i x Hi. rewrite E2, is_block_arenas by done. by apply Hc.
Qed.

Lemma core_free D p m A i : heap_core D p m A → (i < DESC_CNT)%nat → ∀ x, x ∈ frees A i → is_block A i x.
Proof. intros Hc Hi x. apply (hc_free _ _ _ _ Hc i x Hi). Qed.

(** A counter may change. *)
Lemma core_cnt D p m A a i c :
  heap_core D p m A → (i < DESC_CNT)%nat → arenas A !! a = Some (Small i) → is_Some (m !! cnt_of a) →
  heap_core D p (<[cnt_of a := c]> m) A.
Proof.
  intros Hc Hi Ha Hs. destruct (hc_desc _ _ _ _ Hc i Hi) as (_ & _ & Hl).
  apply (core_ext D p _ (AHeap (arenas A) (<[i := frees A i]> (frees A)))); [|done|].
  - apply (core_change D p m A i _ _ Hc Hi).
    + by apply dom_insert_mapped.
    + intros w Hw. apply lookup_insert_ne. intros <-. apply Hw. right; right. eauto.
    + eapply is_list_frame; [done|]. intros n Hn.
      destruct (nodes_off_header D p m A i (frees A i) a (Small i) n (cnt_of a)) as [? ?]; try done;
        [by eapply core_free|unfold cnt_of; lia|]. by rewrite !lookup_insert_ne.
    + by eapply core_free.
  - intros j. destruct (decide (j = i)) as [->|Hne]; cbn [frees]; symmetry;
      [apply fn_lookup_insert|by apply fn_lookup_insert_ne].
Qed.

Lemma in_arena_snoc a xs b :
  zlen (in_arena a (xs ++ [b])) = zlen (in_arena a xs) + (if decide (a ≤ b < a + 4096) then 1 else 0).
Proof.
  unfold in_arena. rewrite filter_app, zlen_app. f_equal. rewrite filter_cons. by case_decide.
Qed.

Lemma in_arena_filter a (Q : Z → Prop) `{!∀ x, Decision (Q x)} xs :
  (∀ x, x ∈ xs → a ≤ x < a + 4096 → Q x) → in_arena a (filter Q xs) = in_arena a xs.
Proof.
  intros HQ. unfold in_arena. induction xs as [|x xs IH]; [done|]. rewrite !filter_cons.
  assert (IH' := IH ltac:(intros; apply HQ; set_solver)). specialize (HQ x ltac:(set_solver)).
  destruct (decide (Q x)), (decide (a ≤ x < a + 4096)); rewrite ?filter_cons; repeat case_decide; try done.
  - by f_equal.
  - naive_solver.
Qed.

(** A full counter means that all blocks of the arena are free. *)
Lemma full_arena D p m A a i :
  heap_core D p m A → (i < DESC_CNT)%nat → arenas A !! a = Some (Small i) →
  zlen (in_arena a (frees A i)) = bpa i → ∀ q, 0 ≤ q < bpa i → blk a i q ∈ frees A i.
Proof.
  intros Hc Hi Ha Hfull q Hq. destruct (hc_arena _ _ _ _ Hc a _ Ha) as (Q1 & _).
  destruct (hc_desc _ _ _ _ Hc i Hi) as (_ & _ & Hnd). apply is_list_nodup in Hnd.
  set (xs := in_arena a (frees A i)) in *. set (ys := blks a i 0 (Z.to_nat (bpa i))).
  assert (Hsub : xs ⊆+ ys).
  { apply NoDup_submseteq; [by apply NoDup_filter|]. intros x [Hr Hx]%list_elem_of_filter.
    destruct (hc_free _ _ _ _ Hc i x Hi Hx) as (a' & q' & Ha' & Hq' & ->).
    destruct (hc_arena _ _ _ _ Hc a' _ Ha') as (R1 & _). destruct (blk_facts a' i q' Hi R1 Hq') as (? & ? & _).
    destruct (bsize_facts i Hi) as (? & _). assert (a' = a) as -> by zdm.
    apply elem_of_blks. exists q'. split; [done|lia]. }
  apply submseteq_length_Permutation in Hsub.
  - assert (Hin : blk a i q ∈ xs) by (rewrite Hsub; apply elem_of_blks; exists q; split; [done|lia]).
    by apply list_elem_of_filter in Hin as [_ Hin].
  - unfold ys, blks. rewrite length_fmap, length_seqZ. unfold zlen in Hfull. lia.
Qed.

(** What freeing [r] did. *)
Record free_post (r : Z) (m m' : mem) (A A' : aheap) : Prop := {
  fp_alloc : ∀ b s, allocated A' b s ↔ allocated A b s ∧ b ≠ r;
  fp_keep : ∀ b s w, allocated A b s → b ≠ r → b ≤ w < b + s → m' !! w = m !! w;
}.

(** The block goes to the end of its list and is counted. *)
Lemma give_block D p k A i b :
  heap_core D p (words k) A → ps_inv p ∨ ps_held p → counts_ok (words k) A → (i < DESC_CNT)%nat →
  is_block A i b → b ∉ frees A i →
  let a := block2arena b in
  let c := zlen (in_arena a (frees A i)) in
  ∃ k1 A1, list_append k (free_list_of (desc_i D i)) b = Ok k1 ∧ words k1 !! cnt_of a = Some c ∧ c < bpa i ∧
    (∀ a' l w, arenas A !! a' = Some l → a' ≤ w < a' + 12 → words k1 !! w = words k !! w) ∧
    heap_core D p (<[cnt_of a := c + 1]> (words k1)) A1 ∧ counts_eq (<[cnt_of a := c + 1]> (words k1)) A1 ∧
    with_free A i (frees A i ++ [b]) A1 ∧ zlen (in_arena a (frees A1 i)) = c + 1 ∧
    free_post b (words k) (<[cnt_of a := c + 1]> (words k1)) A A1.
Proof.
  intros Hc Hp Hcnt Hi Hb Hnf a c. destruct (block_arena D p _ A i b Hc Hp Hi Hb) as (Ha & P4 & P5). fold a in Ha, P4, P5.
  destruct (bsize_facts i Hi) as (S1 & _).
  destruct (append_core D p k A i b Hc Hi Hb Hnf) as (k1 & A1 & Hk & (E1 & E2 & E3) & Hc1 & Hf & Hh).
  exists k1, A1. destruct (Hcnt a i Ha) as [Hca Hlt]. fold c in Hca, Hlt.
  assert (Hk1 : words k1 !! cnt_of a = Some c) by (rewrite (Hh a _ _ Ha) by (unfold cnt_of; lia); done).
  assert (Ha1 : arenas A1 !! a = Some (Small i)) by (by rewrite E1).
  assert (Hc2 : heap_core D p (<[cnt_of a := c + 1]> (words k1)) A1) by (apply (core_cnt D p _ A1 a i); try done; by eexists).
  assert (Hin : zlen (in_arena a (frees A1 i)) = c + 1) by (rewrite E2, in_arena_snoc, decide_True by lia; done).
  split_and!; try done.
  - intros a' j Ha'. destruct (decide (a' = a)) as [->|Hne].
    + rewrite Ha1 in Ha'. injection Ha' as <-. by rewrite lookup_insert_eq, Hin.
    + rewrite E1 in Ha'. rewrite lookup_insert_ne by (unfold cnt_of; lia). rewrite (Hh a' _ _ Ha') by (unfold cnt_of; lia).
      destruct (Hcnt a' j Ha') as [-> _]. f_equal. destruct (decide (j = i)) as [->|Hji]; [|by rewrite E3].
      destruct (hc_arena _ _ _ _ Hc a _ Ha) as (R1 & _), (hc_arena _ _ _ _ Hc a' _ Ha') as (R2 & _).
      rewrite E2, in_arena_snoc, decide_False; [lia|zdm].
  - split.
    + intros x s. split.
      * intros [(j & Hj & Hx & Hnx & ->)|(a' & n & Ha' & Ex & ->)].
        -- rewrite is_block_arenas in Hx by done. destruct (decide (j = i)) as [->|Hji].
           ++ rewrite E2 in Hnx. split; [|set_solver]. left. exists i. split_and!; try done. set_solver.
           ++ rewrite E3 in Hnx by done. split; [left; by exists j|]. intros ->. destruct (bsize_facts j Hj) as (? & _).
              apply (touched_block D p (words k) A i j b b Hc Hi Hj (not_eq_sym Hji) Hx ltac:(lia)).
              right; left. exists b. split; [done|lia].
        -- rewrite E1 in Ha'. split; [right; by exists a', n|]. intros ->.
           destruct (hc_arena _ _ _ _ Hc a' _ Ha') as (R2 & _ & _ & R3 & _). simpl in R3.
           assert (Hne : a ≠ a') by congruence.
           destruct (hc_apart _ _ _ _ Hc a a' _ _ Ha Ha' Hne) as [Hd|Hd]; simpl in Hd; lia.
      * intros [[(j & Hj & Hx & Hnx & ->)|(a' & n & Ha' & Ex & ->)] Hne].
        -- left. exists j. rewrite is_block_arenas by done. split_and!; try done.
           destruct (decide (j = i)) as [->|Hji]; [rewrite E2; set_solver|by rewrite E3].
        -- right. exists a', n. by rewrite E1.
    + intros x s w Hal Hne Hw. destruct (allocated_arena D p _ A x s Hc Hal) as (a' & l & Ha' & ? & ? & ?).
      rewrite lookup_insert_ne.
      * apply Hf. eapply (fine_allocated D p (words k) A i _ x s); try done.
        -- intros y [->|Hy]%elem_of_cons; [done|by eapply core_free].
        -- intros [->|Hy]%elem_of_cons; [done|]. by apply (allocated_not_free D p (words k) A i x s).
      * unfold cnt_of. intros <-. destruct (hc_arena _ _ _ _ Hc a _ Ha) as (R1 & _).
        destruct (decide (a = a')) as [<-|Haa]; [lia|].
        destruct (hc_apart _ _ _ _ Hc a a' _ _ Ha Ha' Haa) as [Hd|Hd]; simpl in Hd; lia.
Qed.

Lemma free_pages_run a n h p' :
  ps_free a n (hpages h) = Ok p' →
  free_pages a n h = Ok (Heap p' (KMach (drop_words (Z.to_nat (n * 1024)) a (words (hk h))) (kcpu (hk h)))).
Proof. intros H. unfold free_pages. by mrun H. Qed.

Lemma drop_words_other n a m w : 0 ≤ n → ¬ (a ≤ w < a + n * 4096) → drop_words (Z.to_nat (n * 1024)) a m !! w = m !! w.
Proof. intros Hn Hw. rewrite drop_words_lookup, decide_False; [done|]. intros [? _]. lia. Qed.

(** An arena whose blocks are all free is given back. *)
Lemma drop_arena D h A a i :
  heap_core D (hpages h) (words (hk h)) A → ps_held (hpages h) → counts_eq (words (hk h)) A → (i < DESC_CNT)%nat →
  arenas A !! a = Some (Small i) → zlen (in_arena a (frees A i)) = bpa i →
  (∀ a' j, arenas A !! a' = Some (Small j) → a' ≠ a → zlen (in_arena a' (frees A j)) < bpa j) →
  ∃ k2 h' A', uncarve (Z.to_nat (bpa i)) a 0 (hk h) = Ok k2 ∧ free_pages a 1 (Heap (hpages h) k2) = Ok h' ∧
    ps_held (hpages h') ∧ heap_core D (hpages h') (words (hk h')) A' ∧ counts_ok (words (hk h')) A' ∧
    (∀ b s, allocated A' b s ↔ allocated A b s) ∧
    ∀ b s w, allocated A b s → b ≤ w < b + s → words (hk h') !! w = words (hk h) !! w.
Proof.
  intros Hc Hp Hcnt Hi Ha Hfull Hlt. pose proof (full_arena D _ _ A a i Hc Hi Ha Hfull) as Hall.
  destruct (bsize_facts i Hi) as (S1 & _ & S3 & _). destruct (hc_arena _ _ _ _ Hc a _ Ha) as (Q1 & Q2 & Q3 & _ & _ & _ & Q7).
  cbn [npages] in *.
  destruct (uncarve_ok D (hpages h) (Z.to_nat (bpa i)) (hk h) A i a 0) as (k2 & A2 & Hk2 & (E1 & E2 & E3) & Hc2 & Hf2 & Hh2);
    try done; [by right|lia|intros q Hq; apply Hall; lia|].
  destruct (ps_free_ok a 1 (hpages h) Hp) as (p' & Hpf & Hp' & Elo & Ehi & Hlv); try done.
  assert (Hpage : ∀ x, is_block A i x → a ≤ x < a + 4096 → x ∈ blks a i 0 (Z.to_nat (bpa i))).
  { intros x (a' & q & Ha' & Hq & ->) Hx. destruct (hc_arena _ _ _ _ Hc a' _ Ha') as (R1 & _).
    destruct (blk_facts a' i q Hi R1 Hq) as (? & ? & _). assert (a' = a) as -> by zdm.
    apply elem_of_blks. exists q. split; [done|lia]. }
  assert (Hblk : ∀ x, x ∈ blks a i 0 (Z.to_nat (bpa i)) → a + 12 ≤ x < a + 4096 ∧ x ∈ frees A i).
  { intros x (q & -> & Hq)%elem_of_blks. destruct (blk_facts a i q Hi Q1 ltac:(lia)) as (? & ? & _).
    split; [lia|apply Hall; lia]. }
  assert (Hnone : ∀ j x, (j < DESC_CNT)%nat → x ∈ frees A2 j → ¬ (a ≤ x < a + 1 * 4096)).
  { intros j x Hj Hx Hr. destruct (decide (j = i)) as [->|Hji].
    - rewrite E2 in Hx. apply list_elem_of_filter in Hx as [Hnx Hx]. apply Hnx, Hpage; [by eapply core_free|lia].
    - rewrite E3 in Hx by done. destruct (block_page D _ _ A j x Hc Hj) as (a' & Ha' & ? & ? & ? & ? & ? & _); [by eapply core_free|].
      destruct (bsize_facts j Hj) as (? & _). assert (a' = a) as -> by zdm. congruence. }
  pose proof (core_del D (hpages h) p' (words k2) (drop_words (Z.to_nat (1 * 1024)) a (words k2)) A2 a (Small i) Hc2)
    as Hc3. cbn [npages] in Hc3.
  eexists k2, _, _. split; [done|]. split; [by apply (free_pages_run a 1 (Heap (hpages h) k2))|]. cbn [hpages hk words].
  split; [done|]. split; [apply Hc3; try done; [by rewrite E1|intros w Hw; by apply drop_words_other]|].
  assert (Haway : ∀ b s, allocated A b s → b + s ≤ a ∨ a + 4096 ≤ b).
  { intros b s Hal. destruct Hal as [(j & Hj & Hb & Hnf & ->)|(a' & n & Ha' & -> & ->)].
    - destruct (block_page D _ _ A j b Hc Hj Hb) as (a' & Ha' & ? & ? & ? & ? & ? & _).
      destruct (decide (a' = a)) as [->|Hne]; [|assert (a' + 4096 ≤ a ∨ a + 4096 ≤ a') by zdm; lia].
      rewrite Ha in Ha'. injection Ha' as <-. destruct Hnf. apply Hblk, Hpage; [done|].
      destruct (bsize_facts i Hi) as (? & _). lia.
    - assert (Hne : a' ≠ a) by congruence. destruct (hc_apart _ _ _ _ Hc a' a _ _ Ha' Ha Hne) as [Hd|Hd]; simpl in Hd; lia. }
  split_and!.
  - intros a' j Ha'. cbn [arenas frees] in *. apply lookup_delete_Some in Ha' as [Hne Ha']. rewrite E1 in Ha'.
    destruct (hc_arena _ _ _ _ Hc a' _ Ha') as (R1 & _). assert (Hd : a' + 4096 ≤ a ∨ a + 4096 ≤ a') by zdm.
    rewrite drop_words_other by (unfold cnt_of; lia). rewrite (Hh2 a' _ _ Ha') by (unfold cnt_of; lia).
    assert (Hsame : in_arena a' (frees A2 j) = in_arena a' (frees A j)).
    { destruct (decide (j = i)) as [->|Hji]; [|by rewrite E3]. rewrite E2. apply in_arena_filter.
      intros x Hx Hr Hin. apply Hblk in Hin as [? _]. lia. }
    rewrite Hsame. split; [by apply Hcnt|by apply Hlt].
  - intros b s. split.
    + intros [(j & Hj & (a' & q & Ha' & Hq & Hb) & Hnf & Hs)|(a' & n & Ha' & Hb & Hs)]; cbn [arenas frees] in *;
        apply lookup_delete_Some in Ha' as [Hne Ha']; rewrite E1 in Ha'.
      * left. exists j. split_and!; [done|by exists a', q| |done]. destruct (decide (j = i)) as [->|Hji]; [|by rewrite E3 in Hnf].
        intros Hin. apply Hnf. rewrite E2. apply list_elem_of_filter. split; [|done]. intros Hx%Hblk.
        destruct (hc_arena _ _ _ _ Hc a' _ Ha') as (R1 & _). destruct (blk_facts a' i q Hi R1 Hq) as (? & ? & _). zdm.
      * right. by exists a', n.
    + intros Hal. pose proof (Haway b s Hal) as Hd. destruct (allocated_arena D _ _ A b s Hc Hal) as (_ & _ & _ & _ & _ & Hs0).
      destruct Hal as [(j & Hj & (a' & q & Ha' & Hq & Hb) & Hnf & Hs)|(a' & n & Ha' & Hb & Hs)].
      * destruct (hc_arena _ _ _ _ Hc a' _ Ha') as (R1 & _). destruct (blk_facts a' j q Hj R1 Hq) as (? & ? & _).
        left. exists j. split_and!; [done| | |done].
        -- exists a', q. cbn [arenas]. rewrite lookup_delete_ne, E1; [done|]. intros <-. lia.
        -- cbn [frees]. destruct (decide (j = i)) as [->|Hji]; [|by rewrite E3]. rewrite E2.
           intros Hin%list_elem_of_filter. by destruct Hin.
      * right. exists a', n. cbn [arenas]. rewrite lookup_delete_ne, E1; [done|]. congruence.
  - intros b s w Hal Hw. destruct (Haway b s Hal); rewrite drop_words_other by lia.
    all: apply Hf2, (fine_allocated D (hpages h) (words (hk h)) A i _ b s); try done; [by eapply core_free|].
    all: by apply (allocated_not_free D (hpages h) (words (hk h)) A i b s).
Qed.

Lemma free_small_ok D h A i b :
  heap_core D (hpages h) (words (hk h)) A → ps_held (hpages h) → counts_ok (words (hk h)) A → (i < DESC_CNT)%nat →
  is_block A i b → b ∉ frees A i →
  ∃ h' A', free_small (block2arena b) b (desc_i D i) h = Ok h' ∧ ps_held (hpages h') ∧
    heap_core D (hpages h') (words (hk h')) A' ∧ counts_ok (words (hk h')) A' ∧
    free_post b (words (hk h)) (words (hk h')) A A'.
Proof.
  intros Hc Hp Hcnt Hi Hb Hnf.
  destruct (give_block D (hpages h) (hk h) A i b Hc ltac:(by right) Hcnt Hi Hb Hnf)
    as (k1 & A1 & Hk & Hc0 & Hlt & Hh & Hc1 & Hcnt1 & (E1 & E2 & E3) & Hin & Hpost).
  destruct (block_arena D _ _ A i b Hc ltac:(by right) Hi Hb) as (Ha & _ & _).
  set (a := block2arena b) in *. set (c := zlen (in_arena a (frees A i))) in *.
  destruct (bsize_facts i Hi) as (S1 & _ & S3 & _). pose proof (zlen_nonneg (in_arena a (frees A i))) as Hc_pos. fold c in Hc_pos.
  assert (Hlt1 : ∀ a' j, arenas A1 !! a' = Some (Small j) → a' ≠ a → zlen (in_arena a' (frees A1 j)) < bpa j).
  { intros a' j Ha' Hne. rewrite E1 in Ha'. destruct (Hcnt a' j Ha') as [_ Hl].
    destruct (decide (j = i)) as [->|Hji]; [|by rewrite E3]. rewrite E2, in_arena_snoc, decide_False; [lia|].
    destruct (hc_arena _ _ _ _ Hc a _ Ha) as (R1 & _), (hc_arena _ _ _ _ Hc a' _ Ha') as (R2 & _).
    destruct (block_arena D _ _ A i b Hc ltac:(by right) Hi Hb) as (_ & P4 & P5). fold a in P4, P5. zdm. }
  unfold free_small. mrun Hk. mrun (ld_ok _ _ _ Hc0). rewrite (u32_small (c + 1)) by lia.
  rewrite stk_ok by (by eexists). cbn [mbind outcome_bind words kcpu].
  set (m2 := <[cnt_of a := c + 1]> (words k1)) in *.
  destruct (hc_desc _ _ _ _ Hc1 i Hi) as (_ & D2 & _). mrun (ld_ok _ _ _ D2).
  assert (Ha1 : arenas A1 !! a = Some (Small i)) by (by rewrite E1).
  destruct (Z.eqb_spec (c + 1) (bpa i)) as [Hfull|Hnfull].
  - destruct (drop_arena D (Heap (hpages h) (KMach m2 (kcpu k1))) A1 a i) as (k2 & h' & A' & Hk2 & Hfp & Hp' & Hc' & Hcnt' & Hal & Hkeep);
      try done; [congruence|]. cbn [hpages hk words] in *.
    mrun Hk2. exists h', A'. destruct Hpost as [F1 F2]. split; [done|]. split_and!; try done. split.
    + intros x s. rewrite Hal. apply F1.
    + intros x s w Hx Hne Hw. rewrite (Hkeep x s w); [by apply (F2 x s)|by apply F1|done].
  - eexists _, A1. split; [done|]. cbn [hpages hk words]. split_and!; try done.
    intros a' j Ha'. split; [by apply Hcnt1|]. destruct (decide (a' = a)) as [->|Hne]; [|by apply Hlt1].
    rewrite Ha1 in Ha'. injection Ha' as <-. lia.
Qed.
End FreeSpec.

(** ** The whole calls *)

Section Calls.
Context {P : Type} {PS : PageSource P} {PL : PageSourceLaws P}.
Implicit Types (p : P) (A : aheap) (h : heap P).

Lemma arena_malloc_ok D size h A :
  heap_inv D h A →
  ∃ r h' A', arena_malloc D size h = Ok (r, h') ∧ heap_inv D h' A' ∧
    (r = 0 → A' = A ∧ hk h' = hk h ∧ (0 < size < ps_size (hpages h) → out_of_room size (hpages h) A)) ∧
    (r ≠ 0 → 0 < size ∧ alloc_post size r (words (hk h)) (words (hk h')) A A').
Proof.
  intros [Hp Hc Hcnt]. unfold arena_malloc.
  destruct ((size >? 0) && (size <? ps_size (hpages h))) eqn:Esz; cbn [negb].
  2:{ exists 0, h, A. split_and!; try done. intros _. split_and!; try done. intros Hs. exfalso.
      rewrite (proj2 (Z.gtb_gt _ _)), (proj2 (Z.ltb_lt _ _)) in Esz by lia. done. }
 
  zbool. destruct (ps_bounds (hpages h) ltac:(by left)) as (_ & _ & Hsz).
  destruct (ps_acquire_ok (hpages h) Hp) as (p1 & Ha & Hp1 & Elo & Ehi & Hlv & Hfl). mrun Ha.
  pose proof (core_pages D (hpages h) p1 _ A Hc Elo Ehi Hlv) as Hc1.
  assert (Hrun : ∃ r h' A', (if size >? 1024 then malloc_large size (Heap p1 (hk h)) else malloc_small D size (Heap p1 (hk h)))
                   = Ok (r, h') ∧ ps_held (hpages h') ∧ heap_core D (hpages h') (words (hk h')) A' ∧
    counts_ok (words (hk h')) A' ∧ (r = 0 → A' = A ∧ hk h' = hk h ∧ out_of_room size p1 A) ∧
    (r ≠ 0 → alloc_post size r (words (hk h)) (words (hk h')) A A')).
  { destruct (size >? 1024) eqn:E; zbool.
    - apply (malloc_large_ok D size (Heap p1 (hk h)) A Hc1 Hp1 Hcnt). lia.
    - apply (malloc_small_ok D size (Heap p1 (hk h)) A Hc1 Hp1 Hcnt). lia. }
  destruct Hrun as (r & h' & A' & Hr & Hp' & Hc' & Hcnt' & Hz & Hnz). mrun Hr.
  destruct (ps_release_ok (hpages h') Hp') as (Hp2 & Elo2 & Ehi2 & Hlv2).
  exists r, (Heap (ps_release (hpages h')) (hk h')), A'. split; [done|]. split.
  - split; [done| |done]. by apply (core_pages D (hpages h')).
  - split; [|intros Hne; split; [done|auto]]. intros Er. destruct (Hz Er) as (E1 & E2 & [E3 E4]).
    split_and!; try done. intros _. split; [by apply Hfl|done].
Qed.

Lemma arena_free_ok D r sz h A :
  heap_inv D h A → allocated A r sz →
  ∃ h' A', arena_free r h = Ok h' ∧ heap_inv D h' A' ∧ free_post r (words (hk h)) (words (hk h')) A A'.
Proof.
  intros [Hp Hc Hcnt] Hal. destruct (ps_bounds (hpages h) ltac:(by left)) as (B1 & B2 & _).
  destruct (ps_acquire_ok (hpages h) Hp) as (p1 & Ha & Hp1 & Elo & Ehi & Hlv & _).
  pose proof (core_pages D (hpages h) p1 _ A Hc Elo Ehi Hlv) as Hc1.
  destruct (allocated_arena D _ _ A r sz Hc Hal) as (a0 & k0 & Ha0 & ? & ? & ?).
  destruct (hc_arena _ _ _ _ Hc a0 _ Ha0) as (_ & Hlo0 & _).
  unfold arena_free. rewrite (proj2 (Z.eqb_neq r 0)) by lia. mrun Ha. cbn [hk].
  assert (Hfin : ∀ h' A', ps_held (hpages h') → heap_core D (hpages h') (words (hk h')) A' → counts_ok (words (hk h')) A' →
    heap_inv D (Heap (ps_release (hpages h')) (hk h')) A').
  { intros h' A' Hp' Hc' Hcnt'. destruct (ps_release_ok (hpages h') Hp') as (Hp2 & Elo2 & Ehi2 & Hlv2).
    split; [done| |done]. by apply (core_pages D (hpages h')). }
  pose proof Hal as Hal0. destruct Hal as [(i & Hi & Hb & Hnf & ->)|(a & n & Han & -> & ->)].
  - destruct (block_arena D _ _ A i r Hc ltac:(by left) Hi Hb) as (Hbl & _ & _).
    destruct (hc_arena _ _ _ _ Hc _ _ Hbl) as (_ & _ & _ & _ & [_ Hd] & _). mrun (ld_ok _ _ _ Hd).
    destruct (desc_area D _ _ A i Hc Hi) as (A1 & _). destruct (hc_area _ _ _ _ Hc) as [HD _].
    rewrite (proj2 (Z.eqb_neq (desc_i D i) 0)) by lia. cbn [mbind outcome_bind].
    destruct (free_small_ok D (Heap p1 (hk h)) A i r Hc1 Hp1 Hcnt Hi Hb Hnf) as (h' & A' & Hf & Hp' & Hc' & Hcnt' & Hpost).
    mrun Hf. eexists _, A'. split; [done|]. split; [by apply Hfin|done].
  - destruct (hc_arena _ _ _ _ Hc _ _ Han) as (Q1 & Q2 & Q3 & Q4 & (_ & Hd & Hcn & Hlg) & _ & Q7). cbn [npages] in *.
    assert (Hba : block2arena (a + 12) = a).
    { change (block2arena (a + 12)) with (frame (a + 12)). rewrite frame_eq by lia. zdm. }
    rewrite Hba. mrun (ld_ok _ _ _ Hd). rewrite Z.eqb_refl. mrun (ld_ok _ _ _ Hlg). mrun (ld_ok _ _ _ Hcn).
    destruct (ps_free_ok a n p1 Hp1 Q4) as (p2 & Hpf & Hp2 & Elo2 & Ehi2 & Hlv2); [auto|done|lia|lia|].
    rewrite (free_pages_run a n (Heap p1 (hk h)) p2 Hpf). cbn [mbind outcome_bind hk].
    assert (Hother : ∀ b s, allocated A b s → b ≠ a + 12 → b + s ≤ a ∨ a + n * 4096 ≤ b).
    { intros b s Hb Hne. destruct (allocated_arena D _ _ A b s Hc Hb) as (c & l & Hcl & ? & ? & ?).
      destruct (decide (c = a)) as [->|Hca].
      - rewrite Han in Hcl. injection Hcl as <-. destruct (allocated_disjoint D _ _ A b s _ _ Hc Hb Hal0 Hne); cbn [npages] in *; lia.
      - destruct (hc_apart _ _ _ _ Hc c a _ _ Hcl Han Hca); cbn [npages] in *; lia. }
    assert (Hnof : ∀ i x, (i < DESC_CNT)%nat → x ∈ frees A i → ¬ (a ≤ x < a + n * 4096)).
    { intros i x Hi Hx. destruct (block_page D _ _ A i x Hc Hi) as (c & Hcc & ? & ? & ? & ? & ? & _); [by eapply core_free|].
      destruct (bsize_facts i Hi) as (? & _). assert (Hca : c ≠ a) by congruence.
      destruct (hc_apart _ _ _ _ Hc c a _ _ Hcc Han Hca); cbn [npages] in *; lia. }
    eexists _, (AHeap (delete a (arenas A)) (frees A)). split; [done|]. split.
    + apply (Hfin (Heap p2 (KMach _ (kcpu (hk h)))) _ Hp2); cbn [hpages hk words].
      * apply (core_del D p1 p2 (words (hk h)) _ A a (Large n)); cbn [npages]; try done.
        intros w Hw. by apply drop_words_other; [lia|].
      * intros a' j Ha'. cbn [arenas frees] in *. apply lookup_delete_Some in Ha' as [Hne Ha'].
        rewrite drop_words_other; [by apply Hcnt|lia|].
        destruct (hc_apart _ _ _ _ Hc a' a _ _ Ha' Han (not_eq_sym Hne)); cbn [npages] in *; unfold cnt_of; lia.
    + cbn [hk words]. split.
      * intros b s. split.
        -- intros [(j & Hj & (a' & q & Ha' & Hq & Hb) & Hnf & Hs)|(a' & m & Ha' & Hb & Hs)]; cbn [arenas frees] in *;
             apply lookup_delete_Some in Ha' as [Hne Ha'].
           ++ split; [left; exists j; split_and!; try done; by exists a', q|].
              destruct (hc_arena _ _ _ _ Hc a' _ Ha') as (R1 & _). destruct (blk_facts a' j q Hj R1 Hq) as (? & ? & _).
              destruct (hc_apart _ _ _ _ Hc a' a _ _ Ha' Han (not_eq_sym Hne)); cbn [npages] in *;
                destruct (bsize_facts j Hj) as (? & _); lia.
           ++ split; [right; by exists a', m|]. lia.
        -- intros [[(j & Hj & (a' & q & Ha' & Hq & Hb) & Hnf & Hs)|(a' & m & Ha' & Hb & Hs)] Hne].
           ++ left. exists j. split_and!; try done. exists a', q. cbn [arenas].
              rewrite lookup_delete_ne by congruence. done.
           ++ right. exists a', m. cbn [arenas]. rewrite lookup_delete_ne by (intros ->; lia). done.
      * intros b s w Hb Hne Hw. apply drop_words_other; [lia|]. destruct (Hother b s Hb Hne); lia.
Qed.

(** ** Initialisation *)

Definition empty_heap : aheap := AHeap ∅ (λ _, []).

(** The descriptors below [j] are set up. *)
Definition descs_done (D : Z) (m : mem) (j : nat) : Prop :=
  ∀ i, (i < j)%nat → m !! block_size_of (desc_i D i) = Some (bsize i) ∧
    m !! blocks_per_arena_of (desc_i D i) = Some (bpa i) ∧ is_list m (free_list_of (desc_i D i)) [].

Lemma list_init_run k l :
  (∀ c, c = 0 ∨ c = 4 ∨ c = 8 ∨ c = 12 → is_Some (words k !! (l + c))) →
  list_init k l = Ok (KMach (<[l + 12 := 0]> (<[l + 8 := l]> (<[l + 4 := l + 8]> (<[l := 0]> (words k))))) (kcpu k)).
Proof.
  intros H. assert (H0 := H 0 ltac:(lia)). rewrite Z.add_0_r in H0. unfold list_init, head_of, tail_of, prev_of, next_of.
  rewrite st_ok by done. cbn [mbind outcome_bind]. rewrite st_ok by (apply mapped_insert, H; lia). cbn [mbind outcome_bind].
  rewrite st_ok by (do 2 apply mapped_insert; apply H; lia). cbn [mbind outcome_bind].
  replace (l + 8 + 4) with (l + 12) by lia. rewrite st_ok by (do 3 apply mapped_insert; apply H; lia). done.
Qed.

Lemma desc_init_ok D n : ∀ j k,
  (j + n = DESC_CNT)%nat → (∀ c, 0 ≤ c < 42 → is_Some (words k !! (D + 4 * c))) → descs_done D (words k) j →
  ∃ k', desc_init_loop n D (Z.of_nat j) (bsize j) k = Ok k' ∧ descs_done D (words k') DESC_CNT ∧
    ∀ w, ¬ (D ≤ w < D + 168) → words k' !! w = words k !! w.
Proof.
  induction n as [|n IH]; intros j k Hj Hm Hd.
  - exists k. replace j with DESC_CNT in Hd by lia. done.
  - assert (Hjd : (j < DESC_CNT)%nat) by lia. destruct (bsize_facts j Hjd) as (S1 & S2 & S3 & _).
    cbn [desc_init_loop]. fold (desc_i D j).
    assert (Edj : desc_i D j = D + 24 * Z.of_nat j) by done. set (d := desc_i D j) in *.
    assert (Hcell : ∀ c, 0 ≤ c < 6 → is_Some (words k !! (d + 4 * c))).
    { intros c Hc. rewrite Edj. replace (D + 24 * Z.of_nat j + 4 * c) with (D + 4 * (6 * Z.of_nat j + c)) by lia.
      apply Hm. unfold DESC_CNT in *. lia. }
    assert (Hc0 := Hcell 0 ltac:(lia)). rewrite Z.mul_0_r, Z.add_0_r in Hc0.
    rewrite stk_ok by done. cbn [mbind outcome_bind words kcpu].
    rewrite stk_ok by (cbn [words]; apply mapped_insert, (Hcell 1); lia). cbn [mbind outcome_bind words kcpu].
    rewrite list_init_run.
    2: { intros c Hc. cbn [words]. do 2 apply mapped_insert. unfold free_list_of.
         replace (d + 8 + c) with (d + 4 * ((8 + c) / 4)) by zdm. apply Hcell. zdm. }
    cbn [mbind outcome_bind words kcpu].
    change ((PG_SIZE - sizeof_arena) / bsize j) with (bpa j).
    set (m' := <[free_list_of d + 12:=0]> _).
    assert (Hout : ∀ w, ¬ (d ≤ w < d + 24) → m' !! w = words k !! w).
    { intros w Hw. unfold m', free_list_of, block_size_of, blocks_per_arena_of. rewrite !lookup_insert_ne by lia. done. }
    assert (Hnew : m' !! block_size_of d = Some (bsize j) ∧ m' !! blocks_per_arena_of d = Some (bpa j) ∧
                   is_list m' (free_list_of d) []).
    { unfold m', free_list_of, block_size_of, blocks_per_arena_of. split_and!.
      - rewrite !lookup_insert_ne by lia. by rewrite lookup_insert_eq.
      - rewrite !lookup_insert_ne by lia. by rewrite lookup_insert_eq.
      - unfold is_list, list_nodes, head_of, tail_of, linked, prev_of, next_of. simpl.
        unfold linked, next_of, prev_of. replace (d + 8 + 8 + 4) with (d + 8 + 12) by lia.
        rewrite lookup_insert_eq. rewrite !(lookup_insert_ne _ (d + 8 + 12)) by lia.
        rewrite lookup_insert_eq, (lookup_insert_ne _ (d + 8 + 8)) by lia. rewrite lookup_insert_eq.
        split_and!; [done|done|done|repeat constructor; unfold apart; lia|repeat constructor|done|by eexists]. }
    destruct (IH (S j) (KMach m' (kcpu k))) as (k' & Hk' & Hd' & Ho'); [lia| | |].
    { intros c Hc. cbn [words]. unfold m'. do 6 apply mapped_insert. by apply Hm. }
    { intros i Hi. cbn [words]. destruct (decide (i = j)) as [->|Hne]; [exact Hnew|].
      destruct (Hd i ltac:(lia)) as (I1 & I2 & I3). assert (Edi : desc_i D i = D + 24 * Z.of_nat i) by done.
      rewrite !Hout by (unfold block_size_of, blocks_per_arena_of; lia). split_and!; [done|done|].
      eapply is_list_frame; [done|]. intros x Hx. unfold list_nodes, head_of, tail_of, free_list_of in Hx. cbn [app] in Hx.
      assert (Hx' : x = desc_i D i + 8 ∨ x = desc_i D i + 8 + 8) by set_solver.
      unfold prev_of, next_of. split; apply Hout; lia. }
    exists k'. split; [|split; [done|]].
    + replace (Z.of_nat j + 1) with (Z.of_nat (S j)) by lia.
      replace (u16 (bsize j * 2)) with (bsize (S j)); [exact Hk'|]. unfold u16. rewrite Z.mod_small by lia.
      unfold bsize. rewrite Nat2Z.inj_succ, Z.pow_succ_r by lia. lia.
    + intros w Hw. rewrite Ho' by done. cbn [words]. apply Hout. unfold DESC_CNT in *. lia.
Qed.

Lemma block_desc_init_ok D k p :
  ps_inv p → 0 < D → D + 168 ≤ ps_lo p ∨ ps_hi p ≤ D → (∀ c, 0 ≤ c < 42 → is_Some (words k !! (D + 4 * c))) →
  ∃ k', block_desc_init D k = Ok k' ∧ heap_inv D (Heap p k') empty_heap ∧
    ∀ w, ¬ (D ≤ w < D + 168) → words k' !! w = words k !! w.
Proof.
  intros Hp HD Harea Hm. destruct (desc_init_ok D DESC_CNT 0 k) as (k' & Hk' & Hd & Ho); [done|done|intros i Hi; lia|].
  exists k'. split; [exact Hk'|]. split; [|done]. split; [done| |done]. cbn [hpages hk]. split; try done.
  intros i x Hi Hx. by apply elem_of_nil in Hx.
Qed.
End Calls.
