(* ===== verification/HeapPages.v ===== *)
(** * The page allocator as a source of heap pages

    [Paging] keeps the promise that [Arena] asks for: the operations of a pool with
    its address pool satisfy [PageSourceLaws], and the theorems on the arenas become
    theorems on [sys_malloc] and [sys_free]. *)

From S2P Require Import Prelude Interrupt KList Bitmap Sched Sync Paging Arena.

(** ** What the operations leave alone *)

Definition rest (s : mstate) : lock * lock * Z * Z * Z * Z :=
  (plock (kernel_pool s), plock (user_pool s), pool_size (kernel_pool s), pool_size (user_pool s),
   cur_thread s, cur_pgdir s).

Lemma rest_set_bitmap pf b s : rest (set_pool pf (with_bitmap b (get_pool pf s)) s) = rest s.
Proof. by destruct pf. Qed.

Lemma rest_set_vaddr pf v s : rest (set_vaddr pf v s) = rest s.
Proof. by destruct pf. Qed.

Lemma wr32_rest va v s s' : wr32 va v s = Ok s' → rest s' = rest s.
Proof. unfold wr32. intros H. inv_ok. by subst. Qed.

Lemma clear_words_rest n va s s' : clear_words n va s = Ok s' → rest s' = rest s.
Proof.
  revert va s. induction n as [|n IH]; intros va s H; cbn [clear_words] in H; [by injection H as ->|].
  apply bind_ok_iff in H as (s1 & H1 & H2). rewrite (IH _ _ H2). by eapply wr32_rest.
Qed.

Lemma palloc_rest pf s v s' : palloc pf s = Ok (v, s') → rest s' = rest s.
Proof.
  unfold palloc. intros H. apply bind_ok_iff in H as (i & _ & H). destruct (i =? -1); [by injection H as _ <-|].
  apply bind_ok_iff in H as (b & _ & H). injection H as _ <-. apply rest_set_bitmap.
Qed.

Lemma page_table_add_rest va pa s s' : page_table_add va pa s = Ok s' → rest s' = rest s.
Proof.
  unfold page_table_add. intros H. apply bind_ok_iff in H as (e & _ & H). destruct (present e).
  - apply bind_ok_iff in H as (x & _ & H). by eapply wr32_rest.
  - apply bind_ok_iff in H as ([f s1] & H1 & H). apply bind_ok_iff in H as (s2 & H2 & H).
    apply bind_ok_iff in H as (s3 & H3 & H).
    rewrite (wr32_rest _ _ _ _ H), (clear_words_rest _ _ _ _ H3), (wr32_rest _ _ _ _ H2). by eapply palloc_rest.
Qed.

Lemma map_pages_rest n pf va s ok s' : map_pages n pf va s = Ok (ok, s') → rest s' = rest s.
Proof.
  revert va s. induction n as [|n IH]; intros va s H; cbn [map_pages] in H; [by injection H as _ ->|].
  apply bind_ok_iff in H as ([f s1] & H1 & H). destruct (f =? 0).
  - injection H as _ <-. by eapply palloc_rest.
  - apply bind_ok_iff in H as (s2 & H2 & H). rewrite (IH _ _ H), (page_table_add_rest _ _ _ _ H2). by eapply palloc_rest.
Qed.

Lemma malloc_page_rest pf n s v s' : malloc_page pf n s = Ok (v, s') → rest s' = rest s.
Proof.
  unfold malloc_page, vaddr_get. intros H. apply bind_ok_iff in H as ([v1 s1] & H1 & H).
  assert (Hr : rest s1 = rest s).
  { apply bind_ok_iff in H1 as (i & _ & H1). destruct (i =? -1); [by injection H1 as _ <-|].
    apply bind_ok_iff in H1 as (b & _ & H1). injection H1 as _ <-. apply rest_set_vaddr. }
  destruct (v1 =? 0); [by injection H as _ <-|]. apply bind_ok_iff in H as ([ok s2] & H2 & H).
  injection H as _ <-. rewrite <- Hr. by eapply map_pages_rest.
Qed.

Lemma unmap_pages_rest n va s s' : unmap_pages n va s = Ok s' → rest s' = rest s.
Proof.
  revert va s. induction n as [|n IH]; intros va s H; cbn [unmap_pages] in H; [by injection H as ->|].
  apply bind_ok_iff in H as (pa & _ & H). apply bind_ok_iff in H as (s1 & H1 & H).
  apply bind_ok_iff in H as (s2 & H2 & H). rewrite (IH _ _ H).
  unfold page_table_pte_remove in H2. apply bind_ok_iff in H2 as (e & _ & H2). rewrite (wr32_rest _ _ _ _ H2).
  unfold pfree in H1. apply bind_ok_iff in H1 as (b & _ & H1). injection H1 as <-. apply rest_set_bitmap.
Qed.

Lemma mfree_page_rest pf va n s s' : mfree_page pf va n s = Ok s' → rest s' = rest s.
Proof.
  unfold mfree_page, vaddr_remove. intros H. apply bind_ok_iff in H as (pa & _ & H).
  apply bind_ok_iff in H as (s1 & H1 & H). apply bind_ok_iff in H as (b & _ & H). injection H as <-.
  rewrite rest_set_vaddr. by eapply unmap_pages_rest.
Qed.

(** ** The invariant of a pool with its address pool *)

Definition vpage (pf : pool_flags) (s : mstate) (i : Z) : Z := vaddr_start (get_vaddr pf s) + i * 4096.
Definition vpages (pf : pool_flags) (s : mstate) : Z := nbits (vaddr_bitmap (get_vaddr pf s)) + 1.

(** Page [i] is in use and has frame [r] of the pool. *)
Record mapped_at (pf : pool_flags) (s : mstate) (i r : Z) : Prop := {
  ma_page : 0 ≤ i < vpages pf s;
  ma_bit : vaddr_bit pf s i = true;
  ma_frame : 0 ≤ r < nbits (pool_bitmap (get_pool pf s));
  ma_trans : translate (phys s) (mcr3 s) (vpage pf s i) = Some (frame_addr pf s r);
}.

Record pages_inv (pf : pool_flags) (s : mstate) : Prop := {
  pi_space : ∃ lo, as_from lo s ∧ vaddr_from lo pf s;
  pi_unused : ∀ i, 0 ≤ i < vpages pf s → vaddr_bit pf s i = false →
    translate (phys s) (mcr3 s) (vpage pf s i) = None;
  pi_taken : ∀ i r, mapped_at pf s i r → pool_bit pf s r = true ∧ ¬ table_frame s (frame_addr pf s r);
  pi_inj : ∀ i j r, mapped_at pf s i r → mapped_at pf s j r → i = j;
  pi_size : pool_size (get_pool pf s) < 2147483648;
  pi_thread : cur_thread s ≠ 0;
}.

Definition held_lock (t : Z) : lock := Lock t (Semaphore 0 []) 1.

Definition live (pf : pool_flags) (s : mstate) (q : Z) : Prop := ∃ i r, q = vpage pf s i ∧ mapped_at pf s i r.

(** The lock of the pool is not part of it. *)
Lemma pages_inv_lock pf l s :
  pages_inv pf s → pages_inv pf (set_pool pf (with_lock l (get_pool pf s)) s) ∧
  ∀ q, live pf s q → live pf (set_pool pf (with_lock l (get_pool pf s)) s) q.
Proof.
  intros [(lo & H1 & [V1 V2 V3 V4 V5 V6]) H3 H4 H5 H6 H7].
  assert (Hm : ∀ i r, mapped_at pf (set_pool pf (with_lock l (get_pool pf s)) s) i r ↔ mapped_at pf s i r).
  { intros i r. destruct pf; split; (intros [M1 M2 M3 M4]; split; [exact M1|exact M2|exact M3|exact M4]). }
  split.
  - split; [exists lo; split; [by apply as_wf_set_lock|by destruct pf]| | | | |]; destruct pf; try done.
    + intros i r Hir. apply (H4 i r). by apply Hm.
    + intros i r Hir. apply (H4 i r). by apply Hm.
    + intros i j r Hi Hj. apply (H5 i j r); by apply Hm.
    + intros i j r Hi Hj. apply (H5 i j r); by apply Hm.
  - intros q (i & r & -> & Hir). exists i, r. split; [by destruct pf|by apply Hm].
Qed.

(** ** Allocating *)

Lemma page_of_index fs va i n pf s :
  va = vpage pf s i → vaddr_start (get_vaddr pf s) mod 4096 = 0 →
  page_of fs va (vpage pf s n) = if i <=? n then fs !! Z.to_nat (n - i) else None.
Proof.
  intros -> Hal. unfold page_of, vpage in *.
  replace ((vaddr_start (get_vaddr pf s) + i * 4096) / 4096) with (vaddr_start (get_vaddr pf s) / 4096 + i) by zdm.
  replace ((vaddr_start (get_vaddr pf s) + n * 4096) / 4096) with (vaddr_start (get_vaddr pf s) / 4096 + n) by zdm.
  destruct (Z.leb_spec i n), (Z.leb_spec (vaddr_start (get_vaddr pf s) / 4096 + i) (vaddr_start (get_vaddr pf s) / 4096 + n));
    try lia; [|done]. f_equal. lia.
Qed.

(** The state after the pages [i .. i + n - 1] were marked and the first [length fs] of
    them were mapped. *)
Record grown (lo : N) (pf : pool_flags) (s s' : mstate) (i n : Z) (fs : list Z) : Prop := {
  gr_as : as_from lo s';
  gr_va : vaddr_from lo pf s';
  gr_start : vaddr_start (get_vaddr pf s') = vaddr_start (get_vaddr pf s);
  gr_nbits : vpages pf s' = vpages pf s;
  gr_bits : ∀ j, 0 ≤ j → vaddr_bit pf s' j = bool_decide (i ≤ j < i + n) || vaddr_bit pf s j;
  gr_run : mapped_run lo pf s s' (vpage pf s i) fs;
  gr_pool : nbits (pool_bitmap (get_pool pf s')) = nbits (pool_bitmap (get_pool pf s)) ∧
            frame_addr pf s' = frame_addr pf s;
  gr_tables : ∀ f, table_frame s' f → table_frame s f;
}.

Lemma malloc_grown lo pf n s :
  as_from lo s → vaddr_from lo pf s → 1 ≤ n < 4294967296 →
  ∃ v s', malloc_page pf n s = Ok (v, s') ∧
    ((v = 0 ∧ s' = s ∧ no_room pf n s) ∨
     ∃ i fs, 0 ≤ i ∧ i + n ≤ vpages pf s ∧ clear_run (vaddr_bitmap (get_vaddr pf s)) i n ∧
       (length fs ≤ Z.to_nat n)%nat ∧ grown lo pf s s' i n fs ∧
       (v = 0 ∧ no_room pf n s ∨ v = vpage pf s i ∧ length fs = Z.to_nat n)).
Proof.
  intros Hs [V1 V2 V3 V4 V5 V6] Hn. unfold malloc_page, vaddr_get.
  pose proof (wf_len _ V1) as Hlen. pose proof (wf_small _ V1) as Hsmall.
  destruct (bitmap_scan_any _ n V1 V2 Hn) as (i & Hi & Hfit). mrun Hi.
  destruct (Z.eqb_spec i (-1)) as [->|Hne].
  { exists 0, s. split; [done|]. left. split; [done|]. split; [done|]. left.
    destruct Hfit as [[_ Hno]|(? & _)]; [|lia]. intros j Hj Hjn. apply Hno; [done|]. destruct (n =? 1); lia. }
  assert (Hb : 0 ≤ i ∧ i + n ≤ nbits (vaddr_bitmap (get_vaddr pf s)) + 1 ∧
               clear_run (vaddr_bitmap (get_vaddr pf s)) i n).
  { destruct Hfit as [[? _]|(? & ? & ? & _)]; [done|]. split_and!; try done. destruct (n =? 1); lia. }
  destruct Hb as (Hi0 & Hin & Hclr). unfold nbits in *. rewrite (u32_small i) by lia.
  destruct (set_run_ok (Z.to_nat n) _ i 1 V1 Hi0) as (b' & Hb' & Hwf' & Hl' & Hz' & Hbits'); [lia|].
  mrun Hb'. unfold PG_SIZE. rewrite u32_small by lia. rewrite (proj2 (Z.eqb_neq _ _)) by lia.
  fold (vpage pf s i). set (s1 := set_vaddr pf (VirtualAddr b' (vaddr_start (get_vaddr pf s))) s).
  destruct (map_pages_ok (lo := lo) (Z.to_nat n) pf (vpage pf s i) s1) as (ok & s' & fs & Hmap & Hs' & Hsb & Hok & M1 & M2 & M3 & M4).
  { by apply as_wf_set_vaddr. } { unfold vpage. lia. } { unfold vpage. zdm. } { unfold vpage. lia. }
  { apply (tables_present_run s1 _ (Z.to_nat (8 * btmp_bytes_len (vaddr_bitmap (get_vaddr pf s)) + 1)));
      [|done|lia]. destruct pf; exact V6. }
  mrun Hmap. eexists _, s'. split; [done|]. right.
  assert (Hgv : get_vaddr pf s' = VirtualAddr b' (vaddr_start (get_vaddr pf s)))
    by (rewrite (sb_vaddr _ _ _ Hsb); by destruct pf).
  exists i, fs. split; [done|]. split; [exact Hin|]. split; [done|].
  split; [destruct ok; lia|]. split.
  - split.
    + done.
    + assert (Htp : tables_present s' (vaddr_start (get_vaddr pf s)) (Z.to_nat (nbits b' + 1))).
      { unfold nbits. rewrite Hl'. intros k Hk. destruct (V6 k Hk) as (e & He & Hp). exists e. split; [|done].
        apply (sb_pde _ _ _ Hsb); [|by destruct pf].
        destruct (va_idx (vaddr_start (get_vaddr pf s) + k * 4096)) as (_ & _ & ? & _); [unfold va_ok; lia|lia]. }
      split; rewrite ?Hgv; cbn [vaddr_bitmap vaddr_start]; try done; try lia; unfold nbits in *; rewrite ?Hl'; done || lia.
    + by rewrite Hgv.
    + unfold vpages, nbits. by rewrite Hgv, <- Hl'.
    + intros j Hj. unfold vaddr_bit. rewrite Hgv. cbn [vaddr_bitmap]. rewrite Hbits', Z2Nat.id by lia.
      case_decide; [by rewrite bool_decide_true|by rewrite bool_decide_false].
    + split; try done; by destruct pf.
    + split; [rewrite (sb_nbits _ _ _ Hsb)|unfold frame_addr; rewrite (sb_start _ _ _ Hsb)]; by destruct pf.
    + intros f Hf. apply (table_frame_same (lo := lo) pf s1) in Hf; [|by apply as_wf_set_vaddr|done]. by destruct pf.
  - destruct ok; [by right|left]. split; [done|]. destruct Hok as [Hl Hall].
    by apply (few_frames pf n s s1 s' fs Hl); [destruct pf|..].
Qed.

Lemma vpage_ok lo pf s i : vaddr_from lo pf s → 0 ≤ i < vpages pf s →
  va_from lo (vpage pf s i) ∧ vpage pf s i mod 4096 = 0 ∧ vpage pf s i + 4096 ≤ 0xffc00000.
Proof. intros [V1 V2 V3 V4 V5 V6] Hi. unfold va_from, vpage, vpages in *. split_and!; zdm. Qed.

(** What page [j] is mapped to after the pages [i ..] have grown. *)
Lemma grown_trans lo pf s s' i n fs j :
  vaddr_from lo pf s → grown lo pf s s' i n fs → 0 ≤ j < vpages pf s →
  vpage pf s' j = vpage pf s j ∧
  translate (phys s') (mcr3 s') (vpage pf s' j) =
    match (if i <=? j then fs !! Z.to_nat (j - i) else None) with
    | Some r => Some (frame_addr pf s r)
    | None => translate (phys s) (mcr3 s) (vpage pf s j)
    end.
Proof.
  intros Hv [G1 G2 G3 G4 G5 [R1 R2 R3 R4] G7 G8] Hj.
  assert (E : vpage pf s' j = vpage pf s j) by (unfold vpage; by rewrite G3). split; [done|]. rewrite E.
  destruct (vpage_ok lo pf s j Hv Hj) as (A1 & A2 & _). rewrite R4 by done.
  rewrite (page_of_index fs _ i j pf s eq_refl (vw_align _ _ Hv)), A2.
  destruct (if i <=? j then _ else _); [by rewrite Z.add_0_r|done].
Qed.

Lemma frame_addr_inj pf s r r' : frame_addr pf s r = frame_addr pf s r' → r = r'.
Proof. unfold frame_addr. lia. Qed.

(** The pages in use after growing are the old ones and those just mapped. *)
Lemma grown_mapped lo pf s s' i n fs j r :
  pages_inv pf s → vaddr_from lo pf s → grown lo pf s s' i n fs → clear_run (vaddr_bitmap (get_vaddr pf s)) i n → 0 ≤ i →
  i + n ≤ vpages pf s → (length fs ≤ Z.to_nat n)%nat → 0 ≤ n →
  mapped_at pf s' j r ↔ mapped_at pf s j r ∨ (i ≤ j < i + n ∧ fs !! Z.to_nat (j - i) = Some r).
Proof.
  intros [_ H3 H4 H5 H6 H7] H2 G Hclr Hi Hin Hlen Hn. pose proof G as [G1 G2 G3 G4 G5 [R1 R2 R3 R4] [G7 G7'] G8].
  split.
  - intros [M1 M2 M3 M4]. rewrite G4 in M1. rewrite G7 in M3. rewrite G7' in M4.
    destruct (grown_trans lo pf s s' i n fs j H2 G M1) as [Ep Et]. rewrite M4 in Et.
    rewrite G5 in M2 by lia. destruct (Z.leb_spec i j) as [Hij|Hij].
    + destruct (fs !! Z.to_nat (j - i)) as [r'|] eqn:El.
      * right. pose proof (lookup_lt_Some _ _ _ El). injection Et as Et%frame_addr_inj. subst r'. split; [lia|done].
      * left. destruct (bool_decide_reflect (i ≤ j < i + n)) as [Hr|Hr]; cbn [orb] in M2.
        -- rewrite H3 in Et; [done|done|]. by apply Hclr.
        -- split; try done.
    + left. rewrite bool_decide_false in M2 by lia. split; done.
  - intros [[M1 M2 M3 M4]|[Hr El]].
    + destruct (grown_trans lo pf s s' i n fs j H2 G M1) as [Ep Et].
      assert (Hout : ¬ (i ≤ j < i + n)).
      { intros Hr. pose proof (Hclr j Hr) as Hb. unfold vaddr_bit in M2. congruence. }
      assert (Hnone : (if i <=? j then fs !! Z.to_nat (j - i) else None) = None).
      { destruct (Z.leb_spec i j); [|done]. apply lookup_ge_None_2. lia. }
      rewrite Hnone in Et. split; [by rewrite G4|rewrite G5, M2 by lia; apply orb_true_r|by rewrite G7|].
      rewrite Et, G7'. done.
    + destruct (grown_trans lo pf s s' i n fs j H2 G ltac:(lia)) as [Ep Et].
      rewrite (proj2 (Z.leb_le i j)), El in Et by lia.
      split; [rewrite G4; lia|rewrite G5, bool_decide_true by lia; done| |by rewrite Et, G7'].
      rewrite G7. apply R2. by eapply list_elem_of_lookup_2.
Qed.

Lemma malloc_keeps pf n s v s' :
  pages_inv pf s → 1 ≤ n < 1048576 → malloc_page pf n s = Ok (v, s') →
  pages_inv pf s' ∧ vaddr_start (get_vaddr pf s') = vaddr_start (get_vaddr pf s) ∧
  (∀ q, live pf s q → live pf s' q) ∧
  (v ≠ 0 → v mod 4096 = 0 ∧ vaddr_start (get_vaddr pf s) ≤ v ∧ v + n * 4096 ≤ 0xffc00000 ∧
     ∀ k, 0 ≤ k < n → ¬ live pf s (v + k * 4096) ∧ live pf s' (v + k * 4096)).
Proof.
  intros Hinv Hn Hm. pose proof Hinv as [(lo & H1 & H2) H3 H4 H5 H6 H7].
  pose proof (malloc_page_rest _ _ _ _ _ Hm) as Hrest.
  destruct (malloc_grown lo pf n s H1 H2 ltac:(lia)) as (v1 & s1 & Hm1 & Hcase). rewrite Hm in Hm1. injection Hm1 as <- <-.
  destruct Hcase as [(-> & -> & _)|(i & fs & Hi & Hin & Hclr & Hlen & G & Hv)]; [by split_and!|].
  pose proof G as [G1 G2 G3 G4 G5 [R1 R2 R3 R4] [G7 G7'] G8].
  pose proof (λ j r, grown_mapped lo pf s s' i n fs j r Hinv H2 G Hclr Hi Hin Hlen ltac:(lia)) as Hmap.
  assert (Hnew : ∀ j r, i ≤ j < i + n → fs !! Z.to_nat (j - i) = Some r →
    0 ≤ r < nbits (pool_bitmap (get_pool pf s)) ∧ pool_bit pf s r = false ∧ r ∈ fs).
  { intros j r Hj El. apply list_elem_of_lookup_2 in El. destruct (R2 r El). done. }
  split_and!; [|done| |].
  - split; try done; [by exists lo|..].
    + intros j Hj Hb. rewrite G4 in Hj. destruct (grown_trans lo pf s s' i n fs j H2 G Hj) as [_ Et].
      rewrite G5 in Hb by lia. apply orb_false_iff in Hb as [Hb1 Hb2]. apply bool_decide_eq_false in Hb1.
      rewrite Et. replace (if i <=? j then fs !! Z.to_nat (j - i) else None) with (@None Z); [by apply H3|].
      destruct (Z.leb_spec i j); [|done]. symmetry. apply lookup_ge_None_2. lia.
    + intros j r [Hold|[Hr El]]%Hmap; rewrite G7'.
      * destruct (H4 j r Hold) as [Hp Ht]. split; [|naive_solver]. rewrite R3, Hp by apply Hold. apply orb_true_r.
      * destruct (Hnew j r Hr El) as (A1 & A2 & A3). split; [rewrite R3, bool_decide_true by (done || lia); done|].
        intros Hf%G8. destruct pf; [revert Hf; apply (fresh_not_table s r _ H1); [lia|done|done]|].
        revert Hf. apply (user_not_table _ _ H1). unfold frame_addr. simpl. lia.
    + intros j1 j2 r [O1|[Hr1 E1]]%Hmap [O2|[Hr2 E2]]%Hmap.
      * by apply (H5 j1 j2 r).
      * destruct (H4 j1 r O1) as [Hp _]. destruct (Hnew j2 r Hr2 E2) as (_ & ? & _). congruence.
      * destruct (H4 j2 r O2) as [Hp _]. destruct (Hnew j1 r Hr1 E1) as (_ & ? & _). congruence.
      * pose proof (NoDup_lookup _ _ _ _ R1 E1 E2). lia.
    + assert (E : pool_size (get_pool pf s') = pool_size (get_pool pf s)); [|by rewrite E].
      unfold rest in Hrest. injection Hrest as ? ? ? ? ? ?. destruct pf; done.
    + unfold rest in Hrest. injection Hrest as ? ? ? ? Et ?. congruence.
  - intros q (j & r & -> & Hj). exists j, r. split; [unfold vpage; by rewrite G3|]. apply Hmap. by left.
  - intros Hne. destruct Hv as [[-> _]|[-> Hfs]]; [done|].
    destruct (vpage_ok lo pf s i H2 ltac:(lia)) as (A1 & A2 & _). destruct (vpage_ok lo pf s (i + n - 1) H2 ltac:(lia)) as (_ & _ & A3).
    unfold vpage in *. split_and!; [done|lia|lia|]. intros k Hk. split.
    + intros (j & r & E & [M1 M2 M3 M4]). unfold vpage in E. assert (j = i + k) as -> by lia.
      pose proof (Hclr (i + k) ltac:(lia)). unfold vaddr_bit in M2. congruence.
    + destruct (lookup_lt_is_Some_2 fs (Z.to_nat k)) as [r Hr]; [lia|]. exists (i + k), r.
      split; [unfold vpage; rewrite G3; lia|]. apply Hmap. right. split; [lia|]. by replace (i + k - i) with k by lia.
Qed.

(** ** Freeing *)

(** The frames of a run of live pages. *)
Lemma live_frames lo pf s v (n : nat) :
  vaddr_from lo pf s → (∀ k, 0 ≤ k < Z.of_nat n → live pf s (v + k * 4096)) → (0 < n)%nat →
  ∃ i fs, v = vpage pf s i ∧ 0 ≤ i ∧ i + Z.of_nat n ≤ vpages pf s ∧ length fs = n ∧
    ∀ k r, fs !! k = Some r → mapped_at pf s (i + Z.of_nat k) r.
Proof.
  intros Hv Hl Hn. destruct (Hl 0 ltac:(lia)) as (i & r0 & Ei & M0). rewrite Z.mul_0_l, Z.add_0_r in Ei.
  exists i. assert (Hk : ∀ k, 0 ≤ k < Z.of_nat n → ∃ r, mapped_at pf s (i + k) r).
  { intros k Hk. destruct (Hl k Hk) as (j & r & Ej & Mj). exists r. unfold vpage in *.
    by replace (i + k) with j by lia. }
  assert (Hfs : ∀ m, (m ≤ n)%nat → ∃ fs, length fs = m ∧ ∀ k r, fs !! k = Some r → mapped_at pf s (i + Z.of_nat k) r).
  { induction m as [|m IH]; intros Hm; [exists []; split; [done|]; intros k r Hx; by rewrite lookup_nil in Hx|].
    destruct IH as (fs & Lf & Hf); [lia|]. destruct (Hk (Z.of_nat m) ltac:(lia)) as [r Hr].
    exists (fs ++ [r]). rewrite length_app. simpl. split; [lia|]. intros k x [Hx|[Hx1 Hx2]]%lookup_app_Some; [auto|].
    apply list_lookup_singleton_Some in Hx2 as [Hx2 <-]. by replace k with m by lia. }
  destruct (Hfs n ltac:(lia)) as (fs & Lf & Hf). exists fs. destruct (Hk (Z.of_nat n - 1) ltac:(lia)) as [r Mr].
  pose proof (ma_page _ _ _ _ M0). pose proof (ma_page _ _ _ _ Mr). split_and!; done || lia.
Qed.

(** The state after the pages [i .. i + n - 1] with frames [fs] were given back. *)
Record shrunk (lo : N) (pf : pool_flags) (s s' : mstate) (i n : Z) (fs : list Z) : Prop := {
  sh_as : as_from lo s';
  sh_va : vaddr_from lo pf s';
  sh_start : vaddr_start (get_vaddr pf s') = vaddr_start (get_vaddr pf s);
  sh_nbits : vpages pf s' = vpages pf s;
  sh_bits : ∀ j, 0 ≤ j → vaddr_bit pf s' j = negb (bool_decide (i ≤ j < i + n)) && vaddr_bit pf s j;
  sh_frames : ∀ r, 0 ≤ r → pool_bit pf s' r = negb (bool_decide (r ∈ fs)) && pool_bit pf s r;
  sh_trans : ∀ j, 0 ≤ j < vpages pf s → translate (phys s') (mcr3 s') (vpage pf s j) =
    if bool_decide (i ≤ j < i + n) then None else translate (phys s) (mcr3 s) (vpage pf s j);
  sh_pool : nbits (pool_bitmap (get_pool pf s')) = nbits (pool_bitmap (get_pool pf s)) ∧
            frame_addr pf s' = frame_addr pf s;
  sh_tables : ∀ f, table_frame s' f → table_frame s f;
}.

Lemma mfree_shrunk pf s i n fs :
  pages_inv pf s → 1 ≤ n → 0 ≤ i → i + n ≤ vpages pf s → length fs = Z.to_nat n →
  (∀ k r, fs !! k = Some r → mapped_at pf s (i + Z.of_nat k) r) →
  ∃ lo s', mfree_page pf (vpage pf s i) n s = Ok s' ∧ shrunk lo pf s s' i n fs.
Proof.
  intros [(lo & H1 & H2) H3 H4 H5 H6 H7] Hn Hi Hin Hlen Hfs. pose proof H2 as [V1 V2 V3 V4 V5 V6].
  pose proof (wf_len _ V1) as Hwl. unfold vpages in *.
  destruct (vpage_ok lo pf s i H2 ltac:(unfold vpages; lia)) as (A1 & A2 & _).
  destruct (vpage_ok lo pf s (i + n - 1) H2 ltac:(unfold vpages; lia)) as (_ & _ & A3).
  assert (Htab : tables_present s (vpage pf s i) (Z.to_nat n)).
  { unfold vpage. apply (tables_present_run s _ _ i (Z.to_nat n) V6 Hi). lia. }
  assert (Hnd : NoDup fs).
  { apply NoDup_alt. intros k k' r E1 E2. pose proof (H5 _ _ r (Hfs k r E1) (Hfs k' r E2)). lia. }
  destruct (unmap_pages_ok (Z.to_nat n) pf (vpage pf s i) s fs Hlen H1) as (s1 & Hun & Hs1 & Hsb & Hb & Ht); try done.
  { unfold va_from in A1. lia. }
  { unfold vpage in *. lia. }
  { intros k r Hk. destruct (Hfs k r Hk) as [M1 M2 M3 M4]. destruct (H4 _ _ (Hfs k r Hk)) as [_ Ht].
    split; [done|]. split; [done|]. rewrite <- M4. f_equal. unfold vpage. lia. }
  destruct (Htab 0 ltac:(lia)) as (e & He & Hp). rewrite Z.mul_0_l, Z.add_0_r in He.
  destruct (pte_word s (vpage pf s i) e H1 (va_from_ok _ _ A1) He Hp) as (t & _ & _ & Hrd & _).
  unfold mfree_page, addr_v2p. mrun Hrd. mrun Hun. unfold vaddr_remove, PG_SIZE. rewrite (sb_vaddr _ _ _ Hsb).
  replace (u32 _ / 4096) with i by (unfold vpage, va_from, nbits in *; rewrite u32_small; zdm).
  destruct (set_run_ok (Z.to_nat n) _ i 0 V1 Hi) as (b3 & Hb3 & W1 & W2 & W3 & W4); [unfold nbits in *; lia|].
  mrun Hb3. exists lo. eexists. split; [done|].
  set (s2 := set_vaddr pf (VirtualAddr b3 (vaddr_start (get_vaddr pf s))) s1).
  assert (Hgv : get_vaddr pf s2 = VirtualAddr b3 (vaddr_start (get_vaddr pf s))) by (by destruct pf).
  split.
  - by apply as_wf_set_vaddr.
  - assert (Htp : tables_present s2 (vaddr_start (get_vaddr pf s)) (Z.to_nat (nbits b3 + 1))).
    { unfold nbits in *. rewrite W2. intros k Hk. destruct (V6 k Hk) as (e' & He' & Hp'). exists e'. split; [|done].
      assert (pde_at s1 (PDE_IDX (vaddr_start (get_vaddr pf s) + k * 4096)) e'); [|by destruct pf].
      apply (sb_pde _ _ _ Hsb); [|done].
      destruct (va_idx (vaddr_start (get_vaddr pf s) + k * 4096)) as (_ & _ & ? & _); [unfold va_ok; lia|lia]. }
    split; rewrite ?Hgv; cbn [vaddr_bitmap vaddr_start]; try done; try lia; unfold nbits in *; rewrite ?W2; done || lia.
  - by rewrite Hgv.
  - unfold vpages, nbits. by rewrite Hgv, <- W2.
  - intros j Hj. unfold vaddr_bit. rewrite Hgv. cbn [vaddr_bitmap]. rewrite W4, Z2Nat.id by lia.
    case_decide; [by rewrite bool_decide_true|by rewrite bool_decide_false].
  - intros r Hr. rewrite <- Hb by done. by destruct pf.
  - intros j Hj. transitivity (translate (phys s1) (mcr3 s1) (vpage pf s j)); [by destruct pf|].
    destruct (vpage_ok lo pf s j H2 Hj) as (B1 & _). rewrite Ht by done.
    rewrite (page_of_index fs _ i j pf s eq_refl V3). destruct (Z.leb_spec i j).
    + destruct (fs !! Z.to_nat (j - i)) as [r|] eqn:El.
      * apply lookup_lt_Some in El. rewrite bool_decide_true by lia. done.
      * apply lookup_ge_None_1 in El. rewrite bool_decide_false by lia. done.
    + rewrite bool_decide_false by lia. done.
  - split.
    + transitivity (nbits (pool_bitmap (get_pool pf s1))); [by destruct pf|apply (sb_nbits _ _ _ Hsb)].
    + transitivity (frame_addr pf s1); [by destruct pf|]. unfold frame_addr. by rewrite (sb_start _ _ _ Hsb).
  - intros f Hf. apply (table_frame_same pf s s1 f H1 Hsb). by destruct pf.
Qed.

Lemma shrunk_mapped lo pf s s' i n fs j r :
  shrunk lo pf s s' i n fs → mapped_at pf s' j r ↔ mapped_at pf s j r ∧ ¬ (i ≤ j < i + n).
Proof.
  intros [S1 S2 S3 S4 S5 S6 S7 [S8 S8'] S9].
  assert (Ev : vpage pf s' j = vpage pf s j) by (unfold vpage; by rewrite S3). split.
  - intros [M1 M2 M3 M4]. rewrite S4 in M1. rewrite S5 in M2 by lia. rewrite S8 in M3.
    rewrite Ev, S7, S8' in M4 by done. apply andb_true_iff in M2 as [M2 M2'].
    apply negb_true_iff, bool_decide_eq_false in M2. rewrite bool_decide_false in M4 by done. split; [by split|done].
  - intros [[M1 M2 M3 M4] Hout]. split; [by rewrite S4| |by rewrite S8|].
    + rewrite S5, M2, bool_decide_false by (done || lia). done.
    + rewrite Ev, S7, S8', bool_decide_false by done. done.
Qed.

(** Page [q], in use in [s], is unused in [s'] and so is the frame it had. *)
Definition freed (pf : pool_flags) (s s' : mstate) (q : Z) : Prop :=
  ∀ i r, q = vpage pf s i → mapped_at pf s i r → vaddr_bit pf s' i = false ∧ pool_bit pf s' r = false.

(** Nothing is taken. *)
Definition bits_shrink (pf : pool_flags) (s s' : mstate) : Prop :=
  ∀ j, 0 ≤ j → (vaddr_bit pf s j = false → vaddr_bit pf s' j = false) ∧
               (pool_bit pf s j = false → pool_bit pf s' j = false).

Lemma mfree_keeps pf v n s :
  pages_inv pf s → 1 ≤ n → (∀ k, 0 ≤ k < n → live pf s (v + k * 4096)) →
  ∃ s', mfree_page pf v n s = Ok s' ∧ pages_inv pf s' ∧
    vaddr_start (get_vaddr pf s') = vaddr_start (get_vaddr pf s) ∧
    (∀ q, live pf s q → ¬ (v ≤ q < v + n * 4096) → live pf s' q) ∧
    (∀ i r, mapped_at pf s i r → ¬ (v ≤ vpage pf s i < v + n * 4096) → mapped_at pf s' i r) ∧
    bits_shrink pf s s' ∧ ∀ q, v ≤ q < v + n * 4096 → freed pf s s' q.
Proof.
  intros Hinv Hn Hlive. pose proof Hinv as [(lo & H1 & H2) H3 H4 H5 H6 H7].
  destruct (live_frames lo pf s v (Z.to_nat n) H2) as (i & fs & -> & Hi & Hin & Hlen & Hfs);
    [intros k Hk; apply Hlive; lia|lia|]. rewrite Z2Nat.id in Hin by lia.
  destruct (mfree_shrunk pf s i n fs Hinv Hn Hi Hin Hlen Hfs) as (lo' & s' & Hm & Hsh).
  exists s'. split; [done|]. pose proof Hsh as [S1 S2 S3 S4 S5 S6 S7 [S8 S8'] S9].
  pose proof (λ j r, shrunk_mapped lo' pf s s' i n fs j r Hsh) as Hmap.
  pose proof (mfree_page_rest _ _ _ _ _ Hm) as Hrest. unfold rest in Hrest. injection Hrest as ? ? ? ? ? ?.
  split_and!; [|done| | | |].
  - split; try done; [by exists lo'|..].
    + intros j Hj Hb. rewrite S4 in Hj. unfold vpage. rewrite S3. fold (vpage pf s j). rewrite S7 by done.
      rewrite S5 in Hb by lia. destruct (bool_decide_reflect (i ≤ j < i + n)); [done|]. by apply H3.
    + intros j r [Hj Hout]%Hmap. destruct (H4 j r Hj) as [Hp Ht]. rewrite S8'. split; [|naive_solver].
      rewrite S6, Hp by apply Hj. rewrite bool_decide_false; [done|]. intros (k & Hk)%list_elem_of_lookup_1.
      pose proof (H5 _ _ r (Hfs k r Hk) Hj). apply lookup_lt_Some in Hk. lia.
    + intros j1 j2 r [O1 _]%Hmap [O2 _]%Hmap. by apply (H5 j1 j2 r).
    + destruct pf; simpl in *; lia.
    + congruence.
  - intros q (j & r & -> & Hj) Hout. exists j, r. split; [unfold vpage; by rewrite S3|]. apply Hmap. split; [done|].
    intros Hr. apply Hout. unfold vpage. lia.
  - intros j r Hj Hout. apply Hmap. split; [done|]. intros Hr. apply Hout. unfold vpage. lia.
  - intros j Hj. rewrite S5, S6 by done. split; intros ->; apply andb_false_r.
  - intros q Hq j r -> Hj. pose proof (ma_page _ _ _ _ Hj). pose proof (ma_frame _ _ _ _ Hj).
    assert (Hr : i ≤ j < i + n) by (unfold vpage in Hq; lia).
    rewrite S5, bool_decide_true by (done || lia). split; [done|]. rewrite S6 by lia. rewrite bool_decide_true; [done|].
    destruct (lookup_lt_is_Some_2 fs (Z.to_nat (j - i))) as [r' Hr']; [lia|].
    pose proof (Hfs _ _ Hr') as Hm'. replace (i + Z.of_nat (Z.to_nat (j - i))) with j in Hm' by lia.
    assert (r' = r) as ->; [|by eapply list_elem_of_lookup_2].
    pose proof (ma_trans _ _ _ _ Hj) as E1. pose proof (ma_trans _ _ _ _ Hm') as E2. rewrite E1 in E2.
    injection E2 as E2. by apply frame_addr_inj in E2.
Qed.

(** ** The instance *)

Definition pool_inv (pf : pool_flags) (s : mstate) : Prop :=
  pages_inv pf s ∧ plock (get_pool pf s) = lock_init.
Definition pool_held (pf : pool_flags) (s : mstate) : Prop :=
  pages_inv pf s ∧ plock (get_pool pf s) = held_lock (cur_thread s).

Lemma pool_acquire pf s : pool_inv pf s →
  acquire pf s = Ok (set_pool pf (with_lock (held_lock (cur_thread s)) (get_pool pf s)) s).
Proof.
  intros [[_ _ _ _ _ Ht] Hl]. unfold acquire. rewrite Hl. unfold lock_acquire. cbn [holder lock_init].
  rewrite (proj2 (Z.eqb_neq 0 _)) by done. done.
Qed.

Lemma pool_release pf s : pool_held pf s →
  release pf s = set_pool pf (with_lock lock_init (get_pool pf s)) s.
Proof. intros [_ Hl]. unfold release. by rewrite Hl. Qed.

Lemma held_keep pf s s' : pool_held pf s → pages_inv pf s' → rest s' = rest s → pool_held pf s'.
Proof.
  intros [_ Hl] Hp Hrest. split; [done|]. unfold rest in Hrest. injection Hrest as E1 E2 _ _ E5 _.
  rewrite E5, <- Hl. by destruct pf.
Qed.

#[global] Program Instance pool_laws (pf : pool_flags) : PageSourceLaws mstate (PS := pool_pages pf) := {|
  ps_inv := pool_inv pf;
  ps_held := pool_held pf;
  ps_live := live pf;
  ps_lo s := vaddr_start (get_vaddr pf s);
  ps_hi _ := 0xffc00000;
  ps_full n s := no_room pf n s;
|}.
Next Obligation.
  intros pf s Hp. assert (Hi : pages_inv pf s) by (destruct Hp as [[? _]|[? _]]; done).
  destruct Hi as [(lo & _ & [V1 V2 V3 V4 V5 V6]) _ _ _ Hsz _]. split_and!; [zdm|lia|exact Hsz].
Qed.
Next Obligation.
  intros pf s Hp. eexists. split; [by apply pool_acquire|].
  destruct (pages_inv_lock pf (held_lock (cur_thread s)) s (proj1 Hp)) as [H1 H2].
  split_and!; [split; [done|by destruct pf]|by destruct pf|done|done|by destruct pf].
Qed.
Next Obligation.
  intros pf s Hp. cbn [ps_release pool_pages]. rewrite pool_release by done.
  destruct (pages_inv_lock pf lock_init s (proj1 Hp)) as [H1 H2].
  split_and!; [split; [done|by destruct pf]|by destruct pf|done|done].
Qed.
Next Obligation.
  intros pf n s Hp Hn. destruct (pi_space _ _ (proj1 Hp)) as (lo & H1 & H2).
  destruct (malloc_page_ok pf n s H1 H2 ltac:(lia)) as (v & s' & Hm & _ & Hz & _).
  exists v, s'. split; [done|]. destruct (malloc_keeps pf n s v s' (proj1 Hp) Hn Hm) as (K1 & K2 & K3 & K4).
  split; [by apply (held_keep pf s), (malloc_page_rest pf n s v s')|]. done.
Qed.
Next Obligation.
  intros pf v n s Hp Hn Hlive _ _ _. destruct (mfree_keeps pf v n s (proj1 Hp) Hn Hlive) as (s' & Hm & K1 & K2 & K3 & _).
  exists s'. split; [done|]. split; [by apply (held_keep pf s), (mfree_page_rest pf v n s s')|]. done.
Qed.

(** Live pages are pages of the address space. *)
Lemma live_page pf s q : pages_inv pf s → live pf s q → va_ok q ∧ q mod 4096 = 0.
Proof.
  intros [(lo & _ & [V1 V2 V3 V4 V5 V6]) _ _ _ _ _] (i & r & -> & [M1 M2 M3 M4]).
  unfold vpage, vpages, va_ok in *. split; [lia|zdm].
Qed.

Lemma live_v2p pf s q : pages_inv pf s → live pf s q → is_ok (addr_v2p q s).
Proof.
  intros P Hl. destruct (live_page _ _ _ P Hl) as [Hva _]. destruct P as [(lo & Hs & [V1 V2 V3 V4 V5 V6]) _ _ _ _ _].
  destruct Hl as (i & r & -> & [M1 M2 M3 M4]). destruct (V6 i) as (e & He & Hp); [unfold vpages in M1; lia|].
  eexists. by apply (addr_v2p_ok (lo := lo) s _ e).
Qed.

(** ** Theorems *)

(** The pool and the descriptors the running thread uses. *)
Definition thread_pool (s : mstate) : pool_flags := if cur_pgdir s =? 0 then PF_KERNEL else PF_USER.
Definition thread_descs (kd ud : Z) (s : mstate) : Z := if cur_pgdir s =? 0 then kd else ud.

(** The heap of the running thread is well formed, with the arenas and free lists [A]. *)
Definition sys_heap (kd ud : Z) (h : heap mstate) (A : aheap) : Prop :=
  heap_inv (PL := pool_laws (thread_pool (hpages h))) (thread_descs kd ud (hpages h)) h A.

Lemma sys_heap_pool pf kd ud h A :
  thread_pool (hpages h) = pf → sys_heap kd ud h A ↔
  heap_inv (PL := pool_laws pf) (if decide (pf = PF_KERNEL) then kd else ud) h A.
Proof. intros <-. unfold sys_heap, thread_descs, thread_pool. destruct (cur_pgdir (hpages h) =? 0); done. Qed.

(** The calls keep the page directory of the thread. *)
Lemma arena_malloc_pgdir pf D size h r h' :
  arena_malloc (PS := pool_pages pf) D size h = Ok (r, h') → cur_pgdir (hpages h') = cur_pgdir (hpages h).
Proof.
  assert (Hacq : ∀ s s', acquire pf s = Ok s' → cur_pgdir s' = cur_pgdir s).
  { unfold acquire. intros s s' H. apply bind_ok_iff in H as (l & _ & H). injection H as <-. by destruct pf. }
  assert (Hrel : ∀ s, cur_pgdir (release pf s) = cur_pgdir s) by (intros s; unfold release; by destruct pf).
  assert (Hmal : ∀ n s v s', malloc_page pf n s = Ok (v, s') → cur_pgdir s' = cur_pgdir s).
  { intros n s v s' H. apply malloc_page_rest in H. unfold rest in H. congruence. }
  unfold arena_malloc. destruct (negb _); [intros H; by injection H as _ <-|]. intros H.
  apply bind_ok_iff in H as (p & Hp & H). apply bind_ok_iff in H as ([r1 h1] & H1 & H). injection H as _ <-.
  cbn [hpages ps_release pool_pages]. rewrite Hrel, <- (Hacq _ _ Hp). destruct (size >? 1024).
  - unfold malloc_large in H1. apply bind_ok_iff in H1 as ([a q] & Hm & H1).
    destruct (a =? 0); [injection H1 as _ <-; exact (Hmal _ _ _ _ Hm)|].
    do 3 (apply bind_ok_iff in H1 as (? & _ & H1)). injection H1 as _ <-. exact (Hmal _ _ _ _ Hm).
  - unfold malloc_small in H1. apply bind_ok_iff in H1 as (i & _ & H1). apply bind_ok_iff in H1 as (e & _ & H1).
    apply bind_ok_iff in H1 as ([rd h2] & H2 & H1).
    assert (E : cur_pgdir (hpages h1) = cur_pgdir (hpages h2)).
    { destruct rd; [|by injection H1 as _ <-]. apply bind_ok_iff in H1 as ([b k] & _ & H1). by injection H1 as _ <-. }
    rewrite E. destruct e; [|by injection H2 as _ <-]. apply bind_ok_iff in H2 as ([o h3] & H2 & H3). injection H3 as _ <-.
    unfold new_arena in H2. apply bind_ok_iff in H2 as ([a q] & Hm & H2).
    destruct (a =? 0); [injection H2 as _ <-; exact (Hmal _ _ _ _ Hm)|].
    do 4 (apply bind_ok_iff in H2 as (? & _ & H2)). destruct (intr_disable _). do 2 (apply bind_ok_iff in H2 as (? & _ & H2)).
    injection H2 as _ <-. exact (Hmal _ _ _ _ Hm).
Qed.

Lemma arena_free_pgdir pf ptr h h' :
  arena_free (PS := pool_pages pf) ptr h = Ok h' → cur_pgdir (hpages h') = cur_pgdir (hpages h).
Proof.
  assert (Hacq : ∀ s s', acquire pf s = Ok s' → cur_pgdir s' = cur_pgdir s).
  { unfold acquire. intros s s' H. apply bind_ok_iff in H as (l & _ & H). injection H as <-. by destruct pf. }
  assert (Hrel : ∀ s, cur_pgdir (release pf s) = cur_pgdir s) by (intros s; unfold release; by destruct pf).
  assert (Hfp : ∀ a n (g g' : heap mstate), free_pages (PS := pool_pages pf) a n g = Ok g' →
            cur_pgdir (hpages g') = cur_pgdir (hpages g)).
  { intros a n g g' H. unfold free_pages in H. apply bind_ok_iff in H as (p & Hp & H). injection H as <-.
    apply mfree_page_rest in Hp. unfold rest in Hp. cbn [hpages]. congruence. }
  unfold arena_free. destruct (ptr =? 0); [intros H; by injection H as <-|]. intros H.
  apply bind_ok_iff in H as (p & Hp & H). apply bind_ok_iff in H as (d & _ & H). apply bind_ok_iff in H as (lg & _ & H).
  apply bind_ok_iff in H as (h1 & H1 & H). injection H as <-. cbn [hpages ps_release pool_pages].
  rewrite Hrel, <- (Hacq _ _ Hp). destruct lg.
  - apply bind_ok_iff in H1 as (n & _ & H1). by apply Hfp in H1.
  - unfold free_small in H1. do 4 (apply bind_ok_iff in H1 as (? & _ & H1)).
    destruct (_ =? _); [|by injection H1 as <-]. apply bind_ok_iff in H1 as (k & _ & H1). by apply Hfp in H1.
Qed.

(** Why a thread gets no block of [size] bytes: the size is not between 1 and the size of its
    pool, or there is no room for the pages the request needs and, for a small block, no free
    block of its class. *)
Definition malloc_refused (size : Z) (s : mstate) (A : aheap) : Prop :=
  size ≤ 0 ∨ pool_size (get_pool (thread_pool s) s) ≤ size ∨
  no_room (thread_pool s) (if size >? 1024 then (size + 4107) / 4096 else 1) s ∧
  (size ≤ 1024 → ∃ i, (i < DESC_CNT)%nat ∧ size ≤ bsize i ∧ frees A i = []).


(** C6: [sys_free] gives exactly its block back.  On a well-formed heap (of a kernel
    thread on the loader's directory or of a process; the page tables of the pool's
    range are present), freeing an allocated block succeeds and leaves a well-formed heap in which that block is no longer
    allocated and every other block is, with its contents; an arena whose last
    block is freed is returned to the page allocator. *)
Theorem sys_free_spec kd ud r sz h A :
  sys_heap kd ud h A → allocated A r sz →
  ∃ h' A', sys_free r h = Ok h' ∧ sys_heap kd ud h' A' ∧
    (∀ b s, allocated A' b s ↔ allocated A b s ∧ b ≠ r) ∧
    (∀ b s w, allocated A b s → b ≠ r → b ≤ w < b + s → words (hk h') !! w = words (hk h) !! w).
Proof.
  intros Hh Hal.
  assert (Hgo : ∀ pf D, thread_pool (hpages h) = pf → (if decide (pf = PF_KERNEL) then kd else ud) = D →
    ∃ h' A', arena_free (PS := pool_pages pf) r h = Ok h' ∧ sys_heap kd ud h' A' ∧
      free_post r (words (hk h)) (words (hk h')) A A').
  { intros pf D Epf ED. apply (sys_heap_pool pf) in Hh; [|done]. rewrite ED in Hh.
    destruct (arena_free_ok (PS := pool_pages pf) D r sz h A Hh Hal) as (h' & A' & Hm & Hh' & Hpost).
    exists h', A'. split; [done|]. split; [|done]. apply (sys_heap_pool pf); [|by rewrite ED].
    rewrite <- Epf. unfold thread_pool. by rewrite (arena_free_pgdir _ _ _ _ Hm). }
  unfold sys_free. destruct (cur_pgdir (hpages h) =? 0) eqn:E.
  - destruct (Hgo PF_KERNEL kd) as (h' & A' & Hm & Hh' & [F1 F2]); [unfold thread_pool; by rewrite E|done|].
    exists h', A'. done.
  - destruct (Hgo PF_USER ud) as (h' & A' & Hm & Hh' & [F1 F2]); [unfold thread_pool; by rewrite E|done|].
    exists h', A'. done.
Qed.

(** C40: [block_desc_init] makes an empty heap: on a page allocator in its invariant
    (which includes that the page tables of the pool's range are present) it sets up the seven descriptors, changes no other word, and the result is a
    well-formed heap without arenas. *)
Theorem block_desc_init_heap kd ud s k :
  let D := thread_descs kd ud s in
  let pf := thread_pool s in
  pool_inv pf s → 0 < D → D + 168 ≤ vaddr_start (get_vaddr pf s) ∨ 0xffc00000 ≤ D →
  (∀ c, 0 ≤ c < 42 → is_Some (words k !! (D + 4 * c))) →
  ∃ k', block_desc_init D k = Ok k' ∧ sys_heap kd ud (Heap s k') empty_heap ∧
    ∀ w, ¬ (D ≤ w < D + 168) → words k' !! w = words k !! w.
Proof.
  intros D pf Hp HD Harea Hm. exact (block_desc_init_ok (PL := pool_laws pf) D k s Hp HD Harea Hm).
Qed.

(** ** Witnesses *)

(** A kernel thread, on the loader's directory. *)
Definition demo_kernel : mstate :=
  MState boot_phys 0x100000 (demo_pool 0x200000 0) (demo_pool 0x208000 0)
    (VirtualAddr (Bitmap 1 [0; 255]) K_HEAP_START) 0x1000 0 (VirtualAddr (Bitmap 1 [0; 255]) 0x8048000).

Definition demo_descs : Z := 0xc0010000.

Definition demo_kwords : kmach :=
  KMach (list_to_map ((λ c, (demo_descs + 4 * c, 0)) <$> seqZ 0 42)) (Cpu 0x202).

#[local] Opaque demo_phys boot_phys.

(** The page directory of the thread is no part of the address space. *)
Lemma as_from_pgdir lo p c kp up kv ct pd pd' cv :
  as_from lo (MState p c kp up kv ct pd cv) → as_from lo (MState p c kp up kv ct pd' cv).
Proof. intros [W1 W2 W3 W4 W5 W6 W7 W8 W9 W10 W11]. by split. Qed.

Lemma vaddr_from_pgdir lo pf p c kp up kv ct pd pd' cv :
  vaddr_from lo pf (MState p c kp up kv ct pd cv) → vaddr_from lo pf (MState p c kp up kv ct pd' cv).
Proof. destruct pf; intros [V1 V2 V3 V4 V5 V6]; by split. Qed.

Lemma demo_unmapped :
  forallb (λ i, match translate boot_phys 0x100000 (K_HEAP_START + i * 4096) with None => true | Some _ => false end)
    (seqZ 0 9) = true.
Proof. vm_compute. reflexivity. Qed.

Lemma demo_kernel_inv : pool_inv PF_KERNEL demo_kernel.
Proof.
  assert (Hu : ∀ i, 0 ≤ i < 9 → translate boot_phys 0x100000 (K_HEAP_START + i * 4096) = None).
  { intros i Hi. pose proof demo_unmapped as H. rewrite forallb_forall in H. specialize (H i).
    destruct (translate _ _ _); [|done]. discriminate H. apply list_elem_of_In, elem_of_seqZ. lia. }
  assert (Hno : ∀ i r, ¬ mapped_at PF_KERNEL demo_kernel i r).
  { intros i r [M1 _ _ M4]. change (vpages PF_KERNEL demo_kernel) with 9 in M1.
    change (translate boot_phys 0x100000 (K_HEAP_START + i * 4096) = Some (frame_addr PF_KERNEL demo_kernel r)) in M4.
    by rewrite Hu in M4. }
  split; [|reflexivity]. split.
  - exists 1%N. split; [exact (as_from_pgdir _ _ _ _ _ _ _ _ _ _ boot_mem_wf)|].
    exact (vaddr_from_pgdir _ _ _ _ _ _ _ _ _ _ _ boot_vaddr_wf).
  - intros i Hi _. change (vpages PF_KERNEL demo_kernel) with 9 in Hi. exact (Hu i Hi).
  - intros i r Hir. by apply Hno in Hir.
  - intros i j r Hir. by apply Hno in Hir.
  - reflexivity.
  - discriminate.
Qed.

Lemma demo_kwords_mapped c : 0 ≤ c < 42 → is_Some (words demo_kwords !! (demo_descs + 4 * c)).
Proof.
  intros Hc. exists 0. apply elem_of_list_to_map_1.
  - rewrite <- list_fmap_compose. apply NoDup_fmap; [|apply NoDup_seqZ]. intros x y. simpl. lia.
  - apply list_elem_of_fmap. exists c. split; [done|apply elem_of_seqZ; lia].
Qed.

Lemma demo_heap : ∃ k, block_desc_init demo_descs demo_kwords = Ok k ∧ sys_heap demo_descs 0 (Heap demo_kernel k) empty_heap.
Proof.
  destruct (block_desc_init_ok (PL := pool_laws PF_KERNEL) demo_descs demo_kwords demo_kernel) as (k & Hk & Hh & _).
  - exact demo_kernel_inv.
  - reflexivity.
  - left. discriminate.
  - exact demo_kwords_mapped.
  - exists k. split; [exact Hk|exact Hh].
Qed.

Lemma block_desc_init_heap_witness :
  ∃ k', block_desc_init demo_descs demo_kwords = Ok k' ∧ sys_heap demo_descs 0 (Heap demo_kernel k') empty_heap.
Proof.
  destruct (block_desc_init_heap demo_descs 0 demo_kernel demo_kwords) as (k' & H1 & H2 & _).
  - exact demo_kernel_inv.
  - reflexivity.
  - left. discriminate.
  - exact demo_kwords_mapped.
  - exists k'. split; [exact H1|exact H2].
Defined.


(** The first block of 100 bytes of the demonstration heap. *)
Definition demo_block : Z :=
  match block_desc_init demo_descs demo_kwords with
  | Ok k => match sys_malloc demo_descs 0 100 (Heap demo_kernel k) with Ok (r, _) => r | _ => 0 end
  | _ => 0
  end.

Lemma demo_block_at : demo_block = K_HEAP_START + sizeof_arena.
Proof. vm_compute. reflexivity. Qed.

Lemma demo_allocated : ∃ h A sz, sys_heap demo_descs 0 h A ∧ allocated A (K_HEAP_START + sizeof_arena) sz.
Proof.
  destruct demo_heap as (k & Hk & Hh). pose proof demo_block_at as E. unfold demo_block in E. rewrite Hk in E.
  change (heap_inv (PL := pool_laws PF_KERNEL) demo_descs (Heap demo_kernel k) empty_heap) in Hh.
  destruct (arena_malloc_ok (PS := pool_pages PF_KERNEL) demo_descs 100 (Heap demo_kernel k) empty_heap Hh)
    as (r & h' & A' & Hm & Hh' & _ & Hnz).
  change (sys_malloc demo_descs 0 100 (Heap demo_kernel k))
    with (arena_malloc (PS := pool_pages PF_KERNEL) demo_descs 100 (Heap demo_kernel k)) in E.
  rewrite Hm in E. subst r. destruct Hnz as [_ [(sz & _ & F3 & _) _ _]]; [discriminate|].
  exists h', A', sz. split; [|apply F3; right; split; reflexivity].
  apply (sys_heap_pool PF_KERNEL); [|exact Hh'].
  unfold thread_pool. rewrite (arena_malloc_pgdir _ _ _ _ _ _ Hm). reflexivity.
Qed.

Lemma sys_free_spec_witness :
  ∃ h A h' A', sys_free (K_HEAP_START + sizeof_arena) h = Ok h' ∧ sys_heap demo_descs 0 h A ∧ sys_heap demo_descs 0 h' A'.
Proof.
  destruct demo_allocated as (h & A & sz & Hh & Hal).
  destruct (sys_free_spec demo_descs 0 (K_HEAP_START + sizeof_arena) sz h A) as (h' & A' & H1 & H2 & _).
  - exact Hh.
  - exact Hal.
  - exists h, A, h', A'. split; [exact H1|split; [exact Hh|exact H2]].
Defined.
