(* ===== verification/IoQueue.v ===== *)
(** * The ring buffer (device/ioqueue.h, device/ioqueue.c)

    [head] is where the producer writes, [tail] where the consumer reads; one of
    the 64 slots stays free.  The calls are split into turns of their loops: a turn
    returns or leaves the caller asleep, recorded in the queue; for the clients a
    call that sleeps ends in [Blocked]. *)

From S2P Require Import Prelude Sync.

(** ** Data and operations *)

Definition bufsize : Z := 64.

Record ioqueue := IoQueue {
  ilock : lock;
  producer : Z;
  consumer : Z;
  buf : list Z;
  head : Z;
  tail : Z;
}.

(** The buffer's bytes are left as they are. *)
Definition ioqueue_init (ioq : ioqueue) : ioqueue := IoQueue lock_init 0 0 (buf ioq) 0 0.

Definition next_pos (pos : Z) : Z := i32 (Z.rem (pos + 1) bufsize).

Definition ioq_full (ioq : ioqueue) : bool := next_pos (head ioq) =? tail ioq.
Definition ioq_empty (ioq : ioqueue) : bool := head ioq =? tail ioq.

(** How a turn of the loop ends: the call returns, or its thread is asleep and the queue is
    as it left it. *)
Inductive turn (A : Type) : Type := Done (a : A) | Asleep (q : ioqueue).
Arguments Done {A}.
Arguments Asleep {A}.

Definition with_ilock (l : lock) (q : ioqueue) : ioqueue :=
  IoQueue l (producer q) (consumer q) (buf q) (head q) (tail q).

(** [lock_acquire] and [ioq_wait]: thread [t] holds the lock and is recorded as the waiter. *)
Definition consumer_wait (t : Z) (ioq : ioqueue) : outcome ioqueue :=
  l ← lock_acquire t (ilock ioq);
  Ok (IoQueue l (producer ioq) t (buf ioq) (head ioq) (tail ioq)).
Definition producer_wait (t : Z) (ioq : ioqueue) : outcome ioqueue :=
  l ← lock_acquire t (ilock ioq);
  Ok (IoQueue l t (consumer ioq) (buf ioq) (head ioq) (tail ioq)).

(** The byte, the queue after the call, and the thread that [wakeup] unblocks. *)
Definition getchar_turn (t : Z) (ioq : ioqueue) : outcome (turn (Z * ioqueue * option Z)) :=
  if ioq_empty ioq then q ← consumer_wait t ioq; Ok (Asleep q)
  else
    byte ← aget (buf ioq) (tail ioq);
    let tail' := next_pos (tail ioq) in
    if producer ioq =? 0 then
      Ok (Done (byte, IoQueue (ilock ioq) (producer ioq) (consumer ioq) (buf ioq) (head ioq) tail', None))
    else
      Ok (Done (byte, IoQueue (ilock ioq) 0 (consumer ioq) (buf ioq) (head ioq) tail', Some (producer ioq))).

Definition putchar_turn (t : Z) (byte : Z) (ioq : ioqueue) : outcome (turn (ioqueue * option Z)) :=
  if ioq_full ioq then q ← producer_wait t ioq; Ok (Asleep q)
  else
    buf' ← aset (buf ioq) (head ioq) byte;
    let head' := next_pos (head ioq) in
    if consumer ioq =? 0 then
      Ok (Done (IoQueue (ilock ioq) (producer ioq) (consumer ioq) buf' head' (tail ioq), None))
    else
      Ok (Done (IoQueue (ilock ioq) (producer ioq) 0 buf' head' (tail ioq), Some (consumer ioq))).

(** A sleeper that was woken gives the lock back, which may wake a thread, and goes on with
    the loop. *)
Definition getchar_resume (t : Z) (ioq : ioqueue) : option Z * outcome (turn (Z * ioqueue * option Z)) :=
  let '(w, l) := lock_release (ilock ioq) in (w, getchar_turn t (with_ilock l ioq)).
Definition putchar_resume (t : Z) (byte : Z) (ioq : ioqueue) : option Z * outcome (turn (ioqueue * option Z)) :=
  let '(w, l) := lock_release (ilock ioq) in (w, putchar_turn t byte (with_ilock l ioq)).

(** The calls, for clients that do not follow a sleeping thread. *)
Definition ioq_getchar (t : Z) (ioq : ioqueue) : outcome (Z * ioqueue * option Z) :=
  r ← getchar_turn t ioq;
  match r with Done x => Ok x | Asleep _ => Blocked end.

Definition ioq_putchar (t : Z) (byte : Z) (ioq : ioqueue) : outcome (ioqueue * option Z) :=
  r ← putchar_turn t byte ioq;
  match r with Done x => Ok x | Asleep _ => Blocked end.

Definition ioq_length (ioq : ioqueue) : Z :=
  if head ioq >=? tail ioq then u32 (head ioq - tail ioq)
  else u32 (bufsize - (tail ioq - head ioq)).

(** ** The abstract queue *)

Record ioq_wf (q : ioqueue) : Prop := {
  iq_buf : zlen (buf q) = bufsize;
  iq_head : 0 ≤ head q < bufsize;
  iq_tail : 0 ≤ tail q < bufsize;
}.

(** The bytes in the buffer, oldest first. *)
Definition contents (q : ioqueue) : list Z :=
  (λ k, buf q !!! Z.to_nat ((tail q + k) mod bufsize)) <$> seqZ 0 ((head q - tail q) mod bufsize).

Lemma next_pos_eq p : 0 ≤ p < bufsize → next_pos p = (p + 1) mod bufsize.
Proof.
  unfold next_pos, bufsize. intros H. rewrite Z.rem_mod_nonneg by lia. apply i32_small. zdm.
Qed.

Lemma contents_length q : zlen (contents q) = (head q - tail q) mod bufsize.
Proof. unfold contents, zlen, bufsize. rewrite length_fmap, length_seqZ. zdm. Qed.

Lemma ioq_full_iff q : ioq_wf q → ioq_full q = true ↔ zlen (contents q) = 63.
Proof.
  intros [Hb Hh Ht]. unfold ioq_full. rewrite contents_length, next_pos_eq, Z.eqb_eq by done.
  unfold bufsize in *. zdm.
Qed.

Lemma ioq_empty_iff q : ioq_wf q → ioq_empty q = true ↔ contents q = [].
Proof.
  intros [Hb Hh Ht]. unfold ioq_empty. rewrite Z.eqb_eq.
  rewrite <- length_zero_iff_nil. pose proof (contents_length q) as H. unfold zlen, bufsize in *. zdm.
Qed.

Lemma ioq_length_eq q : ioq_wf q → ioq_length q = zlen (contents q).
Proof.
  intros [Hb Hh Ht]. rewrite contents_length. unfold ioq_length, bufsize in *.
  destruct (Z.geb_spec (head q) (tail q)); rewrite u32_small; zdm.
Qed.

Lemma contents_lookup q k :
  0 ≤ k < (head q - tail q) mod bufsize →
  contents q !! Z.to_nat k = Some (buf q !!! Z.to_nat ((tail q + k) mod bufsize)).
Proof.
  intros Hk. unfold contents. rewrite list_lookup_fmap, lookup_seqZ_lt by lia. simpl.
  by rewrite Z.add_0_l, Z2Nat.id by lia.
Qed.

Lemma contents_ext q xs :
  zlen xs = (head q - tail q) mod bufsize →
  (∀ k, 0 ≤ k < zlen xs → xs !! Z.to_nat k = Some (buf q !!! Z.to_nat ((tail q + k) mod bufsize))) →
  contents q = xs.
Proof.
  intros Hl Hk. apply list_eq_same_length with (length xs); [| |].
  - done.
  - pose proof (contents_length q). unfold zlen in *. lia.
  - intros i x y Hi Hx Hy. specialize (Hk (Z.of_nat i)). unfold zlen in *.
    pose proof (contents_lookup q (Z.of_nat i)) as Hc. rewrite Nat2Z.id in *.
    rewrite Hk in Hy by lia. rewrite Hc in Hx by lia. congruence.
Qed.

(** Putting and getting one byte. *)
Lemma putchar_turn_ok t b q :
  ioq_wf q → zlen (contents q) < 63 →
  ∃ q', putchar_turn t b q = Ok (Done (q', if consumer q =? 0 then None else Some (consumer q))) ∧
    ioq_wf q' ∧ contents q' = contents q ++ [b] ∧ consumer q' = 0 ∧ producer q' = producer q ∧
    ilock q' = ilock q.
Proof.
  intros Hwf Hlt. pose proof Hwf as [Hb Hh Ht]. unfold putchar_turn.
  destruct (ioq_full q) eqn:E; [apply ioq_full_iff in E; [lia|done]|].
  rewrite aset_ok by lia. cbn [mbind outcome_bind]. rewrite next_pos_eq by done.
  rewrite contents_length in Hlt.
  assert (Hc : ∀ c, contents (IoQueue (ilock q) (producer q) c (<[Z.to_nat (head q) := b]> (buf q))
                       ((head q + 1) mod bufsize) (tail q)) = contents q ++ [b]).
  { intros c. apply contents_ext; cbn [head tail buf].
    - unfold zlen in *. rewrite length_app. simpl. pose proof (contents_length q) as H.
      unfold zlen, bufsize in *. zdm.
    - intros k Hk. pose proof (contents_length q) as Hl. unfold zlen in Hk, Hl. rewrite length_app in Hk.
      simpl in Hk. destruct (decide (k = Z.of_nat (length (contents q)))) as [->|Hne].
      + rewrite Nat2Z.id, lookup_app_r, Nat.sub_diag by lia. simpl. f_equal.
        replace ((tail q + _) mod bufsize) with (head q) by (unfold bufsize in *; zdm).
        rewrite list_lookup_total_insert_eq; [done|]. unfold zlen in Hb. lia.
      + rewrite lookup_app_l by lia. rewrite contents_lookup by lia. f_equal.
        rewrite list_lookup_total_insert_ne; [done|]. unfold bufsize in *. zdm. }
  assert (Hw : ∀ c, ioq_wf (IoQueue (ilock q) (producer q) c (<[Z.to_nat (head q) := b]> (buf q))
                       ((head q + 1) mod bufsize) (tail q))).
  { intros c. split; cbn [head tail buf]; [by rewrite zlen_insert|unfold bufsize; zdm|done]. }
  destruct (Z.eqb_spec (consumer q) 0) as [E0|E0]; eexists; (split; [done|]); rewrite ?E0;
    split_and!; done.
Qed.

Lemma putchar_ok t b q :
  ioq_wf q → zlen (contents q) < 63 →
  ∃ q', ioq_putchar t b q = Ok (q', if consumer q =? 0 then None else Some (consumer q)) ∧
    ioq_wf q' ∧ contents q' = contents q ++ [b] ∧ consumer q' = 0 ∧ producer q' = producer q ∧
    ilock q' = ilock q.
Proof.
  intros Hwf Hlt. destruct (putchar_turn_ok t b q Hwf Hlt) as (q' & H & Hq). exists q'. split; [|done].
  unfold ioq_putchar. by mrun H.
Qed.

Lemma getchar_turn_ok t b bs q :
  ioq_wf q → contents q = b :: bs →
  ∃ q', getchar_turn t q = Ok (Done (b, q', if producer q =? 0 then None else Some (producer q))) ∧
    ioq_wf q' ∧ contents q' = bs ∧ producer q' = 0 ∧ consumer q' = consumer q ∧ ilock q' = ilock q.
Proof.
  intros Hwf Hc. pose proof Hwf as [Hb Hh Ht]. unfold getchar_turn.
  destruct (ioq_empty q) eqn:E; [apply ioq_empty_iff in E; [congruence|done]|].
  pose proof (contents_length q) as Hl. rewrite Hc in Hl. unfold zlen in Hl. simpl in Hl.
  assert (Hk : ∀ k, 0 ≤ k < (head q - tail q) mod bufsize →
    (b :: bs) !! Z.to_nat k = Some (buf q !!! Z.to_nat ((tail q + k) mod bufsize)))
    by (intros k Hk; rewrite <- Hc; by apply contents_lookup).
  assert (H0 : aget (buf q) (tail q) = Ok b).
  { specialize (Hk 0). rewrite Z.add_0_r, (Z.mod_small (tail q)) in Hk by done.
    specialize (Hk ltac:(lia)). injection Hk as Hk.
    apply aget_ok. split; [lia|]. rewrite Hk. apply list_lookup_lookup_total_lt.
    unfold zlen in Hb. lia. }
  mrun H0. rewrite next_pos_eq by done.
  assert (Hc' : ∀ p, contents (IoQueue (ilock q) p (consumer q) (buf q) (head q)
                       ((tail q + 1) mod bufsize)) = bs).
  { intros p. apply contents_ext; cbn [head tail buf]; [unfold zlen, bufsize in *; zdm|].
    intros k Hk'. unfold zlen in Hk'. specialize (Hk (k + 1)).
    replace (Z.to_nat (k + 1)) with (S (Z.to_nat k)) in Hk by lia. simpl in Hk. rewrite Hk by lia.
    do 3 f_equal. unfold bufsize in *. zdm. }
  assert (Hw : ∀ p, ioq_wf (IoQueue (ilock q) p (consumer q) (buf q) (head q)
                       ((tail q + 1) mod bufsize))).
  { intros p. split; cbn [head tail buf]; [done|done|unfold bufsize; zdm]. }
  destruct (Z.eqb_spec (producer q) 0) as [E0|E0]; eexists; (split; [done|]); rewrite ?E0;
    split_and!; done.
Qed.

Lemma getchar_ok t b bs q :
  ioq_wf q → contents q = b :: bs →
  ∃ q', ioq_getchar t q = Ok (b, q', if producer q =? 0 then None else Some (producer q)) ∧
    ioq_wf q' ∧ contents q' = bs ∧ producer q' = 0 ∧ consumer q' = consumer q ∧ ilock q' = ilock q.
Proof.
  intros Hwf Hc. destruct (getchar_turn_ok t b bs q Hwf Hc) as (q' & H & Hq). exists q'. split; [|done].
  unfold ioq_getchar. by mrun H.
Qed.

Definition held_by (t : Z) : lock := Lock t (Semaphore 0 []) 1.

Lemma lock_taken t : t ≠ 0 → lock_acquire t lock_init = Ok (held_by t).
Proof. intros Ht. unfold lock_acquire. simpl. by rewrite (proj2 (Z.eqb_neq 0 t)) by done. Qed.

Lemma lock_given t : lock_release (held_by t) = (None, lock_init).
Proof. done. Qed.

Lemma with_ilock_same l q : ioq_wf q → ioq_wf (with_ilock l q) ∧ contents (with_ilock l q) = contents q.
Proof. by intros [? ? ?]. Qed.

(** A full queue puts its producer to sleep, and an empty one its consumer. *)
Lemma putchar_sleeps t b q :
  ilock q = lock_init → t ≠ 0 → ioq_full q = true →
  putchar_turn t b q = Ok (Asleep (IoQueue (held_by t) t (consumer q) (buf q) (head q) (tail q))).
Proof. intros Hl Ht Hf. unfold putchar_turn, producer_wait. rewrite Hf, Hl. by mrun (lock_taken t Ht). Qed.

Lemma getchar_sleeps t q :
  ilock q = lock_init → t ≠ 0 → ioq_empty q = true →
  getchar_turn t q = Ok (Asleep (IoQueue (held_by t) (producer q) t (buf q) (head q) (tail q))).
Proof. intros Hl Ht He. unfold getchar_turn, consumer_wait. rewrite He, Hl. by mrun (lock_taken t Ht). Qed.

Lemma ioqueue_init_ok q :
  zlen (buf q) = bufsize → ioq_wf (ioqueue_init q) ∧ contents (ioqueue_init q) = [].
Proof. intros H. split; [by split|done]. Qed.

(** ** Theorems *)


Definition demo_queue : ioqueue :=
  ioqueue_init (IoQueue lock_init 0 0 (replicate 64 0) 7 9).

