(* ===== verification/Keyboard.v ===== *)
(** * The keyboard driver (device/keyboard.c)

    One scan code byte per interrupt; the state is the modifier flags and the
    buffer of typed characters. *)

From S2P Require Import Prelude Sync IoQueue.

(** ** Data *)

Definition shift_l_make : Z := 0x2a.
Definition shift_r_make : Z := 0x36.
Definition alt_l_make : Z := 0x38.
Definition alt_r_make : Z := 0xe308.
Definition ctrl_l_make : Z := 0x1d.
Definition ctrl_r_make : Z := 0xe01d.
Definition caps_lock_make : Z := 0x3a.

(** [keymap], as pairs (plain, shifted) of character codes. *)
Definition keymap : list (Z * Z) := [
  (0, 0); (27, 27); (49, 33); (50, 64); (51, 35); (52, 36); (53, 37); (54, 94);
  (55, 38); (56, 42); (57, 40); (48, 41); (45, 95); (61, 43); (8, 8); (9, 9);
  (113, 81); (119, 87); (101, 69); (114, 82); (116, 84); (121, 89); (117, 85); (105, 73);
  (111, 79); (112, 80); (91, 123); (93, 125); (13, 13); (0, 0); (97, 65); (115, 83);
  (100, 68); (102, 70); (103, 71); (104, 72); (106, 74); (107, 75); (108, 76); (59, 58);
  (39, 34); (96, 126); (0, 0); (92, 124); (122, 90); (120, 88); (99, 67); (118, 86);
  (98, 66); (110, 78); (109, 77); (44, 60); (46, 62); (47, 63); (0, 0); (42, 42);
  (0, 0); (32, 32); (0, 0)].

Record kbd := Kbd {
  ctrl_status : bool;
  shift_status : bool;
  alt_status : bool;
  caps_lock_status : bool;
  ext_scancode : bool;
  kbd_buf : ioqueue;
}.

Definition keyboard_init (q : ioqueue) : kbd := Kbd false false false false false (ioqueue_init q).

(** ** The interrupt handler *)

(** The keys whose second character needs shift alone. *)
Definition shift_key (scancode : Z) : bool :=
  (scancode <? 0x0e) || (scancode =? 0x29) || (scancode =? 0x1a) || (scancode =? 0x1b) ||
  (scancode =? 0x2b) || (scancode =? 0x27) || (scancode =? 0x28) || (scancode =? 0x33) ||
  (scancode =? 0x34) || (scancode =? 0x35).

Definition break_handler (make_code : Z) (k : kbd) : kbd :=
  if (make_code =? ctrl_l_make) || (make_code =? ctrl_r_make) then
    Kbd false (shift_status k) (alt_status k) (caps_lock_status k) (ext_scancode k) (kbd_buf k)
  else if (make_code =? shift_l_make) || (make_code =? shift_r_make) then
    Kbd (ctrl_status k) false (alt_status k) (caps_lock_status k) (ext_scancode k) (kbd_buf k)
  else if (make_code =? alt_l_make) || (make_code =? alt_r_make) then
    Kbd (ctrl_status k) (shift_status k) false (caps_lock_status k) (ext_scancode k) (kbd_buf k)
  else k.

Definition modifier_handler (scancode : Z) (k : kbd) : kbd :=
  if (scancode =? ctrl_l_make) || (scancode =? ctrl_r_make) then
    Kbd true (shift_status k) (alt_status k) (caps_lock_status k) (ext_scancode k) (kbd_buf k)
  else if (scancode =? shift_l_make) || (scancode =? shift_r_make) then
    Kbd (ctrl_status k) true (alt_status k) (caps_lock_status k) (ext_scancode k) (kbd_buf k)
  else if scancode =? caps_lock_make then
    Kbd (ctrl_status k) (shift_status k) (alt_status k) (negb (caps_lock_status k))
        (ext_scancode k) (kbd_buf k)
  else k.

(** The character of a key, 0 when it has none. *)
Definition key_char (scancode : Z) (shift_down_last caps_lock_last : bool) : outcome Z :=
  let shift :=
    if shift_key scancode then shift_down_last
    else if shift_down_last && caps_lock_last then false
    else shift_down_last || caps_lock_last in
  let index := u8 (Z.land scancode 0x00ff) in
  '(plain, shifted) ← aget keymap index;
  Ok (if shift : bool then shifted else plain).

(** The short cuts ctrl-l and ctrl-u. *)
Definition ctrl_char (ctrl_down_last : bool) (cur_char : Z) : Z :=
  if (ctrl_down_last && (cur_char =? 108)) || (ctrl_down_last && (cur_char =? 117))
  then i8 (cur_char - 97) else cur_char.

(** A make code: the new state and the thread that is woken. *)
Definition make_handler (t scancode : Z) (k : kbd) : outcome (kbd * option Z) :=
  cur_char ← key_char scancode (shift_status k) (caps_lock_status k);
  if negb (cur_char =? 0) then
    if negb (ioq_full (kbd_buf k)) then
      '(q, w) ← ioq_putchar t (ctrl_char (ctrl_status k) cur_char) (kbd_buf k);
      Ok (Kbd (ctrl_status k) (shift_status k) (alt_status k) (caps_lock_status k)
              (ext_scancode k) q, w)
    else Ok (k, None)
  else Ok (modifier_handler (Z.land scancode 0x00ff) k, None).

(** The handler; [t] is the interrupted thread, [code] the byte of the port. *)
Definition intr_keyboard_handler (t code : Z) (k : kbd) : outcome (kbd * option Z) :=
  let scancode := u16 (u8 code) in
  if scancode =? 0xe0 then
    Ok (Kbd (ctrl_status k) (shift_status k) (alt_status k) (caps_lock_status k) true (kbd_buf k), None)
  else
    let '(scancode, k) :=
      if ext_scancode k then
        (Z.lor 0xe000 scancode,
         Kbd (ctrl_status k) (shift_status k) (alt_status k) (caps_lock_status k) false (kbd_buf k))
      else (scancode, k) in
    if negb (Z.land scancode 0x0080 =? 0) then
      Ok (break_handler (Z.land scancode 0xff7f) k, None)
    else if ((scancode >? 0x00) && (scancode <? 0x3b)) || (scancode =? alt_r_make) ||
            (scancode =? ctrl_r_make) then
      make_handler t scancode k
    else Ok (k, None).

(** A sequence of interrupts. *)
Fixpoint keyboard_run (t : Z) (codes : list Z) (k : kbd) : outcome kbd :=
  match codes with
  | [] => Ok k
  | c :: codes => '(k, _) ← intr_keyboard_handler t c k; keyboard_run t codes k
  end.

(** ** What a key types *)

(** The scan codes of the letter keys, with their letters. *)
Definition letters : list (Z * Z) := [
  (0x10, 113); (0x11, 119); (0x12, 101); (0x13, 114); (0x14, 116); (0x15, 121); (0x16, 117);
  (0x17, 105); (0x18, 111); (0x19, 112); (0x1e, 97); (0x1f, 115); (0x20, 100); (0x21, 102);
  (0x22, 103); (0x23, 104); (0x24, 106); (0x25, 107); (0x26, 108); (0x2c, 122); (0x2d, 120);
  (0x2e, 99); (0x2f, 118); (0x30, 98); (0x31, 110); (0x32, 109)].

(** Upper case when exactly one of shift and caps lock is on; control with a lower
    case l or u gives the code the shell treats as a short cut. *)
Definition letter_char (c : Z) (ctrl shift caps : bool) : Z :=
  let ch := if xorb shift caps then c - 32 else c in
  if ctrl && ((ch =? 108) || (ch =? 117)) then ch - 97 else ch.

Definition kbd_wf (k : kbd) : Prop := ioq_wf (kbd_buf k).

(** The bytes a handler call adds to the buffer: none or one, never beyond it. *)
Definition typed (k k' : kbd) (bs : list Z) : Prop :=
  contents (kbd_buf k') = contents (kbd_buf k) ++ bs ∧ (length bs ≤ 1)%nat.

(** Finite checks over all scan codes. *)
Lemma code_forall (P : Z → bool) :
  forallb P (seqZ 0 256) = true → ∀ y, 0 ≤ y < 256 → P y = true.
Proof.
  intros H y Hy. rewrite forallb_forall in H. apply H, list_elem_of_In, elem_of_seqZ. lia.
Qed.

Lemma make_handler_ok t scancode k :
  kbd_wf k → is_ok (aget keymap (u8 (Z.land scancode 0xff))) →
  ∃ k' w bs, make_handler t scancode k = Ok (k', w) ∧ kbd_wf k' ∧ typed k k' bs.
Proof.
  intros Hk [[plain shifted] Hm]. unfold make_handler, key_char. mrun Hm. cbn zeta.
  destruct (negb _).
  - destruct (ioq_full (kbd_buf k)) eqn:Ef; cbn [negb].
    + exists k, None, []. split; [done|]. split; [done|]. split; [by rewrite app_nil_r|simpl; lia].
    + match goal with |- context [ioq_putchar t ?c _] => set (ch := c) end.
      assert (zlen (contents (kbd_buf k)) < 63).
      { assert (zlen (contents (kbd_buf k)) ≠ 63)
          by (intros E; apply ioq_full_iff in E; [congruence|done]).
        rewrite contents_length in *. unfold bufsize in *. zdm. }
      destruct (putchar_ok t ch (kbd_buf k) Hk) as (q' & Hq & Hw & Hc & _); [done|].
      mrun Hq. eexists _, _, [ch]. split; [done|]. split; [done|]. split; [done|simpl; lia].
  - eexists _, _, []. split; [done|]. unfold kbd_wf, typed, modifier_handler.
    repeat (zcase; [split; [done|split; [by rewrite app_nil_r|simpl; lia]]|]).
    split; [done|split; [by rewrite app_nil_r|simpl; lia]].
Qed.

Lemma handler_ok t code k :
  kbd_wf k → ∃ k' w bs, intr_keyboard_handler t code k = Ok (k', w) ∧ kbd_wf k' ∧ typed k k' bs.
Proof.
  intros Hk. unfold intr_keyboard_handler.
  assert (Hu : 0 ≤ u8 code < 256) by apply u8_range. rewrite u16_small by lia.
  assert (Hnil : ∀ k', kbd_buf k' = kbd_buf k → kbd_wf k' ∧ typed k k' []).
  { intros k' E. unfold kbd_wf, typed. rewrite E. split; [done|].
    split; [by rewrite app_nil_r|simpl; lia]. }
  destruct (u8 code =? 0xe0); [eexists _, _, []; split; [done|]; by apply Hnil|].
  set (ext := ext_scancode k). destruct ext eqn:Ex; cbn zeta.
  - set (k1 := Kbd _ _ _ _ _ _). destruct (negb _).
    + eexists _, _, []. split; [done|]. apply Hnil. unfold break_handler. by repeat zcase.
    + destruct (_ || _) eqn:Eg; [|by eexists _, _, []; split; [done|]; apply Hnil].
      destruct (make_handler_ok t (Z.lor 0xe000 (u8 code)) k1) as (k' & w & bs & ? & ? & ?); [done| |].
      { pose proof (code_forall (λ c, negb (((Z.lor 0xe000 c >? 0) && (Z.lor 0xe000 c <? 0x3b)) ||
          (Z.lor 0xe000 c =? alt_r_make) || (Z.lor 0xe000 c =? ctrl_r_make)) ||
          match aget keymap (u8 (Z.land (Z.lor 0xe000 c) 0xff)) with Ok _ => true | _ => false end)
          ltac:(vm_compute; reflexivity) (u8 code) Hu) as Hc.
        cbv beta in Hc. rewrite Eg in Hc. simpl in Hc. destruct (aget _ _); try done. by eexists. }
      exists k', w, bs. done.
  - destruct (negb _).
    + eexists _, _, []. split; [done|]. apply Hnil. unfold break_handler. by repeat zcase.
    + destruct (_ || _) eqn:Eg; [|by eexists _, _, []; split; [done|]; apply Hnil].
      apply make_handler_ok; [done|].
      pose proof (code_forall (λ c, negb (((c >? 0) && (c <? 0x3b)) ||
          (c =? alt_r_make) || (c =? ctrl_r_make)) ||
          match aget keymap (u8 (Z.land c 0xff)) with Ok _ => true | _ => false end)
          ltac:(vm_compute; reflexivity) (u8 code) Hu) as Hc.
      cbv beta in Hc. rewrite Eg in Hc. simpl in Hc. destruct (aget _ _); try done. by eexists.
Qed.

(** No path sets the alt flag. *)
Lemma handler_alt t code k k' w :
  intr_keyboard_handler t code k = Ok (k', w) → alt_status k = false → alt_status k' = false.
Proof.
  unfold intr_keyboard_handler. intros H Ha.
  destruct (_ =? 0xe0); [by inv_ok|].
  assert (Hmk : ∀ sc k1, alt_status k1 = false → make_handler t sc k1 = Ok (k', w) →
    alt_status k' = false).
  { intros sc k1 H1. unfold make_handler. intros Hm. apply bind_ok_iff in Hm as (ch & _ & Hm).
    destruct (negb _); [destruct (negb _); [apply bind_ok_iff in Hm as ([q w'] & _ & Hm)|]|];
      injection Hm as <- <-; try done.
    unfold modifier_handler. by repeat zcase. }
  assert (Hbr : ∀ mc k1, alt_status k1 = false → alt_status (break_handler mc k1) = false)
    by (intros mc k1 H1; unfold break_handler; by repeat zcase).
  destruct (ext_scancode k); cbn zeta in H;
    (destruct (negb _); [injection H as <- <-; by apply Hbr|]);
    (destruct (_ || _); [eapply Hmk; [|exact H]; done|by injection H as <- <-]).
Qed.

(** A make code without prefix. *)
Lemma handler_plain t sc k :
  0 < sc < 0x3b → ext_scancode k = false → intr_keyboard_handler t sc k = make_handler t sc k.
Proof.
  intros Hs He. unfold intr_keyboard_handler. rewrite u8_small, u16_small, He by lia.
  rewrite (proj2 (Z.eqb_neq sc 0xe0)) by lia.
  assert (Hb : (Z.land sc 0x80 =? 0) || negb (sc <? 0x3b) = true)
    by (apply (code_forall (λ c, (Z.land c 0x80 =? 0) || negb (c <? 0x3b))); [by vm_compute|lia]).
  rewrite (proj2 (Z.ltb_lt sc 0x3b)) in * by lia. rewrite orb_false_r in Hb. rewrite Hb.
  rewrite Z.gtb_ltb, (proj2 (Z.ltb_lt 0 sc)) by lia. done.
Qed.

Lemma letter_code sc c : (sc, c) ∈ letters → 0 < sc < 0x3b.
Proof.
  intros Hin. assert (Hall : Forall (λ '(sc, c), 0 < sc < 0x3b) letters)
    by (apply (bool_decide_unpack _); by vm_compute).
  rewrite Forall_forall in Hall. exact (Hall _ Hin).
Qed.

Lemma letter_key sc c ct sh ca :
  (sc, c) ∈ letters →
  match key_char sc sh ca with
  | Ok ch => ch ≠ 0 ∧ ctrl_char ct ch = letter_char c ct sh ca
  | _ => False
  end.
Proof.
  intros Hin.
  assert (Hall : forallb (λ '(sc, c), forallb (λ ct, forallb (λ sh, forallb (λ ca,
      match key_char sc sh ca with
      | Ok ch => negb (ch =? 0) && (ctrl_char ct ch =? letter_char c ct sh ca)
      | _ => false
      end) [true; false]) [true; false]) [true; false]) letters = true) by (vm_compute; reflexivity).
  rewrite forallb_forall in Hall. specialize (Hall (sc, c) (proj1 (list_elem_of_In _ _) Hin)).
  assert (Hb : ∀ b : bool, In b [true; false]) by (intros []; simpl; auto).
  cbv beta iota in Hall. rewrite forallb_forall in Hall. specialize (Hall ct (Hb ct)).
  rewrite forallb_forall in Hall. specialize (Hall sh (Hb sh)).
  rewrite forallb_forall in Hall. specialize (Hall ca (Hb ca)).
  destruct (key_char sc sh ca); try done. zbool. done.
Qed.

(** ** Theorems *)

(** Whatever bytes the keyboard sends, the handler neither faults nor blocks:
    the buffer stays well formed, its characters are kept in order, each interrupt
    adds at most one, and the alt flag is never set. *)
Theorem keyboard_safe t codes k :
  kbd_wf k → alt_status k = false →
  ∃ k' bs, keyboard_run t codes k = Ok k' ∧ kbd_wf k' ∧ alt_status k' = false ∧
    contents (kbd_buf k') = contents (kbd_buf k) ++ bs ∧ (length bs ≤ length codes)%nat.
Proof.
  revert k. induction codes as [|c codes IH]; intros k Hk Ha; simpl.
  { exists k, []. rewrite app_nil_r. done. }
  destruct (handler_ok t c k Hk) as (k1 & w & b1 & H1 & Hk1 & Hc1 & Hl1). mrun H1.
  destruct (IH k1 Hk1 (handler_alt _ _ _ _ _ H1 Ha)) as (k' & bs & Hr & Hk' & Ha' & Hc & Hl).
  exists k', (b1 ++ bs). rewrite Hc, Hc1, length_app, app_assoc. split_and!; try done. lia.
Qed.

(** A letter key types its letter, in upper case exactly when one of shift and
    caps lock is on, and with control held l and u become the short cut codes; the
    modifiers stay as they are. *)
Theorem letter_typed t sc c k :
  (sc, c) ∈ letters → kbd_wf k → ext_scancode k = false → ioq_full (kbd_buf k) = false →
  ∃ k' w, intr_keyboard_handler t sc k = Ok (k', w) ∧
    contents (kbd_buf k') = contents (kbd_buf k) ++
      [letter_char c (ctrl_status k) (shift_status k) (caps_lock_status k)] ∧
    ctrl_status k' = ctrl_status k ∧ shift_status k' = shift_status k ∧
    caps_lock_status k' = caps_lock_status k.
Proof.
  intros Hin Hk He Hf.
  assert (Hput : ∀ ch, ∃ q' w, ioq_putchar t ch (kbd_buf k) = Ok (q', w) ∧
                    contents q' = contents (kbd_buf k) ++ [ch]).
  { intros ch. assert (zlen (contents (kbd_buf k)) ≠ 63)
      by (intros E; apply ioq_full_iff in E; [congruence|done]).
    destruct (putchar_ok t ch (kbd_buf k) Hk) as (q' & ? & _ & ? & _); [|eauto].
    rewrite contents_length in *. unfold bufsize in *. zdm. }
  rewrite handler_plain by (done || by apply (letter_code sc c)). unfold make_handler.
  pose proof (letter_key sc c (ctrl_status k) (shift_status k) (caps_lock_status k) Hin) as Hl.
  destruct (key_char sc (shift_status k) (caps_lock_status k)) as [ch| | | |]; try done.
  destruct Hl as [Hnz Hl]. cbn [mbind outcome_bind]. rewrite (proj2 (Z.eqb_neq _ _) Hnz), Hf, Hl.
  cbn [negb]. set (l := letter_char _ _ _ _).
  destruct (Hput l) as (q' & w & Hq & Hc). mrun Hq. eexists _, w. split; [done|]. by split_and!.
Qed.

(** The modifier keys: pressing and releasing shift and control (left, and right
    with its 0xe0 prefix) sets and clears their flag, caps lock toggles its flag,
    and the right alt key is not recognised: its codes change nothing. *)
Theorem modifier_keys t ct sh al ca q :
  let k := Kbd ct sh al ca false q in
  keyboard_run t [0x2a] k = Ok (Kbd ct true al ca false q) ∧
  keyboard_run t [0x36] k = Ok (Kbd ct true al ca false q) ∧
  keyboard_run t [0xaa] k = Ok (Kbd ct false al ca false q) ∧
  keyboard_run t [0xb6] k = Ok (Kbd ct false al ca false q) ∧
  keyboard_run t [0x1d] k = Ok (Kbd true sh al ca false q) ∧
  keyboard_run t [0x9d] k = Ok (Kbd false sh al ca false q) ∧
  keyboard_run t [0xe0; 0x1d] k = Ok (Kbd true sh al ca false q) ∧
  keyboard_run t [0xe0; 0x9d] k = Ok (Kbd false sh al ca false q) ∧
  keyboard_run t [0x3a] k = Ok (Kbd ct sh al (negb ca) false q) ∧
  keyboard_run t [0xe0; 0x38] k = Ok k ∧ keyboard_run t [0xe0; 0xb8] k = Ok k.
Proof. destruct sh, ca; split_and!; vm_compute; reflexivity. Qed.

(** *** Witnesses *)

Definition demo_kbd : kbd := keyboard_init demo_queue.

Lemma demo_kbd_wf : kbd_wf demo_kbd.
Proof. by apply ioqueue_init_ok. Qed.

Lemma keyboard_safe_witness :
  ∃ k' bs, keyboard_run 0x1000 [0x2a; 0x1e; 0xaa; 0xff; 0xe0; 0x38; 0x1e] demo_kbd = Ok k' ∧
    kbd_wf k' ∧ contents (kbd_buf k') = bs ∧ (length bs ≤ 7)%nat.
Proof.
  destruct (keyboard_safe 0x1000 [0x2a; 0x1e; 0xaa; 0xff; 0xe0; 0x38; 0x1e] demo_kbd demo_kbd_wf eq_refl)
    as (k' & bs & Hr & Hk & _ & Hc & Hl).
  exists k', bs. split; [exact Hr|]. split; [exact Hk|]. split; [exact Hc|exact Hl].
Defined.

Lemma letter_typed_witness :
  ∃ k' w, intr_keyboard_handler 0x1000 0x1e demo_kbd = Ok (k', w) ∧
    contents (kbd_buf k') = [97].
Proof.
  destruct (letter_typed 0x1000 0x1e 97 demo_kbd) as (k' & w & Hr & Hc & _).
  - apply (bool_decide_unpack _). reflexivity.
  - exact demo_kbd_wf.
  - reflexivity.
  - reflexivity.
  - exists k', w. split; [exact Hr|exact Hc].
Defined.
