(* ===== verification/CString.v ===== *)
(** * Strings and memory blocks (lib/string.c)

    Byte memory: a map from addresses to bytes; reading or writing an address that
    is not there faults.  A [char] is signed: [char_of] is the value the code
    compares.  Loops take fuel; each lemma gives the fuel that is enough. *)

From S2P Require Import Prelude.

Notation bmem := (gmap Z Z).

Definition rdb (m : bmem) (a : Z) : outcome Z := of_opt (m !! a).
Definition wrb (m : bmem) (a v : Z) : outcome bmem :=
  match m !! a with Some _ => Ok (<[a := v]> m) | None => Fault end.

Definition char_of (b : Z) : Z := i8 b.

(** ** Operations *)

Fixpoint memset (size : nat) (m : bmem) (dst value : Z) : outcome bmem :=
  match size with
  | O => Ok m
  | S size => m ← wrb m dst value; memset size m (u32 (dst + 1)) value
  end.

Fixpoint memcpy (size : nat) (m : bmem) (dst src : Z) : outcome bmem :=
  match size with
  | O => Ok m
  | S size => b ← rdb m src; m ← wrb m dst b; memcpy size m (u32 (dst + 1)) (u32 (src + 1))
  end.

Fixpoint memcmp (size : nat) (m : bmem) (a b : Z) : outcome Z :=
  match size with
  | O => Ok 0
  | S size =>
      x ← rdb m a; y ← rdb m b;
      if negb (char_of x =? char_of y) then Ok (if char_of x >? char_of y then 1 else -1)
      else memcmp size m (u32 (a + 1)) (u32 (b + 1))
  end.

(** The copying loop of [strcpy] and [strcat], the NUL included. *)
Fixpoint copy_loop (fuel : nat) (m : bmem) (dst_ src_ : Z) : outcome bmem :=
  match fuel with
  | O => NoFuel
  | S fuel =>
      b ← rdb m src_; m ← wrb m dst_ b;
      if b =? 0 then Ok m else copy_loop fuel m (u32 (dst_ + 1)) (u32 (src_ + 1))
  end.

Definition strcpy (fuel : nat) (m : bmem) (dst_ src_ : Z) : outcome (Z * bmem) :=
  m ← copy_loop fuel m dst_ src_; Ok (dst_, m).

(** The loop that runs over the NUL: the pointer after it. *)
Fixpoint end_loop (fuel : nat) (m : bmem) (p : Z) : outcome Z :=
  match fuel with
  | O => NoFuel
  | S fuel => b ← rdb m p; if b =? 0 then Ok (u32 (p + 1)) else end_loop fuel m (u32 (p + 1))
  end.

Definition strlen (fuel : nat) (m : bmem) (str : Z) : outcome Z :=
  p ← end_loop fuel m str; Ok (u32 (p - str - 1)).

Fixpoint strcmp (fuel : nat) (m : bmem) (a b : Z) : outcome Z :=
  match fuel with
  | O => NoFuel
  | S fuel =>
      x ← rdb m a; y ← rdb m b;
      if negb (x =? 0) && (char_of x =? char_of y) then strcmp fuel m (u32 (a + 1)) (u32 (b + 1))
      else Ok (if char_of x <? char_of y then -1 else if char_of x >? char_of y then 1 else 0)
  end.

Fixpoint strchr (fuel : nat) (m : bmem) (str ch : Z) : outcome Z :=
  match fuel with
  | O => NoFuel
  | S fuel =>
      b ← rdb m str;
      if char_of b =? ch then
        if char_of b =? ch then Ok str else strchr fuel m (u32 (str + 1)) ch
      else Ok 0
  end.

Fixpoint strrchr_loop (fuel : nat) (m : bmem) (str ch last_char : Z) : outcome Z :=
  match fuel with
  | O => NoFuel
  | S fuel =>
      b ← rdb m str;
      if b =? 0 then Ok last_char
      else strrchr_loop fuel m (u32 (str + 1)) ch (if char_of b =? ch then str else last_char)
  end.

Definition strrchr (fuel : nat) (m : bmem) (str ch : Z) : outcome Z := strrchr_loop fuel m str ch 0.

Definition strcat (fuel : nat) (m : bmem) (dst_ src_ : Z) : outcome (Z * bmem) :=
  str ← end_loop fuel m dst_;
  m ← copy_loop fuel m (u32 (str - 1)) src_;
  Ok (dst_, m).

Fixpoint strchrs_loop (fuel : nat) (m : bmem) (p ch ch_cnt : Z) : outcome Z :=
  match fuel with
  | O => NoFuel
  | S fuel =>
      b ← rdb m p;
      if b =? 0 then Ok ch_cnt
      else strchrs_loop fuel m (u32 (p + 1)) ch (if char_of b =? ch then u32 (ch_cnt + 1) else ch_cnt)
  end.

Definition strchrs (fuel : nat) (m : bmem) (str ch : Z) : outcome Z := strchrs_loop fuel m str ch 0.

(** ** Abstract view *)

(** The bytes [s] lie at [a], below the end of the address space. *)
Definition bytes_at (m : bmem) (a : Z) (s : list Z) : Prop :=
  0 ≤ a ∧ a + zlen s < 4294967296 ∧ ∀ i, 0 ≤ i < zlen s → m !! (a + i) = s !! Z.to_nat i.

(** The C string [s]: its bytes are not NUL, and a NUL follows. *)
Definition cstr (m : bmem) (a : Z) (s : list Z) : Prop :=
  Forall (λ b, 0 < b < 256) s ∧ bytes_at m a (s ++ [0]).

Definition mapped (m : bmem) (a n : Z) : Prop :=
  0 ≤ a ∧ a + n < 4294967296 ∧ ∀ i, 0 ≤ i < n → is_Some (m !! (a + i)).

(** Memory with the bytes [s] stored from [a] on. *)
Fixpoint put_bytes (m : bmem) (a : Z) (s : list Z) : bmem :=
  match s with [] => m | b :: s => put_bytes (<[a := b]> m) (a + 1) s end.

Definition disjoint (a n b k : Z) : Prop := a + n ≤ b ∨ b + k ≤ a.

(** ** Lemmas *)

Ltac zl := autorewrite with kernel in *; repeat match goal with
  | l : list ?A |- _ => match goal with H : 0 ≤ zlen l |- _ => fail 1 | _ =>
      pose proof (zlen_nonneg l) end end; try lia.

Lemma put_bytes_lookup s m a x :
  put_bytes m a s !! x =
    if decide (a ≤ x < a + zlen s) then s !! Z.to_nat (x - a) else m !! x.
Proof.
  revert m a. induction s as [|b s IH]; intros m a; simpl.
  { rewrite decide_False; [done|]. unfold zlen. simpl. lia. }
  rewrite IH. destruct (decide (x = a)) as [->|Hne].
  - rewrite decide_False, decide_True by zl. rewrite Z.sub_diag. by rewrite lookup_insert_eq.
  - destruct (decide (a + 1 ≤ x < a + 1 + zlen s)).
    + rewrite decide_True by zl.
      by replace (Z.to_nat (x - a)) with (S (Z.to_nat (x - (a + 1)))) by lia.
    + rewrite decide_False by zl. by rewrite lookup_insert_ne.
Qed.

Lemma put_bytes_at m a s : 0 ≤ a → a + zlen s < 4294967296 → bytes_at (put_bytes m a s) a s.
Proof.
  intros H0 H1. split_and!; try done. intros i Hi. rewrite put_bytes_lookup, decide_True by lia.
  f_equal. lia.
Qed.

Lemma put_bytes_other m a s b k :
  disjoint a (zlen s) b (zlen k) → bytes_at m b k → bytes_at (put_bytes m a s) b k.
Proof.
  intros Hd (H0 & H1 & H2). split_and!; try done. intros i Hi.
  rewrite put_bytes_lookup, decide_False; [by apply H2|]. unfold disjoint in Hd. lia.
Qed.

Lemma bytes_at_cons m a b s :
  bytes_at m a (b :: s) → m !! a = Some b ∧ bytes_at m (a + 1) s.
Proof.
  intros (H0 & H1 & H2). split.
  - specialize (H2 0). rewrite Z.add_0_r in H2. apply H2. zl.
  - split_and!; [lia|zl|]. intros i Hi. replace (a + 1 + i) with (a + (i + 1)) by lia.
    rewrite H2 by zl. by replace (Z.to_nat (i + 1)) with (S (Z.to_nat i)) by lia.
Qed.

Lemma mapped_cons m a n : 0 < n → mapped m a n → is_Some (m !! a) ∧ mapped m (a + 1) (n - 1).
Proof.
  intros Hn (H0 & H1 & H2). split; [specialize (H2 0); rewrite Z.add_0_r in H2; apply H2; lia|].
  split_and!; [lia|lia|]. intros i Hi. replace (a + 1 + i) with (a + (i + 1)) by lia. apply H2. lia.
Qed.

Lemma mapped_ins m a n x v : mapped m a n → mapped (<[x := v]> m) a n.
Proof.
  intros (H0 & H1 & H2). split_and!; try done. intros i Hi.
  rewrite lookup_insert. case_decide; [done|by apply H2].
Qed.

Lemma wrb_ok m a v : is_Some (m !! a) → wrb m a v = Ok (<[a := v]> m).
Proof. intros [w Hw]. unfold wrb. by rewrite Hw. Qed.

Lemma rdb_ok m a b : m !! a = Some b → rdb m a = Ok b.
Proof. intros H. unfold rdb. by rewrite H. Qed.

Lemma bytes_at_insert_ne m a s x v :
  ¬ (a ≤ x < a + zlen s) → bytes_at m a s → bytes_at (<[x := v]> m) a s.
Proof.
  intros Hx (H0 & H1 & H2). split_and!; try done. intros i Hi. rewrite lookup_insert_ne by lia.
  by apply H2.
Qed.

Lemma end_loop_ok s fuel m p :
  Forall (λ b, 0 < b < 256) s → bytes_at m p (s ++ [0]) → (length s < fuel)%nat →
  end_loop fuel m p = Ok (p + zlen s + 1).
Proof.
  revert fuel p. induction s as [|b s IH]; intros fuel p Hs Hb Hf;
    (destruct fuel as [|fuel]; [simpl in Hf; lia|]); simpl in *.
  - apply bytes_at_cons in Hb as [Hb (? & ? & _)]. mrun (rdb_ok _ _ _ Hb).
    rewrite Z.eqb_refl, u32_small by zl. f_equal. zl.
  - pose proof Hb as (? & ? & _). apply bytes_at_cons in Hb as [Hb Ht]. mrun (rdb_ok _ _ _ Hb).
    apply Forall_cons in Hs as [Hb0 Hs]. rewrite (proj2 (Z.eqb_neq b 0)) by lia.
    rewrite u32_small by zl. rewrite IH by (done || lia). f_equal. zl.
Qed.

Lemma copy_loop_ok s fuel m dst src :
  Forall (λ b, 0 < b < 256) s → bytes_at m src (s ++ [0]) → mapped m dst (zlen s + 1) →
  disjoint dst (zlen s + 1) src (zlen s + 1) → (length s < fuel)%nat →
  copy_loop fuel m dst src = Ok (put_bytes m dst (s ++ [0])).
Proof.
  revert fuel m dst src. induction s as [|b s IH]; intros fuel m dst src Hs Hb Hm Hd Hf;
    (destruct fuel as [|fuel]; [simpl in Hf; lia|]); simpl in *;
    apply bytes_at_cons in Hb as [Hb Ht]; mrun (rdb_ok _ _ _ Hb).
  - apply mapped_cons in Hm as [Hm _]; [|zl]. mrun (wrb_ok m dst 0 Hm). done.
  - apply Forall_cons in Hs as [Hb0 Hs]. pose proof Hm as (? & ? & _).
    apply mapped_cons in Hm as [Hm Hm']; [|zl]. mrun (wrb_ok m dst b Hm).
    rewrite (proj2 (Z.eqb_neq b 0)) by lia. pose proof Ht as (? & ? & _).
    rewrite !u32_small by zl. unfold disjoint in *. apply IH; try done.
    + apply bytes_at_insert_ne; [zl|done].
    + apply mapped_ins. by replace (zlen s + 1) with (zlen (b :: s) + 1 - 1) by zl.
    + zl.
    + lia.
Qed.

Lemma memset_ok n m dst v :
  mapped m dst (Z.of_nat n) → memset n m dst v = Ok (put_bytes m dst (replicate n v)).
Proof.
  revert m dst. induction n as [|n IH]; intros m dst Hm; simpl; [done|].
  pose proof Hm as (? & ? & _). apply mapped_cons in Hm as [Hm Hm']; [|lia].
  mrun (wrb_ok m dst v Hm). rewrite u32_small by lia. apply IH, mapped_ins.
  by replace (Z.of_nat n) with (Z.of_nat (S n) - 1) by lia.
Qed.

Lemma memcpy_ok s m dst src :
  bytes_at m src s → mapped m dst (zlen s) → disjoint dst (zlen s) src (zlen s) →
  memcpy (length s) m dst src = Ok (put_bytes m dst s).
Proof.
  revert m dst src. induction s as [|b s IH]; intros m dst src Hb Hm Hd; simpl; [done|].
  pose proof Hb as (? & ? & _). pose proof Hm as (? & ? & _).
  apply bytes_at_cons in Hb as [Hb Ht]. apply mapped_cons in Hm as [Hm Hm']; [|zl].
  mrun (rdb_ok _ _ _ Hb). mrun (wrb_ok m dst b Hm). unfold disjoint in *.
  rewrite !u32_small by zl. apply IH.
  - apply bytes_at_insert_ne; [zl|done].
  - apply mapped_ins. by replace (zlen s) with (zlen (b :: s) - 1) by zl.
  - unfold disjoint. zl.
Qed.

(** Order of two strings as [strcmp] sees them: signed characters, the shorter
    string ends in 0. *)
Definition cmp_char (x y : Z) : Z :=
  if char_of x <? char_of y then -1 else if char_of x >? char_of y then 1 else 0.

Fixpoint str_order (s t : list Z) : Z :=
  match s, t with
  | [], [] => 0
  | [], y :: _ => cmp_char 0 y
  | x :: _, [] => cmp_char x 0
  | x :: s, y :: t => if x =? y then str_order s t else cmp_char x y
  end.

Lemma char_of_inj x y : 0 ≤ x < 256 → 0 ≤ y < 256 → char_of x = char_of y → x = y.
Proof. unfold char_of, i8. zdm. Qed.

Lemma cmp_char_0 x y : 0 ≤ x < 256 → 0 ≤ y < 256 → cmp_char x y = 0 → x = y.
Proof.
  intros Hx Hy. unfold cmp_char. repeat zcase; try done. intros _. apply char_of_inj; lia.
Qed.

Lemma strcmp_ok s t fuel m a b :
  cstr m a s → cstr m b t → (length s < fuel)%nat → strcmp fuel m a b = Ok (str_order s t).
Proof.
  revert t fuel a b. induction s as [|x s IH]; intros t fuel a b [Hs Ha] [Ht Hb] Hf;
    (destruct fuel as [|fuel]; [simpl in Hf; lia|]); cbn [strcmp app] in *.
  - apply bytes_at_cons in Ha as [Ha _]. mrun (rdb_ok _ _ _ Ha).
    destruct t as [|y t]; apply bytes_at_cons in Hb as [Hb _]; mrun (rdb_ok _ _ _ Hb); done.
  - pose proof Ha as (? & ? & _). pose proof Hb as (? & ? & _).
    apply Forall_cons in Hs as [Hx Hs]. apply bytes_at_cons in Ha as [Ha Ha'].
    mrun (rdb_ok _ _ _ Ha). rewrite (proj2 (Z.eqb_neq x 0)) by lia. cbn [negb andb].
    destruct t as [|y t]; apply bytes_at_cons in Hb as [Hb Hb']; mrun (rdb_ok _ _ _ Hb).
    + rewrite (proj2 (Z.eqb_neq (char_of x) (char_of 0))); [done|].
      intros E. apply char_of_inj in E; lia.
    + apply Forall_cons in Ht as [Hy Ht]. simpl. destruct (Z.eqb_spec x y) as [->|Hne].
      * rewrite Z.eqb_refl, !u32_small by zl. apply IH; [by split|by split|simpl in Hf; lia].
      * rewrite (proj2 (Z.eqb_neq (char_of x) (char_of y))); [done|].
        intros E. apply Hne, char_of_inj; lia || done.
Qed.

Lemma str_order_0 s t :
  Forall (λ b, 0 < b < 256) s → Forall (λ b, 0 < b < 256) t → str_order s t = 0 ↔ s = t.
Proof.
  revert t. induction s as [|x s IH]; intros [|y t] Hs Ht; simpl; try done.
  - apply Forall_cons in Ht as [Hy _]. split; [|done]. intros E.
    apply cmp_char_0 in E; [|lia..]. lia.
  - apply Forall_cons in Hs as [Hx _]. split; [|done]. intros E.
    apply cmp_char_0 in E; [|lia..]. lia.
  - apply Forall_cons in Hs as [Hx Hs], Ht as [Hy Ht]. destruct (Z.eqb_spec x y) as [->|Hne].
    + rewrite IH by done. naive_solver.
    + split; [|naive_solver]. intros E. apply cmp_char_0 in E; lia.
Qed.

Lemma cstr_put m a s :
  Forall (λ b, 0 < b < 256) s → 0 ≤ a → a + zlen s + 1 < 4294967296 →
  cstr (put_bytes m a (s ++ [0])) a s.
Proof. intros Hs H0 H1. split; [done|]. apply put_bytes_at; zl. Qed.

(** The position of the last [ch], from [i] on. *)
Fixpoint last_index (s : list Z) (ch i : Z) (found : option Z) : option Z :=
  match s with
  | [] => found
  | b :: s => last_index s ch (i + 1) (if b =? ch then Some i else found)
  end.

Definition count_char (s : list Z) (ch : Z) : Z := zlen (filter (λ b, b = ch) s).

Lemma char_eqb b ch : 0 < b < 256 → 0 ≤ ch < 128 → (char_of b =? ch) = (b =? ch).
Proof.
  intros Hb Hc. unfold char_of, i8.
  destruct (Z.eqb_spec b ch), (Z.eqb_spec ((b + 128) mod 256 - 128) ch); try done; zdm.
Qed.

Lemma strrchr_loop_ok s fuel m p base ch found :
  cstr m p s → 0 ≤ ch < 128 → (length s < fuel)%nat →
  strrchr_loop fuel m p ch (match found with Some i => base + i | None => 0 end) =
    Ok (match last_index s ch (p - base) found with Some i => base + i | None => 0 end).
Proof.
  revert fuel p found. induction s as [|b s IH]; intros fuel p found [Hs Hb] Hc Hf;
    (destruct fuel as [|fuel]; [simpl in Hf; lia|]); cbn [strrchr_loop app] in *.
  - apply bytes_at_cons in Hb as [Hb _]. mrun (rdb_ok _ _ _ Hb). done.
  - pose proof Hb as (? & ? & _). apply bytes_at_cons in Hb as [Hb Hb']. mrun (rdb_ok _ _ _ Hb).
    apply Forall_cons in Hs as [Hx Hs]. rewrite (proj2 (Z.eqb_neq b 0)), char_eqb, u32_small by zl.
    simpl. replace (p - base + 1) with (p + 1 - base) by lia.
    rewrite <- (IH fuel) by (done || by split || (simpl in Hf; lia)). f_equal.
    destruct (b =? ch); [lia|done].
Qed.

Lemma strchrs_loop_ok s fuel m p ch n :
  cstr m p s → 0 ≤ ch < 128 → (length s < fuel)%nat → 0 ≤ n → n + zlen s < 4294967296 →
  strchrs_loop fuel m p ch n = Ok (n + count_char s ch).
Proof.
  revert fuel p n. induction s as [|b s IH]; intros fuel p n [Hs Hb] Hc Hf Hn Hz;
    (destruct fuel as [|fuel]; [simpl in Hf; lia|]); cbn [strchrs_loop app] in *.
  - apply bytes_at_cons in Hb as [Hb _]. mrun (rdb_ok _ _ _ Hb). f_equal. unfold count_char, zlen. simpl. lia.
  - pose proof Hb as (? & ? & _). apply bytes_at_cons in Hb as [Hb Hb']. mrun (rdb_ok _ _ _ Hb).
    apply Forall_cons in Hs as [Hx Hs]. rewrite (proj2 (Z.eqb_neq b 0)), char_eqb, u32_small by zl.
    unfold count_char in *. rewrite filter_cons.
    destruct (Z.eqb_spec b ch) as [->|Hne]; rewrite IH; try (by split); try (simpl in Hf; lia); try zl.
    + rewrite decide_True by done. rewrite u32_small by zl. f_equal. zl.
    + rewrite u32_small by zl. zl.
    + rewrite u32_small by zl. zl.
    + rewrite decide_False by done. done.
Qed.

Lemma strcat_ok s t fuel m dst src :
  cstr m dst s → cstr m src t → mapped m dst (zlen s + zlen t + 1) →
  disjoint dst (zlen s + zlen t + 1) src (zlen t + 1) →
  (length s < fuel)%nat → (length t < fuel)%nat →
  strcat fuel m dst src = Ok (dst, put_bytes m (dst + zlen s) (t ++ [0])).
Proof.
  intros [Hs Hd] [Ht Hsrc] Hm Hdis Hf1 Hf2. unfold strcat. pose proof Hd as (? & ? & _).
  mrun (end_loop_ok s fuel m dst Hs Hd Hf1). rewrite u32_small by zl.
  replace (dst + zlen s + 1 - 1) with (dst + zlen s) by lia.
  rewrite (copy_loop_ok t); try done.
  - destruct Hm as (M0 & M1 & M2). split_and!; zl. intros i Hi.
    replace (dst + zlen s + i) with (dst + (zlen s + i)) by lia. apply M2. zl.
  - unfold disjoint in *. zl.
Qed.

(** ** Theorems *)

(** Copying strings.  For NUL-terminated strings that lie apart, with room for
    the result, [strlen] is the length, [strcpy] leaves a copy of the source and
    [strcat] the concatenation at the destination, NUL included; no byte outside
    the destination changes. *)
Theorem string_copy s t fuel m dst src :
  cstr m dst s → cstr m src t → mapped m dst (zlen s + zlen t + 1) →
  disjoint dst (zlen s + zlen t + 1) src (zlen t + 1) →
  (length s < fuel)%nat → (length t < fuel)%nat →
  strlen fuel m src = Ok (zlen t) ∧
  (∃ m', strcpy fuel m dst src = Ok (dst, m') ∧ cstr m' dst t ∧
     ∀ a, ¬ (dst ≤ a < dst + zlen t + 1) → m' !! a = m !! a) ∧
  (∃ m', strcat fuel m dst src = Ok (dst, m') ∧ cstr m' dst (s ++ t) ∧
     ∀ a, ¬ (dst ≤ a < dst + zlen s + zlen t + 1) → m' !! a = m !! a).
Proof.
  intros Hd Hs Hm Hdis Hf1 Hf2. pose proof Hs as [Ht Hsrc]. pose proof Hm as (M0 & M1 & M2).
  pose proof Hsrc as (? & ? & _). split; [|split].
  - unfold strlen. mrun (end_loop_ok t fuel m src Ht Hsrc Hf2). rewrite u32_small; [f_equal; lia|zl].
  - unfold strcpy. rewrite (copy_loop_ok t); try done.
    + eexists. split; [done|]. split; [apply cstr_put; zl; done|].
      intros a Ha. rewrite put_bytes_lookup, decide_False; [done|zl].
    + split_and!; zl. intros i Hi. apply M2. zl.
    + unfold disjoint in *. zl.
  - rewrite (strcat_ok s t) by done. eexists. split; [done|]. destruct Hd as [Hfs Hdst]. split.
    + split; [by apply Forall_app|]. split_and!; [zl|zl|]. intros i Hi.
      rewrite put_bytes_lookup. rewrite <- app_assoc. destruct (decide _) as [Hin|Hout].
      * rewrite (lookup_app_r s) by (unfold zlen in *; lia). f_equal. unfold zlen in *. lia.
      * destruct Hdst as (D0 & D1 & D2). rewrite D2 by zl.
        rewrite !(lookup_app_l s) by (zl; unfold zlen in *; lia). done.
    + intros a Ha. rewrite put_bytes_lookup, decide_False; [done|zl].
Qed.

(** [strcmp] compares two strings character by character as signed bytes; it
    returns 0 exactly for equal strings. *)
Theorem strcmp_decides s t fuel m a b :
  cstr m a s → cstr m b t → (length s < fuel)%nat →
  strcmp fuel m a b = Ok (str_order s t) ∧ (str_order s t = 0 ↔ s = t).
Proof.
  intros Ha Hb Hf. split; [by apply strcmp_ok|]. destruct Ha, Hb. by apply str_order_0.
Qed.

(** Searching a string.  For an ASCII character [strrchr] finds the last
    occurrence and [strchrs] counts them all; [strchr] looks at the first character
    only: it returns the string when that is the one sought and NULL otherwise,
    wherever else the character occurs. *)
Theorem string_search s fuel m a ch :
  cstr m a s → 0 < ch < 128 → (length s < fuel)%nat → zlen s < 4294967295 →
  strrchr fuel m a ch =
    Ok (match last_index s ch 0 None with Some i => a + i | None => 0 end) ∧
  strchrs fuel m a ch = Ok (count_char s ch) ∧
  strchr fuel m a ch = Ok (if decide (head s = Some ch) then a else 0).
Proof.
  intros Hs Hc Hf Hz. split; [|split].
  - unfold strrchr. pose proof (strrchr_loop_ok s fuel m a a ch None Hs) as H. rewrite Z.sub_diag in H.
    apply H; lia.
  - unfold strchrs. rewrite (strchrs_loop_ok s) by (done || lia). done.
  - destruct fuel as [|fuel]; [lia|]. destruct Hs as [Hs Hb]. cbn [strchr].
    destruct s as [|b s]; apply bytes_at_cons in Hb as [Hb _]; mrun (rdb_ok _ _ _ Hb).
    + rewrite (proj2 (Z.eqb_neq (char_of 0) ch)), decide_False; [done|done|]. unfold char_of, i8. zdm.
    + apply Forall_cons in Hs as [Hx _]. rewrite char_eqb by lia. simpl.
      destruct (Z.eqb_spec b ch) as [->|]; [by rewrite decide_True|rewrite decide_False; [done|congruence]].
Qed.

(** Memory blocks.  [memset] fills exactly its block, and [memcpy] of a block
    that does not overlap its destination copies it and changes nothing else. *)
Theorem block_ops s m dst src v n :
  bytes_at m src s → mapped m dst (zlen s) → disjoint dst (zlen s) src (zlen s) →
  mapped m dst (Z.of_nat n) →
  (∃ m', memcpy (length s) m dst src = Ok m' ∧ bytes_at m' dst s ∧ bytes_at m' src s ∧
     ∀ a, ¬ (dst ≤ a < dst + zlen s) → m' !! a = m !! a) ∧
  (∃ m', memset n m dst v = Ok m' ∧ bytes_at m' dst (replicate n v) ∧
     ∀ a, ¬ (dst ≤ a < dst + Z.of_nat n) → m' !! a = m !! a).
Proof.
  intros Hs Hm Hd Hn. pose proof Hm as (? & ? & _). pose proof Hn as (? & ? & _).
  assert (Hlen : zlen (replicate n v) = Z.of_nat n) by (unfold zlen; by rewrite length_replicate).
  split.
  - rewrite memcpy_ok by done. eexists. split; [done|]. split; [by apply put_bytes_at|].
    split; [by apply put_bytes_other|]. intros a Ha. by rewrite put_bytes_lookup, decide_False.
  - rewrite memset_ok by done. eexists. split; [done|]. split; [apply put_bytes_at; lia|].
    intros a Ha. rewrite put_bytes_lookup, decide_False by lia. done.
Qed.

(** *** Witnesses: "ab" at 100, "cb" at 200 *)

Definition demo_str : bmem :=
  put_bytes (put_bytes ∅ 100 [97; 98; 0; 0; 0; 0; 0; 0]) 200 [99; 98; 0].

Lemma demo_str_a : cstr demo_str 100 [97; 98].
Proof.
  split; [repeat constructor|]. split_and!; [lia|done|]. intros i Hi. change (zlen _) with 3 in Hi.
  assert (i = 0 ∨ i = 1 ∨ i = 2) by lia. destruct_or!; subst; reflexivity.
Qed.

Lemma demo_str_b : cstr demo_str 200 [99; 98].
Proof.
  split; [repeat constructor|]. split_and!; [lia|done|]. intros i Hi. change (zlen _) with 3 in Hi.
  assert (i = 0 ∨ i = 1 ∨ i = 2) by lia. destruct_or!; subst; reflexivity.
Qed.

Lemma demo_str_mapped : mapped demo_str 100 5.
Proof.
  split_and!; [lia|lia|]. intros i Hi. assert (i = 0 ∨ i = 1 ∨ i = 2 ∨ i = 3 ∨ i = 4) by lia.
  destruct_or!; subst; by eexists.
Qed.

Lemma string_copy_witness :
  ∃ m', strcat 10 demo_str 100 200 = Ok (100, m') ∧ cstr m' 100 [97; 98; 99; 98].
Proof.
  destruct (string_copy [97; 98] [99; 98] 10 demo_str 100 200 demo_str_a demo_str_b demo_str_mapped)
    as (_ & _ & m' & Hm & Hc & _).
  - left. done.
  - simpl. lia.
  - simpl. lia.
  - exists m'. split; [exact Hm|exact Hc].
Defined.

Lemma strcmp_decides_witness : strcmp 10 demo_str 100 200 = Ok (-1).
Proof.
  refine (proj1 (strcmp_decides [97; 98] [99; 98] 10 demo_str 100 200 demo_str_a demo_str_b _)).
  simpl. lia.
Defined.

(** "ab" holds a b, and [strchr] does not find it. *)
Lemma string_search_witness :
  strrchr 10 demo_str 100 98 = Ok 101 ∧ strchr 10 demo_str 100 98 = Ok 0.
Proof.
  destruct (string_search [97; 98] 10 demo_str 100 98 demo_str_a) as (H1 & _ & H2).
  - lia.
  - simpl. lia.
  - done.
  - split; [exact H1|exact H2].
Defined.

Lemma block_ops_witness :
  ∃ m', memcpy 2 demo_str 100 200 = Ok m' ∧ bytes_at m' 100 [99; 98].
Proof.
  destruct (block_ops [99; 98] demo_str 100 200 7 5) as [(m' & Hm & Hb & _) _].
  - destruct demo_str_b as [_ (H0 & H1 & H2)]. split; [lia|]. split; [done|].
    intros i Hi. change (zlen [99; 98]) with 2 in Hi. rewrite H2 by (change (zlen _) with 3; lia).
    assert (i = 0 ∨ i = 1) by lia. destruct_or!; subst; reflexivity.
  - destruct demo_str_mapped as (H0 & H1 & H2). split; [lia|]. split; [done|].
    intros i Hi. change (zlen _) with 2 in Hi. apply H2. lia.
  - left. done.
  - exact demo_str_mapped.
  - exists m'. split; [exact Hm|exact Hb].
Defined.
