(* ===== verification/Stdio.v ===== *)
(** * Formatted output (lib/stdio.c)

    [itoa] and [vsprintf] on byte memory.  The argument list is the words that
    [va_arg] steps over.  [vsprintf] does not write a final NUL: its callers pass
    cleared buffers, and the returned length is [strlen] of the result. *)

From S2P Require Import Prelude CString.

(** ** Operations *)

(** [itoa]; the fuel bounds the number of digits. *)
Fixpoint itoa (fuel : nat) (value base : Z) (m : bmem) (buf_ptr : Z) : outcome (bmem * Z) :=
  match fuel with
  | O => NoFuel
  | S fuel =>
      let r := value mod base in
      let i := value / base in
      '(m, buf_ptr) ← (if negb (i =? 0) then itoa fuel i base m buf_ptr else Ok (m, buf_ptr));
      let c := if r <? 10 then u8 (r + 48) else u8 (r - 10 + 65) in
      m ← wrb m buf_ptr c;
      Ok (m, u32 (buf_ptr + 1))
  end.

Definition va_arg (ap : list Z) : outcome (Z * list Z) :=
  match ap with [] => Fault | w :: ap => Ok (w, ap) end.

(** The loop of [vsprintf]; [sf] is the fuel of the string loops. *)
Fixpoint vsprintf_loop (fuel sf : nat) (m : bmem) (buf_ptr index_ptr index_char : Z) (ap : list Z)
    : outcome (bmem * Z) :=
  match fuel with
  | O => NoFuel
  | S fuel =>
      if index_char =? 0 then Ok (m, buf_ptr)
      else if negb (index_char =? 37) then
        m ← wrb m buf_ptr index_char;
        c ← rdb m (u32 (index_ptr + 1));
        vsprintf_loop fuel sf m (u32 (buf_ptr + 1)) (u32 (index_ptr + 1)) c ap
      else
        let index_ptr := u32 (index_ptr + 1) in
        index_char ← rdb m index_ptr;
        if index_char =? 115 then
          '(arg_str, ap) ← va_arg ap;
          '(_, m) ← strcpy sf m buf_ptr arg_str;
          n ← strlen sf m arg_str;
          c ← rdb m (u32 (index_ptr + 1));
          vsprintf_loop fuel sf m (u32 (buf_ptr + n)) (u32 (index_ptr + 1)) c ap
        else if index_char =? 120 then
          '(arg_int, ap) ← va_arg ap;
          '(m, buf_ptr) ← itoa 32 (u32 arg_int) 16 m buf_ptr;
          c ← rdb m (u32 (index_ptr + 1));
          vsprintf_loop fuel sf m buf_ptr (u32 (index_ptr + 1)) c ap
        else if index_char =? 99 then
          '(arg, ap) ← va_arg ap;
          m ← wrb m buf_ptr (u8 arg);
          c ← rdb m (u32 (index_ptr + 1));
          vsprintf_loop fuel sf m (u32 (buf_ptr + 1)) (u32 (index_ptr + 1)) c ap
        else if index_char =? 100 then
          '(arg, ap) ← va_arg ap;
          let arg_int := i32 arg in
          '(m, buf_ptr, arg_int) ←
            (if arg_int <? 0 then m ← wrb m buf_ptr 45; Ok (m, u32 (buf_ptr + 1), i32 (0 - arg_int))
             else Ok (m, buf_ptr, arg_int));
          '(m, buf_ptr) ← itoa 32 (u32 arg_int) 10 m buf_ptr;
          c ← rdb m (u32 (index_ptr + 1));
          vsprintf_loop fuel sf m buf_ptr (u32 (index_ptr + 1)) c ap
        else vsprintf_loop fuel sf m buf_ptr index_ptr index_char ap
  end.

Definition vsprintf (fuel sf : nat) (m : bmem) (str format : Z) (ap : list Z) : outcome (Z * bmem) :=
  index_char ← rdb m format;
  '(m, _) ← vsprintf_loop fuel sf m str format index_char ap;
  n ← strlen sf m str;
  Ok (n, m).

(** ** Digits *)

Fixpoint digits (fuel : nat) (value base : Z) : list Z :=
  match fuel with
  | O => []
  | S fuel =>
      (if negb (value / base =? 0) then digits fuel (value / base) base else []) ++
      [if value mod base <? 10 then value mod base + 48 else value mod base + 55]
  end.

Definition digit_value (c : Z) : Z := if c <? 58 then c - 48 else c - 55.
Definition undigits (base : Z) (ds : list Z) : Z := foldl (λ acc c, acc * base + digit_value c) 0 ds.

Lemma itoa_ok fuel value base m p :
  2 ≤ base ≤ 16 → 0 ≤ value < base ^ Z.of_nat fuel → mapped m p (zlen (digits fuel value base)) →
  (0 < fuel)%nat →
  itoa fuel value base m p =
    Ok (put_bytes m p (digits fuel value base), p + zlen (digits fuel value base)).
Proof.
  revert value m p. induction fuel as [|fuel IH]; intros value m p Hb Hv Hm Hf; [lia|].
  cbn [itoa digits] in *. set (d := if value mod base <? 10 then _ else _) in *.
  assert (Hd : (if value mod base <? 10 then u8 (value mod base + 48) else u8 (value mod base - 10 + 65)) = d).
  { assert (0 ≤ value mod base < base) by (apply Z.mod_pos_bound; lia).
    unfold d. zcase; rewrite u8_small; lia. }
  rewrite Hd. assert (H1 : ∀ m q, mapped m q 1 → wrb m q d = Ok (<[q := d]> m)).
  { intros m' q (_ & _ & H). apply wrb_ok. rewrite <- (Z.add_0_r q). apply H. lia. }
  destruct (Z.eqb_spec (value / base) 0) as [E|E]; cbn [negb] in *.
  - simpl in Hm |- *. rewrite H1 by exact Hm. simpl. destruct Hm as (? & ? & _).
    rewrite u32_small by (unfold zlen in *; simpl in *; lia). done.
  - set (ds := digits fuel (value / base) base) in *. pose proof Hm as (M0 & M1 & M2).
    assert (Hq : 0 ≤ value / base < base ^ Z.of_nat fuel).
    { rewrite Nat2Z.inj_succ, Z.pow_succ_r in Hv by lia. split; [apply Z.div_pos; lia|].
      apply Z.div_lt_upper_bound; lia. }
    assert (Hf' : (0 < fuel)%nat) by (destruct fuel; [simpl in Hq; lia|lia]).
    rewrite IH; try done; [| ].
    + fold ds. simpl. rewrite H1.
      * simpl. rewrite u32_small by zl. f_equal. f_equal; [|zl].
        apply map_eq. intros x. rewrite lookup_insert, !put_bytes_lookup.
        destruct (decide (p + zlen ds = x)) as [<-|Hne].
        { rewrite decide_True by zl. rewrite lookup_app_r by (unfold zlen; lia).
          replace (_ - _)%nat with 0%nat by (unfold zlen; lia). done. }
        destruct (decide (p ≤ x < p + zlen ds)).
        { rewrite decide_True by zl. rewrite lookup_app_l by (unfold zlen in *; lia). done. }
        rewrite decide_False; [done|zl].
      * split_and!; zl. intros i Hi. rewrite put_bytes_lookup. rewrite decide_False by lia.
        rewrite <- Z.add_assoc. apply M2. zl.
    + fold ds. split_and!; zl. intros i Hi. apply M2. zl.
Qed.

Lemma undigits_digits fuel value base :
  2 ≤ base ≤ 16 → 0 ≤ value < base ^ Z.of_nat fuel → (0 < fuel)%nat →
  undigits base (digits fuel value base) = value.
Proof.
  revert value. induction fuel as [|fuel IH]; intros value Hb Hv Hf; [lia|]. cbn [digits].
  assert (0 ≤ value mod base < base) by (apply Z.mod_pos_bound; lia).
  pose proof (Z.div_mod value base ltac:(lia)) as Hdm.
  assert (Hd : digit_value (if value mod base <? 10 then value mod base + 48 else value mod base + 55)
               = value mod base) by (unfold digit_value; repeat zcase; lia).
  unfold undigits in *. rewrite foldl_app. cbn [foldl]. rewrite Hd.
  destruct (Z.eqb_spec (value / base) 0) as [E|E]; cbn [negb].
  - simpl. lia.
  - rewrite IH; [lia|done| |].
    + rewrite Nat2Z.inj_succ, Z.pow_succ_r in Hv by lia. split; [apply Z.div_pos; lia|].
      apply Z.div_lt_upper_bound; lia.
    + destruct fuel; [|lia]. rewrite Nat2Z.inj_succ, Z.pow_succ_r in Hv by lia. simpl in Hv.
      assert (value / base < 1) by (apply Z.div_lt_upper_bound; lia).
      assert (0 ≤ value / base) by (apply Z.div_pos; lia). lia.
Qed.

Lemma digits_nonzero fuel value base :
  2 ≤ base ≤ 16 → Forall (λ b, 0 < b < 256) (digits fuel value base).
Proof.
  revert value. induction fuel as [|fuel IH]; intros value Hb; cbn [digits]; [constructor|].
  assert (0 ≤ value mod base < base) by (apply Z.mod_pos_bound; lia).
  apply Forall_app. split; [destruct (negb _); [by apply IH|constructor]|].
  repeat constructor; zcase; lia.
Qed.

Lemma digits_length fuel value base k :
  2 ≤ base → 0 ≤ value < base ^ Z.of_nat k → (0 < k)%nat → (length (digits fuel value base) ≤ k)%nat.
Proof.
  revert value k. induction fuel as [|fuel IH]; intros value k Hb Hv Hk; cbn [digits]; [simpl; lia|].
  rewrite length_app. simpl. destruct (Z.eqb_spec (value / base) 0) as [E|E]; cbn [negb]; [simpl; lia|].
  destruct k as [|[|k]]; [lia| |].
  - assert (value / base = 0) by (apply Z.div_small; simpl in Hv; lia). done.
  - specialize (IH (value / base) (S k) Hb). rewrite (Nat2Z.inj_succ (S k)), Z.pow_succ_r in Hv by lia.
    assert (0 ≤ value / base) by (apply Z.div_pos; lia).
    assert (value / base < base ^ Z.of_nat (S k)) by (apply Z.div_lt_upper_bound; lia). lia.
Qed.

#[global] Arguments digits : simpl never.
#[global] Arguments itoa : simpl never.

(** ** Format strings as lists of items *)

Inductive item :=
| Lit (c : Z)                 (** an ordinary character *)
| PStr (p : Z) (s : list Z)   (** %s with the string [s] at [p] *)
| PHex (w : Z)                (** %x *)
| PChr (w : Z)                (** %c *)
| PDec (w : Z).               (** %d *)

Definition fmt_of (i : item) : list Z :=
  match i with
  | Lit c => [c] | PStr _ _ => [37; 115] | PHex _ => [37; 120] | PChr _ => [37; 99] | PDec _ => [37; 100]
  end.

Definition arg_of (i : item) : list Z :=
  match i with Lit _ => [] | PStr p _ => [p] | PHex w => [w] | PChr w => [w] | PDec w => [w] end.

(** The characters an item stands for: numbers in base 16 as unsigned words and in
    base 10 as signed ones. *)
Definition out_of (i : item) : list Z :=
  match i with
  | Lit c => [c]
  | PStr _ s => s
  | PHex w => digits 32 (u32 w) 16
  | PChr w => [u8 w]
  | PDec w => if i32 w <? 0 then 45 :: digits 32 (- i32 w) 10 else digits 32 (i32 w) 10
  end.

Definition format_of (l : list item) : list Z := l ≫= fmt_of.
Definition args_of (l : list item) : list Z := l ≫= arg_of.
Definition output_of (l : list item) : list Z := l ≫= out_of.

(** Items that can be printed to a buffer of [n] bytes at [buf] in memory [m]. *)
Definition item_ok (sf : nat) (m : bmem) (buf n : Z) (i : item) : Prop :=
  match i with
  | Lit c => 0 < c < 256 ∧ c ≠ 37
  | PStr p s => cstr m p s ∧ disjoint buf n p (zlen s + 1) ∧ (length s < sf)%nat
  | PChr w => u8 w ≠ 0
  | PHex _ | PDec _ => True
  end.

Definition zeros (m : bmem) (a n : Z) : Prop :=
  0 ≤ a ∧ a + n < 4294967296 ∧ ∀ i, 0 ≤ i < n → m !! (a + i) = Some 0.

Lemma zeros_mapped m a n k : zeros m a n → 0 ≤ k ≤ n → mapped m a k.
Proof.
  intros (H0 & H1 & H2) Hk. split_and!; [lia|lia|]. intros i Hi. rewrite H2 by lia. by eexists.
Qed.

Lemma put_bytes_app m a s t : put_bytes (put_bytes m a s) (a + zlen s) t = put_bytes m a (s ++ t).
Proof.
  revert m a. induction s as [|b s IH]; intros m a; simpl; [f_equal; zl|].
  rewrite <- IH. f_equal. zl.
Qed.

Lemma zeros_rest m a s n :
  zeros m a n → zlen s ≤ n → zeros (put_bytes m a s) (a + zlen s) (n - zlen s).
Proof.
  intros (H0 & H1 & H2) Hs. pose proof (zlen_nonneg s). split_and!; [lia|lia|]. intros i Hi.
  rewrite put_bytes_lookup, decide_False by lia. rewrite <- Z.add_assoc. apply H2. lia.
Qed.

(** The final NUL of [strcpy] into a cleared buffer changes nothing. *)
Lemma put_bytes_nul m a s n :
  zeros m a n → zlen s < n → put_bytes m a (s ++ [0]) = put_bytes m a s.
Proof.
  intros (H0 & H1 & H2) Hs. rewrite <- put_bytes_app. simpl. apply insert_id.
  rewrite put_bytes_lookup, decide_False by lia. apply H2. pose proof (zlen_nonneg s). lia.
Qed.

Lemma i32_range w : -2147483648 ≤ i32 w < 2147483648.
Proof. unfold i32. zdm. Qed.

Lemma out_of_ok sf m buf n i : item_ok sf m buf n i → Forall (λ b, 0 < b < 256) (out_of i).
Proof.
  destruct i as [c|p s|w|w|w]; simpl.
  - intros [? _]. by apply Forall_singleton.
  - by intros ([? _] & _).
  - intros _. by apply digits_nonzero.
  - intros H. apply Forall_singleton. pose proof (u8_range w). lia.
  - intros _. destruct (_ <? _); [constructor; [lia|]|]; by apply digits_nonzero.
Qed.

(** The memory word at the end of a list of bytes. *)
Lemma bytes_at_last m a s b t : bytes_at m a (s ++ b :: t) → m !! (a + zlen s) = Some b.
Proof.
  intros (H0 & H1 & H2). rewrite H2 by zl. unfold zlen. rewrite Nat2Z.id, lookup_app_r by lia.
  by rewrite Nat.sub_diag.
Qed.

(** Decimal output of a signed word. *)
Lemma dec_out w m p :
  mapped m p (zlen (out_of (PDec w))) →
  ('(m, p, arg_int) ← (if i32 w <? 0 then m ← wrb m p 45; Ok (m, u32 (p + 1), i32 (0 - i32 w))
                        else Ok (m, p, i32 w));
   itoa 32 (u32 arg_int) 10 m p) =
  Ok (put_bytes m p (out_of (PDec w)), p + zlen (out_of (PDec w))).
Proof.
  intros Hm. pose proof (i32_range w) as Hr. simpl in *. destruct (Z.ltb_spec (i32 w) 0) as [Hn|Hn].
  - pose proof (zlen_nonneg (digits 32 (- i32 w) 10)) as Hd.
    pose proof Hm as (M0 & M1 & M2). apply mapped_cons in Hm as [Hs Hm]; [|zl].
    mrun (wrb_ok m p 45 Hs). rewrite (u32_small (p + 1)) by zl.
    assert (E : u32 (i32 (0 - i32 w)) = - i32 w).
    { unfold i32 at 1, u32. replace (0 - i32 w) with (- i32 w) by lia. zdm. }
    rewrite E, itoa_ok; [simpl; do 2 f_equal; zl|lia| | |lia].
    + change (10 ^ Z.of_nat 32) with 100000000000000000000000000000000. lia.
    + apply mapped_ins. by replace (zlen (digits 32 (- i32 w) 10)) with
        (zlen (45 :: digits 32 (- i32 w) 10) - 1) by zl.
  - simpl. rewrite u32_small by lia. apply itoa_ok; [lia| |done|lia].
    change (10 ^ Z.of_nat 32) with 100000000000000000000000000000000. lia.
Qed.

Definition first_char (l : list Z) : Z := match l with [] => 0 | c :: _ => c end.

(** Numbers: any buffer that is long enough will do. *)
Definition number (i : item) : Prop := match i with PHex _ | PDec _ => True | _ => False end.

Lemma print_number i fuel sf m buf idx c rest ap :
  number i → mapped m buf (zlen (out_of i)) → bytes_at m idx (fmt_of i ++ c :: rest) →
  disjoint buf (zlen (out_of i)) idx (zlen (fmt_of i ++ c :: rest)) →
  vsprintf_loop (S fuel) sf m buf idx (first_char (fmt_of i)) (arg_of i ++ ap) =
  vsprintf_loop fuel sf (put_bytes m buf (out_of i)) (buf + zlen (out_of i))
    (idx + zlen (fmt_of i)) c ap.
Proof.
  intros Hi Hmap Hb Hd. pose proof Hb as (B0 & B1 & _).
  pose proof (put_bytes_other m buf (out_of i) idx _ Hd Hb) as Hb1.
  pose proof (rdb_ok _ _ _ (bytes_at_last _ _ _ _ _ Hb1)) as Hnext.
  destruct i as [x|p s|w|w|w]; try contradiction.
  - cbn [vsprintf_loop fmt_of arg_of first_char app] in *. change (zlen [37; 120]) with 2 in *.
    rewrite !(u32_small (idx + 1)), !(u32_small (idx + 1 + 1)) by zl.
    apply bytes_at_cons in Hb as [_ Hb]. apply bytes_at_cons in Hb as [Hb _].
    change (37 =? 0) with false. change (37 =? 37) with true. cbn [negb].
    mrun (rdb_ok _ _ _ Hb). change (120 =? 115) with false. change (120 =? 120) with true. cbn [va_arg mbind outcome_bind].
    rewrite itoa_ok; [|lia| |done|lia].
    + cbn [mbind outcome_bind]. replace (idx + 1 + 1) with (idx + 2) by lia. cbn [out_of] in *. mrun Hnext. done.
    + change (16 ^ Z.of_nat 32) with 340282366920938463463374607431768211456. pose proof (u32_range w). lia.
  - cbn [vsprintf_loop fmt_of arg_of first_char app] in *. change (zlen [37; 100]) with 2 in *.
    rewrite !(u32_small (idx + 1)), !(u32_small (idx + 1 + 1)) by zl.
    apply bytes_at_cons in Hb as [_ Hb]. apply bytes_at_cons in Hb as [Hb _].
    change (37 =? 0) with false. change (37 =? 37) with true. cbn [negb].
    mrun (rdb_ok _ _ _ Hb). change (100 =? 115) with false. change (100 =? 120) with false.
    change (100 =? 99) with false. change (100 =? 100) with true. cbn [va_arg mbind outcome_bind].
    pose proof (dec_out w m buf Hmap) as Hdec. cbn [out_of] in *.
    replace (idx + 1 + 1) with (idx + 2) by lia.
    destruct (i32 w <? 0); cbn [mbind outcome_bind] in Hdec |- *;
      [destruct (wrb m buf 45); try discriminate Hdec; cbn [mbind outcome_bind] in Hdec |- *|];
      rewrite Hdec; cbn [mbind outcome_bind]; mrun Hnext; done.
Qed.

(** One turn of the loop prints one item. *)
Lemma print_item i fuel sf m buf n idx c rest ap :
  item_ok sf m buf n i → zeros m buf n → zlen (out_of i) < n →
  bytes_at m idx (fmt_of i ++ c :: rest) →
  disjoint buf n idx (zlen (fmt_of i ++ c :: rest)) →
  vsprintf_loop (S fuel) sf m buf idx (first_char (fmt_of i)) (arg_of i ++ ap) =
  vsprintf_loop fuel sf (put_bytes m buf (out_of i)) (buf + zlen (out_of i))
    (idx + zlen (fmt_of i)) c ap.
Proof.
  intros Hi Hz Hn Hb Hd. pose proof Hz as (Z0 & Z1 & _). pose proof Hb as (B0 & B1 & _).
  pose proof (zlen_nonneg (out_of i)) as Hout.
  assert (Hmap : mapped m buf (zlen (out_of i))) by (apply (zeros_mapped m buf n); [done|lia]).
  assert (Hb1 : bytes_at (put_bytes m buf (out_of i)) idx (fmt_of i ++ c :: rest)).
  { apply put_bytes_other; [|done]. unfold disjoint in *. lia. }
  pose proof (rdb_ok _ _ _ (bytes_at_last _ _ _ _ _ Hb1)) as Hnext.
  destruct i as [x|p s|w|w|w].
  - destruct Hi as [Hx Hne]. cbn [vsprintf_loop fmt_of arg_of out_of first_char app] in *.
    change (zlen [x]) with 1 in *.
    rewrite (proj2 (Z.eqb_neq x 0)), (proj2 (Z.eqb_neq x 37)) by lia. cbn [negb].
    rewrite !u32_small by zl. apply mapped_cons in Hmap as [Hs _]; [|lia].
    mrun (wrb_ok m buf x Hs). change (<[buf := x]> m) with (put_bytes m buf [x]). mrun Hnext. done.
  - destruct Hi as (Hp & Hdp & Hsf). cbn [vsprintf_loop fmt_of arg_of out_of first_char app] in *.
    change (zlen [37; 115]) with 2 in *.
    rewrite !(u32_small (idx + 1)), !(u32_small (idx + 1 + 1)), (u32_small (buf + _)) by zl.
    apply bytes_at_cons in Hb as [_ Hb]. apply bytes_at_cons in Hb as [Hb _].
    change (37 =? 0) with false. change (37 =? 37) with true. cbn [negb].
    mrun (rdb_ok _ _ _ Hb). change (115 =? 115) with true. cbn [va_arg mbind outcome_bind].
    destruct Hp as [Hs Hps]. unfold strcpy.
    rewrite (copy_loop_ok s); [|done|done|apply (zeros_mapped m buf n); [done|lia]|unfold disjoint in *; lia|done].
    cbn [mbind outcome_bind]. rewrite (put_bytes_nul m buf s n) by done.
    assert (Hps' : bytes_at (put_bytes m buf s) p (s ++ [0])).
    { apply put_bytes_other; [|done]. unfold disjoint in *. zl. }
    unfold strlen. mrun (end_loop_ok s sf (put_bytes m buf s) p Hs Hps' Hsf).
    pose proof Hps as (? & ? & _). rewrite (u32_small (p + zlen s + 1 - p - 1)) by zl.
    replace (p + zlen s + 1 - p - 1) with (zlen s) by lia.
    replace (idx + 1 + 1) with (idx + 2) by lia. mrun Hnext. rewrite u32_small by zl. done.
  - apply print_number with (rest := rest); [done|done|done|unfold disjoint in *; lia].
  - cbn [vsprintf_loop fmt_of arg_of out_of first_char app] in *. change (zlen [37; 99]) with 2 in *.
    change (zlen [u8 w]) with 1 in *.
    rewrite !(u32_small (idx + 1)), !(u32_small (idx + 1 + 1)), (u32_small (buf + 1)) by zl.
    apply bytes_at_cons in Hb as [_ Hb]. apply bytes_at_cons in Hb as [Hb _].
    change (37 =? 0) with false. change (37 =? 37) with true. cbn [negb].
    mrun (rdb_ok _ _ _ Hb). change (99 =? 115) with false. change (99 =? 120) with false.
    change (99 =? 99) with true. cbn [va_arg mbind outcome_bind].
    apply mapped_cons in Hmap as [Hs _]; [|lia]. mrun (wrb_ok m buf (u8 w) Hs).
    change (<[buf := u8 w]> m) with (put_bytes m buf [u8 w]).
    replace (idx + 1 + 1) with (idx + 2) by lia. mrun Hnext. done.
  - apply print_number with (rest := rest); [done|done|done|unfold disjoint in *; lia].
Qed.

Lemma format_of_cons i l : format_of (i :: l) = fmt_of i ++ format_of l.
Proof. done. Qed.
Lemma output_of_cons i l : output_of (i :: l) = out_of i ++ output_of l.
Proof. done. Qed.

Lemma first_char_app i l : first_char (fmt_of i ++ l) = first_char (fmt_of i).
Proof. by destruct i. Qed.

(** An item stays printable when earlier output is written. *)
Lemma item_ok_rest sf m buf n s i :
  item_ok sf m buf n i → zlen s ≤ n →
  item_ok sf (put_bytes m buf s) (buf + zlen s) (n - zlen s) i.
Proof.
  destruct i as [c|p t|w|w|w]; simpl; try done. intros ([Ht Hp] & Hd & Hsf) Hs.
  pose proof (zlen_nonneg s). unfold disjoint in *. split_and!; try done; [|lia].
  split; [done|]. apply put_bytes_other; [|done]. unfold disjoint. zl.
Qed.

Lemma print_items l fuel sf m buf n idx :
  Forall (item_ok sf m buf n) l → zeros m buf n → zlen (output_of l) < n →
  bytes_at m idx (format_of l ++ [0]) → disjoint buf n idx (zlen (format_of l ++ [0])) →
  (length l < fuel)%nat →
  vsprintf_loop fuel sf m buf idx (first_char (format_of l ++ [0])) (args_of l) =
    Ok (put_bytes m buf (output_of l), buf + zlen (output_of l)).
Proof.
  revert fuel m buf n idx. induction l as [|i l IH]; intros fuel m buf n idx Hok Hz Hn Hb Hd Hf;
    (destruct fuel as [|fuel]; [simpl in Hf; lia|]).
  - cbn. by rewrite Z.add_0_r.
  - apply Forall_cons in Hok as [Hi Hl]. rewrite format_of_cons, <- app_assoc in *.
    rewrite output_of_cons in *. change (args_of (i :: l)) with (arg_of i ++ args_of l).
    pose proof (zlen_nonneg (out_of i)). pose proof (zlen_nonneg (output_of l)).
    pose proof Hz as (Z0 & Z1 & _). rewrite first_char_app.
    set (t := format_of l ++ [0]) in *.
    assert (∃ c rest, t = c :: rest) as (c & rest & Et)
      by (unfold t; destruct (format_of l); [by eexists 0, []|by eexists _, _]).
    rewrite zlen_app in Hn.
    rewrite (print_item i fuel sf m buf n idx c rest); [|done|done|lia|by rewrite <- Et|by rewrite <- Et].
    assert (Hb' : bytes_at (put_bytes m buf (out_of i)) (idx + zlen (fmt_of i)) t).
    { destruct (put_bytes_other m buf (out_of i) idx (fmt_of i ++ t)) as (B0 & B1 & B2);
        [unfold disjoint in *; lia|done|].
      pose proof (zlen_nonneg (fmt_of i)). rewrite zlen_app in B1, B2. split_and!; [lia|lia|].
      intros k Hk. rewrite <- Z.add_assoc, B2 by lia.
      rewrite lookup_app_r by (unfold zlen; lia). f_equal. unfold zlen. lia. }
    replace c with (first_char t) by (by rewrite Et).
    rewrite (IH fuel _ _ (n - zlen (out_of i))).
    + rewrite put_bytes_app, zlen_app. do 2 f_equal. lia.
    + eapply Forall_impl; [exact Hl|]. intros x Hx. apply item_ok_rest; [done|lia].
    + apply zeros_rest; [done|lia].
    + lia.
    + exact Hb'.
    + unfold disjoint in *. rewrite zlen_app in Hd. pose proof (zlen_nonneg (fmt_of i)). lia.
    + simpl in Hf. lia.
Qed.

(** ** Theorems *)

(** [itoa] writes the number.  In base 10 and 16 it stores the digits of a
    32-bit value, at most 10 and 8 of them, and reading them back gives the value. *)
Theorem itoa_prints value m p :
  0 ≤ value < 4294967296 → mapped m p 10 →
  (∃ ds, itoa 32 value 10 m p = Ok (put_bytes m p ds, p + zlen ds) ∧
         undigits 10 ds = value ∧ zlen ds ≤ 10) ∧
  (∃ ds, itoa 32 value 16 m p = Ok (put_bytes m p ds, p + zlen ds) ∧
         undigits 16 ds = value ∧ zlen ds ≤ 8).
Proof.
  intros Hv (M0 & M1 & M2).
  assert (H10 : (length (digits 32 value 10) ≤ 10)%nat)
    by (apply digits_length; [lia| |lia]; change (10 ^ Z.of_nat 10) with 10000000000; lia).
  assert (H16 : (length (digits 32 value 16) ≤ 8)%nat)
    by (apply digits_length; [lia| |lia]; change (16 ^ Z.of_nat 8) with 4294967296; lia).
  assert (P10 : 0 ≤ value < 10 ^ Z.of_nat 32)
    by (change (10 ^ Z.of_nat 32) with 100000000000000000000000000000000; lia).
  assert (P16 : 0 ≤ value < 16 ^ Z.of_nat 32)
    by (change (16 ^ Z.of_nat 32) with 340282366920938463463374607431768211456; lia).
  assert (Hm : ∀ k : list Z, (length k ≤ 10)%nat → mapped m p (zlen k)).
  { intros k Hk. unfold zlen. split_and!; [lia|lia|]. intros i Hi. apply M2. lia. }
  split; eexists; (split; [apply itoa_ok; [lia|done|apply Hm; lia|lia]|]);
    (split; [apply undigits_digits; [lia|done|lia]|unfold zlen; lia]).
Qed.

Lemma vsprintf_ok l fuel sf m str n format :
  Forall (item_ok sf m str n) l → zeros m str n → zlen (output_of l) < n →
  bytes_at m format (format_of l ++ [0]) → disjoint str n format (zlen (format_of l ++ [0])) →
  (length l < fuel)%nat → (length (output_of l) < sf)%nat →
  ∃ m', vsprintf fuel sf m str format (args_of l) = Ok (zlen (output_of l), m') ∧
    cstr m' str (output_of l) ∧
    ∀ a, ¬ (str ≤ a < str + zlen (output_of l)) → m' !! a = m !! a.
Proof.
  intros Hok Hz Hn Hb Hd Hf Hsf. pose proof (zlen_nonneg (output_of l)) as H0.
  pose proof Hz as (Z0 & Z1 & Z2). unfold vsprintf.
  assert (Hc : rdb m format = Ok (first_char (format_of l ++ [0]))).
  { apply rdb_ok. destruct (format_of l) as [|c t]; [by apply bytes_at_cons in Hb as [? _]|].
    by apply bytes_at_cons in Hb as [? _]. }
  mrun Hc. rewrite (print_items l fuel sf m str n) by done. cbn [mbind outcome_bind].
  assert (Hfa : Forall (λ b, 0 < b < 256) (output_of l)).
  { clear Hn Hb Hd Hf Hsf H0 Hc. induction l as [|i l IH]; [constructor|].
    apply Forall_cons in Hok as [Hi Hl]. rewrite output_of_cons. apply Forall_app.
    split; [by apply (out_of_ok sf m str n)|by apply IH]. }
  assert (Hcs : cstr (put_bytes m str (output_of l)) str (output_of l)).
  { rewrite <- (put_bytes_nul m str (output_of l) n) by done. apply cstr_put; [done|lia|lia]. }
  pose proof Hcs as [_ Hbs]. unfold strlen. mrun (end_loop_ok _ sf _ str Hfa Hbs Hsf).
  rewrite u32_small by lia. eexists. split; [do 2 f_equal; lia|]. split; [done|].
  intros a Ha. by rewrite put_bytes_lookup, decide_False.
Qed.

(** [vsprintf] prints its format.  For every format built from ordinary
    characters and %s, %x, %c and %d items, with a cleared buffer that has room for
    the text and its NUL and lies apart from the format and the strings, it writes
    exactly the concatenation of what the items stand for, leaves a NUL-terminated
    string and returns its length. *)
Theorem vsprintf_prints l fuel sf m str n format :
  Forall (item_ok sf m str n) l → zeros m str n → zlen (output_of l) < n →
  bytes_at m format (format_of l ++ [0]) → disjoint str n format (zlen (format_of l ++ [0])) →
  (length l < fuel)%nat → (length (output_of l) < sf)%nat →
  ∃ m', vsprintf fuel sf m str format (args_of l) = Ok (zlen (output_of l), m') ∧
    cstr m' str (output_of l) ∧
    ∀ a, ¬ (str ≤ a < str + zlen (output_of l)) → m' !! a = m !! a.
Proof. exact (vsprintf_ok l fuel sf m str n format). Qed.

(** *** Witnesses *)

Lemma itoa_prints_witness :
  ∃ ds, itoa 32 255 16 (put_bytes ∅ 64 (replicate 16 0)) 64 =
          Ok (put_bytes (put_bytes ∅ 64 (replicate 16 0)) 64 ds, 64 + zlen ds) ∧
        undigits 16 ds = 255 ∧ zlen ds ≤ 8.
Proof.
  refine (proj2 (itoa_prints 255 (put_bytes ∅ 64 (replicate 16 0)) 64 _ _)); [lia|].
  split; [lia|]. split; [lia|]. intros i Hi.
  assert (i = 0 ∨ i = 1 ∨ i = 2 ∨ i = 3 ∨ i = 4 ∨ i = 5 ∨ i = 6 ∨ i = 7 ∨ i = 8 ∨ i = 9) by lia.
  destruct_or!; subst; by eexists.
Defined.

(** "n=%d" with the argument -7 prints "n=-7". *)
Definition demo_items : list item := [Lit 110; Lit 61; PDec 4294967289].
Definition demo_fmt : bmem := put_bytes (put_bytes ∅ 64 (replicate 8 0)) 200 [110; 61; 37; 100; 0].

Lemma vsprintf_prints_witness :
  ∃ m', vsprintf 10 10 demo_fmt 64 200 [4294967289] = Ok (4, m') ∧ cstr m' 64 [110; 61; 45; 55].
Proof.
  destruct (vsprintf_prints demo_items 10 10 demo_fmt 64 8 200) as (m' & Hm & Hc & _).
  - repeat constructor; done.
  - split; [lia|]. split; [lia|]. intros i Hi.
    assert (i = 0 ∨ i = 1 ∨ i = 2 ∨ i = 3 ∨ i = 4 ∨ i = 5 ∨ i = 6 ∨ i = 7) by lia.
    destruct_or!; subst; reflexivity.
  - reflexivity.
  - split; [lia|]. split; [done|]. intros i Hi. change (zlen _) with 5 in Hi.
    assert (i = 0 ∨ i = 1 ∨ i = 2 ∨ i = 3 ∨ i = 4) by lia. destruct_or!; subst; reflexivity.
  - left. done.
  - simpl. lia.
  - vm_compute. lia.
  - exists m'. split; [exact Hm|exact Hc].
Defined.
