(* ===== verification/Disk.v ===== *)
(** * The disk as the file system sees it, and the on-disk formats

    A disk is a map from sector numbers to sectors of 512 bytes; [disk_read]
    and [disk_write] are the transfers that [ide_read] and [ide_write]
    (device/ide.c) promise their callers: Ide.v shows that the driver keeps the
    promise for one sector, and for more on a drive that needs no time between
    sectors.  The second half is the byte layout (little endian, the layout of
    the i386 ABI) of the structures the file system stores: words, inodes
    (fs/inode.h, 76 bytes), directory entries (fs/dir.h, 24 bytes) and the super
    block (fs/super_block.h, 512 bytes). *)

From S2P Require Import Prelude.

Notation disk := (gmap Z (list Z)).
Definition SECTOR_SIZE : Z := 512.
Definition BLOCK_SIZE : Z := SECTOR_SIZE.

(** ** Transfers of whole sectors *)

Fixpoint disk_read (d : disk) (lba : Z) (sec_cnt : nat) : outcome (list Z) :=
  match sec_cnt with
  | O => Ok []
  | S n =>
      s ← of_opt (d !! lba);
      rest ← disk_read d (lba + 1) n;
      Ok (s ++ rest)
  end.

(** The sectors are taken from the front of [buf]; a transfer beyond the end of
    the disk or of the buffer faults. *)
Fixpoint disk_write (d : disk) (lba : Z) (buf : list Z) (sec_cnt : nat) : outcome disk :=
  match sec_cnt with
  | O => Ok d
  | S n =>
      _ ← of_opt (d !! lba);
      if 512 <=? zlen buf then
        disk_write (<[lba := take 512 buf]> d) (lba + 1) (drop 512 buf) n
      else Fault
  end.

(** Every sector of the disk has 512 bytes. *)
Definition disk_wf (d : disk) : Prop :=
  map_Forall (λ _ s, length s = 512%nat ∧ Forall (λ y, 0 ≤ y < 256) s) d.

(** The sectors [lba], ..., [lba + n - 1] exist. *)
Definition sectors (d : disk) (lba n : Z) : Prop := ∀ k, lba ≤ k < lba + n → is_Some (d !! k).

(** The byte at address [a] of the disk. *)
Definition dbyte (d : disk) (a : Z) : option Z :=
  s ← d !! (a / 512); s !! Z.to_nat (a mod 512).

(** ** Buffers *)

(** [memcpy] of [s] into the buffer [b] at offset [off]. *)
Definition splice (b : list Z) (off : Z) (s : list Z) : outcome (list Z) :=
  if (0 <=? off) && (off + zlen s <=? zlen b) then
    Ok (take (Z.to_nat off) b ++ s ++ drop (Z.to_nat (off + zlen s)) b)
  else Fault.

(** The [n] bytes of [b] at offset [off]. *)
Definition slice (b : list Z) (off n : Z) : outcome (list Z) :=
  if (0 <=? off) && (0 <=? n) && (off + n <=? zlen b) then
    Ok (take (Z.to_nat n) (drop (Z.to_nat off) b))
  else Fault.

(** ** Words *)

Definition le32 (x : Z) : list Z :=
  [x mod 256; x / 256 mod 256; x / 65536 mod 256; x / 16777216 mod 256].

Definition bytes_of_words (ws : list Z) : list Z := ws ≫= le32.

Fixpoint words_of_bytes (b : list Z) : list Z :=
  match b with
  | b0 :: b1 :: b2 :: b3 :: rest =>
      (b0 + 256 * b1 + 65536 * b2 + 16777216 * b3) :: words_of_bytes rest
  | _ => []
  end.

(** ** struct inode *)

Record inode := Inode {
  i_no : Z;
  i_size : Z;
  i_open_cnts : Z;
  write_deny : bool;
  i_sectors : list Z;
}.

Definition sizeof_inode : Z := 76.

(** The 19 words of the structure; the list tag is [NULL] on the disk. *)
Definition inode_words (i : inode) : list Z :=
  [i_no i; i_size i; i_open_cnts i; if write_deny i then 1 else 0] ++ i_sectors i ++ [0; 0].
Definition inode_bytes (i : inode) : list Z := bytes_of_words (inode_words i).

Definition inode_of_words (ws : list Z) : outcome inode :=
  no ← aget ws 0;
  size ← aget ws 1;
  cnts ← aget ws 2;
  deny ← aget ws 3;
  secs ← slice ws 4 13;
  Ok (Inode no size cnts (negb (deny =? 0)) secs).
Definition inode_of_bytes (b : list Z) : outcome inode := inode_of_words (words_of_bytes b).

(** ** struct dir_entry *)

Inductive file_types := FT_UNKNOWN | FT_REGULAR | FT_DIRECTORY.
#[global] Instance file_types_eq_dec : EqDecision file_types.
Proof. solve_decision. Defined.

Definition ftype_word (t : file_types) : Z :=
  match t with FT_UNKNOWN => 0 | FT_REGULAR => 1 | FT_DIRECTORY => 2 end.

(** The enumeration is stored as a word; [f_type] keeps the word. *)
Record dir_entry := DirEntry { filename : list Z; de_i_no : Z; f_type : Z }.

Definition sizeof_dir_entry : Z := 24.
Definition MAX_FILE_NAME_LEN : Z := 16.

Definition de_bytes (e : dir_entry) : list Z :=
  filename e ++ le32 (de_i_no e) ++ le32 (f_type e).

Definition de_of_bytes (b : list Z) : outcome dir_entry :=
  name ← slice b 0 16;
  ws ← slice b 16 8;
  match words_of_bytes ws with
  | [no; ty] => Ok (DirEntry name no ty)
  | _ => Fault
  end.

(** ** struct super_block *)

Record super_block := SuperBlock {
  magic : Z;
  sb_sec_cnt : Z;
  inode_cnt : Z;
  part_lba_base : Z;
  block_bitmap_lba : Z;
  block_bitmap_sects : Z;
  inode_bitmap_lba : Z;
  inode_bitmap_sects : Z;
  inode_table_lba : Z;
  inode_table_sects : Z;
  data_start_lba : Z;
  root_inode_no : Z;
  dir_entry_size : Z;
}.

Definition sb_words (s : super_block) : list Z :=
  [magic s; sb_sec_cnt s; inode_cnt s; part_lba_base s; block_bitmap_lba s;
   block_bitmap_sects s; inode_bitmap_lba s; inode_bitmap_sects s; inode_table_lba s;
   inode_table_sects s; data_start_lba s; root_inode_no s; dir_entry_size s].

(** The padding is whatever the structure held. *)
Definition sb_bytes (s : super_block) (pad : list Z) : list Z := bytes_of_words (sb_words s) ++ pad.

Definition sb_of_bytes (b : list Z) : outcome super_block :=
  match take 13 (words_of_bytes b) with
  | [m; sc; ic; pl; bbl; bbs; ibl; ibs; itl; its; ds; ri; des] =>
      Ok (SuperBlock m sc ic pl bbl bbs ibl ibs itl its ds ri des)
  | _ => Fault
  end.

(** ** Lemmas: words *)

Definition u32_range_P (x : Z) : Prop := 0 ≤ x < 4294967296.

Lemma le32_range x : Forall (λ y, 0 ≤ y < 256) (le32 x).
Proof. unfold le32. repeat constructor; zdm. Qed.

Lemma bytes_of_words_cons w ws : bytes_of_words (w :: ws) = le32 w ++ bytes_of_words ws.
Proof. reflexivity. Qed.

Lemma length_bytes_of_words ws : length (bytes_of_words ws) = (4 * length ws)%nat.
Proof. induction ws as [|w ws IH]; [done|]. rewrite bytes_of_words_cons. simpl. rewrite IH. lia. Qed.

Lemma bytes_of_words_range ws : Forall (λ y, 0 ≤ y < 256) (bytes_of_words ws).
Proof.
  induction ws as [|w ws IH]; [constructor|]. rewrite bytes_of_words_cons.
  apply Forall_app; split; [apply le32_range | done].
Qed.

Lemma word_le32 x : 0 ≤ x < 4294967296 →
  x mod 256 + 256 * (x / 256 mod 256) + 65536 * (x / 65536 mod 256)
    + 16777216 * (x / 16777216 mod 256) = x.
Proof. intros. zdm. Qed.

Lemma words_bytes_app ws rest :
  Forall u32_range_P ws →
  words_of_bytes (bytes_of_words ws ++ rest) = ws ++ words_of_bytes rest.
Proof.
  induction 1 as [|w ws Hw _ IH]; [done|].
  rewrite bytes_of_words_cons. cbn [le32 app words_of_bytes]. rewrite word_le32 by done.
  by rewrite IH.
Qed.

Lemma words_of_bytes_of_words ws :
  Forall u32_range_P ws → words_of_bytes (bytes_of_words ws) = ws.
Proof.
  intros H. rewrite <- (app_nil_r (bytes_of_words ws)), words_bytes_app by done.
  simpl. apply app_nil_r.
Qed.

Lemma length_words_of_bytes n b : length b = (4 * n)%nat → length (words_of_bytes b) = n.
Proof.
  revert b. induction n as [|n IH]; intros b H.
  - by apply nil_length_inv in H as ->.
  - destruct b as [|b0 [|b1 [|b2 [|b3 b]]]]; simpl in H; try lia.
    simpl. rewrite (IH b); [done | lia].
Qed.

Lemma words_of_bytes_range n b :
  length b = (4 * n)%nat → Forall (λ y, 0 ≤ y < 256) b → Forall u32_range_P (words_of_bytes b).
Proof.
  revert b. induction n as [|n IH]; intros b H HF.
  - apply nil_length_inv in H as ->. constructor.
  - destruct b as [|b0 [|b1 [|b2 [|b3 b]]]]; simpl in H; try lia.
    repeat match goal with H : Forall _ (_ :: _) |- _ => apply Forall_cons in H as [? ?] end.
    simpl. constructor; [unfold u32_range_P; lia | apply IH; [lia | done]].
Qed.

Lemma bytes_of_words_of_bytes n b :
  length b = (4 * n)%nat → Forall (λ y, 0 ≤ y < 256) b → bytes_of_words (words_of_bytes b) = b.
Proof.
  revert b. induction n as [|n IH]; intros b H HF.
  - by apply nil_length_inv in H as ->.
  - destruct b as [|b0 [|b1 [|b2 [|b3 b]]]]; simpl in H; try lia.
    repeat match goal with H : Forall _ (_ :: _) |- _ => apply Forall_cons in H as [? ?] end.
    cbn [words_of_bytes]. rewrite bytes_of_words_cons, (IH b) by (done || lia).
    unfold le32. simpl. repeat f_equal; zdm.
Qed.

(** ** Lemmas: buffers *)

Lemma splice_ok b off s :
  0 ≤ off → off + zlen s ≤ zlen b →
  ∃ b', splice b off s = Ok b' ∧ length b' = length b ∧
    ∀ k, 0 ≤ k → b' !! Z.to_nat k =
      if (off <=? k) && (k <? off + zlen s) then s !! Z.to_nat (k - off) else b !! Z.to_nat k.
Proof.
  intros H1 H2. unfold splice.
  rewrite (proj2 (Z.leb_le _ _) H1), (proj2 (Z.leb_le _ _) H2). simpl.
  eexists; split; [done|]. unfold zlen in *. split.
  - rewrite !length_app, length_take, length_drop. lia.
  - intros k Hk. destruct (Z.leb_spec off k), (Z.ltb_spec k (off + Z.of_nat (length s))); simpl.
    + rewrite lookup_app_r by (rewrite length_take; lia).
      rewrite lookup_app_l by (rewrite length_take; lia).
      f_equal. rewrite length_take. lia.
    + rewrite lookup_app_r by (rewrite length_take; lia).
      rewrite lookup_app_r by (rewrite length_take; lia).
      rewrite lookup_drop. f_equal. rewrite length_take. lia.
    + rewrite lookup_app_l by (rewrite length_take; lia). apply lookup_take_lt. lia.
    + lia.
Qed.

Lemma splice_eq b off s :
  0 ≤ off → off + zlen s ≤ zlen b →
  splice b off s = Ok (take (Z.to_nat off) b ++ s ++ drop (Z.to_nat (off + zlen s)) b).
Proof.
  intros H1 H2. unfold splice. by rewrite (proj2 (Z.leb_le _ _) H1), (proj2 (Z.leb_le _ _) H2).
Qed.

Lemma splice_Forall P b off s b' :
  splice b off s = Ok b' → Forall P b → Forall P s → Forall P b'.
Proof.
  unfold splice. zcase; [|done]. intros [= <-] Hb Hs.
  apply Forall_app; split; [by apply Forall_take|].
  apply Forall_app; split; [done | by apply Forall_drop].
Qed.

Lemma slice_ok b off n :
  0 ≤ off → 0 ≤ n → off + n ≤ zlen b →
  slice b off n = Ok (take (Z.to_nat n) (drop (Z.to_nat off) b)).
Proof.
  intros H1 H2 H3. unfold slice.
  by rewrite (proj2 (Z.leb_le _ _) H1), (proj2 (Z.leb_le _ _) H2), (proj2 (Z.leb_le _ _) H3).
Qed.

(** Two lists of the same length with the same elements are equal. *)
Lemma list_eq_len {A} (l k : list A) :
  length l = length k → (∀ i, (i < length l)%nat → l !! i = k !! i) → l = k.
Proof.
  intros HL H. apply list_eq. intros i. destruct (decide (i < length l)%nat) as [Hi|Hi].
  - auto.
  - rewrite !lookup_ge_None_2 by lia. done.
Qed.

(** ** Lemmas: the stored structures *)

Definition inode_ok (i : inode) : Prop :=
  u32_range_P (i_no i) ∧ u32_range_P (i_size i) ∧ u32_range_P (i_open_cnts i) ∧
  length (i_sectors i) = 13%nat ∧ Forall u32_range_P (i_sectors i).

Lemma inode_words_range i : inode_ok i → Forall u32_range_P (inode_words i).
Proof.
  intros (?&?&?&?&?). unfold inode_words. repeat (apply Forall_cons; split; [done|]).
  simpl. apply Forall_cons; split; [unfold u32_range_P; destruct (write_deny i); lia|].
  apply Forall_app; split; [done|]. repeat constructor; lia.
Qed.

Lemma length_inode_bytes i : length (i_sectors i) = 13%nat → length (inode_bytes i) = 76%nat.
Proof.
  intros H. unfold inode_bytes. rewrite length_bytes_of_words. unfold inode_words.
  rewrite !length_app. simpl. lia.
Qed.

(** An inode written to the disk is read back as it was. *)
Lemma inode_of_inode_bytes i : inode_ok i → inode_of_bytes (inode_bytes i) = Ok i.
Proof.
  intros H. unfold inode_of_bytes, inode_bytes.
  rewrite words_of_bytes_of_words by by apply inode_words_range.
  destruct H as (_&_&_&HL&_). destruct i as [no sz cn dn secs]. simpl in *.
  unfold inode_of_words, inode_words, aget. simpl.
  rewrite slice_ok; [|lia|lia|unfold zlen; simpl; rewrite length_app; simpl; lia].
  simpl. f_equal. f_equal.
  - by destruct dn.
  - change (Z.to_nat 13) with 13%nat. rewrite <- HL. apply take_app_length.
Qed.

(** Decoding accepts any 76 bytes. *)
Lemma inode_of_bytes_total b :
  length b = 76%nat → Forall (λ y, 0 ≤ y < 256) b →
  ∃ i, inode_of_bytes b = Ok i ∧ inode_ok i.
Proof.
  intros HL HF. unfold inode_of_bytes.
  pose proof (length_words_of_bytes 19 b HL) as HW.
  pose proof (words_of_bytes_range 19 b HL HF) as HR.
  destruct (words_of_bytes b) as [|w0 [|w1 [|w2 [|w3 ws]]]]; simpl in HW; try lia.
  repeat match goal with H : Forall _ (_ :: _) |- _ => apply Forall_cons in H as [? ?] end.
  unfold inode_of_words, aget. simpl.
  rewrite slice_ok; [|lia|lia|unfold zlen; simpl; lia]. simpl.
  eexists; split; [done|]. unfold inode_ok; simpl. split_and!; try done.
  - rewrite length_take, length_drop. cbn [length]. lia.
  - apply Forall_take, Forall_drop. repeat constructor; done.
Qed.

Definition de_ok (e : dir_entry) : Prop :=
  length (filename e) = 16%nat ∧ u32_range_P (de_i_no e) ∧ u32_range_P (f_type e).

Lemma length_de_bytes e : length (filename e) = 16%nat → length (de_bytes e) = 24%nat.
Proof. intros H. unfold de_bytes. rewrite !length_app, H. done. Qed.

Lemma de_of_de_bytes e : de_ok e → de_of_bytes (de_bytes e) = Ok e.
Proof.
  intros (HL & H1 & H2). pose proof (length_de_bytes e HL) as HB.
  unfold de_of_bytes. rewrite !slice_ok by (unfold zlen; rewrite ?HB; lia).
  cbn [mbind outcome_bind]. destruct e as [nm no ty]. unfold de_bytes. simpl in *.
  change (Z.to_nat 16) with 16%nat. change (Z.to_nat 8) with 8%nat.
  change (Z.to_nat 0) with 0%nat. rewrite drop_0, <- HL, take_app_length, drop_app_length.
  cbn [take app le32 words_of_bytes]. rewrite !word_le32 by done. done.
Qed.

Lemma sb_of_sb_bytes s pad :
  Forall u32_range_P (sb_words s) → sb_of_bytes (sb_bytes s pad) = Ok s.
Proof.
  intros H. unfold sb_of_bytes, sb_bytes. rewrite words_bytes_app by done. by destruct s.
Qed.

(** ** Lemmas: transfers *)

Lemma disk_wf_insert d lba s :
  disk_wf d → length s = 512%nat → Forall (λ y, 0 ≤ y < 256) s → disk_wf (<[lba := s]> d).
Proof. intros. by apply map_Forall_insert_2. Qed.

Lemma disk_read_one d lba s : d !! lba = Some s → disk_read d lba 1 = Ok s.
Proof. intros H. simpl. mrun H. by rewrite app_nil_r. Qed.

Lemma disk_write_one d lba buf :
  is_Some (d !! lba) → 512 ≤ zlen buf → disk_write d lba buf 1 = Ok (<[lba := take 512 buf]> d).
Proof. intros [s Hs] HB. simpl. mrun Hs. by rewrite (proj2 (Z.leb_le _ _) HB). Qed.

Lemma sectors_insert d lba n k s : sectors d lba n → sectors (<[k := s]> d) lba n.
Proof.
  intros H j Hj. destruct (decide (j = k)) as [->|]; simplify_map_eq; [by eexists | auto].
Qed.

Lemma sectors_split d lba n m :
  0 ≤ m ≤ n → sectors d lba n → sectors d lba m ∧ sectors d (lba + m) (n - m).
Proof. intros Hm H. split; intros k Hk; apply H; lia. Qed.

Lemma dbyte_insert d lba s a :
  length s = 512%nat →
  dbyte (<[lba := s]> d) a =
    if (512 * lba <=? a) && (a <? 512 * (lba + 1)) then s !! Z.to_nat (a - 512 * lba) else dbyte d a.
Proof.
  intros HL. unfold dbyte.
  destruct (Z.leb_spec (512 * lba) a), (Z.ltb_spec a (512 * (lba + 1))); simpl.
  2,3,4: rewrite lookup_insert_ne by zdm; done.
  replace (a / 512) with lba by zdm. rewrite lookup_insert_eq. simpl. f_equal. zdm.
Qed.

Lemma disk_read_ok d lba n :
  disk_wf d → 0 ≤ lba → sectors d lba (Z.of_nat n) →
  ∃ b, disk_read d lba n = Ok b ∧ length b = (512 * n)%nat ∧ Forall (λ y, 0 ≤ y < 256) b ∧
    ∀ k, 0 ≤ k < 512 * Z.of_nat n → b !! Z.to_nat k = dbyte d (512 * lba + k).
Proof.
  intros Hwf. revert lba. induction n as [|n IH]; intros lba Hl HS.
  - exists []. split_and!; [done|done|constructor|lia].
  - destruct (HS lba ltac:(lia)) as [s Hs].
    destruct (Hwf _ _ Hs) as [HL HF].
    destruct (IH (lba + 1)) as (b & Hb & Lb & Fb & Kb); [lia | intros k Hk; apply HS; lia |].
    exists (s ++ b). simpl. rewrite Hs. simpl. rewrite Hb. simpl. split_and!; [done| | |].
    + rewrite length_app. lia.
    + by apply Forall_app.
    + intros k Hk. destruct (decide (k < 512)) as [Hk'|Hk'].
      * rewrite lookup_app_l by lia. unfold dbyte.
        replace ((512 * lba + k) / 512) with lba by zdm. rewrite Hs. simpl. f_equal. zdm.
      * rewrite lookup_app_r by lia. replace (Z.to_nat k - length s)%nat with (Z.to_nat (k - 512)) by lia.
        rewrite Kb by lia. f_equal. lia.
Qed.

Lemma disk_write_ok d lba buf n :
  disk_wf d → 0 ≤ lba → sectors d lba (Z.of_nat n) → 512 * Z.of_nat n ≤ zlen buf →
  Forall (λ y, 0 ≤ y < 256) buf →
  ∃ d', disk_write d lba buf n = Ok d' ∧ disk_wf d' ∧
    (∀ k, is_Some (d !! k) → is_Some (d' !! k)) ∧
    (∀ k, ¬ (lba ≤ k < lba + Z.of_nat n) → d' !! k = d !! k) ∧
    ∀ a, dbyte d' a =
      if (512 * lba <=? a) && (a <? 512 * (lba + Z.of_nat n)) then buf !! Z.to_nat (a - 512 * lba)
      else dbyte d a.
Proof.
  revert d lba buf. induction n as [|n IH]; intros d lba buf Hwf Hl HS HB HF.
  - exists d. split_and!; try done. intros a.
    destruct (Z.leb_spec (512 * lba) a), (Z.ltb_spec a (512 * (lba + Z.of_nat 0))); done || lia.
  - destruct (HS lba ltac:(lia)) as [s Hs].
    assert (Ht : length (take 512 buf) = 512%nat) by (rewrite length_take; unfold zlen in HB; lia).
    destruct (IH (<[lba := take 512 buf]> d) (lba + 1) (drop 512 buf)) as (d' & Hd & W' & S' & O' & B').
    + apply disk_wf_insert; [done | done | by apply Forall_take].
    + lia.
    + apply sectors_insert. intros k Hk. apply HS. lia.
    + unfold zlen in *. rewrite length_drop. lia.
    + by apply Forall_drop.
    + exists d'. simpl. rewrite Hs. simpl. rewrite (proj2 (Z.leb_le 512 (zlen buf))) by lia.
      split_and!; [done | done | | |].
      * intros k Hk. apply S'. destruct (decide (k = lba)) as [->|]; simplify_map_eq; [by eexists|done].
      * intros k Hk. rewrite O' by lia. rewrite lookup_insert_ne by lia. done.
      * intros a. rewrite B', dbyte_insert by done.
        destruct (Z.leb_spec (512 * (lba + 1)) a), (Z.leb_spec (512 * lba) a),
          (Z.ltb_spec a (512 * (lba + 1 + Z.of_nat n))), (Z.ltb_spec a (512 * (lba + 1))),
          (Z.ltb_spec a (512 * (lba + Z.of_nat (S n)))); simpl; try done; try lia.
        -- rewrite lookup_drop. f_equal. lia.
        -- apply lookup_take_lt. lia.
Qed.

Lemma disk_read_app d lba n m :
  disk_read d lba (n + m) =
    (b ← disk_read d lba n; b' ← disk_read d (lba + Z.of_nat n) m; Ok (b ++ b')).
Proof.
  revert lba. induction n as [|n IH]; intros lba.
  - simpl. rewrite Z.add_0_r. by destruct (disk_read d lba m).
  - cbn [Nat.add disk_read]. destruct (d !! lba) as [s|]; [simpl|done]. rewrite IH.
    destruct (disk_read d (lba + 1) n) as [b| | | |]; simpl; try done.
    replace (lba + 1 + Z.of_nat n) with (lba + Z.of_nat (S n)) by lia.
    destruct (disk_read d (lba + Z.of_nat (S n)) m); simpl; try done. by rewrite app_assoc.
Qed.

Lemma disk_write_app d lba buf n m :
  disk_write d lba buf (n + m) =
    (d' ← disk_write d lba buf n; disk_write d' (lba + Z.of_nat n) (drop (512 * n) buf) m).
Proof.
  revert d lba buf. induction n as [|n IH]; intros d lba buf.
  - simpl. by rewrite Z.add_0_r.
  - cbn [Nat.add disk_write]. destruct (d !! lba) as [s|]; [simpl|done]. zcase; [|done]. rewrite IH.
    destruct (disk_write (<[lba:=take 512 buf]> d) (lba + 1) (drop 512 buf) n); simpl; try done.
    rewrite drop_drop. f_equal; [lia|]. f_equal. lia.
Qed.

Lemma length_disk_read d lba n b : disk_wf d → disk_read d lba n = Ok b → length b = (512 * n)%nat.
Proof.
  intros Hwf. revert lba b. induction n as [|n IH]; intros lba b H; simpl in H; inv_ok; [done|].
  destruct (Hwf _ _ H0) as [HL _]. rewrite length_app, HL, (IH _ _ H). lia.
Qed.

Lemma disk_write_wf d lba buf n d' :
  disk_wf d → Forall (λ y, 0 ≤ y < 256) buf → disk_write d lba buf n = Ok d' → disk_wf d'.
Proof.
  revert d lba buf. induction n as [|n IH]; intros d lba buf Hwf HF H; simpl in H; [by inv_ok|].
  apply bind_ok_iff in H as (s & _ & H). revert H. zcase; [|done]. intros H.
  eapply IH; [| |done].
  - apply disk_wf_insert; [done | rewrite length_take; unfold zlen in *; lia | by apply Forall_take].
  - by apply Forall_drop.
Qed.

Lemma take_drop_split {A} (n m : nat) (l : list A) : take n l ++ take m (drop n l) = take (n + m) l.
Proof.
  rewrite <- (take_drop n l) at 3. destruct (decide (n ≤ length l)%nat) as [H|H].
  - rewrite take_app_ge by (rewrite length_take; lia). rewrite length_take, Nat.min_l by lia.
    f_equal. f_equal. lia.
  - rewrite (drop_ge l n) by lia. rewrite !take_nil, !app_nil_r, !take_ge by (rewrite ?length_take; lia). done.
Qed.

(** What was written is read back. *)
Lemma disk_read_ext d d' lba n :
  (∀ k, lba ≤ k < lba + Z.of_nat n → d' !! k = d !! k) → disk_read d' lba n = disk_read d lba n.
Proof.
  revert lba. induction n as [|n IH]; intros lba H; [done|]. cbn [disk_read].
  rewrite H by lia. rewrite IH by (intros k Hk; apply H; lia). done.
Qed.

Lemma disk_write_other d lba buf n d' k :
  disk_write d lba buf n = Ok d' → ¬ (lba ≤ k < lba + Z.of_nat n) → d' !! k = d !! k.
Proof.
  revert d lba buf. induction n as [|n IH]; intros d lba buf H Hk; simpl in H; [by inv_ok|].
  apply bind_ok_iff in H as (s & _ & H). revert H. zcase; [|done]. intros H.
  rewrite (IH _ _ _ H) by lia. rewrite lookup_insert_ne by lia. done.
Qed.

Lemma disk_write_read d lba buf n d' :
  disk_write d lba buf n = Ok d' → disk_read d' lba n = Ok (take (512 * n) buf).
Proof.
  revert d lba buf. induction n as [|n IH]; intros d lba buf H; [by rewrite Nat.mul_0_r|].
  cbn [disk_write] in H. apply bind_ok_iff in H as (s & _ & H). revert H. zcase; [|done]. intros H.
  cbn [disk_read]. rewrite (disk_write_other _ _ _ _ _ lba H) by lia. rewrite lookup_insert_eq.
  cbn [of_opt mbind outcome_bind]. rewrite (IH _ _ _ H). cbn [mbind outcome_bind].
  replace (512 * S n)%nat with (512 + 512 * n)%nat by lia. by rewrite take_drop_split.
Qed.

(** A disk of [n] sectors full of the byte [v]. *)
Definition blank_disk (n v : Z) : disk :=
  list_to_map ((λ k, (k, replicate 512 v)) <$> seqZ 0 n).

Lemma blank_disk_wf n v : 0 ≤ v < 256 → disk_wf (blank_disk n v).
Proof.
  intros Hv k s H. apply elem_of_list_to_map_2, list_elem_of_fmap in H as (j & Heq & _).
  apply pair_equal_spec in Heq as [-> ->].
  split; [by rewrite length_replicate | by apply Forall_replicate].
Qed.

Lemma blank_disk_lookup n v k : 0 ≤ k < n → blank_disk n v !! k = Some (replicate 512 v).
Proof.
  intros Hk. unfold blank_disk. apply elem_of_list_to_map_1.
  - rewrite <- list_fmap_compose.
    replace (compose fst (λ k, (k, replicate 512 v))) with (@id Z) by done.
    rewrite list_fmap_id. apply NoDup_seqZ.
  - apply list_elem_of_fmap. exists k. split; [done | apply elem_of_seqZ; lia].
Qed.

Lemma blank_disk_sectors n v lba m : 0 ≤ lba → lba + m ≤ n → sectors (blank_disk n v) lba m.
Proof. intros H1 H2 k Hk. rewrite blank_disk_lookup by lia. by eexists. Qed.
