(* ===== verification/Ide.v ===== *)
(** * The ATA disk driver (device/ide.c)

    One channel with two drives.  The controller is modelled from the outside, as
    the ATA documents describe PIO transfers: the byte registers that [outb]
    writes; a drive that is busy (BSY, and no DRQ) for some time after a command
    and for some time after every sector of it; the data port, which moves one
    sector each time the drive asks for it (DRQ); and the interrupt of a drive
    that has become ready (the step [device_irq], which runs [intr_hd_handler]).
    The theorems show that [ide_read] and [ide_write] implement [disk_read] and
    [disk_write] of Disk.v for single sectors, and for longer transfers on a drive
    that is ready again at once after each sector; on a slower drive every longer
    transfer goes wrong, because the driver does not wait between the sectors. *)

From S2P Require Import Prelude Sync Disk.

(** ** The controller *)

Definition BIT_STAT_BSY : Z := 0x80.
Definition BIT_STAT_DRDY : Z := 0x40.
Definition BIT_STAT_DRQ : Z := 0x8.
Definition BIT_DEV_MBS : Z := 0xa0.
Definition BIT_DEV_LBA : Z := 0x40.
Definition BIT_DEV_DEV : Z := 0x10.
Definition CMD_IDENTIFY : Z := 0xec.
Definition CMD_READ_SECTOR : Z := 0x20.
Definition CMD_WRITE_SECTOR : Z := 0x30.

(** The transfer in progress: the bytes the host has still to read, or the
    sectors it has still to write. *)
Inductive transfer := XNone | XIn (b : list Z) | XOut (lba : Z) (cnt : nat).

(** Time is counted in reads of the status register.  [busy]: the reads that will
    still show BSY; [delays]: how long each command to come keeps the drive busy
    (not at all when the list is used up); [gap]: how long the drive is busy
    between two sectors of a command; [ident]: the answer to IDENTIFY. *)
Record controller := Controller {
  r_sect_cnt : Z;
  r_lba_l : Z;
  r_lba_m : Z;
  r_lba_h : Z;
  r_dev : Z;
  busy : nat;
  delays : list nat;
  gap : nat;
  xfer : transfer;
  ident : list Z;
  medium0 : disk;
  medium1 : disk;
}.

Definition set_dev (v : Z) (h : controller) : controller :=
  Controller (r_sect_cnt h) (r_lba_l h) (r_lba_m h) (r_lba_h h) (u8 v) (busy h) (delays h) (gap h)
    (xfer h) (ident h) (medium0 h) (medium1 h).
Definition set_drive (n : nat) (ds : list nat) (w : transfer) (h : controller) : controller :=
  Controller (r_sect_cnt h) (r_lba_l h) (r_lba_m h) (r_lba_h h) (r_dev h) n ds (gap h)
    w (ident h) (medium0 h) (medium1 h).

(** [inb (reg_status (channel))]: BSY alone while the drive is busy; otherwise
    DRDY, with DRQ when the drive wants to move a sector. *)
Definition in_status (h : controller) : Z * controller :=
  match busy h with
  | S n => (BIT_STAT_BSY, set_drive n (delays h) (xfer h) h)
  | O => (match xfer h with
          | XNone => BIT_STAT_DRDY
          | _ => Z.lor BIT_STAT_DRDY BIT_STAT_DRQ
          end, h)
  end.

(** The LBA28 address, the sector count (0 stands for 256) and the drive that
    the registers select. *)
Definition reg_lba (h : controller) : Z :=
  r_lba_l h + 256 * r_lba_m h + 65536 * r_lba_h h + 16777216 * (r_dev h mod 16).
Definition reg_count (h : controller) : Z := if r_sect_cnt h =? 0 then 256 else r_sect_cnt h.
Definition reg_slave (h : controller) : bool := Z.testbit (r_dev h) 4.
Definition medium (h : controller) : disk := if reg_slave h then medium1 h else medium0 h.
Definition set_medium (d : disk) (h : controller) : controller :=
  Controller (r_sect_cnt h) (r_lba_l h) (r_lba_m h) (r_lba_h h) (r_dev h) (busy h) (delays h) (gap h)
    (xfer h) (ident h) (if reg_slave h then medium0 h else d) (if reg_slave h then d else medium1 h).

(** The controller takes a command; one written while the drive is busy or in
    the middle of a transfer, or one that addresses no sector, is [Fault]. *)
Definition accept_command (cmd : Z) (h : controller) : outcome controller :=
  let delay := default O (head (delays h)) in
  let later := tail (delays h) in
  match busy h, xfer h with
  | O, XNone =>
      if cmd =? CMD_READ_SECTOR then
        b ← disk_read (medium h) (reg_lba h) (Z.to_nat (reg_count h));
        Ok (set_drive delay later (XIn b) h)
      else if cmd =? CMD_IDENTIFY then Ok (set_drive delay later (XIn (ident h)) h)
      else if cmd =? CMD_WRITE_SECTOR then
        Ok (set_drive delay later (XOut (reg_lba h) (Z.to_nat (reg_count h))) h)
      else Fault
  | _, _ => Fault
  end.

(** One sector through the data port, which works only while DRQ is set: with the
    drive busy, the port delivers and accepts nothing meaningful ([Fault]).  After
    a sector the drive is busy again. *)
Definition in_sector (h : controller) : outcome (list Z * controller) :=
  match busy h, xfer h with
  | O, XIn b =>
      if 512 <? zlen b then Ok (take 512 b, set_drive (gap h) (delays h) (XIn (drop 512 b)) h)
      else if zlen b =? 512 then Ok (b, set_drive O (delays h) XNone h)
      else Fault
  | _, _ => Fault
  end.
Definition out_sector (s : list Z) (h : controller) : outcome controller :=
  match busy h, xfer h with
  | O, XOut lba (S n) =>
      _ ← of_opt (medium h !! lba);
      Ok (set_drive (gap h) (delays h) (match n with O => XNone | _ => XOut (lba + 1) n end)
            (set_medium (<[lba := s]> (medium h)) h))
  | _, _ => Fault
  end.

Fixpoint in_sectors (n : nat) (h : controller) : outcome (list Z * controller) :=
  match n with
  | O => Ok ([], h)
  | S n' =>
      '(s, h1) ← in_sector h;
      '(b, h2) ← in_sectors n' h1;
      Ok (s ++ b, h2)
  end.
Fixpoint out_sectors (n : nat) (buf : list Z) (h : controller) : outcome controller :=
  match n with
  | O => Ok h
  | S n' =>
      if 512 <=? zlen buf then
        h1 ← out_sector (take 512 buf) h;
        out_sectors n' (drop 512 buf) h1
      else Fault
  end.

(** [rep insw] of [word_cnt] words, and [rep outsw] of the buffer's words: the
    processor moves them one after the other and does not look at the status. *)
Definition insw (word_cnt : Z) (h : controller) : outcome (list Z * controller) :=
  if word_cnt mod 256 =? 0 then in_sectors (Z.to_nat (word_cnt / 256)) h else Fault.
Definition outsw (buf : list Z) (word_cnt : Z) (h : controller) : outcome controller :=
  if word_cnt mod 256 =? 0 then out_sectors (Z.to_nat (word_cnt / 256)) buf h else Fault.

(** ** The driver *)

Record ide_channel := IdeChannel {
  port_base : Z;
  irq_no : Z;
  clock : lock;
  expecting_intr : bool;
  disk_done : semaphore;
}.

(** The channel and its controller; a disk is named by its [dev_no]. *)
Record ide := Ide { chan : ide_channel; ctl : controller }.

Definition upd_ctl (f : controller → controller) (x : ide) : ide := Ide (chan x) (f (ctl x)).

Definition select_disk (dev_no : Z) (x : ide) : ide :=
  let reg_device := Z.lor BIT_DEV_MBS BIT_DEV_LBA in
  upd_ctl (set_dev (if dev_no =? 1 then Z.lor reg_device BIT_DEV_DEV else reg_device)) x.

Definition select_sector (dev_no lba sec_cnt : Z) (x : ide) : ide :=
  let h := ctl x in
  let dev := Z.lor (Z.lor (Z.lor BIT_DEV_MBS BIT_DEV_LBA) (if dev_no =? 1 then BIT_DEV_DEV else 0))
               (Z.shiftr lba 24) in
  Ide (chan x) (Controller (u8 sec_cnt) (u8 lba) (u8 (Z.shiftr lba 8)) (u8 (Z.shiftr lba 16)) (u8 dev)
    (busy h) (delays h) (gap h) (xfer h) (ident h) (medium0 h) (medium1 h)).

Definition cmd_out (cmd : Z) (x : ide) : outcome ide :=
  let c := chan x in
  h ← accept_command cmd (ctl x);
  Ok (Ide (IdeChannel (port_base c) (irq_no c) (clock c) true (disk_done c)) h).

Definition size_in_byte (sec_cnt : Z) : Z := if sec_cnt =? 0 then 256 * 512 else sec_cnt * 512.

Definition read_from_sector (sec_cnt : Z) (x : ide) : outcome (list Z * ide) :=
  '(b, h) ← insw (size_in_byte (u8 sec_cnt) / 2) (ctl x); Ok (b, Ide (chan x) h).

Definition writer2sector (buf : list Z) (sec_cnt : Z) (x : ide) : outcome ide :=
  h ← outsw buf (size_in_byte (u8 sec_cnt) / 2) (ctl x); Ok (Ide (chan x) h).

(** [while (time_limit -= 10 >= 0)] subtracts [10 >= 0], that is 1, each time;
    the argument is the number of turns left.  [mtime_sleep] yields the
    processor and leaves the channel alone. *)
Fixpoint busy_loop (time_limit : nat) (h : controller) : bool * controller :=
  match time_limit with
  | O => (false, h)
  | S n =>
      let '(s, h1) := in_status h in
      if Z.land s BIT_STAT_BSY =? 0 then
        let '(s', h2) := in_status h1 in (negb (Z.land s' BIT_STAT_DRQ =? 0), h2)
      else busy_loop n h1
  end.

Definition busy_wait (x : ide) : bool * ide :=
  let '(r, h) := busy_loop (Z.to_nat (30 * 1000 - 1)) (ctl x) in (r, Ide (chan x) h).

Definition intr_hd_handler (x : ide) : ide :=
  let c := chan x in
  if expecting_intr c then
    let sm := snd (sema_up_turn (disk_done c)) in
    Ide (IdeChannel (port_base c) (irq_no c) (clock c) false sm) (snd (in_status (ctl x)))
  else x.

(** The drive raises its interrupt when it is no longer busy. *)
Definition device_irq (x : ide) : ide :=
  let h := ctl x in intr_hd_handler (Ide (chan x) (set_drive O (delays h) (xfer h) h)).

(** [sema_down (&channel->disk_done)], after the interrupt or before it: the
    thread [t] goes on when the interrupt has come. *)
Definition wait_done (t : Z) (x : ide) : outcome ide :=
  let c := chan x in
  '(sm, got) ← sema_down_turn t (disk_done c);
  if got : bool then
    Ok (Ide (IdeChannel (port_base c) (irq_no c) (clock c) (expecting_intr c) sm) (ctl x))
  else Blocked.

Definition acquire_channel (t : Z) (x : ide) : outcome ide :=
  let c := chan x in
  l ← lock_acquire t (clock c);
  Ok (Ide (IdeChannel (port_base c) (irq_no c) l (expecting_intr c) (disk_done c)) (ctl x)).
Definition release_channel (x : ide) : ide :=
  let c := chan x in
  Ide (IdeChannel (port_base c) (irq_no c) (snd (lock_release (clock c))) (expecting_intr c)
    (disk_done c)) (ctl x).

Definition secs_op (secs_done sec_cnt : Z) : Z :=
  if u32 (secs_done + 256) <=? sec_cnt then 256 else u32 (sec_cnt - secs_done).

Fixpoint read_loop (fuel : nat) (t dev_no lba sec_cnt secs_done : Z) (buf : list Z) (x : ide)
    : outcome (list Z * ide) :=
  match fuel with
  | O => NoFuel
  | S fuel' =>
      if secs_done <? sec_cnt then
        let op := secs_op secs_done sec_cnt in
        x1 ← cmd_out CMD_READ_SECTOR (select_sector dev_no (u32 (lba + secs_done)) op x);
        x2 ← wait_done t (device_irq x1);
        let '(ready, x3) := busy_wait x2 in
        if ready then
          '(b, x4) ← read_from_sector op x3;
          read_loop fuel' t dev_no lba sec_cnt (u32 (secs_done + op)) (buf ++ b) x4
        else Panic
      else Ok (buf, x)
  end.

(** Thread [t] reads [sec_cnt] sectors; the result is the buffer's new content. *)
Definition ide_read (t dev_no lba sec_cnt : Z) (x : ide) : outcome (list Z * ide) :=
  x1 ← acquire_channel t x;
  '(b, x2) ← read_loop (S (Z.to_nat sec_cnt)) t dev_no lba sec_cnt 0 [] (select_disk dev_no x1);
  Ok (b, release_channel x2).

Fixpoint write_loop (fuel : nat) (t dev_no lba : Z) (buf : list Z) (sec_cnt secs_done : Z) (x : ide)
    : outcome ide :=
  match fuel with
  | O => NoFuel
  | S fuel' =>
      if secs_done <? sec_cnt then
        let op := secs_op secs_done sec_cnt in
        x1 ← cmd_out CMD_WRITE_SECTOR (select_sector dev_no (u32 (lba + secs_done)) op x);
        let '(ready, x2) := busy_wait x1 in
        if ready then
          x3 ← writer2sector (drop (Z.to_nat (u32 (secs_done * 512))) buf) op x2;
          x4 ← wait_done t (device_irq x3);
          write_loop fuel' t dev_no lba buf sec_cnt (u32 (secs_done + op)) x4
        else Panic
      else Ok x
  end.

Definition ide_write (t dev_no lba : Z) (buf : list Z) (sec_cnt : Z) (x : ide) : outcome ide :=
  x1 ← acquire_channel t x;
  x2 ← write_loop (S (Z.to_nat sec_cnt)) t dev_no lba buf sec_cnt 0 (select_disk dev_no x1);
  Ok (release_channel x2).

(** ** The driver implements the transfers of Disk.v *)

(** The drive waits for a command, and no command keeps it busy for longer than
    [busy_wait] waits. *)
Definition at_rest (h : controller) : Prop :=
  busy h = O ∧ xfer h = XNone ∧ Forall (λ n, Z.of_nat n < 29999) (delays h).

(** No command is under way. *)
Definition quiet (c : ide_channel) : Prop :=
  expecting_intr c = false ∧ disk_done c = sema_init 0.
Definition idle (x : ide) : Prop := clock (chan x) = lock_init ∧ quiet (chan x) ∧ at_rest (ctl x).

(** The drive needs no time between the sectors of one command, or none has more
    than one. *)
Definition paced (h : controller) (sec_cnt : Z) : Prop := gap h = O ∨ sec_cnt ≤ 1.

Definition media (h : controller) (dev_no : Z) : disk := if dev_no =? 1 then medium1 h else medium0 h.

Lemma in_status_ready h :
  busy h = O → xfer h ≠ XNone → in_status h = (Z.lor BIT_STAT_DRDY BIT_STAT_DRQ, h).
Proof. intros H1 H2. unfold in_status. rewrite H1. by destruct (xfer h). Qed.

Lemma set_drive_self h : set_drive (busy h) (delays h) (xfer h) h = h.
Proof. by destruct h. Qed.

(** [busy_wait] finds a drive that asks for data in time. *)
Lemma busy_loop_ready n h :
  xfer h ≠ XNone → (busy h < n)%nat →
  busy_loop n h = (true, set_drive O (delays h) (xfer h) h).
Proof.
  revert h. induction n as [|n IH]; intros h HX HN; [lia|]. cbn [busy_loop].
  destruct (busy h) as [|m] eqn:E.
  - rewrite (in_status_ready h E HX). change (Z.land _ BIT_STAT_BSY =? 0) with true. cbn iota.
    rewrite (in_status_ready h E HX). pose proof (set_drive_self h) as Hh. rewrite E in Hh. by rewrite Hh.
  - unfold in_status at 1. rewrite E. change (Z.land _ BIT_STAT_BSY =? 0) with false. cbn iota.
    rewrite IH by (done || (simpl; lia)). done.
Qed.

Lemma busy_wait_ready x :
  xfer (ctl x) ≠ XNone → Z.of_nat (busy (ctl x)) < 29999 →
  busy_wait x = (true, Ide (chan x) (set_drive O (delays (ctl x)) (xfer (ctl x)) (ctl x))).
Proof. intros HX HB. unfold busy_wait. by rewrite busy_loop_ready by (done || lia). Qed.

Lemma in_sectors_S n h :
  in_sectors (S n) h = ('(s, h1) ← in_sector h; '(b, h2) ← in_sectors n h1; Ok (s ++ b, h2)).
Proof. done. Qed.
Lemma out_sectors_S n buf h :
  out_sectors (S n) buf h =
    (if 512 <=? zlen buf then h1 ← out_sector (take 512 buf) h; out_sectors n (drop 512 buf) h1 else Fault).
Proof. done. Qed.

(** The data port hands over a whole transfer when no time is needed between its
    sectors. *)
Lemma in_sectors_ok n b h :
  busy h = O → xfer h = XIn b → length b = (512 * S n)%nat → gap h = O ∨ n = O →
  in_sectors (S n) h = Ok (b, set_drive O (delays h) XNone h).
Proof.
  revert b h. induction n as [|n IH]; intros b h HB HX HL HG; rewrite in_sectors_S;
    unfold in_sector at 1; rewrite HB, HX.
  - rewrite (proj2 (Z.ltb_ge _ _)) by (unfold zlen; lia).
    rewrite (proj2 (Z.eqb_eq _ _)) by (unfold zlen; lia). cbn [mbind outcome_bind in_sectors]. by rewrite app_nil_r.
  - destruct HG as [HG|?]; [|done].
    rewrite (proj2 (Z.ltb_lt _ _)) by (unfold zlen; lia). cbn [mbind outcome_bind].
    rewrite (IH (drop 512 b)); [|by rewrite HG | done | rewrite length_drop; lia | by left].
    cbn [mbind outcome_bind]. by rewrite take_drop.
Qed.

Lemma set_medium_idem d d' n ds w h :
  set_medium d (set_drive n ds w (set_medium d' h)) = set_drive n ds w (set_medium d h).
Proof.
  unfold set_medium, set_drive, reg_slave. simpl. by destruct (Z.testbit (r_dev h) 4).
Qed.

Lemma medium_set_drive n ds w h : medium (set_drive n ds w h) = medium h.
Proof. done. Qed.
Lemma medium_set_medium d h : medium (set_medium d h) = d.
Proof. unfold medium, set_medium, reg_slave. simpl. by destruct (Z.testbit (r_dev h) 4). Qed.

Lemma out_sectors_ok n lba buf d h :
  busy h = O → xfer h = XOut lba (S n) → gap h = O ∨ n = O →
  disk_write (medium h) lba buf (S n) = Ok d →
  out_sectors (S n) buf h = Ok (set_drive (gap h) (delays h) XNone (set_medium d h)).
Proof.
  revert lba buf h. induction n as [|n IH]; intros lba buf h HB HX HG HW; rewrite out_sectors_S;
    cbn [disk_write] in HW; apply bind_ok_iff in HW as (s & Hs & HW);
    destruct (512 <=? zlen buf); try discriminate; unfold out_sector at 1; rewrite HB, HX; mrun Hs;
    cbn [mbind outcome_bind].
  - by injection HW as <-.
  - destruct HG as [HG|?]; [|done]. 
    set (h1 := set_drive _ _ _ _). fold (disk_write (<[lba:=take 512 buf]> (medium h)) (lba + 1) (drop 512 buf) (S n)) in HW.
    rewrite (IH (lba + 1) _ h1); [|by unfold h1 | done | by left |].
    + unfold h1. by rewrite set_medium_idem.
    + unfold h1. rewrite medium_set_drive, medium_set_medium. exact HW.
Qed.

(** The registers after [select_sector] name the drive and the sectors. *)
Lemma select_sector_regs dev_no lba n x :
  dev_no = 0 ∨ dev_no = 1 → 0 ≤ lba < 268435456 → 1 ≤ n ≤ 256 →
  let h := ctl (select_sector dev_no lba n x) in
  reg_lba h = lba ∧ reg_count h = n ∧ reg_slave h = (dev_no =? 1).
Proof.
  intros Hd Hl Hn h. unfold h, reg_lba, reg_count, reg_slave, select_sector. simpl.
  rewrite !Z.shiftr_div_pow2 by lia.
  change (2 ^ 24) with 16777216. change (2 ^ 8) with 256. change (2 ^ 16) with 65536.
  set (hi := lba / 16777216). assert (Hhi : 0 ≤ hi < 16) by (unfold hi; zdm).
  assert (HD : u8 (Z.lor (Z.lor (Z.lor BIT_DEV_MBS BIT_DEV_LBA) (if dev_no =? 1 then BIT_DEV_DEV else 0)) hi)
    = 224 + (if dev_no =? 1 then 16 else 0) + hi).
  { clearbody hi. assert (Hin : hi ∈ seqZ 0 16) by (apply elem_of_seqZ; lia).
    destruct Hd as [-> | ->]; repeat (apply elem_of_cons in Hin as [-> | Hin]; [reflexivity|]);
      by apply elem_of_nil in Hin. }
  rewrite HD. split_and!.
  - unfold u8, hi. destruct Hd as [-> | ->]; simpl; zdm.
  - unfold u8. destruct (decide (n = 256)) as [->|]; [done|].
    rewrite Z.mod_small by lia. destruct (Z.eqb_spec n 0); lia.
  - clearbody hi. assert (Hin : hi ∈ seqZ 0 16) by (apply elem_of_seqZ; lia).
    destruct Hd as [-> | ->]; repeat (apply elem_of_cons in Hin as [-> | Hin]; [reflexivity|]);
      by apply elem_of_nil in Hin.
Qed.

Lemma secs_op_range secs_done sec_cnt :
  0 ≤ secs_done < sec_cnt → sec_cnt < 268435456 →
  1 ≤ secs_op secs_done sec_cnt ≤ 256 ∧ secs_done + secs_op secs_done sec_cnt ≤ sec_cnt.
Proof. intros. unfold secs_op. rewrite (u32_small (secs_done + 256)) by lia. zcase; unfold u32; zdm. Qed.

(** [cmd_out], the interrupt and [sema_down] leave the channel quiet again. *)
Definition quiet_chan (c : ide_channel) : ide_channel :=
  IdeChannel (port_base c) (irq_no c) (clock c) false (sema_init 0).

Lemma quiet_eq c : quiet c → c = quiet_chan c.
Proof. intros [H1 H2]. destruct c; simpl in *. by subst. Qed.

Lemma irq_wait t c h :
  wait_done t (device_irq (Ide (IdeChannel (port_base c) (irq_no c) (clock c) true (sema_init 0)) h))
    = Ok (Ide (quiet_chan c) (set_drive O (delays h) (xfer h) h)).
Proof. done. Qed.

Lemma size_in_byte_op n : 1 ≤ n ≤ 256 → size_in_byte (u8 n) / 2 = 256 * n.
Proof.
  intros H. unfold size_in_byte, u8. destruct (decide (n = 256)) as [->|]; [done|].
  rewrite Z.mod_small by lia. destruct (Z.eqb_spec n 0); zdm.
Qed.

Lemma insw_sectors n h : 1 ≤ n ≤ 256 → insw (size_in_byte (u8 n) / 2) h = in_sectors (Z.to_nat n) h.
Proof.
  intros Hn. unfold insw. rewrite size_in_byte_op by lia. rewrite Z.mul_comm, Z.mod_mul by lia.
  simpl. by rewrite Z.div_mul.
Qed.
Lemma outsw_sectors buf n h :
  1 ≤ n ≤ 256 → outsw buf (size_in_byte (u8 n) / 2) h = out_sectors (Z.to_nat n) buf h.
Proof.
  intros Hn. unfold outsw. rewrite size_in_byte_op by lia. rewrite Z.mul_comm, Z.mod_mul by lia.
  simpl. by rewrite Z.div_mul.
Qed.

(** The drives are as before. *)
Definition same_media (h h' : controller) : Prop :=
  medium0 h' = medium0 h ∧ medium1 h' = medium1 h ∧ ident h' = ident h ∧ gap h' = gap h.

Lemma delays_tail P (h : controller) : Forall P (delays h) → Forall P (tail (delays h)).
Proof. intros H. by destruct H. Qed.
Lemma delay_head h :
  Forall (λ n, Z.of_nat n < 29999) (delays h) → Z.of_nat (default O (head (delays h))) < 29999.
Proof. intros H. destruct H; simpl; lia. Qed.

(** One turn of the loop of [ide_read] up to the transfer: the drive asks for the
    first sector. *)
Lemma cmd_read_ready t dev_no lba op b c h :
  dev_no = 0 ∨ dev_no = 1 → 0 ≤ lba < 268435456 → 1 ≤ op ≤ 256 →
  quiet c → at_rest h →
  disk_read (media h dev_no) lba (Z.to_nat op) = Ok b →
  ∃ x1 h', cmd_out CMD_READ_SECTOR (select_sector dev_no lba op (Ide c h)) = Ok x1 ∧
    ∃ x2, wait_done t (device_irq x1) = Ok x2 ∧ busy_wait x2 = (true, Ide c h') ∧
    busy h' = O ∧ xfer h' = XIn b ∧ delays h' = tail (delays h) ∧ same_media h h'.
Proof.
  intros Hd Hl Hop Hq (HB & HX & HD) HR. rewrite (quiet_eq c Hq).
  destruct (select_sector_regs dev_no lba op (Ide (quiet_chan c) h)) as (R1 & R2 & R3); [done..|].
  set (x0 := select_sector dev_no lba op (Ide (quiet_chan c) h)) in *.
  assert (HM : medium (ctl x0) = media h dev_no) by (unfold medium; by rewrite R3).
  unfold cmd_out, accept_command. rewrite HM, R1, R2.
  change (busy (ctl x0)) with (busy h). change (xfer (ctl x0)) with (xfer h). rewrite HB, HX.
  change (CMD_READ_SECTOR =? CMD_READ_SECTOR) with true. cbn iota. mrun HR. cbn [mbind outcome_bind].
  eexists _, _. split; [reflexivity|]. eexists. split; [apply (irq_wait t (quiet_chan c))|].
  rewrite busy_wait_ready by done. split; [reflexivity|]. by split_and!.
Qed.

Lemma cmd_read_turn fuel t dev_no lba sec_cnt secs_done buf b c h :
  let op := secs_op secs_done sec_cnt in
  dev_no = 0 ∨ dev_no = 1 → 0 ≤ lba → lba + sec_cnt < 268435456 → 0 ≤ secs_done < sec_cnt →
  quiet c → at_rest h → paced h sec_cnt → disk_wf (media h dev_no) →
  disk_read (media h dev_no) (lba + secs_done) (Z.to_nat op) = Ok b →
  ∃ h', read_loop (S fuel) t dev_no lba sec_cnt secs_done buf (Ide c h) =
          read_loop fuel t dev_no lba sec_cnt (secs_done + op) (buf ++ b) (Ide c h') ∧
        same_media h h' ∧ at_rest h'.
Proof.
  intros op Hd Hl Hlc Hs Hq HG HP HW HR.
  destruct (secs_op_range secs_done sec_cnt) as [Hop Hsum]; [lia|lia|]. fold op in Hop, Hsum.
  cbn [read_loop]. fold op. rewrite (proj2 (Z.ltb_lt secs_done sec_cnt)) by lia.
  rewrite (u32_small (lba + secs_done)), (u32_small (secs_done + op)) by lia.
  destruct (cmd_read_ready t dev_no (lba + secs_done) op b c h)
    as (x1 & h1 & -> & x2 & Hx2 & Hb & HB & HX & HD & HM); [done | lia | done..|].
  cbn [mbind outcome_bind]. mrun Hx2. rewrite Hb. unfold read_from_sector. cbn [ctl chan].
  rewrite insw_sectors by lia. pose proof (length_disk_read _ _ _ _ HW HR) as HL.
  destruct (Z.to_nat op) as [|m] eqn:Em; [lia|].
  rewrite (in_sectors_ok m b) by (done || lia || (destruct HM as (_&_&_&->), HP; [by left|right; lia])).
  cbn [mbind outcome_bind]. eexists. split; [reflexivity|]. split; [exact HM|].
  destruct HG as (_&_&?). split_and!; [done | done |]. simpl. rewrite HD. by apply delays_tail.
Qed.

Lemma cmd_read_loop_ok fuel t dev_no lba sec_cnt secs_done buf b c h :
  dev_no = 0 ∨ dev_no = 1 → 0 ≤ lba → lba + sec_cnt < 268435456 → 0 ≤ secs_done ≤ sec_cnt →
  quiet c → at_rest h → paced h sec_cnt → disk_wf (media h dev_no) →
  sec_cnt - secs_done < Z.of_nat fuel →
  disk_read (media h dev_no) (lba + secs_done) (Z.to_nat (sec_cnt - secs_done)) = Ok b →
  ∃ h', read_loop fuel t dev_no lba sec_cnt secs_done buf (Ide c h) = Ok (buf ++ b, Ide c h') ∧
        same_media h h' ∧ at_rest h'.
Proof.
  intros Hd Hl Hlc. revert secs_done buf b h.
  induction fuel as [|fuel IH]; intros sd buf b h Hs Hq HG HP HW HF HR; [lia|].
  destruct (decide (sd = sec_cnt)) as [->|Hne].
  - rewrite Z.sub_diag in HR. injection HR as <-. cbn [read_loop]. rewrite Z.ltb_irrefl.
    exists h. by rewrite app_nil_r.
  - destruct (secs_op_range sd sec_cnt) as [Hop Hsum]; [lia|lia|]. set (op := secs_op sd sec_cnt) in *.
    replace (Z.to_nat (sec_cnt - sd)) with (Z.to_nat op + Z.to_nat (sec_cnt - (sd + op)))%nat in HR by lia.
    rewrite disk_read_app in HR. apply bind_ok_iff in HR as (a & Ha & HR).
    apply bind_ok_iff in HR as (a0 & Ha0 & [= <-]).
    destruct (cmd_read_turn fuel t dev_no lba sec_cnt sd buf a c h) as (h1 & -> & HM & HG1); try done; [lia|].
    fold op.
    assert (HMe : media h1 dev_no = media h dev_no) by (unfold media; by destruct HM as (-> & -> & _)).
    destruct (IH (sd + op) (buf ++ a) a0 h1) as (h2 & -> & HM2 & HG2); try done; try lia.
    + unfold paced. by destruct HM as (_ & _ & _ & ->).
    + by rewrite HMe.
    + rewrite HMe, <- Ha0. f_equal. lia.
    + exists h2. rewrite app_assoc. split_and!; try done.
      destruct HM as (?&?&?&?), HM2 as (?&?&?&?). by split_and!; etransitivity.
Qed.

(** The drive [dev_no] has become [d]. *)
Definition with_media (h : controller) (dev_no : Z) (d : disk) (h' : controller) : Prop :=
  medium0 h' = (if dev_no =? 1 then medium0 h else d) ∧
  medium1 h' = (if dev_no =? 1 then d else medium1 h) ∧ ident h' = ident h ∧ gap h' = gap h.

(** One turn of the loop of [ide_write] up to the transfer. *)
Lemma cmd_write_ready dev_no lba op c h :
  dev_no = 0 ∨ dev_no = 1 → 0 ≤ lba < 268435456 → 1 ≤ op ≤ 256 →
  quiet c → at_rest h →
  let c1 := IdeChannel (port_base c) (irq_no c) (clock c) true (sema_init 0) in
  ∃ x1 h', cmd_out CMD_WRITE_SECTOR (select_sector dev_no lba op (Ide c h)) = Ok x1 ∧
    busy_wait x1 = (true, Ide c1 h') ∧
    busy h' = O ∧ xfer h' = XOut lba (Z.to_nat op) ∧ delays h' = tail (delays h) ∧
    reg_slave h' = (dev_no =? 1) ∧ same_media h h'.
Proof.
  intros Hd Hl Hop Hq (HB & HX & HD) c1.
  destruct (select_sector_regs dev_no lba op (Ide c h)) as (R1 & R2 & R3); [done..|].
  set (x0 := select_sector dev_no lba op (Ide c h)) in *.
  unfold cmd_out, accept_command. rewrite R1, R2.
  change (busy (ctl x0)) with (busy h). change (xfer (ctl x0)) with (xfer h). rewrite HB, HX.
  change (CMD_WRITE_SECTOR =? CMD_READ_SECTOR) with false.
  change (CMD_WRITE_SECTOR =? CMD_IDENTIFY) with false.
  change (CMD_WRITE_SECTOR =? CMD_WRITE_SECTOR) with true. cbn iota. cbn [mbind outcome_bind].
  eexists _, _. split; [reflexivity|]. rewrite busy_wait_ready by (done || by apply delay_head).
  change (chan x0) with c. destruct Hq as [_ ->]. split; [reflexivity|]. by split_and!.
Qed.

Lemma cmd_write_turn fuel t dev_no lba buf sec_cnt secs_done d c h :
  let op := secs_op secs_done sec_cnt in
  dev_no = 0 ∨ dev_no = 1 → 0 ≤ lba → lba + sec_cnt < 8388608 → 0 ≤ secs_done < sec_cnt →
  quiet c → at_rest h → paced h sec_cnt →
  disk_write (media h dev_no) (lba + secs_done) (drop (Z.to_nat (secs_done * 512)) buf) (Z.to_nat op) = Ok d →
  ∃ h', write_loop (S fuel) t dev_no lba buf sec_cnt secs_done (Ide c h) =
          write_loop fuel t dev_no lba buf sec_cnt (secs_done + op) (Ide c h') ∧
        with_media h dev_no d h' ∧ at_rest h'.
Proof.
  intros op Hd Hl Hlc Hs Hq HG HP HR.
  destruct (secs_op_range secs_done sec_cnt) as [Hop Hsum]; [lia|lia|]. fold op in Hop, Hsum.
  cbn [write_loop]. fold op. rewrite (proj2 (Z.ltb_lt secs_done sec_cnt)) by lia.
  rewrite (u32_small (lba + secs_done)), (u32_small (secs_done + op)), (u32_small (secs_done * 512)) by lia.
  destruct (cmd_write_ready dev_no (lba + secs_done) op c h)
    as (x1 & h1 & -> & Hb & HB & HX & HD & HS & HM); [done | lia | done..|].
  cbn [mbind outcome_bind]. rewrite Hb. unfold writer2sector. cbn [ctl chan].
  rewrite outsw_sectors by lia. destruct HM as (M0 & M1 & MI & MG).
  assert (HMd : medium h1 = media h dev_no) by (unfold medium, media; by rewrite HS, M0, M1).
  destruct (Z.to_nat op) as [|m] eqn:Em; [lia|].
  rewrite (out_sectors_ok m (lba + secs_done) _ d)
    by (done || (rewrite MG; destruct HP; [by left|right; lia]) || by rewrite HMd).
  cbn [mbind outcome_bind]. rewrite irq_wait. cbn [mbind outcome_bind]. rewrite <- (quiet_eq c Hq).
  eexists. split; [reflexivity|]. destruct HG as (_&_&HF). split.
  - unfold with_media, set_medium. cbn [medium0 medium1 ident gap set_drive]. by rewrite HS, M0, M1, MI, MG.
  - split_and!; [done | done |]. simpl. rewrite HD. by apply delays_tail.
Qed.

Lemma cmd_write_loop_ok fuel t dev_no lba buf sec_cnt secs_done d c h :
  dev_no = 0 ∨ dev_no = 1 → 0 ≤ lba → lba + sec_cnt < 8388608 → 0 ≤ secs_done ≤ sec_cnt →
  quiet c → at_rest h → paced h sec_cnt →
  sec_cnt - secs_done < Z.of_nat fuel →
  disk_write (media h dev_no) (lba + secs_done) (drop (Z.to_nat (secs_done * 512)) buf)
    (Z.to_nat (sec_cnt - secs_done)) = Ok d →
  ∃ h', write_loop fuel t dev_no lba buf sec_cnt secs_done (Ide c h) = Ok (Ide c h') ∧
        with_media h dev_no d h' ∧ at_rest h'.
Proof.
  intros Hd Hl Hlc. revert secs_done h.
  induction fuel as [|fuel IH]; intros sd h Hs Hq HG HP HF HR; [lia|].
  destruct (decide (sd = sec_cnt)) as [->|Hne].
  - rewrite Z.sub_diag in HR. injection HR as <-. cbn [write_loop]. rewrite Z.ltb_irrefl.
    exists h. split_and!; try done. unfold with_media, media. by destruct (dev_no =? 1).
  - destruct (secs_op_range sd sec_cnt) as [Hop Hsum]; [lia|lia|]. set (op := secs_op sd sec_cnt) in *.
    replace (Z.to_nat (sec_cnt - sd)) with (Z.to_nat op + Z.to_nat (sec_cnt - (sd + op)))%nat in HR by lia.
    rewrite disk_write_app in HR. apply bind_ok_iff in HR as (d1 & Hd1 & HR).
    destruct (cmd_write_turn fuel t dev_no lba buf sec_cnt sd d1 c h) as (h1 & -> & HM & HG1); try done; [lia|].
    fold op.
    assert (HMe : media h1 dev_no = d1).
    { unfold media. destruct HM as (-> & -> & _). by destruct (dev_no =? 1). }
    destruct (IH (sd + op) h1) as (h2 & -> & HM2 & HG2); try done; try lia.
    + unfold paced. by destruct HM as (_ & _ & _ & ->).
    + rewrite HMe, <- HR, drop_drop. f_equal; [lia|]. f_equal. lia.
    + exists h2. split_and!; try done. destruct HM as (E0&E1&E2&E3), HM2 as (F0&F1&F2&F3).
      unfold with_media. rewrite F0, F1, F2, F3, E0, E1, E2, E3. by destruct (dev_no =? 1).
Qed.

Lemma acquire_idle t c h :
  clock c = lock_init → t ≠ 0 →
  acquire_channel t (Ide c h) =
    Ok (Ide (IdeChannel (port_base c) (irq_no c) (Lock t (Semaphore 0 []) 1) (expecting_intr c) (disk_done c)) h).
Proof.
  intros HC Ht. unfold acquire_channel, lock_acquire. simpl. rewrite HC. simpl.
  by rewrite (proj2 (Z.eqb_neq 0 t)) by lia.
Qed.

Lemma ide_read_ok t dev_no lba sec_cnt b x :
  idle x → paced (ctl x) sec_cnt →
  t ≠ 0 → dev_no = 0 ∨ dev_no = 1 → 0 ≤ lba → 0 ≤ sec_cnt → lba + sec_cnt < 268435456 →
  disk_wf (media (ctl x) dev_no) →
  disk_read (media (ctl x) dev_no) lba (Z.to_nat sec_cnt) = Ok b →
  ∃ x', ide_read t dev_no lba sec_cnt x = Ok (b, x') ∧ idle x' ∧ same_media (ctl x) (ctl x').
Proof.
  intros (HC & Hq & HG) HP Ht Hd Hl Hn Hln HW HR. destruct x as [c h]. simpl in *.
  unfold ide_read. rewrite acquire_idle by done. cbn [mbind outcome_bind].
  unfold select_disk, upd_ctl. cbn [chan ctl]. set (c1 := IdeChannel _ _ _ _ _).
  set (h1 := set_dev _ h).
  destruct (cmd_read_loop_ok (S (Z.to_nat sec_cnt)) t dev_no lba sec_cnt 0 [] b c1 h1) as (h' & -> & HM & HG');
    try done; try lia.
  { by rewrite Z.add_0_r, Z.sub_0_r. }
  eexists. split; [reflexivity|]. split; [|done]. destruct Hq. by split_and!.
Qed.

(** C16: [ide_read] implements [disk_read]: on an idle channel, for one sector on
    any drive, and for any number of sectors (cut into commands of at most 256,
    the count register holding 0 for 256) on a drive that needs no time between
    the sectors of a command, a read returns exactly the bytes of these sectors of
    the selected drive however long the drive works on each command, neither
    drive changes, and the channel is idle again with its lock free. *)
Theorem ide_read_refines t dev_no lba sec_cnt b x :
  idle x → paced (ctl x) sec_cnt →
  t ≠ 0 → dev_no = 0 ∨ dev_no = 1 → 0 ≤ lba → 0 ≤ sec_cnt → lba + sec_cnt < 268435456 →
  disk_wf (media (ctl x) dev_no) →
  disk_read (media (ctl x) dev_no) lba (Z.to_nat sec_cnt) = Ok b →
  ∃ x', ide_read t dev_no lba sec_cnt x = Ok (b, x') ∧ idle x' ∧ same_media (ctl x) (ctl x').
Proof. apply ide_read_ok. Qed.

(** C17: [ide_write] implements [disk_write]: under the same conditions, and with
    every command accepted within the 29999 polls of [busy_wait], the drive holds
    exactly the sectors of the buffer in the addressed range, everything else on
    both drives is unchanged, and the channel is idle again. *)
Theorem ide_write_refines t dev_no lba buf sec_cnt d x :
  idle x → paced (ctl x) sec_cnt →
  t ≠ 0 → dev_no = 0 ∨ dev_no = 1 → 0 ≤ lba → 0 ≤ sec_cnt → lba + sec_cnt < 8388608 →
  disk_write (media (ctl x) dev_no) lba buf (Z.to_nat sec_cnt) = Ok d →
  ∃ x', ide_write t dev_no lba buf sec_cnt x = Ok x' ∧ idle x' ∧ with_media (ctl x) dev_no d (ctl x').
Proof.
  intros (HC & Hq & HG) HP Ht Hd Hl Hn Hln HR. destruct x as [c h]. simpl in *.
  unfold ide_write. rewrite acquire_idle by done. cbn [mbind outcome_bind].
  unfold select_disk, upd_ctl. cbn [chan ctl]. set (c1 := IdeChannel _ _ _ _ _).
  set (h1 := set_dev _ h).
  destruct (cmd_write_loop_ok (S (Z.to_nat sec_cnt)) t dev_no lba buf sec_cnt 0 d c1 h1) as (h' & -> & HM & HG');
    try done; try lia.
  { by rewrite Z.add_0_r, Z.sub_0_r. }
  eexists. split; [reflexivity|]. split; [|done]. destruct Hq. by split_and!.
Qed.

(** ** Longer transfers on a drive that takes its time *)

Lemma in_sectors_busy n b h :
  busy h = O → xfer h = XIn b → length b = (512 * S (S n))%nat → gap h ≠ O → in_sectors (S (S n)) h = Fault.
Proof.
  intros HB HX HL HG. rewrite in_sectors_S. unfold in_sector at 1. rewrite HB, HX.
  rewrite (proj2 (Z.ltb_lt _ _)) by (unfold zlen; lia). cbn [mbind outcome_bind].
  rewrite in_sectors_S. unfold in_sector at 1. cbn [busy set_drive]. by destruct (gap h).
Qed.

Lemma secs_op_first sec_cnt : 2 ≤ sec_cnt < 268435456 → 2 ≤ secs_op 0 sec_cnt ≤ 256 ∧ secs_op 0 sec_cnt ≤ sec_cnt.
Proof. intros. unfold secs_op. change (u32 (0 + 256)) with 256. zcase; unfold u32; zdm. Qed.

(** C27: the driver waits once per command and not once per sector: on a drive that
    is busy for any time between two sectors, every [ide_read] of more than one
    sector goes to the data port while the drive is busy. *)
Theorem ide_read_unpaced t dev_no lba sec_cnt b x :
  idle x → gap (ctl x) ≠ O →
  t ≠ 0 → dev_no = 0 ∨ dev_no = 1 → 0 ≤ lba → 2 ≤ sec_cnt → lba + sec_cnt < 268435456 →
  disk_wf (media (ctl x) dev_no) →
  disk_read (media (ctl x) dev_no) lba (Z.to_nat sec_cnt) = Ok b →
  ide_read t dev_no lba sec_cnt x = Fault.
Proof.
  intros (HC & Hq & HG) HP Ht Hd Hl Hn Hln HW HR. destruct x as [c h]. simpl in *.
  unfold ide_read. rewrite acquire_idle by done. cbn [mbind outcome_bind].
  unfold select_disk, upd_ctl. cbn [chan ctl]. set (c1 := IdeChannel _ _ _ _ _).
  set (h1 := set_dev _ h). cbn [read_loop].
  rewrite (proj2 (Z.ltb_lt 0 sec_cnt)), (u32_small (lba + 0)), Z.add_0_r by lia.
  destruct (secs_op_first sec_cnt) as [Hop Hsum]; [lia|]. set (op := secs_op 0 sec_cnt) in *.
  replace (Z.to_nat sec_cnt) with (Z.to_nat op + Z.to_nat (sec_cnt - op))%nat in HR by lia.
  rewrite disk_read_app in HR. apply bind_ok_iff in HR as (b0 & Hb0 & _).
  assert (HW1 : disk_wf (media h1 dev_no)) by exact HW.
  destruct (cmd_read_ready t dev_no lba op b0 c1 h1)
    as (x1 & h2 & -> & x2 & Hx2 & Hb & HB & HX & HD & HM); [done | lia | lia | done..|].
  cbn [mbind outcome_bind]. mrun Hx2. rewrite Hb. unfold read_from_sector. cbn [ctl chan].
  rewrite insw_sectors by lia. pose proof (length_disk_read _ _ _ _ HW Hb0) as HL.
  destruct (Z.to_nat op) as [|[|m]] eqn:Em; [lia|lia|].
  by rewrite (in_sectors_busy m b0) by (done || by destruct HM as (_&_&_&->)).
Qed.

(** ** A channel with a small drive *)

(** The drive works on its commands for 2, 40 and 7 polls and is busy for [n]
    polls between sectors. *)
Definition small_ide (n : nat) : ide :=
  Ide (IdeChannel 0x1f0 0x2e lock_init false (sema_init 0))
    (Controller 0 0 0 0 0 0 [2; 40; 7]%nat n XNone [] ∅ (blank_disk 300 7)).

Lemma small_idle n : idle (small_ide n).
Proof. split_and!; try done. repeat constructor. Qed.

Lemma ide_read_refines_witness :
  ∃ b x', ide_read 0x1000 1 3 257 (small_ide 0) = Ok (b, x') ∧ idle x' ∧ length b = (512 * Z.to_nat 257)%nat.
Proof.
  assert (HW : disk_wf (blank_disk 300 7)) by (apply blank_disk_wf; lia).
  destruct (disk_read_ok (blank_disk 300 7) 3 (Z.to_nat 257)) as (b & Hb & Lb & _);
    [done | lia | apply blank_disk_sectors; lia |].
  destruct (ide_read_refines 0x1000 1 3 257 b (small_ide 0) (small_idle 0)) as (x' & H1 & H2 & _); try lia.
  - by left.
  - exact HW.
  - exact Hb.
  - exists b, x'. split; [exact H1 | split; [exact H2 | exact Lb]].
Defined.

Lemma ide_write_refines_witness :
  ∃ x', ide_write 0x1000 1 3 (replicate 1024 9) 2 (small_ide 0) = Ok x' ∧ idle x' ∧
    medium1 (ctl x') !! 4 = Some (replicate 512 9).
Proof.
  destruct (ide_write_refines 0x1000 1 3 (replicate 1024 9) 2
    (<[4 := replicate 512 9]> (<[3 := replicate 512 9]> (blank_disk 300 7))) (small_ide 0) (small_idle 0))
    as (x' & H1 & H2 & H3 & H4 & _); try lia.
  - by left.
  - vm_compute. reflexivity.
  - exists x'. split_and!; [done | done |]. rewrite H4. apply lookup_insert_eq.
Defined.

Lemma ide_read_unpaced_witness : ide_read 0x1000 1 3 2 (small_ide 1) = Fault.
Proof.
  assert (HW : disk_wf (blank_disk 300 7)) by (apply blank_disk_wf; lia).
  destruct (disk_read_ok (blank_disk 300 7) 3 2) as (b & Hb & _);
    [done | lia | apply blank_disk_sectors; lia |].
  apply (ide_read_unpaced 0x1000 1 3 2 b (small_ide 1) (small_idle 1)); try lia; try done.
Defined.
