(* ===== verification/Partition.v ===== *)
(** * Finding the partitions (device/ide.c, the initialisation)

    [partition_scan] reads the partition table of a boot record through the driver of [Ide]
    and calls itself for extended partitions; [ide_init] does this for the second drive of
    every channel.  A partition is named by its channel, its drive and its slot.  [kheap]
    holds the addresses that [sys_malloc] will return, [held] the buffers not yet freed. *)

From S2P Require Import Prelude Interrupt Sync CString Stdio Disk Ide.

(** ** The boot record *)

Record partition_table_entry := PartEntry { fs_type : Z; pe_start_lba : Z; pe_sec_cnt : Z }.

Definition word_at (b : list Z) (off : Z) : outcome Z :=
  w ← slice b off 4; match words_of_bytes w with [x] => Ok x | _ => Fault end.

(** [bs->partition_table[i]] *)
Definition table_entry (bs : list Z) (i : Z) : outcome partition_table_entry :=
  ty ← aget bs (446 + 16 * i + 4);
  a ← word_at bs (446 + 16 * i + 8);
  n ← word_at bs (446 + 16 * i + 12);
  Ok (PartEntry ty a n).

(** ** Disks and partitions *)

(** The fields of [struct partition] that the scan writes; [name] without its zeroes. *)
Record dpart := DPart { dp_start : Z; dp_cnt : Z; dp_name : list Z }.

Record disk_parts := DiskParts { prim_parts : list dpart; logic_parts : list dpart }.

Inductive part_ref := Prim (channel dev idx : Z) | Logic (channel dev idx : Z).

Record scan_state := ScanState {
  ext_lba_base : Z;
  p_no : Z;
  l_no : Z;
  parts : disk_parts;              (** of the drive that is scanned *)
  partition_list : list part_ref;
  hw : ide;
  kheap : list Z;
  held : list Z;
}.

Definition set_base (v : Z) (s : scan_state) : scan_state :=
  ScanState v (p_no s) (l_no s) (parts s) (partition_list s) (hw s) (kheap s) (held s).
Definition set_hw (x : ide) (s : scan_state) : scan_state :=
  ScanState (ext_lba_base s) (p_no s) (l_no s) (parts s) (partition_list s) x (kheap s) (held s).
Definition set_mem (h l : list Z) (s : scan_state) : scan_state :=
  ScanState (ext_lba_base s) (p_no s) (l_no s) (parts s) (partition_list s) (hw s) h l.

Definition ext_type : Z := 5.

Section Scan.
(** The running thread, the drive and its name ("sdb"). *)
Context (t channel dev_no : Z) (hd_name : list Z).

(** [sprintf (name, "%s%d", hd->name, n)] *)
Definition part_name (n : Z) : list Z := hd_name ++ digits 32 n 10.

Definition add_prim (ext_lba : Z) (p : partition_table_entry) (s : scan_state) : outcome scan_state :=
  pp ← aset (prim_parts (parts s)) (p_no s)
         (DPart (u32 (ext_lba + pe_start_lba p)) (pe_sec_cnt p) (part_name (p_no s + 1)));
  Ok (ScanState (ext_lba_base s) (u8 (p_no s + 1)) (l_no s) (DiskParts pp (logic_parts (parts s)))
        (partition_list s ++ [Prim channel dev_no (p_no s)]) (hw s) (kheap s) (held s)).

Definition add_logic (ext_lba : Z) (p : partition_table_entry) (s : scan_state) : outcome scan_state :=
  lp ← aset (logic_parts (parts s)) (l_no s)
         (DPart (u32 (ext_lba + pe_start_lba p)) (pe_sec_cnt p) (part_name (l_no s + 5)));
  Ok (ScanState (ext_lba_base s) (p_no s) (u8 (l_no s + 1)) (DiskParts (prim_parts (parts s)) lp)
        (partition_list s ++ [Logic channel dev_no (l_no s)]) (hw s) (kheap s) (held s)).

(** One turn of the loop over the four entries; [scan] is the recursive call, and [true]
    means that the function returns. *)
Definition scan_entry (scan : Z → scan_state → outcome scan_state) (ext_lba : Z) (p : partition_table_entry)
    (s : scan_state) : outcome (bool * scan_state) :=
  if fs_type p =? ext_type then
    s ← (if negb (ext_lba_base s =? 0) then scan (u32 (pe_start_lba p + ext_lba_base s)) s
         else scan (pe_start_lba p) (set_base (i32 (pe_start_lba p)) s));
    Ok (false, s)
  else if negb (fs_type p =? 0) then
    if ext_lba =? 0 then s ← add_prim ext_lba p s; Ok (false, s)
    else s ← add_logic ext_lba p s; Ok (l_no s >=? 8, s)
  else Ok (false, s).

Fixpoint scan_table (scan : Z → scan_state → outcome scan_state) (n : nat) (part_idx : Z) (ext_lba : Z) (bs : list Z)
    (s : scan_state) : outcome (bool * scan_state) :=
  match n with
  | O => Ok (false, s)
  | S n =>
      p ← table_entry bs part_idx;
      '(ret, s) ← scan_entry scan ext_lba p s;
      if ret : bool then Ok (true, s) else scan_table scan n (part_idx + 1) ext_lba bs s
  end.

(** [fuel] bounds the nesting of the calls.  The buffer is not checked against [NULL], and is
    not freed when the function returns from the loop. *)
Fixpoint partition_scan (fuel : nat) (ext_lba : Z) (s : scan_state) : outcome scan_state :=
  match fuel with
  | O => NoFuel
  | S fuel =>
      let '(bs_p, h) := match kheap s with [] => (0, []) | a :: h => (a, h) end in
      if bs_p =? 0 then Fault
      else
        '(bs, x) ← ide_read t dev_no ext_lba 1 (hw s);
        '(ret, s) ← scan_table (partition_scan fuel) 4 0 ext_lba bs (set_hw x (set_mem h (bs_p :: held s) s));
        Ok (if ret : bool then s else set_mem (kheap s) (List.filter (λ a, negb (a =? bs_p)) (held s)) s)
  end.

(** ** Identification *)

(** Bytes in pairs, swapped, and a zero. *)
Fixpoint swap_pairs_bytes (len : nat) (dst buf : list Z) (idx : Z) : outcome (list Z) :=
  match len with
  | S (S len) =>
      a ← aget dst idx;
      b ← aget dst (idx + 1);
      buf ← aset buf (idx + 1) a;
      buf ← aset buf idx b;
      swap_pairs_bytes len dst buf (idx + 2)
  | _ => aset buf idx 0
  end.

(** [junk] is what [buf] holds; the serial number, the model and the number of sectors. *)
Definition identify_disk (junk : list Z) (x : ide) : outcome (list Z * list Z * Z * ide) :=
  x ← cmd_out CMD_IDENTIFY (select_disk dev_no x);
  x ← wait_done t (device_irq x);
  let '(ready, x) := busy_wait x in
  if ready then
    '(id_info, x) ← read_from_sector 1 x;
    sn ← swap_pairs_bytes 20 (drop 20 id_info) junk 0;
    md ← swap_pairs_bytes 40 (drop 54 id_info) (replicate 64 0) 0;
    n ← word_at id_info 120;
    Ok (sn, md, n, x)
  else Panic.

End Scan.

(** ** The initialisation *)

(** [disks] has an element for each drive, two per channel. *)
Record ide_state := IdeState {
  chans : list ide;
  disks : list disk_parts;
  istate : scan_state;
  idt_table : list Z;
}.

(** The name "sda", "sdb", ... *)
Definition drive_name (channel_no dev_no : Z) : list Z := [115; 100; 97 + channel_no * 2 + dev_no].

Definition init_device (fuel : nat) (t : Z) (junk : list Z) (channel_no dev_no : Z) (s : ide_state) : outcome ide_state :=
  x ← aget (chans s) channel_no;
  '(_, _, _, x) ← identify_disk t dev_no junk x;
  d ← aget (disks s) (2 * channel_no + dev_no);
  let i := istate s in
  let i := ScanState (ext_lba_base i) (p_no i) (l_no i) d (partition_list i) x (kheap i) (held i) in
  i ← (if negb (dev_no =? 0) then partition_scan t channel_no dev_no (drive_name channel_no dev_no) fuel 0 i else Ok i);
  cs ← aset (chans s) channel_no (hw i);
  ds ← aset (disks s) (2 * channel_no + dev_no) (parts i);
  Ok (IdeState cs ds (ScanState (ext_lba_base i) 0 0 (parts i) (partition_list i) (hw i) (kheap i) (held i)) (idt_table s)).

Definition init_channel (fuel : nat) (t handler : Z) (junk : list Z) (channel_no : Z) (s : ide_state) : outcome ide_state :=
  x ← aget (chans s) channel_no;
  let '(base, irq) := if channel_no =? 0 then (0x1f0, 0x20 + 14) else (0x170, 0x20 + 15) in
  cs ← aset (chans s) channel_no (Ide (IdeChannel base irq lock_init false (sema_init 0)) (ctl x));
  h ← register_handler (idt_table s) irq handler;
  s ← init_device fuel t junk channel_no 0 (IdeState cs (disks s) (istate s) h);
  init_device fuel t junk channel_no 1 s.

Fixpoint init_channels (n : nat) (fuel : nat) (t handler : Z) (junk : list Z) (channel_no : Z) (s : ide_state) : outcome ide_state :=
  match n with
  | O => Ok s
  | S n => s ← init_channel fuel t handler junk channel_no s; init_channels n fuel t handler junk (channel_no + 1) s
  end.

(** [hd_cnt]: the number of drives the BIOS found; [DIV_ROUND_UP (hd_cnt, 2)] channels. *)
Definition ide_init (hd_cnt : Z) (fuel : nat) (t handler : Z) (junk : list Z) (s : ide_state) : outcome ide_state :=
  let i := istate s in
  let i := ScanState (ext_lba_base i) (p_no i) (l_no i) (parts i) [] (hw i) (kheap i) (held i) in
  init_channels (Z.to_nat (u8 ((hd_cnt + 2 - 1) / 2))) fuel t handler junk 0 (IdeState (chans s) (disks s) i (idt_table s)).

(** ** What the scan finds *)

(** The loop over a list of entries. *)
Fixpoint run_entries (channel dev_no : Z) (hd_name : list Z) (scan : Z → scan_state → outcome scan_state) (ext_lba : Z)
    (es : list partition_table_entry) (s : scan_state) : outcome (bool * scan_state) :=
  match es with
  | [] => Ok (false, s)
  | p :: es =>
      '(ret, s) ← scan_entry channel dev_no hd_name scan ext_lba p s;
      if ret : bool then Ok (true, s) else run_entries channel dev_no hd_name scan ext_lba es s
  end.

Definition entries_at (bs : list Z) (i : Z) (es : list partition_table_entry) : Prop :=
  ∀ j e, es !! j = Some e → table_entry bs (i + Z.of_nat j) = Ok e.

(** The boot record at [lba] has the entries [es]. *)
Definition boot_record (d : disk) (lba : Z) (es : list partition_table_entry) : Prop :=
  0 ≤ lba < 268435455 ∧ length es = 4%nat ∧ ∃ b, d !! lba = Some b ∧ entries_at b 0 es.

Definition unused (p : partition_table_entry) : Prop := fs_type p = 0.
Definition plain (p : partition_table_entry) : Prop := fs_type p ≠ ext_type.
Definition used (p : partition_table_entry) : Prop := fs_type p ≠ 0 ∧ fs_type p ≠ ext_type.

(** The linked boot records of an extended partition that starts at [base]: each has a
    logical partition, and all but the last one link to the next, relative to [base]. *)
Inductive chain (d : disk) (base : Z) : Z → list (Z * partition_table_entry) → Prop :=
| chain_last lba p e1 e2 e3 :
    lba ≠ 0 → boot_record d lba [p; e1; e2; e3] → used p → unused e1 → unused e2 → unused e3 →
    chain d base lba [(lba, p)]
| chain_next lba p q e2 e3 l :
    lba ≠ 0 → boot_record d lba [p; q; e2; e3] → used p → fs_type q = ext_type → unused e2 → unused e3 →
    chain d base (u32 (pe_start_lba q + base)) l →
    chain d base lba ((lba, p) :: l).

Section Found.
Context (t channel dev_no : Z) (hd_name : list Z) (d : disk).

Definition dpart_of (ext_lba : Z) (p : partition_table_entry) (n : Z) : dpart :=
  DPart (u32 (ext_lba + pe_start_lba p)) (pe_sec_cnt p) (part_name hd_name n).

(** The logical partitions of a chain, numbered from 5, and their places in the list. *)
Fixpoint logics (k : Z) (l : list (Z * partition_table_entry)) : list dpart :=
  match l with [] => [] | (lba, p) :: l => dpart_of lba p (k + 5) :: logics (k + 1) l end.
Fixpoint prims (k : Z) (es : list partition_table_entry) : list dpart :=
  match es with
  | [] => []
  | p :: es => if fs_type p =? 0 then prims k es else dpart_of 0 p (k + 1) :: prims (k + 1) es
  end.
Definition refs (f : Z → Z → Z → part_ref) (k : Z) (n : nat) : list part_ref := f channel dev_no <$> seqZ k (Z.of_nat n).

(** The scan has found the primary partitions [pr] and the logical ones [lo]. *)
Record found (pr lo : list dpart) (l : list part_ref) (s : scan_state) : Prop := {
  f_pno : p_no s = zlen pr;
  f_lno : l_no s = zlen lo;
  f_plen : length (prim_parts (parts s)) = 4%nat;
  f_llen : length (logic_parts (parts s)) = 8%nat;
  f_prim : take (length pr) (prim_parts (parts s)) = pr;
  f_logic : take (length lo) (logic_parts (parts s)) = lo;
  f_list : partition_list s = l;
}.

(** The drive can be read, and [n] more buffers can be allocated. *)
Record can_read (n : nat) (s : scan_state) : Prop := {
  cr_idle : idle (hw s);
  cr_disk : media (ctl (hw s)) dev_no = d;
  cr_heap : (n ≤ length (kheap s))%nat;
  cr_null : 0 ∉ kheap s;
}.

Lemma scan_table_list scan ext_lba bs i es s :
  entries_at bs i es →
  scan_table channel dev_no hd_name scan (length es) i ext_lba bs s = run_entries channel dev_no hd_name scan ext_lba es s.
Proof.
  revert i s. induction es as [|p es IH]; intros i s H; [done|]. cbn [length scan_table run_entries].
  pose proof (H 0%nat p eq_refl) as H0. rewrite Z.add_0_r in H0. mrun H0.
  destruct (scan_entry _ _ _ _ _ _ _) as [[ret s1]| | | |]; try done. cbn [mbind outcome_bind]. destruct ret; [done|]. apply IH.
  intros j e Hj. specialize (H (S j) e Hj). by replace (i + Z.of_nat (S j)) with (i + 1 + Z.of_nat j) in H by lia.
Qed.

Lemma run_entries_app scan ext_lba a b s s1 :
  run_entries channel dev_no hd_name scan ext_lba a s = Ok (false, s1) →
  run_entries channel dev_no hd_name scan ext_lba (a ++ b) s = run_entries channel dev_no hd_name scan ext_lba b s1.
Proof.
  revert s. induction a as [|p a IH]; intros s H; cbn [run_entries app] in *; [by injection H as ->|].
  destruct (scan_entry _ _ _ _ _ _ _) as [[ret s2]| | | |]; try done. cbn [mbind outcome_bind] in *. destruct ret; [done|]. by apply IH.
Qed.

Lemma run_unused scan ext_lba es s :
  Forall unused es → run_entries channel dev_no hd_name scan ext_lba es s = Ok (false, s).
Proof.
  induction 1 as [|p es Hp Hes IH]; [done|]. cbn [run_entries]. unfold scan_entry. unfold unused in Hp. rewrite Hp. exact IH.
Qed.

(** Storing at the end of the filled part of an array. *)
Lemma store_next {A} (l : list A) f x n :
  length l = n → take (length f) l = f → (length f < n)%nat →
  ∃ l', aset l (zlen f) x = Ok l' ∧ length l' = n ∧ take (length (f ++ [x])) l' = f ++ [x].
Proof.
  intros HL Ht Hn. rewrite aset_ok by (unfold zlen; lia). eexists. split; [done|]. split; [by rewrite length_insert|].
  unfold zlen. rewrite Nat2Z.id, length_app, Nat.add_1_r. rewrite (take_S_r _ _ x) by (apply list_lookup_insert_eq; lia).
  by rewrite take_insert_ge, Ht.
Qed.

(** The start of a call. *)
Lemma scan_call n fuel lba es s :
  t ≠ 0 → dev_no = 0 ∨ dev_no = 1 → disk_wf d → can_read (S n) s → boot_record d lba es →
  ∃ x a h, partition_scan t channel dev_no hd_name (S fuel) lba s =
    ('(ret, s) ← run_entries channel dev_no hd_name (partition_scan t channel dev_no hd_name fuel) lba es (set_hw x (set_mem h (a :: held s) s));
     Ok (if ret : bool then s else set_mem (kheap s) (List.filter (λ a', negb (a' =? a)) (held s)) s)) ∧
    kheap s = a :: h ∧ can_read n (set_hw x (set_mem h (a :: held s) s)).
Proof.
  intros Ht Hd Hwf [C1 C2 C3 C4] (Hl & HL & b & Hb & Hes). cbn [partition_scan].
  destruct (kheap s) as [|a h] eqn:Eh; [simpl in C3; lia|]. assert (Ha : a ≠ 0) by set_solver. rewrite (proj2 (Z.eqb_neq a 0) Ha).
  assert (Hr : disk_read (media (ctl (hw s)) dev_no) lba (Z.to_nat 1) = Ok b).
  { rewrite C2. change (Z.to_nat 1) with 1%nat. cbn [disk_read]. rewrite Hb. cbn [of_opt mbind outcome_bind]. by rewrite app_nil_r. }
  destruct (ide_read_ok t dev_no lba 1 b (hw s) C1 ltac:(right; lia) Ht Hd ltac:(lia) ltac:(lia) ltac:(lia) ltac:(by rewrite C2) Hr) as (x & Hx & Hi & Hm).
  rewrite Hx. cbn [mbind outcome_bind]. exists x, a, h. split; [|split; [done|]].
  - rewrite <- HL. by rewrite scan_table_list.
  - split; [done| |simpl in *; lia|simpl; set_solver]. destruct Hm as (M1 & M2 & _). unfold media in *. cbn [hw set_hw set_mem]. rewrite M1, M2. exact C2.
Qed.

Lemma found_set pr lo L s x h l : found pr lo L s → found pr lo L (set_hw x (set_mem h l s)).
Proof. by intros []. Qed.

Lemma add_logic_ok pr lo L s lba p :
  found pr lo L s → (length lo < 8)%nat →
  ∃ s', add_logic channel dev_no hd_name lba p s = Ok s' ∧
    found pr (lo ++ [dpart_of lba p (zlen lo + 5)]) (L ++ [Logic channel dev_no (zlen lo)]) s' ∧
    ext_lba_base s' = ext_lba_base s ∧ hw s' = hw s ∧ kheap s' = kheap s.
Proof.
  intros [F1 F2 F3 F4 F5 F6 F7] Hl. unfold add_logic. rewrite F2.
  destruct (store_next (logic_parts (parts s)) lo (dpart_of lba p (zlen lo + 5)) 8 F4 F6 Hl) as (l' & E1 & E2 & E3).
  unfold dpart_of in E1 at 1. mrun E1. eexists. split; [done|]. split; [|done]. split; try done; cbn [p_no l_no parts prim_parts logic_parts partition_list].
  - rewrite zlen_app. change (zlen [_]) with 1. apply u8_small. unfold zlen. lia.
  - by rewrite F7.
Qed.

Lemma add_prim_ok pr lo L s p :
  found pr lo L s → (length pr < 4)%nat →
  ∃ s', add_prim channel dev_no hd_name 0 p s = Ok s' ∧
    found (pr ++ [dpart_of 0 p (zlen pr + 1)]) lo (L ++ [Prim channel dev_no (zlen pr)]) s' ∧
    ext_lba_base s' = ext_lba_base s ∧ hw s' = hw s ∧ kheap s' = kheap s.
Proof.
  intros [F1 F2 F3 F4 F5 F6 F7] Hl. unfold add_prim. rewrite F1.
  destruct (store_next (prim_parts (parts s)) pr (dpart_of 0 p (zlen pr + 1)) 4 F3 F5 Hl) as (l' & E1 & E2 & E3).
  unfold dpart_of in E1 at 1. mrun E1. eexists. split; [done|]. split; [|done]. split; try done; cbn [p_no l_no parts prim_parts logic_parts partition_list].
  - rewrite zlen_app. change (zlen [_]) with 1. apply u8_small. unfold zlen. lia.
  - by rewrite F7.
Qed.

Lemma refs_cons f k n : refs f k (S n) = f channel dev_no k :: refs f (k + 1) n.
Proof. unfold refs. rewrite seqZ_cons by lia. cbn [fmap list_fmap]. by replace (Z.pred (Z.of_nat (S n))) with (Z.of_nat n) by lia. Qed.

Lemma used_entry scan lba p s :
  lba ≠ 0 → used p → scan_entry channel dev_no hd_name scan lba p s
    = (s ← add_logic channel dev_no hd_name lba p s; Ok (l_no s >=? 8, s)).
Proof.
  intros Hl [H1 H2]. unfold scan_entry. by rewrite (proj2 (Z.eqb_neq _ _) H2), (proj2 (Z.eqb_neq _ _) H1), (proj2 (Z.eqb_neq _ _) Hl).
Qed.

Lemma link_entry scan lba q s :
  fs_type q = ext_type → ext_lba_base s ≠ 0 → scan_entry channel dev_no hd_name scan lba q s
    = (s ← scan (u32 (pe_start_lba q + ext_lba_base s)) s; Ok (false, s)).
Proof. intros Hq Hb. unfold scan_entry. rewrite Hq. change (ext_type =? ext_type) with true. by rewrite (proj2 (Z.eqb_neq _ _) Hb). Qed.

Lemma can_read_same n s s' : hw s' = hw s → kheap s' = kheap s → can_read n s → can_read n s'.
Proof. intros E1 E2 [C1 C2 C3 C4]. split; [by rewrite E1|by rewrite E1|by rewrite E2|by rewrite E2]. Qed.

Lemma can_read_less n m s : (m ≤ n)%nat → can_read n s → can_read m s.
Proof. intros H [C1 C2 C3 C4]. split; [done|done|lia|done]. Qed.

Context (Ht : t ≠ 0) (Hd : dev_no = 0 ∨ dev_no = 1) (Hwf : disk_wf d).

(** A chain, up to eight partitions in all. *)
Lemma scan_chain base lba l fuel pr lo L s k :
  chain d base lba l → base ≠ 0 → found pr lo L s → (length lo < 8)%nat → ext_lba_base s = base →
  can_read (length l + k) s → (length l ≤ fuel)%nat →
  let l' := take (8 - length lo) l in
  ∃ s', partition_scan t channel dev_no hd_name fuel lba s = Ok s' ∧
    found pr (lo ++ logics (zlen lo) l') (L ++ refs Logic (zlen lo) (length l')) s' ∧ ext_lba_base s' = base ∧ can_read k s'.
Proof.
  intros Hch Hb0. revert fuel lo L s.
  induction Hch as [lba p e1 e2 e3 H0 Hbr Hp U1 U2 U3|lba p q e2 e3 l H0 Hbr Hp Hq U2 U3 Hch IH]; intros fuel lo L s Hf Hlo Hb Hc Hfu l'.
  all: destruct fuel as [|fuel]; [simpl in Hfu; lia|].
  all: destruct (scan_call _ fuel lba _ s Ht Hd Hwf Hc Hbr) as (x & a & h & Hcall & Hk & Hc1); rewrite Hcall; clear Hcall.
  all: apply (found_set _ _ _ _ x h (a :: held s)) in Hf; revert Hf Hc1; set (s1 := set_hw x (set_mem h (a :: held s) s)); intros Hf Hc1.
  all: assert (Hb1 : ext_lba_base s1 = base) by exact Hb; clearbody s1; clear Hk Hc Hb.
  all: cbn [run_entries]; rewrite used_entry by done.
  all: destruct (add_logic_ok pr lo L s1 lba p Hf Hlo) as (s2 & -> & Hf2 & B2 & W2 & K2); cbn [mbind outcome_bind].
  all: pose proof (f_lno _ _ _ _ Hf2) as Hl2; rewrite zlen_app in Hl2; change (zlen [_]) with 1 in Hl2.
  all: destruct (8 - length lo)%nat as [|m] eqn:Em; [lia|].
  - (* the last record *)
    unfold l'. cbn [take length]. rewrite take_nil. cbn [logics length]. rewrite refs_cons. unfold refs. cbn [seqZ fmap list_fmap Z.of_nat].
    destruct (l_no s2 >=? 8); cbn [mbind outcome_bind].
    + exists s2. split; [done|]. split; [done|]. split; [congruence|]. eapply can_read_same; [exact W2|exact K2|exact Hc1].
    + pose proof (run_unused (partition_scan t channel dev_no hd_name fuel) lba [e1; e2; e3] s2) as Hru. cbn [run_entries] in Hru.
      rewrite Hru by (by repeat constructor). cbn [mbind outcome_bind]. eexists. split; [done|].
      split; [by destruct Hf2|]. split; [cbn; congruence|]. eapply can_read_same; [exact W2|exact K2|exact Hc1].
  - (* a record that links to the next *)
    unfold l'. cbn [take length logics]. rewrite refs_cons. destruct (l_no s2 >=? 8) eqn:E8; zbool; cbn [mbind outcome_bind].
    + assert (m = 0%nat) as -> by (unfold zlen in *; lia). exists s2. split; [done|]. split; [exact Hf2|]. split; [congruence|].
      eapply can_read_same; [exact W2|exact K2|]. apply (can_read_less (length l + k)); [lia|exact Hc1].
    + rewrite (link_entry _ lba q) by (done || congruence). rewrite B2, Hb1.
      destruct (IH fuel _ _ s2 Hf2) as (s3 & -> & Hf3 & B3 & C3).
      * rewrite length_app. simpl. unfold zlen in *. lia.
      * congruence.
      * eapply can_read_same; [exact W2|exact K2|exact Hc1].
      * simpl in Hfu. lia.
      * cbn [mbind outcome_bind]. pose proof (run_unused (partition_scan t channel dev_no hd_name fuel) lba [e2; e3] s3) as Hru. cbn [run_entries] in Hru.
        rewrite Hru by (by repeat constructor). cbn [mbind outcome_bind]. eexists. split; [done|].
        rewrite length_app, zlen_app in Hf3. change (zlen [_]) with 1 in Hf3. rewrite <- !app_assoc in Hf3. cbn [app length] in Hf3.
        replace (8 - (length lo + 1))%nat with m in Hf3 by lia. split; [by destruct Hf3|]. split; [done|]. by destruct C3.
Qed.

(** The primary partitions of a list of entries. *)
Lemma scan_prims scan es pr lo L s :
  Forall plain es → found pr lo L s → (length pr + length es ≤ 4)%nat →
  ∃ s', run_entries channel dev_no hd_name scan 0 es s = Ok (false, s') ∧
    found (pr ++ prims (zlen pr) es) lo (L ++ refs Prim (zlen pr) (length (prims (zlen pr) es))) s' ∧
    ext_lba_base s' = ext_lba_base s ∧ hw s' = hw s ∧ kheap s' = kheap s.
Proof.
  intros Hes. revert pr L s. induction Hes as [|p es Hp Hes IH]; intros pr L s Hf Hn.
  { exists s. split; [done|]. cbn [prims length]. rewrite app_nil_r. unfold refs. cbn. by rewrite app_nil_r. }
  cbn [run_entries prims]. unfold scan_entry at 1. unfold plain in Hp. rewrite (proj2 (Z.eqb_neq _ _) Hp). cbn [length] in Hn.
  destruct (fs_type p =? 0) eqn:E0; cbn [negb].
  - cbn [mbind outcome_bind]. apply IH; [done|lia].
  - change (0 =? 0) with true. cbn iota. destruct (add_prim_ok pr lo L s p Hf) as (s1 & -> & Hf1 & B1 & W1 & K1); [lia|]. cbn [mbind outcome_bind].
    destruct (IH _ _ s1 Hf1) as (s2 & -> & Hf2 & B2 & W2 & K2); [rewrite length_app; simpl; lia|]. exists s2. split; [done|].
    rewrite zlen_app in Hf2. change (zlen [_]) with 1 in Hf2. rewrite <- !app_assoc in Hf2. cbn [app length] in *. rewrite refs_cons. split; [done|]. split; [congruence|]. split; congruence.
Qed.
End Found.

Lemma prims_app hd_name k a b :
  prims hd_name k (a ++ b) = prims hd_name k a ++ prims hd_name (k + zlen (prims hd_name k a)) b.
Proof.
  revert k. induction a as [|p a IH]; intros k; cbn [app prims]; [by rewrite Z.add_0_r|]. destruct (fs_type p =? 0); [apply IH|].
  rewrite IH. cbn [app]. rewrite zlen_cons. by replace (k + (zlen (prims hd_name (k + 1) a) + 1)) with (k + 1 + zlen (prims hd_name (k + 1) a)) by lia.
Qed.

Lemma length_prims hd_name k es : (length (prims hd_name k es) ≤ length es)%nat.
Proof.
  revert k. induction es as [|p es IH]; intros k; cbn [prims length]; [lia|].
  destruct (fs_type p =? 0); [specialize (IH k)|specialize (IH (k + 1)); cbn [length]]; lia.
Qed.

(** The entry of the extended partition in the first boot record, if there is one, and the
    logical partitions in it. *)
Definition extended (d : disk) (ext : list partition_table_entry) (l : list (Z * partition_table_entry)) : Prop :=
  (ext = [] ∧ l = []) ∨
  ∃ q, ext = [q] ∧ fs_type q = ext_type ∧ 0 < pe_start_lba q < 2147483648 ∧ chain d (pe_start_lba q) (pe_start_lba q) l.


(** [partition_scan] does not terminate on a cycle.  When a boot record behind the first has no
    partition of its own and links to itself, no number of nested calls is enough. *)
Theorem partition_scan_cycle t channel dev_no hd_name d lba e0 q e2 e3 fuel s :
  t ≠ 0 → dev_no = 0 ∨ dev_no = 1 → disk_wf d → boot_record d lba [e0; q; e2; e3] → unused e0 → fs_type q = ext_type →
  ext_lba_base s ≠ 0 → u32 (pe_start_lba q + ext_lba_base s) = lba → can_read dev_no d fuel s →
  partition_scan t channel dev_no hd_name fuel lba s = NoFuel.
Proof.
  intros Ht Hd Hwf Hbr U0 Hq. revert s. induction fuel as [|fuel IH]; intros s Hb Hs Hc; [done|].
  destruct (scan_call t channel dev_no hd_name d fuel fuel lba _ s Ht Hd Hwf Hc Hbr) as (x & a & h & -> & _ & Hc1).
  pose proof (run_unused channel dev_no hd_name (partition_scan t channel dev_no hd_name fuel) lba [e0]
    (set_hw x (set_mem h (a :: held s) s)) ltac:(by repeat constructor)) as H0.
  change [e0; q; e2; e3] with ([e0] ++ [q; e2; e3]). rewrite (run_entries_app _ _ _ _ _ [e0] [q; e2; e3] _ _ H0). cbn [run_entries]. rewrite (link_entry _ _ _ _ lba q) by done.
  change (ext_lba_base (set_hw x (set_mem h (a :: held s) s))) with (ext_lba_base s). rewrite Hs, IH by done. done.
Qed.

(** ** A small drive *)

Definition entry_bytes (p : partition_table_entry) : list Z :=
  [0; 0; 0; 0; fs_type p; 0; 0; 0] ++ le32 (pe_start_lba p) ++ le32 (pe_sec_cnt p).

Definition record_bytes (es : list partition_table_entry) : list Z := replicate 446 0 ++ (es ≫= entry_bytes) ++ [0x55; 0xaa].

Definition none : partition_table_entry := PartEntry 0 0 0.

(** A primary partition, an extended one at 100 with two logical ones, and a link to itself at 200. *)
Definition demo_mbr : list partition_table_entry := [PartEntry 0x83 1 50; PartEntry 5 100 200; none; none].
Definition demo_ebr1 : list partition_table_entry := [PartEntry 0x66 1 40; PartEntry 5 50 50; none; none].
Definition demo_ebr2 : list partition_table_entry := [PartEntry 0x66 1 30; none; none; none].
Definition demo_loop : list partition_table_entry := [none; PartEntry 5 100 50; none; none].
Definition demo_drive : disk :=
  {[ 0 := record_bytes demo_mbr; 100 := record_bytes demo_ebr1; 150 := record_bytes demo_ebr2; 200 := record_bytes demo_loop ]}.

Lemma demo_drive_wf : disk_wf demo_drive.
Proof.
  unfold demo_drive, disk_wf. repeat (apply map_Forall_insert_2; [split; [reflexivity|by apply (bool_decide_eq_true_1 (Forall _ _)); vm_compute]|]).
  apply map_Forall_empty.
Qed.

Lemma demo_record lba es :
  0 ≤ lba < 268435455 → length es = 4%nat → demo_drive !! lba = Some (record_bytes es) →
  forallb (λ j, match table_entry (record_bytes es) (Z.of_nat j), es !! j with
                | Ok e, Some e' => (fs_type e =? fs_type e') && (pe_start_lba e =? pe_start_lba e') && (pe_sec_cnt e =? pe_sec_cnt e')
                | _, _ => false end) [0; 1; 2; 3]%nat = true → boot_record demo_drive lba es.
Proof.
  intros Hl HL Hb H. split; [done|]. split; [done|]. exists (record_bytes es). split; [done|]. intros j e Hj.
  pose proof (lookup_lt_Some _ _ _ Hj) as Hlt. rewrite forallb_forall in H. specialize (H j). rewrite Z.add_0_l.
  assert (Hin : In j [0; 1; 2; 3]%nat) by (simpl; lia). specialize (H Hin). rewrite Hj in H.
  destruct (table_entry (record_bytes es) (Z.of_nat j)) as [[a b c]| | | |]; try done. destruct e as [a' b' c']. simpl in H. zbool. by subst.
Qed.

Definition demo_scan : scan_state :=
  ScanState 0 0 0 (DiskParts (replicate 4 (DPart 0 0 [])) (replicate 8 (DPart 0 0 []))) []
    (Ide (IdeChannel 0x1f0 0x2e lock_init false (sema_init 0)) (Controller 0 0 0 0 0 0 [3]%nat 1 XNone [] ∅ demo_drive))
    [0xc0300000; 0xc0300200; 0xc0300400] [].


Lemma partition_scan_cycle_witness :
  partition_scan 0x1000 0 1 [115; 100; 98] 3 200 (set_base 100 demo_scan) = NoFuel.
Proof.
  apply (partition_scan_cycle 0x1000 0 1 [115; 100; 98] demo_drive 200 none (PartEntry 5 100 50) none none 3).
  - discriminate.
  - right. reflexivity.
  - exact demo_drive_wf.
  - apply demo_record; [lia|reflexivity|reflexivity|vm_compute; reflexivity].
  - reflexivity.
  - reflexivity.
  - discriminate.
  - reflexivity.
  - split; [|reflexivity|simpl; lia|set_solver]. split; [reflexivity|]. split; [split; reflexivity|]. split_and!; [reflexivity | reflexivity | repeat constructor].
Defined.
