(* ===== verification/FsState.v ===== *)
(** * The state of the file system, and its block and inode allocators

    The mounted partition ([cur_part]: super block, the two bitmaps in memory,
    the list of open inodes), the disk below it, and the kernel objects the file
    system works on: inodes and directories in the kernel heap by address, the
    system-wide [file_table], the descriptor table and the working directory of
    the running thread, the pipes' ring buffers, and the screen.

    The heap is an interface: [heap] lists the addresses that the calls of
    [sys_malloc] and [get_kernel_pages] to come return (0, and the end of the
    list, stand for [NULL]).  An access through a pointer that is not the address
    of a live object is a [Fault].  (When a process makes the call, [sys_malloc]
    works in the process's own heap; what that does to its pages and its PCB is
    in HeapPages.v and not in this state.)

    [screen] and [ioqs] hold the text that the calls put out for the program.
    The trace messages that the file system prints on its way (fs/file.c:346 and
    391, fs/inode.c:55 and 61, fs/dir.c:214, kernel/memory.c:141, and the
    messages of error paths) are not modelled: a theorem that goes through such a
    function says nothing about the output, and [mute] states equality up to it.
    The circular list [open_inodes] is the list
    of its elements (KList.v shows that the list operations behave so). *)

From S2P Require Import Prelude Bitmap Sync IoQueue Disk.

(** ** Data *)

(** device/ide.h, struct partition ([my_disk] is the disk of the state). *)
Record partition := Partition {
  start_lba : Z;
  sec_cnt : Z;
  sb : super_block;
  block_bitmap : bitmap;
  inode_bitmap : bitmap;
  open_inodes : list Z;
}.

(** fs/file.h, struct file: [fd_inode] is a pointer. *)
Record file := File { fd_pos : Z; fd_flag : Z; fd_inode : Z }.

(** fs/dir.h, struct dir *)
Record dir := Dir { dinode : Z; dir_pos : Z; dir_buf : list Z }.

Definition MAX_FILE_OPEN : Z := 32.
Definition MAX_FILES_OPEN_PER_PROC : Z := 8.

Record fs := Fs {
  dsk : disk;
  part : partition;
  inodes : gmap Z inode;
  dirs : gmap Z dir;
  file_table : list file;
  fd_table : list Z;
  cwd_inode_nr : Z;
  ioqs : gmap Z ioqueue;
  kbd_queue : ioqueue;
  screen : list Z;
  heap : list Z;
}.

(** The address of the static [root_dir]; it is not a heap address. *)
Definition ROOT_DIR : Z := 0xc0009000.

(** ** Updates *)

Definition set_dsk (x : disk) (s : fs) : fs :=
  Fs x (part s) (inodes s) (dirs s) (file_table s) (fd_table s) (cwd_inode_nr s) (ioqs s)
    (kbd_queue s) (screen s) (heap s).
Definition set_part (x : partition) (s : fs) : fs :=
  Fs (dsk s) x (inodes s) (dirs s) (file_table s) (fd_table s) (cwd_inode_nr s) (ioqs s)
    (kbd_queue s) (screen s) (heap s).
Definition set_inodes (x : gmap Z inode) (s : fs) : fs :=
  Fs (dsk s) (part s) x (dirs s) (file_table s) (fd_table s) (cwd_inode_nr s) (ioqs s)
    (kbd_queue s) (screen s) (heap s).
Definition set_dirs (x : gmap Z dir) (s : fs) : fs :=
  Fs (dsk s) (part s) (inodes s) x (file_table s) (fd_table s) (cwd_inode_nr s) (ioqs s)
    (kbd_queue s) (screen s) (heap s).
Definition set_file_table (x : list file) (s : fs) : fs :=
  Fs (dsk s) (part s) (inodes s) (dirs s) x (fd_table s) (cwd_inode_nr s) (ioqs s)
    (kbd_queue s) (screen s) (heap s).
Definition set_fd_table (x : list Z) (s : fs) : fs :=
  Fs (dsk s) (part s) (inodes s) (dirs s) (file_table s) x (cwd_inode_nr s) (ioqs s)
    (kbd_queue s) (screen s) (heap s).
Definition set_cwd (x : Z) (s : fs) : fs :=
  Fs (dsk s) (part s) (inodes s) (dirs s) (file_table s) (fd_table s) x (ioqs s)
    (kbd_queue s) (screen s) (heap s).
Definition set_ioqs (x : gmap Z ioqueue) (s : fs) : fs :=
  Fs (dsk s) (part s) (inodes s) (dirs s) (file_table s) (fd_table s) (cwd_inode_nr s) x
    (kbd_queue s) (screen s) (heap s).
Definition set_kbd (x : ioqueue) (s : fs) : fs :=
  Fs (dsk s) (part s) (inodes s) (dirs s) (file_table s) (fd_table s) (cwd_inode_nr s) (ioqs s)
    x (screen s) (heap s).
Definition set_screen (x : list Z) (s : fs) : fs :=
  Fs (dsk s) (part s) (inodes s) (dirs s) (file_table s) (fd_table s) (cwd_inode_nr s) (ioqs s)
    (kbd_queue s) x (heap s).
Definition set_heap (x : list Z) (s : fs) : fs :=
  Fs (dsk s) (part s) (inodes s) (dirs s) (file_table s) (fd_table s) (cwd_inode_nr s) (ioqs s)
    (kbd_queue s) (screen s) x.

(** The state without its output. *)
Definition mute (s : fs) : fs := set_screen [] (set_ioqs ∅ s).

Definition set_block_bitmap (b : bitmap) (p : partition) : partition :=
  Partition (start_lba p) (sec_cnt p) (sb p) b (inode_bitmap p) (open_inodes p).
Definition set_inode_bitmap (b : bitmap) (p : partition) : partition :=
  Partition (start_lba p) (sec_cnt p) (sb p) (block_bitmap p) b (open_inodes p).
Definition set_open (l : list Z) (p : partition) : partition :=
  Partition (start_lba p) (sec_cnt p) (sb p) (block_bitmap p) (inode_bitmap p) l.

(** ** The heap *)

(** [sys_malloc]: the address it returns. *)
Definition kmalloc (s : fs) : Z * fs :=
  match heap s with
  | [] => (0, s)
  | a :: rest => (a, set_heap rest s)
  end.

(** ** Pointers *)

Definition get_inode (a : Z) (s : fs) : outcome inode := of_opt (inodes s !! a).
Definition put_inode (a : Z) (i : inode) (s : fs) : outcome fs :=
  _ ← get_inode a s; Ok (set_inodes (<[a := i]> (inodes s)) s).
Definition get_dir (a : Z) (s : fs) : outcome dir := of_opt (dirs s !! a).

Definition with_size (n : Z) (i : inode) : inode :=
  Inode (i_no i) n (i_open_cnts i) (write_deny i) (i_sectors i).
Definition with_cnts (n : Z) (i : inode) : inode :=
  Inode (i_no i) (i_size i) n (write_deny i) (i_sectors i).
Definition with_deny (b : bool) (i : inode) : inode :=
  Inode (i_no i) (i_size i) (i_open_cnts i) b (i_sectors i).
Definition with_sectors (l : list Z) (i : inode) : inode :=
  Inode (i_no i) (i_size i) (i_open_cnts i) (write_deny i) l.

(** ** The allocators (fs/file.c) *)

Definition inode_bitmap_alloc (s : fs) : outcome (Z * fs) :=
  bit_idx ← bitmap_scan (inode_bitmap (part s)) 1;
  if bit_idx =? -1 then Ok (-1, s)
  else
    b ← bitmap_set (inode_bitmap (part s)) bit_idx 1;
    Ok (bit_idx, set_part (set_inode_bitmap b (part s)) s).

Definition block_bitmap_alloc (s : fs) : outcome (Z * fs) :=
  bit_idx ← bitmap_scan (block_bitmap (part s)) 1;
  if bit_idx =? -1 then Ok (-1, s)
  else
    b ← bitmap_set (block_bitmap (part s)) bit_idx 1;
    Ok (i32 (data_start_lba (sb (part s)) + bit_idx), set_part (set_block_bitmap b (part s)) s).

Inductive bitmap_type := INODE_BITMAP | BLOCK_BITMAP.

(** The sector of the bitmap that holds [bit_idx] is written to the disk. *)
Definition bitmap_sync (bit_idx : Z) (btmp : bitmap_type) (s : fs) : outcome fs :=
  let off_sec := u32 bit_idx / 4096 in
  let off_size := off_sec * BLOCK_SIZE in
  let '(sec_lba, bitmap_off) :=
    match btmp with
    | INODE_BITMAP => (u32 (inode_bitmap_lba (sb (part s)) + off_sec),
                       drop (Z.to_nat off_size) (bits (inode_bitmap (part s))))
    | BLOCK_BITMAP => (u32 (block_bitmap_lba (sb (part s)) + off_sec),
                       drop (Z.to_nat off_size) (bits (block_bitmap (part s))))
    end in
  d ← disk_write (dsk s) sec_lba bitmap_off 1;
  Ok (set_dsk d s).

(** [bitmap_set] of the block bitmap and of the inode bitmap. *)
Definition block_bitmap_set (bit_idx v : Z) (s : fs) : outcome fs :=
  b ← bitmap_set (block_bitmap (part s)) bit_idx v;
  Ok (set_part (set_block_bitmap b (part s)) s).
Definition inode_bitmap_set (bit_idx v : Z) (s : fs) : outcome fs :=
  b ← bitmap_set (inode_bitmap (part s)) bit_idx v;
  Ok (set_part (set_inode_bitmap b (part s)) s).

(** [bitmap_sync] of the block just allocated. *)
Definition sync_block (block_lba : Z) (s : fs) : outcome fs :=
  bitmap_sync (u32 (block_lba - data_start_lba (sb (part s)))) BLOCK_BITMAP s.

(** ** Well-formedness of the mounted partition *)

(** The areas of the partition follow each other on the disk (block bitmap,
    inode bitmap, inode table, data), the disk holds all of them, and the bitmap
    in memory has a bit for every data block, with one readable byte behind it. *)
Record fs_wf (s : fs) : Prop := {
  fw_disk : disk_wf (dsk s);
  fw_bb0 : 0 ≤ block_bitmap_lba (sb (part s));
  fw_bb : block_bitmap_lba (sb (part s)) + block_bitmap_sects (sb (part s))
            ≤ inode_bitmap_lba (sb (part s));
  fw_ib : inode_bitmap_lba (sb (part s)) + 1 ≤ inode_table_lba (sb (part s));
  fw_it : inode_table_lba (sb (part s)) + 608 ≤ data_start_lba (sb (part s));
  fw_end : data_start_lba (sb (part s)) + nbits (block_bitmap (part s)) < 2147483648;
  fw_sectors : ∀ k, block_bitmap_lba (sb (part s)) ≤ k
     < data_start_lba (sb (part s)) + nbits (block_bitmap (part s)) → is_Some (dsk s !! k);
  fw_bitmap : bitmap_wf (block_bitmap (part s));
  fw_len : btmp_bytes_len (block_bitmap (part s)) = 512 * block_bitmap_sects (sb (part s));
  fw_slack : btmp_bytes_len (block_bitmap (part s)) < zlen (bits (block_bitmap (part s)));
}.

(** [lba] is a data block that the bitmap has in use. *)
Definition in_use (s : fs) (lba : Z) : Prop :=
  let k := lba - data_start_lba (sb (part s)) in
  0 ≤ k < nbits (block_bitmap (part s)) ∧ bit_set (block_bitmap (part s)) k = true.

(** [s'] is [s] with other bits in the block bitmap, in memory and on the disk:
    the disk differs in the sectors of the block bitmap only. *)
Definition bitmap_area_changed (s s' : fs) : Prop :=
  ∃ d b, s' = set_dsk d (set_part (set_block_bitmap b (part s)) s) ∧
    nbits b = nbits (block_bitmap (part s)) ∧
    ∀ k, inode_bitmap_lba (sb (part s)) ≤ k → d !! k = dsk s !! k.

Lemma area_refl s : bitmap_area_changed s s.
Proof.
  exists (dsk s), (block_bitmap (part s)). split_and!; try done. by destruct s as [? [] ? ? ? ? ? ? ? ? ?].
Qed.

Lemma area_trans s1 s2 s3 :
  bitmap_area_changed s1 s2 → bitmap_area_changed s2 s3 → bitmap_area_changed s1 s3.
Proof.
  intros (d & b & -> & Hb & Hd) (d' & b' & -> & Hb' & Hd'). simpl in *.
  exists d', b'. split_and!; [done | congruence |]. intros k Hk. by rewrite Hd', Hd.
Qed.

Lemma set_block_wf s b :
  fs_wf s → bitmap_wf b → btmp_bytes_len b = btmp_bytes_len (block_bitmap (part s)) →
  zlen (bits b) = zlen (bits (block_bitmap (part s))) →
  fs_wf (set_part (set_block_bitmap b (part s)) s).
Proof.
  intros [] Hb HL HZ. unfold nbits in *. split; simpl; unfold nbits; rewrite ?HL, ?HZ; done.
Qed.

Lemma block_alloc_ok s :
  fs_wf s →
  (block_bitmap_alloc s = Ok (-1, s) ∧
   ∀ k, 0 ≤ k < nbits (block_bitmap (part s)) → bit_set (block_bitmap (part s)) k = true)
  ∨ ∃ k s', block_bitmap_alloc s = Ok (data_start_lba (sb (part s)) + k, s') ∧
      0 ≤ k < nbits (block_bitmap (part s)) ∧ bit_set (block_bitmap (part s)) k = false ∧
      fs_wf s' ∧ bitmap_area_changed s s' ∧ dsk s' = dsk s ∧
      ∀ j, 0 ≤ j → bit_set (block_bitmap (part s')) j
                   = bool_decide (j = k) || bit_set (block_bitmap (part s)) j.
Proof.
  intros Hwf. pose proof Hwf as [Hd Hb0 Hbb Hib Hit He Hs Hb Hl Hsl].
  destruct (bitmap_scan_any (block_bitmap (part s)) 1 Hb Hsl) as (r & Hr & Hfit); [lia|].
  change (1 =? 1) with true in Hfit. cbn iota in Hfit.
  unfold block_bitmap_alloc. mrun Hr. destruct Hfit as [[-> Hno] | (H0 & Hhi & Hrun & Hlow)].
  - left. split; [done|]. intros k Hk. specialize (Hno k ltac:(lia) ltac:(lia)).
    rewrite clear_run_one in Hno. by destruct (bit_set _ k).
  - right. apply clear_run_one in Hrun. rewrite (proj2 (Z.eqb_neq r (-1))) by lia.
    assert (Hn : nbits (block_bitmap (part s)) ≤ 8 * zlen (bits (block_bitmap (part s)))) by (unfold nbits; lia).
    destruct (bitmap_set_ok (block_bitmap (part s)) r 1 Hb) as (b' & Hb' & Hwf' & HL & HZ & Hbits); [lia|].
    mrun Hb'. eexists r, _. rewrite i32_small by (pose proof (wf_len _ Hb); lia). split; [done|].
    split_and!; [lia | lia | done | by apply set_block_wf | | done |].
    + exists (dsk s), b'. split_and!; try done. unfold nbits. by rewrite HL.
    + intros j Hj. simpl. rewrite Hbits by done.
      destruct (decide (j = r)); [rewrite bool_decide_true | rewrite bool_decide_false]; done.
Qed.

Lemma block_sync_ok s k :
  fs_wf s → 0 ≤ k < nbits (block_bitmap (part s)) →
  ∃ s', bitmap_sync k BLOCK_BITMAP s = Ok s' ∧ fs_wf s' ∧ bitmap_area_changed s s' ∧
        part s' = part s.
Proof.
  intros Hwf Hk. pose proof Hwf as [Hd Hb0 Hbb Hib Hit He Hs Hb Hl Hsl].
  pose proof (wf_small _ Hb). unfold nbits in *.
  unfold bitmap_sync, BLOCK_SIZE, SECTOR_SIZE. rewrite (u32_small k) by lia.
  rewrite u32_small by zdm.
  set (lba := block_bitmap_lba (sb (part s)) + k / 4096).
  assert (Hlba : block_bitmap_lba (sb (part s)) ≤ lba < inode_bitmap_lba (sb (part s))) by (unfold lba; zdm).
  set (bf := drop _ _).
  assert (Hbf : 512 ≤ zlen bf).
  { unfold bf, zlen in *. rewrite length_drop. unfold lba in Hlba. zdm. }
  rewrite disk_write_one; [|apply Hs; lia|done]. cbn [mbind outcome_bind].
  eexists. split; [done|]. split_and!; [|exists (<[lba := take 512 bf]> (dsk s)), (block_bitmap (part s))|done].
  - split; simpl; try done.
    + apply disk_wf_insert; [done | rewrite length_take; unfold zlen in *; lia |].
      apply Forall_take, Forall_drop, Hb.
    + intros j Hj. destruct (decide (j = lba)) as [->|]; simplify_map_eq; [by eexists | by apply Hs].
  - split_and!; [by destruct s as [? [] ? ? ? ? ? ? ? ? ?] | done |].
    intros j Hj. rewrite lookup_insert_ne by lia. done.
Qed.


(** [s] with another disk, block bitmap and inode memory. *)
Definition upd (d : disk) (b : bitmap) (m : gmap Z inode) (s : fs) : fs :=
  set_dsk d (set_part (set_block_bitmap b (part s)) (set_inodes m s)).

(** ** Allocation *)

Definition bitmap_full (s : fs) : Prop :=
  ∀ k, 0 ≤ k < nbits (block_bitmap (part s)) → bit_set (block_bitmap (part s)) k = true.

(** The data, the table and the inode bitmap area are the same. *)
Definition same_above (s : fs) (d : disk) : Prop :=
  ∀ k, inode_bitmap_lba (sb (part s)) ≤ k → d !! k = dsk s !! k.

(** One allocation with its [bitmap_sync]; the inodes [m] may change in between. *)
Lemma take_block s :
  fs_wf s →
  (block_bitmap_alloc s = Ok (-1, s) ∧ bitmap_full s) ∨
  ∃ lba b, block_bitmap_alloc s = Ok (lba, upd (dsk s) b (inodes s) s) ∧
    0 < lba < 2147483648 ∧ ¬ in_use s lba ∧
    (∀ x d m, in_use (upd d b m s) x ↔ x = lba ∨ in_use s x) ∧
    (∀ m, fs_wf (upd (dsk s) b m s)) ∧
    (∀ m, ∃ d, sync_block lba (upd (dsk s) b m s) = Ok (upd d b m s) ∧
            fs_wf (upd d b m s) ∧ same_above s d).
Proof.
  intros Hwf. pose proof (wf_len _ (fw_bitmap _ Hwf)). pose proof Hwf as [Hd Hb0 Hbb Hib Hit He Hs Hb Hl Hsl].
  destruct (block_alloc_ok s Hwf) as [?|(k & s' & Ha & Hk & Hc & Hwf' & (d & b & -> & Hn & Hdd) & Hds & Hbits)];
    [by left|right].
  simpl in Hds. subst d. exists (data_start_lba (sb (part s)) + k), b.
  assert (Hwfm : ∀ m, fs_wf (upd (dsk s) b m s)) by (intros m; destruct Hwf'; by split).
  split_and!; [rewrite Ha; by destruct s as [? [] ? ? ? ? ? ? ? ? ?] | lia | lia | | | done |].
  - intros [_ Hu]. replace (_ - _) with k in Hu by lia. congruence.
  - intros x d m. unfold in_use. simpl. rewrite Hn. simpl in Hbits.
    split.
    + intros [Hr Hset]. rewrite Hbits in Hset by lia. apply orb_true_iff in Hset as [H1|H1].
      * apply bool_decide_eq_true in H1. left. lia.
      * by right.
    + intros [-> | [Hr Hset]].
      * replace (_ - _) with k by lia. split; [lia|]. rewrite Hbits by lia. by rewrite bool_decide_true.
      * split; [done|]. rewrite Hbits by lia. rewrite Hset. apply orb_true_r.
  - intros m. unfold sync_block. simpl.
    replace (data_start_lba (sb (part s)) + k - data_start_lba (sb (part s))) with k by lia.
    rewrite u32_small by lia.
    destruct (block_sync_ok (upd (dsk s) b m s) k (Hwfm m)) as (s2 & Hs2 & Hwf2 & (d2 & b2 & -> & _ & Hd2) & Hp).
    { simpl. rewrite Hn. lia. }
    simpl in Hp, Hd2. injection Hp as ->. exists d2. by split_and!.
Qed.

Lemma same_above_trans s d1 b m d2 :
  same_above s d1 → same_above (upd d1 b m s) d2 → same_above s d2.
Proof. intros H1 H2 k Hk. rewrite (H2 k Hk). by apply H1. Qed.

Lemma in_use_sector s x : fs_wf s → in_use s x → 0 < x < 2147483648 ∧ data_start_lba (sb (part s)) ≤ x ∧ ∃ sec,
  dsk s !! x = Some sec ∧ length sec = 512%nat ∧ Forall (λ y, 0 ≤ y < 256) sec.
Proof.
  intros Hwf [Hk _]. pose proof (wf_len _ (fw_bitmap _ Hwf)).
  pose proof Hwf as [Hd Hb0 Hbb Hib Hit He Hs Hb Hl Hsl].
  destruct (Hs x) as [sec Hsec]; [lia|]. destruct (Hd _ _ Hsec). split_and!; try lia. by exists sec.
Qed.

Lemma in_use_above s x : fs_wf s → in_use s x → inode_bitmap_lba (sb (part s)) ≤ x.
Proof. intros [] [Hk _]. lia. Qed.

Lemma upd_self s : upd (dsk s) (block_bitmap (part s)) (inodes s) s = s.
Proof. by destruct s as [? [] ? ? ? ? ? ? ? ? ?]. Qed.

Lemma put_inode_ok a i j s :
  inodes s !! a = Some i → put_inode a j s = Ok (set_inodes (<[a := j]> (inodes s)) s).
Proof. intros H. unfold put_inode, get_inode. by rewrite H. Qed.

(** Well-formedness needs the partition and the sectors only. *)
Lemma fs_wf_frame s s' :
  fs_wf s → part s' = part s → disk_wf (dsk s') →
  (∀ k, is_Some (dsk s !! k) → is_Some (dsk s' !! k)) → fs_wf s'.
Proof. intros [] Hp Hd Hk. split; rewrite ?Hp; auto. Qed.

Lemma fs_wf_write s s' lba sec :
  fs_wf s → part s' = part s → dsk s' = <[lba := sec]> (dsk s) → length sec = 512%nat →
  Forall (λ y, 0 ≤ y < 256) sec → fs_wf s'.
Proof.
  intros Hwf Hp Hd HL HF. apply (fs_wf_frame s); [done | done | |]; rewrite Hd.
  - apply disk_wf_insert; [apply Hwf | done | done].
  - intros k Hk. destruct (decide (k = lba)) as [->|]; simplify_map_eq; [by eexists | done].
Qed.

(** ** A small mounted partition *)

Definition demo_sb : super_block :=
  SuperBlock 0x19590318 4708 4096 0 2 1 3 1 4 608 612 0 24.

(** Only the root directory's block (612) is in use. *)
Definition demo_fs : fs :=
  Fs (blank_disk 4708 0)
    (Partition 0 4708 demo_sb (Bitmap 512 (1 :: replicate 512 0)) (Bitmap 512 (1 :: replicate 512 0)) [])
    ∅ ∅ (replicate 32 (File 0 0 0)) [0; 1; 2; -1; -1; -1; -1; -1] 0 ∅
    (ioqueue_init (IoQueue lock_init 0 0 (replicate 64 0) 0 0)) []
    [0xc0101000; 0xc0102000; 0xc0103000; 0xc0104000; 0xc0105000; 0xc0106000].

Lemma demo_wf : fs_wf demo_fs.
Proof.
  split.
  - apply blank_disk_wf. lia.
  - cbn [part demo_fs]. vm_compute. discriminate.
  - cbn [part demo_fs]. vm_compute. discriminate.
  - cbn [part demo_fs]. vm_compute. discriminate.
  - cbn [part demo_fs]. vm_compute. discriminate.
  - cbn [part demo_fs]. vm_compute. reflexivity.
  - intros k Hk. change (2 ≤ k < 4708) in Hk. apply (blank_disk_sectors 4708 0 0 4708); lia.
  - cbn [part demo_fs]. apply bitmap_wf_dec. vm_compute. reflexivity.
  - cbn [part demo_fs]. vm_compute. reflexivity.
  - cbn [part demo_fs]. vm_compute. reflexivity.
Qed.
