(* ===== verification/Inode.v ===== *)
(** * Inodes (fs/inode.c)

    The inode table is an array of 76-byte structures laid over the sectors from
    [inode_table_lba] on, so that some inodes lie in two sectors.  [io_len] is
    the size of the buffer a caller passes as [io_buf]: a transfer that does not
    fit the buffer overruns it, a [Fault]. *)

From S2P Require Import Prelude Bitmap Disk FsState.

(** ** Operations *)

Record inode_position := InodePosition { two_sec : bool; sec_lba : Z; off_size : Z }.

Definition inode_locate (p : partition) (inode_no : Z) : inode_position :=
  let off := u32 (inode_no * sizeof_inode) in
  let off_sec := off / 512 in
  let off_size_in_sec := off mod 512 in
  let left_in_sec := 512 - off_size_in_sec in
  InodePosition (left_in_sec <? sizeof_inode) (u32 (inode_table_lba (sb p) + off_sec)) off_size_in_sec.

Definition nsec (pos : inode_position) : nat := if two_sec pos then 2 else 1.

#[global] Arguments inode_locate : simpl never.
#[global] Arguments nsec : simpl never.

(** [uint8_t inode_no = inode->i_no] keeps the low byte only.  The trace messages
    of lines 55 and 61 are not modelled. *)
Definition inode_sync (io_len : Z) (i : inode) (s : fs) : outcome fs :=
  let pos := inode_locate (part s) (u8 (i_no i)) in
  let pure_inode := with_deny false (with_cnts 0 i) in
  if 512 * Z.of_nat (nsec pos) <=? io_len then
    inode_buf ← disk_read (dsk s) (sec_lba pos) (nsec pos);
    inode_buf ← splice inode_buf (off_size pos) (inode_bytes pure_inode);
    d ← disk_write (dsk s) (sec_lba pos) inode_buf (nsec pos);
    Ok (set_dsk d s)
  else Fault.

(** The walk over the open inodes. *)
Fixpoint find_open (l : list Z) (inode_no : Z) (s : fs) : outcome (option Z) :=
  match l with
  | [] => Ok None
  | a :: rest =>
      i ← get_inode a s;
      if i_no i =? inode_no then Ok (Some a) else find_open rest inode_no s
  end.

(** The inode is read into fresh memory when it is not open yet; neither the
    inode nor the buffer is checked against [NULL]. *)
Definition inode_open (inode_no : Z) (s : fs) : outcome (Z * fs) :=
  found ← find_open (open_inodes (part s)) inode_no s;
  match found with
  | Some a =>
      i ← get_inode a s;
      s' ← put_inode a (with_cnts (u32 (i_open_cnts i + 1)) i) s;
      Ok (a, s')
  | None =>
      let pos := inode_locate (part s) inode_no in
      let '(inode_found, s) := kmalloc s in
      let '(inode_buf, s) := kmalloc s in
      if (inode_found =? 0) || (inode_buf =? 0) then Fault
      else
        b ← disk_read (dsk s) (sec_lba pos) (nsec pos);
        b ← slice b (off_size pos) sizeof_inode;
        i ← inode_of_bytes b;
        let s := set_inodes (<[inode_found := with_cnts 1 i]> (inodes s)) s in
        Ok (inode_found, set_part (set_open (inode_found :: open_inodes (part s)) (part s)) s)
  end.

(** The inode leaves the list and its memory is freed with the last user. *)
Definition inode_close (a : Z) (s : fs) : outcome fs :=
  i ← get_inode a s;
  let n := u32 (i_open_cnts i - 1) in
  if n =? 0 then
    let s := set_part (set_open (filter (λ x, x ≠ a) (open_inodes (part s))) (part s)) s in
    Ok (set_inodes (delete a (inodes s)) s)
  else put_inode a (with_cnts n i) s.

Definition inode_delete (inode_no io_len : Z) (s : fs) : outcome fs :=
  let pos := inode_locate (part s) inode_no in
  if 512 * Z.of_nat (nsec pos) <=? io_len then
    inode_buf ← disk_read (dsk s) (sec_lba pos) (nsec pos);
    inode_buf ← splice inode_buf (off_size pos) (replicate (Z.to_nat sizeof_inode) 0);
    d ← disk_write (dsk s) (sec_lba pos) inode_buf (nsec pos);
    Ok (set_dsk d s)
  else Fault.

(** The loop of [inode_release] over [all_blocks]. *)
Fixpoint release_blocks (all_blocks : list Z) (s : fs) : outcome fs :=
  match all_blocks with
  | [] => Ok s
  | b :: rest =>
      if b =? 0 then release_blocks rest s
      else
        let block_bitmap_idx := u32 (b - data_start_lba (sb (part s))) in
        s ← block_bitmap_set block_bitmap_idx 0 s;
        s ← bitmap_sync block_bitmap_idx BLOCK_BITMAP s;
        release_blocks rest s
  end.

(** [all_blocks]: the direct blocks, and the words of the indirect block. *)
Definition inode_release (inode_no : Z) (s : fs) : outcome fs :=
  '(a, s) ← inode_open inode_no s;
  i ← get_inode a s;
  direct ← slice (i_sectors i) 0 12;
  ind ← aget (i_sectors i) 12;
  '(all_blocks, s) ←
    (if negb (ind =? 0) then
       b ← disk_read (dsk s) ind 1;
       let block_bitmap_idx := u32 (ind - data_start_lba (sb (part s))) in
       s ← block_bitmap_set block_bitmap_idx 0 s;
       s ← bitmap_sync block_bitmap_idx BLOCK_BITMAP s;
       Ok (direct ++ words_of_bytes b, s)
     else Ok (direct, s));
  s ← release_blocks all_blocks s;
  s ← inode_bitmap_set inode_no 0 s;
  s ← bitmap_sync inode_no INODE_BITMAP s;
  let '(io_buf, s) := kmalloc s in
  if io_buf =? 0 then Fault
  else
    s ← inode_delete inode_no 1024 s;
    inode_close a s.

Definition inode_init (inode_no : Z) : inode := Inode inode_no 0 0 false (replicate 13 0).

(** ** The inode table on the disk *)

(** The disk address of inode [n]. *)
Definition slot (s : fs) (n : Z) : Z := 512 * inode_table_lba (sb (part s)) + 76 * n.

(** The bytes [l] are on the disk at address [a]. *)
Definition disk_at (d : disk) (a : Z) (l : list Z) : Prop :=
  ∀ k, 0 ≤ k < zlen l → dbyte d (a + k) = l !! Z.to_nat k.

(** [d'] is [d] except for the [n] bytes at [a]. *)
Definition disk_same_but (d d' : disk) (a n : Z) : Prop :=
  ∀ x, ¬ (a ≤ x < a + n) → dbyte d' x = dbyte d x.

(** The two-sector case included, the located position is the slot. *)
Lemma inode_locate_slot s n :
  fs_wf s → 0 ≤ n < 4096 →
  let pos := inode_locate (part s) n in
  512 * sec_lba pos + off_size pos = slot s n ∧ 0 ≤ off_size pos ∧
  off_size pos + 76 ≤ 512 * Z.of_nat (nsec pos) ∧
  inode_table_lba (sb (part s)) ≤ sec_lba pos ∧
  sec_lba pos + Z.of_nat (nsec pos) ≤ inode_table_lba (sb (part s)) + 608.
Proof.
  intros Hwf Hn pos. pose proof Hwf as [Hd Hb0 Hbb Hib Hit He Hs Hb Hl Hsl].
  pose proof (wf_len _ Hb). pose proof (wf_small _ Hb).
  unfold pos, inode_locate, slot, nsec, sizeof_inode. cbn [two_sec sec_lba off_size]. unfold nbits in *.
  rewrite (u32_small (n * 76)) by lia. rewrite u32_small by zdm.
  destruct (Z.ltb_spec (512 - (n * 76) mod 512) 76); split_and!; zdm.
Qed.

Lemma inode_locate_sb p q n : sb p = sb q → inode_locate p n = inode_locate q n.
Proof. intros H. unfold inode_locate. by rewrite H. Qed.

#[global] Opaque inode_locate.

(** Reading, patching and writing back the sectors of a slot. *)
Lemma slot_write_ok s n l :
  fs_wf s → 0 ≤ n < 4096 → zlen l = 76 → Forall (λ y, 0 ≤ y < 256) l →
  let pos := inode_locate (part s) n in
  ∃ b b' d, disk_read (dsk s) (sec_lba pos) (nsec pos) = Ok b ∧ splice b (off_size pos) l = Ok b' ∧
    disk_write (dsk s) (sec_lba pos) b' (nsec pos) = Ok d ∧
    fs_wf (set_dsk d s) ∧ disk_at d (slot s n) l ∧ disk_same_but (dsk s) d (slot s n) 76 ∧
    ∀ k, data_start_lba (sb (part s)) ≤ k → d !! k = dsk s !! k.
Proof.
  intros Hwf Hn HL HF pos. destruct (inode_locate_slot s n Hwf Hn) as (Ha & H0 & Hfit & Hlo & Hhi).
  fold pos in Ha, H0, Hfit, Hlo, Hhi. clearbody pos. pose proof Hwf as [Hd Hb0 Hbb Hib Hit He Hs Hb Hl Hsl].
  pose proof (wf_len _ Hb).
  assert (HS : sectors (dsk s) (sec_lba pos) (Z.of_nat (nsec pos))).
  { intros k Hk. apply Hs. unfold nbits. lia. }
  destruct (disk_read_ok (dsk s) (sec_lba pos) (nsec pos)) as (b & Hb1 & Lb & Fb & Kb); [done|lia|done|].
  assert (Zb : zlen b = 512 * Z.of_nat (nsec pos)) by (unfold zlen; lia).
  destruct (splice_ok b (off_size pos) l) as (b' & Hb' & Lb' & Kb'); [done|lia|].
  pose proof (splice_Forall _ _ _ _ _ Hb' Fb HF) as Fb'.
  destruct (disk_write_ok (dsk s) (sec_lba pos) b' (nsec pos)) as (d & Hd1 & Wd & Sd & Od & Bd);
    [done|lia|done|unfold zlen in *; lia|done|].
  exists b, b', d. split_and!; [done|done|done| | | |].
  - split; simpl; try done. intros k Hk. by apply Sd, Hs.
  - intros k Hk. rewrite Bd. rewrite <- Ha.
    rewrite (proj2 (Z.leb_le _ _)), (proj2 (Z.ltb_lt _ _)) by lia. simpl.
    replace (512 * sec_lba pos + off_size pos + k - 512 * sec_lba pos) with (off_size pos + k) by lia.
    rewrite Kb' by lia. rewrite (proj2 (Z.leb_le _ _)), (proj2 (Z.ltb_lt _ _)) by lia. simpl.
    f_equal. lia.
  - intros x Hx. rewrite Bd. rewrite <- Ha in Hx.
    destruct (Z.leb_spec (512 * sec_lba pos) x), (Z.ltb_spec x (512 * (sec_lba pos + Z.of_nat (nsec pos))));
      simpl; try done.
    rewrite Kb' by lia. zcase; [lia|]. rewrite Kb by lia. f_equal. lia.
  - intros k Hk. apply Od. lia.
Qed.

(** [inode_sync] writes the slot of the low byte of the inode's number. *)
Lemma inode_sync_ok io_len i s :
  fs_wf s → inode_ok i → 512 * Z.of_nat (nsec (inode_locate (part s) (u8 (i_no i)))) ≤ io_len →
  ∃ d, inode_sync io_len i s = Ok (set_dsk d s) ∧ fs_wf (set_dsk d s) ∧
    disk_at d (slot s (u8 (i_no i))) (inode_bytes (with_deny false (with_cnts 0 i))) ∧
    disk_same_but (dsk s) d (slot s (u8 (i_no i))) 76 ∧
    ∀ k, data_start_lba (sb (part s)) ≤ k → d !! k = dsk s !! k.
Proof.
  intros Hwf Hi Hio. pose proof (u8_range (i_no i)).
  destruct (slot_write_ok s (u8 (i_no i)) (inode_bytes (with_deny false (with_cnts 0 i))))
    as (b & b' & d & Hb & Hb' & Hd & Hrest); [done|lia| |apply bytes_of_words_range|].
  - unfold zlen. rewrite length_inode_bytes; [done | by destruct Hi as (_&_&_&?&_)].
  - exists d. split; [|done]. unfold inode_sync. cbv zeta. rewrite (proj2 (Z.leb_le _ _) Hio).
    mrun Hb. mrun Hb'. by mrun Hd.
Qed.

(** Reading a slot. *)
Lemma slot_read_ok s n l :
  fs_wf s → 0 ≤ n < 4096 → zlen l = 76 → disk_at (dsk s) (slot s n) l →
  let pos := inode_locate (part s) n in
  ∃ b, disk_read (dsk s) (sec_lba pos) (nsec pos) = Ok b ∧ slice b (off_size pos) sizeof_inode = Ok l.
Proof.
  intros Hwf Hn HL HA pos. destruct (inode_locate_slot s n Hwf Hn) as (Ha & H0 & Hfit & Hlo & Hhi).
  fold pos in Ha, H0, Hfit, Hlo, Hhi. clearbody pos. pose proof Hwf as [Hd Hb0 Hbb Hib Hit He Hs Hb Hl Hsl].
  pose proof (wf_len _ Hb).
  destruct (disk_read_ok (dsk s) (sec_lba pos) (nsec pos)) as (b & Hb1 & Lb & Fb & Kb); [done|lia| |].
  { intros k Hk. apply Hs. unfold nbits. lia. }
  exists b. split; [done|]. unfold sizeof_inode. rewrite slice_ok by (unfold zlen; lia). f_equal.
  apply list_eq_len.
  - rewrite length_take, length_drop. unfold zlen in HL. lia.
  - intros k Hk. rewrite length_take, length_drop in Hk. rewrite lookup_take_lt by lia.
    rewrite lookup_drop. replace (Z.to_nat (off_size pos) + k)%nat with (Z.to_nat (off_size pos + Z.of_nat k)) by lia.
    rewrite Kb by lia. replace (512 * sec_lba pos + (off_size pos + Z.of_nat k)) with (slot s n + Z.of_nat k) by lia.
    rewrite HA by lia. f_equal. lia.
Qed.

(** ** Properties *)

(** No open inode has the number [n]. *)
Definition not_open (s : fs) (n : Z) : Prop :=
  Forall (λ a, ∃ i, inodes s !! a = Some i ∧ i_no i ≠ n) (open_inodes (part s)).

Lemma find_open_none s n l :
  Forall (λ a, ∃ i, inodes s !! a = Some i ∧ i_no i ≠ n) l → find_open l n s = Ok None.
Proof.
  induction 1 as [|a l (i & Hi & Hn) _ IH]; [done|]. simpl. unfold get_inode. mrun Hi.
  by rewrite (proj2 (Z.eqb_neq _ _) Hn).
Qed.

Lemma inode_open_fresh s n l i a b rest :
  fs_wf s → 0 ≤ n < 4096 → not_open s n → heap s = a :: b :: rest → a ≠ 0 → b ≠ 0 →
  zlen l = 76 → disk_at (dsk s) (slot s n) l → inode_of_bytes l = Ok i →
  inode_open n s = Ok (a,
    set_part (set_open (a :: open_inodes (part s)) (part s))
      (set_inodes (<[a := with_cnts 1 i]> (inodes s)) (set_heap rest s))).
Proof.
  intros Hwf Hn Hno Hh Ha Hb HL HA Hi. unfold inode_open. mrun (find_open_none s n _ Hno).
  unfold kmalloc. rewrite Hh. simpl. rewrite (proj2 (Z.eqb_neq _ _) Ha), (proj2 (Z.eqb_neq _ _) Hb). simpl.
  destruct (slot_read_ok s n l Hwf Hn HL HA) as (bf & Hr & Hsl). rewrite Hr. simpl. rewrite Hsl. simpl.
  by rewrite Hi.
Qed.

(** C14: an inode with a number below 256 that is written back with [inode_sync] and
    opened again by [inode_open] comes back with its number, size and block
    table, open once and not write-denied; no other byte of the disk changed,
    so no other inode did, whether it lies in one sector or in two. *)
Theorem inode_sync_open i s a b rest :
  fs_wf s → inode_ok i → i_no i < 256 → not_open s (i_no i) →
  heap s = a :: b :: rest → a ≠ 0 → b ≠ 0 →
  ∃ s1 s2, inode_sync 1024 i s = Ok s1 ∧ inode_open (i_no i) s1 = Ok (a, s2) ∧
    inodes s2 !! a = Some (with_deny false (with_cnts 1 i)) ∧
    open_inodes (part s2) = a :: open_inodes (part s) ∧
    disk_same_but (dsk s) (dsk s2) (slot s (i_no i)) 76 ∧ fs_wf s1.
Proof.
  intros Hwf Hi Hlt Hno Hh Ha Hb. pose proof Hi as (Hr1 & Hr2 & Hr3 & HL & HF).
  destruct (inode_sync_ok 1024 i s Hwf Hi) as (d & Hs1 & Hwf1 & Hat & Hsame & _).
  { unfold nsec. destruct (two_sec _); lia. }
  rewrite u8_small in Hat, Hsame by (unfold u32_range_P in *; lia).
  assert (Hok : inode_ok (with_deny false (with_cnts 0 i))).
  { unfold inode_ok, u32_range_P in *; simpl. split_and!; try done; lia. }
  eexists _, _. split; [done|]. split.
  - apply (inode_open_fresh (set_dsk d s) (i_no i) (inode_bytes (with_deny false (with_cnts 0 i)))
      (with_deny false (with_cnts 0 i)) a b rest); try done.
    + unfold u32_range_P in *; lia.
    + unfold zlen. by rewrite length_inode_bytes.
    + by apply inode_of_inode_bytes.
  - simpl. split_and!; try done. by rewrite lookup_insert_eq.
Qed.

(** [inode_sync] keeps the inode number in a [uint8_t]: an inode numbered 256 or
    more is written over the slot of inode [number mod 256], and its own slot is
    left as it was. *)
Theorem inode_sync_wrong_slot i s :
  fs_wf s → inode_ok i → 256 ≤ i_no i < 4096 →
  ∃ s1, inode_sync 1024 i s = Ok s1 ∧
    disk_at (dsk s1) (slot s (i_no i mod 256)) (inode_bytes (with_deny false (with_cnts 0 i))) ∧
    ∀ k, 0 ≤ k < 76 → dbyte (dsk s1) (slot s (i_no i) + k) = dbyte (dsk s) (slot s (i_no i) + k).
Proof.
  intros Hwf Hi Hn.
  destruct (inode_sync_ok 1024 i s Hwf Hi) as (d & Hs1 & Hwf1 & Hat & Hsame & _).
  { unfold nsec. destruct (two_sec _); lia. }
  exists (set_dsk d s). split_and!; [done | done |].
  intros k Hk. apply Hsame. unfold slot, u8. zdm.
Qed.

(** ** Witnesses *)

Definition demo_inode : inode := Inode 6 1000 0 false ([700; 701] ++ replicate 11 0).
Definition demo_inode_big : inode := Inode 262 1000 0 false ([700; 701] ++ replicate 11 0).

Lemma demo_inode_ok : inode_ok demo_inode ∧ inode_ok demo_inode_big.
Proof.
  unfold inode_ok, u32_range_P. simpl.
  split; (split_and!; [lia|lia|lia|lia|lia|lia|done|repeat constructor; lia]).
Qed.

Lemma inode_sync_open_witness :
  ∃ s1 s2, inode_sync 1024 demo_inode demo_fs = Ok s1 ∧ inode_open 6 s1 = Ok (0xc0101000, s2) ∧
    inodes s2 !! 0xc0101000 = Some (with_deny false (with_cnts 1 demo_inode)) ∧
    open_inodes (part s2) = [0xc0101000] ∧
    disk_same_but (dsk demo_fs) (dsk s2) (slot demo_fs 6) 76 ∧ fs_wf s1.
Proof.
  apply (inode_sync_open demo_inode demo_fs 0xc0101000 0xc0102000
    [0xc0103000; 0xc0104000; 0xc0105000; 0xc0106000]);
    [exact demo_wf | apply demo_inode_ok | done | constructor | done | done | done].
Defined.

Lemma inode_sync_wrong_slot_witness :
  ∃ s1, inode_sync 1024 demo_inode_big demo_fs = Ok s1 ∧
    disk_at (dsk s1) (slot demo_fs 6) (inode_bytes (with_deny false (with_cnts 0 demo_inode_big))) ∧
    ∀ k, 0 ≤ k < 76 → dbyte (dsk s1) (slot demo_fs 262 + k) = dbyte (dsk demo_fs) (slot demo_fs 262 + k).
Proof.
  apply (inode_sync_wrong_slot demo_inode_big demo_fs);
    [exact demo_wf | apply demo_inode_ok | split; done].
Defined.
