(* ===== verification/Dir.v ===== *)
(** * Directories (fs/dir.c)

    A directory is a file of 24-byte entries; an entry whose type word is 0
    ([FT_UNKNOWN]) is free.  Buffers are byte lists; a C string that lives in a
    buffer is the list of bytes from its first character to the end of the
    buffer. *)

From S2P Require Import Prelude Bitmap CString Disk FsState Inode.

(** ** Strings in buffers *)

(** [strcmp] on two buffers ([CString.strcmp] is the same loop on memory). *)
Fixpoint bstrcmp (a b : list Z) : outcome Z :=
  match a, b with
  | x :: a', y :: b' =>
      if negb (x =? 0) && (char_of x =? char_of y) then bstrcmp a' b'
      else Ok (cmp_char x y)
  | _, _ => Fault
  end.

Fixpoint bstrlen (a : list Z) : outcome Z :=
  match a with
  | [] => Fault
  | x :: a' => if x =? 0 then Ok 0 else n ← bstrlen a'; Ok (n + 1)
  end.

(** ** The blocks of a directory *)

Definition dir_inode_of (d : dir) (s : fs) : outcome inode := get_inode (dinode d) s.

(** [all_blocks]: the 12 direct blocks, and the indirect ones when there is an
    indirect block, otherwise zeroes. *)
Definition load_blocks (i : inode) (d : disk) : outcome (list Z) :=
  direct ← slice (i_sectors i) 0 12;
  ind ← aget (i_sectors i) 12;
  if negb (ind =? 0) then
    b ← disk_read d ind 1; Ok (direct ++ words_of_bytes b)
  else Ok (direct ++ replicate 128 0).

(** [SECTOR_SIZE / dir_entry_size] *)
Definition entrys_per_sec (s : fs) : outcome Z :=
  let size := dir_entry_size (sb (part s)) in
  if size =? 0 then Fault else Ok (SECTOR_SIZE / size).

(** [p_de->f_type] and [p_de->i_no] of entry [idx] of a block. *)
Definition entry_word (buf : list Z) (idx off : Z) : outcome Z :=
  b ← slice buf (24 * idx + off) 4;
  match words_of_bytes b with [w] => Ok w | _ => Fault end.
Definition entry_type (buf : list Z) (idx : Z) : outcome Z := entry_word buf idx 20.
Definition entry_ino (buf : list Z) (idx : Z) : outcome Z := entry_word buf idx 16.
Definition entry_name (buf : list Z) (idx : Z) : list Z := drop (Z.to_nat (24 * idx)) buf.

(** ** Opening and closing *)

Definition open_root_dir (s : fs) : outcome fs :=
  '(a, s) ← inode_open (root_inode_no (sb (part s))) s;
  old ← of_opt (dirs s !! ROOT_DIR);
  Ok (set_dirs (<[ROOT_DIR := Dir a 0 (dir_buf old)]> (dirs s)) s).

Definition dir_open (inode_no : Z) (s : fs) : outcome (Z * fs) :=
  let '(pdir, s) := kmalloc s in
  '(a, s) ← inode_open inode_no s;
  if pdir =? 0 then Fault
  else Ok (pdir, set_dirs (<[pdir := Dir a 0 (replicate 512 0)]> (dirs s)) s).

Definition dir_close (p : Z) (s : fs) : outcome fs :=
  if p =? ROOT_DIR then Ok s
  else
    d ← get_dir p s;
    s ← inode_close (dinode d) s;
    Ok (set_dirs (delete p (dirs s)) s).

(** ** Searching *)

(** The entry loop: the first of [n] entries from [idx] on with this name. *)
Fixpoint search_entries (n : nat) (buf name : list Z) (idx : Z) : outcome (option Z) :=
  match n with
  | O => Ok None
  | S n' =>
      c ← bstrcmp (entry_name buf idx) name;
      if c =? 0 then Ok (Some idx) else search_entries n' buf name (idx + 1)
  end.

Fixpoint search_blocks (blocks : list Z) (cnt : nat) (name : list Z) (d : disk)
    : outcome (option (list Z * Z)) :=
  match blocks with
  | [] => Ok None
  | lba :: rest =>
      if lba =? 0 then search_blocks rest cnt name d
      else
        buf ← disk_read d lba 1;
        found ← search_entries cnt buf name 0;
        match found with
        | Some idx => Ok (Some (buf, idx))
        | None => search_blocks rest cnt name d
        end
  end.

(** The result is [dir_e] when an entry was found; [dir_e] holds the caller's
    structure before. *)
Definition search_dir_entry (pdir : Z) (name dir_e : list Z) (s : fs)
    : outcome (option (list Z) * fs) :=
  let '(all_blocks_p, s) := kmalloc s in
  if all_blocks_p =? 0 then Ok (None, s)
  else
    d ← get_dir pdir s;
    i ← dir_inode_of d s;
    all_blocks ← load_blocks i (dsk s);
    let '(buf_p, s) := kmalloc s in
    if buf_p =? 0 then Fault
    else
      dir_entry_cnt ← entrys_per_sec s;
      r ← search_blocks all_blocks (Z.to_nat dir_entry_cnt) name (dsk s);
      match r with
      | None => Ok (None, s)
      | Some (buf, idx) =>
          e ← slice buf (24 * idx) (dir_entry_size (sb (part s)));
          dir_e' ← splice dir_e 0 e;
          Ok (Some dir_e', s)
      end.

(** ** Reading entry by entry *)

(** The entries of one block: the offset of the entry to return, or the new
    [cur_dir_entry_pos]. *)
Fixpoint read_entries (n : nat) (buf : list Z) (idx cur pos size : Z) : outcome (Z + Z) :=
  match n with
  | O => Ok (inr cur)
  | S n' =>
      ty ← entry_type buf idx;
      if negb (ty =? 0) then
        if cur <? pos then read_entries n' buf (idx + 1) (u32 (cur + size)) pos size
        else Ok (inl idx)
      else read_entries n' buf (idx + 1) cur pos size
  end.

Fixpoint dir_read_loop (fuel : nat) (p : Z) (all_blocks : list Z) (block_idx cur : Z) (s : fs)
    : outcome (option Z * fs) :=
  match fuel with
  | O => NoFuel
  | S fuel' =>
      d ← get_dir p s;
      i ← dir_inode_of d s;
      if dir_pos d <? i_size i then
        lba ← aget all_blocks block_idx;
        if lba =? 0 then dir_read_loop fuel' p all_blocks (block_idx + 1) cur s
        else
          buf ← disk_read (dsk s) lba 1;
          let s := set_dirs (<[p := Dir (dinode d) (dir_pos d) buf]> (dirs s)) s in
          let size := dir_entry_size (sb (part s)) in
          n ← entrys_per_sec s;
          r ← read_entries (Z.to_nat n) buf 0 cur (dir_pos d) size;
          match r with
          | inl idx =>
              Ok (Some idx, set_dirs (<[p := Dir (dinode d) (u32 (dir_pos d + size)) buf]> (dirs s)) s)
          | inr cur' => dir_read_loop fuel' p all_blocks (block_idx + 1) cur' s
          end
      else Ok (None, s)
  end.

(** The pointer returned is entry [idx] of [dir_buf]; the loop runs at most once
    per element of [all_blocks]. *)
Definition dir_read (p : Z) (s : fs) : outcome (option Z * fs) :=
  d ← get_dir p s;
  i ← dir_inode_of d s;
  all_blocks ← load_blocks i (dsk s);
  dir_read_loop 142 p all_blocks 0 0 s.

(** ** Adding an entry *)

(** [p_de] points to zeroed memory of 24 bytes; [filename] is the string and what
    follows it. *)
Definition create_dir_entry (fname : list Z) (inode_no file_type : Z) (p_de : list Z)
    : outcome (list Z) :=
  n ← bstrlen fname;
  p_de ← splice p_de 0 (take (Z.to_nat n) fname);
  p_de ← splice p_de 16 (le32 inode_no);
  splice p_de 20 (le32 (u8 file_type)).

(** The first free entry of a block. *)
Fixpoint free_entry (n : nat) (buf : list Z) (idx : Z) : outcome (option Z) :=
  match n with
  | O => Ok None
  | S n' =>
      ty ← entry_type buf idx;
      if ty =? 0 then Ok (Some idx) else free_entry n' buf (idx + 1)
  end.

Definition set_sector (i : inode) (k v : Z) : outcome inode :=
  l ← aset (i_sectors i) k v; Ok (with_sectors l i).

(** [memcpy (io_buf, p_de, dir_entry_size)] into a zeroed sector. *)
Definition new_dir_block (e : list Z) (size : Z) : outcome (list Z) :=
  e ← slice e 0 size; splice (replicate 512 0) 0 e.

(** A new block for the directory at [block_idx]: the allocation part of the loop
    of [sync_dir_entry].  [None]: no block was free. *)
Definition dir_new_block (a block_idx : Z) (all_blocks : list Z) (s : fs)
    : outcome (option (list Z) * fs) :=
  '(block_lba, s) ← block_bitmap_alloc s;
  if block_lba =? -1 then Ok (None, s)
  else
    s ← bitmap_sync (u32 (block_lba - data_start_lba (sb (part s)))) BLOCK_BITMAP s;
    i ← get_inode a s;
    if block_idx <? 12 then
      i ← set_sector i block_idx (u32 block_lba);
      s ← put_inode a i s;
      all_blocks ← aset all_blocks block_idx (u32 block_lba);
      Ok (Some all_blocks, s)
    else if block_idx =? 12 then
      i ← set_sector i 12 (u32 block_lba);
      s ← put_inode a i s;
      '(block_lba2, s) ← block_bitmap_alloc s;
      if block_lba2 =? -1 then
        s ← block_bitmap_set (u32 (block_lba - data_start_lba (sb (part s)))) 0 s;
        i ← set_sector i 12 0;
        s ← put_inode a i s;
        Ok (None, s)
      else
        s ← bitmap_sync (u32 (block_lba2 - data_start_lba (sb (part s)))) BLOCK_BITMAP s;
        all_blocks ← aset all_blocks 12 (u32 block_lba2);
        d ← disk_write (dsk s) (u32 block_lba) (bytes_of_words (drop 12 all_blocks)) 1;
        Ok (Some all_blocks, set_dsk d s)
    else
      all_blocks ← aset all_blocks block_idx (u32 block_lba);
      ind ← aget (i_sectors i) 12;
      d ← disk_write (dsk s) ind (bytes_of_words (drop 12 all_blocks)) 1;
      Ok (Some all_blocks, set_dsk d s).

Fixpoint sync_loop (n : nat) (a : Z) (p_de : list Z) (all_blocks : list Z) (block_idx : Z) (s : fs)
    : outcome (bool * fs) :=
  match n with
  | O => Ok (false, s)
  | S n' =>
      let size := dir_entry_size (sb (part s)) in
      lba ← aget all_blocks block_idx;
      if lba =? 0 then
        '(r, s) ← dir_new_block a block_idx all_blocks s;
        match r with
        | None => Ok (false, s)
        | Some all_blocks =>
            lba ← aget all_blocks block_idx;
            io_buf ← new_dir_block p_de size;
            d ← disk_write (dsk s) lba io_buf 1;
            i ← get_inode a s;
            s ← put_inode a (with_size (u32 (i_size i + size)) i) (set_dsk d s);
            Ok (true, s)
        end
      else
        io_buf ← disk_read (dsk s) lba 1;
        cnt ← entrys_per_sec s;
        r ← free_entry (Z.to_nat cnt) io_buf 0;
        match r with
        | Some idx =>
            e ← slice p_de 0 size;
            io_buf ← splice io_buf (24 * idx) e;
            d ← disk_write (dsk s) lba io_buf 1;
            i ← get_inode a s;
            s ← put_inode a (with_size (u32 (i_size i + size)) i) (set_dsk d s);
            Ok (true, s)
        | None => sync_loop n' a p_de all_blocks (block_idx + 1) s
        end
  end.

(** [all_blocks] starts from the direct blocks only: the table of the indirect
    block is not read.  The trace message of line 214 is not modelled. *)
Definition sync_dir_entry (parent_dir : Z) (p_de : list Z) (s : fs) : outcome (bool * fs) :=
  d ← get_dir parent_dir s;
  i ← dir_inode_of d s;
  _ ← entrys_per_sec s;
  direct ← slice (i_sectors i) 0 12;
  sync_loop 140 (dinode d) p_de (direct ++ replicate 128 0) 0 s.

(** ** Removing an entry *)

Definition DOT : list Z := [46; 0].
Definition DOTDOT : list Z := [46; 46; 0].

(** What the entry loop of [delete_dir_entry] gathers: is this the first block of
    the directory, how many entries besides "." and ".." it has, and the entry
    of [inode_no] (the last one, if there are several). *)
Record block_scan := BlockScan { is_first : bool; entry_cnt : Z; entry_found : option Z }.

Fixpoint scan_entries (n : nat) (buf : list Z) (inode_no idx : Z) (acc : block_scan)
    : outcome block_scan :=
  match n with
  | O => Ok acc
  | S n' =>
      ty ← entry_type buf idx;
      acc ←
        (if negb (ty =? 0) then
           c ← bstrcmp (entry_name buf idx) DOT;
           if c =? 0 then Ok (BlockScan true (entry_cnt acc) (entry_found acc))
           else
             c2 ← bstrcmp (entry_name buf idx) DOTDOT;
             if negb (c2 =? 0) then
               no ← entry_ino buf idx;
               Ok (BlockScan (is_first acc) (u8 (entry_cnt acc + 1))
                     (if no =? inode_no then Some idx else entry_found acc))
             else Ok acc
         else Ok acc);
      scan_entries n' buf inode_no (idx + 1) acc
  end.

(** The loop that counts the indirect blocks never counts one, and does not
    advance at a zero entry of the table: it ends only when all 128 entries are
    in use. *)
Definition count_indirect (all_blocks : list Z) : outcome Z :=
  if forallb (λ w, negb (w =? 0)) (drop 12 all_blocks) then Ok 0 else NoFuel.

(** The block of the only entry is given back. *)
Definition drop_dir_block (a block_idx lba : Z) (all_blocks : list Z) (s : fs) : outcome fs :=
  let block_bitmap_idx := u32 (lba - data_start_lba (sb (part s))) in
  s ← block_bitmap_set block_bitmap_idx 0 s;
  s ← bitmap_sync block_bitmap_idx BLOCK_BITMAP s;
  i ← get_inode a s;
  if block_idx <? 12 then
    i ← set_sector i block_idx 0; put_inode a i s
  else
    indirect_blocks ← count_indirect all_blocks;
    ind ← aget (i_sectors i) 12;
    if indirect_blocks >? 1 then
      all_blocks ← aset all_blocks block_idx 0;
      d ← disk_write (dsk s) ind (bytes_of_words (drop 12 all_blocks)) 1;
      Ok (set_dsk d s)
    else
      let idx := u32 (ind - data_start_lba (sb (part s))) in
      s ← block_bitmap_set idx 0 s;
      s ← bitmap_sync idx BLOCK_BITMAP s;
      i ← set_sector i 12 0;
      put_inode a i s.

Fixpoint delete_loop (n : nat) (a inode_no io_len : Z) (all_blocks : list Z) (block_idx : Z) (s : fs)
    : outcome (bool * fs) :=
  match n with
  | O => Ok (false, s)
  | S n' =>
      lba ← aget all_blocks block_idx;
      if lba =? 0 then delete_loop n' a inode_no io_len all_blocks (block_idx + 1) s
      else
        io_buf ← disk_read (dsk s) lba 1;
        cnt ← entrys_per_sec s;
        r ← scan_entries (Z.to_nat cnt) io_buf inode_no 0 (BlockScan false 0 None);
        match entry_found r with
        | None => delete_loop n' a inode_no io_len all_blocks (block_idx + 1) s
        | Some idx =>
            let size := dir_entry_size (sb (part s)) in
            s ←
              (if (entry_cnt r =? 1) && negb (is_first r) then
                 drop_dir_block a block_idx lba all_blocks s
               else
                 io_buf ← splice io_buf (24 * idx) (replicate (Z.to_nat size) 0);
                 d ← disk_write (dsk s) lba io_buf 1;
                 Ok (set_dsk d s));
            i ← get_inode a s;
            let i := with_size (u32 (i_size i - size)) i in
            s ← put_inode a i s;
            s ← inode_sync io_len i s;
            Ok (true, s)
        end
  end.

Definition delete_dir_entry (pdir inode_no io_len : Z) (s : fs) : outcome (bool * fs) :=
  d ← get_dir pdir s;
  i ← dir_inode_of d s;
  all_blocks ← load_blocks i (dsk s);
  delete_loop 140 (dinode d) inode_no io_len all_blocks 0 s.

Definition dir_is_empty (p : Z) (s : fs) : outcome bool :=
  d ← get_dir p s;
  i ← dir_inode_of d s;
  Ok (i_size i =? u32 (dir_entry_size (sb (part s)) * 2)).

Definition dir_remove (parent_dir child_dir : Z) (s : fs) : outcome (Z * fs) :=
  d ← get_dir child_dir s;
  i ← dir_inode_of d s;
  let '(io_buf, s) := kmalloc s in
  if io_buf =? 0 then Ok (-1, s)
  else
    '(_, s) ← delete_dir_entry parent_dir (i_no i) 1024 s;
    s ← inode_release (i_no i) s;
    Ok (0, s).

(** ** Lemmas *)

Lemma set_sector_ok i k v :
  inode_ok i → (k < 13)%nat → u32_range_P v →
  set_sector i (Z.of_nat k) v = Ok (with_sectors (<[k := v]> (i_sectors i)) i) ∧
  inode_ok (with_sectors (<[k := v]> (i_sectors i)) i).
Proof.
  intros (H1 & H2 & H3 & HL & HF) Hk Hv. unfold set_sector. rewrite aset_ok by (unfold zlen; lia).
  rewrite Nat2Z.id. split; [done|]. unfold inode_ok. simpl. rewrite length_insert.
  split_and!; try done. by apply Forall_insert.
Qed.

(** ** Names *)

(** Entry [idx] of a block carries the name [nm]. *)
Definition name16 (buf : list Z) (idx : Z) : list Z := take 16 (entry_name buf idx).
Definition has_name (nm buf : list Z) (idx : Z) : Prop := (nm ++ [0]) `prefix_of` name16 buf idx.

(** A file name: 1 to 15 characters, none of them NUL. *)
Definition file_name (nm : list Z) : Prop := Forall (λ y, 0 < y < 256) nm ∧ 1 ≤ zlen nm ≤ 15.

Lemma bstrcmp_ok nm e :
  Forall (λ y, 0 < y < 256) nm → Forall (λ y, 0 ≤ y < 256) e → 0 ∈ e →
  ∃ c, bstrcmp e (nm ++ [0]) = Ok c ∧ (c = 0 ↔ (nm ++ [0]) `prefix_of` e).
Proof.
  revert e. induction nm as [|y nm IH]; intros e Hn He H0.
  - destruct e as [|x e]; [by apply elem_of_nil in H0|]. apply Forall_cons in He as [Hx _]. simpl.
    destruct (decide (x = 0)) as [->|Hne].
    + exists 0. split; [done|]. split; [|done]. intros _. apply prefix_cons, prefix_nil.
    + assert (Hch : char_of x ≠ char_of 0) by (intros H; apply char_of_inj in H; lia).
      rewrite (proj2 (Z.eqb_neq x 0) Hne), (proj2 (Z.eqb_neq _ _) Hch). simpl.
      eexists. split; [done|]. split.
      * intros H. apply cmp_char_0 in H; lia.
      * intros H. apply prefix_cons_inv_1 in H. congruence.
  - destruct e as [|x e]; [by apply elem_of_nil in H0|].
    apply Forall_cons in He as [Hx He]. apply Forall_cons in Hn as [Hy Hn]. cbn [bstrcmp app].
    destruct (decide (x = y)) as [->|Hne].
    + rewrite (proj2 (Z.eqb_neq y 0)), Z.eqb_refl by lia. simpl.
      apply elem_of_cons in H0 as [H0|H0]; [lia|].
      destruct (IH e Hn He H0) as (c & -> & Hc). exists c. split; [done|]. rewrite Hc. split.
      * by apply prefix_cons.
      * apply prefix_cons_inv_2.
    + assert (Hch : char_of x ≠ char_of y) by (intros H; apply char_of_inj in H; lia).
      rewrite (proj2 (Z.eqb_neq _ _) Hch), andb_false_r.
      eexists. split; [done|]. split.
      * intros H. apply cmp_char_0 in H; lia.
      * intros H. apply prefix_cons_inv_1 in H. congruence.
Qed.

(** Every entry of a block has a terminated name. *)
Definition names_ok (buf : list Z) : Prop :=
  Forall (λ y, 0 ≤ y < 256) buf ∧ ∀ idx, 0 ≤ idx < 21 → 0 ∈ name16 buf idx.

Lemma prefix_take_iff {A} (l k : list A) n : (length l ≤ n)%nat → l `prefix_of` k ↔ l `prefix_of` take n k.
Proof.
  intros Hn. split.
  - intros [r ->]. rewrite take_app_ge by done. by apply prefix_app_r.
  - intros H. etransitivity; [exact H|]. apply prefix_take.
Qed.

Lemma entry_cmp nm buf idx :
  file_name nm → names_ok buf → 0 ≤ idx < 21 →
  ∃ c, bstrcmp (entry_name buf idx) (nm ++ [0]) = Ok c ∧ (c = 0 ↔ has_name nm buf idx).
Proof.
  intros [Hn Hl] [HF H0] Hi. destruct (bstrcmp_ok nm (entry_name buf idx)) as (c & Hc & Hiff); [done| | |].
  - by apply Forall_drop.
  - specialize (H0 idx Hi). unfold name16 in H0. rewrite <- (take_drop 16 (entry_name buf idx)).
    apply elem_of_app. by left.
  - exists c. split; [done|]. rewrite Hiff. unfold has_name, name16. apply prefix_take_iff.
    rewrite length_app. unfold zlen in Hl. simpl. lia.
Qed.

(** The first entry with the name, if there is one. *)
Lemma search_entries_ok n nm buf idx :
  file_name nm → names_ok buf → 0 ≤ idx → idx + Z.of_nat n ≤ 21 →
  ∃ r, search_entries n buf (nm ++ [0]) idx = Ok r ∧
    match r with
    | Some j => idx ≤ j < idx + Z.of_nat n ∧ has_name nm buf j ∧ ∀ k, idx ≤ k < j → ¬ has_name nm buf k
    | None => ∀ k, idx ≤ k < idx + Z.of_nat n → ¬ has_name nm buf k
    end.
Proof.
  intros Hn Hb. revert idx. induction n as [|n IH]; intros idx H0 Hle.
  - exists None. split; [done|]. intros k Hk. lia.
  - destruct (entry_cmp nm buf idx Hn Hb) as (c & Hc & Hiff); [lia|]. simpl. rewrite Hc. simpl.
    destruct (Z.eqb_spec c 0) as [Hz|Hz].
    + exists (Some idx). split; [done|]. split_and!; [lia|lia|by apply Hiff|]. intros k Hk. lia.
    + destruct (IH (idx + 1)) as (r & -> & Hr); [lia|lia|]. exists r. split; [done|].
      destruct r as [j|].
      * destruct Hr as (Hj & Hh & Hno). split_and!; [lia|lia|done|].
        intros k Hk. destruct (decide (k = idx)) as [->|]; [by rewrite <- Hiff | apply Hno; lia].
      * intros k Hk. destruct (decide (k = idx)) as [->|]; [by rewrite <- Hiff | apply Hr; lia].
Qed.

Lemma entry_type_ok buf idx :
  length buf = 512%nat → 0 ≤ idx < 21 → ∃ w, entry_type buf idx = Ok w.
Proof.
  intros HL Hi. unfold entry_type, entry_word. rewrite slice_ok by (unfold zlen; lia). simpl.
  pose proof (length_words_of_bytes 1 (take (Z.to_nat 4) (drop (Z.to_nat (24 * idx + 20)) buf))) as H.
  rewrite length_take, length_drop in H. specialize (H ltac:(lia)).
  destruct (words_of_bytes _) as [|w [|? ?]]; simpl in H; try lia. by exists w.
Qed.

Lemma free_entry_ok n buf idx :
  length buf = 512%nat → 0 ≤ idx → idx + Z.of_nat n ≤ 21 →
  ∃ r, free_entry n buf idx = Ok r ∧ ∀ j, r = Some j → idx ≤ j < idx + Z.of_nat n.
Proof.
  intros HL. revert idx. induction n as [|n IH]; intros idx H0 Hle.
  - exists None. split; [done|]. by intros j [=].
  - destruct (entry_type_ok buf idx HL) as [w Hw]; [lia|]. simpl. rewrite Hw. simpl. zcase.
    + exists (Some idx). split; [done|]. intros j [= <-]. lia.
    + destruct (IH (idx + 1)) as (r & -> & Hr); [lia|lia|]. exists r. split; [done|].
      intros j Hj. specialize (Hr j Hj). lia.
Qed.

(** The name of entry [idx] after entry [j] of a block was replaced. *)
Lemma name16_splice buf j e buf' idx :
  length buf = 512%nat → length e = 24%nat → 0 ≤ j < 21 → 0 ≤ idx < 21 →
  splice buf (24 * j) e = Ok buf' →
  name16 buf' idx = if decide (idx = j) then take 16 e else name16 buf idx.
Proof.
  intros HL He Hj Hi Hsp. destruct (splice_ok buf (24 * j) e) as (b & Hb & HLb & Hk); [lia|unfold zlen; lia|].
  rewrite Hsp in Hb. injection Hb as <-. unfold name16, entry_name.
  assert (Hlen : ∀ l : list Z, length l = 512%nat → length (take 16 (drop (Z.to_nat (24 * idx)) l)) = 16%nat)
    by (intros l Hl; rewrite length_take, length_drop; lia).
  apply list_eq_len.
  - rewrite Hlen by lia. destruct (decide (idx = j)); [rewrite length_take; lia | rewrite Hlen; lia].
  - rewrite Hlen by lia. intros k Hk16. rewrite lookup_take_lt, lookup_drop by lia.
    replace (Z.to_nat (24 * idx) + k)%nat with (Z.to_nat (24 * idx + Z.of_nat k)) by lia. rewrite Hk by lia.
    unfold zlen. rewrite He. change (Z.of_nat 24) with 24.
    destruct (decide (idx = j)) as [->|Hne].
    + rewrite (proj2 (Z.leb_le _ _)), (proj2 (Z.ltb_lt _ _)) by lia. simpl.
      rewrite lookup_take_lt by lia. f_equal. lia.
    + rewrite lookup_take_lt, lookup_drop by lia.
      replace (Z.to_nat (24 * idx) + k)%nat with (Z.to_nat (24 * idx + Z.of_nat k)) by lia.
      destruct (Z.leb_spec (24 * j) (24 * idx + Z.of_nat k)), (Z.ltb_spec (24 * idx + Z.of_nat k) (24 * j + 24));
        simpl; done || lia.
Qed.

(** An entry of 24 bytes that starts with the name. *)
Definition entry_of (nm e : list Z) : Prop :=
  length e = 24%nat ∧ Forall (λ y, 0 ≤ y < 256) e ∧ (nm ++ [0]) `prefix_of` take 16 e.

(** A block in which [nm] does not occur, with the entry stored at [j]. *)
Lemma block_with_entry nm buf j e :
  file_name nm → length buf = 512%nat → names_ok buf → entry_of nm e → 0 ≤ j < 21 →
  (∀ k, 0 ≤ k < 21 → ¬ has_name nm buf k) →
  ∃ buf', splice buf (24 * j) e = Ok buf' ∧ length buf' = 512%nat ∧ names_ok buf' ∧
    has_name nm buf' j ∧ (∀ k, 0 ≤ k < j → ¬ has_name nm buf' k) ∧ slice buf' (24 * j) 24 = Ok e.
Proof.
  intros Hn HL [HF H0] (He & HFe & Hpre) Hj Hno.
  destruct (splice_ok buf (24 * j) e) as (buf' & Hsp & HL' & Hk); [lia|unfold zlen; lia|].
  pose proof (λ idx Hi, name16_splice buf j e buf' idx HL He Hj Hi Hsp) as Hname.
  exists buf'. split_and!; [done | lia | | | |].
  - split; [by eapply splice_Forall|]. intros idx Hi. rewrite Hname by done. case_decide; [|auto].
    eapply elem_of_prefix; [|exact Hpre]. apply elem_of_app. right. by apply list_elem_of_singleton.
  - unfold has_name. rewrite Hname by done. by rewrite decide_True.
  - intros k Hk'. unfold has_name. rewrite Hname by lia. rewrite decide_False by lia. apply Hno. lia.
  - rewrite slice_ok by (unfold zlen; lia). f_equal. apply list_eq_len.
    + rewrite length_take, length_drop. lia.
    + intros k Hk'. rewrite length_take, length_drop in Hk'. rewrite lookup_take_lt, lookup_drop by lia.
      replace (Z.to_nat (24 * j) + k)%nat with (Z.to_nat (24 * j + Z.of_nat k)) by lia. rewrite Hk by lia.
      unfold zlen. rewrite He. rewrite (proj2 (Z.leb_le _ _)), (proj2 (Z.ltb_lt _ _)) by lia. simpl. f_equal. lia.
Qed.

Lemma zero_block nm :
  file_name nm → names_ok (replicate 512 0) ∧ ∀ k, 0 ≤ k < 21 → ¬ has_name nm (replicate 512 0) k.
Proof.
  intros [Hn Hl].
  assert (Hz : ∀ idx, 0 ≤ idx < 21 → name16 (replicate 512 0) idx = replicate 16 0).
  { intros idx Hi. unfold name16, entry_name. rewrite drop_replicate, take_replicate. f_equal. lia. }
  split.
  - split; [apply Forall_replicate; lia|]. intros idx Hi. rewrite Hz by done. apply elem_of_cons. by left.
  - intros k Hk. unfold has_name. rewrite Hz by done. destruct nm as [|y nm]; [change (zlen (@nil Z)) with 0 in Hl; lia|].
    apply Forall_cons in Hn as [Hy _]. intros H. apply (prefix_cons_inv_1 y 0) in H. lia.
Qed.

(** A directory with direct blocks only, each one in use, distinct from the
    others and full of terminated names, none of them [nm]. *)
Record dir_without (s : fs) (i : inode) (nm : list Z) : Prop := {
  dw_ok : inode_ok i;
  dw_direct : i_sectors i !! 12%nat = Some 0;
  dw_block : ∀ k lba, (k < 12)%nat → i_sectors i !! k = Some lba → lba ≠ 0 →
    in_use s lba ∧ ∃ sec, dsk s !! lba = Some sec ∧ names_ok sec ∧ ∀ j, 0 ≤ j < 21 → ¬ has_name nm sec j;
  dw_distinct : ∀ k k' lba, (k < 12)%nat → (k' < 12)%nat → i_sectors i !! k = Some lba →
    i_sectors i !! k' = Some lba → lba ≠ 0 → k = k';
}.

(** Block [k] can take another entry. *)
Definition room (s : fs) (i : inode) (k : nat) : Prop :=
  ∃ lba, i_sectors i !! k = Some lba ∧
    (lba = 0 ∨ ∃ sec j, dsk s !! lba = Some sec ∧ free_entry 21 sec 0 = Ok (Some j)).

(** After an insertion: block [k] holds the entry as the first one with this name,
    and the blocks before it are as before. *)
Record inserted (s s' : fs) (a : Z) (i i' : inode) (nm e : list Z) (k : nat) (lba j : Z) (sec : list Z) : Prop := {
  in_k : (k < 12)%nat;
  in_inode : inodes s' = <[a := i']> (inodes s);
  in_sectors : i_sectors i' = <[k := lba]> (i_sectors i);
  in_size : i_size i' = u32 (i_size i + 24) ∧ i_no i' = i_no i;
  in_ok : inode_ok i';
  in_lba : lba ≠ 0 ∧ in_use s' lba ∧ dsk s' !! lba = Some sec;
  in_used : ∀ x, in_use s x → in_use s' x;
  in_names : names_ok sec ∧ length sec = 512%nat;
  in_found : 0 ≤ j < 21 ∧ has_name nm sec j ∧ ∀ k, 0 ≤ k < j → ¬ has_name nm sec k;
  in_entry : slice sec (24 * j) 24 = Ok e;
  in_before : ∀ k' l, (k' < k)%nat → i_sectors i !! k' = Some l → l ≠ 0 → dsk s' !! l = dsk s !! l;
  in_wf : fs_wf s';
}.

Lemma inode_ok_size n i : inode_ok i → inode_ok (with_size (u32 n) i).
Proof. intros (?&?&?&?&?). unfold inode_ok, u32_range_P in *. pose proof (u32_range n). split_and!; simpl; (done || lia). Qed.

(** A new direct block for the entry. *)
Lemma insert_new_block a i nm e k s :
  fs_wf s → dir_entry_size (sb (part s)) = 24 → inodes s !! a = Some i → dir_without s i nm →
  file_name nm → entry_of nm e → (k < 12)%nat → i_sectors i !! k = Some 0 →
  let all_blocks := take 12 (i_sectors i) ++ replicate 128 0 in
  ∃ ok d b m, sync_loop 1 a e all_blocks (Z.of_nat k) s = Ok (ok, upd d b m s) ∧
    ((ok = false ∧ bitmap_full (upd d b m s)) ∨
     (ok = true ∧ ∃ i' lba sec, inserted s (upd d b m s) a i i' nm e k lba 0 sec)).
Proof.
  intros Hwf Hsz Ha Hdw Hn He Hk Hz ab. destruct Hdw as [Hok H12 Hb Hd]. pose proof Hok as (_&_&_&H13&_).
  assert (Hlab : length ab = 140%nat) by (unfold ab; rewrite length_app, length_take, length_replicate; lia).
  cbn [sync_loop]. unfold ab at 1.
  assert (Hg : aget ab (Z.of_nat k) = Ok 0).
  { apply aget_ok. split; [lia|]. rewrite Nat2Z.id. unfold ab.
    rewrite lookup_app_l, lookup_take_lt by (rewrite ?length_take; lia). done. }
  fold ab. mrun Hg. rewrite Z.eqb_refl. unfold dir_new_block.
  destruct (take_block s Hwf) as [[-> Hf]|(lba & b1 & -> & Hlba & Hfr & Hu1 & Hw1 & Hsync)];
    cbn [mbind outcome_bind].
  { exists false, (dsk s), (block_bitmap (part s)), (inodes s). rewrite upd_self. split; [done|]. by left. }
  rewrite (proj2 (Z.eqb_neq lba (-1))) by lia.
  destruct (Hsync (inodes s)) as (d & Hsy & Hwf1 & Hab). unfold sync_block in Hsy. mrun Hsy.
  assert (Hgi : get_inode a (upd d b1 (inodes s) s) = Ok i) by (unfold get_inode; simpl; by rewrite Ha).
  mrun Hgi.
  rewrite (proj2 (Z.ltb_lt (Z.of_nat k) 12)) by lia. rewrite (u32_small lba) by lia.
  destruct (set_sector_ok i k lba Hok) as [Hss Hi1]; [lia|unfold u32_range_P; lia|]. mrun Hss.
  set (i1 := with_sectors _ i) in *. rewrite (put_inode_ok a i) by done. cbn [mbind outcome_bind].
  rewrite aset_ok by (unfold zlen; lia). cbn [mbind outcome_bind]. rewrite Nat2Z.id.
  assert (Hg2 : aget (<[k := lba]> ab) (Z.of_nat k) = Ok lba).
  { apply aget_ok. split; [lia|]. rewrite Nat2Z.id. apply list_lookup_insert_eq. lia. }
  mrun Hg2. destruct He as (HLe & HFe & Hpre). unfold new_dir_block.
  change (sb (part _)) with (sb (part s)). rewrite Hsz. rewrite slice_ok by (unfold zlen; lia).
  cbn [mbind outcome_bind]. change (drop (Z.to_nat 0) e) with e. rewrite take_ge by lia.
  destruct (zero_block nm Hn) as [Hnz Hnn].
  destruct (block_with_entry nm (replicate 512 0) 0 e) as (sec & Hsp & HLs & Hns & Hhas & Hbef & Hsl);
    [done | apply length_replicate | done | done | lia | done |].
  change (24 * 0) with 0 in Hsp. mrun Hsp.
  assert (Hu : in_use (upd d b1 (inodes s) s) lba) by (apply Hu1; by left).
  destruct (in_use_sector _ _ Hwf1 Hu) as (_ & _ & sec0 & Hsec0 & _).
  change (dsk (upd d b1 (inodes s) s)) with d in Hsec0.
  change (dsk (set_inodes _ _)) with d.
  rewrite disk_write_one; [|by eexists|unfold zlen; lia]. rewrite take_ge by lia. cbn [mbind outcome_bind].
  unfold get_inode. cbn [inodes set_inodes]. rewrite lookup_insert_eq. cbn [mbind outcome_bind of_opt].
  rewrite (put_inode_ok a i1) by (cbn [inodes set_inodes set_dsk]; apply lookup_insert_eq).
  cbn [mbind outcome_bind]. set (i2 := with_size _ i1). set (m2 := <[a := i2]> _).
  exists true, (<[lba := sec]> d), b1, m2. split; [done|]. right. split; [done|].
  exists i2, lba, sec. split; try done; try lia.
  - unfold m2. cbn [inodes set_inodes set_dsk upd]. by rewrite insert_insert_eq.
  - by apply inode_ok_size.
  - split; [lia|]. split; [exact Hu|]. apply lookup_insert_eq.
  - intros x Hx. apply Hu1. by right.
  - intros k' l Hk' Hl Hl0. destruct (Hb k' l) as [Hul _]; [lia|done|done|].
    simpl. rewrite lookup_insert_ne by (intros ->; done). apply Hab. by apply in_use_above.
  - apply (fs_wf_write (upd d b1 (inodes s) s) _ lba sec); try done. by destruct Hns.
Qed.

(** The free entry [j] of the existing block [k]. *)
Lemma insert_old_block a i nm e k s lba sec j n all_blocks :
  fs_wf s → dir_entry_size (sb (part s)) = 24 → inodes s !! a = Some i → dir_without s i nm →
  file_name nm → entry_of nm e → (k < 12)%nat → i_sectors i !! k = Some lba → lba ≠ 0 →
  dsk s !! lba = Some sec → free_entry 21 sec 0 = Ok (Some j) →
  aget all_blocks (Z.of_nat k) = Ok lba →
  ∃ d m i' sec', sync_loop (S n) a e all_blocks (Z.of_nat k) s =
      Ok (true, upd d (block_bitmap (part s)) m s) ∧
    inserted s (upd d (block_bitmap (part s)) m s) a i i' nm e k lba j sec'.
Proof.
  intros Hwf Hsz Ha [Hok H12 Hb Hd] Hn He Hk Hz Hl0 Hsec Hfree Hg. cbn [sync_loop]. mrun Hg.
  rewrite (proj2 (Z.eqb_neq lba 0) Hl0). rewrite (disk_read_one _ _ _ Hsec). cbn [mbind outcome_bind].
  unfold entrys_per_sec. rewrite Hsz. change (24 =? 0) with false. cbn [mbind outcome_bind].
  change (Z.to_nat (SECTOR_SIZE / 24)) with 21%nat. mrun Hfree.
  destruct (Hb k lba) as (Hu & sec1 & Hsec1 & Hns & Hnn); [done|done|done|].
  rewrite Hsec in Hsec1. injection Hsec1 as <-.
  destruct (fw_disk _ Hwf _ _ Hsec) as [HLsec _].
  destruct (free_entry_ok 21 sec 0 HLsec) as (r & Hr & Hj); [lia|done|].
  rewrite Hfree in Hr. injection Hr as <-. specialize (Hj j eq_refl).
  destruct (block_with_entry nm sec j e) as (sec' & Hsp & HLs & Hns' & Hhas & Hbef & Hsl); try done.
  pose proof He as (HLe & _ & _). rewrite slice_ok by (unfold zlen; lia). cbn [mbind outcome_bind].
  change (drop (Z.to_nat 0) e) with e. rewrite take_ge by lia. mrun Hsp.
  rewrite disk_write_one; [|by eexists|unfold zlen; lia]. rewrite take_ge by lia. cbn [mbind outcome_bind].
  unfold get_inode. mrun Ha. rewrite (put_inode_ok a i) by done. cbn [mbind outcome_bind].
  set (i2 := with_size _ i). set (m2 := <[a := i2]> (inodes s)).
  exists (<[lba := sec']> (dsk s)), m2, i2, sec'. split; [by destruct s as [? [] ? ? ? ? ? ? ? ? ?]|].
  split; try done; try lia.
  - unfold i2. simpl. symmetry. by apply list_insert_id.
  - by apply inode_ok_size.
  - split; [done|]. split; [by destruct s as [? [] ? ? ? ? ? ? ? ? ?]|]. apply lookup_insert_eq.
  - intros k' l Hk' Hl Hl'. simpl. rewrite lookup_insert_ne; [done|]. intros ->.
    assert (k = k') by (apply (Hd k k' l); done || lia). lia.
  - apply (fs_wf_write s _ lba sec'); try done; [by destruct s as [? [] ? ? ? ? ? ? ? ? ?] | by destruct Hns'].
Qed.

Lemma sync_loop_ok n a i nm e k s :
  fs_wf s → dir_entry_size (sb (part s)) = 24 → inodes s !! a = Some i → dir_without s i nm →
  file_name nm → entry_of nm e → (k < 12)%nat → (∃ m, (k ≤ m < 12)%nat ∧ room s i m) → (12 ≤ n + k)%nat →
  let all_blocks := take 12 (i_sectors i) ++ replicate 128 0 in
  ∃ ok d b m, sync_loop n a e all_blocks (Z.of_nat k) s = Ok (ok, upd d b m s) ∧
    ((ok = false ∧ bitmap_full (upd d b m s)) ∨
     (ok = true ∧ ∃ i' k' lba j sec, inserted s (upd d b m s) a i i' nm e k' lba j sec)).
Proof.
  intros Hwf Hsz Ha Hdw Hn He. revert k. induction n as [|n IH]; intros k Hk Hroom Hnk ab; [lia|].
  pose proof (dw_ok _ _ _ Hdw) as (_&_&_&H13&_).
  destruct (lookup_lt_is_Some_2 (i_sectors i) k) as [lba Hlba]; [lia|].
  assert (Hg : aget ab (Z.of_nat k) = Ok lba).
  { apply aget_ok. split; [lia|]. rewrite Nat2Z.id. unfold ab.
    rewrite lookup_app_l, lookup_take_lt by (rewrite ?length_take; lia). done. }
  destruct (decide (lba = 0)) as [->|Hl0].
  - destruct (insert_new_block a i nm e k s) as (ok & d & b & m & Hsl & Hres); try done.
    exists ok, d, b, m. split.
    + fold ab in Hsl. rewrite <- Hsl. cbn [sync_loop]. mrun Hg. by rewrite Z.eqb_refl.
    + destruct Hres as [?|(-> & i' & lba & sec & HI)]; [by left|right]. split; [done|]. by exists i', k, lba, 0, sec.
  - destruct (dw_block _ _ _ Hdw k lba) as (Hu & sec & Hsec & Hns & Hnn); [done|done|done|].
    destruct (fw_disk _ Hwf _ _ Hsec) as [HLsec _].
    destruct (free_entry_ok 21 sec 0 HLsec) as (r & Hr & _); [lia|done|].
    destruct r as [j|].
    + destruct (insert_old_block a i nm e k s lba sec j n ab) as (d & m & i' & sec' & Hsl & HI); try done.
      exists true, d, (block_bitmap (part s)), m. split; [done|]. right. split; [done|].
      by exists i', k, lba, j, sec'.
    + cbn [sync_loop]. mrun Hg. rewrite (proj2 (Z.eqb_neq lba 0) Hl0).
      rewrite (disk_read_one _ _ _ Hsec). cbn [mbind outcome_bind].
      unfold entrys_per_sec. rewrite Hsz. change (24 =? 0) with false. cbn [mbind outcome_bind].
      change (Z.to_nat (SECTOR_SIZE / 24)) with 21%nat. mrun Hr.
      replace (Z.of_nat k + 1) with (Z.of_nat (S k)) by lia.
      destruct Hroom as (m & Hm & Hrm). assert (Hmk : m ≠ k).
      { intros ->. destruct Hrm as (l & Hl & [->|(sc & j & Hsc & Hfr)]); [congruence|].
        assert (sc = sec) as -> by congruence. congruence. }
      apply IH; [lia | exists m; split; [lia|done] | lia].
Qed.

(** The search stops at the first block that has the name. *)
Lemma search_blocks_at pre lba post nm sec j d :
  file_name nm → (∀ l, l ∈ pre → l ≠ 0 → ∃ sc, d !! l = Some sc ∧ names_ok sc ∧ ∀ k, 0 ≤ k < 21 → ¬ has_name nm sc k) →
  lba ≠ 0 → d !! lba = Some sec → names_ok sec → 0 ≤ j < 21 → has_name nm sec j →
  (∀ k, 0 ≤ k < j → ¬ has_name nm sec k) →
  search_blocks (pre ++ lba :: post) 21 (nm ++ [0]) d = Ok (Some (sec, j)).
Proof.
  intros Hn Hpre Hl Hsec Hns Hj Hhas Hbef. induction pre as [|l pre IH].
  - cbn [app search_blocks]. rewrite (proj2 (Z.eqb_neq lba 0) Hl), (disk_read_one _ _ _ Hsec).
    cbn [mbind outcome_bind].
    destruct (search_entries_ok 21 nm sec 0) as (r & -> & Hr); [done|done|lia|done|]. cbn [mbind outcome_bind].
    destruct r as [j'|]; [|by destruct (Hr j); [lia|]].
    destruct Hr as (Hj' & Hh' & Hb'). assert (j' = j) as ->; [|done].
    destruct (decide (j' < j)); [by destruct (Hbef j'); [lia|]|].
    destruct (decide (j < j')); [by destruct (Hb' j); [lia|]|]. lia.
  - cbn [app search_blocks]. destruct (Z.eqb_spec l 0) as [->|Hl0].
    { apply IH. intros l Hin. apply Hpre. by apply elem_of_cons; right. }
    destruct (Hpre l) as (sc & Hsc & Hns' & Hno); [by apply elem_of_cons; left|done|].
    rewrite (disk_read_one _ _ _ Hsc). cbn [mbind outcome_bind].
    destruct (search_entries_ok 21 nm sc 0) as (r & -> & Hr); [done|done|lia|done|]. cbn [mbind outcome_bind].
    destruct r as [j'|]; [by destruct Hr as (Hj' & Hh' & _); destruct (Hno j'); [lia|]|].
    apply IH. intros l' Hin. apply Hpre. by apply elem_of_cons; right.
Qed.

(** ** Properties *)

(** The insertion. *)
Lemma sync_entry_ok p dd i nm e s :
  fs_wf s → dir_entry_size (sb (part s)) = 24 → dirs s !! p = Some dd →
  inodes s !! dinode dd = Some i → dir_without s i nm → (∃ m, (m < 12)%nat ∧ room s i m) →
  file_name nm → entry_of nm e →
  ∃ ok d b m, sync_dir_entry p e s = Ok (ok, upd d b m s) ∧
    ((ok = false ∧ bitmap_full (upd d b m s)) ∨
     (ok = true ∧ ∃ i' k lba j sec, inserted s (upd d b m s) (dinode dd) i i' nm e k lba j sec)).
Proof.
  intros Hwf Hsz Hp Ha Hdw (m0 & Hm0 & Hroom) Hn He.
  pose proof (dw_ok _ _ _ Hdw) as (_&_&_&H13&_).
  unfold sync_dir_entry, get_dir, dir_inode_of, get_inode, entrys_per_sec. mrun Hp. mrun Ha. rewrite Hsz.
  change (24 =? 0) with false. cbn [mbind outcome_bind]. rewrite slice_ok by (unfold zlen; lia).
  cbn [mbind outcome_bind]. change (take (Z.to_nat 12) (drop (Z.to_nat 0) (i_sectors i))) with (take 12 (i_sectors i)).
  apply (sync_loop_ok 140 (dinode dd) i nm e 0 s); try done; try lia.
  exists m0. split; [lia|done].
Qed.

(** The search afterwards, in a state [s2] with the same directory and data blocks. *)
Lemma search_inserted p dd i i' nm e k lba j sec dir_e s s1 s2 h1 h2 rest :
  fs_wf s → dir_without s i nm → inserted s s1 (dinode dd) i i' nm e k lba j sec → file_name nm → entry_of nm e → length dir_e = 24%nat →
  dir_entry_size (sb (part s2)) = 24 → dirs s2 !! p = Some dd → inodes s2 !! dinode dd = Some i' →
  (∀ l, in_use s1 l → dsk s2 !! l = dsk s1 !! l) → heap s2 = h1 :: h2 :: rest → h1 ≠ 0 → h2 ≠ 0 →
  search_dir_entry p (nm ++ [0]) dir_e s2 = Ok (Some e, set_heap rest s2).
Proof.
  intros Hwf Hdw HI Hn He Hde Hsz Hp Hi' Hdsk Hh Hh1 Hh2. pose proof (dw_ok _ _ _ Hdw) as (_&_&_&H13&_).
  destruct HI as [Hk Hin Hsec Hsize _ (Hl0 & Hlo & Hds) Hus [Hns HLs] (Hj & Hhas & Hbef) Hsl Hbefore Hwf'].
  unfold search_dir_entry, kmalloc. rewrite Hh.
  rewrite (proj2 (Z.eqb_neq _ _) Hh1). unfold get_dir, dir_inode_of, get_inode.
  change (dirs (set_heap (h2 :: rest) s2)) with (dirs s2). mrun Hp.
  change (inodes (set_heap (h2 :: rest) s2)) with (inodes s2). mrun Hi'.
  assert (H13' : length (i_sectors i') = 13%nat) by (by rewrite Hsec, length_insert).
  unfold load_blocks. rewrite slice_ok by (unfold zlen; lia). cbn [mbind outcome_bind].
  assert (Hg12 : aget (i_sectors i') 12 = Ok 0).
  { apply aget_ok. split; [lia|]. rewrite Hsec. change (Z.to_nat 12) with 12%nat.
    rewrite list_lookup_insert_ne by lia. apply Hdw. }
  mrun Hg12. cbn [negb Z.eqb]. change (negb (0 =? 0)) with false. cbn iota. cbn [mbind outcome_bind heap set_heap].
  rewrite (proj2 (Z.eqb_neq _ _) Hh2). unfold entrys_per_sec.
  change (sb (part (set_heap rest (set_heap (h2 :: rest) s2)))) with (sb (part s2)). rewrite Hsz.
  change (24 =? 0) with false. cbn [mbind outcome_bind].
  change (Z.to_nat (SECTOR_SIZE / 24)) with 21%nat. change (Z.to_nat 12) with 12%nat. change (Z.to_nat 0) with 0%nat.
  rewrite drop_0, Hsec.
  assert (Hsplit : take 12 (<[k := lba]> (i_sectors i)) ++ replicate 128 0 =
    take k (i_sectors i) ++ lba :: (drop (S k) (take 12 (i_sectors i)) ++ replicate 128 0)).
  { rewrite take_insert_lt by lia. rewrite (insert_take_drop (take 12 (i_sectors i)) k lba) by (rewrite length_take; lia).
    rewrite take_take, Nat.min_l by lia. by rewrite <- app_assoc. }
  rewrite Hsplit. change (dsk (set_heap rest (set_heap (h2 :: rest) s2))) with (dsk s2). rewrite (search_blocks_at _ lba _ nm sec j); try done.
  - cbn [mbind outcome_bind]. mrun Hsl. rewrite (splice_eq dir_e 0 e).
    + change (Z.to_nat 0) with 0%nat. destruct He as (HLe & _ & _). unfold zlen. rewrite HLe.
      rewrite take_0, app_nil_l. rewrite (drop_ge dir_e) by lia. rewrite app_nil_r. done.
    + lia.
    + unfold zlen. destruct He as (HLe & _ & _). lia.
  - intros l Hl Hlne. apply list_elem_of_lookup in Hl as [k' Hk'].
    assert (Hlt : (k' < k)%nat) by (apply lookup_lt_Some in Hk'; rewrite length_take in Hk'; lia).
    rewrite lookup_take_lt in Hk' by lia.
    destruct (dw_block _ _ _ Hdw k' l) as (Hu & sc & Hsc & Hrest); [lia|done|done|].
    exists sc. split; [|done]. rewrite Hdsk by (by apply Hus). rewrite <- Hsc. by apply (Hbefore k').
  - by rewrite Hdsk.
Qed.

(** What [sync_dir_entry] adds, [search_dir_entry] finds.  In a directory with
    direct blocks in which the name does not occur and one block has room (or is
    not allocated yet), the insertion returns; it returns false only when no
    block of the partition is free, and otherwise grows the directory by one
    entry, keeps the partition well formed, and a search for the name then
    delivers exactly the entry that was added. *)
Theorem dir_insert_search p dd a i nm e dir_e s h1 h2 rest :
  fs_wf s → dir_entry_size (sb (part s)) = 24 → dirs s !! p = Some dd → dinode dd = a →
  inodes s !! a = Some i → dir_without s i nm → (∃ m, (m < 12)%nat ∧ room s i m) →
  file_name nm → entry_of nm e → length dir_e = 24%nat →
  heap s = h1 :: h2 :: rest → h1 ≠ 0 → h2 ≠ 0 →
  ∃ ok s1, sync_dir_entry p e s = Ok (ok, s1) ∧
    ((ok = false ∧ bitmap_full s1) ∨
     (ok = true ∧ fs_wf s1 ∧ (∃ i', inodes s1 !! a = Some i' ∧ i_size i' = u32 (i_size i + 24)) ∧
      search_dir_entry p (nm ++ [0]) dir_e s1 = Ok (Some e, set_heap rest s1))).
Proof.
  intros Hwf Hsz Hp <- Ha Hdw Hroom Hn He Hde Hh Hh1 Hh2.
  destruct (sync_entry_ok p dd i nm e s Hwf Hsz Hp Ha Hdw Hroom Hn He) as (ok & d & b & m & E & Hres). exists ok, (upd d b m s). split; [done|].
  destruct Hres as [?|(-> & i' & k & lba & j & sec & HI)]; [by left|right]. split; [done|].
  assert (Hi' : inodes (upd d b m s) !! dinode dd = Some i') by (rewrite (in_inode _ _ _ _ _ _ _ _ _ _ _ HI); apply lookup_insert_eq).
  split; [apply HI|]. split; [exists i'; split; [done|apply HI]|]. by apply (search_inserted p dd i i' nm e k lba j sec dir_e s (upd d b m s) (upd d b m s) h1 h2 rest).
Qed.

(** ** A directory with one empty block *)

Definition demo_dir_inode : inode := Inode 0 48 1 false ([612] ++ replicate 12 0).
Definition demo_dir_fs : fs :=
  set_dirs {[ ROOT_DIR := Dir 0xc0200000 0 (replicate 512 0) ]}
    (set_inodes {[ 0xc0200000 := demo_dir_inode ]} demo_fs).
Definition demo_name : list Z := [97; 98].
Definition demo_entry : list Z := demo_name ++ replicate 14 0 ++ le32 1 ++ le32 1.

Lemma demo_dir_wf : fs_wf demo_dir_fs.
Proof. by apply (fs_wf_frame demo_fs); [apply demo_wf | reflexivity | apply demo_wf |]. Qed.

Lemma demo_file_name : file_name demo_name.
Proof. split; [repeat constructor; lia | split; vm_compute; discriminate]. Qed.

Lemma demo_dir_without nm : file_name nm → dir_without demo_dir_fs demo_dir_inode nm.
Proof.
  intros Hn. split.
  - unfold inode_ok, u32_range_P. simpl. split_and!; try lia; try done. repeat constructor; lia.
  - done.
  - intros k lba Hk Hl Hne. destruct k as [|k]; [|exfalso; apply Hne].
    + injection Hl as <-. split.
      * unfold in_use. cbn [part demo_dir_fs set_dirs set_inodes demo_fs]. vm_compute. done.
      * exists (replicate 512 0). split; [apply blank_disk_lookup; lia|]. by apply zero_block.
    + change (replicate 12 0 !! k = Some lba) in Hl. by apply lookup_replicate in Hl as [-> _].
  - intros k k' lba Hk Hk' Hl Hl' Hne.
    assert (Hz : ∀ n, (0 < n)%nat → i_sectors demo_dir_inode !! n = Some lba → False).
    { intros [|n] Hpos Hx; [lia|]. apply Hne. change (replicate 12 0 !! n = Some lba) in Hx.
      by apply lookup_replicate in Hx as [-> _]. }
    destruct k, k'; [done | by destruct (Hz (S k')); [lia|] | by destruct (Hz (S k)); [lia|] |].
    by destruct (Hz (S k)); [lia|].
Qed.

Lemma dir_insert_search_witness :
  ∃ ok s1, sync_dir_entry ROOT_DIR demo_entry demo_dir_fs = Ok (ok, s1) ∧
    ((ok = false ∧ bitmap_full s1) ∨
     (ok = true ∧ fs_wf s1 ∧ (∃ i', inodes s1 !! 0xc0200000 = Some i' ∧ i_size i' = u32 (48 + 24)) ∧
      search_dir_entry ROOT_DIR (demo_name ++ [0]) (replicate 24 0) s1 =
        Ok (Some demo_entry, set_heap [0xc0103000; 0xc0104000; 0xc0105000; 0xc0106000] s1))).
Proof.
  apply (dir_insert_search ROOT_DIR (Dir 0xc0200000 0 (replicate 512 0)) 0xc0200000 demo_dir_inode demo_name
    demo_entry (replicate 24 0) demo_dir_fs 0xc0101000 0xc0102000
    [0xc0103000; 0xc0104000; 0xc0105000; 0xc0106000]);
    [apply demo_dir_wf | reflexivity | reflexivity | reflexivity | reflexivity | apply demo_dir_without, demo_file_name
    | | apply demo_file_name | | apply length_replicate | reflexivity | lia | lia].
  - exists 0%nat. split; [lia|]. exists 612. split; [reflexivity|]. right. exists (replicate 512 0), 0.
    split; [apply blank_disk_lookup; lia | vm_compute; reflexivity].
  - split; [reflexivity|]. split.
    { repeat (apply Forall_cons; split; [split; [vm_compute; discriminate | vm_compute; reflexivity]|]).
      apply Forall_nil_2. }
    exists (replicate 13 0). reflexivity.
Defined.
