(* ===== verification/File.v ===== *)
(** * Files (fs/file.c)

    A file's data lies in up to 140 blocks of one sector: 12 direct ones and the
    128 of the indirect block.  A file is named by its index in [file_table]; its
    inode is reached through the pointer [fd_inode].  [-1] results are the
    error returns of the code. *)

From S2P Require Import Prelude Bitmap Disk FsState Inode Dir.

(** ** Tables of open files *)

(** The search for a free slot, from [fd_idx] on. *)
Fixpoint free_slot (l : list file) (fd_idx : Z) : Z :=
  match l with
  | [] => -1
  | f :: rest => if fd_inode f =? 0 then fd_idx else free_slot rest (fd_idx + 1)
  end.

Definition get_free_slot_in_global (s : fs) : Z := free_slot (drop 3 (file_table s)) 3.

Fixpoint free_fd (l : list Z) (local_fd_idx : Z) : Z :=
  match l with
  | [] => -1
  | g :: rest => if g =? -1 then local_fd_idx else free_fd rest (local_fd_idx + 1)
  end.

Definition pcb_fd_install (global_fd_idx : Z) (s : fs) : outcome (Z * fs) :=
  let local_fd_idx := free_fd (drop 3 (fd_table s)) 3 in
  if local_fd_idx =? -1 then Ok (-1, s)
  else
    t ← aset (fd_table s) local_fd_idx global_fd_idx;
    Ok (local_fd_idx, set_fd_table t s).

Definition put_file (idx : Z) (f : file) (s : fs) : outcome fs :=
  t ← aset (file_table s) idx f; Ok (set_file_table t s).

(** ** Opening and closing *)

Definition O_RDONLY : Z := 0.
Definition O_WRONLY : Z := 1.
Definition O_RDWR : Z := 2.
Definition O_CREAT : Z := 4.

Definition file_open (inode_no flag : Z) (s : fs) : outcome (Z * fs) :=
  let fd_idx := get_free_slot_in_global s in
  if fd_idx =? -1 then Ok (-1, s)
  else
    '(a, s) ← inode_open inode_no s;
    s ← put_file fd_idx (File 0 flag a) s;
    i ← get_inode a s;
    if negb (Z.land flag O_WRONLY =? 0) || negb (Z.land flag O_RDWR =? 0) then
      if negb (write_deny i) then
        s ← put_inode a (with_deny true i) s;
        pcb_fd_install fd_idx s
      else Ok (-1, s)
    else pcb_fd_install fd_idx s.

(** [idx]: the slot of the file in [file_table] (its address is never [NULL]). *)
Definition file_close (idx : Z) (s : fs) : outcome (Z * fs) :=
  f ← aget (file_table s) idx;
  i ← get_inode (fd_inode f) s;
  s ← put_inode (fd_inode f) (with_deny false i) s;
  s ← inode_close (fd_inode f) s;
  s ← put_file idx (File (fd_pos f) (fd_flag f) 0) s;
  Ok (0, s).

(** The error exits of [file_create]; [sys_free] of the inode. *)
Definition create_rollback (step : Z) (fd_idx inode_no new_file_inode : Z) (s : fs) : outcome (Z * fs) :=
  s ← (if step =? 3 then put_file fd_idx (File 0 0 0) s else Ok s);
  let s := if 2 <=? step then set_inodes (delete new_file_inode (inodes s)) s else s in
  s ← inode_bitmap_set inode_no 0 s;
  Ok (-1, s).

Definition file_create (parent_dir : Z) (fname : list Z) (flag : Z) (s : fs) : outcome (Z * fs) :=
  let '(io_buf, s) := kmalloc s in
  if io_buf =? 0 then Ok (-1, s)
  else
    '(inode_no, s) ← inode_bitmap_alloc s;
    if inode_no =? -1 then Ok (-1, s)
    else
      let '(a, s) := kmalloc s in
      if a =? 0 then create_rollback 1 (-1) inode_no a s
      else
        let s := set_inodes (<[a := inode_init inode_no]> (inodes s)) s in
        let fd_idx := get_free_slot_in_global s in
        if fd_idx =? -1 then create_rollback 2 fd_idx inode_no a s
        else
          s ← put_file fd_idx (File 0 flag a) s;
          s ← put_inode a (with_deny false (inode_init inode_no)) s;
          new_dir_entry ← create_dir_entry fname inode_no (ftype_word FT_REGULAR) (replicate 24 0);
          '(ok, s) ← sync_dir_entry parent_dir new_dir_entry s;
          if negb ok then create_rollback 3 fd_idx inode_no a s
          else
            d ← get_dir parent_dir s;
            i ← dir_inode_of d s;
            s ← inode_sync 1024 i s;
            j ← get_inode a s;
            s ← inode_sync 1024 j s;
            s ← bitmap_sync inode_no INODE_BITMAP s;
            let s := set_part (set_open (a :: open_inodes (part s)) (part s)) s in
            s ← put_inode a (with_cnts 1 j) s;
            pcb_fd_install fd_idx s.

(** ** Writing *)

(** The first write to a file allocates its first block; [false]: no block. *)
Definition first_block (a : Z) (s : fs) : outcome (bool * fs) :=
  i ← get_inode a s;
  b0 ← aget (i_sectors i) 0;
  if b0 =? 0 then
    '(block_lba, s) ← block_bitmap_alloc s;
    if block_lba =? -1 then Ok (false, s)
    else
      i ← set_sector i 0 (u32 block_lba);
      s ← put_inode a i s;
      s ← sync_block block_lba s;
      Ok (true, s)
  else Ok (true, s).

(** The allocation loops for the blocks from [block_idx] up to
    [file_will_use_blocks].  [to_inode] says which of the new blocks go into
    [i_sectors] as well: in the first situation all, in the second the direct
    ones, in the third none. *)
Fixpoint alloc_loop (n : nat) (to_inode : Z → bool) (a : Z) (all_blocks : list Z) (block_idx : Z) (s : fs)
    : outcome (option (list Z) * fs) :=
  match n with
  | O => Ok (Some all_blocks, s)
  | S n' =>
      '(block_lba, s) ← block_bitmap_alloc s;
      if block_lba =? -1 then Ok (None, s)
      else
        s ← (if to_inode block_idx then
               i ← get_inode a s;
               i ← set_sector i block_idx (u32 block_lba);
               put_inode a i s
             else Ok s);
        all_blocks ← aset all_blocks block_idx (u32 block_lba);
        s ← sync_block block_lba s;
        alloc_loop n' to_inode a all_blocks (block_idx + 1) s
  end.

(** [ide_read (indirect_block_table, all_blocks + 12, 1)] *)
Definition read_table (ind : Z) (all_blocks : list Z) (s : fs) : outcome (list Z) :=
  b ← disk_read (dsk s) ind 1; Ok (take 12 all_blocks ++ words_of_bytes b).
Definition write_table (ind : Z) (all_blocks : list Z) (s : fs) : outcome fs :=
  d ← disk_write (dsk s) ind (bytes_of_words (drop 12 all_blocks)) 1; Ok (set_dsk d s).

(** The block map of the write; [None]: out of blocks. *)
Definition write_blocks (a has_used will_use : Z) (s : fs) : outcome (option (list Z) * fs) :=
  let all_blocks := replicate 140 0 in
  i ← get_inode a s;
  let last := has_used - 1 in
  let n := Z.to_nat (will_use - has_used) in
  if u32 (will_use - has_used) =? 0 then
    if will_use <=? 12 then
      b ← aget (i_sectors i) last;
      all_blocks ← aset all_blocks last b;
      Ok (Some all_blocks, s)
    else
      ind ← aget (i_sectors i) 12;
      all_blocks ← read_table ind all_blocks s;
      Ok (Some all_blocks, s)
  else if will_use <=? 12 then
    b ← aget (i_sectors i) last;
    all_blocks ← aset all_blocks last b;
    alloc_loop n (λ _, true) a all_blocks has_used s
  else if has_used <=? 12 then
    b ← aget (i_sectors i) last;
    all_blocks ← aset all_blocks last b;
    '(block_lba, s) ← block_bitmap_alloc s;
    if block_lba =? -1 then Ok (None, s)
    else
      i ← set_sector i 12 (u32 block_lba);
      s ← put_inode a i s;
      '(r, s) ← alloc_loop n (λ idx, idx <? 12) a all_blocks has_used s;
      match r with
      | None => Ok (None, s)
      | Some all_blocks => s ← write_table (u32 block_lba) all_blocks s; Ok (Some all_blocks, s)
      end
  else
    ind ← aget (i_sectors i) 12;
    all_blocks ← read_table ind all_blocks s;
    '(r, s) ← alloc_loop n (λ _, false) a all_blocks has_used s;
    match r with
    | None => Ok (None, s)
    | Some all_blocks => s ← write_table ind all_blocks s; Ok (Some all_blocks, s)
    end.

(** The data loop; [src] is what is left of the source buffer.  The trace
    message of line 346 is not modelled. *)
Fixpoint write_loop (fuel : nat) (idx a : Z) (all_blocks src : list Z) (size_left : Z) (first : bool) (s : fs)
    : outcome fs :=
  match fuel with
  | O => NoFuel
  | S fuel' =>
      if 0 <? size_left then
        i ← get_inode a s;
        f ← aget (file_table s) idx;
        sec_lba ← aget all_blocks (i_size i / BLOCK_SIZE);
        let sec_off_bytes := i_size i mod BLOCK_SIZE in
        let sec_left_bytes := BLOCK_SIZE - sec_off_bytes in
        let chunk_size := if size_left <? sec_left_bytes then size_left else sec_left_bytes in
        io_buf ← (if first : bool then disk_read (dsk s) sec_lba 1 else Ok (replicate 512 0));
        chunk ← slice src 0 chunk_size;
        io_buf ← splice io_buf sec_off_bytes chunk;
        d ← disk_write (dsk s) sec_lba io_buf 1;
        s ← put_inode a (with_size (u32 (i_size i + chunk_size)) i) (set_dsk d s);
        s ← put_file idx (File (u32 (fd_pos f + chunk_size)) (fd_flag f) (fd_inode f)) s;
        write_loop fuel' idx a all_blocks (drop (Z.to_nat chunk_size) src) (size_left - chunk_size) false s
      else Ok s
  end.

(** The buffer [io_buf] has 512 bytes, also where [inode_sync] uses it. *)
Definition file_write (idx : Z) (buf : list Z) (count : Z) (s : fs) : outcome (Z * fs) :=
  f ← aget (file_table s) idx;
  let a := fd_inode f in
  i ← get_inode a s;
  if u32 (i_size i + count) >? BLOCK_SIZE * 140 then Ok (-1, s)
  else
    let '(io_buf, s) := kmalloc s in
    if io_buf =? 0 then Ok (-1, s)
    else
      let '(all_blocks_p, s) := kmalloc s in
      if all_blocks_p =? 0 then Ok (-1, s)
      else
        '(ok, s) ← first_block a s;
        if negb ok then Ok (-1, s)
        else
          let has_used := i_size i / BLOCK_SIZE + 1 in
          let will_use := u32 (i_size i + count) / BLOCK_SIZE + 1 in
          '(r, s) ← write_blocks a has_used will_use s;
          match r with
          | None => Ok (-1, s)
          | Some all_blocks =>
              s ← put_file idx (File (u32 (i_size i - 1)) (fd_flag f) a) s;
              s ← write_loop (S (Z.to_nat count)) idx a all_blocks buf count true s;
              i ← get_inode a s;
              s ← inode_sync 512 i s;
              Ok (i32 count, s)
          end.

(** ** Reading *)

(** The block map of the read: [all_blocks] from [start_idx] to [end_idx]. *)
Definition copy_sectors (i : inode) (from n : Z) (all_blocks : list Z) : outcome (list Z) :=
  if n <=? 0 then Ok all_blocks else b ← slice (i_sectors i) from n; splice all_blocks from b.

Definition read_blocks (i : inode) (start_idx end_idx : Z) (s : fs) : outcome (list Z) :=
  let all_blocks := replicate 140 0 in
  if start_idx =? end_idx then
    if end_idx <? 12 then copy_sectors i end_idx 1 all_blocks
    else
      ind ← aget (i_sectors i) 12;
      read_table ind all_blocks s
  else if end_idx <? 12 then
    copy_sectors i start_idx (end_idx - start_idx + 1) all_blocks
  else if start_idx <? 12 then
    all_blocks ← copy_sectors i start_idx (12 - start_idx) all_blocks;
    ind ← aget (i_sectors i) 12;
    read_table ind all_blocks s
  else
    ind ← aget (i_sectors i) 12;
    read_table ind all_blocks s.

(** The data loop.  Around each transfer the page of the heap that [io_buf] lies
    in is saved and restored; [shared] says whether the destination lies in that
    page, in which case the restore undoes the copy. *)
Fixpoint read_loop (fuel : nat) (shared : bool) (idx : Z) (all_blocks dst : list Z) (done_ size_left : Z) (s : fs)
    : outcome (list Z * fs) :=
  match fuel with
  | O => NoFuel
  | S fuel' =>
      if 0 <? size_left then
        f ← aget (file_table s) idx;
        sec_lba ← aget all_blocks (fd_pos f / BLOCK_SIZE);
        let sec_off_bytes := fd_pos f mod BLOCK_SIZE in
        let sec_left_bytes := BLOCK_SIZE - sec_off_bytes in
        let chunk_size := if size_left <? sec_left_bytes then size_left else sec_left_bytes in
        io_buf ← disk_read (dsk s) sec_lba 1;
        chunk ← slice io_buf sec_off_bytes chunk_size;
        dst' ← splice dst done_ chunk;
        s ← put_file idx (File (u32 (fd_pos f + chunk_size)) (fd_flag f) (fd_inode f)) s;
        read_loop fuel' shared idx all_blocks (if shared then dst else dst')
          (done_ + chunk_size) (size_left - chunk_size) s
      else Ok (dst, s)
  end.

(** The result, the destination buffer and the state; [shared] says that the
    destination lies in the page that is saved and restored.  The trace message
    of lines 390-391 is not modelled. *)
Definition file_read (shared : bool) (idx : Z) (dst : list Z) (count : Z) (s : fs)
    : outcome (Z * list Z * fs) :=
  f ← aget (file_table s) idx;
  i ← get_inode (fd_inode f) s;
  let size := if u32 (fd_pos f + count) >? i_size i then u32 (i_size i - fd_pos f) else count in
  if (u32 (fd_pos f + count) >? i_size i) && (size =? 0) then Ok (-1, dst, s)
  else
    let '(io_buf, s) := kmalloc s in
    if io_buf =? 0 then Ok (-1, dst, s)
    else
      let '(all_blocks_p, s) := kmalloc s in
      if all_blocks_p =? 0 then Ok (-1, dst, s)
      else
        let '(temp, s) := kmalloc s in
        let start_idx := fd_pos f / BLOCK_SIZE in
        let end_idx := u32 (fd_pos f + size) / BLOCK_SIZE in
        all_blocks ← read_blocks i start_idx end_idx s;
        if temp =? 0 then Fault
        else
          '(dst, s) ← read_loop (S (Z.to_nat size)) shared idx all_blocks dst 0 size s;
          Ok (i32 size, dst, s).

(** ** The data of a file *)

(** [bs] are the blocks of the file with inode [i]: all in use and distinct, the
    first twelve in the inode, the others in the table of the indirect block,
    which is no data block of the file. *)
Record file_map (s : fs) (i : inode) (bs : list Z) : Prop := {
  fm_ok : inode_ok i;
  fm_used : Forall (in_use s) bs;
  fm_nodup : NoDup bs;
  fm_len : (length bs ≤ 140)%nat;
  fm_direct : ∀ k, (k < 12)%nat → (k < length bs)%nat → i_sectors i !! k = bs !! k;
  fm_table : (12 < length bs)%nat → ∃ ind sec,
    i_sectors i !! 12%nat = Some ind ∧ in_use s ind ∧ ind ∉ bs ∧ dsk s !! ind = Some sec ∧
    ∀ k, (12 ≤ k < length bs)%nat → words_of_bytes sec !! (k - 12)%nat = bs !! k;
}.

(** Byte [k] of the data is byte [k mod 512] of block [k / 512]. *)
Definition stored (d : disk) (bs data : list Z) : Prop :=
  ∀ k, 0 ≤ k < zlen data → ∃ b sec,
    bs !! Z.to_nat (k / 512) = Some b ∧ d !! b = Some sec ∧
    sec !! Z.to_nat (k mod 512) = data !! Z.to_nat k.

(** The inode at [a] is a file with these blocks and this content: one block more
    than the data fills, or none at all before the first write. *)
Definition file_rep (s : fs) (a : Z) (i : inode) (bs data : list Z) : Prop :=
  inodes s !! a = Some i ∧ file_map s i bs ∧ i_size i = zlen data ∧ stored (dsk s) bs data ∧
  (zlen bs = zlen data / 512 + 1 ∨ (bs = [] ∧ data = [] ∧ i_sectors i !! 0%nat = Some 0)).


(** What an allocation run of [n] blocks from block index [ix] on has done. *)
Record allocated (s s' : fs) (i : inode) (a : Z) (ab ab' : list Z) (to_inode : Z → bool)
    (ix n : nat) (new l : list Z) : Prop := {
  al_len : length new = n;
  al_above : same_above s (dsk s');
  al_inode : inodes s' = <[a := with_sectors l i]> (inodes s);
  al_ok : inode_ok (with_sectors l i);
  al_nodup : NoDup new;
  al_fresh : Forall (λ x, ¬ in_use s x ∧ 0 < x < 2147483648) new;
  al_used : ∀ x, in_use s' x ↔ x ∈ new ∨ in_use s x;
  al_ab_len : length ab' = 140%nat;
  al_ab : ∀ k, ab' !! k = if decide (ix ≤ k < ix + n)%nat then new !! (k - ix)%nat else ab !! k;
  al_sectors : ∀ k, l !! k = if decide (ix ≤ k < ix + n)%nat then
      (if to_inode (Z.of_nat k) then new !! (k - ix)%nat else i_sectors i !! k) else i_sectors i !! k;
}.

Lemma alloc_loop_ok n to_inode a ab ix s i :
  fs_wf s → inodes s !! a = Some i → inode_ok i → length ab = 140%nat → (ix + n ≤ 140)%nat →
  (∀ k, (ix ≤ k < ix + n)%nat → to_inode (Z.of_nat k) = true → (k < 12)%nat) →
  ∃ r d b m, alloc_loop n to_inode a ab (Z.of_nat ix) s = Ok (r, upd d b m s) ∧ fs_wf (upd d b m s) ∧
    ((r = None ∧ bitmap_full (upd d b m s)) ∨
     ∃ ab' new l, r = Some ab' ∧ allocated s (upd d b m s) i a ab ab' to_inode ix n new l).
Proof.
  revert ab ix s i. induction n as [|n IH]; intros ab ix s i Hwf Ha Hi Hab Hix Hto.
  { exists (Some ab), (dsk s), (block_bitmap (part s)), (inodes s).
    assert (Hs : upd (dsk s) (block_bitmap (part s)) (inodes s) s = s)
      by (by destruct s as [? [] ? ? ? ? ? ? ? ? ?]).
    rewrite Hs. split; [done|]. split; [done|]. right. exists ab, [], (i_sectors i). split; [done|].
    assert (Hwi : with_sectors (i_sectors i) i = i) by (by destruct i).
    split; try done; rewrite ?Hwi; try done.
    - by rewrite insert_id.
    - constructor.
    - intros x. set_solver.
    - intros k. rewrite decide_False by lia. done.
    - intros k. rewrite decide_False by lia. done. }
  cbn [alloc_loop].
  destruct (take_block s Hwf) as [[-> Hf]|(lba & b1 & -> & Hlba & Hfr & Hu1 & Hw1 & Hsync)].
  { cbn [mbind outcome_bind]. exists None, (dsk s), (block_bitmap (part s)), (inodes s).
    assert (Hs : upd (dsk s) (block_bitmap (part s)) (inodes s) s = s)
      by (by destruct s as [? [] ? ? ? ? ? ? ? ? ?]).
    rewrite Hs. split_and!; try done. by left. }
  cbn [mbind outcome_bind]. rewrite (proj2 (Z.eqb_neq lba (-1))) by lia. rewrite (u32_small lba) by lia.
  (* the inode after this turn *)
  set (l1 := if to_inode (Z.of_nat ix) then <[ix := lba]> (i_sectors i) else i_sectors i).
  set (i1 := with_sectors l1 i). set (m1 := <[a := i1]> (inodes s)).
  assert (Hi1 : inode_ok i1).
  { unfold i1, l1. destruct (to_inode (Z.of_nat ix)) eqn:E.
    - apply set_sector_ok; [done | specialize (Hto ix ltac:(lia) E); lia | unfold u32_range_P; lia].
    - by destruct i. }
  assert (Hstep : (if to_inode (Z.of_nat ix) then
      i0 ← get_inode a (upd (dsk s) b1 (inodes s) s); i0 ← set_sector i0 (Z.of_nat ix) lba;
      put_inode a i0 (upd (dsk s) b1 (inodes s) s)
     else Ok (upd (dsk s) b1 (inodes s) s)) = Ok (upd (dsk s) b1 m1 s)).
  { unfold m1, i1, l1. destruct (to_inode (Z.of_nat ix)) eqn:E.
    - unfold get_inode. change (inodes (upd (dsk s) b1 (inodes s) s)) with (inodes s). rewrite Ha. simpl.
      destruct (set_sector_ok i ix lba Hi) as [-> _]; [specialize (Hto ix ltac:(lia) E); lia | unfold u32_range_P; lia|].
      simpl. by rewrite (put_inode_ok a i).
    - replace (with_sectors (i_sectors i) i) with i by (by destruct i). by rewrite insert_id. }
  rewrite Hstep. cbn [mbind outcome_bind]. rewrite aset_ok by (unfold zlen; lia). cbn [mbind outcome_bind].
  rewrite Nat2Z.id. destruct (Hsync m1) as (d1 & -> & Hwf1 & Hab1). cbn [mbind outcome_bind].
  replace (Z.of_nat ix + 1) with (Z.of_nat (S ix)) by lia.
  destruct (IH (<[ix := lba]> ab) (S ix) (upd d1 b1 m1 s) i1)
    as (r & d & b & m & -> & Hwf' & Hres); try done.
  { change (m1 !! a = Some i1). unfold m1. by rewrite lookup_insert_eq. }
  { by rewrite length_insert. }
  { lia. }
  { intros k Hk. apply Hto. lia. }
  exists r, d, b, m. split; [done|]. split; [done|].
  destruct Hres as [?|(ab' & new & l & -> & HA)]; [by left|right].
  exists ab', (lba :: new), l. split; [done|].
  destruct HA as [HL Hab2 Hin Hok Hnd Hfr2 Hu2 HabL Hab3 Hsec]. split.
  - simpl. lia.
  - by apply (same_above_trans s d1 b1 m1).
  - simpl in Hin. rewrite Hin. unfold m1. by rewrite insert_insert_eq.
  - done.
  - constructor; [|done]. intros Hx. rewrite Forall_forall in Hfr2. apply Hfr2 in Hx as [Hx _].
    apply Hx, Hu1. by left.
  - constructor; [by split; [|lia]|]. eapply Forall_impl; [done|]. intros x [Hx ?]. split; [|done].
    intros Hx'. apply Hx, Hu1. by right.
  - intros x. rewrite Hu2, Hu1. set_solver.
  - done.
  - intros k. rewrite Hab3. destruct (decide (k = ix)) as [->|Hk].
    + rewrite decide_False, decide_True by lia. rewrite list_lookup_insert_eq by lia.
      by replace (ix - ix)%nat with 0%nat by lia.
    + rewrite list_lookup_insert_ne by lia. destruct (decide (S ix ≤ k < S ix + n)%nat).
      * rewrite decide_True by lia. by replace (k - ix)%nat with (S (k - S ix)) by lia.
      * rewrite decide_False by lia. done.
  - intros k. rewrite Hsec. unfold i1, l1. cbn [i_sectors with_sectors].
    destruct (decide (k = ix)) as [->|Hk].
    + rewrite decide_False, decide_True by lia. replace (ix - ix)%nat with 0%nat by lia.
      destruct (to_inode (Z.of_nat ix)) eqn:E; [|done].
      rewrite list_lookup_insert_eq; [done|]. destruct Hi as (_&_&_&->&_). specialize (Hto ix ltac:(lia) E). lia.
    + assert (Hl1 : (if to_inode (Z.of_nat ix) then <[ix:=lba]> (i_sectors i) else i_sectors i) !! k
                     = i_sectors i !! k).
      { destruct (to_inode (Z.of_nat ix)); [by rewrite list_lookup_insert_ne by lia | done]. }
      rewrite Hl1. destruct (decide (S ix ≤ k < S ix + n)%nat).
      * rewrite decide_True by lia. by replace (k - ix)%nat with (S (k - S ix)) by lia.
      * rewrite decide_False by lia. done.
Qed.

(** ** The block map of a write *)

(** [s'] extends the file: more blocks, and nothing else that was in use changed
    but the table of the indirect block. *)
Record extended (s s' : fs) (a : Z) (i i' : inode) (bs bs' : list Z) : Prop := {
  ex_prefix : bs `prefix_of` bs';
  ex_map : file_map s' i' bs';
  ex_wf : fs_wf s';
  ex_inode : inodes s' = <[a := i']> (inodes s);
  ex_same : i' = with_sectors (i_sectors i') i;
  ex_disk : ∀ x, in_use s x → ((12 < length bs)%nat → i_sectors i !! 12%nat ≠ Some x) →
    dsk s' !! x = dsk s !! x;
  ex_used : ∀ x, in_use s x → in_use s' x;
  ex_fresh : ∀ x, x ∈ bs' → in_use s x → x ∈ bs;
}.

Lemma read_table_ok s ind sec :
  disk_wf (dsk s) → dsk s !! ind = Some sec →
  read_table ind (replicate 140 0) s = Ok (replicate 12 0 ++ words_of_bytes sec) ∧
  length (words_of_bytes sec) = 128%nat ∧ Forall u32_range_P (words_of_bytes sec).
Proof.
  intros Hd Hs. unfold read_table. rewrite (disk_read_one _ _ _ Hs). destruct (Hd _ _ Hs) as [HL HF].
  split_and!; [done | by apply length_words_of_bytes | by apply (words_of_bytes_range 128)].
Qed.

Lemma write_table_ok s ind ab :
  fs_wf s → in_use s ind → length ab = 140%nat → Forall u32_range_P ab →
  let d := <[ind := bytes_of_words (drop 12 ab)]> (dsk s) in
  write_table ind ab s = Ok (set_dsk d s) ∧ fs_wf (set_dsk d s) ∧
  words_of_bytes (bytes_of_words (drop 12 ab)) = drop 12 ab.
Proof.
  intros Hwf Hu HL HF d. destruct (in_use_sector s ind Hwf Hu) as (Hx & Hdx & sec & Hsec & _ & _).
  assert (HB : length (bytes_of_words (drop 12 ab)) = 512%nat)
    by (rewrite length_bytes_of_words, length_drop; lia).
  split_and!.
  - unfold write_table. rewrite disk_write_one; [|by eexists|unfold zlen; lia].
    unfold d. rewrite take_ge by lia. done.
  - destruct Hwf. split; try done.
    + apply disk_wf_insert; [done | done | apply bytes_of_words_range].
    + intros k Hk. simpl. unfold d. destruct (decide (k = ind)) as [->|]; simplify_map_eq; [by eexists | auto].
  - apply words_of_bytes_of_words. by apply Forall_drop.
Qed.

Lemma allocated_range s s' i a ab ab' f ix n new l :
  allocated s s' i a ab ab' f ix n new l → Forall u32_range_P ab → Forall u32_range_P ab'.
Proof.
  intros [] HF. apply Forall_lookup. intros k x Hk. rewrite al_ab0 in Hk. case_decide.
  - rewrite Forall_lookup in al_fresh0. destruct (al_fresh0 _ _ Hk). unfold u32_range_P. lia.
  - rewrite Forall_lookup in HF. by apply (HF k).
Qed.

(** The old blocks and the new ones are distinct and in use. *)
Lemma allocated_blocks s s' i a ab ab' f ix n new l bs :
  allocated s s' i a ab ab' f ix n new l → Forall (in_use s) bs → NoDup bs →
  Forall (in_use s') (bs ++ new) ∧ NoDup (bs ++ new).
Proof.
  intros [] HF HN. rewrite Forall_forall in HF, al_fresh0. split.
  - apply Forall_app; split; apply Forall_forall; intros x Hx; apply al_used0; auto.
  - apply NoDup_app. split_and!; [done | | done]. intros x Hx Hn.
    destruct (al_fresh0 _ Hn) as [Hf _]. by apply Hf, HF.
Qed.

(** Situation 1: all blocks are direct. *)
Lemma extend_direct s s' a i ab ab' bs n new l :
  fs_wf s → fs_wf s' → file_map s i bs →
  allocated s s' i a ab ab' (λ _, true) (length bs) n new l → (length bs + n ≤ 12)%nat →
  extended s s' a i (with_sectors l i) bs (bs ++ new).
Proof.
  intros Hwf Hwf' [Hok Hu Hn HL Hd Ht] HA Hle.
  destruct (allocated_blocks _ _ _ _ _ _ _ _ _ _ _ _ HA Hu Hn) as [HF HN]. destruct HA.
  split; try done.
  - by apply prefix_app_r.
  - split; try done; rewrite ?length_app, ?al_len0; try lia.
    intros k Hk Hk'. cbn [i_sectors with_sectors]. rewrite al_sectors0. case_decide.
    + rewrite lookup_app_r by lia. done.
    + rewrite lookup_app_l by lia. apply Hd; lia.
  - intros x Hx _. apply al_above0. by apply in_use_above.
  - intros x Hx. apply al_used0. by right.
  - intros x Hx Hux. apply elem_of_app in Hx as [Hx|Hx]; [done|].
    rewrite Forall_forall in al_fresh0. by destruct (al_fresh0 _ Hx) as [Hf _].
Qed.

(** Situation 2: the indirect block [ind] was allocated first; [s1] is the state
    after that. *)
Lemma extend_across s s1 s2 a i i1 ab ab' bs n new l ind :
  fs_wf s → fs_wf s1 → fs_wf s2 → file_map s i bs →
  ¬ in_use s ind → (∀ x, in_use s1 x ↔ x = ind ∨ in_use s x) → dsk s1 = dsk s →
  sb (part s1) = sb (part s) →
  i1 = with_sectors (<[12%nat := ind]> (i_sectors i)) i → inodes s1 = <[a := i1]> (inodes s) →
  allocated s1 s2 i1 a ab ab' (λ k, k <? 12) (length bs) n new l →
  (length bs ≤ 12)%nat → (12 < length bs + n ≤ 140)%nat → Forall u32_range_P ab →
  ∃ s3, write_table ind ab' s2 = Ok s3 ∧ s3 = set_dsk (dsk s3) s2 ∧
    extended s s3 a i (with_sectors l i1) bs (bs ++ new).
Proof.
  intros Hwf Hwf1 Hwf2 [Hok Hu Hn HL Hd Ht] Hind Hu1 Hd1 Hsb1 Hi1 Hm1 HA Hle Hlt HR.
  pose proof (allocated_range _ _ _ _ _ _ _ _ _ _ _ HA HR) as HR'.
  assert (Hu' : Forall (in_use s1) bs) by (eapply Forall_impl; [exact Hu|]; intros x Hx; apply Hu1; auto).
  destruct (allocated_blocks _ _ _ _ _ _ _ _ _ _ _ _ HA Hu' Hn) as [HF HN]. destruct HA.
  assert (Hi2 : in_use s2 ind) by (apply al_used0; right; apply Hu1; auto).
  destruct (write_table_ok s2 ind ab' Hwf2 Hi2) as (-> & Hwf3 & HW); [done|done|].
  eexists. split; [done|]. split; [done|].
  assert (H12 : (length (i_sectors i) = 13)%nat) by (by destruct Hok as (_&_&_&?&_)).
  split.
  - by apply prefix_app_r.
  - split; rewrite ?length_app, ?al_len0; try done; try lia.
    + intros k Hk Hk'. cbn [i_sectors with_sectors]. rewrite al_sectors0. case_decide.
      * rewrite (proj2 (Z.ltb_lt _ _)) by lia. rewrite lookup_app_r by lia. done.
      * rewrite Hi1. cbn [i_sectors with_sectors]. rewrite list_lookup_insert_ne by lia.
        rewrite lookup_app_l by lia. apply Hd; lia.
    + intros _. exists ind, (bytes_of_words (drop 12 ab')). cbn [i_sectors with_sectors dsk set_dsk].
      rewrite lookup_insert_eq. split_and!; [| done | | done |].
      * rewrite al_sectors0. rewrite decide_True by lia. change (Z.of_nat 12 <? 12) with false. cbn iota.
        rewrite Hi1. cbn [i_sectors with_sectors]. apply list_lookup_insert_eq. lia.
      * intros Hx. apply elem_of_app in Hx as [Hx|Hx].
        -- rewrite Forall_forall in Hu. by apply Hind, Hu.
        -- rewrite Forall_forall in al_fresh0. destruct (al_fresh0 _ Hx) as [Hf _]. apply Hf, Hu1. by left.
      * intros k Hk. rewrite HW, lookup_drop. replace (12 + (k - 12))%nat with k by lia.
        rewrite al_ab0, decide_True by lia. rewrite lookup_app_r by lia. done.
  - done.
  - simpl. rewrite al_inode0, Hm1. by rewrite insert_insert_eq.
  - rewrite Hi1. done.
  - intros x Hx _. cbn [dsk set_dsk]. rewrite lookup_insert_ne by (intros ->; done).
    rewrite al_above0 by (rewrite Hsb1; by apply in_use_above). by rewrite Hd1.
  - intros x Hx. apply al_used0. right. apply Hu1. by right.
  - intros x Hx Hux. apply elem_of_app in Hx as [Hx|Hx]; [done|].
    rewrite Forall_forall in al_fresh0. destruct (al_fresh0 _ Hx) as [Hf _]. exfalso. apply Hf, Hu1. by right.
Qed.

(** Situation 3: the file has an indirect block already. *)
Lemma extend_indirect s s2 a i ab ab' bs n new l ind sec :
  fs_wf s → fs_wf s2 → file_map s i bs →
  i_sectors i !! 12%nat = Some ind → dsk s !! ind = Some sec → ab = replicate 12 0 ++ words_of_bytes sec →
  allocated s s2 i a ab ab' (λ _, false) (length bs) n new l →
  (12 < length bs)%nat → (length bs + n ≤ 140)%nat →
  ∃ s3, write_table ind ab' s2 = Ok s3 ∧ s3 = set_dsk (dsk s3) s2 ∧
    extended s s3 a i (with_sectors l i) bs (bs ++ new).
Proof.
  intros Hwf Hwf2 [Hok Hu Hn HL Hd Ht] Hind Hsec Hab HA Hlt Hle.
  destruct (Ht Hlt) as (ind' & sec' & Hind' & Hiu & Hni & Hsec' & Hw).
  rewrite Hind in Hind'. injection Hind' as <-. rewrite Hsec in Hsec'. injection Hsec' as <-.
  destruct (read_table_ok s ind sec (fw_disk _ Hwf) Hsec) as (_ & HLw & HRw).
  assert (HR : Forall u32_range_P ab).
  { rewrite Hab. apply Forall_app; split; [apply Forall_replicate; unfold u32_range_P; lia | done]. }
  pose proof (allocated_range _ _ _ _ _ _ _ _ _ _ _ HA HR) as HR'.
  destruct (allocated_blocks _ _ _ _ _ _ _ _ _ _ _ _ HA Hu Hn) as [HF HN]. destruct HA.
  assert (Hi2 : in_use s2 ind) by (apply al_used0; auto).
  destruct (write_table_ok s2 ind ab' Hwf2 Hi2) as (-> & Hwf3 & HW); [done|done|].
  eexists. split; [done|]. split; [done|].
  assert (Hl : ∀ k, l !! k = i_sectors i !! k) by (intros k; rewrite al_sectors0; by case_decide).
  split.
  - by apply prefix_app_r.
  - split; rewrite ?length_app, ?al_len0; try done; try lia.
    + intros k Hk Hk'. cbn [i_sectors with_sectors]. rewrite Hl.
      rewrite lookup_app_l by lia. apply Hd; lia.
    + intros _. exists ind, (bytes_of_words (drop 12 ab')). cbn [i_sectors with_sectors dsk set_dsk].
      rewrite lookup_insert_eq, Hl. split_and!; [done | done | | done |].
      * intros Hx. apply elem_of_app in Hx as [Hx|Hx]; [done|].
        rewrite Forall_forall in al_fresh0. by destruct (al_fresh0 _ Hx) as [Hf _].
      * intros k Hk. rewrite HW, lookup_drop. replace (12 + (k - 12))%nat with k by lia.
        rewrite al_ab0. case_decide.
        -- rewrite lookup_app_r by lia. done.
        -- rewrite lookup_app_l by lia. rewrite Hab.
           rewrite lookup_app_r by (rewrite length_replicate; lia). rewrite length_replicate. apply Hw. lia.
  - done.
  - done.
  - done.
  - intros x Hx Hne. cbn [dsk set_dsk]. rewrite lookup_insert_ne by (intros ->; by apply (Hne Hlt)).
    apply al_above0. by apply in_use_above.
  - intros x Hx. apply al_used0. by right.
  - intros x Hx Hux. apply elem_of_app in Hx as [Hx|Hx]; [done|].
    rewrite Forall_forall in al_fresh0. by destruct (al_fresh0 _ Hx) as [Hf _].
Qed.

Lemma extended_refl s a i bs :
  fs_wf s → inodes s !! a = Some i → file_map s i bs → extended s s a i i bs bs.
Proof. intros. split; try done; [by rewrite insert_id | by destruct i]. Qed.

(** What [write_blocks] promises to the data loop: the file now has [w] blocks,
    and [ab] names those from the last old one on. *)
Definition blocks_ready (s s' : fs) (a : Z) (i : inode) (bs : list Z) (w : nat) (ab : list Z) : Prop :=
  ∃ i' bs', extended s s' a i i' bs bs' ∧ length bs' = w ∧
    ∀ k, (length bs - 1 ≤ k < w)%nat → ab !! k = bs' !! k.

Definition write_blocks_post (a : Z) (s : fs) (i : inode) (bs : list Z) (w : nat) (o : outcome (option (list Z) * fs)) :=
  ∃ r d b m, o = Ok (r, upd d b m s) ∧
    ((r = None ∧ bitmap_full (upd d b m s)) ∨
     ∃ ab, r = Some ab ∧ blocks_ready s (upd d b m s) a i bs w ab).

Lemma last_block_ok s i bs :
  file_map s i bs → (1 ≤ length bs ≤ 12)%nat →
  ∃ b, bs !! (length bs - 1)%nat = Some b ∧
    aget (i_sectors i) (Z.of_nat (length bs) - 1) = Ok b ∧ in_use s b ∧
    aset (replicate 140 0) (Z.of_nat (length bs) - 1) b = Ok (<[(length bs - 1)%nat := b]> (replicate 140 0)).
Proof.
  intros [Hok Hu Hn HL Hd Ht] Hb. destruct (lookup_lt_is_Some_2 bs (length bs - 1)) as [b Hlb]; [lia|].
  exists b. split_and!; [done | | |].
  - apply aget_ok. split; [lia|]. replace (Z.to_nat _) with (length bs - 1)%nat by lia.
    rewrite Hd by lia. done.
  - rewrite Forall_lookup in Hu. by apply (Hu _ _ Hlb).
  - rewrite aset_ok by (unfold zlen; rewrite length_replicate; lia). f_equal. f_equal. lia.
Qed.

(** The last old block stands in the table before the new ones. *)
Lemma ready_of_allocated s s' i a b ab' f bs n new l :
  bs !! (length bs - 1)%nat = Some b → (length bs ≤ 140)%nat →
  allocated s s' i a (<[(length bs - 1)%nat := b]> (replicate 140 0)) ab' f (length bs) n new l →
  ∀ k, (length bs - 1 ≤ k < length bs + n)%nat → ab' !! k = (bs ++ new) !! k.
Proof.
  intros Hb HL [] k Hk. assert (Hlt := lookup_lt_Some _ _ _ Hb). rewrite al_ab0. case_decide.
  - by rewrite lookup_app_r by lia.
  - assert (k = length bs - 1)%nat as -> by lia. rewrite list_lookup_insert_eq by (rewrite length_replicate; lia).
    rewrite lookup_app_l by lia. done.
Qed.

Lemma range_single k b : 0 < b < 2147483648 → Forall u32_range_P (<[k := b]> (replicate 140 0)).
Proof. intros. apply Forall_insert; [apply Forall_replicate|]; unfold u32_range_P; lia. Qed.

Lemma write_blocks_across a s i bs w :
  fs_wf s → inodes s !! a = Some i → file_map s i bs → (1 ≤ length bs ≤ 12)%nat → (12 < w ≤ 140)%nat →
  write_blocks_post a s i bs w (write_blocks a (Z.of_nat (length bs)) (Z.of_nat w) s).
Proof.
  intros Hwf Ha Hm Hlb Hw. unfold write_blocks, get_inode. cbv zeta. mrun Ha.
  rewrite (u32_small (Z.of_nat w - Z.of_nat (length bs))) by lia.
  rewrite (proj2 (Z.eqb_neq _ _)) by lia. rewrite (proj2 (Z.leb_gt (Z.of_nat w) 12)) by lia.
  rewrite (proj2 (Z.leb_le (Z.of_nat (length bs)) 12)) by lia.
  destruct (last_block_ok s i bs Hm Hlb) as (b & Hb & Hg & Hub & Hst). mrun Hg. mrun Hst.
  destruct (take_block s Hwf) as [[-> Hf]|(ind & b1 & -> & Hlba & Hfr & Hu1 & Hw1 & Hsync)];
    cbn [mbind outcome_bind].
  { exists None, (dsk s), (block_bitmap (part s)), (inodes s). rewrite upd_self. split; [done|]. by left. }
  rewrite (proj2 (Z.eqb_neq ind (-1))) by lia. rewrite (u32_small ind) by lia.
  destruct (set_sector_ok i 12 ind) as [Hss Hi1]; [by destruct Hm|lia|unfold u32_range_P; lia|].
  change (Z.of_nat 12) with 12 in Hss. rewrite Hss.
  set (i1 := with_sectors (<[12%nat := ind]> (i_sectors i)) i) in *. cbn [mbind outcome_bind].
  rewrite (put_inode_ok a i) by done. cbn [mbind outcome_bind].
  change (set_inodes _ (upd (dsk s) b1 (inodes s) s)) with (upd (dsk s) b1 (<[a := i1]> (inodes s)) s).
  set (m1 := <[a := i1]> (inodes s)). set (s1 := upd (dsk s) b1 m1 s).
  destruct (alloc_loop_ok (Z.to_nat (Z.of_nat w - Z.of_nat (length bs))) (λ k, k <? 12) a
    (<[(length bs - 1)%nat := b]> (replicate 140 0)) (length bs) s1 i1)
    as (r & d & b2 & m & -> & Hwf2 & Hres).
  { apply Hw1. } { unfold s1, m1. simpl. by rewrite lookup_insert_eq. } { done. }
  { by rewrite length_insert, length_replicate. } { lia. }
  { intros k Hk Hlt. apply Z.ltb_lt in Hlt. lia. }
  cbn [mbind outcome_bind]. destruct Hres as [[-> Hf]|(ab' & new & l & -> & HA)].
  { exists None, d, b2, m. split; [done|]. by left. }
  destruct (in_use_sector s b Hwf Hub) as (Hbr & _).
  destruct (extend_across s s1 (upd d b2 m s1) a i i1 _ ab' bs _ new l ind Hwf (Hw1 m1) Hwf2 Hm Hfr
    (λ x, Hu1 x _ _) eq_refl eq_refl eq_refl eq_refl HA) as (s3 & -> & Hs3 & Hex);
    [lia | lia | by apply range_single |].
  cbn [mbind outcome_bind]. exists (Some ab'), (dsk s3), b2, m. rewrite Hs3 in *. split; [done|]. right.
  exists ab'. split; [done|]. exists (with_sectors l i1), (bs ++ new). split; [exact Hex|].
  pose proof (al_len _ _ _ _ _ _ _ _ _ _ _ HA) as HLn. split; [rewrite length_app; lia|].
  intros k Hk. eapply ready_of_allocated; [done | lia | exact HA | lia].
Qed.

Lemma write_blocks_ok a s i bs w :
  fs_wf s → inodes s !! a = Some i → file_map s i bs → (1 ≤ length bs ≤ w)%nat → (w ≤ 140)%nat →
  write_blocks_post a s i bs w (write_blocks a (Z.of_nat (length bs)) (Z.of_nat w) s).
Proof.
  intros Hwf Ha Hm Hlb Hw.
  destruct (decide (length bs ≤ 12 ∧ 12 < w)%nat) as [[? ?]|Hsit]; [apply write_blocks_across; done || lia|].
  unfold write_blocks, get_inode. cbv zeta. mrun Ha.
  rewrite (u32_small (Z.of_nat w - Z.of_nat (length bs))) by lia.
  assert (Hind : (12 < length bs)%nat → ∃ ind sec, aget (i_sectors i) 12 = Ok ind ∧
    i_sectors i !! 12%nat = Some ind ∧ dsk s !! ind = Some sec ∧
    read_table ind (replicate 140 0) s = Ok (replicate 12 0 ++ words_of_bytes sec) ∧
    length (words_of_bytes sec) = 128%nat ∧
    ∀ k, (12 ≤ k < length bs)%nat → (replicate 12 0 ++ words_of_bytes sec) !! k = bs !! k).
  { intros Hlt. destruct (fm_table _ _ _ Hm Hlt) as (ind & sec & H1 & H2 & H3 & H4 & H5).
    destruct (read_table_ok s ind sec (fw_disk _ Hwf) H4) as (H6 & H7 & H8).
    exists ind, sec. split_and!; try done; [by apply aget_ok|].
    intros k Hk. rewrite lookup_app_r by (rewrite length_replicate; lia). rewrite length_replicate. auto. }
  destruct (Z.eqb_spec (Z.of_nat w - Z.of_nat (length bs)) 0) as [Heq|Hne].
  - assert (w = length bs) as -> by lia.
    destruct (Z.leb_spec (Z.of_nat (length bs)) 12) as [H12|H12].
    + destruct (last_block_ok s i bs Hm) as (b & Hb & Hg & Hub & Hst); [lia|]. mrun Hg. mrun Hst.
      eexists _, (dsk s), (block_bitmap (part s)), (inodes s). rewrite upd_self. split; [done|]. right.
      eexists. split; [done|]. exists i, bs. split; [by apply extended_refl|]. split; [done|].
      intros k Hk. assert (k = length bs - 1)%nat as -> by lia.
      rewrite list_lookup_insert_eq; [done|]. rewrite length_replicate. destruct Hm. lia.
    + destruct Hind as (ind & sec & Hg & Hi & Hsec & Hrt & HLw & Hk); [lia|]. mrun Hg. mrun Hrt.
      eexists _, (dsk s), (block_bitmap (part s)), (inodes s). rewrite upd_self. split; [done|]. right.
      eexists. split; [done|]. exists i, bs. split; [by apply extended_refl|]. split; [done|].
      intros k Hk'. apply Hk. lia.
  - destruct (Z.leb_spec (Z.of_nat w) 12) as [H12|H12].
    + destruct (last_block_ok s i bs Hm) as (b & Hb & Hg & Hub & Hst); [lia|]. mrun Hg. mrun Hst.
      destruct (alloc_loop_ok (Z.to_nat (Z.of_nat w - Z.of_nat (length bs))) (λ _, true) a
        (<[(length bs - 1)%nat := b]> (replicate 140 0)) (length bs) s i)
        as (r & d & b2 & m & -> & Hwf2 & Hres); try done; try lia.
      { by destruct Hm. } { by rewrite length_insert, length_replicate. }
      eexists r, d, b2, m. split; [done|]. destruct Hres as [?|(ab' & new & l & -> & HA)]; [by left|right].
      exists ab'. split; [done|]. exists (with_sectors l i), (bs ++ new).
      pose proof (al_len _ _ _ _ _ _ _ _ _ _ _ HA) as HLn. split_and!.
      * eapply extend_direct; [done|done|done|exact HA|lia].
      * rewrite length_app. lia.
      * intros k Hk. eapply ready_of_allocated; [done | lia | exact HA | lia].
    + rewrite (proj2 (Z.leb_gt (Z.of_nat (length bs)) 12)) by lia.
      destruct Hind as (ind & sec & Hg & Hi & Hsec & Hrt & HLw & Hk); [lia|]. mrun Hg. mrun Hrt.
      destruct (alloc_loop_ok (Z.to_nat (Z.of_nat w - Z.of_nat (length bs))) (λ _, false) a
        (replicate 12 0 ++ words_of_bytes sec) (length bs) s i)
        as (r & d & b2 & m & -> & Hwf2 & Hres); try done; try lia.
      { by destruct Hm. } { rewrite length_app, length_replicate. lia. }
      cbn [mbind outcome_bind]. destruct Hres as [[-> Hf]|(ab' & new & l & -> & HA)].
      { exists None, d, b2, m. split; [done|]. by left. }
      destruct (extend_indirect s (upd d b2 m s) a i _ ab' bs _ new l ind sec Hwf Hwf2 Hm Hi Hsec eq_refl HA)
        as (s3 & -> & Hs3 & Hex); [lia | lia |].
      cbn [mbind outcome_bind]. exists (Some ab'), (dsk s3), b2, m. rewrite Hs3 in *. split; [done|]. right.
      exists ab'. split; [done|]. exists (with_sectors l i), (bs ++ new). split; [exact Hex|].
      pose proof (al_len _ _ _ _ _ _ _ _ _ _ _ HA) as HLn. split; [rewrite length_app; lia|].
      intros k Hk'. destruct HA. rewrite al_ab0. case_decide.
      * by rewrite lookup_app_r by lia.
      * rewrite (lookup_app_l bs) by lia. apply Hk. lia.
Qed.

(** The first write to an empty file. *)
Lemma first_block_new a s i :
  fs_wf s → inodes s !! a = Some i → file_map s i [] → i_sectors i !! 0%nat = Some 0 →
  (first_block a s = Ok (false, s) ∧ bitmap_full s) ∨
  ∃ d b m i' lba, first_block a s = Ok (true, upd d b m s) ∧ extended s (upd d b m s) a i i' [] [lba].
Proof.
  intros Hwf Ha Hm H0. unfold first_block, get_inode. mrun Ha.
  replace (aget (i_sectors i) 0) with (Ok 0) by (symmetry; by apply aget_ok). cbn [mbind outcome_bind].
  rewrite Z.eqb_refl.
  destruct (take_block s Hwf) as [[-> Hf]|(lba & b1 & -> & Hlba & Hfr & Hu1 & Hw1 & Hsync)];
    cbn [mbind outcome_bind]; [by left|right].
  rewrite (proj2 (Z.eqb_neq lba (-1))) by lia. rewrite (u32_small lba) by lia.
  destruct (set_sector_ok i 0 lba) as [Hss Hi1]; [by destruct Hm|lia|unfold u32_range_P; lia|].
  change (Z.of_nat 0) with 0 in Hss. mrun Hss. rewrite (put_inode_ok a i) by done. cbn [mbind outcome_bind].
  set (i1 := with_sectors _ i) in *. set (m1 := <[a := i1]> (inodes s)).
  destruct (Hsync m1) as (d & Hsy & Hwf' & Hab).
  change (set_inodes _ (upd (dsk s) b1 (inodes s) s)) with (upd (dsk s) b1 m1 s). mrun Hsy.
  exists d, b1, m1, i1, lba. split; [done|]. split; try done.
  - apply prefix_nil.
  - split; try done; [by constructor; [apply Hu1; left|] | apply NoDup_singleton | simpl; lia | | simpl; lia].
    intros k Hk1 Hk2. simpl in Hk2. assert (k = 0)%nat as -> by lia. unfold i1. simpl.
    apply list_lookup_insert_eq. destruct Hm as [(_&_&_&->&_) _ _ _ _ _]. lia.
  - intros x Hx _. apply Hab. by apply in_use_above.
  - intros x Hx. apply Hu1. by right.
  - intros x Hx Hux. apply list_elem_of_singleton in Hx as ->. by destruct Hfr.
Qed.

(** ** The data loop *)

Lemma file_map_frame s s' i i' bs :
  file_map s i bs → part s' = part s → (∀ x, in_use s x → x ∉ bs → dsk s' !! x = dsk s !! x) →
  i_sectors i' = i_sectors i → inode_ok i' → file_map s' i' bs.
Proof.
  intros [Hok Hu Hn HL Hd Ht] Hp Hx Hs Hi. split; try done.
  - unfold in_use in *. by rewrite Hp.
  - by rewrite Hs.
  - intros Hlt. destruct (Ht Hlt) as (ind & sec & H1 & H2 & H3 & H4 & H5). exists ind, sec.
    rewrite Hs, Hx by done. unfold in_use in *. by rewrite Hp.
Qed.

(** Writing a chunk behind the data, inside its last block. *)
Lemma stored_chunk d bs data b sec sec0 sec' chunk :
  let off := zlen data mod 512 in
  stored d bs data → NoDup bs → bs !! Z.to_nat (zlen data / 512) = Some b → d !! b = Some sec →
  length sec0 = 512%nat → (∀ j, 0 ≤ j < off → sec0 !! Z.to_nat j = sec !! Z.to_nat j) →
  splice sec0 off chunk = Ok sec' → off + zlen chunk ≤ 512 →
  stored (<[b := sec']> d) bs (data ++ chunk).
Proof.
  intros off HS HN Hb Hsec HL H0 Hsp Hfit k Hk. rewrite zlen_app in Hk.
  pose proof (zlen_nonneg data). pose proof (zlen_nonneg chunk).
  assert (Hoff : 0 ≤ off < 512) by (unfold off; zdm).
  destruct (splice_ok sec0 off chunk) as (sec1 & Hsp' & _ & Hl); [lia|unfold zlen in *; lia|].
  rewrite Hsp in Hsp'. injection Hsp' as <-.
  destruct (decide (k < zlen data)) as [Hlt|Hge].
  - destruct (HS k ltac:(lia)) as (b' & sec1 & Hb' & Hsec1 & Hv).
    rewrite lookup_app_l by (unfold zlen in *; lia).
    destruct (decide (b' = b)) as [->|Hne].
    + exists b, sec'. rewrite lookup_insert_eq. split_and!; try done.
      assert (Hkk : k / 512 = zlen data / 512).
      { assert (Z.to_nat (k / 512) = Z.to_nat (zlen data / 512)) by (eapply NoDup_lookup; eauto). zdm. }
      rewrite Hsec in Hsec1. injection Hsec1 as <-. rewrite Hl by zdm.
      assert (Hko : k mod 512 < off) by (unfold off; zdm).
      rewrite (proj2 (Z.leb_gt off (k mod 512))) by lia. simpl. rewrite H0 by zdm. done.
    + exists b', sec1. by rewrite lookup_insert_ne.
  - assert (Hkk : k / 512 = zlen data / 512) by (unfold off in *; zdm).
    exists b, sec'. rewrite lookup_insert_eq, Hkk. split_and!; try done.
    assert (Hko : k mod 512 = off + (k - zlen data)) by (unfold off in *; zdm).
    rewrite Hl, Hko by zdm.
    rewrite (proj2 (Z.leb_le _ _)), (proj2 (Z.ltb_lt _ _)) by lia. simpl.
    rewrite lookup_app_r by (unfold zlen in *; lia). f_equal. unfold zlen in *. lia.
Qed.

(** The state of the data loop: data area, inode and file position have changed. *)
Definition wst (d : disk) (m : gmap Z inode) (ft : list file) (s : fs) : fs :=
  set_file_table ft (set_dsk d (set_inodes m s)).

Lemma fs_wf_data s d m ft :
  fs_wf s → disk_wf d → (∀ k, is_Some (dsk s !! k) → is_Some (d !! k)) → fs_wf (wst d m ft s).
Proof. intros [] Hd HS. split; try done. intros k Hk. apply HS. auto. Qed.

(** What the loop relies on at the start of a turn, [n] bytes being in the file. *)
Record loop_inv (s : fs) (a : Z) (i : inode) (ab bs data src : list Z) (first : bool) : Prop := {
  li_wf : fs_wf s;
  li_inode : inodes s !! a = Some i;
  li_size : i_size i = zlen data;
  li_map : file_map s i bs;
  li_stored : stored (dsk s) bs data;
  li_src : Forall (λ y, 0 ≤ y < 256) src;
  li_first : first = false → src ≠ [] → zlen data mod 512 = 0;
  li_max : zlen data + zlen src < 71680;
  li_ab : ∀ k, zlen data / 512 ≤ k ≤ (zlen data + zlen src) / 512 → ab !! Z.to_nat k = bs !! Z.to_nat k;
  li_blocks : (zlen data + zlen src) / 512 < zlen bs;
}.

Lemma write_turn fuel idx a ab bs src first s i f data :
  loop_inv s a i ab bs data src first → file_table s !! idx = Some f → 0 < zlen src →
  ∃ c d pos,
    let s1 := wst d (<[a := with_size (zlen data + Z.of_nat c) i]> (inodes s))
                (<[idx := File pos (fd_flag f) (fd_inode f)]> (file_table s)) s in
    write_loop (S fuel) (Z.of_nat idx) a ab src (zlen src) first s =
      write_loop fuel (Z.of_nat idx) a ab (drop c src) (zlen (drop c src)) false s1 ∧
    (0 < c)%nat ∧ (∀ x, x ∉ bs → d !! x = dsk s !! x) ∧
    loop_inv s1 a (with_size (zlen data + Z.of_nat c) i) ab bs (data ++ take c src) (drop c src) false.
Proof.
  intros [Hwf Ha Hsz Hm HS HFs Hfirst Hmax Hab Hbl] Hf Hpos. set (n := zlen data) in *.
  pose proof (zlen_nonneg data) as Hn0. fold n in Hn0. cbn [write_loop]. rewrite (proj2 (Z.ltb_lt _ _) Hpos).
  unfold get_inode. mrun Ha. rewrite Hsz. fold n.
  assert (Hft : aget (file_table s) (Z.of_nat idx) = Ok f) by (apply aget_ok; rewrite Nat2Z.id; split; [lia|done]).
  mrun Hft. unfold BLOCK_SIZE, SECTOR_SIZE.
  destruct (lookup_lt_is_Some_2 bs (Z.to_nat (n / 512))) as [b Hb]; [unfold zlen in *; zdm|].
  assert (Hg : aget ab (n / 512) = Ok b).
  { apply aget_ok. split; [zdm|]. rewrite Hab by zdm. done. }
  mrun Hg. set (off := n mod 512). assert (Hoff : 0 ≤ off < 512) by (unfold off; zdm).
  set (c := if zlen src <? 512 - off then zlen src else 512 - off).
  assert (Hc : 0 < c ≤ zlen src ∧ c ≤ 512 - off ∧ (c < zlen src → (n + c) mod 512 = 0))
    by (unfold c, off in *; zcase; zdm).
  assert (Hub : in_use s b) by (destruct Hm; rewrite Forall_lookup in fm_used0; eauto).
  destruct (in_use_sector s b Hwf Hub) as (Hbr & Hbd & sec & Hsec & HLs & HFsec).
  set (sec0 := if first then sec else replicate 512 0).
  assert (Hbuf : (if first then disk_read (dsk s) b 1 else Ok (replicate 512 0)) = Ok sec0).
  { unfold sec0. destruct first; [by apply disk_read_one | done]. }
  mrun Hbuf. rewrite slice_ok by lia. cbn [mbind outcome_bind].
  change (Z.to_nat 0) with 0%nat. rewrite drop_0. set (chunk := take (Z.to_nat c) src).
  assert (Hzc : zlen chunk = c) by (unfold chunk, zlen in *; rewrite length_take; lia).
  assert (Hzd : zlen (drop (Z.to_nat c) src) = zlen src - c) by (unfold zlen in *; rewrite length_drop; lia).
  assert (HL0 : length sec0 = 512%nat) by (unfold sec0; destruct first; [done | by rewrite length_replicate]).
  assert (HF0 : Forall (λ y, 0 ≤ y < 256) sec0)
    by (unfold sec0; destruct first; [done | apply Forall_replicate; lia]).
  destruct (splice_ok sec0 off chunk) as (sec' & Hsp & HL' & _); [lia|unfold zlen in *; lia|]. mrun Hsp.
  rewrite disk_write_one; [|by eexists|unfold zlen; lia]. rewrite take_ge by lia. cbn [mbind outcome_bind].
  rewrite (u32_small (n + c)) by lia. rewrite (put_inode_ok a i) by done. cbn [mbind outcome_bind].
  unfold put_file. assert (Hidx := lookup_lt_Some _ _ _ Hf).
  rewrite aset_ok by (unfold zlen; simpl; lia). cbn [mbind outcome_bind]. rewrite Nat2Z.id, <- Hzd.
  eexists (Z.to_nat c), (<[b := sec']> (dsk s)), _. rewrite Z2Nat.id by lia.
  split; [reflexivity|]. split; [lia|].
  assert (Hother : ∀ x, x ∉ bs → <[b := sec']> (dsk s) !! x = dsk s !! x).
  { intros x Hx. rewrite lookup_insert_ne; [done|]. intros <-. apply Hx. by eapply list_elem_of_lookup_2. }
  split; [exact Hother|]. fold chunk.
  assert (Hi1 : inode_ok (with_size (n + c) i)).
  { destruct Hm as [(?&?&?&?&?) _ _ _ _ _]. unfold inode_ok, u32_range_P in *. simpl. split_and!; done || lia. }
  assert (HFc : Forall (λ y, 0 ≤ y < 256) chunk) by by apply Forall_take.
  split; rewrite ?zlen_app, ?Hzc, ?Hzd; fold n; try done; try lia.
  - apply fs_wf_data; [done | |].
    + apply disk_wf_insert; [apply Hwf | lia | by eapply splice_Forall].
    + intros k Hk. destruct (decide (k = b)) as [->|]; simplify_map_eq; [by eexists | done].
  - simpl. by rewrite lookup_insert_eq.
  - apply (file_map_frame s _ i); auto.
  - simpl. eapply stored_chunk; try done; [by destruct Hm | fold n off | fold n off; lia].
    intros j Hj. unfold sec0. destruct first; [done|]. exfalso.
    assert (off = 0) by (apply Hfirst; [done|]; by destruct src). lia.
  - by apply Forall_drop.
  - intros _ Hne. apply Hc. assert (0 < zlen (drop (Z.to_nat c) src)); [|lia].
    destruct (drop (Z.to_nat c) src); [done|]. rewrite zlen_cons. pose proof (zlen_nonneg l). lia.
  - intros k Hk. apply Hab. zdm.
  - replace (n + c + (zlen src - c)) with (n + zlen src) by lia. done.
Qed.

Lemma write_loop_ok fuel idx a ab bs src first s i f data :
  loop_inv s a i ab bs data src first → file_table s !! idx = Some f → zlen src < Z.of_nat fuel →
  ∃ d pos,
    let s1 := wst d (<[a := with_size (zlen data + zlen src) i]> (inodes s))
                (<[idx := File pos (fd_flag f) (fd_inode f)]> (file_table s)) s in
    write_loop fuel (Z.of_nat idx) a ab src (zlen src) first s = Ok s1 ∧
    (∀ x, x ∉ bs → d !! x = dsk s !! x) ∧
    loop_inv s1 a (with_size (zlen data + zlen src) i) ab bs (data ++ src) [] false.
Proof.
  revert src first s i f data.
  induction fuel as [|fuel IH]; intros src first s i f data HI Hf Hfuel; [pose proof (zlen_nonneg src); lia|].
  destruct (decide (0 < zlen src)) as [Hpos|Hpos].
  - destruct (write_turn fuel idx a ab bs src first s i f data HI Hf Hpos)
      as (c & d & pos & -> & Hc & Hx & HI1).
    set (s1 := wst _ _ _ _) in *. set (i1 := with_size _ i) in *.
    assert (Hcl : zlen (take c src) + zlen (drop c src) = zlen src)
      by (rewrite <- zlen_app, take_drop; done).
    assert (Hdl : zlen (drop c src) < zlen src) by (unfold zlen in *; rewrite length_drop; lia).
    destruct (IH (drop c src) false s1 i1 (File pos (fd_flag f) (fd_inode f)) (data ++ take c src))
      as (d2 & pos2 & -> & Hx2 & HI2); [done | | lia |].
    { simpl. apply list_lookup_insert_eq. by eapply lookup_lt_Some. }
    exists d2, pos2. rewrite zlen_app in HI2 |- *.
    replace (zlen data + zlen (take c src) + zlen (drop c src)) with (zlen data + zlen src) in * by lia.
    rewrite <- app_assoc, take_drop in HI2.
    assert (Heq : wst d2 (<[a:=with_size (zlen data + zlen src) i1]> (inodes s1))
      (<[idx:=File pos2 (fd_flag (File pos (fd_flag f) (fd_inode f))) (fd_inode (File pos (fd_flag f) (fd_inode f)))]>
      (file_table s1)) s1 = wst d2 (<[a:=with_size (zlen data + zlen src) i]> (inodes s))
      (<[idx:=File pos2 (fd_flag f) (fd_inode f)]> (file_table s)) s).
    { unfold s1, i1, wst. simpl. rewrite insert_insert_eq, list_insert_insert_eq. done. }
    rewrite Heq in *. split_and!; [done | | done].
    intros x Hxb. rewrite Hx2 by done. by apply Hx.
  - assert (src = []) as -> by (destruct src; [done|]; rewrite zlen_cons in Hpos; pose proof (zlen_nonneg src); lia).
    exists (dsk s), (fd_pos f). cbn [write_loop]. change (zlen (@nil Z)) with 0.
    change (0 <? 0) with false. rewrite Z.add_0_r, app_nil_r.
    pose proof HI as [Hwf Ha Hsz Hm HS HFs Hfirst Hmax Hab Hbl].
    assert (Hwi : with_size (zlen data) i = i) by (rewrite <- Hsz; by destruct i).
    assert (Hid : wst (dsk s) (<[a:=with_size (zlen data) i]> (inodes s))
         (<[idx:=File (fd_pos f) (fd_flag f) (fd_inode f)]> (file_table s)) s = s).
    { rewrite Hwi. replace (File (fd_pos f) (fd_flag f) (fd_inode f)) with f by (by destruct f).
      rewrite (insert_id _ _ _ Ha), (list_insert_id _ _ _ Hf). by destruct s. }
    simpl. rewrite Hid, Hwi. split_and!; [done | done |]. by split.
Qed.

(** ** Writing as a whole *)

Lemma stored_extended s s' a i i' bs bs' data :
  extended s s' a i i' bs bs' → file_map s i bs → stored (dsk s) bs data → stored (dsk s') bs' data.
Proof.
  intros HE Hm HS k Hk. destruct (HS k Hk) as (b & sec & Hb & Hsec & Hv). exists b, sec.
  assert (Hin : b ∈ bs) by by eapply list_elem_of_lookup_2.
  split_and!; [by eapply prefix_lookup_Some; [|apply HE] | | done].
  rewrite (ex_disk _ _ _ _ _ _ _ HE); [done | |].
  - destruct Hm. rewrite Forall_forall in fm_used0. auto.
  - intros Hlt. destruct (fm_table _ _ _ Hm Hlt) as (ind & ? & -> & _ & Hni & _). intros [= ->]. done.
Qed.

Lemma first_block_old a s i bs :
  fs_wf s → inodes s !! a = Some i → file_map s i bs → bs ≠ [] → first_block a s = Ok (true, s).
Proof.
  intros Hwf Ha Hm Hne. destruct bs as [|b bs]; [done|]. destruct Hm as [Hok Hu _ _ Hd _].
  unfold first_block, get_inode. mrun Ha.
  assert (Hg : aget (i_sectors i) 0 = Ok b) by (apply aget_ok; split; [lia|]; apply (Hd 0%nat); simpl; lia).
  mrun Hg. apply Forall_cons in Hu as [Hb _].
  destruct (in_use_sector s b Hwf Hb) as (Hr & _). by rewrite (proj2 (Z.eqb_neq b 0)) by lia.
Qed.

(** Both steps before the data loop: no block left, or the file has all the
    blocks it needs. *)
Lemma prepare_ok a s i bs data w :
  fs_wf s → file_rep s a i bs data → zlen data / 512 + 1 ≤ Z.of_nat w → (w ≤ 140)%nat →
  ∃ r d b m,
    ('(ok, s) ← first_block a s;
     if negb ok then Ok (None, s) else write_blocks a (zlen data / 512 + 1) (Z.of_nat w) s)
    = Ok (r, upd d b m s) ∧
    ((r = None ∧ bitmap_full (upd d b m s)) ∨
     ∃ ab i' bs', r = Some ab ∧ extended s (upd d b m s) a i i' bs bs' ∧ length bs' = w ∧
       ∀ k, zlen data / 512 ≤ k < Z.of_nat w → ab !! Z.to_nat k = bs' !! Z.to_nat k).
Proof.
  intros Hwf (Ha & Hm & Hsz & HS & Hcase) Hw Hw140. destruct Hcase as [Hlen|(-> & -> & H0)].
  - assert (Hne : bs ≠ []) by (intros ->; pose proof (zlen_nonneg data); change (zlen (@nil Z)) with 0 in Hlen; zdm).
    rewrite (first_block_old a s i bs Hwf Ha Hm Hne). cbn [mbind outcome_bind negb].
    rewrite <- Hlen. unfold zlen at 1.
    destruct (write_blocks_ok a s i bs w Hwf Ha Hm) as (r & d & b & m & -> & Hres);
      [pose proof (zlen_nonneg data); unfold zlen in *; zdm | done |].
    exists r, d, b, m. split; [done|]. destruct Hres as [?|(ab & -> & i' & bs' & HE & HL & Hab)]; [by left|right].
    exists ab, i', bs'. split_and!; try done. intros k Hk. apply Hab. pose proof (zlen_nonneg data).
    unfold zlen in *. zdm.
  - change (zlen (@nil Z) / 512 + 1) with (Z.of_nat 1) in *. change (zlen (@nil Z) / 512) with 0.
    destruct (first_block_new a s i Hwf Ha Hm H0) as [[-> Hf]|(d1 & b1 & m1 & i1 & lba & -> & HE1)];
      cbn [mbind outcome_bind negb].
    { exists None, (dsk s), (block_bitmap (part s)), (inodes s). rewrite upd_self. split; [done|]. by left. }
    destruct (write_blocks_ok a (upd d1 b1 m1 s) i1 [lba] w) as (r & d & b & m & Hwb & Hres).
    { apply HE1. } { rewrite (ex_inode _ _ _ _ _ _ _ HE1). by rewrite lookup_insert_eq. } { apply HE1. }
    { simpl. lia. } { done. }
    change (Z.of_nat (length [lba])) with (Z.of_nat 1) in Hwb. rewrite Hwb.
    exists r, d, b, m. split; [done|]. destruct Hres as [?|(ab & -> & i' & bs' & HE & HL & Hab)]; [by left|right].
    exists ab, i', bs'. split_and!; try done; [|intros k Hk; apply Hab; simpl; lia].
    change (upd d b m (upd d1 b1 m1 s)) with (upd d b m s) in HE. destruct HE1, HE. split; try done.
    + by etransitivity.
    + rewrite ex_inode1, ex_inode0. by rewrite insert_insert_eq.
    + rewrite ex_same1, ex_same0. by rewrite ex_same0 in ex_same1.
    + intros x Hx _. rewrite ex_disk1, ex_disk0; auto; simpl; lia.
    + auto.
    + intros x Hx Hux. apply ex_fresh0; auto.
Qed.

Lemma file_rep_heap s h a i bs data : file_rep s a i bs data → file_rep (set_heap h s) a i bs data.
Proof.
  intros (Ha & Hm & Hrest). split; [done|]. split; [|done].
  apply (file_map_frame s _ i); try done. by destruct Hm.
Qed.

Lemma fs_wf_heap s h : fs_wf s → fs_wf (set_heap h s).
Proof. intros []. by split. Qed.

Lemma fs_wf_table s t : fs_wf s → fs_wf (set_file_table t s).
Proof. intros []. by split. Qed.

(** What a write that succeeds leaves behind. *)
Record written (s s' : fs) (a : Z) (i i' : inode) (bs bs' data : list Z) : Prop := {
  wr_wf : fs_wf s';
  wr_rep : file_rep s' a i' bs' data;
  wr_same : i_no i' = i_no i ∧ i_open_cnts i' = i_open_cnts i ∧ write_deny i' = write_deny i;
  wr_inodes : ∀ x, x ≠ a → inodes s' !! x = inodes s !! x;
  wr_disk : ∀ x, in_use s x → x ∉ bs → ((12 < length bs)%nat → i_sectors i !! 12%nat ≠ Some x) →
    dsk s' !! x = dsk s !! x;
  wr_used : ∀ x, in_use s x → in_use s' x;
}.

(** The data loop, once the blocks are there. *)
Lemma write_data_ok idx a ab s0 s i i' bs bs' data src f fl pos0 :
  extended s0 s a i i' bs bs' → fs_wf s0 → file_map s0 i bs → stored (dsk s0) bs data →
  i_size i = zlen data → file_table s !! idx = Some f → Forall (λ y, 0 ≤ y < 256) src →
  zlen data + zlen src < 71680 → zlen bs' = (zlen data + zlen src) / 512 + 1 →
  (∀ k, zlen data / 512 ≤ k < zlen bs' → ab !! Z.to_nat k = bs' !! Z.to_nat k) →
  ∃ s1 s2 i2, put_file (Z.of_nat idx) (File pos0 fl a) s = Ok s1 ∧
    write_loop (S (length src)) (Z.of_nat idx) a ab src (zlen src) true s1 = Ok s2 ∧
    written s0 s2 a i i2 bs bs' (data ++ src) ∧ sb (part s2) = sb (part s).
Proof.
  intros HE Hwf0 Hm0 HS0 Hsz Hf HFs Hmax Hlen Hab.
  pose proof (zlen_nonneg data). pose proof (zlen_nonneg src).
  set (s1 := set_file_table (<[idx := File pos0 fl a]> (file_table s)) s). exists s1.
  unfold put_file. assert (Hidx := lookup_lt_Some _ _ _ Hf).
  rewrite aset_ok by (unfold zlen; lia). cbn [mbind outcome_bind]. rewrite Nat2Z.id.
  assert (Ha : inodes s !! a = Some i') by (rewrite (ex_inode _ _ _ _ _ _ _ HE); apply lookup_insert_eq).
  assert (HI : loop_inv s1 a i' ab bs' data src true).
  { split; try done.
    - apply fs_wf_table, HE.
    - rewrite (ex_same _ _ _ _ _ _ _ HE). done.
    - apply (file_map_frame s _ i'); try done; apply HE.
    - exact (stored_extended s0 s a i i' bs bs' data HE Hm0 HS0).
    - intros k Hk. apply Hab. lia.
    - lia. }
  destruct (write_loop_ok (S (length src)) idx a ab bs' src true s1 i' (File pos0 fl a) data HI)
    as (d & pos & Hl & Hx & HI2); [unfold s1; simpl; by apply list_lookup_insert_eq | unfold zlen; lia |].
  set (s2 := wst _ _ _ _) in *. destruct HI2 as [Hwf2 Ha2 Hsz2 Hm2 HS2 _ _ _ _ _].
  set (i2 := with_size _ i') in *. exists s2, i2. split_and!; [done | done | | done].
  split; try done.
  - split_and!; try done. left. rewrite zlen_app. lia.
  - unfold i2. rewrite (ex_same _ _ _ _ _ _ _ HE). done.
  - intros x Hne. simpl. rewrite lookup_insert_ne by done.
    rewrite (ex_inode _ _ _ _ _ _ _ HE). by rewrite lookup_insert_ne.
  - intros x Hux Hxb Hxi. simpl. rewrite Hx by (intros Hin; by apply Hxb, (ex_fresh _ _ _ _ _ _ _ HE)).
    by apply (ex_disk _ _ _ _ _ _ _ HE).
  - intros x Hux. by apply (ex_used _ _ _ _ _ _ _ HE).
Qed.

(** Writing the inode back leaves the file as it is. *)
Lemma sync_written s0 s a i i2 bs bs' data :
  written s0 s a i i2 bs bs' data →
  512 * Z.of_nat (nsec (inode_locate (part s) (u8 (i_no i2)))) ≤ 512 →
  ∃ s', inode_sync 512 i2 s = Ok s' ∧ written s0 s' a i i2 bs bs' data.
Proof.
  intros [Hwf Hrep Hsame Hin Hd Hu] Hns. pose proof Hrep as (Ha & Hm & Hsz & HS & Hl).
  destruct (inode_sync_ok 512 i2 s Hwf) as (d3 & Hsy & Hwf3 & _ & _ & Hd3); [by destruct Hm | done |].
  assert (Hd3' : ∀ x, in_use s x → d3 !! x = dsk s !! x) by (intros x [Hux _]; apply Hd3; lia).
  exists (set_dsk d3 s). split; [done|]. split; try done.
  - split_and!; try done.
    + apply (file_map_frame s _ i2); try done; [intros x Hux _; by apply Hd3' | by destruct Hm].
    + intros k Hk. destruct (HS k Hk) as (b & sec & Hb & Hsec & Hv). exists b, sec. split_and!; try done.
      simpl. rewrite Hd3'; [done|]. destruct Hm. rewrite Forall_lookup in fm_used0. by eapply fm_used0.
  - intros x Hux Hxb Hxi. simpl. rewrite Hd3' by auto. by apply Hd.
Qed.

(** [file_write] up to its [inode_sync]: no block left, or the data are written. *)
Lemma file_write_core idx buf s f i bs data h1 h2 rest :
  fs_wf s → file_table s !! idx = Some f → file_rep s (fd_inode f) i bs data →
  heap s = h1 :: h2 :: rest → h1 ≠ 0 → h2 ≠ 0 → Forall (λ y, 0 ≤ y < 256) buf →
  zlen data + zlen buf < 71680 →
  (∃ s', file_write (Z.of_nat idx) buf (zlen buf) s = Ok (-1, s') ∧ bitmap_full s') ∨
  ∃ s2 i2 bs', file_write (Z.of_nat idx) buf (zlen buf) s =
      (s ← inode_sync 512 i2 s2; Ok (zlen buf, s)) ∧
    written s s2 (fd_inode f) i i2 bs bs' (data ++ buf) ∧ sb (part s2) = sb (part s).
Proof.
  intros Hwf Hf Hrep Hh Hh1 Hh2 HF Hmax. pose proof (zlen_nonneg data). pose proof (zlen_nonneg buf).
  pose proof Hrep as (Ha & Hm & Hsz & HS & _). unfold file_write.
  assert (Hft : aget (file_table s) (Z.of_nat idx) = Ok f) by (apply aget_ok; rewrite Nat2Z.id; split; [lia|done]).
  mrun Hft. assert (Hgi : get_inode (fd_inode f) s = Ok i) by (unfold get_inode; by rewrite Ha).
  cbv zeta. mrun Hgi. rewrite Hsz, u32_small by lia.
  unfold BLOCK_SIZE, SECTOR_SIZE. rewrite Z.gtb_ltb, (proj2 (Z.ltb_ge _ _)) by lia.
  unfold kmalloc. rewrite Hh. cbn [heap set_heap]. rewrite (proj2 (Z.eqb_neq _ _) Hh1), (proj2 (Z.eqb_neq _ _) Hh2).
  set (s0 := set_heap rest (set_heap _ s)).
  set (w := Z.to_nat ((zlen data + zlen buf) / 512 + 1)).
  assert (Hww : Z.of_nat w = (zlen data + zlen buf) / 512 + 1) by (unfold w; zdm).
  destruct (prepare_ok (fd_inode f) s0 i bs data w) as (r & d & b & m & Hprep & Hres).
  { by apply fs_wf_heap, fs_wf_heap. } { by apply file_rep_heap, file_rep_heap. } { zdm. } { zdm. }
  rewrite <- Hww. apply bind_ok_iff in Hprep as ((ok & s1) & Hfb & Hwb). rewrite Hfb. cbn [mbind outcome_bind].
  destruct ok; cbn [negb] in *.
  2: { injection Hwb as <- ->. destruct Hres as [[_ Hfull]|(? & ? & ? & [=] & _)]. left. by eexists. }
  rewrite Hwb. cbn [mbind outcome_bind]. destruct Hres as [[-> Hfull]|(ab & i' & bs' & -> & HE & HL & Hab)].
  { left. by eexists. }
  right. replace (Z.to_nat (zlen buf)) with (length buf) by (unfold zlen; lia).
  assert (Hzb : zlen bs' = Z.of_nat w) by (unfold zlen; lia).
  destruct (write_data_ok idx (fd_inode f) ab s0 (upd d b m s0) i i' bs bs' data buf f (fd_flag f)
    (u32 (zlen data - 1)) HE) as (s3 & s4 & i2 & Hput & Hloop & HW & Hsb); try done.
  { by apply fs_wf_heap, fs_wf_heap. } { by apply (file_map_frame s _ i); [..|destruct Hm]. }
  { lia. } { intros k Hk. apply Hab. lia. }
  mrun Hput. mrun Hloop. unfold get_inode. destruct HW as [? (Ha4 & Hrest) ? ? ? ?]. mrun Ha4.
  rewrite i32_small by lia. exists s4, i2, bs'. split; [done|]. split; [by split | done].
Qed.

Lemma file_write_ok idx buf s f i bs data h1 h2 rest :
  fs_wf s → file_table s !! idx = Some f → file_rep s (fd_inode f) i bs data →
  heap s = h1 :: h2 :: rest → h1 ≠ 0 → h2 ≠ 0 → Forall (λ y, 0 ≤ y < 256) buf →
  zlen data + zlen buf < 71680 → two_sec (inode_locate (part s) (u8 (i_no i))) = false →
  ∃ r s', file_write (Z.of_nat idx) buf (zlen buf) s = Ok (r, s') ∧
    ((r = -1 ∧ bitmap_full s') ∨
     (r = zlen buf ∧ ∃ i' bs', written s s' (fd_inode f) i i' bs bs' (data ++ buf))).
Proof.
  intros Hwf Hf Hrep Hh Hh1 Hh2 HF Hmax H2.
  destruct (file_write_core idx buf s f i bs data h1 h2 rest Hwf Hf Hrep Hh Hh1 Hh2 HF Hmax)
    as [(s' & Hw & Hfull)|(s2 & i2 & bs' & Hw & HW & Hsb)].
  - exists (-1), s'. split; [done|]. by left.
  - destruct (sync_written s s2 (fd_inode f) i i2 bs bs' (data ++ buf) HW) as (s' & Hsy & HW').
    { rewrite (inode_locate_sb _ (part s)) by done. destruct HW as [_ _ (-> & _) _ _ _].
      unfold nsec. by rewrite H2. }
    exists (zlen buf), s'. rewrite Hw, Hsy. split; [done|]. right. split; [done|]. by exists i2, bs'.
Qed.


(** C26: [file_write] hands its 512-byte buffer to [inode_sync], which transfers two
    sectors when the inode lies across a sector boundary: for such an inode (the
    seventh one, number 6, is the first) every write that finds its blocks ends
    by overrunning the buffer. *)
Theorem file_write_overrun idx buf s f i bs data h1 h2 rest :
  fs_wf s → file_table s !! idx = Some f → file_rep s (fd_inode f) i bs data →
  heap s = h1 :: h2 :: rest → h1 ≠ 0 → h2 ≠ 0 → Forall (λ y, 0 ≤ y < 256) buf →
  zlen data + zlen buf < 71680 → two_sec (inode_locate (part s) (u8 (i_no i))) = true →
  file_write (Z.of_nat idx) buf (zlen buf) s = Fault ∨
  ∃ s', file_write (Z.of_nat idx) buf (zlen buf) s = Ok (-1, s') ∧ bitmap_full s'.
Proof.
  intros Hwf Hf Hrep Hh Hh1 Hh2 HF Hmax H2.
  destruct (file_write_core idx buf s f i bs data h1 h2 rest Hwf Hf Hrep Hh Hh1 Hh2 HF Hmax)
    as [?|(s2 & i2 & bs' & Hw & HW & Hsb)]; [by right|left].
  rewrite Hw. unfold inode_sync. rewrite (inode_locate_sb _ (part s)) by done.
  destruct HW as [_ _ (-> & _) _ _ _]. unfold nsec. by rewrite H2.
Qed.

(** ** Reading *)

(** A piece of a block is the piece of the data. *)
Lemma stored_slice d bs data b sec pos c :
  stored d bs data → bs !! Z.to_nat (pos / 512) = Some b → d !! b = Some sec → length sec = 512%nat →
  0 ≤ pos → 0 ≤ c → pos mod 512 + c ≤ 512 → pos + c ≤ zlen data →
  slice sec (pos mod 512) c = Ok (take (Z.to_nat c) (drop (Z.to_nat pos) data)).
Proof.
  intros HS Hb Hsec HL H0 Hc Hfit Hlen. rewrite slice_ok by (unfold zlen; zdm). f_equal.
  apply list_eq_len.
  - rewrite !length_take, !length_drop. unfold zlen in Hlen. zdm.
  - intros k Hk. rewrite length_take, length_drop in Hk. rewrite !lookup_take_lt, !lookup_drop by lia.
    destruct (HS (pos + Z.of_nat k)) as (b' & sec' & Hb' & Hsec' & Hv); [lia|].
    replace ((pos + Z.of_nat k) / 512) with (pos / 512) in Hb' by zdm.
    rewrite Hb in Hb'. injection Hb' as <-. rewrite Hsec in Hsec'. injection Hsec' as <-.
    replace (Z.to_nat (pos mod 512) + k)%nat with (Z.to_nat ((pos + Z.of_nat k) mod 512)) by zdm.
    rewrite Hv. f_equal. lia.
Qed.

Lemma read_loop_ok fuel idx ab bs data dst done_ left s f :
  stored (dsk s) bs data → disk_wf (dsk s) → file_table s !! idx = Some f → 0 ≤ fd_pos f → 0 ≤ left →
  fd_pos f + left ≤ zlen data → zlen data < 4294967296 →
  (∀ k, fd_pos f / 512 ≤ k → 512 * k < fd_pos f + left → ab !! Z.to_nat k = bs !! Z.to_nat k) →
  0 ≤ done_ → done_ + left ≤ zlen dst → left < Z.of_nat fuel →
  read_loop fuel false (Z.of_nat idx) ab dst done_ left s =
    Ok (take (Z.to_nat done_) dst ++ take (Z.to_nat left) (drop (Z.to_nat (fd_pos f)) data)
          ++ drop (Z.to_nat (done_ + left)) dst,
        set_file_table (<[idx := File (fd_pos f + left) (fd_flag f) (fd_inode f)]> (file_table s)) s).
Proof.
  revert dst done_ left s f. induction fuel as [|fuel IH];
    intros dst dn left s f HS Hwf Hf Hp Hl Hlen Hmax Hab Hd0 Hdl Hfuel; [lia|].
  cbn [read_loop]. destruct (Z.ltb_spec 0 left) as [Hpos|Hz].
  2: { assert (left = 0) as -> by lia. rewrite !Z.add_0_r.
       replace (File (fd_pos f) (fd_flag f) (fd_inode f)) with f by (by destruct f).
       rewrite (list_insert_id _ _ _ Hf). change (Z.to_nat 0) with 0%nat. rewrite take_0, app_nil_l, take_drop.
       f_equal. f_equal. by destruct s. }
  assert (Hft : aget (file_table s) (Z.of_nat idx) = Ok f) by (apply aget_ok; rewrite Nat2Z.id; split; [lia|done]).
  mrun Hft. unfold BLOCK_SIZE, SECTOR_SIZE. set (pos := fd_pos f) in *.
  destruct (HS pos) as (b & sec & Hb & Hsec & _); [lia|]. destruct (Hwf _ _ Hsec) as [HLs _].
  assert (Hg : aget ab (pos / 512) = Ok b) by (apply aget_ok; split; [zdm|]; rewrite Hab by zdm; done).
  mrun Hg. set (c := if left <? 512 - pos mod 512 then left else 512 - pos mod 512).
  assert (Hc : 0 < c ≤ left ∧ pos mod 512 + c ≤ 512) by (unfold c; zcase; zdm).
  rewrite (disk_read_one _ _ _ Hsec). cbn [mbind outcome_bind].
  rewrite (stored_slice _ bs data b) by (done || lia). cbn [mbind outcome_bind].
  set (chunk := take (Z.to_nat c) (drop (Z.to_nat pos) data)).
  assert (Hzc : zlen chunk = c) by (unfold chunk, zlen in *; rewrite length_take, length_drop; lia).
  rewrite splice_eq by lia. rewrite Hzc. cbn [mbind outcome_bind].
  unfold put_file. assert (Hidx := lookup_lt_Some _ _ _ Hf).
  rewrite aset_ok by (unfold zlen; lia). cbn [mbind outcome_bind]. rewrite Nat2Z.id, (u32_small (pos + c)) by lia.
  set (dst' := take (Z.to_nat dn) dst ++ chunk ++ drop (Z.to_nat (dn + c)) dst).
  assert (Hlt : length (take (Z.to_nat dn) dst ++ chunk) = Z.to_nat (dn + c)).
  { rewrite length_app, length_take. unfold zlen in *. lia. }
  assert (Hd'len : zlen dst' = zlen dst).
  { unfold dst', zlen in *. rewrite !length_app, length_take, length_drop. lia. }
  rewrite IH with (f := File (pos + c) (fd_flag f) (fd_inode f)); cbn [fd_pos fd_flag fd_inode]; try done; try lia.
  - cbn [file_table set_file_table]. rewrite list_insert_insert_eq.
    replace (pos + c + (left - c)) with (pos + left) by lia. f_equal. apply f_equal2; [|done].
    unfold dst' at 1. rewrite (app_assoc (take _ dst)), <- Hlt, take_app_length, <- app_assoc. f_equal.
    replace (Z.to_nat (dn + c + (left - c))) with (Z.to_nat (dn + c) + Z.to_nat (left - c))%nat by lia.
    rewrite <- drop_drop. unfold dst'. rewrite (app_assoc (take _ dst)), <- Hlt at 1.
    rewrite drop_app_length, drop_drop, app_assoc. f_equal; [|f_equal; lia].
    unfold chunk. replace (Z.to_nat left) with (Z.to_nat c + Z.to_nat (left - c))%nat by lia.
    rewrite <- (take_take_drop (drop (Z.to_nat pos) data)). f_equal. rewrite drop_drop. f_equal. f_equal. lia.
  - cbn [file_table set_file_table]. apply list_lookup_insert_eq. done.
  - intros k Hk1 Hk2. apply Hab; zdm.
Qed.

Lemma copy_sectors_ok i from n ab :
  length (i_sectors i) = 13%nat → length ab = 140%nat → 0 ≤ from → 0 < n → from + n ≤ 13 →
  ∃ ab', copy_sectors i from n ab = Ok ab' ∧ length ab' = 140%nat ∧
    ∀ k, from ≤ k < from + n → ab' !! Z.to_nat k = i_sectors i !! Z.to_nat k.
Proof.
  intros HL Hab H0 Hn Hle. unfold copy_sectors. rewrite (proj2 (Z.leb_gt n 0)) by lia.
  rewrite slice_ok by (unfold zlen; lia). cbn [mbind outcome_bind].
  set (b := take _ _). assert (Hzb : zlen b = n) by (unfold b, zlen; rewrite length_take, length_drop; lia).
  destruct (splice_ok ab from b) as (ab' & -> & HL' & Hk); [done | unfold zlen in *; lia |].
  exists ab'. split_and!; [done | lia |]. intros k Hkr. rewrite Hk by lia. rewrite Hzb.
  rewrite (proj2 (Z.leb_le _ _)), (proj2 (Z.ltb_lt _ _)) by lia. simpl.
  unfold b. rewrite lookup_take_lt, lookup_drop by lia. f_equal. lia.
Qed.

Lemma read_table_app s ind ab sec :
  disk_wf (dsk s) → dsk s !! ind = Some sec → length ab = 140%nat →
  ∃ ab', read_table ind ab s = Ok ab' ∧ (∀ k, 0 ≤ k < 12 → ab' !! Z.to_nat k = ab !! Z.to_nat k) ∧
    ∀ k, 12 ≤ k → ab' !! Z.to_nat k = words_of_bytes sec !! (Z.to_nat k - 12)%nat.
Proof.
  intros Hd Hs HL. unfold read_table. rewrite (disk_read_one _ _ _ Hs). cbn [mbind outcome_bind].
  eexists. split; [done|]. split; intros k Hk.
  - rewrite lookup_app_l by (rewrite length_take; lia). apply lookup_take_lt. lia.
  - rewrite lookup_app_r by (rewrite length_take; lia). rewrite length_take. f_equal. lia.
Qed.

Lemma read_blocks_ok s i bs start_idx end_idx :
  fs_wf s → file_map s i bs → 0 ≤ start_idx ≤ end_idx → end_idx < zlen bs →
  ∃ ab, read_blocks i start_idx end_idx s = Ok ab ∧
    ∀ k, start_idx ≤ k ≤ end_idx → ab !! Z.to_nat k = bs !! Z.to_nat k.
Proof.
  intros Hwf [(_&_&_&H13&_) Hu Hn HL Hd Ht] Hse Hend. unfold read_blocks. cbv zeta. unfold zlen in Hend.
  assert (Hrep : length (replicate 140 0) = 140%nat) by apply length_replicate.
  assert (Hdir : ∀ k, 0 ≤ k < 12 → k ≤ end_idx → i_sectors i !! Z.to_nat k = bs !! Z.to_nat k)
    by (intros k Hk Hk'; apply Hd; lia).
  assert (Htab : ∀ ab, 12 ≤ end_idx → length ab = 140%nat → ∃ ind ab', aget (i_sectors i) 12 = Ok ind ∧
    read_table ind ab s = Ok ab' ∧ (∀ k, 0 ≤ k < 12 → ab' !! Z.to_nat k = ab !! Z.to_nat k) ∧
    ∀ k, 12 ≤ k ≤ end_idx → ab' !! Z.to_nat k = bs !! Z.to_nat k).
  { intros ab H12 Hab. destruct Ht as (ind & sec & H1 & H2 & H3 & H4 & H5); [lia|].
    destruct (read_table_app s ind ab sec) as (ab' & Hr & Hlo & Hhi); [apply Hwf | done | done |].
    exists ind, ab'. split_and!; try done; [by apply aget_ok|]. intros k Hk. rewrite Hhi by lia. apply H5. lia. }
  destruct (Z.eqb_spec start_idx end_idx) as [<-|Hne].
  - destruct (Z.ltb_spec start_idx 12).
    + destruct (copy_sectors_ok i start_idx 1 (replicate 140 0)) as (ab & -> & _ & Hk); try done; try lia.
      exists ab. split; [done|]. intros k Hk'. rewrite Hk by lia. apply Hdir; lia.
    + destruct (Htab (replicate 140 0)) as (ind & ab' & Hg & Hr & _ & Hhi); [lia|done|]. mrun Hg.
      exists ab'. split; [done|]. intros k Hk. apply Hhi. lia.
  - destruct (Z.ltb_spec end_idx 12).
    + destruct (copy_sectors_ok i start_idx (end_idx - start_idx + 1) (replicate 140 0)) as (ab & -> & _ & Hk);
        try done; try lia.
      exists ab. split; [done|]. intros k Hk'. rewrite Hk by lia. apply Hdir; lia.
    + destruct (Z.ltb_spec start_idx 12).
      * destruct (copy_sectors_ok i start_idx (12 - start_idx) (replicate 140 0)) as (ab & -> & HLab & Hk);
          try done; try lia.
        cbn [mbind outcome_bind]. destruct (Htab ab) as (ind & ab' & Hg & Hr & Hlo & Hhi); [lia|done|]. mrun Hg.
        exists ab'. split; [done|]. intros k Hk'. destruct (decide (k < 12)).
        -- rewrite Hlo, Hk by lia. apply Hdir; lia.
        -- apply Hhi. lia.
      * destruct (Htab (replicate 140 0)) as (ind & ab' & Hg & Hr & _ & Hhi); [lia|done|]. mrun Hg.
        exists ab'. split; [done|]. intros k Hk. apply Hhi. lia.
Qed.

Lemma file_read_ok idx dst count s f i bs data h1 h2 h3 rest :
  fs_wf s → file_table s !! idx = Some f → file_rep s (fd_inode f) i bs data →
  heap s = h1 :: h2 :: h3 :: rest → h1 ≠ 0 → h2 ≠ 0 → h3 ≠ 0 →
  0 ≤ fd_pos f < zlen data → 0 < count ≤ zlen dst → fd_pos f + count < 4294967296 →
  let n := Z.min count (zlen data - fd_pos f) in
  file_read false (Z.of_nat idx) dst count s =
    Ok (n, take (Z.to_nat n) (drop (Z.to_nat (fd_pos f)) data) ++ drop (Z.to_nat n) dst,
        set_file_table (<[idx := File (fd_pos f + n) (fd_flag f) (fd_inode f)]> (file_table s))
          (set_heap rest s)).
Proof.
  intros Hwf Hf (Ha & Hm & Hsz & HS & Hcase) Hh Hh1 Hh2 Hh3 Hpos Hcnt Hmax n.
  assert (Hlen : zlen bs = zlen data / 512 + 1).
  { destruct Hcase as [?|(_ & -> & _)]; [done|]. change (zlen (@nil Z)) with 0 in Hpos. lia. }
  assert (Hbs : zlen bs ≤ 140) by (destruct Hm; unfold zlen; lia).
  unfold file_read.
  assert (Hft : aget (file_table s) (Z.of_nat idx) = Ok f) by (apply aget_ok; rewrite Nat2Z.id; split; [lia|done]).
  mrun Hft. unfold get_inode. mrun Ha. rewrite Hsz. rewrite (u32_small (fd_pos f + count)) by lia.
  assert (Hsize : (if fd_pos f + count >? zlen data then u32 (zlen data - fd_pos f) else count) = n).
  { unfold n. rewrite u32_small by zdm. zcase; lia. }
  rewrite Hsize. assert (Hn : 0 < n ≤ count ∧ fd_pos f + n ≤ zlen data) by (unfold n; lia). clearbody n.
  rewrite (proj2 (Z.eqb_neq n 0)), andb_false_r by lia.
  unfold kmalloc. rewrite Hh. cbn [heap set_heap].
  rewrite (proj2 (Z.eqb_neq _ _) Hh1), (proj2 (Z.eqb_neq _ _) Hh2), (proj2 (Z.eqb_neq _ _) Hh3).
  set (s0 := set_heap rest _). rewrite (u32_small (fd_pos f + n)) by lia. unfold BLOCK_SIZE, SECTOR_SIZE.
  destruct (read_blocks_ok s0 i bs (fd_pos f / 512) ((fd_pos f + n) / 512)) as (ab & -> & Hab).
  { by do 3 apply fs_wf_heap. } { by apply (file_map_frame s _ i); [..|destruct Hm]. } { zdm. } { zdm. }
  cbn [mbind outcome_bind].
  rewrite (read_loop_ok _ _ ab bs data dst 0 n s0 f); try done; try lia.
  - cbn [mbind outcome_bind]. rewrite i32_small by zdm. done.
  - apply Hwf.
  - zdm.
  - intros k Hk1 Hk2. apply Hab. zdm.
Qed.

(** C11: [file_read] reads the content.  From a position inside a file with content
    [data] it delivers the next [count] bytes, or those up to the end of the
    file when fewer are left, writes exactly these bytes to the front of the
    destination, returns their number, advances the position by it and changes
    nothing else, the heap and the output apart; across direct and indirect
    blocks.  Its three allocations must succeed, and the destination must not lie
    in the page of the heap that the function saves and restores (see
    [file_read_lost]); the trace message it prints is not modelled. *)
Theorem file_read_slice idx dst count s f i bs data h1 h2 h3 rest :
  fs_wf s → file_table s !! idx = Some f → file_rep s (fd_inode f) i bs data →
  heap s = h1 :: h2 :: h3 :: rest → h1 ≠ 0 → h2 ≠ 0 → h3 ≠ 0 →
  0 ≤ fd_pos f < zlen data → 0 < count ≤ zlen dst → fd_pos f + count < 4294967296 →
  let n := Z.min count (zlen data - fd_pos f) in
  ∃ s', file_read false (Z.of_nat idx) dst count s =
      Ok (n, take (Z.to_nat n) (drop (Z.to_nat (fd_pos f)) data) ++ drop (Z.to_nat n) dst, s') ∧
    mute s' = mute (set_file_table (<[idx := File (fd_pos f + n) (fd_flag f) (fd_inode f)]> (file_table s))
      (set_heap rest s)).
Proof. intros. eexists. split; [by eapply file_read_ok | done]. Qed.

(** When the destination lies in the heap page that [file_read] saves and
    restores around each transfer, the call reports the bytes as read but the
    destination keeps its old content. *)
Theorem file_read_lost idx dst count s f i bs data h1 h2 h3 rest :
  fs_wf s → file_table s !! idx = Some f → file_rep s (fd_inode f) i bs data →
  heap s = h1 :: h2 :: h3 :: rest → h1 ≠ 0 → h2 ≠ 0 → h3 ≠ 0 →
  fd_pos f = 0 → zlen data ≤ 512 → 0 < count ≤ zlen dst → count ≤ zlen data →
  ∃ s', file_read true (Z.of_nat idx) dst count s = Ok (count, dst, s').
Proof.
  intros Hwf Hf (Ha & Hm & Hsz & HS & Hcase) Hh Hh1 Hh2 Hh3 Hpos Hsmall Hcnt Hle.
  unfold file_read.
  assert (Hft : aget (file_table s) (Z.of_nat idx) = Ok f) by (apply aget_ok; rewrite Nat2Z.id; split; [lia|done]).
  mrun Hft. unfold get_inode. mrun Ha. rewrite Hsz, Hpos. rewrite (u32_small (0 + count)) by lia.
  rewrite Z.gtb_ltb, (proj2 (Z.ltb_ge _ _)) by lia. cbn [andb].
  unfold kmalloc. rewrite Hh. cbn [heap set_heap].
  rewrite (proj2 (Z.eqb_neq _ _) Hh1), (proj2 (Z.eqb_neq _ _) Hh2), (proj2 (Z.eqb_neq _ _) Hh3).
  set (s0 := set_heap rest _). rewrite (u32_small (0 + count)) by lia. unfold BLOCK_SIZE, SECTOR_SIZE.
  assert (Hlen : zlen bs = zlen data / 512 + 1).
  { destruct Hcase as [?|(_ & -> & _)]; [done|]. change (zlen (@nil Z)) with 0 in Hle. lia. }
  destruct (read_blocks_ok s0 i bs (0 / 512) ((0 + count) / 512)) as (ab & -> & Hab).
  { by do 3 apply fs_wf_heap. } { by apply (file_map_frame s _ i); [..|destruct Hm]. } { zdm. } { zdm. }
  cbn [mbind outcome_bind]. cbn [read_loop]. rewrite (proj2 (Z.ltb_lt 0 count)) by lia.
  assert (Hft0 : aget (file_table s0) (Z.of_nat idx) = Ok f) by exact Hft. mrun Hft0. rewrite Hpos.
  destruct (HS 0) as (b & sec & Hb & Hsec & _); [lia|]. destruct (fw_disk _ Hwf _ _ Hsec) as [HLs _].
  assert (Hg : aget ab (0 / BLOCK_SIZE) = Ok b) by (apply aget_ok; split; [done|]; change (0 / BLOCK_SIZE) with 0; by rewrite (Hab 0) by zdm).
  mrun Hg. change (0 mod BLOCK_SIZE) with 0. change (BLOCK_SIZE - 0) with 512.
  change (dsk s0) with (dsk s). rewrite (disk_read_one _ _ _ Hsec). cbn [mbind outcome_bind].
  assert (Hc : (if count <? 512 then count else 512) = count) by (zcase; lia). rewrite Hc.
  rewrite slice_ok by (unfold zlen; lia). cbn [mbind outcome_bind].
  rewrite splice_eq by (unfold zlen in *; rewrite ?length_take, ?length_drop; lia). cbn [mbind outcome_bind].
  unfold put_file. assert (Hidx := lookup_lt_Some _ _ _ Hf). rewrite aset_ok by (unfold zlen; simpl; lia).
  cbn [mbind outcome_bind]. rewrite Z.sub_diag.
  destruct (Z.to_nat count) as [|m] eqn:E; [lia|]. cbn [read_loop]. change (0 <? 0) with false.
  cbn [mbind outcome_bind]. rewrite i32_small by lia. by eexists.
Qed.

(** ** A file of two bytes *)

(** Slot 3 of [file_table] is the file at 0xc0200000, inode 1, with the content
    "hi" in block 613. *)
Definition demo_hi : list Z := [104; 105].
Definition demo_file_inode (no : Z) : inode := Inode no 2 1 false ([613] ++ replicate 12 0).

Definition demo_file_fs (no : Z) : fs :=
  Fs (<[613 := demo_hi ++ replicate 510 0]> (blank_disk 4708 0))
    (Partition 0 4708 demo_sb (Bitmap 512 (3 :: replicate 512 0)) (Bitmap 512 (3 :: replicate 512 0)) [0xc0200000])
    {[ 0xc0200000 := demo_file_inode no ]} ∅
    (<[3%nat := File 0 2 0xc0200000]> (replicate 32 (File 0 0 0))) [0; 1; 2; 3; -1; -1; -1; -1] 0 ∅
    (kbd_queue demo_fs) [] [0xc0101000; 0xc0102000; 0xc0103000].

Lemma demo_file_wf no : fs_wf (demo_file_fs no).
Proof.
  split.
  - apply disk_wf_insert; [apply blank_disk_wf; lia | done |].
    repeat (apply Forall_cons; split; [lia|]). constructor.
  - cbn [part demo_file_fs]. vm_compute. discriminate.
  - cbn [part demo_file_fs]. vm_compute. discriminate.
  - cbn [part demo_file_fs]. vm_compute. discriminate.
  - cbn [part demo_file_fs]. vm_compute. discriminate.
  - cbn [part demo_file_fs]. vm_compute. reflexivity.
  - intros k Hk. change (2 ≤ k < 4708) in Hk. apply (sectors_insert _ 0 4708); [|lia].
    apply blank_disk_sectors; lia.
  - cbn [part demo_file_fs]. apply bitmap_wf_dec. vm_compute. reflexivity.
  - cbn [part demo_file_fs]. vm_compute. reflexivity.
  - cbn [part demo_file_fs]. vm_compute. reflexivity.
Qed.

Lemma demo_file_rep no :
  0 ≤ no < 4096 → file_rep (demo_file_fs no) 0xc0200000 (demo_file_inode no) [613] demo_hi.
Proof.
  intros Hno. split_and!; [reflexivity | | reflexivity | | left; reflexivity].
  - split.
    + unfold inode_ok, u32_range_P. simpl. split_and!; try lia; try done. repeat constructor; lia.
    + constructor; [|constructor]. unfold in_use. cbn [part demo_file_fs].
      split; [split; [vm_compute; discriminate | vm_compute; reflexivity] | vm_compute; reflexivity].
    + apply NoDup_singleton.
    + simpl. lia.
    + intros k H1 H2. simpl in H2. assert (k = 0)%nat as -> by lia. reflexivity.
    + intros Hlt. exfalso. change (12 < 1)%nat in Hlt. lia.
  - intros k Hk. change (0 ≤ k < 2) in Hk. exists 613, (demo_hi ++ replicate 510 0).
    replace (k / 512) with 0 by zdm. replace (k mod 512) with k by zdm.
    split_and!; [reflexivity | apply lookup_insert_eq |].
    rewrite lookup_app_l; [done | simpl; lia].
Qed.


Lemma file_write_overrun_witness :
  file_write 3 [33] 1 (demo_file_fs 6) = Fault ∨
  ∃ s', file_write 3 [33] 1 (demo_file_fs 6) = Ok (-1, s') ∧ bitmap_full s'.
Proof.
  apply (file_write_overrun 3 [33] (demo_file_fs 6) (File 0 2 0xc0200000) (demo_file_inode 6) [613] demo_hi
    0xc0101000 0xc0102000 [0xc0103000]);
    [apply demo_file_wf | reflexivity | apply demo_file_rep; lia | reflexivity | lia | lia
    | repeat constructor; lia | vm_compute; reflexivity | cbn [part demo_file_fs]; vm_compute; reflexivity].
Defined.

Lemma file_read_slice_witness :
  ∃ s', file_read false 3 [0; 0; 0] 3 (demo_file_fs 1) = Ok (2, [104; 105; 0], s') ∧
    mute s' = mute (set_file_table (<[3%nat := File 2 2 0xc0200000]> (file_table (demo_file_fs 1)))
      (set_heap [] (demo_file_fs 1))).
Proof.
  apply (file_read_slice 3 [0; 0; 0] 3 (demo_file_fs 1) (File 0 2 0xc0200000) (demo_file_inode 1) [613] demo_hi
    0xc0101000 0xc0102000 0xc0103000 []);
    [apply demo_file_wf | reflexivity | apply demo_file_rep; lia | reflexivity | lia | lia | lia
    | split; [vm_compute; discriminate | vm_compute; reflexivity]
    | split; [lia | vm_compute; discriminate] | vm_compute; reflexivity].
Defined.

Lemma file_read_lost_witness :
  ∃ s', file_read true 3 [7; 7] 2 (demo_file_fs 1) = Ok (2, [7; 7], s').
Proof.
  apply (file_read_lost 3 [7; 7] 2 (demo_file_fs 1) (File 0 2 0xc0200000) (demo_file_inode 1) [613] demo_hi
    0xc0101000 0xc0102000 0xc0103000 []);
    [apply demo_file_wf | reflexivity | apply demo_file_rep; lia | reflexivity | lia | lia | lia
    | reflexivity | vm_compute; discriminate | split; [lia | vm_compute; discriminate] | vm_compute; discriminate].
Defined.
