(* ===== verification/Pipe.v ===== *)
(** * Pipes and descriptor redirection (shell/pipe.c, and fd_local2global of fs/fs.c)

    A pipe is a ring buffer in a kernel page; its slot of [file_table] has the
    flag [PIPE_FLAG], the page as [fd_inode] and the number of open ends as
    [fd_pos].  [t] is the calling thread; the results include the threads that
    the ring buffer wakes. *)

From S2P Require Import Prelude Sync IoQueue Disk FsState File.

Definition PIPE_FLAG : Z := 0xffff.

(** ** Operations *)

Definition fd_local2global (local_fd : Z) (s : fs) : outcome Z :=
  global_fd ← aget (fd_table s) (u32 local_fd);
  Ok (u32 global_fd).

Definition is_pipe (local_fd : Z) (s : fs) : outcome bool :=
  global_fd ← fd_local2global local_fd s;
  f ← aget (file_table s) global_fd;
  Ok (fd_flag f =? PIPE_FLAG).

(** A page fresh from [get_kernel_pages] is all zero. *)
Definition fresh_queue : ioqueue :=
  ioqueue_init (IoQueue (Lock 0 (Semaphore 0 []) 0) 0 0 (replicate 64 0) 0 0).

(** The slot is used unchecked (index -1 when the table is full), and the ring
    buffer is initialised before the page is compared with [NULL]. *)
Definition sys_pipe (s : fs) : outcome (Z * (Z * Z) * fs) :=
  let global_fd := get_free_slot_in_global s in
  f ← aget (file_table s) global_fd;
  let '(page, s) := kmalloc s in
  if page =? 0 then Fault
  else
    let s := set_ioqs (<[page := fresh_queue]> (ioqs s)) s in
    s ← put_file global_fd (File 2 PIPE_FLAG page) s;
    '(fd0, s) ← pcb_fd_install global_fd s;
    '(fd1, s) ← pcb_fd_install global_fd s;
    Ok (0, (fd0, fd1), s).

Definition get_ioq (p : Z) (s : fs) : outcome ioqueue := of_opt (ioqs s !! p).
Definition put_ioq (p : Z) (q : ioqueue) (s : fs) : fs := set_ioqs (<[p := q]> (ioqs s)) s.

(** [n] calls of [ioq_getchar] and of [ioq_putchar]. *)
Fixpoint getchars (n : nat) (t : Z) (q : ioqueue) : outcome (list Z * ioqueue * list Z) :=
  match n with
  | O => Ok ([], q, [])
  | S n' =>
      '(b, q, w) ← ioq_getchar t q;
      '(bs, q, ws) ← getchars n' t q;
      Ok (b :: bs, q, option_list w ++ ws)
  end.

Fixpoint putchars (bs : list Z) (t : Z) (q : ioqueue) : outcome (ioqueue * list Z) :=
  match bs with
  | [] => Ok (q, [])
  | b :: bs' =>
      '(q, w) ← ioq_putchar t b q;
      '(q, ws) ← putchars bs' t q;
      Ok (q, option_list w ++ ws)
  end.

(** The bytes go to the front of the caller's buffer. *)
Definition pipe_read (t fd count : Z) (s : fs) : outcome (list Z * fs * list Z) :=
  global_fd ← fd_local2global fd s;
  f ← aget (file_table s) global_fd;
  q ← get_ioq (fd_inode f) s;
  let ioq_len := ioq_length q in
  let size := if ioq_len >? count then count else ioq_len in
  '(bs, q, ws) ← getchars (Z.to_nat size) t q;
  Ok (bs, put_ioq (fd_inode f) q s, ws).

Definition pipe_write (t fd : Z) (bytes : list Z) (count : Z) (s : fs) : outcome (Z * fs * list Z) :=
  global_fd ← fd_local2global fd s;
  f ← aget (file_table s) global_fd;
  q ← get_ioq (fd_inode f) s;
  let ioq_left := u32 (bufsize - ioq_length q) in
  let size := if ioq_left >? count then count else ioq_left in
  bs ← slice bytes 0 size;
  '(q, ws) ← putchars bs t q;
  Ok (size, put_ioq (fd_inode f) q s, ws).

Definition sys_fd_redirect (old_local_fd new_local_fd : Z) (s : fs) : outcome fs :=
  if new_local_fd <? 3 then
    t ← aset (fd_table s) old_local_fd new_local_fd; Ok (set_fd_table t s)
  else
    new_global_fd ← aget (fd_table s) new_local_fd;
    t ← aset (fd_table s) old_local_fd new_global_fd;
    Ok (set_fd_table t s).

(** ** Lemmas *)

Lemma getchars_ok n t q :
  ioq_wf q → Z.of_nat n ≤ zlen (contents q) →
  ∃ q' ws, getchars n t q = Ok (take n (contents q), q', ws) ∧ ioq_wf q' ∧ contents q' = drop n (contents q).
Proof.
  revert q. induction n as [|n IH]; intros q Hwf Hn.
  - exists q, []. by rewrite drop_0.
  - destruct (contents q) as [|b bs] eqn:E; [change (zlen (@nil Z)) with 0 in Hn; lia|].
    rewrite zlen_cons in Hn. destruct (getchar_ok t b bs q Hwf E) as (q1 & Hg & Hwf1 & Hc & _).
    destruct (IH q1 Hwf1) as (q' & ws & Hgs & Hwf' & Hc'); [rewrite Hc; lia|].
    cbn [getchars]. mrun Hg. mrun Hgs. rewrite Hc in *. by eexists _, _.
Qed.

Lemma putchars_ok bs t q :
  ioq_wf q → zlen (contents q) + zlen bs ≤ 63 →
  ∃ q' ws, putchars bs t q = Ok (q', ws) ∧ ioq_wf q' ∧ contents q' = contents q ++ bs.
Proof.
  revert q. induction bs as [|b bs IH]; intros q Hwf Hn.
  - exists q, []. by rewrite app_nil_r.
  - rewrite zlen_cons in Hn. pose proof (zlen_nonneg bs).
    destruct (putchar_ok t b q Hwf) as (q1 & Hp & Hwf1 & Hc & _); [lia|].
    destruct (IH q1 Hwf1) as (q' & ws & Hps & Hwf' & Hc').
    { rewrite Hc, zlen_app. unfold zlen in *. simpl. lia. }
    cbn [putchars]. mrun Hp. mrun Hps. eexists _, _. split; [done|]. split; [done|].
    by rewrite Hc', Hc, <- app_assoc.
Qed.

(** Putting a byte into a full buffer puts the thread to sleep. *)
Lemma putchars_block bs t q :
  ioq_wf q → ilock q = lock_init → t ≠ 0 → 63 < zlen (contents q) + zlen bs →
  putchars bs t q = Blocked.
Proof.
  revert q. induction bs as [|b bs IH]; intros q Hwf Hl Ht Hn.
  - change (zlen (@nil Z)) with 0 in Hn. rewrite contents_length in Hn. unfold bufsize in Hn. zdm.
  - rewrite zlen_cons in Hn. cbn [putchars]. destruct (decide (zlen (contents q) < 63)) as [Hlt|Hge].
    + destruct (putchar_ok t b q Hwf Hlt) as (q1 & Hp & Hwf1 & Hc & _ & _ & Hl1). mrun Hp.
      rewrite IH; [done|done|by rewrite Hl1|done|]. rewrite Hc, zlen_app. unfold zlen in *. simpl. lia.
    + unfold ioq_putchar, putchar_turn. rewrite (proj2 (ioq_full_iff q Hwf)).
      * unfold producer_wait, lock_acquire. rewrite Hl. simpl. by rewrite (proj2 (Z.eqb_neq 0 t)) by lia.
      * rewrite contents_length in *. unfold bufsize in *. zdm.
Qed.

(** ** Properties *)

(** The descriptor [fd] of the running thread is the pipe with this queue. *)
Definition pipe_fd (s : fs) (fd : Z) (f : file) (q : ioqueue) : Prop :=
  ∃ g, aget (fd_table s) (u32 fd) = Ok g ∧ aget (file_table s) (u32 g) = Ok f ∧
    ioqs s !! fd_inode f = Some q ∧ ioq_wf q.

Lemma pipe_fd_global s fd f q :
  pipe_fd s fd f q → ∃ g, fd_local2global fd s = Ok g ∧ aget (file_table s) g = Ok f ∧
    get_ioq (fd_inode f) s = Ok q.
Proof.
  intros (g & Hg & Hf & Hq & _). exists (u32 g). unfold fd_local2global, get_ioq. rewrite Hg, Hq. done.
Qed.

Lemma pipe_fd_put s fd f q q' :
  pipe_fd s fd f q → ioq_wf q' → pipe_fd (put_ioq (fd_inode f) q' s) fd f q'.
Proof.
  intros (g & Hg & Hf & Hq & _) Hwf. exists g. split_and!; try done. simpl. by rewrite lookup_insert_eq.
Qed.

(** Reading and writing while the bytes fit. *)
Lemma pipe_read_ok t fd count s f q :
  pipe_fd s fd f q → 0 ≤ count →
  ∃ ws q', let n := Z.to_nat (Z.min count (zlen (contents q))) in
    pipe_read t fd count s = Ok (take n (contents q), put_ioq (fd_inode f) q' s, ws) ∧ ioq_wf q' ∧ contents q' = drop n (contents q).
Proof.
  intros Hp Hcnt. destruct (pipe_fd_global s fd f q Hp) as (g & Hg & Hf & Hq).
  pose proof Hp as (_ & _ & _ & _ & Hwf). unfold pipe_read. mrun Hg. mrun Hf. mrun Hq. rewrite ioq_length_eq by done.
  assert (Hsz : (if zlen (contents q) >? count then count else zlen (contents q)) = Z.min count (zlen (contents q))) by (zcase; lia). rewrite Hsz.
  destruct (getchars_ok (Z.to_nat (Z.min count (zlen (contents q)))) t q Hwf) as (q' & ws & Hgs & Hwf' & Hc').
  { pose proof (zlen_nonneg (contents q)). lia. }
  mrun Hgs. exists ws, q'. done.
Qed.

Lemma pipe_write_ok t fd bytes s f q :
  pipe_fd s fd f q → zlen (contents q) + zlen bytes ≤ 63 →
  ∃ ws q', pipe_write t fd bytes (zlen bytes) s = Ok (zlen bytes, put_ioq (fd_inode f) q' s, ws) ∧ ioq_wf q' ∧ contents q' = contents q ++ bytes.
Proof.
  intros Hp Hroom. pose proof (zlen_nonneg bytes) as Hb0. pose proof (zlen_nonneg (contents q)) as Hc0.
  destruct (pipe_fd_global s fd f q Hp) as (g & Hg & Hf & Hq). pose proof Hp as (_ & _ & _ & _ & Hwf).
  unfold pipe_write. mrun Hg. mrun Hf. mrun Hq. rewrite ioq_length_eq by done.
  unfold bufsize. rewrite u32_small by lia. rewrite Z.gtb_ltb, (proj2 (Z.ltb_lt _ _)) by lia.
  rewrite slice_ok by lia. cbn [mbind outcome_bind]. change (drop (Z.to_nat 0) bytes) with bytes.
  rewrite take_ge by (unfold zlen; lia).
  destruct (putchars_ok bytes t q Hwf Hroom) as (q' & ws & Hps & Hwf' & Hc'). mrun Hps. exists ws, q'. done.
Qed.

(** A pipe is a bounded FIFO channel.  [pipe_read] never blocks: it takes the
    oldest bytes, as many as are asked for or as there are; [pipe_write] appends
    its bytes while at most 63 are in the buffer, returns their number, and a
    [pipe_read] of all of them delivers the old content followed by these bytes. *)
Theorem pipe_channel t fd bytes s f q :
  pipe_fd s fd f q → zlen (contents q) + zlen bytes ≤ 63 →
  (∀ count, 0 ≤ count → ∃ s' ws q', let n := Z.to_nat (Z.min count (zlen (contents q))) in
     pipe_read t fd count s = Ok (take n (contents q), s', ws) ∧ pipe_fd s' fd f q' ∧
     contents q' = drop n (contents q)) ∧
  (∃ s' ws q', pipe_write t fd bytes (zlen bytes) s = Ok (zlen bytes, s', ws) ∧ pipe_fd s' fd f q' ∧
     ∃ s'' ws', pipe_read t fd 63 s' = Ok (contents q ++ bytes, s'', ws')).
Proof.
  intros Hp Hroom. pose proof (zlen_nonneg (contents q)). split.
  - intros count Hcnt. destruct (pipe_read_ok t fd count s f q Hp Hcnt) as (ws & q' & Hr & Hwf & Hc).
    eexists _, ws, q'. split; [exact Hr|]. split; [by eapply pipe_fd_put|done].
  - destruct (pipe_write_ok t fd bytes s f q Hp Hroom) as (ws & q' & Hw & Hwf & Hc). pose proof (pipe_fd_put s fd f q q' Hp Hwf) as Hp'.
    eexists _, ws, q'. split; [exact Hw|]. split; [exact Hp'|].
    destruct (pipe_read_ok t fd 63 _ f q' Hp' ltac:(lia)) as (ws' & q2 & Hr & _). eexists _, ws'. rewrite Hr, Hc. do 3 f_equal. apply take_ge.
    rewrite zlen_app. unfold zlen in *. rewrite length_app. lia.
Qed.

(** [pipe_write] limits a write to [64 - length] bytes to avoid blocking, but the
    ring buffer holds 63: a write of at least the remaining 64 - length bytes
    puts the writer to sleep. *)
Theorem pipe_write_blocks t fd bytes s f q :
  pipe_fd s fd f q → ilock q = lock_init → t ≠ 0 → 64 ≤ zlen (contents q) + zlen bytes →
  pipe_write t fd bytes (zlen bytes) s = Blocked.
Proof.
  intros Hp Hl Ht Hfull. destruct (pipe_fd_global s fd f q Hp) as (g & Hg & Hf & Hq).
  pose proof Hp as (_ & _ & _ & _ & Hwf). unfold pipe_write. mrun Hg. mrun Hf. mrun Hq.
  rewrite ioq_length_eq by done. pose proof (contents_length q) as Hc. unfold bufsize in *.
  rewrite u32_small by zdm. rewrite Z.gtb_ltb, (proj2 (Z.ltb_ge _ _)) by lia.
  rewrite slice_ok by zdm. cbn [mbind outcome_bind].
  rewrite putchars_block; [done|done|done|done|].
  unfold zlen at 2. rewrite length_take, length_drop. unfold zlen in *. zdm.
Qed.

(** ** A thread with a pipe on descriptor 3 *)

Definition demo_pipe_fs : fs :=
  put_ioq 0xc0300000 fresh_queue
    (set_fd_table [0; 1; 2; 3; 3; -1; -1; -1]
      (set_file_table (<[3%nat := File 2 PIPE_FLAG 0xc0300000]> (replicate 32 (File 0 0 0))) demo_fs)).

Lemma demo_pipe_fd : pipe_fd demo_pipe_fs 3 (File 2 PIPE_FLAG 0xc0300000) fresh_queue.
Proof. exists 3. split_and!; try reflexivity. by apply ioqueue_init_ok. Qed.

Lemma pipe_channel_witness :
  ∃ s' ws q', pipe_write 0x1000 3 [104; 105] 2 demo_pipe_fs = Ok (2, s', ws) ∧
     pipe_fd s' 3 (File 2 PIPE_FLAG 0xc0300000) q' ∧
     ∃ s'' ws', pipe_read 0x1000 3 63 s' = Ok ([104; 105], s'', ws').
Proof.
  apply (pipe_channel 0x1000 3 [104; 105] demo_pipe_fs (File 2 PIPE_FLAG 0xc0300000) fresh_queue demo_pipe_fd).
  vm_compute. discriminate.
Defined.

Lemma pipe_write_blocks_witness : pipe_write 0x1000 3 (replicate 64 65) 64 demo_pipe_fs = Blocked.
Proof.
  apply (pipe_write_blocks 0x1000 3 (replicate 64 65) demo_pipe_fs (File 2 PIPE_FLAG 0xc0300000) fresh_queue
    demo_pipe_fd); [reflexivity | lia | vm_compute; discriminate].
Defined.
