(* ===== verification/Fs.v ===== *)
(** * The file system calls (fs/fs.c)

    Formatting and mounting a partition, paths, and the system calls.  Strings are
    byte lists that reach from the pointer to the end of its buffer.  What the
    code reads before it is written (locals without an initialiser) is an
    argument: [junk_name] (16 bytes, [name] of [path_depth_cnt]) and [junk_de]
    (24 bytes, [dir_e] of [search_file]). *)

From S2P Require Import Prelude Bitmap Sync IoQueue Disk FsState Inode Dir File Pipe.

Definition DIV_ROUND_UP (x step : Z) : Z := u32 (x + step - 1) / step.
Definition MAX_FILES_PER_PART : Z := 4096.
Definition BITS_PER_SECTOR : Z := 4096.
Definition MAX_PATH_LEN : Z := 512.
Definition FS_MAGIC : Z := 0x19590318.

(** ** Formatting *)

Definition inode_table_sectors : Z := DIV_ROUND_UP (sizeof_inode * MAX_FILES_PER_PART) SECTOR_SIZE.

(** [block_bitmap_bit_len]: the number of data blocks. *)
Definition format_bit_len (sec_cnt : Z) : Z :=
  let used_sects := 1 + 1 + DIV_ROUND_UP MAX_FILES_PER_PART BITS_PER_SECTOR + inode_table_sectors in
  let free_sects := u32 (sec_cnt - used_sects) in
  u32 (free_sects - DIV_ROUND_UP free_sects BITS_PER_SECTOR).

Definition format_sb (start_lba sec_cnt : Z) : super_block :=
  let bbs := DIV_ROUND_UP (format_bit_len sec_cnt) BITS_PER_SECTOR in
  let ibs := DIV_ROUND_UP MAX_FILES_PER_PART BITS_PER_SECTOR in
  let bbl := u32 (start_lba + 2) in
  let ibl := u32 (bbl + bbs) in
  let itl := u32 (ibl + ibs) in
  SuperBlock FS_MAGIC sec_cnt MAX_FILES_PER_PART start_lba bbl bbs ibl ibs itl inode_table_sectors
    (u32 (itl + inode_table_sectors)) 0 sizeof_dir_entry.

(** [while (bit_idx <= last_bit) buf[last_byte] &= ~(1 << bit_idx++)] *)
Fixpoint clear_bits (n : nat) (bit_idx : Z) (y : Z) : Z :=
  match n with
  | O => y
  | S n' => clear_bits n' (bit_idx + 1) (u8 (Z.land y (Z.lnot (Z.shiftl 1 bit_idx))))
  end.

(** The block bitmap in the buffer of [buf_size] zeroes. *)
Definition format_block_bitmap (buf_size bit_len : Z) : outcome (list Z) :=
  let buf := replicate (Z.to_nat buf_size) 0 in
  b0 ← aget buf 0;
  buf ← aset buf 0 (Z.lor b0 1);
  let last_byte := bit_len / 8 in
  let last_bit := bit_len mod 8 in
  let last_size := SECTOR_SIZE - last_byte mod SECTOR_SIZE in
  buf ← splice buf last_byte (replicate (Z.to_nat last_size) 255);
  y ← aget buf last_byte;
  aset buf last_byte (clear_bits (Z.to_nat (last_bit + 1)) 0 y).

Definition root_inode (sb : super_block) : inode :=
  Inode 0 (u32 (dir_entry_size sb * 2)) 0 false (data_start_lba sb :: replicate 12 0).

(** The entries "." and "..". *)
Definition dot_entries (self parent : Z) : list Z :=
  de_bytes (DirEntry (46 :: replicate 15 0) self (ftype_word FT_DIRECTORY)) ++
  de_bytes (DirEntry ([46; 46] ++ replicate 14 0) parent (ftype_word FT_DIRECTORY)).

(** The four writes behind the super block, through one buffer of [buf_size]
    bytes that is cleared in between. *)
Definition format_writes (sb : super_block) (buf_size bit_len : Z) (d : disk) : outcome disk :=
  buf ← format_block_bitmap buf_size bit_len;
  d ← disk_write d (block_bitmap_lba sb) buf (Z.to_nat (block_bitmap_sects sb));
  let zero := replicate (Z.to_nat buf_size) 0 in
  buf ← aset zero 0 1;
  d ← disk_write d (inode_bitmap_lba sb) buf (Z.to_nat (inode_bitmap_sects sb));
  buf ← splice zero 0 (inode_bytes (root_inode sb));
  d ← disk_write d (inode_table_lba sb) buf (Z.to_nat (inode_table_sects sb));
  buf ← splice zero 0 (dot_entries 0 0);
  disk_write d (data_start_lba sb) buf 1.

(** [pad]: the bytes of the super block's padding; the buffer is not checked
    against [NULL]. *)
Definition partition_format (start_lba sec_cnt : Z) (pad : list Z) (buf_p : Z) (d : disk) : outcome disk :=
  let sb := format_sb start_lba sec_cnt in
  d ← disk_write d (u32 (start_lba + 1)) (sb_bytes sb pad) 1;
  let most := if block_bitmap_sects sb >=? inode_bitmap_sects sb then block_bitmap_sects sb
              else inode_bitmap_sects sb in
  let buf_size := u32 ((if most >=? inode_table_sects sb then most else inode_table_sects sb) * SECTOR_SIZE) in
  if buf_p =? 0 then Fault
  else format_writes sb buf_size (format_bit_len sec_cnt) d.

(** ** Mounting *)

(** The branch of [mount_partition] for the partition with the right name.  The
    bitmaps in memory are [sects * 512] bytes long; [slack] is the byte of the
    heap behind them that [bitmap_scan] may read. *)
Definition mount_partition (start_lba sec_cnt slack : Z) (s : fs) : outcome fs :=
  let '(sb_buf, s) := kmalloc s in
  let '(sb_p, s) := kmalloc s in
  if sb_p =? 0 then Panic
  else if sb_buf =? 0 then Fault
  else
    b ← disk_read (dsk s) (u32 (start_lba + 1)) 1;
    sb ← sb_of_bytes b;
    let '(bits_p, s) := kmalloc s in
    if bits_p =? 0 then Panic
    else
      bb ← disk_read (dsk s) (block_bitmap_lba sb) (Z.to_nat (block_bitmap_sects sb));
      let '(ibits_p, s) := kmalloc s in
      if ibits_p =? 0 then Panic
      else
        ib ← disk_read (dsk s) (inode_bitmap_lba sb) (Z.to_nat (inode_bitmap_sects sb));
        Ok (set_part (Partition start_lba sec_cnt sb
              (Bitmap (u32 (block_bitmap_sects sb * SECTOR_SIZE)) (bb ++ [slack]))
              (Bitmap (u32 (inode_bitmap_sects sb * SECTOR_SIZE)) (ib ++ [slack])) []) s).

(** ** Paths *)

Definition SLASH : Z := 47.

Fixpoint skip_slashes (path : list Z) : outcome (list Z) :=
  match path with
  | [] => Fault
  | c :: rest => if c =? SLASH then skip_slashes rest else Ok path
  end.

(** The copying loop; [k] is the position in [name_store]. *)
Fixpoint copy_name (path name_store : list Z) (k : Z) : outcome (list Z * list Z) :=
  match path with
  | [] => Fault
  | c :: rest =>
      if (c =? SLASH) || (c =? 0) then Ok (path, name_store)
      else name_store ← aset name_store k c; copy_name rest name_store (k + 1)
  end.

(** [None] is [NULL]: the path ended. *)
Definition path_parse (pathname name_store : list Z) : outcome (option (list Z) * list Z) :=
  path ← skip_slashes pathname;
  '(path, name_store) ← copy_name path name_store 0;
  c ← aget path 0;
  Ok (if c =? 0 then None else Some path, name_store).

Definition zero_name : list Z := replicate 16 0.

Fixpoint depth_loop (fuel : nat) (p : option (list Z)) (name : list Z) (depth : Z) : outcome Z :=
  match fuel with
  | O => NoFuel
  | S fuel' =>
      c ← aget name 0;
      if c =? 0 then Ok depth
      else
        match p with
        | Some path => '(p, name) ← path_parse path zero_name; depth_loop fuel' p name (u32 (depth + 1))
        | None => depth_loop fuel' None zero_name (u32 (depth + 1))
        end
  end.

Definition path_depth_cnt (junk_name pathname : list Z) : outcome Z :=
  '(p, name) ← path_parse pathname junk_name;
  depth_loop (S (S (length pathname))) p name 0.

(** ** Strings *)

Definition bstrcat (dst src : list Z) : outcome (list Z) :=
  n ← bstrlen dst;
  m ← bstrlen src;
  splice dst n (take (Z.to_nat (m + 1)) src).

(** [strrchr (str, '/') + 1]; without a slash this is a pointer to nowhere. *)
Fixpoint after_slash (str : list Z) (last : option (list Z)) : outcome (list Z) :=
  match str with
  | [] => Fault
  | c :: rest =>
      if c =? 0 then of_opt last
      else after_slash rest (if c =? SLASH then Some rest else last)
  end.

(** ** Searching a path *)

Record path_search_record := PathSearchRecord {
  searched_path : list Z;
  parent_dir : Z;
  sr_type : file_types;
}.

(** [memset (&searched_record, 0, sizeof (struct path_search_record))] *)
Definition empty_record : path_search_record := PathSearchRecord (replicate 512 0) 0 FT_UNKNOWN.

Definition is_root_path (p : list Z) : outcome bool :=
  c1 ← bstrcmp p [47; 0];
  if c1 =? 0 then Ok true
  else
    c2 ← bstrcmp p [47; 46; 0];
    if c2 =? 0 then Ok true
    else c3 ← bstrcmp p [47; 46; 46; 0]; Ok (c3 =? 0).

(** The loop of [search_file]: [dir] is [parent_dir], [pino] [parent_inode_no]. *)
Fixpoint search_loop (fuel : nat) (sub_path : option (list Z)) (name dir_e : list Z) (dir pino : Z)
    (r : path_search_record) (s : fs) : outcome (Z * path_search_record * fs) :=
  match fuel with
  | O => NoFuel
  | S fuel' =>
      c ← aget name 0;
      if c =? 0 then
        s ← dir_close (parent_dir r) s;
        '(p, s) ← dir_open pino s;
        e ← de_of_bytes dir_e;
        Ok (i32 (de_i_no e), PathSearchRecord (searched_path r) p FT_DIRECTORY, s)
      else
        path ← bstrcat (searched_path r) [SLASH; 0];
        path ← bstrcat path name;
        let r := PathSearchRecord path (parent_dir r) (sr_type r) in
        '(found, s) ← search_dir_entry dir name dir_e s;
        match found with
        | None => Ok (-1, r, s)
        | Some dir_e =>
            '(sub_path, name) ←
              (match sub_path with Some p => path_parse p zero_name | None => Ok (None, zero_name) end);
            e ← de_of_bytes dir_e;
            if f_type e =? ftype_word FT_DIRECTORY then
              d ← get_dir dir s;
              i ← dir_inode_of d s;
              s ← dir_close dir s;
              '(p, s) ← dir_open (de_i_no e) s;
              search_loop fuel' sub_path name dir_e p (i_no i)
                (PathSearchRecord path p (sr_type r)) s
            else if f_type e =? ftype_word FT_REGULAR then
              Ok (i32 (de_i_no e), PathSearchRecord path (parent_dir r) FT_REGULAR, s)
            else search_loop fuel' sub_path name dir_e dir pino r s
        end
  end.

Definition search_file (junk_de pathname : list Z) (r : path_search_record) (s : fs)
    : outcome (Z * path_search_record * fs) :=
  root ← is_root_path pathname;
  if root : bool then
    sp ← aset (searched_path r) 0 0;
    Ok (0, PathSearchRecord sp ROOT_DIR FT_DIRECTORY, s)
  else
    let r := PathSearchRecord (searched_path r) ROOT_DIR FT_UNKNOWN in
    '(sub_path, name) ← path_parse pathname zero_name;
    search_loop (S (S (length pathname))) sub_path name junk_de ROOT_DIR 0 r s.

(** ** Opening and closing files *)

Definition sys_open (junk_name junk_de pathname : list Z) (flags : Z) (s : fs) : outcome (Z * fs) :=
  n ← bstrlen pathname;
  last ← aget pathname (u32 (n - 1));
  if last =? SLASH then Ok (-1, s)
  else
    pathname_depth ← path_depth_cnt junk_name pathname;
    '(inode_no, r, s) ← search_file junk_de pathname empty_record s;
    let found := negb (inode_no =? -1) in
    if decide (sr_type r = FT_DIRECTORY) then
      s ← dir_close (parent_dir r) s; Ok (-1, s)
    else
      path_searched_depth ← path_depth_cnt junk_name (searched_path r);
      if negb (pathname_depth =? path_searched_depth) then
        s ← dir_close (parent_dir r) s; Ok (-1, s)
      else if negb found && (Z.land flags O_CREAT =? 0) then
        s ← dir_close (parent_dir r) s; Ok (-1, s)
      else if found && negb (Z.land flags O_CREAT =? 0) then
        s ← dir_close (parent_dir r) s; Ok (-1, s)
      else if Z.land flags O_CREAT =? O_CREAT then
        fname ← after_slash pathname None;
        '(fd, s) ← file_create (parent_dir r) fname flags s;
        s ← dir_close (parent_dir r) s;
        Ok (fd, s)
      else file_open (u32 inode_no) flags s.

(** A pipe's page is freed with its last open end. *)
Definition sys_close (fd : Z) (s : fs) : outcome (Z * fs) :=
  if fd >? 2 then
    global_fd ← fd_local2global fd s;
    pipe ← is_pipe fd s;
    '(ret, s) ←
      (if pipe : bool then
         f ← aget (file_table s) global_fd;
         let pos := u32 (fd_pos f - 1) in
         if pos =? 0 then
           s ← put_file global_fd (File pos (fd_flag f) 0) (set_ioqs (delete (fd_inode f) (ioqs s)) s);
           Ok (0, s)
         else s ← put_file global_fd (File pos (fd_flag f) (fd_inode f)) s; Ok (0, s)
       else file_close global_fd s);
    t ← aset (fd_table s) fd (-1);
    Ok (ret, set_fd_table t s)
  else Ok (-1, s).

(** ** Reading and writing *)

Definition stdin_no : Z := 0.
Definition stdout_no : Z := 1.
Definition stderr_no : Z := 2.

(** [console_put_str]: the characters up to the NUL. *)
Definition console_put_str (str : list Z) (s : fs) : outcome fs :=
  n ← bstrlen str; Ok (set_screen (screen s ++ take (Z.to_nat n) str) s).

(** [t]: the calling thread; the last result: the threads a pipe wakes. *)
Definition sys_write (t fd : Z) (buf : list Z) (count : Z) (s : fs) : outcome (Z * fs * list Z) :=
  if fd <? 0 then Ok (-1, s, [])
  else if fd =? stdout_no then
    pipe ← is_pipe fd s;
    if pipe : bool then '(n, s, ws) ← pipe_write t fd buf count s; Ok (i32 n, s, ws)
    else
      b ← slice buf 0 count;
      tmp_buf ← splice (replicate 1024 0) 0 b;
      s ← console_put_str tmp_buf s;
      Ok (i32 count, s, [])
  else
    pipe ← is_pipe fd s;
    if pipe : bool then '(n, s, ws) ← pipe_write t fd buf count s; Ok (i32 n, s, ws)
    else
      g ← fd_local2global fd s;
      f ← aget (file_table s) g;
      if negb (Z.land (fd_flag f) O_WRONLY =? 0) || negb (Z.land (fd_flag f) O_RDWR =? 0) then
        '(n, s) ← file_write g buf count s; Ok (n, s, [])
      else Ok (-1, s, []).

(** [dst]: the caller's buffer; [shared]: see [file_read]. *)
Definition sys_read (t : Z) (shared : bool) (fd : Z) (dst : list Z) (count : Z) (s : fs)
    : outcome (Z * list Z * fs * list Z) :=
  if (fd <? 0) || (fd =? stdout_no) || (fd =? stderr_no) then Ok (-1, dst, s, [])
  else
    pipe ← is_pipe fd s;
    if pipe : bool then
      '(bs, s, ws) ← pipe_read t fd count s;
      dst ← splice dst 0 bs;
      Ok (zlen bs, dst, s, ws)
    else if fd =? stdin_no then
      '(bs, q, ws) ← getchars (Z.to_nat count) t (kbd_queue s);
      dst ← splice dst 0 bs;
      Ok (if count =? 0 then -1 else i32 count, dst, set_kbd q s, ws)
    else
      g ← fd_local2global fd s;
      '(n, dst, s) ← file_read shared g dst count s;
      Ok (n, dst, s, []).

Definition sys_putchar (char_asci : Z) (s : fs) : fs := set_screen (screen s ++ [char_asci]) s.

Definition SEEK_SET : Z := 1.
Definition SEEK_CUR : Z := 2.
Definition SEEK_END : Z := 3.

Definition sys_lseek (fd offset whence : Z) (s : fs) : outcome (Z * fs) :=
  if fd <? 0 then Ok (-1, s)
  else
    g ← fd_local2global fd s;
    f ← aget (file_table s) g;
    i ← get_inode (fd_inode f) s;
    let file_size := i32 (i_size i) in
    let new_pos :=
      if whence =? SEEK_SET then offset
      else if whence =? SEEK_CUR then i32 (i32 (fd_pos f) + offset)
      else if whence =? SEEK_END then i32 (file_size + offset)
      else 0 in
    if (new_pos <? 0) || (new_pos >? i32 (file_size - 1)) then Ok (-1, s)
    else
      s ← put_file g (File (u32 new_pos) (fd_flag f) (fd_inode f)) s;
      Ok (i32 (u32 new_pos), s).

(** ** Removing files *)

(** The loop over [file_table] of [sys_unlink]: is the inode open? *)
Fixpoint inode_in_use (l : list file) (inode_no : Z) (s : fs) : outcome bool :=
  match l with
  | [] => Ok false
  | f :: rest =>
      if fd_inode f =? 0 then inode_in_use rest inode_no s
      else
        i ← get_inode (fd_inode f) s;
        if u32 inode_no =? i_no i then Ok true else inode_in_use rest inode_no s
  end.

Definition sys_unlink (junk_de pathname : list Z) (s : fs) : outcome (Z * fs) :=
  '(inode_no, r, s) ← search_file junk_de pathname empty_record s;
  if (inode_no =? -1) || bool_decide (sr_type r = FT_DIRECTORY) then
    s ← dir_close (parent_dir r) s; Ok (-1, s)
  else
    busy ← inode_in_use (file_table s) inode_no s;
    if busy : bool then s ← dir_close (parent_dir r) s; Ok (-1, s)
    else
      let '(io_buf, s) := kmalloc s in
      if io_buf =? 0 then s ← dir_close (parent_dir r) s; Ok (-1, s)
      else
        '(_, s) ← delete_dir_entry (parent_dir r) (u32 inode_no) 1024 s;
        s ← inode_release (u32 inode_no) s;
        s ← dir_close (parent_dir r) s;
        Ok (0, s).

(** ** Directories *)

(** The error exits of [sys_mkdir]: the new block is not given back. *)
Definition mkdir_rollback (step inode_no : Z) (r : path_search_record) (s : fs) : outcome (Z * fs) :=
  s ← (if step =? 2 then inode_bitmap_set inode_no 0 s else Ok s);
  s ← dir_close (parent_dir r) s;
  Ok (-1, s).

(** The part of [sys_mkdir] after the new inode and its first block are there. *)
Definition mkdir_finish (inode_no block_lba : Z) (r : path_search_record) (s : fs) : outcome (Z * fs) :=
  s ← sync_block block_lba s;
  d ← get_dir (parent_dir r) s;
  pi ← dir_inode_of d s;
  io_buf ← splice (replicate 1024 0) 0 (dot_entries inode_no (i_no pi));
  dk ← disk_write (dsk s) (u32 block_lba) io_buf 1;
  let s := set_dsk dk s in
  let new_dir_inode := Inode inode_no (u32 (2 * dir_entry_size (sb (part s)))) 0 false
                         (u32 block_lba :: replicate 12 0) in
  dirname ← after_slash (searched_path r) None;
  new_dir_entry ← create_dir_entry dirname inode_no (ftype_word FT_DIRECTORY) (replicate 24 0);
  '(ok, s) ← sync_dir_entry (parent_dir r) new_dir_entry s;
  if negb ok then mkdir_rollback 2 inode_no r s
  else
    pi ← get_inode (dinode d) s;
    s ← inode_sync 1024 pi s;
    s ← inode_sync 1024 new_dir_inode s;
    s ← bitmap_sync inode_no INODE_BITMAP s;
    s ← dir_close (parent_dir r) s;
    Ok (0, s).

Definition sys_mkdir (junk_name junk_de pathname : list Z) (s : fs) : outcome (Z * fs) :=
  let '(io_buf, s) := kmalloc s in
  if io_buf =? 0 then Ok (-1, s)
  else
    '(inode_no, r, s) ← search_file junk_de pathname empty_record s;
    if negb (inode_no =? -1) then mkdir_rollback 1 inode_no r s
    else
      pathname_depth ← path_depth_cnt junk_name pathname;
      path_searched_depth ← path_depth_cnt junk_name (searched_path r);
      if negb (pathname_depth =? path_searched_depth) then mkdir_rollback 1 inode_no r s
      else
        '(inode_no, s) ← inode_bitmap_alloc s;
        if inode_no =? -1 then mkdir_rollback 1 inode_no r s
        else
          '(block_lba, s) ← block_bitmap_alloc s;
          if block_lba =? -1 then mkdir_rollback 2 inode_no r s
          else mkdir_finish inode_no block_lba r s.

Definition sys_readdir (p : Z) (s : fs) : outcome (option Z * fs) := dir_read p s.

Definition sys_rewinddir (p : Z) (s : fs) : outcome fs :=
  d ← get_dir p s;
  Ok (set_dirs (<[p := Dir (dinode d) 0 (dir_buf d)]> (dirs s)) s).

(** The second test is on [name[0]] again, so that only "/" is taken here. *)
Definition sys_opendir (junk_de name : list Z) (s : fs) : outcome (Z * fs) :=
  c0 ← aget name 0;
  short ← (if c0 =? SLASH then c1 ← aget name 1; Ok ((c1 =? 0) || (c0 =? 46)) else Ok false);
  if short : bool then Ok (ROOT_DIR, s)
  else
    '(inode_no, r, s) ← search_file junk_de name empty_record s;
    '(ret, s) ←
      (if inode_no =? -1 then Ok (0, s)
       else if decide (sr_type r = FT_DIRECTORY) then dir_open (u32 inode_no) s
       else Ok (0, s));
    s ← dir_close (parent_dir r) s;
    Ok (ret, s).

Definition sys_closedir (p : Z) (s : fs) : outcome (Z * fs) :=
  if p =? 0 then Ok (-1, s) else s ← dir_close p s; Ok (0, s).

Definition sys_rmdir (junk_de pathname : list Z) (s : fs) : outcome (Z * fs) :=
  '(inode_no, r, s) ← search_file junk_de pathname empty_record s;
  '(retval, s) ←
    (if inode_no =? -1 then Ok (-1, s)
     else if decide (sr_type r = FT_REGULAR) then Ok (-1, s)
     else
       '(p, s) ← dir_open (u32 inode_no) s;
       empty ← dir_is_empty p s;
       '(retval, s) ←
         (if empty : bool then
            '(rc, s) ← dir_remove (parent_dir r) p s; Ok (if rc =? 0 then 0 else -1, s)
          else Ok (-1, s));
       s ← dir_close p s;
       Ok (retval, s));
  s ← dir_close (parent_dir r) s;
  Ok (retval, s).

(** ** The working directory *)

(** The parent directory is the second entry, "..". *)
Definition get_parent_dir_inode_nr (child_inode_nr : Z) (s : fs) : outcome (Z * fs) :=
  '(a, s) ← inode_open child_inode_nr s;
  i ← get_inode a s;
  block_lba ← aget (i_sectors i) 0;
  s ← inode_close a s;
  io_buf ← disk_read (dsk s) block_lba 1;
  no ← entry_ino io_buf 1;
  Ok (no, s).

(** The entry loop of [get_child_dir_name], by inode number. *)
Fixpoint find_ino (n : nat) (buf : list Z) (ino idx : Z) : outcome (option Z) :=
  match n with
  | O => Ok None
  | S n' =>
      no ← entry_ino buf idx;
      if no =? ino then Ok (Some idx) else find_ino n' buf ino (idx + 1)
  end.

Fixpoint child_name (blocks : list Z) (cnt : nat) (ino : Z) (path : list Z) (d : disk)
    : outcome (option (list Z)) :=
  match blocks with
  | [] => Ok None
  | lba :: rest =>
      if lba =? 0 then child_name rest cnt ino path d
      else
        buf ← disk_read d lba 1;
        found ← find_ino cnt buf ino 0;
        match found with
        | Some idx =>
            path ← bstrcat path [SLASH; 0];
            path ← bstrcat path (entry_name buf idx);
            Ok (Some path)
        | None => child_name rest cnt ino path d
        end
  end.

Definition get_child_dir_name (p_inode_nr c_inode_nr : Z) (path : list Z) (s : fs)
    : outcome (option (list Z) * fs) :=
  '(a, s) ← inode_open p_inode_nr s;
  i ← get_inode a s;
  all_blocks ← load_blocks i (dsk s);
  s ← inode_close a s;
  cnt ← entrys_per_sec s;
  r ← child_name all_blocks (Z.to_nat cnt) c_inode_nr path (dsk s);
  Ok (r, s).

(** From the working directory up to the root: the names, last one first. *)
Fixpoint cwd_loop (fuel : nat) (child : Z) (path : list Z) (s : fs) : outcome (option (list Z) * fs) :=
  match fuel with
  | O => NoFuel
  | S fuel' =>
      if child =? 0 then Ok (Some path, s)
      else
        '(parent, s) ← get_parent_dir_inode_nr (u32 child) s;
        '(r, s) ← get_child_dir_name parent (u32 child) path s;
        match r with
        | None => Ok (None, s)
        | Some path => cwd_loop fuel' (i32 parent) path s
        end
  end.

(** [strrchr (full_path_reverse, '/')] as a position. *)
Fixpoint last_slash (str : list Z) (k : Z) (last : option Z) : outcome (option Z) :=
  match str with
  | [] => Fault
  | c :: rest => if c =? 0 then Ok last else last_slash rest (k + 1) (if c =? SLASH then Some k else last)
  end.

(** The names are copied to [buf] from the last one on. *)
Fixpoint reverse_path (fuel : nat) (rev buf : list Z) : outcome (list Z) :=
  match fuel with
  | O => NoFuel
  | S fuel' =>
      p ← last_slash rev 0 None;
      match p with
      | None => Ok buf
      | Some p =>
          len ← bstrlen buf;
          n ← bstrlen (drop (Z.to_nat p) rev);
          buf ← splice buf (u16 len) (take (Z.to_nat (n + 1)) (drop (Z.to_nat p) rev));
          rev ← aset rev p 0;
          reverse_path fuel' rev buf
      end
  end.

(** [fuel] bounds the depth of the working directory; [None] is [NULL]. *)
Definition sys_getcwd (fuel : nat) (buf : list Z) (size : Z) (s : fs) : outcome (option (list Z) * fs) :=
  let '(io_buf, s) := kmalloc s in
  if io_buf =? 0 then Ok (None, s)
  else if cwd_inode_nr s =? 0 then
    buf ← aset buf 0 SLASH;
    buf ← aset buf 1 0;
    Ok (Some buf, s)
  else
    buf ← splice buf 0 (replicate (Z.to_nat size) 0);
    '(r, s) ← cwd_loop fuel (i32 (cwd_inode_nr s)) (replicate 512 0) s;
    match r with
    | None => Ok (None, s)
    | Some rev => buf ← reverse_path 513 rev buf; Ok (Some buf, s)
    end.

Definition sys_chdir (junk_de path : list Z) (s : fs) : outcome (Z * fs) :=
  '(inode_no, r, s) ← search_file junk_de path empty_record s;
  let '(ret, s) :=
    if negb (inode_no =? -1) && bool_decide (sr_type r = FT_DIRECTORY)
    then (0, set_cwd (u32 inode_no) s) else (-1, s) in
  s ← dir_close (parent_dir r) s;
  Ok (ret, s).

Record stat := Stat { st_ino : Z; st_size : Z; st_filetype : file_types }.

(** [None]: the caller's structure is not written. *)
Definition sys_stat (junk_de path : list Z) (s : fs) : outcome (Z * option stat * fs) :=
  root ← is_root_path path;
  if root : bool then
    d ← get_dir ROOT_DIR s;
    i ← dir_inode_of d s;
    Ok (0, Some (Stat 0 (i_size i) FT_DIRECTORY), s)
  else
    '(inode_no, r, s) ← search_file junk_de path empty_record s;
    '(ret, st, s) ←
      (if negb (inode_no =? -1) then
         '(a, s) ← inode_open (u32 inode_no) s;
         i ← get_inode a s;
         s ← inode_close a s;
         Ok (0, Some (Stat (u32 inode_no) (i_size i) (sr_type r)), s)
       else Ok (-1, None, s));
    s ← dir_close (parent_dir r) s;
    Ok (ret, st, s).

(** ** Initialisation *)

(** A partition of the data disk as [partition_scan] found it. *)
Record raw_part := RawPart { rp_start : Z; rp_cnt : Z; rp_name : list Z }.

(** The loop over the 12 partition slots of a disk: those without a file system
    are formatted. *)
Fixpoint format_parts (parts : list raw_part) (pad : list Z) (s : fs) : outcome fs :=
  match parts with
  | [] => Ok s
  | p :: rest =>
      if rp_cnt p =? 0 then format_parts rest pad s
      else
        b ← disk_read (dsk s) (u32 (rp_start p + 1)) 1;
        sb ← sb_of_bytes b;
        if magic sb =? FS_MAGIC then format_parts rest pad s
        else
          let '(buf, s) := kmalloc s in
          d ← partition_format (rp_start p) (rp_cnt p) pad buf (dsk s);
          format_parts rest pad (set_dsk d s)
  end.

Definition default_part : list Z := [115; 100; 98; 49; 0].

(** [list_traversal (&partition_list, mount_partition, default_part)]: the first
    partition with the name is mounted. *)
Fixpoint mount_default (parts : list raw_part) (slack : Z) (s : fs) : outcome fs :=
  match parts with
  | [] => Fault
  | p :: rest =>
      if rp_cnt p =? 0 then mount_default rest slack s
      else
        c ← bstrcmp (rp_name p) default_part;
        if c =? 0 then mount_partition (rp_start p) (rp_cnt p) slack s
        else mount_default rest slack s
  end.

(** With one data disk; [part_idx] is not reset, so that the partitions of a second
    disk are never looked at. *)
Definition filesys_init (parts : list raw_part) (pad : list Z) (slack : Z) (s : fs) : outcome fs :=
  let '(sb_buf, s) := kmalloc s in
  if sb_buf =? 0 then Panic
  else
    s ← format_parts parts pad s;
    s ← mount_default parts slack s;
    s ← open_root_dir s;
    Ok (set_file_table (map (λ f, File (fd_pos f) (fd_flag f) 0) (file_table s)) s).

(** ** Lemmas: the layout *)

Lemma div_round_up_ok x step : 0 ≤ x < 2147483648 → 0 < step ≤ 65536 →
  DIV_ROUND_UP x step = (x + step - 1) / step.
Proof. intros. unfold DIV_ROUND_UP. by rewrite u32_small by lia. Qed.

(** The areas of a formatted partition. *)
Record layout (start cnt : Z) (sb : super_block) (bit_len : Z) : Prop := {
  ly_len : bit_len = cnt - 611 - (cnt - 611 + 4095) / 4096;
  ly_bits : 0 < bit_len ≤ 4096 * block_bitmap_sects sb;
  ly_tight : 4096 * (block_bitmap_sects sb - 1) < bit_len;
  ly_bb : block_bitmap_lba sb = start + 2;
  ly_ib : inode_bitmap_lba sb = start + 2 + block_bitmap_sects sb ∧ inode_bitmap_sects sb = 1;
  ly_it : inode_table_lba sb = start + 3 + block_bitmap_sects sb ∧ inode_table_sects sb = 608;
  ly_data : data_start_lba sb = start + 611 + block_bitmap_sects sb;
  ly_end : data_start_lba sb + bit_len ≤ start + cnt ≤ data_start_lba sb + bit_len + 1;
}.

Lemma format_layout_ok start cnt :
  0 ≤ start → 613 ≤ cnt ≤ 4194304 → start + cnt < 2147483648 →
  layout start cnt (format_sb start cnt) (format_bit_len cnt).
Proof.
  intros Hs Hc He.
  assert (Hbl : format_bit_len cnt = cnt - 611 - (cnt - 611 + 4095) / 4096).
  { unfold format_bit_len. change (1 + 1 + _ + inode_table_sectors) with 611.
    rewrite (u32_small (cnt - 611)) by lia. unfold BITS_PER_SECTOR.
    rewrite div_round_up_ok by lia. rewrite u32_small by zdm. f_equal. f_equal. lia. }
  assert (Hbb : block_bitmap_sects (format_sb start cnt) = (format_bit_len cnt + 4095) / 4096).
  { unfold format_sb, BITS_PER_SECTOR. cbn [block_bitmap_sects]. rewrite div_round_up_ok; [f_equal; lia|zdm|lia]. }
  set (bbs := block_bitmap_sects (format_sb start cnt)) in *.
  assert (Hbr : 0 < bbs < 1048576) by zdm.
  assert (H2 : block_bitmap_lba (format_sb start cnt) = start + 2) by (unfold format_sb; simpl; apply u32_small; lia).
  assert (Hend : start + 611 + bbs < 4294967296) by lia.
  assert (H3 : inode_bitmap_lba (format_sb start cnt) = start + 2 + bbs).
  { change (u32 (block_bitmap_lba (format_sb start cnt) + bbs) = start + 2 + bbs). rewrite H2. apply u32_small. lia. }
  assert (H4 : inode_table_lba (format_sb start cnt) = start + 3 + bbs).
  { change (u32 (inode_bitmap_lba (format_sb start cnt) + 1) = start + 3 + bbs). rewrite H3. rewrite u32_small; lia. }
  assert (H5 : data_start_lba (format_sb start cnt) = start + 611 + bbs).
  { change (u32 (inode_table_lba (format_sb start cnt) + 608) = start + 611 + bbs). rewrite H4. rewrite u32_small; lia. }
  split; rewrite ?H2, ?H3, ?H4, ?H5; fold bbs; try done; try lia; zdm.
Qed.

(** The layout of a formatted partition.  For every partition of at least 613
    sectors and at most 2 GB the super block, the block bitmap, the inode bitmap, the inode table
    and the data blocks follow each other without overlap from its second
    sector on, the data blocks end at the last sector of the partition or one
    before it, the inode table has room for 4096 inodes of 76 bytes, and the
    block bitmap has a bit for each block and is as small as possible. *)
Theorem format_layout start cnt :
  0 ≤ start → 613 ≤ cnt ≤ 4194304 → start + cnt < 2147483648 →
  let sb := format_sb start cnt in
  let bit_len := format_bit_len cnt in
  block_bitmap_lba sb = start + 2 ∧
  inode_bitmap_lba sb = block_bitmap_lba sb + block_bitmap_sects sb ∧
  inode_table_lba sb = inode_bitmap_lba sb + inode_bitmap_sects sb ∧
  data_start_lba sb = inode_table_lba sb + inode_table_sects sb ∧
  start + cnt - 1 ≤ data_start_lba sb + bit_len ≤ start + cnt ∧
  4096 * 76 ≤ 512 * inode_table_sects sb ∧
  4096 * (block_bitmap_sects sb - 1) < bit_len ≤ 4096 * block_bitmap_sects sb.
Proof.
  intros Hs Hc He sb bit_len. destruct (format_layout_ok start cnt Hs Hc He)
    as [_ Hbits Htight H2 [H3 H3'] [H4 H4'] H5 H6].
  fold sb in H2, H3, H3', H4, H4', H5, H6, Htight, Hbits. fold bit_len in H6, Htight, Hbits.
  rewrite H2, H3, H3', H4, H4', H5 in *. split_and!; lia.
Qed.

Lemma format_layout_witness :
  let sb := format_sb 63 10000 in
  block_bitmap_lba sb = 65 ∧ data_start_lba sb + format_bit_len 10000 = 10063.
Proof.
  destruct (format_layout 63 10000) as (H1 & _ & _ & _ & H5 & _); [lia|lia|lia|].
  split; [exact H1|]. vm_compute in H5 |- *. reflexivity.
Defined.

(** ** Lemmas: the block bitmap *)

Lemma clear_bits_ok n k y j :
  0 ≤ y < 256 → 0 ≤ k → 0 ≤ j < 8 →
  Z.testbit (clear_bits n k y) j = Z.testbit y j && negb ((k <=? j) && (j <? k + Z.of_nat n)).
Proof.
  revert k y. induction n as [|n IH]; intros k y Hy Hk Hj.
  - simpl. replace (j <? k + Z.of_nat 0) with (j <? k) by (f_equal; lia).
    destruct (Z.leb_spec k j), (Z.ltb_spec j k); simpl; rewrite ?andb_true_r; done || lia.
  - cbn [clear_bits]. rewrite IH by (apply u8_range || lia). unfold u8.
    change 256 with (2 ^ 8). rewrite Z.mod_pow2_bits_low by lia.
    rewrite Z.land_spec, Z.lnot_spec, Z.shiftl_1_l, Z.pow2_bits_eqb by lia.
    destruct (Z.testbit y j); [simpl|done].
    destruct (Z.eqb_spec k j), (Z.leb_spec (k + 1) j), (Z.leb_spec k j),
      (Z.ltb_spec j (k + 1 + Z.of_nat n)), (Z.ltb_spec j (k + Z.of_nat (S n))); simpl; done || lia.
Qed.

Lemma clear_bits_range n k y : 0 ≤ y < 256 → 0 ≤ clear_bits n k y < 256.
Proof. revert k y. induction n as [|n IH]; intros k y Hy; [done|]. apply IH, u8_range. Qed.

(** Byte [j] of the bitmap buffer. *)
Lemma format_bitmap_bytes size bit_len :
  0 < bit_len → bit_len / 8 + 512 ≤ size →
  let lb := bit_len / 8 in
  ∃ b, format_block_bitmap size bit_len = Ok b ∧ zlen b = size ∧
    ∀ j, 0 ≤ j < size → b !! Z.to_nat j = Some
      (if j =? lb then clear_bits (Z.to_nat (bit_len mod 8 + 1)) 0 255
       else if (lb <? j) && (j <? lb + 512 - lb mod 512) then 255
       else if j =? 0 then 1 else 0).
Proof.
  intros Hb Hs lb. assert (Hlb : 0 ≤ lb) by (unfold lb; zdm). unfold format_block_bitmap. fold lb.
  assert (Hr : ∀ j, 0 ≤ j < size → replicate (Z.to_nat size) 0 !! Z.to_nat j = Some 0)
    by (intros j Hj; apply lookup_replicate_2; lia).
  assert (H0 : aget (replicate (Z.to_nat size) 0) 0 = Ok 0) by (apply aget_ok; split; [lia|]; apply (Hr 0); lia).
  mrun H0. rewrite aset_ok by (unfold zlen; rewrite length_replicate; lia). cbn [mbind outcome_bind].
  set (b1 := <[Z.to_nat 0 := Z.lor 0 1]> _).
  assert (Hz1 : zlen b1 = size) by (unfold b1, zlen; rewrite length_insert, length_replicate; lia).
  assert (Hb1 : ∀ j, 0 ≤ j < size → b1 !! Z.to_nat j = Some (if j =? 0 then 1 else 0)).
  { intros j Hj. unfold b1. destruct (Z.eqb_spec j 0) as [->|].
    - rewrite list_lookup_insert_eq; [done|]. rewrite length_replicate. lia.
    - rewrite list_lookup_insert_ne by lia. auto. }
  unfold SECTOR_SIZE. set (n := 512 - lb mod 512). assert (Hn : 0 < n ≤ 512) by (unfold n; zdm).
  assert (Hzr : zlen (replicate (Z.to_nat n) 255) = n) by (unfold zlen; rewrite length_replicate; lia).
  destruct (splice_ok b1 lb (replicate (Z.to_nat n) 255)) as (b2 & Hb2 & HL2 & Hk); [done|lia|]. mrun Hb2.
  assert (Hz2 : zlen b2 = size) by (unfold zlen in *; lia).
  assert (Hb2' : ∀ j, 0 ≤ j < size → b2 !! Z.to_nat j = Some
    (if (lb <=? j) && (j <? lb + n) then 255 else if j =? 0 then 1 else 0)).
  { intros j Hj. rewrite Hk, Hzr by lia. destruct (Z.leb_spec lb j), (Z.ltb_spec j (lb + n)); simpl; auto.
    apply lookup_replicate_2. lia. }
  assert (Hg : aget b2 lb = Ok 255).
  { apply aget_ok. split; [done|]. rewrite Hb2' by lia.
    by rewrite (proj2 (Z.leb_le _ _)), (proj2 (Z.ltb_lt _ _)) by lia. }
  mrun Hg. rewrite aset_ok by lia. eexists. split; [done|]. split; [by rewrite zlen_insert|].
  intros j Hj. destruct (Z.eqb_spec j lb) as [->|Hne].
  - apply list_lookup_insert_eq. unfold zlen in Hz2. lia.
  - rewrite list_lookup_insert_ne by lia. rewrite Hb2' by lia. f_equal.
    destruct (Z.leb_spec lb j), (Z.ltb_spec lb j), (Z.ltb_spec j (lb + n)), (Z.ltb_spec j (lb + 512 - lb mod 512));
      simpl; try done; unfold n in *; lia.
Qed.

(** Bit [j] of the bitmap. *)
Lemma format_bitmap_bit bl size b j :
  8 ≤ bl → bl / 8 + 512 ≤ size → 0 ≤ j < 4096 * ((bl + 4095) / 4096) →
  format_block_bitmap size bl = Ok b → bit_set (Bitmap size b) j = (j =? 0) || (bl <? j).
Proof.
  intros Hc Hs Hj Hb0. destruct (format_bitmap_bytes size bl) as (b' & Hb & Hz & Hbytes); [lia|done|].
  rewrite Hb0 in Hb. injection Hb as <-. unfold bit_set. cbn [bits].
  assert (Hg := Hbytes (j / 8)).
  destruct (decide (j / 8 < size)) as [Hlt|Hge]; [|exfalso; zdm].
  specialize (Hg ltac:(zdm)).
  assert (Ha : aget b (j / 8) = Ok (if j / 8 =? bl / 8 then clear_bits (Z.to_nat (bl mod 8 + 1)) 0 255
     else if (bl / 8 <? j / 8) && (j / 8 <? bl / 8 + 512 - bl / 8 mod 512) then 255
     else if j / 8 =? 0 then 1 else 0)) by (apply aget_ok; split; [zdm|done]).
  rewrite Ha. destruct (Z.eqb_spec (j / 8) (bl / 8)) as [E|E].
  - rewrite clear_bits_ok by zdm.
    assert (H255 : Z.testbit 255 (j mod 8) = true).
    { change 255 with (Z.ones 8). apply Z.ones_spec_low. zdm. }
    rewrite H255. simpl.
    destruct (Z.leb_spec 0 (j mod 8)); [|zdm].
    destruct (Z.ltb_spec (j mod 8) (0 + Z.of_nat (Z.to_nat (bl mod 8 + 1)))), (Z.eqb_spec j 0), (Z.ltb_spec bl j);
      simpl; try done; zdm.
  - destruct (Z.ltb_spec (bl / 8) (j / 8)); simpl.
    + rewrite (proj2 (Z.ltb_lt (j / 8) _)) by zdm. change 255 with (Z.ones 8). rewrite Z.ones_spec_low by zdm.
      symmetry. apply orb_true_iff. right. apply Z.ltb_lt. zdm.
    + rewrite (proj2 (Z.ltb_ge bl j)) by zdm. rewrite orb_false_r.
      destruct (Z.eqb_spec (j / 8) 0) as [E0|E0].
      * destruct (Z.eqb_spec j 0) as [->|Hj0]; [done|].
        change 1 with (2 ^ 0). rewrite Z.pow2_bits_false; [done|zdm].
      * rewrite Z.bits_0. symmetry. apply Z.eqb_neq. zdm.
Qed.

(** The block bitmap that [partition_format] writes marks the root directory's
    block and the bits behind the data blocks as used, but its clearing loop
    runs one bit too far: bit [bit_len], the block behind the last data block,
    is free whenever it lies in the bitmap, so that the allocator can hand out
    a sector outside the partition. *)
Theorem format_bitmap_extra_block cnt size j :
  620 ≤ cnt ≤ 4194304 →
  format_bit_len cnt / 8 + 512 ≤ size →
  0 ≤ j < 4096 * ((format_bit_len cnt + 4095) / 4096) →
  ∃ b, format_block_bitmap size (format_bit_len cnt) = Ok b ∧
    bit_set (Bitmap size b) j = (j =? 0) || (format_bit_len cnt <? j).
Proof.
  intros Hc Hs Hj. destruct (format_layout_ok 0 cnt) as [Hlen Hbits _ _ _ _ _ _]; [lia|lia|lia|].
  destruct (format_bitmap_bytes size (format_bit_len cnt)) as (b & Hb & _); [lia|done|].
  exists b. split; [done|]. eapply format_bitmap_bit; try done. zdm.
Qed.

Lemma format_bitmap_extra_block_witness :
  format_bit_len 5000 = 4387 ∧
  ∃ b, format_block_bitmap 311296 (format_bit_len 5000) = Ok b ∧ bit_set (Bitmap 311296 b) 4387 = false.
Proof.
  split; [reflexivity|].
  destruct (format_bitmap_extra_block 5000 311296 4387) as (b & Hb & Hbit);
    [lia | vm_compute; discriminate | vm_compute; split; [discriminate|reflexivity] |].
  exists b. split; [exact Hb|exact Hbit].
Defined.

(** ** Formatting and mounting *)

(** A write of zeroes with something in front. *)
Lemma zero_buffer_write d lba n size l :
  disk_wf d → 0 ≤ lba → sectors d lba (Z.of_nat n) → 512 * Z.of_nat n ≤ size → zlen l ≤ size →
  Forall (λ y, 0 ≤ y < 256) l →
  ∃ b d', splice (replicate (Z.to_nat size) 0) 0 l = Ok b ∧ disk_write d lba b n = Ok d' ∧ disk_wf d' ∧
    (∀ k, is_Some (d !! k) → is_Some (d' !! k)) ∧
    (∀ k, ¬ (lba ≤ k < lba + Z.of_nat n) → d' !! k = d !! k) ∧
    disk_read d' lba n = Ok (take (512 * n) (l ++ replicate (Z.to_nat (size - zlen l)) 0)).
Proof.
  intros Hwf Hl HS Hn Hlen HF. pose proof (zlen_nonneg l).
  assert (Hz : zlen (replicate (Z.to_nat size) 0) = size) by (unfold zlen; rewrite length_replicate; lia).
  assert (Hb : splice (replicate (Z.to_nat size) 0) 0 l = Ok (l ++ replicate (Z.to_nat (size - zlen l)) 0)).
  { rewrite splice_eq by lia. change (Z.to_nat 0) with 0%nat. rewrite take_0, drop_replicate. simpl.
    do 3 f_equal. lia. }
  destruct (disk_write_ok d lba (l ++ replicate (Z.to_nat (size - zlen l)) 0) n)
    as (d' & Hd' & Hwf' & Hs' & Ho & _); try done.
  - unfold zlen in *. rewrite length_app, length_replicate. lia.
  - apply Forall_app; split; [done | apply Forall_replicate; lia].
  - eexists _, d'. split_and!; eauto using disk_write_read.
Qed.

Lemma sectors_keep d d' lba n :
  sectors d lba n → (∀ k, is_Some (d !! k) → is_Some (d' !! k)) → sectors d' lba n.
Proof. intros H Hk k Hr. auto. Qed.

Lemma format_bitmap_range size bit_len b :
  0 < bit_len → bit_len / 8 + 512 ≤ size → format_block_bitmap size bit_len = Ok b →
  zlen b = size ∧ Forall (λ y, 0 ≤ y < 256) b.
Proof.
  intros H1 H2 Hb. destruct (format_bitmap_bytes size bit_len H1 H2) as (b' & Hb' & Hz & Hk).
  rewrite Hb in Hb'. injection Hb' as <-. split; [done|]. apply Forall_lookup. intros k y Hy.
  pose proof (lookup_lt_Some _ _ _ Hy). specialize (Hk (Z.of_nat k)). rewrite Nat2Z.id in Hk.
  rewrite Hk in Hy by (unfold zlen in Hz; lia). injection Hy as <-.
  repeat zcase; try lia. apply clear_bits_range. lia.
Qed.

Lemma dot_entries_range : Forall (λ y, 0 ≤ y < 256) (dot_entries 0 0).
Proof.
  vm_compute. repeat (apply Forall_cons; split; [split; [discriminate|reflexivity]|]). apply Forall_nil_2.
Qed.

(** The four writes: each area is read back as it was written, and nothing below
    the block bitmap changes. *)
Lemma format_writes_ok start cnt sb bit_len size d :
  layout start cnt sb bit_len → 0 ≤ start → 311296 ≤ size → bit_len / 8 + 512 ≤ size →
  512 * block_bitmap_sects sb ≤ size → disk_wf d →
  sectors d (start + 2) (data_start_lba sb + 1 - (start + 2)) →
  ∃ d' bb, format_writes sb size bit_len d = Ok d' ∧ format_block_bitmap size bit_len = Ok bb ∧
    disk_wf d' ∧ (∀ k, is_Some (d !! k) → is_Some (d' !! k)) ∧
    (∀ k, k < start + 2 → d' !! k = d !! k) ∧
    disk_read d' (block_bitmap_lba sb) (Z.to_nat (block_bitmap_sects sb))
      = Ok (take (512 * Z.to_nat (block_bitmap_sects sb)) bb) ∧
    disk_read d' (inode_bitmap_lba sb) 1 = Ok (1 :: replicate 511 0) ∧
    (∃ rest, disk_read d' (inode_table_lba sb) (Z.to_nat (inode_table_sects sb)) = Ok (inode_bytes (root_inode sb) ++ rest)) ∧
    (∃ rest, disk_read d' (data_start_lba sb) 1 = Ok (dot_entries 0 0 ++ rest)).
Proof.
  intros [Hlen Hbits Htight H2 [H3 H3'] [H4 H4'] H5 H6] Hs Hsz Hsz' Hsb Hwf HS.
  set (bbs := block_bitmap_sects sb) in *. unfold format_writes.
  destruct (format_bitmap_bytes size bit_len) as (bb & Hbb & _); [lia|done|].
  destruct (format_bitmap_range size bit_len bb) as [Hzb HFb]; [lia|done|done|]. mrun Hbb.
  destruct (disk_write_ok d (block_bitmap_lba sb) bb (Z.to_nat bbs)) as (d2 & Hd2 & Hwf2 & Hk2 & Ho2 & _);
    [done|lia| |lia|done|].
  { rewrite Z2Nat.id by lia. intros k Hk. apply HS. lia. }
  fold bbs. mrun Hd2. pose proof (sectors_keep _ _ _ _ HS Hk2) as HS2.
  assert (Hset : aset (replicate (Z.to_nat size) 0) 0 1 = splice (replicate (Z.to_nat size) 0) 0 [1]).
  { rewrite aset_ok by (unfold zlen; rewrite length_replicate; lia).
    rewrite splice_eq by (unfold zlen; rewrite ?length_replicate; simpl; lia).
    rewrite insert_take_drop by (rewrite length_replicate; lia). done. }
  rewrite Hset, H3', H4'.
  assert (H608 : ∃ n, Z.to_nat 608 = n ∧ Z.of_nat n = 608) by (eexists; split; [done|lia]).
  destruct H608 as (n & -> & Hn).
  destruct (zero_buffer_write d2 (inode_bitmap_lba sb) 1 size [1]) as (b3 & d3 & Hb3 & Hd3 & Hwf3 & Hk3 & Ho3 & Hr3);
    [done|lia|intros k Hk; apply HS2; lia|lia|unfold zlen; simpl; lia|repeat constructor; lia|].
  mrun Hb3. change (Z.to_nat 1) with 1%nat. mrun Hd3. pose proof (sectors_keep _ _ _ _ HS2 Hk3) as HS3.
  assert (Hri : length (inode_bytes (root_inode sb)) = 76%nat) by (by apply length_inode_bytes).
  destruct (zero_buffer_write d3 (inode_table_lba sb) n size (inode_bytes (root_inode sb)))
    as (b4 & d4 & Hb4 & Hd4 & Hwf4 & Hk4 & Ho4 & Hr4);
    [done|lia|intros k Hk; apply HS3; lia|lia|unfold zlen; lia|apply bytes_of_words_range|].
  mrun Hb4. mrun Hd4. pose proof (sectors_keep _ _ _ _ HS3 Hk4) as HS4.
  destruct (zero_buffer_write d4 (data_start_lba sb) 1 size (dot_entries 0 0))
    as (b5 & d5 & Hb5 & Hd5 & Hwf5 & Hk5 & Ho5 & Hr5);
    [done|lia|intros k Hk; apply HS4; lia|lia|change (zlen (dot_entries 0 0)) with 48; lia|apply dot_entries_range|].
  mrun Hb5. exists d5, bb. split_and!; [exact Hd5|done|done|auto 10| | | | |].
  - intros k Hk. rewrite Ho5, Ho4, Ho3, Ho2 by lia. done.
  - rewrite (disk_read_ext d2); [by apply disk_write_read in Hd2|]. intros k Hk. rewrite Ho5, Ho4, Ho3 by lia. done.
  - rewrite (disk_read_ext d3); [rewrite Hr3|intros k Hk; rewrite Ho5, Ho4 by lia; done].
    change (512 * 1)%nat with (S 511). simpl app. cbn [take]. rewrite take_replicate.
    do 3 f_equal. unfold zlen. simpl length. lia.
  - exists (take (512 * n - 76) (replicate (Z.to_nat (size - zlen (inode_bytes (root_inode sb)))) 0)).
    rewrite (disk_read_ext d4); [rewrite Hr4|intros k Hk; rewrite Ho5 by lia; done].
    rewrite take_app_ge, Hri by lia. done.
  - exists (take (512 - 48) (replicate (Z.to_nat (size - zlen (dot_entries 0 0))) 0)). rewrite Hr5.
    rewrite take_app_ge by (change (length (dot_entries 0 0)) with 48%nat; lia). done.
Qed.

Lemma bit_set_prefix len len' b l j :
  0 ≤ j < 8 * zlen l → l `prefix_of` b → bit_set (Bitmap len l) j = bit_set (Bitmap len' b) j.
Proof.
  intros Hj [k ->]. unfold bit_set. cbn [bits].
  destruct (aget l (j / 8)) as [y| | | |] eqn:E.
  2-5: exfalso; destruct (lookup_lt_is_Some_2 l (Z.to_nat (j / 8))) as [y Hy]; [unfold zlen in Hj; zdm|];
    assert (E' : aget l (j / 8) = Ok y) by (apply aget_ok; split; [zdm|done]); congruence.
  apply aget_ok in E as [H1 H2]. assert (E : aget (l ++ k) (j / 8) = Ok y).
  { apply aget_ok. split; [done|]. by apply lookup_app_l_Some. }
  by rewrite E.
Qed.

Lemma format_sb_range start cnt :
  0 ≤ start → 613 ≤ cnt ≤ 4194304 → start + cnt < 2147483648 →
  Forall u32_range_P (sb_words (format_sb start cnt)).
Proof.
  intros Hs Hc He. destruct (format_layout_ok start cnt Hs Hc He) as [Hlen Hbits Htight H2 [H3 H3'] [H4 H4'] H5 H6].
  assert (block_bitmap_sects (format_sb start cnt) < 2048) by (rewrite Hlen in *; zdm).
  unfold sb_words. rewrite H2, H3, H3', H4, H4', H5. unfold u32_range_P.
  repeat constructor; cbn [magic sb_sec_cnt inode_cnt part_lba_base root_inode_no dir_entry_size format_sb];
    unfold FS_MAGIC, MAX_FILES_PER_PART, sizeof_dir_entry; lia.
Qed.

(** The whole of [partition_format]. *)
Lemma partition_format_ok start cnt pad buf_p d :
  let sb := format_sb start cnt in
  0 ≤ start → 620 ≤ cnt ≤ 1048576 → start + cnt < 2147483648 → length pad = 460%nat →
  Forall (λ y, 0 ≤ y < 256) pad → buf_p ≠ 0 → disk_wf d →
  sectors d (start + 1) (data_start_lba sb - start) →
  ∃ d' size bb, partition_format start cnt pad buf_p d = Ok d' ∧
    format_block_bitmap size (format_bit_len cnt) = Ok bb ∧ format_bit_len cnt / 8 + 512 ≤ size ∧
    512 * block_bitmap_sects sb ≤ size ∧
    disk_wf d' ∧ (∀ k, is_Some (d !! k) → is_Some (d' !! k)) ∧
    disk_read d' (start + 1) 1 = Ok (sb_bytes sb pad) ∧
    disk_read d' (block_bitmap_lba sb) (Z.to_nat (block_bitmap_sects sb))
      = Ok (take (512 * Z.to_nat (block_bitmap_sects sb)) bb) ∧
    disk_read d' (inode_bitmap_lba sb) 1 = Ok (1 :: replicate 511 0) ∧
    (∃ rest, disk_read d' (inode_table_lba sb) (Z.to_nat (inode_table_sects sb))
               = Ok (inode_bytes (root_inode sb) ++ rest)) ∧
    (∃ rest, disk_read d' (data_start_lba sb) 1 = Ok (dot_entries 0 0 ++ rest)).
Proof.
  intros sb Hs Hc He Hpad HFp Hbuf Hwf HS.
  destruct (format_layout_ok start cnt) as [Hlen Hbits Htight H2 [H3 H3'] [H4 H4'] H5 H6]; [lia|lia|lia|].
  fold sb in Hbits, Htight, H2, H3, H3', H4, H4', H5, H6.
  assert (Hbr : 0 < block_bitmap_sects sb ≤ 256) by (rewrite Hlen in *; zdm).
  assert (HLsb : length (sb_bytes sb pad) = 512%nat).
  { unfold sb_bytes. rewrite length_app, length_bytes_of_words, Hpad. done. }
  assert (HFsb : Forall (λ y, 0 ≤ y < 256) (sb_bytes sb pad)).
  { apply Forall_app; split; [apply bytes_of_words_range | done]. }
  set (d1 := <[start + 1 := sb_bytes sb pad]> d).
  assert (Hk1 : ∀ k, is_Some (d !! k) → is_Some (d1 !! k)).
  { intros k Hk. unfold d1. destruct (decide (k = start + 1)) as [->|]; simplify_map_eq; [by eexists|done]. }
  destruct (format_writes_ok start cnt sb (format_bit_len cnt) (u32 (608 * SECTOR_SIZE)) d1)
    as (d' & bb & Hw & Hbb & Hwf' & Hk & Hlow & Hrb & Hri & Hrt & Hrd); [by split|done|..].
  1-3: rewrite u32_small by (unfold SECTOR_SIZE; lia); unfold SECTOR_SIZE; rewrite Hlen in *; zdm.
  { by apply disk_wf_insert. }
  { apply sectors_insert. intros k Hk. apply HS. lia. }
  exists d', (u32 (608 * SECTOR_SIZE)), bb. split.
  - unfold partition_format. fold sb. rewrite (u32_small (start + 1)) by lia.
    rewrite disk_write_one; [|apply HS; lia|unfold zlen; lia]. cbn [mbind outcome_bind].
    rewrite take_ge by lia. fold d1. rewrite H3', H4'.
    destruct (Z.geb_spec (block_bitmap_sects sb) 1); [|lia].
    destruct (Z.geb_spec (block_bitmap_sects sb) 608); [lia|].
    by rewrite (proj2 (Z.eqb_neq _ _) Hbuf).
  - split_and!; try done; [..|by auto|].
    1-2: rewrite u32_small by (unfold SECTOR_SIZE; lia); unfold SECTOR_SIZE; rewrite Hlen in *; zdm.
    rewrite (disk_read_one d' (start + 1) (sb_bytes sb pad)); [done|]. rewrite Hlow by lia. apply lookup_insert_eq.
Qed.

(** The bitmap in memory after a mount. *)
Lemma mounted_bitmap bbs size bb slack :
  0 < bbs ≤ 256 → 512 * bbs ≤ zlen bb → Forall (λ y, 0 ≤ y < 256) bb → 0 ≤ slack < 256 →
  let b := Bitmap (u32 (bbs * SECTOR_SIZE)) (take (512 * Z.to_nat bbs) bb ++ [slack]) in
  bitmap_wf b ∧ btmp_bytes_len b = 512 * bbs ∧ btmp_bytes_len b < zlen (bits b) ∧
  ∀ j, 0 ≤ j < nbits b → bit_set b j = bit_set (Bitmap size bb) j.
Proof.
  intros Hb Hz HF Hs b.
  assert (Hu : u32 (bbs * SECTOR_SIZE) = 512 * bbs) by (rewrite u32_small; unfold SECTOR_SIZE; lia).
  assert (Ht : length (take (512 * Z.to_nat bbs) bb) = (512 * Z.to_nat bbs)%nat).
  { rewrite length_take. unfold zlen in Hz. lia. }
  assert (HL : zlen (bits b) = 512 * bbs + 1).
  { unfold b, zlen. cbn [bits]. rewrite length_app, Ht. simpl. lia. }
  split_and!.
  - split; [|unfold b in *; cbn [btmp_bytes_len bits] in *; lia|lia].
    apply Forall_app; split; [by apply Forall_take | apply Forall_cons; split; [done|apply Forall_nil_2]].
  - done.
  - unfold b at 1. cbn [btmp_bytes_len]. lia.
  - unfold nbits, b. cbn [btmp_bytes_len]. intros j Hj.
    rewrite <- (bit_set_prefix 0 (u32 (bbs * SECTOR_SIZE)) (take (512 * Z.to_nat bbs) bb ++ [slack])
                  (take (512 * Z.to_nat bbs) bb));
      [apply bit_set_prefix| |]; [|apply prefix_take| |by eexists].
    1-2: unfold zlen; rewrite Ht; lia.
Qed.

(** C8: formatting a partition and mounting it establishes the invariant of the
    file system.  On any well-formed disk that reaches over the partition's bitmap, [partition_format]
    followed by [mount_partition] succeeds; the super block read back is the
    one computed; the state satisfies [fs_wf], the precondition of the file
    operations; of the data blocks exactly block 0 and those beyond the
    partition's [bit_len] are marked used; of the inodes exactly inode 0; the
    inode table begins with the root directory's inode and the first data block with
    its entries "." and "..". *)
Theorem format_mount start cnt pad buf_p slack s p1 p2 p3 p4 h :
  let sb0 := format_sb start cnt in
  0 ≤ start → 620 ≤ cnt ≤ 1048576 → start + cnt + 4096 < 2147483648 →
  length pad = 460%nat → Forall (λ y, 0 ≤ y < 256) pad → buf_p ≠ 0 → 0 ≤ slack < 256 →
  disk_wf (dsk s) → sectors (dsk s) (start + 1) (cnt + 4096) →
  heap s = p1 :: p2 :: p3 :: p4 :: h → p1 ≠ 0 → p2 ≠ 0 → p3 ≠ 0 → p4 ≠ 0 →
  ∃ d s', partition_format start cnt pad buf_p (dsk s) = Ok d ∧
    mount_partition start cnt slack (set_dsk d s) = Ok s' ∧ fs_wf s' ∧ dsk s' = d ∧ sb (part s') = sb0 ∧
    (∀ j, 0 ≤ j < nbits (block_bitmap (part s')) →
       bit_set (block_bitmap (part s')) j = (j =? 0) || (format_bit_len cnt <? j)) ∧
    (∀ j, 0 ≤ j < nbits (inode_bitmap (part s')) → bit_set (inode_bitmap (part s')) j = (j =? 0)) ∧
    (∃ rest, disk_read d (inode_table_lba sb0) (Z.to_nat (inode_table_sects sb0))
               = Ok (inode_bytes (root_inode sb0) ++ rest)) ∧
    (∃ rest, disk_read d (data_start_lba sb0) 1 = Ok (dot_entries 0 0 ++ rest)).
Proof.
  intros sb0 Hs Hc He Hpad HFp Hbuf Hsl Hwf HS Hh H1 H2 H3 H4.
  destruct (format_layout_ok start cnt) as [Hlen Hbits Htight L2 [L3 L3'] [L4 L4'] L5 L6]; [lia|lia|lia|].
  fold sb0 in Hbits, Htight, L2, L3, L3', L4, L4', L5, L6.
  assert (Hbr : 0 < block_bitmap_sects sb0 ≤ 256) by (rewrite Hlen in *; zdm).
  destruct (partition_format_ok start cnt pad buf_p (dsk s))
    as (d & size & bb & Hf & Hbb & Hsz & Hsz' & Hwf' & Hk & R1 & R2 & R3 & R4 & R5); try done; [lia| |].
  { intros k Hk. apply HS. unfold sb0 in *. lia. }
  fold sb0 in R1, R2, R3, R4, R5, Hsz'.
  destruct (format_bitmap_range size (format_bit_len cnt) bb) as [Hzb HFb]; [lia|done|done|].
  destruct (mounted_bitmap (block_bitmap_sects sb0) size bb slack) as (Bwf & Blen & Bsl & Bbit); try done; [lia|].
  destruct (mounted_bitmap 1 512 (1 :: replicate 511 0) slack) as (_ & _ & _ & Ibit); try done;
    [constructor; [lia|apply Forall_replicate; lia]|].
  assert (HI : take (512 * Z.to_nat 1) (1 :: replicate 511 0) = 1 :: replicate 511 0)
    by (apply take_ge; rewrite length_cons, length_replicate; lia).
  rewrite HI in Ibit.
  assert (Hsect : sectors d (start + 1) (cnt + 4096)) by (intros k Hk'; auto).
  exists d. eexists. split; [done|]. split.
  { unfold mount_partition, kmalloc. rewrite (u32_small (start + 1)) by lia.
    cbn [set_dsk heap set_heap dsk]. rewrite Hh. cbn [set_heap heap dsk set_dsk].
    rewrite (proj2 (Z.eqb_neq _ _) H2), (proj2 (Z.eqb_neq _ _) H1). mrun R1.
    rewrite (sb_of_sb_bytes sb0) by (apply format_sb_range; lia). cbn [mbind outcome_bind].
    rewrite (proj2 (Z.eqb_neq _ _) H3). mrun R2. rewrite (proj2 (Z.eqb_neq _ _) H4).
    rewrite L3'. change (Z.to_nat 1) with 1%nat. mrun R3. reflexivity. }
  cbn [set_part part dsk sb block_bitmap inode_bitmap set_heap set_dsk].
  split_and!; try done.
  - split; cbn [set_part part dsk sb block_bitmap set_heap set_dsk]; unfold nbits; rewrite ?Blen; try done; try lia.
    intros k Hk'. apply Hsect. lia.
  - intros j Hj. rewrite Bbit by done. eapply format_bitmap_bit; [zdm|done| |done].
    unfold nbits in Hj. rewrite Blen in Hj. zdm.
  - intros j Hj. rewrite Ibit by done. unfold nbits in Hj. change (8 * _) with 4096 in Hj.
    unfold bit_set. cbn [bits].
    destruct (decide (j / 8 = 0)) as [E|E].
    + rewrite E. change (aget (1 :: replicate 511 0) 0) with (Ok 1).
      destruct (Z.eqb_spec j 0) as [->|]; [done|]. change 1 with (2 ^ 0). rewrite Z.pow2_bits_false; [done|zdm].
    + assert (Ha : aget (1 :: replicate 511 0) (j / 8) = Ok 0).
      { apply aget_ok. split; [zdm|]. rewrite lookup_cons_ne_0 by zdm. apply lookup_replicate_2. zdm. }
      rewrite Ha, Z.bits_0. symmetry. apply Z.eqb_neq. zdm.
Qed.

Lemma format_mount_witness :
  let s := set_dsk (blank_disk 4900 7) demo_fs in
  ∃ d s', partition_format 10 700 (replicate 460 0) 1 (dsk s) = Ok d ∧
    mount_partition 10 700 0 (set_dsk d s) = Ok s' ∧ fs_wf s'.
Proof.
  intros s.
  destruct (format_mount 10 700 (replicate 460 0) 1 0 s 0xc0101000 0xc0102000 0xc0103000 0xc0104000
              [0xc0105000; 0xc0106000]) as (d & s' & H1 & H2 & H3 & _).
  - lia.
  - lia.
  - lia.
  - reflexivity.
  - apply Forall_replicate. lia.
  - lia.
  - lia.
  - apply (blank_disk_wf 4900 7). lia.
  - apply (blank_disk_sectors 4900 7); lia.
  - reflexivity.
  - lia.
  - lia.
  - lia.
  - lia.
  - exists d, s'. split; [exact H1|]. split; [exact H2|exact H3].
Defined.

(** ** Paths *)

(** A component: its slashes (one more than [fst]) and its name. *)
Definition seg_text (sg : nat * list Z) : list Z := replicate (S sg.1) SLASH ++ sg.2.

Definition path_text (segs : list (nat * list Z)) (trail : nat) : list Z :=
  (segs ≫= seg_text) ++ replicate trail SLASH.

(** A name the code can hold: not empty, no slash, at most 16 bytes. *)
Definition seg_ok (sg : nat * list Z) : Prop :=
  sg.2 ≠ [] ∧ (length sg.2 ≤ 16)%nat ∧ Forall (λ c, c ≠ SLASH ∧ c ≠ 0) sg.2.

Lemma skip_slashes_ok n l c : l !! 0%nat = Some c → c ≠ SLASH → skip_slashes (replicate n SLASH ++ l) = Ok l.
Proof.
  intros Hl Hc. induction n as [|n IH]; simpl; [|done].
  destruct l as [|x l]; [done|]. injection Hl as ->. simpl. by rewrite (proj2 (Z.eqb_neq _ _) Hc).
Qed.

Lemma copy_name_ok c tl t name k :
  Forall (λ c, c ≠ SLASH ∧ c ≠ 0) c → tl !! 0%nat = Some t → t = SLASH ∨ t = 0 →
  (k + length c ≤ length name)%nat →
  copy_name (c ++ tl) name (Z.of_nat k) = Ok (tl, take k name ++ c ++ drop (k + length c) name).
Proof.
  intros Hc Ht Hst. revert name k. induction c as [|x c IH]; intros name k Hk; simpl in *.
  - rewrite Nat.add_0_r, take_drop. destruct tl as [|y tl]; [done|]. injection Ht as ->. simpl.
    destruct Hst as [-> | ->]; done.
  - apply Forall_cons in Hc as [[H1 H2] Hc]. rewrite (proj2 (Z.eqb_neq _ _) H1), (proj2 (Z.eqb_neq _ _) H2).
    cbn [orb]. rewrite aset_ok by (unfold zlen; lia). cbn [mbind outcome_bind]. rewrite Nat2Z.id.
    replace (Z.of_nat k + 1) with (Z.of_nat (S k)) by lia.
    rewrite (IH Hc) by (rewrite length_insert; lia). do 2 f_equal.
    rewrite (take_S_r _ _ x) by (apply list_lookup_insert_eq; lia).
    rewrite take_insert_ge, drop_insert_lt, <- app_assoc by lia. simpl. do 4 f_equal. lia.
Qed.

Lemma path_parse_seg n c tl t name :
  c ≠ [] → Forall (λ c, c ≠ SLASH ∧ c ≠ 0) c → tl !! 0%nat = Some t → t = SLASH ∨ t = 0 →
  (length c ≤ length name)%nat →
  path_parse (replicate n SLASH ++ c ++ tl) name
    = Ok (if t =? 0 then None else Some tl, c ++ drop (length c) name).
Proof.
  intros Hne Hc Ht Hst HL. unfold path_parse. destruct c as [|x c]; [done|].
  pose proof Hc as Hc0. apply Forall_cons in Hc0 as [[H1 H2] _].
  rewrite (skip_slashes_ok n _ x) by done. cbn [mbind outcome_bind].
  rewrite (copy_name_ok (x :: c) tl t name 0 Hc Ht Hst HL : copy_name _ _ 0 = _). cbn [mbind outcome_bind].
  rewrite (proj2 (aget_ok tl 0 t)) by done. done.
Qed.

(** At the end of the path nothing is stored. *)
Lemma path_parse_end n rest name :
  path_parse (replicate n SLASH ++ 0 :: rest) name = Ok (None, name).
Proof. unfold path_parse. by rewrite (skip_slashes_ok n _ 0). Qed.

Lemma path_text_cons n c segs trail :
  path_text ((n, c) :: segs) trail = replicate (S n) SLASH ++ c ++ path_text segs trail.
Proof. unfold path_text, seg_text. cbn [mbind list_bind fst snd]. by rewrite <- !app_assoc. Qed.

Lemma path_text_head segs trail rest : ∃ t,
  (path_text segs trail ++ 0 :: rest) !! 0%nat = Some t ∧ (t = SLASH ∨ t = 0) ∧
  (t =? 0) = bool_decide (segs = [] ∧ trail = 0%nat).
Proof.
  destruct segs as [|[n c] segs]; [destruct trail|].
  - exists 0. split_and!; [done|by right|done].
  - exists SLASH. split_and!; [done|by left|done].
  - exists SLASH. split_and!; [done|by left|done].
Qed.

Lemma depth_loop_ok segs trail rest fuel c name depth :
  Forall seg_ok segs → (length segs + 2 ≤ fuel)%nat → c ≠ 0 → name !! 0%nat = Some c →
  0 ≤ depth → depth + zlen segs + 1 < 4294967296 →
  depth_loop fuel (if bool_decide (segs = [] ∧ trail = 0%nat) then None
                   else Some (path_text segs trail ++ 0 :: rest)) name depth = Ok (depth + zlen segs + 1).
Proof.
  revert fuel c name depth. induction segs as [|[n nm] segs IH]; intros fuel c name depth Hok Hf Hc Hn Hd Hb.
  - destruct fuel as [|[|fuel]]; [simpl in Hf; lia..|]. cbn [depth_loop].
    rewrite (proj2 (aget_ok name 0 c)) by done. cbn [mbind outcome_bind]. rewrite (proj2 (Z.eqb_neq _ _) Hc).
    change (zlen (@nil (nat * list Z))) with 0 in *. rewrite (u32_small (depth + 1)) by lia.
    replace (depth + 0 + 1) with (depth + 1) by lia.
    destruct trail as [|trail]; [done|]. rewrite bool_decide_false by naive_solver.
    unfold path_text. cbn [mbind list_bind app]. by rewrite path_parse_end.
  - apply Forall_cons in Hok as [(Hne & Hlen & Hch) Hok]. cbn [snd] in *.
    destruct fuel as [|fuel]; [simpl in Hf; lia|]. rewrite bool_decide_false by naive_solver. cbn [depth_loop].
    rewrite (proj2 (aget_ok name 0 c)) by done. cbn [mbind outcome_bind]. rewrite (proj2 (Z.eqb_neq _ _) Hc).
    rewrite zlen_cons in *. pose proof (zlen_nonneg segs). rewrite (u32_small (depth + 1)) by lia.
    destruct (path_text_head segs trail rest) as (t & Ht & Hst & Hz).
    rewrite path_text_cons, <- !app_assoc.
    rewrite (path_parse_seg (S n) nm _ t) by done. rewrite Hz. cbn [mbind outcome_bind].
    destruct nm as [|x nm]; [done|]. apply Forall_cons in Hch as [[_ Hx] _].
    rewrite (IH fuel x) by (done || (simpl in Hf; lia)). f_equal. lia.
Qed.

Lemma path_depth_ok junk_name segs trail rest :
  segs ≠ [] → Forall seg_ok segs → length junk_name = 16%nat → zlen segs < 4294967296 →
  path_depth_cnt junk_name (path_text segs trail ++ 0 :: rest) = Ok (zlen segs).
Proof.
  intros Hne Hok HL Hb. destruct segs as [|[n nm] segs]; [done|].
  apply Forall_cons in Hok as [(Hnm & Hlen & Hch) Hok]. cbn [snd] in *. rewrite zlen_cons in *.
  destruct (path_text_head segs trail rest) as (t & Ht & Hst & Hz).
  assert (Hfl : (length segs ≤ length (path_text segs trail))%nat).
  { clear. unfold path_text. rewrite length_app. induction segs as [|sg segs IH]; [simpl; lia|].
    change ((sg :: segs) ≫= seg_text) with (seg_text sg ++ (segs ≫= seg_text)). rewrite length_app, length_cons.
    unfold seg_text at 1. rewrite length_app, length_replicate. lia. }
  unfold path_depth_cnt. rewrite path_text_cons, <- !app_assoc.
  rewrite (path_parse_seg (S n) nm _ t) by (done || lia). rewrite Hz. cbn [mbind outcome_bind].
  destruct nm as [|x nm]; [done|]. apply Forall_cons in Hch as [[_ Hx] _].
  rewrite (depth_loop_ok segs trail rest _ x) by
    (done || lia || (rewrite !length_app, length_cons; simpl length; lia)).
  f_equal.
Qed.

(** [path_depth_cnt] terminates and counts the components of a path: for every path of
    at least one component (names of 1 to 16 bytes), with any number of slashes before each
    component and at the end, it returns the number of components, whatever
    the uninitialised [name] held. *)
Theorem path_depth_components junk_name segs trail rest :
  segs ≠ [] → Forall seg_ok segs → length junk_name = 16%nat → zlen segs < 4294967296 →
  path_depth_cnt junk_name (path_text segs trail ++ 0 :: rest) = Ok (zlen segs).
Proof. apply path_depth_ok. Qed.

Lemma path_depth_components_witness :
  path_depth_cnt (replicate 16 255) [47; 47; 97; 47; 98; 99; 47; 0] = Ok 2.
Proof.
  apply (path_depth_components (replicate 16 255) [(1%nat, [97]); (0%nat, [98; 99])] 1 []).
  - discriminate.
  - repeat constructor; simpl; done || lia.
  - reflexivity.
  - reflexivity.
Defined.

(** ** A session *)

(** A mounted partition as [partition_format] leaves it; of the disk only the sectors that
    the session needs are there: the bitmaps (2 and 3), the first two sectors of the inode
    table (4 and 5) and four data blocks (612 to 615). *)
Definition session_fs : fs :=
  let fill l := l ++ replicate (512 - length l) 0 in
  Fs {[ 2 := fill [1]; 3 := fill [1]; 4 := fill (inode_bytes (root_inode demo_sb)); 5 := fill [];
        612 := fill (dot_entries 0 0); 613 := fill []; 614 := fill []; 615 := fill [] ]}
    (Partition 0 4708 demo_sb (Bitmap 512 (1 :: replicate 512 0)) (Bitmap 512 (1 :: replicate 512 0)) []) ∅
    {[ ROOT_DIR := Dir 0 0 (replicate 512 0) ]}
    (replicate 32 (File 0 0 0)) [0; 1; 2; -1; -1; -1; -1; -1] 0 ∅ fresh_queue []
    ((λ k, 0xc0101000 + 16 * k) <$> seqZ 0 120).

(** mkdir ("/a"); open ("/a/f", O_CREAT | O_RDWR); write "hello"; lseek to 1; read;
    chdir ("/a"); getcwd; unlink of the open file; close; unlink; open again. *)
Definition session (junk_name junk_de : list Z) : outcome (list Z * list Z * option (list Z)) :=
  let a := [47; 97; 0] in
  let f := [47; 97; 47; 102; 0] in
  s ← open_root_dir session_fs;
  '(r1, s) ← sys_mkdir junk_name junk_de a s;
  '(fd, s) ← sys_open junk_name junk_de f 6 s;
  '(n, s, _) ← sys_write 1 fd [104; 101; 108; 108; 111] 5 s;
  '(r2, s) ← sys_lseek fd 1 1 s;
  '(m, dst, s, _) ← sys_read 1 false fd (replicate 8 0) 8 s;
  '(r3, s) ← sys_chdir junk_de a s;
  '(cwd, s) ← sys_getcwd 10 (replicate 16 0) 16 s;
  '(r4, s) ← sys_unlink junk_de f s;
  '(r5, s) ← sys_close fd s;
  '(r6, s) ← sys_unlink junk_de f s;
  '(r7, s) ← sys_open junk_name junk_de f 2 s;
  Ok ([r1; fd; n; r2; m; r3; r4; r5; r6; r7], dst, cwd).

(** The system calls work together on a freshly formatted partition.  Creating a
    directory and a file in it, writing, seeking and reading give back the bytes
    written; the working directory is "/a"; the open file cannot be removed;
    after [close] it can, and it is gone. *)
Theorem fs_session :
  session (replicate 16 9) (replicate 24 9)
    = Ok ([0; 3; 5; 1; 4; 0; -1; 0; 0; -1], [101; 108; 108; 111; 0; 0; 0; 0],
          Some ([47; 97] ++ replicate 14 0)).
Proof. vm_compute. reflexivity. Qed.
