(* ===== verification/FileCalls.v ===== *)
(** * Files through the system calls (fs/fs.c over fs/file.c)

    [sys_write], [sys_lseek] and [sys_read] together on an open file. *)

From S2P Require Import Prelude Bitmap Sync IoQueue Disk FsState Inode Dir File Pipe Fs.

(** ** What writing does not touch *)

(** The state apart from the disk, the bitmaps, the inodes and their list. *)
Definition tables (s : fs) := (file_table s, fd_table s, heap s, ioqs s, kbd_queue s, screen s, cwd_inode_nr s, dirs s, sb (part s)).

Lemma alloc_tables s r s' : block_bitmap_alloc s = Ok (r, s') → tables s' = tables s.
Proof. unfold block_bitmap_alloc. intros H. apply bind_ok_iff in H as (b & _ & H). destruct (b =? -1); [by injection H as _ <-|]. inv_ok. done. Qed.

Lemma put_inode_tables a i s s' : put_inode a i s = Ok s' → tables s' = tables s.
Proof. unfold put_inode. intros H. inv_ok. done. Qed.

Lemma sync_block_tables lba s s' : sync_block lba s = Ok s' → tables s' = tables s.
Proof. unfold sync_block, bitmap_sync. intros H. inv_ok. done. Qed.

Lemma write_table_tables ind ab s s' : write_table ind ab s = Ok s' → tables s' = tables s.
Proof. unfold write_table. intros H. inv_ok. done. Qed.

Lemma inode_sync_tables n i s s' : inode_sync n i s = Ok s' → tables s' = tables s.
Proof. unfold inode_sync. intros H. destruct (_ <=? _); inv_ok. done. Qed.

Lemma first_block_tables a s r s' : first_block a s = Ok (r, s') → tables s' = tables s.
Proof.
  unfold first_block. intros H. apply bind_ok_iff in H as (i & _ & H). apply bind_ok_iff in H as (b0 & _ & H). destruct (b0 =? 0); [|by injection H as _ <-].
  apply bind_ok_iff in H as ([lba s1] & H1 & H). apply alloc_tables in H1. destruct (lba =? -1); [by injection H as _ <-|].
  apply bind_ok_iff in H as (i' & _ & H). apply bind_ok_iff in H as (s2 & H2 & H). apply bind_ok_iff in H as (s3 & H3 & H). injection H as _ <-.
  apply put_inode_tables in H2. apply sync_block_tables in H3. congruence.
Qed.

Lemma alloc_loop_tables n p a ab k s r s' : alloc_loop n p a ab k s = Ok (r, s') → tables s' = tables s.
Proof.
  revert ab k s. induction n as [|n IH]; intros ab k s H; cbn [alloc_loop] in H; [by injection H as _ <-|].
  apply bind_ok_iff in H as ([lba s1] & H1 & H). apply alloc_tables in H1. destruct (lba =? -1); [by injection H as _ <-|].
  apply bind_ok_iff in H as (s2 & H2 & H). apply bind_ok_iff in H as (ab' & _ & H). apply bind_ok_iff in H as (s3 & H3 & H). apply IH in H. apply sync_block_tables in H3.
  assert (tables s2 = tables s1). { destruct (p k); [|by injection H2 as <-]. apply bind_ok_iff in H2 as (i & _ & H2). apply bind_ok_iff in H2 as (i' & _ & H2). by apply put_inode_tables in H2. }
  congruence.
Qed.

Lemma write_blocks_tables a u w s r s' : write_blocks a u w s = Ok (r, s') → tables s' = tables s.
Proof.
  unfold write_blocks. intros H. apply bind_ok_iff in H as (i & _ & H). destruct (_ =? 0).
  { destruct (w <=? 12); inv_ok; done. }
  destruct (w <=? 12).
  { apply bind_ok_iff in H as (b & _ & H). apply bind_ok_iff in H as (ab & _ & H). by apply alloc_loop_tables in H. }
  assert (Hend : ∀ p ind ab k s1, ('(r, s) ← alloc_loop (Z.to_nat (w - u)) p a ab k s1;
    match r with None => Ok (None, s) | Some ab => s ← write_table ind ab s; Ok (Some ab, s) end) = Ok (r, s') → tables s' = tables s1).
  { intros p ind ab k s1 E. apply bind_ok_iff in E as ([r1 s2] & E1 & E). apply alloc_loop_tables in E1. destruct r1 as [ab'|]; [|by injection E as _ <-].
    apply bind_ok_iff in E as (s3 & E3 & E). injection E as _ <-. apply write_table_tables in E3. congruence. }
  destruct (u <=? 12).
  - apply bind_ok_iff in H as (b & _ & H). apply bind_ok_iff in H as (ab & _ & H). apply bind_ok_iff in H as ([lba s1] & H1 & H). apply alloc_tables in H1.
    destruct (lba =? -1); [by injection H as _ <-|]. apply bind_ok_iff in H as (i' & _ & H). apply bind_ok_iff in H as (s2 & H2 & H). apply put_inode_tables in H2.
    apply Hend in H. congruence.
  - apply bind_ok_iff in H as (ind & _ & H). apply bind_ok_iff in H as (ab & _ & H). by apply Hend in H.
Qed.

(** Slot [idx] of [file_table] may have another position; nothing else changes. *)
Definition moved (idx : nat) (s s' : fs) : Prop :=
  ∃ pos, tables s' = tables (match file_table s !! idx with
    | Some f => set_file_table (<[idx := File pos (fd_flag f) (fd_inode f)]> (file_table s)) s
    | None => s end).

Lemma moved_tables idx s s1 s' : tables s1 = tables s → moved idx s1 s' → moved idx s s'.
Proof.
  intros E [pos H]. exists pos. unfold tables in *. injection E as E1 E2 E3 E4 E5 E6 E7 E8 E9. rewrite E1 in H. rewrite H. destruct (file_table s !! idx); simpl; congruence.
Qed.

Lemma moved_after idx s s1 s' : moved idx s s1 → tables s' = tables s1 → moved idx s s'.
Proof. intros [pos H] E. exists pos. congruence. Qed.

Lemma put_file_moved idx pos s f s' :
  file_table s !! idx = Some f → put_file (Z.of_nat idx) (File pos (fd_flag f) (fd_inode f)) s = Ok s' → moved idx s s'.
Proof.
  intros Hf. unfold put_file. rewrite aset_ok by (pose proof (lookup_lt_Some _ _ _ Hf); unfold zlen; lia). intros [= <-]. exists pos. by rewrite Hf, Nat2Z.id.
Qed.

Lemma moved_trans idx s s1 s' f : file_table s !! idx = Some f → moved idx s s1 → moved idx s1 s' → moved idx s s'.
Proof.
  intros Hf [p H] [p' H']. rewrite Hf in H. exists p'. rewrite Hf. unfold tables in *. injection H as E1 E2 E3 E4 E5 E6 E7 E8 E9. simpl in *.
  rewrite E1 in H'. rewrite list_lookup_insert_eq in H' by (by eapply lookup_lt_Some). rewrite H'. simpl. rewrite list_insert_insert_eq. congruence.
Qed.

Lemma moved_slot idx s s' f : file_table s !! idx = Some f → moved idx s s' → ∃ pos, file_table s' !! idx = Some (File pos (fd_flag f) (fd_inode f)).
Proof.
  intros Hf [p H]. rewrite Hf in H. exists p. unfold tables in H. injection H as E _ _ _ _ _ _ _ _. simpl in E. rewrite E. apply list_lookup_insert_eq. by eapply lookup_lt_Some.
Qed.

Lemma write_loop_moved fuel idx a ab src n first s f s' :
  file_table s !! idx = Some f → write_loop fuel (Z.of_nat idx) a ab src n first s = Ok s' → moved idx s s'.
Proof.
  revert src n first s f. induction fuel as [|fuel IH]; intros src n first s f Hf H; cbn [write_loop] in H; [discriminate|].
  destruct (0 <? n).
  2: { injection H as <-. exists (fd_pos f). rewrite Hf. unfold tables. simpl. rewrite list_insert_id; [done|]. by destruct f. }
  apply bind_ok_iff in H as (i & _ & H). apply bind_ok_iff in H as (f' & Hf' & H). apply aget_ok in Hf' as [_ Hf']. rewrite Nat2Z.id, Hf in Hf'. injection Hf' as <-.
  apply bind_ok_iff in H as (lba & _ & H). apply bind_ok_iff in H as (b1 & _ & H). apply bind_ok_iff in H as (b2 & _ & H). apply bind_ok_iff in H as (b3 & _ & H).
  apply bind_ok_iff in H as (d & _ & H). apply bind_ok_iff in H as (s1 & H1 & H). apply bind_ok_iff in H as (s2 & H2 & H).
  apply put_inode_tables in H1. change (tables (set_dsk d s)) with (tables s) in H1.
  assert (Hf1 : file_table s1 !! idx = Some f) by (unfold tables in H1; injection H1 as E1; by rewrite E1).
  pose proof (put_file_moved _ _ _ _ _ Hf1 H2) as M2. destruct (moved_slot _ _ _ _ Hf1 M2) as [p Hf2]. apply (IH _ _ _ _ _ Hf2) in H.
  apply (moved_tables idx s s1); [done|]. by apply (moved_trans idx s1 s2 s' f).
Qed.

Lemma file_write_moved idx buf n s f h1 h2 rest r s' :
  file_table s !! idx = Some f → heap s = h1 :: h2 :: rest → h1 ≠ 0 → h2 ≠ 0 →
  file_write (Z.of_nat idx) buf n s = Ok (r, s') → r ≠ -1 → moved idx (set_heap rest s) s'.
Proof.
  intros Hf Hh Hh1 Hh2 H Hr. unfold file_write in H. apply bind_ok_iff in H as (f' & Hf' & H). apply aget_ok in Hf' as [_ Hf']. rewrite Nat2Z.id, Hf in Hf'. injection Hf' as <-.
  apply bind_ok_iff in H as (i & _ & H). destruct (_ >? _); [congruence|]. unfold kmalloc in H. rewrite Hh in H. cbn [heap set_heap] in H.
  rewrite (proj2 (Z.eqb_neq _ _) Hh1), (proj2 (Z.eqb_neq _ _) Hh2) in H. apply bind_ok_iff in H as ([ok s1] & H1 & H). apply first_block_tables in H1.
  destruct ok; cbn [negb] in H; [|congruence]. apply bind_ok_iff in H as ([[ab|] s2] & H2 & H); [|congruence]. apply write_blocks_tables in H2.
  apply bind_ok_iff in H as (s3 & H3 & H). apply bind_ok_iff in H as (s4 & H4 & H). apply bind_ok_iff in H as (i' & _ & H). apply bind_ok_iff in H as (s5 & H5 & H). injection H as _ <-.
  apply inode_sync_tables in H5. change (set_heap rest (set_heap (h2 :: rest) s)) with (set_heap rest s) in H1.
  assert (E : tables s2 = tables (set_heap rest s)) by congruence.
  assert (Hf2 : file_table s2 !! idx = Some f) by (unfold tables in E; injection E as E1; by rewrite E1).
  pose proof (put_file_moved _ _ _ _ _ Hf2 H3) as M3. destruct (moved_slot _ _ _ _ Hf2 M3) as [p Hf3]. apply (write_loop_moved _ _ _ _ _ _ _ _ _ _ Hf3) in H4.
  apply (moved_tables idx _ s2); [done|]. apply (moved_after idx _ s4); [|done]. by apply (moved_trans idx s2 s3 s4 f).
Qed.

(** ** Writing and reading back *)

(** Descriptor [fd] of the running thread is slot [idx] of [file_table], a regular file. *)
Record open_file (s : fs) (fd : Z) (idx : nat) (f : file) : Prop := {
  of_range : 2 < fd < 4294967296;
  of_local : fd_table s !! Z.to_nat fd = Some (Z.of_nat idx);
  of_slot : file_table s !! idx = Some f;
  of_plain : (fd_flag f =? PIPE_FLAG) = false;
  of_small : Z.of_nat idx < 4294967296;
}.

Lemma open_global s fd idx f : open_file s fd idx f → fd_local2global fd s = Ok (Z.of_nat idx) ∧ aget (file_table s) (Z.of_nat idx) = Ok f ∧ is_pipe fd s = Ok false.
Proof.
  intros [H1 H2 H3 H4 H6]. assert (Hg : fd_local2global fd s = Ok (Z.of_nat idx)).
  { unfold fd_local2global. rewrite (u32_small fd) by lia. assert (E : aget (fd_table s) fd = Ok (Z.of_nat idx)) by (apply aget_ok; split; [lia|done]). mrun E. rewrite u32_small by lia. done. }
  assert (Ha : aget (file_table s) (Z.of_nat idx) = Ok f) by (apply aget_ok; rewrite Nat2Z.id; split; [lia|done]).
  split; [done|]. split; [done|]. unfold is_pipe. mrun Hg. mrun Ha. by rewrite H4.
Qed.

Lemma open_moved s s' fd idx f : open_file s fd idx f → moved idx s s' → ∃ pos, open_file s' fd idx (File pos (fd_flag f) (fd_inode f)).
Proof.
  intros [H1 H2 H3 H4 H6] M. pose proof M as [p E]. destruct (moved_slot _ _ _ _ H3 M) as [pos Hs]. exists pos. split; try done.
  rewrite H3 in E. unfold tables in E. injection E as _ E2. simpl in E2. by rewrite E2.
Qed.

Lemma file_rep_table s l a i bs data : file_rep s a i bs data → file_rep (set_file_table l s) a i bs data.
Proof.
  intros (Ha & Hm & Hrest). split; [done|]. split; [|done].
  apply (file_map_frame s _ i); try done. by destruct Hm.
Qed.

(** [sys_lseek] to the beginning. *)
Lemma seek_start s fd idx f i : open_file s fd idx f → inodes s !! fd_inode f = Some i → 0 < i_size i < 2147483648 →
  sys_lseek fd 0 SEEK_SET s = Ok (0, set_file_table (<[idx := File 0 (fd_flag f) (fd_inode f)]> (file_table s)) s).
Proof.
  intros Ho Hi Hsz. destruct (open_global _ _ _ _ Ho) as (Hg & Ha & _). pose proof (of_range _ _ _ _ Ho). unfold sys_lseek.
  destruct (Z.ltb_spec fd 0); [lia|]. mrun Hg. mrun Ha. unfold get_inode. rewrite Hi. cbn [of_opt mbind outcome_bind]. rewrite Z.eqb_refl.
  rewrite (i32_small (i_size i)), (i32_small (i_size i - 1)) by lia. destruct (Z.gtb_spec 0 (i_size i - 1)); [lia|]. cbn [orb Z.ltb].
  unfold put_file. rewrite aset_ok by (pose proof (lookup_lt_Some _ _ _ (of_slot _ _ _ _ Ho)); unfold zlen; lia). cbn [mbind outcome_bind]. by rewrite Nat2Z.id.
Qed.

Definition writable (f : file) : bool := negb (Z.land (fd_flag f) O_WRONLY =? 0) || negb (Z.land (fd_flag f) O_RDWR =? 0).

(** [sys_read] of a regular file is [file_read]; at the end of the file it returns -1. *)
Lemma sys_read_file t sh fd idx f d n s :
  open_file s fd idx f → sys_read t sh fd d n s = ('(n, d, s) ← file_read sh (Z.of_nat idx) d n s; Ok (n, d, s, [])).
Proof.
  intros Ho. destruct (open_global _ _ _ _ Ho) as (Hg & Ha & Hp). pose proof (of_range _ _ _ _ Ho). unfold sys_read, stdout_no, stderr_no, stdin_no.
  destruct (Z.ltb_spec fd 0); [lia|]. destruct (Z.eqb_spec fd 1); [lia|]. destruct (Z.eqb_spec fd 2); [lia|]. cbn [orb]. mrun Hp. destruct (Z.eqb_spec fd 0); [lia|]. by mrun Hg.
Qed.

Lemma sys_read_end t fd idx f i d n s :
  open_file s fd idx f → inodes s !! fd_inode f = Some i → fd_pos f = i_size i → 0 ≤ i_size i < 1000000 → 0 < n < 1000000 →
  sys_read t false fd d n s = Ok (-1, d, s, []).
Proof.
  intros Ho Hi Hpos Hsz Hn. rewrite (sys_read_file _ _ _ _ _ _ _ _ Ho). unfold file_read. destruct (open_global _ _ _ _ Ho) as (_ & Ha & _). mrun Ha. unfold get_inode.
  rewrite Hi. cbn [of_opt mbind outcome_bind]. rewrite Hpos, (u32_small (i_size i + n)) by lia. destruct (Z.gtb_spec (i_size i + n) (i_size i)); [|lia]. by rewrite Z.sub_diag.
Qed.

Lemma sys_write_file t fd buf n s idx f :
  open_file s fd idx f → writable f = true → sys_write t fd buf n s = ('(r, s) ← file_write (Z.of_nat idx) buf n s; Ok (r, s, [])).
Proof.
  intros Ho Hw. destruct (open_global _ _ _ _ Ho) as (Hg & Ha & Hp). pose proof (of_range _ _ _ _ Ho). unfold sys_write.
  destruct (Z.ltb_spec fd 0); [lia|]. unfold stdout_no. destruct (Z.eqb_spec fd 1); [lia|]. mrun Hp. mrun Hg. mrun Ha. unfold writable in Hw. by rewrite Hw.
Qed.


(** *** Witness: "!" is appended to "hi" *)

Definition rw_fs : fs := set_heap [0xc0101000; 0xc0102000; 0xc0103000; 0xc0104000; 0xc0105000] (demo_file_fs 1).

