(* ===== verification/Create.v ===== *)
(** * Creating a file (fs/file.c, file_create, with fs/dir.c and fs/inode.c)

    The inode, the slot, the descriptor and the directory entry of a new file, and [sys_open] with
    [O_CREAT] on a path of the root directory. *)

From S2P Require Import Prelude Bitmap Sync CString IoQueue Disk FsState Inode Dir File Pipe Fs FileCalls.

(** ** Frames *)

Lemma fs_wf_part s s' :
  fs_wf s → dsk s' = dsk s → sb (part s') = sb (part s) → block_bitmap (part s') = block_bitmap (part s) → fs_wf s'.
Proof. intros [] Hd Hs Hb. split; rewrite ?Hd, ?Hs, ?Hb; done. Qed.

Lemma dir_without_frame s s' i nm :
  dir_without s i nm → dsk s' = dsk s → sb (part s') = sb (part s) → block_bitmap (part s') = block_bitmap (part s) → dir_without s' i nm.
Proof.
  intros [H1 H2 H3 H4] Hd Hs Hb. split; try done. intros k lba Hk Hl Hne. destruct (H3 k lba Hk Hl Hne) as (Hu & sec & Hsec & Hrest).
  unfold in_use in *. rewrite Hs, Hb, Hd. split; [done|]. by exists sec.
Qed.

(** ** The entry *)

Definition entry_bytes (nm : list Z) (n : Z) : list Z := nm ++ replicate (16 - length nm) 0 ++ le32 n ++ le32 1.

Lemma create_entry_ok nm r n :
  file_name nm → create_dir_entry (nm ++ 0 :: r) n (ftype_word FT_REGULAR) (replicate 24 0) = Ok (entry_bytes nm n) ∧ entry_of nm (entry_bytes nm n).
Proof.
  intros [Hn Hl]. assert (Hlen : (1 ≤ length nm ≤ 15)%nat) by (unfold zlen in Hl; lia).
  assert (Hs : bstrlen (nm ++ 0 :: r) = Ok (zlen nm)).
  { clear Hl Hlen. induction Hn as [|c l Hc Hl IH]; [done|]. cbn [bstrlen app]. rewrite (proj2 (Z.eqb_neq c 0)) by lia. rewrite IH. cbn [mbind outcome_bind]. by rewrite zlen_cons. }
  split.
  - unfold create_dir_entry. mrun Hs. replace (Z.to_nat (zlen nm)) with (length nm) by (unfold zlen; lia). rewrite take_app_length.
    rewrite splice_eq by (change (zlen (replicate 24 0)) with 24; lia). cbn [mbind outcome_bind]. change (take (Z.to_nat 0) (replicate 24 0)) with (@nil Z). cbn [app].
    rewrite drop_replicate. replace (24 - Z.to_nat (0 + zlen nm))%nat with (16 - length nm + 8)%nat by (unfold zlen; lia). rewrite replicate_add, app_assoc.
    set (b := nm ++ replicate (16 - length nm) 0). assert (Hb : length b = 16%nat) by (unfold b; rewrite length_app, length_replicate; lia).
    assert (Hz : zlen (b ++ replicate 8 0) = 24) by (unfold zlen; rewrite length_app, length_replicate; lia).
    rewrite splice_eq by (rewrite ?Hz; unfold zlen; simpl; lia). cbn [mbind outcome_bind]. change (Z.to_nat 16) with 16%nat.
    rewrite (take_app_length' b) by done. change (zlen (le32 n)) with 4. change (Z.to_nat (16 + 4)) with 20%nat.
    rewrite drop_app, (drop_ge b), Hb, drop_replicate by lia. cbn [app]. change (8 - (20 - 16))%nat with 4%nat.
    assert (Hz2 : zlen (b ++ le32 n ++ replicate 4 0) = 24) by (unfold zlen; rewrite !length_app, length_replicate; simpl; lia).
    rewrite splice_eq by (rewrite ?Hz2; unfold zlen; simpl; lia). change (Z.to_nat 20) with 20%nat. change (zlen (le32 (u8 (ftype_word FT_REGULAR)))) with 4. change (Z.to_nat (20 + 4)) with 24%nat.
    rewrite (app_assoc b (le32 n) (replicate 4 0)), (take_app_length' (b ++ le32 n)) by (rewrite length_app; simpl; lia). rewrite drop_ge by (rewrite !length_app, length_replicate; simpl; lia).
    rewrite app_nil_r. unfold entry_bytes, b. by rewrite <- !app_assoc.
  - split; [unfold entry_bytes; rewrite !length_app, length_replicate; simpl; lia|]. split.
    + unfold entry_bytes. apply Forall_app. split; [eapply Forall_impl; [exact Hn|]; simpl; lia|]. apply Forall_app. split; [by apply Forall_replicate|]. apply Forall_app. split; apply le32_range.
    + unfold entry_bytes. destruct (16 - length nm)%nat as [|m] eqn:E; [lia|]. rewrite app_assoc, take_app_length' by (rewrite length_app, length_replicate; lia).
      exists (replicate m 0). cbn [replicate]. by rewrite <- app_assoc.
Qed.

(** ** The inode bitmap *)

Record inode_map_ok (s : fs) : Prop := {
  im_wf : bitmap_wf (inode_bitmap (part s));
  im_len : btmp_bytes_len (inode_bitmap (part s)) = 512;
  im_slack : 512 < zlen (bits (inode_bitmap (part s)));
}.

Definition inodes_full (s : fs) : Prop := ∀ k, 0 ≤ k < 4096 → bit_set (inode_bitmap (part s)) k = true.

(** [n] is the lowest free number. *)
Definition first_free (s : fs) (n : Z) : Prop :=
  bit_set (inode_bitmap (part s)) n = false ∧ ∀ k, 0 ≤ k < n → bit_set (inode_bitmap (part s)) k = true.

Lemma inode_alloc_ok s :
  inode_map_ok s →
  (inode_bitmap_alloc s = Ok (-1, s) ∧ inodes_full s) ∨
  ∃ n b, inode_bitmap_alloc s = Ok (n, set_part (set_inode_bitmap b (part s)) s) ∧ 0 ≤ n < 4096 ∧
    first_free s n ∧ inode_map_ok (set_part (set_inode_bitmap b (part s)) s).
Proof.
  intros [Hwf HL Hsl]. destruct (bitmap_scan_any (inode_bitmap (part s)) 1 Hwf) as (r & Hr & Hfit); [lia|lia|]. unfold nbits in Hfit. rewrite HL in Hfit.
  change (1 =? 1) with true in Hfit. cbn iota in Hfit. unfold inode_bitmap_alloc. mrun Hr. destruct Hfit as [[-> Hno]|(H0 & Hhi & Hrun & Hlow)].
  - left. split; [done|]. intros k Hk. specialize (Hno k ltac:(lia) ltac:(lia)). rewrite clear_run_one in Hno. by destruct (bit_set _ k).
  - right. apply clear_run_one in Hrun. rewrite (proj2 (Z.eqb_neq r (-1))) by lia.
    destruct (bitmap_set_ok (inode_bitmap (part s)) r 1 Hwf) as (b & Hb & Hwf' & HL' & HZ & Hbits); [lia|]. mrun Hb. exists r, b. split; [done|]. split; [lia|]. split.
    + split; [done|]. intros k Hk. specialize (Hlow k ltac:(lia)). rewrite clear_run_one in Hlow. by destruct (bit_set _ k).
    + split; cbn [part set_part inode_bitmap set_inode_bitmap]; [done|lia|lia].
Qed.

Lemma inode_sync_bitmap_ok s n :
  fs_wf s → inode_map_ok s → 0 ≤ n < 4096 →
  ∃ d, bitmap_sync n INODE_BITMAP s = Ok (set_dsk d s) ∧ fs_wf (set_dsk d s) ∧ ∀ l, data_start_lba (sb (part s)) ≤ l → d !! l = dsk s !! l.
Proof.
  intros Hwf [Ib1 Ib2 Ib3] Hn. pose proof Hwf as [Hd Hb0 Hbb Hib Hit He Hs Hb Hl Hsl]. pose proof (wf_len _ Hb). pose proof (wf_len _ Ib1). pose proof (wf_small _ Ib1).
  unfold bitmap_sync, BLOCK_SIZE, SECTOR_SIZE. rewrite (u32_small n) by lia. replace (n / 4096) with 0 by zdm. replace (inode_bitmap_lba (sb (part s)) + 0) with (inode_bitmap_lba (sb (part s))) by lia.
  unfold nbits in He, Hs. assert (0 ≤ block_bitmap_sects (sb (part s))) by lia. rewrite u32_small by lia.
  change (drop (Z.to_nat (0 * 512)) ?l) with l. rewrite disk_write_one; [|apply Hs; lia|lia]. cbn [mbind outcome_bind]. eexists. split; [done|]. split.
  - eapply (fs_wf_write s); [done|done|done| |apply Forall_take, Ib1]. rewrite length_take. unfold zlen in *. lia.
  - intros l Hl'. apply lookup_insert_ne. lia.
Qed.

(** ** Creation *)

Record can_create (s : fs) (p : Z) (dd : dir) (i : inode) (nm : list Z) (g : nat) (lfd h a : Z) (rest : list Z) : Prop := {
  cc_wf : fs_wf s;
  cc_map : inode_map_ok s;
  cc_size : dir_entry_size (sb (part s)) = 24;
  cc_dir : dirs s !! p = Some dd;
  cc_inode : inodes s !! dinode dd = Some i;
  cc_without : dir_without s i nm;
  cc_room : ∃ m, (m < 12)%nat ∧ room s i m;
  cc_name : file_name nm;
  cc_slot : get_free_slot_in_global s = Z.of_nat g ∧ (g < length (file_table s))%nat;
  cc_fd : free_fd (drop 3 (fd_table s)) 3 = lfd ∧ 2 < lfd < zlen (fd_table s);
  cc_small : zlen (file_table s) < 4294967296 ∧ zlen (fd_table s) < 4294967296;
  cc_heap : heap s = h :: a :: rest ∧ h ≠ 0 ∧ a ≠ 0;
  cc_fresh : inodes s !! a = None;
}.

Lemma nsec_two pos : 512 * Z.of_nat (nsec pos) ≤ 1024.
Proof. unfold nsec. destruct (two_sec pos); lia. Qed.

Lemma inode_init_ok n : 0 ≤ n < 4096 → inode_ok (inode_init n).
Proof. intros H. unfold inode_ok, u32_range_P, inode_init. cbn [i_no i_size i_open_cnts i_sectors]. split_and!; try lia; [done|]. apply Forall_replicate. lia. Qed.

(** The state when the entry is to be stored: number, inode and slot are taken. *)
Definition prepared (n : Z) (b : bitmap) (g : nat) (a flag : Z) (rest : list Z) (s : fs) : fs :=
  set_inodes (<[a := inode_init n]> (inodes s))
    (set_file_table (<[g := File 0 flag a]> (file_table s)) (set_heap rest (set_part (set_inode_bitmap b (part s)) s))).

Lemma prepared_ok n b g a flag h rest s p dd i nm lfd :
  can_create s p dd i nm g lfd h a rest →
  fs_wf (prepared n b g a flag rest s) ∧ dir_without (prepared n b g a flag rest s) i nm ∧
  inodes (prepared n b g a flag rest s) !! dinode dd = Some i ∧ (∃ m, (m < 12)%nat ∧ room (prepared n b g a flag rest s) i m).
Proof.
  intros [C1 C2 C3 C4 C5 C6 C7 C8 C9 C10 C11 C12 C13]. split; [by apply (fs_wf_part s)|]. split; [by apply (dir_without_frame s)|]. split; [|done].
  cbn [inodes set_inodes prepared]. rewrite lookup_insert_ne; [done|]. intros ->. congruence.
Qed.

(** The rest of [file_create], after the entry is stored. *)
Lemma create_finish n b g a flag rest s p dd i i' nm e k lba j sec lfd d0 b0 m0 h :
  can_create s p dd i nm g lfd h a rest → 0 ≤ n < 4096 → inode_map_ok (prepared n b g a flag rest s) → (flag =? PIPE_FLAG) = false →
  inserted (prepared n b g a flag rest s) (upd d0 b0 m0 (prepared n b g a flag rest s)) (dinode dd) i i' nm e k lba j sec →
  ∃ s', (let s := upd d0 b0 m0 (prepared n b g a flag rest s) in
         d ← get_dir p s; i ← dir_inode_of d s; s ← inode_sync 1024 i s; j ← get_inode a s; s ← inode_sync 1024 j s; s ← bitmap_sync n INODE_BITMAP s;
         let s := set_part (set_open (a :: open_inodes (part s)) (part s)) s in
         s ← put_inode a (with_cnts 1 j) s; pcb_fd_install (Z.of_nat g) s) = Ok (lfd, s') ∧
    fs_wf s' ∧ open_file s' lfd g (File 0 flag a) ∧ inodes s' !! a = Some (with_cnts 1 (inode_init n)) ∧
    heap s' = rest ∧ dirs s' = dirs s ∧ sb (part s') = sb (part s) ∧ inodes s' !! dinode dd = Some i' ∧
    (∀ l, data_start_lba (sb (part s)) ≤ l → dsk s' !! l = d0 !! l) ∧
    block_bitmap (part s') = b0 ∧ file_table s' = <[g := File 0 flag a]> (file_table s) ∧
    fd_table s' = <[Z.to_nat lfd := Z.of_nat g]> (fd_table s).
Proof.
  intros CC Hn Hmap Hflag HI. pose proof CC as [C1 C2 C3 C4 C5 C6 C7 C8 C9 C10 C11 C12 C13]. set (s1 := prepared n b g a flag rest s) in *. set (s2 := upd d0 b0 m0 s1) in *.
  assert (Hne : dinode dd ≠ a) by (intros E; rewrite E in C5; congruence).
  pose proof (in_inode _ _ _ _ _ _ _ _ _ _ _ HI) as Hin. pose proof (in_wf _ _ _ _ _ _ _ _ _ _ _ HI) as Hwf2. pose proof (in_ok _ _ _ _ _ _ _ _ _ _ _ HI) as Hok'.
  assert (Hi' : inodes s2 !! dinode dd = Some i') by (rewrite Hin; apply lookup_insert_eq).
  assert (Hj : inodes s2 !! a = Some (inode_init n)) by (rewrite Hin, lookup_insert_ne by done; apply lookup_insert_eq).
  assert (Hg : get_dir p s2 = Ok dd) by (unfold get_dir; change (dirs s2) with (dirs s); by rewrite C4). cbv zeta. mrun Hg.
  assert (Hd : dir_inode_of dd s2 = Ok i') by (unfold dir_inode_of, get_inode; by rewrite Hi'). mrun Hd.
  destruct (inode_sync_ok 1024 i' s2 Hwf2 Hok' (nsec_two _)) as (d3 & E3 & Hwf3 & _ & _ & K3). mrun E3.
  assert (Hgj : get_inode a (set_dsk d3 s2) = Ok (inode_init n)) by (unfold get_inode; cbn [inodes set_dsk]; by rewrite Hj). mrun Hgj.
  destruct (inode_sync_ok 1024 (inode_init n) (set_dsk d3 s2) Hwf3 (inode_init_ok n Hn) (nsec_two _)) as (d4 & E4 & Hwf4 & _ & _ & K4). mrun E4.
  assert (Hm4 : inode_map_ok (set_dsk d4 (set_dsk d3 s2))) by (destruct Hmap; by split).
  destruct (inode_sync_bitmap_ok _ n Hwf4 Hm4 Hn) as (d5 & E5 & Hwf5 & K5). mrun E5. set (s5 := set_dsk d5 _) in *.
  rewrite (put_inode_ok a (inode_init n)) by exact Hj. cbn [mbind outcome_bind]. set (s6 := set_inodes _ _). unfold pcb_fd_install. change (fd_table s6) with (fd_table s).
  destruct C10 as [Hfd Hlfd]. rewrite Hfd, (proj2 (Z.eqb_neq lfd (-1))) by lia. rewrite aset_ok by lia. cbn [mbind outcome_bind]. eexists. split; [done|].
  split; [apply (fs_wf_part s5); done|]. split.
  { split; cbn [fd_table set_fd_table].
    - lia.
    - apply list_lookup_insert_eq. unfold zlen in Hlfd. lia.
    - change (file_table (set_fd_table _ s6)) with (<[g := File 0 flag a]> (file_table s)). apply list_lookup_insert_eq, C9.
    - exact Hflag.
    - destruct C9 as [_ Hlt]. unfold zlen in C11. lia. }
  split; [cbn [inodes set_fd_table set_inodes s6]; apply lookup_insert_eq|]. split; [done|]. split; [done|]. split; [done|]. split.
  { cbn [inodes set_fd_table set_inodes s6]. rewrite lookup_insert_ne by done. exact Hi'. }
  split; [|done]. intros l Hl. change (dsk _) with d5. rewrite K5 by exact Hl. change (dsk (set_dsk d4 (set_dsk d3 s2))) with d4. rewrite K4 by exact Hl. change (dsk (set_dsk d3 s2)) with d3. by rewrite K3 by exact Hl.
Qed.

(** ** What creation promises *)

(** A later state: the directory and every block in use are as before. *)
Record keeps (dd : dir) (s s' : fs) : Prop := {
  kp_dirs : dirs s' = dirs s;
  kp_inode : inodes s' !! dinode dd = inodes s !! dinode dd;
  kp_size : dir_entry_size (sb (part s')) = dir_entry_size (sb (part s));
  kp_disk : ∀ l, in_use s l → dsk s' !! l = dsk s !! l;
}.

Lemma keeps_refl dd s : keeps dd s s.
Proof. by split. Qed.

(** The entry is found in this state and in later ones. *)
Definition stays_listed (s : fs) (p : Z) (dd : dir) (nm e : list Z) : Prop :=
  ∀ s2 dir_e h1 h2 rest, keeps dd s s2 → length dir_e = 24%nat → heap s2 = h1 :: h2 :: rest → h1 ≠ 0 → h2 ≠ 0 →
    search_dir_entry p (nm ++ [0]) dir_e s2 = Ok (Some e, set_heap rest s2).

Record created (s s' : fs) (p : Z) (dd : dir) (nm : list Z) (g : nat) (lfd a flag n : Z) (rest : list Z) : Prop := {
  cr_wf : fs_wf s';
  cr_number : 0 ≤ n < 4096 ∧ first_free s n;
  cr_open : open_file s' lfd g (File 0 flag a);
  cr_rep : file_rep s' a (with_cnts 1 (inode_init n)) [] [];
  cr_listed : stays_listed s' p dd nm (entry_bytes nm n);
  cr_heap : heap s' = rest;
  cr_tables : file_table s' = <[g := File 0 flag a]> (file_table s) ∧
    fd_table s' = <[Z.to_nat lfd := Z.of_nat g]> (fd_table s) ∧ dirs s' = dirs s ∧ sb (part s') = sb (part s);
}.

Lemma empty_rep s a n : 0 ≤ n < 4096 → inodes s !! a = Some (with_cnts 1 (inode_init n)) → file_rep s a (with_cnts 1 (inode_init n)) [] [].
Proof.
  intros Hn Ha. split; [done|]. split; [|split; [done|split; [intros k' Hk'; change (zlen (@nil Z)) with 0 in Hk'; lia|right; done]]].
  split; try done; [|apply NoDup_nil_2|simpl; lia|intros k' _ Hk'; simpl in Hk'; lia|intros Hk'; simpl in Hk'; lia].
  destruct (inode_init_ok n Hn) as (?&?&?&?&?). split_and!; try done; unfold u32_range_P; cbn [with_cnts i_open_cnts]; lia.
Qed.

Lemma file_create_ok s p dd i nm g lfd h a rest flag r0 :
  can_create s p dd i nm g lfd h a rest → (flag =? PIPE_FLAG) = false →
  ∃ r s', file_create p (nm ++ 0 :: r0) flag s = Ok (r, s') ∧
    ((r = -1 ∧ (inodes_full s ∨ bitmap_full s')) ∨ (r = lfd ∧ ∃ n, created s s' p dd nm g lfd a flag n rest)).
Proof.
  intros CC Hflag. pose proof CC as [C1 C2 C3 C4 C5 C6 C7 C8 [C9 C9'] C10 C11 (C12 & Hh & Ha) C13].
  unfold file_create, kmalloc. rewrite C12, (proj2 (Z.eqb_neq _ _) Hh). assert (Him : inode_map_ok (set_heap (a :: rest) s)) by (destruct C2; by split).
  destruct (inode_alloc_ok _ Him) as [[-> Hfull]|(n & b & -> & Hn & Hclear & Hmap)]; cbn [mbind outcome_bind].
  { eexists _, _. split; [reflexivity|]. left. split; [done|]. by left. }
  rewrite (proj2 (Z.eqb_neq n (-1))) by lia. cbn [heap set_heap set_part]. rewrite (proj2 (Z.eqb_neq _ _) Ha).
  set (s0 := set_heap rest _). change (get_free_slot_in_global (set_inodes _ s0)) with (get_free_slot_in_global s). rewrite C9, (proj2 (Z.eqb_neq (Z.of_nat g) (-1))) by lia.
  unfold put_file at 1. cbn [file_table set_inodes]. change (file_table s0) with (file_table s). rewrite aset_ok by (unfold zlen; lia). cbn [mbind outcome_bind]. rewrite Nat2Z.id.
  rewrite (put_inode_ok a (inode_init n)) by apply lookup_insert_eq. cbn [mbind outcome_bind].
  assert (Epre : set_inodes (<[a := with_deny false (inode_init n)]> (inodes (set_file_table (<[g := File 0 flag a]> (file_table s)) (set_inodes (<[a := inode_init n]> (inodes s0)) s0))))
    (set_file_table (<[g := File 0 flag a]> (file_table s)) (set_inodes (<[a := inode_init n]> (inodes s0)) s0)) = prepared n b g a flag rest s).
  { unfold prepared. cbn [inodes set_file_table set_inodes]. rewrite insert_insert_eq. change (with_deny false (inode_init n)) with (inode_init n). done. }
  rewrite Epre. destruct (create_entry_ok nm r0 n C8) as [Eentry Hentry]. mrun Eentry.
  destruct (prepared_ok n b g a flag h rest s p dd i nm lfd CC) as (P1 & P2 & P3 & P4).
  destruct (sync_entry_ok p dd i nm (entry_bytes nm n) _ P1 C3 C4 P3 P2 P4 C8 Hentry) as (ok & d0 & b0 & m0 & Esync & Hres). mrun Esync.
  assert (Hmap1 : inode_map_ok (prepared n b g a flag rest s)) by (destruct Hmap; by split).
  destruct Hres as [[-> Hfull]|(-> & i' & k & lba & j & sec & HI)]; cbn [negb].
  - set (s2 := upd d0 b0 m0 _) in *. unfold create_rollback. change (3 =? 3) with true. change (2 <=? 3) with true. cbn iota. unfold put_file.
    change (file_table s2) with (<[g := File 0 flag a]> (file_table s)). rewrite aset_ok by (unfold zlen; rewrite length_insert; lia). cbn [mbind outcome_bind]. unfold inode_bitmap_set.
    cbn [part set_inodes set_file_table]. destruct Hmap1 as [M1 M2 M3]. change (inode_bitmap (part s2)) with (inode_bitmap (part (prepared n b g a flag rest s))).
    destruct (bitmap_set_ok _ n 0 M1) as (b' & Eb & _); [lia|]. mrun Eb. eexists _, _. split; [reflexivity|]. left. split; [done|]. right. exact Hfull.
  - destruct (create_finish n b g a flag _ s p dd i i' nm _ k lba j sec lfd d0 b0 m0 h CC Hn Hmap1 Hflag HI) as (s' & E & F1 & F2 & F3 & F4 & F5 & F6 & F7 & F8 & F9 & F10 & F11).
    cbv zeta in E. exists lfd, s'. split; [exact E|]. right. split; [done|]. exists n. split; try done; [by apply empty_rep|].
    intros s2 dir_e h1 h2 rest' [K1 K2 K3 K4] Hde Hh' N1 N2. set (s1 := prepared n b g a flag rest s) in *.
    apply (search_inserted p dd i i' nm (entry_bytes nm n) k lba j sec dir_e s1 (upd d0 b0 m0 s1) s2 h1 h2 rest' P1 P2 HI C8 Hentry Hde); try done.
    + by rewrite K3, F6.
    + by rewrite K1, F5.
    + by rewrite K2.
    + intros l [Hl1 Hl2]. rewrite K4.
      * apply F8. change (sb (part (upd d0 b0 m0 s1))) with (sb (part s)) in Hl1. lia.
      * unfold in_use. rewrite F6, F9. done.
Qed.

(** C13: creating a file.  [file_create] in a directory of direct blocks with room, for a name that
    does not occur in it, with a free slot and a free descriptor: it returns -1 only when all 4096
    inodes or all blocks are in use.  Otherwise it returns the first free descriptor, which is then
    open on an empty file with the lowest free inode [n]; the partition is well formed, and searching
    the directory finds the entry with the name, [n] and the type of regular files. *)
Theorem file_create_makes s p dd i nm g lfd h a h2 h3 rest flag r0 dir_e :
  can_create s p dd i nm g lfd h a (h2 :: h3 :: rest) → h2 ≠ 0 → h3 ≠ 0 → (flag =? PIPE_FLAG) = false → length dir_e = 24%nat →
  ∃ r s', file_create p (nm ++ 0 :: r0) flag s = Ok (r, s') ∧
    ((r = -1 ∧ (inodes_full s ∨ bitmap_full s')) ∨
     (r = lfd ∧ fs_wf s' ∧ open_file s' lfd g (File 0 flag a) ∧
      ∃ n, 0 ≤ n < 4096 ∧ first_free s n ∧
        file_rep s' a (with_cnts 1 (inode_init n)) [] [] ∧
        search_dir_entry p (nm ++ [0]) dir_e s' = Ok (Some (entry_bytes nm n), set_heap rest s'))).
Proof.
  intros CC Hh2 Hh3 Hflag Hde. destruct (file_create_ok s p dd i nm g lfd h a _ flag r0 CC Hflag) as (r & s' & E & Hres). exists r, s'. split; [done|].
  destruct Hres as [?|(-> & n & [R1 [R2 R2'] R3 R4 R5 R6 _])]; [by left|right]. split; [done|]. split; [done|]. split; [done|]. exists n. split; [done|]. split; [done|]. split; [done|].
  by apply (R5 s' dir_e h2 h3 rest (keeps_refl dd s') Hde).
Qed.

(** *** Witness: the file "ab" in an empty directory *)

Lemma demo_can_create nm h a rest :
  file_name nm → h ≠ 0 → a ≠ 0 → a ≠ 0xc0200000 →
  can_create (set_heap (h :: a :: rest) demo_dir_fs) ROOT_DIR (Dir 0xc0200000 0 (replicate 512 0)) demo_dir_inode nm 3 3 h a rest.
Proof.
  intros Hn Hh Ha Hne. split.
  - apply (fs_wf_part demo_dir_fs); [apply demo_dir_wf|reflexivity..].
  - split; cbn [part demo_dir_fs set_heap set_dirs set_inodes demo_fs inode_bitmap]; [apply bitmap_wf_dec; vm_compute; reflexivity|reflexivity|vm_compute; reflexivity].
  - reflexivity.
  - reflexivity.
  - reflexivity.
  - apply (dir_without_frame demo_dir_fs); [by apply demo_dir_without|reflexivity..].
  - exists 0%nat. split; [lia|]. exists 612. split; [reflexivity|]. right. exists (replicate 512 0), 0. split; [apply blank_disk_lookup; lia|vm_compute; reflexivity].
  - exact Hn.
  - split; [reflexivity|apply Nat.ltb_lt; reflexivity].
  - split; [reflexivity|split; reflexivity].
  - split; reflexivity.
  - split; [reflexivity|split; assumption].
  - cbn [inodes set_heap demo_dir_fs set_dirs set_inodes]. by apply lookup_singleton_ne.
Qed.

Lemma file_create_makes_witness :
  ∃ r s', file_create ROOT_DIR (demo_name ++ [0]) 2 demo_dir_fs = Ok (r, s') ∧
    ((r = -1 ∧ (inodes_full demo_dir_fs ∨ bitmap_full s')) ∨
     (r = 3 ∧ fs_wf s' ∧ open_file s' 3 3 (File 0 2 0xc0102000) ∧
      ∃ n, 0 ≤ n < 4096 ∧ first_free demo_dir_fs n ∧
        file_rep s' 0xc0102000 (with_cnts 1 (inode_init n)) [] [] ∧
        search_dir_entry ROOT_DIR (demo_name ++ [0]) (replicate 24 0) s' =
          Ok (Some (entry_bytes demo_name n), set_heap [0xc0105000; 0xc0106000] s'))).
Proof.
  apply (file_create_makes demo_dir_fs ROOT_DIR (Dir 0xc0200000 0 (replicate 512 0)) demo_dir_inode demo_name 3 3 0xc0101000 0xc0102000
    0xc0103000 0xc0104000 [0xc0105000; 0xc0106000] 2 [] (replicate 24 0)).
  - apply (demo_can_create demo_name); [apply demo_file_name|discriminate..].
  - discriminate.
  - discriminate.
  - reflexivity.
  - apply length_replicate.
Defined.

(** ** Opening a new file in the root directory *)

Lemma cmp_tail nm e r :
  Forall (λ y, 0 < y < 256) nm → Forall (λ y, 0 ≤ y < 256) e → bstrcmp e (nm ++ 0 :: r) = bstrcmp e (nm ++ [0]).
Proof.
  intros Hn. revert e. induction Hn as [|y nm Hy Hn IH]; intros e He; destruct He as [|x e Hx He]; try done; cbn [bstrcmp app].
  - destruct (Z.eqb_spec x 0) as [->|Hne]; [done|]. assert (Hch : char_of x ≠ char_of 0) by (intros H; apply char_of_inj in H; lia).
    by rewrite (proj2 (Z.eqb_neq _ _) Hch).
  - destruct (_ && _); [by apply IH|done].
Qed.

Lemma entries_tail n buf nm r idx :
  Forall (λ y, 0 < y < 256) nm → Forall (λ y, 0 ≤ y < 256) buf → search_entries n buf (nm ++ 0 :: r) idx = search_entries n buf (nm ++ [0]) idx.
Proof.
  intros Hn Hb. revert idx. induction n as [|n IH]; intros idx; [done|]. cbn [search_entries]. rewrite cmp_tail by (try done; by apply Forall_drop).
  destruct (bstrcmp _ _) as [c| | | |]; try done. cbn [mbind outcome_bind]. destruct (c =? 0); [done|apply IH].
Qed.

Lemma search_blocks_none blocks nm r d :
  file_name nm → (∀ l, l ∈ blocks → l ≠ 0 → ∃ sc, d !! l = Some sc ∧ names_ok sc ∧ ∀ k, 0 ≤ k < 21 → ¬ has_name nm sc k) →
  search_blocks blocks 21 (nm ++ 0 :: r) d = Ok None.
Proof.
  intros Hn. induction blocks as [|l blocks IH]; intros Hb; [done|]. cbn [search_blocks].
  assert (Hb' : search_blocks blocks 21 (nm ++ 0 :: r) d = Ok None) by (apply IH; intros l' Hl'; apply Hb; by apply elem_of_cons; right).
  destruct (Z.eqb_spec l 0) as [->|Hl]; [done|]. destruct (Hb l) as (sc & Hsc & Hns & Hno); [by apply elem_of_cons; left|done|].
  rewrite (disk_read_one _ _ _ Hsc). cbn [mbind outcome_bind]. rewrite entries_tail by (apply Hn || apply Hns).
  destruct (search_entries_ok 21 nm sc 0 Hn Hns) as (j & -> & Hj); [lia|lia|]. cbn [mbind outcome_bind].
  destruct j as [j|]; [by destruct Hj as (? & ? & _); destruct (Hno j); [lia|]|done].
Qed.

Lemma search_absent p dd i nm r dir_e s h1 h2 rest :
  dirs s !! p = Some dd → inodes s !! dinode dd = Some i → dir_without s i nm → file_name nm → dir_entry_size (sb (part s)) = 24 →
  heap s = h1 :: h2 :: rest → h1 ≠ 0 → h2 ≠ 0 → search_dir_entry p (nm ++ 0 :: r) dir_e s = Ok (None, set_heap rest s).
Proof.
  intros Hp Hi Hdw Hn Hsz Hh Hh1 Hh2. pose proof (dw_ok _ _ _ Hdw) as (_&_&_&H13&_). unfold search_dir_entry, kmalloc. rewrite Hh, (proj2 (Z.eqb_neq _ _) Hh1).
  unfold get_dir, dir_inode_of, get_inode. change (dirs (set_heap (h2 :: rest) s)) with (dirs s). mrun Hp. change (inodes (set_heap (h2 :: rest) s)) with (inodes s). mrun Hi.
  unfold load_blocks. rewrite slice_ok by (unfold zlen; lia). cbn [mbind outcome_bind].
  assert (Hg12 : aget (i_sectors i) 12 = Ok 0) by (apply aget_ok; split; [lia|apply Hdw]). mrun Hg12. change (negb (0 =? 0)) with false. cbn iota.
  cbn [mbind outcome_bind heap set_heap]. rewrite (proj2 (Z.eqb_neq _ _) Hh2). unfold entrys_per_sec.
  change (sb (part (set_heap rest (set_heap (h2 :: rest) s)))) with (sb (part s)). rewrite Hsz. change (24 =? 0) with false. cbn [mbind outcome_bind].
  change (Z.to_nat (SECTOR_SIZE / 24)) with 21%nat. rewrite search_blocks_none; [done|done|].
  intros l Hl Hl0. apply elem_of_app in Hl as [Hl|Hl]; [|by apply elem_of_replicate in Hl as [-> _]]. change (Z.to_nat 12) with 12%nat in Hl. change (drop (Z.to_nat 0) ?x) with x in Hl.
  apply list_elem_of_lookup in Hl as [k Hk]. assert (k < 12)%nat by (apply lookup_lt_Some in Hk; rewrite length_take in Hk; lia). rewrite lookup_take_lt in Hk by lia.
  destruct (dw_block _ _ _ Hdw k l) as (_ & sc & ?); [lia|done|done|]. by exists sc.
Qed.

Lemma after_slash_ok nm r last : Forall (λ c, c ≠ SLASH ∧ c ≠ 0) nm → after_slash (nm ++ 0 :: r) (Some last) = Ok last.
Proof.
  induction 1 as [|c nm [H1 H2] Hn IH]; [done|]. cbn [after_slash app]. by rewrite (proj2 (Z.eqb_neq _ _) H2), (proj2 (Z.eqb_neq _ _) H1).
Qed.

(** The path of a file in the root directory. *)
Definition root_path (nm : list Z) : list Z := SLASH :: nm ++ [0].

Definition plain_name (nm : list Z) : Prop :=
  file_name nm ∧ Forall (λ c, c ≠ SLASH ∧ c ≠ 0) nm ∧ is_root_path (root_path nm) = Ok false.

Lemma root_depth junk_name nm r :
  plain_name nm → length junk_name = 16%nat → path_depth_cnt junk_name (SLASH :: nm ++ 0 :: r) = Ok 1.
Proof.
  intros ([_ Hl] & Hn & _) Hj. pose proof (path_depth_ok junk_name [(0%nat, nm)] 0 r) as H. unfold path_text, seg_text in H. cbn [mbind list_bind fst snd replicate app] in H.
  rewrite !app_nil_r in H. apply H; try done. apply Forall_singleton. unfold zlen in Hl. split; cbn [snd]; [intros ->; simpl in Hl; lia|]. split; [lia|done].
Qed.

Lemma bstrlen_name nm r : Forall (λ c, c ≠ SLASH ∧ c ≠ 0) nm → bstrlen (nm ++ 0 :: r) = Ok (zlen nm).
Proof.
  induction 1 as [|c nm [_ Hc] Hn IH]; [done|]. cbn [bstrlen app]. rewrite (proj2 (Z.eqb_neq _ _) Hc), IH. cbn [mbind outcome_bind]. by rewrite zlen_cons.
Qed.

(** The record of the search: the path up to the missing name. *)
Lemma searched_root nm r :
  plain_name nm →
  (path ← bstrcat (replicate 512 0) [SLASH; 0]; bstrcat path (nm ++ 0 :: r)) = Ok (SLASH :: nm ++ 0 :: replicate (510 - length nm) 0).
Proof.
  intros ([_ Hl] & Hn & _). change (bstrcat (replicate 512 0) [SLASH; 0]) with (Ok (SLASH :: replicate 511 0)). cbn [mbind outcome_bind]. unfold bstrcat.
  change (bstrlen (SLASH :: replicate 511 0)) with (Ok 1). cbn [mbind outcome_bind]. mrun (bstrlen_name nm r Hn).
  replace (Z.to_nat (zlen nm + 1)) with (length nm + 1)%nat by (unfold zlen; lia). rewrite take_app_add. change (take 1 (0 :: r)) with [0].
  assert (Hz : zlen (SLASH :: replicate 511 0) = 512) by reflexivity. rewrite splice_eq; [|lia|rewrite Hz, zlen_app; change (zlen [0]) with 1; lia].
  change (take (Z.to_nat 1) (SLASH :: replicate 511 0)) with [SLASH]. rewrite zlen_app. change (zlen [0]) with 1.
  replace (Z.to_nat (1 + (zlen nm + 1))) with (S (S (length nm))) by (unfold zlen; lia). cbn [drop]. rewrite drop_replicate.
  rewrite <- app_assoc. cbn [app]. do 5 f_equal.
Qed.

(** Opening a path of the root directory that does not exist, with [O_CREAT]. *)
Lemma sys_open_new junk_name junk_de nm flags s dd i g lfd b1 b2 h a rest :
  length junk_name = 16%nat → plain_name nm → Z.land flags O_CREAT = O_CREAT → (flags =? PIPE_FLAG) = false →
  heap s = b1 :: b2 :: h :: a :: rest → b1 ≠ 0 → b2 ≠ 0 → can_create (set_heap (h :: a :: rest) s) ROOT_DIR dd i nm g lfd h a rest →
  sys_open junk_name junk_de (root_path nm) flags s = file_create ROOT_DIR (nm ++ [0]) flags (set_heap (h :: a :: rest) s).
Proof.
  intros Hj Hpl Hfl Hnp Hh Hb1 Hb2 CC. pose proof Hpl as ([Hc Hl] & Hn & Hr). assert (Hlen : bstrlen (root_path nm) = Ok (zlen nm + 1)).
  { unfold root_path. cbn [bstrlen]. change (SLASH =? 0) with false. cbn iota. by mrun (bstrlen_name nm [] Hn). }
  unfold sys_open. mrun Hlen. replace (zlen nm + 1 - 1) with (zlen nm) by lia. rewrite u32_small by lia.
  destruct (lookup_lt_is_Some_2 nm (length nm - 1)) as [c Hlast]; [unfold zlen in Hl; lia|].
  assert (Ha : aget (root_path nm) (zlen nm) = Ok c).
  { unfold root_path. apply aget_ok. split; [lia|]. replace (Z.to_nat (zlen nm)) with (S (length nm - 1)) by (unfold zlen in *; lia). change ((nm ++ [0]) !! (length nm - 1)%nat = Some c). by rewrite lookup_app_l by (unfold zlen in Hl; lia). }
  mrun Ha. pose proof (Forall_lookup_1 _ _ _ _ Hn Hlast) as [Hcs _]. rewrite (proj2 (Z.eqb_neq _ _) Hcs). mrun (root_depth junk_name nm [] Hpl Hj : path_depth_cnt junk_name (root_path nm) = _).
  unfold search_file. mrun Hr.
  assert (Hp : path_parse (root_path nm) zero_name = Ok (None, nm ++ 0 :: replicate (15 - length nm) 0)).
  { pose proof (path_parse_seg 1 nm [0] 0 zero_name) as H. cbn [replicate app] in H. unfold root_path. rewrite H; try done; [|intros ->; unfold zlen in Hl; simpl in Hl; lia|by right|unfold zlen in Hl; simpl; lia].
    unfold zero_name. rewrite drop_replicate. do 3 f_equal. replace (16 - length nm)%nat with (S (15 - length nm)) by (unfold zlen in Hl; lia). done. }
  mrun Hp. cbn [search_loop]. destruct nm as [|x nm]; [unfold zlen in Hl; simpl in Hl; lia|]. assert (Hx : aget ((x :: nm) ++ 0 :: replicate (15 - length (x :: nm)) 0) 0 = Ok x) by (by apply aget_ok).
  mrun Hx. pose proof Hn as Hn0. apply Forall_cons in Hn0 as [[_ Hx0] _]. rewrite (proj2 (Z.eqb_neq _ _) Hx0). cbn [searched_path empty_record].
  pose proof (searched_root (x :: nm) (replicate (15 - length (x :: nm)) 0) Hpl) as Hs. apply bind_ok_iff in Hs as (path & -> & Hs). cbn [mbind outcome_bind]. mrun Hs.
  pose proof CC as [C1 C2 C3 C4 C5 C6 C7 C8 C9 C10 C11 C12 C13].
  rewrite (search_absent ROOT_DIR dd i (x :: nm) _ junk_de s b1 b2 (h :: a :: rest)); try done; [|by apply (dir_without_frame (set_heap (h :: a :: rest) s))].
  cbn [mbind outcome_bind sr_type]. rewrite decide_False by done. cbn [searched_path]. mrun (root_depth junk_name (x :: nm) (replicate (510 - length (x :: nm)) 0) Hpl Hj).
  change (1 =? 1) with true. cbn [negb andb]. change (-1 =? -1) with true. cbn [negb andb]. rewrite Hfl. change (O_CREAT =? 0) with false. rewrite Z.eqb_refl. cbn iota.
  unfold root_path. cbn [after_slash]. change (SLASH =? 0) with false. rewrite Z.eqb_refl. mrun (after_slash_ok (x :: nm) [] ((x :: nm) ++ [0]) Hn). cbn [parent_dir].
  destruct (file_create _ _ _ _) as [[fd s']| | | |]; try done.
Qed.
