(* ===== verification/Task.v ===== *)
(** * Tasks: pids, the PCB, and how threads begin and end
    (thread/thread.c, thread/thread.h, thread/switch.s, userprog/process.c)

    The PCB page of a thread holds its [task_struct] and its kernel stack.  The fields
    are the record [task] of [Sched]; the descriptors of the user heap ([u_block_desc])
    and the stack are words of [kw] at their addresses.  What the page level of memory
    knows of the running thread is taken from its PCB by [cur_mem], and written back by
    [on_mem].  The content of a freed page stays until the page is used again. *)

From S2P Require Import Prelude Interrupt KList Bitmap Sched Sync Paging Arena.

(** ** Fields of the PCB *)

Definition set_kstack (v : Z) (t : task) : task :=
  Task v (pid t) (status t) (priority t) (name t) (tricks t) (elapsed_tricks t) (fd_table t) (pgdir t)
       (userprog_vaddr t) (cwd_inode_nr t) (parent_pid t) (exit_status t) (stack_magic t).
Definition set_pid (v : Z) (t : task) : task :=
  Task (self_kstack t) v (status t) (priority t) (name t) (tricks t) (elapsed_tricks t) (fd_table t) (pgdir t)
       (userprog_vaddr t) (cwd_inode_nr t) (parent_pid t) (exit_status t) (stack_magic t).
Definition set_fds (v : list Z) (t : task) : task :=
  Task (self_kstack t) (pid t) (status t) (priority t) (name t) (tricks t) (elapsed_tricks t) v (pgdir t)
       (userprog_vaddr t) (cwd_inode_nr t) (parent_pid t) (exit_status t) (stack_magic t).
Definition set_pgdir (v : Z) (t : task) : task :=
  Task (self_kstack t) (pid t) (status t) (priority t) (name t) (tricks t) (elapsed_tricks t) (fd_table t) v
       (userprog_vaddr t) (cwd_inode_nr t) (parent_pid t) (exit_status t) (stack_magic t).
Definition set_uvaddr (v : virtual_addr) (t : task) : task :=
  Task (self_kstack t) (pid t) (status t) (priority t) (name t) (tricks t) (elapsed_tricks t) (fd_table t) (pgdir t)
       v (cwd_inode_nr t) (parent_pid t) (exit_status t) (stack_magic t).
Definition set_parent (v : Z) (t : task) : task :=
  Task (self_kstack t) (pid t) (status t) (priority t) (name t) (tricks t) (elapsed_tricks t) (fd_table t) (pgdir t)
       (userprog_vaddr t) (cwd_inode_nr t) v (exit_status t) (stack_magic t).
Definition set_exit (v : Z) (t : task) : task :=
  Task (self_kstack t) (pid t) (status t) (priority t) (name t) (tricks t) (elapsed_tricks t) (fd_table t) (pgdir t)
       (userprog_vaddr t) (cwd_inode_nr t) (parent_pid t) v (stack_magic t).

(** Byte offsets and sizes of the structures. *)
Definition u_block_desc_of (t : Z) : Z := t + 100.
Definition sizeof_task_struct : Z := 280.
Definition sizeof_intr_stack : Z := 76.
Definition sizeof_thread_stack : Z := 32.

Definition with_all (v : list Z) (s : tstate) : tstate :=
  TState (tasks s) (thread_ready_list s) v (running s) (main_thread s)
         (idle_thread s) (konts s) (tcpu s) (cr3 s) (tss_esp0 s) (ticks s).
Definition with_main (v : Z) (s : tstate) : tstate :=
  TState (tasks s) (thread_ready_list s) (thread_all_list s) (running s) v
         (idle_thread s) (konts s) (tcpu s) (cr3 s) (tss_esp0 s) (ticks s).
Definition with_idle (v : Z) (s : tstate) : tstate :=
  TState (tasks s) (thread_ready_list s) (thread_all_list s) (running s) (main_thread s)
         v (konts s) (tcpu s) (cr3 s) (tss_esp0 s) (ticks s).

(** ** Pids *)

Record pid_pool := PidPool { pid_bitmap : bitmap; pid_start : Z; pid_lock : lock }.

(** [after] is the memory behind [pid_bitmap_bits]. *)
Definition pid_pool_init (after : list Z) : outcome pid_pool :=
  b ← bitmap_init (Bitmap 128 (replicate 128 0 ++ after));
  Ok (PidPool b 1 lock_init).

(** The second component is the thread that the release of the lock wakes. *)
Definition allocate_pid (cur : Z) (p : pid_pool) : outcome (Z * option Z * pid_pool) :=
  l ← lock_acquire cur (pid_lock p);
  bit_idx ← bitmap_scan (pid_bitmap p) 1;
  b ← bitmap_set (pid_bitmap p) bit_idx 1;
  let '(w, l) := lock_release l in
  Ok (i16 (bit_idx + pid_start p), w, PidPool b (pid_start p) l).

Definition release_pid (cur pid : Z) (p : pid_pool) : outcome (option Z * pid_pool) :=
  l ← lock_acquire cur (pid_lock p);
  let bit_idx := i32 (u32 (pid - pid_start p)) in
  b ← bitmap_set (pid_bitmap p) bit_idx 0;
  let '(w, l) := lock_release l in
  Ok (w, PidPool b (pid_start p) l).

(** ** The kernel state *)

Record kernel := Kernel {
  ts : tstate;
  pids : pid_pool;
  km : mstate;
  kw : kmach;
  vbits : gmap Z Z;   (** thread ↦ [userprog_vaddr.vaddr_bitmap.bits], the address of the bytes *)
}.

Definition set_ts (s : tstate) (k : kernel) : kernel := Kernel s (pids k) (km k) (kw k) (vbits k).
Definition set_pids (p : pid_pool) (k : kernel) : kernel := Kernel (ts k) p (km k) (kw k) (vbits k).
Definition set_kw (w : kmach) (k : kernel) : kernel := Kernel (ts k) (pids k) (km k) w (vbits k).
Definition set_vbits (v : gmap Z Z) (k : kernel) : kernel := Kernel (ts k) (pids k) (km k) (kw k) v.

Definition cur (k : kernel) : Z := running (ts k).

(** Memory as the running thread sees it. *)
Definition cur_mem (k : kernel) : mstate :=
  let m := km k in
  let '(pd, va) := match tasks (ts k) !! cur k with
                   | Some t => (pgdir t, userprog_vaddr t)
                   | None => (0, VirtualAddr (Bitmap 0 []) 0)
                   end in
  MState (phys m) (cr3 (ts k)) (kernel_pool m) (user_pool m) (kernel_vaddr m) (cur k) pd va.

Definition put_mem (m : mstate) (k : kernel) : kernel :=
  let s := with_mmu (mcr3 m) (tss_esp0 (ts k)) (ts k) in
  Kernel (upd_task (set_uvaddr (cur_vaddr m)) (cur k) s) (pids k) m (kw k) (vbits k).

Definition on_mem {A} (f : mstate → outcome (A * mstate)) (k : kernel) : outcome (A * kernel) :=
  '(a, m) ← f (cur_mem k); Ok (a, put_mem m k).

Definition on_mem_ (f : mstate → outcome mstate) (k : kernel) : outcome kernel :=
  m ← f (cur_mem k); Ok (put_mem m k).

(** The thread woken by a call that returned it. *)
Definition wake (w : option Z) (k : kernel) : outcome kernel :=
  match w with
  | None => Ok k
  | Some t => s ← thread_unblock t (ts k); Ok (set_ts s k)
  end.

(** A run of the scheduler; the page directory of the next thread is looked up in the
    address space of the current one. *)
Definition v2p (k : kernel) (va : Z) : Z :=
  match addr_v2p va (cur_mem k) with Ok p => p | _ => 0 end.

Definition run_sched (f : (Z → Z) → tstate → outcome tstate) (k : kernel) : outcome kernel :=
  s ← f (v2p k) (ts k);
  t ← get_task s (running s);
  _ ← (if pgdir t =? 0 then Ok 0 else addr_v2p (pgdir t) (cur_mem k));
  Ok (set_ts s k).

Definition new_pid (k : kernel) : outcome (Z * kernel) :=
  '(p, w, pp) ← allocate_pid (cur k) (pids k);
  k ← wake w (set_pids pp k);
  Ok (p, k).

Definition fork_pid : kernel → outcome (Z * kernel) := new_pid.

Definition drop_pid (p : Z) (k : kernel) : outcome kernel :=
  '(w, pp) ← release_pid (cur k) p (pids k);
  wake w (set_pids pp k).

(** ** The beginning of a thread *)

Definition TASK_NAME_LEN : Z := 16.

(** [memset] of the structure, then the fields; a name that does not fit its 16 bytes
    with the terminating zero runs into the next fields. *)
Definition init_task (main : bool) (pthread : Z) (nm : list Z) (prio p : Z) : task :=
  Task (u32 (pthread + PG_SIZE)) p (if main then TASK_RUNNING else TASK_READY) (u8 prio)
       (nm ++ replicate (Z.to_nat (TASK_NAME_LEN - zlen nm)) 0) (u8 prio) 0
       [0; 1; 2; -1; -1; -1; -1; -1] 0 (VirtualAddr (Bitmap 0 []) 0) 0 (-1) 0 0x19870916.

Definition init_thread (pthread : Z) (nm : list Z) (prio : Z) (k : kernel) : outcome kernel :=
  if pthread =? 0 then Fault
  else
    let k := set_kw (KMach (zero_words 42 (u_block_desc_of pthread) (words (kw k))) (kcpu (kw k))) k in
    '(p, k) ← new_pid k;
    if zlen nm <? TASK_NAME_LEN then
      let t := init_task (pthread =? main_thread (ts k)) pthread nm prio p in
      Ok (set_ts (with_tasks (<[pthread := t]> (tasks (ts k))) (ts k)) k)
    else Fault.

(** Fields of [struct thread_stack] at [sp], the top of a suspended kernel stack. *)
Definition ts_ebp (sp : Z) : Z := sp.
Definition ts_ebx (sp : Z) : Z := sp + 4.
Definition ts_edi (sp : Z) : Z := sp + 8.
Definition ts_esi (sp : Z) : Z := sp + 12.
Definition ts_eip (sp : Z) : Z := sp + 16.
Definition ts_function (sp : Z) : Z := sp + 24.
Definition ts_func_arg (sp : Z) : Z := sp + 28.

Section Threads.
(** Addresses of code: [kernel_thread] of thread.c and [start_process] of process.c. *)
Context (kernel_thread start_process_addr : Z).

(** [self_kstack] is a pointer to words: the subtractions are in units of four bytes. *)
Definition thread_create (pthread function func_arg : Z) (k : kernel) : outcome kernel :=
  t ← get_task (ts k) pthread;
  let sp := u32 (self_kstack t - 4 * sizeof_intr_stack) in
  let sp := u32 (sp - 4 * sizeof_thread_stack) in
  w ← stk (kw k) (ts_eip sp) kernel_thread;
  w ← stk w (ts_function sp) function;
  w ← stk w (ts_func_arg sp) func_arg;
  w ← stk w (ts_edi sp) 0;
  w ← stk w (ts_esi sp) 0;
  w ← stk w (ts_ebx sp) 0;
  w ← stk w (ts_ebp sp) 0;
  let s := upd_task (set_kstack sp) pthread (ts k) in
  Ok (set_kw w (set_ts (with_konts (<[pthread := KStart]> (konts s)) s) k)).

(** The words of a fresh, cleared PCB page: [u_block_desc] and the kernel stack. *)
Definition fresh_pcb (pthread : Z) (k : kernel) : kernel :=
  set_kw (KMach (zero_words 42 (u_block_desc_of pthread)
                   (zero_words 954 (pthread + sizeof_task_struct) (words (kw k)))) (kcpu (kw k))) k.

(** [get_kernel_pages(1)] for a PCB. *)
Definition new_pcb (k : kernel) : outcome (Z * kernel) :=
  '(thread, k) ← on_mem (get_kernel_pages 1) k;
  Ok (thread, if thread =? 0 then k else fresh_pcb thread k).

Definition enlist_ready (t : Z) (k : kernel) : kernel :=
  set_ts (with_ready (thread_ready_list (ts k) ++ [t]) (ts k)) k.
Definition enlist_all (t : Z) (k : kernel) : kernel :=
  set_ts (with_all (thread_all_list (ts k) ++ [t]) (ts k)) k.

Definition thread_start (nm : list Z) (prio function func_arg : Z) (k : kernel) : outcome (Z * kernel) :=
  '(thread, k) ← new_pcb k;
  k ← init_thread thread nm prio k;
  k ← thread_create thread function func_arg k;
  Ok (thread, enlist_all thread (enlist_ready thread k)).

(** "main" *)
Definition make_main_thread (k : kernel) : outcome kernel :=
  let k := set_ts (with_main (cur k) (ts k)) k in
  k ← init_thread (cur k) [109; 97; 105; 110] 31 k;
  Ok (enlist_all (cur k) k).

(** ** The end of a thread *)

Definition without (t : Z) (l : list Z) : list Z := filter (λ x, x ≠ t) l.

(** The body up to the last call; [thread_over] is freed before its pid is read: see the
    note on freed pages above. *)
Definition thread_remove (thread_over : Z) (k : kernel) : outcome kernel :=
  let k := set_ts (with_cpu (snd (intr_disable (tcpu (ts k)))) (ts k)) k in
  t ← get_task (ts k) thread_over;
  let k := set_ts (upd_task (set_status TASK_DIED) thread_over (ts k)) k in
  let k := if bool_decide (thread_over ∈ thread_ready_list (ts k))
           then set_ts (with_ready (without thread_over (thread_ready_list (ts k))) (ts k)) k else k in
  k ← (if pgdir t =? 0 then Ok k else on_mem_ (mfree_page PF_KERNEL (pgdir t) 1) k);
  k ← (if bool_decide (thread_over ∈ thread_all_list (ts k))
       then Ok (set_ts (with_all (without thread_over (thread_all_list (ts k))) (ts k)) k) else Fault);
  k ← (if thread_over =? main_thread (ts k) then Ok k else on_mem_ (mfree_page PF_KERNEL thread_over 1) k);
  drop_pid (pid t) k.

Definition thread_exit (thread_over : Z) (need_schedule : bool) (k : kernel) : outcome kernel :=
  k ← thread_remove thread_over k;
  if need_schedule then run_sched (λ v, schedule v (KReturn INTR_OFF)) k else Ok k.

(** ** Looking up threads *)

Definition pid_of (s : tstate) (t : Z) : option Z := pid <$> tasks s !! t.

(** [list_traversal (&thread_all_list, f, arg)]: the first thread for which [f] holds. *)
Definition first_thread (f : task → bool) (s : tstate) : option Z :=
  List.find (λ t, match tasks s !! t with Some tk => f tk | None => false end) (thread_all_list s).

Definition pid_check (p : Z) (t : task) : bool := pid t =? p.

Definition pid2thread (p : Z) (s : tstate) : Z := default 0 (first_thread (pid_check p) s).

(** ** User processes (userprog/process.c) *)

Definition USER_VADDR_START : Z := 0x8048000.
Definition USER_STACK3_VADDR : Z := 0xc0000000 - 0x1000.
Definition default_prio : Z := 31.

(** [memcpy] of [n] words of the current address space. *)
Fixpoint copy_words (n : nat) (dst src : Z) (m : mstate) : outcome mstate :=
  match n with
  | O => Ok m
  | S n => v ← rd32 src m; m ← wr32 dst v m; copy_words n (u32 (dst + 4)) (u32 (src + 4)) m
  end.

Definition create_page_dir (m : mstate) : outcome (Z * mstate) :=
  '(page_dir_vaddr, m) ← get_kernel_pages 1 m;
  if page_dir_vaddr =? 0 then Ok (0, m)
  else
    m ← copy_words 256 (u32 (page_dir_vaddr + 0x300 * 4)) (0xfffff000 + 0x300 * 4) m;
    new_page_dir_phy_addr ← addr_v2p page_dir_vaddr m;
    m ← wr32 (u32 (page_dir_vaddr + 1023 * 4)) (entry new_page_dir_phy_addr) m;
    Ok (page_dir_vaddr, m).

Definition bitmap_pg_cnt : Z := ((0xc0000000 - USER_VADDR_START) / PG_SIZE / 8 + PG_SIZE - 1) / PG_SIZE.
Definition user_bitmap_len : Z := (0xc0000000 - USER_VADDR_START) / PG_SIZE / 8.

(** The pages are zero; [bitmap_init] writes through the pointer without a check. *)
Definition create_user_vaddr_bitmap (user_prog : Z) (k : kernel) : outcome kernel :=
  '(bits_addr, k) ← on_mem (get_kernel_pages bitmap_pg_cnt) k;
  if bits_addr =? 0 then Fault
  else
    b ← bitmap_init (Bitmap user_bitmap_len (replicate (Z.to_nat (bitmap_pg_cnt * PG_SIZE)) 0));
    Ok (set_vbits (<[user_prog := bits_addr]> (vbits k))
         (set_ts (upd_task (set_uvaddr (VirtualAddr b USER_VADDR_START)) user_prog (ts k)) k)).

Definition process_execute (filename : Z) (nm : list Z) (k : kernel) : outcome kernel :=
  '(thread, k) ← new_pcb k;
  k ← init_thread thread nm default_prio k;
  k ← create_user_vaddr_bitmap thread k;
  k ← thread_create thread start_process_addr filename k;
  '(pd, k) ← on_mem create_page_dir k;
  let k := set_ts (upd_task (set_pgdir pd) thread (ts k)) k in
  w ← block_desc_init (u_block_desc_of thread) (kw k);
  Ok (enlist_all thread (enlist_ready thread (set_kw w k))).

(** "init", "idle"; [idle_addr] and [init_addr] are the two functions. *)
Definition thread_init (after : list Z) (init_addr idle_addr : Z) (k : kernel) : outcome kernel :=
  let k := set_ts (with_all [] (with_ready [] (ts k))) k in
  pp ← pid_pool_init after;
  k ← process_execute init_addr [105; 110; 105; 116] (set_pids pp k);
  k ← make_main_thread k;
  '(idle, k) ← thread_start [105; 100; 108; 101] 10 idle_addr 0 k;
  Ok (set_ts (with_idle idle (ts k)) k).

End Threads.

(** ** Kernel stacks *)

(** [switch_to] on the stack of the next thread: four pops and [ret]; the words above are
    the return address and the arguments of the function it enters. *)
Record switch_regs := SwitchRegs { sw_ebp : Z; sw_ebx : Z; sw_edi : Z; sw_esi : Z; sw_eip : Z; sw_esp : Z }.

Definition switch_in (sp : Z) (w : kmach) : outcome switch_regs :=
  ebp ← ld (words w) (ts_ebp sp);
  ebx ← ld (words w) (ts_ebx sp);
  edi ← ld (words w) (ts_edi sp);
  esi ← ld (words w) (ts_esi sp);
  eip ← ld (words w) (ts_eip sp);
  Ok (SwitchRegs ebp ebx edi esi eip (sp + 20)).

(** Fields of [struct intr_stack]. *)
Definition is_edi (sp : Z) : Z := sp + 4.
Definition is_esi (sp : Z) : Z := sp + 8.
Definition is_ebp (sp : Z) : Z := sp + 12.
Definition is_esp_dummy (sp : Z) : Z := sp + 16.
Definition is_ebx (sp : Z) : Z := sp + 20.
Definition is_edx (sp : Z) : Z := sp + 24.
Definition is_ecx (sp : Z) : Z := sp + 28.
Definition is_eax (sp : Z) : Z := sp + 32.
Definition is_gs (sp : Z) : Z := sp + 36.
Definition is_fs (sp : Z) : Z := sp + 40.
Definition is_es (sp : Z) : Z := sp + 44.
Definition is_ds (sp : Z) : Z := sp + 48.
Definition is_eip (sp : Z) : Z := sp + 56.
Definition is_cs (sp : Z) : Z := sp + 60.
Definition is_eflags (sp : Z) : Z := sp + 64.
Definition is_esp (sp : Z) : Z := sp + 68.
Definition is_ss (sp : Z) : Z := sp + 72.

Record user_regs := UserRegs {
  r_edi : Z; r_esi : Z; r_ebp : Z; r_ebx : Z; r_edx : Z; r_ecx : Z; r_eax : Z;
  r_gs : Z; r_fs : Z; r_es : Z; r_ds : Z;
  r_eip : Z; r_cs : Z; r_eflags : Z; r_esp : Z; r_ss : Z;
}.

(** [intr_exit] (kernel.s) from a frame of user mode: [popad] drops the saved esp,
    [iretd] pops the last five words. *)
Definition intr_exit (sp : Z) (w : kmach) : outcome user_regs :=
  edi ← ld (words w) (is_edi sp);
  esi ← ld (words w) (is_esi sp);
  ebp ← ld (words w) (is_ebp sp);
  ebx ← ld (words w) (is_ebx sp);
  edx ← ld (words w) (is_edx sp);
  ecx ← ld (words w) (is_ecx sp);
  eax ← ld (words w) (is_eax sp);
  gs ← ld (words w) (is_gs sp);
  fs ← ld (words w) (is_fs sp);
  es ← ld (words w) (is_es sp);
  ds ← ld (words w) (is_ds sp);
  eip ← ld (words w) (is_eip sp);
  cs ← ld (words w) (is_cs sp);
  eflags ← ld (words w) (is_eflags sp);
  esp ← ld (words w) (is_esp sp);
  ss ← ld (words w) (is_ss sp);
  Ok (UserRegs edi esi ebp ebx edx ecx eax gs fs es ds eip cs eflags esp ss).

Definition SELECTOR_U_CODE : Z := Z.shiftl 5 3 + Z.shiftl 0 2 + 3.
Definition SELECTOR_U_DATA : Z := Z.shiftl 6 3 + Z.shiftl 0 2 + 3.
Definition EFLAGS_IOPL_0 : Z := Z.shiftl 0 12.
Definition EFLAGS_MBS : Z := Z.shiftl 1 1.
Definition EFLAGS_IF_1 : Z := Z.shiftl 1 9.

(** The stores of a list of words, in order. *)
Fixpoint stores (l : list (Z * Z)) (w : kmach) : outcome kmach :=
  match l with
  | [] => Ok w
  | (a, v) :: l => w ← stk w a v; stores l w
  end.

(** Run by the new process; the result is the frame it passes to [intr_exit]. *)
Definition start_process (filename : Z) (k : kernel) : outcome (Z * kernel) :=
  t ← get_task (ts k) (cur k);
  let sp := u32 (self_kstack t + 4 * sizeof_thread_stack) in
  let k := set_ts (upd_task (set_kstack sp) (cur k) (ts k)) k in
  w ← stores [(is_esp_dummy sp, 0); (is_ebp sp, 0); (is_esi sp, 0); (is_edi sp, 0);
              (is_eax sp, 0); (is_ecx sp, 0); (is_edx sp, 0); (is_ebx sp, 0); (is_gs sp, 0);
              (is_fs sp, SELECTOR_U_DATA); (is_es sp, SELECTOR_U_DATA); (is_ds sp, SELECTOR_U_DATA);
              (is_eip sp, filename); (is_cs sp, SELECTOR_U_CODE);
              (is_eflags sp, Z.lor (Z.lor EFLAGS_IOPL_0 EFLAGS_MBS) EFLAGS_IF_1)] (kw k);
  '(pg, k) ← on_mem (get_a_page PF_USER USER_STACK3_VADDR) (set_kw w k);
  w ← stores [(is_esp sp, u32 (pg + PG_SIZE)); (is_ss sp, SELECTOR_U_DATA)] (kw k);
  Ok (sp, set_kw w k).
