(* ===== verification/WaitExit.v ===== *)
(** * The end of a process (userprog/wait_exit.c)

    A system is the kernel state of [Task] with the file system: [fd_table] and the working
    directory that the file system calls work on are those of the running thread. *)

From S2P Require Import Prelude Interrupt KList FsState File Pipe Fs Bitmap Sched Sync Paging Arena Task.

Record system := System { sk : kernel; sf : FsState.fs }.

Definition set_sk (k : kernel) (y : system) : system := System k (sf y).

(** The file system as the running thread sees it, and its changes written back. *)
Definition cur_fs (y : system) : FsState.fs :=
  match tasks (ts (sk y)) !! cur (sk y) with
  | Some t => FsState.set_cwd (cwd_inode_nr t) (FsState.set_fd_table (fd_table t) (sf y))
  | None => sf y
  end.

Definition put_fs (f : FsState.fs) (y : system) : system :=
  System (set_ts (upd_task (set_fds (FsState.fd_table f)) (cur (sk y)) (ts (sk y))) (sk y)) f.

(** ** Releasing what a process owns *)

(** The page table entries [pte_idx ..] of the table at [first_pte_vaddr]. *)
Fixpoint release_ptes (n : nat) (first_pte_vaddr pte_idx : Z) (m : mstate) : outcome mstate :=
  match n with
  | O => Ok m
  | S n =>
      pte ← rd32 (u32 (first_pte_vaddr + 4 * pte_idx)) m;
      m ← (if Z.land pte 1 =? 0 then Ok m else free_a_phy_page (Z.land pte 0xfffff000) m);
      release_ptes n first_pte_vaddr (pte_idx + 1) m
  end.

Fixpoint release_pdes (n : nat) (pgdir_vaddr pde_idx : Z) (m : mstate) : outcome mstate :=
  match n with
  | O => Ok m
  | S n =>
      pde ← rd32 (u32 (pgdir_vaddr + 4 * pde_idx)) m;
      m ← (if Z.land pde 1 =? 0 then Ok m
           else
             m ← release_ptes 1024 (pte_ptr (u32 (pde_idx * 0x400000))) 0 m;
             free_a_phy_page (Z.land pde 0xfffff000) m);
      release_pdes n pgdir_vaddr (pde_idx + 1) m
  end.

(** The descriptors [local_fd ..] of the process. *)
Fixpoint release_fds (n : nat) (local_fd : Z) (y : system) : outcome system :=
  match n with
  | O => Ok y
  | S n =>
      let f := cur_fs y in
      g ← aget (FsState.fd_table f) local_fd;
      y ← (if g =? -1 then Ok y
           else
             pipe ← Pipe.is_pipe local_fd f;
             if pipe : bool then
               global_fd ← Pipe.fd_local2global local_fd f;
               fl ← aget (FsState.file_table f) global_fd;
               let pos := u32 (FsState.fd_pos fl - 1) in
               if pos =? 0 then
                 k ← on_mem_ (mfree_page PF_KERNEL (FsState.fd_inode fl) 1) (sk y);
                 f ← File.put_file global_fd (FsState.File pos (FsState.fd_flag fl) 0)
                       (FsState.set_ioqs (delete (FsState.fd_inode fl) (FsState.ioqs f)) f);
                 Ok (put_fs f (set_sk k y))
               else
                 f ← File.put_file global_fd (FsState.File pos (FsState.fd_flag fl) (FsState.fd_inode fl)) f;
                 Ok (put_fs f y)
             else
               '(_, f) ← Fs.sys_close local_fd f;
               Ok (put_fs f y));
      release_fds n (local_fd + 1) y
  end.

(** [release_thread] is the running thread.  The address of the bitmap is kept with the
    thread; the number of its pages is rounded down here. *)
Definition release_prog_resource (release_thread : Z) (y : system) : outcome system :=
  t ← get_task (ts (sk y)) release_thread;
  k ← on_mem_ (release_pdes 768 (pgdir t) 0) (sk y);
  let pg_cnt := btmp_bytes_len (vaddr_bitmap (userprog_vaddr t)) / PG_SIZE in
  a ← of_opt (vbits k !! release_thread);
  k ← on_mem_ (mfree_page PF_KERNEL a pg_cnt) k;
  release_fds 5 3 (set_sk k y).

(** ** The callbacks of [list_traversal] *)

Definition find_child (ppid : Z) (t : task) : bool := parent_pid t =? ppid.

Definition find_hanging_child (ppid : Z) (t : task) : bool :=
  (parent_pid t =? ppid) && bool_decide (status t = TASK_HANGING).

Definition init_adopt_a_child (p : Z) (t : task) : task :=
  if parent_pid t =? p then set_parent 1 t else t.

(** The traversal that never stops: the callback on every thread of the list. *)
Definition adopt_all (p : Z) (s : tstate) : tstate :=
  foldl (λ s t, upd_task (init_adopt_a_child p) t s) s (thread_all_list s).

(** ** wait and exit *)

(** What one turn of the loop of [sys_wait] comes to: the pid and the status of a child,
    -1, or the caller asleep. *)
Inductive wait_result :=
| WReaped (child_pid status : Z)
| WNoChild
| WAsleep.

(** [sys_wait] up to its return or to its sleep.  A caller that is woken goes on with the
    loop: it runs this again from its first line. *)
Definition sys_wait (k : kernel) : outcome (wait_result * kernel) :=
  let parent_thread := cur k in
  t ← get_task (ts k) parent_thread;
  match first_thread (find_hanging_child (pid t)) (ts k) with
  | Some child_thread =>
      c ← get_task (ts k) child_thread;
      let child_pid := u16 (pid c) in
      k ← thread_exit child_thread false k;
      Ok (WReaped (i16 child_pid) (exit_status c), k)
  | None =>
      match first_thread (find_child (pid t)) (ts k) with
      | None => Ok (WNoChild, k)
      | Some _ =>
          k ← run_sched (λ v, thread_block v TASK_WAITING) k;
          Ok (WAsleep, k)
      end
  end.

(** The parent of an exiting process is woken when it waits. *)
Definition wake_parent (parent_pid : Z) (k : kernel) : outcome kernel :=
  let parent_thread := pid2thread parent_pid (ts k) in
  p ← get_task (ts k) parent_thread;
  if decide (status p = TASK_WAITING) then s ← thread_unblock parent_thread (ts k); Ok (set_ts s k)
  else Ok k.

Definition sys_exit (status : Z) (y : system) : outcome system :=
  let k := sk y in
  let child_thread := cur k in
  _ ← get_task (ts k) child_thread;
  let k := set_ts (upd_task (set_exit (i8 status)) child_thread (ts k)) k in
  t ← get_task (ts k) child_thread;
  if parent_pid t =? -1 then Panic
  else
    let k := set_ts (adopt_all (pid t) (ts k)) k in
    y ← release_prog_resource child_thread (set_sk k y);
    t ← get_task (ts (sk y)) child_thread;
    k ← wake_parent (parent_pid t) (sk y);
    k ← run_sched (λ v, thread_block v TASK_HANGING) k;
    Ok (set_sk k y).
