(* ===== verification/Fork.v ===== *)
(** * fork (userprog/fork.c)

    The parent is the running thread.  The page of the PCB is copied with its kernel stack;
    the user pages one by one through a kernel page, switching between the two address
    spaces. *)

From S2P Require Import Prelude Interrupt KList Disk FsState File Pipe Fs Bitmap Sched Sync Paging Arena Task WaitExit.

(** [memcpy] of [n] words of kernel memory. *)
Fixpoint memcpy_words (n : nat) (dst src : Z) (w : kmach) : outcome kmach :=
  match n with
  | O => Ok w
  | S n => v ← ld (words w) src; w ← stk w dst v; memcpy_words n (dst + 4) (src + 4) w
  end.

(** The words of the PCB page that are not fields of the record. *)
Definition copy_pcb_words (child parent : Z) (w : kmach) : outcome kmach :=
  w ← memcpy_words 42 (u_block_desc_of child) (u_block_desc_of parent) w;
  memcpy_words 954 (child + sizeof_task_struct) (parent + sizeof_task_struct) w.

(** The fields of the child that differ from the parent's. *)
Definition child_task (p : Z) (t : task) : task :=
  Task (self_kstack t) p TASK_READY (priority t) (name t) (priority t) 0 (fd_table t) (pgdir t)
       (userprog_vaddr t) (cwd_inode_nr t) (pid t) (exit_status t) (stack_magic t).

Definition copy_pcb_vaddrbitmap_stack0 (child_thread parent_thread : Z) (k : kernel) : outcome (Z * kernel) :=
  t ← get_task (ts k) parent_thread;
  w ← copy_pcb_words child_thread parent_thread (kw k);
  let k := set_kw w k in
  '(p, k) ← fork_pid k;
  let s := with_tasks (<[child_thread := child_task p t]> (tasks (ts k))) (ts k) in
  w ← block_desc_init (u_block_desc_of child_thread) (kw k);
  let k := set_kw w (set_ts s k) in
  '(vaddr_btmp, k) ← on_mem (get_kernel_pages bitmap_pg_cnt) k;
  if vaddr_btmp =? 0 then Ok (-1, k)
  else Ok (0, set_vbits (<[child_thread := vaddr_btmp]> (vbits k)) k).

Definition with_cr3 (c : Z) (m : mstate) : mstate :=
  MState (phys m) c (kernel_pool m) (user_pool m) (kernel_vaddr m) (cur_thread m) (cur_pgdir m) (cur_vaddr m).

(** [page_dir_activate] of a thread with directory [pd], on the level of memory. *)
Definition activate (pd : Z) (m : mstate) : outcome mstate :=
  if pd =? 0 then Ok (with_cr3 0x100000 m)
  else p ← addr_v2p pd m; Ok (with_cr3 p m).

(** One page of the parent; the result of [get_a_page_without_opvaddrbitmap] is not looked at. *)
Definition copy_user_page (child_pgdir parent_pgdir buf_page prog_vaddr : Z) (m : mstate) : outcome mstate :=
  m ← copy_words 1024 buf_page prog_vaddr m;
  m ← activate child_pgdir m;
  '(_, m) ← get_a_page_without_opvaddrbitmap PF_USER prog_vaddr m;
  m ← copy_words 1024 prog_vaddr buf_page m;
  activate parent_pgdir m.

(** The bits of one byte of the bitmap, and the bytes. *)
Fixpoint copy_bits (n : nat) (byte idx_byte idx_bit vaddr_start : Z) (child_pgdir parent_pgdir buf_page : Z)
    (m : mstate) : outcome mstate :=
  match n with
  | O => Ok m
  | S n =>
      m ← (if Z.land (Z.shiftl BITMAP_MASK idx_bit) byte =? 0 then Ok m
           else copy_user_page child_pgdir parent_pgdir buf_page
                  (u32 ((idx_byte * 8 + idx_bit) * PG_SIZE + vaddr_start)) m);
      copy_bits n byte idx_byte (idx_bit + 1) vaddr_start child_pgdir parent_pgdir buf_page m
  end.

Fixpoint copy_bytes (n : nat) (btmp : list Z) (idx_byte vaddr_start : Z) (child_pgdir parent_pgdir buf_page : Z)
    (m : mstate) : outcome mstate :=
  match n with
  | O => Ok m
  | S n =>
      byte ← aget btmp idx_byte;
      m ← (if byte =? 0 then Ok m
           else copy_bits 8 byte idx_byte 0 vaddr_start child_pgdir parent_pgdir buf_page m);
      copy_bytes n btmp (idx_byte + 1) vaddr_start child_pgdir parent_pgdir buf_page m
  end.

Definition copy_body_stack3 (va : virtual_addr) (child_pgdir parent_pgdir buf_page : Z) (m : mstate) : outcome mstate :=
  copy_bytes (Z.to_nat (btmp_bytes_len (vaddr_bitmap va))) (bits (vaddr_bitmap va)) 0 (vaddr_start va)
    child_pgdir parent_pgdir buf_page m.

(** [intr_exit_addr] is the address of [intr_exit] in kernel.s. *)
Definition build_child_stack (intr_exit_addr child_thread : Z) (k : kernel) : outcome kernel :=
  let intr_0_stack := u32 (child_thread + PG_SIZE - sizeof_intr_stack) in
  w ← stores [(is_eax intr_0_stack, 0); (intr_0_stack - 4, intr_exit_addr);
              (intr_0_stack - 8, 0); (intr_0_stack - 12, 0); (intr_0_stack - 16, 0); (intr_0_stack - 20, 0)] (kw k);
  _ ← get_task (ts k) child_thread;
  let s := upd_task (set_kstack (intr_0_stack - 20)) child_thread (ts k) in
  Ok (set_kw w (set_ts (with_konts (<[child_thread := KIret]> (konts s)) s) k)).

(** [is_pipe] looks at the descriptors of the running thread, the parent. *)
Fixpoint update_cnts (n : nat) (local_fd : Z) (fds : list Z) (f : fs) : outcome fs :=
  match n with
  | O => Ok f
  | S n =>
      global_fd ← aget fds local_fd;
      f ← (if global_fd =? -1 then Ok f
           else
             pipe ← is_pipe local_fd f;
             fl ← aget (file_table f) global_fd;
             if pipe : bool then put_file global_fd (File (u32 (fd_pos fl + 1)) (fd_flag fl) (fd_inode fl)) f
             else
               i ← get_inode (fd_inode fl) f;
               put_inode (fd_inode fl) (with_cnts (u32 (i_open_cnts i + 1)) i) f);
      update_cnts n (local_fd + 1) fds f
  end.

Definition update_inode_open_cnts (thread : Z) (y : system) : outcome system :=
  t ← get_task (ts (sk y)) thread;
  f ← update_cnts 5 3 (Sched.fd_table t) (cur_fs y);
  Ok (put_fs f y).

Definition copy_process (intr_exit_addr child_thread parent_thread : Z) (y : system) : outcome (Z * system) :=
  '(buf_page, k) ← on_mem (get_kernel_pages 1) (sk y);
  if buf_page =? 0 then Ok (-1, set_sk k y)
  else
    '(r, k) ← copy_pcb_vaddrbitmap_stack0 child_thread parent_thread k;
    if r =? -1 then Ok (-1, set_sk k y)
    else
      '(pd, k) ← on_mem create_page_dir k;
      let k := set_ts (upd_task (set_pgdir pd) child_thread (ts k)) k in
      if pd =? 0 then Ok (-1, set_sk k y)
      else
        t ← get_task (ts k) parent_thread;
        k ← on_mem_ (copy_body_stack3 (userprog_vaddr t) pd (pgdir t) buf_page) k;
        k ← build_child_stack intr_exit_addr child_thread k;
        y ← update_inode_open_cnts child_thread (set_sk k y);
        k ← on_mem_ (mfree_page PF_KERNEL buf_page 1) (sk y);
        Ok (0, set_sk k y).

(** The PCB of a fork that failed is in no list and nothing refers to it: its record is
    dropped.  Its page, its pid and whatever else was allocated stay taken. *)
Definition forget (child_thread : Z) (k : kernel) : kernel :=
  set_ts (with_tasks (delete child_thread (tasks (ts k))) (ts k)) k.

Definition sys_fork (intr_exit_addr : Z) (y : system) : outcome (Z * system) :=
  let parent_thread := cur (sk y) in
  '(child_thread, k) ← new_pcb (sk y);
  if child_thread =? 0 then Ok (-1, set_sk k y)
  else
    '(r, y) ← copy_process intr_exit_addr child_thread parent_thread (set_sk k y);
    if r =? -1 then Ok (-1, set_sk (forget child_thread (sk y)) y)
    else
      let k := enlist_all child_thread (enlist_ready child_thread (sk y)) in
      t ← get_task (ts k) child_thread;
      Ok (pid t, set_sk k y).
