(* ===== verification/Lifecycle.v ===== *)
(** * The life of a process: the process table over any sequence of calls

    [table_inv] is the invariant of the process table: pids are registered and name one
    thread each, every parent is in the table, and no process other than init sleeps in
    [sys_wait] while one of its children has already ended.  The kernel's steps
    ([life_step]) are the scheduler's events, the creation of threads and processes, fork,
    one pass of the loop of wait, exit, and the end of the main thread. *)

From S2P Require Import Prelude Interrupt KList FsState File Pipe Fs Bitmap Sched Sync Paging Arena HeapPages Task WaitExit Fork.

(** ** Views of the table *)

Record pview := PView { v_pid : Z; v_parent : Z; v_pgdir : Z; v_status : task_status }.

Definition view (t : task) : pview := PView (pid t) (parent_pid t) (pgdir t) (status t).
Definition view_of (s : tstate) (t : Z) : option pview := view <$> tasks s !! t.

(** What no scheduler event changes. *)
Definition ident (v : pview) : Z * Z * Z := (v_pid v, v_parent v, v_pgdir v).
Definition ident_of (s : tstate) (t : Z) : option (Z * Z * Z) := ident <$> view_of s t.

Lemma status_of_view s t : status_of s t = v_status <$> view_of s t.
Proof. unfold status_of, view_of. by destruct (tasks s !! t). Qed.

(** Thread [t] of the table, with its view. *)
Definition proc (s : tstate) (t : Z) (v : pview) : Prop := t ∈ thread_all_list s ∧ view_of s t = Some v.

Record pid_wf (p : pid_pool) : Prop := {
  pw_bits : bitmap_wf (pid_bitmap p);
  pw_len : btmp_bytes_len (pid_bitmap p) = 128;
  pw_over : 128 < zlen (bits (pid_bitmap p));
  pw_first : pid_start p = 1;
  pw_free : pid_lock p = lock_init;
}.

Definition no_hanging_child (s : tstate) (p : Z) : Prop :=
  ∀ c v, proc s c v → v_parent v = p → v_status v ≠ TASK_HANGING.
Definition no_child (s : tstate) (p : Z) : Prop := ∀ c v, proc s c v → v_parent v ≠ p.

(** The part of the invariant that depends on the identities only. *)
Record ident_inv (s : tstate) (p : pid_pool) : Prop := {
  ii_nodup : NoDup (thread_all_list s);
  ii_null : tasks s !! 0 = None;
  ii_pool : pid_wf p;
  ii_pid : ∀ t v, proc s t v → 1 ≤ v_pid v ≤ 1024 ∧ bit_set (pid_bitmap p) (v_pid v - 1) = true;
  ii_inj : ∀ t t' v v', proc s t v → proc s t' v' → v_pid v = v_pid v' → t = t';
  ii_init : ∃ t v, proc s t v ∧ v_pid v = 1 ∧ v_parent v = -1 ∧ v_pgdir v ≠ 0;
  ii_parent : ∀ t v, proc s t v → v_parent v = -1 ∨
    ∃ q vq, proc s q vq ∧ v_pid vq = v_parent v ∧ v_pgdir vq ≠ 0;
}.

(** The rest, with the statuses. *)
Record table_core (k : kernel) : Prop := {
  tc_ident : ident_inv (ts k) (pids k);
  tc_all : ∀ t, t ∈ thread_all_list (ts k) ↔ ∃ v, view_of (ts k) t = Some v ∧ v_status v ≠ TASK_DIED;
  tc_idle : ∀ v, view_of (ts k) (idle_thread (ts k)) = Some v → v_pgdir v = 0 ∧ v_parent v = -1;
  tc_hang : ∀ t v, proc (ts k) t v → v_status v = TASK_HANGING → v_parent v ≠ -1 ∧ no_child (ts k) (v_pid v);
  tc_wait : ∀ t v, proc (ts k) t v → v_status v = TASK_WAITING → v_pid v ≠ 1 →
    ¬ no_child (ts k) (v_pid v) ∧ no_hanging_child (ts k) (v_pid v);
}.

Record table_inv (k : kernel) : Prop := { ti_sched : sched_inv (ts k); ti_core : table_core k }.

Definition ti_ident k (T : table_inv k) := tc_ident k (ti_core k T).
Definition ti_all k (T : table_inv k) := tc_all k (ti_core k T).
Definition ti_idle k (T : table_inv k) := tc_idle k (ti_core k T).
Definition ti_hang k (T : table_inv k) := tc_hang k (ti_core k T).
Definition ti_wait k (T : table_inv k) := tc_wait k (ti_core k T).

(** ** The steps *)

Definition sched_event (o : sched_op) (k : kernel) : outcome kernel :=
  match o with
  | OpTimer => run_sched intr_timer_handler k
  | OpYield => run_sched thread_yield k
  | OpBlock st => run_sched (λ v, thread_block v st) k
  | OpUnblock t => s ← thread_unblock t (ts k); Ok (set_ts s k)
  end.

(** Drivers and semaphores block threads in [TASK_BLOCKED] and wake only such threads. *)
Definition event_allowed (o : sched_op) (s : tstate) : Prop :=
  match o with
  | OpTimer | OpYield => True
  | OpBlock st => st = TASK_BLOCKED
  | OpUnblock t => status_of s t = Some TASK_BLOCKED
  end.

(** The allocator's promise: a page it hands out for a PCB is neither the page
    of a live thread nor that of the main thread, which is not in the heap. *)
Definition fresh_page (k : kernel) : Prop :=
  ∀ t k', new_pcb k = Ok (t, k') → t ∉ thread_all_list (ts k) ∧ t ≠ main_thread (ts k).

(** A system with the threads that are inside [sys_wait]: asleep in it, or woken and about
    to go on with its loop. *)
Record life := Life { sys : system; waiters : gset Z }.

Definition after_wait (r : wait_result) (t : Z) (W : gset Z) : gset Z :=
  match r with WAsleep => {[t]} ∪ W | WReaped _ _ | WNoChild => W ∖ {[t]} end.

(** The events that are calls of the running thread. *)
Definition is_call (o : sched_op) : bool :=
  match o with OpYield | OpBlock _ => true | OpTimer | OpUnblock _ => false end.

Section Steps.
Context (kernel_thread start_process_addr intr_exit_addr : Z).

(** The system calls are made by processes, which have a page directory.  The running thread
    makes a call only when it is not inside [sys_wait]; there it goes on with the loop.  A fork
    may fail ([p] is -1). *)
Inductive life_step : life → life → Prop :=
| ls_event o y W k' :
    event_allowed o (ts (sk y)) → (is_call o = true → cur (sk y) ∉ W) →
    sched_event o (sk y) = Ok k' → life_step (Life y W) (Life (set_sk k' y) W)
| ls_start nm prio f arg t y W k' :
    cur (sk y) ∉ W →
    thread_start kernel_thread nm prio f arg (sk y) = Ok (t, k') → fresh_page (sk y) →
    life_step (Life y W) (Life (set_sk k' y) W)
| ls_execute filename nm y W k' :
    cur (sk y) ∉ W →
    process_execute kernel_thread start_process_addr filename nm (sk y) = Ok k' → fresh_page (sk y) →
    life_step (Life y W) (Life (set_sk k' y) W)
| ls_fork p y W y' :
    cur (sk y) ∉ W →
    (∃ v, view_of (ts (sk y)) (cur (sk y)) = Some v ∧ v_pgdir v ≠ 0) →
    sys_fork intr_exit_addr y = Ok (p, y') → fresh_page (sk y) → life_step (Life y W) (Life y' W)
| ls_wait r y W k' :
    sys_wait (sk y) = Ok (r, k') → life_step (Life y W) (Life (set_sk k' y) (after_wait r (cur (sk y)) W))
| ls_exit st y W y' :
    cur (sk y) ∉ W → sys_exit st y = Ok y' → life_step (Life y W) (Life y' W)
| ls_main_exit y W k' :
    cur (sk y) ∉ W → cur (sk y) = main_thread (ts (sk y)) →
    (∃ v, view_of (ts (sk y)) (cur (sk y)) = Some v ∧ v_pgdir v = 0 ∧ v_parent v = -1) →
    cur (sk y) ≠ idle_thread (ts (sk y)) → thread_exit (cur (sk y)) true (sk y) = Ok k' →
    life_step (Life y W) (Life (set_sk k' y) W).

Inductive life_run : life → life → Prop :=
| lr_refl c : life_run c c
| lr_step c c' c'' : life_step c c' → life_run c' c'' → life_run c c''.
End Steps.

(** ** What the parts leave alone *)

Lemma view_of_upd f t t' s :
  view_of (upd_task f t s) t' = if decide (t = t') then (view ∘ f) <$> tasks s !! t' else view_of s t'.
Proof.
  unfold view_of, upd_task. simpl. rewrite lookup_alter. case_decide; [|done]. subst. by destruct (tasks s !! t').
Qed.

Lemma ident_of_upd f t t' s :
  (∀ x, ident (view (f x)) = ident (view x)) → ident_of (upd_task f t s) t' = ident_of s t'.
Proof.
  intros Hf. unfold ident_of. rewrite view_of_upd. case_decide; [|done]. unfold view_of.
  destruct (tasks s !! t'); [|done]. simpl. by rewrite Hf.
Qed.

(** The table without the statuses. *)
Definition same_ident (s s' : tstate) : Prop :=
  thread_all_list s' = thread_all_list s ∧ main_thread s' = main_thread s ∧ ∀ t, ident_of s' t = ident_of s t.

#[global] Instance same_ident_preorder : PreOrder same_ident.
Proof.
  split; [by intros s|]. intros s1 s2 s3 (A1 & A2 & A3) (B1 & B2 & B3). split_and!; [congruence|congruence|].
  intros t. by rewrite B3.
Qed.

Lemma same_ident_upd f t s : (∀ x, ident (view (f x)) = ident (view x)) → same_ident s (upd_task f t s).
Proof. intros Hf. split_and!; [done|done|]. intros t'. by apply ident_of_upd. Qed.

Lemma unblock_ident t s s' : thread_unblock t s = Ok s' → same_ident s s'.
Proof.
  unfold thread_unblock. destruct (intr_disable (tcpu s)) as [old c]. intros H.
  apply bind_ok_iff in H as (tk & _ & H). apply bind_ok_iff in H as (s1 & H1 & H). injection H as <-.
  case_decide; [by injection H1 as <-|]. case_decide; [done|]. injection H1 as <-.
  exact (same_ident_upd (set_status TASK_READY) t s (λ _, eq_refl)).
Qed.

Lemma schedule_ident v2p k s s' : schedule v2p k s = Ok s' → same_ident s s'.
Proof.
  unfold schedule. intros H. apply bind_ok_iff in H as (tc & _ & H). cbv zeta in H.
  apply bind_ok_iff in H as (s2 & H2 & H).
  assert (Hs2 : same_ident s s2).
  { match type of H2 with match thread_ready_list ?x with _ => _ end = _ => set (s1 := x) in * end.
    assert (Hs1 : same_ident s s1).
    { subst s1. case_decide; [|done].
      exact (same_ident_upd (λ t, set_status TASK_READY (set_tricks (priority t) t)) (running s) s (λ _, eq_refl)). }
    destruct (thread_ready_list s1); [|by injection H2 as <-].
    etransitivity; [exact Hs1|]. by eapply unblock_ident. }
  etransitivity; [exact Hs2|]. destruct (thread_ready_list s2) as [|next rest]; [done|].
  apply bind_ok_iff in H as (tn & _ & H). injection H as <-.
  etransitivity; [exact (same_ident_upd (set_status TASK_RUNNING) next s2 (λ _, eq_refl))|].
  unfold process_activate, page_dir_activate, update_tss_esp, resume.
  match goal with |- context [konts ?x !! ?y] => destruct (konts x !! y) as [[| |]|] end;
    by destruct (pgdir tn =? 0).
Qed.

Lemma run_op_ident v2p o s s' : run_op v2p o s = Ok s' → same_ident s s'.
Proof.
  destruct o as [| |st|t]; cbn [run_op]; [| | |apply unblock_ident].
  - unfold intr_timer_handler. intros H. apply bind_ok_iff in H as (t & _ & H). destruct (tricks t =? 0).
    + apply schedule_ident in H. etransitivity; [|exact H].
      exact (same_ident_upd (λ t, set_elapsed (u32 (elapsed_tricks t + 1)) t) (running s) s (λ _, eq_refl)).
    + injection H as <-. cbn [running with_cpu].
      etransitivity; [exact (same_ident_upd (λ t, set_elapsed (u32 (elapsed_tricks t + 1)) t) (running s) s (λ _, eq_refl))|].
      exact (same_ident_upd (λ t, set_tricks (u8 (tricks t - 1)) t) (running s)
        (upd_task (λ t, set_elapsed (u32 (elapsed_tricks t + 1)) t) (running s) s) (λ _, eq_refl)).
  - unfold thread_yield. destruct (intr_disable _) as [old c]. intros H. apply bind_ok_iff in H as (t & _ & H).
    apply schedule_ident in H. etransitivity; [|exact H].
    exact (same_ident_upd (set_status TASK_READY) (running s) s (λ _, eq_refl)).
  - unfold thread_block. destruct (intr_disable _) as [old c]. intros H. apply bind_ok_iff in H as (t & _ & H).
    apply schedule_ident in H. etransitivity; [|exact H].
    exact (same_ident_upd (set_status st) (running s) s (λ _, eq_refl)).
Qed.

(** ** Scheduler events keep the table *)

Lemma proc_same s s' t v' : same_ident s s' → proc s' t v' → ∃ v, proc s t v ∧ ident v = ident v'.
Proof.
  intros (A1 & _ & A3) [Ht Hv]. specialize (A3 t). unfold ident_of in A3. rewrite Hv in A3.
  destruct (view_of s t) as [v|] eqn:E; [|done]. exists v. split; [split; [by rewrite <- A1|done]|].
  simpl in A3. congruence.
Qed.

Lemma same_ident_sym s s' : same_ident s s' → same_ident s' s.
Proof. intros (A1 & A2 & A3). split_and!; [done|done|]. intros t. by rewrite A3. Qed.

Lemma proc_status s t v : proc s t v → status_of s t = Some (v_status v).
Proof. intros [_ H]. by rewrite status_of_view, H. Qed.

Lemma no_child_same s s' p : same_ident s s' → no_child s p → no_child s' p.
Proof.
  intros Hs Hn c v Hc E. destruct (proc_same s s' c v Hs Hc) as (v0 & Hc0 & Hi). apply (Hn c v0 Hc0).
  unfold ident in Hi. congruence.
Qed.

Lemma ident_inv_same s s' p : same_ident s s' → ident_inv s p → ident_inv s' p.
Proof.
  intros Hs [I1 I2 I3 I4 I5 I6 I7]. pose proof (λ t v, proc_same s s' t v Hs) as Hp.
  pose proof (λ t v, proc_same s' s t v (same_ident_sym _ _ Hs)) as Hp'. split.
  - by rewrite (proj1 Hs).
  - destruct Hs as (_ & _ & H0). specialize (H0 0). unfold ident_of, view_of in H0. rewrite I2 in H0.
    by destruct (tasks s' !! 0).
  - done.
  - intros t v Hv. destruct (Hp t v Hv) as (v0 & Hv0 & [= <- _ _]). by apply (I4 t).
  - intros t t' v v' Hv Hv' E. destruct (Hp t v Hv) as (v0 & Hv0 & [= E1 _ _]).
    destruct (Hp t' v' Hv') as (v1 & Hv1 & [= E2 _ _]). apply (I5 t t' v0 v1 Hv0 Hv1). congruence.
  - destruct I6 as (t & v & Hv & E1 & E2 & E3). destruct (Hp' t v Hv) as (v0 & Hv0 & [= F1 F2 F3]).
    exists t, v0. split; [done|]. split_and!; congruence.
  - intros t v Hv. destruct (Hp t v Hv) as (v0 & Hv0 & [= E1 E2 E3]).
    destruct (I7 t v0 Hv0) as [?|(q & vq & Hq & F1 & F2)]; [left; congruence|right].
    destruct (Hp' q vq Hq) as (v1 & Hv1 & [= G1 G2 G3]). exists q, v1. split; [done|]. split; congruence.
Qed.

(** The statuses that the table is about. *)
Definition quiet (s s' : tstate) (t : Z) : Prop :=
  ∀ st, st ∈ [TASK_WAITING; TASK_HANGING; TASK_DIED] → status_of s' t = Some st ↔ status_of s t = Some st.

(** New statuses over the same identities. *)
Lemma core_dyn k k' :
  table_core k → same_ident (ts k) (ts k') → pids k' = pids k →
  idle_thread (ts k') = idle_thread (ts k) →
  (∀ t, status_of (ts k') t = Some TASK_DIED ↔ status_of (ts k) t = Some TASK_DIED) →
  (∀ t v, proc (ts k') t v → v_status v = TASK_HANGING →
     status_of (ts k) t = Some TASK_HANGING ∨ (v_parent v ≠ -1 ∧ no_child (ts k) (v_pid v))) →
  (∀ t v, proc (ts k') t v → v_status v = TASK_WAITING → v_pid v ≠ 1 →
     (status_of (ts k) t = Some TASK_WAITING ∧
      ∀ c vc, proc (ts k') c vc → v_parent vc = v_pid v → v_status vc = TASK_HANGING →
        status_of (ts k) c = Some TASK_HANGING) ∨
     (¬ no_child (ts k) (v_pid v) ∧ no_hanging_child (ts k') (v_pid v))) →
  table_core k'.
Proof.
  intros [T2 T3 T6 T4 T5] Hs Hpids Hid Hd Hh Hw. pose proof (same_ident_sym _ _ Hs) as Hs'.
  pose proof (λ t v, proc_same _ _ t v Hs) as Hp. split.
  - rewrite Hpids. by apply (ident_inv_same (ts k)).
  - intros t. rewrite (proj1 Hs), T3. specialize (Hd t). rewrite !status_of_view in Hd.
    destruct Hs as (_ & _ & Hi). specialize (Hi t). unfold ident_of in Hi.
    destruct (view_of (ts k) t) as [v|], (view_of (ts k') t) as [v'|]; simpl in *; try done.
    split; intros (x & [= <-] & Hx); eexists; (split; [done|]); intros E; apply Hx.
    + assert (Some (v_status v) = Some TASK_DIED) as [= ?] by (apply Hd; congruence). done.
    + assert (Some (v_status v') = Some TASK_DIED) as [= ?] by (apply Hd; congruence). done.
  - intros v Hv. rewrite Hid in Hv. destruct Hs as (_ & _ & Hi). specialize (Hi (idle_thread (ts k))).
    unfold ident_of in Hi. rewrite Hv in Hi. destruct (view_of (ts k) (idle_thread (ts k))) as [v0|]; [|done].
    injection Hi as E1 E2 E3. destruct (T6 v0 eq_refl). split; congruence.
  - intros t v Hv Est. destruct (Hp t v Hv) as (v0 & Hv0 & [= E1 E2 E3]).
    destruct (Hh t v Hv Est) as [Ho|[? Hn]].
    + destruct (T4 t v0 Hv0) as [P1 P2]; [rewrite (proc_status _ _ _ Hv0) in Ho; congruence|].
      split; [congruence|]. rewrite <- E1. by apply (no_child_same (ts k)).
    + split; [done|]. by apply (no_child_same (ts k)).
  - intros t v Hv Est Hne. destruct (Hp t v Hv) as (v0 & Hv0 & [= E1 E2 E3]).
    destruct (Hw t v Hv Est Hne) as [[Ho Hc]|[H1 H2]].
    + destruct (T5 t v0 Hv0) as [P1 P2]; [rewrite (proc_status _ _ _ Hv0) in Ho; congruence|congruence|].
      rewrite E1 in P1, P2. split; [intros Hn; apply P1; by apply (no_child_same (ts k'))|].
      intros c vc Hpc Epc Ech. destruct (Hp c vc Hpc) as (vc0 & Hvc0 & [= F1 F2 F3]).
      apply (P2 c vc0 Hvc0); [congruence|]. pose proof (Hc c vc Hpc Epc Ech) as Hx.
      rewrite (proc_status _ _ _ Hvc0) in Hx. congruence.
    + split; [intros Hn; apply H1; by apply (no_child_same (ts k'))|done].
Qed.

Lemma core_quiet k k' :
  table_core k → same_ident (ts k) (ts k') → pids k' = pids k →
  idle_thread (ts k') = idle_thread (ts k) →
  (∀ t, quiet (ts k) (ts k') t) → table_core k'.
Proof.
  intros T Hs Hpids Hid Hq. apply (core_dyn k k'); try done.
  - intros t. apply Hq. set_solver.
  - intros t v Hv E. left. apply Hq; [set_solver|]. by rewrite (proc_status _ _ _ Hv), E.
  - intros t v Hv E Hne. left. split; [apply Hq; [set_solver|]; by rewrite (proc_status _ _ _ Hv), E|].
    intros c vc Hc _ Ec. apply Hq; [set_solver|]. by rewrite (proc_status _ _ _ Hc), Ec.
Qed.

(** A scheduler event is quiet for every thread that neither blocks nor is woken by it. *)
Lemma frame_quiet blk unb s s' t :
  sched_inv s → sched_inv s' → sched_frame blk unb s s' → blk ≠ Some t → unb ≠ Some t → quiet s s' t.
Proof.
  intros Hinv Hinv' [F1 F2 F3] Hb Hu st Hst.
  assert (Hex : st ≠ TASK_RUNNING ∧ st ≠ TASK_READY ∧ st ≠ TASK_BLOCKED) by set_solver.
  destruct (decide (t = idle_thread s)) as [->|Hne].
  { pose proof (inv_idle _ Hinv) as H1. pose proof (inv_idle _ Hinv') as H2. rewrite F1 in H2.
    split; intros E; exfalso; [rewrite E in H2|rewrite E in H1]; set_solver. }
  destruct (decide (status_of s t = Some TASK_READY ∨ status_of s t = Some TASK_RUNNING)) as [Hr|Hr].
  - pose proof (F3 t Hr Hb) as Hr'. unfold runnable in Hr'. destruct Hex as (? & ? & ?).
    destruct Hr, Hr'; split; intros; congruence.
  - by rewrite (F2 t Hne Hr Hu).
Qed.

(** ** Kernel-level effects *)

Lemma run_sched_inv f k k' : run_sched f k = Ok k' → ∃ s, f (v2p k) (ts k) = Ok s ∧ k' = set_ts s k.
Proof.
  unfold run_sched. intros H. apply bind_ok_iff in H as (s & H1 & H). apply bind_ok_iff in H as (t & _ & H).
  apply bind_ok_iff in H as (x & _ & H). injection H as <-. by exists s.
Qed.

Lemma sched_event_run o k k' : sched_event o k = Ok k' → ∃ s, run_op (v2p k) o (ts k) = Ok s ∧ k' = set_ts s k.
Proof.
  destruct o; cbn [sched_event run_op]; intros H.
  1-3: apply run_sched_inv in H as (s & H1 & ->); by exists s.
  apply bind_ok_iff in H as (s & H1 & H). injection H as <-. by exists s.
Qed.

Lemma event_inv o k k' :
  table_inv k → event_allowed o (ts k) → sched_event o k = Ok k' → table_inv k'.
Proof.
  intros T Ha H. apply sched_event_run in H as (s & Hrun & ->). pose proof (ti_sched _ T) as Hinv.
  assert (Hal : op_allowed o (ts k)).
  { destruct o as [| |st|t]; simpl in *; [done..| |].
    - subst st. split; [by left|done].
    - exists TASK_BLOCKED. split; [done|by left]. }
  destruct (run_op_ok (v2p k) o (ts k) Hinv Hal) as (s0 & Hs0 & Hinv0).
  assert (s0 = s) as -> by congruence.
  pose proof (op_frame (v2p k) o (ts k) s Hinv Hal Hrun) as Hf.
  split; [done|]. apply (core_quiet k (set_ts s k)); [apply T|by eapply run_op_ident|done|apply Hf|]. intros t. simpl.
  pose proof (proj2 (inv_running _ Hinv _) eq_refl) as Hcur.
  assert (Hst : ∀ st, st ∈ [TASK_WAITING; TASK_HANGING; TASK_DIED] → st ≠ TASK_RUNNING ∧ st ≠ TASK_READY ∧ st ≠ TASK_BLOCKED)
    by set_solver.
  destruct o as [| |st|u]; simpl in Ha; try by apply (frame_quiet _ _ _ _ _ Hinv Hinv0 Hf).
  - destruct (decide (t = running (ts k))) as [->|Hne]; [|by apply (frame_quiet _ _ _ _ _ Hinv Hinv0 Hf); congruence].
    subst st. cbn [run_op] in Hrun. destruct (thread_block_ok (v2p k) TASK_BLOCKED (ts k) Hinv) as (s2 & Hs2 & _ & _ & _ & Heff);
      [by left|done|]. assert (s2 = s) as -> by congruence.
    assert (Eb : status_of (upd_task (set_status TASK_BLOCKED) (running (ts k)) (ts k)) (running (ts k)) = Some TASK_BLOCKED)
      by (by rewrite status_of_set, decide_True, Hcur).
    intros st Hin. apply Hst in Hin as (? & ? & ?). rewrite Heff, Eb, Hcur.
    case_decide; [|case_decide]; split; intros; congruence.
  - destruct (decide (t = u)) as [->|Hne]; [|by apply (frame_quiet _ _ _ _ _ Hinv Hinv0 Hf); congruence].
    destruct (unblock_inv u TASK_BLOCKED (ts k) Hinv Ha) as (s2 & Hs2 & _ & _ & _ & _ & Heff); [by left|].
    cbn [run_op] in Hrun. assert (s2 = s) as -> by congruence.
    intros st Hin. apply Hst in Hin as (? & ? & ?). rewrite Heff, decide_True by done. rewrite Ha. split; intros; congruence.
Qed.

(** The parts that change no thread. *)
Record same_view (s s' : tstate) : Prop := {
  sv_all : thread_all_list s' = thread_all_list s;
  sv_main : main_thread s' = main_thread s;
  sv_ready : thread_ready_list s' = thread_ready_list s;
  sv_running : running s' = running s;
  sv_idle : idle_thread s' = idle_thread s;
  sv_view : ∀ t, view_of s' t = view_of s t;
}.

#[global] Instance same_view_preorder : PreOrder same_view.
Proof.
  split; [by split|]. intros s1 s2 s3 [A1 A2 A3 A4 A5 A6] [B1 B2 B3 B4 B5 B6]. split; congruence.
Qed.

Lemma same_view_upd f t s : (∀ x, view (f x) = view x) → same_view s (upd_task f t s).
Proof.
  intros Hf. split; try done. intros t'. rewrite view_of_upd. case_decide; [|done]. unfold view_of.
  destruct (tasks s !! t'); [|done]. simpl. by rewrite Hf.
Qed.

Lemma same_view_ident s s' : same_view s s' → same_ident s s'.
Proof. intros [A1 A2 _ _ _ A6]. split_and!; [done|done|]. intros t. unfold ident_of. by rewrite A6. Qed.

Lemma put_mem_view m k : same_view (ts k) (ts (put_mem m k)).
Proof. by destruct (same_view_upd (set_uvaddr (cur_vaddr m)) (cur k) (ts k) (λ _, eq_refl)) as [? ? ? ? ? ?]. Qed.

Lemma on_mem_view {A} (f : mstate → outcome (A * mstate)) k a k' :
  on_mem f k = Ok (a, k') → same_view (ts k) (ts k') ∧ pids k' = pids k.
Proof.
  unfold on_mem. intros H. apply bind_ok_iff in H as ([b m] & _ & H). injection H as <- <-.
  split; [apply put_mem_view|done].
Qed.

Lemma on_mem__view f k k' : on_mem_ f k = Ok k' → same_view (ts k) (ts k') ∧ pids k' = pids k.
Proof.
  unfold on_mem_. intros H. apply bind_ok_iff in H as (m & _ & H). injection H as <-. split; [apply put_mem_view|done].
Qed.

Lemma lock_free_acquire c : c ≠ 0 → lock_acquire c lock_init = Ok (Lock c (Semaphore 0 []) 1).
Proof. intros Hc. unfold lock_acquire. simpl. by rewrite (proj2 (Z.eqb_neq 0 c)) by done. Qed.

Lemma allocate_pid_inv c p r w p' :
  c ≠ 0 → pid_wf p → allocate_pid c p = Ok (r, w, p') →
  w = None ∧ pid_wf p' ∧ 1 ≤ r ≤ 1024 ∧ bit_set (pid_bitmap p) (r - 1) = false ∧
  ∀ j, 0 ≤ j → bit_set (pid_bitmap p') j = bool_decide (j = r - 1) || bit_set (pid_bitmap p) j.
Proof.
  intros Hc [P1 P2 P3 P4 P5] H. unfold allocate_pid in H. rewrite P5, lock_free_acquire in H by done.
  cbn [mbind outcome_bind] in H. apply bind_ok_iff in H as (i & Hi & H). apply bind_ok_iff in H as (b & Hb & H).
  cbn in H. injection H as <- <- <-.
  destruct (bitmap_scan_any (pid_bitmap p) 1 P1) as (r0 & Hr0 & Hfit); [lia|lia|]. assert (r0 = i) as -> by congruence.
  change (1 =? 1) with true in Hfit. cbn iota in Hfit. unfold nbits in Hfit. rewrite P2 in Hfit.
  destruct Hfit as [[-> Hno]|(H0 & H1 & Hrun & Hno)].
  { exfalso. unfold bitmap_set in Hb. change (u32 (-1)) with 4294967295 in Hb.
    apply bind_ok_iff in Hb as (y & Hy & _). apply aget_range in Hy. pose proof (wf_small _ P1). zdm. }
  destruct (bitmap_set_ok (pid_bitmap p) i 1 P1) as (b' & Hb' & Hwf & Hl & Hz & Hbits); [lia|].
  assert (b' = b) as -> by congruence. rewrite P4. unfold i16.
  replace ((i + 1 + 32768) mod 65536 - 32768) with (i + 1) by zdm. replace (i + 1 - 1) with i by lia.
  split; [done|]. split; [split; simpl; try done; lia|]. split; [lia|]. split; [by apply clear_run_one|].
  intros j Hj. simpl. rewrite Hbits by done. case_decide; [by rewrite bool_decide_true|by rewrite bool_decide_false].
Qed.

Lemma release_pid_inv c p r w p' :
  c ≠ 0 → pid_wf p → 1 ≤ r ≤ 1024 → release_pid c r p = Ok (w, p') →
  w = None ∧ pid_wf p' ∧
  ∀ j, 0 ≤ j → bit_set (pid_bitmap p') j = negb (bool_decide (j = r - 1)) && bit_set (pid_bitmap p) j.
Proof.
  intros Hc [P1 P2 P3 P4 P5] Hr H. unfold release_pid in H. rewrite P5, lock_free_acquire in H by done.
  cbn [mbind outcome_bind] in H. apply bind_ok_iff in H as (b & Hb & H). cbn in H. injection H as <- <-.
  rewrite P4, i32_u32, i32_small in Hb by lia.
  destruct (bitmap_set_ok (pid_bitmap p) (r - 1) 0 P1) as (b' & Hb' & Hwf & Hl & Hz & Hbits); [lia|].
  assert (b' = b) as -> by congruence. split; [done|]. split; [split; simpl; try done; lia|].
  intros j Hj. simpl. rewrite Hbits by done. case_decide; [by rewrite bool_decide_true|by rewrite bool_decide_false].
Qed.

Lemma new_pid_inv k p k' :
  cur k ≠ 0 → pid_wf (pids k) → new_pid k = Ok (p, k') →
  ts k' = ts k ∧ pid_wf (pids k') ∧ 1 ≤ p ≤ 1024 ∧ bit_set (pid_bitmap (pids k)) (p - 1) = false ∧
  ∀ j, 0 ≤ j → bit_set (pid_bitmap (pids k')) j = bool_decide (j = p - 1) || bit_set (pid_bitmap (pids k)) j.
Proof.
  intros Hc Hp H. unfold new_pid in H. apply bind_ok_iff in H as ([[r w] pp] & H1 & H).
  apply bind_ok_iff in H as (k1 & H2 & H). injection H as <- <-.
  destruct (allocate_pid_inv _ _ _ _ _ Hc Hp H1) as (-> & ? & ? & ? & ?). injection H2 as <-.
  split; [done|]. split; [done|]. by split.
Qed.

Lemma drop_pid_inv k p k' :
  cur k ≠ 0 → pid_wf (pids k) → 1 ≤ p ≤ 1024 → drop_pid p k = Ok k' →
  ts k' = ts k ∧ pid_wf (pids k') ∧
  ∀ j, 0 ≤ j → bit_set (pid_bitmap (pids k')) j = negb (bool_decide (j = p - 1)) && bit_set (pid_bitmap (pids k)) j.
Proof.
  intros Hc Hp Hr H. unfold drop_pid in H. apply bind_ok_iff in H as ([w pp] & H1 & H).
  destruct (release_pid_inv _ _ _ _ _ Hc Hp Hr H1) as (-> & ? & ?). injection H as <-. by split_and!.
Qed.

Lemma first_thread_some f s t :
  first_thread f s = Some t → t ∈ thread_all_list s ∧ ∃ tk, tasks s !! t = Some tk ∧ f tk = true.
Proof.
  intros H. apply List.find_some in H as [H1 H2]. split; [by apply list_elem_of_In|].
  destruct (tasks s !! t) as [tk|]; [by exists tk|done].
Qed.

Lemma first_thread_none f s t tk :
  first_thread f s = None → t ∈ thread_all_list s → tasks s !! t = Some tk → f tk = false.
Proof.
  intros H Ht Htk. apply list_elem_of_In in Ht. pose proof (List.find_none _ _ H _ Ht) as Hf. simpl in Hf.
  by rewrite Htk in Hf.
Qed.

(** ** The end of a thread *)

Definition dead (v : pview) : pview := PView (v_pid v) (v_parent v) (v_pgdir v) TASK_DIED.

Record removed (c : Z) (s s' : tstate) : Prop := {
  rm_all : thread_all_list s' = without c (thread_all_list s);
  rm_ready : thread_ready_list s' = without c (thread_ready_list s);
  rm_main : main_thread s' = main_thread s;
  rm_running : running s' = running s;
  rm_idle : idle_thread s' = idle_thread s;
  rm_view : ∀ t, view_of s' t = if decide (t = c) then dead <$> view_of s t else view_of s t;
}.

Lemma without_notin t l : t ∉ l → without t l = l.
Proof.
  unfold without. induction l as [|x l IH]; intros H; [done|]. rewrite filter_cons_True by set_solver.
  rewrite IH; set_solver.
Qed.

Lemma elem_without x t l : x ∈ without t l ↔ x ∈ l ∧ x ≠ t.
Proof. unfold without. rewrite list_elem_of_filter. naive_solver. Qed.

Lemma removed_view c s s1 s2 : removed c s s1 → same_view s1 s2 → removed c s s2.
Proof.
  intros [A1 A2 A3 A4 A5 A6] [B1 B2 B3 B4 B5 B6]. split; try congruence. intros t. by rewrite B6.
Qed.

Lemma thread_remove_inv c tk k k' :
  cur k ≠ 0 → pid_wf (pids k) → tasks (ts k) !! c = Some tk → 1 ≤ pid tk ≤ 1024 →
  thread_remove c k = Ok k' →
  removed c (ts k) (ts k') ∧ pid_wf (pids k') ∧
  ∀ j, 0 ≤ j → bit_set (pid_bitmap (pids k')) j = negb (bool_decide (j = pid tk - 1)) && bit_set (pid_bitmap (pids k)) j.
Proof.
  intros Hc Hp Htk Hr H. unfold thread_remove in H. cbv zeta in H.
  apply bind_ok_iff in H as (t & Ht & H). unfold get_task in Ht. simpl in Ht. rewrite Htk in Ht. injection Ht as <-.
  apply bind_ok_iff in H as (k1 & H1 & H). apply bind_ok_iff in H as (k2 & H2 & H).
  apply bind_ok_iff in H as (k3 & H3 & H).
  match type of H1 with (if _ then Ok ?x else _) = _ => set (k0 := x) in * end.
  assert (E0 : pids k0 = pids k ∧ cur k0 = cur k) by (subst k0; by destruct (bool_decide _)).
  assert (V1 : same_view (ts k0) (ts k1) ∧ pids k1 = pids k0).
  { destruct (pgdir tk =? 0); [by injection H1 as <-|]. by apply on_mem__view in H1. }
  assert (Hall : c ∈ thread_all_list (ts k1) ∧ k2 = set_ts (with_all (without c (thread_all_list (ts k1))) (ts k1)) k1).
  { destruct (bool_decide (c ∈ _)) eqn:E in H2; [|done]. injection H2 as <-. by apply bool_decide_eq_true in E. }
  destruct Hall as [_ ->].
  assert (V3 : same_view (with_all (without c (thread_all_list (ts k1))) (ts k1)) (ts k3) ∧ pids k3 = pids k1).
  { destruct (c =? _); [by injection H3 as <-|]. by apply on_mem__view in H3. }
  destruct V1 as [V1 P1], V3 as [V3 P3], E0 as [P0 C0].
  destruct (drop_pid_inv k3 (pid tk) k') as (E4 & W4 & B4); [|rewrite P3, P1, P0; done|done|done|].
  { unfold cur. rewrite (sv_running _ _ V3). simpl. rewrite (sv_running _ _ V1). by fold (cur k0); rewrite C0. }
  rewrite P3, P1, P0 in B4. split; [|by split]. rewrite E4. apply (removed_view _ _ (with_all (without c (thread_all_list (ts k1))) (ts k1))); [|done].
  destruct V1 as [A1 A2 A3 A4 A5 A6].
  assert (R0 : thread_ready_list (ts k0) = without c (thread_ready_list (ts k))).
  { subst k0. simpl. destruct (bool_decide _) eqn:E; [done|]. apply bool_decide_eq_false in E. by rewrite without_notin. }
  assert (V0 : ∀ t, view_of (ts k0) t = if decide (t = c) then dead <$> view_of (ts k) t else view_of (ts k) t).
  { intros t. transitivity (view_of (upd_task (set_status TASK_DIED) c (ts k)) t); [subst k0; by destruct (bool_decide _)|].
    rewrite view_of_upd. destruct (decide (t = c)) as [->|]; [|by rewrite decide_False].
    rewrite decide_True by done. unfold view_of. by destruct (tasks (ts k) !! c). }
  assert (F0 : thread_all_list (ts k0) = thread_all_list (ts k) ∧ main_thread (ts k0) = main_thread (ts k) ∧
    running (ts k0) = running (ts k) ∧ idle_thread (ts k0) = idle_thread (ts k)) by (subst k0; by destruct (bool_decide _)).
  destruct F0 as (G1 & G2 & G3 & G4). clearbody k0.
  split; simpl; try congruence. intros t. change (view_of (with_all _ (ts k1)) t) with (view_of (ts k1) t). by rewrite A6.
Qed.

Lemma removed_proc c s s' t v : removed c s s' → proc s' t v ↔ proc s t v ∧ t ≠ c.
Proof.
  intros [A1 _ _ _ _ A6]. unfold proc. rewrite A1, elem_without, A6.
  split; [intros [[? Hne] Hv]; rewrite decide_False in Hv by done; done|].
  intros [[? ?] ?]. by rewrite decide_False.
Qed.

Lemma removed_ident c vc s s' p p' :
  ident_inv s p → removed c s s' → proc s c vc → no_child s (v_pid vc) →
  v_parent vc ≠ -1 ∨ v_pgdir vc = 0 → pid_wf p' →
  (∀ j, 0 ≤ j → bit_set (pid_bitmap p') j = negb (bool_decide (j = v_pid vc - 1)) && bit_set (pid_bitmap p) j) →
  ident_inv s' p'.
Proof.
  intros [I1 I2 I3 I4 I5 I6 I7] Hrm Hc Hno Hinit Hp' Hb. pose proof (λ t v, removed_proc c s s' t v Hrm) as Hpr. split.
  - rewrite (rm_all _ _ _ Hrm). by apply NoDup_filter.
  - pose proof (rm_view _ _ _ Hrm 0) as H0. unfold view_of in H0. rewrite I2 in H0.
    destruct (tasks s' !! 0); [|done]. simpl in H0. by destruct (decide (0 = c)).
  - done.
  - intros t v [Hv Hne]%Hpr. destruct (I4 t v Hv) as [Hr Hbit]. split; [done|]. rewrite Hb, Hbit by lia.
    rewrite bool_decide_false; [done|]. intros E. apply Hne, (I5 t c v vc Hv Hc). lia.
  - intros t t' v v' [Hv _]%Hpr [Hv' _]%Hpr. by apply I5.
  - destruct I6 as (t & v & Hv & E1 & E2 & E3). exists t, v. split; [|done]. apply Hpr. split; [done|].
    intros ->. destruct Hv as [_ Hv], Hc as [_ Hc]. destruct Hinit; congruence.
  - intros t v [Hv Hne]%Hpr. destruct (I7 t v Hv) as [?|(q & vq & Hq & E1 & E2)]; [by left|right].
    exists q, vq. split; [|done]. apply Hpr. split; [done|]. intros ->. apply (Hno t v Hv).
    destruct Hq as [_ Hq], Hc as [_ Hc]. congruence.
Qed.

Lemma table_cur k : table_inv k → cur k ≠ 0.
Proof.
  intros T E. destruct (sched_inv_task _ (ti_sched _ T)) as [tc Htc]. fold (cur k) in Htc.
  rewrite E, (ii_null _ _ (ti_ident _ T)) in Htc. done.
Qed.

Lemma proc_task s t v : proc s t v → ∃ tk, tasks s !! t = Some tk ∧ view tk = v.
Proof. intros [_ H]. unfold view_of in H. apply fmap_Some in H as (tk & ? & ->). by exists tk. Qed.

Lemma removed_status c s s' t :
  removed c s s' → status_of s' t = if decide (t = c) then (λ _, TASK_DIED) <$> status_of s t else status_of s t.
Proof.
  intros Hrm. rewrite !status_of_view, (rm_view _ _ _ Hrm). case_decide; [|done]. by destruct (view_of s t).
Qed.

(** A thread without children leaves the table. *)
Lemma reap_core c vc k k' :
  table_core k → removed c (ts k) (ts k') → proc (ts k) c vc → no_child (ts k) (v_pid vc) →
  v_parent vc ≠ -1 ∨ v_pgdir vc = 0 → pid_wf (pids k') →
  (∀ j, 0 ≤ j → bit_set (pid_bitmap (pids k')) j =
     negb (bool_decide (j = v_pid vc - 1)) && bit_set (pid_bitmap (pids k)) j) →
  (∀ t v, proc (ts k) t v → v_status v = TASK_WAITING → v_pid v ≠ v_parent vc) →
  table_core k'.
Proof.
  intros T Hrm Hc Hno Hinit Hp' Hb Hwp. pose proof (λ t v, removed_proc _ _ _ t v Hrm) as Hpr. split.
  - by apply (removed_ident c vc (ts k) _ (pids k) _ (tc_ident _ T)).
  - intros t. rewrite (rm_all _ _ _ Hrm), elem_without, (tc_all _ T), (rm_view _ _ _ Hrm).
    case_decide as E; [|naive_solver]. split; [naive_solver|]. intros (v & Hv & Hd). exfalso. apply Hd.
    destruct (view_of (ts k) t); [by injection Hv as <-|done].
  - intros v Hv. rewrite (rm_idle _ _ _ Hrm), (rm_view _ _ _ Hrm) in Hv. case_decide; [|by apply (tc_idle _ T)].
    destruct (view_of (ts k) (idle_thread (ts k))) as [v0|] eqn:E0; [|done]. injection Hv as <-.
    exact (tc_idle _ T v0 E0).
  - intros t v [Hv Hne]%Hpr E. destruct (tc_hang _ T t v Hv E) as [? Hn]. split; [done|].
    intros d vd [Hd _]%Hpr. by apply (Hn d).
  - intros t v [Hv Hne]%Hpr E H1. destruct (tc_wait _ T t v Hv E H1) as [W1 W2]. split.
    + intros Hn. apply W1. intros d vd Hd Ed. destruct (decide (d = c)) as [->|Hdc].
      * destruct Hd as [_ Hd], Hc as [_ Hc]. apply (Hwp t v Hv E). congruence.
      * by apply (Hn d vd); [apply Hpr|].
    + intros d vd [Hd _]%Hpr. by apply (W2 d).
Qed.

Lemma reap_inv c vc k k' :
  table_inv k → proc (ts k) c vc → v_status vc = TASK_HANGING →
  (∃ v, proc (ts k) (cur k) v ∧ v_pid v = v_parent vc) →
  thread_remove c k = Ok k' → table_inv k'.
Proof.
  intros T Hc Hst (vr & Hr & Er) H. destruct (proc_task _ _ _ Hc) as (tk & Htk & Ev).
  destruct (ti_hang _ T c vc Hc Hst) as [Hpar Hno].
  assert (Epid : pid tk = v_pid vc) by (by rewrite <- Ev).
  destruct (thread_remove_inv c tk k k') as (Hrm & Hp' & Hb); [by apply table_cur|apply ti_ident, T|done| |done|].
  { rewrite Epid. by apply (ii_pid _ _ (ti_ident _ T) c). }
  rewrite Epid in Hb. pose proof (ti_sched _ T) as [S1 S2 S3 S4].
  assert (Hcs : status_of (ts k) c = Some TASK_HANGING) by (by rewrite (proc_status _ _ _ Hc), Hst).
  assert (Hcr : c ∉ thread_ready_list (ts k)) by (rewrite <- S2; congruence).
  pose proof (λ t, removed_status c _ _ t Hrm) as Hs. split.
  - split; rewrite ?(rm_running _ _ _ Hrm), ?(rm_ready _ _ _ Hrm), ?(rm_idle _ _ _ Hrm), ?without_notin by done; try done.
    + intros t. rewrite Hs, <- S1. case_decide; [subst; rewrite Hcs; simpl; split; congruence|done].
    + intros t. rewrite Hs, <- S2. case_decide; [subst; rewrite Hcs; simpl; split; congruence|done].
    + rewrite Hs. case_decide as E; [|done]. exfalso. rewrite E, Hcs in S4. set_solver.
  - apply (reap_core c vc k k' (ti_core _ T)); try done; [by left|]. intros t v Hv E Epc.
    pose proof (proj2 (S1 _) eq_refl) as Hrun. fold (cur k) in Hrun.
    assert (t = cur k) as -> by (apply (ii_inj _ _ (ti_ident _ T) t (cur k) v vr Hv Hr); congruence).
    rewrite (proc_status _ _ _ Hv) in Hrun. congruence.
Qed.

(** ** wait *)

Lemma block_effect st k s :
  table_inv k → st = TASK_WAITING ∨ st = TASK_HANGING → cur k ≠ idle_thread (ts k) →
  thread_block (v2p k) st (ts k) = Ok s →
  sched_inv s ∧ same_ident (ts k) s ∧ idle_thread s = idle_thread (ts k) ∧
  status_of s (cur k) = Some st ∧ (∀ t, t ≠ cur k → quiet (ts k) s t) ∧ sched_frame (Some (cur k)) None (ts k) s.
Proof.
  intros T Hst Hidle H. pose proof (ti_sched _ T) as Hinv. pose proof (proj2 (inv_running _ Hinv _) eq_refl) as Hcur.
  assert (Hb : blocked_status st) by (destruct Hst as [-> | ->]; [right; by left|right; by right]).
  destruct (thread_block_ok (v2p k) st (ts k) Hinv Hb) as (s2 & Hs2 & Hinv2 & Hq & Heff); [done|].
  assert (s2 = s) as -> by congruence. split; [done|]. split; [by apply (run_op_ident (v2p k) (OpBlock st))|].
  assert (Hf := op_frame (v2p k) (OpBlock st) (ts k) s Hinv (conj Hb (λ E, False_ind _ (Hidle E))) H). cbn iota in Hf.
  split; [apply Hf|]. split.
  - rewrite (proj2 Heff). unfold cur in *.
    assert (Eb : status_of (upd_task (set_status st) (running (ts k)) (ts k)) (running (ts k)) = Some st)
      by (by rewrite status_of_set, decide_True, Hcur).
    rewrite Eb. destruct (decide (running s = running (ts k))) as [E|_].
    + exfalso. assert (Hnin : running (ts k) ∉ thread_ready_list (ts k)) by (rewrite <- (inv_ready _ Hinv); congruence).
      destruct (thread_ready_list (ts k)) as [|x q]; injection Hq as Hq _; [congruence|]. apply Hnin.
      rewrite <- E, Hq. set_solver.
    + rewrite decide_False; [done|]. intros [_ E]. destruct Hst; congruence.
  - split; [|exact Hf]. intros t Hne. apply (frame_quiet _ _ _ _ _ Hinv Hinv2 Hf); [|done]. unfold cur in Hne. congruence.
Qed.

(** Who runs after the running thread went to sleep: the first of the ready queue [q], or idle. *)
Definition next_thread (idle : Z) (q : list Z) : Z := match q with [] => idle | x :: _ => x end.

(** Exactly what a sleep changes. *)
Lemma block_statuses st k s :
  sched_inv (ts k) → st = TASK_WAITING ∨ st = TASK_HANGING → cur k ≠ idle_thread (ts k) →
  thread_block (v2p k) st (ts k) = Ok s →
  running s = next_thread (idle_thread (ts k)) (thread_ready_list (ts k)) ∧
  thread_ready_list s = tail (thread_ready_list (ts k)) ∧
  ∀ t, status_of s t = if decide (t = running s) then Some TASK_RUNNING
                       else if decide (t = cur k) then Some st else status_of (ts k) t.
Proof.
  intros Hinv Hst Hidle H. pose proof (proj2 (inv_running _ Hinv _) eq_refl) as Hcur.
  assert (Hb : blocked_status st) by (destruct Hst as [-> | ->]; [right; by left|right; by right]).
  destruct (thread_block_ok (v2p k) st (ts k) Hinv Hb) as (s2 & Hs2 & _ & Hq & Heff); [done|].
  assert (s2 = s) as -> by congruence.
  assert (Hn : running s = next_thread (idle_thread (ts k)) (thread_ready_list (ts k)) ∧
    thread_ready_list s = tail (thread_ready_list (ts k)))
    by (destruct (thread_ready_list (ts k)); injection Hq as -> ->; done).
  destruct Hn as [Hn Hr]. split; [done|]. split; [done|]. intros t. rewrite (proj2 Heff). unfold cur in *.
  destruct (decide (t = running s)) as [->|Hne]; [by rewrite decide_True|].
  rewrite decide_False by congruence.
  change (running (upd_task (set_status st) (running (ts k)) (ts k))) with (running (ts k)).
  rewrite status_of_set. destruct (decide (t = running (ts k))) as [->|Hne2].
  - rewrite (decide_True (P := running (ts k) = running (ts k))), Hcur by done. simpl.
    rewrite decide_False; [done|]. intros [_ [= E]]. destruct Hst; congruence.
  - rewrite (decide_False (P := running (ts k) = t)) by congruence.
    rewrite decide_False; [done|]. intros [E _]. congruence.
Qed.

Lemma cur_proc k : table_inv k → ∃ tk, tasks (ts k) !! cur k = Some tk ∧ proc (ts k) (cur k) (view tk) ∧ status tk = TASK_RUNNING.
Proof.
  intros T. destruct (sched_inv_task _ (ti_sched _ T)) as [tk Htk]. exists tk. split; [done|].
  pose proof (proj2 (inv_running _ (ti_sched _ T) _) eq_refl) as Hrun. unfold status_of in Hrun. rewrite Htk in Hrun.
  injection Hrun as Hrun. split; [|done]. assert (Hv : view_of (ts k) (cur k) = Some (view tk)) by (unfold view_of, cur; by rewrite Htk).
  split; [|done]. apply (ti_all _ T). exists (view tk). split; [done|]. simpl. congruence.
Qed.

(** A thread with a child is a process, so not idle. *)
Lemma parent_not_idle k tk c :
  table_inv k → tasks (ts k) !! cur k = Some tk → proc (ts k) (cur k) (view tk) →
  first_thread (find_child (pid tk)) (ts k) = Some c → cur k ≠ idle_thread (ts k).
Proof.
  intros T Htk Hproc E2. apply first_thread_some in E2 as (Hall & tc & Htc & Hf). unfold find_child in Hf. zbool.
  assert (Hcp : proc (ts k) c (view tc)) by (split; [done|]; unfold view_of; by rewrite Htc).
  assert (Hdir : pgdir tk ≠ 0).
  { destruct (ii_parent _ _ (ti_ident _ T) c _ Hcp) as [E|(q & vq & Hq & F1 & F2)]; simpl in *.
    - exfalso. pose proof (ii_pid _ _ (ti_ident _ T) _ _ Hproc) as [? _]. simpl in *. lia.
    - assert (q = cur k) as -> by (apply (ii_inj _ _ (ti_ident _ T) _ _ _ _ Hq Hproc); simpl; congruence).
      destruct Hq as [_ Hq], Hproc as [_ Hproc]. rewrite Hproc in Hq. injection Hq as <-. done. }
  intros E. destruct Hproc as [_ Hv]. rewrite E in Hv. destruct (ti_idle _ T _ Hv). simpl in *. done.
Qed.

Lemma wait_inv k r k' : table_inv k → sys_wait k = Ok (r, k') → table_inv k'.
Proof.
  intros T H. destruct (cur_proc k T) as (tk & Htk & Hproc & Hrun). unfold sys_wait in H.
  apply bind_ok_iff in H as (t & Ht & H). unfold get_task in Ht. rewrite Htk in Ht. injection Ht as <-.
  destruct (first_thread (find_hanging_child (pid tk)) (ts k)) as [c|] eqn:E1.
  - apply bind_ok_iff in H as (tc & Htc & H). apply of_opt_ok in Htc.
    apply first_thread_some in E1 as (Hall & tc' & Htc' & Hf). assert (tc' = tc) as -> by congruence.
    apply bind_ok_iff in H as (k1 & H1 & H). injection H as _ <-.
    unfold thread_exit in H1. apply bind_ok_iff in H1 as (k2 & H2 & H1). injection H1 as <-.
    unfold find_hanging_child in Hf. zbool.
    match goal with H : bool_decide _ = true |- _ => apply bool_decide_eq_true in H; rename H into Hst end.
    apply (reap_inv c (view tc) k k2 T); [|done| |done].
    + split; [done|]. unfold view_of. by rewrite Htc.
    + exists (view tk). split; [done|]. simpl. congruence.
  - destruct (first_thread (find_child (pid tk)) (ts k)) as [c|] eqn:E2; [|by injection H as _ <-].
    apply bind_ok_iff in H as (k1 & H1 & H). injection H as _ <-. apply run_sched_inv in H1 as (s & Hs & ->).
    assert (Hidle : cur k ≠ idle_thread (ts k)) by (by apply (parent_not_idle k tk c)).
    apply first_thread_some in E2 as (Hall & tc & Htc & Hf). unfold find_child in Hf. zbool.
    assert (Hcp : proc (ts k) c (view tc)) by (split; [done|]; unfold view_of; by rewrite Htc).
    destruct (block_effect TASK_WAITING k s T) as (B1 & B2 & B3 & B4 & B5 & _); [by left|done|done|].
    split; [done|]. apply (core_dyn k (set_ts s k) (ti_core _ T) B2 eq_refl B3).
    + intros t. destruct (decide (t = cur k)) as [->|Hne]; [|apply (B5 t Hne); set_solver]. simpl. rewrite B4.
      rewrite (proc_status _ _ _ Hproc). simpl. rewrite Hrun. split; congruence.
    + intros t v Hv E. left. destruct (decide (t = cur k)) as [->|Hne].
      { apply proc_status in Hv. simpl in Hv. rewrite B4 in Hv. congruence. }
      apply (B5 t Hne); [set_solver|]. apply proc_status in Hv. simpl in Hv. congruence.
    + intros t v Hv E Hne1. destruct (decide (t = cur k)) as [->|Hne].
      * right. destruct (proc_same _ _ _ _ B2 Hv) as (v0 & Hv0 & Hi).
        destruct Hv0 as [_ Hv0], Hproc as [_ Hp]. rewrite Hp in Hv0. injection Hv0 as <-. injection Hi as F1 F2 F3.
        split; [intros Hn; apply (Hn c (view tc) Hcp); simpl; congruence|].
        intros d vd Hd Ed Eh. destruct (proc_same _ _ _ _ B2 Hd) as (vd0 & Hd0 & [= G1 G2 G3]).
        destruct (proc_task _ _ _ Hd0) as (td & Htd & <-). simpl in *.
        assert (Hdc : d ≠ cur k).
        { intros ->. apply proc_status in Hd. rewrite B4 in Hd. congruence. }
        pose proof (first_thread_none _ _ d td E1 (proj1 Hd0) Htd) as Hf1. unfold find_hanging_child in Hf1.
        rewrite (proj2 (Z.eqb_eq _ _)), bool_decide_true in Hf1; [done| |congruence].
        pose proof (B5 d Hdc TASK_HANGING ltac:(set_solver)) as [Hq _]. unfold status_of in Hq at 2. rewrite Htd in Hq.
        simpl in Hq. apply proc_status in Hd. rewrite Eh in Hd. specialize (Hq Hd). congruence.
      * left. split; [apply (B5 t Hne); [set_solver|]; apply proc_status in Hv; simpl in Hv; congruence|].
        intros d vd Hd _ Eh. destruct (decide (d = cur k)) as [->|Hdc].
        { apply proc_status in Hd. simpl in Hd. rewrite B4 in Hd. congruence. }
        apply (B5 d Hdc); [set_solver|]. apply proc_status in Hd. simpl in Hd. congruence.
Qed.

(** ** exit *)

Lemma table_view k k' : table_inv k → same_view (ts k) (ts k') → pids k' = pids k → table_inv k'.
Proof.
  intros T Hv Hp. pose proof Hv as [V1 V2 V3 V4 V5 V6].
  assert (Hs : ∀ t, status_of (ts k') t = status_of (ts k) t) by (intros t; by rewrite !status_of_view, V6).
  split; [by apply (sched_inv_ext (ts k)); [..|apply T]|]. apply (core_quiet k k' (ti_core _ T)); try done.
  - by apply same_view_ident.
  - intros t st _. by rewrite Hs.
Qed.

Definition adopted (p : Z) (v : pview) : pview :=
  if v_parent v =? p then PView (v_pid v) 1 (v_pgdir v) (v_status v) else v.

Lemma adopt_fold p l s (s' := foldl (λ s t, upd_task (init_adopt_a_child p) t s) s l) :
  (∀ t, view_of s' t = if decide (t ∈ l) then adopted p <$> view_of s t else view_of s t) ∧
  thread_all_list s' = thread_all_list s ∧ main_thread s' = main_thread s ∧
  thread_ready_list s' = thread_ready_list s ∧ running s' = running s ∧ idle_thread s' = idle_thread s.
Proof.
  subst s'. revert s. induction l as [|x l IH]; intros s; [split_and!; try done; intros t; by rewrite decide_False by set_solver|].
  simpl. destruct (IH (upd_task (init_adopt_a_child p) x s)) as (V & A1 & A2 & A3 & A4 & A5). split_and!; try done.
  intros t. rewrite V, view_of_upd.
  assert (Hi : ∀ tk, view (init_adopt_a_child p tk) = adopted p (view tk)).
  { intros tk. unfold init_adopt_a_child, adopted. simpl. by destruct (parent_pid tk =? p). }
  assert (Hii : ∀ v, adopted p (adopted p v) = adopted p v).
  { intros v. unfold adopted. destruct (v_parent v =? p) eqn:E; simpl; [by destruct (1 =? p)|by rewrite E]. }
  destruct (decide (x = t)) as [->|Hne].
  - rewrite (decide_True (P := t ∈ t :: l)) by set_solver. unfold view_of.
    destruct (tasks s !! t); simpl; [|by case_decide]. rewrite Hi. case_decide; [by rewrite Hii|done].
  - destruct (decide (t ∈ l)); [by rewrite decide_True by set_solver|by rewrite decide_False by set_solver].
Qed.

Lemma adopt_view p s :
  (∀ t, view_of (adopt_all p s) t = if decide (t ∈ thread_all_list s) then adopted p <$> view_of s t else view_of s t) ∧
  thread_all_list (adopt_all p s) = thread_all_list s ∧ main_thread (adopt_all p s) = main_thread s ∧
  thread_ready_list (adopt_all p s) = thread_ready_list s ∧ running (adopt_all p s) = running s ∧
  idle_thread (adopt_all p s) = idle_thread s.
Proof. exact (adopt_fold p (thread_all_list s) s). Qed.

Lemma adopt_proc p s t v : proc (adopt_all p s) t v ↔ ∃ v0, proc s t v0 ∧ v = adopted p v0.
Proof.
  destruct (adopt_view p s) as (V & A1 & _). unfold proc. rewrite A1, V. split.
  - intros [Ht Hv]. rewrite decide_True in Hv by done. destruct (view_of s t) as [v0|]; [|done].
    injection Hv as <-. by exists v0.
  - intros (v0 & [Ht Hv] & ->). rewrite decide_True, Hv by done. done.
Qed.

Lemma adopted_fields p v :
  v_pid (adopted p v) = v_pid v ∧ v_pgdir (adopted p v) = v_pgdir v ∧ v_status (adopted p v) = v_status v ∧
  v_parent (adopted p v) = if v_parent v =? p then 1 else v_parent v.
Proof. unfold adopted. by destruct (v_parent v =? p). Qed.

Lemma adopt_inv k p :
  table_inv k → p ≠ 1 → p ≠ -1 → (∃ v, proc (ts k) (cur k) v ∧ v_pid v = p) →
  table_inv (set_ts (adopt_all p (ts k)) k) ∧ no_child (adopt_all p (ts k)) p.
Proof.
  intros T Hp Hp' (vr & Hr & Er). destruct T as [T1 [[I1 I2 I3 I4 I5 I6 I7] T3 T4 T5 T6]].
  destruct (adopt_view p (ts k)) as (V & A1 & A2 & A3 & A4 & A5).
  assert (Hpr := adopt_proc p (ts k)). pose proof (adopted_fields p) as Hf.
  assert (Hst : ∀ t, status_of (adopt_all p (ts k)) t = status_of (ts k) t).
  { intros t. rewrite !status_of_view, V. case_decide; [|done]. destruct (view_of (ts k) t); [|done].
    simpl. by destruct (Hf p0) as (_ & _ & -> & _). }
  assert (Hno : ∀ q, q ≠ 1 → no_child (ts k) q → no_child (adopt_all p (ts k)) q).
  { intros q Hq Hn c v (v0 & Hc & ->)%Hpr. destruct (Hf v0) as (_ & _ & _ & ->). destruct (v_parent v0 =? p); [done|].
    by apply (Hn c). }
  split; [split; [by apply (sched_inv_ext (ts k))|split; simpl]|].
  - split; rewrite ?A1; try done.
    + specialize (V 0). unfold view_of in V. rewrite I2 in V. destruct (tasks (adopt_all p (ts k)) !! 0); [|done].
      by case_decide.
    + intros t v (v0 & Hv & ->)%Hpr. destruct (Hf v0) as (-> & _). by apply (I4 t).
    + intros t t' v v' (v0 & Hv & ->)%Hpr (v1 & Hv' & ->)%Hpr. destruct (Hf v0) as (-> & _), (Hf v1) as (-> & _).
      by apply I5.
    + destruct I6 as (t & v & Hv & E1 & E2 & E3). exists t, (adopted p v). split; [apply Hpr; by exists v|].
      destruct (Hf v) as (-> & -> & _ & ->). split_and!; try done. by rewrite E2, (proj2 (Z.eqb_neq (-1) p)) by done.
    + intros t v (v0 & Hv & ->)%Hpr. destruct (Hf v0) as (_ & _ & _ & ->). destruct (v_parent v0 =? p) eqn:E.
      * right. destruct I6 as (ti & vi & Hvi & E1 & E2 & E3). exists ti, (adopted p vi).
        split; [apply Hpr; by exists vi|]. destruct (Hf vi) as (-> & -> & _). by rewrite E1.
      * destruct (I7 t v0 Hv) as [?|(q & vq & Hq & F1 & F2)]; [by left|right]. exists q, (adopted p vq).
        split; [apply Hpr; by exists vq|]. destruct (Hf vq) as (-> & -> & _). by rewrite F1.
  - intros t. rewrite A1, T3, V. case_decide as Et; [|done].
    split; intros (v & Hv & Hd); [rewrite Hv; eexists; split; [done|]; by destruct (Hf v) as (_ & _ & -> & _)|].
    destruct (view_of (ts k) t) as [v0|]; [|done]. injection Hv as <-. exists v0. split; [done|].
    by destruct (Hf v0) as (_ & _ & E & _); rewrite <- E.
  - intros v Hv. rewrite A5, V in Hv. case_decide; [|by apply T4].
    destruct (view_of (ts k) (idle_thread (ts k))) as [v0|] eqn:E0; [|done]. injection Hv as <-.
    destruct (T4 v0 eq_refl) as [G1 G2]. destruct (Hf v0) as (_ & -> & _ & ->). rewrite G2. split; [done|].
    by rewrite (proj2 (Z.eqb_neq (-1) p)) by done.
  - intros t v (v0 & Hv & ->)%Hpr E. destruct (Hf v0) as (-> & _ & Es & ->). rewrite Es in E.
    destruct (T5 t v0 Hv E) as [P1 P2]. split; [by destruct (v_parent v0 =? p)|]. apply Hno; [|done].
    intros E1. destruct I6 as (ti & vi & Hvi & F1 & F2 & F3).
    assert (t = ti) as -> by (apply (I5 t ti v0 vi Hv Hvi); congruence).
    destruct Hv as [_ Hv], Hvi as [_ Hvi]. congruence.
  - intros t v (v0 & Hv & ->)%Hpr E Hne. destruct (Hf v0) as (Epid & _ & Es & _). rewrite Es in E. rewrite Epid in *.
    destruct (T6 t v0 Hv E Hne) as [W1 W2].
    assert (Hnp : v_pid v0 ≠ p).
    { intros E1. assert (t = cur k) as -> by (apply (I5 t (cur k) v0 vr Hv Hr); congruence).
      pose proof (proj2 (inv_running _ T1 _) eq_refl) as Hrun. fold (cur k) in Hrun.
      rewrite (proc_status _ _ _ Hv) in Hrun. congruence. }
    split.
    + intros Hn. apply W1. intros c vc Hc Ec. apply (Hn c (adopted p vc)); [apply Hpr; by exists vc|].
      destruct (Hf vc) as (_ & _ & _ & ->). by rewrite Ec, (proj2 (Z.eqb_neq _ p)) by done.
    + intros c vc (vc0 & Hc & ->)%Hpr Ec. destruct (Hf vc0) as (_ & _ & -> & Epar). rewrite Epar in Ec.
      destruct (v_parent vc0 =? p) eqn:Ep; [congruence|]. by apply (W2 c vc0).
  - intros c v (v0 & Hc & ->)%Hpr. destruct (Hf v0) as (_ & _ & _ & ->). destruct (v_parent v0 =? p) eqn:E; zbool; congruence.
Qed.

Definition sys_view (y y' : system) : Prop := same_view (ts (sk y)) (ts (sk y')) ∧ pids (sk y') = pids (sk y).

#[global] Instance sys_view_preorder : PreOrder sys_view.
Proof.
  split; [by split|]. intros x y z [A1 A2] [B1 B2]. split; [by transitivity (ts (sk y))|congruence].
Qed.

Lemma put_fs_view f y : sys_view y (put_fs f y).
Proof.
  split; [|done].
  exact (same_view_upd (set_fds (FsState.fd_table f)) (cur (sk y)) (ts (sk y)) (λ _, eq_refl)).
Qed.

Lemma release_fds_view n fd y y' : release_fds n fd y = Ok y' → sys_view y y'.
Proof.
  revert fd y. induction n as [|n IH]; intros fd y H; cbn [release_fds] in H; [by injection H as ->|].
  apply bind_ok_iff in H as (g & _ & H). apply bind_ok_iff in H as (y1 & H1 & H).
  transitivity y1; [|by eapply IH]. clear H. destruct (g =? -1); [by injection H1 as ->|].
  apply bind_ok_iff in H1 as (pipe & _ & H1). destruct pipe.
  - apply bind_ok_iff in H1 as (gf & _ & H1). apply bind_ok_iff in H1 as (fl & _ & H1).
    destruct (u32 (fd_pos fl - 1) =? 0).
    + apply bind_ok_iff in H1 as (k & Hk & H1). apply bind_ok_iff in H1 as (f & _ & H1). injection H1 as <-.
      transitivity (set_sk k y); [|apply put_fs_view]. exact (on_mem__view _ _ _ Hk).
    + apply bind_ok_iff in H1 as (f & _ & H1). injection H1 as <-. apply put_fs_view.
  - apply bind_ok_iff in H1 as ([r f] & _ & H1). injection H1 as <-. apply put_fs_view.
Qed.

Lemma release_view t y y' : release_prog_resource t y = Ok y' → sys_view y y'.
Proof.
  unfold release_prog_resource. intros H. apply bind_ok_iff in H as (tk & _ & H).
  apply bind_ok_iff in H as (k1 & H1 & H). apply bind_ok_iff in H as (a & _ & H).
  apply bind_ok_iff in H as (k2 & H2 & H).
  transitivity (set_sk k1 y); [exact (on_mem__view _ _ _ H1)|].
  transitivity (set_sk k2 y); [exact (on_mem__view _ _ _ H2)|]. exact (release_fds_view _ _ _ _ H).
Qed.

Lemma pid2thread_proc s p t v : ident_inv s p → proc s t v → pid2thread (v_pid v) s = t.
Proof.
  intros I Hv. destruct (proc_task _ _ _ Hv) as (tk & Htk & <-). unfold pid2thread. cbn [v_pid view].
  destruct (first_thread (pid_check (pid tk)) s) as [t'|] eqn:E.
  - apply first_thread_some in E as (Hall & tk' & Htk' & Hf). unfold pid_check in Hf. zbool. simpl.
    symmetry. apply (ii_inj _ _ I t t' (view tk) (view tk')); [done|split; [done|]; unfold view_of; by rewrite Htk'|done].
  - pose proof (first_thread_none _ _ t tk E (proj1 Hv) Htk) as Hf. unfold pid_check in Hf. simpl in Hf. zbool. done.
Qed.

(** The parent is awake when its child ends. *)
Lemma wake_parent_inv pp k k' :
  table_inv k → wake_parent pp k = Ok k' →
  table_inv k' ∧ same_ident (ts k) (ts k') ∧ running (ts k') = running (ts k) ∧
  idle_thread (ts k') = idle_thread (ts k) ∧ pids k' = pids k ∧
  (∀ t v, proc (ts k') t v → v_pid v = pp → v_status v ≠ TASK_WAITING) ∧
  (∀ t, status_of (ts k') t = if decide (t = pid2thread pp (ts k) ∧ status_of (ts k) t = Some TASK_WAITING)
                              then Some TASK_READY else status_of (ts k) t) ∧
  thread_ready_list (ts k') =
    if decide (status_of (ts k) (pid2thread pp (ts k)) = Some TASK_WAITING)
    then pid2thread pp (ts k) :: thread_ready_list (ts k) else thread_ready_list (ts k).
Proof.
  intros T H. unfold wake_parent in H. apply bind_ok_iff in H as (p & Hp & H). apply of_opt_ok in Hp.
  assert (Hpar : ∀ t v, proc (ts k) t v → v_pid v = pp → t = pid2thread pp (ts k) ∧ view p = v).
  { intros t v Hv <-. pose proof (pid2thread_proc _ _ t v (ti_ident _ T) Hv) as E. split; [done|].
    rewrite E in Hp. destruct Hv as [_ Hv]. unfold view_of in Hv. rewrite Hp in Hv. by injection Hv. }
  case_decide as Est.
  - apply bind_ok_iff in H as (s & Hs & H). injection H as <-. set (t0 := pid2thread pp (ts k)) in *.
    assert (Hst : status_of (ts k) t0 = Some TASK_WAITING) by (unfold status_of; rewrite Hp; simpl; congruence).
    destruct (unblock_inv t0 TASK_WAITING (ts k) (ti_sched _ T) Hst) as (s2 & Hs2 & Hinv & Hrun & Hrl & Hidle & Heff);
      [right; by left|]. assert (s2 = s) as -> by congruence. pose proof (unblock_ident _ _ _ Hs) as Hid.
    split; [|split_and!; try done].
    + split; [done|]. apply (core_dyn k (set_ts s k) (ti_core _ T) Hid eq_refl Hidle); simpl.
      * intros t. rewrite Heff. case_decide; [subst; rewrite Hst; split; congruence|done].
      * intros t v Hv E. apply proc_status in Hv. rewrite Heff in Hv. left. case_decide; congruence.
      * intros t v Hv E _. apply proc_status in Hv. rewrite Heff in Hv. left. split; [case_decide; congruence|].
        intros c vc Hc _ Ec. apply proc_status in Hc. rewrite Heff in Hc. case_decide; congruence.
    + simpl. intros t v Hv Ev E. destruct (proc_same _ _ _ _ Hid Hv) as (v0 & Hv0 & [= F1 F2 F3]).
      destruct (Hpar t v0 Hv0) as [-> _]; [congruence|]. apply proc_status in Hv. rewrite Heff, decide_True in Hv by done.
      congruence.
    + simpl. intros t. rewrite Heff. destruct (decide (t0 = t)) as [<-|Hne]; [by rewrite decide_True|].
      by rewrite decide_False by naive_solver.
    + simpl. by rewrite decide_True.
  - injection H as <-. assert (Hnw : status_of (ts k) (pid2thread pp (ts k)) ≠ Some TASK_WAITING).
    { unfold status_of. rewrite Hp. simpl. congruence. }
    split; [done|]. split_and!; try done.
    + intros t v Hv Ev E. destruct (Hpar t v Hv Ev) as [_ <-]. done.
    + intros t. rewrite decide_False; [done|]. by intros [-> ?].
    + by rewrite decide_False.
Qed.

(** The stages of [sys_exit]: the table after the adoption of the children and the release
    of the resources ([k2]), after the wake-up of the parent ([k4]), and at the end. *)
Record exit_stages (y y' : system) (tk : task) (k2 k4 : kernel) (s : tstate) : Prop := {
  es_cur : tasks (ts (sk y)) !! cur (sk y) = Some tk;
  es_proc : proc (ts (sk y)) (cur (sk y)) (view tk);
  es_parent : parent_pid tk ≠ -1;
  es_pid : 1 < pid tk ≤ 1024;
  es_adopt : ∀ t v, proc (ts k2) t v ↔ ∃ v0, proc (ts (sk y)) t v0 ∧ v = adopted (pid tk) v0;
  es_inv : table_inv k2;
  es_run : cur k2 = cur (sk y);
  es_alone : no_child (ts k2) (pid tk);
  es_wake : wake_parent (v_parent (adopted (pid tk) (view tk))) k2 = Ok k4;
  es_block : thread_block (v2p k4) TASK_HANGING (ts k4) = Ok s;
  es_end : sk y' = set_ts s k4;
  es_queue : thread_ready_list (ts k2) = thread_ready_list (ts (sk y));
  es_idle : idle_thread (ts k2) = idle_thread (ts (sk y));
}.

Lemma exit_stages_ok st y y' :
  table_inv (sk y) → sys_exit st y = Ok y' → ∃ tk k2 k4 s, exit_stages y y' tk k2 k4 s.
Proof.
  intros T H. unfold sys_exit in H. destruct (cur_proc _ T) as (tk & Htk & Hproc & Hrun).
  apply bind_ok_iff in H as (t0 & _ & H). set (k1 := set_ts (upd_task _ _ _) (sk y)) in H.
  assert (V1 : same_view (ts (sk y)) (ts k1))
    by exact (same_view_upd (set_exit (i8 st)) (cur (sk y)) (ts (sk y)) (λ _, eq_refl)).
  assert (T1 : table_inv k1) by (by apply (table_view (sk y))).
  assert (Hpv : ∀ t v, proc (ts k1) t v ↔ proc (ts (sk y)) t v)
    by (intros t v; unfold proc; by rewrite (sv_all _ _ V1), (sv_view _ _ V1)).
  assert (P1 : proc (ts k1) (cur k1) (view tk)) by (by apply Hpv).
  apply bind_ok_iff in H as (t1 & Ht1 & H). apply of_opt_ok in Ht1.
  assert (E1 : view t1 = view tk).
  { destruct P1 as [_ P1]. unfold view_of in P1. change (cur k1) with (cur (sk y)) in P1. rewrite Ht1 in P1.
    by apply Some_inj in P1. }
  destruct (parent_pid t1 =? -1) eqn:Epar; [done|]. zbool.
  assert (Ep : parent_pid t1 = parent_pid tk ∧ pid t1 = pid tk) by (unfold view in E1; split; congruence).
  destruct Ep as [Ep Epid]. pose proof (ii_pid _ _ (ti_ident _ T1) _ _ P1) as [Hpid _]. simpl in Hpid.
  assert (Hne1 : pid tk ≠ 1).
  { intros E. destruct (ii_init _ _ (ti_ident _ T1)) as (ti & vi & Hvi & F1 & F2 & F3).
    assert (ti = cur k1) as -> by (apply (ii_inj _ _ (ti_ident _ T1) _ _ _ _ Hvi P1); simpl; congruence).
    destruct Hvi as [_ Hvi], P1 as [_ P1]. rewrite P1 in Hvi. injection Hvi as <-. simpl in *. congruence. }
  rewrite Epid in H. destruct (adopt_inv k1 (pid tk) T1) as [T2 Hno]; [done|lia|by exists (view tk)|].
  set (k2 := set_ts (adopt_all (pid tk) (ts k1)) k1) in *.
  apply bind_ok_iff in H as (y3 & H3 & H). apply release_view in H3 as [V3 P3].
  change (sk (set_sk k2 y)) with k2 in V3, P3.
  assert (T3 : table_inv (sk y3)) by (by apply (table_view k2)).
  assert (Had : ∀ t v, proc (ts (sk y3)) t v ↔ ∃ v0, proc (ts (sk y)) t v0 ∧ v = adopted (pid tk) v0).
  { intros t v. transitivity (proc (ts k2) t v); [unfold proc; by rewrite (sv_all _ _ V3), (sv_view _ _ V3)|].
    etransitivity; [apply (adopt_proc (pid tk) (ts k1))|]. setoid_rewrite Hpv. done. }
  assert (Hc3 : cur (sk y3) = cur (sk y)).
  { destruct (adopt_view (pid tk) (ts k1)) as (_ & _ & _ & _ & Er & _). etransitivity; [apply (sv_running _ _ V3)|exact Er]. }
  apply bind_ok_iff in H as (t3 & Ht3 & H). apply of_opt_ok in Ht3.
  assert (Hv3 : view t3 = adopted (pid tk) (view tk)).
  { destruct (proj2 (Had (cur (sk y)) (adopted (pid tk) (view tk)))) as [_ Hv]; [by exists (view tk)|].
    unfold view_of in Hv. rewrite Ht3 in Hv. by apply Some_inj in Hv. }
  apply bind_ok_iff in H as (k4 & H4 & H). apply bind_ok_iff in H as (k5 & H5 & H). injection H as <-.
  apply run_sched_inv in H5 as (s & Hs & ->). exists tk, (sk y3), k4, s. split; try done.
  - congruence.
  - lia.
  - apply (no_child_same (adopt_all (pid tk) (ts k1))); [|done]. by apply same_view_ident.
  - by rewrite <- Hv3.
  - destruct (adopt_view (pid tk) (ts k1)) as (_ & _ & _ & Eq & _). etransitivity; [apply (sv_ready _ _ V3)|exact Eq].
  - destruct (adopt_view (pid tk) (ts k1)) as (_ & _ & _ & _ & _ & Ei). etransitivity; [apply (sv_idle _ _ V3)|exact Ei].
Qed.

(** The exit status is kept from the first line of [sys_exit] on. *)
Definition exit_of (s : tstate) (t : Z) : option Z := exit_status <$> tasks s !! t.
Definition same_exit (s s' : tstate) : Prop := ∀ t, exit_of s' t = exit_of s t.

#[global] Instance same_exit_preorder : PreOrder same_exit.
Proof. split; [by intros s t|]. intros s1 s2 s3 A B t. by rewrite B. Qed.

Lemma exit_upd f t s : (∀ x, exit_status (f x) = exit_status x) → same_exit s (upd_task f t s).
Proof.
  intros Hf t'. unfold exit_of. rewrite upd_task_lookup. case_decide; [|done]. destruct (tasks s !! t'); [|done].
  simpl. by rewrite Hf.
Qed.

Lemma unblock_exit t s s' : thread_unblock t s = Ok s' → same_exit s s'.
Proof.
  unfold thread_unblock. destruct (intr_disable (tcpu s)) as [old c]. intros H.
  apply bind_ok_iff in H as (tk & _ & H). apply bind_ok_iff in H as (s1 & H1 & H). injection H as <-.
  case_decide; [by injection H1 as <-|]. case_decide; [done|]. injection H1 as <-.
  exact (exit_upd (set_status TASK_READY) t s (λ _, eq_refl)).
Qed.

Lemma schedule_exit v2p k s s' : schedule v2p k s = Ok s' → same_exit s s'.
Proof.
  unfold schedule. intros H. apply bind_ok_iff in H as (tc & _ & H). cbv zeta in H.
  apply bind_ok_iff in H as (s2 & H2 & H). transitivity s2.
  - match type of H2 with match thread_ready_list ?x with _ => _ end = _ => set (s1 := x) in * end.
    assert (Hs1 : same_exit s s1).
    { subst s1. case_decide; [|done].
      exact (exit_upd (λ t, set_status TASK_READY (set_tricks (priority t) t)) (running s) s (λ _, eq_refl)). }
    destruct (thread_ready_list s1); [|by injection H2 as <-]. etransitivity; [exact Hs1|]. by eapply unblock_exit.
  - destruct (thread_ready_list s2) as [|next rest]; [done|]. apply bind_ok_iff in H as (tn & _ & H). injection H as <-.
    etransitivity; [exact (exit_upd (set_status TASK_RUNNING) next s2 (λ _, eq_refl))|].
    unfold process_activate, page_dir_activate, update_tss_esp, resume.
    match goal with |- context [konts ?x !! ?y] => destruct (konts x !! y) as [[| |]|] end; by destruct (pgdir tn =? 0).
Qed.

Lemma block_exit v2p st s s' : thread_block v2p st s = Ok s' → same_exit s s'.
Proof.
  unfold thread_block. destruct (intr_disable _) as [old c]. intros H. apply bind_ok_iff in H as (t & _ & H).
  apply schedule_exit in H. etransitivity; [|exact H]. exact (exit_upd (set_status st) (running s) s (λ _, eq_refl)).
Qed.

Lemma on_mem__exit f k k' : on_mem_ f k = Ok k' → same_exit (ts k) (ts k').
Proof.
  unfold on_mem_. intros H. apply bind_ok_iff in H as (m & _ & H). injection H as <-.
  exact (exit_upd (set_uvaddr (cur_vaddr m)) (cur k) (ts k) (λ _, eq_refl)).
Qed.

Lemma put_fs_exit f y : same_exit (ts (sk y)) (ts (sk (put_fs f y))).
Proof. exact (exit_upd (set_fds (FsState.fd_table f)) (cur (sk y)) (ts (sk y)) (λ _, eq_refl)). Qed.

Lemma release_fds_exit n fd y y' : release_fds n fd y = Ok y' → same_exit (ts (sk y)) (ts (sk y')).
Proof.
  revert fd y. induction n as [|n IH]; intros fd y H; cbn [release_fds] in H; [by injection H as ->|].
  apply bind_ok_iff in H as (g & _ & H). apply bind_ok_iff in H as (y1 & H1 & H).
  transitivity (ts (sk y1)); [|by eapply IH]. clear H. destruct (g =? -1); [by injection H1 as ->|].
  apply bind_ok_iff in H1 as (pipe & _ & H1). destruct pipe.
  - apply bind_ok_iff in H1 as (gf & _ & H1). apply bind_ok_iff in H1 as (fl & _ & H1).
    destruct (u32 (fd_pos fl - 1) =? 0).
    + apply bind_ok_iff in H1 as (k & Hk & H1). apply bind_ok_iff in H1 as (f & _ & H1). injection H1 as <-.
      transitivity (ts (sk (set_sk k y))); [exact (on_mem__exit _ _ _ Hk)|apply put_fs_exit].
    + apply bind_ok_iff in H1 as (f & _ & H1). injection H1 as <-. apply put_fs_exit.
  - apply bind_ok_iff in H1 as ([r f] & _ & H1). injection H1 as <-. apply put_fs_exit.
Qed.

Lemma release_exit t y y' : release_prog_resource t y = Ok y' → same_exit (ts (sk y)) (ts (sk y')).
Proof.
  unfold release_prog_resource. intros H. apply bind_ok_iff in H as (tk & _ & H).
  apply bind_ok_iff in H as (k1 & H1 & H). apply bind_ok_iff in H as (a & _ & H). apply bind_ok_iff in H as (k2 & H2 & H).
  transitivity (ts k1); [exact (on_mem__exit _ _ _ H1)|]. transitivity (ts k2); [exact (on_mem__exit _ _ _ H2)|].
  exact (release_fds_exit _ _ _ _ H).
Qed.

Lemma adopt_exit p s : same_exit s (adopt_all p s).
Proof.
  unfold adopt_all. generalize (thread_all_list s). intros l. revert s. induction l as [|x l IH]; intros s; [done|]. simpl.
  transitivity (upd_task (init_adopt_a_child p) x s); [|apply IH]. apply exit_upd. intros t.
  unfold init_adopt_a_child. by destruct (parent_pid t =? p).
Qed.

Lemma sys_exit_stores st y y' : sys_exit st y = Ok y' → exit_of (ts (sk y')) (cur (sk y)) = Some (i8 st).
Proof.
  unfold sys_exit. intros H. apply bind_ok_iff in H as (t0 & H0 & H). apply of_opt_ok in H0.
  set (k1 := set_ts (upd_task _ _ _) (sk y)) in H.
  assert (E1 : exit_of (ts k1) (cur (sk y)) = Some (i8 st)).
  { unfold exit_of, k1. cbn [ts set_ts]. by rewrite upd_task_lookup, decide_True, H0. }
  apply bind_ok_iff in H as (t1 & _ & H). destruct (parent_pid t1 =? -1); [done|].
  apply bind_ok_iff in H as (y3 & H3 & H). apply bind_ok_iff in H as (t3 & _ & H).
  apply bind_ok_iff in H as (k4 & H4 & H). apply bind_ok_iff in H as (k5 & H5 & H). injection H as <-.
  apply run_sched_inv in H5 as (s & Hs & ->). change (ts (sk (set_sk (set_ts s k4) y3))) with s.
  rewrite (block_exit _ _ _ _ Hs).
  assert (E4 : same_exit (ts (sk y3)) (ts k4)).
  { unfold wake_parent in H4. apply bind_ok_iff in H4 as (p & _ & H4). case_decide; [|by injection H4 as <-].
    apply bind_ok_iff in H4 as (s4 & H4 & E). injection E as <-. exact (unblock_exit _ _ _ H4). }
  rewrite E4, (release_exit _ _ _ H3). change (ts (sk (set_sk (set_ts (adopt_all (pid t1) (ts k1)) k1) y))) with (adopt_all (pid t1) (ts k1)).
  rewrite (adopt_exit (pid t1) (ts k1)). exact E1.
Qed.

(** The last two stages. *)
Record exit_ends (y : system) (tk : task) (k2 k4 : kernel) (s : tstate) : Prop := {
  ee_inv : table_inv k4;
  ee_ident : same_ident (ts k2) (ts k4);
  ee_run : cur k4 = cur (sk y);
  ee_awake : ∀ t v, proc (ts k4) t v → v_pid v = v_parent (adopted (pid tk) (view tk)) → v_status v ≠ TASK_WAITING;
  ee_wake : ∀ t, status_of (ts k4) t =
    if decide (t = pid2thread (v_parent (adopted (pid tk) (view tk))) (ts k2) ∧ status_of (ts k2) t = Some TASK_WAITING)
    then Some TASK_READY else status_of (ts k2) t;
  ee_ready : thread_ready_list (ts k4) =
    if decide (status_of (ts k2) (pid2thread (v_parent (adopted (pid tk) (view tk))) (ts k2)) = Some TASK_WAITING)
    then pid2thread (v_parent (adopted (pid tk) (view tk))) (ts k2) :: thread_ready_list (ts k2)
    else thread_ready_list (ts k2);
  ee_idle4 : idle_thread (ts k4) = idle_thread (ts k2);
  ee_notidle : cur k4 ≠ idle_thread (ts k4);
  ee_self : ∀ s' v, same_ident (ts k4) s' → proc s' (cur k4) v →
    v_pid v = pid tk ∧ v_parent v = v_parent (adopted (pid tk) (view tk));
  ee_parent : v_parent (adopted (pid tk) (view tk)) ≠ -1;
  ee_sched : sched_inv s;
  ee_same : same_ident (ts k4) s;
  ee_idle : idle_thread s = idle_thread (ts k4);
  ee_hang : status_of s (cur k4) = Some TASK_HANGING;
  ee_quiet : ∀ t, t ≠ cur k4 → quiet (ts k4) s t;
  ee_frame : sched_frame (Some (cur k4)) None (ts k4) s;
}.

Lemma exit_ends_ok y y' tk k2 k4 s : exit_stages y y' tk k2 k4 s → exit_ends y tk k2 k4 s.
Proof.
  intros [E1 E2 E3 E4 E5 T2 E7 Hno Hwk Hbl Hend _ _].
  destruct (wake_parent_inv _ _ _ T2 Hwk) as (T4 & Hid4 & Hr4 & Hi4 & Hp4 & Hw4 & Hoth & Hrl4).
  set (va := adopted (pid tk) (view tk)) in *.
  assert (Hpar : v_parent va ≠ -1 ∧ v_pid va = pid tk).
  { destruct (adopted_fields (pid tk) (view tk)) as (F1 & _ & _ & F4). subst va. rewrite F1, F4.
    split; [|done]. simpl. destruct (_ =? _); [done|congruence]. }
  assert (Hc4 : cur k4 = cur (sk y)) by (unfold cur in *; congruence).
  assert (P2 : proc (ts k2) (cur k4) va) by (rewrite Hc4; apply E5; by exists (view tk)).
  assert (Hcv : ∀ s' v, same_ident (ts k4) s' → proc s' (cur k4) v → v_pid v = pid tk ∧ v_parent v = v_parent va).
  { intros s' v Hs' Hv. destruct (proc_same _ _ _ _ Hs' Hv) as (v0 & Hv0 & [= G1 G2 G3]).
    destruct (proc_same _ _ _ _ Hid4 Hv0) as (v1 & Hv1 & [= F1 F2 F3]).
    destruct Hv1 as [_ Hv1], P2 as [_ P2]. rewrite P2 in Hv1. injection Hv1 as <-. destruct Hpar as [_ Hpar]. split; congruence. }
  assert (Hidle : cur k4 ≠ idle_thread (ts k4)).
  { intros E. destruct (cur_proc _ T4) as (tx & Htx & Hpx & _). pose proof (proj2 Hpx) as Hx. rewrite E in Hx.
    destruct (ti_idle _ T4 _ Hx) as [_ F]. destruct (Hcv (ts k4) (view tx)) as [_ G]; [done|done|].
    destruct Hpar as [Hpar _]. congruence. }
  destruct (block_effect TASK_HANGING k4 s T4) as (B1 & B2 & B3 & B4 & B5 & B6); [by right|done|done|].
  split; try done. apply Hpar.
Qed.

Lemma exit_inv st y y' : table_inv (sk y) → sys_exit st y = Ok y' → table_inv (sk y').
Proof.
  intros T H. destruct (exit_stages_ok st y y' T H) as (tk & k2 & k4 & s & Hst).
  destruct (exit_ends_ok _ _ _ _ _ _ Hst) as [T4 Hid4 Hc4 Hw4 _ _ _ _ Hcv Hpar B1 B2 B3 B4 B5 _].
  pose proof (es_alone _ _ _ _ _ _ Hst) as Hno. rewrite (es_end _ _ _ _ _ _ Hst).
  assert (Hno4 : no_child (ts k4) (pid tk)) by (by apply (no_child_same (ts k2))).
  split; [done|]. apply (core_dyn k4 (set_ts s k4) (ti_core _ T4) B2 eq_refl B3); simpl.
  - intros t. destruct (decide (t = cur k4)) as [->|Hne]; [|apply (B5 t Hne); set_solver]. rewrite B4.
    destruct (cur_proc _ T4) as (tx & Htx & Hx & Hrx). rewrite (proc_status _ _ _ Hx). simpl. rewrite Hrx. split; congruence.
  - intros t v Hv E. destruct (decide (t = cur k4)) as [->|Hne].
    + right. destruct (Hcv s v B2 Hv) as [-> ->]. done.
    + left. apply (B5 t Hne); [set_solver|]. apply proc_status in Hv. congruence.
  - intros t v Hv E Hnot1. assert (Hne : t ≠ cur k4) by (intros ->; apply proc_status in Hv; congruence).
    left. split; [apply (B5 t Hne); [set_solver|]; apply proc_status in Hv; congruence|].
    intros c vc Hc Ec Eh. destruct (decide (c = cur k4)) as [->|Hdc].
    + exfalso. destruct (Hcv s vc B2 Hc) as [_ Ep']. destruct (proc_same _ _ _ _ B2 Hv) as (v0 & Hv0 & [= G1 G2 G3]).
      apply (Hw4 t v0 Hv0); [congruence|]. apply proc_status in Hv. rewrite E in Hv.
      apply (B5 t Hne) in Hv; [|set_solver]. apply proc_status in Hv0. congruence.
    + apply (B5 c Hdc); [set_solver|]. apply proc_status in Hc. congruence.
Qed.

(** ** The end of the main thread *)

Lemma kernel_no_child s p t v : ident_inv s p → proc s t v → v_pgdir v = 0 → no_child s (v_pid v).
Proof.
  intros I Hv H0 c vc Hc E. destruct (ii_parent _ _ I c vc Hc) as [F|(q & vq & Hq & F1 & F2)].
  - pose proof (ii_pid _ _ I t v Hv) as [? _]. lia.
  - assert (q = t) as -> by (apply (ii_inj _ _ I q t vq v Hq Hv); congruence).
    destruct Hq as [_ Hq], Hv as [_ Hv]. congruence.
Qed.

(** The main thread leaves the table, then the scheduler runs. *)
Lemma main_exit_stages k k' :
  table_inv k → (∃ v, view_of (ts k) (cur k) = Some v ∧ v_pgdir v = 0 ∧ v_parent v = -1) →
  cur k ≠ idle_thread (ts k) → thread_exit (cur k) true k = Ok k' →
  ∃ k1 s, removed (cur k) (ts k) (ts k1) ∧ table_core k1 ∧ sched_pre (ts k1) ∧
    schedule (v2p k1) (KReturn INTR_OFF) (ts k1) = Ok s ∧ k' = set_ts s k1.
Proof.
  intros T (v0 & Hv0 & Hdir & Hpar) Hidle H. destruct (cur_proc k T) as (tk & Htk & Hproc & Hrun).
  assert (v0 = view tk) as -> by (destruct Hproc; congruence).
  unfold thread_exit in H. apply bind_ok_iff in H as (k1 & H1 & H). apply run_sched_inv in H as (s & Hs & ->).
  destruct (thread_remove_inv (cur k) tk k k1) as (Hrm & Hp1 & Hb); [by apply table_cur|apply ti_ident, T|done| |done|].
  { apply (ii_pid _ _ (ti_ident _ T) _ _ Hproc). }
  exists k1, s. split; [done|]. split; [|split; [|done]].
  - apply (reap_core (cur k) (view tk) k k1 (ti_core _ T)); try done.
    + by apply (kernel_no_child _ (pids k) (cur k)); [apply T|..].
    + by right.
    + intros t v Hv E. pose proof (ii_pid _ _ (ti_ident _ T) t v Hv) as [? _]. rewrite Hpar. lia.
  - pose proof (ti_sched _ T) as [S1 S2 S3 S4]. pose proof (λ t, removed_status _ _ _ t Hrm) as Hst.
    assert (Hcs : status_of (ts k) (cur k) = Some TASK_RUNNING) by (by apply S1).
    assert (Hcr : cur k ∉ thread_ready_list (ts k)) by (rewrite <- S2; congruence).
    split; rewrite ?(rm_running _ _ _ Hrm), ?(rm_ready _ _ _ Hrm), ?(rm_idle _ _ _ Hrm), ?without_notin by done; try done.
    + intros t. rewrite Hst. case_decide; [subst; by rewrite Hcs|apply S1].
    + apply status_of_is_Some. rewrite Hst. fold (cur k). rewrite decide_True, Hcs by done. done.
    + intros t. rewrite Hst, <- S2. case_decide; [subst; rewrite Hcs; simpl; split; congruence|done].
    + rewrite Hst, decide_False by done. done.
Qed.

Lemma main_exit_inv k k' :
  table_inv k → (∃ v, view_of (ts k) (cur k) = Some v ∧ v_pgdir v = 0 ∧ v_parent v = -1) →
  cur k ≠ idle_thread (ts k) → thread_exit (cur k) true k = Ok k' → table_inv k'.
Proof.
  intros T Hv0 Hidle H. destruct (main_exit_stages k k' T Hv0 Hidle H) as (k1 & s & Hrm & C1 & Hpre & Hs & ->).
  pose proof (λ t, removed_status _ _ _ t Hrm) as Hst.
  assert (Hcs : status_of (ts k) (cur k) = Some TASK_RUNNING) by (by apply (inv_running _ (ti_sched _ T))).
  destruct (schedule_ok (v2p k1) (ts k1) (KReturn INTR_OFF) Hpre) as (s' & nx & rest & Hs' & Hinv & Hq & Hrn & _ & [E1 E2]).
  assert (s' = s) as -> by congruence. split; [done|].
  apply (core_quiet k1 (set_ts s k1) C1); [by eapply schedule_ident|done|done|]. simpl.
  intros t st Hin. assert (Hex : st ≠ TASK_RUNNING ∧ st ≠ TASK_READY ∧ st ≠ TASK_BLOCKED) by set_solver.
  assert (Hdead : status_of (ts k1) (running (ts k1)) = Some TASK_DIED).
  { rewrite (rm_running _ _ _ Hrm), Hst, decide_True by done. fold (cur k). by rewrite Hcs. }
  assert (Hnx : status_of (ts k1) (running s) ∈ [Some TASK_READY; Some TASK_RUNNING; Some TASK_BLOCKED]).
  { unfold run_queue in Hq. rewrite decide_False, app_nil_r in Hq by congruence. rewrite Hrn.
    destruct (thread_ready_list (ts k1)) as [|x q] eqn:Er; injection Hq as <- _.
    - pose proof (pre_idle _ Hpre). set_solver.
    - rewrite (proj2 (pre_ready _ Hpre x)); [set_solver|]. rewrite Er. set_solver. }
  rewrite E2. case_decide as Et.
  - subst t. destruct Hex as (? & ? & ?). split; intros E; [congruence|]. rewrite E in Hnx. set_solver.
  - rewrite decide_False; [done|]. intros [<- ?]. congruence.
Qed.

(** ** New threads *)

(** [k'] is [k] with a PCB at [t], not yet in the lists. *)
Record born (t : Z) (v : pview) (k k' : kernel) : Prop := {
  bo_all : thread_all_list (ts k') = thread_all_list (ts k);
  bo_main : main_thread (ts k') = main_thread (ts k);
  bo_ready : thread_ready_list (ts k') = thread_ready_list (ts k);
  bo_running : running (ts k') = running (ts k);
  bo_idle : idle_thread (ts k') = idle_thread (ts k);
  bo_view : ∀ x, view_of (ts k') x = if decide (x = t) then Some v else view_of (ts k) x;
  bo_pids : pid_wf (pids k');
  bo_range : 1 ≤ v_pid v ≤ 1024;
  bo_fresh : bit_set (pid_bitmap (pids k)) (v_pid v - 1) = false;
  bo_bits : ∀ j, 0 ≤ j → bit_set (pid_bitmap (pids k')) j =
    bool_decide (j = v_pid v - 1) || bit_set (pid_bitmap (pids k)) j;
}.

Lemma born_after t v k k1 k2 : born t v k k1 → same_view (ts k1) (ts k2) → pids k2 = pids k1 → born t v k k2.
Proof.
  intros [B1 B2 B3 B4 B5 B6 B7 B8 B9 B10] [V1 V2 V3 V4 V5 V6] Hp. split; try congruence.
  - intros x. by rewrite V6.
  - intros j Hj. rewrite Hp. by apply B10.
Qed.

Lemma born_before t v k k1 k2 : same_view (ts k) (ts k1) → pids k1 = pids k → born t v k1 k2 → born t v k k2.
Proof.
  intros [V1 V2 V3 V4 V5 V6] Hp [B1 B2 B3 B4 B5 B6 B7 B8 B9 B10]. rewrite Hp in *. split; try congruence; [|done].
  intros x. by rewrite B6, V6.
Qed.

Lemma born_pgdir t v pd k k1 :
  born t v k k1 → born t (PView (v_pid v) (v_parent v) pd (v_status v)) k (set_ts (upd_task (set_pgdir pd) t (ts k1)) k1).
Proof.
  intros [B1 B2 B3 B4 B5 B6 B7 B8 B9 B10]. split; try done. intros x. simpl. rewrite view_of_upd.
  destruct (decide (x = t)) as [->|Hne]; [|rewrite decide_False by done; by rewrite B6, decide_False].
  rewrite decide_True by done. pose proof (B6 t) as Ht. rewrite decide_True in Ht by done. unfold view_of in Ht.
  destruct (tasks (ts k1) !! t); [|done]. injection Ht as <-. done.
Qed.

Lemma born_task t v tk k p k1 :
  cur k ≠ 0 → pid_wf (pids k) → new_pid k = Ok (p, k1) → view tk = v → v_pid v = p →
  born t v k (set_ts (with_tasks (<[t := tk]> (tasks (ts k1))) (ts k1)) k1).
Proof.
  intros Hc Hp H <- <-. destruct (new_pid_inv k _ k1 Hc Hp H) as (Et & W & R & F & B).
  split; simpl; rewrite ?Et; try done. intros x. unfold view_of. simpl. rewrite lookup_insert.
  destruct (decide (x = t)) as [->|]; [by rewrite decide_True|by rewrite decide_False].
Qed.

Lemma born_inv t v k k' :
  table_inv k → born t v k k' → t ≠ 0 → t ∉ thread_all_list (ts k) → v_status v = TASK_READY →
  (v_parent v = -1 ∨ ∃ vc, proc (ts k) (cur k) vc ∧ v_pid vc = v_parent v ∧ v_pgdir vc ≠ 0) →
  table_inv (enlist_all t (enlist_ready t k')).
Proof.
  intros T [B1 B2 B3 B4 B5 B6 B7 B8 B9 B10] H0 Hnew Hst Hpar.
  pose proof (ti_sched _ T) as [S1 S2 S3 S4]. set (k2 := enlist_all t (enlist_ready t k')).
  assert (Vw : ∀ x, view_of (ts k2) x = if decide (x = t) then Some v else view_of (ts k) x) by exact B6.
  assert (Hdead : ∀ st, status_of (ts k) t = Some st → st = TASK_DIED).
  { intros st E. rewrite status_of_view in E. destruct (view_of (ts k) t) as [u|] eqn:Eu; [|done]. injection E as <-.
    destruct (decide (v_status u = TASK_DIED)) as [|Hd]; [done|]. exfalso. apply Hnew, (ti_all _ T). by exists u. }
  assert (Hs : ∀ x, status_of (ts k2) x = if decide (x = t) then Some TASK_READY else status_of (ts k) x).
  { intros x. rewrite !status_of_view, Vw. case_decide; [by rewrite <- Hst|done]. }
  assert (Ha : thread_all_list (ts k2) = thread_all_list (ts k) ++ [t]) by (simpl; by rewrite B1).
  assert (Hr : thread_ready_list (ts k2) = thread_ready_list (ts k) ++ [t]) by (simpl; by rewrite B3).
  assert (Hnr : t ∉ thread_ready_list (ts k)) by (rewrite <- S2; intros E; by apply Hdead in E).
  assert (Hpr : ∀ x u, proc (ts k2) x u ↔ proc (ts k) x u ∨ x = t ∧ u = v).
  { intros x u. unfold proc. rewrite Ha, Vw, elem_of_app, list_elem_of_singleton. case_decide; naive_solver. }
  split; [|split].
  - split.
    + intros x. rewrite Hs. change (running (ts k2)) with (running (ts k')). rewrite B4, <- S1. case_decide as E; [|done].
      subst. split; [done|]. intros F. by apply Hdead in F.
    + intros x. rewrite Hs, Hr, elem_of_app, list_elem_of_singleton, <- S2. case_decide; naive_solver.
    + rewrite Hr. apply NoDup_app. split_and!; [done|set_solver|apply NoDup_singleton].
    + change (idle_thread (ts k2)) with (idle_thread (ts k')). rewrite Hs, B5. case_decide; [set_solver|done].
  - pose proof (ti_ident _ T) as [I1 I2 I3 I4 I5 I6 I7].
    assert (Hpn : ∀ x u, proc (ts k) x u → v_pid u ≠ v_pid v).
    { intros x u Hu E. destruct (I4 x u Hu) as [_ F]. rewrite E in F. congruence. }
    split.
    + rewrite Ha. apply NoDup_app. split_and!; [done|set_solver|apply NoDup_singleton].
    + specialize (Vw 0). rewrite decide_False in Vw by done. unfold view_of in Vw. rewrite I2 in Vw.
      by destruct (tasks (ts k2) !! 0).
    + done.
    + intros x u [Hu|[-> ->]]%Hpr; [|split; [done|]; simpl; rewrite B10, bool_decide_true; [done|done|lia]].
      destruct (I4 x u Hu) as [R F]. split; [done|]. simpl. rewrite B10, F by lia. apply orb_true_r.
    + intros x x' u u' [Hu|[-> ->]]%Hpr [Hu'|[-> ->]]%Hpr E; [by apply (I5 x x' u u')| | |done].
      * by apply Hpn in Hu.
      * symmetry in E. by apply Hpn in Hu'.
    + destruct I6 as (x & u & Hu & ?). exists x, u. split; [apply Hpr; by left|done].
    + intros x u [Hu|[-> ->]]%Hpr.
      * destruct (I7 x u Hu) as [?|(q & vq & Hq & ?)]; [by left|right]. exists q, vq. split; [apply Hpr; by left|done].
      * destruct Hpar as [?|(vc & Hc & ?)]; [by left|right]. exists (cur k), vc. split; [apply Hpr; by left|done].
  - intros x. rewrite Ha, Vw, elem_of_app, list_elem_of_singleton, (ti_all _ T). case_decide as E; [|naive_solver].
    split; [|naive_solver]. intros _. exists v. split; [done|]. rewrite Hst. done.
  - intros u Hu. change (idle_thread (ts k2)) with (idle_thread (ts k')) in Hu. rewrite B5, Vw in Hu.
    case_decide as E; [|by apply (ti_idle _ T)]. exfalso. rewrite E in S4.
    destruct (status_of (ts k) t) as [st|] eqn:Es; [|set_solver]. rewrite (Hdead st eq_refl) in S4. set_solver.
  - intros x u [Hu|[-> ->]]%Hpr E; [|congruence]. destruct (ti_hang _ T x u Hu E) as [? Hn]. split; [done|].
    intros c vc [Hc|[-> ->]]%Hpr; [by apply (Hn c)|]. intros F.
    pose proof (ii_pid _ _ (ti_ident _ T) x u Hu) as [? _]. destruct Hpar as [?|(vr & Hvr & G & _)]; [lia|].
    assert (x = cur k) as -> by (apply (ii_inj _ _ (ti_ident _ T) x (cur k) u vr Hu Hvr); congruence).
    pose proof (proj2 (S1 _) eq_refl) as Hrun. fold (cur k) in Hrun. rewrite (proc_status _ _ _ Hu) in Hrun. congruence.
  - intros x u [Hu|[-> ->]]%Hpr E Hne; [|congruence]. destruct (ti_wait _ T x u Hu E Hne) as [W1 W2]. split.
    + intros Hn. apply W1. intros c vc Hc. apply (Hn c vc). apply Hpr. by left.
    + intros c vc [Hc|[-> ->]]%Hpr; [by apply (W2 c)|]. intros _. congruence.
Qed.

(** A thread of its own joins the table. *)
Definition joined (k k' : kernel) : Prop :=
  ∃ t v k0, born t v k k0 ∧ t ≠ 0 ∧ t ∉ thread_all_list (ts k) ∧ v_status v = TASK_READY ∧
    (v_parent v = -1 ∨ ∃ vc, proc (ts k) (cur k) vc ∧ v_pid vc = v_parent v ∧ v_pgdir vc ≠ 0) ∧
    k' = enlist_all t (enlist_ready t k0).

Lemma joined_inv k k' : table_inv k → joined k k' → table_inv k'.
Proof. intros T (t & v & k0 & B & H0 & Hn & Hst & Hpar & ->). by apply (born_inv t v k). Qed.

(** [k'] is [k] without any record of [t], which is in no list; pids may have been taken. *)
Record dropped (t : Z) (k k' : kernel) : Prop := {
  dr_all : thread_all_list (ts k') = thread_all_list (ts k);
  dr_main : main_thread (ts k') = main_thread (ts k);
  dr_ready : thread_ready_list (ts k') = thread_ready_list (ts k);
  dr_running : running (ts k') = running (ts k);
  dr_idle : idle_thread (ts k') = idle_thread (ts k);
  dr_view : ∀ x, view_of (ts k') x = if decide (x = t) then None else view_of (ts k) x;
  dr_pids : pid_wf (pids k');
  dr_bits : ∀ j, 0 ≤ j → bit_set (pid_bitmap (pids k)) j = true → bit_set (pid_bitmap (pids k')) j = true;
}.

Lemma view_of_forget t k x :
  view_of (ts (forget t k)) x = if decide (x = t) then None else view_of (ts k) x.
Proof.
  unfold view_of, forget. simpl. destruct (decide (x = t)) as [->|]; [by rewrite lookup_delete_eq|].
  by rewrite lookup_delete_ne.
Qed.

Lemma born_forget t v k k1 : born t v k k1 → dropped t k (forget t k1).
Proof.
  intros [B1 B2 B3 B4 B5 B6 B7 B8 B9 B10]. split; try done.
  - intros x. rewrite view_of_forget, B6. by case_decide.
  - intros j Hj Hb. simpl. rewrite B10, Hb by done. apply orb_true_r.
Qed.

Lemma same_forget t k k1 :
  same_view (ts k) (ts k1) → pids k1 = pids k → pid_wf (pids k) → dropped t k (forget t k1).
Proof.
  intros [V1 V2 V3 V4 V5 V6] Hp Hw. split; try done; try (simpl; rewrite ?Hp; done).
  intros x. by rewrite view_of_forget, V6.
Qed.

Lemma dropped_inv t k k' : table_inv k → t ∉ thread_all_list (ts k) → dropped t k k' → table_inv k'.
Proof.
  intros T Hnew [D1 D2 D3 D4 D5 D6 D7 D8]. pose proof T as [[S1 S2 S3 S4] [[I1 I2 I3 I4 I5 I6 I7] T3 T4 T5 T6]].
  assert (Hdead : ∀ st, status_of (ts k) t = Some st → st = TASK_DIED).
  { intros st E. rewrite status_of_view in E. destruct (view_of (ts k) t) as [u|] eqn:Eu; [|done]. injection E as <-.
    destruct (decide (v_status u = TASK_DIED)) as [|Hd]; [done|]. exfalso. apply Hnew, T3. by exists u. }
  assert (Hs : ∀ x st, st ≠ TASK_DIED → status_of (ts k') x = Some st ↔ status_of (ts k) x = Some st).
  { intros x st Hst. rewrite !status_of_view, D6. case_decide as E; [|done]. subst x. rewrite <- status_of_view.
    split; [done|]. intros F. by apply Hdead in F. }
  assert (Hpr : ∀ x u, proc (ts k') x u ↔ proc (ts k) x u).
  { intros x u. unfold proc. rewrite D1, D6. case_decide as E; [|done]. subst x. naive_solver. }
  assert (Hnc : ∀ p, no_child (ts k') p ↔ no_child (ts k) p) by (intros p; unfold no_child; by setoid_rewrite Hpr).
  split; [|split; [split|..]].
  - split; rewrite ?D3, ?D4, ?D5; try done.
    + intros x. by rewrite Hs.
    + intros x. by rewrite Hs.
    + rewrite !elem_of_cons, elem_of_nil in *. by rewrite !Hs.
  - by rewrite D1.
  - specialize (D6 0). unfold view_of in D6 at 2. rewrite I2 in D6. unfold view_of in D6.
    destruct (tasks (ts k') !! 0); [|done]. by case_decide.
  - done.
  - intros x u Hu%Hpr. destruct (I4 x u Hu) as [R F]. split; [done|]. by apply D8; [lia|].
  - intros x x' u u' Hu%Hpr Hu'%Hpr. by apply I5.
  - destruct I6 as (x & u & Hu & ?). exists x, u. by rewrite Hpr.
  - intros x u Hu%Hpr. destruct (I7 x u Hu) as [?|(q & vq & Hq & ?)]; [by left|right]. exists q, vq. by rewrite Hpr.
  - intros x. rewrite D1, D6, T3. case_decide as E; [|done]. subst x. split; [|naive_solver].
    intros F. exfalso. by apply Hnew, T3.
  - intros u Hu. rewrite D5, D6 in Hu. case_decide; [done|]. by apply T4.
  - intros x u Hu%Hpr E. rewrite Hnc. by apply (T5 x u).
  - intros x u Hu%Hpr E H1. rewrite Hnc. destruct (T6 x u Hu E H1) as [W1 W2]. split; [done|].
    intros c vc Hc%Hpr. by apply (W2 c).
Qed.

Definition quiet_view (k k' : kernel) : Prop := same_view (ts k) (ts k') ∧ pids k' = pids k.

#[global] Instance quiet_view_preorder : PreOrder quiet_view.
Proof. split; [by split|]. intros x y z [A1 A2] [B1 B2]. split; [by transitivity (ts y)|congruence]. Qed.

Lemma new_pcb_view k t k' : new_pcb k = Ok (t, k') → quiet_view k k'.
Proof.
  unfold new_pcb. intros H. apply bind_ok_iff in H as ([t1 k1] & H1 & H). injection H as <- <-.
  transitivity k1; [exact (on_mem_view _ _ _ _ H1)|]. by destruct (t1 =? 0).
Qed.

Lemma quiet_cur k k' : quiet_view k k' → cur k' = cur k.
Proof. intros [V _]. apply (sv_running _ _ V). Qed.

Lemma init_thread_inv t nm prio k k' :
  cur k ≠ 0 → pid_wf (pids k) → t ≠ main_thread (ts k) → init_thread t nm prio k = Ok k' →
  t ≠ 0 ∧ ∃ p, born t (PView p (-1) 0 TASK_READY) k k'.
Proof.
  intros Hc Hp Hm H. unfold init_thread in H. destruct (t =? 0) eqn:E0; [done|]. zbool. split; [done|].
  cbv zeta in H. apply bind_ok_iff in H as ([p k1] & H1 & H). exists p. destruct (zlen nm <? TASK_NAME_LEN); [|done].
  injection H as <-. set (k0 := set_kw _ k) in *. assert (Hc0 : cur k0 ≠ 0) by done. assert (Hp0 : pid_wf (pids k0)) by done.
  destruct (new_pid_inv k0 p k1 Hc0 Hp0 H1) as (Et & _). apply (born_before _ _ k k0); [done|done|].
  apply (born_task t _ (init_task (t =? main_thread (ts k1)) t nm prio p) k0 p k1 Hc0 Hp0 H1); [|done].
  rewrite Et. simpl. by rewrite (proj2 (Z.eqb_neq _ _) Hm).
Qed.

Section Creation.
Context (kernel_thread start_process_addr intr_exit_addr : Z).

Lemma thread_create_view t f a k k' : thread_create kernel_thread t f a k = Ok k' → quiet_view k k'.
Proof.
  unfold thread_create. intros H. cbv zeta in H. do 8 (apply bind_ok_iff in H as (? & _ & H)). injection H as <-. split; [|done].
  match goal with |- same_view _ (ts (set_kw _ (set_ts (with_konts _ (upd_task ?f t _)) k))) =>
    by destruct (same_view_upd f t (ts k) (λ _, eq_refl)) as [? ? ? ? ? ?] end.
Qed.


Lemma thread_start_joined nm prio f a t k k' :
  table_inv k → thread_start kernel_thread nm prio f a k = Ok (t, k') → fresh_page k → joined k k'.
Proof.
  intros T H Hf. unfold thread_start in H. apply bind_ok_iff in H as ([t1 k1] & H1 & H).
  destruct (Hf t1 k1 H1) as [Hnew Hm]. pose proof (new_pcb_view _ _ _ H1) as [V1 P1].
  apply bind_ok_iff in H as (k2 & H2 & H). apply bind_ok_iff in H as (k3 & H3 & H). injection H as <- <-.
  apply init_thread_inv in H2 as (H0 & p & B); [|rewrite (quiet_cur k k1) by done; by apply table_cur
    |rewrite P1; apply ti_ident, T|by rewrite (sv_main _ _ V1)].
  apply thread_create_view in H3 as [V3 P3].
  exists t1, (PView p (-1) 0 TASK_READY), k3. split_and!; try done; [|by left].
  apply (born_before _ _ k k1); [done|done|]. by apply (born_after _ _ _ k2).
Qed.

Lemma vaddr_bitmap_view t k k' : create_user_vaddr_bitmap t k = Ok k' → quiet_view k k'.
Proof.
  unfold create_user_vaddr_bitmap. intros H. apply bind_ok_iff in H as ([a k1] & H1 & H). destruct (a =? 0); [done|].
  apply bind_ok_iff in H as (b & _ & H). injection H as <-. transitivity k1; [exact (on_mem_view _ _ _ _ H1)|].
  split; [|done]. exact (same_view_upd (set_uvaddr (VirtualAddr b USER_VADDR_START)) t (ts k1) (λ _, eq_refl)).
Qed.

Lemma process_execute_joined filename nm k k' :
  table_inv k → process_execute kernel_thread start_process_addr filename nm k = Ok k' → fresh_page k → joined k k'.
Proof.
  intros T H Hf. unfold process_execute in H. apply bind_ok_iff in H as ([t1 k1] & H1 & H).
  destruct (Hf t1 k1 H1) as [Hnew Hm]. pose proof (new_pcb_view _ _ _ H1) as [V1 P1].
  apply bind_ok_iff in H as (k2 & H2 & H). apply bind_ok_iff in H as (k3 & H3 & H).
  apply bind_ok_iff in H as (k4 & H4 & H). apply bind_ok_iff in H as ([pd k5] & H5 & H).
  apply bind_ok_iff in H as (w & _ & H). injection H as <-.
  apply init_thread_inv in H2 as (H0 & p & B); [|rewrite (quiet_cur k k1) by done; by apply table_cur
    |rewrite P1; apply ti_ident, T|by rewrite (sv_main _ _ V1)].
  apply vaddr_bitmap_view in H3 as [V3 P3]. apply thread_create_view in H4 as [V4 P4]. apply on_mem_view in H5 as [V5 P5].
  set (k6 := set_ts (upd_task (set_pgdir pd) t1 (ts k5)) k5).
  assert (B6 : born t1 (PView p (-1) pd TASK_READY) k k6).
  { apply (born_pgdir t1 (PView p (-1) 0 TASK_READY)). apply (born_before _ _ k k1); [done|done|].
    apply (born_after _ _ _ k4); [|done|done]. apply (born_after _ _ _ k3); [|done|done]. by apply (born_after _ _ _ k2). }
  exists t1, (PView p (-1) pd TASK_READY), (set_kw w k6). split_and!; try done; [|by left].
  by apply (born_after _ _ _ k6).
Qed.

Lemma copy_pcb_born child parent tk k r k' :
  cur k ≠ 0 → pid_wf (pids k) → tasks (ts k) !! parent = Some tk →
  copy_pcb_vaddrbitmap_stack0 child parent k = Ok (r, k') →
  ∃ p, born child (PView p (pid tk) (pgdir tk) TASK_READY) k k'.
Proof.
  intros Hc Hp Htk H. unfold copy_pcb_vaddrbitmap_stack0 in H. apply bind_ok_iff in H as (t & Ht & H).
  unfold get_task in Ht. rewrite Htk in Ht. injection Ht as <-. apply bind_ok_iff in H as (w & _ & H).
  apply bind_ok_iff in H as ([p k1] & H1 & H). apply bind_ok_iff in H as (w2 & _ & H).
  apply bind_ok_iff in H as ([a k2] & H2 & H). apply on_mem_view in H2 as [V2 P2]. exists p.
  set (k0 := set_kw w k) in *. assert (Hc0 : cur k0 ≠ 0) by done. assert (Hp0 : pid_wf (pids k0)) by done.
  assert (B : born child (PView p (pid tk) (pgdir tk) TASK_READY) k k2).
  { apply (born_before _ _ k k0); [done|done|]. eapply (born_after _ _ _ _ k2); [|exact V2|exact P2].
    by destruct (born_task child _ (child_task p tk) k0 p k1 Hc0 Hp0 H1 eq_refl eq_refl). }
  destruct (a =? 0); injection H as <- <-; [done|]. by apply (born_after _ _ _ k2).
Qed.

Lemma build_stack_view t k k' : build_child_stack intr_exit_addr t k = Ok k' → quiet_view k k'.
Proof.
  unfold build_child_stack. intros H. cbv zeta in H. do 2 (apply bind_ok_iff in H as (? & _ & H)). injection H as <-. split; [|done].
  match goal with |- same_view _ (ts (set_kw _ (set_ts (with_konts _ (upd_task ?f t _)) k))) =>
    by destruct (same_view_upd f t (ts k) (λ _, eq_refl)) as [? ? ? ? ? ?] end.
Qed.

Lemma update_cnts_view t y y' : update_inode_open_cnts t y = Ok y' → sys_view y y'.
Proof.
  unfold update_inode_open_cnts. intros H. do 2 (apply bind_ok_iff in H as (? & _ & H)). injection H as <-. apply put_fs_view.
Qed.

Lemma copy_process_born child parent tk y r y' :
  cur (sk y) ≠ 0 → pid_wf (pids (sk y)) → view_of (ts (sk y)) parent = Some (view tk) →
  copy_process intr_exit_addr child parent y = Ok (r, y') → r ≠ -1 →
  ∃ p pd, born child (PView p (pid tk) pd TASK_READY) (sk y) (sk y').
Proof.
  intros Hc Hp Hv H Hr. unfold copy_process in H. apply bind_ok_iff in H as ([buf k1] & H1 & H).
  apply on_mem_view in H1 as [V1 P1]. destruct (buf =? 0); [by injection H as <- _|].
  apply bind_ok_iff in H as ([r2 k2] & H2 & H).
  assert (Htk : ∃ tk1, tasks (ts k1) !! parent = Some tk1 ∧ view tk1 = view tk).
  { rewrite <- (sv_view _ _ V1) in Hv. unfold view_of in Hv. apply fmap_Some in Hv as (tk1 & ? & ?). by exists tk1. }
  destruct Htk as (tk1 & Htk1 & Ev). assert (Epid : pid tk1 = pid tk) by (unfold view in Ev; congruence).
  apply (copy_pcb_born child parent tk1) in H2 as (p & B); [|rewrite (quiet_cur (sk y) k1) by done; done|by rewrite P1|done].
  destruct (r2 =? -1); [by injection H as <- _|]. apply bind_ok_iff in H as ([pd k3] & H3 & H).
  apply on_mem_view in H3 as [V3 P3]. destruct (pd =? 0); [by injection H as <- _|].
  apply bind_ok_iff in H as (t & _ & H). apply bind_ok_iff in H as (k4 & H4 & H). apply on_mem__view in H4 as [V4 P4].
  apply bind_ok_iff in H as (k5 & H5 & H). apply build_stack_view in H5 as [V5 P5].
  apply bind_ok_iff in H as (y6 & H6 & H). apply update_cnts_view in H6 as [V6 P6].
  apply bind_ok_iff in H as (k7 & H7 & H). apply on_mem__view in H7 as [V7 P7]. injection H as <- <-.
  exists p, pd. apply (born_before _ _ (sk y) k1); [done|done|].
  apply (born_after _ _ _ (sk y6)); [|done|done]. apply (born_after _ _ _ k5); [|done|done].
  apply (born_after _ _ _ k4); [|done|done]. eapply born_after; [|exact V4|exact P4]. rewrite <- Epid.
  apply (born_pgdir child (PView p (pid tk1) (pgdir tk1) TASK_READY)). by apply (born_after _ _ _ k2).
Qed.

Lemma copy_process_failed child parent tk y y' :
  cur (sk y) ≠ 0 → pid_wf (pids (sk y)) → view_of (ts (sk y)) parent = Some (view tk) →
  copy_process intr_exit_addr child parent y = Ok (-1, y') → dropped child (sk y) (forget child (sk y')).
Proof.
  intros Hc Hp Hv H. unfold copy_process in H. apply bind_ok_iff in H as ([buf k1] & H1 & H).
  apply on_mem_view in H1 as [V1 P1]. destruct (buf =? 0); [injection H as <-; by apply same_forget|].
  apply bind_ok_iff in H as ([r2 k2] & H2 & H).
  assert (Htk : ∃ tk1, tasks (ts k1) !! parent = Some tk1).
  { rewrite <- (sv_view _ _ V1) in Hv. unfold view_of in Hv. apply fmap_Some in Hv as (tk1 & ? & ?). by exists tk1. }
  destruct Htk as (tk1 & Htk1).
  apply (copy_pcb_born child parent tk1) in H2 as (p & B); [|rewrite (quiet_cur (sk y) k1) by done; done|by rewrite P1|done].
  assert (B2 : born child (PView p (pid tk1) (pgdir tk1) TASK_READY) (sk y) k2) by (by apply (born_before _ _ (sk y) k1)).
  destruct (r2 =? -1); [injection H as <-; by eapply born_forget|]. apply bind_ok_iff in H as ([pd k3] & H3 & H).
  apply on_mem_view in H3 as [V3 P3].
  assert (B3 := born_pgdir child _ pd _ _ (born_after _ _ _ _ k3 B2 V3 P3)).
  destruct (pd =? 0); [injection H as <-; by eapply born_forget|].
  apply bind_ok_iff in H as (t & _ & H). do 4 (apply bind_ok_iff in H as (? & _ & H)). by injection H.
Qed.

(** A fork adds the child, or fails and adds nothing. *)
Lemma fork_joined p y y' :
  table_inv (sk y) → (∃ v, view_of (ts (sk y)) (cur (sk y)) = Some v ∧ v_pgdir v ≠ 0) →
  sys_fork intr_exit_addr y = Ok (p, y') → fresh_page (sk y) →
  joined (sk y) (sk y') ∨ same_view (ts (sk y)) (ts (sk y')) ∧ pids (sk y') = pids (sk y) ∨
  ∃ c, c ∉ thread_all_list (ts (sk y)) ∧ dropped c (sk y) (sk y').
Proof.
  intros T (v & Hv & Hdir) H Hf. unfold sys_fork in H. apply bind_ok_iff in H as ([t1 k1] & H1 & H).
  destruct (Hf t1 k1 H1) as [Hnew Hm]. pose proof (new_pcb_view _ _ _ H1) as V1. pose proof V1 as [V1a P1].
  destruct (t1 =? 0) eqn:E0; [injection H as _ <-; right; left; done|]. zbool. apply bind_ok_iff in H as ([r y2] & H2 & H).
  destruct (cur_proc _ T) as (tk & Htk & Hproc & _).
  assert (Hc1 : cur (sk (set_sk k1 y)) ≠ 0) by (simpl; rewrite (quiet_cur (sk y) k1) by done; by apply table_cur).
  assert (Hp1 : pid_wf (pids (sk (set_sk k1 y)))) by (simpl; rewrite P1; apply ti_ident, T).
  assert (Hv1 : view_of (ts (sk (set_sk k1 y))) (cur (sk y)) = Some (view tk)) by (simpl; rewrite (sv_view _ _ V1a); apply Hproc).
  destruct (r =? -1) eqn:Er.
  - zbool. injection H as _ <-. right. right. exists t1. split; [done|]. subst r.
    apply (copy_process_failed _ _ tk) in H2; [|done..]. destruct H2 as [D1 D2 D3 D4 D5 D6 D7 D8], V1a as [A1 A2 A3 A4 A5 A6].
    cbn [sk set_sk] in *. split; try congruence; [intros x; by rewrite D6, A6|by rewrite <- P1].
  - zbool. apply (copy_process_born _ _ tk) in H2 as (q & pd & B); [|done..].
    apply bind_ok_iff in H as (t & _ & H). injection H as <- <-. left.
    exists t1, (PView q (pid tk) pd TASK_READY), (sk y2). split_and!; try done; [by apply (born_before _ _ (sk y) k1)|].
    right. exists (view tk). split; [done|]. split; [done|]. destruct Hproc as [_ Hpv]. congruence.
Qed.

Lemma fork_inv p y y' :
  table_inv (sk y) → (∃ v, view_of (ts (sk y)) (cur (sk y)) = Some v ∧ v_pgdir v ≠ 0) →
  sys_fork intr_exit_addr y = Ok (p, y') → fresh_page (sk y) → table_inv (sk y').
Proof.
  intros T Hc H Hf. destruct (fork_joined p y y' T Hc H Hf) as [J|[[V P]|(c & Hn & D)]];
    [by apply (joined_inv (sk y))|by apply (table_view (sk y))|by apply (dropped_inv c (sk y))].
Qed.

Lemma life_step_inv c c' :
  table_inv (sk (sys c)) → life_step kernel_thread start_process_addr intr_exit_addr c c' → table_inv (sk (sys c')).
Proof.
  intros T H. destruct H as [o y W k' Ha _ H|nm prio f arg t y W k' _ H Hf|fn nm y W k' _ H Hf|p y W y' _ Hc H Hf
    |r y W k' H|st y W y' _ H|y W k' _ Hm Hv Hi H]; cbn [sys] in *.
  - by apply (event_inv o (sk y)).
  - apply (joined_inv (sk y)); [done|]. by eapply thread_start_joined.
  - apply (joined_inv (sk y)); [done|]. by eapply process_execute_joined.
  - by apply (fork_inv p y).
  - by apply (wait_inv (sk y) r).
  - by apply (exit_inv st y).
  - by apply (main_exit_inv (sk y)).
Qed.
End Creation.

(** ** Threads inside [sys_wait] *)

(** They are threads of the table that sleep as [sys_wait] lets them sleep, or run. *)
Definition inside (W : gset Z) (s : tstate) : Prop :=
  ∀ t, t ∈ W → t ∈ thread_all_list s ∧ (status_of s t = Some TASK_WAITING ∨ runnable s t).

Lemma inside_step W s s' :
  inside W s → (∀ t, t ∈ W → t ∈ thread_all_list s → t ∈ thread_all_list s') →
  (∀ t, t ∈ W → status_of s t = Some TASK_WAITING → status_of s' t = Some TASK_WAITING ∨ runnable s' t) →
  (∀ t, t ∈ W → runnable s t → runnable s' t) → inside W s'.
Proof. intros Hin Ha Hw Hr t Ht. destruct (Hin t Ht) as [? [?|?]]; split; auto. Qed.

Lemma inside_subset W W' s : W' ⊆ W → inside W s → inside W' s.
Proof. intros Hs Hin t Ht. apply Hin. set_solver. Qed.

Lemma waiting_idle s t : sched_inv s → status_of s t = Some TASK_WAITING → t ≠ idle_thread s ∧ ¬ runnable s t.
Proof.
  intros Hinv Hw. split.
  - intros ->. pose proof (inv_idle _ Hinv) as Hi. rewrite Hw in Hi. set_solver.
  - intros [E|E]; congruence.
Qed.

Lemma frame_inside blk unb W s s' :
  sched_inv s → sched_frame blk unb s s' → thread_all_list s' = thread_all_list s →
  (∀ t, blk = Some t → t ∉ W) → (∀ t, unb = Some t → status_of s t ≠ Some TASK_WAITING) →
  inside W s → inside W s'.
Proof.
  intros Hinv [F1 F2 F3] Hall Hb Hu Hin. apply (inside_step W s); [done|by rewrite Hall|..].
  - intros t Ht Hw. destruct (waiting_idle s t Hinv Hw) as [? ?]. left. rewrite F2; try done.
    intros E. by apply (Hu t E).
  - intros t Ht Hr. apply F3; [done|]. intros E. by apply (Hb t E).
Qed.

Lemma event_inside o W k k' :
  table_inv k → event_allowed o (ts k) → (is_call o = true → cur k ∉ W) → sched_event o k = Ok k' →
  inside W (ts k) → inside W (ts k').
Proof.
  intros T Ha Hc H. apply sched_event_run in H as (s & Hrun & ->). pose proof (ti_sched _ T) as Hinv.
  assert (Hal : op_allowed o (ts k)).
  { destruct o as [| |st|t]; simpl in *; [done..| |].
    - subst st. split; [by left|done].
    - exists TASK_BLOCKED. split; [done|by left]. }
  pose proof (op_frame (v2p k) o (ts k) s Hinv Hal Hrun) as Hf.
  apply (frame_inside _ _ W (ts k) s Hinv Hf); [apply (run_op_ident _ _ _ _ Hrun)|..].
  - intros t E. destruct o; try done. injection E as <-. by apply Hc.
  - intros t E. destruct o; try done. injection E as <-. simpl in Ha. congruence.
Qed.

Lemma joined_inside W k k' : joined k k' → inside W (ts k) → inside W (ts k').
Proof.
  intros (t & v & k0 & [B1 B2 B3 B4 B5 B6 B7 B8 B9 B10] & _ & Hn & _ & _ & ->) Hin x Hx.
  destruct (Hin x Hx) as [Ha Hs]. assert (Hne : x ≠ t) by (by intros ->).
  assert (E : status_of (ts (enlist_all t (enlist_ready t k0))) x = status_of (ts k) x).
  { rewrite !status_of_view. change (view_of (ts (enlist_all t (enlist_ready t k0))) x) with (view_of (ts k0) x).
    by rewrite B6, decide_False. }
  split; [simpl; rewrite B1; set_solver|]. unfold runnable in *. by rewrite E.
Qed.

Lemma view_inside W s s' : same_view s s' → inside W s → inside W s'.
Proof.
  intros [V1 V2 V3 V4 V5 V6] Hin x Hx. destruct (Hin x Hx) as [Ha Hs].
  assert (E : status_of s' x = status_of s x) by (by rewrite !status_of_view, V6).
  split; [by rewrite V1|]. unfold runnable in *. by rewrite E.
Qed.

Lemma dropped_inside W c k k' : c ∉ thread_all_list (ts k) → dropped c k k' → inside W (ts k) → inside W (ts k').
Proof.
  intros Hn [D1 D2 D3 D4 D5 D6 D7 D8] Hin x Hx. destruct (Hin x Hx) as [Ha Hs]. assert (Hne : x ≠ c) by (by intros ->).
  assert (E : status_of (ts k') x = status_of (ts k) x) by (by rewrite !status_of_view, D6, decide_False).
  split; [by rewrite D1|]. unfold runnable in *. by rewrite E.
Qed.

Lemma wait_inside W r k k' :
  table_inv k → sys_wait k = Ok (r, k') → inside W (ts k) → inside (after_wait r (cur k) W) (ts k').
Proof.
  intros T H Hin. destruct (cur_proc k T) as (tk & Htk & Hproc & Hrun). unfold sys_wait in H.
  apply bind_ok_iff in H as (t & Ht & H). unfold get_task in Ht. rewrite Htk in Ht. injection Ht as <-.
  destruct (first_thread (find_hanging_child (pid tk)) (ts k)) as [c|] eqn:E1.
  - apply bind_ok_iff in H as (tc & Htc & H). apply of_opt_ok in Htc.
    apply first_thread_some in E1 as (Hall & tc' & Htc' & Hf). assert (tc' = tc) as -> by congruence.
    apply bind_ok_iff in H as (k1 & H1 & H). injection H as <- <-.
    unfold thread_exit in H1. apply bind_ok_iff in H1 as (k2 & H2 & H1). injection H1 as <-.
    unfold find_hanging_child in Hf. zbool.
    match goal with H : bool_decide _ = true |- _ => apply bool_decide_eq_true in H; rename H into Hst end.
    assert (Hc : proc (ts k) c (view tc)) by (split; [done|]; unfold view_of; by rewrite Htc).
    destruct (thread_remove_inv c tc k k2) as (Hrm & _); [by apply table_cur|apply ti_ident, T|done| |done|].
    { apply (ii_pid _ _ (ti_ident _ T) c (view tc) Hc). }
    cbn [after_wait]. apply (inside_subset W); [set_solver|]. intros x Hx. destruct (Hin x Hx) as [Ha Hs].
    assert (Hcs : status_of (ts k) c = Some TASK_HANGING) by (rewrite (proc_status _ _ _ Hc); simpl; congruence).
    assert (Hne : x ≠ c) by (intros ->; destruct Hs as [?|[?|?]]; congruence).
    assert (E : status_of (ts k2) x = status_of (ts k) x) by (by rewrite (removed_status _ _ _ _ Hrm), decide_False).
    split; [rewrite (rm_all _ _ _ Hrm); by apply elem_without|]. unfold runnable in *. by rewrite E.
  - destruct (first_thread (find_child (pid tk)) (ts k)) as [c|] eqn:E2.
    + apply bind_ok_iff in H as (k1 & H1 & H). injection H as <- <-. apply run_sched_inv in H1 as (s & Hs & ->).
      assert (Hidle : cur k ≠ idle_thread (ts k)) by (by apply (parent_not_idle k tk c)).
      destruct (block_effect TASK_WAITING k s T) as (B1 & B2 & B3 & B4 & B5 & B6); [by left|done|done|].
      intros x Hx. change (ts (set_ts s k)) with s. cbn [after_wait] in Hx. apply elem_of_union in Hx as [->%elem_of_singleton|Hx].
      * split; [rewrite (proj1 B2); apply Hproc|by left].
      * destruct (decide (x = cur k)) as [->|Hne]; [split; [rewrite (proj1 B2); apply Hproc|by left]|].
        assert (Hin' : inside (W ∖ {[cur k]}) s); [|apply Hin'; set_solver].
        apply (frame_inside _ _ _ (ts k) s (ti_sched _ T) B6); [apply B2| |done|by apply (inside_subset W); [set_solver|]].
        intros t [= <-]. set_solver.
    + injection H as <- <-. by apply (inside_subset W); [set_solver|].
Qed.

Lemma exit_inside W st y y' :
  table_inv (sk y) → cur (sk y) ∉ W → sys_exit st y = Ok y' → inside W (ts (sk y)) → inside W (ts (sk y')).
Proof.
  intros T Hc H Hin. destruct (exit_stages_ok st y y' T H) as (tk & k2 & k4 & s & Hst).
  destruct (exit_ends_ok _ _ _ _ _ _ Hst) as [T4 Hid4 Hc4 Hw4 Hwake Hrl4 Hi4 Hni Hcv Hpar B1 B2 B3 B4 B5 B6].
  rewrite (es_end _ _ _ _ _ _ Hst). cbn [ts set_ts].
  apply (frame_inside _ _ W (ts k4) s (ti_sched _ T4) B6); [apply B2| |done|].
  { intros t [= <-]. by rewrite Hc4. }
  intros x Hx. destruct (Hin x Hx) as [Ha Hs].
  destruct (proj1 (ti_all _ T x) Ha) as (v & Hv & _). assert (Hp : proc (ts (sk y)) x v) by done.
  assert (Hp2 : proc (ts k2) x (adopted (pid tk) v)) by (apply (es_adopt _ _ _ _ _ _ Hst); by exists v).
  assert (E2 : status_of (ts k2) x = status_of (ts (sk y)) x).
  { rewrite (proc_status _ _ _ Hp2), (proc_status _ _ _ Hp). by destruct (adopted_fields (pid tk) v) as (_ & _ & -> & _). }
  split; [rewrite (proj1 Hid4); apply Hp2|]. specialize (Hwake x). rewrite E2 in Hwake.
  clear Hrl4. unfold runnable in *. case_decide; rewrite Hwake; [right; by left|done].
Qed.

Lemma main_exit_inside W k k' :
  table_inv k → cur k ∉ W → (∃ v, view_of (ts k) (cur k) = Some v ∧ v_pgdir v = 0 ∧ v_parent v = -1) →
  cur k ≠ idle_thread (ts k) → thread_exit (cur k) true k = Ok k' → inside W (ts k) → inside W (ts k').
Proof.
  intros T HcW Hv0 Hidle H Hin. destruct (main_exit_stages k k' T Hv0 Hidle H) as (k1 & s & Hrm & _ & Hpre & Hs & ->).
  destruct (schedule_ok (v2p k1) (ts k1) (KReturn INTR_OFF) Hpre) as (s' & nx & rest & Hs' & _ & _ & _ & _ & [_ E2]).
  assert (s' = s) as -> by congruence. pose proof (schedule_ident _ _ _ _ Hs) as Hid. intros x Hx. destruct (Hin x Hx) as [Ha Hst].
  assert (Hne : x ≠ cur k) by (by intros ->).
  assert (E : status_of (ts k1) x = status_of (ts k) x) by (by rewrite (removed_status _ _ _ _ Hrm), decide_False).
  split; [simpl; rewrite (proj1 Hid), (rm_all _ _ _ Hrm); by apply elem_without|].
  specialize (E2 x). rewrite E in E2. unfold runnable in *. simpl.
  case_decide; [rewrite E2; right; by right|]. case_decide; rewrite E2; [right; by left|done].
Qed.

Section Inside.
Context (kernel_thread start_process_addr intr_exit_addr : Z).

Lemma life_step_inside c c' :
  table_inv (sk (sys c)) → life_step kernel_thread start_process_addr intr_exit_addr c c' →
  inside (waiters c) (ts (sk (sys c))) → inside (waiters c') (ts (sk (sys c'))).
Proof.
  intros T H. destruct H as [o y W k' Ha Hc H|nm prio f arg t y W k' _ H Hf|fn nm y W k' _ H Hf|p y W y' _ Hc H Hf
    |r y W k' H|st y W y' HcW H|y W k' HcW Hm Hv Hi H]; cbn [sys waiters] in *.
  - by apply (event_inside o W (sk y)).
  - apply (joined_inside W (sk y)). by eapply thread_start_joined.
  - apply (joined_inside W (sk y)). by eapply process_execute_joined.
  - destruct (fork_joined intr_exit_addr p y y' T Hc H Hf) as [J|[[V _]|(c & Hn & D)]];
      [by apply joined_inside|by apply view_inside|by apply (dropped_inside W c)].
  - by apply wait_inside.
  - by apply (exit_inside W st).
  - by apply main_exit_inside.
Qed.

Lemma life_run_inside c c' :
  table_inv (sk (sys c)) → inside (waiters c) (ts (sk (sys c))) →
  life_run kernel_thread start_process_addr intr_exit_addr c c' →
  table_inv (sk (sys c')) ∧ inside (waiters c') (ts (sk (sys c'))).
Proof.
  intros T Hin H. induction H as [|c1 c2 c3 Hstep _ IH]; [done|]. apply IH; [by eapply life_step_inv|by eapply life_step_inside].
Qed.
End Inside.

(** ** Theorems *)

Lemma life_run_inv kernel_thread start_process_addr intr_exit_addr c c' :
  table_inv (sk (sys c)) → life_run kernel_thread start_process_addr intr_exit_addr c c' → table_inv (sk (sys c')).
Proof. intros T H. induction H as [|c1 c2 c3 Hstep _ IH]; [done|]. apply IH. by eapply life_step_inv. Qed.

(** C1: The process table stays well formed.  Over any sequence of scheduler events, thread
    creations, forks, successful or not, waits, exits and the end of the main thread, started
    in a state with the invariant: every thread of the table has a registered pid of its own,
    the scheduler's queues are exact, init is there, the parent of every process is in the
    table, an ended process waits for its parent and has no children left. *)
Theorem process_table_inv kernel_thread start_process_addr intr_exit_addr c c' :
  table_inv (sk (sys c)) → life_run kernel_thread start_process_addr intr_exit_addr c c' → table_inv (sk (sys c')).
Proof. apply life_run_inv. Qed.

Lemma has_child s p : ¬ no_child s p → ∃ c vc, proc s c vc ∧ v_parent vc = p.
Proof.
  intros Hn. destruct (first_thread (find_child p) s) as [c|] eqn:E.
  - apply first_thread_some in E as (Hall & tk & Htk & Hf). unfold find_child in Hf. zbool. exists c, (view tk).
    split; [split; [done|]; unfold view_of; by rewrite Htk|done].
  - exfalso. apply Hn. intros c vc Hc Ec. destruct (proc_task _ _ _ Hc) as (tk & Htk & <-).
    pose proof (first_thread_none _ _ c tk E (proj1 Hc) Htk) as Hf. unfold find_child in Hf. simpl in Ec. zbool. done.
Qed.

(** C2: [sys_wait] loses no wake-up.  Start with no thread inside [sys_wait] and take any
    sequence of steps: a thread that is then inside [sys_wait] is runnable, to go on with its
    loop, or it sleeps; and when it sleeps and is not init, it has a child, and none of its
    children has ended: the exit that wakes it is still to come. *)
Theorem wait_no_lost_wakeup kernel_thread start_process_addr intr_exit_addr c c' t :
  table_inv (sk (sys c)) → waiters c = ∅ →
  life_run kernel_thread start_process_addr intr_exit_addr c c' → t ∈ waiters c' →
  let s := ts (sk (sys c')) in
  runnable s t ∨
  ∃ v, proc s t v ∧ v_status v = TASK_WAITING ∧
    (v_pid v ≠ 1 → (∃ d vd, proc s d vd ∧ v_parent vd = v_pid v) ∧
                   ∀ d vd, proc s d vd → v_parent vd = v_pid v → v_status vd ≠ TASK_HANGING).
Proof.
  intros T HW Hrun Ht s. destruct (life_run_inside kernel_thread start_process_addr intr_exit_addr c c' T) as [T' Hin];
    [rewrite HW; intros x Hx; set_solver|done|].
  destruct (Hin t Ht) as [Hall [Hw|Hr]]; [right|by left].
  rewrite status_of_view in Hw. apply fmap_Some in Hw as (v & Hv & Ew). exists v.
  assert (Hp : proc s t v) by done. split; [done|]. split; [done|]. intros Hne.
  destruct (ti_wait _ T' t v Hp (eq_sym Ew) Hne) as [W1 W2]. split; [by apply has_child|exact W2].
Qed.

(** C3: What [sys_exit] does.  A process that exits stays in the table as HANGING with the low
    byte of its status, signed, as exit status; all its children become children of init and
    nobody else's parent or pid changes.  If its parent sleeps in [sys_wait], the parent runs
    next, and the ready queue stays as it was; otherwise the first thread of the ready queue
    runs next, or idle when it is empty.  No other thread changes its status. *)
Theorem sys_exit_spec st y y' :
  table_inv (sk y) → sys_exit st y = Ok y' →
  ∃ v p vp, proc (ts (sk y)) (cur (sk y)) v ∧ proc (ts (sk y)) p vp ∧
    v_pid vp = (if v_parent v =? v_pid v then 1 else v_parent v) ∧ v_parent v ≠ -1 ∧
    status_of (ts (sk y')) (cur (sk y)) = Some TASK_HANGING ∧
    exit_of (ts (sk y')) (cur (sk y)) = Some (i8 st) ∧
    (∀ t vt, proc (ts (sk y)) t vt → ∃ vt', proc (ts (sk y')) t vt' ∧ v_pid vt' = v_pid vt ∧
       v_parent vt' = (if v_parent vt =? v_pid v then 1 else v_parent vt)) ∧
    (let q := thread_ready_list (ts (sk y)) in
     let q' := if decide (v_status vp = TASK_WAITING) then p :: q else q in
     running (ts (sk y')) = next_thread (idle_thread (ts (sk y))) q' ∧ thread_ready_list (ts (sk y')) = tail q') ∧
    (∀ t vt, proc (ts (sk y)) t vt → t ≠ cur (sk y) → t ≠ running (ts (sk y')) →
       status_of (ts (sk y')) t = Some (v_status vt)).
Proof.
  intros T H. pose proof (sys_exit_stores _ _ _ H) as Hex. destruct (exit_stages_ok st y y' T H) as (tk & k2 & k4 & s & Hst).
  destruct (exit_ends_ok _ _ _ _ _ _ Hst) as [T4 Hid4 Hc4 Hw4 Hwake Hrl Hi4 Hni Hcv Hpar B1 B2 B3 B4 B5 B6].
  destruct Hst as [E1 E2 E3 E4 E5 T2 E7 Hno Hwk Hbl Hend Hq2 Hi2]. pose proof (adopted_fields (pid tk)) as Hf.
  destruct (block_statuses TASK_HANGING k4 s (ti_sched _ T4)) as (Hn & Hr & Hs); [by right|done|done|].
  pose proof (λ t u (Hu : proc (ts (sk y)) t u), proj2 (E5 t _) (ex_intro _ u (conj Hu eq_refl))) as P2.
  destruct (ii_parent _ _ (ti_ident _ T2) (cur (sk y)) _ (P2 _ _ E2)) as [?|(p & vp2 & Hp2 & Ep & _)]; [done|].
  pose proof Hp2 as (vp & Hp & Evp)%E5. pose proof (pid2thread_proc _ _ _ _ (ti_ident _ T2) Hp2) as Ept.
  rewrite Ep in Ept. destruct (Hf vp) as (Fp & _ & Fs & _). rewrite <- Evp in Fp, Fs. rewrite Ept in Hrl, Hwake.
  rewrite (proc_status _ _ _ Hp2), Fs in Hrl.
  exists (view tk), p, vp. split; [done|]. split; [done|]. split.
  { destruct (Hf (view tk)) as (_ & _ & _ & F4). rewrite F4 in Ep. cbn [v_pid view]. congruence. }
  split; [done|]. split; [by rewrite Hend, <- Hc4|]. split; [done|]. rewrite Hend. cbn [ts set_ts]. split; [|split].
  - intros t vt Hvt. destruct (proc_same (ts k4) (ts k2) t (adopted (pid tk) vt)) as (v4 & Hv4 & [= F1 F2 F3]);
      [by apply same_ident_sym|by apply P2|].
    destruct (proc_same s (ts k4) t v4) as (v5 & Hv5 & [= G1 G2 G3]); [by apply same_ident_sym|done|].
    exists v5. split; [done|]. destruct (Hf vt) as (A1 & _ & _ & A4). simpl. rewrite <- A4. split; congruence.
  - cbv zeta. rewrite Hn, Hr, Hrl, Hi4, Hq2, Hi2. destruct (decide (v_status vp = TASK_WAITING)) as [E|E];
      [by rewrite decide_True by congruence|by rewrite decide_False by congruence].
  - intros t vt Hvt Htc Htr. rewrite Hs, decide_False, decide_False by (done || by rewrite Hc4). rewrite Hwake.
    rewrite (proc_status _ _ _ (P2 t vt Hvt)). destruct (Hf vt) as (_ & _ & -> & _). rewrite decide_False; [done|].
    intros [-> E]. apply Htr. assert (vt = vp) as -> by (destruct Hvt, Hp; congruence).
    rewrite Hn, Hrl, decide_True; [done|done].
Qed.

(** Init misses adopted children that have already ended.  When a process exits while init
    sleeps in [sys_wait], and its parent is another process, its children that have ended
    become children of init, but init is not woken: it sleeps although it has an ended child. *)
Theorem init_misses_adopted st y y' ti vi v q vq c vc :
  table_inv (sk y) → sys_exit st y = Ok y' →
  proc (ts (sk y)) ti vi → v_pid vi = 1 → v_status vi = TASK_WAITING →
  proc (ts (sk y)) (cur (sk y)) v → proc (ts (sk y)) q vq → v_pid vq = v_parent v →
  q ≠ cur (sk y) → q ≠ ti →
  proc (ts (sk y)) c vc → v_parent vc = v_pid v → v_status vc = TASK_HANGING →
  status_of (ts (sk y')) ti = Some TASK_WAITING ∧
  ∃ vc', proc (ts (sk y')) c vc' ∧ v_parent vc' = 1 ∧ v_status vc' = TASK_HANGING.
Proof.
  intros T H Hi Ei1 Ei2 Hv Hq Eq Hqc Hqi Hc Ec1 Ec2.
  destruct (exit_stages_ok st y y' T H) as (tk & k2 & k4 & s & Hst).
  destruct (exit_ends_ok _ _ _ _ _ _ Hst) as [T4 Hid4 Hc4 Hw4 Hoth _ _ _ Hcv Hpar B1 B2 B3 B4 B5 B6].
  destruct Hst as [E1 E2 E3 E4 E5 T2 E7 Hno Hwk Hbl Hend _ _]. rewrite Hend. cbn [ts set_ts].
  assert (v = view tk) as -> by (destruct Hv, E2; congruence).
  pose proof (adopted_fields (pid tk)) as Hf. pose proof (λ t u (Hu : proc (ts (sk y)) t u), proj2 (E5 t _) (ex_intro _ u (conj Hu eq_refl))) as P2.
  assert (Hnp : v_parent (view tk) ≠ pid tk).
  { intros E. apply Hqc. apply (ii_inj _ _ (ti_ident _ T) q (cur (sk y)) vq (view tk)); simpl in *; congruence. }
  assert (Epa : v_parent (adopted (pid tk) (view tk)) = v_pid vq).
  { destruct (Hf (view tk)) as (_ & _ & _ & ->). rewrite (proj2 (Z.eqb_neq _ _) Hnp). congruence. }
  assert (Hpt : pid2thread (v_parent (adopted (pid tk) (view tk))) (ts k2) = q).
  { rewrite Epa. destruct (Hf vq) as (<- & _). apply (pid2thread_proc _ (pids k2)); [apply T2|by apply P2]. }
  rewrite Hpt in Hoth. pose proof (proj2 (inv_running _ (ti_sched _ T) _) eq_refl) as Hrun. fold (cur (sk y)) in Hrun.
  assert (Hkeep : ∀ t u st0, proc (ts (sk y)) t u → v_status u = st0 → st0 = TASK_WAITING ∨ st0 = TASK_HANGING →
    t ≠ q → status_of s t = Some st0).
  { intros t u st0 Hu Es Hs0 Hne. apply (B5 t).
    - rewrite Hc4. intros ->. rewrite (proc_status _ _ _ Hu) in Hrun. destruct Hs0; congruence.
    - destruct Hs0; set_solver.
    - rewrite Hoth, decide_False by (by intros [? _]). rewrite (proc_status _ _ _ (P2 t u Hu)). by destruct (Hf u) as (_ & _ & -> & _); rewrite Es. }
  assert (Hcq : c ≠ q).
  { intros ->. assert (vq = vc) as -> by (destruct Hq, Hc; congruence). destruct (ti_hang _ T q vc Hc Ec2) as [_ Hn].
    apply (Hn (cur (sk y)) (view tk) E2). congruence. }
  split; [by apply (Hkeep ti vi); [| |left|]|].
  destruct (proc_same (ts k4) (ts k2) c (adopted (pid tk) vc)) as (v4 & Hv4 & [= F1 F2 F3]); [by apply same_ident_sym|by apply P2|].
  destruct (proc_same s (ts k4) c v4) as (v5 & Hv5 & [= G1 G2 G3]); [by apply same_ident_sym|done|].
  exists v5. split; [done|]. split.
  - rewrite G2, F2. destruct (Hf vc) as (_ & _ & _ & ->). by rewrite Ec1, Z.eqb_refl.
  - pose proof (Hkeep c vc TASK_HANGING Hc Ec2 (or_intror eq_refl) Hcq) as Hs. rewrite (proc_status _ _ _ Hv5) in Hs.
    by injection Hs.
Qed.

(** ** wait returns *)

(** The PCBs and page directories of the table are pages of the kernel heap. *)
Definition table_pages (k : kernel) : Prop :=
  pages_inv PF_KERNEL (cur_mem k) ∧
  ∀ t v, proc (ts k) t v →
    (t ≠ main_thread (ts k) → live PF_KERNEL (cur_mem k) t) ∧
    (v_pgdir v ≠ 0 → live PF_KERNEL (cur_mem k) (v_pgdir v) ∧ v_pgdir v ≠ t).

(** What the memory of the running thread depends on. *)
Lemma cur_mem_ext k k' :
  km k' = km k → cr3 (ts k') = cr3 (ts k) → running (ts k') = running (ts k) →
  (λ t, (pgdir t, userprog_vaddr t)) <$> tasks (ts k') !! cur k = (λ t, (pgdir t, userprog_vaddr t)) <$> tasks (ts k) !! cur k →
  cur_mem k' = cur_mem k.
Proof.
  intros H1 H2 H3 H4. unfold cur_mem. assert (Hc : cur k' = cur k) by exact H3. rewrite Hc, H1, H2.
  destruct (tasks (ts k') !! cur k), (tasks (ts k) !! cur k); try done. by injection H4 as -> ->.
Qed.

Lemma cur_mem_put m k t :
  tasks (ts k) !! cur k = Some t → cur_thread m = cur k → cur_pgdir m = pgdir t → cur_mem (put_mem m k) = m.
Proof.
  intros Ht H1 H2. unfold cur_mem. change (cur (put_mem m k)) with (cur k).
  change (tasks (ts (put_mem m k))) with (alter (set_uvaddr (cur_vaddr m)) (cur k) (tasks (ts k))).
  rewrite lookup_alter_eq, Ht. simpl. rewrite <- H1, <- H2. by destruct m.
Qed.

(** Kernel page [q] was given back, and nothing else changed hands. *)
Record one_freed (q : Z) (m m' : mstate) : Prop := {
  of_start : vaddr_start (kernel_vaddr m') = vaddr_start (kernel_vaddr m);
  of_others : ∀ i r, mapped_at PF_KERNEL m i r → vpage PF_KERNEL m i ≠ q → mapped_at PF_KERNEL m' i r;
  of_shrink : bits_shrink PF_KERNEL m m';
  of_freed : freed PF_KERNEL m m' q;
}.

(** The pages of [l] were given back, and nothing else. *)
Record pages_freed (l : list Z) (m m' : mstate) : Prop := {
  pf_start : vaddr_start (kernel_vaddr m') = vaddr_start (kernel_vaddr m);
  pf_others : ∀ i r, mapped_at PF_KERNEL m i r → vpage PF_KERNEL m i ∉ l → mapped_at PF_KERNEL m' i r;
  pf_freed : ∀ q, q ∈ l → freed PF_KERNEL m m' q;
}.

Lemma pages_freed_nil m : pages_freed [] m m.
Proof. split; [done|by intros i r H _|]. intros q Hq. set_solver. Qed.

Lemma pages_freed_snoc l q m m1 m2 :
  q ∉ l → pages_freed l m m1 → one_freed q m1 m2 → pages_freed (l ++ [q]) m m2.
Proof.
  intros Hq [A1 A2 A3] [B1 B2 B3 B4].
  assert (Hvp : ∀ i, vpage PF_KERNEL m1 i = vpage PF_KERNEL m i) by (intros i; unfold vpage; simpl; by rewrite A1).
  split; [congruence| |].
  - intros i r Hir Hn. apply B2; [apply A2; [done|set_solver]|rewrite Hvp; set_solver].
  - intros x Hx i r -> Hir. apply elem_of_app in Hx as [Hx|Hx%list_elem_of_singleton].
    + destruct (A3 _ Hx i r eq_refl Hir) as [F1 F2]. pose proof (ma_page _ _ _ _ Hir). pose proof (ma_frame _ _ _ _ Hir).
      split; [by apply (B3 i); [lia|]|by apply (B3 r); [lia|]].
    + apply (B4 i r); [by rewrite Hvp|]. apply A2; [done|congruence].
Qed.

(** Freeing one kernel page. *)
Lemma free_page_ok q k t :
  tasks (ts k) !! cur k = Some t → pages_inv PF_KERNEL (cur_mem k) → live PF_KERNEL (cur_mem k) q →
  ∃ k', on_mem_ (mfree_page PF_KERNEL q 1) k = Ok k' ∧ pages_inv PF_KERNEL (cur_mem k') ∧
    one_freed q (cur_mem k) (cur_mem k').
Proof.
  intros Ht Hp Hl. destruct (mfree_keeps PF_KERNEL q 1 (cur_mem k) Hp) as (m & Hm & Hp' & Hv' & Hl' & Hm' & Hsh & Hfr); [lia| |].
  { intros j Hj. by replace (q + j * 4096) with q by lia. }
  exists (put_mem m k). unfold on_mem_. mrun Hm. split; [done|].
  pose proof (mfree_page_rest _ _ _ _ _ Hm) as Hr. unfold rest in Hr.
  assert (Hcm : cur_thread (cur_mem k) = cur k ∧ cur_pgdir (cur_mem k) = pgdir t) by (unfold cur_mem; by rewrite Ht).
  destruct Hcm as [C1 C2]. rewrite (cur_mem_put m k t Ht) by congruence. split; [done|].
  split; [done| |done|apply Hfr; lia]. intros i r Hir Hne. apply Hm'; [done|].
  assert (Hi : live PF_KERNEL (cur_mem k) (vpage PF_KERNEL (cur_mem k) i)) by (by exists i, r).
  destruct (live_page _ _ _ Hp Hi) as [_ ?], (live_page _ _ _ Hp Hl) as [_ ?]. zdm.
Qed.

Lemma release_pid_ok c p r :
  c ≠ 0 → pid_wf p → 1 ≤ r ≤ 1024 → ∃ p', release_pid c r p = Ok (None, p').
Proof.
  intros Hc [P1 P2 P3 P4 P5] Hr. unfold release_pid. rewrite P5, lock_free_acquire by done.
  cbn [mbind outcome_bind]. rewrite P4, i32_u32, i32_small by lia.
  destruct (bitmap_set_ok (pid_bitmap p) (r - 1) 0 P1) as (b & Hb & _); [lia|]. rewrite Hb. simpl. eauto.
Qed.

Lemma drop_pid_ok k p :
  cur k ≠ 0 → pid_wf (pids k) → 1 ≤ p ≤ 1024 → ∃ pp, drop_pid p k = Ok (set_pids pp k).
Proof.
  intros Hc Hp Hr. destruct (release_pid_ok (cur k) (pids k) p Hc Hp Hr) as [pp Hpp]. exists pp.
  unfold drop_pid. by mrun Hpp.
Qed.

Lemma on_mem__task f k k' t tk :
  on_mem_ f k = Ok k' → tasks (ts k) !! t = Some tk → ∃ tk', tasks (ts k') !! t = Some tk'.
Proof.
  unfold on_mem_. intros H Ht. apply bind_ok_iff in H as (m & _ & H). injection H as <-.
  change (tasks (ts (put_mem m k))) with (alter (set_uvaddr (cur_vaddr m)) (cur k) (tasks (ts k))).
  destruct (decide (cur k = t)) as [<-|]; [rewrite lookup_alter_eq, Ht; simpl; eauto|].
  exists tk. by rewrite lookup_alter_ne.
Qed.

(** The kernel pages of a thread: its page directory and its PCB. *)
Definition own_pages (main c : Z) (t : task) : list Z :=
  (if pgdir t =? 0 then [] else [pgdir t]) ++ (if c =? main then [] else [c]).

Lemma thread_remove_ok c tk k :
  table_inv k → tasks (ts k) !! c = Some tk → c ∈ thread_all_list (ts k) → c ≠ cur k → table_pages k →
  ∃ k', thread_remove c k = Ok k' ∧ pages_inv PF_KERNEL (cur_mem k') ∧
    pages_freed (own_pages (main_thread (ts k)) c tk) (cur_mem k) (cur_mem k').
Proof.
  intros T Htk Hall Hne [Hp Hpg]. destruct (cur_proc k T) as (tr & Htr & _ & _).
  assert (Hc : proc (ts k) c (view tk)) by (split; [done|]; unfold view_of; by rewrite Htk).
  destruct (Hpg c (view tk) Hc) as [Hlc Hld]. simpl in Hld. unfold thread_remove. cbv zeta.
  match goal with |- context [get_task ?s c] => mrun (get_task_ok s c tk Htk) end.
  match goal with |- context [if pgdir tk =? 0 then Ok ?x else _] => set (k0 := x) end.
  assert (E0 : cur_mem k0 = cur_mem k ∧ cur k0 = cur k ∧ pids k0 = pids k ∧ thread_all_list (ts k0) = thread_all_list (ts k) ∧
    main_thread (ts k0) = main_thread (ts k) ∧ tasks (ts k0) !! cur k = Some tr).
  { split; [apply cur_mem_ext|split_and!]; subst k0; destruct (bool_decide _); try done; simpl;
      by rewrite lookup_alter_ne by done. }
  destruct E0 as (M0 & C0 & P0 & A0 & N0 & T0). clearbody k0. rewrite <- C0 in T0.
  assert (H1 : ∃ k1, (if pgdir tk =? 0 then Ok k0 else on_mem_ (mfree_page PF_KERNEL (pgdir tk) 1) k0) = Ok k1 ∧
    pages_inv PF_KERNEL (cur_mem k1) ∧ quiet_view k0 k1 ∧ (∃ tr1, tasks (ts k1) !! cur k1 = Some tr1) ∧
    pages_freed (if pgdir tk =? 0 then [] else [pgdir tk]) (cur_mem k) (cur_mem k1)).
  { destruct (pgdir tk =? 0) eqn:Ed.
    - exists k0. rewrite M0. split; [done|]. split; [done|]. split; [done|]. split; [by exists tr|apply pages_freed_nil].
    - zbool. destruct (Hld Ed) as [Hl Hx]. destruct (free_page_ok (pgdir tk) k0 tr) as (k1 & Hk1 & Hp1 & Hl1); [done|by rewrite M0..|].
      exists k1. pose proof (on_mem__view _ _ _ Hk1) as V1. pose proof (quiet_cur _ _ V1) as C1.
      split; [done|]. split; [done|]. split; [done|]. split; [rewrite C1; by eapply on_mem__task|].
      rewrite M0 in Hl1. apply (pages_freed_snoc [] _ _ (cur_mem k)); [set_solver|apply pages_freed_nil|done]. }
  destruct H1 as (k1 & -> & Hp1 & V1 & (tr1 & T1) & Hl1). cbn [mbind outcome_bind].
  rewrite (sv_all _ _ (proj1 V1)), A0, bool_decide_true by done. cbn [mbind outcome_bind].
  set (k2 := set_ts (with_all _ (ts k1)) k1).
  assert (M2 : cur_mem k2 = cur_mem k1) by (by apply cur_mem_ext).
  assert (H3 : ∃ k3, (if c =? main_thread (ts k2) then Ok k2 else on_mem_ (mfree_page PF_KERNEL c 1) k2) = Ok k3 ∧
    pages_inv PF_KERNEL (cur_mem k3) ∧ quiet_view k2 k3 ∧
    pages_freed (own_pages (main_thread (ts k)) c tk) (cur_mem k) (cur_mem k3)).
  { change (main_thread (ts k2)) with (main_thread (ts k1)). rewrite (sv_main _ _ (proj1 V1)), N0. unfold own_pages.
    destruct (c =? main_thread (ts k)) eqn:Em; zbool; [exists k2; rewrite M2, app_nil_r; done|].
    assert (Hcn : c ∉ (if pgdir tk =? 0 then [] else [pgdir tk])).
    { destruct (pgdir tk =? 0) eqn:Ed; [set_solver|]. zbool. destruct (Hld Ed) as [_ ?]. set_solver. }
    destruct (free_page_ok c k2 tr1) as (k3 & Hk3 & Hp3 & Hf3); [done|by rewrite M2| |].
    { rewrite M2. destruct (Hlc Em) as (i & r & Ei & Hir). exists i, r. pose proof (pf_start _ _ _ Hl1) as Es.
      split; [unfold vpage in *; simpl in *; congruence|]. apply (pf_others _ _ _ Hl1); [done|congruence]. }
    exists k3. split; [done|]. split; [done|]. split; [exact (on_mem__view _ _ _ Hk3)|].
    rewrite M2 in Hf3. by apply (pages_freed_snoc _ _ _ (cur_mem k1)). }
  destruct H3 as (k3 & -> & Hp3 & V3 & Hf3). cbn [mbind outcome_bind].
  destruct (drop_pid_ok k3 (pid tk)) as (pp & Hd).
  - rewrite (quiet_cur _ _ V3). change (cur k2) with (cur k1). rewrite (quiet_cur _ _ V1), C0. by apply table_cur.
  - rewrite (proj2 V3). change (pids k2) with (pids k1). rewrite (proj2 V1), P0. apply ti_ident, T.
  - apply (ii_pid _ _ (ti_ident _ T) c (view tk) Hc).
  - eexists. split; [exact Hd|]. rewrite (cur_mem_ext k3) by done. done.
Qed.

(** C4: [sys_wait] on every branch.  In a well-formed table whose PCBs and page directories are
    live kernel pages, in the address space of the caller, the call never faults.  Without
    children it returns -1 and changes nothing.  With children of which none has ended the caller
    sleeps as WAITING, the first thread of the ready queue or else idle runs, and nothing else
    changes.  Otherwise the first ended child is reaped: it leaves the table, its pid is free
    again, its page directory and its PCB are given back, pages and frames, and nothing else is;
    its pid and exit status are the results. *)
Theorem sys_wait_spec k tk :
  table_inv k → tasks (ts k) !! cur k = Some tk → table_pages k →
  match first_thread (find_hanging_child (pid tk)) (ts k), first_thread (find_child (pid tk)) (ts k) with
  | Some c, _ => ∃ tc k', tasks (ts k) !! c = Some tc ∧
      sys_wait k = Ok (WReaped (pid tc) (exit_status tc), k') ∧ table_inv k' ∧ pages_inv PF_KERNEL (cur_mem k') ∧
      thread_all_list (ts k') = without c (thread_all_list (ts k)) ∧
      bit_set (pid_bitmap (pids k')) (pid tc - 1) = false ∧
      (∀ t v, proc (ts k') t v ↔ proc (ts k) t v ∧ t ≠ c) ∧
      pages_freed (own_pages (main_thread (ts k)) c tc) (cur_mem k) (cur_mem k')
  | None, None => sys_wait k = Ok (WNoChild, k)
  | None, Some _ => ∃ s, sys_wait k = Ok (WAsleep, set_ts s k) ∧ table_inv (set_ts s k) ∧
      status_of s (cur k) = Some TASK_WAITING ∧ same_ident (ts k) s ∧
      running s = next_thread (idle_thread (ts k)) (thread_ready_list (ts k)) ∧
      thread_ready_list s = tail (thread_ready_list (ts k)) ∧
      ∀ t, t ≠ cur k → t ≠ running s → status_of s t = status_of (ts k) t
  end.
Proof.
  intros T Htk Hpg. destruct (cur_proc k T) as (tk' & Htk' & Hproc & Hrun). assert (tk' = tk) as -> by congruence.
  unfold sys_wait. cbv zeta. mrun (get_task_ok (ts k) (cur k) tk Htk).
  destruct (first_thread (find_hanging_child (pid tk)) (ts k)) as [c|] eqn:E1.
  - apply first_thread_some in E1 as (Hall & tc & Htc & Hf). unfold find_hanging_child in Hf. zbool.
    match goal with H : bool_decide _ = true |- _ => apply bool_decide_eq_true in H; rename H into Hst end.
    assert (Hc : proc (ts k) c (view tc)) by (split; [done|]; unfold view_of; by rewrite Htc).
    assert (Hne : c ≠ cur k) by (intros ->; congruence).
    pose proof (ii_pid _ _ (ti_ident _ T) c _ Hc) as [Hpid _]. simpl in Hpid.
    destruct (thread_remove_ok c tc k T Htc Hall Hne Hpg) as (k' & Hk' & Hp' & Hfr).
    exists tc, k'. split; [done|]. mrun (get_task_ok (ts k) c tc Htc). unfold thread_exit. mrun Hk'.
    destruct (thread_remove_inv c tc k k') as (Hrm & _ & Hb); [by apply table_cur|apply ti_ident, T|done..|].
    split; [|split; [|split; [|split; [|split; [|split]]]]].
    + do 3 f_equal. unfold i16, u16. zdm.
    + apply (reap_inv c (view tc) k k' T Hc Hst); [|done]. exists (view tk). split; [done|]. simpl. congruence.
    + done.
    + apply (rm_all _ _ _ Hrm).
    + rewrite Hb, bool_decide_true by (done || lia). done.
    + intros t v. by apply removed_proc.
    + done.
  - destruct (first_thread (find_child (pid tk)) (ts k)) as [c|] eqn:E2; [|done].
    assert (Hidle : cur k ≠ idle_thread (ts k)) by (by apply (parent_not_idle k tk c)). pose proof E2 as E2'.
    apply first_thread_some in E2 as (Hall & tc & Htc & Hf). unfold find_child in Hf. zbool.
    assert (Hc : proc (ts k) c (view tc)) by (split; [done|]; unfold view_of; by rewrite Htc).
    destruct (thread_block_ok (v2p k) TASK_WAITING (ts k) (ti_sched _ T)) as (s & Hs & Hinv & _ & _); [right; by left|done|].
    assert (Hid : same_ident (ts k) s) by (by apply (run_op_ident (v2p k) (OpBlock TASK_WAITING))).
    destruct (sched_inv_task _ Hinv) as [tn Htn]. unfold run_sched. mrun Hs. mrun (get_task_ok _ _ _ Htn).
    assert (Hn : proc s (running s) (view tn)).
    { destruct (block_effect TASK_WAITING k s T (or_introl eq_refl) Hidle Hs) as (_ & _ & _ & Hw & Hq & _).
      assert (Hsr : status_of s (running s) = Some TASK_RUNNING) by (by apply (inv_running _ Hinv)).
      assert (Hrc : running s ≠ cur k) by (intros E; rewrite E in Hsr; congruence).
      split; [|unfold view_of; by rewrite Htn]. rewrite (proj1 Hid). apply (ti_all _ T).
      destruct Hid as (_ & _ & Hi). specialize (Hi (running s)). unfold ident_of in Hi.
      assert (Hvs : view_of s (running s) = Some (view tn)) by (unfold view_of; by rewrite Htn). rewrite Hvs in Hi.
      destruct (view_of (ts k) (running s)) as [v0|] eqn:E0; [|done]. exists v0. split; [done|]. intros Ed.
      assert (F : status_of s (running s) = Some TASK_DIED); [|congruence].
      apply (Hq _ Hrc); [set_solver|]. rewrite status_of_view, E0. simpl. congruence. }
    assert (Hv2p : is_ok (if pgdir tn =? 0 then Ok 0 else addr_v2p (pgdir tn) (cur_mem k))).
    { destruct (pgdir tn =? 0) eqn:Ed; [by eexists|]. zbool. destruct Hpg as [Hp Hpg].
      destruct (proc_same _ _ _ _ Hid Hn) as (v0 & Hv0 & [= F1 F2 F3]). destruct (Hpg _ _ Hv0) as [_ Hl].
      destruct Hl as [Hl _]; [congruence|]. rewrite F3 in Hl. by apply (live_v2p PF_KERNEL). }
    destruct Hv2p as [x Hx]. rewrite Hx. cbn [mbind outcome_bind]. exists s. split; [done|].
    destruct (block_effect TASK_WAITING k s T (or_introl eq_refl) Hidle Hs) as (_ & _ & _ & Hw & _ & _).
    destruct (block_statuses TASK_WAITING k s (ti_sched _ T) (or_introl eq_refl) Hidle Hs) as (S1 & S2 & S3).
    split; [|split_and!; try done].
    + apply (wait_inv k WAsleep (set_ts s k) T). unfold sys_wait. mrun (get_task_ok (ts k) (cur k) tk Htk). rewrite E1, E2'.
      unfold run_sched. mrun Hs. mrun (get_task_ok _ _ _ Htn). by mrun Hx.
    + intros t Hne Hnr. by rewrite S3, decide_False, decide_False.
Qed.

(** The premise on new pages holds when the table's pages are live. *)
Lemma fresh_page_ok k :
  table_inv k → table_pages k → 0 < main_thread (ts k) < vaddr_start (kernel_vaddr (km k)) → fresh_page k.
Proof.
  intros T [Hp Hpg] Hm t k' H. unfold new_pcb in H. apply bind_ok_iff in H as ([t1 k1] & H1 & H). injection H as -> _.
  unfold on_mem in H1. apply bind_ok_iff in H1 as ([t2 m] & H1 & H2). injection H2 as -> _.
  unfold get_kernel_pages in H1. apply bind_ok_iff in H1 as ([v m1] & H1 & H2).
  assert (v = t) as ->.
  { destruct (v =? 0); [by injection H2 as -> _|]. apply bind_ok_iff in H2 as (m2 & _ & H2). by injection H2 as -> _. }
  destruct (malloc_keeps PF_KERNEL 1 (cur_mem k) t m1 Hp ltac:(lia) H1) as (_ & _ & _ & Hnew).
  destruct (decide (t = 0)) as [->|Hne].
  - split; [|lia]. rewrite (ti_all _ T). intros (v & Hv & _). unfold view_of in Hv.
    by rewrite (ii_null _ _ (ti_ident _ T)) in Hv.
  - destruct (Hnew Hne) as (_ & Hlo & _ & Hl). destruct (Hl 0) as [Hnl _]; [lia|]. rewrite Z.add_0_r in Hnl.
    assert (Htm : t ≠ main_thread (ts k)).
    { unfold get_vaddr, cur_mem in Hlo. destruct (tasks (ts k) !! cur k); simpl in Hlo; lia. }
    split; [|done]. intros Hin. pose proof Hin as Hin'. apply (ti_all _ T) in Hin' as (v & Hv & _).
    destruct (Hpg t v) as [Hx _]; [by split|]. by apply Hnl, Hx.
Qed.

(** ** Witnesses *)

(** A table with finitely many threads, checked thread by thread. *)
Definition threads (s : tstate) : list (Z * task) := map_to_list (tasks s).

Definition table_ok (k : kernel) : Prop :=
  let s := ts k in
  let L := threads s in
  let all := thread_all_list s in
  Forall (λ x, (status x.2 = TASK_RUNNING ↔ x.1 = running s) ∧ (status x.2 = TASK_READY ↔ x.1 ∈ thread_ready_list s) ∧
               status x.2 ≠ TASK_DIED ∧ x.1 ∈ all ∧ x.1 ≠ 0 ∧
               (1 ≤ pid x.2 ≤ 1024 ∧ bit_set (pid_bitmap (pids k)) (pid x.2 - 1) = true) ∧
               Forall (λ z, pid x.2 = pid z.2 → x.1 = z.1) L ∧
               (parent_pid x.2 = -1 ∨ Exists (λ z, pid z.2 = parent_pid x.2 ∧ pgdir z.2 ≠ 0) L) ∧
               (status x.2 = TASK_HANGING → parent_pid x.2 ≠ -1 ∧ Forall (λ z, parent_pid z.2 ≠ pid x.2) L) ∧
               (status x.2 = TASK_WAITING → pid x.2 ≠ 1 → Exists (λ z, parent_pid z.2 = pid x.2) L ∧
                  Forall (λ z, parent_pid z.2 = pid x.2 → status z.2 ≠ TASK_HANGING) L)) L ∧
  Forall (λ t, is_Some (tasks s !! t)) (running s :: thread_ready_list s ++ all) ∧
  NoDup (thread_ready_list s) ∧ NoDup all ∧
  (status <$> tasks s !! idle_thread s) ∈ [Some TASK_RUNNING; Some TASK_READY; Some TASK_BLOCKED] ∧
  Forall (λ x, x.1 = idle_thread s → pgdir x.2 = 0 ∧ parent_pid x.2 = -1) L ∧
  Exists (λ x, pid x.2 = 1 ∧ parent_pid x.2 = -1 ∧ pgdir x.2 ≠ 0) L.

#[global] Instance table_ok_dec k : Decision (table_ok k).
Proof. unfold table_ok. apply _. Defined.

Lemma threads_elem s t tk : tasks s !! t = Some tk ↔ (t, tk) ∈ threads s.
Proof. unfold threads. by rewrite elem_of_map_to_list. Qed.

Lemma table_ok_inv k : pid_wf (pids k) → table_ok k → table_inv k.
Proof.
  intros Hpw H. unfold table_ok in H. cbv zeta in H. destruct H as (HL & Hdom & Hn1 & Hn2 & Hidle & Hidle2 & Hinit).
  pose proof (proj1 (Forall_forall _ _) Hdom) as Hdom'. clear Hdom. rename Hdom' into Hdom.
  pose proof (proj1 (Forall_forall _ _) Hidle2) as Hidle2'. clear Hidle2. rename Hidle2' into Hidle2.
  pose proof (λ t tk Ht, proj1 (Forall_forall _ _) HL (t, tk) (proj1 (threads_elem (ts k) t tk) Ht)) as Hx.
  cbn [fst snd] in Hx. assert (Hpt : ∀ t v, proc (ts k) t v → ∃ tk, tasks (ts k) !! t = Some tk ∧ v = view tk).
  { intros t v Hv. destruct (proc_task _ _ _ Hv) as (tk & ? & <-). by exists tk. }
  assert (Htp : ∀ t tk, tasks (ts k) !! t = Some tk → proc (ts k) t (view tk)).
  { intros t tk Ht. split; [apply (Hx t tk Ht)|]. unfold view_of. by rewrite Ht. }
  assert (Hst : ∀ t st, status_of (ts k) t = Some st ↔ ∃ tk, tasks (ts k) !! t = Some tk ∧ status tk = st).
  { intros t st. unfold status_of. rewrite fmap_Some. naive_solver. }
  split; [split|split; [split|..]].
  - intros t. rewrite Hst. split.
    + intros (tk & Ht & E). by apply (Hx t tk Ht).
    + intros ->. destruct (Hdom (running (ts k))) as [tk Ht]; [set_solver|]. exists tk. split; [done|]. by apply (Hx _ tk Ht).
  - intros t. rewrite Hst. split.
    + intros (tk & Ht & E). by apply (Hx t tk Ht).
    + intros Hin. destruct (Hdom t) as [tk Ht]; [set_solver|]. exists tk. split; [done|]. by apply (Hx _ tk Ht).
  - done.
  - exact Hidle.
  - done.
  - destruct (tasks (ts k) !! 0) as [tk|] eqn:E; [|done]. by destruct (Hx 0 tk E) as (_ & _ & _ & _ & ? & _).
  - done.
  - intros t v Hv. destruct (Hpt t v Hv) as (tk & Ht & ->). by destruct (Hx t tk Ht) as (_ & _ & _ & _ & _ & ? & _).
  - intros t t' v v' Hv Hv' E. destruct (Hpt t v Hv) as (tk & Ht & ->), (Hpt t' v' Hv') as (tk' & Ht' & ->).
    destruct (Hx t tk Ht) as (_ & _ & _ & _ & _ & _ & Hi & _). rewrite Forall_forall in Hi.
    by apply (Hi (t', tk')); [apply threads_elem|].
  - apply Exists_exists in Hinit as ([t tk] & Hin & ? & ? & ?). apply threads_elem in Hin. exists t, (view tk). by split; [apply Htp|].
  - intros t v Hv. destruct (Hpt t v Hv) as (tk & Ht & ->).
    destruct (Hx t tk Ht) as (_ & _ & _ & _ & _ & _ & _ & [?|Hp] & _); [by left|right].
    apply Exists_exists in Hp as ([q tq] & Hin & ? & ?). apply threads_elem in Hin. exists q, (view tq). by split; [apply Htp|].
  - intros t. split.
    + intros Hin. destruct (Hdom t) as [tk Ht]; [set_solver|]. exists (view tk). unfold view_of. rewrite Ht. split; [done|].
      apply (Hx t tk Ht).
    + intros (v & Hv & _). unfold view_of in Hv. apply fmap_Some in Hv as (tk & Ht & ->). apply (Hx t tk Ht).
  - intros v Hv. unfold view_of in Hv. apply fmap_Some in Hv as (tk & Ht & ->).
    by apply (Hidle2 (idle_thread (ts k), tk)); [apply threads_elem|].
  - intros t v Hv E. destruct (Hpt t v Hv) as (tk & Ht & ->).
    destruct (Hx t tk Ht) as (_ & _ & _ & _ & _ & _ & _ & _ & Hh & _). destruct (Hh E) as [? Hn]. split; [done|].
    intros c vc Hc. destruct (Hpt c vc Hc) as (tc & Htc & ->). rewrite Forall_forall in Hn. by apply (Hn (c, tc)), threads_elem.
  - intros t v Hv E Hne. destruct (Hpt t v Hv) as (tk & Ht & ->).
    destruct (Hx t tk Ht) as (_ & _ & _ & _ & _ & _ & _ & _ & _ & Hw). destruct (Hw E Hne) as [H1 H2]. split.
    + intros Hn. apply Exists_exists in H1 as ([c tc] & Hin & Ec). apply threads_elem in Hin. by apply (Hn c (view tc) (Htp c tc Hin)).
    + intros c vc Hc Ec. destruct (Hpt c vc Hc) as (tc & Htc & ->). rewrite Forall_forall in H2.
      by apply (H2 (c, tc)); [apply threads_elem|].
Qed.

Definition demo_thread (st : task_status) (p pp pd : Z) : task :=
  Task 0 p st 31 (replicate 16 0) 31 0 [0; 1; 2; -1; -1; -1; -1; -1] pd (VirtualAddr (Bitmap.Bitmap 0 []) 0) 0 pp 7 0x19870916.

Definition demo_pids : pid_pool := PidPool (Bitmap.Bitmap 128 (31 :: replicate 128 0)) 1 lock_init.

Lemma demo_pids_wf : pid_wf demo_pids.
Proof. split; try done. by apply bitmap_wf_dec. Qed.

(** The demonstration processes share one page directory, through its own mapping. *)
Definition DIR : Z := 0xfffff000.

Definition demo_tstate (tasks : list (Z * task)) (ready : list Z) (run : Z) : tstate :=
  TState (list_to_map tasks) ready (fst <$> tasks) run 0xc009e000 0x5000 ∅ (Cpu 0x2) 0x100000 0 0.

Definition demo_life (s : tstate) : kernel :=
  Kernel s demo_pids (demo_mem 0) (KMach ∅ (Cpu 2)) {[ 0x1000 := DIR; 0x2000 := DIR; 0x3000 := DIR ]}.

Definition demo_family : kernel :=
  demo_life (demo_tstate [(0x1000, demo_thread TASK_RUNNING 1 (-1) DIR); (0x2000, demo_thread TASK_READY 2 1 DIR);
    (0x5000, demo_thread TASK_BLOCKED 5 (-1) 0)] [0x2000] 0x1000).

Lemma demo_family_inv : table_inv demo_family.
Proof. apply table_ok_inv; [exact demo_pids_wf|]. apply (bool_decide_unpack _). vm_compute. exact I. Qed.

(** One wait that sleeps, then an exit. *)
Definition wait_exit (k : kernel) : option system :=
  match sys_wait k with
  | Ok (WAsleep, k') => match sys_exit 7 (System k' FsState.demo_fs) with Ok y => Some y | _ => None end
  | _ => None
  end.

Definition woken (o : option system) (t : Z) : bool :=
  match o with Some y => running (ts (sk y)) =? t | None => false end.

Lemma demo_runs : woken (wait_exit demo_family) 0x1000 = true.
Proof. vm_compute. reflexivity. Qed.

Definition sleeps (k : kernel) (t : Z) : bool :=
  match sys_wait k with Ok (WAsleep, k') => bool_decide (status_of (ts k') t = Some TASK_WAITING) | _ => false end.

Lemma demo_family_sleeps : sleeps demo_family 0x1000 = true.
Proof. vm_compute. reflexivity. Qed.

Definition demo_start (k : kernel) : life := Life (System k FsState.demo_fs) ∅.

Lemma demo_run :
  ∃ c', life_run 0 0 0 (demo_start demo_family) c' ∧ woken (Some (sys c')) 0x1000 = true ∧ 0x1000 ∈ waiters c'.
Proof.
  pose proof demo_runs as H. unfold wait_exit in H.
  destruct (sys_wait demo_family) as [[[p st| |] k]| | | |] eqn:E1; try discriminate H.
  destruct (sys_exit 7 (System k FsState.demo_fs)) as [y| | | |] eqn:E2; try discriminate H.
  assert (Hc : cur k ∉ ({[0x1000]} : gset Z)).
  { intros Hc%elem_of_singleton. pose proof (wait_inv _ _ _ demo_family_inv E1) as T.
    pose proof demo_family_sleeps as Hw. unfold sleeps in Hw. rewrite E1 in Hw. apply bool_decide_eq_true in Hw.
    pose proof (proj2 (inv_running _ (ti_sched _ T) _) eq_refl) as Hr. fold (cur k) in Hr. congruence. }
  exists (Life y {[0x1000]}). split; [|split; [exact H|change (0x1000 ∈ ({[0x1000]} : gset Z)); set_solver]].
  eapply lr_step; [eapply (ls_wait 0 0 0 WAsleep (System demo_family FsState.demo_fs) ∅ k E1)|].
  replace (after_wait WAsleep (cur (sk (System demo_family FsState.demo_fs))) ∅) with ({[0x1000]} : gset Z)
    by (change ({[0x1000]} = ({[0x1000]} ∪ ∅ : gset Z)); set_solver).
  eapply lr_step; [exact (ls_exit 0 0 0 7 (System k FsState.demo_fs) {[0x1000]} y Hc E2)|]. apply lr_refl.
Qed.

Lemma process_table_inv_witness : ∃ c', life_run 0 0 0 (demo_start demo_family) c' ∧ table_inv (sk (sys c')).
Proof.
  destruct demo_run as (c' & Hrun & _). exists c'. split; [exact Hrun|].
  apply (process_table_inv 0 0 0 (demo_start demo_family) c'); [exact demo_family_inv|exact Hrun].
Defined.

(** 0x2000, a child of init, waits for its own child 0x3000. *)
Definition demo_waiting : kernel :=
  demo_life (demo_tstate [(0x1000, demo_thread TASK_WAITING 1 (-1) DIR); (0x2000, demo_thread TASK_RUNNING 2 1 DIR);
    (0x3000, demo_thread TASK_READY 3 2 DIR); (0x5000, demo_thread TASK_BLOCKED 5 (-1) 0)] [0x3000] 0x2000).

Lemma demo_waiting_inv : table_inv demo_waiting.
Proof. apply table_ok_inv; [exact demo_pids_wf|]. apply (bool_decide_unpack _). vm_compute. exact I. Qed.

Lemma demo_sleeps : sleeps demo_waiting 0x2000 = true.
Proof. vm_compute. reflexivity. Qed.

Lemma wait_no_lost_wakeup_witness :
  ∃ c', life_run 0 0 0 (demo_start demo_waiting) c' ∧ 0x2000 ∈ waiters c' ∧
    ∃ v, proc (ts (sk (sys c'))) 0x2000 v ∧ v_status v = TASK_WAITING ∧
      (v_pid v ≠ 1 → ∃ d vd, proc (ts (sk (sys c'))) d vd ∧ v_parent vd = v_pid v).
Proof.
  pose proof demo_sleeps as Hs. unfold sleeps in Hs.
  destruct (sys_wait demo_waiting) as [[[p st| |] k]| | | |] eqn:E1; try discriminate Hs. apply bool_decide_eq_true in Hs.
  pose (c' := Life (System k FsState.demo_fs) ({[0x2000]} ∪ ∅)).
  assert (Hrun : life_run 0 0 0 (demo_start demo_waiting) c').
  { eapply lr_step; [eapply (ls_wait 0 0 0 WAsleep (System demo_waiting FsState.demo_fs) ∅ k E1)|]. apply lr_refl. }
  assert (Hin : 0x2000 ∈ waiters c') by (change (0x2000 ∈ ({[0x2000]} ∪ ∅ : gset Z)); set_solver).
  exists c'. split; [exact Hrun|]. split; [exact Hin|].
  destruct (wait_no_lost_wakeup 0 0 0 (demo_start demo_waiting) c' 0x2000) as [Hr|(v & Hp & Hw & Hc)].
  - exact demo_waiting_inv.
  - reflexivity.
  - exact Hrun.
  - exact Hin.
  - exfalso. destruct Hr as [Hr|Hr]; cbn [sys sk ts c'] in Hr; congruence.
  - exists v. split; [exact Hp|]. split; [exact Hw|]. intros Hne. exact (proj1 (Hc Hne)).
Defined.

Lemma sys_exit_spec_witness :
  ∃ y y', sys_exit 7 y = Ok y' ∧ status_of (ts (sk y')) (cur (sk y)) = Some TASK_HANGING ∧
    exit_of (ts (sk y')) (cur (sk y)) = Some 7.
Proof.
  pose proof demo_runs as H. unfold wait_exit in H.
  destruct (sys_wait demo_family) as [[[p st| |] k]| | | |] eqn:E1; try discriminate H.
  destruct (sys_exit 7 (System k FsState.demo_fs)) as [y| | | |] eqn:E2; try discriminate H.
  exists (System k FsState.demo_fs), y. split; [exact E2|].
  destruct (sys_exit_spec 7 (System k FsState.demo_fs) y) as (v & q & vq & _ & _ & _ & _ & Hs & He & _).
  - exact (wait_inv demo_family WAsleep k demo_family_inv E1).
  - exact E2.
  - split; [exact Hs|exact He].
Defined.

(** init (0x1000) sleeps; 0x3000, child of 0x2000, exits; its child 0x4000 has ended. *)
Definition demo_orphan : kernel :=
  demo_life (demo_tstate [(0x1000, demo_thread TASK_WAITING 1 (-1) DIR); (0x2000, demo_thread TASK_READY 2 1 DIR);
    (0x3000, demo_thread TASK_RUNNING 3 2 DIR); (0x4000, demo_thread TASK_HANGING 4 3 DIR);
    (0x5000, demo_thread TASK_BLOCKED 5 (-1) 0)] [0x2000] 0x3000).

Lemma demo_orphan_inv : table_inv demo_orphan.
Proof. apply table_ok_inv; [exact demo_pids_wf|]. apply (bool_decide_unpack _). vm_compute. exact I. Qed.

Definition exits (y : system) : bool := match sys_exit 0 y with Ok _ => true | _ => false end.

Lemma demo_orphan_exits : exits (System demo_orphan FsState.demo_fs) = true.
Proof. vm_compute. reflexivity. Qed.

Lemma init_misses_adopted_witness :
  ∃ y', sys_exit 0 (System demo_orphan FsState.demo_fs) = Ok y' ∧ status_of (ts (sk y')) 0x1000 = Some TASK_WAITING.
Proof.
  pose proof demo_orphan_exits as H. unfold exits in H.
  destruct (sys_exit 0 (System demo_orphan FsState.demo_fs)) as [y'| | | |] eqn:E; try discriminate H.
  exists y'. split; [reflexivity|].
  refine (proj1 (init_misses_adopted 0 (System demo_orphan FsState.demo_fs) y' 0x1000 (PView 1 (-1) DIR TASK_WAITING)
    (PView 3 2 DIR TASK_RUNNING) 0x2000 (PView 2 1 DIR TASK_READY) 0x4000 (PView 4 3 DIR TASK_HANGING)
    demo_orphan_inv E _ eq_refl eq_refl _ _ eq_refl _ _ _ eq_refl eq_refl)).
  - split; [left|reflexivity].
  - split; [right; right; left|reflexivity].
  - split; [right; left|reflexivity].
  - discriminate.
  - discriminate.
  - split; [right; right; right; left|reflexivity].
Defined.

(** Five kernel pages: PCB and directory of init and of an ended child, PCB of idle. *)
Definition page_no (i : Z) : Z := K_HEAP_START + i * 4096.

Definition demo_zombie (m : mstate) : kernel :=
  Kernel (TState (list_to_map [(page_no 0, demo_thread TASK_RUNNING 1 (-1) (page_no 1));
                               (page_no 2, demo_thread TASK_HANGING 2 1 (page_no 3));
                               (page_no 4, demo_thread TASK_BLOCKED 5 (-1) 0)])
            [] [page_no 0; page_no 2; page_no 4] (page_no 0) 0xc009e000 (page_no 4) ∅ (Cpu 2) (mcr3 m) 0 0)
    demo_pids m (KMach ∅ (Cpu 2)) ∅.

Lemma demo_zombie_inv m : table_inv (demo_zombie m).
Proof.
  apply table_ok_inv; [exact demo_pids_wf|].
  change (table_ok (Kernel (ts (demo_zombie demo_kernel)) demo_pids m (KMach ∅ (Cpu 2)) ∅)).
  change (table_ok (demo_zombie demo_kernel)). apply (bool_decide_unpack _). vm_compute. exact I.
Qed.

(** The kernel's pages do not depend on the thread that runs. *)
Lemma pages_inv_cur m t pd va :
  pages_inv PF_KERNEL m → t ≠ 0 →
  let m' := MState (phys m) (mcr3 m) (kernel_pool m) (user_pool m) (kernel_vaddr m) t pd va in
  pages_inv PF_KERNEL m' ∧ ∀ q, live PF_KERNEL m q → live PF_KERNEL m' q.
Proof.
  intros [(lo & [W1 W2 W3 W4 W5 W6 W7 W8 W9 W10 W11] & [V1 V2 V3 V4 V5 V6]) H3 H4 H5 H6 H7] Ht m'.
  assert (Hm : ∀ i r, mapped_at PF_KERNEL m' i r → mapped_at PF_KERNEL m i r) by (by intros i r [M1 M2 M3 M4]).
  split.
  - subst m'. split; [exists lo; split; by split|exact H3| | |exact H6|exact Ht].
    + intros i r Hir. apply (H4 i r). by apply Hm.
    + intros i j r Hi Hj. apply (H5 i j r); by apply Hm.
  - intros q (i & r & E & [M1 M2 M3 M4]). exists i, r. split; [exact E|]. by split.
Qed.

Definition first_page (n : Z) (m : mstate) : Z :=
  match malloc_page PF_KERNEL n m with Ok (v, _) => v | _ => 0 end.

Lemma demo_five : first_page 5 demo_kernel = K_HEAP_START.
Proof. vm_compute. reflexivity. Qed.

#[local] Opaque demo_phys boot_phys.

Lemma demo_zombie_mem m :
  cur_mem (demo_zombie m) = MState (phys m) (mcr3 m) (kernel_pool m) (user_pool m) (kernel_vaddr m)
    (page_no 0) (page_no 1) (VirtualAddr (Bitmap.Bitmap 0 []) 0).
Proof. reflexivity. Qed.

Lemma demo_zombie_procs m t v :
  proc (ts (demo_zombie m)) t v →
  ∃ i, 0 ≤ i < 5 ∧ t = page_no i ∧ (v_pgdir v = 0 ∨ ∃ j, 0 ≤ j < 5 ∧ j ≠ i ∧ v_pgdir v = page_no j).
Proof.
  intros [Ht Hv]. change (t ∈ [page_no 0; page_no 2; page_no 4]) in Ht.
  rewrite !elem_of_cons, elem_of_nil in Ht. destruct Ht as [->|[->|[->|[]]]].
  - exists 0. injection Hv as <-. split; [lia|]. split; [done|]. right. by exists 1.
  - exists 2. injection Hv as <-. split; [lia|]. split; [done|]. right. by exists 3.
  - exists 4. injection Hv as <-. split; [lia|]. split; [done|]. by left.
Qed.

Lemma demo_zombie_live m :
  pages_inv PF_KERNEL m → (∀ i, 0 ≤ i < 5 → live PF_KERNEL m (page_no i)) → table_pages (demo_zombie m).
Proof.
  intros Hp Hl. destruct (pages_inv_cur m (page_no 0) (page_no 1) (VirtualAddr (Bitmap.Bitmap 0 []) 0) Hp) as [Hp' Hl']; [done|].
  rewrite <- demo_zombie_mem in Hp', Hl'. split; [exact Hp'|]. intros t v Hv.
  destruct (demo_zombie_procs m t v Hv) as (i & Hi & -> & Hd). split; [intros _; by apply Hl', Hl|]. intros Hne.
  destruct Hd as [?|(j & Hj & Hij & ->)]; [done|]. split; [by apply Hl', Hl|]. unfold page_no. lia.
Qed.

Lemma demo_zombie_pages : ∃ m, table_pages (demo_zombie m).
Proof.
  pose proof demo_five as E. unfold first_page in E.
  destruct (malloc_page PF_KERNEL 5 demo_kernel) as [[v m]| | | |] eqn:Hm; try discriminate E. subst v.
  destruct (malloc_keeps PF_KERNEL 5 demo_kernel _ m (proj1 demo_kernel_inv) ltac:(lia) Hm) as (Hp & _ & _ & Hnew).
  destruct Hnew as (_ & _ & _ & Hl); [discriminate|].
  exists m. apply (demo_zombie_live m Hp). intros i Hi. exact (proj2 (Hl i Hi)).
Qed.

Lemma sys_wait_spec_witness :
  ∃ m k', sys_wait (demo_zombie m) = Ok (WReaped 2 7, k') ∧ table_inv k' ∧
    pages_freed [page_no 3; page_no 2] (cur_mem (demo_zombie m)) (cur_mem k').
Proof.
  destruct demo_zombie_pages as [m Hm]. exists m.
  destruct (sys_wait_spec (demo_zombie m) (demo_thread TASK_RUNNING 1 (-1) (page_no 1)))
    as (tc & k' & Htc & Hw & T & _ & _ & _ & _ & Hf).
  - exact (demo_zombie_inv m).
  - reflexivity.
  - exact Hm.
  - injection Htc as <-. exists k'. split; [exact Hw|]. split; [exact T|exact Hf].
Defined.

(** Pids.  On a well-formed pool with a free pid, [allocate_pid] returns the smallest free
    pid, between 1 and 1024, and [release_pid] of it restores the pool; when all 1024 pids are
    taken it does not report this but writes outside the bitmap. *)
Theorem pid_pool_spec c p :
  c ≠ 0 → pid_wf p →
  ((∃ i, 0 ≤ i < 1024 ∧ bit_set (pid_bitmap p) i = false) →
   ∃ r p', allocate_pid c p = Ok (r, None, p') ∧ pid_wf p' ∧ 1 ≤ r ≤ 1024 ∧
     bit_set (pid_bitmap p) (r - 1) = false ∧ (∀ i, 0 ≤ i < r - 1 → bit_set (pid_bitmap p) i = true) ∧
     ∃ p'', release_pid c r p' = Ok (None, p'') ∧ pid_wf p'' ∧
       ∀ j, 0 ≤ j → bit_set (pid_bitmap p'') j = bit_set (pid_bitmap p) j) ∧
  ((∀ i, 0 ≤ i < 1024 → bit_set (pid_bitmap p) i = true) → allocate_pid c p = Fault).
Proof.
  intros Hc Hp. pose proof Hp as [P1 P2 P3 P4 P5].
  destruct (bitmap_scan_any (pid_bitmap p) 1 P1) as (r & Hr & Hfit); [lia|lia|].
  change (1 =? 1) with true in Hfit. cbn iota in Hfit. unfold nbits in Hfit. rewrite P2 in Hfit.
  assert (Hal : allocate_pid c p = (b ← bitmap_set (pid_bitmap p) r 1; Ok (i16 (r + pid_start p), None, PidPool b (pid_start p) lock_init))).
  { unfold allocate_pid. rewrite P5, lock_free_acquire by done. cbn [mbind outcome_bind]. mrun Hr. done. }
  split.
  - intros (i & Hi & Hclr). destruct Hfit as [[-> Hno]|(H0 & H1 & Hrun & Hno)].
    { exfalso. apply (Hno i); [lia|lia|by apply clear_run_one]. }
    destruct (bitmap_set_ok (pid_bitmap p) r 1 P1) as (b & Hb & _); [lia|]. rewrite Hb in Hal. cbn [mbind outcome_bind] in Hal.
    destruct (allocate_pid_inv c p _ _ _ Hc Hp Hal) as (_ & W & R & F & B). eexists _, _. split; [exact Hal|].
    assert (Er : i16 (r + pid_start p) = r + 1) by (rewrite P4; unfold i16; zdm). rewrite Er in *.
    split; [done|]. split; [lia|]. split; [done|]. split.
    { intros j Hj. specialize (Hno j). rewrite clear_run_one in Hno. destruct (bit_set _ j); [done|]. exfalso. apply Hno; done || lia. }
    destruct (release_pid_ok c _ (r + 1) Hc W) as [p'' Hrel]; [lia|].
    destruct (release_pid_inv c _ _ _ _ Hc W R Hrel) as (_ & W2 & B2).
    exists p''. split; [done|]. split; [done|]. intros j Hj. rewrite B2, B by done. case_bool_decide as E; [|done].
    subst j. simpl. congruence.
  - intros Hfull. destruct Hfit as [[-> _]|(H0 & H1 & Hrun & _)].
    + rewrite Hal. unfold bitmap_set. change (u32 (-1)) with 4294967295.
      destruct (aget (bits (pid_bitmap p)) (4294967295 / 8)) as [y| | | |] eqn:E; try done.
      * apply aget_range in E. pose proof (wf_small _ P1). zdm.
      * unfold aget in E. zcase; destruct (bits (pid_bitmap p) !! _); done.
      * unfold aget in E. zcase; destruct (bits (pid_bitmap p) !! _); done.
      * unfold aget in E. zcase; destruct (bits (pid_bitmap p) !! _); done.
    + apply clear_run_one in Hrun. rewrite Hfull in Hrun by lia. done.
Qed.

Lemma pid_pool_spec_witness :
  ∃ r p', allocate_pid 0x1000 demo_pids = Ok (r, None, p') ∧ 1 ≤ r ≤ 1024.
Proof.
  destruct (pid_pool_spec 0x1000 demo_pids) as [H _].
  - discriminate.
  - exact demo_pids_wf.
  - destruct H as (r & p' & H1 & _ & H2 & _).
    + exists 5. split; [lia|reflexivity].
    + exists r, p'. split; [exact H1|exact H2].
Defined.
