(* ===== verification/ForkStack.v ===== *)
(** * How new processes enter user mode

    [thread_create] and [start_process] build the kernel stack of a new process, fork copies
    the one of the parent: what [switch_to] and [intr_exit] take from these stacks. *)

From S2P Require Import Prelude Interrupt KList FsState File Pipe Fs Bitmap Sched Sync Paging Arena HeapPages Task WaitExit Fork.

(** The interrupt frame of a process in a system call, at the top of its PCB page. *)
Definition syscall_frame (t : Z) : Z := t + PG_SIZE - sizeof_intr_stack.

Definition with_eax (v : Z) (r : user_regs) : user_regs :=
  UserRegs (r_edi r) (r_esi r) (r_ebp r) (r_ebx r) (r_edx r) (r_ecx r) v (r_gs r) (r_fs r) (r_es r) (r_ds r)
           (r_eip r) (r_cs r) (r_eflags r) (r_esp r) (r_ss r).

(** ** Kernel words *)

Lemma stk_inv w a v w' : stk w a v = Ok w' → words w' = <[a := v]> (words w) ∧ is_Some (words w !! a).
Proof.
  unfold stk, st. intros H. apply bind_ok_iff in H as (m & H1 & H). destruct (words w !! a) eqn:E; [|done].
  injection H1 as <-. injection H as <-. split; [done|by eexists].
Qed.

Lemma stores_words l w w' : stores l w = Ok w' → words w' = foldl (λ m x, <[x.1 := x.2]> m) (words w) l.
Proof.
  revert w. induction l as [|[a v] l IH]; intros w H; cbn [stores] in H; [by injection H as ->|].
  apply bind_ok_iff in H as (w1 & H1 & H). apply stk_inv in H1 as [E _]. simpl. rewrite <- E. by apply IH.
Qed.

Lemma stores_ok l w : Forall (λ x, is_Some (words w !! x.1)) l → is_ok (stores l w).
Proof.
  revert w. induction l as [|[a v] l IH]; intros w H; [by eexists|]. apply Forall_cons in H as [H1 H]. cbn [stores].
  mrun (stk_ok w a v H1). apply IH. eapply Forall_impl; [exact H|]. intros x Hx. simpl.
  rewrite lookup_insert. by case_decide.
Qed.

Lemma memcpy_spec n dst src w w' :
  memcpy_words n dst src w = Ok w' →
  (∀ i j, 0 ≤ i < Z.of_nat n → 0 ≤ j < Z.of_nat n → src + 4 * j ≠ dst + 4 * i) →
  (∀ j, 0 ≤ j < Z.of_nat n → words w' !! (dst + 4 * j) = words w !! (src + 4 * j)) ∧
  (∀ a, (∀ i, 0 ≤ i < Z.of_nat n → a ≠ dst + 4 * i) → words w' !! a = words w !! a).
Proof.
  revert dst src w. induction n as [|n IH]; intros dst src w H Hd; cbn [memcpy_words] in H.
  { injection H as ->. split; [lia|done]. }
  apply bind_ok_iff in H as (v & Hv & H). apply of_opt_ok in Hv. apply bind_ok_iff in H as (w1 & H1 & H).
  apply stk_inv in H1 as [E _]. destruct (IH (dst + 4) (src + 4) w1 H) as [H2 H3].
  { intros i j Hi Hj. specialize (Hd (i + 1) (j + 1)). lia. }
  split.
  - intros j Hj. destruct (decide (j = 0)) as [->|Hne].
    + rewrite H3 by lia. rewrite E, !Z.mul_0_r, !Z.add_0_r, lookup_insert_eq. done.
    + replace (dst + 4 * j) with (dst + 4 + 4 * (j - 1)) by lia. rewrite H2 by lia.
      replace (src + 4 + 4 * (j - 1)) with (src + 4 * j) by lia. rewrite E, lookup_insert_ne; [done|].
      specialize (Hd 0 j). lia.
  - intros a Ha. rewrite H3; [|intros i Hi; specialize (Ha (i + 1)); lia]. rewrite E, lookup_insert_ne; [done|].
    specialize (Ha 0). lia.
Qed.

(** Words outside the page [c]. *)
Definition off_page (c a : Z) : Prop := a < c ∨ c + 4096 ≤ a.

Lemma fresh_pcb_words c k a : off_page c a → words (kw (fresh_pcb c k)) !! a = words (kw k) !! a.
Proof.
  intros Ha. unfold fresh_pcb. simpl. unfold off_page, u_block_desc_of, sizeof_task_struct in *.
  rewrite !zero_words_lookup, !decide_False by lia. done.
Qed.

Lemma on_mem_kw {A} (f : mstate → outcome (A * mstate)) k a k' : on_mem f k = Ok (a, k') → kw k' = kw k.
Proof. unfold on_mem. intros H. apply bind_ok_iff in H as ([b m] & _ & H). by injection H as <- <-. Qed.

Lemma on_mem__kw f k k' : on_mem_ f k = Ok k' → kw k' = kw k.
Proof. unfold on_mem_. intros H. apply bind_ok_iff in H as (m & _ & H). by injection H as <-. Qed.

Lemma new_pid_kw k p k' : new_pid k = Ok (p, k') → kw k' = kw k.
Proof.
  unfold new_pid. intros H. apply bind_ok_iff in H as ([[r w] pp] & _ & H). apply bind_ok_iff in H as (k1 & H1 & H).
  injection H as _ <-. destruct w as [t|]; cbn [wake] in H1; [|by injection H1 as <-].
  apply bind_ok_iff in H1 as (s & _ & H1). by injection H1 as <-.
Qed.

(** Two different pages do not meet. *)
Lemma pages_apart c t a : c mod 4096 = 0 → t mod 4096 = 0 → c ≠ t → t ≤ a < t + 4096 → off_page c a.
Proof. unfold off_page. intros. zdm. Qed.

(** The kernel stack after the copy of the PCB. *)
Lemma copy_pcb_words_spec c t w w' :
  c mod 4096 = 0 → t mod 4096 = 0 → c ≠ t → copy_pcb_words c t w = Ok w' →
  (∀ j, 0 ≤ j < 954 → words w' !! (c + 280 + 4 * j) = words w !! (t + 280 + 4 * j)) ∧
  (∀ a, off_page c a → words w' !! a = words w !! a) ∧
  (∀ j, 0 ≤ j < 42 → words w' !! (c + 100 + 4 * j) = words w !! (t + 100 + 4 * j)).
Proof.
  intros Hc Ht Hne H. unfold copy_pcb_words in H. apply bind_ok_iff in H as (w1 & H1 & H2).
  unfold u_block_desc_of, sizeof_task_struct in *.
  apply memcpy_spec in H1 as [A1 A2]; [|intros; zdm]. apply memcpy_spec in H2 as [B1 B2]; [|intros; zdm].
  change (Z.of_nat 954) with 954 in *. change (Z.of_nat 42) with 42 in *. split; [|split].
  - intros j Hj. rewrite B1 by done. apply A2. intros i Hi. zdm.
  - intros a Ha. unfold off_page in Ha. rewrite B2, A2; [done|intros; lia|intros; lia].
  - intros j Hj. rewrite B2 by (intros; lia). by apply A1.
Qed.

Lemma block_desc_init_frame D k k' :
  (∀ c, 0 ≤ c < 42 → is_Some (words k !! (D + 4 * c))) → block_desc_init D k = Ok k' →
  ∀ w, ¬ (D ≤ w < D + 168) → words k' !! w = words k !! w.
Proof.
  intros Hm H. destruct (desc_init_ok D DESC_CNT 0 k) as (k1 & H1 & _ & Hf); [done|done| |].
  - intros i Hi. lia.
  - unfold block_desc_init in H. change (Z.of_nat 0) with 0 in H1. change (bsize 0) with 16 in H1.
    assert (k1 = k') as -> by congruence. exact Hf.
Qed.

(** ** The two returns of fork *)

(** What the steps before [build_child_stack] leave in the kernel words: the child's stack is
    the parent's, nothing outside the child's page changes. *)
Definition stack_copied (c t : Z) (m m' : mem) : Prop :=
  (∀ j, 0 ≤ j < 954 → m' !! (c + 280 + 4 * j) = m !! (t + 280 + 4 * j)) ∧
  (∀ a, off_page c a → m' !! a = m !! a).

Lemma copy_pcb_copied c t k r k' :
  c mod 4096 = 0 → t mod 4096 = 0 → c ≠ t →
  copy_pcb_vaddrbitmap_stack0 c t k = Ok (r, k') → r ≠ -1 →
  (∀ j, 0 ≤ j < 42 → is_Some (words (kw k) !! (t + 100 + 4 * j))) →
  stack_copied c t (words (kw k)) (words (kw k')).
Proof.
  intros Hc Ht Hne H Hr Hm. unfold copy_pcb_vaddrbitmap_stack0 in H. apply bind_ok_iff in H as (tk & _ & H).
  apply bind_ok_iff in H as (w & Hw & H). apply bind_ok_iff in H as ([p k1] & H1 & H).
  apply bind_ok_iff in H as (w2 & Hw2 & H). apply bind_ok_iff in H as ([a k2] & H2 & H).
  apply on_mem_kw in H2. apply new_pid_kw in H1. cbn [kw set_kw set_ts] in H1, H2.
  assert (E : kw k' = w2) by (destruct (a =? 0); injection H as <- <-; done).
  destruct (copy_pcb_words_spec c t (kw k) w Hc Ht Hne Hw) as (A1 & A2 & A3). rewrite E. rewrite H1 in Hw2.
  pose proof (block_desc_init_frame _ _ _ ltac:(intros j Hj; unfold u_block_desc_of; rewrite A3 by done; by apply Hm) Hw2) as Hf.
  unfold u_block_desc_of in Hf. split.
  - intros j Hj. rewrite Hf by lia. by apply A1.
  - intros x Hx. unfold off_page in Hx. rewrite Hf by lia. by apply A2.
Qed.

(** The words [build_child_stack] writes. *)
Lemma build_stack_spec ie c k k' :
  0 < c → c + 4096 ≤ 4294967296 → build_child_stack ie c k = Ok k' →
  (∃ tc, tasks (ts k') !! c = Some tc ∧ self_kstack tc = syscall_frame c - 20 ∧
     ∀ tk, tasks (ts k) !! c = Some tk → pid tc = pid tk) ∧ konts (ts k') !! c = Some KIret ∧
  words (kw k') !! (syscall_frame c - 4) = Some ie ∧
  (∀ x, x = 8 ∨ x = 12 ∨ x = 16 ∨ x = 20 → words (kw k') !! (syscall_frame c - x) = Some 0) ∧
  words (kw k') !! is_eax (syscall_frame c) = Some 0 ∧
  ∀ a, a ≠ is_eax (syscall_frame c) → ¬ (syscall_frame c - 20 ≤ a < syscall_frame c) → words (kw k') !! a = words (kw k) !! a.
Proof.
  intros H0 Hend H. unfold build_child_stack in H. cbv zeta in H. unfold syscall_frame, PG_SIZE, sizeof_intr_stack in *.
  rewrite u32_small in H by lia. set (F := c + 4096 - 76) in *.
  apply bind_ok_iff in H as (w & Hw & H). apply bind_ok_iff in H as (tk & Htk & H). injection H as <-.
  apply of_opt_ok in Htk. apply stores_words in Hw. cbn [kw ts set_kw set_ts konts with_konts tasks upd_task with_tasks].
  rewrite Hw. cbn [foldl fst snd]. unfold is_eax. split; [|split_and!].
  - exists (set_kstack (F - 20) tk). rewrite lookup_alter_eq, Htk. split; [done|]. split; [done|]. intros tk' E. by injection E as <-.
  - by rewrite lookup_insert_eq.
  - rewrite !lookup_insert_ne by lia. by rewrite lookup_insert_eq.
  - intros x Hx. repeat (rewrite lookup_insert; case_decide; [done|]). exfalso. lia.
  - rewrite !lookup_insert_ne by lia. by rewrite lookup_insert_eq.
  - intros a Ha1 Ha2. rewrite !lookup_insert_ne by lia. done.
Qed.

(** [intr_exit] reads these words of the frame. *)
Lemma intr_exit_words sp sp' w w' r :
  intr_exit sp w = Ok r → (∀ x, 4 ≤ x ≤ 72 → x mod 4 = 0 → x ≠ 32 → words w' !! (sp' + x) = words w !! (sp + x)) →
  words w' !! (sp' + 32) = Some 0 → intr_exit sp' w' = Ok (with_eax 0 r).
Proof.
  intros H Hx He. unfold intr_exit, is_edi, is_esi, is_ebp, is_ebx, is_edx, is_ecx, is_eax, is_gs, is_fs, is_es, is_ds, is_eip,
    is_cs, is_eflags, is_esp, is_ss, ld in *.
  do 16 (apply bind_ok_iff in H as (? & ?%of_opt_ok & H)). injection H as <-.
  rewrite He, !Hx by (lia || done). repeat match goal with H : words w !! _ = Some _ |- _ => rewrite H; clear H end. done.
Qed.

Lemma intr_exit_same sp w w' r :
  intr_exit sp w = Ok r → (∀ x, 4 ≤ x ≤ 72 → words w' !! (sp + x) = words w !! (sp + x)) → intr_exit sp w' = Ok r.
Proof.
  intros H Hx. rewrite <- H. unfold intr_exit, is_edi, is_esi, is_ebp, is_ebx, is_edx, is_ecx, is_eax, is_gs, is_fs, is_es, is_ds,
    is_eip, is_cs, is_eflags, is_esp, is_ss, ld. by rewrite !Hx by lia.
Qed.

(** The parts of a PCB that memory operations and the descriptor tables leave alone. *)
Definition same_pcb (c : Z) (s s' : tstate) : Prop :=
  ∀ tc, tasks s !! c = Some tc → ∃ tc', tasks s' !! c = Some tc' ∧ self_kstack tc' = self_kstack tc ∧ pid tc' = pid tc.

Lemma same_pcb_upd c t f s :
  (∀ x, self_kstack (f x) = self_kstack x ∧ pid (f x) = pid x) → same_pcb c s (upd_task f t s).
Proof.
  intros Hf tc Htc. unfold upd_task. cbn [tasks with_tasks]. destruct (decide (t = c)) as [->|Hne].
  - rewrite lookup_alter_eq, Htc. exists (f tc). split; [done|]. apply Hf.
  - rewrite lookup_alter_ne by done. by exists tc.
Qed.

Lemma copy_process_stack ie c t y r y2 :
  c mod 4096 = 0 → t mod 4096 = 0 → c ≠ t → copy_process ie c t y = Ok (r, y2) → r ≠ -1 →
  (∀ j, 0 ≤ j < 42 → is_Some (words (kw (sk y)) !! (t + 100 + 4 * j))) →
  ∃ k5 k6, stack_copied c t (words (kw (sk y))) (words (kw k5)) ∧ build_child_stack ie c k5 = Ok k6 ∧
    kw (sk y2) = kw k6 ∧ same_pcb c (ts k6) (ts (sk y2)).
Proof.
  intros Hc Ht Hne H Hr Hm. unfold copy_process in H. apply bind_ok_iff in H as ([buf k1] & H1 & H).
  apply on_mem_kw in H1. destruct (buf =? 0); [by injection H as <- _|].
  apply bind_ok_iff in H as ([r2 k2] & H2 & H). destruct (r2 =? -1) eqn:E2; [by injection H as <- _|]. zbool.
  apply bind_ok_iff in H as ([pd k3] & H3 & H). apply on_mem_kw in H3. destruct (pd =? 0); [by injection H as <- _|].
  apply bind_ok_iff in H as (tp & _ & H). apply bind_ok_iff in H as (k4 & H4 & H). apply on_mem__kw in H4.
  apply bind_ok_iff in H as (k6 & H6 & H). apply bind_ok_iff in H as (y7 & H7 & H).
  apply bind_ok_iff in H as (k8 & H8 & H). injection H as <- <-. cbn [sk set_sk] in *.
  exists k4, k6. rewrite H4. cbn [kw set_ts]. rewrite H3. split; [rewrite <- H1 in *; by apply (copy_pcb_copied c t k1 r2)|].
  split; [done|]. pose proof (on_mem__kw _ _ _ H8) as E8. rewrite E8.
  unfold update_inode_open_cnts in H7. apply bind_ok_iff in H7 as (tx & _ & H7). apply bind_ok_iff in H7 as (f & _ & H7).
  injection H7 as <-. split; [done|]. intros tc Htc.
  destruct (same_pcb_upd c (cur k6) (set_fds (FsState.fd_table f)) (ts k6) (λ x, conj eq_refl eq_refl) tc Htc) as (t7 & Ht7 & Ea & Eb).
  unfold on_mem_ in H8. apply bind_ok_iff in H8 as (m & _ & H8). injection H8 as <-.
  destruct (same_pcb_upd c (cur k6) (set_uvaddr (cur_vaddr m))
    (upd_task (set_fds (FsState.fd_table f)) (cur k6) (ts k6)) (λ x, conj eq_refl eq_refl) t7 Ht7) as (t8 & Ht8 & Ec & Ed).
  exists t8. split; [exact Ht8|]. split; congruence.
Qed.

(** The page of a new PCB. *)
Lemma new_pcb_page k c k1 t :
  pages_inv PF_KERNEL (cur_mem k) → live PF_KERNEL (cur_mem k) t → new_pcb k = Ok (c, k1) → c ≠ 0 →
  c mod 4096 = 0 ∧ 0 < c ∧ c + 4096 ≤ 4294967296 ∧ c ≠ t ∧ kw k1 = kw (fresh_pcb c k).
Proof.
  intros Hp Hl Hn Hc0. unfold new_pcb in Hn. apply bind_ok_iff in Hn as ([c1 k0] & Hm & Hn).
  injection Hn as -> <-. rewrite (proj2 (Z.eqb_neq _ _) Hc0). pose proof (on_mem_kw _ _ _ _ Hm) as Ekw.
  unfold on_mem in Hm. apply bind_ok_iff in Hm as ([v m] & Hm & E). injection E as -> _.
  unfold get_kernel_pages in Hm. apply bind_ok_iff in Hm as ([v1 m1] & Hm & E).
  assert (v1 = c) as -> by (destruct (v1 =? 0); [by injection E as -> _|apply bind_ok_iff in E as (m2 & _ & E); by injection E as -> _]).
  destruct (malloc_keeps PF_KERNEL 1 _ _ _ Hp ltac:(lia) Hm) as (_ & _ & _ & Hx). destruct (Hx Hc0) as (A1 & A2 & A3 & A4).
  destruct (A4 0) as [A5 _]; [lia|]. rewrite Z.add_0_r in A5.
  destruct (pi_space _ _ Hp) as (lo & _ & [_ _ _ V4 _ _]). split; [done|]. split; [lia|]. split; [lia|].
  split; [intros ->; done|]. unfold fresh_pcb. cbn [kw set_kw]. by rewrite Ekw.
Qed.

(** Fork returns twice.  After a successful fork the child is suspended such that [switch_to]
    enters [intr_exit] with the interrupt frame of the child, which restores the registers the
    parent had at the system call, except that eax is 0; the frame of the parent is as before,
    and the result in the parent is the pid of the child. *)
Theorem fork_returns_twice ie y c k1 p y' regs :
  pages_inv PF_KERNEL (cur_mem (sk y)) → live PF_KERNEL (cur_mem (sk y)) (cur (sk y)) →
  (∀ j, 0 ≤ j < 42 → is_Some (words (kw (sk y)) !! (u_block_desc_of (cur (sk y)) + 4 * j))) →
  intr_exit (syscall_frame (cur (sk y))) (kw (sk y)) = Ok regs →
  new_pcb (sk y) = Ok (c, k1) → sys_fork ie y = Ok (p, y') → p ≠ -1 →
  (∃ tc, tasks (ts (sk y')) !! c = Some tc ∧ pid tc = p ∧
     switch_in (self_kstack tc) (kw (sk y')) = Ok (SwitchRegs 0 0 0 0 ie (syscall_frame c)) ∧
     intr_exit (syscall_frame c) (kw (sk y')) = Ok (with_eax 0 regs)) ∧
  intr_exit (syscall_frame (cur (sk y))) (kw (sk y')) = Ok regs.
Proof.
  intros Hp Hl Hmap Hregs Hnew H Hne. set (t := cur (sk y)) in *.
  destruct (live_page _ _ _ Hp Hl) as [Hvt Hta].
  unfold sys_fork in H. fold t in H. rewrite Hnew in H. cbn [mbind outcome_bind] in H.
  destruct (c =? 0) eqn:E0; [injection H as <- _; done|]. zbool. destruct (new_pcb_page _ _ _ t Hp Hl Hnew E0) as (Hca & Hc0 & Hce & Hct & Ekw).
  apply bind_ok_iff in H as ([r y2] & H2 & H). destruct (r =? -1) eqn:Er; [injection H as <- _; done|]. zbool.
  apply bind_ok_iff in H as (tc & Htc & H). injection H as <- <-. apply of_opt_ok in Htc.
  cbn [sk set_sk kw enlist_all enlist_ready set_ts ts with_all with_ready tasks] in Htc |- *.
  assert (Hfr : ∀ a, t ≤ a < t + 4096 → words (kw k1) !! a = words (kw (sk y)) !! a).
  { intros a Ha. rewrite Ekw. apply fresh_pcb_words. by apply (pages_apart c t). }
  destruct (copy_process_stack ie c t (set_sk k1 y) r y2 Hca Hta Hct H2 Er) as (k5 & k6 & [Hsc Hoff] & Hb & Ek6 & Ht6).
  { intros j Hj. cbn [sk set_sk]. rewrite Hfr by lia. by apply Hmap. }
  cbn [sk set_sk] in Hsc, Hoff. destruct (build_stack_spec ie c k5 k6 Hc0 Hce Hb) as ((t6 & Et6 & Esp & _) & _ & B1 & B2 & B3 & B4).
  destruct (Ht6 t6 Et6) as (tc' & Htc' & Es & Epid). assert (tc' = tc) as -> by congruence.
  rewrite Ek6. unfold syscall_frame, PG_SIZE, sizeof_intr_stack, is_eax in *. split.
  - exists tc. split; [done|]. split; [done|]. rewrite Es, Esp. split.
    + unfold switch_in, ts_ebp, ts_ebx, ts_edi, ts_esi, ts_eip, ld. set (F := c + 4096 - 76) in *.
      pose proof (B2 20 ltac:(lia)) as X1. pose proof (B2 16 ltac:(lia)) as X2. pose proof (B2 12 ltac:(lia)) as X3.
      pose proof (B2 8 ltac:(lia)) as X4. rewrite X1. cbn [of_opt mbind outcome_bind].
      replace (F - 20 + 4) with (F - 16) by lia. rewrite X2. cbn [of_opt mbind outcome_bind].
      replace (F - 20 + 8) with (F - 12) by lia. rewrite X3. cbn [of_opt mbind outcome_bind].
      replace (F - 20 + 12) with (F - 8) by lia. rewrite X4. cbn [of_opt mbind outcome_bind].
      replace (F - 20 + 16) with (F - 4) by lia. rewrite B1. cbn [of_opt mbind outcome_bind].
      by replace (F - 20 + 20) with F by lia.
    + apply (intr_exit_words (t + 4096 - 76) _ (kw (sk y))); [done| |exact B3].
      intros x Hx Hx4 Hx32. rewrite B4 by lia. rewrite <- Hfr by lia.
      replace (c + 4096 - 76 + x) with (c + 280 + 4 * ((3740 + x) / 4)) by zdm. rewrite Hsc by zdm.
      f_equal. zdm.
  - apply (intr_exit_same _ (kw (sk y))); [done|]. intros x Hx.
    pose proof (pages_apart c t (t + 4096 - 76 + x) Hca Hta Hct ltac:(lia)) as Ho.
    rewrite B4 by (unfold off_page in Ho; lia). rewrite Hoff by done. apply Hfr. lia.
Qed.
