(* ===== verification/Commands.v ===== *)
(** * The built-in commands of the shell (shell/buildin_cmd.c)

    The shell's variables [cwd_cache], [final_path] and [cmd_line] are buffers of the kernel
    image; strings are byte lists that reach from the pointer to the end of its buffer, as in
    [Fs].  A system call is the kernel function of [Fs] on the descriptors and the working
    directory of the shell.  [printf] passes the text that [Stdio] gives for its items to
    [sys_write] of descriptor 1. *)

From Stdlib Require Import Ascii String.
From S2P Require Import Prelude CString Stdio Disk FsState Dir File Pipe Fs.

Record shell := Shell {
  cmd_line : list Z;
  cwd_cache : list Z;
  final_path : list Z;
  ufs : fs;
  woken : list Z;      (** the threads that output to a pipe has woken *)
}.

Definition set_cmd_line (v : list Z) (s : shell) : shell := Shell v (cwd_cache s) (final_path s) (ufs s) (woken s).
Definition set_cwd_cache (v : list Z) (s : shell) : shell := Shell (cmd_line s) v (final_path s) (ufs s) (woken s).
Definition set_final (v : list Z) (s : shell) : shell := Shell (cmd_line s) (cwd_cache s) v (ufs s) (woken s).
Definition set_ufs (f : fs) (s : shell) : shell := Shell (cmd_line s) (cwd_cache s) (final_path s) f (woken s).
Definition wakes (ws : list Z) (s : shell) : shell :=
  Shell (cmd_line s) (cwd_cache s) (final_path s) (ufs s) (woken s ++ ws).

(** The characters of a literal. *)
Definition txt (s : string) : list Z := (λ c, Z.of_N (N_of_ascii c)) <$> list_ascii_of_string s.
Arguments txt _%_string.

Definition NL : Z := 10.

(** The string at a pointer. *)
Definition cstring (b : list Z) : outcome (list Z) := n ← bstrlen b; Ok (take (Z.to_nat n) b).

(** ** Paths *)

Definition ROOT : list Z := [SLASH; 0].

(** One name of [wash_path] on the path gathered so far. *)
Definition wash_name (name new_abs_path : list Z) : outcome (list Z) :=
  c ← bstrcmp DOTDOT name;
  if c =? 0 then
    slash_ptr ← last_slash new_abs_path 0 None;
    match slash_ptr with
    | None => Fault
    | Some p => if negb (p =? 0) then aset new_abs_path p 0 else aset new_abs_path (p + 1) 0
    end
  else
    c ← bstrcmp DOT name;
    if negb (c =? 0) then
      r ← bstrcmp new_abs_path ROOT;
      new_abs_path ← (if negb (r =? 0) then bstrcat new_abs_path ROOT else Ok new_abs_path);
      bstrcat new_abs_path name
    else Ok new_abs_path.

Fixpoint wash_loop (fuel : nat) (sub_path : option (list Z)) (name new_abs_path : list Z) : outcome (list Z) :=
  match fuel with
  | O => NoFuel
  | S fuel' =>
      c ← aget name 0;
      if c =? 0 then Ok new_abs_path
      else
        new_abs_path ← wash_name name new_abs_path;
        '(sub_path, name) ←
          (match sub_path with Some p => path_parse p zero_name | None => Ok (None, zero_name) end);
        wash_loop fuel' sub_path name new_abs_path
  end.

Definition wash_path (old_abs_path new_abs_path : list Z) : outcome (list Z) :=
  '(sub_path, name) ← path_parse old_abs_path zero_name;
  c ← aget name 0;
  if c =? 0 then
    new_abs_path ← aset new_abs_path 0 SLASH;
    aset new_abs_path 1 0
  else
    new_abs_path ← aset new_abs_path 0 0;
    new_abs_path ← bstrcat new_abs_path ROOT;
    wash_loop (S (S (length old_abs_path))) sub_path name new_abs_path.

Section Commands.
(** The calling thread, what the locals of [path_depth_cnt] and [search_file] hold before they
    are written, and a bound on the depth of the working directory. *)
Context (t : Z) (junk_name junk_de : list Z) (depth : nat).

(** The buffer stays zero when [getcwd] fails. *)
Definition make_clear_abs_path (path : list Z) (s : shell) : outcome shell :=
  c ← aget path 0;
  '(abs_path, f) ←
    (if negb (c =? SLASH) then
       '(r, f) ← sys_getcwd depth (replicate 512 0) MAX_PATH_LEN (ufs s);
       match r with
       | None => Ok (replicate 512 0, f)
       | Some abs_path =>
           c0 ← aget abs_path 0;
           c1 ← aget abs_path 1;
           abs_path ← (if negb ((c0 =? SLASH) && (c1 =? 0)) then bstrcat abs_path ROOT else Ok abs_path);
           Ok (abs_path, f)
       end
     else Ok (replicate 512 0, ufs s));
  abs_path ← bstrcat abs_path path;
  final ← wash_path abs_path (final_path s);
  Ok (set_final final (set_ufs f s)).

(** [printf]: [buf] is 1024 zero bytes. *)
Definition write_text (text : list Z) (f : fs) : outcome (fs * list Z) :=
  buf ← splice (replicate 1024 0) 0 text;
  n ← bstrlen buf;
  '(_, f, ws) ← sys_write t stdout_no buf n f;
  Ok (f, ws).
Definition print_text (text : list Z) (s : shell) : outcome shell :=
  '(f, ws) ← write_text text (ufs s); Ok (wakes ws (set_ufs f s)).

Definition printf (l : list item) (s : shell) : outcome shell := print_text (output_of l) s.

Definition lits (l : list Z) : list item := Lit <$> l.
Definition puts (str : string) (nl : bool) (s : shell) : outcome shell :=
  printf (lits (txt str ++ if nl then [NL] else [])) s.
Arguments puts _%_string.

(** A message with one [%s] at [p]. *)
Definition puts_str (before : string) (p : list Z) (after : list Z) (s : shell) : outcome shell :=
  str ← cstring p; printf (lits (txt before) ++ [PStr 0 str] ++ lits after) s.
Arguments puts_str _%_string.

(** [clear ()]: the screen is empty. *)
Definition clear_screen (s : shell) : shell := set_ufs (set_screen [] (ufs s)) s.

(** ** The commands; [argv] holds the [argc] strings *)

(** [getcwd (final_path, MAX_PATH_LEN)]; a failed call leaves zeroes, which the next round of
    the shell would write anyway. *)
Definition getcwd_final (s : shell) : outcome (bool * shell) :=
  '(r, f) ← sys_getcwd depth (final_path s) MAX_PATH_LEN (ufs s);
  match r with
  | Some b => Ok (true, set_final b (set_ufs f s))
  | None => Ok (false, set_ufs f s)
  end.

Definition buildin_pwd (argc : Z) (s : shell) : outcome shell :=
  if negb (argc =? 1) then puts "pwd: no argument support!" true s
  else
    '(ok, s) ← getcwd_final s;
    if ok : bool then puts_str "" (final_path s) [NL] s
    else puts "pwd: get current work directory failed." true s.

(** The result tells whether a path was returned. *)
Definition buildin_cd (argc : Z) (argv : list (list Z)) (s : shell) : outcome (bool * shell) :=
  if argc >? 2 then s ← puts "cd: only support 1 argument!" true s; Ok (false, s)
  else
    s ← (if argc =? 1 then
           b ← aset (final_path s) 0 SLASH; b ← aset b 1 0; Ok (set_final b s)
         else a ← aget argv 1; make_clear_abs_path a s);
    '(r, f) ← sys_chdir junk_de (final_path s) (ufs s);
    let s := set_ufs f s in
    if r =? -1 then s ← puts_str "cd: no such directory " (final_path s) [NL] s; Ok (false, s)
    else Ok (true, s).

(** The arguments of ls behind "ls". *)
Inductive ls_args :=
| LsRun (long_info : bool) (pathname : option (list Z))
| LsHelp
| LsInvalid (arg : list Z)
| LsTwoPaths.

Fixpoint ls_parse (args : list (list Z)) (long_info : bool) (pathname : option (list Z)) : outcome ls_args :=
  match args with
  | [] => Ok (LsRun long_info pathname)
  | a :: args =>
      c ← aget a 0;
      if c =? 45 then
        l ← bstrcmp (txt "-l" ++ [0]) a;
        if l =? 0 then ls_parse args true pathname
        else
          h ← bstrcmp (txt "-h" ++ [0]) a;
          Ok (if h =? 0 then LsHelp else LsInvalid a)
      else
        match pathname with
        | None => ls_parse args long_info (Some a)
        | Some _ => Ok LsTwoPaths
        end
  end.

(** The loop of [ls -l] over the entries; [sub] is [sub_pathname], [n] [pathname_len].  [false]:
    the function returned from the loop and the directory stays open. *)
Fixpoint ls_long_loop (fuel : nat) (dir : Z) (sub : list Z) (n : Z) (s : shell) : outcome (bool * shell) :=
  match fuel with
  | O => NoFuel
  | S fuel' =>
      '(e, f) ← sys_readdir dir (ufs s);
      let s := set_ufs f s in
      match e with
      | None => Ok (true, s)
      | Some idx =>
          d ← get_dir dir f;
          ft ← entry_type (dir_buf d) idx;
          let ftype := if ft =? ftype_word FT_REGULAR then 45 else 100 in
          sub ← aset sub n 0;
          sub ← bstrcat sub (entry_name (dir_buf d) idx);
          '(r, st, f) ← sys_stat junk_de sub f;
          let s := set_ufs f s in
          d ← get_dir dir f;
          nm ← cstring (entry_name (dir_buf d) idx);
          ino ← entry_ino (dir_buf d) idx;
          if r =? -1 then
            s ← printf (lits (txt "ls: cannot access ") ++ [PStr 0 nm] ++ lits (txt ": No such file or directory" ++ [NL])) s;
            Ok (false, s)
          else
            let size := match st with Some st => st_size st | None => 0 end in
            s ← printf ([PChr ftype; Lit 32; Lit 32; PDec ino; Lit 32; Lit 32; PDec size; Lit 32; Lit 32; PStr 0 nm; Lit NL]) s;
            ls_long_loop fuel' dir sub n s
      end
  end.

Fixpoint ls_short_loop (fuel : nat) (dir : Z) (s : shell) : outcome shell :=
  match fuel with
  | O => NoFuel
  | S fuel' =>
      '(e, f) ← sys_readdir dir (ufs s);
      let s := set_ufs f s in
      match e with
      | None => puts "" true s
      | Some idx =>
          d ← get_dir dir f;
          s ← puts_str "" (entry_name (dir_buf d) idx) [32] s;
          ls_short_loop fuel' dir s
      end
  end.

(** [fuel] bounds the number of entries. *)
Definition ls_dir (fuel : nat) (long_info : bool) (size : Z) (s : shell) : outcome shell :=
  '(dir, f) ← sys_opendir junk_de (final_path s) (ufs s);
  let s := set_ufs f s in
  n ← bstrlen (final_path s);
  sub ← splice (replicate 512 0) 0 (take (Z.to_nat n) (final_path s));
  c ← aget sub (u32 (n - 1));
  '(sub, n) ← (if negb (c =? SLASH) then sub ← aset sub n SLASH; Ok (sub, n + 1) else Ok (sub, n));
  f ← sys_rewinddir dir (ufs s);
  let s := set_ufs f s in
  '(close, s) ←
    (if long_info then
       s ← printf (lits (txt "total: ") ++ [PDec size; Lit NL]) s;
       ls_long_loop fuel dir sub n s
     else s ← ls_short_loop fuel dir s; Ok (true, s));
  if close : bool then '(_, f) ← sys_closedir dir (ufs s); Ok (set_ufs f s) else Ok s.

(** [pathname] is [final_path] from here on. *)
Definition ls_path (fuel : nat) (long_info : bool) (s : shell) : outcome shell :=
  '(r, st, f) ← sys_stat junk_de (final_path s) (ufs s);
  let s := set_ufs f s in
  if r =? -1 then puts_str "ls: cannot access " (final_path s) (txt ": No such file or directory" ++ [NL]) s
  else
    let st := default (Stat 0 0 FT_UNKNOWN) st in
    if decide (st_filetype st = FT_DIRECTORY) then ls_dir fuel long_info (st_size st) s
    else if long_info then
      nm ← cstring (final_path s);
      printf ([Lit 45; Lit 32; Lit 32; PDec (st_ino st); Lit 32; Lit 32; PDec (st_size st); Lit 32; Lit 32; PStr 0 nm; Lit NL]) s
    else puts_str "" (final_path s) [NL] s.

Definition buildin_ls (fuel : nat) (argc : Z) (argv : list (list Z)) (s : shell) : outcome shell :=
  a ← ls_parse (drop 1 (take (Z.to_nat argc) argv)) false None;
  match a with
  | LsHelp =>
      printf (lits (txt "usage: -l list all infomation about the file." ++ [NL] ++ txt "-h for help" ++ [NL] ++
                    txt "list all files in the current dirctory if no option" ++ [NL])) s
  | LsInvalid p => puts_str "ls: invalid option " p ([NL] ++ txt "Try `ls -h' for more information." ++ [NL]) s
  | LsTwoPaths => puts "ls: only support one path" true s
  | LsRun long_info None =>
      '(ok, s) ← getcwd_final s;
      if ok : bool then ls_path fuel long_info s else puts "ls: getcwd for default path failed" true s
  | LsRun long_info (Some p) => s ← make_clear_abs_path p s; ls_path fuel long_info s
  end.

Definition buildin_clear (argc : Z) (s : shell) : outcome shell :=
  if negb (argc =? 1) then puts "clear: no argument support!" true s else Ok (clear_screen s).

(** The commands that take one path: [call] is the system call. *)
Definition path_command (cmd only failed : string) (call : list Z → fs → outcome (Z * fs))
    (argc : Z) (argv : list (list Z)) (s : shell) : outcome (Z * shell) :=
  if negb (argc =? 2) then s ← printf (lits (txt cmd ++ txt only ++ [NL])) s; Ok (-1, s)
  else
    a ← aget argv 1;
    s ← make_clear_abs_path a s;
    c ← bstrcmp ROOT (final_path s);
    if negb (c =? 0) then
      '(r, f) ← call (final_path s) (ufs s);
      let s := set_ufs f s in
      if r =? 0 then Ok (0, s)
      else str ← cstring a; s ← printf (lits (txt cmd ++ txt failed) ++ [PStr 0 str] ++ lits (txt " failed." ++ [NL])) s; Ok (-1, s)
    else Ok (-1, s).

Definition buildin_mkdir : Z → list (list Z) → shell → outcome (Z * shell) :=
  path_command "mkdir" ": only support 1 argument!" ": create directory " (sys_mkdir junk_name junk_de).
Definition buildin_rmdir : Z → list (list Z) → shell → outcome (Z * shell) :=
  path_command "rmdir" ": only support 1 argument!" ": remove " (sys_rmdir junk_de).
Definition buildin_rm : Z → list (list Z) → shell → outcome (Z * shell) :=
  path_command "rm" ": only support 1 argument!" ": delete " (sys_unlink junk_de).
End Commands.
Arguments puts _ _%_string.
Arguments puts_str _ _%_string.

(** ** Strings in buffers *)

Definition chars (s : list Z) : Prop := Forall (λ c, 0 < c < 256) s.

Lemma bstrlen_str s r : chars s → bstrlen (s ++ 0 :: r) = Ok (zlen s).
Proof.
  induction 1 as [|c s Hc Hs IH]; [done|]. cbn [bstrlen app]. rewrite (proj2 (Z.eqb_neq c 0)) by lia.
  rewrite IH. cbn [mbind outcome_bind]. by rewrite zlen_cons.
Qed.

(** Text written to the standard output is appended to the screen. *)
Lemma write_screen t text r s :
  is_pipe stdout_no s = Ok false → chars text → zlen text < 1024 →
  sys_write t stdout_no (text ++ r) (zlen text) s = Ok (i32 (zlen text), set_screen (screen s ++ text) s, []).
Proof.
  intros Hp Hc HL. pose proof (zlen_nonneg text). pose proof (zlen_nonneg r). unfold sys_write. change (stdout_no <? 0) with false.
  rewrite Z.eqb_refl. cbn iota. rewrite Hp. cbn [mbind outcome_bind]. rewrite slice_ok by (rewrite ?zlen_app; lia). cbn [mbind outcome_bind].
  change (drop (Z.to_nat 0) ?l) with l. assert (Ht : ∀ q, take (Z.to_nat (zlen text)) (text ++ q) = text) by (intros q; unfold zlen; rewrite Nat2Z.id; by apply take_app_length).
  assert (Hz : zlen (replicate 1024 0) = 1024) by reflexivity. rewrite Ht, splice_eq by (rewrite ?Hz; lia). cbn [mbind outcome_bind]. unfold console_put_str.
  change (take (Z.to_nat 0) (replicate 1024 0)) with (@nil Z). cbn [app]. rewrite drop_replicate.
  destruct (1024 - Z.to_nat (0 + zlen text))%nat as [|k] eqn:E; [unfold zlen in *; lia|]. cbn [replicate]. rewrite bstrlen_str by done. cbn [mbind outcome_bind].
  by rewrite Ht.
Qed.

Lemma write_text_ok t text s :
  is_pipe stdout_no s = Ok false → chars text → zlen text < 1024 → write_text t text s = Ok (set_screen (screen s ++ text) s, []).
Proof.
  intros Hp Hc HL. pose proof (zlen_nonneg text). unfold write_text. assert (Hz : zlen (replicate 1024 0) = 1024) by reflexivity.
  rewrite splice_eq by (rewrite ?Hz; lia). cbn [mbind outcome_bind]. change (take (Z.to_nat 0) (replicate 1024 0)) with (@nil Z). cbn [app].
  rewrite drop_replicate. destruct (1024 - Z.to_nat (0 + zlen text))%nat as [|k] eqn:E; [unfold zlen in *; lia|]. cbn [replicate].
  rewrite bstrlen_str by done. cbn [mbind outcome_bind]. rewrite write_screen by done. done.
Qed.

Lemma bstrcmp_str s r u q : chars s → chars u → ∃ c, bstrcmp (s ++ 0 :: r) (u ++ 0 :: q) = Ok c ∧ (c = 0 ↔ s = u).
Proof.
  revert u. induction s as [|x s IH]; intros u Hs Hu; destruct u as [|y u]; cbn [app bstrcmp].
  - by exists 0.
  - apply Forall_cons in Hu as [Hy _]. exists (cmp_char 0 y). split; [done|]. split; [|done].
    intros E. apply cmp_char_0 in E; lia.
  - apply Forall_cons in Hs as [Hx _]. destruct (char_of x =? char_of 0) eqn:E; zbool.
    + apply char_of_inj in E; lia.
    + rewrite andb_false_r. exists (cmp_char x 0). split; [done|]. split; [|done]. intros E'. apply cmp_char_0 in E'; lia.
  - apply Forall_cons in Hs as [Hx Hs], Hu as [Hy Hu]. rewrite (proj2 (Z.eqb_neq x 0)) by lia. cbn [negb andb].
    destruct (char_of x =? char_of y) eqn:E; zbool.
    + apply char_of_inj in E; [|lia..]. subst y. destruct (IH u Hs Hu) as (c & -> & Hc). exists c. split; [done|].
      rewrite Hc. naive_solver.
    + exists (cmp_char x y). split; [done|]. split; [|naive_solver]. intros E'. apply cmp_char_0 in E'; [|lia..]. subst. done.
Qed.

(** Comparison with a literal, as a test. *)
Lemma bstrcmp_test s r u q :
  chars s → chars u → ∃ c, bstrcmp (s ++ 0 :: r) (u ++ 0 :: q) = Ok c ∧ (c =? 0) = bool_decide (s = u).
Proof.
  intros Hs Hu. destruct (bstrcmp_str s r u q Hs Hu) as (c & E & Hc). exists c. split; [done|].
  apply Bool.eq_iff_eq_true. rewrite bool_decide_eq_true, Z.eqb_eq. done.
Qed.

(** A buffer of [n] bytes that holds the string [s]. *)
Definition holds (b : list Z) (s : list Z) (n : Z) : Prop := zlen b = n ∧ ∃ r, b = s ++ 0 :: r.

Lemma bstrcat_str b s n u q :
  holds b s n → chars s → chars u → zlen s + zlen u + 1 ≤ n →
  ∃ b', bstrcat b (u ++ 0 :: q) = Ok b' ∧ holds b' (s ++ u) n.
Proof.
  intros [HL [r ->]] Hs Hu Hn. unfold bstrcat. rewrite !bstrlen_str by done. cbn [mbind outcome_bind].
  replace (take (Z.to_nat (zlen u + 1)) (u ++ 0 :: q)) with (u ++ [0]).
  2: { replace (Z.to_nat (zlen u + 1)) with (length u + 1)%nat by (unfold zlen; lia).
       rewrite take_app_add. done. }
  pose proof (zlen_nonneg s). rewrite zlen_app, zlen_cons in HL.
  rewrite splice_eq by (autorewrite with kernel; lia). eexists. split; [done|]. split.
  - rewrite !zlen_app. unfold zlen at 1 5. rewrite length_take, length_drop, length_app, length_cons.
    autorewrite with kernel. unfold zlen in *. lia.
  - eexists. rewrite take_app_le, take_ge by (unfold zlen; lia). rewrite <- !app_assoc. simpl. done.
Qed.

Lemma aset_holds b s n p u w :
  holds b (s ++ u) n → p = zlen s → u ≠ [] → w = s → ∃ b', aset b p 0 = Ok b' ∧ holds b' w n.
Proof.
  intros [HL [r ->]] -> Hu ->. pose proof (zlen_nonneg s). destruct u as [|x u]; [done|]. autorewrite with kernel in HL.
  pose proof (zlen_nonneg u). pose proof (zlen_nonneg r).
  rewrite aset_ok by (autorewrite with kernel; lia). eexists. split; [done|]. split; [autorewrite with kernel; lia|].
  exists (u ++ 0 :: r). rewrite <- app_assoc. unfold zlen. rewrite Nat2Z.id. rewrite insert_app_r_alt by lia. by rewrite Nat.sub_diag.
Qed.

Lemma last_slash_str pre nm r k last :
  chars pre → chars nm → Forall (λ c, c ≠ SLASH) nm →
  last_slash (pre ++ SLASH :: nm ++ 0 :: r) k last = Ok (Some (k + zlen pre)).
Proof.
  revert k last. induction pre as [|x pre IH]; intros k last Hp Hn Hs; cbn [last_slash app].
  - change (SLASH =? 0) with false. change (SLASH =? SLASH) with true. cbn iota. change (zlen []) with 0. rewrite (Z.add_0_r k). generalize (k + 1).
    induction nm as [|y nm IH]; intros j; cbn [last_slash app]; [done|].
    apply Forall_cons in Hn as [Hy Hn], Hs as [Hy' Hs]. rewrite (proj2 (Z.eqb_neq y 0)), (proj2 (Z.eqb_neq y SLASH)) by (done || lia). by apply IH.
  - apply Forall_cons in Hp as [Hx Hp]. rewrite (proj2 (Z.eqb_neq x 0)) by lia. rewrite IH by done. rewrite zlen_cons. do 2 f_equal. lia.
Qed.

(** ** What [wash_path] computes *)

Definition UP : list Z := [46; 46].
Definition SELF : list Z := [46].

(** ".." leaves a directory, "." stays, any other name enters one. *)
Definition norm_step (acc : list (list Z)) (nm : list Z) : list (list Z) :=
  if bool_decide (UP = nm) then removelast acc
  else if bool_decide (SELF = nm) then acc
  else acc ++ [nm].

Definition normalize (names : list (list Z)) : list (list Z) := foldl norm_step [] names.

Definition joined (names : list (list Z)) : list Z := names ≫= (λ nm, SLASH :: nm).
Definition abs_text (names : list (list Z)) : list Z := match names with [] => [SLASH] | _ => joined names end.

(** Names that fit [name] of [wash_path] with the terminating zero. *)
Definition name_ok (nm : list Z) : Prop := nm ≠ [] ∧ zlen nm ≤ 15 ∧ Forall (λ c, 0 < c < 256 ∧ c ≠ SLASH) nm.

Lemma name_chars nm : name_ok nm → chars nm.
Proof. intros (_ & _ & H). eapply Forall_impl; [exact H|]. naive_solver. Qed.

Lemma joined_app a b : joined (a ++ b) = joined a ++ joined b.
Proof. unfold joined. by rewrite bind_app. Qed.

Lemma joined_one nm : joined [nm] = SLASH :: nm.
Proof. unfold joined. cbn [mbind list_bind]. by rewrite app_nil_r. Qed.

Lemma joined_chars l : Forall name_ok l → chars (joined l).
Proof.
  induction 1 as [|nm l Hn Hl IH]; [constructor|]. change (nm :: l) with ([nm] ++ l). rewrite joined_app, joined_one.
  apply Forall_app. split; [|done]. constructor; [unfold SLASH; lia|by apply name_chars].
Qed.

Lemma abs_chars l : Forall name_ok l → chars (abs_text l).
Proof. intros H. destruct l; [by repeat constructor|by apply joined_chars]. Qed.

Lemma abs_joined l : l ≠ [] → abs_text l = joined l.
Proof. by destruct l. Qed.

Lemma norm_step_ok acc nm : Forall name_ok acc → name_ok nm → Forall name_ok (norm_step acc nm).
Proof.
  intros Ha Hn. unfold norm_step. repeat case_bool_decide; [|done|by apply Forall_app; split; [|constructor]].
  destruct acc as [|x acc] using rev_ind; [done|]. rewrite removelast_last. by apply Forall_app in Ha as [? _].
Qed.

Lemma joined_removelast acc : zlen (joined (removelast acc)) ≤ zlen (joined acc).
Proof.
  destruct acc as [|x acc] using rev_ind; [done|]. rewrite removelast_last, joined_app, zlen_app.
  pose proof (zlen_nonneg (joined [x])). lia.
Qed.

(** One name, on the buffer. *)
Lemma wash_name_ok acc nm q b n :
  Forall name_ok acc → name_ok nm → holds b (abs_text acc) n → 2 ≤ n → zlen (joined acc) + zlen nm + 2 ≤ n →
  ∃ b', wash_name (nm ++ 0 :: q) b = Ok b' ∧ holds b' (abs_text (norm_step acc nm)) n.
Proof.
  intros Ha Hn Hb H2 Hc. pose proof (name_chars _ Hn) as Hch. unfold wash_name, norm_step. change DOTDOT with (UP ++ [0]). change DOT with (SELF ++ [0]).
  destruct (bstrcmp_test UP [] nm q) as (c & Hc1 & Ec1); [by repeat constructor|done|]. mrun Hc1. rewrite Ec1.
  case_bool_decide as E.
  - destruct acc as [|x acc] using rev_ind; [|clear IHacc].
    + destruct Hb as [HL [r ->]]. exists (SLASH :: 0 :: r). split; [|split; [done|by exists r]].
      assert (Hl : last_slash (abs_text [] ++ 0 :: r) 0 None = Ok (Some 0)) by reflexivity. mrun Hl.
      change (negb (0 =? 0)) with false. cbn iota. change (abs_text [] ++ 0 :: r) with (SLASH :: 0 :: r). rewrite aset_ok by (autorewrite with kernel; pose proof (zlen_nonneg r); lia). done.
    + rewrite removelast_last. apply Forall_app in Ha as [Ha Hx]. apply Forall_cons in Hx as [Hx _].
      rewrite abs_joined, joined_app, joined_one in Hb by (by destruct acc). pose proof Hb as [HL [r Er]].
      rewrite Er, <- app_assoc. simpl ((_ :: _) ++ _). rewrite last_slash_str; [|by apply joined_chars|by apply name_chars|].
      2: { destruct Hx as (_ & _ & Hx). eapply Forall_impl; [exact Hx|]. naive_solver. }
      cbn [mbind outcome_bind]. rewrite Z.add_0_l.
      change (SLASH :: x ++ 0 :: r) with ((SLASH :: x) ++ 0 :: r). rewrite app_assoc, <- Er.
      pose proof Hx as (Hx0 & _). destruct acc as [|z acc].
      * change (negb (zlen (joined []) =? 0)) with false. cbn iota. eapply (aset_holds b [SLASH] n 1 x); [done|done|done|done].
      * assert (Hz : 0 < zlen (joined (z :: acc))).
        { change (z :: acc) with ([z] ++ acc). rewrite joined_app, joined_one, zlen_app, zlen_cons.
          pose proof (zlen_nonneg z). pose proof (zlen_nonneg (joined acc)). lia. }
        rewrite (proj2 (Z.eqb_neq _ _)) by lia. cbn [negb].
        eapply (aset_holds b (joined (z :: acc)) n _ (SLASH :: x)); done.
  - destruct (bstrcmp_test SELF [] nm q) as (c2 & Hc2 & Ec2); [by repeat constructor|done|]. mrun Hc2. rewrite Ec2.
    case_bool_decide as E2; [by exists b|]. cbn [negb]. pose proof (abs_chars _ Ha) as Hac. destruct Hb as [HL [r Er]].
    destruct (bstrcmp_test (abs_text acc) r [SLASH] []) as (c3 & Hc3 & Ec3); [done|by repeat constructor|].
    rewrite Er. unfold ROOT. cbn [app] in Hc3. mrun Hc3. rewrite Ec3. rewrite <- Er. unfold abs_text at 3. destruct acc as [|z acc].
    + rewrite bool_decide_true by done. cbn [negb mbind outcome_bind app]. rewrite joined_one.
      apply (bstrcat_str b [SLASH] n nm q); [split; [done|by exists r]|by repeat constructor|done|].
      autorewrite with kernel in *. cbn in Hc. lia.
    + rewrite bool_decide_false; cycle 1.
      { apply Forall_cons in Ha as [(Hz & _) _]. unfold abs_text, joined. cbn [mbind list_bind]. destruct z; done. }
      cbn [negb]. pose proof (zlen_nonneg nm).
      destruct (bstrcat_str b (abs_text (z :: acc)) n [SLASH] []) as (b1 & Hb1 & Hh1);
        [split; [done|by exists r]|done|by repeat constructor|unfold abs_text; autorewrite with kernel; lia|].
      cbn [app] in Hb1. mrun Hb1.
      destruct (bstrcat_str b1 _ n nm q Hh1) as (b2 & Hb2 & Hh2);
        [apply Forall_app; split; [done|by repeat constructor]|done|unfold abs_text; autorewrite with kernel; lia|].
      exists b2. split; [done|]. cbn [app] in *. change (z :: acc ++ [nm]) with ((z :: acc) ++ [nm]).
      rewrite joined_app, joined_one. unfold abs_text in Hh2. rewrite <- app_assoc in Hh2. exact Hh2.
Qed.

Definition names (segs : list (nat * list Z)) : list (list Z) := segs.*2.

Lemma name_seg n nm : name_ok nm → seg_ok (n, nm).
Proof.
  intros (H1 & H2 & H3). split; [done|]. split; [unfold zlen in H2; simpl; lia|]. eapply Forall_impl; [exact H3|].
  unfold SLASH. naive_solver lia.
Qed.

Lemma parsed_name nm : name_ok nm → ∃ q, nm ++ drop (length nm) zero_name = nm ++ 0 :: q.
Proof.
  intros (_ & H & _). unfold zlen in H. unfold zero_name. rewrite drop_replicate.
  destruct (16 - length nm)%nat as [|k] eqn:E; [lia|]. by exists (replicate k 0).
Qed.

(** The path that is left, as [path_parse] returns it. *)
Definition left_path (segs : list (nat * list Z)) (trail : nat) (rest : list Z) : option (list Z) :=
  if bool_decide (segs = [] ∧ trail = 0%nat) then None else Some (path_text segs trail ++ 0 :: rest).

Lemma parse_step n nm segs trail rest :
  name_ok nm → path_parse (path_text ((n, nm) :: segs) trail ++ 0 :: rest) zero_name
    = Ok (left_path segs trail rest, nm ++ drop (length nm) zero_name).
Proof.
  intros Hn. destruct (name_seg n nm Hn) as (S1 & S2 & S3). cbn [snd] in *.
  destruct (path_text_head segs trail rest) as (t & Ht & Hst & Hz). rewrite path_text_cons, <- !app_assoc.
  rewrite (path_parse_seg (S n) nm _ t) by done. unfold left_path. by rewrite Hz.
Qed.

Lemma wash_loop_ok segs trail rest fuel nm q acc b n :
  Forall name_ok (names segs) → name_ok nm → Forall name_ok acc → (length segs + 2 ≤ fuel)%nat →
  holds b (abs_text acc) n → 2 ≤ n → zlen (joined acc) + zlen (joined (nm :: names segs)) + 1 ≤ n →
  ∃ b', wash_loop fuel (left_path segs trail rest) (nm ++ 0 :: q) b = Ok b' ∧
    holds b' (abs_text (foldl norm_step acc (nm :: names segs))) n.
Proof.
  revert fuel nm q acc b. induction segs as [|[k nm2] segs IH]; intros fuel nm q acc b Hsg Hn Ha Hf Hb H2 Hc.
  all: destruct fuel as [|fuel]; [simpl in Hf; lia|]; cbn [wash_loop].
  all: change (nm :: names ?x) with ([nm] ++ names x) in Hc; rewrite joined_app, joined_one, zlen_app, zlen_cons in Hc.
  all: destruct (wash_name_ok acc nm q b n) as (b1 & Hb1 & Hh1); [done|done|done|done|match type of Hc with context [zlen (joined (names ?l))] => pose proof (zlen_nonneg (joined (names l))) end; lia|].
  all: pose proof Hn as (Hne & _ & Hch); destruct nm as [|x nm]; [done|]; apply Forall_cons in Hch as [Hx _].
  all: change (aget ((x :: nm) ++ 0 :: q) 0) with (Ok x); cbn [mbind outcome_bind]; rewrite (proj2 (Z.eqb_neq x 0)) by lia.
  all: mrun Hb1.
  - destruct fuel as [|fuel]; [simpl in Hf; lia|]. exists b1. split; [|done]. unfold left_path. case_bool_decide as E; [done|].
    destruct trail as [|trail]; [naive_solver|]. unfold path_text. cbn [mbind list_bind app]. by rewrite path_parse_end.
  - apply Forall_cons in Hsg as [Hn2 Hsg]. cbn [snd] in Hn2. destruct (parsed_name nm2 Hn2) as [q2 Eq].
    unfold left_path at 1. rewrite bool_decide_false by naive_solver.
    rewrite parse_step by done. cbn [mbind outcome_bind]. rewrite Eq.
    apply (IH fuel nm2 q2 (norm_step acc (x :: nm)) b1); [done|done|by apply norm_step_ok|simpl in Hf; lia|done|done|].
    cbn [names fmap list_fmap snd] in Hc. unfold names in *. unfold norm_step.
    pose proof (joined_removelast acc). pose proof (zlen_nonneg (x :: nm)). repeat case_bool_decide; try lia.
    rewrite joined_app, joined_one, zlen_app, zlen_cons. lia.
Qed.

Lemma wash_path_ok segs trail rest b :
  Forall name_ok (names segs) → segs ≠ [] ∨ trail ≠ 0%nat → 2 ≤ zlen b → zlen (joined (names segs)) + 1 ≤ zlen b →
  ∃ b', wash_path (path_text segs trail ++ 0 :: rest) b = Ok b' ∧ holds b' (abs_text (normalize (names segs))) (zlen b).
Proof.
  intros Hsg Hne H2 Hc. unfold wash_path. destruct segs as [|[k nm] segs].
  - destruct trail as [|trail]; [naive_solver|]. unfold path_text. cbn [mbind list_bind app]. rewrite path_parse_end.
    cbn [mbind outcome_bind]. change (aget zero_name 0) with (Ok 0). cbn [mbind outcome_bind]. change (0 =? 0) with true. cbn iota.
    rewrite aset_ok by lia. cbn [mbind outcome_bind]. rewrite aset_ok by (autorewrite with kernel; lia).
    destruct b as [|x [|y b]]; [unfold zlen in H2; simpl in H2; lia..|]. eexists. split; [done|]. split; [done|]. by exists b.
  - apply Forall_cons in Hsg as [Hn Hsg]. cbn [snd] in Hn. destruct (parsed_name nm Hn) as [q Eq].
    rewrite parse_step by done. cbn [mbind outcome_bind]. rewrite Eq.
    pose proof Hn as (Hnn & _ & Hch). destruct nm as [|x nm]; [done|]. apply Forall_cons in Hch as [Hx _].
    change (aget ((x :: nm) ++ 0 :: q) 0) with (Ok x). cbn [mbind outcome_bind]. rewrite (proj2 (Z.eqb_neq x 0)) by lia.
    rewrite aset_ok by lia. cbn [mbind outcome_bind]. destruct b as [|y b]; [unfold zlen in H2; simpl in H2; lia|].
    change (<[Z.to_nat 0 := 0]> (y :: b)) with ([] ++ 0 :: b).
    destruct (bstrcat_str ([] ++ 0 :: b) [] (zlen (y :: b)) [SLASH] []) as (b1 & Hb1 & Hh1);
      [split; [done|by exists b]|constructor|by repeat constructor|unfold zlen in *; simpl in *; lia|]. cbn [app] in Hb1 |- *. unfold ROOT. mrun Hb1.
    destruct (wash_loop_ok segs trail rest (S (S (length (path_text ((k, x :: nm) :: segs) trail ++ 0 :: rest))))
      (x :: nm) q [] b1 (zlen (y :: b))) as (b2 & Hb2 & Hh2); [done|done|constructor| |done|done| |].
    + assert (Hl : (length segs ≤ length (path_text ((k, x :: nm) :: segs) trail))%nat); [|rewrite length_app; lia].
      clear. unfold path_text. rewrite length_app. cbn [mbind list_bind]. rewrite length_app.
      induction segs as [|sg segs IH]; [simpl; lia|]. cbn [mbind list_bind length]. rewrite length_app.
      unfold seg_text at 2. rewrite length_app, length_replicate. lia.
    + cbn [names fmap list_fmap snd] in Hc. change (zlen (joined [])) with 0. unfold names in *. lia.
    + exists b2. split; [exact Hb2|]. exact Hh2.
Qed.

Lemma normalize_ok l : Forall name_ok l → Forall name_ok (normalize l).
Proof.
  unfold normalize. intros H. assert (Ha : Forall name_ok []) by constructor. revert H Ha. generalize (@nil (list Z)).
  induction l as [|nm l IH]; intros acc Hl Ha; [done|]. apply Forall_cons in Hl as [Hn Hl]. simpl. apply IH; [done|]. by apply norm_step_ok.
Qed.

Lemma normalize_clean l : UP ∉ normalize l ∧ SELF ∉ normalize l.
Proof.
  unfold normalize. assert (Ha : UP ∉ (@nil (list Z)) ∧ SELF ∉ (@nil (list Z))) by set_solver. revert Ha. generalize (@nil (list Z)).
  induction l as [|nm l IH]; intros acc Ha; [done|]. simpl. apply IH. unfold norm_step. repeat case_bool_decide; [|done|set_solver].
  destruct acc as [|x acc] using rev_ind; [done|]. rewrite removelast_last. set_solver.
Qed.

Lemma path_text_chars segs trail : Forall name_ok (names segs) → chars (path_text segs trail).
Proof.
  intros H. unfold path_text. apply Forall_app. split; [|apply Forall_replicate; unfold SLASH; lia].
  induction segs as [|[k nm] segs IH]; [constructor|]. apply Forall_cons in H as [Hn H]. cbn [mbind list_bind]. apply Forall_app.
  split; [|by apply IH]. apply Forall_app. split; [apply Forall_replicate; unfold SLASH; simpl; lia|by apply name_chars].
Qed.

Lemma path_text_joined segs trail : zlen (joined (names segs)) ≤ zlen (path_text segs trail).
Proof.
  unfold path_text. rewrite zlen_app. pose proof (zlen_nonneg (replicate trail SLASH)).
  assert (H0 : zlen (joined (names segs)) ≤ zlen (segs ≫= seg_text)); [|lia].
  induction segs as [|[k nm] segs IH]; [done|]. cbn [mbind list_bind]. unfold names. rewrite fmap_cons. cbn [snd].
  change (nm :: segs.*2) with ([nm] ++ names segs). rewrite joined_app, joined_one, !zlen_app, zlen_cons.
  unfold seg_text at 1. cbn [fst snd]. rewrite zlen_app. assert (Hk : zlen (replicate (S k) SLASH) = Z.of_nat k + 1) by (unfold zlen; rewrite length_replicate; lia). lia.
Qed.

(** Plain names as a path without extra slashes. *)
Definition plain (l : list (list Z)) : list (nat * list Z) := (λ nm, (0%nat, nm)) <$> l.

Lemma plain_text l segs trail : path_text (plain l ++ segs) trail = joined l ++ path_text segs trail.
Proof.
  unfold path_text. rewrite bind_app, <- app_assoc. f_equal. induction l as [|nm l IH]; [done|].
  change (nm :: l) with ([nm] ++ l). rewrite joined_app, joined_one, <- IH. done.
Qed.

Lemma plain_names l segs : names (plain l ++ segs) = l ++ names segs.
Proof. unfold names, plain. rewrite fmap_app, <- list_fmap_compose. f_equal. apply list_fmap_id. Qed.

Lemma zeros_hold n : (0 < n)%nat → holds (replicate n 0) [] (Z.of_nat n).
Proof. intros H. split; [unfold zlen; by rewrite length_replicate|]. destruct n; [lia|]. by exists (replicate n 0). Qed.

(** The tail of [make_clear_abs_path]: the path is appended and washed. *)
Lemma append_wash b pre q segs trail fp :
  holds b pre 512 → zlen fp = 512 → pre ++ q = path_text segs trail → chars pre → chars q →
  Forall name_ok (names segs) → segs ≠ [] ∨ trail ≠ 0%nat → zlen (path_text segs trail) < 512 → ∀ rest,
  ∃ b' final, bstrcat b (q ++ 0 :: rest) = Ok b' ∧ wash_path b' fp = Ok final ∧ holds final (abs_text (normalize (names segs))) 512.
Proof.
  intros Hb Hfp E Hp Hq Hsg Hne HL rest. rewrite <- E in HL. rewrite zlen_app in HL.
  destruct (bstrcat_str b pre 512 q rest Hb Hp Hq) as (b1 & Hb1 & [HL1 [r ->]]); [lia|]. rewrite E in *.
  pose proof (path_text_joined segs trail). rewrite <- E, zlen_app in H.
  destruct (wash_path_ok segs trail r fp) as (b2 & Hb2 & Hh2); [done|done|lia|lia|]. rewrite Hfp in Hh2. by exists (path_text segs trail ++ 0 :: r), b2.
Qed.

(** C22: [make_clear_abs_path] normalises paths.  An absolute path of names with at most 15 bytes
    becomes the absolute path without "." and "..", where ".." leaves the last directory
    entered and does nothing at the root, whatever the number of slashes; a relative path
    becomes the same for its names behind those of the working directory.  The result never
    names "." or "..", and nothing but [final_path] changes. *)
Theorem clear_path_spec depth s :
  zlen (final_path s) = 512 →
  (∀ segs trail rest,
     Forall name_ok (names segs) → segs ≠ [] ∨ trail ≠ 0%nat → zlen (path_text segs trail) < 512 →
     ∃ final, make_clear_abs_path depth (path_text segs trail ++ 0 :: rest) s = Ok (set_final final s) ∧
       holds final (abs_text (normalize (names segs))) 512) ∧
  (∀ b f cwd nm segs trail rest,
     sys_getcwd depth (replicate 512 0) MAX_PATH_LEN (ufs s) = Ok (Some b, f) → holds b (abs_text cwd) 512 →
     Forall name_ok cwd → name_ok nm → Forall name_ok (names segs) →
     zlen (abs_text cwd) + zlen nm + zlen (path_text segs trail) + 1 < 512 →
     ∃ final, make_clear_abs_path depth (nm ++ path_text segs trail ++ 0 :: rest) s = Ok (set_final final (set_ufs f s)) ∧
       holds final (abs_text (normalize (cwd ++ nm :: names segs))) 512) ∧
  ∀ l, UP ∉ normalize l ∧ SELF ∉ normalize l.
Proof.
  intros Hfp. split; [|split; [|exact normalize_clean]].
  - intros segs trail rest Hsg Hne HL. unfold make_clear_abs_path.
    assert (H0 : aget (path_text segs trail ++ 0 :: rest) 0 = Ok SLASH).
    { destruct segs as [|[k nm] segs]; [|done]. destruct trail; [naive_solver|done]. }
    mrun H0. rewrite Z.eqb_refl. cbn [negb].
    destruct (append_wash (replicate 512 0) [] (path_text segs trail) segs trail (final_path s)) with (rest := rest) as (b1 & b2 & H1 & H2 & H3);
      [by apply zeros_hold; lia|done|done|constructor|by apply path_text_chars|done|done|done|].
    cbn [mbind outcome_bind] in *. mrun H1. mrun H2. exists b2. by destruct s.
  - intros b f cwd nm segs trail rest Hcwd Hb Hc Hn Hsg HL. unfold make_clear_abs_path.
    pose proof Hn as (Hne & _ & Hch). destruct nm as [|x nm]; [done|]. pose proof (proj1 (proj1 (Forall_cons _ _ _) Hch)) as Hx.
    change (aget ((x :: nm) ++ path_text segs trail ++ 0 :: rest) 0) with (Ok x). cbn [mbind outcome_bind].
    rewrite (proj2 (Z.eqb_neq x SLASH)) by apply Hx. cbn [negb]. rewrite Hcwd. cbn [mbind outcome_bind].
    pose proof (zlen_nonneg (x :: nm)). pose proof (zlen_nonneg (path_text segs trail)).
    assert (Hpre : ∃ b1 c0 c1 pre, aget b 0 = Ok c0 ∧ aget b 1 = Ok c1 ∧
      (if negb ((c0 =? SLASH) && (c1 =? 0)) then bstrcat b ROOT else Ok b) = Ok b1 ∧ holds b1 pre 512 ∧ chars pre ∧
      pre ++ (x :: nm) ++ path_text segs trail = path_text (plain (cwd ++ [x :: nm]) ++ segs) trail).
    { rewrite plain_text, joined_app, joined_one. pose proof (abs_chars _ Hc) as Hac. pose proof Hb as [HLb [r Er]]. destruct cwd as [|z cwd].
      - rewrite Er. exists (SLASH :: 0 :: r), SLASH, 0, [SLASH]. do 3 (split; [done|]). split; [split; [by rewrite <- HLb, Er|by exists r]|]. split; [by repeat constructor|done].
      - destruct (bstrcat_str b _ 512 [SLASH] [] Hb Hac) as (b1 & Hb1 & Hh1); [by repeat constructor|autorewrite with kernel in *; lia|].
        apply Forall_cons in Hc as [(Hz & _ & Hzc) _]. destruct z as [|z0 z]; [done|]. apply Forall_cons in Hzc as [Hz0 _].
        exists b1, SLASH, z0, (abs_text ((z0 :: z) :: cwd) ++ [SLASH]).
        split; [by rewrite Er|]. split; [by rewrite Er|]. rewrite (proj2 (Z.eqb_neq z0 0)), andb_false_r by lia. split; [done|].
        split; [done|]. split; [apply Forall_app; split; [done|by repeat constructor]|]. by rewrite <- !app_assoc. }
    destruct Hpre as (b1 & c0 & c1 & pre & G0 & G1 & G2 & G3 & G4 & G5). mrun G0. mrun G1. rewrite G2. cbn [mbind outcome_bind].
    assert (Hnm : names (plain (cwd ++ [x :: nm]) ++ segs) = cwd ++ (x :: nm) :: names segs).
    { rewrite plain_names, <- app_assoc. done. }
    destruct (append_wash b1 pre ((x :: nm) ++ path_text segs trail) (plain (cwd ++ [x :: nm]) ++ segs) trail (final_path s)) with (rest := rest)
      as (b2 & b3 & H1 & H2 & H3); [done|done|done|done| | | | |].
    + apply Forall_app. split; [by apply name_chars|by apply path_text_chars].
    + rewrite Hnm. apply Forall_app. split; [done|by constructor].
    + left. destruct cwd; done.
    + rewrite plain_text, joined_app, joined_one, !zlen_app, zlen_cons. destruct cwd; unfold abs_text in HL; [change (zlen (joined [])) with 0; change (zlen [SLASH]) with 1 in HL|]; rewrite ?zlen_cons in *; lia.
    + rewrite <- app_assoc in H1. mrun H1. mrun H2. exists b3. rewrite Hnm in H3. done.
Qed.

(** "/a/./b/..//c" *)
Definition demo_shell : shell :=
  Shell (replicate 512 0) (SLASH :: replicate 511 0) (replicate 512 0) demo_fs [].

Lemma clear_path_spec_witness :
  ∃ final, make_clear_abs_path 0 (txt "/a/./b/..//c" ++ 0 :: []) demo_shell = Ok (set_final final demo_shell) ∧
    holds final (txt "/a/c") 512.
Proof.
  destruct (clear_path_spec 0 demo_shell) as [H _].
  - reflexivity.
  - apply (H [(0%nat, [97]); (0%nat, SELF); (0%nat, [98]); (0%nat, UP); (1%nat, [99])] 0%nat []).
    + repeat constructor; discriminate || lia || done.
    + left. discriminate.
    + reflexivity.
Defined.
