(* ===== verification/Shell.v ===== *)
(** * The shell (shell/shell.c)

    [readline] and [cmd_parse] work on [cmd_line]; a pointer into it is an offset.  The
    characters that the [read] calls of [readline] deliver are the list [keys]; when it is used
    up the caller is still waiting.  The variables of the shell lie in the kernel image, which
    processes share: the child that runs a program works on the same [final_path]. *)

From Stdlib Require Import String.
From S2P Require Import Prelude CString Stdio Disk FsState Dir File Pipe Fs Commands.

Definition MAX_ARG_NR : Z := 16.

(** ** Splitting the command line *)

(** The first character from [next] on that is not [token]. *)
Fixpoint skip_token (fuel : nat) (buf : list Z) (token next : Z) : outcome Z :=
  match fuel with
  | O => NoFuel
  | S fuel' => c ← aget buf next; if c =? token then skip_token fuel' buf token (next + 1) else Ok next
  end.

(** The end of the word at [next]. *)
Fixpoint skip_word (fuel : nat) (buf : list Z) (token next : Z) : outcome Z :=
  match fuel with
  | O => NoFuel
  | S fuel' =>
      c ← aget buf next;
      if negb (c =? 0) && negb (c =? token) then skip_word fuel' buf token (next + 1) else Ok next
  end.

Fixpoint parse_loop (fuel : nat) (token : Z) (buf : list Z) (argv : list (option Z)) (next argc : Z)
    : outcome (Z * list Z * list (option Z)) :=
  match fuel with
  | O => NoFuel
  | S fuel' =>
      c ← aget buf next;
      if c =? 0 then Ok (argc, buf, argv)
      else
        next ← skip_token (S (length buf)) buf token next;
        c ← aget buf next;
        if c =? 0 then Ok (argc, buf, argv)
        else
          argv ← aset argv argc (Some next);
          next ← skip_word (S (length buf)) buf token next;
          c ← aget buf next;
          '(buf, next) ← (if negb (c =? 0) then buf ← aset buf next 0; Ok (buf, next + 1) else Ok (buf, next));
          if argc >? MAX_ARG_NR then Ok (-1, buf, argv)
          else parse_loop fuel' token buf argv next (argc + 1)
  end.

(** The array has [MAX_ARG_NR] elements, all set to [NULL] first. *)
Definition cmd_parse (cmd_str : list Z) (token : Z) : outcome (Z * list Z * list (option Z)) :=
  parse_loop (S (length cmd_str)) token cmd_str (replicate (Z.to_nat MAX_ARG_NR) None) 0 0.

Section Shell.
Context (t : Z) (junk_name junk_de : list Z) (depth entries : nat).

(** ** Reading a line *)

Definition BS : Z := 8.
Definition CR : Z := 13.
Definition CTRL_L : Z := 108 - 97.
Definition CTRL_U : Z := 117 - 97.

Definition put_char (c : Z) (s : shell) : shell := set_ufs (sys_putchar c (ufs s)) s.

Definition print_prompt (s : shell) : outcome shell := puts_str t "[rabbit@localhost " (cwd_cache s) (txt "]$ ") s.

(** ctrl+u: from [pos] back to the start, each character is taken from the screen and cleared. *)
Fixpoint erase_line (pos : nat) (s : shell) : outcome shell :=
  match pos with
  | O => Ok s
  | S pos' => b ← aset (cmd_line s) (Z.of_nat pos) 0; erase_line pos' (set_cmd_line b (put_char BS s))
  end.

(** The character [c] that [read] has stored at [pos] of [cmd_line]; [None]: the line ends. *)
Definition line_char (c : Z) (pos : Z) (s : shell) : outcome (option Z * shell) :=
  if (c =? NL) || (c =? CR) then
    b ← aset (cmd_line s) pos 0; Ok (None, put_char NL (set_cmd_line b s))
  else if c =? BS then
    c0 ← aget (cmd_line s) 0;
    if negb (c0 =? BS) then Ok (Some (pos - 1), put_char BS s) else Ok (Some pos, s)
  else if c =? CTRL_L then
    b ← aset (cmd_line s) pos 0;
    s ← print_prompt (clear_screen (set_cmd_line b s));
    s ← puts_str t "" (cmd_line s) [] s;
    Ok (Some pos, s)
  else if c =? CTRL_U then
    s ← erase_line (Z.to_nat pos) s; Ok (Some 0, s)
  else Ok (Some (pos + 1), put_char c s).

(** [buf] is [cmd_line]; the room is tested after the character was stored. *)
Fixpoint readline (keys : list Z) (count pos : Z) (s : shell) : outcome (list Z * shell) :=
  match keys with
  | [] => Blocked
  | c :: keys =>
      b ← aset (cmd_line s) pos c;
      let s := set_cmd_line b s in
      if pos <? count then
        '(pos, s) ← line_char c pos s;
        match pos with
        | None => Ok (keys, s)
        | Some pos => readline keys count pos s
        end
      else
        s ← puts t "readline: can`t find enter_key in the cmd_line, max num of char is 128" true s;
        Ok (keys, s)
  end.

(** ** One round of the loop *)

(** [fork] is called with these arguments, or the round is over. *)
Inductive round := Done | Launch (args : list (list Z)).

(** The strings of [argv]. *)
Definition arg_strings (line : list Z) (argv : list (option Z)) : list (list Z) :=
  omap (λ p, (λ i, drop (Z.to_nat i) line) <$> p) argv.

Definition is_cmd (name : list Z) (args : list (list Z)) : outcome bool :=
  a ← aget args 0; c ← bstrcmp (name ++ [0]) a; Ok (c =? 0).

(** [ps] is the system call; [Ps] models it on the bytes of the PCBs. *)
Definition buildin_ps (ps : shell → outcome shell) (argc : Z) (s : shell) : outcome shell :=
  if negb (argc =? 1) then puts t "ps: no argument support!" true s else ps s.

Definition run_command (ps : shell → outcome shell) (argc : Z) (args : list (list Z)) (s : shell) : outcome (round * shell) :=
  ls ← is_cmd (txt "ls") args;
  if ls : bool then s ← buildin_ls t junk_de depth entries argc args s; Ok (Done, s)
  else
    cd ← is_cmd (txt "cd") args;
    if cd : bool then
      '(ok, s) ← buildin_cd t junk_de depth argc args s;
      if ok : bool then
        n ← bstrlen (final_path s);
        b ← splice (replicate 512 0) 0 (take (Z.to_nat (n + 1)) (final_path s));
        Ok (Done, set_cwd_cache b s)
      else Ok (Done, s)
    else
      pwd ← is_cmd (txt "pwd") args;
      if pwd : bool then s ← buildin_pwd t depth argc s; Ok (Done, s)
      else
        ps_ ← is_cmd (txt "ps") args;
        if ps_ : bool then
          s ← buildin_ps ps argc s; Ok (Done, s)
        else
          clear ← is_cmd (txt "clear") args;
          if clear : bool then s ← buildin_clear t argc s; Ok (Done, s)
          else
            mk ← is_cmd (txt "mkdir") args;
            if mk : bool then '(_, s) ← buildin_mkdir t junk_name junk_de depth argc args s; Ok (Done, s)
            else
              rmd ← is_cmd (txt "rmdir") args;
              if rmd : bool then '(_, s) ← buildin_rmdir t junk_de depth argc args s; Ok (Done, s)
              else
                rm ← is_cmd (txt "rm") args;
                if rm : bool then '(_, s) ← buildin_rm t junk_de depth argc args s; Ok (Done, s)
                else Ok (Launch args, s).

Definition shell_round (ps : shell → outcome shell) (keys : list Z) (s : shell) : outcome (round * list Z * shell) :=
  s ← print_prompt s;
  let s := set_cmd_line (replicate 512 0) (set_final (replicate 512 0) s) in
  '(keys, s) ← readline keys MAX_PATH_LEN 0 s;
  c ← aget (cmd_line s) 0;
  if c =? 0 then Ok (Done, keys, s)
  else
    '(argc, line, argv) ← cmd_parse (cmd_line s) 32;
    let s := set_cmd_line line s in
    if argc =? -1 then
      s ← printf t (lits (txt "num of arguments exceed ") ++ [PDec MAX_ARG_NR; Lit NL]) s; Ok (Done, keys, s)
    else
      '(r, s) ← run_command ps argc (arg_strings line argv) s;
      Ok (r, keys, s).

(** The parent after [wait] returned. *)
Definition shell_parent (child_pid status : Z) (s : shell) : outcome shell :=
  if child_pid =? -1 then Panic
  else printf t (lits (txt "child_pid ") ++ [PDec child_pid] ++ lits (txt ", it's status: ") ++ [PDec status; Lit NL]) s.

(** The child: [None] when it exits with -1, otherwise the path it passes to [execv]. *)
Definition shell_child (args : list (list Z)) (s : shell) : outcome (option (list Z) * shell) :=
  a ← aget args 0;
  s ← make_clear_abs_path depth a s;
  '(r, _, f) ← sys_stat junk_de (final_path s) (ufs s);
  let s := set_ufs f s in
  if r =? -1 then
    s ← puts_str t "my_shell: cannot access " (final_path s) (txt ": No such file or directory" ++ [NL]) s; Ok (None, s)
  else Ok (Some (final_path s), s).

End Shell.

(** ** Words *)

(** The words of a line: the maximal runs of characters other than [tok]. *)
Fixpoint tokens (tok : Z) (cur l : list Z) : list (list Z) :=
  match l with
  | [] => match cur with [] => [] | _ => [cur] end
  | c :: l => if c =? tok then match cur with [] => tokens tok [] l | _ => cur :: tokens tok [] l end
              else tokens tok (cur ++ [c]) l
  end.

Lemma tokens_gap tok k l : tokens tok [] (replicate k tok ++ l) = tokens tok [] l.
Proof. induction k as [|k IH]; [done|]. cbn [replicate app tokens]. by rewrite Z.eqb_refl. Qed.

Lemma tokens_word tok cur w l :
  Forall (λ c, c ≠ tok) w → tokens tok cur (w ++ l) = tokens tok (cur ++ w) l.
Proof.
  intros H. revert cur. induction H as [|c w Hc Hw IH]; intros cur; cbn [app tokens]; [by rewrite app_nil_r|].
  rewrite (proj2 (Z.eqb_neq c tok) Hc), IH, <- app_assoc. done.
Qed.

(** A line is a gap, a word and a rest that starts with the separator. *)
Lemma line_split (tok : Z) (l : list Z) :
  ∃ k w l2, l = replicate k tok ++ w ++ l2 ∧ Forall (λ c, c ≠ tok) w ∧ (w = [] → l2 = []) ∧
    (l2 = [] ∨ ∃ l3, l2 = tok :: l3).
Proof.
  induction l as [|c l (k & w & l2 & -> & Hw & H1 & H2)]; [by exists 0%nat, [], []; naive_solver|].
  destruct (decide (c = tok)) as [->|Hne]; [by exists (S k), w, l2|]. exists 0%nat. destruct k as [|k].
  - exists (c :: w), l2. split; [done|]. split; [by constructor|]. split; [done|]. done.
  - exists [c], (replicate (S k) tok ++ w ++ l2). split; [done|]. split; [by repeat constructor|]. split; [done|]. right. by eexists.
Qed.

Lemma tokens_split (tok : Z) k (w l2 : list Z) :
  Forall (λ c, c ≠ tok) w → w ≠ [] → (l2 = [] ∨ ∃ l3, l2 = tok :: l3) →
  tokens tok [] (replicate k tok ++ w ++ l2) = w :: tokens tok [] (drop 1 l2).
Proof.
  intros Hw Hne H2. rewrite tokens_gap, tokens_word by done. cbn [app].
  destruct H2 as [->|[l3 ->]]; cbn [tokens]; [by destruct w|]. rewrite Z.eqb_refl. by destruct w.
Qed.

Lemma aget_mid {A} (pre : list A) x post p : p = zlen pre → aget (pre ++ x :: post) p = Ok x.
Proof.
  intros ->. apply aget_ok. split; [apply zlen_nonneg|]. unfold zlen. rewrite Nat2Z.id. by apply list_lookup_middle.
Qed.

Lemma aset_mid {A} (pre : list A) x y post p : p = zlen pre → aset (pre ++ x :: post) p y = Ok (pre ++ y :: post).
Proof.
  intros ->. pose proof (zlen_nonneg pre). pose proof (zlen_nonneg post). rewrite aset_ok by (autorewrite with kernel; lia). f_equal. unfold zlen. rewrite Nat2Z.id.
  rewrite insert_app_r_alt by lia. by rewrite Nat.sub_diag.
Qed.

Lemma skip_token_ok k pre x post tok fuel :
  x ≠ tok → (k < fuel)%nat →
  skip_token fuel (pre ++ replicate k tok ++ x :: post) tok (zlen pre) = Ok (zlen pre + Z.of_nat k).
Proof.
  intros Hx. revert pre fuel. induction k as [|k IH]; intros pre fuel Hf; (destruct fuel as [|fuel]; [lia|]); cbn [replicate app skip_token].
  - rewrite aget_mid by done. cbn [mbind outcome_bind]. rewrite (proj2 (Z.eqb_neq x tok) Hx). f_equal. lia.
  - rewrite aget_mid by done. cbn [mbind outcome_bind]. rewrite Z.eqb_refl.
    specialize (IH (pre ++ [tok]) fuel). rewrite <- app_assoc, zlen_app in IH. cbn [app] in IH. change (zlen [tok]) with 1 in IH.
    rewrite IH by lia. f_equal. lia.
Qed.

Lemma skip_word_ok w pre x post tok fuel :
  Forall (λ c, c ≠ tok ∧ c ≠ 0) w → x = 0 ∨ x = tok → (length w < fuel)%nat →
  skip_word fuel (pre ++ w ++ x :: post) tok (zlen pre) = Ok (zlen pre + zlen w).
Proof.
  intros Hw Hx. revert pre fuel. induction Hw as [|c w [Hc Hc0] Hw IH]; intros pre fuel Hf; (destruct fuel as [|fuel]; [simpl in *; lia|]); cbn [app skip_word].
  - rewrite aget_mid by done. cbn [mbind outcome_bind]. change (zlen (@nil Z)) with 0.
    assert (E : negb (x =? 0) && negb (x =? tok) = false) by (destruct Hx as [-> | ->]; [done|rewrite Z.eqb_refl; apply andb_false_r]).
    rewrite E. f_equal. lia.
  - rewrite aget_mid by done. cbn [mbind outcome_bind]. rewrite (proj2 (Z.eqb_neq c 0) Hc0), (proj2 (Z.eqb_neq c tok) Hc). cbn [negb andb].
    specialize (IH (pre ++ [c]) fuel). rewrite <- app_assoc, zlen_app in IH. cbn [app] in IH. change (zlen [c]) with 1 in IH.
    rewrite IH by (simpl in Hf; lia). rewrite zlen_cons. f_equal. lia.
Qed.

(** [argv] with the pointers [ps]. *)
Definition argv_of (ps : list Z) : list (option Z) := (Some <$> ps) ++ replicate (16 - length ps) None.

Lemma argv_set ps p : (length ps < 16)%nat → aset (argv_of ps) (zlen ps) (Some p) = Ok (argv_of (ps ++ [p])).
Proof.
  intros H. unfold argv_of. destruct (16 - length ps)%nat as [|k] eqn:E; [lia|]. cbn [replicate].
  rewrite (aset_mid (Some <$> ps)) by (unfold zlen; by rewrite length_fmap). rewrite fmap_app, length_app. simpl.
  replace (16 - (length ps + 1))%nat with k by lia. by rewrite <- app_assoc.
Qed.

(** The word [w] starts at [p] of [buf] and ends there. *)
Definition word_at (buf : list Z) (p : Z) (w : list Z) : Prop := (w ++ [0]) `prefix_of` drop (Z.to_nat p) buf.

Lemma word_at_mid a w b p : p = zlen a → word_at (a ++ w ++ 0 :: b) p w.
Proof.
  intros ->. unfold word_at, zlen. rewrite Nat2Z.id, drop_app_length. exists b. by rewrite <- app_assoc.
Qed.

(** One turn of the loop on a gap of [k] separators, the word [x :: w] and what follows. *)
Lemma parse_turn fuel tok pre k x w l2 rest ps :
  tok ≠ 0 → Forall (λ c, c ≠ tok ∧ c ≠ 0) (x :: w) → l2 = [] ∨ (∃ l3, l2 = tok :: l3) → (length ps ≤ 16)%nat →
  let pre1 := pre ++ replicate k tok in
  parse_loop (S fuel) tok (pre ++ (replicate k tok ++ (x :: w) ++ l2) ++ 0 :: rest) (argv_of ps) (zlen pre) (zlen ps) =
  if decide (length ps < 16)%nat then
    parse_loop fuel tok (pre1 ++ (x :: w) ++ 0 :: (match l2 with [] => rest | _ :: l3 => l3 ++ 0 :: rest end))
      (argv_of (ps ++ [zlen pre1])) (zlen (pre1 ++ x :: w) + (match l2 with [] => 0 | _ => 1 end)) (zlen ps + 1)
  else Fault.
Proof.
  intros Ht Hw H2 Hps pre1. pose proof (proj1 (proj1 (Forall_cons _ _ _) Hw)) as [Hx Hx0].
  assert (Hg : ∃ c0 z, replicate k tok ++ (x :: w) ++ l2 = c0 :: z ∧ c0 ≠ 0).
  { destruct k as [|k]; [by exists x, (w ++ l2)|by exists tok, (replicate k tok ++ (x :: w) ++ l2)]. }
  cbn [parse_loop]. destruct Hg as (c0 & z & Ez & Hc0).
  rewrite Ez at 1. cbn [app]. rewrite (aget_mid pre c0) by done. cbn [mbind outcome_bind]. rewrite (proj2 (Z.eqb_neq c0 0) Hc0).
  clear c0 z Ez Hc0. change (x :: w ++ l2) with ((x :: w) ++ l2). rewrite <- !app_assoc. set (W := x :: w) in *.
  rewrite (skip_token_ok k pre x (w ++ l2 ++ 0 :: rest)) by (done || (rewrite !length_app, length_replicate; lia)). cbn [mbind outcome_bind].
  rewrite (app_assoc pre (replicate k tok)). fold pre1.
  assert (Hp1 : zlen pre + Z.of_nat k = zlen pre1) by (unfold pre1, zlen; rewrite length_app, length_replicate; lia). rewrite Hp1.
  mrun (aget_mid pre1 x (w ++ l2 ++ 0 :: rest) _ eq_refl : aget (pre1 ++ W ++ l2 ++ 0 :: rest) (zlen pre1) = Ok x).
  rewrite (proj2 (Z.eqb_neq x 0) Hx0).
  destruct (decide (length ps < 16)%nat) as [Hlt|Hge]; cycle 1.
  { unfold aset. rewrite (proj2 (Z.ltb_ge (zlen ps) _)), andb_false_r; [done|].
    unfold argv_of, zlen. rewrite length_app, length_fmap, length_replicate. lia. }
  rewrite argv_set by done. cbn [mbind outcome_bind].
  assert (Hargc : (zlen ps >? MAX_ARG_NR) = false) by (unfold MAX_ARG_NR, zlen; rewrite Z.gtb_ltb; apply Z.ltb_ge; lia).
  assert (HfW : ∀ post, (length W < S (length (pre1 ++ W ++ post)))%nat) by (intros; rewrite !length_app; lia).
  destruct H2 as [->|[l3 ->]]; cbn [app].
  - rewrite skip_word_ok by (done || by left || apply HfW). cbn [mbind outcome_bind]. rewrite <- zlen_app, Z.add_0_r, (app_assoc pre1 W).
    rewrite aget_mid by done. cbn [mbind outcome_bind]. change (negb (0 =? 0)) with false. cbn iota. cbn [mbind outcome_bind]. by rewrite Hargc, <- app_assoc.
  - rewrite skip_word_ok by (done || by right || apply HfW). cbn [mbind outcome_bind]. rewrite <- zlen_app, (app_assoc pre1 W).
    rewrite aget_mid by done. cbn [mbind outcome_bind]. rewrite (proj2 (Z.eqb_neq tok 0) Ht). cbn [negb].
    rewrite aset_mid by done. cbn [mbind outcome_bind]. by rewrite Hargc, <- (app_assoc pre1 W).
Qed.

Lemma parse_gap fuel tok pre k rest ps :
  tok ≠ 0 → parse_loop (S fuel) tok (pre ++ replicate k tok ++ 0 :: rest) (argv_of ps) (zlen pre) (zlen ps)
    = Ok (zlen ps, pre ++ replicate k tok ++ 0 :: rest, argv_of ps).
Proof.
  intros Ht. cbn [parse_loop]. destruct k as [|k].
  - cbn [replicate app]. by rewrite aget_mid by done.
  - mrun (aget_mid pre tok (replicate k tok ++ 0 :: rest) _ eq_refl : aget (pre ++ replicate (S k) tok ++ 0 :: rest) (zlen pre) = Ok tok).
    rewrite (proj2 (Z.eqb_neq tok 0) Ht), skip_token_ok by (done || (rewrite !length_app, length_replicate; lia)). cbn [mbind outcome_bind].
    rewrite (app_assoc pre). by rewrite aget_mid by (unfold zlen; rewrite length_app, length_replicate; lia).
Qed.

(** The result of [parse_loop] with the words [ws] to come. *)
Definition parsed (tok : Z) (pre : list Z) (n : nat) (rest : list Z) (ps : list Z) (ws : list (list Z))
    (o : outcome (Z * list Z * list (option Z))) : Prop :=
  if bool_decide (length ps + length ws ≤ 16)%nat then
    ∃ rem' ps', o = Ok (zlen ps + zlen ws, pre ++ rem' ++ 0 :: rest, argv_of (ps ++ ps')) ∧
      length rem' = n ∧ Forall2 (word_at (pre ++ rem' ++ 0 :: rest)) ps' ws
  else o = Fault.

Lemma parse_loop_ok fuel tok pre rem rest ps :
  tok ≠ 0 → Forall (λ c, c ≠ 0) rem → (length rem < fuel)%nat → (length ps ≤ 16)%nat →
  parsed tok pre (length rem) rest ps (tokens tok [] rem)
    (parse_loop fuel tok (pre ++ rem ++ 0 :: rest) (argv_of ps) (zlen pre) (zlen ps)).
Proof.
  intros Ht. revert pre rem ps. induction fuel as [|fuel IH]; intros pre rem ps Hrem Hf Hps; [lia|].
  destruct (line_split tok rem) as (k & w & l2 & -> & Hw & H1 & H2).
  apply Forall_app in Hrem as [_ Hrem]. apply Forall_app in Hrem as [Hw0 Hl2]. destruct w as [|x w].
  - specialize (H1 eq_refl). subst l2. rewrite !app_nil_r, parse_gap by done.
    replace (tokens tok [] (replicate k tok)) with (@nil (list Z)) by (rewrite <- (app_nil_r (replicate k tok)), tokens_gap; done).
    unfold parsed. rewrite bool_decide_true by (simpl; lia). exists (replicate k tok), []. rewrite app_nil_r.
    change (zlen (@nil (list Z))) with 0. rewrite Z.add_0_r. split; [done|]. split; [done|constructor].
  - assert (Hww : Forall (λ c, c ≠ tok ∧ c ≠ 0) (x :: w)) by (by apply Forall_and).
    rewrite tokens_split, parse_turn by done. set (W := x :: w) in *. set (pre1 := pre ++ replicate k tok). unfold parsed.
    destruct (decide (length ps < 16)%nat) as [Hlt|Hge]; [|by rewrite bool_decide_false by (simpl; lia)].
    assert (Hz : zlen ps + 1 = zlen (ps ++ [zlen pre1])) by (by rewrite zlen_app). rewrite Hz.
    (* the characters up to the end of the word, and those behind it *)
    set (pre2 := pre1 ++ W ++ match l2 with [] => [] | _ => [0] end).
    assert (Hb : pre1 ++ W ++ 0 :: match l2 with [] => rest | _ :: l3 => l3 ++ 0 :: rest end = pre2 ++ drop 1 l2 ++ 0 :: rest).
    { unfold pre2. destruct H2 as [->|[l3 ->]]; cbn [drop app]; rewrite <- !app_assoc; [by rewrite app_nil_l|done]. }
    assert (Hp : zlen (pre1 ++ W) + match l2 with [] => 0 | _ => 1 end = zlen pre2).
    { unfold pre2. rewrite (app_assoc pre1), (zlen_app (pre1 ++ W)). by destruct H2 as [->|[l3 ->]]. }
    assert (Hl3 : Forall (λ c, c ≠ 0) (drop 1 l2)) by by apply Forall_drop.
    rewrite Hb, Hp. rewrite !length_app, length_replicate in Hf. cbn [length] in Hf. unfold W in Hf. cbn [length] in Hf.
    specialize (IH pre2 (drop 1 l2) (ps ++ [zlen pre1]) Hl3). rewrite length_drop, length_app in IH. cbn [length] in IH.
    specialize (IH ltac:(lia) ltac:(lia)). unfold parsed in IH. rewrite length_app in IH. cbn [length] in IH |- *.
    replace (length ps + S (length (tokens tok [] (drop 1 l2))))%nat with (length ps + 1 + length (tokens tok [] (drop 1 l2)))%nat by lia.
    case_bool_decide as Hb2; [|exact IH]. destruct IH as (rem' & ps' & E1 & E2 & E3). rewrite E1.
    exists (replicate k tok ++ W ++ (match l2 with [] => [] | _ => [0] end) ++ rem'), (zlen pre1 :: ps').
    assert (Eb : pre ++ (replicate k tok ++ W ++ (match l2 with [] => [] | _ => [0] end) ++ rem') ++ 0 :: rest = pre2 ++ rem' ++ 0 :: rest).
    { unfold pre2, pre1. by rewrite <- !app_assoc. }
    rewrite Eb. split; [|split].
    + rewrite <- app_assoc. cbn [app]. do 3 f_equal. rewrite zlen_cons, <- Hz. lia.
    + rewrite !length_app, E2. destruct H2 as [->|[l3 ->]]; simpl; lia.
    + constructor; [|exact E3]. assert (Ew : ∃ b, pre2 ++ rem' ++ 0 :: rest = pre1 ++ W ++ 0 :: b); [|destruct Ew as [b ->]; by apply word_at_mid].
      unfold pre2. destruct H2 as [->|[l3 ->]]; cbn [drop] in *.
      * destruct rem'; [|done]. exists rest. by rewrite app_nil_r, <- app_assoc.
      * exists (rem' ++ 0 :: rest). by rewrite <- !app_assoc.
Qed.

(** C23: [cmd_parse] splits a line into words.  For every line (without NUL) with at most 16
    words it returns their number, [argv] holds a pointer to each word in order, which in the
    line as changed is the string of exactly that word, and [NULL] behind them; with more than
    16 words it writes behind the end of [argv]. *)
Theorem cmd_parse_words tok line rest :
  tok ≠ 0 → Forall (λ c, c ≠ 0) line →
  let ws := tokens tok [] line in
  if bool_decide (length ws ≤ 16)%nat then
    ∃ line' ps, cmd_parse (line ++ 0 :: rest) tok = Ok (zlen ws, line' ++ 0 :: rest, argv_of ps) ∧
      length line' = length line ∧ Forall2 (word_at (line' ++ 0 :: rest)) ps ws
  else cmd_parse (line ++ 0 :: rest) tok = Fault.
Proof.
  intros Ht Hl ws. pose proof (parse_loop_ok (S (length (line ++ 0 :: rest))) tok [] line rest [] Ht Hl) as H.
  specialize (H ltac:(rewrite length_app; simpl; lia) ltac:(simpl; lia)). unfold parsed in H. cbn [length Nat.add app] in H.
  fold ws in H. unfold cmd_parse. case_bool_decide; [|exact H]. destruct H as (rem' & ps' & E1 & E2 & E3). by exists rem', ps'.
Qed.

Lemma cmd_parse_words_witness :
  ∃ line' ps, cmd_parse (txt " ls -l  /a " ++ 0 :: []) 32 = Ok (3, line' ++ 0 :: [], argv_of ps) ∧
    Forall2 (word_at (line' ++ 0 :: [])) ps [txt "ls"; txt "-l"; txt "/a"].
Proof.
  destruct (cmd_parse_words 32 (txt " ls -l  /a ") []) as (line' & ps & H1 & _ & H2).
  - discriminate.
  - repeat constructor; discriminate.
  - exists line', ps. split; [exact H1|exact H2].
Defined.

(** ** Line editing *)

(** What a key does to the line typed so far. *)
Definition edit (line : list Z) (c : Z) : list Z :=
  if c =? BS then removelast line
  else if c =? CTRL_L then line
  else if c =? CTRL_U then []
  else line ++ [c].

Definition edited (cs : list Z) : list Z := foldl edit [] cs.

(** Output goes to the screen, and the cached directory can be printed. *)
Record prints (s : shell) : Prop := {
  pr_plain : is_pipe stdout_no (ufs s) = Ok false;
  pr_cwd : ∃ cw, holds (cwd_cache s) cw 512 ∧ chars cw;
}.

(** What printing may change. *)
Definition same_line (s s' : shell) : Prop := cmd_line s' = cmd_line s ∧ cwd_cache s' = cwd_cache s ∧ prints s'.

Lemma print_text_ok t text s :
  prints s → chars text → zlen text < 1024 → ∃ s', print_text t text s = Ok s' ∧ same_line s s'.
Proof.
  intros [P1 P2] Hc HL. unfold print_text. rewrite write_text_ok by done. cbn [mbind outcome_bind].
  eexists. split; [done|]. split; [done|]. split; [done|]. by split.
Qed.

Lemma lits_text l : output_of (lits l) = l.
Proof. induction l as [|c l IH]; [done|]. unfold output_of, lits in *. cbn. by f_equal. Qed.

Lemma output_app a b : output_of (a ++ b) = output_of a ++ output_of b.
Proof. unfold output_of. by rewrite bind_app. Qed.

Lemma puts_str_ok t before b after s str n :
  prints s → holds b str n → chars (txt before) → chars str → chars after → zlen (txt before) + zlen str + zlen after < 1024 →
  ∃ s', puts_str t before b after s = Ok s' ∧ same_line s s'.
Proof.
  intros Hp [HL [r ->]] H1 H2 H3 Hn. unfold puts_str, cstring. rewrite bstrlen_str by done. cbn [mbind outcome_bind].
  unfold zlen at 1. rewrite Nat2Z.id, take_app_length. unfold printf. rewrite !output_app, !lits_text.
  change (output_of [PStr 0 str]) with (str ++ []). rewrite app_nil_r. apply print_text_ok; [done| |rewrite !zlen_app; lia].
  repeat (apply Forall_app; split; try done).
Qed.

Lemma chars_txt (s : string) : bool_decide (chars (txt s)) = true → chars (txt s).
Proof. apply bool_decide_eq_true. Qed.

(** The line typed so far lies before [pos]. *)
Definition typed (s : shell) (line : list Z) : Prop :=
  zlen (cmd_line s) = 512 ∧ zlen line ≤ 512 ∧ take (length line) (cmd_line s) = line ∧ chars line ∧ BS ∉ line.

Lemma typed_holds s line : typed s line → zlen line < 512 →
  ∃ b, aset (cmd_line s) (zlen line) 0 = Ok b ∧ holds b line 512.
Proof.
  intros (HL & _ & Ht & _) Hn. pose proof (zlen_nonneg line). rewrite aset_ok by lia. eexists. split; [done|]. split; [by rewrite zlen_insert|].
  unfold zlen in *. rewrite Nat2Z.id. rewrite <- (take_drop (length line) (cmd_line s)), Ht.
  destruct (drop (length line) (cmd_line s)) as [|y r] eqn:E; [apply (f_equal length) in E; rewrite length_drop in E; simpl in E; lia|].
  exists r. rewrite insert_app_r_alt by lia. by rewrite Nat.sub_diag.
Qed.

(** Storing the next character keeps the line before it. *)
Lemma typed_store s line c :
  typed s line → zlen line < 512 → ∃ b, aset (cmd_line s) (zlen line) c = Ok b ∧ typed (set_cmd_line b s) line ∧
    take (length line + 1) b = line ++ [c].
Proof.
  intros (HL & Hn & Ht & Hc & Hb) Hl. pose proof (zlen_nonneg line). rewrite aset_ok by lia. eexists. split; [done|].
  assert (Hp : Z.to_nat (zlen line) = length line) by (unfold zlen; lia). rewrite Hp. split; [split_and!|].
  - cbn [cmd_line set_cmd_line]. by rewrite zlen_insert.
  - done.
  - cbn [cmd_line set_cmd_line]. by rewrite take_insert_ge.
  - done.
  - done.
  - rewrite Nat.add_1_r. rewrite (take_S_r _ _ c) by (apply list_lookup_insert_eq; unfold zlen in *; lia). by rewrite take_insert_ge, Ht.
Qed.

Lemma typed_prefix s line l1 l2 : typed s line → line = l1 ++ l2 → typed s l1.
Proof.
  intros (HL & Hn & Ht & Hc & Hb) ->. rewrite zlen_app in Hn. pose proof (zlen_nonneg l2). apply Forall_app in Hc as [Hc _]. split_and!; [done|lia| |done|set_solver].
  apply (f_equal (take (length l1))) in Ht. rewrite take_app_length, take_take, length_app in Ht. by replace (length l1 `min` (length l1 + length l2))%nat with (length l1) in Ht by lia.
Qed.

Lemma erase_ok n s :
  zlen (cmd_line s) = 512 → (n < 512)%nat →
  ∃ s', erase_line n s = Ok s' ∧ zlen (cmd_line s') = 512 ∧ cwd_cache s' = cwd_cache s ∧ (prints s → prints s').
Proof.
  revert s. induction n as [|n IH]; intros s HL Hn; [by exists s|]. cbn [erase_line]. rewrite aset_ok by lia. cbn [mbind outcome_bind].
  destruct (IH (set_cmd_line (<[Z.to_nat (Z.of_nat (S n)) := 0]> (cmd_line s)) (put_char BS s))) as (s' & H1 & H2 & H3 & H4);
    [cbn [cmd_line set_cmd_line]; by rewrite zlen_insert|lia|]. exists s'. split; [done|]. split; [done|]. split; [done|]. intros [P1 P2]. apply H4. by split.
Qed.

(** One key that does not end the line. *)
Lemma line_char_ok t c s line :
  typed s line → prints s → zlen line < 512 → 0 < c < 256 → c ≠ NL → c ≠ CR → ∀ b,
  aset (cmd_line s) (zlen line) c = Ok b →
  ∃ s', line_char t c (zlen line) (set_cmd_line b s) = Ok (Some (zlen (edit line c)), s') ∧ typed s' (edit line c) ∧ prints s'.
Proof.
  intros Hty Hp Hl Hc Hnl Hcr b Hb. destruct (typed_store s line c Hty Hl) as (b' & Hb' & Hty1 & Hlast). assert (b' = b) as -> by congruence.
  assert (Hp1 : prints (set_cmd_line b s)) by (by destruct Hp; split). set (s1 := set_cmd_line b s) in *. assert (Hcl : cmd_line s1 = b) by done.
  unfold line_char, edit. rewrite (proj2 (Z.eqb_neq c NL) Hnl), (proj2 (Z.eqb_neq c CR) Hcr). cbn [orb].
  destruct (c =? BS) eqn:E1; [zbool; subst c|zbool; destruct (c =? CTRL_L) eqn:E2; zbool; [|destruct (c =? CTRL_U) eqn:E3; zbool]].
  - destruct line as [|x line] using rev_ind; [|clear IHline].
    + assert (H0 : aget b 0 = Ok BS). { apply aget_ok. split; [done|]. change (length [] + 1)%nat with 1%nat in Hlast. destruct b; [done|]. injection Hlast as ->. done. }
      rewrite Hcl. mrun H0. rewrite Z.eqb_refl. cbn [negb]. by exists s1.
    + pose proof Hty1 as (_ & _ & Ht & _ & Hnb). rewrite Hcl in Ht. assert (H0 : ∃ c0, aget b 0 = Ok c0 ∧ c0 ≠ BS).
      { destruct (line ++ [x]) as [|c0 l] eqn:E; [by destruct line|]. exists c0. split; [|set_solver]. apply aget_ok. split; [done|].
        destruct b; [done|]. cbn [length take] in Ht. injection Ht as -> _. done. }
      destruct H0 as (c0 & H0 & Hne). rewrite Hcl. mrun H0. rewrite (proj2 (Z.eqb_neq c0 BS) Hne). cbn [negb]. eexists. rewrite removelast_last. split.
      * rewrite zlen_app. change (zlen [x]) with 1. do 3 f_equal. lia.
      * split; [by apply (typed_prefix _ (line ++ [x]) line [x])|by destruct Hp1; split].
  - subst c. destruct (typed_holds s1 line Hty1 Hl) as (b2 & Hb2 & Hh2). mrun Hb2.
    pose proof Hp as [P1 (cw & Hcw & Hcwc)]. pose proof Hcw as [HLc [rc Erc]]. pose proof (zlen_nonneg rc).
    assert (Hcwl : zlen cw < 512) by (rewrite Erc, zlen_app, zlen_cons in HLc; lia).
    set (s2 := clear_screen (set_cmd_line b2 s1)). assert (Hp2 : prints s2) by (split; [done|by exists cw]).
    destruct (puts_str_ok t "[rabbit@localhost " (cwd_cache s2) (txt "]$ ") s2 cw 512) as (s3 & H3 & L3 & C3 & P3);
      [done|done|by apply chars_txt|done|by apply chars_txt|change (zlen (txt "[rabbit@localhost ")) with 18; change (zlen (txt "]$ ")) with 3; lia|].
    unfold print_prompt. mrun H3. pose proof Hty as (_ & _ & _ & Hcl0 & Hnb). rewrite L3.
    destruct (puts_str_ok t "" (cmd_line s2) [] s3 line 512) as (s4 & H4 & L4 & C4 & P4);
      [done|done|constructor|done|constructor|change (zlen (txt "")) with 0; change (zlen (@nil Z)) with 0; lia|].
    mrun H4. exists s4. split; [done|]. split; [|done]. destruct Hh2 as [HL2 [r2 Er2]]. rewrite L3 in L4.
    unfold typed. rewrite L4. cbn [s2 cmd_line clear_screen set_ufs set_cmd_line]. rewrite Er2. split_and!; [by rewrite <- Er2|lia|by apply take_app_length|done|done].
  - subst c. destruct (erase_ok (Z.to_nat (zlen line)) s1) as (s2 & H2 & L2 & C2 & P2); [apply Hty1|lia|]. mrun H2. exists s2.
    split; [done|]. split; [|by apply P2]. split_and!; [done|done|done|constructor|set_solver].
  - eexists. split; [by rewrite zlen_app|]. split; [|by destruct Hp1; split]. pose proof Hty1 as (A1 & A2 & A3 & A4 & A5).
    split_and!; [done|rewrite zlen_app; change (zlen [c]) with 1; lia| |apply Forall_app; split; [done|by apply Forall_singleton]|set_solver].
    rewrite length_app. exact Hlast.
Qed.

(** The line never grows beyond the buffer. *)
Definition fits (line cs : list Z) : Prop := ∀ k, (k < length cs)%nat → zlen (foldl edit line (take k cs)) < 512.

Lemma readline_run t cs keys s line :
  typed s line → prints s → fits line cs → Forall (λ c, 0 < c < 256 ∧ c ≠ NL ∧ c ≠ CR) cs →
  ∃ s', readline t (cs ++ keys) 512 (zlen line) s = readline t keys 512 (zlen (foldl edit line cs)) s' ∧
    typed s' (foldl edit line cs) ∧ prints s'.
Proof.
  revert s line. induction cs as [|c cs IH]; intros s line Hty Hp Hf Hcs; [by exists s|].
  apply Forall_cons in Hcs as [(Hc & Hn & Hr) Hcs]. pose proof (Hf 0%nat ltac:(simpl; lia)) as Hl. cbn [take foldl] in Hl. cbn [app readline foldl].
  destruct (typed_store s line c Hty Hl) as (b & Hb & _). mrun Hb. rewrite (proj2 (Z.ltb_lt _ _) Hl).
  destruct (line_char_ok t c s line Hty Hp Hl Hc Hn Hr b Hb) as (s1 & H1 & Hty1 & Hp1). rewrite H1. cbn [mbind outcome_bind].
  apply IH; [done|done| |done]. intros k Hk. specialize (Hf (S k) ltac:(simpl; lia)). exact Hf.
Qed.

(** C24: [readline] is a line editor.  For any keys typed before Enter, as long as the line has
    fewer than 512 characters whenever a key arrives, the buffer then holds the edited line:
    backspace takes away the last character and nothing at the start of the line, ctrl+u
    everything, ctrl+l nothing; the keys behind Enter are left.  A key that arrives when 512
    characters are there is stored behind the end of the buffer. *)
Theorem readline_edits t cs s :
  typed s [] → prints s → fits [] cs → Forall (λ c, 0 < c < 256 ∧ c ≠ NL ∧ c ≠ CR) cs →
  (zlen (edited cs) < 512 → ∀ enter keys, enter = NL ∨ enter = CR →
     ∃ s', readline t (cs ++ enter :: keys) MAX_PATH_LEN 0 s = Ok (keys, s') ∧ holds (cmd_line s') (edited cs) 512) ∧
  (zlen (edited cs) = 512 → ∀ c keys, readline t (cs ++ c :: keys) MAX_PATH_LEN 0 s = Fault).
Proof.
  intros Hty Hp Hf Hcs. split.
  - intros Hl enter keys He. destruct (readline_run t cs (enter :: keys) s [] Hty Hp Hf Hcs) as (s1 & H1 & Hty1 & Hp1).
    change (zlen (@nil Z)) with 0 in H1. unfold MAX_PATH_LEN. rewrite H1. fold (edited cs) in *. cbn [readline].
    destruct (typed_store s1 _ enter Hty1 Hl) as (b & Hb & Hty2 & _). mrun Hb. rewrite (proj2 (Z.ltb_lt _ _) Hl). unfold line_char.
    assert (E : (enter =? NL) || (enter =? CR) = true) by (by destruct He as [-> | ->]). rewrite E.
    destruct (typed_holds _ _ Hty2 Hl) as (b2 & Hb2 & Hh2). mrun Hb2. eexists. split; [done|exact Hh2].
  - intros Hl c keys. destruct (readline_run t cs (c :: keys) s [] Hty Hp Hf Hcs) as (s1 & H1 & Hty1 & _).
    change (zlen (@nil Z)) with 0 in H1. unfold MAX_PATH_LEN. rewrite H1. fold (edited cs) in *. cbn [readline]. unfold aset.
    destruct Hty1 as (HL & _). rewrite HL, Hl. done.
Qed.

(** "la", backspace, "s", Enter *)
Lemma readline_edits_witness :
  ∃ s', readline 0x1000 ([108; 97; 8; 115] ++ NL :: []) MAX_PATH_LEN 0 demo_shell = Ok ([], s') ∧ holds (cmd_line s') (txt "ls") 512.
Proof.
  destruct (readline_edits 0x1000 [108; 97; 8; 115] demo_shell) as [H _].
  - split_and!; [reflexivity|discriminate|reflexivity|constructor|set_solver].
  - split; [reflexivity|]. exists [SLASH]. split; [split; [reflexivity|by exists (replicate 510 0)]|by repeat constructor].
  - intros k Hk. do 4 (destruct k as [|k]; [reflexivity|]). simpl in Hk. lia.
  - repeat constructor; discriminate.
  - apply (H ltac:(reflexivity) NL []). by left.
Defined.
