(* ===== verification/UserSpace.v ===== *)
(** * Several address spaces in one memory

    What mapping a user page in one address space means for another one that shares the kernel
    half: the physical words that [page_table_add] changes, copying between pages, and the
    pages of a parent and of the child that fork makes. *)

From S2P Require Import Prelude Interrupt KList FsState File Pipe Fs Bitmap Sched Sync Paging Arena Task WaitExit Fork.

(** ** The words that [page_table_add] changes *)

(** No word of the frame [g] differs. *)
Definition same_frame (m m' : gmap Z Z) (g : Z) : Prop := ∀ j, 0 ≤ j < 1024 → m' !! (g + j * 4) = m !! (g + j * 4).

Definition grows (m m' : gmap Z Z) : Prop := ∀ a, is_Some (m !! a) → is_Some (m' !! a).

(** The frame is not one the kernel pool may hand out. *)
Definition reserved (s : mstate) (g : Z) : Prop := taken s g ∨ phy_addr_start (user_pool s) ≤ g.

Definition free_kernel_frame (s : mstate) : Prop :=
  ∃ r, 0 ≤ r < nbits (pool_bitmap (kernel_pool s)) ∧ pool_bit PF_KERNEL s r = false.

(** The frame holds neither the directory nor the table for [va]. *)
Definition off_table (s : mstate) (va g : Z) : Prop :=
  g mod 4096 = 0 ∧ g ≠ mcr3 s ∧ ∀ e, pde_at s (PDE_IDX va) e → present e = true → g ≠ frame e.

(** What does not change besides. *)
Record add_frame (va : Z) (s s' : mstate) : Prop := {
  af_cr3 : mcr3 s' = mcr3 s;
  af_user : user_pool s' = user_pool s;
  af_thread : cur_thread s' = cur_thread s ∧ cur_pgdir s' = cur_pgdir s ∧ cur_vaddr s' = cur_vaddr s ∧ kernel_vaddr s' = kernel_vaddr s;
  af_kpool : phy_addr_start (kernel_pool s') = phy_addr_start (kernel_pool s) ∧
    nbits (pool_bitmap (kernel_pool s')) = nbits (pool_bitmap (kernel_pool s)) ∧ plock (kernel_pool s') = plock (kernel_pool s);
  af_grows : grows (phys s) (phys s');
  af_same : ∀ g, off_table s va g → reserved s g → same_frame (phys s) (phys s') g;
  af_bits : ∃ r, ∀ j, 0 ≤ j → pool_bit PF_KERNEL s' j = bool_decide (r = Some j) || pool_bit PF_KERNEL s j;
  af_pde : ∀ i e, 0 ≤ i < 1024 → i ≠ PDE_IDX va → pde_at s' i e ↔ pde_at s i e;
  af_table : ∃ e, pde_at s' (PDE_IDX va) e ∧ present e = true ∧
    (pde_at s (PDE_IDX va) e ∨ (∀ e0, pde_at s (PDE_IDX va) e0 → present e0 = false) ∧ ¬ taken s (frame e) ∧ frame e < phy_addr_start (user_pool s));
}.

Lemma grows_insert m a v : grows m (<[a := v]> m).
Proof. intros x Hx. rewrite lookup_insert. by case_decide. Qed.

Lemma grows_trans m1 m2 m3 : grows m1 m2 → grows m2 m3 → grows m1 m3.
Proof. intros H1 H2 a Ha. by apply H2, H1. Qed.

Lemma same_frame_insert m g h j v :
  g mod 4096 = 0 → h mod 4096 = 0 → g ≠ h → 0 ≤ j < 1024 → same_frame m (<[h + j * 4 := v]> m) g.
Proof. intros Hg Hh Hne Hj i Hi. apply lookup_insert_ne. intros E. by destruct (frames_apart h g j i). Qed.

Lemma same_frame_trans m1 m2 m3 g : same_frame m1 m2 g → same_frame m2 m3 g → same_frame m1 m3 g.
Proof. intros H1 H2 j Hj. by rewrite H2, H1. Qed.

Lemma add_present_frame s va e pa :
  as_wf s → va_ok va → pde_at s (PDE_IDX va) e → present e = true → word_ok pa → pa mod 4096 = 0 →
  ∃ s', page_table_add va pa s = Ok s' ∧ add_frame va s s'.
Proof.
  intros Hs Hva He Hp Hpa Hal. destruct (va_idx va Hva) as (_ & _ & Hi & Hj). unfold page_table_add. mrun (rd32_pde s va e Hs Hva He). rewrite Hp.
  destruct (pte_word s va e Hs Hva He Hp) as (t & Ht & _ & Hrd & Hwr). mrun Hrd. rewrite Hwr. eexists. split; [done|].
  destruct (frame_bounds e) as [_ Hfa]; [by apply (aw_words _ Hs _ _ He)|].
  assert (Hpd : ∀ i e0, 0 ≤ i < 1024 → pde_at (with_phys (<[frame e + PTE_IDX va * 4 := entry pa]> (phys s)) s) i e0 ↔ pde_at s i e0).
  { intros i e0 Hi0. unfold pde_at. simpl. rewrite lookup_insert_ne; [done|]. by apply (table_word_apart (lo := 0) s (PDE_IDX va)). }
  split; try done.
  - apply grows_insert.
  - intros g (Hg & _ & Hne) _. apply same_frame_insert; [done|done| |done]. by apply Hne.
  - exists None. intros j Hj0. rewrite bool_decide_false by done. done.
  - intros i e0 Hi0 _. by apply Hpd.
  - exists e. split; [apply Hpd; [lia|done]|]. split; [done|by left].
Qed.

Lemma add_absent_frame s va e pa :
  as_wf s → va_ok va → pde_at s (PDE_IDX va) e → present e = false → word_ok pa → pa mod 4096 = 0 → free_kernel_frame s →
  ∃ s', page_table_add va pa s = Ok s' ∧ add_frame va s s'.
Proof.
  intros Hs Hva He Hp Hpa Hal Hfree. destruct (va_idx va Hva) as (Ei & Ej & Hi & Hj).
  destruct (palloc_ok PF_KERNEL s Hs) as [[Hfull _]|(r & b' & Hr & Hb & Hal1 & Hf & Hnz & Hfa & Hs1 & Hnb & Hbits)].
  { destruct Hfree as (r & Hr & Hb). by rewrite Hfull in Hb. }
  simpl (get_pool _ _) in *. set (f := phy_addr_start (kernel_pool s) + r * 4096) in *.
  set (s1 := set_pool PF_KERNEL (with_bitmap b' (kernel_pool s)) s) in *.
  assert (Hnt : ¬ table_frame s f) by (apply (fresh_not_table (lo := 0) s r); done || lia).
  assert (Hntk : ¬ taken s f).
  { intros [Hlt|[_ Hset]]; [subst f; lia|]. unfold pool_bit in Hb. simpl in Hb. replace (_ / 4096) with r in Hset by (subst f; zdm). congruence. }
  assert (Htk : taken s1 f).
  { right. simpl. rewrite Hnb. split; [subst f; lia|]. replace (_ / 4096) with r by (subst f; zdm). specialize (Hbits r).
    unfold pool_bit in Hbits. simpl in Hbits. rewrite Hbits by lia. by rewrite bool_decide_true. }
  assert (Hfu : f < phy_addr_start (user_pool s)) by (pose proof (aw_order _ Hs); subst f; unfold nbits in *; lia).
  destruct (as_wf_new_pde s1 (PDE_IDX va) f Hs1 Hi Hf Hfa (aw_kmem _ Hs r Hr) Hnt Htk) as (Hs2 & Hpi & Hpd).
  unfold page_table_add. mrun (rd32_pde s va e Hs Hva He). rewrite Hp. mrun Hal1. mrun (wr32_pde s1 va e (entry f) Hs1 Hva He).
  set (s2 := with_phys _ s1) in *.
  destruct (clear_table s2 (PDE_IDX va) (entry f) Hs2 Hi Hpi (entry_present f Hfa)) as (m3 & Hm3 & Hs3 & Hpd3 & Hz & Hkeep).
  rewrite entry_frame in Hz, Hkeep by done.
  assert (Hfp : frame (pte_ptr va) = 0xffc00000 + PDE_IDX va * 4096).
  { rewrite pte_ptr_eq, Ei by done. unfold va_ok in Hva. rewrite frame_eq; zdm. }
  rewrite Hfp. mrun Hm3. set (s3 := with_phys m3 s2) in *.
  assert (Hpi3 : pde_at s3 (PDE_IDX va) (entry f)) by (apply Hpd3; [lia|done]).
  destruct (pte_word s3 va (entry f) Hs3 Hva Hpi3 (entry_present f Hfa)) as (t & _ & _ & _ & Hwr). rewrite Hwr, entry_frame by done.
  assert (Hpd4 : ∀ i e0, 0 ≤ i < 1024 →
    pde_at (with_phys (<[f + PTE_IDX va * 4 := entry pa]> (phys s3)) s3) i e0 ↔ pde_at s3 i e0).
  { intros i e0 Hi0. unfold pde_at. simpl. rewrite lookup_insert_ne; [done|]. intros E.
    destruct (frames_apart f (mcr3 s) (PTE_IDX va) i Hfa (proj2 (aw_cr3 _ Hs)) Hj Hi0 E) as [E2 _]. apply Hnt. by left. }
  eexists. split; [done|]. split; try done; cbn [phys with_phys s3 s2].
  - eapply grows_trans; [|apply grows_insert]. intros a Ha.
    assert (Hg2 : is_Some (phys s2 !! a)) by (simpl; rewrite lookup_insert; by case_decide).
    destruct (decide (a ∈ (λ k, f + k * 4) <$> seqZ 0 1024)) as [H|H].
    + apply list_elem_of_fmap in H as (k & -> & Hk%elem_of_seqZ). rewrite Hz by lia. by eexists.
    + clear -Hm3 Hg2. revert Hm3 Hg2. generalize (0xffc00000 + PDE_IDX va * 4096). generalize 1024%nat. intros n x Hm3.
      assert (Hgr : ∀ n x sa sb, clear_words n x sa = Ok sb → is_Some (phys sa !! a) → is_Some (phys sb !! a)); [|by apply (Hgr _ _ _ _ Hm3)].
      clear. induction n as [|n IH]; intros x sa sb H Ha; cbn [clear_words] in H; [by injection H as <-|].
      apply bind_ok_iff in H as (sc & H1 & H). apply (IH _ _ _ H). unfold wr32 in H1. apply bind_ok_iff in H1 as (q & _ & H1).
      apply bind_ok_iff in H1 as (w & _ & H1). injection H1 as <-. simpl. rewrite lookup_insert. by case_decide.
  - intros g (Hg & Hgc & _) Hres. assert (Hgf : g ≠ f).
    { intros ->. destruct Hres as [?|?]; [done|lia]. }
    eapply same_frame_trans; [|by apply same_frame_insert]. intros j Hj0. rewrite Hkeep by done. simpl.
    rewrite lookup_insert_ne; [done|]. intros E. destruct (frames_apart (mcr3 s) g (PDE_IDX va) j) as [? _]; [apply (aw_cr3 _ Hs)|done|lia|done|exact E|congruence].
  - exists (Some r). intros j Hj0. assert (Eb : bool_decide (Some r = Some j) = bool_decide (j = r)) by (apply bool_decide_ext; split; congruence).
    rewrite Eb, <- Hbits by done. reflexivity.
  - intros i e0 Hi0 Hne. exact (iff_trans (Hpd4 i e0 Hi0) (iff_trans (Hpd3 i e0 Hi0) (Hpd i e0 Hi0 Hne))).
  - exists (entry f). split; [exact (proj2 (Hpd4 (PDE_IDX va) (entry f) ltac:(lia)) Hpi3)|]. split; [by apply entry_present|]. right. rewrite entry_frame by done. split; [|done].
    intros e0 He0. unfold pde_at in *. congruence.
Qed.

(** [page_table_add], whether or not the table exists. *)
Lemma add_page s va pa :
  as_wf s → va_ok va → word_ok pa → pa mod 4096 = 0 → free_kernel_frame s →
  ∃ s', page_table_add va pa s = Ok s' ∧ as_wf s' ∧ add_frame va s s' ∧
    ∀ va', va_ok va' → translate (phys s') (mcr3 s') va' =
      if decide (va / 4096 = va' / 4096) then Some (pa + va' mod 4096) else translate (phys s) (mcr3 s) va'.
Proof.
  intros Hs Hva Hpa Hal Hfree. destruct (va_idx va Hva) as (_ & _ & Hi & _). destruct (pde_exists s (PDE_IDX va) Hs) as (e & He & _); [lia|].
  destruct (present e) eqn:Hp.
  - destruct (page_table_add_present s va e pa Hs Hva He Hp Hpa Hal) as (m' & H1 & H2 & _ & H3).
    destruct (add_present_frame s va e pa Hs Hva He Hp Hpa Hal) as (s' & H4 & H5). exists s'. split; [done|].
    assert (s' = with_phys m' s) as -> by congruence. done.
  - destruct (page_table_add_absent s va e pa Hs Hva He Hp Hpa Hal Hfree) as (s2 & H1 & H2 & _ & H3).
    destruct (add_absent_frame s va e pa Hs Hva He Hp Hpa Hal Hfree) as (s' & H4 & H5). exists s'. split; [done|].
    assert (s' = s2) as -> by congruence. done.
Qed.

(** ** Copying a page *)

(** Translation depends on the directory and the table for the address. *)
Lemma translate_agree s m' va :
  as_wf s → va_ok va → same_frame (phys s) m' (mcr3 s) →
  (∀ e, pde_at s (PDE_IDX va) e → present e = true → same_frame (phys s) m' (frame e)) →
  translate m' (mcr3 s) va = translate (phys s) (mcr3 s) va.
Proof.
  intros Hs Hva Hdir Htab. destruct (va_idx va Hva) as (_ & _ & Hi & Hj). destruct (aw_cr3 _ Hs) as [Hc Ha].
  destruct (pde_exists s (PDE_IDX va) Hs) as (e & He & _); [lia|]. unfold translate. rewrite frame_aligned by done.
  rewrite Hdir by lia. unfold pde_at in He. rewrite He. simpl. destruct (present e) eqn:Ep; [|done]. by rewrite (Htab e He Ep).
Qed.

Lemma copy_words_ok n dst src s pd ps :
  0 ≤ dst → dst + 4 * Z.of_nat n ≤ 4294967296 → 0 ≤ src → src + 4 * Z.of_nat n ≤ 4294967296 →
  (∀ k, 0 ≤ k < Z.of_nat n → is_Some (phys s !! pd k) ∧ is_Some (phys s !! ps k)) →
  (∀ i j, 0 ≤ i < Z.of_nat n → 0 ≤ j < Z.of_nat n → pd i ≠ ps j ∧ (pd i = pd j → i = j)) →
  (∀ m', (∀ a, (∀ k, 0 ≤ k < Z.of_nat n → a ≠ pd k) → m' !! a = phys s !! a) →
     ∀ k, 0 ≤ k < Z.of_nat n → translate m' (mcr3 s) (dst + 4 * k) = Some (pd k) ∧ translate m' (mcr3 s) (src + 4 * k) = Some (ps k)) →
  ∃ m', copy_words n dst src s = Ok (with_phys m' s) ∧
    (∀ k, 0 ≤ k < Z.of_nat n → m' !! pd k = phys s !! ps k) ∧
    (∀ a, (∀ k, 0 ≤ k < Z.of_nat n → a ≠ pd k) → m' !! a = phys s !! a).
Proof.
  revert dst src s pd ps. induction n as [|n IH]; intros dst src s pd ps Hd Hde Hsr Hse Hmem Hap Htr.
  { exists (phys s). split; [by destruct s|]. split; [lia|done]. }
  destruct (Htr (phys s) ltac:(done) 0 ltac:(lia)) as [T1 T2]. rewrite Z.mul_0_r, Z.add_0_r in T1, T2.
  destruct (Hmem 0 ltac:(lia)) as [[w Hw] [v Hv]]. cbn [copy_words]. unfold rd32, wr32. rewrite T2. cbn [of_opt mbind outcome_bind]. rewrite Hv.
  cbn [of_opt mbind outcome_bind]. rewrite T1. cbn [of_opt mbind outcome_bind]. rewrite Hw. cbn [of_opt mbind outcome_bind].
  assert (E : ∀ x, copy_words n (u32 (dst + 4)) (u32 (src + 4)) x = copy_words n (dst + 4) (src + 4) x) by (destruct n; [done|by rewrite !u32_small by lia]).
  rewrite E. clear E.
  destruct (IH (dst + 4) (src + 4) (with_phys (<[pd 0 := v]> (phys s)) s) (λ k, pd (k + 1)) (λ k, ps (k + 1)))
    as (m' & Hm' & Hc & Hout); cbn [phys with_phys mcr3] in *; try lia.
  - intros k Hk. destruct (Hmem (k + 1) ltac:(lia)) as [M1 M2]. split; rewrite lookup_insert; by case_decide.
  - intros i j Hi Hj. destruct (Hap (i + 1) (j + 1) ltac:(lia) ltac:(lia)) as [A1 A2]. split; [done|]. intros E. apply A2 in E. lia.
  - intros m' Hm' k Hk. replace (dst + 4 + 4 * k) with (dst + 4 * (k + 1)) by lia. replace (src + 4 + 4 * k) with (src + 4 * (k + 1)) by lia.
    apply Htr; [|lia]. intros a Ha. rewrite Hm'; [apply lookup_insert_ne|]; intros; [intros E; apply (Ha 0); [lia|congruence]|apply Ha; lia].
  - exists m'. split; [done|]. split.
    + intros k Hk. destruct (decide (k = 0)) as [->|Hne].
      * rewrite Hout, lookup_insert_eq; [congruence|]. intros k Hk0 E. destruct (Hap 0 (k + 1) ltac:(lia) ltac:(lia)) as [_ A2]. apply A2 in E. lia.
      * replace k with (k - 1 + 1) by lia. rewrite Hc by lia. rewrite lookup_insert_ne; [done|]. apply Hap; lia.
    + intros a Ha. rewrite Hout; [apply lookup_insert_ne|]; intros; [intros E; apply (Ha 0); [lia|congruence]|apply Ha; lia].
Qed.

(** The page [va] lies in the frame [f]. *)
Definition page_in (s : mstate) (va f : Z) : Prop :=
  va_ok va ∧ va mod 4096 = 0 ∧ translate (phys s) (mcr3 s) va = Some f.

Lemma translate_word m c va f k :
  va_ok va → va mod 4096 = 0 → translate m c va = Some f → 0 ≤ k < 1024 → translate m c (va + 4 * k) = Some (f + k * 4).
Proof.
  intros Hva Hal Ht Hk. assert (Hva' : va_ok (va + 4 * k)) by (unfold va_ok in *; zdm).
  destruct (va_idx va Hva) as (E1 & E2 & _). destruct (va_idx (va + 4 * k) Hva') as (E3 & E4 & _).
  unfold translate in *. replace (PDE_IDX (va + 4 * k)) with (PDE_IDX va) by (rewrite E1, E3; unfold va_ok in *; zdm).
  replace (PTE_IDX (va + 4 * k)) with (PTE_IDX va) by (rewrite E2, E4; unfold va_ok in *; zdm).
  destruct (m !! (frame c + PDE_IDX va * 4)) as [pde|]; [|done]. simpl in *. destruct (present pde); [|done].
  destruct (m !! (frame pde + PTE_IDX va * 4)) as [pte|]; [|done]. simpl in *. destruct (present pte); [|done]. injection Ht as Ht.
  rewrite offset_eq in *. f_equal. rewrite <- Ht. replace (va mod 4096) with 0 by done. replace ((va + 4 * k) mod 4096) with (4 * k) by zdm. lia.
Qed.

(** ** Memory that differs in one frame only *)

Definition outside (f : Z) (m m' : gmap Z Z) : Prop := ∀ a, (∀ k, 0 ≤ k < 1024 → a ≠ f + k * 4) → m' !! a = m !! a.

Lemma frame_word_dec f a : (∃ k, 0 ≤ k < 1024 ∧ a = f + k * 4) ∨ (∀ k, 0 ≤ k < 1024 → a ≠ f + k * 4).
Proof.
  destruct (decide (a ∈ (λ k, f + k * 4) <$> seqZ 0 1024)) as [H|H].
  - left. apply list_elem_of_fmap in H as (k & -> & Hk%elem_of_seqZ). exists k. split; [lia|done].
  - right. intros k Hk ->. apply H, list_elem_of_fmap. exists k. split; [done|]. apply elem_of_seqZ. lia.
Qed.

Lemma outside_same f g m m' : outside f m m' → f mod 4096 = 0 → g mod 4096 = 0 → g ≠ f → same_frame m m' g.
Proof. intros H Hf Hg Hne j Hj. apply H. intros k Hk E. by destruct (frames_apart g f j k). Qed.

Lemma outside_tables s f m' g :
  as_wf s → outside f (phys s) m' → f mod 4096 = 0 → ¬ table_frame s f → table_frame s g → same_frame (phys s) m' g.
Proof.
  intros Hs Ho Hf Hnt Hg. apply (outside_same f); [done|done| |congruence].
  destruct Hg as [->|(i & e & _ & He & _ & ->)]; [apply (aw_cr3 _ Hs)|apply frame_bounds, (aw_words _ Hs _ _ He)].
Qed.

Lemma outside_translate s f m' va :
  as_wf s → outside f (phys s) m' → f mod 4096 = 0 → ¬ table_frame s f → va_ok va →
  translate m' (mcr3 s) va = translate (phys s) (mcr3 s) va.
Proof.
  intros Hs Ho Hf Hnt Hva. apply translate_agree; [done|done| |].
  - apply (outside_tables s f); try done. by left.
  - intros e He Hp. apply (outside_tables s f); try done. right. exists (PDE_IDX va), e. split; [apply (va_idx va Hva)|done].
Qed.

(** The frame is overwritten with words that are there. *)
Lemma outside_wf s f m' :
  as_wf s → outside f (phys s) m' → f mod 4096 = 0 → ¬ table_frame s f →
  (∀ j, 0 ≤ j < 1024 → ∃ w, m' !! (f + j * 4) = Some w ∧ word_ok w) → as_wf (with_phys m' s) ∧ grows (phys s) m'.
Proof.
  intros Hs Ho Hf Hnt Hw.
  assert (Hg : grows (phys s) m').
  { intros a Ha. destruct (frame_word_dec f a) as [(k & Hk & ->)|Hno]; [|by rewrite Ho]. destruct (Hw k Hk) as (w & -> & _). by eexists. }
  split; [|done]. apply as_wf_agree; [done| |done|].
  - intros a w Ha. destruct (frame_word_dec f a) as [(k & Hk & ->)|Hno].
    + destruct (Hw k Hk) as (w' & E & Hok). congruence.
    + rewrite Ho in Ha by done. by apply (aw_words _ Hs _ _ Ha).
  - intros i Hi. apply (outside_tables s f); try done. by left.
Qed.

Lemma copy_page s dst src fd fs :
  as_wf s → page_in s dst fd → page_in s src fs → fd mod 4096 = 0 → fs mod 4096 = 0 → fd ≠ fs →
  ¬ table_frame s fd → frame_mem (phys s) fd → frame_mem (phys s) fs →
  ∃ m', copy_words 1024 dst src s = Ok (with_phys m' s) ∧ as_wf (with_phys m' s) ∧
    (∀ j, 0 ≤ j < 1024 → m' !! (fd + j * 4) = phys s !! (fs + j * 4)) ∧ grows (phys s) m' ∧
    (∀ g, g mod 4096 = 0 → g ≠ fd → same_frame (phys s) m' g).
Proof.
  intros Hs (Hd & Hda & Htd) (Hsr & Hsa & Hts) Hfd Hfs Hne Hnt Hmd Hms.
  destruct (copy_words_ok 1024 dst src s (λ k, fd + k * 4) (λ k, fs + k * 4)) as (m' & H1 & H2 & H3); try (unfold va_ok in *; lia).
  - intros k Hk. split; [apply Hmd|apply Hms]; lia.
  - intros i j Hi Hj. split; [|lia]. intros E. by destruct (frames_apart fd fs i j).
  - intros m' Hm' k Hk. split; apply translate_word; try done; by rewrite (outside_translate s fd).
  - assert (Hw : ∀ j, 0 ≤ j < 1024 → ∃ w, m' !! (fd + j * 4) = Some w ∧ word_ok w).
    { intros j Hj. rewrite H2 by lia. destruct (Hms j Hj) as [w Hw]. exists w. split; [done|]. by apply (aw_words _ Hs _ _ Hw). }
    destruct (outside_wf s fd m' Hs H3 Hfd Hnt Hw) as [W1 W2].
    exists m'. split; [done|]. split; [done|]. split; [intros j Hj; apply H2; lia|]. split; [done|].
    intros g Hga Hgne. by apply (outside_same fd).
Qed.

Lemma clear_page s va f :
  as_wf s → page_in s va f → f mod 4096 = 0 → ¬ table_frame s f → frame_mem (phys s) f →
  ∃ m', clear_words 1024 va s = Ok (with_phys m' s) ∧ as_wf (with_phys m' s) ∧ (∀ j, 0 ≤ j < 1024 → m' !! (f + j * 4) = Some 0) ∧
    grows (phys s) m' ∧ outside f (phys s) m'.
Proof.
  intros Hs (Hd & Hda & Htd) Hf Hnt Hmd.
  destruct (clear_words_ok 1024 va s (λ k, f + k * 4)) as (m' & H1 & H2 & H3); try (unfold va_ok in *; lia).
  - intros k Hk. apply Hmd. lia.
  - intros m' Hm' k Hk. apply translate_word; try done. by rewrite (outside_translate s f).
  - destruct (outside_wf s f m' Hs H3 Hf Hnt) as [W1 W2]; [intros j Hj; exists 0; split; [apply H2; lia|done]|].
    exists m'. split; [done|]. split; [done|]. split; [intros j Hj; apply H2; lia|]. done.
Qed.
