(* ===== verification/ForkMemory.v ===== *)
(** * The memory of a forked process (userprog/fork.c, copy_body_stack3)

    Parent and child are two directories in one physical memory that share the tables of the
    kernel half.  The loop over the bitmap of the parent gives the child frames of its own that
    hold the words of the parent. *)

From S2P Require Import Prelude Interrupt KList FsState File Pipe Fs Bitmap Sched Sync Paging Arena Task WaitExit Fork UserSpace.

(** ** Two address spaces *)

(** The directories in the frames [p] and [c]: the kernel half is shared, the tables of the
    user half of [c] are its own. *)
Record spaces (p c : Z) (m : mstate) : Prop := {
  sp_parent : as_wf (with_cr3 p m);
  sp_child : as_wf (with_cr3 c m);
  sp_kernel : ∀ i, 768 ≤ i < 1023 → phys m !! (p + i * 4) = phys m !! (c + i * 4);
  sp_dir : ¬ table_frame (with_cr3 p m) c;
  sp_apart : ∀ i e, 0 ≤ i < 768 → pde_at (with_cr3 c m) i e → present e = true → ¬ table_frame (with_cr3 p m) (frame e);
}.

Definition kernel_va (va : Z) : Prop := 0xc0000000 ≤ va < 0xffc00000.
Definition user_va (va : Z) : Prop := 0 ≤ va < 0xc0000000.

Lemma kernel_va_ok va : kernel_va va → va_ok va ∧ 768 ≤ PDE_IDX va < 1023.
Proof. unfold kernel_va, va_ok. intros H. rewrite PDE_IDX_eq by lia. zdm. Qed.

Lemma user_va_ok va : user_va va → va_ok va ∧ 0 ≤ PDE_IDX va < 768.
Proof. unfold user_va, va_ok. intros H. rewrite PDE_IDX_eq by lia. zdm. Qed.

(** An address space that another one shares memory with. *)
Lemma as_wf_other p m m' :
  as_wf (with_cr3 p m) → as_wf m' → grows (phys m) (phys m') → same_frame (phys m) (phys m') p →
  (∀ f, taken m f → taken m' f) → as_wf (with_cr3 p m').
Proof.
  intros [W1 W2 W3 W4 W5 W6 W7 W8 W9 W10 W11] [V1 V2 V3 V4 V5 V6 V7 V8 V9 V10 V11] Hg Hd Ht.
  assert (Hpd : ∀ i e, 0 ≤ i < 1024 → pde_at (with_cr3 p m') i e → pde_at (with_cr3 p m) i e).
  { intros i e Hi He. unfold pde_at in *. simpl in *. by rewrite <- Hd. }
  split; simpl in *; try done.
  - intros j Hj. by apply Hg, W3.
  - unfold pde_at in *. simpl in *. by rewrite (Hd 1023).
  - by apply Ht.
  - intros i e Hi He Hp. destruct (W6 i e Hi (Hpd i e ltac:(lia) He) Hp) as (A & B & C). split_and!; [|done|by apply Ht].
    intros j Hj. by apply Hg, A.
  - intros i j ei ej Hi Hj Hei Hej. apply W7; try done; apply Hpd; lia || done.
Qed.

(** Kernel addresses mean the same in both spaces. *)
Lemma kernel_translate p c m va :
  spaces p c m → kernel_va va → translate (phys m) p va = translate (phys m) c va.
Proof.
  intros [S1 S2 S3 _ _] Hva. destruct (kernel_va_ok va Hva) as [_ Hi]. unfold translate.
  destruct (aw_cr3 _ S1) as [? ?], (aw_cr3 _ S2) as [? ?]. simpl in *. rewrite !frame_aligned by done. by rewrite S3.
Qed.

Lemma addr_v2p_translate s va pa :
  as_wf s → va_ok va → translate (phys s) (mcr3 s) va = Some pa → addr_v2p va s = Ok pa.
Proof.
  intros Hs Hva Ht. destruct (va_idx va Hva) as (_ & _ & Hi & _). destruct (pde_exists s (PDE_IDX va) Hs) as (e & He & _); [lia|].
  apply (addr_v2p_ok (lo := 0) s va e); try done. rewrite (translate_va (lo := 0) s va e) in Ht by done. by destruct (present e).
Qed.

Lemma activate_ok pd f m :
  as_wf m → kernel_va pd → translate (phys m) (mcr3 m) pd = Some f → activate pd m = Ok (with_cr3 f m).
Proof.
  intros Hs Hpd Ht. unfold activate. destruct (Z.eqb_spec pd 0); [unfold kernel_va in Hpd; lia|].
  by rewrite (addr_v2p_translate m pd f Hs (proj1 (kernel_va_ok pd Hpd)) Ht).
Qed.

(** The tables of the parent and its directory are off the tables of the child's user half. *)
Lemma parent_off_child p c m va g :
  spaces p c m → user_va va → table_frame (with_cr3 p m) g → off_table (with_cr3 c m) va g ∧ reserved (with_cr3 c m) g.
Proof.
  intros [S1 S2 S3 S4 S5] Hva Hg. destruct (user_va_ok va Hva) as [Hok Hi].
  assert (Hal : g mod 4096 = 0 ∧ taken m g).
  { destruct Hg as [->|(i & e & Hi0 & He & Hp & ->)]; [split; [apply (aw_cr3 _ S1)|apply (aw_taken _ S1)]|].
    split; [apply frame_bounds, (aw_words _ S1 _ _ He)|]. by apply (aw_table _ S1 i e). }
  destruct Hal as [Hal Htk]. split; [|left; exact Htk]. split; [done|]. split.
  - intros ->. by apply S4.
  - intros e He Hp ->. exact (S5 _ _ Hi He Hp Hg).
Qed.

(** ** A page for the child *)

Definition user_frame (m : mstate) (r : Z) : Z := phy_addr_start (user_pool m) + r * 4096.

(** The page [va] got the user frame number [r]. *)
Record got_page (va r : Z) (s s' : mstate) : Prop := {
  gp_wf : as_wf s';
  gp_cr3 : mcr3 s' = mcr3 s;
  gp_range : 0 ≤ r < nbits (pool_bitmap (user_pool s));
  gp_free : pool_bit PF_USER s r = false;
  gp_bits : ∀ j, 0 ≤ j → pool_bit PF_USER s' j = bool_decide (j = r) || pool_bit PF_USER s j;
  gp_kbits : ∃ o, ∀ j, 0 ≤ j → pool_bit PF_KERNEL s' j = bool_decide (o = Some j) || pool_bit PF_KERNEL s j;
  gp_pools : ∀ pf, phy_addr_start (get_pool pf s') = phy_addr_start (get_pool pf s) ∧
    nbits (pool_bitmap (get_pool pf s')) = nbits (pool_bitmap (get_pool pf s));
  gp_thread : cur_thread s' = cur_thread s ∧ plock (user_pool s') = plock (user_pool s);
  gp_rest : cur_vaddr s' = cur_vaddr s ∧ cur_pgdir s' = cur_pgdir s ∧ kernel_vaddr s' = kernel_vaddr s;
  gp_grows : grows (phys s) (phys s');
  gp_same : ∀ g, off_table s va g → reserved s g → same_frame (phys s) (phys s') g;
  gp_pde : ∀ i e, 0 ≤ i < 1024 → i ≠ PDE_IDX va → pde_at s' i e ↔ pde_at s i e;
  gp_table : ∀ e, pde_at s' (PDE_IDX va) e → present e = true → pde_at s (PDE_IDX va) e ∨ ¬ taken s (frame e);
  gp_trans : ∀ va', va_ok va' → translate (phys s') (mcr3 s') va' =
    if decide (va / 4096 = va' / 4096) then Some (user_frame s r + va' mod 4096) else translate (phys s) (mcr3 s) va';
}.

Definition free_user_frame (s : mstate) : Prop :=
  ∃ r, 0 ≤ r < nbits (pool_bitmap (user_pool s)) ∧ pool_bit PF_USER s r = false.

Lemma user_page s va :
  as_wf s → va_ok va → plock (user_pool s) = lock_init → cur_thread s ≠ 0 → free_user_frame s → free_kernel_frame s →
  ∃ r s', get_a_page_without_opvaddrbitmap PF_USER va s = Ok (va, s') ∧ got_page va r s s'.
Proof.
  intros Hs Hva Hl Ht (r0 & Hr0 & Hb0) Hk.
  set (s1 := set_pool PF_USER (with_lock (Lock (cur_thread s) (Semaphore 0 []) 1) (user_pool s)) s).
  assert (Hacq : acquire PF_USER s = Ok s1).
  { unfold acquire, lock_acquire. simpl. rewrite Hl. simpl (holder _). by rewrite (proj2 (Z.eqb_neq 0 (cur_thread s))). }
  assert (Hs1 : as_wf s1) by (by apply (as_wf_set_lock PF_USER)).
  unfold get_a_page_without_opvaddrbitmap. mrun Hacq.
  destruct (palloc_ok PF_USER s1 Hs1) as [[Hfull _]|(r & b' & Hr & Hb & Hal1 & Hf & Hnz & Hfa & Hs2 & Hnb & Hbits)].
  { specialize (Hfull r0 Hr0). change (pool_bit PF_USER s1 r0) with (pool_bit PF_USER s r0) in Hfull. congruence. }
  mrun Hal1. rewrite (proj2 (Z.eqb_neq _ 0) Hnz). set (s2 := set_pool PF_USER _ s1) in *.
  destruct (add_page s2 va _ Hs2 Hva Hf Hfa Hk) as (s3 & Hadd & Hs3 & Hfr & Htr). mrun Hadd.
  destruct Hfr as [A1 A2 (A3 & A3' & A3'' & A3''') (A4 & A4' & A4'') A5 A6 A7 A8 A9].
  eexists r, _. split; [done|]. split; try done.
  - by apply (as_wf_set_lock PF_USER).
  - intros j Hj. rewrite <- Hbits by done. unfold pool_bit. simpl. by rewrite A2.
  - intros []; simpl; [done|]. by rewrite A2.
  - simpl. split; [done|]. rewrite A2, Hl. simpl. reflexivity.
  - intros e He Hp. destruct A9 as (e' & He' & Hp' & Hold). unfold pde_at in He, He'. simpl in He. assert (e = e') as -> by congruence.
    destruct Hold as [Ho|(_ & Hnt & _)]; [left; exact Ho|right; exact Hnt].
Qed.

Lemma taken_mono s s' :
  phy_addr_start (kernel_pool s') = phy_addr_start (kernel_pool s) →
  nbits (pool_bitmap (kernel_pool s')) = nbits (pool_bitmap (kernel_pool s)) →
  (∀ j, 0 ≤ j → pool_bit PF_KERNEL s j = true → pool_bit PF_KERNEL s' j = true) →
  ∀ f, taken s f → taken s' f.
Proof.
  intros E1 E2 Hb f [H|[H Hset]]; unfold taken; rewrite E1, E2; [by left|].
  destruct (decide (f < phy_addr_start (kernel_pool s))) as [|Hge]; [by left|]. right. split; [done|]. apply Hb; [zdm|exact Hset].
Qed.

Lemma got_page_taken va r s s' f : got_page va r s s' → taken s f → taken s' f.
Proof.
  intros H. destruct (gp_pools _ _ _ _ H PF_KERNEL) as [E1 E2]. apply taken_mono; [done|done|].
  intros j Hj Hset. destruct (gp_kbits _ _ _ _ H) as [o Ho]. by rewrite Ho, Hset, orb_true_r.
Qed.

Lemma user_frame_props s r : as_wf s → 0 ≤ r → user_frame s r mod 4096 = 0 ∧ phy_addr_start (user_pool s) ≤ user_frame s r.
Proof. intros Hs Hr. pose proof (pw_align _ (aw_upool _ Hs)). unfold user_frame. zdm. Qed.

(** ** What the loop keeps *)

(** Directories of parent and child in the frames [p] and [c], which the kernel sees at [pp]
    and [pc]; the buffer page [buf] in the frame [bf]. *)
Record forking (p c pp pc buf bf : Z) (m : mstate) : Prop := {
  fk_spaces : spaces p c m;
  fk_pp : kernel_va pp ∧ translate (phys m) p pp = Some p;
  fk_pc : kernel_va pc ∧ translate (phys m) p pc = Some c;
  fk_buf : kernel_va buf ∧ buf mod 4096 = 0 ∧ translate (phys m) p buf = Some bf;
  fk_bf : bf mod 4096 = 0 ∧ taken m bf ∧ frame_mem (phys m) bf;
  fk_bfp : ¬ table_frame (with_cr3 p m) bf;
  fk_bfc : ¬ table_frame (with_cr3 c m) bf;
  fk_lock : plock (user_pool m) = lock_init ∧ cur_thread m ≠ 0;
  fk_umem : ∀ r, 0 ≤ r < nbits (pool_bitmap (user_pool m)) → frame_mem (phys m) (user_frame m r);
}.

Lemma forking_cr3 p c pp pc buf bf x m : forking p c pp pc buf bf m → forking p c pp pc buf bf (with_cr3 x m).
Proof. by intros [[] ? ? ? ? ? ? ? ?]. Qed.

Lemma table_frame_agree p m m' f :
  same_frame (phys m) (phys m') p → table_frame (with_cr3 p m') f ↔ table_frame (with_cr3 p m) f.
Proof.
  intros Hd. unfold table_frame, pde_at. simpl. split; intros [->|(i & e & Hi & He & Hr)]; try (by left); right; exists i, e.
  - rewrite Hd in He by lia. done.
  - rewrite Hd by lia. done.
Qed.

Lemma translate_tables p m m' va :
  as_wf (with_cr3 p m) → va_ok va → (∀ g, table_frame (with_cr3 p m) g → same_frame (phys m) m' g) →
  translate m' p va = translate (phys m) p va.
Proof.
  intros Hs Hva H. apply (translate_agree (with_cr3 p m)); [done|done| |].
  - apply H. by left.
  - intros e He Hp. apply H. right. exists (PDE_IDX va), e. split; [apply (va_idx va Hva)|done].
Qed.

(** A change of a frame that holds no table. *)
Lemma spaces_write p c m x fd :
  spaces p c m → (∀ a w, x !! a = Some w → word_ok w) → grows (phys m) x → fd mod 4096 = 0 →
  ¬ table_frame (with_cr3 p m) fd → ¬ table_frame (with_cr3 c m) fd → (∀ g, g mod 4096 = 0 → g ≠ fd → same_frame (phys m) x g) →
  spaces p c (with_phys x m) ∧ (∀ va, va_ok va → translate x p va = translate (phys m) p va) ∧
  (∀ va, va_ok va → translate x c va = translate (phys m) c va) ∧
  (∀ g, table_frame (with_cr3 p (with_phys x m)) g ↔ table_frame (with_cr3 p m) g) ∧
  (∀ g, table_frame (with_cr3 c (with_phys x m)) g ↔ table_frame (with_cr3 c m) g).
Proof.
  intros [S1 S2 S3 S4 S5] Hw Hg Hfd Hnp Hnc Hsame.
  assert (Hal : ∀ q g, as_wf (with_cr3 q m) → table_frame (with_cr3 q m) g → g mod 4096 = 0).
  { intros q g Hq [->|(i & e & _ & He & _ & ->)]; [apply (aw_cr3 _ Hq)|apply frame_bounds, (aw_words _ Hq _ _ He)]. }
  assert (Hp : ∀ g, table_frame (with_cr3 p m) g → same_frame (phys m) x g) by (intros g Ht; apply Hsame; [by apply (Hal p)|congruence]).
  assert (Hc : ∀ g, table_frame (with_cr3 c m) g → same_frame (phys m) x g) by (intros g Ht; apply Hsame; [by apply (Hal c)|congruence]).
  assert (Hpd : same_frame (phys m) x p) by (apply Hp; by left). assert (Hcd : same_frame (phys m) x c) by (apply Hc; by left).
  assert (Tp : ∀ g, table_frame (with_cr3 p (with_phys x m)) g ↔ table_frame (with_cr3 p m) g) by (intros g; by apply table_frame_agree).
  assert (Tc : ∀ g, table_frame (with_cr3 c (with_phys x m)) g ↔ table_frame (with_cr3 c m) g) by (intros g; by apply table_frame_agree).
  split_and!; [|intros va Hva; by apply translate_tables..|exact Tp|exact Tc].
  assert (W1 : as_wf (with_cr3 p (with_phys x m))) by (apply (as_wf_agree (with_cr3 p m)); [done..|intros i Hi; by apply Hpd]).
  assert (W2 : as_wf (with_cr3 c (with_phys x m))) by (apply (as_wf_agree (with_cr3 c m)); [done..|intros i Hi; by apply Hcd]).
  split; [done|done| | |].
  - intros i Hi. simpl. rewrite Hpd, Hcd by lia. by apply S3.
  - by rewrite Tp.
  - intros i e Hi He Hpr. rewrite Tp. apply (S5 i e Hi); [|done]. unfold pde_at in *. simpl in *. rewrite Hcd in He by lia. done.
Qed.

Lemma forking_write p c pp pc buf bf m x fd :
  forking p c pp pc buf bf m → (∀ a w, x !! a = Some w → word_ok w) → grows (phys m) x → fd mod 4096 = 0 →
  ¬ table_frame (with_cr3 p m) fd → ¬ table_frame (with_cr3 c m) fd → (∀ g, g mod 4096 = 0 → g ≠ fd → same_frame (phys m) x g) →
  forking p c pp pc buf bf (with_phys x m) ∧ (∀ va, va_ok va → translate x p va = translate (phys m) p va) ∧
  (∀ va, va_ok va → translate x c va = translate (phys m) c va).
Proof.
  intros [F1 [F2 F2'] [F3 F3'] (F4 & F4' & F4'') (F5 & F5' & F5'') F6 F7 F8 F9] Hw Hg Hfd Hnp Hnc Hsame.
  destruct (spaces_write p c m x fd F1 Hw Hg Hfd Hnp Hnc Hsame) as (W1 & W2 & W3 & W4 & W5). split; [|done].
  assert (Hfm : ∀ f, frame_mem (phys m) f → frame_mem x f) by (intros f Hf j Hj; by apply Hg, Hf).
  split; simpl; try done; rewrite ?W2 by (by apply kernel_va_ok); try done.
  - split; [done|]. split; [done|by apply Hfm].
  - by rewrite W4.
  - by rewrite W5.
  - intros r Hr. by apply Hfm, F9.
Qed.

(** A new page of the child leaves the parent's space alone. *)
Lemma spaces_got p c m va r s' :
  spaces p c m → user_va va → got_page va r (with_cr3 c m) s' →
  spaces p c s' ∧ (∀ va', va_ok va' → translate (phys s') p va' = translate (phys m) p va') ∧
  (∀ g, table_frame (with_cr3 p s') g ↔ table_frame (with_cr3 p m) g) ∧
  (∀ g, table_frame (with_cr3 c s') g → table_frame (with_cr3 c m) g ∨ ¬ taken m g).
Proof.
  intros Hsp Hva Hgp. pose proof (gp_wf _ _ _ _ Hgp) as Hs'. pose proof (gp_cr3 _ _ _ _ Hgp) as Ec. simpl in Ec.
  pose proof Hsp as [S1 S2 S3 S4 S5]. destruct (user_va_ok va Hva) as [Hok Hi].
  assert (Hsame : ∀ g, table_frame (with_cr3 p m) g → same_frame (phys m) (phys s') g).
  { intros g Hg. destruct (parent_off_child p c m va g Hsp Hva Hg). by apply (gp_same _ _ _ _ Hgp). }
  assert (Hpd : same_frame (phys m) (phys s') p) by (apply Hsame; by left).
  assert (Tp : ∀ g, table_frame (with_cr3 p s') g ↔ table_frame (with_cr3 p m) g) by (intros g; by apply table_frame_agree).
  assert (Hcpde : ∀ i e, 0 ≤ i < 1024 → i ≠ PDE_IDX va → pde_at (with_cr3 c s') i e ↔ pde_at (with_cr3 c m) i e).
  { intros i e Hi0 Hne. rewrite <- (gp_pde _ _ _ _ Hgp i e Hi0 Hne). unfold pde_at. simpl. by rewrite Ec. }
  assert (Htab : ∀ e, pde_at (with_cr3 c s') (PDE_IDX va) e → present e = true → pde_at (with_cr3 c m) (PDE_IDX va) e ∨ ¬ taken m (frame e)).
  { intros e He Hp. apply (gp_table _ _ _ _ Hgp e); [|done]. unfold pde_at in *. simpl in *. by rewrite Ec. }
  assert (Ht : ∀ f, taken m f → taken s' f) by (intros f; apply (got_page_taken _ _ _ _ f Hgp)).
  assert (Hc : with_cr3 c s' = s') by (destruct s'; simpl in *; by subst).
  split_and!; [|intros va' Hva'; by apply translate_tables|exact Tp|].
  - split.
    + apply (as_wf_other p m s'); try done. apply (gp_grows _ _ _ _ Hgp).
    + by rewrite Hc.
    + intros i Hi0. rewrite Hpd by lia. rewrite S3 by lia. destruct (aw_dir _ S2 i) as [e He]; [lia|].
      transitivity (Some e); [exact He|]. symmetry. by apply (Hcpde i e ltac:(lia) ltac:(lia)).
    + by rewrite Tp.
    + intros i e Hi0 He Hp. rewrite Tp. destruct (decide (i = PDE_IDX va)) as [->|Hne].
      * destruct (Htab e He Hp) as [Ho|Hnt]; [by apply (S5 _ e Hi0)|]. intros Hg.
        destruct (parent_off_child p c m va _ Hsp Hva Hg) as [_ [Htk|Hge]]; [by apply Hnt|]. by apply (user_not_table _ _ S1 Hge).
      * apply (S5 i e Hi0); [|done]. apply Hcpde; lia || done.
  - intros g [->|(i & e & Hi0 & He & Hp & ->)]; [left; by left|]. destruct (decide (i = PDE_IDX va)) as [->|Hne].
    + destruct (Htab e He Hp) as [Ho|Hnt]; [left; right|by right]. exists (PDE_IDX va), e. done.
    + left. right. exists i, e. split; [done|]. split; [apply Hcpde; lia || done|done].
Qed.

Lemma forking_got p c pp pc buf bf m va r s' :
  forking p c pp pc buf bf m → user_va va → got_page va r (with_cr3 c m) s' →
  forking p c pp pc buf bf s' ∧ (∀ va', va_ok va' → translate (phys s') p va' = translate (phys m) p va') ∧
  same_frame (phys m) (phys s') bf.
Proof.
  intros [F1 [F2 F2'] [F3 F3'] (F4 & F4' & F4'') (F5 & F5' & F5'') F6 F7 [F8 F8'] F9] Hva Hgp.
  destruct (spaces_got p c m va r s' F1 Hva Hgp) as (W1 & W2 & W3 & W4).
  destruct (gp_thread _ _ _ _ Hgp) as [T1 T2]. destruct (gp_pools _ _ _ _ Hgp PF_USER) as [P1 P2]. simpl in *.
  assert (Hfm : ∀ f, frame_mem (phys m) f → frame_mem (phys s') f) by (intros f Hf j Hj; by apply (gp_grows _ _ _ _ Hgp), Hf).
  split; [|split; [done|]].
  - split; try done; rewrite ?W2 by (by apply kernel_va_ok); try done.
    + split; [done|]. split; [by apply (got_page_taken _ _ _ _ _ Hgp)|by apply Hfm].
    + by rewrite W3.
    + intros Ht. destruct (W4 bf Ht); done.
    + rewrite T1, T2. done.
    + intros i Hi. unfold user_frame in *. rewrite P1. rewrite P2 in Hi. by apply Hfm, F9.
  - apply (gp_same _ _ _ _ Hgp); [|by left]. split; [done|]. split.
    + intros ->. apply F7. by left.
    + intros e He Hp ->. apply F7. right. exists (PDE_IDX va), e. destruct (user_va_ok va Hva). split; [lia|done].
Qed.

(** ** One page *)

(** The page [va], which the parent has in user frame [rp], was copied to the user frame [r]. *)
Record copied (p c va rp r : Z) (m m' : mstate) : Prop := {
  cp_cr3 : mcr3 m' = p;
  cp_range : 0 ≤ r < nbits (pool_bitmap (user_pool m));
  cp_free : pool_bit PF_USER m r = false;
  cp_bits : ∀ j, 0 ≤ j → pool_bit PF_USER m' j = bool_decide (j = r) || pool_bit PF_USER m j;
  cp_kbits : ∃ o, ∀ j, 0 ≤ j → pool_bit PF_KERNEL m' j = bool_decide (o = Some j) || pool_bit PF_KERNEL m j;
  cp_pools : ∀ pf, phy_addr_start (get_pool pf m') = phy_addr_start (get_pool pf m) ∧
    nbits (pool_bitmap (get_pool pf m')) = nbits (pool_bitmap (get_pool pf m));
  cp_parent : ∀ va', va_ok va' → translate (phys m') p va' = translate (phys m) p va';
  cp_child : ∀ va', va_ok va' → translate (phys m') c va' =
    if decide (va / 4096 = va' / 4096) then Some (user_frame m r + va' mod 4096) else translate (phys m) c va';
  cp_words : ∀ j, 0 ≤ j < 1024 → phys m' !! (user_frame m r + j * 4) = phys m !! (user_frame m rp + j * 4);
  cp_same : ∀ r', 0 ≤ r' → r' ≠ r → same_frame (phys m) (phys m') (user_frame m r');
}.

Lemma user_off p c m va r :
  spaces p c m → user_va va → 0 ≤ r → off_table (with_cr3 c m) va (user_frame m r) ∧ reserved (with_cr3 c m) (user_frame m r).
Proof.
  intros [S1 S2 _ _ _] Hva Hr. destruct (user_frame_props _ r S2 Hr) as [Hal Hge]. simpl in *. split; [|by right].
  pose proof (user_not_table _ _ S2 Hge) as Hnt. split; [done|]. split; [intros E; apply Hnt; by left|].
  intros e He Hp E. apply Hnt. right. exists (PDE_IDX va), e. destruct (user_va_ok va Hva). split; [lia|done].
Qed.

Lemma user_frame_inj m r r' : user_frame m r = user_frame m r' → r = r'.
Proof. unfold user_frame. lia. Qed.

Lemma user_not_taken s f : as_wf s → phy_addr_start (user_pool s) ≤ f → ¬ taken s f.
Proof.
  intros Hs Hf. pose proof (aw_order _ Hs). pose proof (wf_len _ (pw_bitmap _ (aw_kpool _ Hs))). unfold taken, nbits in *. lia.
Qed.

(** The buffer receives the parent's page. *)
Lemma page_to_buffer p c pp pc buf bf m va rp :
  forking p c pp pc buf bf m → mcr3 m = p → user_va va → va mod 4096 = 0 → 0 ≤ rp < nbits (pool_bitmap (user_pool m)) →
  translate (phys m) p va = Some (user_frame m rp) →
  ∃ x, copy_words 1024 buf va m = Ok (with_phys x m) ∧ forking p c pp pc buf bf (with_phys x m) ∧
    (∀ va, va_ok va → translate x p va = translate (phys m) p va) ∧ (∀ va, va_ok va → translate x c va = translate (phys m) c va) ∧
    (∀ j, 0 ≤ j < 1024 → x !! (bf + j * 4) = phys m !! (user_frame m rp + j * 4)) ∧
    (∀ r, 0 ≤ r → same_frame (phys m) x (user_frame m r)).
Proof.
  intros Hf Hc Hva Hal Hr Ht. pose proof Hf as [F1 [F2 F2'] [F3 F3'] (F4 & F4' & F4'') (F5 & F5' & F5'') F6 F7 F8 F9].
  assert (Hm : with_cr3 p m = m) by (destruct m; simpl in *; by subst). pose proof (sp_parent _ _ _ F1) as Hs. rewrite Hm in Hs.
  destruct (user_frame_props m rp Hs ltac:(lia)) as [Ha Hge].
  assert (Hne : ∀ r, 0 ≤ r → bf ≠ user_frame m r).
  { intros r Hr0 ->. destruct (user_frame_props m r Hs Hr0) as [_ Hg]. by apply (user_not_taken _ _ Hs Hg). }
  destruct (copy_page m buf va bf (user_frame m rp)) as (x & H1 & H2 & H3 & H4 & H5); try done.
  - split; [by apply kernel_va_ok|]. split; [done|]. by rewrite Hc.
  - split; [by apply user_va_ok|]. split; [done|]. by rewrite Hc.
  - apply Hne. lia.
  - by rewrite <- Hm.
  - by apply F9.
  - exists x. split; [done|].
    destruct (forking_write p c pp pc buf bf m x bf Hf (aw_words _ H2) H4 F5 F6 F7 H5) as (W1 & W2 & W3).
    split_and!; try done. intros r Hr0. apply H5; [by apply user_frame_props|]. by apply not_eq_sym, Hne.
Qed.

Lemma copy_user_page_ok p c pp pc buf bf m va rp :
  forking p c pp pc buf bf m → mcr3 m = p → user_va va → va mod 4096 = 0 → 0 ≤ rp < nbits (pool_bitmap (user_pool m)) →
  translate (phys m) p va = Some (user_frame m rp) → free_user_frame m → free_kernel_frame m →
  ∃ r m', copy_user_page pc pp buf va m = Ok m' ∧ forking p c pp pc buf bf m' ∧ copied p c va rp r m m'.
Proof.
  intros Hf Hc Hva Hal Hr Ht Hfu Hfk.
  destruct (page_to_buffer p c pp pc buf bf m va rp Hf Hc Hva Hal Hr Ht) as (x & H1 & Hf1 & T1 & T1' & B1 & K1).
  unfold copy_user_page. mrun H1. set (m1 := with_phys x m) in *. destruct (user_va_ok va Hva) as [Hok _].
  pose proof (fk_spaces _ _ _ _ _ _ _ Hf1) as Hsp1. destruct (fk_pc _ _ _ _ _ _ _ Hf1) as [Kpc Tpc]. destruct (fk_pp _ _ _ _ _ _ _ Hf1) as [Kpp Tpp].
  assert (Hm1 : with_cr3 p m1 = m1) by (destruct m; simpl in *; by subst).
  rewrite (activate_ok pc c m1); [| |done|].
  2:{ rewrite <- Hm1. apply Hsp1. } 2:{ simpl. rewrite Hc. exact Tpc. }
  cbn [mbind outcome_bind].
  destruct (user_page (with_cr3 c m1) va (sp_child _ _ _ Hsp1) Hok) as (r & s2 & H2 & Hgp); [apply (fk_lock _ _ _ _ _ _ _ Hf1)..|done|done|].
  rewrite H2. cbn [mbind outcome_bind].
  destruct (forking_got p c pp pc buf bf m1 va r s2 Hf1 Hva Hgp) as (Hf2 & T2 & B2).
  pose proof (gp_wf _ _ _ _ Hgp) as Hs2. pose proof (gp_cr3 _ _ _ _ Hgp) as Ec. simpl in Ec.
  destruct (fk_buf _ _ _ _ _ _ _ Hf2) as (Kb & Ab & Tb). destruct (fk_bf _ _ _ _ _ _ _ Hf2) as (Abf & Tkb & Mb).
  pose proof (fk_spaces _ _ _ _ _ _ _ Hf2) as Hsp2.
  assert (Hs2c : with_cr3 c s2 = s2) by (destruct s2; simpl in *; by subst).
  assert (Euf : ∀ j, user_frame s2 j = user_frame m j) by (intros j; unfold user_frame; destruct (gp_pools _ _ _ _ Hgp PF_USER) as [E _]; simpl in E; by rewrite E).
  pose proof (gp_range _ _ _ _ Hgp) as Hr2. simpl in Hr2.
  destruct (user_frame_props s2 r Hs2 ltac:(lia)) as [Aur Gur].
  assert (Hnt : ∀ q, as_wf (with_cr3 q s2) → ¬ table_frame (with_cr3 q s2) (user_frame s2 r)) by (intros q Hq; by apply (user_not_table (lo := 0))).
  assert (Mur : frame_mem (phys s2) (user_frame s2 r)).
  { apply (fk_umem _ _ _ _ _ _ _ Hf2). destruct (gp_pools _ _ _ _ Hgp PF_USER) as [_ E]. simpl in E. by rewrite E. }
  assert (Hne : user_frame s2 r ≠ bf) by (intros E; apply (user_not_taken s2 bf Hs2); [by rewrite <- E|done]).
  destruct (copy_page s2 va buf (user_frame s2 r) bf) as (y & H3 & H3w & C3 & G3 & S3); try done.
  - split; [done|]. split; [done|]. rewrite (gp_trans _ _ _ _ Hgp va Hok), decide_True by done. f_equal. rewrite Hal, Euf. unfold user_frame. simpl. lia.
  - split; [by apply kernel_va_ok|]. split; [done|]. rewrite Ec, <- (kernel_translate p c s2) by done. done.
  - rewrite <- Hs2c. apply Hnt, Hsp2.
  - rewrite H3. cbn [mbind outcome_bind]. set (m3 := with_phys y s2) in *.
    destruct (forking_write p c pp pc buf bf s2 y (user_frame s2 r) Hf2 (aw_words _ H3w) G3 Aur (Hnt p (sp_parent _ _ _ Hsp2)) (Hnt c (sp_child _ _ _ Hsp2)) S3)
      as (Hf3 & T3 & T3').
    assert (Tpp3 : translate (phys m3) (mcr3 m3) pp = Some p).
    { change (mcr3 m3) with (mcr3 s2). rewrite Ec, <- (kernel_translate p c m3 pp (fk_spaces _ _ _ _ _ _ _ Hf3) Kpp). apply (fk_pp _ _ _ _ _ _ _ Hf3). }
    rewrite (activate_ok pp p m3 H3w Kpp Tpp3).
    exists r, (with_cr3 p m3). split; [done|]. split; [by apply forking_cr3|].
    split; simpl; try done.
    + apply (gp_free _ _ _ _ Hgp).
    + apply (gp_bits _ _ _ _ Hgp).
    + apply (gp_kbits _ _ _ _ Hgp).
    + apply (gp_pools _ _ _ _ Hgp).
    + intros va' Hva'. rewrite T3, T2 by done. by apply T1.
    + intros va' Hva'. rewrite T3' by done. pose proof (gp_trans _ _ _ _ Hgp va' Hva') as Hg. rewrite Ec in Hg. rewrite Hg. case_decide; [done|]. by apply T1'.
    + intros j Hj. rewrite <- Euf, C3, B2, <- B1 by done. done.
    + intros r' Hr' Hne' j Hj. rewrite <- Euf. rewrite S3; [|by apply user_frame_props|by intros E%user_frame_inj|done].
      destruct (user_off p c m1 va r' Hsp1 Hva Hr') as [O1 O2]. rewrite !Euf.
      transitivity (phys m1 !! (user_frame m r' + j * 4)); [by apply (gp_same _ _ _ _ Hgp)|]. by apply K1.
Qed.

(** ** All pages *)

(** The pages that the bitmap of a process marks. *)
Definition user_pages (va : virtual_addr) : list Z :=
  (λ i, vaddr_start va + i * 4096) <$>
  filter (λ i, bit_set (vaddr_bitmap va) i = true) (seqZ 0 (nbits (vaddr_bitmap va))).

Fixpoint copy_pages (l : list Z) (pc pp buf : Z) (m : mstate) : outcome mstate :=
  match l with
  | [] => Ok m
  | va :: l => m ← copy_user_page pc pp buf va m; copy_pages l pc pp buf m
  end.

Lemma copy_pages_app l1 l2 pc pp buf m :
  copy_pages (l1 ++ l2) pc pp buf m = (m ← copy_pages l1 pc pp buf m; copy_pages l2 pc pp buf m).
Proof.
  revert m. induction l1 as [|va l1 IH]; intros m; [done|]. cbn [copy_pages app].
  destruct (copy_user_page _ _ _ _ _); try done. cbn [mbind outcome_bind]. apply IH.
Qed.

(** The marked pages among [n] from bit [i]. *)
Definition marked (va : virtual_addr) (i : Z) (n : nat) : list Z :=
  (λ i, vaddr_start va + i * 4096) <$> filter (λ i, bit_set (vaddr_bitmap va) i = true) (seqZ i (Z.of_nat n)).

Lemma marked_S va i n :
  marked va i (S n) = (if bit_set (vaddr_bitmap va) i then [vaddr_start va + i * 4096] else []) ++ marked va (i + 1) n.
Proof.
  unfold marked. rewrite seqZ_cons by lia. replace (Z.pred (Z.of_nat (S n))) with (Z.of_nat n) by lia.
  rewrite filter_cons. replace (Z.succ i) with (i + 1) by lia. destruct (bit_set _ i); case_decide; try done.
Qed.

Lemma marked_add va i n k : marked va i (n + k) = marked va i n ++ marked va (i + Z.of_nat n) k.
Proof.
  unfold marked. rewrite Nat2Z.inj_add, seqZ_app by lia. by rewrite filter_app, fmap_app.
Qed.

Section Loop.
Context (va : virtual_addr) (pc pp buf : Z).
Context (Hwf : bitmap_wf (vaddr_bitmap va)) (H0 : 0 ≤ vaddr_start va)
        (Hend : vaddr_start va + nbits (vaddr_bitmap va) * 4096 ≤ 0xc0000000).

Lemma copy_bits_marked n b k byte m :
  aget (bits (vaddr_bitmap va)) b = Ok byte → 0 ≤ b < btmp_bytes_len (vaddr_bitmap va) → 0 ≤ k → k + Z.of_nat n = 8 →
  copy_bits n byte b k (vaddr_start va) pc pp buf m = copy_pages (marked va (b * 8 + k) n) pc pp buf m.
Proof.
  intros Hb Hr. revert k m. induction n as [|n IH]; intros k m Hk Hn; [done|]. cbn [copy_bits]. rewrite marked_S, copy_pages_app.
  assert (E : (Z.land (Z.shiftl BITMAP_MASK k) byte =? 0) = negb (bit_set (vaddr_bitmap va) (b * 8 + k))).
  { unfold bit_set. replace ((b * 8 + k) / 8) with b by zdm. rewrite Hb. replace ((b * 8 + k) mod 8) with k by zdm.
    change BITMAP_MASK with 1. rewrite shiftl1_pow, Z.land_comm by lia. by apply land_pow2_0. }
  rewrite E. replace (b * 8 + (k + 1)) with (b * 8 + k + 1) in * by lia.
  assert (Hu : u32 ((b * 8 + k) * PG_SIZE + vaddr_start va) = vaddr_start va + (b * 8 + k) * 4096).
  { unfold PG_SIZE, nbits in *. rewrite u32_small; lia. }
  destruct (bit_set _ (b * 8 + k)); cbn [negb]; cbn [copy_pages].
  - rewrite Hu. destruct (copy_user_page _ _ _ _ _); try done. cbn [mbind outcome_bind].
    rewrite IH by lia. by replace (b * 8 + (k + 1)) with (b * 8 + k + 1) by lia.
  - cbn [mbind outcome_bind]. rewrite IH by lia. by replace (b * 8 + (k + 1)) with (b * 8 + k + 1) by lia.
Qed.

Lemma marked_zero b n k :
  aget (bits (vaddr_bitmap va)) b = Ok 0 → 0 ≤ k → k + Z.of_nat n ≤ 8 → marked va (b * 8 + k) n = [].
Proof.
  intros Hb. revert k. induction n as [|n IH]; intros k Hk Hn; [done|]. rewrite marked_S.
  replace (b * 8 + k + 1) with (b * 8 + (k + 1)) by lia. rewrite IH by lia. unfold bit_set.
  replace ((b * 8 + k) / 8) with b by zdm. by rewrite Hb, Z.testbit_0_l.
Qed.

Lemma copy_bytes_marked n b m :
  0 ≤ b → b + Z.of_nat n = btmp_bytes_len (vaddr_bitmap va) →
  copy_bytes n (bits (vaddr_bitmap va)) b (vaddr_start va) pc pp buf m = copy_pages (marked va (b * 8) (8 * n)) pc pp buf m.
Proof.
  revert b m. induction n as [|n IH]; intros b m Hb Hn; [done|]. cbn [copy_bytes]. pose proof (wf_len _ Hwf).
  destruct (aget_in_range (bits (vaddr_bitmap va)) b) as [byte Hbyte]; [lia|]. mrun Hbyte.
  replace (8 * S n)%nat with (8 + 8 * n)%nat by lia. rewrite marked_add, copy_pages_app.
  assert (E : (if byte =? 0 then Ok m else copy_bits 8 byte b 0 (vaddr_start va) pc pp buf m) = copy_pages (marked va (b * 8) 8) pc pp buf m).
  { destruct (Z.eqb_spec byte 0) as [->|_].
    - replace (b * 8) with (b * 8 + 0) by lia. by rewrite marked_zero.
    - rewrite (copy_bits_marked 8 b 0 byte) by (done || lia). by replace (b * 8 + 0) with (b * 8) by lia. }
  rewrite E. destruct (copy_pages _ _ _ _ _); try done. cbn [mbind outcome_bind]. rewrite IH by lia.
  by replace (b * 8 + Z.of_nat 8) with ((b + 1) * 8) by lia.
Qed.

(** The two loops visit the marked pages in order. *)
Lemma copy_body_pages m : copy_body_stack3 va pc pp buf m = copy_pages (user_pages va) pc pp buf m.
Proof.
  pose proof (wf_len _ Hwf). unfold copy_body_stack3. rewrite copy_bytes_marked by lia. f_equal. unfold marked, user_pages, nbits.
  do 3 f_equal. lia.
Qed.
End Loop.

(** ** Counting free frames *)

Definition free_frames (pf : pool_flags) (m : mstate) : nat :=
  length (filter (λ r, pool_bit pf m r = false) (seqZ 0 (nbits (pool_bitmap (get_pool pf m))))).

Lemma free_frames_pos pf m :
  (0 < free_frames pf m)%nat → ∃ r, 0 ≤ r < nbits (pool_bitmap (get_pool pf m)) ∧ pool_bit pf m r = false.
Proof.
  unfold free_frames. destruct (filter _ _) as [|r l] eqn:E; simpl; [lia|]. intros _. exists r.
  assert (Hr : r ∈ filter (λ r, pool_bit pf m r = false) (seqZ 0 (nbits (pool_bitmap (get_pool pf m))))) by (rewrite E; left).
  apply list_elem_of_filter in Hr as [? Hr%elem_of_seqZ]. split; [lia|done].
Qed.

Lemma filter_set_one (l : list Z) (f g : Z → bool) (o : option Z) :
  NoDup l → (∀ j, j ∈ l → g j = bool_decide (o = Some j) || f j) →
  (length (filter (λ r, f r = false) l) ≤ S (length (filter (λ r, g r = false) l)))%nat ∧
  ((∀ j, o = Some j → j ∉ l) → length (filter (λ r, f r = false) l) = length (filter (λ r, g r = false) l)).
Proof.
  induction 1 as [|x l Hx Hl IH]; intros Hg; [simpl; split; [lia|done]|]. rewrite !filter_cons.
  destruct (IH (λ j Hj, Hg j (list_elem_of_further _ _ _ Hj))) as [I1 I2]. specialize (Hg x (list_elem_of_here _ _)).
  destruct (decide (o = Some x)) as [->|Ho].
  - rewrite bool_decide_true in Hg by done. simpl in Hg. rewrite (decide_False (P := g x = false)) by congruence.
    specialize (I2 ltac:(intros j [= <-]; done)). split; [case_decide; simpl; lia|]. intros Hn. exfalso. apply (Hn x eq_refl). left.
  - rewrite bool_decide_false in Hg by done. simpl in Hg. rewrite Hg. split; [case_decide; simpl; lia|].
    intros Hn. assert (Hn' : ∀ j, o = Some j → j ∉ l) by (intros j Hj Hin; apply (Hn j Hj); by right). specialize (I2 Hn'). case_decide; simpl; by rewrite I2.
Qed.

Lemma free_frames_step pf m m' o :
  nbits (pool_bitmap (get_pool pf m')) = nbits (pool_bitmap (get_pool pf m)) →
  (∀ j, 0 ≤ j → pool_bit pf m' j = bool_decide (o = Some j) || pool_bit pf m j) → (free_frames pf m ≤ S (free_frames pf m'))%nat.
Proof.
  intros En Hb. unfold free_frames. rewrite En. apply (filter_set_one _ _ _ o); [apply NoDup_seqZ|].
  intros j Hj%elem_of_seqZ. apply Hb. lia.
Qed.

(** ** The whole loop *)

(** The parent has the page [va] in a user frame that is in use. *)
Definition parent_page (p : Z) (m : mstate) (va rp : Z) : Prop :=
  user_va va ∧ va mod 4096 = 0 ∧ 0 ≤ rp < nbits (pool_bitmap (user_pool m)) ∧ pool_bit PF_USER m rp = true ∧
  translate (phys m) p va = Some (user_frame m rp).

(** The pages [l] were copied: the child has each in a frame that was free, no two in the same
    one, with the words of the parent; the parent has what it had. *)
Record all_copied (p c : Z) (l : list Z) (m m' : mstate) : Prop := {
  ac_cr3 : mcr3 m' = p;
  ac_user : phy_addr_start (user_pool m') = phy_addr_start (user_pool m);
  ac_bits : ∀ j, 0 ≤ j → pool_bit PF_USER m j = true → pool_bit PF_USER m' j = true;
  ac_parent : ∀ va, va_ok va → translate (phys m') p va = translate (phys m) p va;
  ac_same : ∀ r, 0 ≤ r → pool_bit PF_USER m r = true → same_frame (phys m) (phys m') (user_frame m r);
  ac_other : ∀ va, va_ok va → (∀ x, x ∈ l → x / 4096 ≠ va / 4096) → translate (phys m') c va = translate (phys m) c va;
  ac_child : ∀ va rp, va ∈ l → parent_page p m va rp → ∃ r, 0 ≤ r < nbits (pool_bitmap (user_pool m)) ∧
    pool_bit PF_USER m r = false ∧ pool_bit PF_USER m' r = true ∧ translate (phys m') c va = Some (user_frame m r) ∧
    ∀ j, 0 ≤ j < 1024 → phys m' !! (user_frame m r + j * 4) = phys m !! (user_frame m rp + j * 4);
  ac_inj : ∀ va va', va ∈ l → va' ∈ l → translate (phys m') c va = translate (phys m') c va' → va = va';
}.

(** One more page in front. *)
Lemma all_copied_cons p c va rp r l m m1 m' :
  (∀ x, x ∈ va :: l → ∃ rx, parent_page p m x rx) → va ∉ l → parent_page p m va rp → copied p c va rp r m m1 →
  all_copied p c l m1 m' → all_copied p c (va :: l) m m'.
Proof.
  intros Hpg Hnin (U1 & U2 & U3 & U4 & U5) [C1 C2 C3 C4 C5 C6 C7 C8 C9 C10] [A1 A2 A3 A4 A5 A6 A7 A8].
  destruct (C6 PF_USER) as [Eu En]. simpl in Eu, En.
  assert (Euf : ∀ j, user_frame m1 j = user_frame m j) by (intros j; unfold user_frame; by rewrite Eu).
  assert (Hpage : ∀ x, x ∈ l → x / 4096 ≠ va / 4096).
  { intros x Hx E. destruct (Hpg x ltac:(by right)) as (rx & X1 & X2 & _). apply Hnin. replace va with x; [done|]. unfold user_va in *. zdm. }
  assert (Hpp : ∀ x rx, parent_page p m x rx → parent_page p m1 x rx).
  { intros x rx (X1 & X2 & X3 & X4 & X5). split_and!; try done.
    - lia. - lia. - rewrite C4 by lia. by rewrite X4, orb_true_r.
    - rewrite C7, Euf by (by apply user_va_ok). done. }
  assert (Hset : ∀ j, 0 ≤ j → pool_bit PF_USER m j = true → pool_bit PF_USER m1 j = true) by (intros j Hj E; by rewrite C4, E, orb_true_r).
  assert (Hr1 : pool_bit PF_USER m1 r = true) by (rewrite C4, bool_decide_true by lia; done).
  assert (Hva : translate (phys m') c va = Some (user_frame m r)).
  { rewrite (A6 va (proj1 (user_va_ok va U1)) Hpage). rewrite C8, decide_True by (done || by apply user_va_ok).
    f_equal. rewrite U2. lia. }
  assert (Hrest : ∀ x, x ∈ l → ∃ rx, 0 ≤ rx ∧ pool_bit PF_USER m1 rx = false ∧ translate (phys m') c x = Some (user_frame m rx)).
  { intros x Hx. destruct (Hpg x ltac:(by right)) as (rx & Hrx). destruct (A7 x rx Hx (Hpp _ _ Hrx)) as (rc & B1 & B2 & _ & B4 & _).
    exists rc. rewrite Euf in B4. split; [lia|done]. }
  split; try done.
  - congruence.
  - intros j Hj E. by apply A3, Hset.
  - intros x Hx. rewrite A4, C7 by done. done.
  - intros r' Hr' E j Hj. rewrite <- Euf, (A5 r' Hr' (Hset r' Hr' E) j Hj). rewrite Euf. apply C10; [done| |done]. congruence.
  - intros x Hx Hl. rewrite (A6 x Hx (λ y Hy, Hl y (list_elem_of_further _ _ _ Hy))), (C8 x Hx).
    by rewrite decide_False by apply (Hl va (list_elem_of_here _ _)).
  - intros x rx [->|Hx]%elem_of_cons Hrx.
    + assert (rx = rp) as ->. { destruct Hrx as (_ & _ & _ & _ & E). rewrite U5 in E. injection E as E. by apply user_frame_inj in E. }
      exists r. split; [done|]. split; [done|]. split; [by apply A3; [lia|]|]. split; [done|].
      intros j Hj. rewrite <- Euf, A5 by (done || lia). rewrite Euf. by apply C9.
    + destruct (A7 x rx Hx (Hpp _ _ Hrx)) as (rc & B1 & B2 & B3 & B4 & B5). exists rc. rewrite Euf in B4. rewrite En in B1.
      assert (Hb : pool_bit PF_USER m rc = false).
      { rewrite C4 in B2 by lia. by apply orb_false_iff in B2 as [_ ?]. }
      split; [done|]. split; [done|]. split; [done|]. split; [done|]. intros j Hj. specialize (B5 j Hj). rewrite !Euf in B5. rewrite B5.
      destruct Hrx as (_ & _ & X3 & X4 & _). apply C10; [lia|congruence|done].
  - intros x y [->|Hx]%elem_of_cons [->|Hy]%elem_of_cons E; [done| | |by apply A8].
    + destruct (Hrest y Hy) as (ry & Y1 & Y2 & Y3). rewrite Hva, Y3 in E. injection E as E%user_frame_inj. congruence.
    + destruct (Hrest x Hx) as (rx & X1 & X2 & X3). rewrite Hva, X3 in E. injection E as E%user_frame_inj. congruence.
Qed.

Lemma all_copied_nil p c m : mcr3 m = p → all_copied p c [] m m.
Proof. intros Hc. split; try done; intros; match goal with H : _ ∈ [] |- _ => by apply not_elem_of_nil in H end. Qed.

Lemma copy_pages_ok p c pp pc buf bf l m :
  forking p c pp pc buf bf m → mcr3 m = p → NoDup l → (∀ x, x ∈ l → ∃ rx, parent_page p m x rx) →
  (length l ≤ free_frames PF_USER m)%nat → (length l ≤ free_frames PF_KERNEL m)%nat →
  ∃ m', copy_pages l pc pp buf m = Ok m' ∧ forking p c pp pc buf bf m' ∧ all_copied p c l m m'.
Proof.
  intros Hf Hc Hnd. revert m Hf Hc. induction Hnd as [|va l Hnin Hnd IH]; intros m Hf Hc Hpg Hu Hk; cbn [copy_pages length] in *.
  { exists m. split; [done|]. split; [done|by apply all_copied_nil]. }
  destruct (Hpg va) as (rp & Hrp); [left|]. pose proof Hrp as (U1 & U2 & U3 & U4 & U5).
  destruct (copy_user_page_ok p c pp pc buf bf m va rp) as (r & m1 & H1 & Hf1 & Hcp); try done.
  { apply (free_frames_pos PF_USER). lia. } { apply (free_frames_pos PF_KERNEL). lia. }
  mrun H1. pose proof Hcp as [C1 C2 C3 C4 [o C5] C6 C7 C8 C9 C10].
  assert (Hfu : (free_frames PF_USER m ≤ S (free_frames PF_USER m1))%nat).
  { apply (free_frames_step _ _ _ (Some r)); [apply C6|]. intros j Hj. rewrite C4 by done. f_equal. apply bool_decide_ext. split; congruence. }
  assert (Hfk : (free_frames PF_KERNEL m ≤ S (free_frames PF_KERNEL m1))%nat) by (apply (free_frames_step _ _ _ o); [apply C6|done]).
  destruct (IH m1 Hf1 C1) as (m' & H2 & Hf2 & Hall); [|lia|lia|].
  - intros x Hx. destruct (Hpg x ltac:(by right)) as (rx & X1 & X2 & X3 & X4 & X5). exists rx. destruct (C6 PF_USER) as [Eu En]. simpl in *.
    split_and!; try done; [lia|lia| |].
    + rewrite C4 by lia. by rewrite X4, orb_true_r.
    + rewrite C7 by (by apply user_va_ok). unfold user_frame in *. by rewrite Eu.
  - exists m'. split; [done|]. split; [done|]. by apply (all_copied_cons p c va rp r l m m1 m').
Qed.
