(* ===== verification/PageDir.v ===== *)
(** * A page directory for a new process (userprog/process.c, create_page_dir)

    [create_page_dir] takes a kernel page, copies the kernel half of the running directory and
    maps the new directory to itself: the result is a second address space in the same memory. *)

From S2P Require Import Prelude Interrupt KList FsState File Pipe Fs Bitmap Sched Sync Paging Arena Task WaitExit Fork UserSpace ForkMemory.

(** ** A kernel page *)

(** The cleared page [v] in the kernel frame number [r]; [e] is the entry of its table. *)
Record kernel_got (v r e : Z) (s s' : mstate) : Prop := {
  kg_va : kernel_va v ∧ v mod 4096 = 0;
  kg_vaddr : vaddr_start (kernel_vaddr s) ≤ v ∧ bit_set (vaddr_bitmap (kernel_vaddr s)) ((v - vaddr_start (kernel_vaddr s)) / 4096) = false;
  kg_wf : as_wf s';
  kg_cr3 : mcr3 s' = mcr3 s;
  kg_user : user_pool s' = user_pool s ∧ cur_thread s' = cur_thread s;
  kg_range : 0 ≤ r < nbits (pool_bitmap (kernel_pool s));
  kg_free : pool_bit PF_KERNEL s r = false;
  kg_bits : ∀ j, 0 ≤ j → pool_bit PF_KERNEL s' j = bool_decide (j = r) || pool_bit PF_KERNEL s j;
  kg_pool : phy_addr_start (kernel_pool s') = phy_addr_start (kernel_pool s) ∧
    nbits (pool_bitmap (kernel_pool s')) = nbits (pool_bitmap (kernel_pool s));
  kg_table : pde_at s (PDE_IDX v) e ∧ present e = true;
  kg_zero : ∀ j, 0 ≤ j < 1024 → phys s' !! (frame_addr PF_KERNEL s r + j * 4) = Some 0;
  kg_grows : grows (phys s) (phys s');
  kg_same : ∀ g, g mod 4096 = 0 → g ≠ frame_addr PF_KERNEL s r → g ≠ frame e → same_frame (phys s) (phys s') g;
  kg_trans : ∀ va, va_ok va → translate (phys s') (mcr3 s') va =
    if decide (v / 4096 = va / 4096) then Some (frame_addr PF_KERNEL s r + va mod 4096) else translate (phys s) (mcr3 s) va;
}.

(** No kernel page is left: no address, or no frame. *)
Definition kernel_full (s : mstate) : Prop :=
  (∀ i, 0 ≤ i < nbits (vaddr_bitmap (kernel_vaddr s)) → bit_set (vaddr_bitmap (kernel_vaddr s)) i = true) ∨
  (∀ r, 0 ≤ r < nbits (pool_bitmap (kernel_pool s)) → pool_bit PF_KERNEL s r = true).

Lemma vaddr_get_one s :
  vaddr_wf PF_KERNEL s → 0xc0000000 ≤ vaddr_start (kernel_vaddr s) →
  ∃ v s0, vaddr_get PF_KERNEL 1 s = Ok (v, s0) ∧
    (v = 0 ∧ kernel_full s ∨ kernel_va v ∧ v mod 4096 = 0 ∧ (∃ e, pde_at s (PDE_IDX v) e ∧ present e = true) ∧
       (vaddr_start (kernel_vaddr s) ≤ v ∧ bit_set (vaddr_bitmap (kernel_vaddr s)) ((v - vaddr_start (kernel_vaddr s)) / 4096) = false) ∧ ∃ x, s0 = set_vaddr PF_KERNEL x s).
Proof.
  intros [V1 V2 V3 V4 V5 V6] Hk. unfold vaddr_get. cbn [get_vaddr] in *. destruct (bitmap_scan_any _ 1 V1 V2 ltac:(lia)) as (i & Hi & Hfit). mrun Hi.
  destruct (Z.eqb_spec i (-1)) as [->|Hne].
  { exists 0, s. split; [done|]. left. split; [done|]. left. destruct Hfit as [[_ Hno]|[? _]]; [|lia]. change (1 =? 1) with true in Hno. cbn iota in Hno.
    intros i Hi0. specialize (Hno i). rewrite clear_run_one in Hno. destruct (bit_set _ i); [done|]. exfalso. apply Hno; lia || done. }
  destruct Hfit as [[? _]|(I1 & I2 & I3 & _)]; [done|]. change (1 =? 1) with true in I2. cbn iota in I2.
  pose proof (wf_len _ V1) as Hlen. pose proof (wf_small _ V1) as Hsmall. unfold nbits, PG_SIZE in *. rewrite (u32_small i) by lia.
  destruct (set_run_ok (Z.to_nat 1) _ i 1 V1 I1) as (b' & Hb' & _); [lia|]. mrun Hb'. rewrite u32_small by lia.
  eexists _, _. split; [done|]. right. split; [unfold kernel_va; lia|]. split; [zdm|]. split; [apply V6; lia|]. split; [|by eexists].
  split; [lia|]. apply clear_run_one in I3. rewrite <- I3. f_equal. zdm.
Qed.

Lemma kernel_page s :
  as_wf s → vaddr_wf PF_KERNEL s → 0xc0000000 ≤ vaddr_start (kernel_vaddr s) →
  ∃ v s', get_kernel_pages 1 s = Ok (v, s') ∧ (v = 0 ∧ kernel_full s ∨ ∃ r e, kernel_got v r e s s').
Proof.
  intros Hs Hv Hk. destruct (vaddr_get_one s Hv Hk) as (v & s0 & H0 & Hcase). unfold get_kernel_pages, malloc_page. mrun H0.
  destruct Hcase as [[-> Hfull]|(Kv & Av & (e & He & Hp) & Hvb & x & ->)]; [eexists 0, _; split; [done|by left]|].
  destruct (Z.eqb_spec v 0) as [E|_]; [unfold kernel_va in Kv; lia|]. destruct (kernel_va_ok v Kv) as [Hok _].
  set (s0 := set_vaddr PF_KERNEL x s). assert (Hs0 : as_wf s0) by (by apply as_wf_set_vaddr). change (Z.to_nat 1) with 1%nat. cbn [map_pages].
  destruct (palloc_ok PF_KERNEL s0 Hs0) as [[Hfull Hal]|(r & b' & Hr & Hb & Hal & Hf & Hnz & Hfa & Hs1 & Hnb & Hbits)]; mrun Hal.
  { eexists 0, _. split; [done|]. left. split; [done|]. right. exact Hfull. }
  rewrite (proj2 (Z.eqb_neq _ 0) Hnz). change (get_pool PF_KERNEL s0) with (kernel_pool s0) in *. set (f := phy_addr_start (kernel_pool s0) + r * 4096) in *. set (s1 := set_pool PF_KERNEL _ s0) in *.
  destruct (page_table_add_present s1 v e f Hs1 Hok He Hp Hf Hfa) as (m2 & Hadd & Hs2 & Hpd2 & Htr2).
  destruct (add_present_frame s1 v e f Hs1 Hok He Hp Hf Hfa) as (s2 & Hadd' & Hfr).
  assert (s2 = with_phys m2 s1) as -> by congruence. clear Hadd'. mrun Hadd. cbn [mbind outcome_bind].
  destruct (Z.eqb_spec v 0) as [E|_]; [unfold kernel_va in Kv; lia|]. set (s2 := with_phys m2 s1) in *.
  assert (Hnt0 : ¬ table_frame s f) by (apply (fresh_not_table (lo := 0) s r); [done|lia|done|done]).
  assert (Hnt : ¬ table_frame s2 f).
  { intros [E|(i & e0 & Hi & He0 & Hp0 & E)]; apply Hnt0; [by left|]. right. exists i, e0. split; [done|]. split; [|done].
    exact (proj1 (Hpd2 i e0 ltac:(lia)) He0). }
  destruct (clear_page s2 v f Hs2) as (m3 & Hclr & Hs3 & Hz & Hg3 & Ho); [|done|done| |].
  { split; [done|]. split; [done|]. rewrite Htr2, decide_True by done. f_equal. rewrite Av. lia. }
  { intros j Hj. apply (af_grows _ _ _ Hfr). exact (aw_kmem _ Hs r Hr j Hj). }
  change (Z.to_nat (1 * 1024)) with 1024%nat. rewrite Hclr. cbn [mbind outcome_bind].
  eexists v, _. split; [done|]. right. exists r, e. split; try done.
  - intros a Ha. by apply Hg3, (af_grows _ _ _ Hfr).
  - intros g Hg Hgf Hge. eapply same_frame_trans; [|by apply (outside_same f)]. intros j Hj. destruct (pte_word s1 v e Hs1 Hok He Hp) as (t & _ & _ & _ & Hwr).
    assert (m2 = <[frame e + PTE_IDX v * 4 := entry f]> (phys s)) as ->.
    { revert Hadd. unfold page_table_add. rewrite (rd32_pde s1 v e Hs1 Hok He). cbn [mbind outcome_bind]. rewrite Hp.
      destruct (rd32 (pte_ptr v) s1); try done. cbn [mbind outcome_bind]. rewrite Hwr. intros E. by injection E. }
    apply lookup_insert_ne. intros E. destruct (frames_apart (frame e) g (PTE_IDX v) j); [|done|apply (va_idx v Hok)|done|done|done].
    apply frame_bounds, (aw_words _ Hs _ _ He).
  - intros va Hva. simpl. rewrite <- Htr2 by done. by apply (outside_translate s2 f).
Qed.

(** ** The directory *)

(** The words of the running directory appear at the end of the address space. *)
Lemma translate_dir_word m c k :
  word_ok c → c mod 4096 = 0 → m !! (c + 1023 * 4) = Some (entry c) → 0 ≤ k < 1024 →
  translate m c (0xfffff000 + 4 * k) = Some (c + k * 4).
Proof.
  intros Hc Ha Hself Hk. rewrite (translate_eq m c _ (entry c) (entry c)); try done.
  - rewrite entry_present, entry_frame by done. f_equal. zdm.
  - rewrite PDE_IDX_eq by lia. by replace ((0xfffff000 + 4 * k) / 4194304) with 1023 by zdm.
  - by apply entry_present.
  - rewrite entry_frame, PTE_IDX_eq by (done || lia). by replace ((0xfffff000 + 4 * k) / 4096 mod 1024) with 1023 by zdm.
Qed.

(** The kernel half is copied behind 768 zeroes. *)
Lemma copy_kernel_half s pd f :
  as_wf s → page_in s pd f → kernel_va pd → f mod 4096 = 0 → ¬ table_frame s f → (∀ j, 0 ≤ j < 1024 → phys s !! (f + j * 4) = Some 0) →
  ∃ m', copy_words 256 (u32 (pd + 0x300 * 4)) (0xfffff000 + 0x300 * 4) s = Ok (with_phys m' s) ∧ outside f (phys s) m' ∧
    ∀ j, 0 ≤ j < 1024 → m' !! (f + j * 4) = if decide (j < 768) then Some 0 else phys s !! (mcr3 s + j * 4).
Proof.
  intros Hs (Hd & Hda & Htd) Hk Hf Hnt Hz. destruct (aw_cr3 _ Hs) as [Hc Hca]. unfold kernel_va in Hk. rewrite u32_small by zdm.
  assert (Hne : mcr3 s ≠ f) by (intros E; apply Hnt; by left).
  destruct (copy_words_ok 256 (pd + 0x300 * 4) (0xfffff000 + 0x300 * 4) s (λ k, f + (768 + k) * 4) (λ k, mcr3 s + (768 + k) * 4))
    as (m' & H1 & H2 & H3); try zdm.
  - intros k Hk0. cbv beta. split; [rewrite (Hz (768 + k)) by lia; by eexists|]. apply (aw_dir _ Hs). lia.
  - intros m' Hm' k Hk0. assert (Ho : outside f (phys s) m').
    { intros a Ha. apply Hm'. intros k' Hk'. apply Ha. lia. }
    split.
    + replace (pd + 768 * 4 + 4 * k) with (pd + 4 * (768 + k)) by lia. apply translate_word; [done|done| |lia]. by rewrite (outside_translate s f).
    + replace (0xfffff000 + 768 * 4 + 4 * k) with (0xfffff000 + 4 * (768 + k)) by lia. apply translate_dir_word; [done|done| |lia].
      rewrite (outside_same f (mcr3 s) _ _ Ho Hf Hca Hne 1023) by lia. apply (aw_self _ Hs).
  - exists m'. split; [done|]. split; [intros a Ha; apply H3; intros k Hk0; apply Ha; lia|]. intros j Hj. case_decide as E.
    + rewrite H3; [by apply Hz|]. intros k Hk0 E2. lia.
    + replace j with (768 + (j - 768)) by lia. apply H2. lia.
Qed.

(** A directory with the kernel half of another one is an address space of its own. *)
Lemma new_space s m' f :
  as_wf s → outside f (phys s) m' → word_ok f → f mod 4096 = 0 → ¬ table_frame s f → taken s f →
  (∀ j, 0 ≤ j < 768 → m' !! (f + j * 4) = Some 0) →
  (∀ j, 768 ≤ j < 1023 → m' !! (f + j * 4) = phys s !! (mcr3 s + j * 4)) → m' !! (f + 1023 * 4) = Some (entry f) →
  spaces (mcr3 s) f (with_phys m' s) ∧ grows (phys s) m'.
Proof.
  intros Hs Ho Hfw Hf Hnt Htk Hlow Hhigh Hself.
  assert (Hw : ∀ j, 0 ≤ j < 1024 → ∃ w, m' !! (f + j * 4) = Some w ∧ word_ok w).
  { intros j Hj. destruct (decide (j < 768)) as [|H1]; [exists 0; split; [apply Hlow; lia|done]|].
    destruct (decide (j = 1023)) as [->|H2]; [exists (entry f); split; [done|]|].
    - rewrite entry_eq by done. unfold word_ok in *. zdm.
    - destruct (aw_dir _ Hs j Hj) as [w Hw]. exists w. rewrite Hhigh by lia. split; [done|]. by apply (aw_words _ Hs _ _ Hw). }
  destruct (outside_wf s f m' Hs Ho Hf Hnt Hw) as [Hs' Hg]. split; [|done].
  assert (Hdir : same_frame (phys s) m' (mcr3 s)) by (apply (outside_tables s f); try done; by left).
  assert (Tp : ∀ g, table_frame (with_cr3 (mcr3 s) (with_phys m' s)) g ↔ table_frame s g).
  { intros g. exact (table_frame_agree (mcr3 s) s (with_phys m' s) g Hdir). }
  assert (Hpd : ∀ i e, 0 ≤ i < 1023 → pde_at (with_cr3 f (with_phys m' s)) i e → present e = true → 768 ≤ i ∧ pde_at s i e).
  { intros i e Hi He Hp. unfold pde_at in *. simpl in *. destruct (decide (i < 768)) as [Hlt|]; [|rewrite Hhigh in He by lia; split; [lia|done]].
    rewrite Hlow in He by lia. injection He as <-. done. }
  assert (Hpar : as_wf (with_cr3 (mcr3 s) (with_phys m' s))) by (by destruct s).
  split; [done| | | |].
  - destruct Hs' as [W1 W2 W3 W4 W5 W6 W7 W8 W9 W10 W11]. split; simpl in *; try done.
    + intros j Hj. destruct (Hw j Hj) as (w & -> & _). by eexists.
    + intros i e Hi He Hp. destruct (Hpd i e Hi He Hp) as [Hi2 He2]. destruct (aw_table _ Hs i e Hi He2 Hp) as (A & B & C).
      split; [intros j Hj; by apply Hg, A|]. split; [|done]. intros E. apply Hnt. right. exists i, e. done.
    + intros i j ei ej Hi Hj Hei Hej Hpi Hpj. apply (aw_inj _ Hs); try done; by apply Hpd.
  - intros i Hi. simpl. rewrite Hdir by lia. by rewrite Hhigh.
  - by rewrite Tp.
  - intros i e Hi He Hp. destruct (Hpd i e ltac:(lia) He Hp). lia.
Qed.

(** What [create_page_dir] returns: the address of a directory in the frame [c]. *)
Record new_directory (pd c : Z) (s s' : mstate) : Prop := {
  nd_va : kernel_va pd ∧ pd mod 4096 = 0;
  nd_vaddr : vaddr_start (kernel_vaddr s) ≤ pd ∧ bit_set (vaddr_bitmap (kernel_vaddr s)) ((pd - vaddr_start (kernel_vaddr s)) / 4096) = false;
  nd_cr3 : mcr3 s' = mcr3 s;
  nd_spaces : spaces (mcr3 s) c s';
  nd_at : translate (phys s') (mcr3 s) pd = Some c;
  nd_empty : ∀ i, 0 ≤ i < 768 → pde_at (with_cr3 c s') i 0;
  nd_tables : ∀ g, table_frame (with_cr3 (mcr3 s) s') g ↔ table_frame s g;
  nd_grows : grows (phys s) (phys s');
  nd_parent : ∀ va, va_ok va → va / 4096 ≠ pd / 4096 → translate (phys s') (mcr3 s) va = translate (phys s) (mcr3 s) va;
  nd_user : user_pool s' = user_pool s ∧ cur_thread s' = cur_thread s;
  nd_pool : phy_addr_start (kernel_pool s') = phy_addr_start (kernel_pool s) ∧
    nbits (pool_bitmap (kernel_pool s')) = nbits (pool_bitmap (kernel_pool s));
  nd_fresh : ∃ r, 0 ≤ r < nbits (pool_bitmap (kernel_pool s)) ∧ c = frame_addr PF_KERNEL s r ∧ pool_bit PF_KERNEL s r = false ∧
    ∀ j, 0 ≤ j → pool_bit PF_KERNEL s' j = bool_decide (j = r) || pool_bit PF_KERNEL s j;
  nd_same : ∀ g, g mod 4096 = 0 → g ≠ c → ¬ table_frame s g → same_frame (phys s) (phys s') g;
}.

Lemma create_page_dir_ok s :
  as_wf s → vaddr_wf PF_KERNEL s → 0xc0000000 ≤ vaddr_start (kernel_vaddr s) →
  ∃ pd s', create_page_dir s = Ok (pd, s') ∧ (pd = 0 ∧ kernel_full s ∨ ∃ c, new_directory pd c s s').
Proof.
  intros Hs Hv Hk. destruct (kernel_page s Hs Hv Hk) as (pd & s1 & H1 & Hcase). unfold create_page_dir. mrun H1.
  destruct Hcase as [[-> Hfull]|(r & e & Hgot)]; [eexists 0, _; split; [done|by left]|].
  pose proof Hgot as [[K1 K1'] K0 K2 K3 K4 K5 K6 K7 [K8 K8'] [K9 K9'] K10 K11 K12 K13]. destruct (Z.eqb_spec pd 0) as [E|_]; [unfold kernel_va in K1; lia|].
  destruct (kernel_va_ok pd K1) as [Hok Hidx]. set (c := frame_addr PF_KERNEL s r) in *. pose proof (aw_kpool _ Hs) as [P1 P2 P3 P4 P5].
  assert (Hca : c mod 4096 = 0) by (subst c; unfold frame_addr; simpl; zdm).
  assert (Hcw : word_ok c) by (subst c; unfold word_ok, frame_addr, nbits in *; simpl; lia).
  assert (Hnt0 : ¬ table_frame s c) by (apply (fresh_not_table (lo := 0) s r); [done|lia|done|done]).
  assert (Het : table_frame s (frame e)) by (right; exists (PDE_IDX pd), e; split; [lia|done]).
  assert (Hdir : same_frame (phys s) (phys s1) (mcr3 s)).
  { apply K12; [apply (aw_cr3 _ Hs)|intros E; apply Hnt0; by left|]. intros E.
    by destruct (aw_table _ Hs (PDE_IDX pd) e ltac:(lia) K9 K9') as (_ & Hne & _). }
  assert (Htf : ∀ g, table_frame s1 g → table_frame s g).
  { intros g Hg. apply (proj1 (table_frame_agree (mcr3 s) s s1 g Hdir)). rewrite <- K3. exact Hg. }
  assert (Hnt1 : ¬ table_frame s1 c) by (intros Hg; by apply Hnt0, Htf).
  assert (Hpin : page_in s1 pd c).
  { split; [done|]. split; [done|]. rewrite K13, decide_True by done. f_equal. rewrite K1'. lia. }
  destruct (copy_kernel_half s1 pd c K2 Hpin K1 Hca Hnt1 K10) as (m2 & H2 & Ho2 & Hw2). mrun H2. set (s2 := with_phys m2 s1).
  assert (Hs2 : as_wf s2).
  { apply (outside_wf s1 c m2 K2 Ho2 Hca Hnt1). intros j Hj. rewrite Hw2 by done. case_decide; [by exists 0|].
    destruct (aw_dir _ K2 j Hj) as [w Hw]. exists w. split; [done|]. by apply (aw_words _ K2 _ _ Hw). }
  assert (Ht2 : translate m2 (mcr3 s1) pd = Some c) by (rewrite (outside_translate s1 c) by done; apply Hpin).
  rewrite (addr_v2p_translate s2 pd c Hs2 Hok Ht2). cbn [mbind outcome_bind]. unfold wr32. rewrite u32_small by (unfold kernel_va in K1; lia).
  replace (pd + 1023 * 4) with (pd + 4 * 1023) by lia. pose proof (translate_word m2 (mcr3 s1) pd c 1023 Hok K1' Ht2 ltac:(lia)) as Htw.
  change (phys s2) with m2. change (mcr3 s2) with (mcr3 s1). rewrite Htw. cbn [of_opt mbind outcome_bind].
  destruct (aw_dir _ K2 1023 ltac:(lia)) as [w Hw]. rewrite (Hw2 1023), decide_False, Hw by lia. cbn [of_opt mbind outcome_bind].
  set (m3 := <[c + 1023 * 4 := entry c]> m2). assert (Ho3 : outside c (phys s1) m3).
  { intros a Ha. unfold m3. rewrite lookup_insert_ne; [by apply Ho2|]. intros E. apply (Ha 1023); [lia|done]. }
  assert (Hlow : ∀ j, 0 ≤ j < 1023 → m3 !! (c + j * 4) = m2 !! (c + j * 4)) by (intros j Hj; apply lookup_insert_ne; lia).
  assert (Htk : taken s1 c).
  { right. rewrite K8, K8'. split; [subst c; unfold frame_addr; simpl; lia|]. replace ((c - _) / 4096) with r by (subst c; unfold frame_addr; simpl; zdm).
    specialize (K7 r ltac:(lia)). unfold pool_bit in K7. simpl in K7. by rewrite K7, bool_decide_true. }
  destruct (new_space s1 m3 c K2 Ho3 Hcw Hca Hnt1 Htk) as [Hsp Hg3].
  { intros j Hj. rewrite Hlow, Hw2, decide_True by lia. done. } { intros j Hj. rewrite Hlow, Hw2, decide_False by lia. done. }
  { apply lookup_insert_eq. }
  assert (Htr3 : ∀ va, va_ok va → translate m3 (mcr3 s) va = translate (phys s1) (mcr3 s1) va).
  { intros va Hva. rewrite <- K3. by apply (outside_translate s1 c). }
  eexists pd, _. split; [done|]. right. exists c. rewrite K3 in Hsp. split; try done.
  - simpl. rewrite Htr3 by done. apply Hpin.
  - intros i Hi. unfold pde_at. simpl. rewrite Hlow, Hw2, decide_True by lia. done.
  - intros g. rewrite <- (table_frame_agree (mcr3 s) s s1 g Hdir). apply table_frame_agree.
    apply (outside_same c); [done|done|apply (aw_cr3 _ Hs)|]. intros E. apply Hnt0. by left.
  - intros a Ha. by apply Hg3, K11.
  - intros va Hva Hne. simpl. rewrite Htr3, K13, decide_False by (done || congruence). done.
  - exists r. done.
  - intros g Hg Hgc Hgt. eapply same_frame_trans; [apply K12; [done|done|congruence]|]. by apply (outside_same c).
Qed.

Lemma new_directory_empty pd c s s' va : as_wf s → new_directory pd c s s' → user_va va → translate (phys s') c va = None.
Proof.
  intros Hs Hn Hva. destruct (user_va_ok va Hva) as [_ Hi]. pose proof (nd_spaces _ _ _ _ Hn) as Hsp.
  destruct (aw_cr3 _ (sp_child _ _ _ Hsp)) as [Hcw Hca]. simpl in *. unfold translate. rewrite frame_aligned by done.
  pose proof (nd_empty _ _ _ _ Hn _ Hi) as E. unfold pde_at in E. simpl in E. by rewrite E.
Qed.

(** C21: [create_page_dir] builds the address space of a new process.  From a well-formed space it
    returns NULL only when no kernel address or no kernel frame is left; otherwise it returns the
    kernel address [pd] of a directory in a frame [c] that was free.  Loaded into cr3 this
    directory is a well-formed address space as well: no user address is mapped in it, every
    kernel address means the same as in the running space, and its tables are not those of the
    running space's user half.  The running space stays well formed and keeps the translations of
    all pages but [pd]'s. *)
Theorem create_page_dir_space s :
  as_wf s → vaddr_wf PF_KERNEL s → 0xc0000000 ≤ vaddr_start (kernel_vaddr s) →
  ∃ pd s', create_page_dir s = Ok (pd, s') ∧
    (pd = 0 ∧ kernel_full s ∨
     ∃ c, kernel_va pd ∧ pd mod 4096 = 0 ∧ ¬ taken s c ∧ taken s' c ∧ mcr3 s' = mcr3 s ∧
       translate (phys s') (mcr3 s) pd = Some c ∧ as_wf (with_cr3 (mcr3 s) s') ∧ as_wf (with_cr3 c s') ∧
       (∀ va, user_va va → translate (phys s') c va = None) ∧
       (∀ va, kernel_va va → translate (phys s') c va = translate (phys s') (mcr3 s) va) ∧
       (∀ va, va_ok va → va / 4096 ≠ pd / 4096 → translate (phys s') (mcr3 s) va = translate (phys s) (mcr3 s) va)).
Proof.
  intros Hs Hv Hk. destruct (create_page_dir_ok s Hs Hv Hk) as (pd & s' & H & Hcase). exists pd, s'. split; [done|].
  destruct Hcase as [?|(c & Hn)]; [by left|]. right. exists c. pose proof Hn as [[N1 N1'] N2 N3 N4 N5 N6 N7 N8 N9 N10 N11 (r & R1 & R2 & R3 & R4) N13].
  assert (Hnt : ¬ taken s c).
  { subst c. unfold frame_addr. simpl. intros [Hlt|[_ Hset]]; [lia|]. unfold pool_bit in R3. simpl in R3. replace (_ / 4096) with r in Hset by zdm. congruence. }
  split; [done|]. split; [done|]. split; [done|]. split; [apply (aw_taken _ (sp_child _ _ _ N4))|]. split; [done|]. split; [done|].
  split; [apply N4|]. split; [apply N4|]. split; [intros va Hva; by apply (new_directory_empty pd c s s')|].
  split; [intros va Hva; symmetry; by apply kernel_translate|done].
Qed.

(** ** The user memory of the child *)

(** A kernel page that is in use. *)
Definition kernel_used (s : mstate) (v f : Z) : Prop :=
  kernel_va v ∧ v mod 4096 = 0 ∧ vaddr_start (kernel_vaddr s) ≤ v ∧
  bit_set (vaddr_bitmap (kernel_vaddr s)) ((v - vaddr_start (kernel_vaddr s)) / 4096) = true ∧ translate (phys s) (mcr3 s) v = Some f.

(** What fork relies on: the directory of the running process at [pp], the buffer page [buf] in
    a kernel frame of its own, and every page that the bitmap marks in a user frame in use. *)
Record can_fork (va : virtual_addr) (pp buf bf : Z) (s : mstate) : Prop := {
  cf_wf : as_wf s;
  cf_kernel : vaddr_wf PF_KERNEL s ∧ 0xc0000000 ≤ vaddr_start (kernel_vaddr s);
  cf_pp : kernel_used s pp (mcr3 s);
  cf_buf : kernel_used s buf bf;
  cf_bf : bf mod 4096 = 0 ∧ taken s bf ∧ frame_mem (phys s) bf ∧ ¬ table_frame s bf;
  cf_lock : plock (user_pool s) = lock_init ∧ cur_thread s ≠ 0;
  cf_umem : ∀ r, 0 ≤ r < nbits (pool_bitmap (user_pool s)) → frame_mem (phys s) (user_frame s r);
  cf_bitmap : bitmap_wf (vaddr_bitmap va);
  cf_range : 0 ≤ vaddr_start va ∧ vaddr_start va + nbits (vaddr_bitmap va) * 4096 ≤ 0xc0000000;
  cf_pages : ∀ x, x ∈ user_pages va → ∃ r, parent_page (mcr3 s) s x r;
}.

Lemma kernel_used_apart pd c s s' v f : new_directory pd c s s' → kernel_used s v f → v / 4096 ≠ pd / 4096.
Proof.
  intros Hn (K1 & K2 & K3 & K4 & _) E. destruct (nd_vaddr _ _ _ _ Hn) as [V1 V2]. destruct (nd_va _ _ _ _ Hn) as [V3 V4].
  replace v with pd in K4 by (unfold kernel_va in *; zdm). congruence.
Qed.

Lemma new_directory_tables pd c s s' g :
  new_directory pd c s s' → table_frame (with_cr3 c s') g → g = c ∨ table_frame s g.
Proof.
  intros Hn [->|(i & e & Hi & He & Hp & ->)]; [by left|]. destruct (decide (i < 768)) as [Hlt|Hge].
  - pose proof (nd_empty _ _ _ _ Hn i ltac:(lia)) as E. unfold pde_at in *. rewrite E in He. by injection He as <-.
  - right. apply (nd_tables _ _ _ _ Hn). right. exists i, e. split; [done|]. split; [|done]. unfold pde_at in *. simpl in *.
    by rewrite (sp_kernel _ _ _ (nd_spaces _ _ _ _ Hn)) by lia.
Qed.

Lemma fork_starts va pp buf bf s pd c s' :
  can_fork va pp buf bf s → new_directory pd c s s' → forking (mcr3 s) c pp pd buf bf s'.
Proof.
  intros [F1 [F2 F2'] F3 F4 (F5 & F5' & F5'' & F5''') F6 F7 F8 [F9 F9'] F10] Hn.
  pose proof Hn as [[N1 N1'] N2 N3 N4 N5 N6 N7 N8 N9 [N10 N10'] [N11 N11'] (r & R1 & R2 & R3 & R4) N13].
  assert (Htk : ∀ f, taken s f → taken s' f).
  { apply taken_mono; [done|done|]. intros j Hj E. by rewrite R4, E, orb_true_r. }
  assert (Hbfc : bf ≠ c).
  { intros ->. destruct F5' as [Hlt|[_ Hset]]; rewrite R2 in *; unfold frame_addr in *; simpl in *; [lia|].
    unfold pool_bit in R3. simpl in R3. replace (_ / 4096) with r in Hset by zdm. congruence. }
  assert (Hkt : ∀ v f, kernel_used s v f → kernel_va v ∧ translate (phys s') (mcr3 s) v = Some f).
  { intros v f Hu. pose proof (kernel_used_apart _ _ _ _ _ _ Hn Hu) as Hne. destruct Hu as (U1 & U2 & U3 & U4 & U5). split; [done|].
    rewrite N9; [done|by apply kernel_va_ok|done]. }
  split; try done.
  - by apply Hkt.
  - destruct (Hkt _ _ F4). split; [done|]. split; [apply F4|done].
  - split; [done|]. split; [by apply Htk|]. intros j Hj. by apply N8, F5''.
  - by rewrite N7.
  - intros Ht. by destruct (new_directory_tables _ _ _ _ _ Hn Ht).
  - rewrite N10, N10'. done.
  - unfold user_frame. rewrite N10. intros i Hi j Hj. by apply N8, (F7 i Hi).
Qed.

(** A word on a page that the bitmap marks. *)
Definition on_page (va : virtual_addr) (x : Z) : Prop :=
  x mod 4 = 0 ∧ ∃ pg, pg ∈ user_pages va ∧ x / 4096 = pg / 4096.

Lemma on_page_word x pg : x mod 4 = 0 → x / 4096 = pg / 4096 → pg mod 4096 = 0 → ∃ k, 0 ≤ k < 1024 ∧ x = pg + 4 * k.
Proof. intros H1 H2 H3. exists (x mod 4096 / 4). zdm. Qed.

(** Reading a word of a page. *)
Lemma rd32_page s x pg f k :
  va_ok pg → pg mod 4096 = 0 → translate (phys s) (mcr3 s) pg = Some f → 0 ≤ k < 1024 → x = pg + 4 * k →
  translate (phys s) (mcr3 s) x = Some (f + k * 4) ∧ rd32 x s = of_opt (phys s !! (f + k * 4)).
Proof.
  intros Hok Hal Ht Hk ->. pose proof (translate_word _ _ pg f k Hok Hal Ht Hk) as E. split; [done|]. unfold rd32. by rewrite E.
Qed.

Lemma user_pages_nodup va : NoDup (user_pages va).
Proof.
  apply NoDup_fmap_2_strong; [intros x y _ _ E; lia|]. apply NoDup_filter, NoDup_seqZ.
Qed.

(** What the child has when fork has copied the pages of its parent. *)
Record forked (va : virtual_addr) (pd c : Z) (s s2 : mstate) : Prop := {
  fd_cr3 : mcr3 s2 = mcr3 s;
  fd_dir : translate (phys s2) (mcr3 s) pd = Some c;
  fd_wf : as_wf s2 ∧ as_wf (with_cr3 c s2);
  fd_child : ∀ x, on_page va x → rd32 x (with_cr3 c s2) = rd32 x s;
  fd_parent : ∀ x, on_page va x → rd32 x s2 = rd32 x s;
  fd_nothing : ∀ x, user_va x → (∀ pg, pg ∈ user_pages va → pg / 4096 ≠ x / 4096) → rd32 x (with_cr3 c s2) = Fault;
  fd_apart : ∀ x y v s3, on_page va x → on_page va y → wr32 x v (with_cr3 c s2) = Ok s3 → rd32 y (with_cr3 (mcr3 s) s3) = rd32 y s;
  fd_own : ∀ x y v s3, on_page va x → on_page va y → x ≠ y → wr32 x v (with_cr3 c s2) = Ok s3 → rd32 y s3 = rd32 y s;
}.

(** A store into a user frame leaves a space's translations alone. *)
Lemma store_translate q m f k v va :
  as_wf (with_cr3 q m) → phy_addr_start (user_pool m) ≤ f → f mod 4096 = 0 → 0 ≤ k < 1024 → va_ok va →
  translate (<[f + k * 4 := v]> (phys m)) q va = translate (phys m) q va.
Proof.
  intros Hs Hf Ha Hk Hva. apply translate_tables; [done|done|]. intros g Hg.
  apply same_frame_insert; [|done| |done].
  - destruct Hg as [->|(i & e & _ & He & _ & ->)]; [apply (aw_cr3 _ Hs)|apply frame_bounds, (aw_words _ Hs _ _ He)].
  - intros ->. by apply (user_not_table _ _ Hs Hf).
Qed.

Lemma wr32_at x v s a s3 : translate (phys s) (mcr3 s) x = Some a → wr32 x v s = Ok s3 → s3 = with_phys (<[a := v]> (phys s)) s.
Proof. intros Ht H. unfold wr32 in H. rewrite Ht in H. cbn [of_opt mbind outcome_bind] in H. destruct (phys s !! a); [|done]. by injection H as <-. Qed.

(** The word [x] of a page: at word [k] of the frame [r] of the parent and [r'] of the child. *)
Record word_copied (va : virtual_addr) (p c : Z) (s s2 : mstate) (x pg k r r' : Z) : Prop := {
  wc_page : pg ∈ user_pages va;
  wc_word : 0 ≤ k < 1024 ∧ x = pg + 4 * k ∧ va_ok x;
  wc_old : 0 ≤ r ∧ pool_bit PF_USER s r = true;
  wc_new : 0 ≤ r' ∧ pool_bit PF_USER s r' = false;
  wc_read : rd32 x s = of_opt (phys s !! (user_frame s r + k * 4));
  wc_parent : translate (phys s2) p x = Some (user_frame s r + k * 4) ∧ phys s2 !! (user_frame s r + k * 4) = phys s !! (user_frame s r + k * 4);
  wc_child : translate (phys s2) c x = Some (user_frame s r' + k * 4) ∧ phys s2 !! (user_frame s r' + k * 4) = phys s !! (user_frame s r + k * 4);
  wc_frame : translate (phys s2) c pg = Some (user_frame s r');
}.

Section Reads.
Context (va : virtual_addr) (pp buf bf pd c : Z) (s s1 s2 : mstate).
Context (Hcf : can_fork va pp buf bf s) (Hn : new_directory pd c s s1)
        (Hfk : forking (mcr3 s) c pp pd buf bf s2) (Hall : all_copied (mcr3 s) c (user_pages va) s1 s2).

Lemma dir_user_frame j : user_frame s1 j = user_frame s j.
Proof using Hn. unfold user_frame. by rewrite (proj1 (nd_user _ _ _ _ Hn)). Qed.

Lemma dir_user_bit j : pool_bit PF_USER s1 j = pool_bit PF_USER s j.
Proof using Hn. unfold pool_bit. simpl. by rewrite (proj1 (nd_user _ _ _ _ Hn)). Qed.

Lemma dir_same_frame r : 0 ≤ r → same_frame (phys s) (phys s1) (user_frame s r).
Proof using Hcf Hn.
  intros Hr. pose proof (cf_wf _ _ _ _ _ Hcf) as F1. destruct (user_frame_props s r F1 Hr) as [Ha Hge].
  apply (nd_same _ _ _ _ Hn); [done| |by apply (user_not_table (lo := 0))]. intros E. destruct (nd_fresh _ _ _ _ Hn) as (rc & R1 & R2 & _).
  pose proof (aw_order _ F1). rewrite E, R2 in Hge. unfold frame_addr in Hge. simpl in Hge. lia.
Qed.

Lemma dir_parent_va x : user_va x → translate (phys s1) (mcr3 s) x = translate (phys s) (mcr3 s) x.
Proof using Hn.
  intros Hx. apply (nd_parent _ _ _ _ Hn); [by apply user_va_ok|]. destruct (nd_va _ _ _ _ Hn). unfold user_va, kernel_va in *. zdm.
Qed.

Lemma dir_parent_page pg r : parent_page (mcr3 s) s pg r → parent_page (mcr3 s) s1 pg r.
Proof using Hn.
  intros (X1 & X2 & X3 & X4 & X5). unfold parent_page. rewrite (proj1 (nd_user _ _ _ _ Hn)), dir_user_bit, dir_user_frame.
  rewrite dir_parent_va by done. done.
Qed.

Lemma page_word x : on_page va x → ∃ pg k r r', word_copied va (mcr3 s) c s s2 x pg k r r'.
Proof using Hcf Hn Hall.
  intros (Hx4 & pg & Hpg & Hpx). destruct (cf_pages _ _ _ _ _ Hcf pg Hpg) as (r & Hr). pose proof Hr as (X1 & X2 & X3 & X4 & X5).
  destruct (on_page_word x pg Hx4 Hpx X2) as (k & Hk & Ek). destruct (user_va_ok pg X1) as [Hok _].
  destruct (ac_child _ _ _ _ _ Hall pg r Hpg (dir_parent_page pg r Hr)) as (r' & B1 & B2 & B3 & B4 & B5). rewrite dir_user_bit in B2. rewrite dir_user_frame in B4.
  assert (Hx : user_va x) by (unfold user_va in *; zdm). destruct (user_va_ok x Hx) as [Hxok _].
  exists pg, k, r, r'. destruct (rd32_page s x pg _ k Hok X2 X5 Hk Ek) as [T1 T2]. split; [done|done|split; [lia|done]|split; [lia|done]|done| | |done].
  - split; [by rewrite (ac_parent _ _ _ _ _ Hall), dir_parent_va|]. rewrite <- dir_user_frame, (ac_same _ _ _ _ _ Hall), dir_user_frame; [|lia|by rewrite dir_user_bit|done].
    apply dir_same_frame; [lia|done].
  - split; [rewrite Ek; by apply translate_word|]. specialize (B5 k Hk). rewrite !dir_user_frame in B5. rewrite B5. apply dir_same_frame; [lia|done].
Qed.

(** From the copies to the reads of parent and child. *)
Lemma forked_reads : forked va pd c s s2.
Proof using Hcf Hn Hfk Hall.
  pose proof (fk_spaces _ _ _ _ _ _ _ Hfk) as Hsp. pose proof (ac_cr3 _ _ _ _ _ Hall) as A1. pose proof (cf_wf _ _ _ _ _ Hcf) as F1.
  assert (Hst : ∀ q x pg k r r' v y, as_wf (with_cr3 q s2) → word_copied va (mcr3 s) c s s2 x pg k r r' → va_ok y →
    translate (<[user_frame s r' + k * 4 := v]> (phys s2)) q y = translate (phys s2) q y).
  { intros q x pg k r r' v y Hq [_ (Hk & _) _ [Hr _] _ _ _ _] Hy. destruct (user_frame_props s r' F1 Hr). apply store_translate; try done.
    by rewrite (ac_user _ _ _ _ _ Hall), (proj1 (nd_user _ _ _ _ Hn)). }
  split.
  - done.
  - apply (fk_pc _ _ _ _ _ _ _ Hfk).
  - split; [|apply Hsp]. pose proof (sp_parent _ _ _ Hsp) as Hw. rewrite <- A1 in Hw. by destruct s2.
  - intros x Hx. destruct (page_word x Hx) as (pg & k & r & r' & [_ _ _ _ R _ [T W] _]). rewrite R. unfold rd32. simpl. rewrite T. simpl. by rewrite W.
  - intros x Hx. destruct (page_word x Hx) as (pg & k & r & r' & [_ _ _ _ R [T W] _ _]). rewrite R. unfold rd32. rewrite A1, T. simpl. by rewrite W.
  - intros x Hx Hno. unfold rd32. simpl. rewrite (ac_other _ _ _ _ _ Hall) by (done || by apply user_va_ok). by rewrite (new_directory_empty pd c s s1 x F1 Hn Hx).
  - intros x y v s3 Hx Hy Hw. destruct (page_word x Hx) as (pg & k & r & r' & Hwx). destruct (page_word y Hy) as (pg2 & k2 & r2 & r2' & [_ (Hk2 & _ & Hoky) [Y0 Y1] _ R [T2 W] _ _]).
    rewrite (wr32_at x v (with_cr3 c s2) _ s3 (proj1 (wc_child _ _ _ _ _ _ _ _ _ _ Hwx)) Hw), R. unfold rd32. simpl.
    rewrite (Hst _ _ _ _ _ _ v y (sp_parent _ _ _ Hsp) Hwx Hoky), T2. simpl. destruct Hwx as [_ (Hk & _) _ [X1 X2] _ _ _ _].
    rewrite lookup_insert_ne, W; [done|]. intros E.
    destruct (frames_apart (user_frame s r') (user_frame s r2) k k2) as [E2 _]; [by apply user_frame_props..|done|done|done|]. apply user_frame_inj in E2. congruence.
  - intros x y v s3 Hx Hy Hne Hw. destruct (page_word x Hx) as (pg & k & r & r' & Hwx). destruct (page_word y Hy) as (pg2 & k2 & r2 & r2' & [Y0 (Hk2 & Ey & Hoky) _ [Y1 _] R _ [T2 W] Y2]).
    rewrite (wr32_at x v (with_cr3 c s2) _ s3 (proj1 (wc_child _ _ _ _ _ _ _ _ _ _ Hwx)) Hw), R. unfold rd32. simpl.
    rewrite (Hst _ _ _ _ _ _ v y (sp_child _ _ _ Hsp) Hwx Hoky), T2. simpl. destruct Hwx as [X0 (Hk & Ex & _) _ [X1 _] _ _ _ X2].
    rewrite lookup_insert_ne, W; [done|]. intros E.
    destruct (frames_apart (user_frame s r') (user_frame s r2') k k2) as [E2 E3]; [by apply user_frame_props..|done|done|done|].
    assert (pg = pg2) as -> by (apply (ac_inj _ _ _ _ _ Hall); [done|done|congruence]). congruence.
Qed.
End Reads.

(** C7: fork gives the child a copy of its parent's memory.  Take a parent process whose marked
    pages lie in user frames in use, with enough free frames: a user frame for each page, and
    kernel frames for the directory and for the page tables (at most one per page).  Then
    [create_page_dir] and [copy_body_stack3] succeed and leave the parent's space active.  Every
    word of the marked pages reads the same in the child's space as it did in the parent's and
    still does there; no other user address is mapped in the child; a store of the child changes
    no word of the parent and no other word of its own. *)
Theorem fork_copies_memory va pp buf bf s :
  can_fork va pp buf bf s →
  (∃ i, 0 ≤ i < nbits (vaddr_bitmap (kernel_vaddr s)) ∧ bit_set (vaddr_bitmap (kernel_vaddr s)) i = false) →
  (length (user_pages va) ≤ free_frames PF_USER s)%nat → (length (user_pages va) < free_frames PF_KERNEL s)%nat →
  ∃ pd c s1 s2, create_page_dir s = Ok (pd, s1) ∧ pd ≠ 0 ∧ copy_body_stack3 va pd pp buf s1 = Ok s2 ∧ forked va pd c s s2.
Proof.
  intros Hcf (i & Hi & Hclr) Hu Hk. destruct (cf_kernel _ _ _ _ _ Hcf) as [Hkv Hkh].
  destruct (create_page_dir_ok s (cf_wf _ _ _ _ _ Hcf) Hkv Hkh) as (pd & s1 & H1 & Hcase).
  destruct Hcase as [[_ [Hf|Hf]]|(c & Hn)].
  { rewrite Hf in Hclr by done. done. }
  { destruct (free_frames_pos PF_KERNEL s) as (r & Hr & Hb); [lia|]. simpl in Hr. rewrite Hf in Hb; done. }
  pose proof (fork_starts _ _ _ _ _ _ _ _ Hcf Hn) as Hfk. destruct (cf_range _ _ _ _ _ Hcf) as [R1 R2].
  assert (Eu : free_frames PF_USER s1 = free_frames PF_USER s).
  { unfold free_frames, pool_bit. simpl. by rewrite (proj1 (nd_user _ _ _ _ Hn)). }
  assert (Ek : (free_frames PF_KERNEL s ≤ S (free_frames PF_KERNEL s1))%nat).
  { destruct (nd_fresh _ _ _ _ Hn) as (r & _ & _ & _ & Hb). apply (free_frames_step _ _ _ (Some r)); [apply (nd_pool _ _ _ _ Hn)|].
    intros j Hj. rewrite Hb by done. f_equal. apply bool_decide_ext. split; congruence. }
  destruct (copy_pages_ok (mcr3 s) c pp pd buf bf (user_pages va) s1 Hfk (nd_cr3 _ _ _ _ Hn) (user_pages_nodup va)) as (s2 & H2 & Hf2 & Hall); [|lia|lia|].
  { intros x Hx. destruct (cf_pages _ _ _ _ _ Hcf x Hx) as (r & Hr). exists r. by apply (dir_parent_page pd c s s1). }
  exists pd, c, s1, s2. split; [done|]. split; [destruct (nd_va _ _ _ _ Hn) as [Hva _]; unfold kernel_va in Hva; lia|].
  split; [rewrite copy_body_pages; [done|apply Hcf|done|done]|]. by apply (forked_reads va pp buf bf pd c s s1 s2).
Qed.

(** *** Witnesses: a parent with one user page, its user table and the buffer in the kernel pool *)

Definition fork_word (f j : Z) : Z :=
  if f =? 0x100000 then (if j =? 1023 then entry 0x100000 else if j =? 768 then entry 0x101000 else if j =? 32 then entry 0x200000 else 0)
  else if f =? 0x101000 then (if j =? 256 then entry 0x100000 else if j =? 257 then entry 0x201000 else 0)
  else if f =? 0x200000 then (if j =? 72 then entry 0x208000 else 0)
  else if f =? 0x208000 then (if j =? 1023 then 0 else 7 * j + 1)
  else 0.

Definition fork_frames : list Z := [0x100000; 0x101000] ++ ((λ r, 0x200000 + r * 4096) <$> seqZ 0 16).

Definition fork_phys : gmap Z Z := list_to_map (fork_frames ≫= λ f, demo_words f (fork_word f)).

Definition fork_check : bool :=
  forallb (λ f, forallb (λ j, bool_decide (fork_phys !! (f + j * 4) = Some (fork_word f j))) (seqZ 0 1024)) fork_frames &&
  bool_decide (map_Forall (λ _ w, 0 ≤ w < 4294967296) fork_phys).

#[local] Opaque fork_phys.

Lemma fork_check_ok : fork_check = true.
Proof. vm_compute. reflexivity. Qed.

Definition fork_va : virtual_addr := VirtualAddr (Bitmap 1 [1; 255]) 0x8048000.

Definition fork_mem : mstate :=
  MState fork_phys 0x100000 (demo_pool 0x200000 3) (demo_pool 0x208000 1)
    (VirtualAddr (Bitmap 1 [3; 255]) K_HEAP_START) 0x1000 0xc0100000 fork_va.

Lemma fork_lookup f j : f ∈ fork_frames → 0 ≤ j < 1024 → fork_phys !! (f + j * 4) = Some (fork_word f j).
Proof.
  intros Hf Hj. pose proof fork_check_ok as H. unfold fork_check in H. apply andb_true_iff in H as [H _]. rewrite forallb_forall in H.
  specialize (H f (proj1 (list_elem_of_In _ _) Hf)). rewrite forallb_forall in H.
  assert (Hin : In j (seqZ 0 1024)) by (apply list_elem_of_In, elem_of_seqZ; lia). specialize (H j Hin). by apply bool_decide_eq_true in H.
Qed.

Lemma fork_frame r : 0 ≤ r < 16 → 0x200000 + r * 4096 ∈ fork_frames.
Proof. intros Hr. apply elem_of_app. right. apply list_elem_of_fmap. exists r. split; [done|]. apply elem_of_seqZ. lia. Qed.

Lemma fork_pde i e : 0 ≤ i < 1023 → pde_at fork_mem i e → present e = true → i = 768 ∧ e = entry 0x101000 ∨ i = 32 ∧ e = entry 0x200000.
Proof.
  intros Hi He Hp. unfold pde_at in He. cbn [phys mcr3 fork_mem] in He. rewrite fork_lookup in He by (lia || left). injection He as <-.
  unfold fork_word in *. change (0x100000 =? 0x100000) with true in *. cbn iota in *. destruct (Z.eqb_spec i 1023); [lia|].
  destruct (Z.eqb_spec i 768); [by left|]. destruct (Z.eqb_spec i 32); [by right|]. done.
Qed.

Lemma fork_pool_wf st y : 0 ≤ y < 256 → st mod 4096 = 0 → 0 < st → st + 8 * 4096 ≤ 4294967296 → pool_wf (demo_pool st y).
Proof.
  intros Hy H1 H2 H3. split; simpl; unfold nbits; simpl; try lia; try done.
  split; simpl; [|unfold zlen; simpl; lia..]. repeat constructor; lia.
Qed.

Lemma fork_table_mem f : f ∈ fork_frames → frame_mem fork_phys f.
Proof. intros Hf j Hj. rewrite fork_lookup by done. exact (mk_is_Some _ _ eq_refl). Qed.

Lemma fork_mem_wf : as_wf fork_mem.
Proof.
  assert (F1 : 0x100000 ∈ fork_frames) by left. assert (F2 : 0x101000 ∈ fork_frames) by (right; left).
  split; cbn [phys mcr3 kernel_pool user_pool fork_mem].
  - split; [split|]; done.
  - intros a w Ha. pose proof fork_check_ok as H. unfold fork_check in H. apply andb_true_iff in H as [_ H]. apply bool_decide_eq_true in H. exact (H a w Ha).
  - by apply fork_table_mem.
  - unfold pde_at. cbn [phys mcr3 fork_mem]. by rewrite fork_lookup by (done || lia).
  - by left.
  - intros i e Hi He Hp. destruct (fork_pde i e Hi He Hp) as [[-> ->]|[-> ->]].
    + split; [by apply fork_table_mem|]. split; [done|]. by left.
    + split; [apply (fork_table_mem 0x200000), (fork_frame 0); lia|]. split; [done|]. right. split; reflexivity.
  - intros i j ei ej Hi Hj Hei Hej Hpi Hpj E.
    destruct (fork_pde i ei Hi Hei Hpi) as [[-> ->]|[-> ->]], (fork_pde j ej Hj Hej Hpj) as [[-> ->]|[-> ->]]; done.
  - by apply fork_pool_wf.
  - by apply fork_pool_wf.
  - done.
  - intros r Hr. change (nbits _) with 8 in Hr. apply fork_table_mem, fork_frame. lia.
Qed.

Lemma fork_kernel_wf : vaddr_wf PF_KERNEL fork_mem.
Proof.
  split; cbn [get_vaddr kernel_vaddr fork_mem vaddr_bitmap vaddr_start]; try done.
  - by apply bitmap_wf_dec.
  - intros k Hk. change (Z.of_nat _) with 9 in Hk. exists (entry 0x101000). split; [|done].
    unfold K_HEAP_START. rewrite PDE_IDX_eq by lia. replace ((0xc0100000 + k * 4096) / 4194304) with 768 by zdm.
    unfold pde_at. cbn [phys mcr3 fork_mem]. by rewrite fork_lookup by (lia || left).
Qed.

Lemma fork_translate va i j f e t :
  PDE_IDX va = i → PTE_IDX va = j → 0 ≤ i < 1024 → 0 ≤ j < 1024 → fork_word 0x100000 i = entry f → f ∈ fork_frames → word_ok f ∧ f mod 4096 = 0 →
  fork_word f j = entry t → word_ok t ∧ t mod 4096 = 0 → va mod 4096 = 0 → e = t → translate fork_phys 0x100000 va = Some e.
Proof.
  intros Ei Ej Hi Hj E1 Hf [Hfw Hfa] E2 [Htw Hta] Hva ->. rewrite (translate_eq fork_phys 0x100000 va (entry f) (entry t)).
  - rewrite entry_present, entry_frame, Hva by done. f_equal. lia.
  - split; done.
  - done.
  - rewrite Ei, fork_lookup; [by rewrite E1|left|done].
  - by apply entry_present.
  - rewrite Ej, entry_frame by done. rewrite fork_lookup; [by rewrite E2|done|done].
Qed.

Lemma fork_can : can_fork fork_va 0xc0100000 0xc0101000 0x201000 fork_mem.
Proof.
  assert (F2 : 0x101000 ∈ fork_frames) by (right; left).
  split.
  - exact fork_mem_wf.
  - split; [exact fork_kernel_wf|]. cbn [kernel_vaddr fork_mem vaddr_start]. unfold K_HEAP_START. lia.
  - split; [split; done|]. split; [done|]. split; [done|]. split; [reflexivity|]. by apply (fork_translate _ 768 256 0x101000 _ 0x100000).
  - split; [split; done|]. split; [done|]. split; [done|]. split; [reflexivity|]. by apply (fork_translate _ 768 257 0x101000 _ 0x201000).
  - split; [done|]. split; [right; split; reflexivity|]. split; [apply (fork_table_mem 0x201000), (fork_frame 1); lia|].
    intros [E|(i & e & Hi & He & Hp & E)]; [done|]. destruct (fork_pde i e Hi He Hp) as [[-> ->]|[-> ->]]; done.
  - split; [reflexivity|done].
  - intros r Hr. change (nbits _) with 8 in Hr. unfold user_frame. cbn [phys user_pool fork_mem demo_pool phy_addr_start].
    replace (0x208000 + r * 4096) with (0x200000 + (8 + r) * 4096) by lia. apply fork_table_mem, fork_frame. lia.
  - by apply bitmap_wf_dec.
  - cbn [vaddr_start vaddr_bitmap fork_va]. change (nbits _) with 8. lia.
  - intros x Hx. change (user_pages fork_va) with [0x8048000] in Hx. apply list_elem_of_singleton in Hx as ->. exists 0.
    split; [split; done|]. split; [done|]. split; [split; done|]. split; [reflexivity|].
    apply (fork_translate _ 32 72 0x200000 _ 0x208000); try done. apply (fork_frame 0). lia.
Qed.

Lemma fork_read k : 0 ≤ k < 1024 → rd32 (0x8048000 + 4 * k) fork_mem = Ok (fork_word 0x208000 k).
Proof.
  intros Hk. unfold rd32. cbn [phys mcr3 fork_mem]. rewrite (translate_word fork_phys 0x100000 0x8048000 0x208000 k); [|split; done|done| |done].
  - cbn [of_opt mbind outcome_bind]. rewrite fork_lookup; [done|apply (fork_frame 8); lia|done].
  - apply (fork_translate _ 32 72 0x200000 _ 0x208000); try done. apply (fork_frame 0). lia.
Qed.

Lemma fork_not_full : ¬ kernel_full fork_mem.
Proof. intros [F|F]; (assert (E : 0 ≤ 2 < 8) by lia; specialize (F 2 E); discriminate F). Qed.

Lemma create_page_dir_space_witness :
  ∃ pd s' c, create_page_dir fork_mem = Ok (pd, s') ∧ translate (phys s') 0x100000 pd = Some c ∧ as_wf (with_cr3 c s').
Proof.
  destruct (create_page_dir_space fork_mem fork_mem_wf fork_kernel_wf) as (pd & s' & H & Hcase).
  - cbn [kernel_vaddr fork_mem vaddr_start]. unfold K_HEAP_START. lia.
  - destruct Hcase as [[_ Hf]|(c & _ & _ & _ & _ & _ & Ht & _ & Hw & _)]; [by destruct (fork_not_full Hf)|].
    exists pd, s', c. split; [exact H|]. split; [exact Ht|exact Hw].
Defined.

Lemma fork_copies_memory_witness :
  ∃ pd c s1 s2, create_page_dir fork_mem = Ok (pd, s1) ∧ copy_body_stack3 fork_va pd 0xc0100000 0xc0101000 s1 = Ok s2 ∧
    rd32 (0x8048000 + 4 * 100) (with_cr3 c s2) = Ok 701.
Proof.
  destruct (fork_copies_memory fork_va 0xc0100000 0xc0101000 0x201000 fork_mem fork_can) as (pd & c & s1 & s2 & H1 & _ & H2 & H3).
  - exists 2. split; [change (nbits _) with 8; lia|reflexivity].
  - apply Nat.leb_le. vm_compute. reflexivity.
  - apply Nat.ltb_lt. vm_compute. reflexivity.
  - exists pd, c, s1, s2. split; [exact H1|]. split; [exact H2|]. rewrite (fd_child _ _ _ _ _ H3).
    + rewrite (fork_read 100) by lia. reflexivity.
    + split; [reflexivity|]. exists 0x8048000. split; [left|reflexivity].
Defined.
