(* ===== verification/Exec.v ===== *)
(** * Running a program (userprog/exec.c)

    Program files are read with the file system calls of [Fs] into buffers on the stack or, for
    the segments, into the user memory of the running process: bytes of the words of [Paging].
    The messages the functions print are left out, and so is what the file system's own
    allocations do to the process: [sys_open], [sys_read] and [sys_close] take their buffers from
    the heap of the running process, map pages of it and change [u_block_desc] in its PCB (the heap
    itself is modelled in HeapPages.v).  [read_into] is the case in which the destination does not
    lie in the page that [file_read] saves and restores. *)

From S2P Require Import Prelude Interrupt KList CString Disk FsState Dir File Pipe Fs Bitmap Sched Sync Paging Arena Task WaitExit.

(** ** Bytes of the address space *)

Definition rd8 (va : Z) (m : mstate) : outcome Z :=
  pa ← of_opt (translate (phys m) (mcr3 m) va);
  w ← of_opt (phys m !! (pa - pa mod 4));
  Ok (w / 2 ^ (8 * (pa mod 4)) mod 256).

(** The word [w] with its byte [i] replaced by [b]. *)
Definition put_byte (w i b : Z) : Z := w + (b - w / 2 ^ (8 * i) mod 256) * 2 ^ (8 * i).

Definition wr8 (va b : Z) (m : mstate) : outcome mstate :=
  pa ← of_opt (translate (phys m) (mcr3 m) va);
  w ← of_opt (phys m !! (pa - pa mod 4));
  Ok (with_phys (<[pa - pa mod 4 := put_byte w (pa mod 4) b]> (phys m)) m).

Fixpoint rd_bytes (n : nat) (va : Z) (m : mstate) : outcome (list Z) :=
  match n with
  | O => Ok []
  | S n => b ← rd8 va m; bs ← rd_bytes n (u32 (va + 1)) m; Ok (b :: bs)
  end.

Fixpoint wr_bytes (bs : list Z) (va : Z) (m : mstate) : outcome mstate :=
  match bs with
  | [] => Ok m
  | b :: bs => m ← wr8 va b m; wr_bytes bs (u32 (va + 1)) m
  end.

(** ** The ELF file *)

Definition half_at (b : list Z) (off : Z) : outcome Z :=
  x ← aget b off; y ← aget b (off + 1); Ok (x + 256 * y).
Definition word_at (b : list Z) (off : Z) : outcome Z :=
  w ← slice b off 4; match words_of_bytes w with [x] => Ok x | _ => Fault end.

Record Elf32_Ehdr := Ehdr {
  e_ident : list Z; e_type : Z; e_machine : Z; e_version : Z; e_entry : Z; e_phoff : Z; e_phentsize : Z; e_phnum : Z;
}.
Definition sizeof_Ehdr : Z := 52.

Definition ehdr_of (b : list Z) : outcome Elf32_Ehdr :=
  i ← slice b 0 16;
  ty ← half_at b 16; mc ← half_at b 18; v ← word_at b 20; en ← word_at b 24; ph ← word_at b 28;
  es ← half_at b 42; n ← half_at b 44;
  Ok (Ehdr i ty mc v en ph es n).

Record Elf32_Phdr := Phdr { p_type : Z; p_offset : Z; p_vaddr : Z; p_filesz : Z }.
Definition sizeof_Phdr : Z := 32.
Definition PT_LOAD : Z := 1.

Definition phdr_of (b : list Z) : outcome Elf32_Phdr :=
  ty ← word_at b 0; off ← word_at b 4; va ← word_at b 8; n ← word_at b 16; Ok (Phdr ty off va n).

Definition ELF_MAGIC : list Z := [0x7f; 69; 76; 70; 1; 1; 1].

(** The tests on the header; [memcmp] is on the first seven bytes. *)
Definition elf_ok (h : Elf32_Ehdr) : bool :=
  bool_decide (take 7 (e_ident h) = ELF_MAGIC) && (e_type h =? 2) && (e_machine h =? 3) && (e_version h =? 1) &&
  (e_phnum h <=? 1024) && (e_phentsize h =? sizeof_Phdr).

(** ** Loading *)

Definition on_fs {A} (f : fs → outcome (A * fs)) (y : system) : outcome (A * system) :=
  '(a, s) ← f (cur_fs y); Ok (a, put_fs s y).

(** [sys_read] into a buffer; the threads that a pipe wakes are of no concern for files. *)
Definition read_into (fd : Z) (dst : list Z) (count : Z) (y : system) : outcome (Z * list Z * system) :=
  '(r, y) ← on_fs (λ s, '(n, dst, s, _) ← sys_read (cur (sk y)) false fd dst count s; Ok (n, dst, s)) y;
  Ok (fst r, snd r, y).

Definition occupy_pages (vaddr filesz : Z) : Z :=
  let size_in_first_page := PG_SIZE - Z.land vaddr 0xfff in
  if filesz >? size_in_first_page then
    u32 (u32 (u32 (filesz - size_in_first_page) + PG_SIZE - 1) / PG_SIZE + 1)
  else 1.

(** The loop that maps the pages of a segment; pages that are there are kept. *)
Fixpoint map_segment (n : nat) (vaddr_page : Z) (m : mstate) : outcome (bool * mstate) :=
  match n with
  | O => Ok (true, m)
  | S n =>
      pde ← rd32 (pde_ptr vaddr_page) m;
      missing ← (if Z.land pde 1 =? 0 then Ok true else pte ← rd32 (pte_ptr vaddr_page) m; Ok (Z.land pte 1 =? 0));
      '(pg, m) ← (if missing : bool then get_a_page PF_USER vaddr_page m else Ok (1, m));
      if pg =? 0 then Ok (false, m) else map_segment n (u32 (vaddr_page + PG_SIZE)) m
  end.

(** The destination of [sys_read] is user memory: its bytes before and after the call.  The
    results of [sys_lseek] and [sys_read] are not looked at. *)
Definition segment_load (fd offset filesz vaddr : Z) (y : system) : outcome (bool * system) :=
  let vaddr_first_page := Z.land vaddr 0xfffff000 in
  '(ok, k) ← on_mem (map_segment (Z.to_nat (occupy_pages vaddr filesz)) vaddr_first_page) (sk y);
  let y := set_sk k y in
  if ok : bool then
    '(_, y) ← on_fs (sys_lseek fd (i32 offset) SEEK_SET) y;
    before ← rd_bytes (Z.to_nat filesz) vaddr (cur_mem (sk y));
    '(_, after, y) ← read_into fd before filesz y;
    k ← on_mem_ (wr_bytes after vaddr) (sk y);
    Ok (true, set_sk k y)
  else Ok (false, y).

(** The loop over the program headers; [false]: the load fails. *)
Fixpoint load_segments (n : nat) (fd prog_header_offset prog_header_size : Z) (y : system) : outcome (bool * system) :=
  match n with
  | O => Ok (true, y)
  | S n =>
      '(_, y) ← on_fs (sys_lseek fd (i32 prog_header_offset) SEEK_SET) y;
      '(r, b, y) ← read_into fd (replicate (Z.to_nat sizeof_Phdr) 0) prog_header_size y;
      if negb (r =? prog_header_size) then Ok (false, y)
      else
        p ← phdr_of b;
        '(ok, y) ← (if PT_LOAD =? p_type p then segment_load fd (p_offset p) (p_filesz p) (p_vaddr p) y else Ok (true, y));
        if ok : bool then load_segments n fd (u32 (prog_header_offset + prog_header_size)) prog_header_size y
        else Ok (false, y)
  end.

Section Exec.
Context (junk_name junk_de : list Z).

Definition load (pathname : list Z) (y : system) : outcome (Z * system) :=
  '(fd, y) ← on_fs (sys_open junk_name junk_de pathname 0) y;
  if fd =? -1 then Ok (-1, y)
  else
    '(r, b, y) ← read_into fd (replicate (Z.to_nat sizeof_Ehdr) 0) sizeof_Ehdr y;
    '(ret, y) ←
      (if negb (r =? sizeof_Ehdr) then Ok (-1, y)
       else
         h ← ehdr_of b;
         if negb (elf_ok h) then Ok (-1, y)
         else
           '(ok, y) ← load_segments (Z.to_nat (e_phnum h)) fd (e_phoff h) (e_phentsize h) y;
           Ok (if ok : bool then i32 (e_entry h) else -1, y));
    '(_, y) ← on_fs (sys_close fd) y;
    Ok (ret, y).

(** The number of pointers at [argv] before [NULL]; [fuel] bounds it. *)
Fixpoint count_args (fuel : nat) (argv argc : Z) (m : mstate) : outcome Z :=
  match fuel with
  | O => NoFuel
  | S fuel => p ← rd32 (u32 (argv + 4 * argc)) m; if p =? 0 then Ok argc else count_args fuel argv (u32 (argc + 1)) m
  end.

Definition set_name (v : list Z) (t : task) : task :=
  Task (self_kstack t) (pid t) (status t) (priority t) v (tricks t) (elapsed_tricks t) (fd_table t) (pgdir t)
       (userprog_vaddr t) (cwd_inode_nr t) (parent_pid t) (exit_status t) (stack_magic t).

(** [path] is the string and what follows it.  The result: the value returned, or the
    registers that the jump to [intr_exit] leaves. *)
Definition sys_execv (fuel : nat) (path : list Z) (argv : Z) (y : system) : outcome ((Z + user_regs) * system) :=
  argc ← count_args fuel argv 0 (cur_mem (sk y));
  '(entry_point, y) ← load path y;
  if entry_point =? -1 then Ok (inl (-1), y)
  else
    let c := cur (sk y) in
    nm ← slice path 0 TASK_NAME_LEN;
    let k := set_ts (upd_task (set_name nm) c (ts (sk y))) (sk y) in
    let intr_0_stack := u32 (c + PG_SIZE - sizeof_intr_stack) in
    w ← stores [(is_ebx intr_0_stack, argv); (is_ecx intr_0_stack, argc); (is_eip intr_0_stack, u32 entry_point);
                (is_esp intr_0_stack, 0xc0000000)] (kw k);
    r ← intr_exit intr_0_stack w;
    Ok (inr r, set_sk (set_kw w k) y).
End Exec.
