(* ===== verification/Segment.v ===== *)
(** * Loading a segment and starting a program (userprog/exec.c): correctness

    The pages of a segment are mapped, the bytes of the file arrive at their addresses, and
    [sys_execv] leaves the kernel with the registers of the new program. *)

From S2P Require Import Prelude Interrupt KList CString Disk FsState Dir File Pipe Fs Bitmap Sched Sync Paging Arena Task WaitExit Fork UserSpace ForkMemory PageDir ForkStack Exec.

(** ** The number of pages *)

Lemma occupy_pages_eq vaddr filesz :
  0 ≤ vaddr → 0 ≤ filesz → vaddr + filesz ≤ 4294967296 - 8192 →
  occupy_pages vaddr filesz = Z.max 1 ((vaddr + filesz - 1) / 4096 - vaddr / 4096 + 1).
Proof.
  intros Hv Hf Hend. unfold occupy_pages, PG_SIZE. rewrite offset_eq. rewrite Z.gtb_ltb.
  destruct (Z.ltb_spec (4096 - vaddr mod 4096) filesz) as [Hlt|Hge].
  - rewrite (u32_small (filesz - _)) by zdm. rewrite (u32_small (_ + 4096 - 1)) by zdm. rewrite u32_small by zdm. zdm.
  - zdm.
Qed.

(** ** Bytes *)

Definition word_of (pa : Z) : Z := pa - pa mod 4.

Definition byte_at (m : gmap Z Z) (pa : Z) : option Z :=
  w ← m !! word_of pa; Some (w / 2 ^ (8 * (pa mod 4)) mod 256).

Definition byte_ok (b : Z) : Prop := 0 ≤ b < 256.

Lemma byte_idx i : 0 ≤ i < 4 → i = 0 ∨ i = 1 ∨ i = 2 ∨ i = 3.
Proof. lia. Qed.

Lemma put_byte_spec w i j b :
  word_ok w → byte_ok b → 0 ≤ i < 4 → 0 ≤ j < 4 →
  put_byte w i b / 2 ^ (8 * j) mod 256 = (if decide (i = j) then b else w / 2 ^ (8 * j) mod 256) ∧ word_ok (put_byte w i b).
Proof.
  intros Hw Hb Hi Hj. unfold put_byte, word_ok, byte_ok in *.
  destruct (byte_idx i Hi) as [->|[->|[->| ->]]], (byte_idx j Hj) as [->|[->|[->| ->]]]; rewrite ?decide_True, ?decide_False by done;
    change (2 ^ (8 * 0)) with 1; change (2 ^ (8 * 1)) with 256; change (2 ^ (8 * 2)) with 65536; change (2 ^ (8 * 3)) with 16777216; zdm.
Qed.

Lemma wr8_ok va b s pa :
  translate (phys s) (mcr3 s) va = Some pa → is_Some (phys s !! word_of pa) → byte_ok b → (∀ a w, phys s !! a = Some w → word_ok w) →
  ∃ m', wr8 va b s = Ok (with_phys m' s) ∧ (∀ a w, m' !! a = Some w → word_ok w) ∧
    (∀ q, byte_at m' q = if decide (q = pa) then Some b else byte_at (phys s) q) ∧
    (∀ a, a ≠ word_of pa → m' !! a = phys s !! a) ∧ (∀ a, is_Some (phys s !! a) → is_Some (m' !! a)).
Proof.
  intros Ht [w Hw] Hb Hok. unfold wr8. rewrite Ht. cbn [of_opt mbind outcome_bind]. fold (word_of pa). rewrite Hw. cbn [of_opt mbind outcome_bind].
  eexists. split; [done|]. assert (Hp4 : ∀ q, 0 ≤ q mod 4 < 4) by (intros; zdm). split_and!.
  - intros a v. rewrite lookup_insert. case_decide; [|apply Hok]. intros [= <-]. apply (put_byte_spec w (pa mod 4) 0); [by apply (Hok _ _ Hw)|done|done|lia].
  - intros q. unfold byte_at. rewrite lookup_insert. destruct (decide (word_of pa = word_of q)) as [E|E].
    + destruct (put_byte_spec w (pa mod 4) (q mod 4) b (Hok _ _ Hw) Hb (Hp4 pa) (Hp4 q)) as [Epb _]. rewrite <- E, Hw. cbn [mbind option_bind]. rewrite Epb.
      destruct (decide (q = pa)) as [->|Hne]; [by rewrite decide_True|]. rewrite decide_False; [done|]. unfold word_of in E. zdm.
    + rewrite decide_False; [done|]. congruence.
  - intros a Ha. by apply lookup_insert_ne.
  - intros a Ha. rewrite lookup_insert. by case_decide.
Qed.

(** Bytes at the addresses [pa 0], [pa 1], ...  No store may change a translation. *)
Lemma wr_bytes_ok bs va s pa :
  0 ≤ va → va + zlen bs ≤ 4294967296 → Forall byte_ok bs → (∀ a w, phys s !! a = Some w → word_ok w) →
  (∀ k, 0 ≤ k < zlen bs → is_Some (phys s !! word_of (pa k))) →
  (∀ i j, 0 ≤ i < zlen bs → 0 ≤ j < zlen bs → pa i = pa j → i = j) →
  (∀ m', (∀ a, (∀ k, 0 ≤ k < zlen bs → a ≠ word_of (pa k)) → m' !! a = phys s !! a) →
     ∀ k, 0 ≤ k < zlen bs → translate m' (mcr3 s) (va + k) = Some (pa k)) →
  ∃ m', wr_bytes bs va s = Ok (with_phys m' s) ∧ (∀ a w, m' !! a = Some w → word_ok w) ∧
    (∀ k b, bs !! k = Some b → byte_at m' (pa (Z.of_nat k)) = Some b) ∧
    (∀ q, (∀ k, 0 ≤ k < zlen bs → q ≠ pa k) → byte_at m' q = byte_at (phys s) q) ∧
    (∀ a, (∀ k, 0 ≤ k < zlen bs → a ≠ word_of (pa k)) → m' !! a = phys s !! a) ∧ grows (phys s) m'.
Proof.
  revert va s pa. induction bs as [|b bs IH]; intros va s pa H0 Hend HF Hok Hmem Hinj Htr.
  { exists (phys s). split; [by destruct s|]. split; [done|]. split; [done|]. split; [done|]. split; [done|]. by intros a Ha. }
  assert (HL : zlen (b :: bs) = zlen bs + 1) by (unfold zlen; simpl; lia). assert (HL0 : 0 ≤ zlen bs) by (unfold zlen; lia). rewrite HL in *.
  apply Forall_cons in HF as [Hb HF]. pose proof (Htr (phys s) ltac:(done) 0 ltac:(lia)) as T0. rewrite Z.add_0_r in T0.
  destruct (wr8_ok va b s (pa 0) T0 (Hmem 0 ltac:(lia)) Hb Hok) as (m1 & W1 & W2 & W3 & W4 & W5). cbn [wr_bytes]. mrun W1.
  assert (E : ∀ x, wr_bytes bs (u32 (va + 1)) x = wr_bytes bs (va + 1) x).
  { destruct bs as [|b' bs']; [done|]. assert (0 < zlen (b' :: bs')) by (unfold zlen; simpl; lia). by rewrite u32_small by lia. }
  rewrite E. destruct (IH (va + 1) (with_phys m1 s) (λ k, pa (k + 1))) as (m' & H1 & H2 & H3 & H4 & H5 & H6); cbn [phys with_phys mcr3]; try done; try lia.
  - intros k Hk. apply W5, Hmem. lia.
  - intros i j Hi Hj Eij. apply Hinj in Eij; lia.
  - intros m' Hm' k Hk. replace (va + 1 + k) with (va + (k + 1)) by lia. apply Htr; [|lia]. intros a Ha. rewrite Hm'; [apply W4, Ha; lia|]. intros k' Hk'. apply Ha. lia.
  - exists m'. split; [done|]. split; [done|]. cbn [phys with_phys] in *. split; [|split; [|split]].
    + intros [|k] c Hc; simpl in Hc.
      * injection Hc as <-. change (Z.of_nat 0) with 0. rewrite H4, W3, decide_True; [done|done|]. intros k Hk Ek. apply Hinj in Ek; lia.
      * replace (Z.of_nat (S k)) with (Z.of_nat k + 1) by lia. by apply H3.
    + intros q Hq. rewrite H4, W3, decide_False; [done|apply Hq; lia|]. intros k Hk. apply Hq. lia.
    + intros a Ha. rewrite H5; [apply W4, Ha; lia|]. intros k Hk. apply Ha. lia.
    + intros a Ha. by apply H6, W5.
Qed.

Lemma rd_bytes_ok n va s pa bs :
  0 ≤ va → va + Z.of_nat n ≤ 4294967296 → length bs = n →
  (∀ k, 0 ≤ k < Z.of_nat n → translate (phys s) (mcr3 s) (va + k) = Some (pa k)) →
  (∀ k b, bs !! k = Some b → byte_at (phys s) (pa (Z.of_nat k)) = Some b) → rd_bytes n va s = Ok bs.
Proof.
  revert va pa bs. induction n as [|n IH]; intros va pa bs H0 Hend HL Htr Hb; [by destruct bs|].
  destruct bs as [|b bs]; [done|]. cbn [rd_bytes]. pose proof (Htr 0 ltac:(lia)) as T0. rewrite Z.add_0_r in T0. specialize (Hb 0%nat b eq_refl) as Hb0.
  change (Z.of_nat 0) with 0 in Hb0. unfold rd8. rewrite T0. cbn [of_opt mbind outcome_bind]. fold (word_of (pa 0)). unfold byte_at in Hb0.
  destruct (phys s !! word_of (pa 0)) as [w|]; [|done]. simpl in Hb0. injection Hb0 as Hb0. cbn [of_opt mbind outcome_bind]. rewrite Hb0.
  assert (E : rd_bytes n (u32 (va + 1)) s = rd_bytes n (va + 1) s) by (destruct n; [done|by rewrite u32_small by lia]).
  rewrite E, (IH (va + 1) (λ k, pa (k + 1)) bs); [done|lia|lia|by injection HL| |].
  - intros k Hk. replace (va + 1 + k) with (va + (k + 1)) by lia. apply Htr. lia.
  - intros k c Hk. specialize (Hb (S k) c Hk). by replace (Z.of_nat k + 1) with (Z.of_nat (S k)) by lia.
Qed.

(** ** Pages for the running process *)

(** User pages lie in user frames in use, no two in the same one. *)
Record user_map (s : mstate) : Prop := {
  um_frame : ∀ x f, user_va x → x mod 4096 = 0 → translate (phys s) (mcr3 s) x = Some f →
    ∃ r, 0 ≤ r < nbits (pool_bitmap (user_pool s)) ∧ f = user_frame s r ∧ pool_bit PF_USER s r = true;
  um_inj : ∀ x y f, user_va x → user_va y → x mod 4096 = 0 → y mod 4096 = 0 →
    translate (phys s) (mcr3 s) x = Some f → translate (phys s) (mcr3 s) y = Some f → x = y;
}.

(** The running thread is a user process, and the lock of the user pool is free. *)
Record user_space (s : mstate) : Prop := {
  us_wf : as_wf s;
  us_map : user_map s;
  us_lock : plock (user_pool s) = lock_init ∧ cur_thread s ≠ 0 ∧ cur_pgdir s ≠ 0;
  us_mem : ∀ r, 0 ≤ r < nbits (pool_bitmap (user_pool s)) → frame_mem (phys s) (user_frame s r);
  us_bitmap : bitmap_wf (vaddr_bitmap (cur_vaddr s));
  us_range : 0 < vaddr_start (cur_vaddr s) ∧ vaddr_start (cur_vaddr s) + nbits (vaddr_bitmap (cur_vaddr s)) * 4096 ≤ 0xc0000000;
}.

Definition in_range (s : mstate) (va : Z) (n : Z) : Prop :=
  vaddr_start (cur_vaddr s) ≤ va ∧ va + n * 4096 ≤ vaddr_start (cur_vaddr s) + nbits (vaddr_bitmap (cur_vaddr s)) * 4096.

(** What mapping the pages [va ..] has done: pages that were there are kept, no user frame is
    written. *)
Record seg_mapped (va n : Z) (s s' : mstate) : Prop := {
  sm_pages : ∀ k, 0 ≤ k < n → is_Some (translate (phys s') (mcr3 s') (va + k * 4096));
  sm_keep : ∀ x, va_ok x → is_Some (translate (phys s) (mcr3 s) x) → translate (phys s') (mcr3 s') x = translate (phys s) (mcr3 s) x;
  sm_other : ∀ x, va_ok x → ¬ (va / 4096 ≤ x / 4096 < va / 4096 + n) → translate (phys s') (mcr3 s') x = translate (phys s) (mcr3 s) x;
  sm_words : ∀ r, 0 ≤ r → same_frame (phys s) (phys s') (user_frame s r);
  sm_user : phy_addr_start (user_pool s') = phy_addr_start (user_pool s);
  sm_thread : mcr3 s' = mcr3 s ∧ cur_thread s' = cur_thread s ∧ cur_pgdir s' = cur_pgdir s;
  sm_range : vaddr_start (cur_vaddr s') = vaddr_start (cur_vaddr s) ∧
    nbits (vaddr_bitmap (cur_vaddr s')) = nbits (vaddr_bitmap (cur_vaddr s));
}.

Lemma seg_mapped_refl va s : seg_mapped va 0 s s.
Proof. split; try done. intros k Hk. lia. Qed.

(** [get_a_page] marks the page and does what [get_a_page_without_opvaddrbitmap] does. *)
Lemma get_a_page_split s va :
  user_space s → in_range s va 1 → va mod 4096 = 0 → free_user_frame s → free_kernel_frame s →
  ∃ r b' s', get_a_page PF_USER va s = Ok (va, s') ∧ bitmap_wf b' ∧ nbits b' = nbits (vaddr_bitmap (cur_vaddr s)) ∧
    got_page va r (set_vaddr PF_USER (VirtualAddr b' (vaddr_start (cur_vaddr s))) s) s'.
Proof.
  intros [U1 U2 (U3 & U3' & U3'') U4 U5 [U6 U6']] [R1 R2] Hal Hfu Hfk. pose proof (wf_len _ U5). pose proof (wf_small _ U5).
  destruct (bitmap_set_ok (vaddr_bitmap (cur_vaddr s)) ((va - vaddr_start (cur_vaddr s)) / 4096) 1 U5) as (b' & Hb' & Wb & Lb & _); [unfold nbits in *; zdm|].
  set (s0 := set_vaddr PF_USER (VirtualAddr b' (vaddr_start (cur_vaddr s))) s).
  destruct (user_page s0 va) as (r & s' & Hg & Hgp); try done; [by apply as_wf_set_vaddr|unfold va_ok; lia|].
  exists r, b', s'. split; [|split; [done|split; [unfold nbits; by rewrite Lb|done]]].
  assert (Hacq : acquire PF_USER s = Ok (set_pool PF_USER (with_lock (Lock (cur_thread s) (Semaphore 0 []) 1) (user_pool s)) s)).
  { unfold acquire, lock_acquire. simpl. rewrite U3. simpl (holder _). by rewrite (proj2 (Z.eqb_neq 0 (cur_thread s))). }
  assert (Hacq0 : acquire PF_USER s0 = Ok (set_pool PF_USER (with_lock (Lock (cur_thread s) (Semaphore 0 []) 1) (user_pool s)) s0)).
  { unfold acquire, lock_acquire. simpl. rewrite U3. simpl (holder _). by rewrite (proj2 (Z.eqb_neq 0 (cur_thread s))). }
  unfold get_a_page_without_opvaddrbitmap in Hg. rewrite Hacq0 in Hg. cbn [mbind outcome_bind] in Hg.
  unfold get_a_page. mrun Hacq. simpl (cur_pgdir _). rewrite (proj2 (Z.eqb_neq _ _) U3''), (bool_decide_true (PF_USER = PF_USER)) by done. simpl (negb _ && _ || _).
  cbn iota. simpl (get_vaddr _ _). unfold PG_SIZE. unfold nbits in *. rewrite u32_small, i32_small by zdm. mrun Hb'.
  change (set_vaddr PF_USER (VirtualAddr b' (vaddr_start (cur_vaddr s))) _) with (set_pool PF_USER (with_lock (Lock (cur_thread s) (Semaphore 0 []) 1) (user_pool s)) s0).
  destruct (palloc PF_USER _) as [[pg s2]| | | |]; try done. cbn [mbind outcome_bind] in *. destruct (pg =? 0); [|done].
  injection Hg as E _. lia.
Qed.

Lemma translate_same_page m c x y :
  va_ok x → va_ok y → x / 4096 = y / 4096 → translate m c x = None → translate m c y = None.
Proof.
  intros Hx Hy E. destruct (va_idx x Hx) as (E1 & E2 & _), (va_idx y Hy) as (E3 & E4 & _). unfold translate.
  replace (PDE_IDX y) with (PDE_IDX x) by (rewrite E1, E3; unfold va_ok in *; zdm).
  replace (PTE_IDX y) with (PTE_IDX x) by (rewrite E2, E4; unfold va_ok in *; zdm).
  destruct (m !! _) as [e|]; simpl; [|done]. destruct (present e); [|done]. destruct (m !! _) as [t|]; simpl; [|done]. by destruct (present t).
Qed.

(** The page is new in the process. *)
Lemma user_space_got s va r b' s' :
  user_space s → in_range s va 1 → va mod 4096 = 0 → translate (phys s) (mcr3 s) va = None →
  bitmap_wf b' → nbits b' = nbits (vaddr_bitmap (cur_vaddr s)) →
  got_page va r (set_vaddr PF_USER (VirtualAddr b' (vaddr_start (cur_vaddr s))) s) s' →
  user_space s' ∧ seg_mapped va 1 s s'.
Proof.
  intros [U1 U2 (U3 & U3' & U3'') U4 U5 [U6 U6']] [R1 R2] Hal Hnone Wb Lb Hgp.
  assert (Huva : user_va va) by (unfold user_va; lia). destruct (user_va_ok va Huva) as [Hok Hidx].
  destruct Hgp as [G1 G2 G3 G4 G5 G6 G7 [G8 G8'] (G9 & G9' & G9'') G10 G11 G12 G13 G14]. simpl in *.
  destruct (G7 PF_USER) as [P1 P2]. simpl in P1, P2.
  assert (Euf : ∀ j, user_frame s' j = user_frame s j) by (intros j; unfold user_frame; by rewrite P1).
  assert (Hset : ∀ j, 0 ≤ j → pool_bit PF_USER s j = true → pool_bit PF_USER s' j = true).
  { intros j Hj Hb. rewrite G5 by done. apply orb_true_iff. by right. }
  assert (Hold : ∀ x f, user_va x → x mod 4096 = 0 → translate (phys s') (mcr3 s') x = Some f →
    (x = va ∧ f = user_frame s r) ∨ (x ≠ va ∧ translate (phys s) (mcr3 s) x = Some f)).
  { intros x f Hx Hxa Ht. rewrite G14 in Ht by (by apply user_va_ok). case_decide as E.
    - left. split; [unfold user_va in *; zdm|]. rewrite Hxa in Ht. injection Ht as <-. unfold user_frame. simpl. lia.
    - right. split; [congruence|done]. }
  assert (Hfree : pool_bit PF_USER s r = false) by exact G4.
  split; [split|split].
  - done.
  - split.
    + intros x f Hx Hxa Ht. destruct (Hold x f Hx Hxa Ht) as [[-> ->]|[_ Ht0]].
      * exists r. rewrite Euf, P2. split; [done|]. split; [done|]. rewrite G5 by lia. by rewrite bool_decide_true.
      * destruct (um_frame _ U2 x f Hx Hxa Ht0) as (rx & X1 & X2 & X3). exists rx. rewrite Euf, P2. split; [done|]. split; [done|]. apply Hset; [lia|done].
    + intros x y f Hx Hy Hxa Hya Tx Ty. destruct (Hold x f Hx Hxa Tx) as [[-> ->]|[Nx Tx0]], (Hold y _ Hy Hya Ty) as [[-> Ef]|[Ny Ty0]]; try done.
      * exfalso. destruct (um_frame _ U2 y _ Hy Hya Ty0) as (ry & Y1 & Y2 & Y3). apply user_frame_inj in Y2. congruence.
      * exfalso. subst f. destruct (um_frame _ U2 x _ Hx Hxa Tx0) as (rx & X1 & X2 & X3). apply user_frame_inj in X2. congruence.
      * by apply (um_inj _ U2 x y f).
  - rewrite G8', G8, G9'. done.
  - intros j Hj i Hi. rewrite Euf. rewrite P2 in Hj. by apply G10, (U4 j Hj).
  - by rewrite G9.
  - rewrite G9. simpl. rewrite Lb. done.
  - intros k Hk. replace (va + k * 4096) with va by lia. rewrite G14, decide_True by done. by eexists.
  - intros x Hx Hs. rewrite G14 by done. case_decide as E; [|done]. exfalso.
    rewrite (translate_same_page _ _ va x Hok Hx E Hnone) in Hs. by destruct Hs.
  - intros x Hx Hno. rewrite G14 by done. rewrite decide_False; [done|]. intros E. apply Hno. lia.
  - intros j Hj. destruct (user_frame_props s j U1 Hj) as [Ha Hge]. apply G11; [|right; exact Hge].
    pose proof (user_not_table _ _ U1 Hge) as Hnt. split; [done|]. split; [intros E; apply Hnt; by left|].
    intros e He Hp E. apply Hnt. right. exists (PDE_IDX va), e. split; [lia|done].
  - done.
  - done.
  - by rewrite G9.
Qed.

Lemma seg_mapped_trans va n s1 s2 s3 :
  0 ≤ va → va mod 4096 = 0 → 0 ≤ n → va + (n + 1) * 4096 ≤ 0xffc00000 →
  seg_mapped va 1 s1 s2 → seg_mapped (va + 4096) n s2 s3 → seg_mapped va (n + 1) s1 s3.
Proof.
  intros H0 Hal Hn Hend [A1 A2 A3 A4 A5 (A6 & A6' & A6'') [A7 A7']] [B1 B2 B3 B4 B5 (B6 & B6' & B6'') [B7 B7']].
  assert (Hva : va_ok va) by (unfold va_ok; lia). replace ((va + 4096) / 4096) with (va / 4096 + 1) in B3 by zdm.
  split; try congruence.
  - intros k Hk. destruct (decide (k = 0)) as [->|Hne].
    + replace (va + 0 * 4096) with va by lia. specialize (A1 0 ltac:(lia)). replace (va + 0 * 4096) with va in A1 by lia. by rewrite B2.
    + replace (va + k * 4096) with (va + 4096 + (k - 1) * 4096) by lia. apply B1. lia.
  - intros x Hx Hs. rewrite B2; [by apply A2|done|]. by rewrite A2.
  - intros x Hx Hno. rewrite B3, A3; [done|done|lia|done|lia].
  - intros r Hr. eapply same_frame_trans; [by apply A4|]. specialize (B4 r Hr). unfold user_frame in *. by rewrite A5 in B4.
  - split; [congruence|]. split; congruence.
  - split; congruence.
Qed.

(** The tests of the loop: is the page missing? *)
Lemma missing_ok s va :
  as_wf s → va_ok va →
  (pde ← rd32 (pde_ptr va) s; (if Z.land pde 1 =? 0 then Ok true else pte ← rd32 (pte_ptr va) s; Ok (Z.land pte 1 =? 0))) =
  Ok (bool_decide (translate (phys s) (mcr3 s) va = None)).
Proof.
  intros Hs Hva. destruct (va_idx va Hva) as (_ & _ & Hi & _). destruct (pde_exists s (PDE_IDX va) Hs) as (e & He & _); [lia|].
  rewrite (rd32_pde s va e Hs Hva He). cbn [mbind outcome_bind]. rewrite (translate_va s va e Hs Hva He).
  destruct (present e) eqn:Hp; unfold present in Hp; destruct (Z.land e 1 =? 0) eqn:E; try done.
  destruct (pte_word s va e Hs Hva He) as (t & Ht & _ & Hrd & _); [unfold present; by rewrite E|]. rewrite Hrd. cbn [mbind outcome_bind].
  rewrite Ht. unfold present. by destruct (Z.land t 1 =? 0).
Qed.

(** With enough free frames every page of the segment is there afterwards. *)
Lemma map_segment_ok n va s :
  user_space s → in_range s va (Z.of_nat n) → va mod 4096 = 0 →
  (n ≤ free_frames PF_USER s)%nat → (n ≤ free_frames PF_KERNEL s)%nat →
  ∃ s', map_segment n va s = Ok (true, s') ∧ user_space s' ∧ seg_mapped va (Z.of_nat n) s s'.
Proof.
  revert va s. induction n as [|n IH]; intros va s Hus [R1 R2] Hal Hfu Hfk.
  { exists s. split; [done|]. split; [done|apply seg_mapped_refl]. }
  destruct (us_range _ Hus) as [U6 U6']. assert (Hva : va_ok va) by (unfold va_ok; lia).
  assert (Hmap : ∃ pg s1, (if bool_decide (translate (phys s) (mcr3 s) va = None) then get_a_page PF_USER va s else Ok (1, s)) = Ok (pg, s1) ∧ pg ≠ 0 ∧
    user_space s1 ∧ seg_mapped va 1 s s1 ∧ (free_frames PF_USER s ≤ S (free_frames PF_USER s1))%nat ∧ (free_frames PF_KERNEL s ≤ S (free_frames PF_KERNEL s1))%nat).
  { case_bool_decide as E.
    - destruct (get_a_page_split s va Hus) as (r & b' & s1 & H1 & Wb & Lb & Hgp); [split; lia|done|apply (free_frames_pos PF_USER); lia|apply (free_frames_pos PF_KERNEL); lia|].
      destruct (user_space_got s va r b' s1 Hus ltac:(split; lia) Hal E Wb Lb Hgp) as [Hus1 Hsm]. exists va, s1. split; [done|]. split; [lia|]. split; [done|]. split; [done|].
      split.
      + apply (free_frames_step _ _ _ (Some r)); [exact (proj2 (gp_pools _ _ _ _ Hgp PF_USER))|]. intros j Hj. rewrite (gp_bits _ _ _ _ Hgp) by done.
        apply (f_equal2 orb); [apply bool_decide_ext; split; congruence|done].
      + destruct (gp_kbits _ _ _ _ Hgp) as [o Ho]. apply (free_frames_step _ _ _ o); [exact (proj2 (gp_pools _ _ _ _ Hgp PF_KERNEL))|exact Ho].
    - exists 1, s. split; [done|]. split; [done|]. split; [done|]. split; [|lia]. destruct (seg_mapped_refl va s) as [A1 A2 A3 A4 A5 A6 A7]. split; try done.
      intros k Hk. replace (va + k * 4096) with va by lia. by apply not_eq_None_Some. }
  destruct Hmap as (pg & s1 & Hrun & Hpg & Hus1 & Hsm & F1 & F2). cbn [map_segment].
  pose proof (missing_ok s va (us_wf _ Hus) Hva) as Hmiss. destruct (rd32 (pde_ptr va) s) as [pde| | | |]; try done. cbn [mbind outcome_bind] in *.
  rewrite Hmiss. cbn [mbind outcome_bind]. rewrite Hrun. cbn [mbind outcome_bind]. rewrite (proj2 (Z.eqb_neq _ _) Hpg). unfold PG_SIZE. rewrite u32_small by lia.
  destruct (sm_range _ _ _ _ Hsm) as [Q1 Q2].
  destruct (IH (va + 4096) s1 Hus1) as (s' & H2 & Hus2 & Hsm2); [split; lia|zdm|lia|lia|].
  exists s'. split; [done|]. split; [done|]. replace (Z.of_nat (S n)) with (Z.of_nat n + 1) by lia. apply (seg_mapped_trans va _ s s1); try lia; done.
Qed.

(** ** The bytes of the segment *)

Lemma translate_byte m c pg f j :
  va_ok pg → pg mod 4096 = 0 → translate m c pg = Some f → 0 ≤ j < 4096 → translate m c (pg + j) = Some (f + j).
Proof.
  intros Hva Hal Ht Hj. assert (Hva' : va_ok (pg + j)) by (unfold va_ok in *; zdm).
  destruct (va_idx pg Hva) as (E1 & E2 & _), (va_idx (pg + j) Hva') as (E3 & E4 & _).
  unfold translate in *. replace (PDE_IDX (pg + j)) with (PDE_IDX pg) by (rewrite E1, E3; unfold va_ok in *; zdm).
  replace (PTE_IDX (pg + j)) with (PTE_IDX pg) by (rewrite E2, E4; unfold va_ok in *; zdm).
  destruct (m !! (frame c + PDE_IDX pg * 4)) as [pde|]; [|done]. simpl in *. destruct (present pde); [|done].
  destruct (m !! (frame pde + PTE_IDX pg * 4)) as [pte|]; [|done]. simpl in *. destruct (present pte); [|done]. injection Ht as Ht.
  rewrite offset_eq in *. f_equal. rewrite <- Ht, Hal. replace ((pg + j) mod 4096) with j by zdm. lia.
Qed.

(** Words that are in no user frame are the same. *)
Definition user_only (s : mstate) (m' : gmap Z Z) : Prop :=
  ∀ a, (∀ r j, 0 ≤ r < nbits (pool_bitmap (user_pool s)) → 0 ≤ j < 1024 → a ≠ user_frame s r + j * 4) → m' !! a = phys s !! a.

Lemma user_only_tables s m' g : as_wf s → user_only s m' → table_frame s g → same_frame (phys s) m' g.
Proof.
  intros Hs Ho Hg j Hj. apply Ho. intros r k Hr Hk E. destruct (user_frame_props s r Hs ltac:(lia)) as [Ha Hge].
  assert (Hga : g mod 4096 = 0) by (destruct Hg as [->|(i & e & _ & He & _ & ->)]; [apply (aw_cr3 _ Hs)|apply frame_bounds, (aw_words _ Hs _ _ He)]).
  destruct (frames_apart g (user_frame s r) j k) as [-> _]; try done. by apply (user_not_table _ _ Hs Hge).
Qed.

Lemma user_only_translate s m' va : as_wf s → user_only s m' → va_ok va → translate m' (mcr3 s) va = translate (phys s) (mcr3 s) va.
Proof.
  intros Hs Ho Hva. apply translate_agree; [done|done| |].
  - apply user_only_tables; try done. by left.
  - intros e He Hp. apply user_only_tables; try done. right. exists (PDE_IDX va), e. split; [apply (va_idx va Hva)|done].
Qed.

Lemma user_only_space s m' :
  user_space s → user_only s m' → (∀ a w, m' !! a = Some w → word_ok w) → grows (phys s) m' → user_space (with_phys m' s).
Proof.
  intros [U1 [U2 U2'] U3 U4 U5 U6] Ho Hw Hg.
  assert (Ht : ∀ x, user_va x → translate m' (mcr3 s) x = translate (phys s) (mcr3 s) x) by (intros x Hx; apply user_only_translate; [done|done|by apply user_va_ok]).
  split; try done.
  - apply as_wf_agree; [done|done|done|]. intros i Hi. apply user_only_tables; try done. by left.
  - split; simpl.
    + intros x f Hx Hxa. rewrite Ht by done. by apply U2.
    + intros x y f Hx Hy Hxa Hya. rewrite !Ht by done. by apply U2'.
  - intros r Hr j Hj. by apply Hg, (U4 r Hr).
Qed.

(** The byte [x] of a mapped user page. *)
Record user_byte (s : mstate) (x pa r : Z) : Prop := {
  ub_range : 0 ≤ r < nbits (pool_bitmap (user_pool s));
  ub_at : pa = user_frame s r + x mod 4096;
  ub_page : translate (phys s) (mcr3 s) (x - x mod 4096) = Some (user_frame s r);
  ub_byte : translate (phys s) (mcr3 s) x = Some pa;
  ub_word : ∃ j, 0 ≤ j < 1024 ∧ word_of pa = user_frame s r + j * 4;
}.

Lemma user_byte_of s x : user_space s → user_va x → is_Some (translate (phys s) (mcr3 s) (x - x mod 4096)) → ∃ pa r, user_byte s x pa r.
Proof.
  intros Hus Hx [f Hf]. assert (Hpg : user_va (x - x mod 4096)) by (unfold user_va in *; zdm). assert (Hpa : (x - x mod 4096) mod 4096 = 0) by zdm.
  destruct (um_frame _ (us_map _ Hus) _ f Hpg Hpa Hf) as (r & R1 & -> & _). exists (user_frame s r + x mod 4096), r.
  destruct (user_frame_props s r (us_wf _ Hus) ltac:(lia)) as [Ha _]. split; try done.
  - replace x with (x - x mod 4096 + x mod 4096) at 1 by lia. apply translate_byte; [by apply user_va_ok|done|done|zdm].
  - exists (x mod 4096 / 4). unfold word_of. split; zdm.
Qed.

Lemma user_byte_inj s x y pa rx ry : user_space s → user_va x → user_va y → user_byte s x pa rx → user_byte s y pa ry → x = y.
Proof.
  intros Hus Hx Hy [X1 X2 X3 _ _] [Y1 Y2 Y3 _ _].
  destruct (user_frame_props s rx (us_wf _ Hus) ltac:(lia)) as [Ax _], (user_frame_props s ry (us_wf _ Hus) ltac:(lia)) as [Ay _].
  assert (E : user_frame s rx = user_frame s ry ∧ x mod 4096 = y mod 4096) by (rewrite X2 in Y2; zdm). destruct E as [E1 E2]. rewrite <- E1 in Y3.
  enough (x - x mod 4096 = y - y mod 4096) by lia. apply (um_inj _ (us_map _ Hus) _ _ (user_frame s rx)); try done; unfold user_va in *; zdm.
Qed.

Definition pa_of (s : mstate) (x : Z) : Z := default 0 (translate (phys s) (mcr3 s) x).

(** The user bytes [va .. va + n - 1] are all mapped. *)
Definition mapped_bytes (s : mstate) (va n : Z) : Prop :=
  ∀ k, 0 ≤ k < n → user_va (va + k) ∧ is_Some (translate (phys s) (mcr3 s) (va + k - (va + k) mod 4096)).

Lemma mapped_byte s va n k : user_space s → mapped_bytes s va n → 0 ≤ k < n → ∃ r, user_byte s (va + k) (pa_of s (va + k)) r.
Proof.
  intros Hus Hm Hk. destruct (Hm k Hk) as [Hx Hs]. destruct (user_byte_of s (va + k) Hus Hx Hs) as (pa & r & Hb). exists r.
  unfold pa_of. by rewrite (ub_byte _ _ _ _ Hb).
Qed.

Lemma segment_read n va s :
  user_space s → mapped_bytes s va (Z.of_nat n) → 0 ≤ va → va + Z.of_nat n ≤ 0xc0000000 →
  ∃ before, rd_bytes n va s = Ok before ∧ length before = n.
Proof.
  intros Hus Hm H0 Hend. exists ((λ k, default 0 (byte_at (phys s) (pa_of s (va + k)))) <$> seqZ 0 (Z.of_nat n)).
  assert (HL : length (seqZ 0 (Z.of_nat n)) = n) by (rewrite length_seqZ; lia). split; [|by rewrite length_fmap].
  apply (rd_bytes_ok _ _ _ (λ k, pa_of s (va + k))); [done|lia|by rewrite length_fmap| |].
  - intros k Hk. destruct (mapped_byte s va _ k Hus Hm Hk) as (r & Hb). by rewrite <- (ub_byte _ _ _ _ Hb).
  - intros k b Hk. apply list_lookup_fmap_Some in Hk as (z & -> & Hz). apply lookup_seqZ in Hz as [-> Hlt]. rewrite Z.add_0_l in *.
    destruct (mapped_byte s va _ (Z.of_nat k) Hus Hm) as (r & Hb); [lia|]. destruct (ub_word _ _ _ _ Hb) as (j & Hj & Ew). unfold byte_at. rewrite Ew.
    destruct (us_mem _ Hus r (ub_range _ _ _ _ Hb) j Hj) as [w Hw]. rewrite Hw. done.
Qed.

Lemma segment_write bs va s :
  user_space s → mapped_bytes s va (zlen bs) → 0 ≤ va → va + zlen bs ≤ 0xc0000000 → Forall byte_ok bs →
  ∃ m', wr_bytes bs va s = Ok (with_phys m' s) ∧ user_space (with_phys m' s) ∧ rd_bytes (length bs) va (with_phys m' s) = Ok bs ∧
    ∀ y, user_va y → is_Some (translate (phys s) (mcr3 s) (y - y mod 4096)) → ¬ (va ≤ y < va + zlen bs) → rd8 y (with_phys m' s) = rd8 y s.
Proof.
  intros Hus Hm H0 Hend HF. set (pa := λ k, pa_of s (va + k)).
  assert (Hb : ∀ k, 0 ≤ k < zlen bs → ∃ r, user_byte s (va + k) (pa k) r) by (intros k Hk; by apply (mapped_byte s va (zlen bs))).
  assert (Hout : ∀ m', (∀ a, (∀ k, 0 ≤ k < zlen bs → a ≠ word_of (pa k)) → m' !! a = phys s !! a) → user_only s m').
  { intros m' Hm' a Ha. apply Hm'. intros k Hk. destruct (Hb k Hk) as (r & Hr). destruct (ub_word _ _ _ _ Hr) as (j & Hj & ->). apply Ha; [apply Hr|done]. }
  assert (Htr : ∀ m', user_only s m' → ∀ x, user_va x → translate m' (mcr3 s) x = translate (phys s) (mcr3 s) x).
  { intros m' Ho x Hx. apply user_only_translate; [apply Hus|done|by apply user_va_ok]. }
  destruct (wr_bytes_ok bs va s pa) as (m' & H1 & H2 & H3 & H4 & H5 & H6); try done; try lia.
  - apply Hus.
  - intros k Hk. destruct (Hb k Hk) as (r & Hr). destruct (ub_word _ _ _ _ Hr) as (j & Hj & ->). by apply (us_mem _ Hus r); [apply Hr|].
  - intros i j Hi Hj E. destruct (Hb i Hi) as (ri & Hri), (Hb j Hj) as (rj & Hrj). rewrite E in Hri.
    enough (va + i = va + j) by lia. by apply (user_byte_inj s _ _ (pa j) ri rj); try done; apply Hm.
  - intros m' Hm' k Hk. rewrite Htr; [|by apply Hout|by apply Hm]. destruct (Hb k Hk) as (r & Hr). apply Hr.
  - exists m'. assert (Ho : user_only s m') by (by apply Hout). split; [done|]. split; [by apply user_only_space|]. split.
    + apply (rd_bytes_ok _ _ _ pa); [done|unfold zlen in *; lia|done| |done]. intros k Hk. simpl. rewrite Htr; [|done|by apply Hm]. destruct (Hb k Hk) as (r & Hr). apply Hr.
    + intros y Hy Hs Hno. destruct (user_byte_of s y Hus Hy Hs) as (p & r & Hp). unfold rd8. simpl. rewrite Htr by done. rewrite (ub_byte _ _ _ _ Hp). cbn [of_opt mbind outcome_bind].
      assert (E : byte_at m' p = byte_at (phys s) p).
      { apply H4. intros k Hk ->. destruct (Hb k Hk) as (r' & Hr'). apply Hno. rewrite (user_byte_inj s y (va + k) _ _ _ Hus Hy (proj1 (Hm k Hk)) Hp Hr'). lia. }
      unfold byte_at in E. fold (word_of p). destruct (m' !! word_of p), (phys s !! word_of p); simpl in *; congruence.
Qed.

(** ** The file *)

(** Descriptor [fd] is the open file number [idx] with content [data], and three buffers can be
    allocated. *)
Record open_file (fd : Z) (idx : nat) (f : file) (i : inode) (bs data : list Z) (s : FsState.fs) : Prop := {
  of_wf : fs_wf s;
  of_fd : 3 ≤ fd ∧ fd_local2global fd s = Ok (Z.of_nat idx);
  of_file : file_table s !! idx = Some f ∧ fd_flag f ≠ PIPE_FLAG;
  of_rep : file_rep s (fd_inode f) i bs data;
  of_heap : ∃ h1 h2 h3 rest, FsState.heap s = h1 :: h2 :: h3 :: rest ∧ h1 ≠ 0 ∧ h2 ≠ 0 ∧ h3 ≠ 0;
}.

Lemma open_file_bytes fd idx f i bs data s : open_file fd idx f i bs data s → Forall byte_ok data ∧ zlen data < 71680.
Proof.
  intros [Hwf _ _ (_ & Hm & _ & HS & Hcase) _]. split.
  - apply Forall_lookup. intros k b Hk. pose proof (lookup_lt_Some _ _ _ Hk).
    destruct (HS (Z.of_nat k)) as (blk & sec & _ & Hsec & E); [unfold zlen; lia|]. rewrite Nat2Z.id, Hk in E.
    destruct (fw_disk _ Hwf blk sec Hsec) as [_ HF]. by apply (proj1 (Forall_lookup _ _) HF _ _ E).
  - pose proof (fm_len _ _ _ Hm). destruct Hcase as [E|(_ & -> & _)]; [|done]. unfold zlen in *. zdm.
Qed.

Lemma lseek_read_ok t fd idx f i bs data offset count dst s :
  open_file fd idx f i bs data s → 0 ≤ offset → 0 < count → offset + count ≤ zlen data → zlen dst = count →
  ∃ s1 s2, sys_lseek fd (i32 offset) SEEK_SET s = Ok (offset, s1) ∧
    sys_read t false fd dst count s1 = Ok (count, take (Z.to_nat count) (drop (Z.to_nat offset) data), s2, []) ∧
    FsState.fd_table s1 = FsState.fd_table s ∧ FsState.cwd_inode_nr s1 = FsState.cwd_inode_nr s ∧
    FsState.fd_table s2 = FsState.fd_table s ∧ FsState.cwd_inode_nr s2 = FsState.cwd_inode_nr s.
Proof.
  intros Hof Ho Hc Hend Hd. destruct (open_file_bytes _ _ _ _ _ _ _ Hof) as [_ Hsize].
  destruct Hof as [Hwf [Hfd Hg] [Hf Hpipe] Hrep (h1 & h2 & h3 & rest & Hh & N1 & N2 & N3)]. pose proof Hrep as (Ha & Hm & Hsz & HS & Hcase).
  assert (Hft : aget (file_table s) (Z.of_nat idx) = Ok f) by (apply aget_ok; rewrite Nat2Z.id; split; [lia|done]).
  pose proof (lookup_lt_Some _ _ _ Hf) as Hlt.
  set (f1 := File offset (fd_flag f) (fd_inode f)). set (s1 := set_file_table (<[idx := f1]> (file_table s)) s).
  assert (Hput : put_file (Z.of_nat idx) f1 s = Ok s1).
  { unfold put_file. rewrite aset_ok by (unfold zlen; lia). cbn [mbind outcome_bind]. by rewrite Nat2Z.id. }
  assert (Hf1 : file_table s1 !! idx = Some f1) by (by apply list_lookup_insert_eq).
  pose proof (file_read_ok idx dst count s1 f1 i bs data h1 h2 h3 rest) as Hread. cbn [fd_pos fd_inode f1] in Hread.
  replace (Z.min count (zlen data - offset)) with count in Hread by lia.
  replace (drop (Z.to_nat count) dst) with (@nil Z) in Hread by (symmetry; apply drop_ge; unfold zlen in *; lia). rewrite app_nil_r in Hread.
  exists s1. eexists. split; [|split].
  - unfold sys_lseek. destruct (Z.ltb_spec fd 0); [lia|]. mrun Hg. mrun Hft. unfold get_inode. mrun Ha. rewrite Hsz, (i32_small (zlen data)) by lia.
    change (SEEK_SET =? SEEK_SET) with true. cbn iota. rewrite !(i32_small offset), (i32_small (zlen data - 1)) by lia.
    destruct (Z.ltb_spec offset 0); [lia|]. rewrite Z.gtb_ltb. destruct (Z.ltb_spec (zlen data - 1) offset); [lia|]. cbn [orb].
    rewrite (u32_small offset) by lia. fold f1. mrun Hput. by rewrite i32_small by lia.
  - unfold sys_read. destruct (Z.ltb_spec fd 0); [lia|]. unfold stdout_no, stderr_no, stdin_no. rewrite !(proj2 (Z.eqb_neq fd _)) by lia. cbn [orb].
    unfold is_pipe. change (fd_local2global fd s1) with (fd_local2global fd s). mrun Hg.
    assert (Hft1 : aget (file_table s1) (Z.of_nat idx) = Ok f1) by (apply aget_ok; rewrite Nat2Z.id; split; [lia|done]).
    mrun Hft1. cbn [fd_flag f1]. rewrite (proj2 (Z.eqb_neq _ _) Hpipe). cbn [mbind outcome_bind].
    rewrite Hread; [done|by apply fs_wf_table|done| |done|done|done|done|lia|lia|lia].
    split; [done|]. split; [|done]. by apply (file_map_frame s _ i); [..|destruct Hm].
  - done.
Qed.

(** ** The running process and the file system *)

Section Running.
Context (t : task) (y : system) (Ht : tasks (ts (sk y)) !! cur (sk y) = Some t).

Lemma cur_mem_put_mem m' : cur_thread m' = cur (sk y) → cur_pgdir m' = pgdir t → cur_mem (put_mem m' (sk y)) = m'.
Proof using Ht.
  intros E1 E2. unfold cur_mem, put_mem, cur in *. simpl. rewrite lookup_alter_eq, Ht. simpl. destruct m'; simpl in *. by subst.
Qed.

Lemma cur_fs_put_mem m' : cur_fs (set_sk (put_mem m' (sk y)) y) = cur_fs y.
Proof using Ht. unfold cur_fs, put_mem, cur in *. simpl. by rewrite lookup_alter_eq, Ht. Qed.

Lemma cur_mem_put_fs s : cur_mem (sk (put_fs s y)) = cur_mem (sk y).
Proof using Ht. unfold cur_mem, put_fs, cur in *. simpl. by rewrite lookup_alter_eq, Ht. Qed.

Lemma cur_fs_put_fs s : FsState.cwd_inode_nr s = cwd_inode_nr t → cur_fs (put_fs s y) = s.
Proof using Ht. intros E. unfold cur_fs, put_fs, cur in *. simpl. rewrite lookup_alter_eq, Ht. simpl. destruct s. simpl in *. by subst. Qed.

Lemma cur_task_put_mem m' : tasks (ts (put_mem m' (sk y))) !! cur (put_mem m' (sk y)) = Some (set_uvaddr (cur_vaddr m') t).
Proof using Ht. unfold put_mem, cur in *. simpl. by rewrite lookup_alter_eq, Ht. Qed.

Lemma cur_task_put_fs s : tasks (ts (sk (put_fs s y))) !! cur (sk (put_fs s y)) = Some (set_fds (FsState.fd_table s) t).
Proof using Ht. unfold put_fs, cur in *. simpl. by rewrite lookup_alter_eq, Ht. Qed.
End Running.

Lemma cur_mem_eq t y : tasks (ts (sk y)) !! cur (sk y) = Some t →
  cur_thread (cur_mem (sk y)) = cur (sk y) ∧ cur_pgdir (cur_mem (sk y)) = pgdir t.
Proof. intros Ht. unfold cur_mem, cur in *. by rewrite Ht. Qed.

Lemma cur_fs_cwd t y : tasks (ts (sk y)) !! cur (sk y) = Some t → FsState.cwd_inode_nr (cur_fs y) = cwd_inode_nr t.
Proof. intros Ht. unfold cur_fs, cur in *. by rewrite Ht. Qed.

(** The pages that [segment_load] maps hold the segment. *)
Lemma seg_mapped_bytes vaddr filesz m m1 :
  0 ≤ vaddr → 0 < filesz → vaddr + filesz ≤ 0xc0000000 →
  seg_mapped (vaddr / 4096 * 4096) (occupy_pages vaddr filesz) m m1 → mapped_bytes m1 vaddr filesz.
Proof.
  intros H0 Hf Hend Hsm k Hk. split; [unfold user_va; lia|]. rewrite occupy_pages_eq in Hsm by lia.
  replace (vaddr + k - (vaddr + k) mod 4096) with (vaddr / 4096 * 4096 + ((vaddr + k) / 4096 - vaddr / 4096) * 4096) by zdm.
  apply (sm_pages _ _ _ _ Hsm). zdm.
Qed.

Lemma rd8_words y m m' : translate (phys m') (mcr3 m') y = translate (phys m) (mcr3 m) y →
  (∀ pa, translate (phys m) (mcr3 m) y = Some pa → phys m' !! word_of pa = phys m !! word_of pa) → rd8 y m' = rd8 y m.
Proof.
  intros E H. unfold rd8. rewrite E. destruct (translate (phys m) (mcr3 m) y) as [pa|]; [|done]. cbn [of_opt mbind outcome_bind].
  change (pa - pa mod 4) with (word_of pa). by rewrite (H pa eq_refl).
Qed.

(** Mapping leaves the bytes of the mapped pages alone. *)
Lemma seg_mapped_rd8 va n m m1 x :
  user_space m → seg_mapped va n m m1 → user_va x → is_Some (translate (phys m) (mcr3 m) (x - x mod 4096)) → rd8 x m1 = rd8 x m.
Proof.
  intros Hus Hsm Hx Hs. destruct (user_byte_of m x Hus Hx Hs) as (pa & r & Hb). apply rd8_words.
  - apply (sm_keep _ _ _ _ Hsm); [by apply user_va_ok|]. rewrite (ub_byte _ _ _ _ Hb). by eexists.
  - intros pa' E. rewrite (ub_byte _ _ _ _ Hb) in E. injection E as <-. destruct (ub_word _ _ _ _ Hb) as (j & Hj & ->).
    apply (sm_words _ _ _ _ Hsm); [|done]. destruct (ub_range _ _ _ _ Hb). lia.
Qed.


(** [segment_load] loads a segment.  In a process whose user pages lie in frames of their own,
    with an open program file that contains the segment, addresses inside the process's range and
    enough free frames for its pages, the call succeeds: the pages that were missing are mapped,
    the bytes [offset .. offset + filesz - 1] of the file are at [vaddr ..], every other byte that
    was mapped keeps its value, and the process's memory is again well formed.  The pages of the
    process's heap from which [sys_read] takes its buffers are not part of this model (Exec.v). *)
Theorem segment_load_places t y fd idx f i bs data offset filesz vaddr :
  tasks (ts (sk y)) !! cur (sk y) = Some t → user_space (cur_mem (sk y)) → open_file fd idx f i bs data (cur_fs y) →
  0 ≤ offset → 0 < filesz → offset + filesz ≤ zlen data → 0 ≤ vaddr → vaddr + filesz ≤ 0xc0000000 →
  in_range (cur_mem (sk y)) (vaddr / 4096 * 4096) (occupy_pages vaddr filesz) →
  occupy_pages vaddr filesz ≤ Z.of_nat (free_frames PF_USER (cur_mem (sk y))) →
  occupy_pages vaddr filesz ≤ Z.of_nat (free_frames PF_KERNEL (cur_mem (sk y))) →
  ∃ y', segment_load fd offset filesz vaddr y = Ok (true, y') ∧ user_space (cur_mem (sk y')) ∧
    rd_bytes (Z.to_nat filesz) vaddr (cur_mem (sk y')) = Ok (take (Z.to_nat filesz) (drop (Z.to_nat offset) data)) ∧
    ∀ x, user_va x → is_Some (translate (phys (cur_mem (sk y))) (mcr3 (cur_mem (sk y))) (x - x mod 4096)) →
      ¬ (vaddr ≤ x < vaddr + filesz) → rd8 x (cur_mem (sk y')) = rd8 x (cur_mem (sk y)).
Proof.
  intros Ht Hus Hof Ho Hf Hend Hv Hve Hrange Hfu Hfk. destruct (cur_mem_eq t y Ht) as [Em1 Em2]. set (m := cur_mem (sk y)) in *.
  assert (Hocc : 0 < occupy_pages vaddr filesz) by (rewrite occupy_pages_eq by lia; lia).
  destruct (map_segment_ok (Z.to_nat (occupy_pages vaddr filesz)) (vaddr / 4096 * 4096) m Hus) as (m1 & H1 & Hus1 & Hsm); [by rewrite Z2Nat.id by lia|zdm|lia|lia|].
  rewrite Z2Nat.id in Hsm by lia. destruct (sm_thread _ _ _ _ Hsm) as (T1 & T2 & T3).
  pose proof (seg_mapped_bytes vaddr filesz m m1 Hv Hf Hve Hsm) as Hmb.
  destruct (segment_read (Z.to_nat filesz) vaddr m1 Hus1) as (before & Hb & HLb); [by rewrite Z2Nat.id by lia|done|lia|].
  destruct (lseek_read_ok (cur (sk y)) fd idx f i bs data offset filesz before (cur_fs y) Hof Ho Hf Hend) as (s1 & s2 & R1 & R2 & R3 & R4 & R5 & R6); [unfold zlen; lia|].
  destruct (open_file_bytes _ _ _ _ _ _ _ Hof) as [HF _]. set (after := take (Z.to_nat filesz) (drop (Z.to_nat offset) data)) in *.
  assert (HLa : zlen after = filesz) by (subst after; unfold zlen in *; rewrite length_take, length_drop; lia).
  destruct (segment_write after vaddr m1 Hus1) as (m4 & W1 & W2 & W3 & W4); [by rewrite HLa|done|lia|by apply Forall_take, Forall_drop|].
  set (y1 := set_sk (put_mem m1 (sk y)) y). set (y2 := put_fs s1 y1). set (y3 := put_fs s2 y2).
  pose proof (cur_task_put_mem t y Ht m1) as Ht1. set (t1 := set_uvaddr (cur_vaddr m1) t) in *.
  assert (E1 : cur_mem (sk y1) = m1) by (apply (cur_mem_put_mem t y Ht); congruence).
  assert (F1 : cur_fs y1 = cur_fs y) by (by apply (cur_fs_put_mem t)).
  pose proof (cur_task_put_fs t1 y1 Ht1 s1) as Ht2. fold y2 in Ht2. set (t2 := set_fds (FsState.fd_table s1) t1) in *.
  assert (E2 : cur_mem (sk y2) = m1) by (rewrite <- E1; by apply (cur_mem_put_fs t1)).
  assert (F2 : cur_fs y2 = s1) by (apply (cur_fs_put_fs t1); [done|]; rewrite R4; exact (cur_fs_cwd t y Ht)).
  pose proof (cur_task_put_fs t2 y2 Ht2 s2) as Ht3. fold y3 in Ht3.
  assert (E3 : cur_mem (sk y3) = m1) by (rewrite <- E2; by apply (cur_mem_put_fs t2)).
  exists (set_sk (put_mem (with_phys m4 m1) (sk y3)) y3).
  assert (E4 : cur_mem (sk (set_sk (put_mem (with_phys m4 m1) (sk y3)) y3)) = with_phys m4 m1) by (apply (cur_mem_put_mem _ y3 Ht3); [exact (eq_trans T2 Em1)|exact (eq_trans T3 Em2)]).
  rewrite E4. split; [|split; [done|split]].
  - unfold segment_load. change (Z.land vaddr 0xfffff000) with (frame vaddr). rewrite frame_eq by lia. unfold on_mem. fold m. rewrite H1. cbn [mbind outcome_bind]. fold y1.
    unfold on_fs at 1. rewrite F1, R1. cbn [mbind outcome_bind]. fold y2. rewrite E2, Hb. cbn [mbind outcome_bind].
    unfold read_into, on_fs. rewrite F2. change (cur (sk y2)) with (cur (sk y)). rewrite R2. cbn [mbind outcome_bind fst snd]. fold y3.
    unfold on_mem_. rewrite E3, W1. done.
  - assert (EL : length after = Z.to_nat filesz) by (unfold zlen in HLa; lia). by rewrite <- EL.
  - intros x Hx Hs Hno. rewrite W4; [by apply (seg_mapped_rd8 _ _ m m1 x Hus Hsm)|done| |lia].
    rewrite (sm_keep _ _ _ _ Hsm); [done|apply user_va_ok; unfold user_va in *; zdm|done].
Qed.

(** ** Entering the program *)

(** [argv] points to [n] pointers and NULL. *)
Definition arg_vector (m : mstate) (argv n : Z) : Prop :=
  (∀ k, 0 ≤ k < n → ∃ p, rd32 (u32 (argv + 4 * k)) m = Ok p ∧ p ≠ 0) ∧ rd32 (u32 (argv + 4 * n)) m = Ok 0.

Lemma count_args_ok fuel argv n k m :
  arg_vector m argv n → 0 ≤ k ≤ n → n < 4294967296 → n - k < Z.of_nat fuel → count_args fuel argv k m = Ok n.
Proof.
  intros [H1 H2]. revert k. induction fuel as [|fuel IH]; intros k Hk Hn Hf; [lia|]. cbn [count_args].
  destruct (decide (k = n)) as [->|Hne]; [by mrun H2|]. destruct (H1 k) as (p & Hp & Hp0); [lia|]. mrun Hp.
  rewrite (proj2 (Z.eqb_neq _ _) Hp0), u32_small by lia. apply IH; lia.
Qed.

(** Loading changes neither the kernel stacks nor the running thread. *)
Definition same_kernel (y y' : system) : Prop := kw (sk y') = kw (sk y) ∧ cur (sk y') = cur (sk y).

Lemma same_kernel_trans y1 y2 y3 : same_kernel y1 y2 → same_kernel y2 y3 → same_kernel y1 y3.
Proof. intros [A1 A2] [B1 B2]. split; congruence. Qed.

Lemma on_fs_same {A} (f : FsState.fs → outcome (A * FsState.fs)) y a y' : on_fs f y = Ok (a, y') → same_kernel y y'.
Proof. unfold on_fs. intros H. apply bind_ok_iff in H as ([b s] & _ & H). by injection H as <- <-. Qed.

Lemma read_into_same fd dst n y r b y' : read_into fd dst n y = Ok (r, b, y') → same_kernel y y'.
Proof. unfold read_into. intros H. apply bind_ok_iff in H as ([[r1 b1] y1] & H1 & H). injection H as <- <- <-. by apply on_fs_same in H1. Qed.

Lemma segment_load_same fd off n va y b y' : segment_load fd off n va y = Ok (b, y') → same_kernel y y'.
Proof.
  unfold segment_load. intros H. apply bind_ok_iff in H as ([ok k] & H1 & H).
  assert (S1 : same_kernel y (set_sk k y)).
  { split; [by apply on_mem_kw in H1|]. unfold on_mem in H1. apply bind_ok_iff in H1 as ([b1 m] & _ & H1). by injection H1 as <- <-. }
  destruct ok; [|by injection H as <- <-]. apply bind_ok_iff in H as ([p y1] & H2 & H). apply on_fs_same in H2.
  apply bind_ok_iff in H as (before & _ & H). apply bind_ok_iff in H as ([[r after] y2] & H3 & H). apply read_into_same in H3.
  apply bind_ok_iff in H as (k2 & H4 & H). injection H as _ <-. do 3 (eapply same_kernel_trans; [eassumption|]).
  split; [by apply on_mem__kw in H4|]. unfold on_mem_ in H4. apply bind_ok_iff in H4 as (m & _ & H4). by injection H4 as <-.
Qed.

Lemma load_segments_same n fd off sz y b y' : load_segments n fd off sz y = Ok (b, y') → same_kernel y y'.
Proof.
  revert off y. induction n as [|n IH]; intros off y H; cbn [load_segments] in H; [by injection H as <- <-|].
  apply bind_ok_iff in H as ([p y1] & H1 & H). apply on_fs_same in H1.
  apply bind_ok_iff in H as ([[r hb] y2] & H2 & H). apply read_into_same in H2. pose proof (same_kernel_trans _ _ _ H1 H2) as S2.
  destruct (negb (r =? sz)); [by injection H as <- <-|]. apply bind_ok_iff in H as (ph & _ & H). apply bind_ok_iff in H as ([ok y3] & H3 & H).
  assert (S3 : same_kernel y y3).
  { apply (same_kernel_trans _ y2); [done|]. destruct (PT_LOAD =? p_type ph); [by apply segment_load_same in H3|by injection H3 as <- <-]. }
  destruct ok; [|by injection H as <- <-]. apply (same_kernel_trans _ y3); [done|]. by apply IH in H.
Qed.

Lemma load_same jn jd path y e y' : load jn jd path y = Ok (e, y') → same_kernel y y'.
Proof.
  unfold load. intros H. apply bind_ok_iff in H as ([fd y1] & H1 & H). apply on_fs_same in H1. destruct (fd =? -1); [by injection H as <- <-|].
  apply bind_ok_iff in H as ([[r b] y2] & H2 & H). apply read_into_same in H2. apply bind_ok_iff in H as ([ret y3] & H3 & H).
  assert (S3 : same_kernel y2 y3).
  { destruct (negb (r =? sizeof_Ehdr)); [by injection H3 as _ <-|]. apply bind_ok_iff in H3 as (h & _ & H3). destruct (negb (elf_ok h)); [by injection H3 as _ <-|].
    apply bind_ok_iff in H3 as ([ok y4] & H4 & H3). injection H3 as _ <-. by apply load_segments_same in H4. }
  apply bind_ok_iff in H as ([c y4] & H4 & H). apply on_fs_same in H4. injection H as _ <-.
  by do 3 (eapply same_kernel_trans; [eassumption|]).
Qed.

(** The registers of a program that starts. *)
Definition program_regs (argv argc entry : Z) (r : user_regs) : user_regs :=
  UserRegs (r_edi r) (r_esi r) (r_ebp r) argv (r_edx r) argc (r_eax r) (r_gs r) (r_fs r) (r_es r) (r_ds r)
           entry (r_cs r) (r_eflags r) 0xc0000000 (r_ss r).

(** The four words that [sys_execv] stores into the frame of the system call. *)
Lemma exec_frame sp argv argc entry w regs :
  intr_exit sp w = Ok regs →
  ∃ w', stores [(is_ebx sp, argv); (is_ecx sp, argc); (is_eip sp, entry); (is_esp sp, 0xc0000000)] w = Ok w' ∧
    intr_exit sp w' = Ok (program_regs argv argc entry regs) ∧
    ∀ a, ¬ (sp ≤ a < sp + sizeof_intr_stack) → words w' !! a = words w !! a.
Proof.
  intros H. unfold intr_exit, ld in H. repeat (apply bind_ok_iff in H as (? & ?%of_opt_ok & H)). injection H as <-.
  destruct (stores_ok [(is_ebx sp, argv); (is_ecx sp, argc); (is_eip sp, entry); (is_esp sp, 0xc0000000)] w) as [w' Hw'].
  { repeat (apply Forall_cons; split; [by eexists|]). by apply Forall_nil. }
  exists w'. split; [done|]. apply stores_words in Hw'. simpl in Hw'. split.
  - unfold intr_exit, ld. rewrite Hw'. unfold is_edi, is_esi, is_ebp, is_ebx, is_edx, is_ecx, is_eax, is_gs, is_fs, is_es, is_ds, is_eip, is_cs, is_eflags, is_esp, is_ss in *.
    repeat (first [rewrite lookup_insert_eq | rewrite lookup_insert_ne by lia | progress (cbn [of_opt mbind outcome_bind])
      | match goal with H : words w !! ?a = Some ?v |- context [words w !! ?a] => rewrite H end]). done.
  - intros a Ha. rewrite Hw'. unfold is_ebx, is_ecx, is_eip, is_esp, sizeof_intr_stack in *. rewrite !lookup_insert_ne by lia. done.
Qed.

(** [sys_execv] starts the program.  With [argc] pointers at [argv], and a load that comes to an
    end: when it fails the call returns -1 and every kernel stack is untouched, so that the caller
    goes on; otherwise the call does not return and the process enters user mode at the entry
    point, with the stack pointer at the top of user space, [argv] in ebx and [argc] in ecx, and
    the other registers (segments and flags among them) as the process had them when it made the
    system call; nothing outside the frame of the system call changed on the kernel stacks (the
    descriptors of the heap in the PCB, which [load] uses, are not part of this model, see Exec.v). *)
Theorem execv_enters jn jd fuel path argv argc e y y1 regs :
  arg_vector (cur_mem (sk y)) argv argc → 0 ≤ argc < Z.of_nat fuel → argc < 4294967296 → TASK_NAME_LEN ≤ zlen path →
  0 ≤ cur (sk y) → cur (sk y) + 4096 ≤ 4294967296 → intr_exit (syscall_frame (cur (sk y))) (kw (sk y)) = Ok regs →
  load jn jd path y = Ok (e, y1) →
  (e = -1 → sys_execv jn jd fuel path argv y = Ok (inl (-1), y1) ∧ kw (sk y1) = kw (sk y)) ∧
  (e ≠ -1 → ∃ y', sys_execv jn jd fuel path argv y = Ok (inr (program_regs argv argc (u32 e) regs), y') ∧
     ∀ a, ¬ (syscall_frame (cur (sk y)) ≤ a < cur (sk y) + 4096) → words (kw (sk y')) !! a = words (kw (sk y)) !! a).
Proof.
  intros Hargs Hargc Hmax Hpath H0 Hc Hregs Hload. unfold sys_execv. rewrite (count_args_ok fuel argv argc 0) by (done || lia). cbn [mbind outcome_bind].
  mrun Hload. destruct (load_same _ _ _ _ _ _ Hload) as [Ekw Ecur]. split.
  - intros ->. done.
  - intros He. rewrite (proj2 (Z.eqb_neq _ _) He). unfold slice. destruct (Z.leb_spec 0 0); [|lia]. rewrite Ecur.
    change (sizeof_intr_stack) with 76. replace (u32 (cur (sk y) + PG_SIZE - 76)) with (syscall_frame (cur (sk y))).
    2:{ unfold syscall_frame, sizeof_intr_stack, PG_SIZE. rewrite u32_small; lia. }
    destruct (exec_frame (syscall_frame (cur (sk y))) argv argc (u32 e) (kw (sk y)) regs Hregs) as (w' & W1 & W2 & W3).
    match goal with |- context [if ?b then _ else _] => destruct b eqn:Eb end.
    + cbn [mbind outcome_bind kw set_ts]. rewrite Ekw, W1. cbn [mbind outcome_bind]. rewrite W2. cbn [mbind outcome_bind].
      eexists. split; [done|]. intros a Ha. simpl. apply W3. unfold syscall_frame, sizeof_intr_stack, PG_SIZE in *. lia.
    + exfalso. unfold TASK_NAME_LEN in *. revert Eb. zbool. lia.
Qed.

(** *** Witnesses: the process of [fork_mem] *)

#[local] Opaque fork_phys.

Definition exec_task (fds : list Z) : task := Task 0 1 TASK_RUNNING 31 [] 31 0 fds 0xc0100000 fork_va 0 (-1) 0 0x19870916.

(** Thread 0x1000 runs; the words of its system call frame are their addresses. *)
Definition exec_kernel (fds : list Z) : kernel :=
  Kernel (TState {[ 0x1000 := exec_task fds ]} [] [0x1000] 0x1000 0 0 ∅ (Cpu 2) 0x100000 0 0)
    (PidPool (Bitmap.Bitmap 128 (replicate 129 0)) 1 lock_init) fork_mem
    (KMach (list_to_map ((λ j, (0x1fb4 + 4 * j, 0x1fb4 + 4 * j)) <$> seqZ 0 19)) (Cpu 2)) ∅.

Definition segment_system : system := System (exec_kernel [0; 1; 2; 3; -1; -1; -1; -1]) (demo_file_fs 1).

Lemma exec_cur_mem fds : cur_mem (exec_kernel fds) = fork_mem.
Proof. reflexivity. Qed.

Lemma fork_user_page x f :
  user_va x → x mod 4096 = 0 → translate fork_phys 0x100000 x = Some f → x = 0x8048000 ∧ f = 0x208000.
Proof.
  intros Hx Hal Ht. destruct (user_va_ok x Hx) as [Hok Hidx]. destruct (va_idx x Hok) as (Ei & Ej & _ & Hj).
  destruct (pde_exists fork_mem (PDE_IDX x) fork_mem_wf) as (e & He & _); [lia|].
  pose proof (translate_va fork_mem x e fork_mem_wf Hok He) as T. cbn [phys mcr3 fork_mem] in T. rewrite T in Ht. clear T.
  destruct (present e) eqn:Hp; [|discriminate Ht]. destruct (fork_pde (PDE_IDX x) e ltac:(lia) He Hp) as [[E _]|[E ->]]; [lia|]. clear He.
  rewrite entry_frame in Ht; [|split; done|done]. rewrite fork_lookup in Ht; [|apply (fork_frame 0); lia|done].
  unfold fork_word in Ht. change (0x200000 =? 0x100000) with false in Ht. change (0x200000 =? 0x101000) with false in Ht. change (0x200000 =? 0x200000) with true in Ht. cbn iota in Ht.
  destruct (Z.eqb_spec (PTE_IDX x) 72) as [E2|]; [|discriminate Ht]. rewrite entry_present, entry_frame in Ht; [|split; done|done|done]. injection Ht as <-. unfold user_va in Hx. split; zdm.
Qed.

Lemma fork_user_space : user_space fork_mem.
Proof.
  split.
  - exact fork_mem_wf.
  - split; cbn [phys mcr3 fork_mem].
    + intros x f Hx Hal Ht. destruct (fork_user_page x f Hx Hal Ht) as [-> ->]. exists 0. split; [split; done|]. split; reflexivity.
    + intros a b f Ha Hb Haa Hba Ta Tb. destruct (fork_user_page a f Ha Haa Ta) as [-> _], (fork_user_page b f Hb Hba Tb) as [-> _]. reflexivity.
  - split; [reflexivity|]. split; done.
  - exact (cf_umem _ _ _ _ _ fork_can).
  - by apply bitmap_wf_dec.
  - cbn [cur_vaddr fork_mem fork_va vaddr_start vaddr_bitmap]. change (nbits _) with 8. lia.
Qed.

Lemma segment_open : open_file 3 3 (File 0 2 0xc0200000) (demo_file_inode 1) [613] demo_hi (cur_fs segment_system).
Proof.
  change (cur_fs segment_system) with (demo_file_fs 1). split.
  - apply demo_file_wf.
  - split; [lia|reflexivity].
  - split; [reflexivity|done].
  - apply demo_file_rep. lia.
  - exists 0xc0101000, 0xc0102000, 0xc0103000, []. split; [reflexivity|]. split; [lia|]. split; lia.
Qed.


(** The two bytes go to the end of a page and to the start of one that is not there yet. *)
Lemma segment_load_places_witness :
  ∃ y', segment_load 3 0 2 0x8048fff segment_system = Ok (true, y') ∧ rd_bytes 2 0x8048fff (cur_mem (sk y')) = Ok [104; 105].
Proof.
  destruct (segment_load_places (exec_task [0; 1; 2; 3; -1; -1; -1; -1]) segment_system 3 3 (File 0 2 0xc0200000) (demo_file_inode 1) [613] demo_hi 0 2 0x8048fff)
    as (y' & H1 & _ & H2 & _).
  - reflexivity.
  - cbn [sk segment_system]. rewrite exec_cur_mem. exact fork_user_space.
  - exact segment_open.
  - lia.
  - lia.
  - vm_compute. discriminate.
  - lia.
  - lia.
  - cbn [sk segment_system]. rewrite exec_cur_mem. split; vm_compute; discriminate.
  - cbn [sk segment_system]. rewrite exec_cur_mem. vm_compute. discriminate.
  - cbn [sk segment_system]. rewrite exec_cur_mem. vm_compute. discriminate.
  - exists y'. split; [exact H1|exact H2].
Defined.

(** A program with one segment of four bytes for 0x8049000, written to "/p". *)
Definition elf_image : list Z :=
  [127; 69; 76; 70; 1; 1; 1] ++ replicate 9 0 ++ [2; 0; 3; 0; 1; 0; 0; 0; 0; 0x90; 4; 8; 52; 0; 0; 0] ++ replicate 8 0 ++
  [52; 0; 32; 0; 1; 0; 0; 0; 0; 0; 0; 0] ++
  [1; 0; 0; 0; 84; 0; 0; 0; 0; 0x90; 4; 8; 0; 0; 0; 0; 4; 0; 0; 0; 4; 0; 0; 0; 5; 0; 0; 0; 0; 0x10; 0; 0] ++ [184; 42; 0; 0].

Definition program_path : list Z := [47; 112; 0] ++ replicate 13 0.

Definition install : outcome FsState.fs :=
  s ← open_root_dir session_fs;
  '(fd, s) ← sys_open (replicate 16 9) (replicate 24 9) program_path 6 s;
  '(_, s, _) ← sys_write 1 fd elf_image (zlen elf_image) s;
  '(_, s) ← sys_close fd s;
  Ok s.

Definition exec_system : outcome system := s ← install; Ok (System (exec_kernel [0; 1; 2; -1; -1; -1; -1; -1]) s).

Definition exec_load : outcome (Z * system) := y ← exec_system; load (replicate 16 9) (replicate 24 9) program_path y.

Definition exec_result : outcome (Z * list Z) :=
  '(e, y) ← exec_load; b ← rd_bytes 4 0x8049000 (cur_mem (sk y)); Ok (e, b).

Lemma exec_result_ok : exec_result = Ok (0x8049000, [184; 42; 0; 0]).
Proof. vm_compute. reflexivity. Qed.

Lemma exec_start : ∃ s y1, exec_system = Ok (System (exec_kernel [0; 1; 2; -1; -1; -1; -1; -1]) s) ∧
  load (replicate 16 9) (replicate 24 9) program_path (System (exec_kernel [0; 1; 2; -1; -1; -1; -1; -1]) s) = Ok (0x8049000, y1).
Proof.
  pose proof exec_result_ok as H. unfold exec_result in H. apply bind_ok_iff in H as ([e y1] & H1 & H2). apply bind_ok_iff in H2 as (b & _ & H2). injection H2 as -> _.
  unfold exec_load in H1. apply bind_ok_iff in H1 as (y & Hy & H1). pose proof Hy as Hy'. unfold exec_system in Hy. apply bind_ok_iff in Hy as (s & _ & Hy). injection Hy as <-.
  exists s, y1. split; [exact Hy'|exact H1].
Qed.

Lemma exec_args : arg_vector fork_mem (0x8048000 + 4 * 1022) 1.
Proof.
  split.
  - intros k Hk. exists 7155. assert (k = 0) as -> by lia. split; [|lia]. rewrite u32_small by lia. exact (fork_read 1022 ltac:(lia)).
  - rewrite u32_small by lia. exact (fork_read 1023 ltac:(lia)).
Qed.

Lemma execv_enters_witness :
  ∃ y regs y', exec_system = Ok y ∧ r_eip regs = 0x8049000 ∧ r_ebx regs = 0x8048ff8 ∧ r_ecx regs = 1 ∧ r_esp regs = 0xc0000000 ∧
    sys_execv (replicate 16 9) (replicate 24 9) 10 program_path 0x8048ff8 y = Ok (inr regs, y').
Proof.
  destruct exec_start as (s & y1 & H1 & H2).
  destruct (intr_exit (syscall_frame 0x1000) (kw (exec_kernel []))) as [regs| | | |] eqn:Hr; [|discriminate Hr..].
  destruct (execv_enters (replicate 16 9) (replicate 24 9) 10 program_path 0x8048ff8 1 0x8049000
    (System (exec_kernel [0; 1; 2; -1; -1; -1; -1; -1]) s) y1 regs) as [_ Hok].
  - cbn [sk]. rewrite exec_cur_mem. exact exec_args.
  - lia.
  - lia.
  - vm_compute. discriminate.
  - vm_compute. discriminate.
  - vm_compute. discriminate.
  - exact Hr.
  - exact H2.
  - destruct Hok as (y' & Hy' & _); [lia|]. eexists _, _, y'. split; [exact H1|]. split; [|split; [|split; [|split; [|exact Hy']]]]; reflexivity.
Defined.
