(* ===== verification/Syscall.v ===== *)
(** * System calls (lib/user/syscall.c, userprog/syscall-init.c, kernel/kernel.s)

    The stubs load the registers and execute [int 0x80]; [syscall_handler] builds the frame of
    the call on the kernel stack of the thread, calls the function of the table and returns
    through [intr_exit].  The functions themselves are in the other files; here a call is any
    function of the three arguments on the kernel words. *)

From S2P Require Import Prelude Interrupt KList FsState File Pipe Fs Bitmap Sched Sync Paging Arena HeapPages Task WaitExit Fork ForkStack.

(** ** Numbers and table *)

Inductive SYSCALL_NR :=
  | SYS_GETPID | SYS_WRITE | SYS_MALLOC | SYS_FREE | SYS_FORK | SYS_READ | SYS_PUTCHAR | SYS_CLEAR | SYS_GETCWD
  | SYS_OPEN | SYS_CLOSE | SYS_LSEEK | SYS_UNLINK | SYS_MKDIR | SYS_OPENDIR | SYS_CLOSEDIR | SYS_CHDIR | SYS_RMDIR
  | SYS_READDIR | SYS_REWINDDIR | SYS_STAT | SYS_PS | SYS_EXECV | SYS_EXIT | SYS_WAIT | SYS_PIPE.

#[global] Instance SYSCALL_NR_eq_dec : EqDecision SYSCALL_NR.
Proof. solve_decision. Defined.

Definition all_calls : list SYSCALL_NR :=
  [SYS_GETPID; SYS_WRITE; SYS_MALLOC; SYS_FREE; SYS_FORK; SYS_READ; SYS_PUTCHAR; SYS_CLEAR; SYS_GETCWD;
   SYS_OPEN; SYS_CLOSE; SYS_LSEEK; SYS_UNLINK; SYS_MKDIR; SYS_OPENDIR; SYS_CLOSEDIR; SYS_CHDIR; SYS_RMDIR;
   SYS_READDIR; SYS_REWINDDIR; SYS_STAT; SYS_PS; SYS_EXECV; SYS_EXIT; SYS_WAIT; SYS_PIPE].

(** The value of the enumeration constant. *)
Definition nr (c : SYSCALL_NR) : Z :=
  match c with
  | SYS_GETPID => 0 | SYS_WRITE => 1 | SYS_MALLOC => 2 | SYS_FREE => 3 | SYS_FORK => 4 | SYS_READ => 5 | SYS_PUTCHAR => 6
  | SYS_CLEAR => 7 | SYS_GETCWD => 8 | SYS_OPEN => 9 | SYS_CLOSE => 10 | SYS_LSEEK => 11 | SYS_UNLINK => 12 | SYS_MKDIR => 13
  | SYS_OPENDIR => 14 | SYS_CLOSEDIR => 15 | SYS_CHDIR => 16 | SYS_RMDIR => 17 | SYS_READDIR => 18 | SYS_REWINDDIR => 19
  | SYS_STAT => 20 | SYS_PS => 21 | SYS_EXECV => 22 | SYS_EXIT => 23 | SYS_WAIT => 24 | SYS_PIPE => 25
  end.

(** The kernel functions that [syscall_init] stores. *)
Inductive kfunction :=
  | Sys_getpid | Sys_write | Sys_malloc | Sys_free | Sys_fork | Sys_read | Sys_putchar | Cls_screen | Sys_getcwd
  | Sys_open | Sys_close | Sys_lseek | Sys_unlink | Sys_mkdir | Sys_opendir | Sys_closedir | Sys_chdir | Sys_rmdir
  | Sys_readdir | Sys_rewinddir | Sys_stat | Sys_ps | Sys_execv | Sys_exit | Sys_wait | Sys_pipe.

Definition syscall_nr : Z := 32.

Definition table : Type := list (option kfunction).

Definition set_call (c : SYSCALL_NR) (f : kfunction) (t : table) : outcome table := aset t (nr c) (Some f).

Definition syscall_init (t : table) : outcome table :=
  t ← set_call SYS_GETPID Sys_getpid t;
  t ← set_call SYS_WRITE Sys_write t;
  t ← set_call SYS_MALLOC Sys_malloc t;
  t ← set_call SYS_FREE Sys_free t;
  t ← set_call SYS_FORK Sys_fork t;
  t ← set_call SYS_READ Sys_read t;
  t ← set_call SYS_PUTCHAR Sys_putchar t;
  t ← set_call SYS_CLEAR Cls_screen t;
  t ← set_call SYS_GETCWD Sys_getcwd t;
  t ← set_call SYS_OPEN Sys_open t;
  t ← set_call SYS_CLOSE Sys_close t;
  t ← set_call SYS_LSEEK Sys_lseek t;
  t ← set_call SYS_UNLINK Sys_unlink t;
  t ← set_call SYS_MKDIR Sys_mkdir t;
  t ← set_call SYS_OPENDIR Sys_opendir t;
  t ← set_call SYS_CLOSEDIR Sys_closedir t;
  t ← set_call SYS_CHDIR Sys_chdir t;
  t ← set_call SYS_RMDIR Sys_rmdir t;
  t ← set_call SYS_READDIR Sys_readdir t;
  t ← set_call SYS_REWINDDIR Sys_rewinddir t;
  t ← set_call SYS_STAT Sys_stat t;
  t ← set_call SYS_PS Sys_ps t;
  t ← set_call SYS_EXECV Sys_execv t;
  t ← set_call SYS_EXIT Sys_exit t;
  t ← set_call SYS_WAIT Sys_wait t;
  set_call SYS_PIPE Sys_pipe t.

(** [sys_getpid]; the rest are functions of the other files. *)
Definition sys_getpid (k : kernel) : outcome Z := t ← get_task (ts k) (cur k); Ok (u32 (pid t)).

(** ** The stubs *)

(** Registers when [int 0x80] is executed: the number in eax, arguments in ebx, ecx, edx. *)
Definition syscall0 (n : SYSCALL_NR) (r : user_regs) : user_regs := with_eax (nr n) r.
Definition with_ebx (v : Z) (r : user_regs) : user_regs :=
  UserRegs (r_edi r) (r_esi r) (r_ebp r) v (r_edx r) (r_ecx r) (r_eax r) (r_gs r) (r_fs r) (r_es r) (r_ds r)
           (r_eip r) (r_cs r) (r_eflags r) (r_esp r) (r_ss r).
Definition with_ecx (v : Z) (r : user_regs) : user_regs :=
  UserRegs (r_edi r) (r_esi r) (r_ebp r) (r_ebx r) (r_edx r) v (r_eax r) (r_gs r) (r_fs r) (r_es r) (r_ds r)
           (r_eip r) (r_cs r) (r_eflags r) (r_esp r) (r_ss r).
Definition with_edx (v : Z) (r : user_regs) : user_regs :=
  UserRegs (r_edi r) (r_esi r) (r_ebp r) (r_ebx r) v (r_ecx r) (r_eax r) (r_gs r) (r_fs r) (r_es r) (r_ds r)
           (r_eip r) (r_cs r) (r_eflags r) (r_esp r) (r_ss r).
Definition syscall1 (n : SYSCALL_NR) (a : Z) (r : user_regs) : user_regs := with_ebx a (syscall0 n r).
Definition syscall2 (n : SYSCALL_NR) (a b : Z) (r : user_regs) : user_regs := with_ecx b (syscall1 n a r).
Definition syscall3 (n : SYSCALL_NR) (a b c : Z) (r : user_regs) : user_regs := with_edx c (syscall2 n a b r).

Definition getpid := syscall0 SYS_GETPID.
Definition write (fd buf count : Z) := syscall3 SYS_WRITE (u32 fd) buf count.
Definition malloc (size : Z) := syscall1 SYS_MALLOC size.
Definition free (ptr : Z) := syscall1 SYS_FREE ptr.
Definition fork := syscall0 SYS_FORK.
Definition read (fd buf count : Z) := syscall3 SYS_READ (u32 fd) buf count.
Definition putchar (char_asci : Z) := syscall1 SYS_PUTCHAR (u32 (i8 char_asci)).
Definition clear := syscall0 SYS_CLEAR.
Definition getcwd (buf size : Z) := syscall2 SYS_GETCWD buf size.
Definition open (pathname flag : Z) := syscall2 SYS_OPEN pathname (u8 flag).
Definition close (fd : Z) := syscall1 SYS_CLOSE (u32 fd).
Definition lseek (fd offset whence : Z) := syscall3 SYS_LSEEK (u32 fd) (u32 offset) (u8 whence).
Definition unlink (pathname : Z) := syscall1 SYS_UNLINK pathname.
Definition mkdir (pathname : Z) := syscall1 SYS_MKDIR pathname.
Definition opendir (name : Z) := syscall1 SYS_OPENDIR name.
Definition closedir (d : Z) := syscall1 SYS_CLOSEDIR d.
Definition rmdir (pathname : Z) := syscall1 SYS_RMDIR pathname.
Definition readdir (d : Z) := syscall1 SYS_READDIR d.
Definition rewinddir (d : Z) := syscall1 SYS_REWINDDIR d.
Definition stat (path buf : Z) := syscall2 SYS_STAT path buf.
Definition chdir (path : Z) := syscall1 SYS_CHDIR path.
Definition ps := syscall0 SYS_PS.
Definition execv (pathname argv : Z) := syscall2 SYS_EXECV pathname argv.
Definition exit (status : Z) := syscall1 SYS_EXIT (u32 status).
Definition wait (status : Z) := syscall1 SYS_WAIT status.
Definition pipe (pipefd : Z) := syscall1 SYS_PIPE pipefd.

(** ** The handler *)

(** Pushes, from the stack pointer [sp]. *)
Fixpoint push_all (l : list Z) (sp : Z) (w : kmach) : outcome (Z * kmach) :=
  match l with
  | [] => Ok (sp, w)
  | v :: l => w ← stk w (sp - 4) v; push_all l (sp - 4) w
  end.

(** The processor on [int 0x80] from user mode: the stack pointer of the TSS, five words. *)
Definition int_0x80 (esp0 : Z) (r : user_regs) (w : kmach) : outcome (Z * kmach) :=
  push_all [r_ss r; r_esp r; r_eflags r; r_cs r; r_eip r] esp0 w.

(** [push 0], the segment registers, [pushad] and [push 0x80]. *)
Definition save_context (r : user_regs) (sp : Z) (w : kmach) : outcome (Z * kmach) :=
  '(sp, w) ← push_all [0; r_ds r; r_es r; r_fs r; r_gs r] sp w;
  push_all [r_eax r; r_ecx r; r_edx r; r_ebx r; sp; r_ebp r; r_esi r; r_edi r; 0x80] sp w.

Section Handler.
(** A function of the table, with three arguments, on the kernel words. *)
Context (call : kfunction → Z → Z → Z → kmach → outcome (Z * kmach)).
(** The address behind the [call] instruction. *)
Context (ret_addr : Z).

(** The arguments are read where the C function finds them, above its return address. *)
Definition call_table (t : table) (eax sp : Z) (w : kmach) : outcome (Z * kmach) :=
  f ← aget t eax;
  match f with
  | None => Fault
  | Some f =>
      w ← stk w (sp - 4) ret_addr;
      a ← ld (words w) sp;
      b ← ld (words w) (sp + 4);
      c ← ld (words w) (sp + 8);
      call f a b c w
  end.

Definition syscall_handler (t : table) (esp0 : Z) (r : user_regs) (w : kmach) : outcome (user_regs * kmach) :=
  '(sp, w) ← int_0x80 esp0 r w;
  '(sp, w) ← save_context r sp w;
  '(sp', w) ← push_all [r_edx r; r_ecx r; r_ebx r] sp w;
  '(eax, w) ← call_table t (r_eax r) sp' w;
  w ← stk w (sp + 8 * 4) eax;
  r ← intr_exit sp w;
  Ok (r, w).
End Handler.

(** ** The frame *)

Definition in_stack (w : kmach) (lo hi : Z) : Prop := ∀ a, lo ≤ a < hi → a mod 4 = 0 → is_Some (words w !! a).

(** [l] is what lies below [sp] after the pushes, from the top. *)
Definition pushed (l : list Z) (sp : Z) (m : mem) : Prop := ∀ k v, l !! k = Some v → m !! (sp - 4 * (Z.of_nat k + 1)) = Some v.

Lemma push_all_ok l sp w :
  in_stack w (sp - 4 * Z.of_nat (length l)) sp → sp mod 4 = 0 →
  ∃ w', push_all l sp w = Ok (sp - 4 * Z.of_nat (length l), w') ∧ pushed l sp (words w') ∧
    (∀ a, ¬ (sp - 4 * Z.of_nat (length l) ≤ a < sp) → words w' !! a = words w !! a) ∧ (∀ a, is_Some (words w !! a) → is_Some (words w' !! a)).
Proof.
  revert sp w. induction l as [|v l IH]; intros sp w Hst Hal; cbn [push_all length].
  { exists w. replace (sp - 4 * Z.of_nat 0) with sp by lia. done. }
  cbn [length] in Hst. mrun (stk_ok w (sp - 4) v ltac:(apply Hst; [lia|zdm])). set (w1 := KMach _ _).
  destruct (IH (sp - 4) w1) as (w' & H1 & H2 & H3 & H4); [|zdm|].
  - intros a Ha Ha4. unfold w1. cbn [words]. rewrite lookup_insert. case_decide; [done|]. apply Hst; [lia|done].
  - exists w'. split; [rewrite H1; do 2 f_equal; lia|]. split; [|split].
    + intros [|k] x Hx; simpl in Hx.
      * injection Hx as <-. rewrite H3 by lia. unfold w1. cbn [words]. replace (sp - 4 * (Z.of_nat 0 + 1)) with (sp - 4) by lia. apply lookup_insert_eq.
      * specialize (H2 k x Hx). by replace (sp - 4 * (Z.of_nat (S k) + 1)) with (sp - 4 - 4 * (Z.of_nat k + 1)) by lia.
    + intros a Ha. rewrite H3 by lia. unfold w1. cbn [words]. rewrite lookup_insert_ne; [done|lia].
    + intros a Ha. apply H4. unfold w1. cbn [words]. rewrite lookup_insert. by case_decide.
Qed.

(** What each number stands for. *)
Definition function_of (c : SYSCALL_NR) : kfunction :=
  match c with
  | SYS_GETPID => Sys_getpid | SYS_WRITE => Sys_write | SYS_MALLOC => Sys_malloc | SYS_FREE => Sys_free | SYS_FORK => Sys_fork
  | SYS_READ => Sys_read | SYS_PUTCHAR => Sys_putchar | SYS_CLEAR => Cls_screen | SYS_GETCWD => Sys_getcwd | SYS_OPEN => Sys_open
  | SYS_CLOSE => Sys_close | SYS_LSEEK => Sys_lseek | SYS_UNLINK => Sys_unlink | SYS_MKDIR => Sys_mkdir | SYS_OPENDIR => Sys_opendir
  | SYS_CLOSEDIR => Sys_closedir | SYS_CHDIR => Sys_chdir | SYS_RMDIR => Sys_rmdir | SYS_READDIR => Sys_readdir
  | SYS_REWINDDIR => Sys_rewinddir | SYS_STAT => Sys_stat | SYS_PS => Sys_ps | SYS_EXECV => Sys_execv | SYS_EXIT => Sys_exit
  | SYS_WAIT => Sys_wait | SYS_PIPE => Sys_pipe
  end.

(** The static table is zero before [syscall_init]. *)
Definition empty_table : table := replicate 32 None.

Lemma syscall_init_ok : ∃ t, syscall_init empty_table = Ok t ∧ ∀ c, aget t (nr c) = Ok (Some (function_of c)).
Proof. eexists. split; [vm_compute; reflexivity|]. by intros []. Qed.

(** The nineteen words of the frame, from the top. *)
Definition frame_words (r : user_regs) (esp code vec : Z) : list Z :=
  [r_ss r; r_esp r; r_eflags r; r_cs r; r_eip r; code; r_ds r; r_es r; r_fs r; r_gs r;
   r_eax r; r_ecx r; r_edx r; r_ebx r; esp; r_ebp r; r_esi r; r_edi r; vec].

Lemma push_all_app l1 l2 sp w : push_all (l1 ++ l2) sp w = ('(sp, w) ← push_all l1 sp w; push_all l2 sp w).
Proof.
  revert sp w. induction l1 as [|v l1 IH]; intros sp w; [done|]. cbn [push_all app]. destruct (stk w (sp - 4) v); try done. cbn [mbind outcome_bind]. apply IH.
Qed.

Lemma push_all_sp l sp w sp' w' : push_all l sp w = Ok (sp', w') → sp' = sp - 4 * Z.of_nat (length l).
Proof.
  revert sp w. induction l as [|v l IH]; intros sp w H; cbn [push_all length] in *; [injection H as <- _; lia|].
  apply bind_ok_iff in H as (w1 & _ & H). apply IH in H. lia.
Qed.

Lemma frame_saved r t w : ('(sp, w) ← int_0x80 (t + 4096) r w; save_context r sp w) = push_all (frame_words r (t + 4056) 0 0x80) (t + 4096) w.
Proof.
  unfold int_0x80, save_context.
  change (frame_words r (t + 4056) 0 0x80) with ([r_ss r; r_esp r; r_eflags r; r_cs r; r_eip r] ++ [0; r_ds r; r_es r; r_fs r; r_gs r] ++
    [r_eax r; r_ecx r; r_edx r; r_ebx r; t + 4056; r_ebp r; r_esi r; r_edi r; 0x80]).
  rewrite push_all_app. destruct (push_all [r_ss r; _; _; _; _] _ _) as [[sp1 w1]| | | |] eqn:E1; try done. cbn [mbind outcome_bind]. apply push_all_sp in E1.
  rewrite push_all_app. destruct (push_all [0; _; _; _; _] _ _) as [[sp2 w2]| | | |] eqn:E2; try done. cbn [mbind outcome_bind]. apply push_all_sp in E2.
  cbn [length] in E1, E2. by replace sp2 with (t + 4056) by lia.
Qed.

(** A frame with these words is what [intr_exit] takes the registers from. *)
Lemma frame_exit r esp code vec t w : pushed (frame_words r esp code vec) (t + 4096) (words w) → intr_exit (syscall_frame t) w = Ok r.
Proof.
  intros H. unfold intr_exit, ld, syscall_frame, PG_SIZE, sizeof_intr_stack, is_edi, is_esi, is_ebp, is_ebx, is_edx, is_ecx, is_eax, is_gs, is_fs, is_es, is_ds, is_eip, is_cs, is_eflags, is_esp, is_ss.
  assert (Hk : ∀ k v a, frame_words r esp code vec !! k = Some v → a = t + 4096 - 4 * (Z.of_nat k + 1) → words w !! a = Some v) by (intros k v a Hk ->; by apply H).
  rewrite (Hk 17%nat (r_edi r) (t + 4096 - 76 + 4)), (Hk 16%nat (r_esi r) (t + 4096 - 76 + 8)), (Hk 15%nat (r_ebp r) (t + 4096 - 76 + 12)),
    (Hk 13%nat (r_ebx r) (t + 4096 - 76 + 20)), (Hk 12%nat (r_edx r) (t + 4096 - 76 + 24)), (Hk 11%nat (r_ecx r) (t + 4096 - 76 + 28)),
    (Hk 10%nat (r_eax r) (t + 4096 - 76 + 32)), (Hk 9%nat (r_gs r) (t + 4096 - 76 + 36)), (Hk 8%nat (r_fs r) (t + 4096 - 76 + 40)),
    (Hk 7%nat (r_es r) (t + 4096 - 76 + 44)), (Hk 6%nat (r_ds r) (t + 4096 - 76 + 48)), (Hk 4%nat (r_eip r) (t + 4096 - 76 + 56)),
    (Hk 3%nat (r_cs r) (t + 4096 - 76 + 60)), (Hk 2%nat (r_eflags r) (t + 4096 - 76 + 64)), (Hk 1%nat (r_esp r) (t + 4096 - 76 + 68)),
    (Hk 0%nat (r_ss r) (t + 4096 - 76 + 72)) by (reflexivity || lia).
  by destruct r.
Qed.

(** C18: a system call.  A user thread [t] (whose TSS entry is the top of its page) with registers [r]
    executes [int 0x80]; eax holds a number of the enumeration.  [syscall_handler] enters exactly
    the kernel function that [syscall_init] put there for the number, with ebx, ecx and edx as its
    arguments; while it runs the frame of the call at the top of the page of [t] holds [r], and no
    word above the page or below the 92 bytes used was changed.  If the function returns [v] and
    leaves the frame alone, the thread goes on in user mode with its registers, eax being [v]. *)
Theorem syscall_convention call ret_addr t r c w :
  t mod 4096 = 0 → in_stack w (t + 4004) (t + 4096) → r_eax r = nr c →
  ∃ tab w1, syscall_init empty_table = Ok tab ∧ intr_exit (syscall_frame t) w1 = Ok r ∧
    (∀ a, ¬ (t + 4004 ≤ a < t + 4096) → words w1 !! a = words w !! a) ∧
    ∀ v w2, call (function_of c) (r_ebx r) (r_ecx r) (r_edx r) w1 = Ok (v, w2) →
      (∀ a, syscall_frame t ≤ a < t + 4096 → words w2 !! a = words w1 !! a) →
      ∃ w', syscall_handler call ret_addr tab (t + 4096) r w = Ok (with_eax v r, w') ∧
        ∀ a, ¬ (syscall_frame t ≤ a < t + 4096) → words w' !! a = words w2 !! a.
Proof.
  intros Hal Hst Hnr. destruct syscall_init_ok as (tab & Htab & Hget). exists tab.
  destruct (push_all_ok (frame_words r (t + 4056) 0 0x80) (t + 4096) w) as (wf & F1 & F2 & F3 & F4); [intros a Ha Ha4; apply Hst; simpl in *; [lia|done]|zdm|].
  change (Z.of_nat (length (frame_words r (t + 4056) 0 0x80))) with 19 in *. replace (t + 4096 - 4 * 19) with (syscall_frame t) in * by (unfold syscall_frame, PG_SIZE, sizeof_intr_stack; lia).
  assert (Esf : syscall_frame t = t + 4020) by (unfold syscall_frame, PG_SIZE, sizeof_intr_stack; lia).
  destruct (push_all_ok [r_edx r; r_ecx r; r_ebx r] (syscall_frame t) wf) as (wa & A1 & A2 & A3 & A4); [intros a Ha Ha4; apply F4, Hst; simpl in *; [lia|done]|rewrite Esf; zdm|].
  cbn [length] in A1, A3. change (Z.of_nat 3) with 3 in *. set (sp' := syscall_frame t - 4 * 3) in *.
  assert (Hret : is_Some (words wa !! (sp' - 4))) by (apply A4, F4, Hst; [unfold sp'; lia|unfold sp'; rewrite Esf; zdm]).
  set (w1 := KMach (<[sp' - 4 := ret_addr]> (words wa)) (kcpu wa)).
  assert (Hargs : ∀ k v, [r_edx r; r_ecx r; r_ebx r] !! k = Some v → words w1 !! (syscall_frame t - 4 * (Z.of_nat k + 1)) = Some v).
  { intros k v Hk. pose proof (lookup_lt_Some _ _ _ Hk) as Hlt. simpl in Hlt. unfold w1. cbn [words]. rewrite lookup_insert_ne by (unfold sp'; lia). by apply A2. }
  assert (Hf1 : ∀ a, syscall_frame t ≤ a → words w1 !! a = words wf !! a).
  { intros a Ha. unfold w1. cbn [words]. rewrite lookup_insert_ne by (unfold sp'; lia). apply A3. lia. }
  assert (Hpu : ∀ x, (∀ a, syscall_frame t ≤ a < t + 4096 → words x !! a = words wf !! a) → pushed (frame_words r (t + 4056) 0 0x80) (t + 4096) (words x)).
  { intros x Hx k v Hk. pose proof (lookup_lt_Some _ _ _ Hk) as Hlt. simpl in Hlt. rewrite Hx by lia. by apply F2. }
  exists w1. split; [done|]. split; [apply (frame_exit r (t + 4056) 0 0x80), Hpu; intros a Ha; apply Hf1; lia|]. split.
  { intros a Ha. unfold w1. cbn [words]. rewrite lookup_insert_ne by (unfold sp'; lia). rewrite A3, F3 by lia. done. }
  intros v w2 Hcall Hkeep. unfold syscall_handler. pose proof (frame_saved r t w) as Hs. rewrite F1 in Hs.
  destruct (int_0x80 (t + 4096) r w) as [[sp0 w0]| | | |]; try done. cbn [mbind outcome_bind] in *. rewrite Hs. cbn [mbind outcome_bind]. rewrite A1. cbn [mbind outcome_bind].
  unfold call_table. rewrite Hnr, Hget. cbn [mbind outcome_bind]. mrun (stk_ok wa (sp' - 4) ret_addr Hret). fold w1. unfold ld.
  pose proof (Hargs 2%nat (r_ebx r) eq_refl) as X1. pose proof (Hargs 1%nat (r_ecx r) eq_refl) as X2. pose proof (Hargs 0%nat (r_edx r) eq_refl) as X3.
  change (Z.of_nat 2 + 1) with 3 in X1. change (Z.of_nat 1 + 1) with 2 in X2. change (Z.of_nat 0 + 1) with 1 in X3.
  replace (sp' + 4) with (syscall_frame t - 4 * 2) by (unfold sp'; lia). replace (sp' + 8) with (syscall_frame t - 4 * 1) by (unfold sp'; lia).
  fold sp' in X1. rewrite X1, X2, X3. cbn [of_opt mbind outcome_bind]. rewrite Hcall. cbn [mbind outcome_bind].
  assert (Hw2 : pushed (frame_words r (t + 4056) 0 0x80) (t + 4096) (words w2)) by (apply Hpu; intros a Ha; rewrite Hkeep, Hf1 by lia; done).
  assert (He : is_Some (words w2 !! (syscall_frame t + 8 * 4))).
  { specialize (Hw2 10%nat (r_eax r) eq_refl). replace (syscall_frame t + 8 * 4) with (t + 4096 - 4 * (Z.of_nat 10 + 1)) by lia. by eexists. }
  mrun (stk_ok w2 _ v He). set (w3 := KMach _ _).
  assert (Hw3 : pushed (frame_words (with_eax v r) (t + 4056) 0 0x80) (t + 4096) (words w3)).
  { intros k x Hk. unfold w3. cbn [words]. rewrite lookup_insert. case_decide as E.
    - assert (k = 10%nat) as -> by lia. simpl in Hk. by injection Hk as ->.
    - apply Hw2. do 10 (destruct k as [|k]; [exact Hk|]). destruct k as [|k]; [exfalso; lia|]. exact Hk. }
  rewrite (frame_exit (with_eax v r) (t + 4056) 0 0x80 t w3 Hw3). cbn [mbind outcome_bind]. exists w3. split; [done|].
  intros a Ha. unfold w3. cbn [words]. apply lookup_insert_ne. lia.
Qed.

(** *** Witness: [write (1, 0x8048000, 5)], by a function that returns its third argument *)

Definition demo_call (f : kfunction) (a b c : Z) (w : kmach) : outcome (Z * kmach) := Ok (c, w).

Definition demo_stack : kmach := KMach (list_to_map ((λ j, (0x1fa4 + 4 * j, 0)) <$> seqZ 0 23)) (Cpu 2).

Definition demo_user : user_regs := UserRegs 1 2 3 4 5 6 7 0x33 0x33 0x33 0x33 0x8048123 0x2b 0x202 0xbffffff0 0x33.

Lemma demo_stack_mem : in_stack demo_stack (0x1000 + 4004) (0x1000 + 4096).
Proof.
  intros a Ha Ha4. unfold demo_stack. cbn [words].
  assert (Hin : ∃ j, 0 ≤ j < 23 ∧ a = 0x1fa4 + 4 * j) by (exists ((a - 0x1fa4) / 4); zdm). destruct Hin as (j & Hj & ->).
  exists 0. apply elem_of_list_to_map_1; [vm_compute; by apply (bool_decide_unpack _)|]. apply list_elem_of_fmap. exists j. split; [done|]. apply elem_of_seqZ. lia.
Qed.

Lemma syscall_convention_witness :
  ∃ tab w', syscall_init empty_table = Ok tab ∧
    syscall_handler demo_call 0xc0001500 tab (0x1000 + 4096) (write 1 0x8048000 5 demo_user) demo_stack =
      Ok (with_eax 5 (write 1 0x8048000 5 demo_user), w').
Proof.
  destruct (syscall_convention demo_call 0xc0001500 0x1000 (write 1 0x8048000 5 demo_user) SYS_WRITE demo_stack) as (tab & w1 & H1 & _ & _ & H2).
  - reflexivity.
  - exact demo_stack_mem.
  - reflexivity.
  - destruct (H2 5 w1) as (w' & H3 & _); [reflexivity|reflexivity|]. exists tab, w'. split; [exact H1|exact H3].
Defined.
