(* ===== verification/Boot.v ===== *)
(** * Setting up the machine (kernel/interrupt.c, userprog/tss.c, device/timer.c)

    The bytes written to the ports of the interrupt controllers and of the timer chip, and what
    these chips make of them; the TSS and the user segments; sleeping. *)

From S2P Require Import Prelude Interrupt Bitmap Sched Sync Task.

(** ** Ports *)

(** The bytes written so far, each with its port. *)
Definition io := list (Z * Z).
Definition outb (port data : Z) (l : io) : io := l ++ [(port, u8 data)].

Definition PIC_M_CTRL : Z := 0x20.
Definition PIC_M_DATA : Z := 0x21.
Definition PIC_S_CTRL : Z := 0xa0.
Definition PIC_S_DATA : Z := 0xa1.

Definition pic_init (l : io) : io :=
  let l := outb PIC_M_CTRL 0x11 l in
  let l := outb PIC_M_DATA 0x20 l in
  let l := outb PIC_M_DATA 0x04 l in
  let l := outb PIC_M_DATA 0x10 l in
  let l := outb PIC_S_CTRL 0x11 l in
  let l := outb PIC_S_DATA 0x28 l in
  let l := outb PIC_S_DATA 0x02 l in
  let l := outb PIC_S_DATA 0x10 l in
  let l := outb PIC_M_DATA 0xf8 l in
  outb PIC_S_DATA 0xbf l.

Definition IRQ0_FREQUENCY : Z := 100.
Definition INPUT_FREQUENCY : Z := 1193180.
Definition COUNTER0_VALUE : Z := INPUT_FREQUENCY / IRQ0_FREQUENCY.
Definition CONTRER0_PORT : Z := 0x40.
Definition COUNTER0_NO : Z := 0.
Definition COUNTER_MODE : Z := 2.
Definition READ_WRITE_LATCH : Z := 3.
Definition PIT_CONTROL_PORT : Z := 0x43.
Definition mil_seconds_per_intr : Z := 1000 / IRQ0_FREQUENCY.

Definition frequency_set (counter_port counter_no rwl counter_mode counter_value : Z) (l : io) : io :=
  let l := outb PIT_CONTROL_PORT (Z.lor (Z.lor (Z.shiftl counter_no 6) (Z.shiftl rwl 4)) (Z.shiftl counter_mode 1)) l in
  let l := outb counter_port counter_value l in
  outb counter_port (Z.shiftr (u16 counter_value) 8) l.

Definition timer_init (handler : Z) (idt_table : list Z) (l : io) : outcome (list Z * io) :=
  let l := frequency_set CONTRER0_PORT COUNTER0_NO READ_WRITE_LATCH COUNTER_MODE COUNTER0_VALUE l in
  t ← register_handler idt_table 0x20 handler; Ok (t, l).

(** Vectors of exceptions that nobody handles: two are ignored, for the others a message is
    printed and the machine stops. *)
Definition general_intr_handler (vec_nr : Z) : outcome unit :=
  if (vec_nr =? 0x27) || (vec_nr =? 0x2f) then Ok () else Panic.

(** [idt_init]: gates, handlers and controllers; the operand of [lidt] is the third component. *)
Definition idt_init (intr_entry_table : list Z) (syscall_handler general idt : Z) (l : io)
    : outcome (list gate_desc * list Z * Z * io) :=
  gates ← idt_desc_init intr_entry_table syscall_handler;
  let idt_table := exception_init general in
  let l := pic_init l in
  Ok (gates, idt_table, Z.lor (8 * Z.of_nat IDT_DESC_CNT - 1) (Z.shiftl (u32 idt) 16), l).

(** ** The interrupt controllers *)

(** An 8259: the initialisation words that are still to come, the vector of its first line and
    the masked lines. *)
Record pic := Pic { want : list Z; vector_base : Z; line_mask : Z }.

Definition pic_reset : pic := Pic [] 0 0xff.

(** Bit 4 of a command word starts the initialisation: ICW2, ICW3 and, with bit 0, ICW4. *)
Definition pic_ctrl (v : Z) (p : pic) : pic :=
  if Z.testbit v 4 then Pic ([2; 3] ++ (if Z.testbit v 0 then [4] else [])) (vector_base p) 0 else p.

Definition pic_data (v : Z) (p : pic) : pic :=
  match want p with
  | [] => Pic [] (vector_base p) v
  | i :: rest => Pic rest (if i =? 2 then Z.land v 0xf8 else vector_base p) (line_mask p)
  end.

Definition pic_write (ctrl data : Z) (x : Z * Z) (p : pic) : pic :=
  if x.1 =? ctrl then pic_ctrl x.2 p else if x.1 =? data then pic_data x.2 p else p.

Definition pic_run (ctrl data : Z) (l : io) (p : pic) : pic := foldl (λ p x, pic_write ctrl data x p) p l.

(** The vector at which line [n] interrupts the processor; the slave hangs on line 2. *)
Definition irq_vector (m s : pic) (n : Z) : option Z :=
  if n <? 8 then if Z.testbit (line_mask m) n then None else Some (vector_base m + n)
  else if Z.testbit (line_mask m) 2 || Z.testbit (line_mask s) (n - 8) then None else Some (vector_base s + (n - 8)).

(** ** The timer chip *)

(** An 8253: the control word, the bytes received since, and the value the first counter is
    reloaded with. *)
Record pit := Pit { control : Z; latch : list Z; reload : option Z }.

Definition pit_write (x : Z * Z) (p : pit) : pit :=
  if x.1 =? PIT_CONTROL_PORT then Pit x.2 [] None
  else if x.1 =? CONTRER0_PORT then
    match latch p with
    | [] => Pit (control p) [x.2] (reload p)
    | lo :: _ => Pit (control p) [] (Some (lo + 256 * x.2))
    end
  else p.

Definition pit_run (l : io) (p : pit) : pit := foldl (λ p x, pit_write x p) p l.

(** After [idt_init] and [timer_init] the lines 0 (clock), 1 (keyboard), 2 and 14 (first disk
    channel) interrupt at the vectors 0x20 and up where their handlers are registered, and no
    other line does; the clock ticks in mode 2 every 11931 input cycles, that is 100 times a
    second.  Line 15 stays masked, although [ide_init] registers a handler for it and waits for
    the second channel. *)
Theorem interrupt_lines general idt_addr entry_table syscall_addr timer_addr gates handlers op l handlers' l' :
  idt_init entry_table syscall_addr general idt_addr [] = Ok (gates, handlers, op, l) →
  timer_init timer_addr handlers l = Ok (handlers', l') →
  (∀ n, 0 ≤ n < 16 → irq_vector (pic_run PIC_M_CTRL PIC_M_DATA l' pic_reset) (pic_run PIC_S_CTRL PIC_S_DATA l' pic_reset) n =
     if decide (n ∈ [0; 1; 2; 14]) then Some (0x20 + n) else None) ∧
  reload (pit_run l' (Pit 0 [] None)) = Some 11931 ∧ INPUT_FREQUENCY / 11931 = IRQ0_FREQUENCY ∧
  handlers' !! 0x20%nat = Some timer_addr ∧ ∀ v, (v < 129)%nat → v ≠ 0x20%nat → handlers' !! v = Some general.
Proof.
  intros H1 H2. unfold idt_init in H1. apply bind_ok_iff in H1 as (g & _ & H1). injection H1 as _ <- _ <-.
  unfold timer_init in H2. apply bind_ok_iff in H2 as (t & Ht & H2). injection H2 as <- <-. split; [|split; [reflexivity|split; [reflexivity|]]].
  - assert (Hall : Forall (λ n, irq_vector (pic_run PIC_M_CTRL PIC_M_DATA (frequency_set CONTRER0_PORT COUNTER0_NO READ_WRITE_LATCH COUNTER_MODE COUNTER0_VALUE (pic_init [])) pic_reset)
      (pic_run PIC_S_CTRL PIC_S_DATA (frequency_set CONTRER0_PORT COUNTER0_NO READ_WRITE_LATCH COUNTER_MODE COUNTER0_VALUE (pic_init [])) pic_reset) n =
      if decide (n ∈ [0; 1; 2; 14]) then Some (0x20 + n) else None) (seqZ 0 16)) by (apply (bool_decide_unpack _); vm_compute; exact I).
    intros n Hn. rewrite Forall_forall in Hall. apply Hall, elem_of_seqZ. lia.
  - unfold register_handler in Ht. rewrite aset_ok in Ht by done. match type of Ht with Ok ?x = _ => assert (t = x) as -> by congruence end. split.
    + apply list_lookup_insert_eq, Nat.ltb_lt. reflexivity.
    + intros v Hv Hne. rewrite list_lookup_insert_ne by (intros E; by apply Hne). by apply lookup_replicate_2.
Qed.

(** ** The TSS and the user segments *)

(** The 27 words of the TSS; fields 2 ([ss0]) and 26 ([io_base]) are set. *)
Definition tss_size : Z := 108.
Definition SELECTOR_K_STACK : Z := Z.shiftl 2 3 + Z.shiftl 0 2 + 0.
Definition SELECTOR_TSS : Z := Z.shiftl 4 3 + Z.shiftl 0 2 + 0.

(** [gdt] is the table at 0xc0000900; the third component is the operand of [lgdt]. *)
Definition tss_init (tss_addr : Z) (gdt : list gdt_desc) : outcome (list Z * list gdt_desc * Z) :=
  t ← aset (replicate 27 0) 2 SELECTOR_K_STACK;
  t ← aset t 26 tss_size;
  g ← aset gdt ((0xc0000920 - 0xc0000900) / 8) (make_gdt_desc tss_addr (tss_size - 1) TSS_ATTR_LOW TSS_ATTR_HIGH);
  g ← aset g ((0xc0000928 - 0xc0000900) / 8) (make_gdt_desc 0 0xfffff GDT_CODE_ATTR_LOW_DPL3 GDT_ATTR_HIGH);
  g ← aset g ((0xc0000930 - 0xc0000900) / 8) (make_gdt_desc 0 0xfffff GDT_DATA_ATTR_LOW_DPL3 GDT_ATTR_HIGH);
  Ok (t, g, Z.lor (8 * 7 - 1) (Z.shiftl 0xc0000900 16)).

(** What a selector names. *)
Definition select (sel : Z) (gdt : list gdt_desc) : option gdt_desc := gdt !! Z.to_nat (Z.shiftr sel 3).

Definition seg_dpl (d : gdt_desc) : Z := Z.land (Z.shiftr (attr_low_byte d) 5) 3.
Definition seg_type (d : gdt_desc) : Z := Z.land (attr_low_byte d) 0x1f.

(** The last byte of the segment, with the granularity bit. *)
Definition last_byte (d : gdt_desc) : Z :=
  if Z.testbit (limit_high_attr_high d) 7 then gdt_limit d * 4096 + 4095 else gdt_limit d.

(** The selectors that the kernel loads for user mode name flat segments of privilege 3, the
    TSS selector names the TSS, and the TSS makes the processor switch to the kernel's stack
    segment.  Because the granularity bit is set in the descriptor of the TSS, [io_base] lies
    inside the segment: the processor takes what follows the TSS in memory for an I/O map. *)
Theorem user_segments tss_addr gdt :
  length gdt = 7%nat → 0 ≤ tss_addr < 4294967296 →
  ∃ t g op, tss_init tss_addr gdt = Ok (t, g, op) ∧ t !! 2%nat = Some SELECTOR_K_STACK ∧
    (∃ d, select SELECTOR_U_CODE g = Some d ∧ gdt_base d = 0 ∧ last_byte d = 4294967295 ∧ seg_dpl d = 3 ∧ seg_type d = 0x18) ∧
    (∃ d, select SELECTOR_U_DATA g = Some d ∧ gdt_base d = 0 ∧ last_byte d = 4294967295 ∧ seg_dpl d = 3 ∧ seg_type d = 0x12) ∧
    (∃ d, select SELECTOR_TSS g = Some d ∧ gdt_base d = tss_addr ∧ gdt_limit d = tss_size - 1 ∧ seg_dpl d = 0 ∧ seg_type d = 9 ∧
       ∃ io_base, t !! 26%nat = Some io_base ∧ io_base < last_byte d) ∧
    (∀ i, (i < 4)%nat → g !! i = gdt !! i) ∧ Z.land op 0xffff = 8 * zlen g - 1 ∧ Z.shiftr op 16 = 0xc0000900.
Proof.
  intros HL Ha. do 7 (destruct gdt as [|? gdt]; [discriminate HL|]). destruct gdt; [|discriminate HL].
  assert (Hbase : ∀ lim lo hi, gdt_base (make_gdt_desc tss_addr lim lo hi) = tss_addr).
  { intros lim lo hi. unfold gdt_base, make_gdt_desc. cbn [base_low_word base_mid_byte base_high_byte]. unfold u32, u16, u8. rewrite (Z.mod_small tss_addr) by done.
    rewrite land_16. change 0x00ff0000 with (Z.shiftl (Z.ones 8) 16). rewrite mask_field, !Z.shiftl_mul_pow2, Z.shiftr_div_pow2 by lia.
    change (2 ^ 16) with 65536. change (2 ^ 8) with 256. change (2 ^ 24) with 16777216. zdm. }
  eexists _, _, _. split; [reflexivity|]. split; [reflexivity|].
  split; [eexists; split; [reflexivity|]; split_and!; reflexivity|]. split; [eexists; split; [reflexivity|]; split_and!; reflexivity|].
  split; [|split; [intros i Hi; do 4 (destruct i as [|i]; [reflexivity|]); lia|split; reflexivity]].
  eexists. split; [reflexivity|]. split; [apply Hbase|]. split; [reflexivity|]. split; [reflexivity|]. split; [reflexivity|]. exists 108. split; [reflexivity|]. vm_compute. reflexivity.
Qed.

(** ** Sleeping *)

(** [obs i] is what the thread reads of [ticks] after its [i]-th [thread_yield]; the result is
    the number of yields. *)
Fixpoint ticks_to_sleep (fuel : nat) (sleep_ticks start_tick : Z) (obs : nat → Z) (i : nat) : outcome nat :=
  match fuel with
  | O => NoFuel
  | S fuel => if u32 (obs i - start_tick) <? sleep_ticks then ticks_to_sleep fuel sleep_ticks start_tick obs (S i) else Ok i
  end.

Definition mtime_sleep (fuel : nat) (m_seconds : Z) (obs : nat → Z) : outcome nat :=
  let sleep_ticks := u32 (m_seconds + mil_seconds_per_intr - 1) / mil_seconds_per_intr in
  ticks_to_sleep fuel sleep_ticks (obs 0%nat) obs 0.

Lemma ticks_to_sleep_ok fuel n start d obs i j :
  (∀ k, obs k = u32 (start + d k)) → (∀ k, 0 ≤ d k < 4294967296) → (i ≤ j)%nat → (j - i < fuel)%nat →
  (∀ k, (i ≤ k < j)%nat → d k < n) → n ≤ d j → ticks_to_sleep fuel n start obs i = Ok j.
Proof.
  intros Hobs Hd. revert i. induction fuel as [|fuel IH]; intros i Hij Hf Hlt Hge; [lia|]. cbn [ticks_to_sleep].
  assert (E : u32 (obs i - start) = d i). { rewrite Hobs. specialize (Hd i). unfold u32. rewrite Zminus_mod_idemp_l. replace (start + d i - start) with (d i) by lia. by apply Z.mod_small. }
  rewrite E. destruct (decide (i = j)) as [->|Hne].
  - destruct (Z.ltb_spec (d j) n); [lia|done].
  - destruct (Z.ltb_spec (d i) n); [|specialize (Hlt i); lia]. apply IH; [lia|lia| |done]. intros k Hk. apply Hlt. lia.
Qed.

(** [mtime_sleep] returns at the first yield after which at least the wanted number of
    milliseconds (in ticks of 10, rounded up) has passed, also when the 32-bit tick counter wraps
    around meanwhile: [start + d k] ticks have been counted at the [k]-th yield. *)
Theorem mtime_sleep_wakes fuel m start d obs j :
  0 ≤ m < 4294967286 → d 0%nat = 0 → (∀ k, obs k = u32 (start + d k)) → (∀ k, 0 ≤ d k < 4294967296) → (j < fuel)%nat →
  (∀ k, (k < j)%nat → 10 * d k < m) → m ≤ 10 * d j → mtime_sleep fuel m obs = Ok j.
Proof.
  intros Hm Hd0 Hobs Hd Hf Hlt Hge. unfold mtime_sleep. change mil_seconds_per_intr with 10. rewrite (u32_small (m + 10 - 1)) by lia.
  rewrite (Hobs 0%nat), Hd0. assert (E : ∀ k, obs k = u32 (u32 (start + 0) + d k)).
  { intros k. rewrite Hobs. unfold u32. by rewrite Zplus_mod_idemp_l, Z.add_0_r. }
  apply (ticks_to_sleep_ok fuel _ _ d obs 0 j); try done; [lia|lia| |].
  - intros k Hk. specialize (Hlt k ltac:(lia)). zdm.
  - zdm.
Qed.
