(* ===== verification/Ps.v ===== *)
(** * The list of tasks (thread/thread.c: pad_print, elem2thread_info, sys_ps)

    On byte memory: the PCBs, the string literals (at [lit s] for the text [s]) and the buffer
    [out_pad] of 16 bytes on the kernel stack.  Nothing is assumed of the byte behind the buffer. *)

From Stdlib Require Import Strings.String.
From S2P Require Import Prelude CString Stdio Disk FsState File Pipe Fs Bitmap Sched Commands.

(** ** Memory *)

Definition rd16 (m : bmem) (a : Z) : outcome Z :=
  x ← rdb m a; y ← rdb m (a + 1); Ok (x + 256 * y).
Definition rd32 (m : bmem) (a : Z) : outcome Z :=
  x ← rd16 m a; y ← rd16 m (a + 2); Ok (x + 65536 * y).

(** The [n] bytes at [a]. *)
Fixpoint rd_bytes (m : bmem) (a : Z) (n : nat) : outcome (list Z) :=
  match n with
  | O => Ok []
  | S n => b ← rdb m a; l ← rd_bytes m (a + 1) n; Ok (b :: l)
  end.

(** Offsets in [struct task_struct]. *)
Definition pid_off : Z := 4.
Definition status_off : Z := 8.
Definition name_off : Z := 13.
Definition elapsed_off : Z := 32.
Definition parent_off : Z := 272.

(** ** Operations *)

Section Ps.
(** The address of a string literal; the calling thread; its buffer. *)
Context (lit : list Z → Z) (t out_pad : Z).

Definition put_out (buf : Z) (count : Z) (m : bmem) (s : fs) : outcome (fs * list Z) :=
  b ← rd_bytes m buf (Z.to_nat count);
  '(_, s, ws) ← sys_write t stdout_no b count s; Ok (s, ws).

(** [sprintf]: the format and one argument. *)
Definition sprintf (m : bmem) (buf : Z) (fmt : string) (arg : Z) : outcome (Z * bmem) :=
  vsprintf 32 32 m buf (lit (txt fmt)) [arg].

Fixpoint pad_loop (fuel : nat) (m : bmem) (buf buf_len out_pad_0idx : Z) : outcome bmem :=
  match fuel with
  | O => NoFuel
  | S fuel =>
      if out_pad_0idx <? buf_len then
        m ← wrb m (buf + out_pad_0idx) 32; pad_loop fuel m buf buf_len (u8 (out_pad_0idx + 1))
      else Ok m
  end.

(** The case ['d'] has no [break]: it goes on with the case ['x'] on what it has written. *)
Definition pad_print (buf buf_len ptr format : Z) (m : bmem) (s : fs) : outcome (bmem * fs * list Z) :=
  m ← memset (Z.to_nat buf_len) m buf 0;
  '(out_pad_0idx, m) ←
    (if format =? 115 then '(n, m) ← sprintf m buf "%s" ptr; Ok (u8 n, m)
     else if (format =? 100) || (format =? 120) then
       '(_, m) ← (if format =? 100 then w ← rd16 m ptr; sprintf m buf "%d" (u32 (i16 w)) else Ok (0, m));
       w ← rd32 m ptr;
       '(n, m) ← sprintf m buf "%x" w; Ok (u8 n, m)
     else Ok (0, m));
  m ← pad_loop 300 m buf buf_len out_pad_0idx;
  '(s, ws) ← put_out buf (buf_len - 1) m s;
  Ok (m, s, ws).

Definition status_name (st : Z) : option string :=
  if st =? 0 then Some "RUNNING"%string else if st =? 1 then Some "READY"%string
  else if st =? 2 then Some "BLOCKED"%string else if st =? 3 then Some "WAITING"%string
  else if st =? 4 then Some "HANGING"%string else if st =? 5 then Some "DIED"%string else None.

Definition elem2thread_info (pthread : Z) (m : bmem) (s : fs) : outcome (bmem * fs * list Z) :=
  m ← memset 16 m out_pad 0;
  '(m, s, w1) ← pad_print out_pad 16 (pthread + pid_off) 100 m s;
  pp ← rd16 m (pthread + parent_off);
  '(m, s, w2) ←
    (if i16 pp =? -1 then pad_print out_pad 16 (lit (txt "NULL")) 115 m s
     else pad_print out_pad 16 (pthread + parent_off) 100 m s);
  st ← rd32 m (pthread + status_off);
  '(m, s, w3) ← match status_name st with
                | Some nm => pad_print out_pad 16 (lit (txt nm)) 115 m s
                | None => Ok (m, s, [])
                end;
  '(m, s, w4) ← pad_print out_pad 16 (pthread + elapsed_off) 120 m s;
  m ← memset 16 m out_pad 0;
  n ← strlen 32 m (pthread + name_off);
  m ← memcpy (Z.to_nat n) m out_pad (pthread + name_off);
  '(_, m) ← strcat 32 m out_pad (lit [NL]);
  n ← strlen 32 m out_pad;
  '(s, w5) ← put_out out_pad n m s;
  Ok (m, s, w1 ++ w2 ++ w3 ++ w4 ++ w5).

(** [list_traversal] with a callback that always returns false. *)
Fixpoint ps_loop (l : list Z) (m : bmem) (s : fs) : outcome (bmem * fs * list Z) :=
  match l with
  | [] => Ok (m, s, [])
  | p :: l =>
      '(m, s, w1) ← elem2thread_info p m s;
      '(m, s, w2) ← ps_loop l m s; Ok (m, s, w1 ++ w2)
  end.

Definition ps_title : list Z :=
  txt "PID            PPID           STAT           TICKS          COMMAND" ++ [NL].

Definition sys_ps (all_list : list Z) (m : bmem) (s : fs) : outcome (bmem * fs * list Z) :=
  n ← strlen 128 m (lit ps_title);
  '(s, w1) ← put_out (lit ps_title) n m s;
  '(m, s, w2) ← ps_loop all_list m s;
  Ok (m, s, w1 ++ w2).
End Ps.

(** ** What is printed *)

(** [sprintf] with a number does not write a NUL: what an earlier, longer text left stays. *)
Definition over (new old : list Z) : list Z := new ++ drop (length new) old.

Definition hex (w : Z) : list Z := out_of (PHex w).
Definition dec (w : Z) : list Z := out_of (PDec w).

(** A column of 15 characters. *)
Definition column (s : list Z) : list Z := s ++ replicate (15 - length s) 32.

(** The text for a [pid_t] with the two bytes behind it. *)
Definition pid_text (p above : Z) : list Z := over (hex (u16 p + 65536 * above)) (dec p).

Definition status_text (st : task_status) : list Z :=
  match st with
  | TASK_RUNNING => txt "RUNNING" | TASK_READY => txt "READY" | TASK_BLOCKED => txt "BLOCKED"
  | TASK_WAITING => txt "WAITING" | TASK_HANGING => txt "HANGING" | TASK_DIED => txt "DIED"
  end.
Definition status_code (st : task_status) : Z :=
  match st with
  | TASK_RUNNING => 0 | TASK_READY => 1 | TASK_BLOCKED => 2 | TASK_WAITING => 3 | TASK_HANGING => 4 | TASK_DIED => 5
  end.

(** The line of a task with name [nm]. *)
Definition ps_line (x : task) (nm : list Z) : list Z :=
  column (pid_text (pid x) 0) ++
  column (if parent_pid x =? -1 then txt "NULL" else pid_text (parent_pid x) (u8 (exit_status x))) ++
  column (status_text (status x)) ++ column (hex (elapsed_tricks x)) ++ nm ++ [NL].

(** ** Memory that represents a task *)

Definition bytes2 (w : Z) : list Z := [w mod 256; w / 256 mod 256].

(** The padding of the structure is zero: [memset] of [init_thread], and a copy in [fork]. *)
Record pcb_at (m : bmem) (p : Z) (x : task) (nm : list Z) : Prop := {
  pa_pid : -32768 ≤ pid x < 32768;
  pa_parent : -32768 ≤ parent_pid x < 32768;
  pa_elapsed : 0 ≤ elapsed_tricks x < 4294967296;
  pa_range : 0 ≤ p ∧ p + 280 < 4294967296;
  pa_pid_at : bytes_at m (p + pid_off) (bytes2 (u16 (pid x)) ++ [0; 0]);
  pa_status_at : bytes_at m (p + status_off) (le32 (status_code (status x)));
  pa_name_at : cstr m (p + name_off) nm;
  pa_elapsed_at : bytes_at m (p + elapsed_off) (le32 (elapsed_tricks x));
  pa_parent_at : bytes_at m (p + parent_off) (bytes2 (u16 (parent_pid x)) ++ [u8 (exit_status x); 0]);
}.

(** ** Lemmas *)

Lemma over_length s l : (length s ≤ length l)%nat → length (over s l) = length l.
Proof. intros H. unfold over. rewrite length_app, length_drop. lia. Qed.

Lemma bytes_at_over m a l s : bytes_at m a l → zlen s ≤ zlen l → bytes_at (put_bytes m a s) a (over s l).
Proof.
  intros (H0 & H1 & H2) Hs. assert (zlen (over s l) = zlen l) as E by (unfold zlen in *; rewrite over_length; lia).
  split; [done|]. rewrite E. split; [done|]. intros i Hi. rewrite put_bytes_lookup. unfold over. case_decide as Hd.
  - rewrite lookup_app_l by (unfold zlen in *; lia). f_equal. lia.
  - rewrite lookup_app_r, lookup_drop by (unfold zlen in *; lia). rewrite H2 by done. f_equal. unfold zlen in *. lia.
Qed.

Lemma bytes_at_mapped m a l k : bytes_at m a l → 0 ≤ k ≤ zlen l → mapped m a k.
Proof.
  intros (H0 & H1 & H2) Hk. split; [done|]. split; [lia|]. intros i Hi. rewrite H2 by lia. apply lookup_lt_is_Some. unfold zlen in *. lia.
Qed.

Lemma bytes_at_same m m' a l : (∀ x, a ≤ x < a + zlen l → m' !! x = m !! x) → bytes_at m a l → bytes_at m' a l.
Proof. intros Hx (H0 & H1 & H2). split; [done|]. split; [done|]. intros i Hi. rewrite Hx by lia. by apply H2. Qed.

Lemma rd_bytes_at l m a r : bytes_at m a (l ++ r) → rd_bytes m a (length l) = Ok l.
Proof.
  revert a. induction l as [|b l IH]; intros a H; [done|]. cbn [rd_bytes length app] in *. apply bytes_at_cons in H as [Hb Hl].
  mrun (rdb_ok m a b Hb). mrun (IH _ Hl). done.
Qed.

Lemma rd16_ok m a x y r : bytes_at m a (x :: y :: r) → rd16 m a = Ok (x + 256 * y).
Proof.
  intros H. apply bytes_at_cons in H as [Hx H]. apply bytes_at_cons in H as [Hy _]. unfold rd16. mrun (rdb_ok m a x Hx). mrun (rdb_ok m (a + 1) y Hy). done.
Qed.

Lemma rd32_ok m a x y z w : bytes_at m a [x; y; z; w] → rd32 m a = Ok (x + 256 * y + 65536 * (z + 256 * w)).
Proof.
  intros H. unfold rd32. mrun (rd16_ok m a x y [z; w] H). apply bytes_at_cons in H as [_ H]. apply bytes_at_cons in H as [_ H].
  replace (a + 1 + 1) with (a + 2) in H by lia. mrun (rd16_ok m (a + 2) z w [] H). done.
Qed.

Lemma digits_length_le n fuel v base : 2 ≤ base → 0 ≤ v < base ^ Z.of_nat n → (0 < n)%nat → (length (digits fuel v base) ≤ n)%nat.
Proof.
  intros Hb. revert n v. induction fuel as [|fuel IH]; intros n v Hv Hn; [simpl; lia|]. unfold digits; fold digits. rewrite length_app. cbn [length].
  destruct (Z.eqb_spec (v / base) 0) as [E|E]; cbn [negb length]; [lia|]. destruct n as [|n]; [lia|].
  rewrite Nat2Z.inj_succ, Z.pow_succ_r in Hv by lia.
  assert (Hq : 0 ≤ v / base < base ^ Z.of_nat n) by (split; [apply Z.div_pos; lia|apply Z.div_lt_upper_bound; lia]).
  destruct n as [|n]; [simpl in Hq; lia|]. specialize (IH (S n) (v / base) Hq ltac:(lia)). lia.
Qed.

Lemma hex_length w : (length (hex w) ≤ 8)%nat.
Proof. apply digits_length_le; [lia| |lia]. pose proof (u32_range w). change (16 ^ Z.of_nat 8) with 4294967296. lia. Qed.

Lemma dec_length w : (length (dec w) ≤ 11)%nat.
Proof.
  unfold dec, out_of. pose proof (i32_range w). assert (∀ v, 0 ≤ v ≤ 2147483648 → (length (digits 32 v 10) ≤ 10)%nat).
  { intros v Hv. apply digits_length_le; [lia| |lia]. change (10 ^ Z.of_nat 10) with 10000000000. lia. }
  destruct (Z.ltb_spec (i32 w) 0); cbn [length]; [specialize (H0 (- i32 w))|specialize (H0 (i32 w))]; lia.
Qed.

Lemma number_chars i : number i → chars (out_of i).
Proof. intros H. apply (out_of_ok 0 ∅ 0 0). by destruct i. Qed.

Lemma over_chars s l : chars s → chars l → chars (over s l).
Proof. intros Hs Hl. apply Forall_app. split; [done|]. by apply Forall_drop. Qed.

(** Text on the screen. *)
Lemma put_out_ok t buf l r m s :
  bytes_at m buf (l ++ r) → chars l → (length l < 1024)%nat → is_pipe stdout_no s = Ok false →
  put_out t buf (zlen l) m s = Ok (set_screen (screen s ++ l) s, []).
Proof.
  intros Hb Hl Hn Hp. unfold put_out. replace (Z.to_nat (zlen l)) with (length l) by (unfold zlen; lia). mrun (rd_bytes_at l m buf r Hb).
  rewrite <- (app_nil_r l) at 1. rewrite write_screen by (done || unfold zlen; lia). done.
Qed.

(** ** Formatting into the buffer *)

Section Buffer.
Context (lit : list Z → Z) (t out_pad : Z).

(** The literals that are used, apart from the title. *)
Definition texts : list (list Z) :=
  txt <$> ["%s"; "%d"; "%x"; "NULL"; "RUNNING"; "READY"; "BLOCKED"; "WAITING"; "HANGING"; "DIED"]%string.

Definition apart (a n : Z) : Prop := disjoint out_pad 16 a n.

Record literals (m : bmem) : Prop := {
  li_texts : ∀ s, s ∈ [NL] :: ps_title :: texts → cstr m (lit s) s ∧ apart (lit s) (zlen s + 1);
}.

(** Memory [m] differs from [m0] in the buffer only, where it has the bytes [l]. *)
Record buffer (m0 m : bmem) (l : list Z) : Prop := {
  bu_len : length l = 16%nat;
  bu_at : bytes_at m out_pad l;
  bu_same : ∀ a, ¬ (out_pad ≤ a < out_pad + 16) → m !! a = m0 !! a;
}.

Lemma buffer_other m0 m l a s : buffer m0 m l → apart a (zlen s) → bytes_at m0 a s → bytes_at m a s.
Proof. intros [_ _ H] Hd. apply bytes_at_same. intros x Hx. apply H. unfold apart, disjoint in Hd. lia. Qed.

Lemma buffer_put m0 m l s : buffer m0 m l → (length s ≤ 16)%nat → buffer m0 (put_bytes m out_pad s) (over s l).
Proof.
  intros [H1 H2 H3] Hs. split; [rewrite over_length; lia|apply bytes_at_over; [done|unfold zlen; lia]|].
  intros a Ha. rewrite put_bytes_lookup, decide_False by (unfold zlen; lia). by apply H3.
Qed.

Lemma literal_in m0 m l s : literals m0 → buffer m0 m l → s ∈ [NL] :: ps_title :: texts → cstr m (lit s) s.
Proof.
  intros [H] Hb Hs. destruct (H s Hs) as [[Hc Hl] Ha]. split; [done|]. apply (buffer_other m0 m l); [done| |done]. by rewrite zlen_app.
Qed.

Lemma buffer_clear m0 m l : buffer m0 m l → ∃ m', memset 16 m out_pad 0 = Ok m' ∧ buffer m0 m' (replicate 16 0).
Proof.
  intros Hb. pose proof Hb as [H1 H2 H3]. rewrite memset_ok by (apply (bytes_at_mapped _ _ l); [done|unfold zlen; lia]).
  eexists. split; [done|]. pose proof (buffer_put m0 m l (replicate 16 0) Hb ltac:(rewrite length_replicate; lia)) as H.
  unfold over in H. by rewrite length_replicate, drop_ge, app_nil_r in H by lia.
Qed.

Lemma loop_end fuel sf m buf idx ap : vsprintf_loop (S fuel) sf m buf idx 0 ap = Ok (m, buf).
Proof. done. Qed.

(** A number over what the buffer holds: [s] is the text up to the next NUL. *)
Lemma vsprintf_number i fuel sf m fmt l s r :
  number i → bytes_at m fmt (fmt_of i ++ [0]) → apart fmt (zlen (fmt_of i ++ [0])) → length l = 16%nat → bytes_at m out_pad l →
  (length (out_of i) ≤ 16)%nat → over (out_of i) l = s ++ 0 :: r → chars s → (length s < sf)%nat →
  vsprintf (S (S fuel)) sf m out_pad fmt (arg_of i) = Ok (zlen s, put_bytes m out_pad (out_of i)).
Proof.
  intros Hi Hfm Hap HL Hb Hn Hov Hs Hsf. unfold vsprintf.
  assert (Hc : rdb m fmt = Ok (first_char (fmt_of i))).
  { destruct i; try contradiction; cbn [fmt_of app] in Hfm; apply bytes_at_cons in Hfm as [H _]; by apply rdb_ok. }
  mrun Hc. rewrite <- (app_nil_r (arg_of i)).
  rewrite (print_number i (S fuel) sf m out_pad fmt 0 [] []); [|done|apply (bytes_at_mapped _ _ l); [done|unfold zlen; lia]|done|].
  2: { unfold apart, disjoint in *. unfold zlen in *. lia. }
  rewrite loop_end. cbn [mbind outcome_bind]. unfold strlen. pose proof (bytes_at_over m out_pad l (out_of i) Hb ltac:(unfold zlen; lia)) as L2. rewrite Hov in L2.
  assert (L1 : length (s ++ 0 :: r) = 16%nat) by (rewrite <- Hov, over_length; lia).
  assert (Hls : (length s < 16)%nat) by (rewrite length_app in L1; simpl in L1; lia).
  assert (H0 : bytes_at (put_bytes m out_pad (out_of i)) out_pad (s ++ [0])).
  { destruct L2 as (X0 & X1 & X2). split; [done|]. assert (E : zlen (s ++ 0 :: r) = 16) by (unfold zlen; lia). rewrite zlen_app. change (zlen [0]) with 1. split; [unfold zlen in *; lia|].
    intros j Hj. rewrite X2 by (unfold zlen in *; lia). rewrite (cons_middle 0 s r), app_assoc, lookup_app_l; [done|]. rewrite length_app. simpl. unfold zlen in *. lia. }
  mrun (end_loop_ok s sf _ out_pad Hs H0 Hsf). rewrite u32_small by (unfold zlen; lia). do 2 f_equal. lia.
Qed.

Lemma sprintf_number i fmt m0 m l s r :
  number i → fmt_of i = txt fmt → txt fmt ∈ texts → literals m0 → buffer m0 m l → (length (out_of i) ≤ 16)%nat →
  over (out_of i) l = s ++ 0 :: r → chars s →
  ∃ m' w, arg_of i = [w] ∧ sprintf lit m out_pad fmt w = Ok (zlen s, m') ∧ buffer m0 m' (s ++ 0 :: r).
Proof.
  intros Hi Hf Hin Hl Hb Hn Hov Hs. pose proof Hb as [B1 B2 B3]. pose proof (buffer_put m0 m l (out_of i) Hb Hn) as Hb'. rewrite Hov in Hb'.
  assert (Ha : ∃ w, arg_of i = [w]) by (destruct i; try contradiction; by eexists). destruct Ha as [w Ha]. exists (put_bytes m out_pad (out_of i)), w.
  split; [done|]. split; [|done]. assert (Hls : (length s < 32)%nat) by (destruct Hb' as [L1 _ _]; rewrite length_app in L1; simpl in L1; lia).
  assert (Hinn : txt fmt ∈ [NL] :: ps_title :: texts) by (by apply list_elem_of_further, list_elem_of_further).
  destruct (literal_in m0 m l _ Hl Hb Hinn) as [_ Hfm]. pose proof (proj2 (li_texts _ Hl _ Hinn)) as Hap. rewrite <- Hf in Hfm, Hap.
  unfold sprintf. rewrite <- Hf, <- Ha. apply (vsprintf_number i 30 32 m _ l s r); try done. rewrite zlen_app. exact Hap.
Qed.

Lemma sprintf_string p s m0 m :
  literals m0 → buffer m0 m (replicate 16 0) → cstr m p s → apart p (zlen s + 1) → (length s < 16)%nat →
  ∃ m', sprintf lit m out_pad "%s" p = Ok (zlen s, m') ∧ buffer m0 m' (s ++ replicate (16 - length s) 0).
Proof.
  intros Hl Hb Hp Hd Hn. pose proof Hb as [B1 B2 B3]. assert (Hin : txt "%s" ∈ [NL] :: ps_title :: texts) by (apply (bool_decide_unpack _); vm_compute; exact I).
  destruct (literal_in m0 m _ _ Hl Hb Hin) as [_ Hfm]. pose proof (proj2 (li_texts _ Hl _ Hin)) as Hap.
  assert (Ho : output_of [PStr p s] = s) by (unfold output_of; simpl; by rewrite app_nil_r).
  destruct (vsprintf_ok [PStr p s] 32 32 m out_pad 16 (lit (txt "%s"))) as (m' & E & C & F).
  - apply Forall_singleton. split; [done|]. split; [done|lia].
  - destruct B2 as (X0 & X1 & X2). split; [done|]. change (zlen (replicate 16 0)) with 16 in *. split; [done|]. intros i Hi. rewrite X2 by done. apply lookup_replicate_2. lia.
  - rewrite Ho. unfold zlen. lia.
  - exact Hfm.
  - unfold apart, disjoint in *. change (zlen (format_of [PStr p s] ++ [0])) with 3. change (zlen (txt "%s") + 1) with 3 in Hap. exact Hap.
  - simpl. lia.
  - rewrite Ho. lia.
  - rewrite Ho in *. exists m'. split; [exact E|]. split; [rewrite length_app, length_replicate; lia| |].
    + destruct C as [_ (X0 & X1 & X2)]. destruct B2 as (Y0 & Y1 & Y2). change (zlen (replicate 16 0)) with 16 in *. assert (E16 : zlen (s ++ replicate (16 - length s) 0) = 16) by (unfold zlen; rewrite length_app, length_replicate; lia).
      split; [done|]. rewrite E16. split; [done|]. intros i Hi. destruct (decide (i < zlen s)) as [Hlt|Hge].
      * rewrite X2 by (rewrite zlen_app; change (zlen [0]) with 1; lia). rewrite !lookup_app_l by (unfold zlen in *; lia). done.
      * rewrite F by lia. rewrite Y2, lookup_app_r by (unfold zlen in *; lia). rewrite !lookup_replicate_2; [done|unfold zlen in *; lia|lia].
    + intros a Ha. rewrite F by (unfold zlen; lia). by apply B3.
Qed.

Lemma pad_loop_ok fuel m0 m s r :
  buffer m0 m (s ++ r) → (length r < fuel)%nat →
  ∃ m', pad_loop fuel m out_pad 16 (zlen s) = Ok m' ∧ buffer m0 m' (s ++ replicate (length r) 32).
Proof.
  revert m s r. induction fuel as [|fuel IH]; intros m s r Hb Hf; [lia|]. pose proof Hb as [B1 B2 B3]. rewrite length_app in B1. cbn [pad_loop].
  destruct r as [|c r]; cbn [length] in *.
  { destruct (Z.ltb_spec (zlen s) 16); [unfold zlen in *; lia|]. by exists m. }
  destruct (Z.ltb_spec (zlen s) 16) as [_|]; [|unfold zlen in *; lia]. pose proof B2 as (X0 & X1 & X2).
  rewrite wrb_ok by (rewrite X2 by (unfold zlen; rewrite length_app; simpl; lia); apply lookup_lt_is_Some; rewrite length_app; unfold zlen; simpl; lia).
  cbn [mbind outcome_bind]. rewrite u8_small by (unfold zlen; lia). replace (zlen s + 1) with (zlen (s ++ [32])) by (rewrite zlen_app; done).
  destruct (IH (<[out_pad + zlen s := 32]> m) (s ++ [32]) r) as (m' & E & F); [|lia|].
  - assert (Hl : zlen ((s ++ [32]) ++ r) = zlen (s ++ c :: r)) by (unfold zlen; rewrite !length_app; simpl; lia). split; [unfold zlen in Hl; rewrite !length_app in Hl |- *; simpl in *; lia| |].
    + split; [done|]. rewrite Hl. split; [done|]. intros i Hi. rewrite lookup_insert. case_decide as Hd.
      * assert (i = zlen s) as -> by lia. unfold zlen. rewrite Nat2Z.id, <- app_assoc, lookup_app_r by lia. by rewrite Nat.sub_diag.
      * rewrite X2 by done. rewrite <- app_assoc. destruct (decide (i < zlen s)); [rewrite !lookup_app_l by (unfold zlen in *; lia); done|].
        rewrite !lookup_app_r by (unfold zlen in *; lia). destruct (Z.to_nat i - length s)%nat as [|k] eqn:Ek; [unfold zlen in *; lia|]. done.
    + intros a Ha. rewrite lookup_insert_ne by (unfold zlen in *; lia). by apply B3.
  - exists m'. split; [done|]. by rewrite <- app_assoc in F.
Qed.

(** The end of [pad_print]: spaces behind the text, and fifteen characters to the screen. *)
Lemma pad_finish m0 m s r f :
  buffer m0 m (s ++ r) → chars s → (length s ≤ 15)%nat → is_pipe stdout_no f = Ok false →
  ∃ m', (m ← pad_loop 300 m out_pad 16 (u8 (zlen s)); '(f, ws) ← put_out t out_pad (16 - 1) m f; Ok (m, f, ws)) =
      Ok (m', set_screen (screen f ++ column s) f, []) ∧ buffer m0 m' (s ++ replicate (length r) 32).
Proof.
  intros Hb Hs Hn Hp. pose proof (bu_len _ _ _ Hb) as HL. rewrite length_app in HL. rewrite u8_small by (unfold zlen; lia).
  destruct (pad_loop_ok 300 m0 m s r Hb ltac:(lia)) as (m' & E & F). mrun E. exists m'. split; [|done].
  assert (Hc : s ++ replicate (length r) 32 = column s ++ [32]).
  { unfold column. rewrite <- app_assoc. f_equal. replace (length r) with (15 - length s + 1)%nat by lia. by rewrite replicate_add. }
  assert (Hl : length (column s) = 15%nat) by (unfold column; rewrite length_app, length_replicate; lia).
  replace (16 - 1) with (zlen (column s)) by (unfold zlen; lia). pose proof (bu_at _ _ _ F) as Ha. rewrite Hc in Ha.
  mrun (put_out_ok t out_pad (column s) [32] m' f Ha ltac:(apply Forall_app; split; [done|by apply Forall_replicate]) ltac:(lia) Hp). done.
Qed.

Lemma over_zeros s : (length s < 16)%nat → over s (replicate 16 0) = s ++ 0 :: replicate (15 - length s) 0.
Proof. intros H. unfold over. rewrite drop_replicate. by replace (16 - length s)%nat with (S (15 - length s)) by lia. Qed.

Lemma over_text new old : (length new < 16)%nat → (length old < 16)%nat →
  ∃ r, over new (old ++ 0 :: replicate (15 - length old) 0) = over new old ++ 0 :: r.
Proof.
  intros Hn Ho. unfold over. rewrite drop_app. destruct (decide (length new ≤ length old)%nat).
  - replace (length new - length old)%nat with 0%nat by lia. exists (replicate (15 - length old) 0). by rewrite <- app_assoc.
  - rewrite (drop_ge old) by lia. exists (replicate (15 - length new) 0). rewrite app_nil_r. f_equal. cbn [app].
    change (0 :: replicate (15 - length old) 0) with (replicate (S (15 - length old)) 0). rewrite drop_replicate.
    by replace (S (15 - length old) - (length new - length old))%nat with (S (15 - length new)) by lia.
Qed.

Lemma over_bound a b n : (length a ≤ n)%nat → (length b ≤ n)%nat → (length (over a b) ≤ n)%nat.
Proof. intros. unfold over. rewrite length_app, length_drop. lia. Qed.

(** The three cases of [pad_print]. *)
Lemma pad_string m0 m l p s f :
  literals m0 → buffer m0 m l → cstr m0 p s → apart p (zlen s + 1) → (length s ≤ 15)%nat → is_pipe stdout_no f = Ok false →
  ∃ m' l', pad_print lit t out_pad 16 p 115 m f = Ok (m', set_screen (screen f ++ column s) f, []) ∧ buffer m0 m' l'.
Proof.
  intros Hl Hb [Hs Hc] Ha Hn Hp. unfold pad_print. destruct (buffer_clear m0 m l Hb) as (m1 & E1 & B1). change (Z.to_nat 16) with 16%nat. mrun E1.
  rewrite Z.eqb_refl. destruct (sprintf_string p s m0 m1) as (m2 & E2 & B2); [done|done| |done|lia|].
  { split; [done|]. apply (buffer_other m0 m1 (replicate 16 0)); [done|by rewrite zlen_app|done]. }
  mrun E2. destruct (pad_finish m0 m2 s _ f B2 Hs Hn Hp) as (m3 & E3 & B3). eexists m3, _. split; [exact E3|exact B3].
Qed.

Lemma pad_hex m0 m l p w f :
  literals m0 → buffer m0 m l → 0 ≤ w < 4294967296 → bytes_at m0 p (le32 w) → apart p 4 → is_pipe stdout_no f = Ok false →
  ∃ m' l', pad_print lit t out_pad 16 p 120 m f = Ok (m', set_screen (screen f ++ column (hex w)) f, []) ∧ buffer m0 m' l'.
Proof.
  intros Hl Hb Hw Hat Ha Hp. unfold pad_print. destruct (buffer_clear m0 m l Hb) as (m1 & E1 & B1). change (Z.to_nat 16) with 16%nat. mrun E1.
  change (120 =? 115) with false. change ((120 =? 100) || (120 =? 120)) with true. change (120 =? 100) with false. cbn [mbind outcome_bind].
  assert (Hr : rd32 m1 p = Ok w).
  { pose proof (buffer_other _ _ _ p (le32 w) B1 Ha Hat) as H. unfold le32 in H. rewrite (rd32_ok _ _ _ _ _ _ H). f_equal. zdm. }
  mrun Hr. pose proof (hex_length w). pose proof (over_zeros (hex w) ltac:(lia)) as Ho.
  destruct (sprintf_number (PHex w) "%x" m0 m1 (replicate 16 0) _ _ I eq_refl ltac:(apply (bool_decide_unpack _); vm_compute; exact I) Hl B1 ltac:(fold (hex w); lia) Ho (number_chars (PHex w) I)) as (m2 & w' & Ew & E2 & B2).
  injection Ew as <-. mrun E2. destruct (pad_finish m0 m2 (hex w) _ f B2 (number_chars (PHex w) I) ltac:(lia) Hp) as (m3 & E3 & B3). eexists m3, _. split; [exact E3|exact B3].
Qed.

Lemma pad_pid m0 m l p v above f :
  literals m0 → buffer m0 m l → -32768 ≤ v < 32768 → 0 ≤ above < 256 → bytes_at m0 p (bytes2 (u16 v) ++ [above; 0]) → apart p 4 →
  is_pipe stdout_no f = Ok false →
  ∃ m' l', pad_print lit t out_pad 16 p 100 m f = Ok (m', set_screen (screen f ++ column (pid_text v above)) f, []) ∧ buffer m0 m' l'.
Proof.
  intros Hl Hb Hv Hab Hat Ha Hp. unfold pad_print. destruct (buffer_clear m0 m l Hb) as (m1 & E1 & B1). change (Z.to_nat 16) with 16%nat. mrun E1.
  change (100 =? 115) with false. change ((100 =? 100) || (100 =? 120)) with true. change (100 =? 100) with true. cbn iota.
  assert (Hr : ∀ m l, buffer m0 m l → rd16 m p = Ok (u16 v) ∧ rd32 m p = Ok (u16 v + 65536 * above)).
  { intros m' l' B'. pose proof (buffer_other m0 m' l' p (bytes2 (u16 v) ++ [above; 0]) B' Ha Hat) as H. cbn [app bytes2] in H. rewrite (rd16_ok _ _ _ _ _ H), (rd32_ok _ _ _ _ _ _ H).
    split; f_equal; unfold u16; zdm. }
  mrun (proj1 (Hr _ _ B1)). assert (Ei : i16 (u16 v) = v) by (unfold i16, u16; zdm). rewrite Ei.
  pose proof (dec_length (u32 v)). pose proof (over_zeros (dec (u32 v)) ltac:(lia)) as Ho.
  destruct (sprintf_number (PDec (u32 v)) "%d" m0 m1 (replicate 16 0) _ _ I eq_refl ltac:(apply (bool_decide_unpack _); vm_compute; exact I) Hl B1 ltac:(fold (dec (u32 v)); lia) Ho (number_chars (PDec (u32 v)) I)) as (m2 & w' & Ew & E2 & B2).
  injection Ew as <-. mrun E2. mrun (proj2 (Hr _ _ B2)). set (w := u16 v + 65536 * above).
  assert (Ed : dec (u32 v) = dec v) by (unfold dec, out_of; assert (i32 (u32 v) = i32 v) as -> by (unfold i32, u32; zdm); done).
  pose proof (hex_length w). destruct (over_text (hex w) (dec (u32 v))) as (r & Hr2); [lia|lia|].
  pose proof (over_chars _ _ (number_chars (PHex w) I) (number_chars (PDec (u32 v)) I)) as Hch.
  destruct (sprintf_number (PHex w) "%x" m0 m2 _ _ r I eq_refl ltac:(apply (bool_decide_unpack _); vm_compute; exact I) Hl B2 ltac:(fold (hex w); lia) Hr2 Hch) as (m3 & w' & Ew & E3 & B3).
  injection Ew as <-. mrun E3. pose proof (over_bound (hex w) (dec (u32 v)) 15 ltac:(lia) ltac:(lia)) as Hbd.
  destruct (pad_finish m0 m3 _ _ f B3 Hch Hbd Hp) as (m4 & E4 & B4). unfold pid_text. rewrite <- Ed. eexists m4, _. split; [exact E4|exact B4].
Qed.

(** ** The table *)

(** A task whose name leaves room for the line feed, apart from the buffer. *)
Record listed (m : bmem) (p : Z) (x : task) (nm : list Z) : Prop := {
  ls_pcb : pcb_at m p x nm;
  ls_name : (length nm ≤ 14)%nat;
  ls_apart : apart p 280;
}.

Lemma set_screen_pipe x f : is_pipe stdout_no (set_screen x f) = is_pipe stdout_no f.
Proof. done. Qed.

Lemma set_screen_twice a b f : set_screen (screen (set_screen a f) ++ b) (set_screen a f) = set_screen (a ++ b) f.
Proof. done. Qed.

Lemma status_name_ok st : ∃ nm, status_name (status_code st) = Some nm ∧ txt nm = status_text st ∧ txt nm ∈ texts.
Proof. destruct st; eexists; (split; [reflexivity|]); split; [reflexivity|apply (bool_decide_unpack _); vm_compute; exact I..]. Qed.

Lemma status_text_length st : (length (status_text st) ≤ 15)%nat.
Proof. destruct st; apply Nat.leb_le; reflexivity. Qed.

(** The last part of a line: the name. *)
Lemma name_ok m0 m l p x nm f :
  literals m0 → buffer m0 m l → listed m0 p x nm → is_pipe stdout_no f = Ok false →
  ∃ m' l', (m ← memset 16 m out_pad 0;
            n ← strlen 32 m (p + name_off);
            m ← memcpy (Z.to_nat n) m out_pad (p + name_off);
            '(_, m) ← strcat 32 m out_pad (lit [NL]);
            n ← strlen 32 m out_pad;
            '(f, w5) ← put_out t out_pad n m f;
            Ok (m, f, w5)) = Ok (m', set_screen (screen f ++ nm ++ [NL]) f, []) ∧ buffer m0 m' l'.
Proof.
  intros Hl Hb [Hpcb Hn Hap] Hp. destruct (buffer_clear m0 m l Hb) as (m1 & E1 & B1). mrun E1.
  pose proof (pa_name_at _ _ _ _ Hpcb) as [Hc Hat]. pose proof (pa_range _ _ _ _ Hpcb) as Hr.
  assert (Hna : apart (p + name_off) (zlen (nm ++ [0]))) by (unfold apart, disjoint, name_off in *; rewrite zlen_app; change (zlen [0]) with 1; unfold zlen; lia).
  pose proof (buffer_other m0 m1 _ _ _ B1 Hna Hat) as Hat1. unfold strlen. mrun (end_loop_ok nm 32 m1 _ Hc Hat1 ltac:(lia)).
  rewrite (u32_small (p + name_off + zlen nm + 1 - (p + name_off) - 1)) by (unfold zlen; lia). replace (p + name_off + zlen nm + 1 - (p + name_off) - 1) with (zlen nm) by lia.
  replace (Z.to_nat (zlen nm)) with (length nm) by (unfold zlen; lia).
  assert (Hnm : bytes_at m1 (p + name_off) nm).
  { destruct Hat1 as (X0 & X1 & X2). rewrite zlen_app in X1, X2. change (zlen [0]) with 1 in *. split; [done|]. split; [lia|]. intros i Hi. rewrite X2 by lia. rewrite lookup_app_l; [done|unfold zlen in *; lia]. }
  rewrite (memcpy_ok nm m1 out_pad (p + name_off) Hnm); [|apply (bytes_at_mapped _ _ (replicate 16 0)); [apply B1|change (zlen (replicate 16 0)) with 16; unfold zlen; lia]|].
  2: { unfold apart, disjoint in *. rewrite zlen_app in Hna. change (zlen [0]) with 1 in Hna. unfold zlen in *. lia. }
  cbn [mbind outcome_bind]. pose proof (buffer_put m0 m1 _ nm B1 ltac:(lia)) as B2. rewrite over_zeros in B2 by lia. set (m2 := put_bytes m1 out_pad nm) in *.
  assert (Hcut : ∀ m s r, bytes_at m out_pad (s ++ 0 :: r) → bytes_at m out_pad (s ++ [0])).
  { intros m' s r (X0 & X1 & X2). rewrite zlen_app, zlen_cons in X1, X2. pose proof (zlen_nonneg r). split; [done|]. rewrite zlen_app. change (zlen [0]) with 1. split; [lia|].
    intros i Hi. rewrite X2 by lia. rewrite (cons_middle 0 s r), app_assoc, lookup_app_l; [done|]. rewrite length_app. simpl. unfold zlen in *. lia. }
  assert (Hin : [NL] ∈ [NL] :: ps_title :: texts) by apply list_elem_of_here. pose proof (proj2 (li_texts _ Hl _ Hin)) as Hnl. change (zlen [NL]) with 1 in Hnl.
  rewrite (strcat_ok nm [NL] 32 m2 out_pad (lit [NL])).
  - cbn [mbind outcome_bind]. unfold m2. rewrite put_bytes_app. fold m2.
    pose proof (buffer_put m0 m1 _ (nm ++ [NL; 0]) B1 ltac:(rewrite length_app; simpl; lia)) as B3.
    change ([NL] ++ [0]) with [NL; 0]. set (m3 := put_bytes m1 out_pad (nm ++ [NL; 0])) in *. pose proof (bu_at _ _ _ B3) as Hat3.
    assert (Hs : ∃ r, over (nm ++ [NL; 0]) (replicate 16 0) = (nm ++ [NL]) ++ 0 :: r) by (eexists; unfold over; by rewrite <- !app_assoc).
    destruct Hs as [r Hs]. rewrite Hs in Hat3. assert (Hch : chars (nm ++ [NL])) by (apply Forall_app; split; [done|by apply Forall_singleton]).
    mrun (end_loop_ok (nm ++ [NL]) 32 m3 out_pad Hch (Hcut _ _ _ Hat3) ltac:(rewrite length_app; simpl; lia)).
    replace (out_pad + zlen (nm ++ [NL]) + 1 - out_pad - 1) with (zlen (nm ++ [NL])) by lia. rewrite u32_small by (rewrite zlen_app; change (zlen [NL]) with 1; unfold zlen; lia).
    mrun (put_out_ok t out_pad (nm ++ [NL]) _ m3 f Hat3 Hch ltac:(rewrite length_app; simpl; lia) Hp). eexists m3, _. split; [reflexivity|exact B3].
  - split; [done|]. eapply Hcut, (bu_at _ _ _ B2).
  - apply (literal_in m0 m2 _ [NL] Hl B2 Hin).
  - change (zlen [NL]) with 1. apply (bytes_at_mapped _ _ _ _ (bu_at _ _ _ B2)). pose proof (bu_len _ _ _ B2). unfold zlen. lia.
  - change (zlen [NL]) with 1. unfold apart, disjoint in *. unfold zlen. lia.
  - lia.
  - simpl. lia.
Qed.

Lemma elem_ok m0 m l p x nm f :
  literals m0 → buffer m0 m l → listed m0 p x nm → is_pipe stdout_no f = Ok false →
  ∃ m' l', elem2thread_info lit t out_pad p m f = Ok (m', set_screen (screen f ++ ps_line x nm) f, []) ∧ buffer m0 m' l'.
Proof.
  intros Hl Hb HL Hp. pose proof HL as [Hpcb _ Hap]. destruct Hpcb as [P1 P2 P3 P4 P5 P6 P7 P8 P9]. unfold elem2thread_info.
  destruct (buffer_clear m0 m l Hb) as (m1 & E1 & B1). mrun E1.
  assert (Hfield : ∀ off, 0 ≤ off ≤ 276 → apart (p + off) 4) by (intros off Ho; unfold apart, disjoint in *; lia).
  destruct (pad_pid m0 m1 _ (p + pid_off) (pid x) 0 f Hl B1 P1 ltac:(lia) P5 ltac:(by apply Hfield) Hp) as (m2 & l2 & E2 & B2). mrun E2.
  assert (Hpp : rd16 m2 (p + parent_off) = Ok (u16 (parent_pid x))).
  { assert (Ha : apart (p + parent_off) 4) by (by apply Hfield). pose proof (buffer_other m0 m2 l2 _ (bytes2 (u16 (parent_pid x)) ++ [u8 (exit_status x); 0]) B2 Ha P9) as H.
    rewrite (rd16_ok _ _ _ _ _ H). f_equal. unfold u16. zdm. }
  mrun Hpp. replace (i16 (u16 (parent_pid x))) with (parent_pid x) by (unfold i16, u16; zdm). set (f2 := set_screen _ f).
  assert (Hp2 : is_pipe stdout_no f2 = Ok false) by exact Hp.
  assert (H3 : ∃ m3 l3, (if parent_pid x =? -1 then pad_print lit t out_pad 16 (lit (txt "NULL")) 115 m2 f2 else pad_print lit t out_pad 16 (p + parent_off) 100 m2 f2) =
    Ok (m3, set_screen (screen f2 ++ column (if parent_pid x =? -1 then txt "NULL" else pid_text (parent_pid x) (u8 (exit_status x)))) f2, []) ∧ buffer m0 m3 l3).
  { destruct (Z.eqb_spec (parent_pid x) (-1)).
    - destruct (li_texts _ Hl (txt "NULL")) as [Hc Ha]; [apply (bool_decide_unpack _); vm_compute; exact I|].
      apply (pad_string m0 m2 l2 _ (txt "NULL")); try done. apply Nat.leb_le. reflexivity.
    - apply (pad_pid m0 m2 l2); try done; [apply u8_range|by apply Hfield]. }
  destruct H3 as (m3 & l3 & E3 & B3). mrun E3. set (f3 := set_screen _ f2). assert (Hp3 : is_pipe stdout_no f3 = Ok false) by exact Hp.
  assert (Hst : rd32 m3 (p + status_off) = Ok (status_code (status x))).
  { assert (Ha : apart (p + status_off) 4) by (by apply Hfield). pose proof (buffer_other m0 m3 l3 _ (le32 (status_code (status x))) B3 Ha P6) as H.
    unfold le32 in H. rewrite (rd32_ok _ _ _ _ _ _ H). by destruct (status x). }
  mrun Hst. destruct (status_name_ok (status x)) as (sn & S1 & S2 & S3). rewrite S1.
  destruct (li_texts _ Hl (txt sn)) as [Hsc Hsa]; [by apply list_elem_of_further, list_elem_of_further|].
  destruct (pad_string m0 m3 l3 (lit (txt sn)) (txt sn) f3 Hl B3 Hsc Hsa) as (m4 & l4 & E4 & B4); [rewrite S2; apply status_text_length|done|].
  mrun E4. set (f4 := set_screen _ f3). assert (Hp4 : is_pipe stdout_no f4 = Ok false) by exact Hp.
  destruct (pad_hex m0 m4 l4 (p + elapsed_off) (elapsed_tricks x) f4 Hl B4 P3 P8 ltac:(by apply Hfield) Hp4) as (m5 & l5 & E5 & B5). mrun E5.
  set (f5 := set_screen _ f4). assert (Hp5 : is_pipe stdout_no f5 = Ok false) by exact Hp.
  destruct (name_ok m0 m5 l5 p x nm f5 Hl B5 HL Hp5) as (m6 & l6 & E6 & B6). cbn [app]. exists m6, l6. split; [|exact B6]. rewrite E6.
  unfold f5, f4, f3, f2. rewrite !set_screen_twice, S2. unfold ps_line. by rewrite !app_assoc.
Qed.

Lemma ps_loop_ok l m0 m b f :
  literals m0 → buffer m0 m b → Forall (λ '(p, x, nm), listed m0 p x nm) l → is_pipe stdout_no f = Ok false →
  ∃ m' b', ps_loop lit t out_pad (l.*1.*1) m f = Ok (m', set_screen (screen f ++ (l ≫= λ '(_, x, nm), ps_line x nm)) f, []) ∧ buffer m0 m' b'.
Proof.
  intros Hl. revert m b f. induction l as [|[[p x] nm] l IH]; intros m b f Hb Hall Hp.
  { exists m, b. split; [|done]. cbn. rewrite app_nil_r. by destruct f. }
  apply Forall_cons in Hall as [Hx Hall]. cbn [ps_loop fmap list_fmap fst].
  destruct (elem_ok m0 m b p x nm f Hl Hb Hx Hp) as (m1 & b1 & E1 & B1). mrun E1.
  destruct (IH m1 b1 (set_screen (screen f ++ ps_line x nm) f) B1 Hall Hp) as (m2 & b2 & E2 & B2). mrun E2. exists m2, b2. split; [|done]. rewrite set_screen_twice. by rewrite <- app_assoc.
Qed.
End Buffer.

(** C29: the task list.  With a buffer of 16 bytes, the literals and the PCBs in memory, names of at
    most 14 characters and the standard output on the screen, [sys_ps] prints the title and one
    line for each task in the order of the list of all threads, ends without an access outside
    its buffer, and changes nothing but the buffer and the screen.  A line has columns of 15
    characters for pid, parent ([NULL] without one), state and clock ticks, then the name; the
    text of a pid is the one in base 16 written over the one in base 10, and that of a parent
    includes the exit status above it. *)
Theorem sys_ps_prints lit t out_pad l m b f :
  literals lit out_pad m → buffer out_pad m m b → Forall (λ '(p, x, nm), listed out_pad m p x nm) l → is_pipe stdout_no f = Ok false →
  ∃ m', sys_ps lit t out_pad (l.*1.*1) m f =
      Ok (m', set_screen (screen f ++ ps_title ++ (l ≫= λ '(_, x, nm), ps_line x nm)) f, []) ∧
    ∀ a, ¬ (out_pad ≤ a < out_pad + 16) → m' !! a = m !! a.
Proof.
  intros Hl Hb Hall Hp. unfold sys_ps. assert (Hin : ps_title ∈ [NL] :: ps_title :: texts) by (apply list_elem_of_further, list_elem_of_here).
  destruct (li_texts _ _ _ Hl _ Hin) as [[Hc Hat] _]. assert (Hlen : zlen ps_title = 68) by reflexivity. assert (Hlen' : length ps_title = 68%nat) by reflexivity.
  unfold strlen. mrun (end_loop_ok ps_title 128 m _ Hc Hat ltac:(lia)). replace (lit ps_title + zlen ps_title + 1 - lit ps_title - 1) with (zlen ps_title) by lia.
  rewrite u32_small by lia. mrun (put_out_ok t (lit ps_title) ps_title [0] m f Hat Hc ltac:(lia) Hp).
  destruct (ps_loop_ok lit t out_pad l m m b (set_screen (screen f ++ ps_title) f) Hl Hb Hall Hp) as (m' & b' & E & B). mrun E.
  exists m'. split; [|apply B]. rewrite set_screen_twice. by rewrite app_assoc.
Qed.

(** Pids below 10 read as usual; 12 is shown as C2 and 100 as 640. *)
Theorem ps_pid_digits :
  (∀ v, 0 ≤ v < 10 → pid_text v 0 = dec v) ∧ pid_text 12 0 = txt "C2" ∧ pid_text 100 0 = txt "640" ∧
  pid_text 1 5 = txt "50001".
Proof.
  split; [|by vm_compute]. intros v Hv. assert (Hall : Forall (λ v, pid_text v 0 = dec v) (seqZ 0 10)) by (apply (bool_decide_unpack _); vm_compute; exact I).
  rewrite Forall_forall in Hall. apply Hall, elem_of_seqZ. lia.
Qed.

(** *** Witness: two tasks *)

Lemma bytes_at_check m a s : 0 ≤ a → a + zlen s < 4294967296 → rd_bytes m a (length s) = Ok s → bytes_at m a s.
Proof.
  revert a. induction s as [|b s IH]; intros a H0 H1 H; [split; [done|]; split; [done|]; intros i Hi; unfold zlen in Hi; simpl in Hi; lia|].
  cbn [rd_bytes length] in H. apply bind_ok_iff in H as (b' & Hb & H). apply bind_ok_iff in H as (s' & Hs & H). injection H as -> ->.
  rewrite zlen_cons in H1. destruct (IH (a + 1)) as (X0 & X1 & X2); [lia|lia|done|]. split; [done|]. rewrite zlen_cons. split; [lia|].
  intros i Hi. destruct (decide (i = 0)) as [->|Hne].
  - rewrite Z.add_0_r. unfold rdb in Hb. destruct (m !! a); [|discriminate Hb]. by injection Hb as ->.
  - replace (a + i) with (a + 1 + (i - 1)) by lia. rewrite X2 by lia. by replace (Z.to_nat i) with (S (Z.to_nat (i - 1))) by lia.
Qed.

Lemma cstr_check m a s : bool_decide (chars s) = true → 0 ≤ a → a + zlen s + 1 < 4294967296 → rd_bytes m a (length (s ++ [0])) = Ok (s ++ [0]) → cstr m a s.
Proof.
  intros Hc H0 H1 H. split; [by apply bool_decide_eq_true in Hc|]. apply bytes_at_check; [done|rewrite zlen_app; change (zlen [0]) with 1; lia|done].
Qed.

Definition demo_lit (s : list Z) : Z :=
  match list_find (.= s) ([NL] :: ps_title :: texts) with Some (i, _) => 0x2000 + 128 * Z.of_nat i | None => 0 end.

Definition demo_init : task :=
  Task 0 1 TASK_READY 31 (txt "init" ++ replicate 12 0) 31 44 [] 0 (VirtualAddr (Bitmap 0 []) 0) 0 (-1) 0 0x19870916.
Definition demo_child : task :=
  Task 0 12 TASK_RUNNING 31 (txt "init_fork" ++ replicate 7 0) 31 300 [] 0 (VirtualAddr (Bitmap 0 []) 0) 0 1 0 0x19870916.

Definition put_pcb (p : Z) (x : task) (m : bmem) : bmem :=
  let m := put_bytes m p (replicate 280 0) in
  let m := put_bytes m (p + pid_off) (bytes2 (u16 (pid x))) in
  let m := put_bytes m (p + status_off) (le32 (status_code (status x))) in
  let m := put_bytes m (p + name_off) (name x) in
  let m := put_bytes m (p + elapsed_off) (le32 (elapsed_tricks x)) in
  put_bytes m (p + parent_off) (bytes2 (u16 (parent_pid x)) ++ [u8 (exit_status x); 0]).

Definition ps_mem : bmem :=
  put_pcb 0x9000 demo_child (put_pcb 0x8000 demo_init (put_bytes
    (foldr (λ s m, put_bytes m (demo_lit s) (s ++ [0])) ∅ ([NL] :: ps_title :: texts)) 0x1000 (replicate 16 0))).

Definition ps_fs : fs := set_screen [] demo_pipe_fs.

Lemma ps_mem_literals : literals demo_lit 0x1000 ps_mem.
Proof.
  constructor. apply Forall_forall.
  repeat (apply Forall_cons; split; [split; [apply cstr_check; [reflexivity|vm_compute; discriminate|reflexivity|vm_compute; reflexivity]|left; vm_compute; discriminate]|]).
  apply Forall_nil. exact I.
Qed.

Lemma ps_mem_listed p x nm :
  (p, x, nm) ∈ [(0x8000, demo_init, txt "init"); (0x9000, demo_child, txt "init_fork")] → listed 0x1000 ps_mem p x nm.
Proof.
  intros H. apply list_elem_of_In in H. destruct H as [H|[H|[]]]; injection H as <- <- <-;
    (split; [|apply Nat.leb_le; reflexivity|left; vm_compute; discriminate]);
    (constructor; [split; vm_compute; (discriminate || reflexivity)..|apply bytes_at_check|apply bytes_at_check|apply cstr_check|apply bytes_at_check|apply bytes_at_check]);
    vm_compute; (discriminate || reflexivity).
Qed.

Lemma sys_ps_prints_witness :
  ∃ m', sys_ps demo_lit 0x9000 0x1000 [0x8000; 0x9000] ps_mem ps_fs =
    Ok (m', set_screen (ps_title ++
      txt "1              NULL           READY          2C             init" ++ [NL] ++
      txt "C2             1              RUNNING        12C            init_fork" ++ [NL]) ps_fs, []).
Proof.
  destruct (sys_ps_prints demo_lit 0x9000 0x1000 [(0x8000, demo_init, txt "init"); (0x9000, demo_child, txt "init_fork")] ps_mem (replicate 16 0) ps_fs) as (m' & E & _).
  - exact ps_mem_literals.
  - split; [reflexivity|apply bytes_at_check; vm_compute; (discriminate || reflexivity)|reflexivity].
  - apply Forall_forall. intros [[p x] nm]. apply ps_mem_listed.
  - vm_compute. reflexivity.
  - exists m'. exact E.
Defined.

(** A name of 15 characters fits its field, but not the buffer with the line feed. *)
Example ps_long_name :
  elem2thread_info demo_lit 0x9000 0x1000 0x8000 (put_bytes ps_mem (0x8000 + name_off) (txt "init_fork_fork_" ++ [0])) ps_fs = Fault.
Proof. vm_compute. reflexivity. Qed.
