(* ===== verification/Screen.v ===== *)
(** * The screen (lib/kernel/print.s, device/console.c)

    The text memory of the video card as 16-bit cells and the cursor in the registers of the
    card; a store outside the video segment faults.  A terminal of 25 rows of 80 characters is
    the specification. *)

From S2P Require Import Prelude Interrupt KList Bitmap Sched Sync CString Stdio Disk.

(** ** Operations *)

(** The cells of the video segment ([VIDEO_DESC]: 32 KB) and the cursor, 16 bits. *)
Record vga := Vga { cells : list Z; cursor : Z }.

(** The two bytes that [set_cursor] writes to the card. *)
Definition set_cursor (bx : Z) (v : vga) : vga :=
  Vga (cells v) (u8 (Z.shiftr (u16 bx) 8) * 256 + u8 bx).

(** A character with attribute 7 at cell [bx]; [shl bx,1] drops the top bit. *)
Definition store_cell (bx ch : Z) (v : vga) : outcome vga :=
  c ← aset (cells v) (Z.shiftr (u16 (Z.shiftl bx 1)) 1) (0x0700 + u8 ch); Ok (Vga c (cursor v)).

Definition blank : Z := 0x0720.

(** [rep movsd] of 960 words from the second line, and an empty last line. *)
Fixpoint move_cells (n : nat) (src dst : Z) (c : list Z) : outcome (list Z) :=
  match n with
  | O => Ok c
  | S n => w ← aget c src; c ← aset c dst w; move_cells n (src + 1) (dst + 1) c
  end.
Fixpoint clear_cells (n : nat) (at_ : Z) (c : list Z) : outcome (list Z) :=
  match n with
  | O => Ok c
  | S n => c ← aset c at_ blank; clear_cells n (at_ + 1) c
  end.

Definition roll_screen (v : vga) : outcome vga :=
  c ← move_cells 1920 80 0 (cells v);
  c ← clear_cells 80 1920 c;
  Ok (set_cursor 1920 (Vga c (cursor v))).

Definition line_feed (bx : Z) (v : vga) : outcome vga :=
  let bx := u16 (bx - bx mod 80 + 80) in
  if i16 bx <? 2000 then Ok (set_cursor bx v) else roll_screen v.

Definition put_char (ch : Z) (v : vga) : outcome vga :=
  let bx := cursor v in
  let cl := u8 ch in
  if (cl =? 0xd) || (cl =? 0xa) then line_feed bx v
  else if cl =? 0x8 then
    let bx := u16 (bx - 1) in
    v ← store_cell bx 0x20 v; Ok (set_cursor (Z.shiftr (u16 (Z.shiftl bx 1)) 1) v)
  else
    v ← store_cell bx cl v;
    let bx := u16 (Z.shiftr (u16 (Z.shiftl bx 1)) 1 + 1) in
    if i16 bx <? 2000 then Ok (set_cursor bx v) else line_feed bx v.

Fixpoint put_str (s : list Z) (v : vga) : outcome vga :=
  match s with
  | [] => Fault
  | c :: s => if c =? 0 then Ok v else v ← put_char c v; put_str s v
  end.

Definition cls_screen (v : vga) : outcome vga :=
  c ← clear_cells 2000 0 (cells v); Ok (set_cursor 0 (Vga c (cursor v))).

(** [put_int]: the eight digits, from the last one; [eax] is shifted, [edi] counts down. *)
Fixpoint int_digits (n : nat) (eax : Z) (buf : list Z) : list Z :=
  match n with
  | O => buf
  | S n =>
      let edx := Z.land eax 0xf in
      int_digits n (Z.shiftr eax 4) ((if edx >? 9 then edx - 10 + 65 else edx + 48) :: buf)
  end.

Fixpoint skip_prefix_0 (buf : list Z) : list Z :=
  match buf with
  | [] => [48]
  | c :: r => if c =? 48 then skip_prefix_0 r else buf
  end.

Fixpoint put_each (l : list Z) (v : vga) : outcome vga :=
  match l with
  | [] => Ok v
  | c :: l => v ← put_char c v; put_each l v
  end.

Definition put_int (num : Z) (v : vga) : outcome vga := put_each (skip_prefix_0 (int_digits 8 (u32 num) [])) v.

(** *** The console *)

(** The lock and the screen it protects; printing also gives the thread that the release wakes. *)
Record console := Console { console_lock : lock; card : vga }.

Definition console_init (c : console) : console := Console lock_init (card c).
Definition console_acquire (t : Z) (c : console) : outcome console :=
  l ← lock_acquire t (console_lock c); Ok (Console l (card c)).
Definition console_release (c : console) : option Z * console :=
  let '(w, l) := lock_release (console_lock c) in (w, Console l (card c)).

Definition console_put_str (t : Z) (str : list Z) (c : console) : outcome (option Z * console) :=
  c ← console_acquire t c;
  v ← put_str str (card c);
  Ok (console_release (Console (console_lock c) v)).
Definition console_put_char (t char_asci : Z) (c : console) : outcome (option Z * console) :=
  c ← console_acquire t c;
  v ← put_char char_asci (card c);
  Ok (console_release (Console (console_lock c) v)).
Definition console_put_int (t num : Z) (c : console) : outcome (option Z * console) :=
  c ← console_acquire t c;
  v ← put_int num (card c);
  Ok (console_release (Console (console_lock c) v)).

(** [printk]: the text of [vsprintf] in a buffer of 1024 zero bytes. *)
Definition printk (t : Z) (l : list item) (c : console) : outcome (option Z * console) :=
  buf ← splice (replicate 1024 0) 0 (output_of l); console_put_str t buf c.

(** ** The terminal *)

(** What is where, and the place of the next character: [glyph r c] for row [r] and column [c]. *)
Record term := Term { glyph : Z → Z → Z; row : Z; col : Z }.

Definition next_line (t : term) : term :=
  if row t + 1 <? 25 then Term (glyph t) (row t + 1) 0
  else Term (λ r c, if r <? 24 then glyph t (r + 1) c else blank) 24 0.

Definition put_glyph (r c w : Z) (t : term) : Z → Z → Z :=
  λ r' c', if (r' =? r) && (c' =? c) then w else glyph t r' c'.

(** A character; none for a backspace at the upper left corner. *)
Definition term_put (ch : Z) (t : term) : option term :=
  if (ch =? 0xd) || (ch =? 0xa) then Some (next_line t)
  else if ch =? 0x8 then
    if 0 <? col t then Some (Term (put_glyph (row t) (col t - 1) blank t) (row t) (col t - 1))
    else if 0 <? row t then Some (Term (put_glyph (row t - 1) 79 blank t) (row t - 1) 79)
    else None
  else
    let t' := Term (put_glyph (row t) (col t) (0x0700 + ch) t) (row t) (col t + 1) in
    Some (if col t + 1 <? 80 then t' else next_line t').

Fixpoint term_puts (s : list Z) (t : term) : option term :=
  match s with [] => Some t | c :: s => t' ← term_put c t; term_puts s t' end.

(** The first 2000 cells show the rows one after the other. *)
Record shows (v : vga) (t : term) : Prop := {
  sh_cells : zlen (cells v) = 16384;
  sh_row : 0 ≤ row t < 25;
  sh_col : 0 ≤ col t < 80;
  sh_cursor : cursor v = 80 * row t + col t;
  sh_glyph : ∀ r c, 0 ≤ r < 25 → 0 ≤ c < 80 → cells v !! Z.to_nat (80 * r + c) = Some (glyph t r c);
}.

(** ** Lemmas *)

Lemma set_cursor_at x v : 0 ≤ x < 65536 → set_cursor x v = Vga (cells v) x.
Proof. intros H. unfold set_cursor. f_equal. unfold u8, u16. rewrite Z.shiftr_div_pow2 by lia. change (2 ^ 8) with 256. zdm. Qed.

Lemma double_half x : 0 ≤ x < 32768 → Z.shiftr (u16 (Z.shiftl x 1)) 1 = x.
Proof. intros H. rewrite Z.shiftl_mul_pow2, Z.shiftr_div_pow2 by lia. change (2 ^ 1) with 2. unfold u16. zdm. Qed.

Lemma i16_small x : 0 ≤ x < 32768 → i16 x = x.
Proof. intros H. unfold i16. zdm. Qed.

Lemma move_cells_ok n src dst c :
  0 ≤ dst → dst < src → src + Z.of_nat n ≤ zlen c →
  ∃ c', move_cells n src dst c = Ok c' ∧ length c' = length c ∧
    ∀ i, 0 ≤ i → c' !! Z.to_nat i = if decide (dst ≤ i < dst + Z.of_nat n) then c !! Z.to_nat (i + (src - dst)) else c !! Z.to_nat i.
Proof.
  revert src dst c. induction n as [|n IH]; intros src dst c H0 H1 H2; cbn [move_cells].
  { exists c. split; [done|]. split; [done|]. intros i Hi. by rewrite decide_False by lia. }
  destruct (lookup_lt_is_Some_2 c (Z.to_nat src)) as [w Hw]; [unfold zlen in *; lia|].
  assert (Hg : aget c src = Ok w) by (apply aget_ok; split; [lia|done]).
  mrun Hg. rewrite aset_ok by (unfold zlen in *; lia). cbn [mbind outcome_bind].
  destruct (IH (src + 1) (dst + 1) (<[Z.to_nat dst := w]> c)) as (c' & E & L & G); [lia|lia|unfold zlen in *; rewrite length_insert; lia|].
  exists c'. split; [done|]. split; [by rewrite L, length_insert|]. intros i Hi. rewrite G by done. replace (src + 1 - (dst + 1)) with (src - dst) by lia.
  destruct (decide (i = dst)) as [->|Hne].
  - rewrite decide_False, decide_True by lia. rewrite list_lookup_insert_eq by (unfold zlen in *; lia). rewrite <- Hw. f_equal. lia.
  - destruct (decide (dst + 1 ≤ i < dst + 1 + Z.of_nat n)).
    + rewrite decide_True by lia. apply list_lookup_insert_ne. lia.
    + rewrite decide_False by lia. apply list_lookup_insert_ne. lia.
Qed.

Lemma clear_cells_ok n at_ c :
  0 ≤ at_ → at_ + Z.of_nat n ≤ zlen c →
  ∃ c', clear_cells n at_ c = Ok c' ∧ length c' = length c ∧
    ∀ i, 0 ≤ i → c' !! Z.to_nat i = if decide (at_ ≤ i < at_ + Z.of_nat n) then Some blank else c !! Z.to_nat i.
Proof.
  revert at_ c. induction n as [|n IH]; intros at_ c H0 H1; cbn [clear_cells].
  { exists c. split; [done|]. split; [done|]. intros i Hi. by rewrite decide_False by lia. }
  rewrite aset_ok by (unfold zlen in *; lia). cbn [mbind outcome_bind].
  destruct (IH (at_ + 1) (<[Z.to_nat at_ := blank]> c)) as (c' & E & L & G); [lia|unfold zlen in *; rewrite length_insert; lia|].
  exists c'. split; [done|]. split; [by rewrite L, length_insert|]. intros i Hi. rewrite G by done. destruct (decide (i = at_)) as [->|Hne].
  - rewrite decide_False, decide_True by lia. apply list_lookup_insert_eq. unfold zlen in *. lia.
  - destruct (decide (at_ + 1 ≤ i < at_ + 1 + Z.of_nat n)); [by rewrite decide_True by lia|]. rewrite decide_False by lia. apply list_lookup_insert_ne. lia.
Qed.

(** ** The operations on the terminal *)

Definition in_place (t : term) : Prop := 0 ≤ row t < 25 ∧ 0 ≤ col t < 80.

Lemma roll_ok v t : shows v t → row t = 24 → ∃ v', roll_screen v = Ok v' ∧ shows v' (next_line t).
Proof.
  intros [S1 S2 S3 S4 S5] Hr. unfold roll_screen.
  destruct (move_cells_ok 1920 80 0 (cells v)) as (c1 & E1 & L1 & G1); [lia|lia|lia|]. mrun E1.
  destruct (clear_cells_ok 80 1920 c1) as (c2 & E2 & L2 & G2); [lia|unfold zlen in *; lia|]. mrun E2. eexists. split; [done|]. rewrite set_cursor_at by lia.
  unfold next_line. rewrite Hr. change (24 + 1 <? 25) with false. cbn iota. split; cbn [cells cursor row col glyph]; [unfold zlen in *; lia|lia|lia|lia|].
  intros r c Hr' Hc. rewrite G2 by lia. destruct (Z.ltb_spec r 24).
  - rewrite decide_False, G1, decide_True by lia. rewrite <- S5 by lia. f_equal. lia.
  - rewrite decide_True by lia. done.
Qed.

(** [line_feed] from any cell of the row, or from behind the last one of the screen. *)
Lemma line_feed_ok v t bx :
  shows v t → (80 * row t ≤ bx < 80 * row t + 80 ∨ row t = 24 ∧ bx = 2000) → ∃ v', line_feed bx v = Ok v' ∧ shows v' (next_line t).
Proof.
  intros Hs Hb. pose proof Hs as [S1 S2 S3 S4 S5]. unfold line_feed. destruct (decide (bx = 2000)) as [->|Hne].
  { assert (row t = 24) by lia. change (i16 (u16 (2000 - 2000 mod 80 + 80)) <? 2000) with false. cbn iota. by apply roll_ok. }
  assert (Hm : bx - bx mod 80 + 80 = 80 * (row t + 1)). { assert (bx mod 80 = bx - 80 * row t) as -> by (symmetry; apply (Z.mod_unique _ _ (row t)); lia). lia. }
  rewrite Hm, u16_small, i16_small by lia. destruct (Z.ltb_spec (80 * (row t + 1)) 2000).
  - eexists. split; [done|]. rewrite set_cursor_at by lia. unfold next_line. destruct (Z.ltb_spec (row t + 1) 25); [|lia].
    split; cbn [cells cursor row col glyph]; try done; lia.
  - apply roll_ok; [done|lia].
Qed.

Lemma store_ok v t r c w :
  shows v t → 0 ≤ r < 25 → 0 ≤ c < 80 →
  ∃ cs, store_cell (80 * r + c) w v = Ok (Vga cs (cursor v)) ∧ zlen cs = 16384 ∧
    ∀ r' c', 0 ≤ r' < 25 → 0 ≤ c' < 80 → cs !! Z.to_nat (80 * r' + c') = Some (put_glyph r c (0x0700 + u8 w) t r' c').
Proof.
  intros [S1 S2 S3 S4 S5] Hr Hc. unfold store_cell. rewrite double_half, aset_ok by lia. cbn [mbind outcome_bind]. eexists. split; [done|].
  split; [unfold zlen in *; by rewrite length_insert|]. intros r' c' Hr' Hc'. unfold put_glyph. destruct (Z.eqb_spec r' r), (Z.eqb_spec c' c); cbn [andb]; subst.
  - apply list_lookup_insert_eq. unfold zlen in *. lia.
  - rewrite list_lookup_insert_ne by lia. by apply S5.
  - rewrite list_lookup_insert_ne by lia. by apply S5.
  - rewrite list_lookup_insert_ne by lia. by apply S5.
Qed.

Lemma put_char_ok v t ch t' :
  shows v t → 0 ≤ ch < 256 → term_put ch t = Some t' → ∃ v', put_char ch v = Ok v' ∧ shows v' t'.
Proof.
  intros Hs Hch Ht. pose proof Hs as [S1 S2 S3 S4 S5]. unfold put_char, term_put in *. rewrite u8_small by done.
  destruct ((ch =? 13) || (ch =? 10)); [injection Ht as <-; apply line_feed_ok; [done|lia]|]. destruct (ch =? 8).
  - assert (Hb : ∃ r c, 0 ≤ r < 25 ∧ 0 ≤ c < 80 ∧ cursor v - 1 = 80 * r + c ∧ t' = Term (put_glyph r c blank t) r c).
    { destruct (Z.ltb_spec 0 (col t)); [injection Ht as <-; exists (row t), (col t - 1); split_and!; lia || done|].
      destruct (Z.ltb_spec 0 (row t)); [|done]. injection Ht as <-. exists (row t - 1), 79. split_and!; lia || done. }
    destruct Hb as (r & c & Hr & Hc & Hcur & ->). rewrite (u16_small (cursor v - 1)) by lia. rewrite Hcur. destruct (store_ok v t r c 0x20 Hs Hr Hc) as (cs & E & L & G). mrun E.
    rewrite double_half, set_cursor_at by lia. eexists. split; [done|]. split; cbn [cells cursor row col glyph]; try done.
  - injection Ht as <-. rewrite S4. destruct (store_ok v t (row t) (col t) ch Hs S2 S3) as (cs & E & L & G). mrun E. rewrite double_half, (u16_small (80 * row t + col t + 1)), i16_small by lia.
    rewrite u8_small in G by done. set (t1 := Term _ (row t) (col t + 1)). set (v1 := Vga cs (cursor v)).
    destruct (Z.ltb_spec (col t + 1) 80).
    + destruct (Z.ltb_spec (80 * row t + col t + 1) 2000); [|lia]. rewrite set_cursor_at by lia. eexists. split; [done|].
      split; cbn [cells cursor row col glyph t1]; try done; lia.
    + assert (Hs1 : shows v1 (Term (glyph t1) (row t) (col t))) by (split; cbn [cells cursor row col glyph v1 t1]; done).
      assert (Hn : next_line t1 = next_line (Term (glyph t1) (row t) (col t))) by done. rewrite Hn.
      destruct (Z.ltb_spec (80 * row t + col t + 1) 2000).
      * rewrite set_cursor_at by lia. eexists. split; [done|]. unfold next_line. cbn [row col glyph]. destruct (Z.ltb_spec (row t + 1) 25); [|lia].
        split; cbn [cells cursor row col glyph v1]; try done; lia.
      * apply line_feed_ok; [done|]. cbn [row]. lia.
Qed.

Lemma put_each_ok s v t t' :
  shows v t → Forall (λ c, 0 ≤ c < 256) s → term_puts s t = Some t' → ∃ v', put_each s v = Ok v' ∧ shows v' t'.
Proof.
  intros Hs Hc. revert v t Hs. induction Hc as [|c s Hc Hcs IH]; intros v t Hs Ht; cbn [put_each term_puts] in *; [injection Ht as <-; eauto|].
  destruct (term_put c t) as [t1|] eqn:E; [|done]. destruct (put_char_ok v t c t1 Hs Hc E) as (v1 & E1 & S1). mrun E1. by apply (IH v1 t1).
Qed.

Lemma put_str_each s r v : Forall (λ c, 0 < c < 256) s → put_str (s ++ 0 :: r) v = put_each s v.
Proof.
  intros Hs. revert v. induction Hs as [|c s Hc Hs IH]; intros v; [done|]. cbn [put_str put_each app]. rewrite (proj2 (Z.eqb_neq c 0)) by lia.
  destruct (put_char c v); try done. apply IH.
Qed.

(** The digits that [put_int] collects, for numbers of at most [n] digits. *)
Lemma skip_digits n eax buf :
  0 < eax < 16 ^ Z.of_nat n → skip_prefix_0 (int_digits n eax buf) = digits n eax 16 ++ buf.
Proof.
  revert eax buf. induction n as [|n IH]; intros eax buf H; [change (16 ^ Z.of_nat 0) with 1 in H; lia|]. cbn [int_digits]. unfold digits; fold digits.
  rewrite Nat2Z.inj_succ, Z.pow_succ_r in H by lia. change 15 with (Z.ones 4). rewrite Z.land_ones, Z.shiftr_div_pow2 by lia. change (2 ^ 4) with 16.
  assert (Hr : 0 ≤ eax mod 16 < 16) by (apply Z.mod_pos_bound; lia).
  assert (Hd : (if eax mod 16 >? 9 then eax mod 16 - 10 + 65 else eax mod 16 + 48) = (if eax mod 16 <? 10 then eax mod 16 + 48 else eax mod 16 + 55)).
  { rewrite Z.gtb_ltb. destruct (Z.ltb_spec 9 (eax mod 16)), (Z.ltb_spec (eax mod 16) 10); lia. }
  rewrite Hd. destruct (Z.eqb_spec (eax / 16) 0) as [E|E]; cbn [negb].
  - rewrite E. set (d := if _ <? _ then _ else _). assert (Hz : ∀ k l, skip_prefix_0 (int_digits k 0 l) = skip_prefix_0 l).
    { intros k. induction k as [|k IHk]; intros l; [done|]. cbn [int_digits]. change (Z.land 0 15) with 0. change (Z.shiftr 0 4) with 0. change (0 >? 9) with false. cbn iota. rewrite IHk. done. }
    rewrite Hz. cbn [skip_prefix_0]. rewrite (proj2 (Z.eqb_neq d 48)); [done|]. unfold d. destruct (Z.ltb_spec (eax mod 16) 10); [|lia].
    pose proof (Z.div_mod eax 16). lia.
  - rewrite IH; [by rewrite <- app_assoc|]. split; [pose proof (Z.div_pos eax 16); lia|]. apply Z.div_lt_upper_bound; lia.
Qed.

Lemma digits_fuel n k v base : 2 ≤ base → 0 ≤ v < base ^ Z.of_nat n → (0 < n)%nat → (n ≤ k)%nat → digits k v base = digits n v base.
Proof.
  intros Hb. revert k v. induction n as [|n IH]; intros k v Hv Hn Hk; [lia|]. destruct k as [|k]; [lia|]. unfold digits; fold digits.
  rewrite Nat2Z.inj_succ, Z.pow_succ_r in Hv by lia. destruct (Z.eqb_spec (v / base) 0) as [E|E]; [done|]. cbn [negb]. f_equal.
  assert (Hq : 0 ≤ v / base < base ^ Z.of_nat n) by (split; [apply Z.div_pos; lia|apply Z.div_lt_upper_bound; lia]).
  destruct n as [|n]; [simpl in Hq; lia|]. apply IH; [done|lia|lia].
Qed.

Lemma put_int_digits num : skip_prefix_0 (int_digits 8 (u32 num) []) = digits 32 (u32 num) 16.
Proof.
  pose proof (u32_range num) as Hr. rewrite (digits_fuel 8 32) by (change (16 ^ Z.of_nat 8) with 4294967296; lia). destruct (decide (u32 num = 0)) as [->|Hne]; [reflexivity|].
  rewrite skip_digits by (change (16 ^ Z.of_nat 8) with 4294967296; lia). by rewrite app_nil_r.
Qed.

(** C28: the screen is a terminal.  Printing a string or a number has the effect of its characters
    on a terminal of 25 rows and 80 columns: characters go from left to right and from row to row,
    CR and LF both begin a new line, a backspace erases the character before (going up a row if
    needed), and behind the last row everything moves up by one.  The terminal fails only on a
    backspace at the upper left corner; otherwise no store leaves the 32 KB of the segment and the
    cursor stays on the screen.  Numbers appear in base 16 without leading zeros, and
    [cls_screen] shows an empty screen. *)
Theorem screen_terminal v t s r t' :
  shows v t → Forall (λ c, 0 < c < 256) s → term_puts s t = Some t' →
  (∃ v', put_str (s ++ 0 :: r) v = Ok v' ∧ shows v' t') ∧
  (∀ num, s = digits 32 (u32 num) 16 → ∃ v', put_int num v = Ok v' ∧ shows v' t') ∧
  ∃ v', cls_screen v = Ok v' ∧ shows v' (Term (λ _ _, blank) 0 0).
Proof.
  intros Hs Hc Ht. assert (Hp : ∃ v', put_each s v = Ok v' ∧ shows v' t').
  { apply (put_each_ok s v t); try done. eapply Forall_impl; [done|]. simpl. lia. }
  split; [|split].
  - by rewrite put_str_each.
  - intros num ->. unfold put_int. by rewrite put_int_digits.
  - unfold cls_screen. pose proof Hs as [S1 _ _ _ _]. destruct (clear_cells_ok 2000 0 (cells v)) as (c & E & L & G); [lia|lia|]. mrun E. eexists. split; [done|].
    rewrite set_cursor_at by lia. split; cbn [cells cursor row col glyph]; [unfold zlen in *; lia|lia|lia|lia|]. intros r' c' Hr' Hc'. rewrite G by lia. apply decide_True. lia.
Qed.

(** A backspace at the upper left corner stores behind the segment. *)
Theorem put_char_corner v : zlen (cells v) = 16384 → cursor v = 0 → put_char 8 v = Fault.
Proof.
  intros HL Hc. unfold put_char. rewrite Hc. change (u8 8) with 8. change ((8 =? 13) || (8 =? 10)) with false. change (8 =? 8) with true. cbn iota.
  unfold store_cell, aset. rewrite HL. done.
Qed.

(** Through the console: with the lock free, the text is on the screen and the lock is free again;
    when another thread is printing, the caller sleeps and nothing is printed. *)
Theorem console_prints c th t s r t' :
  shows (card c) t → Forall (λ x, 0 < x < 256) s → term_puts s t = Some t' → th ≠ 0 →
  (console_lock c = lock_init → ∃ c', console_put_str th (s ++ 0 :: r) c = Ok (None, c') ∧ console_lock c' = lock_init ∧ shows (card c') t') ∧
  (holder (console_lock c) ≠ th → value (lsema (console_lock c)) = 0 → th ∉ waiters (lsema (console_lock c)) →
   console_put_str th (s ++ 0 :: r) c = Blocked).
Proof.
  intros Hs Hc Ht Hth. split.
  - intros Hl. unfold console_put_str, console_acquire. rewrite Hl. unfold lock_acquire. cbn [holder lock_init]. rewrite (proj2 (Z.eqb_neq 0 th)) by done.
    change (sema_down_turn th (lsema lock_init)) with (Ok (Semaphore 0 [], true) : outcome _). cbn [mbind outcome_bind console_lock card].
    rewrite put_str_each by done. destruct (put_each_ok s (card c) t t' Hs) as (v' & E & S'); [eapply Forall_impl; [done|]; simpl; lia|done|]. mrun E.
    eexists. split; [reflexivity|]. split; [reflexivity|exact S'].
  - intros Hh Hv Hw. unfold console_put_str, console_acquire, lock_acquire, sema_down_turn. rewrite (proj2 (Z.eqb_neq _ _) Hh), Hv.
    change (0 =? 0) with true. cbn iota. rewrite decide_False by done. reflexivity.
Qed.

(** *** Witness: a character in the lower right corner of an empty screen *)

Definition demo_vga : vga := Vga (replicate (Z.to_nat 16384) blank) 1999.

Lemma demo_vga_shows : shows demo_vga (Term (λ _ _, blank) 24 79).
Proof.
  split; cbn [cells cursor row col glyph demo_vga]; [unfold zlen; rewrite length_replicate; lia|lia|lia|lia|]. intros r c Hr Hc. apply lookup_replicate_2. lia.
Qed.

Lemma screen_terminal_witness :
  ∃ v', put_str [65; 0] demo_vga = Ok v' ∧ cursor v' = 1920 ∧ cells v' !! Z.to_nat (80 * 23 + 79) = Some 0x0741.
Proof.
  destruct (screen_terminal demo_vga (Term (λ _ _, blank) 24 79) [65] [] (next_line (Term (put_glyph 24 79 0x0741 (Term (λ _ _, blank) 24 79)) 24 80))) as ((v' & E & S') & _).
  - exact demo_vga_shows.
  - repeat constructor; lia.
  - reflexivity.
  - exists v'. split; [exact E|]. split; [exact (sh_cursor _ _ S')|]. apply (sh_glyph _ _ S' 23 79); lia.
Defined.
