(* ===== verification/Debug.v ===== *)
(** * The message of a panic (kernel/debug.c)

    [PANIC] is the outcome [Panic] of the other files; here is what it prints. *)

From Stdlib Require Import Strings.String.
From S2P Require Import Prelude Interrupt Sync IoQueue CString Stdio Commands Ps Screen.

(** Strings one after the other. *)
Fixpoint put_strs (l : list (list Z)) (v : vga) : outcome vga :=
  match l with
  | [] => Ok v
  | s :: l => v ← put_str s v; put_strs l v
  end.

Definition cstr (s : string) : list Z := txt s ++ [0].
Arguments cstr _%_string.

(** Up to [while (1)]; the processor stays there with interrupts off. *)
Definition panic_spin (filename : list Z) (line : Z) (func condition : list Z) (c : cpu) (v : vga) : outcome (cpu * vga) :=
  let c := snd (intr_disable c) in
  v ← put_strs [[NL; NL; NL] ++ txt "!!!!! error !!!!!" ++ [NL; 0]; cstr "filename:"; filename; [NL; 0]; cstr "line:0x"] v;
  v ← put_int line v;
  v ← put_strs [[NL; 0]; cstr "function:"; func; [NL; 0]; cstr "condition:"; condition; [NL; 0]] v;
  Ok (c, v).

(** ** The message *)

Lemma term_puts_app a b t : term_puts (a ++ b) t = (t' ← term_puts a t; term_puts b t').
Proof. revert t. induction a as [|x a IH]; intros t; [done|]. cbn [term_puts app]. destruct (term_put x t) as [t1|]; [apply IH|done]. Qed.

(** A C string in memory and its characters. *)
Definition is_text (c s : list Z) : Prop := c = s ++ [0] ∧ chars s.

(** Some strings on the screen act like their concatenation. *)
Lemma put_strs_ok cs l v t t' :
  shows v t → Forall2 is_text cs l → term_puts (concat l) t = Some t' → ∃ v', put_strs cs v = Ok v' ∧ shows v' t'.
Proof.
  intros Hs Hl. revert v t Hs. induction Hl as [|c s cs l [-> Hc] Hl IH]; intros v t Hs Ht; [injection Ht as <-; by exists v|]. cbn [concat] in Ht. rewrite term_puts_app in Ht.
  destruct (term_puts s t) as [t1|] eqn:E; [|done]. cbn [put_strs]. rewrite put_str_each by done.
  destruct (put_each_ok s v t t1 Hs) as (v1 & E1 & S1); [eapply Forall_impl; [exact Hc|]; simpl; lia|done|]. mrun E1. by apply (IH v1 t1).
Qed.

(** A literal, or by assumption. *)
Ltac text := first [split; [reflexivity|assumption] | split; [vm_compute; reflexivity|apply (bool_decide_unpack _); vm_compute; exact I]].

Lemma hex_chars n : chars (digits 32 (u32 n) 16).
Proof. pose proof (number_chars (PHex n) I) as H. unfold out_of in H. exact H. Qed.

Section Message.
Context (filename : list Z) (line : Z) (func condition : list Z).

Definition before_line : list (list Z) := [[NL; NL; NL] ++ txt "!!!!! error !!!!!" ++ [NL]; txt "filename:"; filename; [NL]; txt "line:0x"].
Definition after_line : list (list Z) := [[NL]; txt "function:"; func; [NL]; txt "condition:"; condition; [NL]].

(** The text of the message. *)
Definition panic_text : list Z := concat before_line ++ digits 32 (u32 line) 16 ++ concat after_line.

Definition before_strs : list (list Z) := [[NL; NL; NL] ++ txt "!!!!! error !!!!!" ++ [NL; 0]; cstr "filename:"; filename ++ [0]; [NL; 0]; cstr "line:0x"].
Definition after_strs : list (list Z) := [[NL; 0]; cstr "function:"; func ++ [0]; [NL; 0]; cstr "condition:"; condition ++ [0]; [NL; 0]].

Lemma before_texts : chars filename → Forall2 is_text before_strs before_line.
Proof. intros H. repeat (apply Forall2_cons_2; [text|]). apply Forall2_nil_2. Qed.

Lemma after_texts : chars func → chars condition → Forall2 is_text after_strs after_line.
Proof. intros H1 H2. repeat (apply Forall2_cons_2; [text|]). apply Forall2_nil_2. Qed.

Lemma panic_spin_eq c v : panic_spin (filename ++ [0]) line (func ++ [0]) (condition ++ [0]) c v =
  (v ← put_strs before_strs v; v ← put_each (digits 32 (u32 line) 16) v; v ← put_strs after_strs v; Ok (snd (intr_disable c), v)).
Proof. unfold panic_spin, put_int. rewrite put_int_digits. reflexivity. Qed.

(** A panic leaves its message, and nothing else, on the terminal, and interrupts off. *)
Theorem panic_prints c v t t' :
  shows v t → chars filename → chars func → chars condition → term_puts panic_text t = Some t' →
  ∃ c' v', panic_spin (filename ++ [0]) line (func ++ [0]) (condition ++ [0]) c v = Ok (c', v') ∧ intr_get_status c' = INTR_OFF ∧ shows v' t'.
Proof.
  intros Hs H1 H2 H3 Ht. unfold panic_text in Ht. rewrite term_puts_app in Ht. apply bind_Some in Ht as (t1 & E1 & Ht). rewrite term_puts_app in Ht. apply bind_Some in Ht as (t2 & E2 & Ht).
  destruct (put_strs_ok before_strs before_line v t t1 Hs (before_texts H1) E1) as (v1 & P1 & S1).
  destruct (put_each_ok (digits 32 (u32 line) 16) v1 t1 t2 S1) as (v2 & P2 & S2); [eapply Forall_impl; [apply hex_chars|]; simpl; lia|exact E2|].
  destruct (put_strs_ok after_strs after_line v2 t2 t' S2 (after_texts H2 H3) Ht) as (v3 & P3 & S3).
  rewrite panic_spin_eq. mrun P1. mrun P2. mrun P3. eexists _, v3. split; [reflexivity|]. split; [apply intr_disable_off|exact S3].
Qed.
End Message.
