(* ===== verification/Entry.v ===== *)
(** * Entries of interrupts and exceptions (kernel/kernel.s: VECTOR, intr_exit)

    Each of the 48 vectors has an entry that completes the frame of the processor to a
    [struct intr_stack], acknowledges the interrupt, calls the handler of [idt_table] and leaves
    through [intr_exit]. *)

From S2P Require Import Prelude Interrupt KList FsState File Pipe Fs Bitmap Sched Sync Paging Arena HeapPages Task WaitExit Fork ForkStack Boot Syscall.

(** The vectors declared with [ERROR_CODE]; the others push a zero in its place. *)
Definition error_code_entry (vec : Z) : bool :=
  bool_decide (vec ∈ [0x08; 0x0a; 0x0b; 0x0d; 0x0e; 0x11; 0x18; 0x1a; 0x1b; 0x1d; 0x1e]).

(** The exceptions for which the processor pushes an error code. *)
Definition pushes_code (vec : Z) : bool := bool_decide (vec ∈ [8; 10; 11; 12; 13; 14; 17]).

(** The processor, interrupted in user mode. *)
Definition raise (esp0 vec code : Z) (r : user_regs) (w : kmach) : outcome (Z * kmach) :=
  push_all ([r_ss r; r_esp r; r_eflags r; r_cs r; r_eip r] ++ if pushes_code vec then [code] else []) esp0 w.

Section Entry.
(** The handlers of [idt_table], each with its vector as argument. *)
Context (handler : Z → kmach → outcome kmach).
Context (ret_addr : Z).

Definition VECTOR (vec sp : Z) (r : user_regs) (w : kmach) (l : io) : outcome (user_regs * kmach * io) :=
  '(sp, w) ← push_all (if error_code_entry vec then [] else [0]) sp w;
  '(sp, w) ← push_all [r_ds r; r_es r; r_fs r; r_gs r] sp w;
  '(sp, w) ← push_all [r_eax r; r_ecx r; r_edx r; r_ebx r; sp; r_ebp r; r_esi r; r_edi r] sp w;
  let l := outb PIC_M_CTRL 0x20 (outb PIC_S_CTRL 0x20 l) in
  '(sp, w) ← push_all [vec] sp w;
  w ← stk w (sp - 4) ret_addr;
  w ← handler vec w;
  r ← intr_exit sp w;
  Ok (r, w, l).

Definition interrupt (esp0 vec code : Z) (r : user_regs) (w : kmach) (l : io) : outcome (user_regs * kmach * io) :=
  '(sp, w) ← raise esp0 vec code r w; VECTOR vec sp r w l.
End Entry.

(** The frame is complete when the entry knows about the error code. *)
Lemma entry_saved t vec code r w {A} (k : Z * kmach → outcome A) :
  error_code_entry vec = pushes_code vec →
  ('(sp, w) ← raise (t + 4096) vec code r w;
   '(sp, w) ← push_all (if error_code_entry vec then [] else [0]) sp w;
   '(sp, w) ← push_all [r_ds r; r_es r; r_fs r; r_gs r] sp w;
   '(sp, w) ← push_all [r_eax r; r_ecx r; r_edx r; r_ebx r; sp; r_ebp r; r_esi r; r_edi r] sp w;
   '(sp, w) ← push_all [vec] sp w; k (sp, w)) =
  (p ← push_all (frame_words r (t + 4056) (if pushes_code vec then code else 0) vec) (t + 4096) w; k p).
Proof.
  intros He. set (c := if pushes_code vec then code else 0).
  change (frame_words r (t + 4056) c vec) with ([r_ss r; r_esp r; r_eflags r; r_cs r; r_eip r; c] ++ [r_ds r; r_es r; r_fs r; r_gs r] ++
    [r_eax r; r_ecx r; r_edx r; r_ebx r; t + 4056; r_ebp r; r_esi r; r_edi r] ++ [vec]).
  assert (Hr : ('(sp, w) ← raise (t + 4096) vec code r w; push_all (if error_code_entry vec then [] else [0]) sp w) =
    push_all [r_ss r; r_esp r; r_eflags r; r_cs r; r_eip r; c] (t + 4096) w).
  { unfold raise. rewrite He, <- push_all_app, <- app_assoc. unfold c. by destruct (pushes_code vec). }
  rewrite push_all_app, <- Hr. destruct (raise _ _ _ _ _) as [[sp0 w0]| | | |]; try done. cbn [mbind outcome_bind] in *.
  destruct (push_all (if error_code_entry vec then [] else [0]) sp0 w0) as [[sp1 w1]| | | |] eqn:E1; try done. cbn [mbind outcome_bind].
  symmetry in Hr. apply push_all_sp in Hr. cbn [length] in Hr.
  rewrite push_all_app. destruct (push_all [r_ds r; _; _; _] _ _) as [[sp2 w2]| | | |] eqn:E2; try done. cbn [mbind outcome_bind]. apply push_all_sp in E2. cbn [length] in E2.
  replace sp2 with (t + 4056) by lia. rewrite push_all_app. destruct (push_all [r_eax r; _; _; _; _; _; _; _] _ _) as [[sp3 w3]| | | |]; try done. cbn [mbind outcome_bind].
  by destruct (push_all [vec] sp3 w3) as [[sp4 w4]| | | |].
Qed.

(** Interrupts are transparent.  A thread that is interrupted in user mode by a vector whose
    entry agrees with the processor about the error code: the handler runs once, with the vector
    as its argument and a frame at the top of the page of the thread that holds the registers, both
    interrupt controllers get the end-of-interrupt command, and if the handler leaves the frame
    alone the thread goes on with the registers it had. *)
Theorem interrupt_transparent handler ret_addr t vec code r w l :
  t mod 4096 = 0 → in_stack w (t + 4016) (t + 4096) → error_code_entry vec = pushes_code vec →
  ∃ w1, intr_exit (syscall_frame t) w1 = Ok r ∧ (∀ a, ¬ (t + 4016 ≤ a < t + 4096) → words w1 !! a = words w !! a) ∧
    ∀ w2, handler vec w1 = Ok w2 → (∀ a, syscall_frame t ≤ a < t + 4096 → words w2 !! a = words w1 !! a) →
      interrupt handler ret_addr (t + 4096) vec code r w l = Ok (r, w2, l ++ [(PIC_S_CTRL, 0x20); (PIC_M_CTRL, 0x20)]).
Proof.
  intros Hal Hst He. set (fw := frame_words r (t + 4056) (if pushes_code vec then code else 0) vec).
  destruct (push_all_ok fw (t + 4096) w) as (wf & F1 & F2 & F3 & F4); [intros a Ha Ha4; apply Hst; [change (Z.of_nat (length fw)) with 19 in Ha; lia|done]|zdm|].
  change (Z.of_nat (length fw)) with 19 in *. assert (Esf : syscall_frame t = t + 4020) by (unfold syscall_frame, PG_SIZE, sizeof_intr_stack; lia).
  replace (t + 4096 - 4 * 19) with (syscall_frame t) in * by lia.
  assert (Hret : is_Some (words wf !! (syscall_frame t - 4))) by (apply F4, Hst; [lia|rewrite Esf; zdm]).
  set (w1 := KMach (<[syscall_frame t - 4 := ret_addr]> (words wf)) (kcpu wf)).
  assert (Hf1 : ∀ a, syscall_frame t ≤ a → words w1 !! a = words wf !! a) by (intros a Ha; apply lookup_insert_ne; lia).
  assert (Hpu : ∀ x, (∀ a, syscall_frame t ≤ a < t + 4096 → words x !! a = words wf !! a) → intr_exit (syscall_frame t) x = Ok r).
  { intros x Hx. apply (frame_exit r (t + 4056) (if pushes_code vec then code else 0) vec). intros k v Hk. pose proof (lookup_lt_Some _ _ _ Hk) as Hlt. simpl in Hlt. rewrite Hx by lia. by apply F2. }
  exists w1. split; [apply Hpu; intros a Ha; apply Hf1; lia|]. split.
  { intros a Ha. unfold w1. cbn [words]. rewrite lookup_insert_ne by lia. apply F3. lia. }
  intros w2 Hh Hkeep. unfold interrupt, VECTOR. pose proof (entry_saved t vec code r w (λ '(sp, w), w ← stk w (sp - 4) ret_addr; w ← handler vec w; r ← intr_exit sp w;
    Ok (r, w, outb PIC_M_CTRL 0x20 (outb PIC_S_CTRL 0x20 l))) He) as Hs. fold fw in Hs. rewrite F1 in Hs. cbn [mbind outcome_bind] in Hs. etransitivity; [exact Hs|]. clear Hs.
  mrun (stk_ok wf (syscall_frame t - 4) ret_addr Hret). fold w1. mrun Hh. rewrite Hpu by (intros a Ha; rewrite Hkeep, Hf1 by lia; done). cbn [mbind outcome_bind].
  unfold outb. by rewrite <- app_assoc.
Qed.

(** The entries of the exceptions agree with the processor but for the stack fault (12), whose
    entry pushes a second word: there [intr_exit] would take the registers from the wrong places. *)
Theorem vector_codes vec : 0 ≤ vec < 20 → error_code_entry vec = pushes_code vec ↔ vec ≠ 12.
Proof.
  intros Hv. assert (Hall : Forall (λ v, error_code_entry v = pushes_code v ↔ v ≠ 12) (seqZ 0 20)) by (repeat constructor; done).
  rewrite Forall_forall in Hall. apply Hall, elem_of_seqZ. lia.
Qed.

(** *** Witness: the clock interrupts a thread, with a handler that does nothing *)

Lemma interrupt_transparent_witness :
  ∃ w2, interrupt (λ _ w, Ok w) 0xc0001500 (0x1000 + 4096) 0x20 0 demo_user demo_stack [] = Ok (demo_user, w2, [(PIC_S_CTRL, 0x20); (PIC_M_CTRL, 0x20)]).
Proof.
  destruct (interrupt_transparent (λ _ w, Ok w) 0xc0001500 0x1000 0x20 0 demo_user demo_stack []) as (w1 & _ & _ & H).
  - reflexivity.
  - intros a Ha. apply demo_stack_mem. lia.
  - reflexivity.
  - exists w1. apply H; reflexivity.
Defined.
