(* ===== verification/Programs.v ===== *)
(** * User programs (command/prog_pipe.c, command/old_command/cat.c)

    [prog_pipe] is two processes after its [fork]: each has its own descriptors, the file system
    and the pipe are shared, and the scheduler runs them in any order.  [cat] is one process. *)

From Stdlib Require Import Strings.String.
From S2P Require Import Prelude Bitmap Sched Sync Paging Arena Task WaitExit Fork CString Stdio IoQueue Disk FsState Inode Dir File Pipe Fs FileCalls Commands Ps.

(** ** A father, a child and a pipe *)

Inductive who := Father | Child.

(** The shared file system, the descriptors of the two processes and the buffer [buf] of the child. *)
Record procs := Procs { world : fs; father_fds : list Z; child_fds : list Z; cbuf : list Z }.

Section ProgPipe.
(** The two threads, their pids, and the byte behind the literal, which [write] of 24 bytes
    reads as well. *)
Context (ft ct fpid cpid behind : Z).

Definition letter : list Z := txt "Hi, my son, I love you" ++ [0].
Definition message : list Z := letter ++ [behind].

(** Up to the [fork]: of the fork, what it does to the open files; the child gets a copy of the
    descriptors. *)
Definition prog_pipe_start (s : fs) : outcome (Z * Z * procs) :=
  '(_, (fd0, fd1), s) ← sys_pipe s;
  s ← update_cnts 5 3 (fd_table s) s;
  Ok (fd0, fd1, Procs s (fd_table s) (fd_table s) (replicate 32 0)).

Definition by_father (s : fs) (p : procs) : procs := Procs s (fd_table s) (child_fds p) (cbuf p).
Definition by_child (s : fs) (b : list Z) (p : procs) : procs := Procs s (father_fds p) (fd_table s) b.

Definition father_says : list Z := NL :: txt "I'm father,my pid is " ++ out_of (PDec fpid) ++ [NL].
Definition child_says : list Z := NL :: txt "I'm child, my pid is " ++ out_of (PDec cpid) ++ [NL].
Definition child_repeats (str : list Z) : list Z := txt "I'm child, my father said to :" ++ [34] ++ str ++ [34; NL].

(** The calls of the two branches, by number. *)
Definition father (fd0 fd1 : Z) (pc : nat) (p : procs) : outcome procs :=
  let s := set_fd_table (father_fds p) (world p) in
  match pc with
  | O => '(_, s) ← sys_close fd0 s; Ok (by_father s p)
  | 1%nat => '(_, s, _) ← sys_write ft fd1 message 24 s; Ok (by_father s p)
  | 2%nat => '(s, _) ← write_text ft father_says s; Ok (by_father s p)
  | _ => Ok p
  end.

Definition child (fd0 fd1 : Z) (pc : nat) (p : procs) : outcome procs :=
  let s := set_fd_table (child_fds p) (world p) in
  match pc with
  | O => '(_, s) ← sys_close fd1 s; Ok (by_child s (cbuf p) p)
  | 1%nat => '(_, b, s, _) ← sys_read ct false fd0 (cbuf p) 24 s; Ok (by_child s b p)
  | 2%nat => '(s, _) ← write_text ct child_says s; Ok (by_child s (cbuf p) p)
  | 3%nat =>
      str ← cstring (cbuf p);
      '(s, _) ← write_text ct (child_repeats str) s;
      Ok (by_child s (cbuf p) p)
  | _ => Ok p
  end.

(** The calls in the order of the schedule; [f] and [c] count the calls made. *)
Fixpoint run (fd0 fd1 : Z) (sched : list who) (f c : nat) (p : procs) : outcome procs :=
  match sched with
  | [] => Ok p
  | Father :: l => p ← father fd0 fd1 f p; run fd0 fd1 l (S f) c p
  | Child :: l => p ← child fd0 fd1 c p; run fd0 fd1 l f (S c) p
  end.

(** *** The conversation *)

(** What is on its way, what the child has got, and what was said. *)
Record talk := Talk { sent : list Z; heard : list Z; said : list Z }.

Definition father_talks (pc : nat) (k : talk) : talk :=
  match pc with
  | 1%nat => Talk (sent k ++ message) (heard k) (said k)
  | 2%nat => Talk (sent k) (heard k) (said k ++ father_says)
  | _ => k
  end.

Definition child_talks (pc : nat) (k : talk) : talk :=
  match pc with
  | 1%nat => Talk (drop 24 (sent k)) (take 24 (sent k)) (said k)
  | 2%nat => Talk (sent k) (heard k) (said k ++ child_says)
  | 3%nat => Talk (sent k) (heard k) (said k ++ child_repeats (if decide (heard k = []) then [] else txt "Hi, my son, I love you"))
  | _ => k
  end.

Fixpoint conversation (sched : list who) (f c : nat) (k : talk) : talk :=
  match sched with
  | [] => k
  | Father :: l => conversation l (S f) c (father_talks f k)
  | Child :: l => conversation l f (S c) (child_talks c k)
  end.

(** Did the father write before the child read?  [None]: the child has not read. *)
Fixpoint in_time (sched : list who) (f c : nat) : option bool :=
  match sched with
  | [] => None
  | Father :: l => in_time l (S f) c
  | Child :: l => if (c =? 1)%nat then Some (2 <=? f)%nat else in_time l f (S c)
  end.

(** *** The state that goes with it *)

(** The slot of the pipe, its page, and the screen at the start. *)
Context (g : nat) (page : Z) (screen0 : list Z).

Definition ends (f c : nat) : Z := 4 - (if (f =? 0)%nat then 0 else 1) - (if (c =? 0)%nat then 0 else 1).
Definition slot : Z := Z.of_nat g.
Definition fds_of (first second : bool) : list Z := [0; 1; 2; if first then -1 else slot; if second then -1 else slot; -1; -1; -1].

Definition on_its_way (f : nat) : list Z := if (2 <=? f)%nat then message else [].

Record linked (f c : nat) (k : talk) (p : procs) : Prop := {
  ln_slot : (2 < g < 32)%nat;
  ln_page : page ≠ 0;
  ln_file : file_table (world p) !! g = Some (File (ends f c) PIPE_FLAG page);
  ln_stdout : ∃ x, file_table (world p) !! 1%nat = Some x ∧ fd_flag x ≠ PIPE_FLAG;
  ln_queue : ∃ q, ioqs (world p) !! page = Some q ∧ ioq_wf q ∧ contents q = sent k;
  ln_father : father_fds p = fds_of (negb (f =? 0)%nat) false;
  ln_child : child_fds p = fds_of false (negb (c =? 0)%nat);
  ln_talk : (heard k = [] ∧ sent k = on_its_way f) ∨ (heard k = message ∧ sent k = [] ∧ (2 ≤ f ∧ 2 ≤ c)%nat);
  ln_buf : cbuf p = heard k ++ replicate (32 - length (heard k)) 0;
  ln_said : screen (world p) = screen0 ++ said k;
}.

(** The descriptors of either process. *)
Lemma fd_of_slot s fd : fd_table s !! Z.to_nat fd = Some slot → 0 ≤ fd < 8 → (2 < g < 32)%nat →
  fd_local2global fd s = Ok slot.
Proof.
  intros H Hfd Hg. unfold fd_local2global. rewrite (u32_small fd) by lia. assert (E : aget (fd_table s) fd = Ok slot) by (apply aget_ok; split; [lia|done]).
  mrun E. rewrite u32_small by (unfold slot; lia). done.
Qed.

Lemma slot_file s x : file_table s !! g = Some x → aget (file_table s) slot = Ok x.
Proof. intros H. apply aget_ok. unfold slot. rewrite Nat2Z.id. split; [lia|done]. Qed.

Lemma slot_pipe s fd n : fd_table s !! Z.to_nat fd = Some slot → 0 ≤ fd < 8 → (2 < g < 32)%nat →
  file_table s !! g = Some (File n PIPE_FLAG page) → is_pipe fd s = Ok true.
Proof. intros H Hfd Hg Hf. unfold is_pipe. mrun (fd_of_slot s fd H Hfd Hg). mrun (slot_file _ _ Hf). done. Qed.

(** Closing one end while others are open. *)
Lemma close_end s fd n :
  fd_table s !! Z.to_nat fd = Some slot → 2 < fd < 8 → (2 < g < 32)%nat →
  file_table s !! g = Some (File n PIPE_FLAG page) → 1 < n < 100 →
  sys_close fd s = Ok (0, set_fd_table (<[Z.to_nat fd := -1]> (fd_table s)) (set_file_table (<[g := File (n - 1) PIPE_FLAG page]> (file_table s)) s)).
Proof.
  intros H Hfd Hg Hf Hn. unfold sys_close. destruct (Z.gtb_spec fd 2); [|lia]. mrun (fd_of_slot s fd H ltac:(lia) Hg).
  mrun (slot_pipe s fd n H ltac:(lia) Hg Hf). mrun (slot_file _ _ Hf). cbn [fd_pos fd_flag fd_inode]. rewrite u32_small by lia.
  destruct (Z.eqb_spec (n - 1) 0); [lia|]. unfold put_file. rewrite aset_ok by (pose proof (lookup_lt_Some _ _ _ Hf); unfold slot, zlen; lia). cbn [mbind outcome_bind].
  cbn [fd_table set_file_table]. rewrite aset_ok by (pose proof (lookup_lt_Some _ _ _ H); unfold zlen; lia). cbn [mbind outcome_bind]. unfold slot. by rewrite Nat2Z.id.
Qed.

Lemma stdout_plain s x : fd_table s !! 1%nat = Some 1 → file_table s !! 1%nat = Some x → fd_flag x ≠ PIPE_FLAG → is_pipe stdout_no s = Ok false.
Proof.
  intros H1 H2 H3. unfold is_pipe, fd_local2global, stdout_no. assert (E : aget (fd_table s) (u32 1) = Ok 1) by (apply aget_ok; split; [done|exact H1]). mrun E.
  assert (E2 : aget (file_table s) (u32 1) = Ok x) by (apply aget_ok; split; [done|exact H2]). mrun E2. by rewrite (proj2 (Z.eqb_neq _ _) H3).
Qed.

Lemma message_length : zlen message = 24.
Proof. done. Qed.

Lemma message_take : take 24 message = message.
Proof. apply take_ge. apply Nat.leb_le. reflexivity. Qed.

Lemma says_ok pd a : chars (txt a) → zlen (txt a) < 100 → chars (NL :: txt a ++ out_of (PDec pd) ++ [NL]) ∧ zlen (NL :: txt a ++ out_of (PDec pd) ++ [NL]) < 1024.
Proof.
  intros Ha Hn. pose proof (dec_length pd) as Hd. unfold dec in Hd. split.
  - apply Forall_cons. split; [done|]. apply Forall_app. split; [done|]. apply Forall_app. split; [by apply (number_chars (PDec pd))|by apply Forall_singleton].
  - rewrite zlen_cons, !zlen_app. change (zlen [NL]) with 1. unfold zlen in *. lia.
Qed.

(** Printing by either process. *)
Lemma say_ok t fds text f c k p :
  linked f c k p → fds !! 1%nat = Some 1 → chars text → zlen text < 1024 →
  write_text t text (set_fd_table fds (world p)) = Ok (set_screen (screen (world p) ++ text) (set_fd_table fds (world p)), []).
Proof.
  intros [_ _ _ (x & X1 & X2) _ _ _ _ _ _] Hf Hc Hn. rewrite (write_text_ok t text (set_fd_table fds (world p))); [done| |done|done]. apply (stdout_plain (set_fd_table fds (world p)) x); done.
Qed.

Lemma father_ok f c k p : linked f c k p → ∃ p', father 3 4 f p = Ok p' ∧ linked (S f) c (father_talks f k) p'.
Proof.
  intros HL. pose proof HL as [L1 L2 L3 L4 L5 L6 L7 L8 L9 L10]. unfold father. destruct f as [|[|[|f]]].
  - rewrite (close_end _ 3 (ends 0 c)); [|cbn [fd_table set_fd_table]; rewrite L6; reflexivity|lia|done|done|unfold ends; destruct (c =? 0)%nat; simpl; lia].
    cbn [mbind outcome_bind]. eexists. split; [done|]. split; cbn [by_father world father_fds child_fds cbuf file_table fd_table ioqs screen set_file_table set_fd_table]; try done.
    + rewrite list_lookup_insert_eq by (by eapply lookup_lt_Some). do 2 f_equal. unfold ends. simpl. lia.
    + destruct L4 as (x & X1 & X2). exists x. rewrite list_lookup_insert_ne by lia. done.
    + rewrite L6. reflexivity.
    + destruct L8 as [?|(_ & _ & ? & _)]; [by left|lia].
  - destruct L5 as (q & Q1 & Q2 & Q3). destruct L8 as [[T1 T2]|(_ & _ & ? & _)]; [|lia]. change (on_its_way 1) with (@nil Z) in T2.
    set (s := set_fd_table (father_fds p) (world p)). assert (Hfd : fd_table s !! Z.to_nat 4 = Some slot) by (unfold s; cbn [fd_table set_fd_table]; rewrite L6; reflexivity).
    assert (Hp : pipe_fd s 4 (File (ends 1 c) PIPE_FLAG page) q).
    { exists slot. split; [apply aget_ok; split; [done|exact Hfd]|]. split; [rewrite u32_small by (unfold slot; lia); by apply slot_file|]. done. }
    destruct (pipe_write_ok ft 4 message s _ q Hp) as (ws & q' & Hw & Hwf & Hc); [rewrite Q3, T2, message_length; done|]. rewrite message_length in Hw.
    unfold sys_write. change (4 <? 0) with false. change (4 =? stdout_no) with false. cbn iota. mrun (slot_pipe s 4 _ Hfd ltac:(lia) L1 L3). mrun Hw.
    eexists. split; [done|]. split; cbn [by_father world father_fds child_fds cbuf father_talks sent heard said]; try done.
    + exists q'. cbn [ioqs put_ioq set_ioqs fd_inode]. rewrite lookup_insert_eq. split; [done|]. split; [done|]. by rewrite Hc, Q3.
    + left. split; [done|]. rewrite T2. done.
  - destruct (says_ok fpid "I'm father,my pid is ") as [C1 C2]; [apply (bool_decide_unpack _); vm_compute; exact I|reflexivity|].
    rewrite (say_ok ft _ father_says 2 c k p HL); [|rewrite L6; reflexivity|done|done]. cbn [mbind outcome_bind]. eexists. split; [done|].
    split; cbn [by_father world father_fds child_fds cbuf father_talks sent heard said]; try done.
    + destruct L8 as [[T1 T2]|(T1 & T2 & T3 & T4)]; [by left|]. right. split; [done|]. split; [done|]. lia.
    + cbn [screen set_screen]. rewrite L10. by rewrite app_assoc.
  - exists p. split; [done|]. split; try done. destruct L8 as [[T1 T2]|(T1 & T2 & T3 & T4)]; [by left|]. right. split; [done|]. split; [done|]. lia.
Qed.

Lemma letter_string r : cstring (letter ++ r) = Ok (txt "Hi, my son, I love you").
Proof.
  unfold cstring, letter. rewrite <- app_assoc. cbn [app]. rewrite bstrlen_str by (apply (bool_decide_unpack _); vm_compute; exact I). cbn [mbind outcome_bind].
  unfold zlen. rewrite Nat2Z.id. by rewrite take_app_length.
Qed.

Lemma child_ok f c k p : linked f c k p → ∃ p', child 3 4 c p = Ok p' ∧ linked f (S c) (child_talks c k) p'.
Proof.
  intros HL. pose proof HL as [L1 L2 L3 L4 L5 L6 L7 L8 L9 L10]. unfold child. destruct c as [|[|[|[|c]]]].
  - rewrite (close_end _ 4 (ends f 0)); [|cbn [fd_table set_fd_table]; rewrite L7; reflexivity|lia|done|done|unfold ends; destruct (f =? 0)%nat; simpl; lia].
    cbn [mbind outcome_bind]. eexists. split; [done|]. split; cbn [by_child world father_fds child_fds cbuf file_table fd_table ioqs screen set_file_table set_fd_table]; try done.
    + rewrite list_lookup_insert_eq by (by eapply lookup_lt_Some). do 2 f_equal. unfold ends. simpl. lia.
    + destruct L4 as (x & X1 & X2). exists x. rewrite list_lookup_insert_ne by lia. done.
    + rewrite L7. reflexivity.
    + destruct L8 as [?|(_ & _ & _ & ?)]; [by left|lia].
  - destruct L5 as (q & Q1 & Q2 & Q3). destruct L8 as [[T1 T2]|(_ & _ & _ & ?)]; [|lia].
    set (s := set_fd_table (child_fds p) (world p)). assert (Hfd : fd_table s !! Z.to_nat 3 = Some slot) by (unfold s; cbn [fd_table set_fd_table]; rewrite L7; reflexivity).
    assert (Hp : pipe_fd s 3 (File (ends f 1) PIPE_FLAG page) q).
    { exists slot. split; [apply aget_ok; split; [done|exact Hfd]|]. split; [rewrite u32_small by (unfold slot; lia); by apply slot_file|]. done. }
    destruct (pipe_read_ok ct 3 24 s _ q Hp) as (ws & q' & Hr & Hwf & Hc); [lia|]. unfold sys_read. change ((3 <? 0) || (3 =? stdout_no) || (3 =? stderr_no)) with false. cbn iota.
    mrun (slot_pipe s 3 _ Hfd ltac:(lia) L1 L3).
    assert (Hn : ∃ n, Z.to_nat (Z.min 24 (zlen (contents q))) = n ∧ take n (contents q) = sent k ∧ drop n (contents q) = [] ∧ (length (sent k) ≤ 24)%nat ∧ take 24 (sent k) = sent k ∧ drop 24 (sent k) = []).
    { eexists. split; [done|]. rewrite Q3, T2. unfold on_its_way. destruct (2 <=? f)%nat; [|split_and!; (reflexivity || (simpl; lia))]. rewrite message_length.
      split; [exact message_take|]. split; [reflexivity|]. split; [apply Nat.leb_le; reflexivity|]. split; [exact message_take|reflexivity]. }
    destruct Hn as (n & En & N1 & N2 & N3 & N4 & N5). rewrite En in Hr, Hc. rewrite N1 in Hr. rewrite N2 in Hc. mrun Hr. rewrite T1 in L9. cbn [app length] in L9.
    rewrite L9, splice_eq by (try (change (zlen (replicate (32 - 0) 0)) with 32; unfold zlen); lia). cbn [mbind outcome_bind].
    eexists. split; [done|]. split; cbn [by_child world father_fds child_fds cbuf child_talks sent heard said]; try done.
    + exists q'. cbn [ioqs put_ioq set_ioqs fd_inode]. rewrite lookup_insert_eq, N5. done.
    + rewrite N4, N5. destruct (2 <=? f)%nat eqn:E.
      * right. rewrite T2. unfold on_its_way. rewrite E. apply Nat.leb_le in E. split; [done|]. split; [done|]. lia.
      * left. rewrite T2. unfold on_its_way. rewrite E. done.
    + rewrite N4. change (take (Z.to_nat 0) ?l) with (@nil Z). cbn [app]. f_equal. rewrite drop_replicate. f_equal. unfold zlen. lia.
  - destruct (says_ok cpid "I'm child, my pid is ") as [C1 C2]; [apply (bool_decide_unpack _); vm_compute; exact I|reflexivity|].
    rewrite (say_ok ct _ child_says f 2 k p HL); [|rewrite L7; reflexivity|done|done]. cbn [mbind outcome_bind]. eexists. split; [done|].
    split; cbn [by_child world father_fds child_fds cbuf child_talks sent heard said]; try done.
    + destruct L8 as [[T1 T2]|(T1 & T2 & T3 & T4)]; [by left|]. right. split; [done|]. split; [done|]. lia.
    + cbn [screen set_screen]. rewrite L10. by rewrite app_assoc.
  - set (str := if decide (heard k = []) then [] else txt "Hi, my son, I love you").
    assert (Hstr : cstring (cbuf p) = Ok str).
    { rewrite L9. unfold str. destruct L8 as [[T1 _]|(T1 & _ & _)]; rewrite T1.
      - rewrite decide_True by done. reflexivity.
      - rewrite decide_False by done. unfold message. rewrite <- app_assoc. apply letter_string. }
    mrun Hstr. assert (Hch : chars (child_repeats str) ∧ zlen (child_repeats str) < 1024).
    { unfold str. destruct (decide _); (split; [apply (bool_decide_unpack _); vm_compute; exact I|reflexivity]). }
    rewrite (say_ok ct _ (child_repeats str) f 3 k p HL); [|rewrite L7; reflexivity|apply Hch|apply Hch]. cbn [mbind outcome_bind]. eexists. split; [done|].
    split; cbn [by_child world father_fds child_fds cbuf child_talks sent heard said]; try done.
    + destruct L8 as [[T1 T2]|(T1 & T2 & T3 & T4)]; [by left|]. right. split; [done|]. split; [done|]. lia.
    + cbn [screen set_screen]. rewrite L10. by rewrite app_assoc.
  - exists p. split; [done|]. split; try done. destruct L8 as [[T1 T2]|(T1 & T2 & T3 & T4)]; [by left|]. right. split; [done|]. split; [done|]. lia.
Qed.

Lemma run_ok sched f c k p : linked f c k p → ∃ p', run 3 4 sched f c p = Ok p' ∧
  cbuf p' = heard (conversation sched f c k) ++ replicate (32 - length (heard (conversation sched f c k))) 0 ∧
  screen (world p') = screen0 ++ said (conversation sched f c k).
Proof.
  revert f c k p. induction sched as [|[] l IH]; intros f c k p HL; cbn [run conversation].
  - exists p. split; [done|]. split; [apply HL|apply HL].
  - destruct (father_ok f c k p HL) as (p1 & E & H1). mrun E. by apply IH.
  - destruct (child_ok f c k p HL) as (p1 & E & H1). mrun E. by apply IH.
Qed.
End ProgPipe.

Lemma heard_later fpid cpid behind sched f c k : (2 ≤ c)%nat → heard (conversation fpid cpid behind sched f c k) = heard k.
Proof.
  revert f c k. induction sched as [|[] l IH]; intros f c k Hc; cbn [conversation]; [done| |].
  - rewrite IH by lia. destruct f as [|[|[|f]]]; done.
  - rewrite IH by lia. destruct c as [|[|[|[|c]]]]; done || lia.
Qed.

Lemma heard_in_time fpid cpid behind sched f c k :
  (c ≤ 1)%nat → heard k = [] → sent k = on_its_way behind f →
  heard (conversation fpid cpid behind sched f c k) = match in_time sched f c with Some true => message behind | _ => [] end.
Proof.
  revert f c k. induction sched as [|[] l IH]; intros f c k Hc Hh Hs; cbn [conversation in_time]; [done| |].
  - apply IH; [done|by destruct f as [|[|[|f]]]|]. destruct f as [|[|[|f]]]; cbn [father_talks sent]; try done. by rewrite Hs.
  - destruct c as [|[|c]]; [|clear IH|lia].
    + change (0 =? 1)%nat with false. cbn iota. apply IH; [lia|done|done].
    + change (1 =? 1)%nat with true. cbn iota. rewrite heard_later by lia. cbn [child_talks heard]. rewrite Hs. unfold on_its_way.
      destruct (2 <=? f)%nat; [apply message_take|done].
Qed.

Lemma cnt_step g page n fd fds s m :
  aget fds fd = Ok (slot g) → fd_table s !! Z.to_nat fd = Some (slot g) → 0 ≤ fd < 8 → (2 < g < 32)%nat →
  file_table s !! g = Some (File m PIPE_FLAG page) → 0 ≤ m < 100 →
  update_cnts (S n) fd fds s = update_cnts n (fd + 1) fds (set_file_table (<[g := File (m + 1) PIPE_FLAG page]> (file_table s)) s).
Proof.
  intros Ha Hl Hfd Hr Hf Hm. cbn [update_cnts]. mrun Ha. unfold slot at 1. rewrite (proj2 (Z.eqb_neq (Z.of_nat g) (-1))) by lia.
  mrun (slot_pipe g page s fd m Hl Hfd Hr Hf). mrun (slot_file g s _ Hf). cbn [fd_pos fd_flag fd_inode]. rewrite u32_small by lia.
  unfold put_file, slot. rewrite aset_ok by (pose proof (lookup_lt_Some _ _ _ Hf); unfold zlen; lia). cbn [mbind outcome_bind]. by rewrite Nat2Z.id.
Qed.

Lemma cnt_skip n fd fds s : aget fds fd = Ok (-1) → update_cnts (S n) fd fds s = update_cnts n (fd + 1) fds s.
Proof. intros Ha. cbn [update_cnts]. by mrun Ha. Qed.

Lemma install_ok v s l fd l' :
  fd_table s = l → free_fd (drop 3 l) 3 = fd → fd ≠ -1 → aset l fd v = Ok l' → pcb_fd_install v s = Ok (fd, set_fd_table l' s).
Proof. intros <- Hf Hne Ha. unfold pcb_fd_install. rewrite Hf, (proj2 (Z.eqb_neq _ _) Hne). by mrun Ha. Qed.

(** Up to the fork both processes hold both ends. *)
Lemma start_ok behind s g page rest x :
  fd_table s = [0; 1; 2; -1; -1; -1; -1; -1] → get_free_slot_in_global s = Z.of_nat g → (2 < g < 32)%nat → (g < length (file_table s))%nat →
  heap s = page :: rest → page ≠ 0 → file_table s !! 1%nat = Some x → fd_flag x ≠ PIPE_FLAG →
  ∃ p, prog_pipe_start s = Ok (3, 4, p) ∧ linked behind g page (screen s) 0 0 (Talk [] [] []) p.
Proof.
  intros Hfd Hg Hr Hlen Hh Hp Hx Hx2. unfold prog_pipe_start, sys_pipe. rewrite Hg. destruct (lookup_lt_is_Some_2 _ _ Hlen) as [f0 Hf0].
  assert (E0 : aget (file_table s) (Z.of_nat g) = Ok f0) by (apply aget_ok; rewrite Nat2Z.id; split; [lia|done]). mrun E0. unfold kmalloc. rewrite Hh.
  rewrite (proj2 (Z.eqb_neq _ _) Hp). unfold put_file. cbn [file_table set_ioqs set_heap]. rewrite aset_ok by (unfold zlen; lia). cbn [mbind outcome_bind]. rewrite Nat2Z.id.
  set (s1 := set_file_table _ _).
  rewrite (install_ok (Z.of_nat g) s1 _ 3 [0; 1; 2; Z.of_nat g; -1; -1; -1; -1] Hfd) by done. cbn [mbind outcome_bind]. set (s2 := set_fd_table _ s1).
  rewrite (install_ok (Z.of_nat g) s2 [0; 1; 2; Z.of_nat g; -1; -1; -1; -1] 4 (fds_of g false false) eq_refl); [|cbn [drop free_fd]; rewrite (proj2 (Z.eqb_neq _ _)) by lia; done|done|done].
  cbn [mbind outcome_bind]. set (s3 := set_fd_table _ s2). change (fd_table s3) with (fds_of g false false).
  assert (Hslot : file_table s3 !! g = Some (File 2 PIPE_FLAG page)) by (apply list_lookup_insert_eq; done).
  rewrite (cnt_step g page 4 3 _ s3 2) by (done || lia). set (s4 := set_file_table _ s3).
  assert (Hslot4 : file_table s4 !! g = Some (File 3 PIPE_FLAG page)) by (apply list_lookup_insert_eq; by eapply lookup_lt_Some).
  change (3 + 1) with 4. rewrite (cnt_step g page 3 4 _ s4 3) by (done || lia). set (s5 := set_file_table _ s4). change (4 + 1) with 5.
  rewrite (cnt_skip 2 5) by done. change (5 + 1) with 6. rewrite (cnt_skip 1 6) by done. change (6 + 1) with 7. rewrite (cnt_skip 0 7) by done. cbn [update_cnts mbind outcome_bind].
  eexists. split; [done|]. split; cbn [world father_fds child_fds cbuf sent heard said]; try done.
  - apply list_lookup_insert_eq. by eapply lookup_lt_Some.
  - exists x. split; [|done]. unfold s5, s4, s3, s2, s1. cbn [file_table set_file_table set_fd_table]. by rewrite !list_lookup_insert_ne by lia.
  - exists fresh_queue. split; [apply lookup_insert_eq|]. by apply ioqueue_init_ok.
  - by left.
  - by rewrite app_nil_r.
Qed.

(** C19: a message through a pipe across [fork].  The program command/prog_pipe.c, started with the
    usual descriptors: under every interleaving of the calls of father and child nothing blocks or
    faults, the pipe stays open, and what the screen shows from the fork on is what the
    conversation says, in its order.
    The child has the message of the father in its buffer exactly when the father wrote before the
    child read: [read] of an empty pipe does not wait, and then the child prints an empty message. *)
Theorem pipe_conversation ft ct fpid cpid behind sched s g page rest x :
  fd_table s = [0; 1; 2; -1; -1; -1; -1; -1] → get_free_slot_in_global s = Z.of_nat g → (2 < g < 32)%nat →
  (g < length (file_table s))%nat → heap s = page :: rest → page ≠ 0 → file_table s !! 1%nat = Some x → fd_flag x ≠ PIPE_FLAG →
  ∃ p p', prog_pipe_start s = Ok (3, 4, p) ∧ run ft ct fpid cpid behind 3 4 sched 0 0 p = Ok p' ∧
    screen (world p') = screen (world p) ++ said (conversation fpid cpid behind sched 0 0 (Talk [] [] [])) ∧
    cbuf p' = match in_time sched 0 0 with Some true => letter ++ [behind] ++ replicate 8 0 | _ => replicate 32 0 end.
Proof.
  intros Hfd Hg Hr Hlen Hh Hp Hx Hx2. destruct (start_ok behind s g page rest x) as (p & E & HL); try done.
  destruct (run_ok ft ct fpid cpid behind g page (screen s) sched 0 0 (Talk [] [] []) p HL) as (p' & E' & Hbuf & Hsay).
  pose proof (ln_said _ _ _ _ _ _ _ _ HL) as Hscr. rewrite app_nil_r in Hscr.
  exists p, p'. split; [done|]. split; [done|]. split; [by rewrite Hscr|]. rewrite Hbuf, heard_in_time by (done || lia).
  destruct (in_time sched 0 0) as [[]|]; done.
Qed.

Lemma pipe_conversation_witness :
  ∃ p p', prog_pipe_start (set_fd_table [0; 1; 2; -1; -1; -1; -1; -1] (set_heap [0xc0400000] demo_pipe_fs)) = Ok (3, 4, p) ∧
    run 0x1000 0x2000 5 6 0 3 4 [Father; Child; Father; Child; Child; Father; Child] 0 0 p = Ok p' ∧
    cbuf p' = letter ++ replicate 9 0.
Proof.
  destruct (pipe_conversation 0x1000 0x2000 5 6 0 [Father; Child; Father; Child; Child; Father; Child]
    (set_fd_table [0; 1; 2; -1; -1; -1; -1; -1] (set_heap [0xc0400000] demo_pipe_fs)) 4 0xc0400000 [] (File 0 0 0)) as (p & p' & H1 & H2 & _ & H3).
  - reflexivity.
  - reflexivity.
  - lia.
  - apply Nat.ltb_lt. reflexivity.
  - reflexivity.
  - discriminate.
  - reflexivity.
  - discriminate.
  - exists p, p'. split; [exact H1|]. split; [exact H2|exact H3].
Defined.

(** ** cat *)

Section Cat.
(** The thread; the junk that path searches read; a bound on the depth of the working directory;
    the result of [malloc]. *)
Context (t : Z) (junk_name junk_de : list Z) (depth : nat) (mem : Z).

(** [read] until it returns -1; [fuel] bounds the number of turns. *)
Fixpoint cat_loop (fuel : nat) (fd : Z) (b : list Z) (s : fs) : outcome (fs * list Z) :=
  match fuel with
  | O => NoFuel
  | S fuel =>
      '(n, b, s, w1) ← sys_read t false fd b 1024 s;
      if n =? -1 then Ok (s, w1)
      else
        '(_, s, w2) ← sys_write t stdout_no b (u32 n) s;
        '(s, w3) ← cat_loop fuel fd b s;
        Ok (s, w1 ++ w2 ++ w3)
  end.

Definition cat_path (arg : list Z) (s : fs) : outcome (list Z * fs) :=
  c ← aget arg 0;
  if negb (c =? SLASH) then
    '(r, s) ← sys_getcwd depth (replicate 512 0) 512 s;
    let abs_path := match r with Some b => b | None => replicate 512 0 end in
    abs_path ← bstrcat abs_path ROOT;
    abs_path ← bstrcat abs_path arg;
    Ok (abs_path, s)
  else
    n ← bstrlen arg;
    abs_path ← splice (replicate 512 0) 0 (take (Z.to_nat (n + 1)) arg);
    Ok (abs_path, s).

(** The status, the state and the threads that output to a pipe has woken.  [free] at the end is
    not part of this state. *)
Definition cat (fuel : nat) (argc : Z) (argv : list (list Z)) (s : fs) : outcome (Z * fs * list Z) :=
  if argc >? 2 then '(s, w) ← write_text t (txt "cat: argument error" ++ [NL]) s; Ok (-2, s, w)
  else if argc =? 1 then
    '(_, b, s, w1) ← sys_read t false 0 (replicate 512 0) 512 s;
    str ← cstring b;
    '(s, w2) ← write_text t str s;
    Ok (0, s, w1 ++ w2)
  else if mem =? 0 then '(s, w) ← write_text t (txt "cat: malloc memory failed" ++ [NL]) s; Ok (-1, s, w)
  else
    arg ← aget argv 1;
    '(abs_path, s) ← cat_path arg s;
    '(fd, s) ← sys_open junk_name junk_de abs_path O_RDONLY s;
    if fd =? -1 then
      str ← cstring arg;
      '(s, w) ← write_text t (txt "cat: open: open " ++ str ++ txt " failed" ++ [NL]) s; Ok (-1, s, w)
    else
      '(s, w) ← cat_loop fuel fd (replicate 1024 0) s;
      '(_, s) ← sys_close fd s;
      Ok (66, s, w).
End Cat.

Lemma bstrlen_fault l : chars l → bstrlen l = Fault.
Proof. induction 1 as [|c l Hc Hl IH]; [done|]. cbn [bstrlen]. rewrite (proj2 (Z.eqb_neq c 0)) by lia. by rewrite IH. Qed.

(** Cat ends.  On an open text file at its beginning the loop of cat reads to the end and stops,
    having written exactly the content of the file to the standard output (beside the trace messages
    of [file_read], which are not modelled), as long as the file is shorter than 1024 bytes; a first block of 1024 characters fills the buffer of [sys_write], which then prints past its
    end. *)
Theorem cat_prints t fuel fd b s idx f i bs data h1 h2 h3 rest x :
  fs_wf s → open_file s fd idx f → file_rep s (fd_inode f) i bs data → fd_pos f = 0 → chars data → zlen data < 71680 →
  heap s = h1 :: h2 :: h3 :: rest → Forall (λ h, h ≠ 0) [h1; h2; h3] → zlen b = 1024 → (2 ≤ fuel)%nat →
  fd_table s !! 1%nat = Some 1 → file_table s !! 1%nat = Some x → fd_flag x ≠ PIPE_FLAG → idx ≠ 1%nat →
  if zlen data <? 1024 then ∃ s', cat_loop t fuel fd b s = Ok (s', []) ∧ screen s' = screen s ++ data
  else cat_loop t fuel fd b s = Fault.
Proof.
  intros Hwf Ho Hrep Hpos Hc Hmax Hh Hnz Hb Hfuel H1 Hx Hx2 Hidx. pose proof (zlen_nonneg data) as H0.
  apply Forall_cons in Hnz as [N1 Hnz]. apply Forall_cons in Hnz as [N2 Hnz]. apply Forall_cons in Hnz as [N3 _].
  pose proof Hrep as (Hi & _ & Hsz & _). destruct fuel as [|[|fuel]]; [lia|lia|]. cbn [cat_loop]. destruct (decide (data = [])) as [->|Hne].
  { rewrite (sys_read_end t fd idx f i b 1024 s Ho Hi) by (rewrite ?Hsz, ?Hpos; (done || lia)). cbn [mbind outcome_bind]. change (-1 =? -1) with true. cbn iota. exists s. by rewrite app_nil_r. }
  assert (Hd0 : 0 < zlen data) by (destruct data; [done|rewrite zlen_cons; pose proof (zlen_nonneg data); lia]).
  rewrite (sys_read_file _ _ _ _ _ _ _ _ Ho). set (n := Z.min 1024 (zlen data)).
  pose proof (file_read_ok idx b 1024 s f i bs data h1 h2 h3 rest Hwf (of_slot _ _ _ _ Ho) Hrep Hh N1 N2 N3 ltac:(lia) ltac:(lia) ltac:(lia)) as HR.
  cbv zeta in HR. rewrite Hpos in HR. replace (zlen data - 0) with (zlen data) in HR by lia. fold n in HR. change (drop (Z.to_nat 0) data) with data in HR.
  mrun HR. set (s1 := set_file_table _ _). rewrite (proj2 (Z.eqb_neq n (-1))) by lia. rewrite (u32_small n) by lia.
  assert (Hp1 : is_pipe stdout_no s1 = Ok false).
  { apply (stdout_plain s1 x); [exact H1| |exact Hx2]. cbn [file_table set_file_table s1]. by rewrite list_lookup_insert_ne. }
  destruct (Z.ltb_spec (zlen data) 1024) as [Hlt|Hge].
  - assert (En : n = zlen data) by lia. rewrite En. replace (Z.to_nat (zlen data)) with (length data) by (unfold zlen; lia). rewrite (take_ge data) by lia.
    rewrite write_screen by done. cbn [mbind outcome_bind]. set (s2 := set_screen _ s1).
    assert (Ho2 : open_file s2 fd idx (File (0 + n) (fd_flag f) (fd_inode f))).
    { destruct Ho as [? ? Q ? ?]. split; try done. cbn [file_table set_screen set_file_table s1 s2]. apply list_lookup_insert_eq. by eapply lookup_lt_Some. }
    rewrite (sys_read_end t fd idx _ i _ 1024 s2 Ho2 Hi) by (rewrite ?Hsz; cbn [fd_pos]; lia). cbn [mbind outcome_bind]. change (-1 =? -1) with true. cbn iota. cbn [mbind outcome_bind].
    exists s2. done.
  - assert (En : n = 1024) by lia. rewrite En. change (Z.to_nat 1024) with 1024%nat. rewrite (drop_ge b) by (unfold zlen in Hb; lia). rewrite app_nil_r.
    unfold sys_write. change (stdout_no <? 0) with false. rewrite Z.eqb_refl. mrun Hp1.
    assert (Hl : zlen (take 1024 data) = 1024) by (unfold zlen in *; rewrite length_take; lia). assert (Hl' : length (take 1024 data) = 1024%nat) by (unfold zlen in Hl; lia).
    rewrite slice_ok by (rewrite ?Hl; lia). cbn [mbind outcome_bind]. change (drop (Z.to_nat 0) ?l) with l. change (Z.to_nat 1024) with 1024%nat. rewrite take_take, Nat.min_id.
    assert (Hz : zlen (replicate 1024 0) = 1024) by reflexivity. rewrite splice_eq by (rewrite ?Hz, ?Hl; lia). cbn [mbind outcome_bind].
    change (take (Z.to_nat 0) (replicate 1024 0)) with (@nil Z). cbn [app]. rewrite Hl, drop_ge, app_nil_r by (rewrite length_replicate; lia).
    unfold console_put_str. rewrite bstrlen_fault by (by apply Forall_take). done.
Qed.

Lemma cat_prints_witness :
  ∃ s', cat_loop 0x1000 2 3 (replicate 1024 0) (demo_file_fs 1) = Ok (s', []) ∧ screen s' = [104; 105].
Proof.
  pose proof (cat_prints 0x1000 2 3 (replicate 1024 0) (demo_file_fs 1) 3 (File 0 2 0xc0200000) (demo_file_inode 1) [613] demo_hi
    0xc0101000 0xc0102000 0xc0103000 [] (File 0 0 0)) as H. apply H.
  - apply demo_file_wf.
  - split; try reflexivity; lia.
  - apply demo_file_rep. lia.
  - reflexivity.
  - repeat constructor.
  - reflexivity.
  - reflexivity.
  - repeat constructor; discriminate.
  - reflexivity.
  - lia.
  - reflexivity.
  - reflexivity.
  - discriminate.
  - discriminate.
Defined.
