(* ===== verification/Startup.v ===== *)
(** * Start-up of the kernel (kernel/main.c, main)

    After the initialisation [main] copies a program from fixed sectors of the boot disk into the
    file /prog_pipe: [sys_open] makes the file and [sys_write] fills it. *)

From Stdlib Require Import Strings.String.
From S2P Require Import Prelude Bitmap Sched Sync Paging Arena Task WaitExit Fork CString Stdio IoQueue Disk FsState Inode Dir File Pipe Fs FileCalls Create Commands Ps Programs.

(** ** The program of [main] *)

Section Main.
(** The main thread; what the stack holds where [path_depth_cnt] and [search_file] have their locals. *)
Context (t : Z) (junk_name junk_de : list Z).

Definition file_size : Z := 10116.
Definition sec_cnt : Z := DIV_ROUND_UP file_size 512.
Definition prog_lba : Z := 300.
Definition prog_name : list Z := txt "prog_pipe".
Definition prompt : list Z := txt "[rabbit@localhost /]$ ".

Definition open_prog (s : fs) : outcome (Z * fs) := sys_open junk_name junk_de (root_path prog_name) (Z.lor O_CREAT O_RDWR) s.

(** From [sys_malloc] to the prompt; [sda] is the boot disk, another disk than that of the partition.
    The result is false when the thread stops in [while (1)].  [prog_buf] is not checked. *)
Definition main_install (sda : disk) (s : fs) : outcome (bool * Z * fs) :=
  let '(prog_buf, s) := kmalloc s in
  if prog_buf =? 0 then Fault
  else
    buf ← disk_read sda prog_lba (Z.to_nat sec_cnt);
    '(s, _) ← write_text t (txt "read" ++ [NL]) s;
    '(fd, s) ← open_prog s;
    '(fd, s) ←
      (if fd =? -1 then
         '(s, _) ← write_text t (txt "unlink !" ++ [NL]) s;
         '(_, s) ← sys_unlink junk_de (root_path prog_name) s;
         open_prog s
       else Ok (fd, s));
    '(ok, s) ←
      (if negb (fd =? -1) then
         '(s, _) ← write_text t (txt "write" ++ [NL]) s;
         '(n, s, _) ← sys_write t fd buf file_size s;
         if n =? -1 then '(s, _) ← write_text t (txt "file write error!" ++ [NL]) s; Ok (false, s)
         else Ok (true, s)
       else Ok (true, s));
    if ok : bool then Ok (true, fd, set_screen prompt s) else Ok (false, fd, s).
End Main.

(** ** Lemmas *)

(** Two programs that begin with the same call. *)
Tactic Notation "same_bind" simple_intropattern(r) :=
  match goal with |- mbind _ ?m = mbind _ ?m => destruct m as r; cbn [mbind outcome_bind]; [|reflexivity..] end.

(** [file_write] does not look behind [count] bytes. *)
Lemma write_loop_extra fuel idx a ab src x n first s :
  n ≤ zlen src → write_loop fuel idx a ab (src ++ x) n first s = write_loop fuel idx a ab src n first s.
Proof.
  revert src n first s. induction fuel as [|fuel IH]; intros src n first s Hn; [done|]. cbn [write_loop]. destruct (Z.ltb_spec 0 n) as [H0|]; [|done].
  same_bind [i| | | |]. same_bind [f| | | |]. same_bind [lba| | | |].
  set (c := if n <? _ then n else _). assert (Hc : 0 < c ≤ n) by (unfold c, BLOCK_SIZE, SECTOR_SIZE; pose proof (Z.mod_pos_bound (i_size i) 512); destruct (Z.ltb_spec n (512 - i_size i mod 512)); lia).
  pose proof (zlen_nonneg x). same_bind [io| | | |]. rewrite !slice_ok by (rewrite ?zlen_app; lia). cbn [mbind outcome_bind]. change (drop (Z.to_nat 0) ?l) with l.
  rewrite take_app_le by (unfold zlen in *; lia). rewrite drop_app_le by (unfold zlen in *; lia).
  same_bind [b| | | |]. same_bind [d| | | |]. same_bind [s1| | | |]. same_bind [s2| | | |].
  apply IH. unfold zlen in *. rewrite length_drop. lia.
Qed.

Lemma file_write_extra idx buf x s : file_write idx (buf ++ x) (zlen buf) s = file_write idx buf (zlen buf) s.
Proof.
  unfold file_write. same_bind [f| | | |]. same_bind [i| | | |].
  destruct (_ >? _); [reflexivity|]. destruct (kmalloc s) as [h1 s1]. destruct (h1 =? 0); [reflexivity|]. destruct (kmalloc s1) as [h2 s2]. destruct (h2 =? 0); [reflexivity|].
  same_bind [[ok s3]| | | |]. destruct (negb ok); [reflexivity|]. same_bind [[[ab|] s4]| | | |].
  same_bind [s5| | | |]. by rewrite write_loop_extra.
Qed.

(** Printing changes the screen only. *)
Lemma wf_screen sc s : fs_wf s → fs_wf (set_screen sc s).
Proof. intros H. by apply (fs_wf_part s). Qed.

Lemma can_create_screen sc s p dd i nm g lfd h a rest : can_create s p dd i nm g lfd h a rest → can_create (set_screen sc s) p dd i nm g lfd h a rest.
Proof.
  intros [C1 [? ? ?] C3 C4 C5 C6 C7 C8 C9 C10 C11 C12 C13]. split; try done; [by apply wf_screen|]. by apply (dir_without_frame s).
Qed.

Lemma file_rep_screen sc s a i bs data : file_rep s a i bs data → file_rep (set_screen sc s) a i bs data.
Proof. intros (Ha & Hm & Hrest). split; [done|]. split; [|done]. apply (file_map_frame s _ i); try done. by destruct Hm. Qed.

(** ** What [main] needs *)

Definition fresh_file (a : Z) : file := File 0 (Z.lor O_CREAT O_RDWR) a.

Record ready (sda : disk) (s : fs) (dd : dir) (i : inode) (g : nat) (lfd a n : Z) (rest : list Z) : Prop := {
  rd_heap : ∃ pb b1 b2 h w1 w2, heap s = pb :: b1 :: b2 :: h :: a :: w1 :: w2 :: rest ∧ Forall (λ x, x ≠ 0) [pb; b1; b2; w1; w2] ∧
    can_create (set_heap (h :: a :: w1 :: w2 :: rest) s) ROOT_DIR dd i prog_name g lfd h a (w1 :: w2 :: rest);
  rd_stdout : fd_table s !! 1%nat = Some 1 ∧ (∃ x, file_table s !! 1%nat = Some x ∧ fd_flag x ≠ PIPE_FLAG);
  rd_disk : disk_wf sda ∧ sectors sda prog_lba sec_cnt;
  rd_number : first_free s n ∧ 0 ≤ n < 4096 ∧ two_sec (inode_locate (part s) (u8 n)) = false;
}.

Lemma prog_plain : plain_name prog_name.
Proof.
  split; [split; [apply (bool_decide_unpack _); vm_compute; exact I|split; vm_compute; discriminate]|].
  split; [apply (bool_decide_unpack _); vm_compute; exact I|reflexivity].
Qed.

Lemma first_free_unique s n m : first_free s n → first_free s m → 0 ≤ n → 0 ≤ m → n = m.
Proof.
  intros [H1 H2] [H3 H4] Hn Hm. destruct (Z.lt_trichotomy n m) as [?|[?|?]]; [|done|]; [rewrite H4 in H1 by lia; done|rewrite H2 in H3 by lia; done].
Qed.

Lemma free_slot_ge l k : free_slot l k = -1 ∨ k ≤ free_slot l k.
Proof. revert k. induction l as [|f l IH]; intros k; [by left|]. cbn [free_slot]. destruct (fd_inode f =? 0); [right; lia|]. destruct (IH (k + 1)); [by left|right; lia]. Qed.

(** A [file_write] that fails leaves the descriptors alone. *)
Lemma file_write_failed idx buf n s f h1 h2 rest s' :
  file_table s !! idx = Some f → heap s = h1 :: h2 :: rest → h1 ≠ 0 → h2 ≠ 0 → 0 ≤ n < 2147483648 →
  file_write (Z.of_nat idx) buf n s = Ok (-1, s') → file_table s' = file_table s ∧ fd_table s' = fd_table s.
Proof.
  intros Hf Hh Hh1 Hh2 Hn H. unfold file_write in H. apply bind_ok_iff in H as (f' & Hf' & H). apply aget_ok in Hf' as [_ Hf']. rewrite Nat2Z.id, Hf in Hf'. injection Hf' as <-.
  apply bind_ok_iff in H as (i & _ & H). destruct (_ >? _); [by injection H as <-|]. unfold kmalloc in H. rewrite Hh in H. cbn [heap set_heap] in H.
  rewrite (proj2 (Z.eqb_neq _ _) Hh1), (proj2 (Z.eqb_neq _ _) Hh2) in H. apply bind_ok_iff in H as ([ok s1] & H1 & H). apply first_block_tables in H1. unfold tables in H1. injection H1 as E1 E2 _ _ _ _ _ _ _.
  destruct ok; cbn [negb] in H; [|by injection H as <-]. apply bind_ok_iff in H as ([[ab|] s2] & H2 & H).
  - apply bind_ok_iff in H as (s3 & _ & H). apply bind_ok_iff in H as (s4 & _ & H). apply bind_ok_iff in H as (i' & _ & H). apply bind_ok_iff in H as (s5 & _ & H).
    injection H as H _. rewrite i32_small in H by lia. lia.
  - apply write_blocks_tables in H2. unfold tables in H2. injection H2 as F1 F2 _ _ _ _ _ _ _. injection H as <-. split; congruence.
Qed.

(** Filling the new file. *)
Lemma fill_ok t fd g f a i n dd buf x s w1 w2 rest :
  fs_wf s → open_file s fd g f → writable f = true → fd_inode f = a → file_rep s a i [] [] → i_no i = n → dinode dd ≠ a →
  two_sec (inode_locate (part s) (u8 n)) = false → Forall (λ y, 0 ≤ y < 256) buf → 0 < zlen buf < 71680 → heap s = w1 :: w2 :: rest → w1 ≠ 0 → w2 ≠ 0 →
  ∃ r s2, sys_write t fd (buf ++ x) (zlen buf) s = Ok (r, s2, []) ∧
    ((r = -1 ∧ bitmap_full s2 ∧ file_table s2 = file_table s ∧ fd_table s2 = fd_table s) ∨
     (r = zlen buf ∧ fs_wf s2 ∧ (∃ i' bs', file_rep s2 a i' bs' buf ∧ i_no i' = n) ∧ keeps dd s s2 ∧ heap s2 = rest)).
Proof.
  intros Hwf Ho Hw <- Hrep Hno Hdd H2s HF Hl Hh N1 N2. rewrite (sys_write_file _ _ _ _ _ _ _ Ho Hw), file_write_extra.
  destruct (file_write_ok g buf s f i [] [] w1 w2 rest Hwf (of_slot _ _ _ _ Ho) Hrep Hh N1 N2 HF) as (r & s2 & E & Hres); [change (zlen (@nil Z)) with 0; lia|by rewrite Hno|].
  mrun E. exists r, s2. split; [done|]. destruct Hres as [[-> Hfull]|(-> & i' & bs' & [W1 W2 (W3 & _) W4 W5 _])].
  { left. split; [done|]. split; [done|]. apply (file_write_failed g buf (zlen buf) s f w1 w2 rest s2 (of_slot _ _ _ _ Ho) Hh N1 N2); [lia|exact E]. }
  right. split; [done|]. split; [done|]. pose proof (file_write_moved g buf (zlen buf) s f w1 w2 rest _ _ (of_slot _ _ _ _ Ho) Hh N1 N2 E ltac:(lia)) as [p M].
  cbn [file_table set_heap] in M. rewrite (of_slot _ _ _ _ Ho) in M. unfold tables in M. injection M as M1 M2 M3 M4 M5 M6 M7 M8 M9.
  split; [exists i', bs'; split; [done|congruence]|]. split; [|exact M3].
  split; [exact M8|by apply W4|by rewrite M9|]. intros l Hu. apply W5; [done|by apply not_elem_of_nil|simpl; lia].
Qed.

Lemma plain_stdout s : fd_table s !! 1%nat = Some 1 → (∃ x, file_table s !! 1%nat = Some x ∧ fd_flag x ≠ PIPE_FLAG) → is_pipe stdout_no s = Ok false.
Proof. intros H (x & H1 & H2). by apply (stdout_plain s x). Qed.

(** The state in which [main] opens the file. *)
Definition after_read (s : fs) : fs := set_screen (screen s ++ txt "read" ++ [NL]) (set_heap (drop 1 (heap s)) s).

(** The program: its bytes on the boot disk. *)
Lemma prog_bytes sda : disk_wf sda → sectors sda prog_lba sec_cnt →
  ∃ buf x, disk_read sda prog_lba (Z.to_nat sec_cnt) = Ok (buf ++ x) ∧ zlen buf = file_size ∧ Forall (λ y, 0 ≤ y < 256) buf.
Proof.
  intros Hd Hs. change (Z.to_nat sec_cnt) with 20%nat. destruct (disk_read_ok sda prog_lba 20 Hd) as (b & E & Hl & HF & _); [unfold prog_lba; lia|exact Hs|].
  exists (take (Z.to_nat file_size) b), (drop (Z.to_nat file_size) b). rewrite take_drop. split; [exact E|].
  assert (Hz : zlen b = 10240) by (unfold zlen; rewrite Hl; reflexivity). assert (Hf : file_size = 10116) by reflexivity. split; [|by apply Forall_take].
  unfold zlen in *. rewrite length_take. lia.
Qed.

(** C15: the installation of the first program, at the first start.  When the root directory has no
    file prog_pipe and room for its entry in its direct blocks, the allocations succeed, and a slot
    and a descriptor are free, [main] creates it with the lowest free inode [n] and ends with the prompt on the
    screen; then the content of the file is the first 10116 bytes of sectors 300 to 319 of the boot
    disk, in direct and indirect blocks, the partition is well formed, and the search for the name
    in the root directory delivers an entry with [n].  If the partition becomes full on the way, the
    file is not made, or [main] stops with its message.  (The inode must not lie across two sectors
    of the table: [file_write] overruns its buffer then.) *)
Theorem main_installs t junk_name junk_de sda s dd i g lfd a n f1 f2 rest :
  length junk_name = 16%nat → ready sda s dd i g lfd a n (f1 :: f2 :: rest) → f1 ≠ 0 → f2 ≠ 0 →
  (∃ s1, open_prog junk_name junk_de (after_read s) = Ok (-1, s1) ∧ bitmap_full s1) ∨
  ∃ ok s', main_install t junk_name junk_de sda s = Ok (ok, lfd, s') ∧
    if ok then fs_wf s' ∧ screen s' = prompt ∧
      (∃ i' bs prog x, disk_read sda prog_lba (Z.to_nat sec_cnt) = Ok (prog ++ x) ∧ zlen prog = file_size ∧
         file_rep s' a i' bs prog ∧ i_no i' = n) ∧
      ∀ dir_e, length dir_e = 24%nat → search_dir_entry ROOT_DIR (prog_name ++ [0]) dir_e s' = Ok (Some (entry_bytes prog_name n), set_heap rest s')
    else bitmap_full s'.
Proof.
  intros Hj [(pb & b1 & b2 & h & w1 & w2 & Hh & Hnz & CC) [Hs1 Hs2] [Hd1 Hd2] (Hff & Hn & H2s)] Hf1 Hf2.
  apply Forall_cons in Hnz as [N1 Hnz]. apply Forall_cons in Hnz as [N2 Hnz]. apply Forall_cons in Hnz as [N3 Hnz]. apply Forall_cons in Hnz as [N4 Hnz]. apply Forall_cons in Hnz as [N5 _].
  destruct (prog_bytes sda Hd1 Hd2) as (buf & x & Eb & Hbl & HbF).
  set (s0 := set_heap (h :: a :: w1 :: w2 :: f1 :: f2 :: rest) (after_read s)).
  assert (CC0 : can_create s0 ROOT_DIR dd i prog_name g lfd h a (w1 :: w2 :: f1 :: f2 :: rest)) by apply (can_create_screen _ _ _ _ _ _ _ _ _ _ _ CC).
  assert (Hopen : open_prog junk_name junk_de (after_read s) = file_create ROOT_DIR (prog_name ++ [0]) (Z.lor O_CREAT O_RDWR) s0).
  { unfold open_prog. apply (sys_open_new junk_name junk_de prog_name _ _ dd i g lfd b1 b2 h a); try done; [apply prog_plain|]. cbn [heap after_read set_screen set_heap]. by rewrite Hh. }
  destruct (file_create_ok s0 ROOT_DIR dd i prog_name g lfd h a _ (Z.lor O_CREAT O_RDWR) [] CC0 eq_refl) as (r & s1 & Ec & Hres). rewrite <- Hopen in Ec.
  destruct Hres as [[-> [Hfull|Hfull]]|(-> & n' & CR)].
  { exfalso. destruct Hff as [Hff _]. pose proof (Hfull n Hn) as Hset. change (inode_bitmap (part s0)) with (inode_bitmap (part s)) in Hset. congruence. }
  { left. by exists s1. }
  right. destruct CR as [R1 [R2 R2'] R3 R4 R5 R6 (R7 & R8 & R10 & R11)].
  assert (n' = n) as -> by (apply (first_free_unique s); [exact R2'|done|lia|lia]).
  assert (Hg : (g ≠ 1)%nat) by (intros ->; destruct (cc_slot _ _ _ _ _ _ _ _ _ _ CC0) as [Hg _]; unfold get_free_slot_in_global in Hg; destruct (free_slot_ge (drop 3 (file_table s0)) 3); lia).
  destruct (cc_fd _ _ _ _ _ _ _ _ _ _ CC0) as [_ Hlfd].
  assert (Hp1 : is_pipe stdout_no s1 = Ok false).
  { apply plain_stdout; [rewrite R8, list_lookup_insert_ne by lia; exact Hs1|]. destruct Hs2 as (y & Y1 & Y2). exists y. split; [|done]. by rewrite R7, list_lookup_insert_ne by lia. }
  set (s2 := set_screen (screen s1 ++ txt "write" ++ [NL]) s1).
  destruct (fill_ok t lfd g (fresh_file a) a (with_cnts 1 (inode_init n)) n dd buf x s2 w1 w2 (f1 :: f2 :: rest)) as (r & s3 & Ew & Hres); try done.
  { by apply wf_screen. }
  { destruct R3. by split. }
  { by apply file_rep_screen. }
  { intros E. pose proof (cc_inode _ _ _ _ _ _ _ _ _ _ CC0) as Hi. rewrite E in Hi. pose proof (cc_fresh _ _ _ _ _ _ _ _ _ _ CC0). congruence. }
  { rewrite Hbl. unfold file_size. lia. }
  unfold main_install, kmalloc. rewrite Hh, (proj2 (Z.eqb_neq _ _) N1). mrun Eb. rewrite Hbl in Ew.
  rewrite (write_text_ok t (txt "read" ++ [NL])); [|by apply plain_stdout|apply (bool_decide_unpack _); vm_compute; exact I|reflexivity]. cbn [mbind outcome_bind].
  assert (Ear : set_screen (screen (set_heap (b1 :: b2 :: h :: a :: w1 :: w2 :: f1 :: f2 :: rest) s) ++ txt "read" ++ [NL]) (set_heap (b1 :: b2 :: h :: a :: w1 :: w2 :: f1 :: f2 :: rest) s) = after_read s) by (unfold after_read; by rewrite Hh).
  rewrite Ear. mrun Ec. rewrite (proj2 (Z.eqb_neq lfd (-1))) by lia. cbn [mbind outcome_bind]. rewrite (proj2 (Z.eqb_neq lfd (-1))) by lia. cbn [mbind outcome_bind negb].
  rewrite (write_text_ok t (txt "write" ++ [NL])); [|exact Hp1|apply (bool_decide_unpack _); vm_compute; exact I|reflexivity]. cbn [mbind outcome_bind]. fold s2. mrun Ew.
  destruct Hres as [(-> & Hfull & T1 & T2)|(-> & W1 & (i' & bs & W2 & W3) & [K1 K2 K3 K4] & W5)].
  - change (-1 =? -1) with true. cbn iota. assert (Hp3 : is_pipe stdout_no s3 = Ok false) by (rewrite <- Hp1; unfold is_pipe, fd_local2global; by rewrite T1, T2).
    rewrite (write_text_ok t (txt "file write error!" ++ [NL])); [|exact Hp3|apply (bool_decide_unpack _); vm_compute; exact I|reflexivity]. cbn [mbind outcome_bind].
    eexists false, _. split; [reflexivity|exact Hfull].
  - rewrite Hbl. change (file_size =? -1) with false. cbn [mbind outcome_bind]. eexists true, _. split; [reflexivity|]. split; [by apply wf_screen|]. split; [done|]. split.
    + exists i', bs, buf, x. split; [reflexivity|]. split; [done|]. split; [by apply file_rep_screen|done].
    + intros dir_e Hde. apply (R5 _ dir_e f1 f2 rest); try done.
Qed.

(** *** Witness: an empty root directory *)

Definition demo_boot_fs : fs :=
  set_heap [0xc0101000; 0xc0102000; 0xc0103000; 0xc0104000; 0xc0105000; 0xc0106000; 0xc0107000; 0xc0108000; 0xc0109000] demo_dir_fs.

Lemma demo_ready : ready (blank_disk 400 7) demo_boot_fs (Dir 0xc0200000 0 (replicate 512 0)) demo_dir_inode 3 3 0xc0105000 1 [0xc0108000; 0xc0109000].
Proof.
  split.
  - exists 0xc0101000, 0xc0102000, 0xc0103000, 0xc0104000, 0xc0106000, 0xc0107000. split; [reflexivity|]. split; [repeat constructor; discriminate|].
    apply (demo_can_create prog_name); [apply prog_plain|discriminate..].
  - split; [reflexivity|]. exists (File 0 0 0). split; [reflexivity|discriminate].
  - split; [apply blank_disk_wf; lia|]. apply blank_disk_sectors; vm_compute; discriminate.
  - split; [|split; [lia|reflexivity]]. split; [vm_compute; reflexivity|]. intros k Hk. assert (k = 0) as -> by lia. vm_compute. reflexivity.
Qed.

Lemma main_installs_witness :
  (∃ s1, open_prog (replicate 16 0) (replicate 24 0) (after_read demo_boot_fs) = Ok (-1, s1) ∧ bitmap_full s1) ∨
  ∃ ok s', main_install 0xc009e000 (replicate 16 0) (replicate 24 0) (blank_disk 400 7) demo_boot_fs = Ok (ok, 3, s') ∧
    if ok then fs_wf s' ∧ screen s' = prompt ∧
      (∃ i' bs prog x, disk_read (blank_disk 400 7) prog_lba (Z.to_nat sec_cnt) = Ok (prog ++ x) ∧ zlen prog = file_size ∧
         file_rep s' 0xc0105000 i' bs prog ∧ i_no i' = 1) ∧
      ∀ dir_e, length dir_e = 24%nat → search_dir_entry ROOT_DIR (prog_name ++ [0]) dir_e s' = Ok (Some (entry_bytes prog_name 1), set_heap [] s')
    else bitmap_full s'.
Proof.
  apply (main_installs 0xc009e000 (replicate 16 0) (replicate 24 0) (blank_disk 400 7) demo_boot_fs (Dir 0xc0200000 0 (replicate 512 0)) demo_dir_inode 3 3 0xc0105000 1 0xc0108000 0xc0109000 []).
  - apply length_replicate.
  - exact demo_ready.
  - discriminate.
  - discriminate.
Defined.
